(* ===== verification/_CoqProject ===== *)
-Q . S2P
Prelude.v
Tables.v
Command.v
Event.v
Externals.v
Ca.v
Db.v
ApplyCompute.v
ApplyTenancy.v
ApplyIdentity.v
ApplyStorage.v
Queries.v
Scheduler.v
State.v
RaftStore.v
Examples.v
StateFacts.v
StoreFacts.v
StateReach.v
StateInv.v
StateUnique.v
StateHistory.v
Onboarding.v
Tunnel.v
Auth.v
Packet.v
Ebpf.v
EbpfEgress.v
EbpfIngress.v
EbpfTunnel.v
Rpc.v
NetAddr.v
EbNet.v
EbNetFacts.v
Vmm.v
VmmFacts.v
VmmLife.v
Zfs.v
ZfsFacts.v
Reconciler.v
ReconcilerFacts.v
NodeDaemons.v
NodeExamples.v
Isolation.v
Rest.v
RestFacts.v
RestGaps.v
RestExamples.v
LogStore.v
LogFacts.v
NetRoute.v
NetSvc.v
NetSvcFacts.v
NetExamples.v
NetIovec.v
NetRx.v
NetRxFacts.v
NetRxExamples.v
NetWire.v
NetProto.v
NetProtoFacts.v
NetProtoExamples.v
NetReactor.v
NetReactorInv.v
NetReactorFacts.v
NetReactorWake.v
NetReactorExamples.v
