(* ===== verification/Prelude.v ===== *)
(** * Verification of mvirt

    mvirt is a virtualization platform. A control plane (mvirt-cplane), a small
    Raft cluster, holds the desired and observed state of everything: nodes,
    networks, VMs, volumes, tenants, accounts and the trust in nodes. Nodes dial
    in over a mutually authenticated tunnel, and daemons on them do the work:
    mvirt-vmm runs hypervisors, mvirt-zfs keeps disks, mvirt-ebpf keeps the
    network, whose packets two eBPF programs forward and filter in the kernel;
    mvirt-net is its user-space counterpart, in which one thread for each NIC (a
    reactor) moves packets between guests and a TUN device. A log service
    (mvirt-log) keeps what they report. This library models the control plane, the
    daemons, the packet programs and the log, and connects them.

    ** How the parts fit

    A caller is authenticated (auth.rs), a REST handler checks what they may do
    (rest/ui_handlers.rs), a store method (store/raft_store.rs)
    builds a command, Raft replicates it, and every replica applies it to its
    tables (state.rs). Placement of a VM asks the scheduler (scheduler.rs). A
    node is onboarded with a token, receives a certificate (ca.rs), and is
    admitted to the tunnel (tunnel.rs) by that certificate and its row. The
    controller (reconciler/) takes the events of the tables, calls the daemons
    of the node through the tunnel and writes back what it found.

    ** Files

    - Prelude: this file; record update, machine integers, strings, results.
    - Tables: theory of maps from ids to rows with references and counters.
    - Command, Event: command.rs and store/event.rs, field by field.
    - Externals: redb, the lru crate, Unicode text, bincode, as classes with the
      documented laws that are used, each with a model; the ambient inputs
      (clock, random serial) of one apply call.
    - Ca: ca.rs. [X509] is the interface to rcgen and x509_parser.
    - Db: the tables and transaction helpers of state.rs.
    - ApplyCompute, ApplyTenancy, ApplyIdentity, ApplyStorage: one definition
      [apply_<command>] for each arm of [ApiState::apply]. A handler returns an
      [Outcome]: [Early] when it answers without committing, [Commit] with the
      new tables, the response and the events.
    - Queries: the read accessors of [ApiState].
    - State: [run_command] dispatches; [api_apply] adds the idempotency cache;
      [api_snapshot] and [api_restore].
    - Scheduler, RaftStore: scheduler.rs and store/raft_store.rs. A write method
      is its command, the responses it accepts and the codes it translates.
    - Tunnel: tunnel.rs. The tasks of all connections interleave: a state is the
      replica, the registry and the open connections, and [tunnel_step] performs
      one labelled step of one task.
    - Auth: auth.rs, and the minting of keys of rest/ui_handlers.rs.
    - Packet: bytes, checked reads and writes of a frame, and [BpfKernel], the
      kernel helpers the programs call.
    - Ebpf, EbpfEgress, EbpfIngress: mvirt-ebpf/programs: shared types and rules,
      the program on the way out of a VM and the one on the way in. A read
      outside of a frame or an array is [None].
    - Rpc: fallible handlers with state, and a calculus of weakest preconditions
      for them, which the daemons share.
    - NetAddr, EbNet: mvirt-ebpf/src: addresses, validation and allocation; the
      tables, devices, routes and requests of the network service.
    - Vmm: mvirt-vmm/src: the rows of VMs, the hypervisor processes of the host,
      the requests, their spawned tasks, the watcher, recovery, and pods.
    - Zfs: mvirt-zfs/src: rows, pool and requests, and the import of images in
      steps between which other requests run. [Zpool] is the zfs command line.
    - Reconciler: reconciler/*.rs against the classes [VmClient], [ZfsClient] and
      [NetClient]; [ctl_step] is one turn of the controller loop.
    - NodeDaemons: the daemons of Vmm, Zfs and EbNet as instances of these classes
      and of the laws the theorems on the controller use.
    - Rest: rest/ui_handlers.rs, rest/handlers and rest/routes.rs. A handler is a
      fallible method on the replica; [RestCall] and [handle] are the routes that
      write, [serve] puts the middleware of Auth in front.
    - LogStore: mvirt-log/src: the tables and the index of the log service, its
      queries, and the batcher that stamps entries.
    - NetRoute: mvirt-net/src/routing.rs: prefix tables, routing decisions, and the
      manager that sends every change to the reactors; its replicas.
    - NetSvc: mvirt-net/src/grpc and router.rs: rows, validation, allocation, the
      requests, the router of each NIC with the commands its reactor was sent, the
      TUN routes, kernel routes, restarts.
    - NetIovec, NetRx: the routines of mvirt-net/src/reactor/mod.rs that take packets
      apart and put them into the RX queue of a guest. [GuestMemory] and [VirtQueue]
      are the interfaces to vm-memory and virtio-queue.
    - NetWire, NetProto: reactor/arp.rs, dhcp.rs, dhcpv6.rs, icmpv6.rs, and
      proto_handler.rs of mvirt-ebpf: the answers to ARP, ping, DHCP and neighbour
      discovery. [Wire] and [Dhcp] are the interfaces to smoltcp and dhcproto.
    - NetReactor: [Reactor::run] and what it calls, the registry and the pool of
      buffers. A reactor is a record of its local variables, channels and registry
      entry; [handle_cqe] handles one completion in a [World] of the running reactor
      and the others, [end_batch] ends a batch; [net_step] interleaves reactors,
      guests, the kernel and commands. [Rings] is the interface to io_uring.
    - Examples, NodeExamples, RestExamples, NetExamples, NetRxExamples,
      NetProtoExamples, NetReactorExamples: concrete logs, a cluster of one node and
      one of two organizations, runs of the network daemon, of its protocol handlers
      and of three reactors, at which the theorems are instantiated.

    ** Theorems

    - StateFacts: a rejected command changes nothing; retries are idempotent and
      answered from the cache; replay is deterministic but for two commands, and
      DeleteVm does diverge.
    - StateReach: what a snapshot brings back, and when it is lossless; the
      reachable states, by commands and snapshot installation.
    - StateInv, StateUnique: invariants of all reachable states: rows under
      their ids, references that exist, exact counters, unique names and
      identities.
    - StateHistory: what a command can change in the life of a NIC, a volume, a
      revocation, the CA; the effect of the deletions.
    - Onboarding: when a token is redeemed and with what result, the identity in
      the certificate, single use, decommissioning.
    - StoreFacts, Scheduler: no method meets a response it does not expect; a VM
      is placed on a node that fits it best.
    - Tunnel: the registry holds only running connections of the right node;
      events reach no further than a status; an issued certificate is admitted.
      Two theorems show faults: a late close evicts the newer connection, and a
      revoked node is admitted again after its connection ends.
    - Auth: exactly which keys are accepted, their life, the role hierarchy, and
      that logging in grants nothing but the one bootstrap role.
    - Ebpf, EbpfEgress, EbpfIngress, EbpfTunnel: the filter decides the meaning of
      a rule; both programs stay inside their buffers and always give a verdict;
      what is admitted has a rule behind it. Faults: rules do not apply on the way
      out, and a tunnelled packet loses its inner header.
    - NetAddr, EbNetFacts: allocation gives the least free address; requests one
      after the other keep the tables consistent, concurrent ones need not;
      teardown undoes setup.
    - VmmFacts: at most one process for a VM; stopping ends; an exit is reported;
      and the interleavings in which this fails. VmmLife: every run of the daemon is
      a run of a small life-cycle machine, with the same answers (a refinement).
    - ZfsFacts: every row has its dataset in every run; the format found while
      downloading is that of the file; faults of deletion, rollback and cancelling.
    - ReconcilerFacts: a VM gets to the state it is to have, within a stated number
      of events; reconciling a VM touches nothing else; where the controller waits
      for events that do not come, or polls without pause.
    - Isolation: a command that acts on a resource of one project leaves the rows of
      all others as they are, up to counters and attachments.
    - RestFacts: the guards decide an access table; accounts without a role over a
      project change nothing of it and gain no role over it, whatever they send;
      reads show only the caller's projects.
    - RestGaps: what the guards miss: memberships of any scope can be deleted, disks
      of other projects booted, a slug used again inherits the old project, and a
      killed or started VM loses its node.
    - LogFacts: a query through the index agrees with a scan; what was logged is
      found in every window around its time; applying a batch again changes nothing.
    - NodeDaemons: the daemons keep the laws; a NIC made by the one daemon is the
      one the other starts the hypervisor with; reports that get lost.

    - NetRoute, NetSvcFacts: replicas of the routing tables follow the manager;
      traffic of a NIC stays in its network, and NICs of a network reach each other.
      Faults: no IPv6 routes between private NICs, a deletion that cuts off another
      NIC of the same address.
    - NetIovec, NetRxFacts: a packet arrives in the guest's memory byte for byte, with
      its header adapted, and chains are not lost. Faults: an empty segment hangs the
      reactor, an empty first buffer makes it panic, MAC addresses written beside
      the frame, a lost last segment.
    - NetProtoFacts: IPv6 replies of both daemons have valid checksums and the right
      addressee, DHCP and DHCPv6 give the configured address, and both daemons answer
      ARP and pings alike.
    - NetReactorInv, NetReactorFacts, NetReactorWake: in every interleaving the
      descriptors of guests are conserved, what is lent to another reactor is owed and
      comes back, a buffer under way is not overwritten, and no wake-up is lost; the
      invariant is a ledger of multisets, kept by every handler.

    ** Bounds

    Counters are u32 with wrap-around; the theorems on them hold for logs of
    fewer than 2^32 commands, which is what keeps them from wrapping. The cache
    holds 1000 responses ([CACHE_CAPACITY]); theorems on retries name the room
    they need. All recursion is structural. The rule loop of the filter runs at
    most [max_iter] times, as in the source, where the verifier demands it; the
    wait for a process to exit looks ten times for each second of the timeout;
    the allocation loops walk the addresses of the source's ranges; the import
    loops walk the list of chunks that arrive. The copy into a guest's descriptor
    takes fuel, since the source's loop need not end: [guest_receives_frame] holds
    for more fuel than the longest descriptor, [empty_segment_hangs] for any. The
    loops over a virtqueue run as often as it has chains. The ids of the reactors
    are 64-bit counters; the theorems hold while they stay below 2^59, where the
    flags of the completions start ([young]).

    ** Not modelled

    Raft itself (a library): a write that succeeds is one application of its
    command. TLS, HTTP, JWT validation and RPC transport are inputs. Fresh ids and
    timestamps drawn before a command is submitted are parameters ([Fresh]).
    Timestamps are the strings the code compares. Generation of the CA and of
    server certificates, rotation of the server certificate and membership of the
    Raft group are calls of libraries. Kernel calls (netlink, TAP, attaching
    programs, spawning and signalling processes, the zfs command) have outcomes
    that the theorems range over. Of the REST API the JSON shapes, the audit log,
    log queries, the console and pool statistics are left out. In the reactors a
    completion is handled in one step, the bytes of a packet are those at the time
    it is sent, the registry is present, and pending_tx, which nothing fills, is left
    out; the vhost-user handshake and the TUN device are inputs. The node agent, the
    guest init, the log shipper and the user interfaces are not modelled: they are
    mostly file, network and process I/O. *)

From Stdlib Require Export Ascii.
From stdpp Require Export base gmap strings list fin_maps pretty sorting numbers.

(** * Record update

    The Rust sources update structs field by field ([new_nic.spec.vm_id = ..]).
    A record type declares its eta-expansion once (an instance of [Eta]); the
    setter of each field is then derived by [derive_setter] on demand, as the
    constructor applied to the projections, so that reading back any field of an
    updated record is a computation. *)

Class Eta (R : Type) := eta : R → R.
Class Setter {R T : Type} (proj : R → T) := set_field : (T → T) → R → R.
Arguments set_field {_ _} _ {_} _ _ /.

Ltac derive_setter :=
  lazymatch goal with
  | |- @Setter ?R ?T ?p =>
    let e := constr:(_ : Eta R) in
    let e' := eval hnf in e in
    refine (λ (f : T → T) (r : R),
      ltac:(let t := eval cbv beta in (e' r) in
            let t' := eval pattern (p r) in t in
            lazymatch t' with
            | ?g _ => let u := eval cbv beta in (g (f (p r))) in exact u
            end))
  end.
#[export] Hint Extern 1 (Setter _) => derive_setter : typeclass_instances.

Declare Scope mvirt_scope.
Delimit Scope mvirt_scope with mvirt.
Notation "r <| p := v |>" := (set_field p (λ _, v) r)
  (at level 1, left associativity, p at level 99, v at level 99,
   format "r <| p  :=  v |>") : mvirt_scope.
Open Scope mvirt_scope.

Notation "a == b" := (bool_decide (a = b)) (at level 70, no associativity) : mvirt_scope.

(** * Machine integers

    Unsigned integers are numbers of [N] kept below [2 ^ w]. The release
    profile of the workspace does not enable overflow checks, so [+= 1] wraps. *)

Abbreviation u8 := N (only parsing).
Abbreviation u16 := N (only parsing).
Abbreviation u32 := N (only parsing).
Abbreviation u64 := N (only parsing).

Definition wrap (w n : N) : N := (n `mod` 2 ^ w)%N.
Definition u32_add (a b : u32) : u32 := wrap 32 (a + b).
Definition u64_wrapping_add (a b : u64) : u64 := wrap 64 (a + b).
Definition u64_wrapping_mul (a b : u64) : u64 := wrap 64 (a * b).
(** [saturating_sub]: subtraction on [N] already stops at zero. *)
Definition saturating_sub (a b : u32) : u32 := (a - b)%N.

(** * Strings *)

Definition str_is_empty (s : string) : bool :=
  match s with EmptyString => true | _ => false end.

(** [str::strip_prefix]. *)
Fixpoint strip_prefix (p s : string) : option string :=
  match p, s with
  | EmptyString, _ => Some s
  | String a p', String b s' => if Ascii.eqb a b then strip_prefix p' s' else None
  | String _ _, EmptyString => None
  end.

Definition starts_with (p s : string) : bool :=
  match strip_prefix p s with Some _ => true | None => false end.

(** [str::split_once] on a single character. *)
Fixpoint split_once (c : ascii) (s : string) : option (string * string) :=
  match s with
  | EmptyString => None
  | String a s' =>
      if Ascii.eqb a c then Some ("", s')
      else match split_once c s' with
           | Some (k, v) => Some (String a k, v)
           | None => None
           end
  end.

(** [str::split] on a single character, collected. *)
Fixpoint str_split (c : ascii) (s : string) : list string :=
  match s with
  | EmptyString => [""]
  | String a s' =>
      if Ascii.eqb a c then "" :: str_split c s'
      else match str_split c s' with
           | w :: ws => String a w :: ws
           | [] => [String a ""]
           end
  end.

(** [as_bytes]. *)
Fixpoint str_bytes (s : string) : list u8 :=
  match s with
  | EmptyString => []
  | String a s' => N_of_ascii a :: str_bytes s'
  end.

(** [format!("{:02x}", b)] for a byte. *)
Definition hex_digit (n : N) : ascii :=
  ascii_of_N (if (n <? 10)%N then 48 + n else 87 + n).
Definition fmt_02x (b : u8) : string :=
  String (hex_digit (b `div` 16)) (String (hex_digit (b `mod` 16)) "").

(** Byte-wise lexicographic [>] of [&str]. *)
Definition str_gt (a b : string) : bool :=
  match String.compare a b with Gt => true | _ => false end.

(** * Options *)

(** [as_deref() == Some(x)]. *)
Definition is_some_of (o : option string) (x : string) : bool :=
  bool_decide (o = Some x).

Definition is_some {A} (o : option A) : bool :=
  match o with Some _ => true | None => false end.
Definition is_none {A} (o : option A) : bool := negb (is_some o).

(** * Results

    [Result<A, E>], with the [?] operator as a bind notation. *)

Inductive result (E A : Type) :=
  | Ok (a : A)
  | Err (e : E).
Arguments Ok {_ _} _.
Arguments Err {_ _} _.

Notation "'let?' x ':=' e 'in' k" :=
  (match e with Ok x => k | Err err => Err err end)
  (at level 10, x pattern, e at level 100, k at level 200,
   format "'let?'  x  ':='  e  'in' '//' k") : mvirt_scope.

(** [.ok_or(e)]. *)
Definition ok_or {E A} (e : E) (o : option A) : result E A :=
  match o with Some a => Ok a | None => Err e end.

(** [iter().map(f).collect::<Result<Vec<_>>>()]: the first error wins. *)
Fixpoint map_result {E A B} (f : A → result E B) (l : list A) : result E (list B) :=
  match l with
  | [] => Ok []
  | a :: l' => let? b := f a in let? bs := map_result f l' in Ok (b :: bs)
  end.

(** * Generic lemmas *)

(** ** Counting the rows of a table that satisfy a predicate *)

Definition map_count {V} (f : V → bool) (m : gmap string V) : nat :=
  size (filter (λ kv : string * V, f kv.2 = true) m).

Section count.
Context {V : Type} (f : V → bool).
Implicit Types (m : gmap string V) (k : string) (v : V).

Lemma map_count_empty : map_count f ∅ = 0.
Proof. unfold map_count. by rewrite map_filter_empty, map_size_empty. Qed.

Lemma map_count_insert_fresh m k v :
  m !! k = None →
  map_count f (<[k:=v]> m) = (if f v then 1 else 0) + map_count f m.
Proof.
  intros Hk. unfold map_count. rewrite map_filter_insert. cbn.
  case_decide as Hf.
  - rewrite Hf, map_size_insert_None; [done|].
    apply map_lookup_filter_None. auto.
  - destruct (f v); [done|]. by rewrite delete_id.
Qed.

Lemma map_count_delete m k v :
  m !! k = Some v →
  map_count f m = (if f v then 1 else 0) + map_count f (delete k m).
Proof.
  intros Hk. rewrite <- (insert_delete_id m k v Hk) at 1.
  apply map_count_insert_fresh, lookup_delete_eq.
Qed.

Lemma map_count_insert m k v w :
  m !! k = Some w → f v = f w → map_count f (<[k:=v]> m) = map_count f m.
Proof.
  intros Hk Hf. rewrite (map_count_delete m k w Hk), <- insert_delete_eq.
  rewrite map_count_insert_fresh, Hf; [done|apply lookup_delete_eq].
Qed.

Lemma map_count_pos m k v : m !! k = Some v → f v = true → 0 < map_count f m.
Proof. intros Hk Hf. rewrite (map_count_delete m k v Hk), Hf. lia. Qed.

Lemma map_count_0 m k v : map_count f m = 0 → m !! k = Some v → f v = false.
Proof.
  intros H0 Hk. destruct (f v) eqn:E; [|done].
  pose proof (map_count_pos m k v Hk E). lia.
Qed.

Lemma map_count_zero m : (∀ k v, m !! k = Some v → f v = false) → map_count f m = 0.
Proof.
  intros Hn. unfold map_count. apply map_size_empty_iff, map_empty. intros k.
  apply map_lookup_filter_None. right. intros v Hv. cbn. by rewrite (Hn k v Hv).
Qed.

Lemma map_count_ext (g : V → bool) m : (∀ v, f v = g v) → map_count f m = map_count g m.
Proof.
  intros Hfg. unfold map_count. f_equal. apply map_filter_ext. intros k v _. cbn.
  by rewrite Hfg.
Qed.

Lemma map_count_le_size m : map_count f m ≤ size m.
Proof. unfold map_count. apply map_subseteq_size, map_filter_subseteq. Qed.
End count.

(** ** Machine arithmetic *)

Lemma u32_add_small a b : (a + b < 2 ^ 32)%N → u32_add a b = (a + b)%N.
Proof. intros H. by apply N.mod_small. Qed.
Lemma u32_add_le a b : (u32_add a b ≤ a + b)%N.
Proof. apply N.Div0.mod_le. Qed.

(** A check of all numbers below a bound, by evaluation. *)
Lemma forall_below (f : N → bool) (n : nat) b :
  forallb (λ i, f (N.of_nat i)) (seq 0 n) = true → (b < N.of_nat n)%N → f b = true.
Proof.
  intros H Hb. rewrite forallb_forall in H. rewrite <- (N2Nat.id b). apply H.
  apply in_seq. lia.
Qed.

(** ** Loops *)

Lemma foldl_ext {A B} (f g : A → B → A) a a' l :
  (∀ x b, f x b = g x b) → a = a' → foldl f a l = foldl g a' l.
Proof. intros Hfg <-. revert a. induction l; intros; cbn; [done|]. by rewrite Hfg. Qed.

(** A property of the accumulator that every step keeps. *)
Lemma foldl_inv {A B} (P : A → Prop) (f : A → B → A) a l :
  P a → (∀ x b, b ∈ l → P x → P (f x b)) → P (foldl f a l).
Proof.
  revert a. induction l as [|b l IH]; intros a Ha Hf; cbn; [done|].
  apply IH; [|by intros; apply Hf; [right|]]. apply Hf; [left|done].
Qed.

(** ** Lists without duplicates *)

Lemma nodup_by_snoc {A} (f : A → string) l a x :
  NoDup (map f l) → f a = x → existsb (λ b, f b == x) l = false → NoDup (map f (l ++ [a])).
Proof.
  intros Hl <- Hn. rewrite map_app. apply list.NoDup_app. split_and!; [done| |apply NoDup_singleton].
  intros x Hx ->%list_elem_of_singleton. apply list_elem_of_fmap in Hx as (b & Hfb & Hb).
  apply list_elem_of_In in Hb.
  assert (existsb (λ b, f b == f a) l = true) as Ht; [|congruence].
  apply existsb_exists. exists b. split; [done|]. by apply bool_decide_eq_true.
Qed.

Lemma nodup_by_filter {A} (f : A → string) p l :
  NoDup (map f l) → NoDup (map f (List.filter p l)).
Proof.
  induction l as [|a l IH]; cbn; [done|]. intros [Ha Hl]%list.NoDup_cons.
  destruct (p a); [|auto]. cbn. apply list.NoDup_cons. split; [|auto].
  contradict Ha. apply list_elem_of_fmap in Ha as (b & -> & Hb).
  apply list_elem_of_In, filter_In in Hb as [Hb _].
  apply list_elem_of_fmap. exists b. split; [done|]. by apply list_elem_of_In.
Qed.

Lemma length_filter_perm {A} (f : A → bool) l k :
  l ≡ₚ k → length (List.filter f l) = length (List.filter f k).
Proof. induction 1; cbn; repeat case_match; cbn; congruence. Qed.
