(* ===== verification/Tables.v ===== *)
(** Generic theory of tables: finite maps from ids to rows that hold ids of other
    tables and counters of the rows that refer to them. *)

From S2P Require Import Prelude.

Create HintDb tables.

(** * Rows under their own id *)

(** A table whose rows are stored under their own id. *)
Definition keyed {V} (id : V → string) (t : gmap string V) : Prop :=
  map_Forall (λ k v, id v = k) t.

Section keyed.
Context {V : Type} (id : V → string).
Implicit Types t : gmap string V.

Lemma keyed_empty : keyed id ∅.
Proof. apply map_Forall_empty. Qed.
Lemma keyed_lookup t k v : keyed id t → t !! k = Some v → id v = k.
Proof. intros Ht Hk. exact (Ht k v Hk). Qed.
Lemma keyed_insert t k v : id v = k → keyed id t → keyed id (<[k:=v]> t).
Proof. intros Hv Ht. by apply map_Forall_insert_2. Qed.
Lemma keyed_update t k v v' :
  keyed id t → t !! k = Some v → id v' = id v → keyed id (<[k:=v']> t).
Proof. intros Ht Hk Hv. apply keyed_insert; [|done]. rewrite Hv. eauto using keyed_lookup. Qed.
Lemma keyed_delete t k : keyed id t → keyed id (delete k t).
Proof. apply map_Forall_delete. Qed.
Lemma keyed_foldl {A} (step : gmap string V → A → gmap string V) t l :
  (∀ t a, keyed id t → keyed id (step t a)) → keyed id t → keyed id (foldl step t l).
Proof. intros Hs. revert t. induction l; cbn; eauto. Qed.
End keyed.

#[export] Hint Resolve keyed_empty keyed_insert keyed_update keyed_delete : tables.

(** * Cascading deletes *)

Section cascade.
Context {V A : Type} (key : A → string).
Implicit Types (t : gmap string V) (l : list A).

Lemma foldl_delete_Some t l k v :
  foldl (λ t a, delete (key a) t) t l !! k = Some v ↔ t !! k = Some v ∧ k ∉ map key l.
Proof.
  revert t. induction l as [|a l IH]; intros t; cbn.
  - split; [|by intros []]. intros ?. split; [done|]. apply not_elem_of_nil.
  - rewrite IH, lookup_delete_Some, not_elem_of_cons. clear IH.
    split; intros; destruct_and?; split_and?; congruence.
Qed.

Lemma foldl_delete_size t l : size (foldl (λ t a, delete (key a) t) t l) ≤ size t.
Proof.
  apply (foldl_inv (λ t', size t' ≤ size t)); [done|]. intros t' a _ Ht.
  etransitivity; [|exact Ht]. apply map_subseteq_size, delete_subseteq.
Qed.

Lemma foldl_delete_count (f : V → bool) t l :
  (∀ a v, a ∈ l → t !! key a = Some v → f v = false) →
  map_count f (foldl (λ t a, delete (key a) t) t l) = map_count f t.
Proof.
  intros Hf. apply (foldl_inv (λ t', (∀ k v, t' !! k = Some v → t !! k = Some v) ∧
                                     map_count f t' = map_count f t)); [done|].
  intros t' a Ha [Hsub Hc]. split.
  - intros k v [_ Hk]%lookup_delete_Some. auto.
  - destruct (t' !! key a) as [v|] eqn:E; [|by rewrite delete_id].
    rewrite <- Hc, (map_count_delete f t' (key a) v E). by rewrite (Hf a v Ha (Hsub _ _ E)).
Qed.

Lemma foldl_delete_count_le (f : V → bool) t l :
  map_count f (foldl (λ t a, delete (key a) t) t l) ≤ map_count f t.
Proof.
  apply (foldl_inv (λ t', map_count f t' ≤ map_count f t)); [done|]. intros t' a _ Ht.
  destruct (t' !! key a) as [v|] eqn:E; [|by rewrite delete_id].
  pose proof (map_count_delete f t' (key a) v E). lia.
Qed.
End cascade.

Lemma size_insert_le {V} k v (t : gmap string V) : size (<[k:=v]> t) ≤ S (size t).
Proof. rewrite map_size_insert. destruct (t !! k); cbn; lia. Qed.
Lemma size_update {V} k v w (t : gmap string V) : t !! k = Some w → size (<[k:=v]> t) = size t.
Proof. intros Hk. by rewrite map_size_insert, Hk. Qed.
Lemma size_delete_le {V} k (t : gmap string V) : size (delete k t) ≤ size t.
Proof. apply map_subseteq_size, delete_subseteq. Qed.

(** * References

    Rows of [t] hold, in [ref], the id of a row of [u]; [Rel] is what the two
    rows agree on. *)

Definition refs {V W} (ref : V → option string) (Rel : V → W → Prop)
    (t : gmap string V) (u : gmap string W) : Prop :=
  ∀ k v x, t !! k = Some v → ref v = Some x → ∃ w, u !! x = Some w ∧ Rel v w.

Section refs.
Context {V W : Type} (ref : V → option string) (Rel : V → W → Prop).
Implicit Types (t : gmap string V) (u : gmap string W).

Lemma refs_empty u : refs ref Rel ∅ u.
Proof. intros k v x Hk. by rewrite lookup_empty in Hk. Qed.

Lemma refs_source_insert t u k v :
  refs ref Rel t u → (∀ x, ref v = Some x → ∃ w, u !! x = Some w ∧ Rel v w) →
  refs ref Rel (<[k:=v]> t) u.
Proof. intros H Hv k' v' x [[-> ->]|[_ Hk]]%lookup_insert_Some Hx; eauto. Qed.

Lemma refs_source_update t u k v v' :
  refs ref Rel t u → t !! k = Some v → ref v' = ref v → (∀ w, Rel v w → Rel v' w) →
  refs ref Rel (<[k:=v']> t) u.
Proof.
  intros H Hk Href HRel. apply refs_source_insert; [done|]. intros x Hx. rewrite Href in Hx.
  destruct (H _ _ _ Hk Hx) as (w & Hw & HR). eauto.
Qed.

Lemma refs_source_subset t t' u :
  refs ref Rel t u → (∀ k v, t' !! k = Some v → t !! k = Some v) → refs ref Rel t' u.
Proof. intros H Hsub k v x Hk. eauto. Qed.

Lemma refs_source_delete t u k : refs ref Rel t u → refs ref Rel (delete k t) u.
Proof. intros H. eapply refs_source_subset; [done|]. by intros ? ? [_ ?]%lookup_delete_Some. Qed.

Lemma refs_target_insert t u x w :
  refs ref Rel t u → (∀ v, Rel v w) → refs ref Rel t (<[x:=w]> u).
Proof.
  intros H HRel k v y Hk Hy. destruct (decide (x = y)) as [<-|Hne].
  - exists w. by rewrite lookup_insert_eq.
  - rewrite lookup_insert_ne by done. eauto.
Qed.

Lemma refs_target_fresh t u x w :
  refs ref Rel t u → u !! x = None → refs ref Rel t (<[x:=w]> u).
Proof.
  intros H Hx k v y Hk Hy. destruct (H _ _ _ Hk Hy) as (w' & Hw' & HR).
  exists w'. split; [|done]. rewrite lookup_insert_ne; [done|]. congruence.
Qed.

Lemma refs_target_update t u x w w' :
  refs ref Rel t u → u !! x = Some w → (∀ v, Rel v w → Rel v w') →
  refs ref Rel t (<[x:=w']> u).
Proof.
  intros H Hx HRel k v y Hk Hy. destruct (H _ _ _ Hk Hy) as (w0 & Hw0 & HR).
  destruct (decide (x = y)) as [<-|Hne].
  - exists w'. rewrite lookup_insert_eq. split; [done|]. apply HRel. congruence.
  - exists w0. by rewrite lookup_insert_ne.
Qed.

Lemma refs_target_delete t u x :
  refs ref Rel t u → (∀ k v, t !! k = Some v → ref v ≠ Some x) → refs ref Rel t (delete x u).
Proof.
  intros H Hno k v y Hk Hy. destruct (H _ _ _ Hk Hy) as (w & Hw & HR).
  exists w. split; [|done]. rewrite lookup_delete_ne; [done|]. intros ->. by eapply Hno.
Qed.

Lemma refs_is_Some t u k v x :
  refs ref Rel t u → t !! k = Some v → ref v = Some x → is_Some (u !! x).
Proof. intros H Hk Hx. destruct (H _ _ _ Hk Hx) as (w & Hw & _). eauto. Qed.

(** Cascade: the rows removed cover every row that refers to [x], which goes too. *)
Lemma refs_cascade {A} (key : A → string) (l : list A) t u x :
  refs ref Rel t u → (∀ k v, t !! k = Some v → ref v = Some x → k ∈ map key l) →
  refs ref Rel (foldl (λ t a, delete (key a) t) t l) (delete x u).
Proof.
  intros H Hcov. apply refs_target_delete.
  - eapply refs_source_subset; [done|]. by intros k v [Hk _]%foldl_delete_Some.
  - intros k v [Hk Hnot]%foldl_delete_Some Hv. eauto.
Qed.

Lemma refs_source_cascade {A} (key : A → string) (l : list A) t u :
  refs ref Rel t u → refs ref Rel (foldl (λ t a, delete (key a) t) t l) u.
Proof.
  intros H. eapply refs_source_subset; [done|]. by intros k v [Hk _]%foldl_delete_Some.
Qed.

Lemma refs_target_none t u k v x :
  refs ref Rel t u → u !! x = None → t !! k = Some v → ref v ≠ Some x.
Proof. intros H Hx Hk Hv. destruct (H _ _ _ Hk Hv) as (w & Hw & _). congruence. Qed.
End refs.
#[export] Hint Resolve refs_empty refs_source_insert refs_source_update refs_source_delete
  refs_target_insert refs_target_fresh refs_target_update : tables.

(** * Counters

    Every row of [u] stores in [cnt] the number of rows of [t] that refer to it,
    exactly ([rel] is equality) or as an upper bound ([rel] is [N.le]). *)

Class CounterRel (rel : N → N → Prop) := {
  counter_zero : rel 0%N 0%N;
  counter_up : ∀ a b, rel a b → rel (1 + a)%N (b + 1)%N;
  counter_down : ∀ a b, rel (1 + a)%N b → rel a (saturating_sub b 1);
}.
#[export] Instance counter_eq : CounterRel eq.
Proof. split; unfold saturating_sub; lia. Qed.
#[export] Instance counter_le : CounterRel N.le.
Proof. split; unfold saturating_sub; lia. Qed.

Definition refers {V} (ref : V → option string) (x : string) (v : V) : bool := ref v == Some x.
Definition counts {V W} (rel : N → N → Prop) (ref : V → option string) (cnt : W → N)
    (t : gmap string V) (u : gmap string W) : Prop :=
  ∀ x w, u !! x = Some w → rel (N.of_nat (map_count (refers ref x) t)) (cnt w).

Section counts.
Context {V W : Type} (rel : N → N → Prop) `{!CounterRel rel}.
Context (ref : V → option string) (cnt : W → N).
Implicit Types (t : gmap string V) (u : gmap string W).

Lemma refers_true x v : refers ref x v = true ↔ ref v = Some x.
Proof. apply bool_decide_eq_true. Qed.
Lemma refers_false x v : ref v ≠ Some x → refers ref x v = false.
Proof. intros Hv. unfold refers. by rewrite bool_decide_false. Qed.

Lemma counts_empty t : counts rel ref cnt t ∅.
Proof. intros x w Hx. by rewrite lookup_empty in Hx. Qed.

Lemma counts_source_update t u k v v' :
  counts rel ref cnt t u → t !! k = Some v → ref v' = ref v →
  counts rel ref cnt (<[k:=v']> t) u.
Proof.
  intros H Hk Hr x w Hx. rewrite (map_count_insert _ _ _ _ v Hk); [by apply H|].
  unfold refers. by rewrite Hr.
Qed.

Lemma counts_target_update t u x w w' :
  counts rel ref cnt t u → u !! x = Some w → cnt w' = cnt w →
  counts rel ref cnt t (<[x:=w']> u).
Proof.
  intros H Hx Hc y z [[<- <-]|[_ Hy]]%lookup_insert_Some; [rewrite Hc|]; by apply H.
Qed.

Lemma counts_target_fresh {Rel} t u x w :
  counts rel ref cnt t u → refs ref Rel t u → u !! x = None → cnt w = 0%N →
  counts rel ref cnt t (<[x:=w]> u).
Proof.
  intros H Hrefs Hx Hw y z [[<- <-]|[_ Hy]]%lookup_insert_Some; [|by apply H].
  rewrite Hw, map_count_zero; [apply counter_zero|]. intros k v Hk.
  apply refers_false. by eapply refs_target_none.
Qed.

Lemma counts_target_delete t u x :
  counts rel ref cnt t u → counts rel ref cnt t (delete x u).
Proof. intros H y w [_ Hy]%lookup_delete_Some. by apply H. Qed.

(** A new row that refers to [x], and the counter of [x] one higher. *)
Lemma counts_link t u k v x w w' :
  counts rel ref cnt t u → t !! k = None → ref v = Some x → u !! x = Some w →
  cnt w' = (cnt w + 1)%N → counts rel ref cnt (<[k:=v]> t) (<[x:=w']> u).
Proof.
  intros H Hk Hv Hx Hc y z Hy. rewrite map_count_insert_fresh by done. unfold refers at 1.
  rewrite Hv. apply lookup_insert_Some in Hy as [[<- <-]|[Hne Hy]].
  - rewrite bool_decide_true by done. rewrite Hc, Nat2N.inj_add. apply counter_up. by apply H.
  - rewrite bool_decide_false by congruence. by apply H.
Qed.

Lemma counts_nolink t u k v :
  counts rel ref cnt t u → t !! k = None → ref v = None → counts rel ref cnt (<[k:=v]> t) u.
Proof.
  intros H Hk Hv y z Hy. rewrite map_count_insert_fresh by done. unfold refers at 1.
  rewrite Hv, bool_decide_false by done. by apply H.
Qed.

(** A row that refers to [x] removed, and the counter of [x] one lower. *)
Lemma counts_unlink t u k v x w w' :
  counts rel ref cnt t u → t !! k = Some v → ref v = Some x → u !! x = Some w →
  cnt w' = saturating_sub (cnt w) 1 → counts rel ref cnt (delete k t) (<[x:=w']> u).
Proof.
  intros H Hk Hv Hx Hc y z [[<- <-]|[Hne Hy]]%lookup_insert_Some.
  - specialize (H _ _ Hx). rewrite (map_count_delete _ _ _ _ Hk) in H. unfold refers at 1 in H.
    rewrite Hv, bool_decide_true, Nat2N.inj_add in H by done. rewrite Hc. by apply counter_down.
  - specialize (H _ _ Hy). rewrite (map_count_delete _ _ _ _ Hk) in H. unfold refers at 1 in H.
    rewrite Hv, bool_decide_false in H by congruence. done.
Qed.

(** A row removed whose target, if any, is not in the table. *)
Lemma counts_unlink_none t u k v :
  counts rel ref cnt t u → t !! k = Some v → (∀ x, ref v = Some x → u !! x = None) →
  counts rel ref cnt (delete k t) u.
Proof.
  intros H Hk Hv y z Hy. specialize (H _ _ Hy). rewrite (map_count_delete _ _ _ _ Hk) in H.
  rewrite refers_false in H; [done|]. intros Hr. apply Hv in Hr. congruence.
Qed.

(** Rows removed together with the row [x] they refer to. *)
Lemma counts_cascade t t' u x :
  counts rel ref cnt t u →
  (∀ y w, u !! y = Some w → x ≠ y → map_count (refers ref y) t' = map_count (refers ref y) t) →
  counts rel ref cnt t' (delete x u).
Proof. intros H Ht y w [Hne Hy]%lookup_delete_Some. rewrite (Ht y w Hy Hne). by apply H. Qed.
End counts.

Section counts_bounds.
Context {V W : Type} (ref : V → option string) (cnt : W → N).
Implicit Types (t : gmap string V) (u : gmap string W).

Lemma counts_eq_le_size t u x w :
  counts eq ref cnt t u → u !! x = Some w → (cnt w ≤ N.of_nat (size t))%N.
Proof.
  intros H Hx. rewrite <- (H x w Hx). pose proof (map_count_le_size (refers ref x) t). lia.
Qed.

Lemma counts_le_weaken t t' u :
  counts N.le ref cnt t u →
  (∀ x, map_count (refers ref x) t' ≤ map_count (refers ref x) t) → counts N.le ref cnt t' u.
Proof. intros H Ht x w Hx. specialize (Ht x). specialize (H x w Hx). lia. Qed.
End counts_bounds.

#[export] Hint Resolve counts_empty counts_source_update counts_target_update
  counts_target_fresh counts_target_delete counts_link counts_nolink counts_unlink
  counts_unlink_none : tables.
#[export] Hint Extern 1 (CounterRel _) => apply _ : tables.

(** * Uniqueness

    At most one row has a given value of [key] (rows with no value are free). *)

Definition unique_by {V K} (key : V → option K) (t : gmap string V) : Prop :=
  ∀ i j v w x, t !! i = Some v → t !! j = Some w → key v = Some x → key w = Some x → i = j.

Section unique.
Context {V K : Type} (key : V → option K).
Implicit Types t : gmap string V.

Lemma unique_empty : unique_by key ∅.
Proof. intros i j v w x Hi. by rewrite lookup_empty in Hi. Qed.

Lemma unique_insert t k v :
  unique_by key t → (∀ j w x, t !! j = Some w → key v = Some x → key w = Some x → j = k) →
  unique_by key (<[k:=v]> t).
Proof.
  intros H Hnew i j a b x [[<- <-]|[Hi Ha]]%lookup_insert_Some
    [[<- <-]|[Hj Hb]]%lookup_insert_Some Hx Hy; [done| | |by eapply H].
  - symmetry. by eapply Hnew.
  - by eapply Hnew.
Qed.

Lemma unique_insert_none t k v : unique_by key t → key v = None → unique_by key (<[k:=v]> t).
Proof. intros H Hv. apply unique_insert; [done|]. congruence. Qed.

Lemma unique_update t k v v' :
  unique_by key t → t !! k = Some v → key v' = key v → unique_by key (<[k:=v']> t).
Proof.
  intros H Hk Hv. apply unique_insert; [done|]. rewrite Hv. intros j w x Hj Hx Hy.
  by eapply (H j k).
Qed.

Lemma unique_delete t k : unique_by key t → unique_by key (delete k t).
Proof.
  intros H i j v w x [_ Hi]%lookup_delete_Some [_ Hj]%lookup_delete_Some. by apply H.
Qed.
End unique.
#[export] Hint Resolve unique_empty unique_insert_none unique_update unique_delete : tables.

(** * Lists inside rows *)

Definition rows_nodup {V A} (items : V → list A) (t : gmap string V) : Prop :=
  map_Forall (λ _ v, NoDup (items v)) t.

Section rows_nodup.
Context {V A : Type} (items : V → list A).
Implicit Types t : gmap string V.

Lemma rows_nodup_empty : rows_nodup items ∅.
Proof. apply map_Forall_empty. Qed.
Lemma rows_nodup_insert t k v :
  rows_nodup items t → NoDup (items v) → rows_nodup items (<[k:=v]> t).
Proof. intros H Hv. by apply map_Forall_insert_2. Qed.
Lemma rows_nodup_lookup t k v : rows_nodup items t → t !! k = Some v → NoDup (items v).
Proof. intros H Hk. exact (H k v Hk). Qed.
Lemma rows_nodup_update t k v v' :
  rows_nodup items t → t !! k = Some v → items v' = items v → rows_nodup items (<[k:=v']> t).
Proof. intros H Hk Hv. apply rows_nodup_insert; [done|]. rewrite Hv. by eapply H. Qed.
Lemma rows_nodup_delete t k : rows_nodup items t → rows_nodup items (delete k t).
Proof. apply map_Forall_delete. Qed.
End rows_nodup.
#[export] Hint Resolve rows_nodup_empty rows_nodup_update rows_nodup_delete NoDup_nil_2 : tables.
