(* ===== verification/Command.v ===== *)
(** Data of the control plane: the rows stored by the replicated state machine,
    the commands replicated through Raft and the responses of applying them
    (mvirt-cplane/src/command.rs; [InternalCa] is from mvirt-cplane/src/ca.rs).

    Field names carry a prefix per struct (Rocq projections share one name
    space); everything else keeps the names of the source. [HashMap<String, _>]
    is [gmap string _], [Vec] is [list], unsigned integers are [N], the one
    [f64] field is kept as its IEEE 754 bit pattern. *)

From S2P Require Import Prelude.

(** * Nodes *)

Inductive NodeStatus :=
  | NodeOnline | NodeOffline | NodeUnknown | NodeOnboarding | NodeRevoked.
#[export] Instance NodeStatus_eq_dec : EqDecision NodeStatus.
Proof. solve_decision. Defined.

Inductive RevocationReason := Decommission | Compromise | OtherReason.
#[export] Instance RevocationReason_eq_dec : EqDecision RevocationReason.
Proof. solve_decision. Defined.

Record NodeResources := mkNodeResources {
  res_cpu_cores : u32;
  res_memory_mb : u64;
  res_storage_gb : u64;
  res_available_cpu_cores : u32;
  res_available_memory_mb : u64;
  res_available_storage_gb : u64;
}.
Definition NodeResources_default : NodeResources := mkNodeResources 0 0 0 0 0 0.

Record NodeData := mkNodeData {
  nd_id : string;
  nd_name : string;
  nd_address : string;
  nd_status : NodeStatus;
  nd_resources : NodeResources;
  nd_labels : gmap string string;
  nd_last_heartbeat : string;
  nd_created_at : string;
  nd_updated_at : string;
  nd_cluster_slug : option string;
  nd_cert_serial_hex : option string;
  nd_cert_expires_at : option string;
  nd_hostname : option string;
  nd_agent_version : option string;
}.
#[export] Instance eta_NodeData : Eta NodeData := λ r,
  mkNodeData (nd_id r) (nd_name r) (nd_address r) (nd_status r) (nd_resources r)
    (nd_labels r) (nd_last_heartbeat r) (nd_created_at r) (nd_updated_at r)
    (nd_cluster_slug r) (nd_cert_serial_hex r) (nd_cert_expires_at r)
    (nd_hostname r) (nd_agent_version r).

(** * Networks and NICs *)

Record NetworkData := mkNetworkData {
  nw_id : string;
  nw_project_slug : string;
  nw_name : string;
  nw_ipv4_enabled : bool;
  nw_ipv4_prefix : option string;
  nw_ipv6_enabled : bool;
  nw_ipv6_prefix : option string;
  nw_dns_servers : list string;
  nw_ntp_servers : list string;
  nw_is_public : bool;
  nw_nic_count : u32;
  nw_created_at : string;
  nw_updated_at : string;
}.
#[export] Instance eta_NetworkData : Eta NetworkData := λ r,
  mkNetworkData (nw_id r) (nw_project_slug r) (nw_name r) (nw_ipv4_enabled r)
    (nw_ipv4_prefix r) (nw_ipv6_enabled r) (nw_ipv6_prefix r) (nw_dns_servers r)
    (nw_ntp_servers r) (nw_is_public r) (nw_nic_count r) (nw_created_at r)
    (nw_updated_at r).

Inductive NicPhase := NicPending | NicActive | NicFailed.
#[export] Instance NicPhase_eq_dec : EqDecision NicPhase.
Proof. solve_decision. Defined.

Record NicStatus := mkNicStatus {
  nst_phase : NicPhase;
  nst_socket_path : string;
  nst_message : option string;
}.
#[export] Instance eta_NicStatus : Eta NicStatus := λ r,
  mkNicStatus (nst_phase r) (nst_socket_path r) (nst_message r).
Definition NicStatus_default : NicStatus := mkNicStatus NicPending "" None.

Record NicSpec := mkNicSpec {
  nsp_project_slug : string;
  nsp_name : option string;
  nsp_network_id : string;
  nsp_mac_address : string;
  nsp_ipv4_address : option string;
  nsp_ipv6_address : option string;
  nsp_routed_ipv4_prefixes : list string;
  nsp_routed_ipv6_prefixes : list string;
  nsp_security_group_id : option string;
  nsp_vm_id : option string;
}.
#[export] Instance eta_NicSpec : Eta NicSpec := λ r,
  mkNicSpec (nsp_project_slug r) (nsp_name r) (nsp_network_id r) (nsp_mac_address r)
    (nsp_ipv4_address r) (nsp_ipv6_address r) (nsp_routed_ipv4_prefixes r)
    (nsp_routed_ipv6_prefixes r) (nsp_security_group_id r) (nsp_vm_id r).

Record NicData := mkNicData {
  nic_id : string;
  nic_spec : NicSpec;
  nic_status : NicStatus;
  nic_created_at : string;
  nic_updated_at : string;
}.
#[export] Instance eta_NicData : Eta NicData := λ r,
  mkNicData (nic_id r) (nic_spec r) (nic_status r) (nic_created_at r) (nic_updated_at r).

(** * VMs *)

Inductive VmDesiredState := DesiredRunning | DesiredStopped.
#[export] Instance VmDesiredState_eq_dec : EqDecision VmDesiredState.
Proof. solve_decision. Defined.

Inductive VmPhase :=
  | VmPending | VmScheduled | VmCreating | VmRunning | VmStopping | VmStopped | VmFailed.
#[export] Instance VmPhase_eq_dec : EqDecision VmPhase.
Proof. solve_decision. Defined.

Record VmSpec := mkVmSpec {
  vsp_name : string;
  vsp_project_slug : string;
  vsp_node_selector : option string;
  vsp_cpu_cores : u32;
  vsp_memory_mb : u64;
  vsp_volume_id : string;
  vsp_nic_id : string;
  vsp_image : string;
  vsp_user_data : option string;
  vsp_desired_state : VmDesiredState;
}.
#[export] Instance eta_VmSpec : Eta VmSpec := λ r,
  mkVmSpec (vsp_name r) (vsp_project_slug r) (vsp_node_selector r) (vsp_cpu_cores r)
    (vsp_memory_mb r) (vsp_volume_id r) (vsp_nic_id r) (vsp_image r) (vsp_user_data r)
    (vsp_desired_state r).

Record VmStatus := mkVmStatus {
  vst_phase : VmPhase;
  vst_node_id : option string;
  vst_ip_address : option string;
  vst_message : option string;
}.
Definition VmStatus_default : VmStatus := mkVmStatus VmPending None None None.

Record VmData := mkVmData {
  vm_id : string;
  vm_spec : VmSpec;
  vm_status : VmStatus;
  vm_created_at : string;
  vm_updated_at : string;
}.
#[export] Instance eta_VmData : Eta VmData := λ r,
  mkVmData (vm_id r) (vm_spec r) (vm_status r) (vm_created_at r) (vm_updated_at r).

(** * Organizations, projects, clusters *)

Record OrgContact := mkOrgContact {
  oc_legal_name : option string;
  oc_street_address : option string;
  oc_postal_code : option string;
  oc_city : option string;
  oc_country : option string;
  oc_technical_contact_email : option string;
  oc_billing_contact_email : option string;
  oc_vat_id : option string;
}.

Record OrgData := mkOrgData {
  og_slug : string;
  og_name : string;
  og_contact : OrgContact;
  og_created_at : string;
  og_updated_at : string;
}.
#[export] Instance eta_OrgData : Eta OrgData := λ r,
  mkOrgData (og_slug r) (og_name r) (og_contact r) (og_created_at r) (og_updated_at r).

Record ProjectData := mkProjectData {
  pj_slug : string;
  pj_org_slug : string;
  pj_name : string;
  pj_description : option string;
  pj_created_at : string;
  pj_updated_at : string;
}.

Record ClusterData := mkClusterData {
  cl_slug : string;
  cl_org_slug : string;
  cl_name : string;
  cl_description : option string;
  cl_location : option string;
  cl_node_ids : list string;
  cl_created_at : string;
  cl_updated_at : string;
}.
#[export] Instance eta_ClusterData : Eta ClusterData := λ r,
  mkClusterData (cl_slug r) (cl_org_slug r) (cl_name r) (cl_description r)
    (cl_location r) (cl_node_ids r) (cl_created_at r) (cl_updated_at r).

(** * Node onboarding *)

Record InternalCa := mkInternalCa {
  ca_cert_pem : string;
  ca_key_pem : string;
  ca_created_at : string;
}.

Record OnboardingTokenData := mkOnboardingTokenData {
  ot_id : string;
  ot_token_hash_hex : string;
  ot_cluster_slug : string;
  ot_node_id : string;
  ot_hostname : string;
  ot_description : option string;
  ot_expires_at : string;
  ot_used_at : option string;
  ot_used_by_node_id : option string;
  ot_created_by_account : string;
  ot_created_at : string;
}.
#[export] Instance eta_OnboardingTokenData : Eta OnboardingTokenData := λ r,
  mkOnboardingTokenData (ot_id r) (ot_token_hash_hex r) (ot_cluster_slug r)
    (ot_node_id r) (ot_hostname r) (ot_description r) (ot_expires_at r) (ot_used_at r)
    (ot_used_by_node_id r) (ot_created_by_account r) (ot_created_at r).

Record RevokedCertData := mkRevokedCertData {
  rv_serial_hex : string;
  rv_node_id : string;
  rv_revoked_at : string;
  rv_reason : RevocationReason;
}.

Record ServerCertData := mkServerCertData {
  sc_cert_pem : string;
  sc_key_pem : string;
  sc_serial_hex : string;
  sc_not_after : string;
  sc_created_at : string;
}.

(** * Accounts, memberships, API keys *)

Inductive AccountKind := KindUser | KindServiceAccount.
#[export] Instance AccountKind_eq_dec : EqDecision AccountKind.
Proof. solve_decision. Defined.

Record AccountData := mkAccountData {
  ac_id : string;
  ac_kind : AccountKind;
  ac_external_iss : option string;
  ac_external_sub : option string;
  ac_email : option string;
  ac_display_name : option string;
  ac_project_slug : option string;
  ac_description : option string;
  ac_created_at : string;
  ac_updated_at : string;
}.
#[export] Instance eta_AccountData : Eta AccountData := λ r,
  mkAccountData (ac_id r) (ac_kind r) (ac_external_iss r) (ac_external_sub r)
    (ac_email r) (ac_display_name r) (ac_project_slug r) (ac_description r)
    (ac_created_at r) (ac_updated_at r).

Record ApiKeyData := mkApiKeyData {
  ak_id : string;
  ak_account_id : string;
  ak_hash_hex : string;
  ak_display_prefix : string;
  ak_description : option string;
  ak_expires_at : option string;
  ak_last_used_at : option string;
  ak_revoked_at : option string;
  ak_created_at : string;
  ak_created_by_account : string;
}.
#[export] Instance eta_ApiKeyData : Eta ApiKeyData := λ r,
  mkApiKeyData (ak_id r) (ak_account_id r) (ak_hash_hex r) (ak_display_prefix r)
    (ak_description r) (ak_expires_at r) (ak_last_used_at r) (ak_revoked_at r)
    (ak_created_at r) (ak_created_by_account r).

Inductive MembershipScope :=
  | ScopePlatform
  | ScopeOrg (org_slug : string)
  | ScopeProject (project_slug : string).
#[export] Instance MembershipScope_eq_dec : EqDecision MembershipScope.
Proof. solve_decision. Defined.

Inductive Role := PlatformAdmin | OrgAdmin | ProjectAdmin.
#[export] Instance Role_eq_dec : EqDecision Role.
Proof. solve_decision. Defined.

Record MembershipData := mkMembershipData {
  mb_id : string;
  mb_account_id : string;
  mb_scope : MembershipScope;
  mb_role : Role;
  mb_created_by_account : string;
  mb_created_at : string;
}.

(** * Storage *)

Inductive VolumePhase := VolPending | VolCreating | VolReady | VolFailed.
#[export] Instance VolumePhase_eq_dec : EqDecision VolumePhase.
Proof. solve_decision. Defined.

Record SnapshotData := mkSnapshotData {
  sn_id : string;
  sn_name : string;
  sn_created_at : string;
  sn_used_bytes : u64;
}.

Record VolumeSpec := mkVolumeSpec {
  vos_project_slug : string;
  vos_node_id : string;
  vos_name : string;
  vos_size_bytes : u64;
  vos_template_id : option string;
}.
#[export] Instance eta_VolumeSpec : Eta VolumeSpec := λ r,
  mkVolumeSpec (vos_project_slug r) (vos_node_id r) (vos_name r) (vos_size_bytes r)
    (vos_template_id r).

(** [compression_ratio: f64] as its bit pattern: [1.0] is [0x3FF0000000000000]. *)
Definition f64_one : N := 4607182418800017408.
Definition f64_zero : N := 0.

Record VolumeStatus := mkVolumeStatus {
  vot_phase : VolumePhase;
  vot_path : string;
  vot_used_bytes : u64;
  vot_compression_ratio : N;
  vot_snapshots : list SnapshotData;
  vot_error : option string;
}.
#[export] Instance eta_VolumeStatus : Eta VolumeStatus := λ r,
  mkVolumeStatus (vot_phase r) (vot_path r) (vot_used_bytes r) (vot_compression_ratio r)
    (vot_snapshots r) (vot_error r).
Definition VolumeStatus_default : VolumeStatus := mkVolumeStatus VolPending "" 0 f64_zero [] None.

Record VolumeData := mkVolumeData {
  vol_id : string;
  vol_spec : VolumeSpec;
  vol_status : VolumeStatus;
  vol_created_at : string;
  vol_updated_at : string;
}.
#[export] Instance eta_VolumeData : Eta VolumeData := λ r,
  mkVolumeData (vol_id r) (vol_spec r) (vol_status r) (vol_created_at r) (vol_updated_at r).

Inductive TemplatePhase := TplPending | TplImporting | TplReady | TplFailed.
#[export] Instance TemplatePhase_eq_dec : EqDecision TemplatePhase.
Proof. solve_decision. Defined.

Record TemplateSpec := mkTemplateSpec {
  tsp_project_slug : string;
  tsp_node_id : string;
  tsp_name : string;
  tsp_source_url : option string;
}.

Record TemplateStatus := mkTemplateStatus {
  tst_phase : TemplatePhase;
  tst_size_bytes : u64;
  tst_bytes_written : u64;
  tst_total_bytes : u64;
  tst_clone_count : u32;
  tst_error : option string;
}.
#[export] Instance eta_TemplateStatus : Eta TemplateStatus := λ r,
  mkTemplateStatus (tst_phase r) (tst_size_bytes r) (tst_bytes_written r)
    (tst_total_bytes r) (tst_clone_count r) (tst_error r).

Record TemplateData := mkTemplateData {
  tpl_id : string;
  tpl_spec : TemplateSpec;
  tpl_status : TemplateStatus;
  tpl_created_at : string;
  tpl_updated_at : string;
}.
#[export] Instance eta_TemplateData : Eta TemplateData := λ r,
  mkTemplateData (tpl_id r) (tpl_spec r) (tpl_status r) (tpl_created_at r)
    (tpl_updated_at r).

(** * Security groups *)

Inductive RuleDirection := Inbound | Outbound.
#[export] Instance RuleDirection_eq_dec : EqDecision RuleDirection.
Proof. solve_decision. Defined.

Record SecurityGroupRuleData := mkSecurityGroupRuleData {
  sgr_id : string;
  sgr_direction : RuleDirection;
  sgr_protocol : option string;
  sgr_port_range_start : option u16;
  sgr_port_range_end : option u16;
  sgr_cidr : option string;
  sgr_description : option string;
  sgr_created_at : string;
}.
#[export] Instance eta_SecurityGroupRuleData : Eta SecurityGroupRuleData := λ r,
  mkSecurityGroupRuleData (sgr_id r) (sgr_direction r) (sgr_protocol r)
    (sgr_port_range_start r) (sgr_port_range_end r) (sgr_cidr r) (sgr_description r)
    (sgr_created_at r).

Record SecurityGroupData := mkSecurityGroupData {
  sg_id : string;
  sg_project_slug : string;
  sg_name : string;
  sg_description : option string;
  sg_rules : list SecurityGroupRuleData;
  sg_nic_count : u32;
  sg_created_at : string;
  sg_updated_at : string;
}.
#[export] Instance eta_SecurityGroupData : Eta SecurityGroupData := λ r,
  mkSecurityGroupData (sg_id r) (sg_project_slug r) (sg_name r) (sg_description r)
    (sg_rules r) (sg_nic_count r) (sg_created_at r) (sg_updated_at r).

(** * Commands *)

Inductive Command :=
  | RegisterNode (request_id id timestamp name address : string)
      (resources : NodeResources) (labels : gmap string string)
  | UpdateNodeStatus (request_id node_id timestamp : string) (status : NodeStatus)
      (resources : option NodeResources)
  | DeregisterNode (request_id node_id : string)
  | CreateNetwork (request_id id timestamp project_slug name : string)
      (ipv4_enabled : bool) (ipv4_prefix : option string)
      (ipv6_enabled : bool) (ipv6_prefix : option string)
      (dns_servers ntp_servers : list string) (is_public : bool)
  | UpdateNetwork (request_id id timestamp : string) (dns_servers ntp_servers : list string)
  | DeleteNetwork (request_id id : string) (force : bool)
  | CreateNic (request_id id timestamp project_slug network_id : string)
      (name mac_address ipv4_address ipv6_address : option string)
      (routed_ipv4_prefixes routed_ipv6_prefixes : list string)
      (security_group_id : option string)
  | UpdateNic (request_id id timestamp : string)
      (routed_ipv4_prefixes routed_ipv6_prefixes : list string)
  | DeleteNic (request_id id : string)
  | AttachNic (request_id id timestamp vm_id : string)
  | DetachNic (request_id id timestamp : string)
  | UpdateNicStatus (request_id id timestamp : string) (phase : NicPhase)
      (socket_path : string) (message : option string)
  | CreateVm (request_id id timestamp : string) (spec : VmSpec)
  | UpdateVmSpec (request_id id timestamp : string) (desired_state : VmDesiredState)
  | UpdateVmStatus (request_id id timestamp : string) (status : VmStatus)
  | DeleteVm (request_id id : string)
  | CreateOrg (request_id timestamp slug name : string) (contact : OrgContact)
  | UpdateOrg (request_id slug timestamp : string) (name : option string)
      (contact : option OrgContact)
  | DeleteOrg (request_id slug : string)
  | CreateProject (request_id timestamp org_slug slug name : string)
      (description : option string)
  | DeleteProject (request_id slug : string)
  | EnsureInternalCa (request_id timestamp : string) (ca : InternalCa)
  | UpdateServerCert (request_id timestamp cert_pem key_pem serial_hex not_after : string)
  | CreateOnboardingToken (request_id timestamp id token_hash_hex cluster_slug node_id
      hostname : string) (description : option string) (expires_at created_by_account : string)
  | DeleteOnboardingToken (request_id cluster_slug id : string)
  | RedeemOnboardingToken (request_id timestamp token_hash_hex csr_pem hostname
      agent_version kernel_version arch : string)
  | RevokeNodeCert (request_id timestamp node_id : string) (reason : RevocationReason)
  | CreateAccountByEmail (request_id timestamp id email : string)
      (display_name : option string)
  | EnsureAccountFromOidc (request_id timestamp new_id iss sub : string)
      (email display_name : option string)
  | CreateMembership (request_id timestamp id account_id : string)
      (scope : MembershipScope) (role : Role) (created_by_account : string)
  | DeleteMembership (request_id id : string)
  | BootstrapInitialPlatformAdmin (request_id timestamp id account_id : string)
  | CreateServiceAccount (request_id timestamp account_id membership_id project_slug
      name : string) (description : option string) (created_by_account : string)
  | DeleteServiceAccount (request_id timestamp account_id : string)
  | CreateStaticApiKey (request_id timestamp id account_id hash_hex display_prefix : string)
      (description expires_at : option string) (created_by_account : string)
  | RevokeStaticApiKey (request_id timestamp id : string)
  | CreateCluster (request_id timestamp org_slug slug name : string)
      (description location : option string)
  | UpdateCluster (request_id slug timestamp : string) (name : option string)
      (description location : option (option string))
  | DeleteCluster (request_id slug : string)
  | AddNodeToCluster (request_id timestamp cluster_slug node_id : string)
  | RemoveNodeFromCluster (request_id timestamp cluster_slug node_id : string)
  | CreateVolume (request_id id timestamp project_slug node_id name : string)
      (size_bytes : u64) (template_id : option string)
  | DeleteVolume (request_id id : string)
  | UpdateVolumeStatus (request_id id timestamp : string) (phase : VolumePhase)
      (path : option string) (used_bytes : u64) (error : option string)
  | ResizeVolume (request_id id timestamp : string) (size_bytes : u64)
  | CreateSnapshot (request_id id timestamp volume_id name : string)
  | CreateTemplate (request_id id timestamp project_slug node_id name : string)
      (size_bytes : u64) (source_url : option string) (total_bytes : u64)
  | UpdateTemplateStatus (request_id id timestamp : string) (phase : TemplatePhase)
      (bytes_written size_bytes : u64) (error : option string)
  | CreateSecurityGroup (request_id id timestamp project_slug name : string)
      (description : option string)
  | UpdateSecurityGroup (request_id timestamp id : string) (name : option string)
      (description : option (option string))
  | DeleteSecurityGroup (request_id id : string)
  | CreateSecurityGroupRule (request_id id timestamp security_group_id : string)
      (direction : RuleDirection) (protocol : option string)
      (port_range_start port_range_end : option u16) (cidr description : option string)
  | DeleteSecurityGroupRule (request_id security_group_id rule_id : string)
  | UpdateSecurityGroupRule (request_id timestamp security_group_id rule_id : string)
      (description : option (option string)).

(** [Command::request_id]. *)
Definition cmd_request_id (cmd : Command) : string :=
  match cmd with
  | RegisterNode request_id _ _ _ _ _ _ => request_id
  | UpdateNodeStatus request_id _ _ _ _ => request_id
  | DeregisterNode request_id _ => request_id
  | CreateNetwork request_id _ _ _ _ _ _ _ _ _ _ _ => request_id
  | UpdateNetwork request_id _ _ _ _ => request_id
  | DeleteNetwork request_id _ _ => request_id
  | CreateNic request_id _ _ _ _ _ _ _ _ _ _ _ => request_id
  | UpdateNic request_id _ _ _ _ => request_id
  | DeleteNic request_id _ => request_id
  | AttachNic request_id _ _ _ => request_id
  | DetachNic request_id _ _ => request_id
  | UpdateNicStatus request_id _ _ _ _ _ => request_id
  | CreateVm request_id _ _ _ => request_id
  | UpdateVmSpec request_id _ _ _ => request_id
  | UpdateVmStatus request_id _ _ _ => request_id
  | DeleteVm request_id _ => request_id
  | CreateOrg request_id _ _ _ _ => request_id
  | UpdateOrg request_id _ _ _ _ => request_id
  | DeleteOrg request_id _ => request_id
  | CreateProject request_id _ _ _ _ _ => request_id
  | DeleteProject request_id _ => request_id
  | EnsureInternalCa request_id _ _ => request_id
  | UpdateServerCert request_id _ _ _ _ _ => request_id
  | CreateOnboardingToken request_id _ _ _ _ _ _ _ _ _ => request_id
  | DeleteOnboardingToken request_id _ _ => request_id
  | RedeemOnboardingToken request_id _ _ _ _ _ _ _ => request_id
  | RevokeNodeCert request_id _ _ _ => request_id
  | CreateAccountByEmail request_id _ _ _ _ => request_id
  | EnsureAccountFromOidc request_id _ _ _ _ _ _ => request_id
  | CreateMembership request_id _ _ _ _ _ _ => request_id
  | DeleteMembership request_id _ => request_id
  | BootstrapInitialPlatformAdmin request_id _ _ _ => request_id
  | CreateServiceAccount request_id _ _ _ _ _ _ _ => request_id
  | DeleteServiceAccount request_id _ _ => request_id
  | CreateStaticApiKey request_id _ _ _ _ _ _ _ _ => request_id
  | RevokeStaticApiKey request_id _ _ => request_id
  | CreateCluster request_id _ _ _ _ _ _ => request_id
  | UpdateCluster request_id _ _ _ _ _ => request_id
  | DeleteCluster request_id _ => request_id
  | AddNodeToCluster request_id _ _ _ => request_id
  | RemoveNodeFromCluster request_id _ _ _ => request_id
  | CreateVolume request_id _ _ _ _ _ _ _ => request_id
  | DeleteVolume request_id _ => request_id
  | UpdateVolumeStatus request_id _ _ _ _ _ _ => request_id
  | ResizeVolume request_id _ _ _ => request_id
  | CreateSnapshot request_id _ _ _ _ => request_id
  | CreateTemplate request_id _ _ _ _ _ _ _ _ => request_id
  | UpdateTemplateStatus request_id _ _ _ _ _ _ => request_id
  | CreateSecurityGroup request_id _ _ _ _ _ => request_id
  | UpdateSecurityGroup request_id _ _ _ _ => request_id
  | DeleteSecurityGroup request_id _ => request_id
  | CreateSecurityGroupRule request_id _ _ _ _ _ _ _ _ _ => request_id
  | DeleteSecurityGroupRule request_id _ _ => request_id
  | UpdateSecurityGroupRule request_id _ _ _ _ => request_id
  end.

(** * Responses *)

Inductive Response :=
  | RespNode (node : NodeData)
  | RespNetwork (network : NetworkData)
  | RespNic (nic : NicData)
  | RespVm (vm : VmData)
  | RespOrg (org : OrgData)
  | RespProject (project : ProjectData)
  | RespCluster (cluster : ClusterData)
  | RespOnboardingToken (token : OnboardingTokenData)
  | RespAccount (account : AccountData)
  | RespMembership (membership : MembershipData)
  | RespApiKey (key : ApiKeyData)
  | RespBootstrapResult (node : NodeData) (client_cert_pem ca_cert_pem : string)
  | RespAck
  | RespVolume (volume : VolumeData)
  | RespTemplate (template : TemplateData)
  | RespSecurityGroup (sg : SecurityGroupData)
  | RespDeleted (id : string)
  | RespDeletedWithCount (id : string) (nics_deleted : u32)
  | RespError (code : u32) (message : string).

Definition Response_default : Response := RespError 0 "No response".

Definition resp_is_error (r : Response) : bool :=
  match r with RespError _ _ => true | _ => false end.
