(* ===== verification/Event.v ===== *)
(** Events broadcast by the leader after a command is applied
    (mvirt-cplane/src/store/event.rs). *)

From S2P Require Import Prelude Command.

Inductive Event :=
  | NodeRegistered (node : NodeData)
  | NodeUpdated (id : string) (old new : NodeData)
  | NodeDeregistered (id : string)
  | NetworkCreated (network : NetworkData)
  | NetworkUpdated (id : string) (old new : NetworkData)
  | NetworkDeleted (id : string)
  | NicCreated (nic : NicData)
  | NicUpdated (id : string) (old new : NicData)
  | NicDeleted (id network_id : string)
  | VmCreated (vm : VmData)
  | VmUpdated (id : string) (old new : VmData)
  | VmStatusUpdated (id : string) (old new : VmData)
  | VmDeleted (id : string)
  | VolumeCreated (volume : VolumeData)
  | VolumeStatusUpdated (id : string) (old new : VolumeData)
  | VolumeDeleted (id node_id : string)
  | TemplateCreated (template : TemplateData)
  | TemplateUpdated (id : string) (old new : TemplateData)
  | SecurityGroupCreated (id : string)
  | SecurityGroupDeleted (id : string).

Definition event_resource_type (e : Event) : string :=
  match e with
  | NodeRegistered _ | NodeUpdated _ _ _ | NodeDeregistered _ => "node"
  | NetworkCreated _ | NetworkUpdated _ _ _ | NetworkDeleted _ => "network"
  | NicCreated _ | NicUpdated _ _ _ | NicDeleted _ _ => "nic"
  | VmCreated _ | VmUpdated _ _ _ | VmStatusUpdated _ _ _ | VmDeleted _ => "vm"
  | VolumeCreated _ | VolumeStatusUpdated _ _ _ | VolumeDeleted _ _ => "volume"
  | TemplateCreated _ | TemplateUpdated _ _ _ => "template"
  | SecurityGroupCreated _ | SecurityGroupDeleted _ => "security_group"
  end.

Definition event_resource_id (e : Event) : string :=
  match e with
  | NodeRegistered n => nd_id n
  | NodeUpdated id _ _ => id
  | NodeDeregistered id => id
  | NetworkCreated n => nw_id n
  | NetworkUpdated id _ _ => id
  | NetworkDeleted id => id
  | NicCreated n => nic_id n
  | NicUpdated id _ _ => id
  | NicDeleted id _ => id
  | VmCreated v => vm_id v
  | VmUpdated id _ _ => id
  | VmStatusUpdated id _ _ => id
  | VmDeleted id => id
  | VolumeCreated v => vol_id v
  | VolumeStatusUpdated id _ _ => id
  | VolumeDeleted id _ => id
  | TemplateCreated t => tpl_id t
  | TemplateUpdated id _ _ => id
  | SecurityGroupCreated id | SecurityGroupDeleted id => id
  end.
