(* ===== verification/Externals.v ===== *)
(** What the control plane uses of code that is not in the repository.

    Each third-party crate is an interface: a class with the operations the
    sources call and, as laws, the documented behaviour they rely on. The
    components are written and verified against these interfaces. The last
    section gives one model of each interface, which shows that the laws are
    satisfiable and lets concrete runs be evaluated. *)

From S2P Require Import Prelude.

(** * redb

    A table [&str -> V] is a finite map; [iter] visits every row once, in
    ascending key order. A write transaction that is dropped without [commit]
    has no effect: the model of a handler returns the new tables only on its
    committing paths. *)
Class Redb := {
  redb_iter : ∀ {V : Type}, gmap string V → list (string * V);
  redb_iter_perm : ∀ {V} (t : gmap string V), redb_iter t ≡ₚ map_to_list t;
  redb_iter_sorted : ∀ {V} (t : gmap string V), StronglySorted String.le (redb_iter t).*1;
}.

(** * lru

    A bounded cache: [put] makes the entry present, may evict an entry only when
    the cache is full, and never invents or changes another entry; [peek] does
    not touch the recency order. *)
Class LruCache := {
  lru : Type → Type;
  lru_new : ∀ {V : Type}, N → lru V;
  lru_cap : ∀ {V : Type}, lru V → N;
  lru_len : ∀ {V : Type}, lru V → N;
  lru_peek : ∀ {V : Type}, lru V → string → option V;
  lru_put : ∀ {V : Type}, string → V → lru V → lru V;
  lru_cap_new : ∀ {V} c, lru_cap (lru_new (V:=V) c) = c;
  lru_cap_put : ∀ {V} k (v : V) c, lru_cap (lru_put k v c) = lru_cap c;
  lru_len_new : ∀ {V} c, lru_len (lru_new (V:=V) c) = 0%N;
  lru_len_put : ∀ {V} k (v : V) c, (lru_len (lru_put k v c) ≤ lru_len c + 1)%N;
  lru_peek_new : ∀ {V} c k, lru_peek (lru_new (V:=V) c) k = None;
  lru_peek_put_eq : ∀ {V} k (v : V) c,
    (0 < lru_cap c)%N → lru_peek (lru_put k v c) k = Some v;
  lru_peek_put_ne : ∀ {V} k k' (v : V) c,
    k ≠ k' → lru_peek (lru_put k v c) k' = lru_peek c k' ∨ lru_peek (lru_put k v c) k' = None;
  lru_peek_put_room : ∀ {V} k k' (v : V) c,
    k ≠ k' → (lru_len c < lru_cap c)%N → lru_peek (lru_put k v c) k' = lru_peek c k';
}.

(** * Unicode text

    [str::trim] and [str::to_lowercase] use the Unicode tables. Only their
    restriction to ASCII text is fixed here. *)
Definition ascii_is_space (a : ascii) : bool :=
  let n := N_of_ascii a in ((n =? 32) || ((9 <=? n) && (n <=? 13)))%N.
Definition ascii_is_ascii (a : ascii) : bool := (N_of_ascii a <? 128)%N.
Definition ascii_lower (a : ascii) : ascii :=
  let n := N_of_ascii a in
  if ((65 <=? n) && (n <=? 90))%N then ascii_of_N (n + 32) else a.

Fixpoint str_forall (f : ascii → bool) (s : string) : bool :=
  match s with EmptyString => true | String a s' => f a && str_forall f s' end.
Fixpoint str_map (f : ascii → ascii) (s : string) : string :=
  match s with EmptyString => "" | String a s' => String (f a) (str_map f s') end.
Fixpoint ascii_trim_start (s : string) : string :=
  match s with
  | EmptyString => ""
  | String a s' => if ascii_is_space a then ascii_trim_start s' else s
  end.
Fixpoint ascii_trim_end (s : string) : string :=
  match s with
  | EmptyString => ""
  | String a s' =>
      let t := ascii_trim_end s' in
      if ascii_is_space a && str_is_empty t then "" else String a t
  end.
Definition ascii_trim (s : string) : string := ascii_trim_end (ascii_trim_start s).

Class UnicodeText := {
  str_trim : string → string;
  str_to_lowercase : string → string;
  str_trim_ascii : ∀ s, str_forall ascii_is_ascii s = true → str_trim s = ascii_trim s;
  str_to_lowercase_ascii : ∀ s,
    str_forall ascii_is_ascii s = true → str_to_lowercase s = str_map ascii_lower s;
}.

(** * bincode

    [serialize] and [deserialize] of one type of value. The control plane hands
    the encoded [Vec<u8>] on without looking inside, so its type is abstract. *)
Class Bincode (A : Type) := {
  bincode_bytes : Type;
  bincode_serialize : A → bincode_bytes;
  bincode_deserialize : bincode_bytes → option A;
  bincode_roundtrip : ∀ a, bincode_deserialize (bincode_serialize a) = Some a;
}.

(** * Ambient inputs of one [apply] call

    Values the handlers read from the process instead of from the command: the
    clock ([chrono::Utc::now], [OffsetDateTime::now_utc] in seconds) and the
    random serial drawn by [new_serial]. *)
Record Ambient := mkAmbient {
  amb_utc_now : string;
  amb_now : Z;
  amb_serial : list u8;
}.

(** * Models of the interfaces *)

Module Models.

Definition redb_model_iter {V} (t : gmap string V) : list (string * V) :=
  merge_sort (λ a b : string * V, String.le a.1 b.1) (map_to_list t).

Lemma redb_model_sorted {V} (t : gmap string V) :
  StronglySorted String.le (redb_model_iter t).*1.
Proof.
  unfold redb_model_iter. set (R := λ a b : string * V, String.le a.1 b.1).
  assert (HS : StronglySorted R (merge_sort R (map_to_list t))).
  { apply StronglySorted_merge_sort.
    - intros x y z. unfold R. apply transitivity.
    - intros x y. unfold R. apply (total String.le). }
  induction HS as [|x l _ IH Hx]; cbn; constructor; [done|].
  apply Forall_fmap. by eapply Forall_impl; [|exact Hx].
Qed.

#[export] Instance redb_model : Redb.
Proof.
  refine {| redb_iter := @redb_model_iter |}; intros.
  - apply merge_sort_Permutation.
  - apply redb_model_sorted.
Defined.

(** Entries from most to least recently used. *)
Record lru_list (V : Type) := mkLru { ll_cap : N; ll_entries : list (string * V) }.
Arguments mkLru {_} _ _.
Arguments ll_cap {_} _.
Arguments ll_entries {_} _.

Fixpoint assoc {V} (k : string) (l : list (string * V)) : option V :=
  match l with
  | [] => None
  | (k', v) :: l' => if decide (k = k') then Some v else assoc k l'
  end.
Fixpoint assoc_remove {V} (k : string) (l : list (string * V)) : list (string * V) :=
  match l with
  | [] => []
  | (k', v) :: l' => if decide (k = k') then l' else (k', v) :: assoc_remove k l'
  end.
Definition lru_list_put {V} (k : string) (v : V) (c : lru_list V) : lru_list V :=
  mkLru (ll_cap c) (take (N.to_nat (ll_cap c)) ((k, v) :: assoc_remove k (ll_entries c))).

Lemma assoc_remove_ne {V} k k' (l : list (string * V)) :
  k ≠ k' → assoc k' (assoc_remove k l) = assoc k' l.
Proof.
  intros Hne. induction l as [|[j w] l IH]; cbn; [done|].
  repeat case_decide; subst; cbn; repeat case_decide; congruence.
Qed.

Lemma assoc_remove_length {V} k (l : list (string * V)) :
  length (assoc_remove k l) ≤ length l.
Proof. induction l as [|[j w] l IH]; cbn; [done|]. case_decide; cbn; lia. Qed.

Lemma assoc_take {V} n k (l : list (string * V)) :
  assoc k (take n l) = assoc k l ∨ assoc k (take n l) = None.
Proof.
  revert n. induction l as [|[j w] l IH]; intros [|n]; cbn; auto.
  case_decide; auto.
Qed.

#[export] Instance lru_model : LruCache.
Proof.
  refine {|
    lru := lru_list;
    lru_new := λ V c, mkLru c [];
    lru_cap := @ll_cap;
    lru_len := λ V c, N.of_nat (length (ll_entries c));
    lru_peek := λ V c k, assoc k (ll_entries c);
    lru_put := @lru_list_put |}; unfold lru_list_put; cbn; try done.
  - intros V k v c. rewrite length_take. cbn.
    pose proof (assoc_remove_length k (ll_entries c)). lia.
  - intros V k v [cap l] Hc. cbn in *.
    destruct (N.to_nat cap) eqn:E; [lia|]. cbn. by case_decide.
  - intros V k k' v [cap l] Hne. cbn.
    destruct (N.to_nat cap) as [|n]; cbn; [auto|]. case_decide; [congruence|].
    rewrite <- (assoc_remove_ne k k' l Hne). apply assoc_take.
  - intros V k k' v [cap l] Hne Hlen. cbn in *.
    destruct (N.to_nat cap) as [|n] eqn:E; [lia|]. cbn. case_decide; [congruence|].
    rewrite take_ge; [by apply assoc_remove_ne|].
    pose proof (assoc_remove_length k l). lia.
Defined.

#[export] Instance unicode_model : UnicodeText.
Proof.
  refine {| str_trim := ascii_trim; str_to_lowercase := str_map ascii_lower |}; done.
Defined.

Definition bincode_model (A : Type) : Bincode A := {|
  bincode_bytes := A;
  bincode_serialize := λ a, a;
  bincode_deserialize := Some;
  bincode_roundtrip := λ a, eq_refl;
|}.

End Models.
