(* ===== verification/Ca.v ===== *)
(** The internal certificate authority (mvirt-cplane/src/ca.rs): what goes into a
    leaf certificate, how identity is pinned in it, and how the tunnel listener
    reads identity back. The X.509 machinery itself is rcgen and x509_parser,
    behind the interface [X509]. *)

From S2P Require Import Prelude Command Externals.

Definition NODE_URI_PREFIX : string := "mvirt://node/".
Definition CLUSTER_URI_PREFIX : string := "mvirt://cluster/".
Definition SERVICE_URI_PREFIX : string := "mvirt://service/".
Definition LEAF_VALIDITY_DAYS : Z := 90.

Inductive SanType := SanUri (uri : string) | SanOther.
Inductive KeyUsagePurpose := DigitalSignature | KeyCertSign | CrlSign.
Inductive ExtendedKeyUsagePurpose := ClientAuth | ServerAuth.

(** The fields of [rcgen::CertificateParams] the code sets; the others keep their
    default (in particular [is_ca] stays off). *)
Record CertificateParams := mkCertificateParams {
  cp_common_name : string;
  cp_subject_alt_names : list SanType;
  cp_use_authority_key_identifier : bool;
  cp_key_usages : list KeyUsagePurpose;
  cp_extended_key_usages : list ExtendedKeyUsagePurpose;
  cp_not_before : Z;
  cp_not_after : Z;
  cp_serial_number : list u8;
}.

Record SignedLeaf := mkSignedLeaf {
  sl_cert_pem : string;
  sl_serial_hex : string;
  sl_not_after : string;
}.

(** rcgen, x509_parser and the RFC 3339 printer of chrono. The laws: an IA5
    string conversion keeps the text, and parsing a certificate that was just
    signed yields the subject alternative names it was signed with. *)
Class X509 := {
  KeyPair : Type;
  CaParams : Type;
  CaCertificate : Type;
  PublicKey : Type;
  Certificate : Type;
  keypair_from_pem : string → option KeyPair;
  params_from_ca_cert_pem : string → option CaParams;
  self_signed : CaParams → KeyPair → option CaCertificate;
  csr_from_pem : string → result string PublicKey;
  ia5_try_into : string → result string string;
  signed_by : CertificateParams → PublicKey → CaCertificate → KeyPair → option Certificate;
  certificate_pem : Certificate → string;
  certificate_der : Certificate → list u8;
  parse_der_sans : list u8 → result string (list SanType);
  to_rfc3339 : Z → string;
  ia5_try_into_id : ∀ s t, ia5_try_into s = Ok t → t = s;
  parse_signed_sans : ∀ p k c kp cert,
    signed_by p k c kp = Some cert →
    parse_der_sans (certificate_der cert) = Ok (cp_subject_alt_names p);
}.

Definition hex_serial (bytes : list u8) : string :=
  foldr (λ b s, (fmt_02x b +:+ s)) "" bytes.

Section ca.
Context `{X : X509}.

Definition load_ca (ca : InternalCa) : result string (CaCertificate * KeyPair) :=
  let? key := ok_or "parse CA key" (keypair_from_pem (ca_key_pem ca)) in
  let? params := ok_or "parse CA cert" (params_from_ca_cert_pem (ca_cert_pem ca)) in
  let? cert := ok_or "rehydrate CA cert with key" (self_signed params key) in
  Ok (cert, key).

Definition map_err (prefix : string) {A} (r : result string A) : result string A :=
  match r with Ok a => Ok a | Err e => Err (prefix +:+ e) end.

(** The parameters [sign_node_leaf] hands to rcgen. *)
Definition node_leaf_params (now : Z) (node_id node_uri cluster_uri : string)
    (serial_bytes : list u8) : CertificateParams := {|
  cp_common_name := node_id;
  cp_subject_alt_names := [SanUri node_uri; SanUri cluster_uri];
  cp_use_authority_key_identifier := true;
  cp_key_usages := [DigitalSignature];
  cp_extended_key_usages := [ClientAuth];
  cp_not_before := now - 5 * 60;
  cp_not_after := now + LEAF_VALIDITY_DAYS * 86400;
  cp_serial_number := serial_bytes;
|}.

(** The certificate before it is rendered; [sign_node_leaf] renders it. *)
Definition sign_node_cert (now : Z) (ca : InternalCa) (csr_pem node_id cluster_slug : string)
    (serial_bytes : list u8) : result string (Certificate * CertificateParams) :=
  let? (ca_cert, ca_key) := load_ca ca in
  let? public_key := map_err "parse CSR: " (csr_from_pem csr_pem) in
  let? node_uri := map_err "bad node URI: " (ia5_try_into (NODE_URI_PREFIX +:+ node_id)) in
  let? cluster_uri :=
    map_err "bad cluster URI: " (ia5_try_into (CLUSTER_URI_PREFIX +:+ cluster_slug)) in
  let params := node_leaf_params now node_id node_uri cluster_uri serial_bytes in
  let? leaf := ok_or "sign leaf with CA" (signed_by params public_key ca_cert ca_key) in
  Ok (leaf, params).

Definition sign_node_leaf (now : Z) (ca : InternalCa) (csr_pem node_id cluster_slug : string)
    (serial_bytes : list u8) : result string SignedLeaf :=
  let? (leaf, params) := sign_node_cert now ca csr_pem node_id cluster_slug serial_bytes in
  Ok {| sl_cert_pem := certificate_pem leaf;
        sl_serial_hex := hex_serial serial_bytes;
        sl_not_after := to_rfc3339 (cp_not_after params) |}.

(** One subject alternative name of [extract_identity_from_der]'s loop. *)
Definition identity_step (acc : option string * option string) (name : SanType) :
    option string * option string :=
  match name with
  | SanUri u =>
      match strip_prefix NODE_URI_PREFIX u with
      | Some rest => (Some rest, acc.2)
      | None =>
          match strip_prefix CLUSTER_URI_PREFIX u with
          | Some rest => (acc.1, Some rest)
          | None => acc
          end
      end
  | SanOther => acc
  end.

Definition extract_identity_from_der (cert_der : list u8) :
    result string (string * string) :=
  let? names := map_err "parse peer cert DER: " (parse_der_sans cert_der) in
  match foldl identity_step (None, None) names with
  | (Some n, Some c) => Ok (n, c)
  | _ => Err "peer cert is missing required SAN URIs (mvirt://node/.. + mvirt://cluster/..)"
  end.
End ca.

(** * A model of the interface

    Keys carry no secret here and every request is signed; a certificate is the
    list of its alternative names. *)
Module CaModel.
Definition san_code (s : SanType) : option string :=
  match s with SanUri u => Some u | SanOther => None end.
Definition san_decode (o : option string) : SanType :=
  match o with Some u => SanUri u | None => SanOther end.

Lemma san_decode_code l : map san_decode (map san_code l) = l.
Proof. induction l as [|[] l IH]; cbn; congruence. Qed.

#[export] Instance x509_model : X509.
Proof.
  refine {|
    KeyPair := unit; CaParams := unit; CaCertificate := unit; PublicKey := unit;
    Certificate := list SanType;
    keypair_from_pem := λ _, Some tt;
    params_from_ca_cert_pem := λ _, Some tt;
    self_signed := λ _ _, Some tt;
    csr_from_pem := λ csr, if str_is_empty csr then Err "empty" else Ok tt;
    ia5_try_into := λ s, Ok s;
    signed_by := λ p _ _ _, Some (cp_subject_alt_names p);
    certificate_pem := λ _, "PEM";
    certificate_der := λ c, [Npos (encode (map san_code c))];
    parse_der_sans := λ der,
      match der with
      | [Npos p] => match decode p with
                    | Some l => Ok (map san_decode l)
                    | None => Err "garbage"
                    end
      | _ => Err "garbage"
      end;
    to_rfc3339 := λ z, pretty z;
  |}.
  - by intros s t [= ->].
  - intros p k c kp cert [= <-]. cbn. rewrite decode_encode. by rewrite san_decode_code.
Defined.
End CaModel.

(** * Properties *)

Lemma strip_prefix_app p s : strip_prefix p (p +:+ s) = Some s.
Proof. induction p as [|a p IH]; [done|].
  change (strip_prefix (String a p) (String a (p +:+ s)) = Some s).
  cbn [strip_prefix]. by rewrite Ascii.eqb_refl. Qed.

Section properties.
Context `{X : X509}.

Lemma sign_node_cert_params now ca csr node_id cluster serial leaf params :
  sign_node_cert now ca csr node_id cluster serial = Ok (leaf, params) →
  params = node_leaf_params now node_id (NODE_URI_PREFIX +:+ node_id)
             (CLUSTER_URI_PREFIX +:+ cluster) serial ∧
  ∃ pk cert key, load_ca ca = Ok (cert, key) ∧ signed_by params pk cert key = Some leaf.
Proof.
  unfold sign_node_cert, map_err, ok_or. intros H.
  repeat (case_match; simplify_eq/=).
  repeat match goal with
  | E : ia5_try_into _ = Ok _ |- _ => apply ia5_try_into_id in E; subst
  end. eauto 6.
Qed.

(** The two URIs of a node certificate are told apart by their prefixes. *)
Lemma extract_node_leaf now node_id cluster serial der :
  parse_der_sans der = Ok (cp_subject_alt_names (node_leaf_params now node_id
    (NODE_URI_PREFIX +:+ node_id) (CLUSTER_URI_PREFIX +:+ cluster) serial)) →
  extract_identity_from_der der = Ok (node_id, cluster).
Proof.
  intros Hp. unfold extract_identity_from_der. rewrite Hp. cbn [map_err foldl cp_subject_alt_names
    node_leaf_params identity_step]. rewrite strip_prefix_app.
  change (strip_prefix NODE_URI_PREFIX (CLUSTER_URI_PREFIX +:+ cluster)) with (@None string).
  by rewrite strip_prefix_app.
Qed.

(** A signed leaf is the rendering of a certificate that identifies the node
    and the cluster it was asked for, whatever the request contained. *)
Lemma sign_node_leaf_identity now ca csr node_id cluster serial signed :
  sign_node_leaf now ca csr node_id cluster serial = Ok signed →
  ∃ leaf, sl_cert_pem signed = certificate_pem leaf ∧
    extract_identity_from_der (certificate_der leaf) = Ok (node_id, cluster) ∧
    sl_serial_hex signed = hex_serial serial ∧
    sl_not_after signed = to_rfc3339 (now + LEAF_VALIDITY_DAYS * 86400).
Proof.
  unfold sign_node_leaf. destruct (sign_node_cert _ _ _ _ _ _) as [[leaf params]|] eqn:E; [|done].
  intros [= <-]. apply sign_node_cert_params in E as (-> & pk & cert & key & _ & Hs).
  exists leaf. cbn. split; [done|]. split; [|done].
  by eapply extract_node_leaf, parse_signed_sans.
Qed.
End properties.
