(* ===== verification/Db.v ===== *)
(** The tables of the replicated state and the transaction helpers
    (mvirt-cplane/src/state.rs, lines 27-182).

    One field per redb table, named after it. The [PKI] table holds two
    singletons of different types under the keys ["internal_ca"] and
    ["server_cert"]; they are two optional fields. Values are stored typed: the
    bincode encoding of a row is read back by the decoder of the same type. *)

From S2P Require Import Prelude Command Event Externals.

Record Db := mkDb {
  nodes : gmap string NodeData;
  networks : gmap string NetworkData;
  nics : gmap string NicData;
  vms : gmap string VmData;
  orgs : gmap string OrgData;
  projects : gmap string ProjectData;
  clusters : gmap string ClusterData;
  volumes : gmap string VolumeData;
  templates : gmap string TemplateData;
  security_groups : gmap string SecurityGroupData;
  onboarding_tokens : gmap string OnboardingTokenData;
  revoked_certs : gmap string RevokedCertData;
  accounts : gmap string AccountData;
  memberships : gmap string MembershipData;
  api_keys : gmap string ApiKeyData;
  pki_ca : option InternalCa;
  pki_server : option ServerCertData;
}.
#[export] Instance eta_Db : Eta Db := λ d,
  mkDb (nodes d) (networks d) (nics d) (vms d) (orgs d) (projects d) (clusters d)
    (volumes d) (templates d) (security_groups d) (onboarding_tokens d) (revoked_certs d)
    (accounts d) (memberships d) (api_keys d) (pki_ca d) (pki_server d).

(** [init_tables] on an empty database. *)
Definition db_empty : Db := mkDb ∅ ∅ ∅ ∅ ∅ ∅ ∅ ∅ ∅ ∅ ∅ ∅ ∅ ∅ ∅ None None.

(** * Transaction helpers *)

Definition txn_get {V} (table : Db → gmap string V) (key : string) (db : Db) : option V :=
  table db !! key.

Definition txn_has {V} (table : Db → gmap string V) (key : string) (db : Db) : bool :=
  is_some (table db !! key).

Definition txn_list `{Redb} {V} (table : Db → gmap string V) (db : Db) : list V :=
  (redb_iter (table db)).*2.

Definition txn_put {V} (table : Db → gmap string V) `{!Setter table}
    (key : string) (val : V) (db : Db) : Db :=
  set_field table (insert key val) db.

Definition txn_delete {V} (table : Db → gmap string V) `{!Setter table}
    (key : string) (db : Db) : Db :=
  set_field table (delete key) db.

Arguments txn_get {_} _ _ _ /.
Arguments txn_has {_} _ _ _ /.
Arguments txn_put {_} _ {_} _ _ _ /.
Arguments txn_delete {_} _ {_} _ _ /.

(** * Handler outcomes

    An arm of the [match] in [apply] either leaves [apply] by an early [return],
    which drops the write transaction and skips the idempotency cache, or
    commits and falls through to the caching tail. *)
Inductive Outcome :=
  | Early (response : Response) (events : list Event)
  | Commit (db : Db) (response : Response) (events : list Event).

Notation "'get!' x ':=' e 'else' r 'in' k" :=
  (match e with Some x => k | None => Early r [] end)
  (at level 10, x pattern, e at level 100, r at level 100, k at level 200,
   format "'get!'  x  ':='  e  'else'  r  'in' '//' k") : mvirt_scope.
Notation "'bail!' b 'with' r 'in' k" :=
  (if b then Early r [] else k)
  (at level 10, b at level 100, r at level 100, k at level 200,
   format "'bail!'  b  'with'  r  'in' '//' k") : mvirt_scope.

(** The format strings of the error messages with a single argument. *)
Definition msg_not_found (what id : string) : string := what +:+ " '" +:+ id +:+ "' not found".

(** * Lemmas on scans *)

Section scans.
Context `{R : Redb}.

Lemma elem_of_txn_list {V} (table : Db → gmap string V) db v :
  v ∈ txn_list table db ↔ ∃ k, table db !! k = Some v.
Proof.
  unfold txn_list. rewrite list_elem_of_fmap. split.
  - intros [[k w] [-> Hin]]. exists k. rewrite redb_iter_perm in Hin.
    by apply elem_of_map_to_list.
  - intros [k Hk]. exists (k, v). split; [done|]. rewrite redb_iter_perm.
    by apply elem_of_map_to_list.
Qed.

Lemma txn_list_existsb_true {V} (table : Db → gmap string V) db f :
  existsb f (txn_list table db) = true ↔ ∃ k v, table db !! k = Some v ∧ f v = true.
Proof.
  rewrite existsb_exists. setoid_rewrite <- list_elem_of_In.
  setoid_rewrite elem_of_txn_list. split.
  - intros (v & [k Hk] & Hv). eauto.
  - intros (k & v & Hk & Hv). eauto.
Qed.

Lemma txn_list_existsb_false {V} (table : Db → gmap string V) db f k v :
  existsb f (txn_list table db) = false → table db !! k = Some v → f v = false.
Proof.
  intros Hf Hk. destruct (f v) eqn:E; [|done].
  assert (existsb f (txn_list table db) = true); [|congruence].
  apply txn_list_existsb_true. eauto.
Qed.

Lemma txn_list_existsb_false_2 {V} (table : Db → gmap string V) db f :
  (∀ k v, table db !! k = Some v → f v = false) → existsb f (txn_list table db) = false.
Proof.
  intros Hf. destruct (existsb f (txn_list table db)) eqn:E; [|done].
  apply txn_list_existsb_true in E as (k & v & Hk & Hv).
  rewrite (Hf k v Hk) in Hv. done.
Qed.

Lemma elem_of_txn_filter {V} (table : Db → gmap string V) db f v :
  v ∈ List.filter f (txn_list table db) ↔ (∃ k, table db !! k = Some v) ∧ f v = true.
Proof.
  rewrite list_elem_of_In, filter_In, <- list_elem_of_In, elem_of_txn_list. done.
Qed.

Lemma txn_filter_nil {V} (table : Db → gmap string V) db f k v :
  List.filter f (txn_list table db) = [] → table db !! k = Some v → f v = false.
Proof.
  intros Hnil Hk. destruct (f v) eqn:E; [|done].
  assert (v ∈ List.filter f (txn_list table db)) as Hin.
  { apply elem_of_txn_filter. eauto. }
  rewrite Hnil in Hin. by apply elem_of_nil in Hin.
Qed.

(** [find] over a table returns a row of it that satisfies the predicate. *)
Lemma txn_find_Some {V} (table : Db → gmap string V) db f v :
  List.find f (txn_list table db) = Some v → (∃ k, table db !! k = Some v) ∧ f v = true.
Proof.
  intros [Hin Hf]%find_some. split; [|done].
  by apply elem_of_txn_list, list_elem_of_In.
Qed.

Lemma txn_find_None {V} (table : Db → gmap string V) db f k v :
  List.find f (txn_list table db) = None → table db !! k = Some v → f v = false.
Proof.
  intros Hnone Hk. eapply find_none; [done|]. apply list_elem_of_In, elem_of_txn_list. eauto.
Qed.
End scans.
