(* ===== verification/ApplyCompute.v ===== *)
(** Apply handlers for nodes, networks, NICs and VMs
    (mvirt-cplane/src/state.rs, lines 699-1400 and 3241-3257). *)

From S2P Require Import Prelude Command Event Externals Db.

(** * Nodes *)

Section nodes.
Context `{R : Redb}.

Definition apply_register_node (id timestamp name address : string)
    (resources : NodeResources) (labels : gmap string string) (db : Db) : Outcome :=
  bail! existsb (λ n, nd_name n == name) (txn_list nodes db)
    with RespError 409 ("Node with name '" +:+ name +:+ "' already exists") in
  match txn_get nodes id db with
  | Some existing => Early (RespNode existing) []
  | None =>
      let node := {|
        nd_id := id;
        nd_name := name;
        nd_address := address;
        nd_status := NodeOnline;
        nd_resources := resources;
        nd_labels := labels;
        nd_last_heartbeat := timestamp;
        nd_created_at := timestamp;
        nd_updated_at := timestamp;
        nd_cluster_slug := None;
        nd_cert_serial_hex := None;
        nd_cert_expires_at := None;
        nd_hostname := None;
        nd_agent_version := None;
      |} in
      Commit (txn_put nodes id node db) (RespNode node) [NodeRegistered node]
  end.

Definition apply_update_node_status (node_id timestamp : string) (status : NodeStatus)
    (resources : option NodeResources) (db : Db) : Outcome :=
  get! old_node := txn_get nodes node_id db
    else RespError 404 (msg_not_found "Node" node_id) in
  let new_node := old_node <| nd_status := status |> in
  let new_node := match resources with
                  | Some res => new_node <| nd_resources := res |>
                  | None => new_node
                  end in
  let new_node := new_node <| nd_last_heartbeat := timestamp |> in
  let new_node := new_node <| nd_updated_at := timestamp |> in
  Commit (txn_put nodes node_id new_node db) (RespNode new_node)
    [NodeUpdated node_id old_node new_node].

Definition apply_deregister_node (node_id : string) (db : Db) : Outcome :=
  bail! negb (txn_has nodes node_id db)
    with RespError 404 (msg_not_found "Node" node_id) in
  Commit (txn_delete nodes node_id db) (RespDeleted node_id) [NodeDeregistered node_id].
End nodes.

(** * Networks *)

Section networks.
Context `{R : Redb}.

Definition apply_create_network (id timestamp project_slug name : string)
    (ipv4_enabled : bool) (ipv4_prefix : option string)
    (ipv6_enabled : bool) (ipv6_prefix : option string)
    (dns_servers ntp_servers : list string) (is_public : bool) (db : Db) : Outcome :=
  bail! existsb (λ n, (nw_project_slug n == project_slug) && (nw_name n == name))
          (txn_list networks db)
    with RespError 409 ("Network with name '" +:+ name +:+ "' already exists in project") in
  match txn_get networks id db with
  | Some existing => Early (RespNetwork existing) []
  | None =>
      let network := {|
        nw_id := id;
        nw_project_slug := project_slug;
        nw_name := name;
        nw_ipv4_enabled := ipv4_enabled;
        nw_ipv4_prefix := ipv4_prefix;
        nw_ipv6_enabled := ipv6_enabled;
        nw_ipv6_prefix := ipv6_prefix;
        nw_dns_servers := dns_servers;
        nw_ntp_servers := ntp_servers;
        nw_is_public := is_public;
        nw_nic_count := 0;
        nw_created_at := timestamp;
        nw_updated_at := timestamp;
      |} in
      Commit (txn_put networks id network db) (RespNetwork network) [NetworkCreated network]
  end.

Definition apply_update_network (id timestamp : string) (dns_servers ntp_servers : list string)
    (db : Db) : Outcome :=
  get! old_network := txn_get networks id db
    else RespError 404 (msg_not_found "Network" id) in
  let new_network := old_network <| nw_dns_servers := dns_servers |> in
  let new_network := new_network <| nw_ntp_servers := ntp_servers |> in
  let new_network := new_network <| nw_updated_at := timestamp |> in
  Commit (txn_put networks id new_network db) (RespNetwork new_network)
    [NetworkUpdated id old_network new_network].

(** The cascade loop of [DeleteNetwork]: one NIC per iteration. *)
Definition delete_nic_rows (l : list NicData) (db : Db) : Db :=
  foldl (λ d nic, txn_delete nics (nic_id nic) d) db l.

Definition apply_delete_network (id : string) (force : bool) (db : Db) : Outcome :=
  let nics_in_network :=
    List.filter (λ n, nsp_network_id (nic_spec n) == id) (txn_list nics db) in
  bail! negb (bool_decide (nics_in_network = [])) && negb force
    with RespError 409 ("Network has " +:+ pretty (length nics_in_network) +:+
                        " NICs, use force=true to delete") in
  bail! negb (txn_has networks id db)
    with RespError 404 (msg_not_found "Network" id) in
  let nics_deleted := wrap 32 (N.of_nat (length nics_in_network)) in
  let events :=
    map (λ nic, NicDeleted (nic_id nic) (nsp_network_id (nic_spec nic))) nics_in_network in
  let db := delete_nic_rows nics_in_network db in
  let db := txn_delete networks id db in
  Commit db (RespDeletedWithCount id nics_deleted) (events ++ [NetworkDeleted id]).
End networks.

(** * NICs *)

(** [generate_mac_from_id]: a polynomial hash of the id bytes, modulo [2 ^ 64]. *)
Fixpoint mac_hash (i : N) (bytes : list u8) (hash : u64) : u64 :=
  match bytes with
  | [] => hash
  | b :: bytes' =>
      mac_hash (i + 1) bytes'
        (u64_wrapping_add hash (u64_wrapping_mul b (wrap 64 (31 ^ i))))
  end.

Definition generate_mac_from_id (id : string) : string :=
  let hash := mac_hash 0 (str_bytes id) 0 in
  "52:54:00:" +:+ fmt_02x (N.land (N.shiftr hash 16) 255) +:+ ":" +:+
  fmt_02x (N.land (N.shiftr hash 8) 255) +:+ ":" +:+ fmt_02x (N.land hash 255).

Definition apply_create_nic (id timestamp project_slug network_id : string)
    (name mac_address ipv4_address ipv6_address : option string)
    (routed_ipv4_prefixes routed_ipv6_prefixes : list string)
    (security_group_id : option string) (db : Db) : Outcome :=
  get! network := txn_get networks network_id db
    else RespError 404 (msg_not_found "Network" network_id) in
  get! sg_to_update :=
      match security_group_id with
      | Some sg_id =>
          match txn_get security_groups sg_id db with
          | Some sg => Some (Some sg)
          | None => None
          end
      | None => Some None
      end
    else RespError 404 (msg_not_found "Security group" (default "" security_group_id)) in
  match txn_get nics id db with
  | Some existing => Early (RespNic existing) []
  | None =>
      let mac := match mac_address with Some m => m | None => generate_mac_from_id id end in
      let nic := {|
        nic_id := id;
        nic_spec := {|
          nsp_project_slug := project_slug;
          nsp_name := name;
          nsp_network_id := network_id;
          nsp_mac_address := mac;
          nsp_ipv4_address := ipv4_address;
          nsp_ipv6_address := ipv6_address;
          nsp_routed_ipv4_prefixes := routed_ipv4_prefixes;
          nsp_routed_ipv6_prefixes := routed_ipv6_prefixes;
          nsp_security_group_id := security_group_id;
          nsp_vm_id := None;
        |};
        nic_status := NicStatus_default;
        nic_created_at := timestamp;
        nic_updated_at := timestamp;
      |} in
      let db := txn_put nics id nic db in
      let network := network <| nw_nic_count := u32_add (nw_nic_count network) 1 |> in
      let db := txn_put networks network_id network db in
      let db := match sg_to_update with
                | Some sg =>
                    let sg := sg <| sg_nic_count := u32_add (sg_nic_count sg) 1 |> in
                    txn_put security_groups (sg_id sg) sg db
                | None => db
                end in
      Commit db (RespNic nic) [NicCreated nic]
  end.

Definition apply_update_nic (id timestamp : string)
    (routed_ipv4_prefixes routed_ipv6_prefixes : list string) (db : Db) : Outcome :=
  get! old_nic := txn_get nics id db else RespError 404 (msg_not_found "NIC" id) in
  let spec := nic_spec old_nic in
  let spec := spec <| nsp_routed_ipv4_prefixes := routed_ipv4_prefixes |> in
  let spec := spec <| nsp_routed_ipv6_prefixes := routed_ipv6_prefixes |> in
  let new_nic := old_nic <| nic_spec := spec |> <| nic_updated_at := timestamp |> in
  Commit (txn_put nics id new_nic db) (RespNic new_nic) [NicUpdated id old_nic new_nic].

Definition apply_delete_nic (id : string) (db : Db) : Outcome :=
  get! nic := txn_get nics id db else RespError 404 (msg_not_found "NIC" id) in
  let db := txn_delete nics id db in
  let network_id := nsp_network_id (nic_spec nic) in
  let db := match txn_get networks network_id db with
            | Some network =>
                let network :=
                  network <| nw_nic_count := saturating_sub (nw_nic_count network) 1 |> in
                txn_put networks network_id network db
            | None => db
            end in
  let db := match nsp_security_group_id (nic_spec nic) with
            | Some sgid =>
                match txn_get security_groups sgid db with
                | Some sg =>
                    let sg := sg <| sg_nic_count := saturating_sub (sg_nic_count sg) 1 |> in
                    txn_put security_groups sgid sg db
                | None => db
                end
            | None => db
            end in
  Commit db (RespDeleted id) [NicDeleted id network_id].

Definition set_vm_link (vm : option string) (timestamp : string) (nic : NicData) : NicData :=
  nic <| nic_spec := (nic_spec nic) <| nsp_vm_id := vm |> |>
      <| nic_updated_at := timestamp |>.

Definition apply_attach_nic (id timestamp vm_id : string) (db : Db) : Outcome :=
  get! old_nic := txn_get nics id db else RespError 404 (msg_not_found "NIC" id) in
  bail! is_some (nsp_vm_id (nic_spec old_nic))
    with RespError 409 ("NIC '" +:+ id +:+ "' is already attached to a VM") in
  bail! negb (txn_has vms vm_id db) with RespError 404 (msg_not_found "VM" vm_id) in
  let new_nic := set_vm_link (Some vm_id) timestamp old_nic in
  Commit (txn_put nics id new_nic db) (RespNic new_nic) [NicUpdated id old_nic new_nic].

Definition apply_detach_nic (id timestamp : string) (db : Db) : Outcome :=
  get! old_nic := txn_get nics id db else RespError 404 (msg_not_found "NIC" id) in
  let new_nic := set_vm_link None timestamp old_nic in
  Commit (txn_put nics id new_nic db) (RespNic new_nic) [NicUpdated id old_nic new_nic].

Definition apply_update_nic_status (id timestamp : string) (phase : NicPhase)
    (socket_path : string) (message : option string) (db : Db) : Outcome :=
  get! old_nic := txn_get nics id db else RespError 404 (msg_not_found "NIC" id) in
  let status := (nic_status old_nic) <| nst_phase := phase |> in
  let status := if str_is_empty socket_path then status
                else status <| nst_socket_path := socket_path |> in
  let status := status <| nst_message := message |> in
  let nic := old_nic <| nic_status := status |> <| nic_updated_at := timestamp |> in
  Commit (txn_put nics id nic db) (RespNic nic) [].

(** * VMs *)

Section vms.
Context `{R : Redb}.

Definition apply_create_vm (id timestamp : string) (spec : VmSpec) (db : Db) : Outcome :=
  bail! existsb (λ v, (vsp_project_slug (vm_spec v) == vsp_project_slug spec) &&
                      (vsp_name (vm_spec v) == vsp_name spec)) (txn_list vms db)
    with RespError 409 ("VM with name '" +:+ vsp_name spec +:+ "' already exists in project") in
  match txn_get vms id db with
  | Some existing => Early (RespVm existing) []
  | None =>
      get! nic := txn_get nics (vsp_nic_id spec) db
        else RespError 404 (msg_not_found "NIC" (vsp_nic_id spec)) in
      bail! match nsp_vm_id (nic_spec nic) with
            | Some other_vm => negb (other_vm == id)
            | None => false
            end
        with RespError 409 ("NIC '" +:+ vsp_nic_id spec +:+ "' is already attached to VM '" +:+
                            default "" (nsp_vm_id (nic_spec nic)) +:+ "'") in
      let vm := {|
        vm_id := id;
        vm_spec := spec;
        vm_status := VmStatus_default;
        vm_created_at := timestamp;
        vm_updated_at := timestamp;
      |} in
      let nicid := nic_id nic in
      let old_nic := nic in
      let nic := set_vm_link (Some id) (vm_updated_at vm) nic in
      let db := txn_put nics nicid nic db in
      let db := txn_put vms id vm db in
      Commit db (RespVm vm) [VmCreated vm; NicUpdated nicid old_nic nic]
  end.
End vms.

Definition apply_update_vm_spec (id timestamp : string) (desired_state : VmDesiredState)
    (db : Db) : Outcome :=
  get! old_vm := txn_get vms id db else RespError 404 (msg_not_found "VM" id) in
  let new_vm := old_vm <| vm_spec := (vm_spec old_vm) <| vsp_desired_state := desired_state |> |>
                       <| vm_updated_at := timestamp |> in
  Commit (txn_put vms id new_vm db) (RespVm new_vm) [VmUpdated id old_vm new_vm].

Definition apply_update_vm_status (id timestamp : string) (status : VmStatus)
    (db : Db) : Outcome :=
  get! old_vm := txn_get vms id db else RespError 404 (msg_not_found "VM" id) in
  let new_vm := old_vm <| vm_status := status |> <| vm_updated_at := timestamp |> in
  Commit (txn_put vms id new_vm db) (RespVm new_vm) [VmStatusUpdated id old_vm new_vm].

(** [now] is the wall clock of the replica that runs the handler. *)
Definition apply_delete_vm (now : string) (id : string) (db : Db) : Outcome :=
  get! vm := txn_get vms id db else RespError 404 (msg_not_found "VM" id) in
  let released :=
    if str_is_empty (vsp_nic_id (vm_spec vm)) then None
    else match txn_get nics (vsp_nic_id (vm_spec vm)) db with
         | Some old_nic =>
             if is_some_of (nsp_vm_id (nic_spec old_nic)) id
             then Some (old_nic, set_vm_link None now old_nic)
             else None
         | None => None
         end in
  let db := match released with
            | Some (old_nic, new_nic) => txn_put nics (nic_id old_nic) new_nic db
            | None => db
            end in
  let nic_event := match released with
                   | Some (old_nic, new_nic) => [NicUpdated (nic_id old_nic) old_nic new_nic]
                   | None => []
                   end in
  let db := txn_delete vms id db in
  Commit db (RespDeleted id) (VmDeleted id :: nic_event).
