(* ===== verification/ApplyTenancy.v ===== *)
(** Apply handlers for organizations, projects, clusters and node onboarding
    (mvirt-cplane/src/state.rs, lines 1402-2111). *)

From S2P Require Import Prelude Command Event Externals Ca Db.

(** * Organizations *)

Definition apply_create_org (timestamp slug name : string) (contact : OrgContact)
    (db : Db) : Outcome :=
  bail! txn_has orgs slug db
    with RespError 409 ("Org with slug '" +:+ slug +:+ "' already exists") in
  let org := {|
    og_slug := slug;
    og_name := name;
    og_contact := contact;
    og_created_at := timestamp;
    og_updated_at := timestamp;
  |} in
  Commit (txn_put orgs slug org db) (RespOrg org) [].

Definition apply_update_org (slug timestamp : string) (name : option string)
    (contact : option OrgContact) (db : Db) : Outcome :=
  get! org := txn_get orgs slug db else RespError 404 (msg_not_found "Org" slug) in
  let org := match name with Some n => org <| og_name := n |> | None => org end in
  let org := match contact with Some c => org <| og_contact := c |> | None => org end in
  let org := org <| og_updated_at := timestamp |> in
  Commit (txn_put orgs slug org db) (RespOrg org) [].

Section orgs.
Context `{R : Redb}.

Definition apply_delete_org (slug : string) (db : Db) : Outcome :=
  bail! negb (txn_has orgs slug db) with RespError 404 (msg_not_found "Org" slug) in
  let project_count :=
    length (List.filter (λ p, pj_org_slug p == slug) (txn_list projects db)) in
  bail! (0 <? project_count)%nat
    with RespError 409 ("Org '" +:+ slug +:+ "' has " +:+ pretty project_count +:+
                        " project(s); delete them first") in
  Commit (txn_delete orgs slug db) (RespDeleted slug) [].
End orgs.

(** * Projects *)

Definition apply_create_project (timestamp org_slug slug name : string)
    (description : option string) (db : Db) : Outcome :=
  bail! txn_has projects slug db
    with RespError 409 ("Project with slug '" +:+ slug +:+ "' already exists") in
  bail! negb (txn_has orgs org_slug db)
    with RespError 404 (msg_not_found "Org" org_slug) in
  let project := {|
    pj_slug := slug;
    pj_org_slug := org_slug;
    pj_name := name;
    pj_description := description;
    pj_created_at := timestamp;
    pj_updated_at := timestamp;
  |} in
  Commit (txn_put projects slug project db) (RespProject project) [].

Definition apply_delete_project (slug : string) (db : Db) : Outcome :=
  bail! negb (txn_has projects slug db)
    with RespError 404 (msg_not_found "Project" slug) in
  Commit (txn_delete projects slug db) (RespDeleted slug) [].

(** * Clusters *)

Definition apply_create_cluster (timestamp org_slug slug name : string)
    (description location : option string) (db : Db) : Outcome :=
  bail! txn_has clusters slug db
    with RespError 409 ("Cluster with slug '" +:+ slug +:+ "' already exists") in
  bail! negb (txn_has orgs org_slug db)
    with RespError 404 (msg_not_found "Org" org_slug) in
  let cluster := {|
    cl_slug := slug;
    cl_org_slug := org_slug;
    cl_name := name;
    cl_description := description;
    cl_location := location;
    cl_node_ids := [];
    cl_created_at := timestamp;
    cl_updated_at := timestamp;
  |} in
  Commit (txn_put clusters slug cluster db) (RespCluster cluster) [].

Definition apply_update_cluster (slug timestamp : string) (name : option string)
    (description location : option (option string)) (db : Db) : Outcome :=
  get! cluster := txn_get clusters slug db
    else RespError 404 (msg_not_found "Cluster" slug) in
  let cluster := match name with Some n => cluster <| cl_name := n |> | None => cluster end in
  let cluster := match description with
                 | Some d => cluster <| cl_description := d |>
                 | None => cluster
                 end in
  let cluster := match location with
                 | Some l => cluster <| cl_location := l |>
                 | None => cluster
                 end in
  let cluster := cluster <| cl_updated_at := timestamp |> in
  Commit (txn_put clusters slug cluster db) (RespCluster cluster) [].

Definition apply_delete_cluster (slug : string) (db : Db) : Outcome :=
  bail! negb (txn_has clusters slug db)
    with RespError 404 (msg_not_found "Cluster" slug) in
  Commit (txn_delete clusters slug db) (RespDeleted slug) [].

Definition apply_add_node_to_cluster (timestamp cluster_slug node_id : string)
    (db : Db) : Outcome :=
  get! cluster := txn_get clusters cluster_slug db
    else RespError 404 (msg_not_found "Cluster" cluster_slug) in
  bail! negb (txn_has nodes node_id db)
    with RespError 404 (msg_not_found "Node" node_id) in
  if existsb (λ n, n == node_id) (cl_node_ids cluster)
  then Commit db (RespCluster cluster) []
  else
    let cluster := cluster <| cl_node_ids := cl_node_ids cluster ++ [node_id] |>
                           <| cl_updated_at := timestamp |> in
    Commit (txn_put clusters cluster_slug cluster db) (RespCluster cluster) [].

(** [node_ids.retain(|n| n != node_id)]. *)
Definition retain_other (node_id : string) (l : list string) : list string :=
  List.filter (λ n, negb (n == node_id)) l.

Definition apply_remove_node_from_cluster (timestamp cluster_slug node_id : string)
    (db : Db) : Outcome :=
  get! cluster := txn_get clusters cluster_slug db
    else RespError 404 (msg_not_found "Cluster" cluster_slug) in
  let before := length (cl_node_ids cluster) in
  let cluster := cluster <| cl_node_ids := retain_other node_id (cl_node_ids cluster) |> in
  if Nat.eqb (length (cl_node_ids cluster)) before
  then Commit db (RespCluster cluster) []
  else
    let cluster := cluster <| cl_updated_at := timestamp |> in
    Commit (txn_put clusters cluster_slug cluster db) (RespCluster cluster) [].

(** * Node onboarding *)

Definition apply_ensure_internal_ca (ca : InternalCa) (db : Db) : Outcome :=
  let db := match pki_ca db with
            | None => db <| pki_ca := Some ca |>
            | Some _ => db
            end in
  Commit db RespAck [].

Definition apply_update_server_cert (timestamp cert_pem key_pem serial_hex not_after : string)
    (db : Db) : Outcome :=
  let data := {|
    sc_cert_pem := cert_pem;
    sc_key_pem := key_pem;
    sc_serial_hex := serial_hex;
    sc_not_after := not_after;
    sc_created_at := timestamp;
  |} in
  Commit (db <| pki_server := Some data |>) RespAck [].

Section onboarding.
Context `{R : Redb} `{X : X509}.

Definition apply_create_onboarding_token (timestamp id token_hash_hex cluster_slug node_id
    hostname : string) (description : option string) (expires_at created_by_account : string)
    (db : Db) : Outcome :=
  get! cluster := txn_get clusters cluster_slug db
    else RespError 404 (msg_not_found "Cluster" cluster_slug) in
  bail! txn_has onboarding_tokens id db
    with RespError 409 ("Onboarding token '" +:+ id +:+ "' already exists") in
  bail! txn_has nodes node_id db
    with RespError 409 ("Node '" +:+ node_id +:+ "' already exists") in
  bail! existsb (λ n, is_some_of (nd_cluster_slug n) cluster_slug && (nd_name n == hostname))
          (txn_list nodes db)
    with RespError 409 ("A node with hostname '" +:+ hostname +:+
                        "' already exists in cluster '" +:+ cluster_slug +:+ "'") in
  let token := {|
    ot_id := id;
    ot_token_hash_hex := token_hash_hex;
    ot_cluster_slug := cluster_slug;
    ot_node_id := node_id;
    ot_hostname := hostname;
    ot_description := description;
    ot_expires_at := expires_at;
    ot_used_at := None;
    ot_used_by_node_id := None;
    ot_created_by_account := created_by_account;
    ot_created_at := timestamp;
  |} in
  let db := txn_put onboarding_tokens id token db in
  let node := {|
    nd_id := node_id;
    nd_name := hostname;
    nd_address := "";
    nd_status := NodeOnboarding;
    nd_resources := NodeResources_default;
    nd_labels := ∅;
    nd_last_heartbeat := timestamp;
    nd_created_at := timestamp;
    nd_updated_at := timestamp;
    nd_cluster_slug := Some cluster_slug;
    nd_cert_serial_hex := None;
    nd_cert_expires_at := None;
    nd_hostname := None;
    nd_agent_version := None;
  |} in
  let db := txn_put nodes node_id node db in
  let db :=
    if existsb (λ n, n == node_id) (cl_node_ids cluster) then db
    else
      let cluster := cluster <| cl_node_ids := cl_node_ids cluster ++ [node_id] |>
                             <| cl_updated_at := timestamp |> in
      txn_put clusters cluster_slug cluster db in
  Commit db (RespOnboardingToken token) [].

Definition apply_delete_onboarding_token (cluster_slug id : string) (db : Db) : Outcome :=
  get! t := txn_get onboarding_tokens id db
    else RespError 404 (msg_not_found "Onboarding token" id) in
  bail! negb (ot_cluster_slug t == cluster_slug)
    with RespError 404 ("Token '" +:+ id +:+ "' does not belong to cluster '" +:+
                        cluster_slug +:+ "'") in
  let db :=
    if is_none (ot_used_at t) && txn_has nodes (ot_node_id t) db
    then
      let db := txn_delete nodes (ot_node_id t) db in
      match txn_get clusters (ot_cluster_slug t) db with
      | Some cluster =>
          let before := length (cl_node_ids cluster) in
          let cluster :=
            cluster <| cl_node_ids := retain_other (ot_node_id t) (cl_node_ids cluster) |> in
          if Nat.eqb (length (cl_node_ids cluster)) before then db
          else txn_put clusters (cl_slug cluster) cluster db
      | None => db
      end
    else db in
  let db := txn_delete onboarding_tokens id db in
  Commit db (RespDeleted id) [].

Definition apply_redeem_onboarding_token (amb : Ambient) (timestamp token_hash_hex csr_pem
    hostname agent_version kernel_version arch : string) (db : Db) : Outcome :=
  get! token := List.find (λ t, ot_token_hash_hex t == token_hash_hex)
                  (txn_list onboarding_tokens db)
    else RespError 401 "invalid onboarding token" in
  bail! is_some (ot_used_at token) with RespError 401 "invalid onboarding token" in
  bail! str_gt timestamp (ot_expires_at token)
    with RespError 401 "invalid onboarding token" in
  bail! negb (txn_has clusters (ot_cluster_slug token) db)
    with RespError 410 ("cluster '" +:+ ot_cluster_slug token +:+
                        "' gone since token issuance") in
  get! node := txn_get nodes (ot_node_id token) db
    else RespError 410 ("placeholder node '" +:+ ot_node_id token +:+
                        "' was deleted; re-issue a fresh token") in
  get! ca := pki_ca db else RespError 503 "internal CA not initialised" in
  match sign_node_leaf (amb_now amb) ca csr_pem (ot_node_id token) (ot_cluster_slug token)
          (amb_serial amb) with
  | Err e => Early (RespError 400 ("CSR invalid: " +:+ e)) []
  | Ok signed =>
      let token := token <| ot_used_at := Some timestamp |>
                         <| ot_used_by_node_id := Some (ot_node_id token) |> in
      let db := txn_put onboarding_tokens (ot_id token) token db in
      let node := node <| nd_status := NodeOnline |> in
      let node := node <| nd_last_heartbeat := timestamp |> in
      let node := node <| nd_updated_at := timestamp |> in
      let node := node <| nd_cert_serial_hex := Some (sl_serial_hex signed) |> in
      let node := node <| nd_cert_expires_at := Some (sl_not_after signed) |> in
      let node := node <| nd_hostname := Some hostname |> in
      let node := node <| nd_agent_version :=
        Some (agent_version +:+ " (" +:+ kernel_version +:+ " " +:+ arch +:+ ")") |> in
      let db := txn_put nodes (ot_node_id token) node db in
      Commit db (RespBootstrapResult node (sl_cert_pem signed) (ca_cert_pem ca)) []
  end.

(** The two loops of the [Decommission] arm. *)
Definition drop_unredeemed_tokens (node_id : string) (l : list OnboardingTokenData)
    (db : Db) : Db :=
  foldl (λ d t, if (ot_node_id t == node_id) && is_none (ot_used_at t)
                then txn_delete onboarding_tokens (ot_id t) d else d) db l.

Definition remove_node_from_clusters (timestamp node_id : string) (l : list ClusterData)
    (db : Db) : Db :=
  foldl (λ d cluster,
    let before := length (cl_node_ids cluster) in
    let cluster := cluster <| cl_node_ids := retain_other node_id (cl_node_ids cluster) |> in
    if Nat.eqb (length (cl_node_ids cluster)) before then d
    else
      let cluster := cluster <| cl_updated_at := timestamp |> in
      txn_put clusters (cl_slug cluster) cluster d) db l.

Definition apply_revoke_node_cert (timestamp node_id : string) (reason : RevocationReason)
    (db : Db) : Outcome :=
  get! node := txn_get nodes node_id db
    else RespError 404 (msg_not_found "Node" node_id) in
  let db := match nd_cert_serial_hex node with
            | Some serial =>
                let revoked := {|
                  rv_serial_hex := serial;
                  rv_node_id := node_id;
                  rv_revoked_at := timestamp;
                  rv_reason := reason;
                |} in
                txn_put revoked_certs serial revoked db
            | None => db
            end in
  let db := match reason with
            | Decommission =>
                let db := drop_unredeemed_tokens node_id (txn_list onboarding_tokens db) db in
                let db := remove_node_from_clusters timestamp node_id
                            (txn_list clusters db) db in
                txn_delete nodes node_id db
            | Compromise | OtherReason =>
                let node := node <| nd_status := NodeRevoked |>
                                 <| nd_updated_at := timestamp |> in
                txn_put nodes node_id node db
            end in
  Commit db (RespDeleted node_id) [].
End onboarding.
