(* ===== verification/ApplyIdentity.v ===== *)
(** Apply handlers for accounts, memberships, service accounts and API keys
    (mvirt-cplane/src/state.rs, lines 2113-2569). *)

From S2P Require Import Prelude Command Event Externals Db.

Section identity.
Context `{R : Redb} `{U : UnicodeText}.

Definition apply_create_account_by_email (timestamp id email : string)
    (display_name : option string) (db : Db) : Outcome :=
  let normalized := str_to_lowercase (str_trim email) in
  bail! str_is_empty normalized with RespError 400 "email is required" in
  bail! existsb (λ a, (str_to_lowercase <$> ac_email a) == Some normalized)
          (txn_list accounts db)
    with RespError 409 ("Account with email '" +:+ normalized +:+ "' already exists") in
  let acc := {|
    ac_id := id;
    ac_kind := KindUser;
    ac_external_iss := None;
    ac_external_sub := None;
    ac_email := Some normalized;
    ac_display_name := display_name;
    ac_project_slug := None;
    ac_description := None;
    ac_created_at := timestamp;
    ac_updated_at := timestamp;
  |} in
  Commit (txn_put accounts id acc db) (RespAccount acc) [].

Definition oidc_matches (iss sub : string) (a : AccountData) : bool :=
  is_some_of (ac_external_iss a) iss && is_some_of (ac_external_sub a) sub.

(** A pre-invited account with this (lower-cased) email and no identity yet. *)
Definition invite_matches (lc : string) (a : AccountData) : bool :=
  is_none (ac_external_iss a) && is_none (ac_external_sub a) &&
  ((str_to_lowercase <$> ac_email a) == Some lc).

Definition apply_ensure_account_from_oidc (timestamp new_id iss sub : string)
    (email display_name : option string) (db : Db) : Outcome :=
  let all := txn_list accounts db in
  match List.find (oidc_matches iss sub) all with
  | Some acc =>
      let email_changed := is_some email && negb (ac_email acc == email) in
      let acc := if email_changed then acc <| ac_email := email |> else acc in
      let name_changed := is_some display_name && negb (ac_display_name acc == display_name) in
      let acc := if name_changed then acc <| ac_display_name := display_name |> else acc in
      if email_changed || name_changed
      then
        let acc := acc <| ac_updated_at := timestamp |> in
        Commit (txn_put accounts (ac_id acc) acc db) (RespAccount acc) []
      else Commit db (RespAccount acc) []
  | None =>
      match (e ← email; List.find (invite_matches (str_to_lowercase e)) all) with
      | Some invited =>
          let acc := invited <| ac_external_iss := Some iss |>
                             <| ac_external_sub := Some sub |>
                             <| ac_email := email |> in
          let acc := if is_some display_name
                     then acc <| ac_display_name := display_name |> else acc in
          let acc := acc <| ac_updated_at := timestamp |> in
          Commit (txn_put accounts (ac_id acc) acc db) (RespAccount acc) []
      | None =>
          let acc := {|
            ac_id := new_id;
            ac_kind := KindUser;
            ac_external_iss := Some iss;
            ac_external_sub := Some sub;
            ac_email := email;
            ac_display_name := display_name;
            ac_project_slug := None;
            ac_description := None;
            ac_created_at := timestamp;
            ac_updated_at := timestamp;
          |} in
          Commit (txn_put accounts new_id acc db) (RespAccount acc) []
      end
  end.

(** The scope-target existence checks of [CreateMembership]. *)
Definition scope_missing (scope : MembershipScope) (db : Db) : option Response :=
  match scope with
  | ScopePlatform => None
  | ScopeOrg org_slug =>
      if txn_has orgs org_slug db then None
      else Some (RespError 404 (msg_not_found "Org" org_slug))
  | ScopeProject project_slug =>
      if txn_has projects project_slug db then None
      else Some (RespError 404 (msg_not_found "Project" project_slug))
  end.

Definition apply_create_membership (timestamp id account_id : string)
    (scope : MembershipScope) (role : Role) (created_by_account : string)
    (db : Db) : Outcome :=
  bail! txn_has memberships id db
    with RespError 409 ("Membership '" +:+ id +:+ "' already exists") in
  bail! negb (txn_has accounts account_id db)
    with RespError 404 (msg_not_found "Account" account_id) in
  match scope_missing scope db with
  | Some err => Early err []
  | None =>
      bail! existsb (λ m, (mb_account_id m == account_id) && (mb_scope m == scope) &&
                          (mb_role m == role)) (txn_list memberships db)
        with RespError 409 "membership already granted" in
      let m := {|
        mb_id := id;
        mb_account_id := account_id;
        mb_scope := scope;
        mb_role := role;
        mb_created_by_account := created_by_account;
        mb_created_at := timestamp;
      |} in
      Commit (txn_put memberships id m db) (RespMembership m) []
  end.

Definition apply_delete_membership (id : string) (db : Db) : Outcome :=
  bail! negb (txn_has memberships id db)
    with RespError 404 (msg_not_found "Membership" id) in
  Commit (txn_delete memberships id db) (RespDeleted id) [].

Definition is_platform_admin_row (m : MembershipData) : bool :=
  (mb_scope m == ScopePlatform) && (mb_role m == PlatformAdmin).

Definition apply_bootstrap_initial_platform_admin (timestamp id account_id : string)
    (db : Db) : Outcome :=
  bail! existsb is_platform_admin_row (txn_list memberships db) with RespAck in
  bail! negb (txn_has accounts account_id db)
    with RespError 404 (msg_not_found "Account" account_id) in
  let m := {|
    mb_id := id;
    mb_account_id := account_id;
    mb_scope := ScopePlatform;
    mb_role := PlatformAdmin;
    mb_created_by_account := account_id;
    mb_created_at := timestamp;
  |} in
  Commit (txn_put memberships id m db) (RespMembership m) [].

Definition apply_create_service_account (timestamp account_id membership_id project_slug
    name : string) (description : option string) (created_by_account : string)
    (db : Db) : Outcome :=
  bail! negb (txn_has projects project_slug db)
    with RespError 404 (msg_not_found "Project" project_slug) in
  bail! existsb (λ a, (ac_kind a == KindServiceAccount) &&
                      is_some_of (ac_project_slug a) project_slug &&
                      is_some_of (ac_display_name a) name) (txn_list accounts db)
    with RespError 409 ("ServiceAccount '" +:+ name +:+ "' already exists in project '" +:+
                        project_slug +:+ "'") in
  let acc := {|
    ac_id := account_id;
    ac_kind := KindServiceAccount;
    ac_external_iss := None;
    ac_external_sub := None;
    ac_email := None;
    ac_display_name := Some name;
    ac_project_slug := Some project_slug;
    ac_description := description;
    ac_created_at := timestamp;
    ac_updated_at := timestamp;
  |} in
  let db := txn_put accounts account_id acc db in
  let m := {|
    mb_id := membership_id;
    mb_account_id := account_id;
    mb_scope := ScopeProject project_slug;
    mb_role := ProjectAdmin;
    mb_created_by_account := created_by_account;
    mb_created_at := timestamp;
  |} in
  let db := txn_put memberships membership_id m db in
  Commit db (RespAccount acc) [].

(** [for kid in key_ids { txn_delete(API_KEYS, kid) }] and its twin. *)
Definition delete_keys (ids : list string) (db : Db) : Db :=
  foldl (λ d kid, txn_delete api_keys kid d) db ids.
Definition delete_memberships (ids : list string) (db : Db) : Db :=
  foldl (λ d mid, txn_delete memberships mid d) db ids.

Definition apply_delete_service_account (account_id : string) (db : Db) : Outcome :=
  get! acc := txn_get accounts account_id db
    else RespError 404 (msg_not_found "Account" account_id) in
  bail! negb (ac_kind acc == KindServiceAccount)
    with RespError 400 "not a ServiceAccount" in
  let key_ids := map ak_id
    (List.filter (λ k, ak_account_id k == account_id) (txn_list api_keys db)) in
  let db := delete_keys key_ids db in
  let mem_ids := map mb_id
    (List.filter (λ m, mb_account_id m == account_id) (txn_list memberships db)) in
  let db := delete_memberships mem_ids db in
  let db := txn_delete accounts account_id db in
  Commit db (RespDeleted account_id) [].

Definition apply_create_static_api_key (timestamp id account_id hash_hex display_prefix : string)
    (description expires_at : option string) (created_by_account : string)
    (db : Db) : Outcome :=
  get! acc := txn_get accounts account_id db
    else RespError 404 (msg_not_found "Account" account_id) in
  bail! negb (ac_kind acc == KindServiceAccount)
    with RespError 400 "API keys are only valid for ServiceAccounts" in
  bail! txn_has api_keys id db
    with RespError 409 ("API key '" +:+ id +:+ "' already exists") in
  let key := {|
    ak_id := id;
    ak_account_id := account_id;
    ak_hash_hex := hash_hex;
    ak_display_prefix := display_prefix;
    ak_description := description;
    ak_expires_at := expires_at;
    ak_last_used_at := None;
    ak_revoked_at := None;
    ak_created_at := timestamp;
    ak_created_by_account := created_by_account;
  |} in
  Commit (txn_put api_keys id key db) (RespApiKey key) [].

Definition apply_revoke_static_api_key (timestamp id : string) (db : Db) : Outcome :=
  get! key := txn_get api_keys id db
    else RespError 404 (msg_not_found "API key" id) in
  if is_none (ak_revoked_at key)
  then
    let key := key <| ak_revoked_at := Some timestamp |> in
    Commit (txn_put api_keys id key db) (RespApiKey key) []
  else Commit db (RespApiKey key) [].
End identity.
