(* ===== verification/ApplyStorage.v ===== *)
(** Apply handlers for volumes, snapshots, templates and security groups
    (mvirt-cplane/src/state.rs, lines 2571-3151). *)

From S2P Require Import Prelude Command Event Externals Db.

(** * Volumes *)

Section volumes.
Context `{R : Redb}.

(** The template check of [CreateVolume]: the template to count the clone on,
    or the response that rejects the command. *)
Definition template_for_volume (node_id : string) (template_id : option string) (db : Db) :
    result Response (option TemplateData) :=
  match template_id with
  | None => Ok None
  | Some tid =>
      match txn_get templates tid db with
      | Some template =>
          if negb (tsp_node_id (tpl_spec template) == node_id)
          then Err (RespError 409 ("Template " +:+ tid +:+ " is on node " +:+
                 tsp_node_id (tpl_spec template) +:+ " but volume targets node " +:+ node_id))
          else Ok (Some template)
      | None => Err (RespError 404 (msg_not_found "Template" tid))
      end
  end.

Definition apply_create_volume (id timestamp project_slug node_id name : string)
    (size_bytes : u64) (template_id : option string) (db : Db) : Outcome :=
  bail! negb (txn_has projects project_slug db)
    with RespError 404 (msg_not_found "Project" project_slug) in
  match txn_get volumes id db with
  | Some existing => Early (RespVolume existing) []
  | None =>
      bail! existsb (λ v, (vos_project_slug (vol_spec v) == project_slug) &&
                          (vos_name (vol_spec v) == name)) (txn_list volumes db)
        with RespError 409 ("Volume with name '" +:+ name +:+ "' already exists in project") in
      match template_for_volume node_id template_id db with
      | Err err => Early err []
      | Ok template_to_update =>
          let volume := {|
            vol_id := id;
            vol_spec := {|
              vos_project_slug := project_slug;
              vos_node_id := node_id;
              vos_name := name;
              vos_size_bytes := size_bytes;
              vos_template_id := template_id;
            |};
            vol_status := VolumeStatus_default <| vot_compression_ratio := f64_one |>;
            vol_created_at := timestamp;
            vol_updated_at := timestamp;
          |} in
          let db :=
            match template_to_update with
            | Some template =>
                let status := tpl_status template in
                let status := status <| tst_clone_count := u32_add (tst_clone_count status) 1 |> in
                let template := template <| tpl_status := status |> in
                txn_put templates (tpl_id template) template db
            | None => db
            end in
          let db := txn_put volumes id volume db in
          Commit db (RespVolume volume) [VolumeCreated volume]
      end
  end.
End volumes.

Definition apply_delete_volume (id : string) (db : Db) : Outcome :=
  get! vol := txn_get volumes id db else RespError 404 (msg_not_found "Volume" id) in
  let db := txn_delete volumes id db in
  let db :=
    match vos_template_id (vol_spec vol) with
    | Some tid =>
        match txn_get templates tid db with
        | Some template =>
            let status := tpl_status template in
            let status :=
              status <| tst_clone_count := saturating_sub (tst_clone_count status) 1 |> in
            txn_put templates tid (template <| tpl_status := status |>) db
        | None => db
        end
    | None => db
    end in
  Commit db (RespDeleted id) [VolumeDeleted id (vos_node_id (vol_spec vol))].

Definition apply_update_volume_status (id timestamp : string) (phase : VolumePhase)
    (path : option string) (used_bytes : u64) (error : option string) (db : Db) : Outcome :=
  get! old := txn_get volumes id db else RespError 404 (msg_not_found "Volume" id) in
  let status := (vol_status old) <| vot_phase := phase |> in
  let status := match path with Some p => status <| vot_path := p |> | None => status end in
  let status := status <| vot_used_bytes := used_bytes |> in
  let status := status <| vot_error := error |> in
  let vol := old <| vol_status := status |> <| vol_updated_at := timestamp |> in
  Commit (txn_put volumes id vol db) (RespVolume vol) [VolumeStatusUpdated id old vol].

Definition apply_resize_volume (id timestamp : string) (size_bytes : u64) (db : Db) : Outcome :=
  get! vol := txn_get volumes id db else RespError 404 (msg_not_found "Volume" id) in
  bail! (size_bytes <? vos_size_bytes (vol_spec vol))%N
    with RespError 400 "Cannot shrink volume" in
  let vol := vol <| vol_spec := (vol_spec vol) <| vos_size_bytes := size_bytes |> |>
                 <| vol_updated_at := timestamp |> in
  Commit (txn_put volumes id vol db) (RespVolume vol) [].

Definition apply_create_snapshot (id timestamp volume_id name : string) (db : Db) : Outcome :=
  get! vol := txn_get volumes volume_id db
    else RespError 404 (msg_not_found "Volume" volume_id) in
  bail! existsb (λ s, sn_name s == name) (vot_snapshots (vol_status vol))
    with RespError 409 ("Snapshot with name '" +:+ name +:+ "' already exists on volume") in
  let snapshot := {|
    sn_id := id;
    sn_name := name;
    sn_created_at := timestamp;
    sn_used_bytes := 0;
  |} in
  let status := vol_status vol in
  let status := status <| vot_snapshots := vot_snapshots status ++ [snapshot] |> in
  let vol := vol <| vol_status := status |> <| vol_updated_at := timestamp |> in
  Commit (txn_put volumes volume_id vol db) (RespVolume vol) [].

(** * Templates *)

Section templates.
Context `{R : Redb}.

Definition apply_create_template (id timestamp project_slug node_id name : string)
    (size_bytes : u64) (source_url : option string) (total_bytes : u64) (db : Db) : Outcome :=
  bail! existsb (λ t, (tsp_project_slug (tpl_spec t) == project_slug) &&
                      (tsp_name (tpl_spec t) == name) &&
                      (tst_phase (tpl_status t) == TplReady)) (txn_list templates db)
    with RespError 409 ("Template with name '" +:+ name +:+ "' already exists in project") in
  match txn_get templates id db with
  | Some existing => Early (RespTemplate existing) []
  | None =>
      let phase := if is_some source_url then TplPending else TplReady in
      let template := {|
        tpl_id := id;
        tpl_spec := {|
          tsp_project_slug := project_slug;
          tsp_node_id := node_id;
          tsp_name := name;
          tsp_source_url := source_url;
        |};
        tpl_status := {|
          tst_phase := phase;
          tst_size_bytes := size_bytes;
          tst_bytes_written := 0;
          tst_total_bytes := total_bytes;
          tst_clone_count := 0;
          tst_error := None;
        |};
        tpl_created_at := timestamp;
        tpl_updated_at := timestamp;
      |} in
      Commit (txn_put templates id template db) (RespTemplate template)
        [TemplateCreated template]
  end.
End templates.

Definition apply_update_template_status (id timestamp : string) (phase : TemplatePhase)
    (bytes_written size_bytes : u64) (error : option string) (db : Db) : Outcome :=
  get! old := txn_get templates id db else RespError 404 (msg_not_found "Template" id) in
  let status := (tpl_status old) <| tst_phase := phase |> in
  let status := status <| tst_bytes_written := bytes_written |> in
  let status := status <| tst_size_bytes := size_bytes |> in
  let status := status <| tst_error := error |> in
  let new := old <| tpl_status := status |> <| tpl_updated_at := timestamp |> in
  Commit (txn_put templates id new db) (RespTemplate new) [TemplateUpdated id old new].

(** * Security groups *)

Section security_groups.
Context `{R : Redb}.

Definition apply_create_security_group (id timestamp project_slug name : string)
    (description : option string) (db : Db) : Outcome :=
  match txn_get security_groups id db with
  | Some existing => Early (RespSecurityGroup existing) []
  | None =>
      bail! existsb (λ sg, (sg_project_slug sg == project_slug) && (sg_name sg == name))
              (txn_list security_groups db)
        with RespError 409 ("Security group '" +:+ name +:+ "' already exists in project") in
      bail! negb (txn_has projects project_slug db)
        with RespError 404 (msg_not_found "Project" project_slug) in
      let sg := {|
        sg_id := id;
        sg_project_slug := project_slug;
        sg_name := name;
        sg_description := description;
        sg_rules := [];
        sg_nic_count := 0;
        sg_created_at := timestamp;
        sg_updated_at := timestamp;
      |} in
      Commit (txn_put security_groups id sg db) (RespSecurityGroup sg)
        [SecurityGroupCreated id]
  end.

Definition apply_delete_security_group (id : string) (db : Db) : Outcome :=
  bail! existsb (λ n, is_some_of (nsp_security_group_id (nic_spec n)) id) (txn_list nics db)
    with RespError 409 ("Security group '" +:+ id +:+ "' is still referenced by NICs") in
  bail! negb (txn_has security_groups id db)
    with RespError 404 (msg_not_found "Security group" id) in
  Commit (txn_delete security_groups id db) (RespDeleted id) [SecurityGroupDeleted id].
End security_groups.

Definition apply_update_security_group (timestamp id : string) (name : option string)
    (description : option (option string)) (db : Db) : Outcome :=
  get! sg := txn_get security_groups id db
    else RespError 404 (msg_not_found "Security group" id) in
  let sg := match name with Some n => sg <| sg_name := n |> | None => sg end in
  let sg := match description with Some d => sg <| sg_description := d |> | None => sg end in
  let sg := sg <| sg_updated_at := timestamp |> in
  Commit (txn_put security_groups id sg db) (RespSecurityGroup sg) [].

Definition apply_create_security_group_rule (id timestamp security_group_id : string)
    (direction : RuleDirection) (protocol : option string)
    (port_range_start port_range_end : option u16) (cidr description : option string)
    (db : Db) : Outcome :=
  get! sg := txn_get security_groups security_group_id db
    else RespError 404 (msg_not_found "Security group" security_group_id) in
  if existsb (λ r, sgr_id r == id) (sg_rules sg)
  then Early (RespSecurityGroup sg) []
  else
    let rule := {|
      sgr_id := id;
      sgr_direction := direction;
      sgr_protocol := protocol;
      sgr_port_range_start := port_range_start;
      sgr_port_range_end := port_range_end;
      sgr_cidr := cidr;
      sgr_description := description;
      sgr_created_at := timestamp;
    |} in
    let sg := sg <| sg_rules := sg_rules sg ++ [rule] |> <| sg_updated_at := timestamp |> in
    Commit (txn_put security_groups security_group_id sg db) (RespSecurityGroup sg) [].

Definition apply_delete_security_group_rule (security_group_id rule_id : string)
    (db : Db) : Outcome :=
  get! sg := txn_get security_groups security_group_id db
    else RespError 404 (msg_not_found "Security group" security_group_id) in
  let before := length (sg_rules sg) in
  let sg := sg <| sg_rules := List.filter (λ r, negb (sgr_id r == rule_id)) (sg_rules sg) |> in
  bail! Nat.eqb (length (sg_rules sg)) before
    with RespError 404 (msg_not_found "Rule" rule_id) in
  Commit (txn_put security_groups security_group_id sg db) (RespSecurityGroup sg) [].

(** [iter_mut().find(..)] followed by a write through the reference: the first
    matching rule is updated in place; [None] when no rule matches. *)
Fixpoint update_first_rule (rule_id : string) (f : SecurityGroupRuleData → SecurityGroupRuleData)
    (l : list SecurityGroupRuleData) : option (list SecurityGroupRuleData) :=
  match l with
  | [] => None
  | r :: l' =>
      if sgr_id r == rule_id then Some (f r :: l')
      else match update_first_rule rule_id f l' with
           | Some l'' => Some (r :: l'')
           | None => None
           end
  end.

Definition apply_update_security_group_rule (timestamp security_group_id rule_id : string)
    (description : option (option string)) (db : Db) : Outcome :=
  get! sg := txn_get security_groups security_group_id db
    else RespError 404 (msg_not_found "Security group" security_group_id) in
  let patch := λ rule, match description with
                       | Some d => rule <| sgr_description := d |>
                       | None => rule
                       end in
  get! rules := update_first_rule rule_id patch (sg_rules sg)
    else RespError 404 (msg_not_found "Rule" rule_id) in
  let sg := sg <| sg_rules := rules |> <| sg_updated_at := timestamp |> in
  Commit (txn_put security_groups security_group_id sg db) (RespSecurityGroup sg) [].
