(* ===== verification/Queries.v ===== *)
(** The read side of the state machine (mvirt-cplane/src/state.rs, lines 82-137
    and 244-686): lookups and filtered scans over one table each. *)

From S2P Require Import Prelude Command Event Externals Db.
From S2P Require Import ApplyIdentity.

Definition read_get {V} (d : Db) (table : Db → gmap string V) (key : string) : option V :=
  table d !! key.

Section queries.
Context `{R : Redb}.
Implicit Types d : Db.

Definition read_list {V} d (table : Db → gmap string V) : list V := (redb_iter (table d)).*2.
Definition read_keys {V} d (table : Db → gmap string V) : list string := (redb_iter (table d)).*1.
Definition read_count {V} d (table : Db → gmap string V) : nat := size (table d).

(** ** Nodes *)
Definition get_node d (id : string) : option NodeData := read_get d nodes id.
Definition get_node_by_name d (name : string) : option NodeData :=
  List.find (λ n, nd_name n == name) (read_list d nodes).
Definition list_nodes d : list NodeData := read_list d nodes.
Definition list_online_nodes d : list NodeData :=
  List.filter (λ n, nd_status n == NodeOnline) (read_list d nodes).
Definition node_count d : nat := read_count d nodes.
Definition node_ids d : list string := read_keys d nodes.

(** ** Networks *)
Definition get_network d (id : string) : option NetworkData := read_get d networks id.
Definition get_network_by_name d (name : string) : option NetworkData :=
  List.find (λ n, nw_name n == name) (read_list d networks).
Definition list_networks d : list NetworkData := read_list d networks.
Definition list_networks_by_project d (project_slug : string) : list NetworkData :=
  List.filter (λ n, nw_project_slug n == project_slug) (read_list d networks).
Definition network_count d : nat := read_count d networks.
Definition network_ids d : list string := read_keys d networks.

(** ** NICs *)
Definition get_nic d (id : string) : option NicData := read_get d nics id.
Definition get_nic_by_name d (name : string) : option NicData :=
  List.find (λ n, is_some_of (nsp_name (nic_spec n)) name) (read_list d nics).
Definition list_nics d (network_id : option string) : list NicData :=
  let all := read_list d nics in
  match network_id with
  | Some net_id => List.filter (λ n, nsp_network_id (nic_spec n) == net_id) all
  | None => all
  end.
Definition list_nics_by_project d (project_slug : string) : list NicData :=
  List.filter (λ n, nsp_project_slug (nic_spec n) == project_slug) (read_list d nics).
Definition nic_count d : nat := read_count d nics.
Definition nic_ids d : list string := read_keys d nics.

(** ** VMs *)
Definition get_vm d (id : string) : option VmData := read_get d vms id.
Definition get_vm_by_name d (name : string) : option VmData :=
  List.find (λ v, vsp_name (vm_spec v) == name) (read_list d vms).
Definition list_vms d (node_id : option string) : list VmData :=
  let all := read_list d vms in
  match node_id with
  | Some nid => List.filter (λ v, is_some_of (vst_node_id (vm_status v)) nid) all
  | None => all
  end.
Definition list_vms_by_phase d (phase : VmPhase) : list VmData :=
  List.filter (λ v, vst_phase (vm_status v) == phase) (read_list d vms).
Definition list_vms_by_project d (project_slug : string) : list VmData :=
  List.filter (λ v, vsp_project_slug (vm_spec v) == project_slug) (read_list d vms).
Definition vm_count d : nat := read_count d vms.
Definition vm_ids d : list string := read_keys d vms.

(** ** Organizations, projects, clusters *)
Definition get_org d (slug : string) : option OrgData := read_get d orgs slug.
Definition list_orgs d : list OrgData := read_list d orgs.
Definition org_count d : nat := read_count d orgs.
Definition org_slugs d : list string := read_keys d orgs.
Definition get_project d (slug : string) : option ProjectData := read_get d projects slug.
Definition list_projects d : list ProjectData := read_list d projects.
Definition list_projects_by_org d (org_slug : string) : list ProjectData :=
  List.filter (λ p, pj_org_slug p == org_slug) (read_list d projects).
Definition get_cluster d (slug : string) : option ClusterData := read_get d clusters slug.
Definition list_clusters d : list ClusterData := read_list d clusters.
Definition list_clusters_by_org d (org_slug : string) : list ClusterData :=
  List.filter (λ c, cl_org_slug c == org_slug) (read_list d clusters).
Definition list_clusters_with_node d (node_id : string) : list ClusterData :=
  List.filter (λ c, existsb (λ n, n == node_id) (cl_node_ids c)) (read_list d clusters).

(** ** Onboarding *)
Definition get_internal_ca d : option InternalCa := pki_ca d.
Definition get_server_cert d : option ServerCertData := pki_server d.
Definition list_onboarding_tokens d : list OnboardingTokenData := read_list d onboarding_tokens.
Definition list_onboarding_tokens_by_cluster d (cluster_slug : string) :
    list OnboardingTokenData :=
  List.filter (λ t, ot_cluster_slug t == cluster_slug) (read_list d onboarding_tokens).
Definition get_onboarding_token d (id : string) : option OnboardingTokenData :=
  read_get d onboarding_tokens id.
Definition list_revoked_certs d : list RevokedCertData := read_list d revoked_certs.
Definition is_cert_revoked d (serial_hex : string) : bool :=
  is_some (revoked_certs d !! serial_hex).

(** ** Accounts, memberships, API keys *)
Definition get_account d (id : string) : option AccountData := read_get d accounts id.
Definition get_account_by_oidc d (iss sub : string) : option AccountData :=
  List.find (oidc_matches iss sub) (read_list d accounts).
Definition list_accounts d : list AccountData := read_list d accounts.
Definition get_membership d (id : string) : option MembershipData := read_get d memberships id.
Definition list_memberships d : list MembershipData := read_list d memberships.
Definition list_memberships_for_account d (account_id : string) : list MembershipData :=
  List.filter (λ m, mb_account_id m == account_id) (read_list d memberships).
Definition list_memberships_at_scope d (scope : MembershipScope) : list MembershipData :=
  List.filter (λ m, mb_scope m == scope) (read_list d memberships).
Definition has_platform_admin d : bool :=
  existsb is_platform_admin_row (read_list d memberships).
Definition list_service_accounts_in_project d (project_slug : string) : list AccountData :=
  List.filter (λ a, (ac_kind a == KindServiceAccount) &&
                    is_some_of (ac_project_slug a) project_slug) (read_list d accounts).
Definition get_api_key d (id : string) : option ApiKeyData := read_get d api_keys id.
Definition list_api_keys_for_account d (account_id : string) : list ApiKeyData :=
  List.filter (λ k, ak_account_id k == account_id) (read_list d api_keys).

(** ** Volumes, templates, security groups *)
Definition get_volume d (id : string) : option VolumeData := read_get d volumes id.
Definition get_volume_by_name d (project_slug name : string) : option VolumeData :=
  List.find (λ v, (vos_project_slug (vol_spec v) == project_slug) &&
                  (vos_name (vol_spec v) == name)) (read_list d volumes).
(** [Option::is_none_or(|x| y == x)]. *)
Definition is_none_or_eq (o : option string) (y : string) : bool :=
  match o with Some x => y == x | None => true end.
Definition list_volumes d (project_slug node_id : option string) : list VolumeData :=
  List.filter (λ v, is_none_or_eq project_slug (vos_project_slug (vol_spec v)) &&
                    is_none_or_eq node_id (vos_node_id (vol_spec v))) (read_list d volumes).
Definition volume_count d : nat := read_count d volumes.
Definition volume_ids d : list string := read_keys d volumes.
Definition get_template d (id : string) : option TemplateData := read_get d templates id.
Definition get_template_by_name d (name : string) : option TemplateData :=
  List.find (λ t, tsp_name (tpl_spec t) == name) (read_list d templates).
Definition list_templates d (node_id : option string) : list TemplateData :=
  let all := read_list d templates in
  match node_id with
  | Some nid => List.filter (λ t, tsp_node_id (tpl_spec t) == nid) all
  | None => all
  end.
Definition list_templates_by_project d (project_slug : string) : list TemplateData :=
  List.filter (λ t, tsp_project_slug (tpl_spec t) == project_slug) (read_list d templates).
Definition template_count d : nat := read_count d templates.
Definition template_ids d : list string := read_keys d templates.
Definition get_security_group d (id : string) : option SecurityGroupData :=
  read_get d security_groups id.
Definition list_security_groups d : list SecurityGroupData := read_list d security_groups.
Definition list_security_groups_by_project d (project_slug : string) : list SecurityGroupData :=
  List.filter (λ sg, sg_project_slug sg == project_slug) (read_list d security_groups).
Definition security_group_count d : nat := read_count d security_groups.
Definition security_group_ids d : list string := read_keys d security_groups.

(** ** What a scan returns *)

Lemma elem_of_read_list {V} d (table : Db → gmap string V) v :
  v ∈ read_list d table ↔ ∃ k, table d !! k = Some v.
Proof. apply elem_of_txn_list. Qed.

Lemma elem_of_read_filter {V} d (table : Db → gmap string V) f v :
  v ∈ List.filter f (read_list d table) ↔ (∃ k, table d !! k = Some v) ∧ f v = true.
Proof. apply elem_of_txn_filter. Qed.
End queries.
