(* ===== verification/Scheduler.v ===== *)
(** Placement of VMs on nodes (mvirt-cplane/src/scheduler.rs). *)

From S2P Require Import Prelude Command.

Record ScheduleResult := mkScheduleResult {
  sr_node_id : string;
  sr_reason : string;
}.

Inductive ScheduleError :=
  | NoNodesAvailable
  | NoMatchingNodes (selector : string)
  | InsufficientResources (required_cpu : u32) (required_memory : u64).

Definition matches_selector (node : NodeData) (selector : string) : bool :=
  if nd_id node == selector then true
  else if nd_name node == selector then true
  else match split_once "=" selector with
       | Some (key, value) =>
           match nd_labels node !! key with
           | Some label_value => label_value == value
           | None => false
           end
       | None => false
       end.

Definition has_sufficient_resources (node : NodeData) (spec : VmSpec) : bool :=
  (vsp_cpu_cores spec <=? res_available_cpu_cores (nd_resources node))%N &&
  (vsp_memory_mb spec <=? res_available_memory_mb (nd_resources node))%N.

(** [Iterator::max_by_key]: of several maximal elements the last one. *)
Definition max_by_key {A} (key : A → N) (l : list A) : option A :=
  foldl (λ acc x, match acc with
                  | Some y => if (key y <=? key x)%N then Some x else Some y
                  | None => Some x
                  end) None l.

Definition available_memory (n : NodeData) : u64 := res_available_memory_mb (nd_resources n).

(** [None] stands for the panic of [expect], which cannot happen. *)
Definition select_node (nodes : list NodeData) (spec : VmSpec) :
    option (result ScheduleError ScheduleResult) :=
  let online_nodes := List.filter (λ n, nd_status n == NodeOnline) nodes in
  match online_nodes with
  | [] => Some (Err NoNodesAvailable)
  | _ =>
      let candidates :=
        match vsp_node_selector spec with
        | Some selector =>
            match List.filter (λ n, matches_selector n selector) online_nodes with
            | [] => Err (NoMatchingNodes selector)
            | filtered => Ok filtered
            end
        | None => Ok online_nodes
        end in
      match candidates with
      | Err e => Some (Err e)
      | Ok candidates =>
          match List.filter (λ n, has_sufficient_resources n spec) candidates with
          | [] => Some (Err (InsufficientResources (vsp_cpu_cores spec) (vsp_memory_mb spec)))
          | with_resources =>
              match max_by_key available_memory with_resources with
              | Some best_node => Some (Ok {|
                  sr_node_id := nd_id best_node;
                  sr_reason := "Selected node " +:+ nd_name best_node +:+ " with " +:+
                    pretty (available_memory best_node) +:+ "MB available memory";
                |})
              | None => None
              end
          end
      end
  end.

(** * Specification *)

Definition online (n : NodeData) : bool := nd_status n == NodeOnline.
Definition selected (spec : VmSpec) (n : NodeData) : bool :=
  match vsp_node_selector spec with Some s => matches_selector n s | None => true end.
Definition eligible (spec : VmSpec) (n : NodeData) : bool :=
  online n && selected spec n && has_sufficient_resources n spec.

Lemma max_by_key_snoc {A} (key : A → N) l x :
  max_by_key key (l ++ [x]) =
  match max_by_key key l with
  | Some y => if (key y <=? key x)%N then Some x else Some y
  | None => Some x
  end.
Proof. unfold max_by_key. by rewrite foldl_app. Qed.

(** The last of the maximal elements. *)
Lemma max_by_key_spec {A} (key : A → N) l :
  l ≠ [] → ∃ l1 x l2, max_by_key key l = Some x ∧ l = l1 ++ x :: l2 ∧
    Forall (λ y, (key y ≤ key x)%N) l1 ∧ Forall (λ y, (key y < key x)%N) l2.
Proof.
  induction l as [|x l IH] using rev_ind; [done|]. intros _. rewrite max_by_key_snoc.
  destruct (decide (l = [])) as [->|Hl]; [by exists [], x, []|].
  destruct (IH Hl) as (l1 & y & l2 & -> & -> & H1 & H2).
  destruct (N.leb_spec (key y) (key x)).
  - exists (l1 ++ y :: l2), x, []. split_and!; [done..| |done].
    apply Forall_app. split; [|constructor; [done|]].
    + eapply Forall_impl; [|exact H1]. cbn. lia.
    + eapply Forall_impl; [|exact H2]. cbn. lia.
  - exists l1, y, (l2 ++ [x]). split_and!; [done| |done|].
    + by rewrite <- app_assoc.
    + apply Forall_app. split; [done|]. by constructor.
Qed.

Lemma filter_filter {A} (f g : A → bool) l :
  List.filter f (List.filter g l) = List.filter (λ x, g x && f x) l.
Proof.
  induction l as [|x l IH]; cbn; [done|]. destruct (g x); cbn; [|done].
  destruct (f x); by rewrite IH.
Qed.

Lemma filter_nil_iff {A} (f : A → bool) l :
  List.filter f l = [] ↔ ∀ x, x ∈ l → f x = false.
Proof.
  split.
  - intros Hn x Hx. apply not_true_is_false. intros Hf.
    assert (x ∈ List.filter f l) as Hin by (apply list_elem_of_In, filter_In; by rewrite <- list_elem_of_In).
    rewrite Hn in Hin. by apply elem_of_nil in Hin.
  - intros Hf. induction l as [|x l IH]; cbn; [done|]. rewrite Hf by left.
    apply IH. intros y Hy. apply Hf. by right.
Qed.

(** A split of the filtered list comes from a split of the list. *)
Lemma filter_split {A} (f : A → bool) l l1 x l2 :
  List.filter f l = l1 ++ x :: l2 →
  ∃ k1 k2, l = k1 ++ x :: k2 ∧ f x = true ∧ List.filter f k1 = l1 ∧ List.filter f k2 = l2.
Proof.
  revert l1. induction l as [|y l IH]; intros l1; cbn.
  { by destruct l1. }
  destruct (f y) eqn:E.
  - destruct l1 as [|z l1]; cbn; intros [= -> H].
    + by exists [], l.
    + destruct (IH _ H) as (k1 & k2 & -> & Hx & <- & <-). exists (z :: k1), k2. cbn. by rewrite E.
  - intros H. destruct (IH _ H) as (k1 & k2 & -> & Hx & <- & <-). exists (y :: k1), k2.
    cbn. by rewrite E.
Qed.

Lemma Forall_filter_iff {A} (P : A → Prop) (f : A → bool) l :
  Forall P (List.filter f l) ↔ ∀ x, x ∈ l → f x = true → P x.
Proof.
  rewrite Forall_forall. setoid_rewrite list_elem_of_In. setoid_rewrite filter_In.
  split; [auto|]. intros H x [Hin Hf]. auto.
Qed.

(** What the answer of the scheduler means. *)
Definition schedule_ok (nodes : list NodeData) (spec : VmSpec)
    (r : result ScheduleError ScheduleResult) : Prop :=
  match r with
  | Ok res => ∃ before best after, nodes = before ++ best :: after ∧
      sr_node_id res = nd_id best ∧ eligible spec best = true ∧
      (∀ n, n ∈ before → eligible spec n = true →
         (available_memory n ≤ available_memory best)%N) ∧
      (∀ n, n ∈ after → eligible spec n = true →
         (available_memory n < available_memory best)%N)
  | Err NoNodesAvailable => ∀ n, n ∈ nodes → online n = false
  | Err (NoMatchingNodes s) => vsp_node_selector spec = Some s ∧
      (∃ n, n ∈ nodes ∧ online n = true) ∧
      ∀ n, n ∈ nodes → online n = true → matches_selector n s = false
  | Err (InsufficientResources cpu mem) => cpu = vsp_cpu_cores spec ∧ mem = vsp_memory_mb spec ∧
      (∃ n, n ∈ nodes ∧ online n = true ∧ selected spec n = true) ∧
      ∀ n, n ∈ nodes → online n = true → selected spec n = true →
        has_sufficient_resources n spec = false
  end.

Lemma filter_cons_elem {A} (f : A → bool) l x l' :
  List.filter f l = x :: l' → x ∈ l ∧ f x = true.
Proof.
  intros H. assert (x ∈ List.filter f l) as Hin by (rewrite H; left).
  apply list_elem_of_In, filter_In in Hin. by rewrite list_elem_of_In.
Qed.

(** The last two stages, on the nodes that passed the first two. *)
Lemma pick_spec nodes spec cand :
  cand = List.filter (λ n, online n && selected spec n) nodes → cand ≠ [] →
  ∃ r, match List.filter (λ n, has_sufficient_resources n spec) cand with
       | [] => Some (Err (InsufficientResources (vsp_cpu_cores spec) (vsp_memory_mb spec)))
       | with_resources =>
           match max_by_key available_memory with_resources with
           | Some best_node => Some (Ok {|
               sr_node_id := nd_id best_node;
               sr_reason := "Selected node " +:+ nd_name best_node +:+ " with " +:+
                 pretty (available_memory best_node) +:+ "MB available memory";
             |})
           | None => None
           end
       end = Some r ∧ schedule_ok nodes spec r.
Proof.
  intros -> Hne. rewrite filter_filter.
  change (λ x, online x && selected spec x && has_sufficient_resources x spec) with (eligible spec).
  destruct (List.filter (eligible spec) nodes) as [|b bs] eqn:Hel.
  - eexists. split; [done|]. cbn. split_and!; [done..| |].
    + destruct (List.filter _ nodes) as [|n ns] eqn:Hn in Hne; [done|].
      apply filter_cons_elem in Hn as [Hin [Ho Hs]%andb_true_iff]. eauto.
    + intros n Hin Ho Hs. rewrite filter_nil_iff in Hel. specialize (Hel n Hin).
      unfold eligible in Hel. by rewrite Ho, Hs in Hel.
  - destruct (max_by_key_spec available_memory (b :: bs)) as (l1 & x & l2 & -> & Hl & H1 & H2);
      [done|].
    eexists. split; [done|]. rewrite Hl in Hel.
    apply filter_split in Hel as (k1 & k2 & -> & Hx & <- & <-).
    exists k1, x, k2. split_and!; [done..| |]; by apply Forall_filter_iff.
Qed.

Lemma select_node_ok nodes spec :
  ∃ r, select_node nodes spec = Some r ∧ schedule_ok nodes spec r.
Proof.
  unfold select_node. cbv zeta. change (λ n, nd_status n == NodeOnline) with online.
  destruct (List.filter online nodes) as [|n0 ns] eqn:Hon.
  { eexists. split; [done|]. exact (proj1 (filter_nil_iff _ _) Hon). }
  pose proof (filter_cons_elem _ _ _ _ Hon) as [Hin0 Hn0]. rewrite <- Hon.
  destruct (vsp_node_selector spec) as [s|] eqn:Hsel.
  - destruct (List.filter (λ n, matches_selector n s) _) as [|m ms] eqn:Hm.
    + eexists. split; [done|]. cbn. split_and!; [done|eauto|]. intros n Hin Ho.
      rewrite filter_filter, filter_nil_iff in Hm. specialize (Hm n Hin). by rewrite Ho in Hm.
    + apply pick_spec; [|done]. rewrite <- Hm, filter_filter. apply filter_ext. intros n.
      unfold selected. by rewrite Hsel.
  - apply pick_spec; [|by rewrite Hon]. apply filter_ext. intros n. unfold selected.
    by rewrite Hsel, andb_true_r.
Qed.

(** C32: The scheduler always answers, and its answer is right: it picks an
    online node that matches the selector and has the resources, with the most
    available memory (the last such node on a tie); it fails only when no node
    is online, none of the online nodes matches, or none of the matching ones
    has the resources, and says which. *)
Theorem select_node_correct nodes spec :
  ∃ r, select_node nodes spec = Some r ∧ schedule_ok nodes spec r.
Proof. apply select_node_ok. Qed.
