(* ===== verification/State.v ===== *)
(** The replicated state machine of the control plane: dispatch of a command to
    its handler, the idempotency cache, snapshot and restore
    (mvirt-cplane/src/state.rs, lines 184-246 and 689-3239). *)

From S2P Require Import Prelude Command Event Externals Ca Db.
From S2P Require Import ApplyCompute ApplyTenancy ApplyIdentity ApplyStorage.

Section state.
Context `{R : Redb} `{L : LruCache} `{U : UnicodeText} `{X : X509}.

Record ApiState := mkApiState {
  db : Db;
  applied_requests : lru Response;
}.

Definition CACHE_CAPACITY : N := 1000.

(** [ApiState::with_db] on an empty database. *)
Definition api_state_new : ApiState := mkApiState db_empty (lru_new CACHE_CAPACITY).

(** The [match cmd.clone()] of [apply]. *)
Definition run_command (amb : Ambient) (cmd : Command) (d : Db) : Outcome :=
  match cmd with
  | RegisterNode _ id timestamp name address resources labels =>
      apply_register_node id timestamp name address resources labels d
  | UpdateNodeStatus _ node_id timestamp status resources =>
      apply_update_node_status node_id timestamp status resources d
  | DeregisterNode _ node_id => apply_deregister_node node_id d
  | CreateNetwork _ id timestamp project_slug name ipv4_enabled ipv4_prefix ipv6_enabled
      ipv6_prefix dns_servers ntp_servers is_public =>
      apply_create_network id timestamp project_slug name ipv4_enabled ipv4_prefix
        ipv6_enabled ipv6_prefix dns_servers ntp_servers is_public d
  | UpdateNetwork _ id timestamp dns_servers ntp_servers =>
      apply_update_network id timestamp dns_servers ntp_servers d
  | DeleteNetwork _ id force => apply_delete_network id force d
  | CreateNic _ id timestamp project_slug network_id name mac_address ipv4_address
      ipv6_address routed_ipv4_prefixes routed_ipv6_prefixes security_group_id =>
      apply_create_nic id timestamp project_slug network_id name mac_address ipv4_address
        ipv6_address routed_ipv4_prefixes routed_ipv6_prefixes security_group_id d
  | UpdateNic _ id timestamp routed_ipv4_prefixes routed_ipv6_prefixes =>
      apply_update_nic id timestamp routed_ipv4_prefixes routed_ipv6_prefixes d
  | DeleteNic _ id => apply_delete_nic id d
  | AttachNic _ id timestamp vm_id => apply_attach_nic id timestamp vm_id d
  | DetachNic _ id timestamp => apply_detach_nic id timestamp d
  | UpdateNicStatus _ id timestamp phase socket_path message =>
      apply_update_nic_status id timestamp phase socket_path message d
  | CreateVm _ id timestamp spec => apply_create_vm id timestamp spec d
  | UpdateVmSpec _ id timestamp desired_state =>
      apply_update_vm_spec id timestamp desired_state d
  | UpdateVmStatus _ id timestamp status => apply_update_vm_status id timestamp status d
  | DeleteVm _ id => apply_delete_vm (amb_utc_now amb) id d
  | CreateOrg _ timestamp slug name contact => apply_create_org timestamp slug name contact d
  | UpdateOrg _ slug timestamp name contact => apply_update_org slug timestamp name contact d
  | DeleteOrg _ slug => apply_delete_org slug d
  | CreateProject _ timestamp org_slug slug name description =>
      apply_create_project timestamp org_slug slug name description d
  | DeleteProject _ slug => apply_delete_project slug d
  | EnsureInternalCa _ _ ca => apply_ensure_internal_ca ca d
  | UpdateServerCert _ timestamp cert_pem key_pem serial_hex not_after =>
      apply_update_server_cert timestamp cert_pem key_pem serial_hex not_after d
  | CreateOnboardingToken _ timestamp id token_hash_hex cluster_slug node_id hostname
      description expires_at created_by_account =>
      apply_create_onboarding_token timestamp id token_hash_hex cluster_slug node_id hostname
        description expires_at created_by_account d
  | DeleteOnboardingToken _ cluster_slug id => apply_delete_onboarding_token cluster_slug id d
  | RedeemOnboardingToken _ timestamp token_hash_hex csr_pem hostname agent_version
      kernel_version arch =>
      apply_redeem_onboarding_token amb timestamp token_hash_hex csr_pem hostname agent_version
        kernel_version arch d
  | RevokeNodeCert _ timestamp node_id reason =>
      apply_revoke_node_cert timestamp node_id reason d
  | CreateAccountByEmail _ timestamp id email display_name =>
      apply_create_account_by_email timestamp id email display_name d
  | EnsureAccountFromOidc _ timestamp new_id iss sub email display_name =>
      apply_ensure_account_from_oidc timestamp new_id iss sub email display_name d
  | CreateMembership _ timestamp id account_id scope role created_by_account =>
      apply_create_membership timestamp id account_id scope role created_by_account d
  | DeleteMembership _ id => apply_delete_membership id d
  | BootstrapInitialPlatformAdmin _ timestamp id account_id =>
      apply_bootstrap_initial_platform_admin timestamp id account_id d
  | CreateServiceAccount _ timestamp account_id membership_id project_slug name description
      created_by_account =>
      apply_create_service_account timestamp account_id membership_id project_slug name
        description created_by_account d
  | DeleteServiceAccount _ _ account_id => apply_delete_service_account account_id d
  | CreateStaticApiKey _ timestamp id account_id hash_hex display_prefix description expires_at
      created_by_account =>
      apply_create_static_api_key timestamp id account_id hash_hex display_prefix description
        expires_at created_by_account d
  | RevokeStaticApiKey _ timestamp id => apply_revoke_static_api_key timestamp id d
  | CreateCluster _ timestamp org_slug slug name description location =>
      apply_create_cluster timestamp org_slug slug name description location d
  | UpdateCluster _ slug timestamp name description location =>
      apply_update_cluster slug timestamp name description location d
  | DeleteCluster _ slug => apply_delete_cluster slug d
  | AddNodeToCluster _ timestamp cluster_slug node_id =>
      apply_add_node_to_cluster timestamp cluster_slug node_id d
  | RemoveNodeFromCluster _ timestamp cluster_slug node_id =>
      apply_remove_node_from_cluster timestamp cluster_slug node_id d
  | CreateVolume _ id timestamp project_slug node_id name size_bytes template_id =>
      apply_create_volume id timestamp project_slug node_id name size_bytes template_id d
  | DeleteVolume _ id => apply_delete_volume id d
  | UpdateVolumeStatus _ id timestamp phase path used_bytes error =>
      apply_update_volume_status id timestamp phase path used_bytes error d
  | ResizeVolume _ id timestamp size_bytes => apply_resize_volume id timestamp size_bytes d
  | CreateSnapshot _ id timestamp volume_id name =>
      apply_create_snapshot id timestamp volume_id name d
  | CreateTemplate _ id timestamp project_slug node_id name size_bytes source_url total_bytes =>
      apply_create_template id timestamp project_slug node_id name size_bytes source_url
        total_bytes d
  | UpdateTemplateStatus _ id timestamp phase bytes_written size_bytes error =>
      apply_update_template_status id timestamp phase bytes_written size_bytes error d
  | CreateSecurityGroup _ id timestamp project_slug name description =>
      apply_create_security_group id timestamp project_slug name description d
  | UpdateSecurityGroup _ timestamp id name description =>
      apply_update_security_group timestamp id name description d
  | DeleteSecurityGroup _ id => apply_delete_security_group id d
  | CreateSecurityGroupRule _ id timestamp security_group_id direction protocol
      port_range_start port_range_end cidr description =>
      apply_create_security_group_rule id timestamp security_group_id direction protocol
        port_range_start port_range_end cidr description d
  | DeleteSecurityGroupRule _ security_group_id rule_id =>
      apply_delete_security_group_rule security_group_id rule_id d
  | UpdateSecurityGroupRule _ timestamp security_group_id rule_id description =>
      apply_update_security_group_rule timestamp security_group_id rule_id description d
  end.

(** [StateMachine::apply]. *)
Definition api_apply (amb : Ambient) (cmd : Command) (st : ApiState) :
    ApiState * Response * list Event :=
  match lru_peek (applied_requests st) (cmd_request_id cmd) with
  | Some response => (st, response, [])
  | None =>
      match run_command amb cmd (db st) with
      | Early response events => (st, response, events)
      | Commit d response events =>
          (mkApiState d (lru_put (cmd_request_id cmd) response (applied_requests st)),
           response, events)
      end
  end.

(** Applying a replicated log, each entry with the ambient inputs of the
    replica at that point. *)
Definition apply_state (st : ApiState) (e : Ambient * Command) : ApiState :=
  (api_apply e.1 e.2 st).1.1.
Definition apply_log (log : list (Ambient * Command)) (st : ApiState) : ApiState :=
  foldl apply_state st log.

(** * Snapshot and restore *)

Record SnapshotEnvelope := mkSnapshotEnvelope {
  env_nodes : gmap string NodeData;
  env_networks : gmap string NetworkData;
  env_nics : gmap string NicData;
  env_vms : gmap string VmData;
  env_orgs : gmap string OrgData;
  env_projects : gmap string ProjectData;
  env_volumes : gmap string VolumeData;
  env_templates : gmap string TemplateData;
  env_security_groups : gmap string SecurityGroupData;
}.

(** [read_list_with_keys]: the rows of a table collected into a map. *)
Definition read_list_with_keys {V} (table : Db → gmap string V) (d : Db) : gmap string V :=
  list_to_map (redb_iter (table d)).

Context `{B : Bincode SnapshotEnvelope}.

Definition api_snapshot (st : ApiState) : bincode_bytes :=
  bincode_serialize {|
    env_nodes := read_list_with_keys nodes (db st);
    env_networks := read_list_with_keys networks (db st);
    env_nics := read_list_with_keys nics (db st);
    env_vms := read_list_with_keys vms (db st);
    env_orgs := read_list_with_keys orgs (db st);
    env_projects := read_list_with_keys projects (db st);
    env_volumes := read_list_with_keys volumes (db st);
    env_templates := read_list_with_keys templates (db st);
    env_security_groups := read_list_with_keys security_groups (db st);
  |}.

(** [for (k, v) in &envelope.t { txn_put(&txn, T, k, v) }]. *)
Definition put_rows {V} (table : Db → gmap string V) `{!Setter table}
    (m : gmap string V) (d : Db) : Db :=
  map_fold (λ k v acc, txn_put table k v acc) d m.

(** [StateMachine::restore]; [None] when the bytes do not decode. Every table is
    dropped and recreated, then the tables of the envelope are filled. *)
Definition api_restore (bytes : bincode_bytes) (st : ApiState) : option ApiState :=
  match bincode_deserialize bytes with
  | None => None
  | Some envelope =>
      let d := db_empty in
      let d := put_rows nodes (env_nodes envelope) d in
      let d := put_rows networks (env_networks envelope) d in
      let d := put_rows nics (env_nics envelope) d in
      let d := put_rows vms (env_vms envelope) d in
      let d := put_rows orgs (env_orgs envelope) d in
      let d := put_rows projects (env_projects envelope) d in
      let d := put_rows volumes (env_volumes envelope) d in
      let d := put_rows templates (env_templates envelope) d in
      let d := put_rows security_groups (env_security_groups envelope) d in
      Some (mkApiState d (lru_new CACHE_CAPACITY))
  end.
End state.
