(* ===== verification/RaftStore.v ===== *)
(** The store in front of the state machine
    (mvirt-cplane/src/store/raft_store.rs, store/error.rs): each write method
    builds a command, submits it, and turns the response into its result.

    Fresh identifiers (UUIDs) and the time are drawn by the caller of the model
    and passed in; a write that Raft accepts is applied to the state machine. *)

From S2P Require Import Prelude Command Event Externals Ca Db.
From S2P Require Import ApplyCompute ApplyTenancy ApplyIdentity ApplyStorage.
From S2P Require Import Queries Scheduler State.

Inductive StoreError :=
  | NotFound (message : string)
  | Conflict (message : string)
  | VersionMismatch (expected actual : u64)
  | NotLeader (leader_id : option u64)
  | ScheduleFailed (message : string)
  | Unauthorized (message : string)
  | Validation (message : string)
  | Gone (message : string)
  | Internal (message : string).

(** What one method draws from its environment. *)
Record Fresh := mkFresh {
  f_request_id : string;
  f_id : string;
  f_id2 : string;
  f_now : string;
}.

(** A write method: its command, the responses it accepts, and the error codes
    it translates; any other error becomes [Internal], any other response is
    unexpected. *)
Record Op (A : Type) := mkOp {
  op_cmd : Command;
  op_ok : Response → option A;
  op_codes : list (u32 * (string → StoreError));
}.
Arguments mkOp {_} _ _ _.
Arguments op_cmd {_} _.
Arguments op_ok {_} _ _.
Arguments op_codes {_} _.

Fixpoint translate (codes : list (u32 * (string → StoreError))) (code : u32)
    (message : string) : StoreError :=
  match codes with
  | [] => Internal message
  | (c, mk) :: codes' => if (c =? code)%N then mk message else translate codes' code message
  end.

Definition op_decode {A} (op : Op A) (r : Response) : result StoreError A :=
  match op_ok op r with
  | Some a => Ok a
  | None =>
      match r with
      | RespError code message => Err (translate (op_codes op) code message)
      | _ => Err (Internal "unexpected response")
      end
  end.

Definition as_node r := match r with RespNode x => Some x | _ => None end.
Definition as_network r := match r with RespNetwork x => Some x | _ => None end.
Definition as_nic r := match r with RespNic x => Some x | _ => None end.
Definition as_vm r := match r with RespVm x => Some x | _ => None end.
Definition as_org r := match r with RespOrg x => Some x | _ => None end.
Definition as_project r := match r with RespProject x => Some x | _ => None end.
Definition as_cluster r := match r with RespCluster x => Some x | _ => None end.
Definition as_token r := match r with RespOnboardingToken x => Some x | _ => None end.
Definition as_account r := match r with RespAccount x => Some x | _ => None end.
Definition as_membership r := match r with RespMembership x => Some x | _ => None end.
Definition as_api_key r := match r with RespApiKey x => Some x | _ => None end.
Definition as_volume r := match r with RespVolume x => Some x | _ => None end.
Definition as_template r := match r with RespTemplate x => Some x | _ => None end.
Definition as_security_group r := match r with RespSecurityGroup x => Some x | _ => None end.
Definition as_ack r := match r with RespAck => Some tt | _ => None end.
Definition as_deleted r := match r with RespDeleted _ => Some tt | _ => None end.

Definition not_found_404 : u32 * (string → StoreError) := (404%N, NotFound).
Definition conflict_409 : u32 * (string → StoreError) := (409%N, Conflict).
Definition validation_400 : u32 * (string → StoreError) := (400%N, Validation).

(** ** Nodes *)

Definition upsert_node (f : Fresh) (id name address : string) (resources : NodeResources)
    (labels : gmap string string) : Op NodeData :=
  mkOp (RegisterNode (f_request_id f) id (f_now f) name address resources labels)
    as_node [conflict_409].
Definition register_node (f : Fresh) (name address : string) (resources : NodeResources)
    (labels : gmap string string) : Op NodeData :=
  upsert_node f (f_id f) name address resources labels.
Definition update_node_status (f : Fresh) (id : string) (status : NodeStatus)
    (resources : option NodeResources) : Op NodeData :=
  mkOp (UpdateNodeStatus (f_request_id f) id (f_now f) status resources)
    as_node [not_found_404].
Definition deregister_node (f : Fresh) (id : string) : Op unit :=
  mkOp (DeregisterNode (f_request_id f) id) as_deleted [not_found_404].

(** ** Networks *)

Definition create_network (f : Fresh) (project_slug name : string) (ipv4_enabled : bool)
    (ipv4_prefix : option string) (ipv6_enabled : bool) (ipv6_prefix : option string)
    (dns_servers ntp_servers : list string) (is_public : bool) : Op NetworkData :=
  mkOp (CreateNetwork (f_request_id f) (f_id f) (f_now f) project_slug name ipv4_enabled
          ipv4_prefix ipv6_enabled ipv6_prefix dns_servers ntp_servers is_public)
    as_network [conflict_409].
Definition update_network (f : Fresh) (id : string) (dns_servers ntp_servers : list string) :
    Op NetworkData :=
  mkOp (UpdateNetwork (f_request_id f) id (f_now f) dns_servers ntp_servers)
    as_network [not_found_404].
(** The number of NICs deleted. *)
Definition delete_network (f : Fresh) (id : string) (force : bool) : Op u32 :=
  mkOp (DeleteNetwork (f_request_id f) id force)
    (λ r, match r with
          | RespDeleted _ => Some 0%N
          | RespDeletedWithCount _ nics_deleted => Some nics_deleted
          | _ => None
          end)
    [not_found_404; conflict_409].

(** ** NICs *)

Definition create_nic (f : Fresh) (project_slug network_id : string)
    (name mac_address ipv4_address ipv6_address : option string)
    (routed_ipv4_prefixes routed_ipv6_prefixes : list string)
    (security_group_id : option string) : Op NicData :=
  mkOp (CreateNic (f_request_id f) (f_id f) (f_now f) project_slug network_id name mac_address
          ipv4_address ipv6_address routed_ipv4_prefixes routed_ipv6_prefixes security_group_id)
    as_nic [not_found_404; conflict_409].
Definition update_nic (f : Fresh) (id : string)
    (routed_ipv4_prefixes routed_ipv6_prefixes : list string) : Op NicData :=
  mkOp (UpdateNic (f_request_id f) id (f_now f) routed_ipv4_prefixes routed_ipv6_prefixes)
    as_nic [not_found_404].
Definition delete_nic (f : Fresh) (id : string) : Op unit :=
  mkOp (DeleteNic (f_request_id f) id) as_deleted [not_found_404].
Definition attach_nic (f : Fresh) (id vm_id : string) : Op NicData :=
  mkOp (AttachNic (f_request_id f) id (f_now f) vm_id) as_nic [not_found_404; conflict_409].
Definition detach_nic (f : Fresh) (id : string) : Op NicData :=
  mkOp (DetachNic (f_request_id f) id (f_now f)) as_nic [not_found_404].
Definition update_nic_status (f : Fresh) (id : string) (phase : NicPhase) (socket_path : string)
    (message : option string) : Op NicData :=
  mkOp (UpdateNicStatus (f_request_id f) id (f_now f) phase socket_path message)
    as_nic [not_found_404].

(** ** VMs *)

Definition create_vm (f : Fresh) (spec : VmSpec) : Op VmData :=
  mkOp (CreateVm (f_request_id f) (f_id f) (f_now f) spec) as_vm [not_found_404; conflict_409].
Definition update_vm_spec (f : Fresh) (id : string) (desired_state : VmDesiredState) : Op VmData :=
  mkOp (UpdateVmSpec (f_request_id f) id (f_now f) desired_state) as_vm [not_found_404].
Definition update_vm_status (f : Fresh) (id : string) (status : VmStatus) : Op VmData :=
  mkOp (UpdateVmStatus (f_request_id f) id (f_now f) status) as_vm [not_found_404].
Definition delete_vm (f : Fresh) (id : string) : Op unit :=
  mkOp (DeleteVm (f_request_id f) id) as_deleted [not_found_404].

(** ** Organizations, projects, clusters *)

Definition OrgContact_default : OrgContact := mkOrgContact None None None None None None None None.
Definition create_org (f : Fresh) (slug name : string) : Op OrgData :=
  mkOp (CreateOrg (f_request_id f) (f_now f) slug name OrgContact_default) as_org [conflict_409].
Definition update_org (f : Fresh) (slug : string) (name : option string)
    (contact : option OrgContact) : Op OrgData :=
  mkOp (UpdateOrg (f_request_id f) slug (f_now f) name contact) as_org [not_found_404].
Definition delete_org (f : Fresh) (slug : string) : Op unit :=
  mkOp (DeleteOrg (f_request_id f) slug) as_deleted [not_found_404; conflict_409].
Definition create_project (f : Fresh) (org_slug slug name : string)
    (description : option string) : Op ProjectData :=
  mkOp (CreateProject (f_request_id f) (f_now f) org_slug slug name description)
    as_project [not_found_404; conflict_409].
Definition delete_project (f : Fresh) (slug : string) : Op unit :=
  mkOp (DeleteProject (f_request_id f) slug) as_deleted [not_found_404].
Definition create_cluster (f : Fresh) (org_slug slug name : string)
    (description location : option string) : Op ClusterData :=
  mkOp (CreateCluster (f_request_id f) (f_now f) org_slug slug name description location)
    as_cluster [not_found_404; conflict_409].
Definition update_cluster (f : Fresh) (slug : string) (name : option string)
    (description location : option (option string)) : Op ClusterData :=
  mkOp (UpdateCluster (f_request_id f) slug (f_now f) name description location)
    as_cluster [not_found_404].
Definition delete_cluster (f : Fresh) (slug : string) : Op unit :=
  mkOp (DeleteCluster (f_request_id f) slug) as_deleted [not_found_404; conflict_409].
Definition add_node_to_cluster (f : Fresh) (cluster_slug node_id : string) : Op ClusterData :=
  mkOp (AddNodeToCluster (f_request_id f) (f_now f) cluster_slug node_id)
    as_cluster [not_found_404].
Definition remove_node_from_cluster (f : Fresh) (cluster_slug node_id : string) :
    Op ClusterData :=
  mkOp (RemoveNodeFromCluster (f_request_id f) (f_now f) cluster_slug node_id)
    as_cluster [not_found_404].

(** ** Volumes and templates *)

Definition create_volume (f : Fresh) (project_slug node_id name : string) (size_bytes : u64)
    (template_id : option string) : Op VolumeData :=
  mkOp (CreateVolume (f_request_id f) (f_id f) (f_now f) project_slug node_id name size_bytes
          template_id) as_volume [not_found_404; conflict_409].
Definition delete_volume (f : Fresh) (id : string) : Op unit :=
  mkOp (DeleteVolume (f_request_id f) id) as_deleted [not_found_404].
Definition resize_volume (f : Fresh) (id : string) (size_bytes : u64) : Op VolumeData :=
  mkOp (ResizeVolume (f_request_id f) id (f_now f) size_bytes)
    as_volume [not_found_404; (400%N, Conflict)].
Definition create_snapshot (f : Fresh) (volume_id name : string) : Op VolumeData :=
  mkOp (CreateSnapshot (f_request_id f) (f_id f) (f_now f) volume_id name)
    as_volume [not_found_404; conflict_409].
Definition update_volume_status (f : Fresh) (id : string) (phase : VolumePhase)
    (path : option string) (used_bytes : u64) (error : option string) : Op VolumeData :=
  mkOp (UpdateVolumeStatus (f_request_id f) id (f_now f) phase path used_bytes error)
    as_volume [not_found_404].
Definition create_template (f : Fresh) (project_slug node_id name : string) (size_bytes : u64)
    (source_url : option string) (total_bytes : u64) : Op TemplateData :=
  mkOp (CreateTemplate (f_request_id f) (f_id f) (f_now f) project_slug node_id name size_bytes
          source_url total_bytes) as_template [conflict_409].
Definition update_template_status (f : Fresh) (id : string) (phase : TemplatePhase)
    (bytes_written size_bytes : u64) (error : option string) : Op TemplateData :=
  mkOp (UpdateTemplateStatus (f_request_id f) id (f_now f) phase bytes_written size_bytes error)
    as_template [not_found_404].

(** ** Security groups *)

Definition create_security_group (f : Fresh) (project_slug name : string)
    (description : option string) : Op SecurityGroupData :=
  mkOp (CreateSecurityGroup (f_request_id f) (f_id f) (f_now f) project_slug name description)
    as_security_group [not_found_404; conflict_409].
Definition update_security_group (f : Fresh) (id : string) (name : option string)
    (description : option (option string)) : Op SecurityGroupData :=
  mkOp (UpdateSecurityGroup (f_request_id f) (f_now f) id name description)
    as_security_group [not_found_404].
Definition delete_security_group (f : Fresh) (id : string) : Op unit :=
  mkOp (DeleteSecurityGroup (f_request_id f) id) as_deleted [not_found_404; conflict_409].
Definition create_security_group_rule (f : Fresh) (security_group_id : string)
    (direction : RuleDirection) (protocol : option string)
    (port_range_start port_range_end : option u16) (cidr description : option string) :
    Op SecurityGroupData :=
  mkOp (CreateSecurityGroupRule (f_request_id f) (f_id f) (f_now f) security_group_id direction
          protocol port_range_start port_range_end cidr description)
    as_security_group [not_found_404; conflict_409].
Definition delete_security_group_rule (f : Fresh) (security_group_id rule_id : string) :
    Op SecurityGroupData :=
  mkOp (DeleteSecurityGroupRule (f_request_id f) security_group_id rule_id)
    as_security_group [not_found_404; conflict_409].
Definition update_security_group_rule (f : Fresh) (security_group_id rule_id : string)
    (description : option (option string)) : Op SecurityGroupData :=
  mkOp (UpdateSecurityGroupRule (f_request_id f) (f_now f) security_group_id rule_id description)
    as_security_group [not_found_404].

(** ** Onboarding *)

Record BootstrapOutcome := mkBootstrapOutcome {
  bo_node_id : string;
  bo_cluster_slug : string;
  bo_client_cert_pem : string;
  bo_ca_cert_pem : string;
  bo_cert_not_after : string;
}.

(** [token_hash_hex], [expires_at] and the plaintext token are computed by the
    caller's environment (SHA-256, clock, random generator); the method returns
    the plaintext with the row. *)
Definition create_onboarding_token (f : Fresh) (token_hash_hex cluster_slug hostname : string)
    (description : option string) (expires_at created_by_account bare : string) :
    Op (OnboardingTokenData * string) :=
  mkOp (CreateOnboardingToken (f_request_id f) (f_now f) (f_id f) token_hash_hex cluster_slug
          (f_id2 f) hostname description expires_at created_by_account)
    (λ r, (λ t, (t, bare)) <$> as_token r) [not_found_404; conflict_409].
Definition delete_onboarding_token (f : Fresh) (cluster_slug id : string) : Op unit :=
  mkOp (DeleteOnboardingToken (f_request_id f) cluster_slug id) as_deleted [not_found_404].
Definition redeem_onboarding_token (f : Fresh) (token_hash_hex csr_pem hostname agent_version
    kernel_version arch : string) : Op BootstrapOutcome :=
  mkOp (RedeemOnboardingToken (f_request_id f) (f_now f) token_hash_hex csr_pem hostname
          agent_version kernel_version arch)
    (λ r, match r with
          | RespBootstrapResult node client_cert_pem ca_cert_pem => Some {|
              bo_node_id := nd_id node;
              bo_cluster_slug := default "" (nd_cluster_slug node);
              bo_client_cert_pem := client_cert_pem;
              bo_ca_cert_pem := ca_cert_pem;
              bo_cert_not_after := default "" (nd_cert_expires_at node);
            |}
          | _ => None
          end)
    [(401%N, Unauthorized); (410%N, Gone); validation_400; (503%N, Internal)].
Definition revoke_node_cert (f : Fresh) (node_id : string) (reason : RevocationReason) :
    Op unit :=
  mkOp (RevokeNodeCert (f_request_id f) (f_now f) node_id reason) as_deleted [not_found_404].

(** ** Accounts *)

Definition ensure_account_from_oidc (f : Fresh) (iss sub : string)
    (email display_name : option string) : Op AccountData :=
  mkOp (EnsureAccountFromOidc (f_request_id f) (f_now f) (f_id f) iss sub email display_name)
    as_account [].
Definition create_account_by_email (f : Fresh) (email : string)
    (display_name : option string) : Op AccountData :=
  mkOp (CreateAccountByEmail (f_request_id f) (f_now f) (f_id f) email display_name)
    as_account [validation_400; conflict_409].
Definition create_membership (f : Fresh) (account_id : string) (scope : MembershipScope)
    (role : Role) (created_by_account : string) : Op MembershipData :=
  mkOp (CreateMembership (f_request_id f) (f_now f) (f_id f) account_id scope role
          created_by_account) as_membership [not_found_404; conflict_409].
Definition delete_membership (f : Fresh) (id : string) : Op unit :=
  mkOp (DeleteMembership (f_request_id f) id) as_deleted [not_found_404].
Definition bootstrap_initial_platform_admin (f : Fresh) (account_id : string) : Op unit :=
  mkOp (BootstrapInitialPlatformAdmin (f_request_id f) (f_now f) (f_id f) account_id)
    (λ r, match r with RespMembership _ | RespAck => Some tt | _ => None end) [not_found_404].
Definition create_service_account (f : Fresh) (project_slug name : string)
    (description : option string) (created_by_account : string) : Op AccountData :=
  mkOp (CreateServiceAccount (f_request_id f) (f_now f) (f_id f) (f_id2 f) project_slug name
          description created_by_account) as_account [not_found_404; conflict_409].
Definition delete_service_account (f : Fresh) (account_id : string) : Op unit :=
  mkOp (DeleteServiceAccount (f_request_id f) (f_now f) account_id)
    as_deleted [not_found_404; validation_400].
Definition create_static_api_key (f : Fresh) (account_id hash_hex display_prefix : string)
    (description expires_at : option string) (created_by_account : string) : Op ApiKeyData :=
  mkOp (CreateStaticApiKey (f_request_id f) (f_now f) (f_id f) account_id hash_hex
          display_prefix description expires_at created_by_account)
    as_api_key [not_found_404; validation_400; conflict_409].
Definition revoke_static_api_key (f : Fresh) (id : string) : Op ApiKeyData :=
  mkOp (RevokeStaticApiKey (f_request_id f) (f_now f) id) as_api_key [not_found_404].

(** * Running operations *)

Section store.
Context `{R : Redb} `{L : LruCache} `{U : UnicodeText} `{X : X509}.

Definition write_command (amb : Ambient) (cmd : Command) (st : ApiState) :
    ApiState * Response :=
  (api_apply amb cmd st).1.

Definition run_op {A} (amb : Ambient) (op : Op A) (st : ApiState) :
    ApiState * result StoreError A :=
  let '(st', r) := write_command amb (op_cmd op) st in (st', op_decode op r).

Definition update_network_status (id : string) (st : ApiState) :
    ApiState * result StoreError NetworkData :=
  (st, match get_network (db st) id with
       | Some n => Ok n
       | None => Err (NotFound (msg_not_found "Network" id))
       end).

Definition schedule_error_message (e : ScheduleError) : string :=
  match e with
  | NoNodesAvailable => "No nodes available for scheduling"
  | NoMatchingNodes selector => "No nodes match selector: " +:+ selector
  | InsufficientResources cpu mem =>
      "No nodes have sufficient resources (need " +:+ pretty cpu +:+ " CPU, " +:+ pretty mem +:+
      "MB RAM)"
  end.

(** [create_and_schedule_vm]: pick a node from the current table, create the VM,
    record the choice. [None]: the panic inside [select_node]. *)
Definition create_and_schedule_vm (amb1 amb2 : Ambient) (f1 f2 : Fresh) (spec : VmSpec)
    (st : ApiState) : option (ApiState * result StoreError VmData) :=
  match select_node (list_nodes (db st)) spec with
  | None => None
  | Some (Err e) => Some (st, Err (ScheduleFailed (schedule_error_message e)))
  | Some (Ok schedule_result) =>
      match run_op amb1 (create_vm f1 spec) st with
      | (st, Err e) => Some (st, Err e)
      | (st, Ok vm) =>
          let status := {|
            vst_phase := VmScheduled;
            vst_node_id := Some (sr_node_id schedule_result);
            vst_ip_address := None;
            vst_message := Some (sr_reason schedule_result);
          |} in
          Some (run_op amb2 (update_vm_status f2 (vm_id vm) status) st)
      end
  end.

(** [ensure_internal_ca]; [generated] is the CA the leader would create. *)
Definition ensure_internal_ca (amb : Ambient) (f : Fresh) (generated : result string InternalCa)
    (st : ApiState) : ApiState * result StoreError InternalCa :=
  match get_internal_ca (db st) with
  | Some ca => (st, Ok ca)
  | None =>
      match generated with
      | Err e => (st, Err (Internal ("generate CA: " +:+ e)))
      | Ok ca =>
          match write_command amb (EnsureInternalCa (f_request_id f) (f_now f) ca) st with
          | (st, RespAck) =>
              (st, match get_internal_ca (db st) with
                   | Some ca => Ok ca
                   | None => Err (Internal "CA missing after EnsureInternalCa")
                   end)
          | (st, RespError _ message) => (st, Err (Internal message))
          | (st, _) => (st, Err (Internal "unexpected response"))
          end
      end
  end.
End store.
