(* ===== verification/Examples.v ===== *)
(** Concrete commands and states, used to evaluate the model and as the inputs
    at which the theorems are instantiated. *)

From S2P Require Import Prelude Command Event Externals Ca Db.
From S2P Require Import ApplyCompute ApplyTenancy ApplyIdentity ApplyStorage State.
Export Models CaModel.

#[export] Instance ex_bincode : Bincode SnapshotEnvelope := bincode_model _.

Definition ex_contact : OrgContact := mkOrgContact None None None None None None None None.
Definition ex_amb : Ambient := mkAmbient "2026-01-01T00:00:00Z" 0 [1; 2; 3]%N.
Definition ex_amb' : Ambient := mkAmbient "2026-01-01T00:00:01Z" 0 [4; 5; 6]%N.
Definition ex_now : string := "2025-01-01T00:00:00Z".

Definition ex_org : Command := CreateOrg "r-org" ex_now "acme" "Acme" ex_contact.
Definition ex_project : Command := CreateProject "r-proj" ex_now "acme" "web" "Web" None.
Definition ex_cluster : Command := CreateCluster "r-cl" ex_now "acme" "eu1" "EU 1" None None.
Definition ex_network : Command :=
  CreateNetwork "r-net" "net1" ex_now "web" "lan" true (Some "10.0.0.0/24") false None [] [] false.
Definition ex_sg : Command := CreateSecurityGroup "r-sg" "sg1" ex_now "web" "default" None.
Definition ex_nic (req id : string) : Command :=
  CreateNic req id ex_now "web" "net1" None None None None [] [] (Some "sg1").
Definition ex_vm_spec (name nic : string) : VmSpec :=
  mkVmSpec name "web" None 2 1024 "vol1" nic "img" None DesiredRunning.
Definition ex_vm : Command := CreateVm "r-vm" "vm1" ex_now (ex_vm_spec "a" "nic1").
Definition ex_ca : Command := EnsureInternalCa "r-ca" ex_now (mkInternalCa "CERT" "KEY" ex_now).
Definition ex_token : Command :=
  CreateOnboardingToken "r-tok" ex_now "tok1" "hash1" "eu1" "node1" "host1" None
    "2025-01-02T00:00:00Z" "admin".
Definition ex_redeem (req : string) : Command :=
  RedeemOnboardingToken req "2025-01-01T12:00:00Z" "hash1" "CSR" "host1" "1.0" "6.1" "x86_64".

Definition ex_log (l : list Command) : list (Ambient * Command) := map (λ c, (ex_amb, c)) l.
Definition ex_base : list Command :=
  [ex_org; ex_project; ex_cluster; ex_network; ex_sg; ex_nic "r-nic1" "nic1";
   ex_nic "r-nic2" "nic2"; ex_vm; ex_ca; ex_token].
Definition ex_run (l : list Command) : ApiState := apply_log (ex_log l) api_state_new.
Definition ex_state : ApiState := ex_run ex_base.

Example ex_base_commits :
  map (λ c, resp_is_error (api_apply ex_amb c ex_state).1.2) ex_base = replicate 10 false.
Proof. vm_compute. reflexivity. Qed.

Example ex_redeem_commits :
  ∃ n, (api_apply ex_amb (ex_redeem "r-red") ex_state).1.2 = RespBootstrapResult n "PEM" "CERT".
Proof. eexists. vm_compute. reflexivity. Qed.
