(* ===== verification/StateFacts.v ===== *)
(** General facts about [api_apply]: inversion of handlers, atomicity of
    rejected commands, idempotency of retries, determinism of replay. *)

From S2P Require Import Prelude Command Event Externals Ca Db.
From S2P Require Import ApplyCompute ApplyTenancy ApplyIdentity ApplyStorage State Examples.

Create HintDb handlers.
#[export] Hint Unfold
  apply_register_node apply_update_node_status apply_deregister_node
  apply_create_network apply_update_network apply_delete_network
  apply_create_nic apply_update_nic apply_delete_nic apply_attach_nic apply_detach_nic
  apply_update_nic_status
  apply_create_vm apply_update_vm_spec apply_update_vm_status apply_delete_vm
  apply_create_org apply_update_org apply_delete_org
  apply_create_project apply_delete_project
  apply_create_cluster apply_update_cluster apply_delete_cluster
  apply_add_node_to_cluster apply_remove_node_from_cluster
  apply_ensure_internal_ca apply_update_server_cert
  apply_create_onboarding_token apply_delete_onboarding_token
  apply_redeem_onboarding_token apply_revoke_node_cert
  apply_create_account_by_email apply_ensure_account_from_oidc
  apply_create_membership apply_delete_membership apply_bootstrap_initial_platform_admin
  apply_create_service_account apply_delete_service_account
  apply_create_static_api_key apply_revoke_static_api_key
  apply_create_volume apply_delete_volume apply_update_volume_status apply_resize_volume
  apply_create_snapshot apply_create_template apply_update_template_status
  apply_create_security_group apply_update_security_group apply_delete_security_group
  apply_create_security_group_rule apply_delete_security_group_rule
  apply_update_security_group_rule : handlers.

(** Case analysis along the guards of a handler: [H] equates its outcome with
    [Early ..] or [Commit ..]; the guards that lead there become hypotheses. *)
Ltac inv_outcome H :=
  cbn [run_command] in H; autounfold with handlers in H; cbv zeta in H;
  repeat lazymatch type of H with
  | (match ?x with _ => _ end) = _ => destruct x eqn:?; try discriminate H
  end;
  first [ injection H as ? ? ?; subst | injection H as ? ?; subst | idtac ].

(** The guards in logical form. *)
Lemma txn_has_true {V} (table : Db → gmap string V) k d :
  txn_has table k d = true → ∃ v, table d !! k = Some v.
Proof. unfold txn_has. destruct (table d !! k); [eauto|done]. Qed.
Lemma txn_has_false {V} (table : Db → gmap string V) k d :
  txn_has table k d = false → table d !! k = None.
Proof. unfold txn_has. by destruct (table d !! k). Qed.
Lemma is_some_true {A} (o : option A) : is_some o = true → ∃ a, o = Some a.
Proof. destruct o; [eauto|done]. Qed.
Lemma is_some_false {A} (o : option A) : is_some o = false → o = None.
Proof. by destruct o. Qed.
Lemma is_none_true {A} (o : option A) : is_none o = true → o = None.
Proof. by destruct o. Qed.
Lemma is_none_false {A} (o : option A) : is_none o = false → ∃ a, o = Some a.
Proof. destruct o; [eauto|done]. Qed.

Lemma length_ltb_0 {A} (l : list A) : (0 <? length l)%nat = false → l = [].
Proof. by destruct l. Qed.

Ltac norm_guards :=
  repeat match goal with
  | H : (0 <? length _)%nat = false |- _ => apply length_ltb_0 in H
  | H : negb _ = true |- _ => apply negb_true_iff in H
  | H : negb _ = false |- _ => apply negb_false_iff in H
  | H : _ && _ = true |- _ => apply andb_true_iff in H as [? ?]
  | H : _ || _ = false |- _ => apply orb_false_iff in H as [? ?]
  | H : bool_decide _ = true |- _ => apply bool_decide_eq_true in H
  | H : bool_decide _ = false |- _ => apply bool_decide_eq_false in H
  | H : is_some_of _ _ = _ |- _ => unfold is_some_of in H
  | H : txn_has _ _ _ = true |- _ => apply txn_has_true in H as [? ?]
  | H : txn_has _ _ _ = false |- _ => apply txn_has_false in H
  | H : is_some _ = true |- _ => apply is_some_true in H as [? ?]
  | H : is_some _ = false |- _ => apply is_some_false in H
  | H : is_none _ = true |- _ => apply is_none_true in H
  | H : is_none _ = false |- _ => apply is_none_false in H as [? ?]
  | H : txn_get _ _ _ = _ |- _ => unfold txn_get in H; cbn in H
  | H : (_ <? _)%N = true |- _ => apply N.ltb_lt in H
  | H : (_ <? _)%N = false |- _ => apply N.ltb_ge in H
  end.

(** Commands whose handler reads only the command and the tables. *)
Definition clock_free (cmd : Command) : bool :=
  match cmd with
  | DeleteVm _ _ | RedeemOnboardingToken _ _ _ _ _ _ _ _ => false
  | _ => true
  end.

Definition is_redeem (cmd : Command) : bool :=
  match cmd with RedeemOnboardingToken _ _ _ _ _ _ _ _ => true | _ => false end.

Section facts.
Context `{R : Redb} `{L : LruCache} `{U : UnicodeText} `{X : X509}.

Lemma run_early_no_events amb cmd d r ev : run_command amb cmd d = Early r ev → ev = [].
Proof. intros H. destruct cmd; inv_outcome H; done. Qed.

Lemma run_commit_not_error amb cmd d d' r ev :
  run_command amb cmd d = Commit d' r ev → resp_is_error r = false.
Proof. intros H. destruct cmd; inv_outcome H; done. Qed.

Lemma run_clock_free a1 a2 cmd d :
  clock_free cmd = true → run_command a1 cmd d = run_command a2 cmd d.
Proof. by destruct cmd. Qed.

(** An early return does not depend on the ambient inputs, except when a
    certificate is being signed. *)
Lemma run_early_ambient a1 a2 cmd d r ev :
  is_redeem cmd = false → run_command a1 cmd d = Early r ev →
  run_command a2 cmd d = Early r ev.
Proof.
  intros Hc H. destruct (clock_free cmd) eqn:E; [by rewrite (run_clock_free a2 a1)|].
  destruct cmd; try done. cbn [run_command] in *. unfold apply_delete_vm in *.
  by destruct (txn_get vms id d).
Qed.

Lemma run_redeem_early a cmd d r ev :
  is_redeem cmd = true → run_command a cmd d = Early r ev → resp_is_error r = true.
Proof. intros Hc H. destruct cmd; try done. inv_outcome H; done. Qed.

(** ** Rejected commands *)

(** C7: a command that is answered with an error leaves the state machine
    exactly as it was (tables and idempotency cache) and emits no event, on
    every path of every handler. *)
Theorem apply_error_atomic amb cmd st st' code msg ev :
  api_apply amb cmd st = (st', RespError code msg, ev) → st' = st ∧ ev = [].
Proof.
  unfold api_apply. intros H. repeat case_match; simplify_eq; [done| |].
  - eauto using run_early_no_events.
  - by apply run_commit_not_error in H1.
Qed.

(** ** Retries *)

Definition cache_ok (st : ApiState) : Prop := lru_cap (applied_requests st) = CACHE_CAPACITY.

Lemma cache_ok_new : cache_ok api_state_new.
Proof. apply lru_cap_new. Qed.

Lemma cache_ok_apply st e : cache_ok st → cache_ok (apply_state st e).
Proof.
  unfold cache_ok, apply_state, api_apply. intros H.
  repeat case_match; cbn; rewrite ?lru_cap_put; done.
Qed.

Lemma cache_ok_log log st : cache_ok st → cache_ok (apply_log log st).
Proof. revert st. induction log; cbn; eauto using cache_ok_apply. Qed.


Lemma peek_apply_state st e k r :
  lru_peek (applied_requests st) k = Some r →
  (lru_len (applied_requests st) < lru_cap (applied_requests st))%N →
  lru_peek (applied_requests (apply_state st e)) k = Some r.
Proof.
  unfold apply_state, api_apply. intros Hk Hroom.
  destruct (lru_peek (applied_requests st) (cmd_request_id e.2)) eqn:Hp; [done|].
  destruct (run_command e.1 e.2 (db st)) eqn:Hrun; cbn; [done|].
  rewrite lru_peek_put_room; [done| |done]. intros Heq. congruence.
Qed.

Lemma len_apply_state st e :
  (lru_len (applied_requests (apply_state st e)) ≤ lru_len (applied_requests st) + 1)%N.
Proof.
  unfold apply_state, api_apply. repeat case_match; cbn; try lia. apply lru_len_put.
Qed.

(** A response that is in the cache keeps answering its request id for as
    long as the cache has room: after any log that fits, a duplicate of the
    request is answered from the cache, with no effect and no event. *)
Theorem duplicate_answered_from_cache log st cmd amb r :
  cache_ok st →
  lru_peek (applied_requests st) (cmd_request_id cmd) = Some r →
  (lru_len (applied_requests st) + N.of_nat (length log) ≤ CACHE_CAPACITY)%N →
  api_apply amb cmd (apply_log log st) = (apply_log log st, r, []).
Proof.
  intros Hc Hp Hroom. unfold api_apply.
  cut (lru_peek (applied_requests (apply_log log st)) (cmd_request_id cmd) = Some r).
  { by intros ->. }
  revert st Hc Hp Hroom. induction log as [|e log IH]; cbn; intros st Hc Hp Hroom; [done|].
  pose proof (len_apply_state st e). apply IH.
  - by apply cache_ok_apply.
  - apply peek_apply_state; [done|]. unfold cache_ok in Hc. lia.
  - lia.
Qed.

(** The request ids of the log entries whose handler runs to its commit. *)
Definition commits (st : ApiState) (e : Ambient * Command) : bool :=
  match lru_peek (applied_requests st) (cmd_request_id e.2), run_command e.1 e.2 (db st) with
  | None, Commit _ _ _ => true
  | _, _ => false
  end.
Fixpoint committed_ids (log : list (Ambient * Command)) (st : ApiState) : list string :=
  match log with
  | [] => []
  | e :: log' =>
      let rest := committed_ids log' (apply_state st e) in
      if commits st e then cmd_request_id e.2 :: rest else rest
  end.

Lemma commits_cached st e :
  cache_ok st → commits st e = true →
  lru_peek (applied_requests st) (cmd_request_id e.2) = None ∧
  is_Some (lru_peek (applied_requests (apply_state st e)) (cmd_request_id e.2)).
Proof.
  unfold commits, apply_state, api_apply. intros Hc H. repeat case_match; try done. cbn.
  split; [done|]. rewrite lru_peek_put_eq; [eauto|]. rewrite Hc. by vm_compute.
Qed.

Lemma committed_ids_fresh log st :
  cache_ok st →
  (lru_len (applied_requests st) + N.of_nat (length log) ≤ CACHE_CAPACITY)%N →
  NoDup (committed_ids log st) ∧
  ∀ id, id ∈ committed_ids log st → lru_peek (applied_requests st) id = None.
Proof.
  revert st. induction log as [|e log IH]; intros st Hc Hroom; cbn -[N.of_nat].
  { split; [constructor|]. intros id Hid. by apply elem_of_nil in Hid. }
  cbn in Hroom. pose proof (len_apply_state st e).
  destruct (IH (apply_state st e)) as [Hnd Hfresh]; [by apply cache_ok_apply|lia|].
  assert (Hback : ∀ id, id ∈ committed_ids log (apply_state st e) →
    lru_peek (applied_requests st) id = None).
  { intros id Hid. apply Hfresh in Hid. apply eq_None_not_Some. intros [r Hr].
    eapply peek_apply_state in Hr; [by rewrite Hid in Hr|]. unfold cache_ok in Hc. lia. }
  destruct (commits st e) eqn:E; [|done].
  destruct (commits_cached _ _ Hc E) as [Hnone [r Hr]]. split.
  - constructor; [|done]. intros Hin. apply Hfresh in Hin. congruence.
  - intros id [->|Hid]%elem_of_cons; auto.
Qed.

(** Over any log that fits the idempotency cache, each request id commits at
    most once, however often it occurs in the log. *)
Theorem commits_at_most_once log :
  (N.of_nat (length log) ≤ CACHE_CAPACITY)%N → NoDup (committed_ids log api_state_new).
Proof.
  intros Hlen. apply committed_ids_fresh; [apply cache_ok_new|]. cbn. by rewrite lru_len_new.
Qed.

(** ** Replay *)

(** Replicas that apply the same command log from the same state end in
    the same state, whatever their clocks and random generators return, as
    long as the log contains no [DeleteVm] and no [RedeemOnboardingToken]. *)
Theorem replay_deterministic log1 log2 st :
  Forall2 (λ e1 e2 : Ambient * Command, e1.2 = e2.2 ∧ clock_free e1.2 = true) log1 log2 →
  apply_log log1 st = apply_log log2 st.
Proof.
  intros H. revert st. induction H as [|[a1 c1] [a2 c2] l1 l2 [Hc Hf] _ IH]; intros st.
  - done.
  - cbn in Hc, Hf. subst c2.
    change (apply_log l1 (apply_state st (a1, c1)) = apply_log l2 (apply_state st (a2, c1))).
    rewrite IH. f_equal. unfold apply_state, api_apply. cbn.
    by rewrite (run_clock_free a1 a2).
Qed.

(** Two replicas whose clocks differ when they apply the same [DeleteVm]
    of a VM whose NIC is linked back to it end with different tables: the
    handler stamps the released NIC with the wall clock. *)
Theorem delete_vm_diverges a1 a2 req id d vm nic :
  vms d !! id = Some vm →
  vsp_nic_id (vm_spec vm) ≠ "" →
  nics d !! vsp_nic_id (vm_spec vm) = Some nic →
  nsp_vm_id (nic_spec nic) = Some id →
  amb_utc_now a1 ≠ amb_utc_now a2 →
  ∃ d1 d2 r1 r2 ev1 ev2,
    run_command a1 (DeleteVm req id) d = Commit d1 r1 ev1 ∧
    run_command a2 (DeleteVm req id) d = Commit d2 r2 ev2 ∧ d1 ≠ d2.
Proof.
  intros Hvm Hne Hnic Hlink Hclk. cbn [run_command]. unfold apply_delete_vm, is_some_of.
  cbn. rewrite Hvm. destruct (str_is_empty _) eqn:He.
  { by destruct (vsp_nic_id (vm_spec vm)). }
  rewrite Hnic, bool_decide_true by done. do 6 eexists. split_and!; [done..|].
  intros Heq. apply (f_equal (λ d, nic_updated_at <$> nics d !! nic_id nic)) in Heq.
  cbn in Heq. rewrite !lookup_insert_eq in Heq. cbn in Heq. congruence.
Qed.
End facts.

(** * Concrete instances *)

Definition ex_dup_org : Command := CreateOrg "r-org2" ex_now "acme" "Acme again" ex_contact.

Lemma apply_error_atomic_witness :
  ∃ st' ev,
    api_apply ex_amb ex_dup_org ex_state =
      (st', RespError 409 "Org with slug 'acme' already exists", ev) ∧
    st' = ex_state ∧ ev = [].
Proof.
  exists ex_state, [].
  assert (H : api_apply ex_amb ex_dup_org ex_state =
    (ex_state, RespError 409 "Org with slug 'acme' already exists", [])).
  { vm_compute. reflexivity. }
  split; [exact H|]. exact (apply_error_atomic _ _ _ _ _ _ _ H).
Defined.


Lemma duplicate_answered_from_cache_witness :
  ∃ r, api_apply ex_amb' ex_org (apply_log (ex_log [DeleteVm "r-del" "vm1"]) ex_state) =
    (apply_log (ex_log [DeleteVm "r-del" "vm1"]) ex_state, r, []).
Proof.
  eexists. refine (duplicate_answered_from_cache _ _ _ _ _ _ _ _).
  - vm_compute. reflexivity.
  - vm_compute. reflexivity.
  - vm_compute. discriminate.
Defined.

(** A log in which three entries carry the request id of the first. *)
Lemma commits_at_most_once_witness :
  committed_ids (ex_log [ex_org; ex_project; ex_org; ex_dup_org; ex_org]) api_state_new =
    ["r-org"; "r-proj"] ∧
  NoDup (committed_ids (ex_log [ex_org; ex_project; ex_org; ex_dup_org; ex_org]) api_state_new).
Proof.
  split; [vm_compute; reflexivity|]. apply commits_at_most_once. vm_compute. discriminate.
Defined.

Lemma replay_deterministic_witness :
  apply_log [(ex_amb, ex_org); (ex_amb, ex_project)] api_state_new =
  apply_log [(ex_amb', ex_org); (ex_amb', ex_project)] api_state_new.
Proof. apply replay_deterministic. repeat constructor. Defined.

Lemma delete_vm_diverges_witness :
  ∃ d1 d2 r1 r2 ev1 ev2,
    run_command ex_amb (DeleteVm "r-del" "vm1") (db ex_state) = Commit d1 r1 ev1 ∧
    run_command ex_amb' (DeleteVm "r-del" "vm1") (db ex_state) = Commit d2 r2 ev2 ∧ d1 ≠ d2.
Proof.
  assert (Hvm : ∃ vm, vms (db ex_state) !! "vm1" = Some vm ∧ vsp_nic_id (vm_spec vm) = "nic1").
  { eexists. split; vm_compute; reflexivity. }
  destruct Hvm as (vm & Hvm & Hn).
  assert (Hnic : ∃ nic, nics (db ex_state) !! "nic1" = Some nic ∧
                        nsp_vm_id (nic_spec nic) = Some "vm1").
  { eexists. split; vm_compute; reflexivity. }
  destruct Hnic as (nic & Hnic & Hl).
  apply (delete_vm_diverges ex_amb ex_amb' "r-del" "vm1" (db ex_state) vm nic).
  - exact Hvm.
  - rewrite Hn. discriminate.
  - rewrite Hn. exact Hnic.
  - exact Hl.
  - discriminate.
Defined.
