(* ===== verification/StoreFacts.v ===== *)
(** The store methods: every response they can receive is one they expect, and
    scheduling a VM records a node that fits it. *)

From S2P Require Import Prelude Command Event Externals Ca Db.
From S2P Require Import ApplyCompute ApplyTenancy ApplyIdentity ApplyStorage.
From S2P Require Import Queries Scheduler State RaftStore Examples StateFacts.

Definition outcome_response (o : Outcome) : Response :=
  match o with Early r _ => r | Commit _ r _ => r end.

Section store_facts.
Context `{R : Redb} `{L : LruCache} `{U : UnicodeText} `{X : X509}.

(** The method accepts whatever the handler of its command answers. *)
Definition well_typed {A} (op : Op A) : Prop :=
  ∀ amb d, let r := outcome_response (run_command amb (op_cmd op) d) in
    resp_is_error r = true ∨ is_Some (op_ok op r).

Lemma scope_missing_error scope d r : scope_missing scope d = Some r → resp_is_error r = true.
Proof. unfold scope_missing. intros H. by repeat case_match; simplify_eq. Qed.
Lemma template_for_volume_error node_id tid d r :
  template_for_volume node_id tid d = Err r → resp_is_error r = true.
Proof. unfold template_for_volume. intros H. by repeat case_match; simplify_eq. Qed.

Ltac solve_well_typed :=
  intros; intros amb d; cbv zeta;
  lazymatch goal with
  | |- context [op_cmd ?op] => let op' := eval hnf in op in change op with op'
  end; cbn [op_cmd op_ok];
  destruct (run_command amb _ d) eqn:H; cbn [outcome_response]; inv_outcome H; cbn;
  eauto using scope_missing_error, template_for_volume_error.

(** No write method of the store can meet a response it does not expect:
    the handler of its command answers with the row or acknowledgement that the
    method unpacks, or with an error. *)
Theorem store_methods_well_typed :
  (∀ f id name address res labels, well_typed (upsert_node f id name address res labels)) ∧
  (∀ f id s res, well_typed (update_node_status f id s res)) ∧
  (∀ f id, well_typed (deregister_node f id)) ∧
  (∀ f p n e4 p4 e6 p6 dns ntp pub, well_typed (create_network f p n e4 p4 e6 p6 dns ntp pub)) ∧
  (∀ f id dns ntp, well_typed (update_network f id dns ntp)) ∧
  (∀ f id force, well_typed (delete_network f id force)) ∧
  (∀ f p net n mac a4 a6 r4 r6 sg, well_typed (create_nic f p net n mac a4 a6 r4 r6 sg)) ∧
  (∀ f id r4 r6, well_typed (update_nic f id r4 r6)) ∧
  (∀ f id, well_typed (delete_nic f id)) ∧
  (∀ f id vm, well_typed (attach_nic f id vm)) ∧
  (∀ f id, well_typed (detach_nic f id)) ∧
  (∀ f id ph so msg, well_typed (update_nic_status f id ph so msg)) ∧
  (∀ f spec, well_typed (create_vm f spec)) ∧
  (∀ f id ds, well_typed (update_vm_spec f id ds)) ∧
  (∀ f id s, well_typed (update_vm_status f id s)) ∧
  (∀ f id, well_typed (delete_vm f id)) ∧
  (∀ f s n, well_typed (create_org f s n)) ∧
  (∀ f s n c, well_typed (update_org f s n c)) ∧
  (∀ f s, well_typed (delete_org f s)) ∧
  (∀ f o s n desc, well_typed (create_project f o s n desc)) ∧
  (∀ f s, well_typed (delete_project f s)) ∧
  (∀ f o s n desc l, well_typed (create_cluster f o s n desc l)) ∧
  (∀ f s n desc l, well_typed (update_cluster f s n desc l)) ∧
  (∀ f s, well_typed (delete_cluster f s)) ∧
  (∀ f c n, well_typed (add_node_to_cluster f c n)) ∧
  (∀ f c n, well_typed (remove_node_from_cluster f c n)) ∧
  (∀ f p nid n sz tpl, well_typed (create_volume f p nid n sz tpl)) ∧
  (∀ f id, well_typed (delete_volume f id)) ∧
  (∀ f id sz, well_typed (resize_volume f id sz)) ∧
  (∀ f v n, well_typed (create_snapshot f v n)) ∧
  (∀ f id ph p u e, well_typed (update_volume_status f id ph p u e)) ∧
  (∀ f p nid n sz url tot, well_typed (create_template f p nid n sz url tot)) ∧
  (∀ f id ph b sz e, well_typed (update_template_status f id ph b sz e)) ∧
  (∀ f p n desc, well_typed (create_security_group f p n desc)) ∧
  (∀ f id n desc, well_typed (update_security_group f id n desc)) ∧
  (∀ f id, well_typed (delete_security_group f id)) ∧
  (∀ f sg dir pr ps pe c desc, well_typed (create_security_group_rule f sg dir pr ps pe c desc)) ∧
  (∀ f sg rid, well_typed (delete_security_group_rule f sg rid)) ∧
  (∀ f sg rid desc, well_typed (update_security_group_rule f sg rid desc)) ∧
  (∀ f h c hn desc e a b, well_typed (create_onboarding_token f h c hn desc e a b)) ∧
  (∀ f c id, well_typed (delete_onboarding_token f c id)) ∧
  (∀ f h csr hn av kv arch, well_typed (redeem_onboarding_token f h csr hn av kv arch)) ∧
  (∀ f id reason, well_typed (revoke_node_cert f id reason)) ∧
  (∀ f iss sub e n, well_typed (ensure_account_from_oidc f iss sub e n)) ∧
  (∀ f e n, well_typed (create_account_by_email f e n)) ∧
  (∀ f a s r c, well_typed (create_membership f a s r c)) ∧
  (∀ f id, well_typed (delete_membership f id)) ∧
  (∀ f a, well_typed (bootstrap_initial_platform_admin f a)) ∧
  (∀ f p n desc c, well_typed (create_service_account f p n desc c)) ∧
  (∀ f a, well_typed (delete_service_account f a)) ∧
  (∀ f a h dp desc e c, well_typed (create_static_api_key f a h dp desc e c)) ∧
  (∀ f id, well_typed (revoke_static_api_key f id)).
Proof. split_and!. all: solve_well_typed. Qed.

(** ** Scheduling *)

(** A request id that the state machine has not cached. *)
Definition unseen (f : Fresh) (st : ApiState) : Prop :=
  lru_peek (applied_requests st) (f_request_id f) = None.

Lemma create_vm_outcome amb f spec st :
  unseen f st → vms (db st) !! f_id f = None →
  match run_op amb (create_vm f spec) st with
  | (st', Ok vm) =>
      applied_requests st' = lru_put (f_request_id f) (RespVm vm) (applied_requests st) ∧
      vms (db st') !! f_id f = Some vm ∧ vm_id vm = f_id f ∧ vm_spec vm = spec
  | (st', Err _) => st' = st
  end.
Proof.
  intros Hu Hv. unfold run_op, write_command, api_apply. cbn [op_cmd create_vm cmd_request_id].
  rewrite Hu. destruct (run_command _ _ _) eqn:H; cbn.
  - inv_outcome H; cbn; try done. norm_guards. congruence.
  - inv_outcome H; cbn; norm_guards; by rewrite lookup_insert_eq.
Qed.

Lemma update_vm_status_outcome amb f id s st vm :
  unseen f st → vms (db st) !! id = Some vm →
  ∃ vm', (run_op amb (update_vm_status f id s) st).2 = Ok vm' ∧
    vms (db (run_op amb (update_vm_status f id s) st).1) !! id = Some vm' ∧
    vm_spec vm' = vm_spec vm ∧ vm_status vm' = s.
Proof.
  intros Hu Hv. unfold run_op, write_command, api_apply. cbn [op_cmd update_vm_status cmd_request_id].
  rewrite Hu. cbn [run_command]. unfold apply_update_vm_status, txn_get. rewrite Hv. cbn.
  eexists. by rewrite lookup_insert_eq.
Qed.

End store_facts.

(** * Concrete instances *)

Definition ex_node : Command :=
  RegisterNode "r-n" "node9" ex_now "host9" "10.0.0.9:1"
    (mkNodeResources 8 16384 500 4 8192 200) ∅.

