(* ===== verification/StateReach.v ===== *)
(** Snapshot installation computed exactly, the reachable states of a replica,
    and the invariant that every row is stored under its own id. *)

From S2P Require Import Prelude Command Event Externals Ca Db.
From S2P Require Import ApplyCompute ApplyTenancy ApplyIdentity ApplyStorage State Examples.
From S2P Require Import Tables StateFacts.

(** What is left of the tables after a snapshot has been taken and installed. *)
Definition snapshot_image (d : Db) : Db :=
  db_empty <| nodes := nodes d |> <| networks := networks d |> <| nics := nics d |>
           <| vms := vms d |> <| orgs := orgs d |> <| projects := projects d |>
           <| volumes := volumes d |> <| templates := templates d |>
           <| security_groups := security_groups d |>.

Record db_keyed (d : Db) : Prop := {
  keyed_nodes : keyed nd_id (nodes d);
  keyed_networks : keyed nw_id (networks d);
  keyed_nics : keyed nic_id (nics d);
  keyed_vms : keyed vm_id (vms d);
  keyed_orgs : keyed og_slug (orgs d);
  keyed_projects : keyed pj_slug (projects d);
  keyed_clusters : keyed cl_slug (clusters d);
  keyed_volumes : keyed vol_id (volumes d);
  keyed_templates : keyed tpl_id (templates d);
  keyed_security_groups : keyed sg_id (security_groups d);
  keyed_onboarding_tokens : keyed ot_id (onboarding_tokens d);
  keyed_revoked_certs : keyed rv_serial_hex (revoked_certs d);
  keyed_accounts : keyed ac_id (accounts d);
  keyed_memberships : keyed mb_id (memberships d);
  keyed_api_keys : keyed ak_id (api_keys d);
}.

(** ** Tables under updates *)

(** The derived setter of a table is a lens. *)
Class LawfulSetter {V} (table : Db → gmap string V) `{!Setter table} := {
  set_id : ∀ d, set_field table (λ t, t) d = d;
  set_compose : ∀ f g d,
    set_field table f (set_field table g d) = set_field table (λ t, f (g t)) d;
  set_ext : ∀ f g d, f (table d) = g (table d) → set_field table f d = set_field table g d;
}.
Ltac solve_lawful := split; [by intros []|done|by intros f g [] Hfg; cbn in *; rewrite Hfg].
#[export] Hint Extern 1 (LawfulSetter _) => solve_lawful : typeclass_instances.

Lemma put_rows_union {V} (table : Db → gmap string V) `{!Setter table} `{!LawfulSetter table} m d :
  put_rows table m d = set_field table (λ t, m ∪ t) d.
Proof.
  unfold put_rows. revert m.
  apply (map_fold_weak_ind (λ r m, r = set_field table (λ t, m ∪ t) d)).
  - rewrite <- (set_id d) at 1. apply set_ext. by rewrite (left_id_L ∅ (∪)).
  - intros k v m r Hk ->. unfold txn_put. rewrite set_compose. apply set_ext.
    by rewrite insert_union_l.
Qed.

Lemma read_list_with_keys_id `{Redb} {V} (table : Db → gmap string V) d :
  read_list_with_keys table d = table d.
Proof.
  unfold read_list_with_keys. rewrite <- (list_to_map_to_list (table d)) at 2.
  apply list_to_map_proper; [|apply redb_iter_perm].
  rewrite redb_iter_perm. apply NoDup_fst_map_to_list.
Qed.

(** A loop that writes one table is one write of that table. *)
Lemma foldl_set_table {V A} (table : Db → gmap string V) `{!Setter table}
    `{!LawfulSetter table} (step : A → gmap string V → gmap string V) l d :
  foldl (λ d a, set_field table (step a) d) d l =
  set_field table (λ t, foldl (λ t a, step a t) t l) d.
Proof.
  revert d. induction l as [|a l IH]; intros d; cbn -[set_field].
  - by rewrite set_id.
  - by rewrite IH, set_compose.
Qed.

Definition token_sweep (node_id : string) (t : gmap string OnboardingTokenData)
    (tok : OnboardingTokenData) : gmap string OnboardingTokenData :=
  if (ot_node_id tok == node_id) && is_none (ot_used_at tok) then delete (ot_id tok) t else t.

Definition cluster_sweep (timestamp node_id : string) (t : gmap string ClusterData)
    (c : ClusterData) : gmap string ClusterData :=
  let c' := c <| cl_node_ids := retain_other node_id (cl_node_ids c) |> in
  if Nat.eqb (length (cl_node_ids c')) (length (cl_node_ids c)) then t
  else <[cl_slug c := c' <| cl_updated_at := timestamp |>]> t.

Lemma delete_nic_rows_frame l d :
  delete_nic_rows l d = d <| nics := foldl (λ t n, delete (nic_id n) t) (nics d) l |>.
Proof.
  unfold delete_nic_rows, txn_delete. rewrite (foldl_set_table nics (λ n, delete (nic_id n))).
  by apply set_ext.
Qed.
Lemma delete_keys_frame l d :
  delete_keys l d = d <| api_keys := foldl (λ t k, delete k t) (api_keys d) l |>.
Proof.
  unfold delete_keys, txn_delete. rewrite (foldl_set_table api_keys delete). by apply set_ext.
Qed.
Lemma delete_memberships_frame l d :
  delete_memberships l d = d <| memberships := foldl (λ t k, delete k t) (memberships d) l |>.
Proof.
  unfold delete_memberships, txn_delete. rewrite (foldl_set_table memberships delete).
  by apply set_ext.
Qed.
Lemma drop_unredeemed_tokens_frame node_id l d :
  drop_unredeemed_tokens node_id l d =
  d <| onboarding_tokens := foldl (token_sweep node_id) (onboarding_tokens d) l |>.
Proof.
  unfold drop_unredeemed_tokens.
  transitivity (set_field onboarding_tokens (λ t, foldl (token_sweep node_id) t l) d).
  - rewrite <- (foldl_set_table onboarding_tokens (λ tok t, token_sweep node_id t tok)).
    apply foldl_ext; [|done]. intros e tok. unfold token_sweep, txn_delete.
    destruct (_ && _); [done|]. by rewrite (set_id (table:=onboarding_tokens)).
  - by apply set_ext.
Qed.
Lemma remove_node_from_clusters_frame ts node_id l d :
  remove_node_from_clusters ts node_id l d =
  d <| clusters := foldl (cluster_sweep ts node_id) (clusters d) l |>.
Proof.
  unfold remove_node_from_clusters.
  transitivity (set_field clusters (λ t, foldl (cluster_sweep ts node_id) t l) d).
  - rewrite <- (foldl_set_table clusters (λ c t, cluster_sweep ts node_id t c)).
    apply foldl_ext; [|done]. intros e c. unfold cluster_sweep, txn_put. cbv zeta.
    destruct (Nat.eqb _ _); [|done]. by rewrite (set_id (table:=clusters)).
  - by apply set_ext.
Qed.

Create Rewrite HintDb frames.
#[export] Hint Rewrite delete_nic_rows_frame delete_keys_frame delete_memberships_frame
  drop_unredeemed_tokens_frame remove_node_from_clusters_frame : frames.

Lemma keyed_txn_find `{Redb} {V} (table : Db → gmap string V) (id : V → string) d f v :
  keyed id (table d) → List.find f (txn_list table d) = Some v → table d !! id v = Some v.
Proof.
  intros Hk [[k Hv] _]%txn_find_Some. by rewrite (keyed_lookup _ _ _ _ Hk Hv).
Qed.

(** The ids collected by a filtered scan are the keys of the rows it keeps. *)
Lemma filter_scan_covers `{Redb} {V} (table : Db → gmap string V) (id : V → string) d f k v :
  keyed id (table d) → table d !! k = Some v → f v = true →
  k ∈ map id (List.filter f (txn_list table d)).
Proof.
  intros Hk Hv Hf. rewrite <- (keyed_lookup _ _ _ _ Hk Hv).
  apply list_elem_of_fmap_2, elem_of_txn_filter. eauto.
Qed.

(** A filtered scan keeps as many rows as the table has of them. *)
Lemma filter_scan_count `{Redb} {V} (table : Db → gmap string V) d f :
  length (List.filter f (txn_list table d)) = map_count f (table d).
Proof.
  unfold txn_list. transitivity (length (List.filter f (map_to_list (table d)).*2)).
  { apply length_filter_perm. by rewrite redb_iter_perm. }
  induction (table d) as [|k v m Hk IH] using map_ind.
  - by rewrite map_to_list_empty, map_count_empty.
  - rewrite map_count_insert_fresh by done.
    rewrite (length_filter_perm f _ ((k, v) :: map_to_list m).*2)
      by by rewrite (map_to_list_insert m k v Hk). cbn.
    destruct (f v); cbn; by rewrite IH.
Qed.

(** A row kept by a filtered scan is the row stored under its id. *)
Lemma filter_scan_row `{Redb} {V} (table : Db → gmap string V) (id : V → string) d f v w :
  keyed id (table d) → v ∈ List.filter f (txn_list table d) →
  table d !! id v = Some w → w = v ∧ f v = true.
Proof.
  intros Hk [[k Hv] Hf]%elem_of_txn_filter Hw. rewrite (keyed_lookup _ _ _ _ Hk Hv) in Hw.
  split; congruence.
Qed.

(** [inv_outcome] for a committing run, with the resulting tables in normal
    form: loops are single writes, and every choice among tables is split. *)
Ltac inv_commit H :=
  inv_outcome H; autorewrite with frames;
  repeat match goal with
  | |- context [match ?x with _ => _ end] => destruct x eqn:?
  end;
  repeat match goal with
  | E : template_for_volume _ _ _ = _ |- _ => unfold template_for_volume in E
  | E : match ?x with _ => _ end = Some _ |- _ => destruct x eqn:?; try discriminate E
  | E : match ?x with _ => _ end = Ok _ |- _ => destruct x eqn:?; try discriminate E
  end; norm_guards;
  repeat match goal with E : _ !! _ = _ |- _ => progress cbn in E end; simplify_eq.

(** With the keyed invariant in the context, the id of a row that was read is
    the key it was read under, and a row found by a scan is stored under its id. *)
Ltac norm_keys :=
  repeat match goal with
  | K : keyed ?f (?t ?d), E : List.find _ (txn_list ?t ?d) = Some ?v |- _ =>
      let E' := fresh "Hfound" in
      pose proof (keyed_txn_find t f d _ v K E) as E';
      apply txn_find_Some in E as [_ E]
  end;
  repeat match goal with
  | K : keyed ?f ?t, E : ?t !! ?k = Some ?v |- context [?f ?v] =>
      rewrite (keyed_lookup f t k v K E)
  end.

Section reach.
Context `{R : Redb} `{L : LruCache} `{U : UnicodeText} `{X : X509}.
Context `{B : Bincode SnapshotEnvelope}.

Lemma restore_snapshot_image st st0 :
  api_restore (api_snapshot st) st0 =
  Some (mkApiState (snapshot_image (db st)) (lru_new CACHE_CAPACITY)).
Proof.
  unfold api_restore, api_snapshot. rewrite bincode_roundtrip. cbn zeta. cbn [env_nodes
    env_networks env_nics env_vms env_orgs env_projects env_volumes env_templates
    env_security_groups].
  rewrite !read_list_with_keys_id, !put_rows_union by apply _. cbn. by rewrite !(right_id_L ∅ (∪)).
Qed.

(** The states a replica can be in after [n] commands that satisfy [allowed]:
    it starts empty, applies commands, and may have its state replaced by the
    snapshot of another replica. *)
Inductive reachable (allowed : Command → bool) : nat → ApiState → Prop :=
  | reach_new : reachable allowed 0 api_state_new
  | reach_apply n st amb cmd :
      reachable allowed n st → allowed cmd = true →
      reachable allowed (S n) (api_apply amb cmd st).1.1
  | reach_install n m st st0 st' :
      reachable allowed n st → reachable allowed m st0 →
      api_restore (api_snapshot st) st0 = Some st' → reachable allowed n st'.

Lemma reachable_inv allowed (P : nat → Db → Prop) :
  P 0 db_empty →
  (∀ n d, P n d → P (S n) d) →
  (∀ n amb cmd d d' r ev, allowed cmd = true → P n d →
     run_command amb cmd d = Commit d' r ev → P (S n) d') →
  (∀ n d, P n d → P n (snapshot_image d)) →
  ∀ n st, reachable allowed n st → P n (db st).
Proof.
  intros H0 HS Hrun Hsnap n st. induction 1 as [|n st amb cmd _ IH Hok|n m st st0 st' _ IH _ _ Hr].
  - done.
  - unfold api_apply. repeat case_match; cbn; eauto.
  - rewrite restore_snapshot_image in Hr. injection Hr as <-. eauto.
Qed.

(** The same for an invariant that does not count. *)
Lemma reachable_ind_db allowed (P : Db → Prop) :
  P db_empty →
  (∀ amb cmd d d' r ev, allowed cmd = true → P d → run_command amb cmd d = Commit d' r ev → P d') →
  (∀ d, P d → P (snapshot_image d)) →
  ∀ n st, reachable allowed n st → P (db st).
Proof. intros H0 Hrun Hs n st H. eapply (reachable_inv _ (λ _, P)); eauto. Qed.

Lemma reachable_log log :
  reachable (λ _, true) (length log) (apply_log log api_state_new).
Proof.
  induction log as [|e log IH] using rev_ind; [constructor|].
  unfold apply_log. rewrite foldl_app, length_app, Nat.add_1_r. cbn.
  by apply reach_apply.
Qed.

Lemma db_keyed_run amb cmd d d' r ev :
  db_keyed d → run_command amb cmd d = Commit d' r ev → db_keyed d'.
Proof.
  intros Hd H. destruct cmd; inv_commit H; destruct Hd; split; cbn; try assumption.
  all: try solve [eauto 3 with tables].
  all: try (apply keyed_foldl; [|assumption]; intros; unfold token_sweep, cluster_sweep;
            repeat case_match; eauto with tables).
Qed.

(** Installing the snapshot of a replica gives its nodes, networks, NICs,
    VMs, organizations, projects, volumes, templates and security groups back
    exactly, whatever the installing replica held before, and starts with an
    empty idempotency cache. *)
Theorem restore_keeps_resources st st0 :
  ∃ st', api_restore (api_snapshot st) st0 = Some st' ∧
    nodes (db st') = nodes (db st) ∧ networks (db st') = networks (db st) ∧
    nics (db st') = nics (db st) ∧ vms (db st') = vms (db st) ∧
    orgs (db st') = orgs (db st) ∧ projects (db st') = projects (db st) ∧
    volumes (db st') = volumes (db st) ∧ templates (db st') = templates (db st) ∧
    security_groups (db st') = security_groups (db st) ∧
    ∀ id, lru_peek (applied_requests st') id = None.
Proof.
  eexists. split; [apply restore_snapshot_image|]. cbn. split_and!; [done..|].
  intros id. apply lru_peek_new.
Qed.

(** The snapshot leaves out clusters, onboarding tokens, revoked
    certificates, accounts, memberships, API keys and the CA and server
    certificates: the installed tables equal the originals only if all of those
    are empty. *)
Theorem restore_lossless_iff st st0 st' :
  api_restore (api_snapshot st) st0 = Some st' →
  db st' = db st ↔
    clusters (db st) = ∅ ∧ onboarding_tokens (db st) = ∅ ∧ revoked_certs (db st) = ∅ ∧
    accounts (db st) = ∅ ∧ memberships (db st) = ∅ ∧ api_keys (db st) = ∅ ∧
    pki_ca (db st) = None ∧ pki_server (db st) = None.
Proof.
  rewrite restore_snapshot_image. intros [= <-]. cbn. destruct (db st) eqn:E. cbn. split.
  - intros [= <- <- <- <- <- <- <- <-]. done.
  - intros (-> & -> & -> & -> & -> & -> & -> & ->). done.
Qed.
End reach.

(** * Concrete instances *)

Lemma restore_lossless_iff_witness :
  ∃ st', api_restore (api_snapshot ex_state) api_state_new = Some st' ∧ db st' ≠ db ex_state.
Proof.
  assert (H : ∃ st', api_restore (api_snapshot ex_state) api_state_new = Some st').
  { eexists. apply restore_snapshot_image. }
  destruct H as (st' & H). exists st'. split; [exact H|]. intros Heq.
  apply (restore_lossless_iff _ _ _ H) in Heq as (_ & _ & _ & _ & _ & _ & Hca & _).
  vm_compute in Hca. discriminate Hca.
Defined.
