(* ===== verification/StateInv.v ===== *)
(** Referential integrity of the tables and the counters derived from it
    (NICs per network and per security group, clones per template). *)

From S2P Require Import Prelude Command Event Externals Ca Db.
From S2P Require Import ApplyCompute ApplyTenancy ApplyIdentity ApplyStorage State Examples.
From S2P Require Import Tables StateFacts StateReach.

Definition nic_network_ref (n : NicData) : option string := Some (nsp_network_id (nic_spec n)).
Definition nic_sg_ref (n : NicData) : option string := nsp_security_group_id (nic_spec n).
Definition project_org_ref (p : ProjectData) : option string := Some (pj_org_slug p).
Definition volume_template_ref (v : VolumeData) : option string := vos_template_id (vol_spec v).
Definition membership_account_ref (m : MembershipData) : option string := Some (mb_account_id m).
Definition key_account_ref (k : ApiKeyData) : option string := Some (ak_account_id k).

Definition any_row {V W} (_ : V) (_ : W) : Prop := True.
Definition same_node (v : VolumeData) (t : TemplateData) : Prop :=
  tsp_node_id (tpl_spec t) = vos_node_id (vol_spec v).

(** Every id a row holds of these tables names a row that exists. *)
Record db_refs (d : Db) : Prop := {
  ref_nic_network : refs nic_network_ref any_row (nics d) (networks d);
  ref_nic_sg : refs nic_sg_ref any_row (nics d) (security_groups d);
  ref_project_org : refs project_org_ref any_row (projects d) (orgs d);
  ref_volume_template : refs volume_template_ref same_node (volumes d) (templates d);
  ref_membership_account : refs membership_account_ref any_row (memberships d) (accounts d);
  ref_key_account : refs key_account_ref any_row (api_keys d) (accounts d);
}.

Definition clone_count (t : TemplateData) : N := tst_clone_count (tpl_status t).

(** [DeleteNetwork] with [force]: removes NICs without touching the counters of
    their security groups. *)
Definition is_forced_delete (cmd : Command) : bool :=
  match cmd with DeleteNetwork _ _ force => force | _ => false end.

Definition sg_counter_rel (exact : bool) : N → N → Prop := if exact then eq else N.le.
#[export] Instance sg_counter exact : CounterRel (sg_counter_rel exact).
Proof. destruct exact; apply _. Qed.

(** After [n] commands. *)
Record db_bounds (n : nat) (d : Db) : Prop := {
  size_nics : size (nics d) ≤ n;
  size_volumes : size (volumes d) ≤ n;
  bound_sgs : map_Forall (λ _ sg, (sg_nic_count sg ≤ N.of_nat n)%N) (security_groups d);
}.

(** [exact] is set as long as no network has been deleted by force. *)
Record db_counts (exact : bool) (d : Db) : Prop := {
  count_networks : counts eq nic_network_ref nw_nic_count (nics d) (networks d);
  count_templates : counts eq volume_template_ref clone_count (volumes d) (templates d);
  count_sgs : counts (sg_counter_rel exact) nic_sg_ref sg_nic_count (nics d) (security_groups d);
}.

Lemma any_row_all {V W} (w : W) : ∀ v : V, any_row v w.
Proof. done. Qed.
#[export] Hint Resolve any_row_all : tables.
#[export] Hint Extern 1 (∀ x, _ = Some x → ∃ w, _ ∧ _) =>
  cbv [nic_network_ref nic_sg_ref project_org_ref volume_template_ref membership_account_ref
       key_account_ref any_row same_node]; cbn; intros; simplify_eq; eauto : tables.

#[export] Hint Extern 1 (∀ x, _ = Some x → _ !! x = None) =>
  cbv [nic_network_ref nic_sg_ref volume_template_ref]; intros; simplify_eq; congruence : tables.
(** A counter about to be incremented that is known to be below the limit. *)
#[export] Hint Extern 1 (_ = (_ + 1)%N) =>
  cbn; apply u32_add_small; eauto : tables.

Section inv.
Context `{R : Redb} `{L : LruCache} `{U : UnicodeText} `{X : X509}.

Lemma db_refs_run amb cmd d d' r ev :
  db_keyed d → db_refs d → run_command amb cmd d = Commit d' r ev → db_refs d'.
Proof.
  intros Hk Hd H. destruct cmd; inv_commit H; destruct Hk, Hd; split; cbn; try assumption;
    norm_keys.
  all: try solve [eauto 4 with tables].
  - apply refs_cascade; [done|]. intros k v Hv [= <-]. eapply filter_scan_covers; [done..|].
    by apply bool_decide_eq_true.
  - by apply refs_source_cascade.
  - apply refs_target_delete; [done|]. intros k v Hv [= <-].
    eapply txn_filter_nil in Hv; [|done]. cbn in Hv. by rewrite bool_decide_true in Hv.
  - apply refs_source_insert; [by apply refs_target_insert|]. intros y [= <-].
    eexists. by rewrite lookup_insert_eq.
  - apply (refs_cascade _ _ (λ k, k)); [done|]. intros k v Hv [= <-]. rewrite map_id.
    eapply (filter_scan_covers memberships mb_id d); [done..|]. by apply bool_decide_eq_true.
  - apply (refs_cascade _ _ (λ k, k)); [done|]. intros k v Hv [= <-]. rewrite map_id.
    eapply filter_scan_covers; [done..|]. by apply bool_decide_eq_true.
  - apply refs_target_delete; [done|]. intros k v Hv Hr.
    eapply txn_list_existsb_false in Hv; [|done]. unfold is_some_of in Hv.
    by rewrite bool_decide_true in Hv.
Qed.

(** Tables grow by at most one row per command, counters by at most one. *)
Lemma db_bounds_run n amb cmd d d' r ev :
  db_bounds n d → run_command amb cmd d = Commit d' r ev → db_bounds (S n) d'.
Proof.
  intros Hd H. assert (∀ k sg, security_groups d !! k = Some sg →
    (sg_nic_count sg ≤ N.of_nat n)%N) as Hb by apply Hd.
  destruct cmd; inv_commit H; destruct Hd; split; cbn.
  all: try lia; try solve [etransitivity; [apply foldl_delete_size|lia]];
    try solve [etransitivity; [apply size_insert_le|lia]];
    try solve [etransitivity; [apply size_delete_le|lia]].
  all: lazymatch goal with
    | |- map_Forall _ (delete _ _) => apply map_Forall_delete
    | |- map_Forall _ (<[_:=_]> _) => apply map_Forall_insert_2
    | _ => idtac
    end.
  all: try solve [intros k sg Hsg; apply bound_sgs0 in Hsg; cbn in Hsg; lia].
  all: cbn; unfold saturating_sub; try lia.
  all: repeat match goal with
    | E : security_groups _ !! _ = Some _ |- _ => apply Hb in E
    | |- (u32_add ?a ?b ≤ _)%N => etransitivity; [apply u32_add_le|]
    end; lia.
Qed.

Lemma db_counts_run exact n amb cmd d d' r ev :
  (N.of_nat (S n) < 2 ^ 32)%N → (exact = true → is_forced_delete cmd = false) →
  db_keyed d → db_refs d → db_bounds n d → db_counts exact d →
  run_command amb cmd d = Commit d' r ev → db_counts exact d'.
Proof.
  intros Hn Hex Hk Hr Hb Hd H.
  assert (∀ k w, networks d !! k = Some w → (nw_nic_count w + 1 < 2 ^ 32)%N) as Bn.
  { intros k w Hw. destruct Hb, Hd. eapply counts_eq_le_size in Hw; [|done]. lia. }
  assert (∀ k w, templates d !! k = Some w → (clone_count w + 1 < 2 ^ 32)%N) as Bt.
  { intros k w Hw. destruct Hb, Hd. eapply counts_eq_le_size in Hw; [|done]. lia. }
  assert (∀ k w, security_groups d !! k = Some w → (sg_nic_count w + 1 < 2 ^ 32)%N) as Bs.
  { intros k w Hw. destruct Hb as [_ _ Hs]. apply Hs in Hw. cbn in Hw. lia. }
  destruct cmd; inv_commit H; destruct Hk, Hr, Hd; split; cbn; norm_keys; try assumption.
  all: try solve [eauto 4 with tables].
  - apply counts_cascade with (1 := count_networks0). intros y w Hy Hne.
    apply foldl_delete_count. intros a v Ha Hv.
    destruct (filter_scan_row nics nic_id d _ a v ltac:(assumption) Ha Hv) as [-> Hid].
    apply bool_decide_eq_true in Hid.
    apply refers_false. unfold nic_network_ref. congruence.
  - destruct exact; cbn in *.
    + rewrite (Hex eq_refl) in *. rewrite andb_true_r in *. norm_guards. by rewrite Heqb.
    + eapply counts_le_weaken; [done|]. intros y. apply foldl_delete_count_le.
Qed.

(** ** Reachable states *)

Context `{B : Bincode SnapshotEnvelope}.

Lemma db_keyed_empty : db_keyed db_empty.
Proof. split; apply keyed_empty. Qed.
Lemma db_refs_empty : db_refs db_empty.
Proof. split; apply refs_empty. Qed.
Lemma db_bounds_empty n : db_bounds n db_empty.
Proof. split; cbn; [rewrite map_size_empty; lia..|]. apply map_Forall_empty. Qed.
Lemma db_counts_empty exact : db_counts exact db_empty.
Proof. split; apply counts_empty. Qed.

Lemma db_keyed_image d : db_keyed d → db_keyed (snapshot_image d).
Proof. intros []. split; cbn; eauto with tables. Qed.
Lemma db_refs_image d : db_refs d → db_refs (snapshot_image d).
Proof. intros []. split; cbn; eauto with tables. Qed.
Lemma db_bounds_image n d : db_bounds n d → db_bounds n (snapshot_image d).
Proof. intros []. by split. Qed.
Lemma db_counts_image exact d : db_counts exact d → db_counts exact (snapshot_image d).
Proof. intros []. by split. Qed.

Lemma db_bounds_mono n d : db_bounds n d → db_bounds (S n) d.
Proof.
  intros []. split; [lia..|]. intros k sg Hk. apply bound_sgs0 in Hk. cbn in *. lia.
Qed.

Lemma reachable_wf allowed n st :
  reachable allowed n st → db_keyed (db st) ∧ db_refs (db st).
Proof.
  revert n st. apply (reachable_ind_db allowed (λ d, db_keyed d ∧ db_refs d)).
  - auto using db_keyed_empty, db_refs_empty.
  - intros amb cmd d d' r ev _ [? ?] Hrun. eauto using db_keyed_run, db_refs_run.
  - intros d []. auto using db_keyed_image, db_refs_image.
Qed.

Lemma reachable_counts exact allowed n st :
  (exact = true → ∀ cmd, allowed cmd = true → is_forced_delete cmd = false) →
  reachable allowed n st → (N.of_nat n < 2 ^ 32)%N → db_counts exact (db st).
Proof.
  intros Hex. cut (∀ n st, reachable allowed n st →
    (db_keyed (db st) ∧ db_refs (db st) ∧ db_bounds n (db st)) ∧
    ((N.of_nat n < 2 ^ 32)%N → db_counts exact (db st))).
  { intros Hall Hr Hn. by apply (Hall n st Hr). }
  clear n st. apply (reachable_inv allowed (λ n d, (db_keyed d ∧ db_refs d ∧ db_bounds n d) ∧
    ((N.of_nat n < 2 ^ 32)%N → db_counts exact d))).
  - eauto using db_keyed_empty, db_refs_empty, db_bounds_empty, db_counts_empty.
  - intros n d [(? & ? & ?) Hc]. split_and!; auto using db_bounds_mono.
    intros. apply Hc. lia.
  - intros n amb cmd d d' r ev Hok [(? & ? & ?) Hc] Hrun. split_and!;
      eauto using db_keyed_run, db_refs_run, db_bounds_run.
    intros Hn. eapply db_counts_run; eauto. apply Hc. lia.
  - intros n d [(? & ? & ?) Hc]. split_and!;
      auto using db_keyed_image, db_refs_image, db_bounds_image, db_counts_image.
Qed.

(** C1: In every state a replica can reach, by commands and by snapshot
    installation, every row is stored under its own id, and the ids that rows
    hold of other tables exist there: the network and the security group of a
    NIC, the organization of a project, the account of a membership or API key,
    and the template of a volume, which is also on the volume's node. *)
Theorem reachable_integrity allowed n st :
  reachable allowed n st →
  db_keyed (db st) ∧
  (∀ k nic, nics (db st) !! k = Some nic →
     is_Some (networks (db st) !! nsp_network_id (nic_spec nic)) ∧
     ∀ sg, nsp_security_group_id (nic_spec nic) = Some sg →
       is_Some (security_groups (db st) !! sg)) ∧
  (∀ k p, projects (db st) !! k = Some p → is_Some (orgs (db st) !! pj_org_slug p)) ∧
  (∀ k m, memberships (db st) !! k = Some m → is_Some (accounts (db st) !! mb_account_id m)) ∧
  (∀ k a, api_keys (db st) !! k = Some a → is_Some (accounts (db st) !! ak_account_id a)) ∧
  (∀ k v tid, volumes (db st) !! k = Some v → vos_template_id (vol_spec v) = Some tid →
     ∃ t, templates (db st) !! tid = Some t ∧
       tsp_node_id (tpl_spec t) = vos_node_id (vol_spec v)).
Proof.
  intros Hr. destruct (reachable_wf _ _ _ Hr) as [Hk []]. split_and!; [done|..].
  - intros k nic Hnic. split.
    + by eapply refs_is_Some in ref_nic_network0.
    + intros sg Hsg. by eapply refs_is_Some in ref_nic_sg0.
  - intros k p Hp. by eapply refs_is_Some in ref_project_org0.
  - intros k m Hm. by eapply refs_is_Some in ref_membership_account0.
  - intros k a Ha. by eapply refs_is_Some in ref_key_account0.
  - exact ref_volume_template0.
Qed.

(** After fewer than [2 ^ 32] commands the NIC counter of a network is the
    number of NICs in it, and the clone counter of a template the number of
    volumes made from it. *)
Theorem network_and_template_counters allowed n st :
  reachable allowed n st → (N.of_nat n < 2 ^ 32)%N →
  (∀ k nw, networks (db st) !! k = Some nw →
     nw_nic_count nw =
       N.of_nat (map_count (λ nic, nsp_network_id (nic_spec nic) == k) (nics (db st)))) ∧
  (∀ k t, templates (db st) !! k = Some t →
     tst_clone_count (tpl_status t) =
       N.of_nat (map_count (λ v, vos_template_id (vol_spec v) == Some k) (volumes (db st)))).
Proof.
  intros Hr Hn. destruct (reachable_counts false allowed n st) as [Hnw Htpl _]; [done..|].
  split.
  - intros k nw Hk. rewrite <- (Hnw k nw Hk). f_equal. apply map_count_ext. intros nic.
    unfold refers, nic_network_ref. apply bool_decide_ext. split; congruence.
  - intros k t Hk. symmetry. exact (Htpl k t Hk).
Qed.

(** The NIC counter of a security group never falls below the number of
    NICs in the group, and equals it as long as no network was deleted by
    force. *)
Theorem security_group_counter allowed n st k sg :
  reachable allowed n st → (N.of_nat n < 2 ^ 32)%N → security_groups (db st) !! k = Some sg →
  let actual :=
    N.of_nat (map_count (λ nic, nsp_security_group_id (nic_spec nic) == Some k) (nics (db st))) in
  (actual ≤ sg_nic_count sg)%N ∧
  ((∀ cmd, allowed cmd = true → is_forced_delete cmd = false) → sg_nic_count sg = actual).
Proof.
  intros Hr Hn Hk. cbn. split.
  - destruct (reachable_counts false allowed n st) as [_ _ Hsg]; [done..|]. exact (Hsg k sg Hk).
  - intros Hf. destruct (reachable_counts true allowed n st) as [_ _ Hsg]; [done..|].
    symmetry. exact (Hsg k sg Hk).
Qed.

(** Deleting a network by force removes its NICs and leaves the counters of
    their security groups as they were: a counter that was exact is then too
    high. *)
Theorem forced_delete_overcounts amb req id d d' r ev k sg nic :
  db_keyed d →
  run_command amb (DeleteNetwork req id true) d = Commit d' r ev →
  nics d !! nic_id nic = Some nic → nsp_network_id (nic_spec nic) = id →
  nsp_security_group_id (nic_spec nic) = Some k →
  security_groups d !! k = Some sg →
  sg_nic_count sg =
    N.of_nat (map_count (λ nic, nsp_security_group_id (nic_spec nic) == Some k) (nics d)) →
  ∃ sg', security_groups d' !! k = Some sg' ∧
    (N.of_nat (map_count (λ nic, nsp_security_group_id (nic_spec nic) == Some k) (nics d'))
       < sg_nic_count sg')%N.
Proof.
  intros Hk H Hnic Hnet Hsgid Hsg Hc. inv_commit H. exists sg. split; [done|]. cbn.
  rewrite Hc. set (f := λ nic, _). set (l := List.filter _ _).
  assert (foldl (λ t n, delete (nic_id n) t) (nics d) l !! nic_id nic = None) as Hgone.
  { apply eq_None_not_Some. intros [v [_ Hv]%foldl_delete_Some]. apply Hv.
    eapply filter_scan_covers; [apply Hk|done|]. by apply bool_decide_eq_true. }
  pose proof (foldl_delete_count_le nic_id f (delete (nic_id nic) (nics d)) l) as Hle.
  rewrite (map_count_delete f _ _ _ Hnic). unfold f at 2. rewrite bool_decide_true by done.
  enough (foldl (λ t n, delete (nic_id n) t) (nics d) l =
          foldl (λ t n, delete (nic_id n) t) (delete (nic_id nic) (nics d)) l) as -> by lia.
  apply map_eq. intros j. apply option_eq. intros v. rewrite !foldl_delete_Some.
  rewrite lookup_delete_Some. split; [|tauto]. intros [Hj Hnot]. split_and!; [|done..].
  intros <-. apply (eq_None_not_Some _) in Hgone. apply Hgone. exists v.
  by apply foldl_delete_Some.
Qed.
End inv.

(** * Concrete instances *)

Lemma ex_reachable : reachable (λ _, true) 10 ex_state.
Proof. exact (reachable_log (ex_log ex_base)). Qed.

Lemma reachable_integrity_witness :
  db_keyed (db ex_state) ∧
  ∃ nic, nics (db ex_state) !! "nic1" = Some nic ∧
    is_Some (networks (db ex_state) !! nsp_network_id (nic_spec nic)).
Proof.
  destruct (reachable_integrity _ _ _ ex_reachable) as (Hk & Hn & _). split; [exact Hk|].
  assert (H : ∃ nic, nics (db ex_state) !! "nic1" = Some nic).
  { eexists. vm_compute. reflexivity. }
  destruct H as (nic & H). exists nic. split; [exact H|exact (proj1 (Hn _ _ H))].
Defined.

Lemma network_and_template_counters_witness :
  ∃ nw, networks (db ex_state) !! "net1" = Some nw ∧ nw_nic_count nw = 2%N ∧
  2%N = N.of_nat (map_count (λ nic, nsp_network_id (nic_spec nic) == "net1") (nics (db ex_state))).
Proof.
  assert (H : ∃ nw, networks (db ex_state) !! "net1" = Some nw ∧ nw_nic_count nw = 2%N).
  { eexists. split; vm_compute; reflexivity. }
  destruct H as (nw & Hnw & Hc). exists nw. split; [exact Hnw|]. split; [exact Hc|].
  rewrite <- Hc.
  apply (proj1 (network_and_template_counters _ _ _ ex_reachable ltac:(vm_compute; reflexivity))).
  exact Hnw.
Defined.

Lemma security_group_counter_witness :
  ∃ sg, security_groups (db ex_state) !! "sg1" = Some sg ∧
  (N.of_nat (map_count (λ nic, nsp_security_group_id (nic_spec nic) == Some "sg1")
     (nics (db ex_state))) ≤ sg_nic_count sg)%N.
Proof.
  assert (H : ∃ sg, security_groups (db ex_state) !! "sg1" = Some sg).
  { eexists. vm_compute. reflexivity. }
  destruct H as (sg & Hsg). exists sg. split; [exact Hsg|].
  exact (proj1 (security_group_counter _ _ _ _ _ ex_reachable ltac:(vm_compute; reflexivity) Hsg)).
Defined.

Lemma forced_delete_overcounts_witness :
  ∃ d' r ev sg', run_command ex_amb (DeleteNetwork "r-dn" "net1" true) (db ex_state) =
    Commit d' r ev ∧ security_groups d' !! "sg1" = Some sg' ∧
    (N.of_nat (map_count (λ nic, nsp_security_group_id (nic_spec nic) == Some "sg1") (nics d'))
       < sg_nic_count sg')%N.
Proof.
  assert (H : ∃ d' r ev, run_command ex_amb (DeleteNetwork "r-dn" "net1" true) (db ex_state) =
    Commit d' r ev). { do 3 eexists. vm_compute. reflexivity. }
  assert (Hn : ∃ nic, nics (db ex_state) !! nic_id nic = Some nic ∧
    nsp_network_id (nic_spec nic) = "net1" ∧ nsp_security_group_id (nic_spec nic) = Some "sg1").
  { destruct (nics (db ex_state) !! "nic1") as [nic|] eqn:E; vm_compute in E; [|discriminate E].
    exists nic. injection E as <-. vm_compute. auto. }
  assert (Hs : ∃ sg, security_groups (db ex_state) !! "sg1" = Some sg ∧ sg_nic_count sg =
    N.of_nat (map_count (λ nic, nsp_security_group_id (nic_spec nic) == Some "sg1")
      (nics (db ex_state)))).
  { eexists. split; vm_compute; reflexivity. }
  destruct H as (d' & r & ev & H), Hn as (nic & Hn1 & Hn2 & Hn3), Hs as (sg & Hs1 & Hs2).
  destruct (forced_delete_overcounts ex_amb "r-dn" "net1" (db ex_state) d' r ev "sg1" sg nic
    (proj1 (reachable_wf _ _ _ ex_reachable)) H Hn1 Hn2 Hn3 Hs1 Hs2) as (sg' & H1 & H2).
  exists d', r, ev, sg'. auto.
Defined.
