(* ===== verification/StateUnique.v ===== *)
(** Uniqueness: names within a project, identities of accounts, members of a
    cluster, snapshots of a volume and rules of a security group. *)

From S2P Require Import Prelude Command Event Externals Ca Db.
From S2P Require Import ApplyCompute ApplyTenancy ApplyIdentity ApplyStorage State Examples.
From S2P Require Import Tables StateFacts StateReach StateInv.

Definition network_name (n : NetworkData) : option (string * string) :=
  Some (nw_project_slug n, nw_name n).
Definition vm_name (v : VmData) : option (string * string) :=
  Some (vsp_project_slug (vm_spec v), vsp_name (vm_spec v)).
Definition volume_name (v : VolumeData) : option (string * string) :=
  Some (vos_project_slug (vol_spec v), vos_name (vol_spec v)).
(** The OIDC identity of an account that has signed in. *)
Definition oidc_identity (a : AccountData) : option (string * string) :=
  match ac_external_iss a, ac_external_sub a with
  | Some iss, Some sub => Some (iss, sub)
  | _, _ => None
  end.
Definition service_account_name (a : AccountData) : option (string * string) :=
  match ac_kind a, ac_project_slug a, ac_display_name a with
  | KindServiceAccount, Some p, Some n => Some (p, n)
  | _, _, _ => None
  end.
(** A service account has no external identity and no email. *)
Definition service_account_plain (a : AccountData) : Prop :=
  ac_kind a = KindServiceAccount →
  ac_external_iss a = None ∧ ac_external_sub a = None ∧ ac_email a = None.

Record db_names (d : Db) : Prop := {
  unique_networks : unique_by network_name (networks d);
  unique_vms : unique_by vm_name (vms d);
  unique_volumes : unique_by volume_name (volumes d);
  nodup_members : rows_nodup (λ c, map (λ n, n) (cl_node_ids c)) (clusters d);
  nodup_snapshots : rows_nodup (λ v, map sn_name (vot_snapshots (vol_status v))) (volumes d);
  nodup_rules : rows_nodup (λ g, map sgr_id (sg_rules g)) (security_groups d);
}.

Record accounts_ok (t : gmap string AccountData) : Prop := {
  unique_identities : unique_by oidc_identity t;
  unique_service_accounts : unique_by service_account_name t;
  plain_service_accounts : map_Forall (λ _, service_account_plain) t;
}.

Section unique.
Context `{R : Redb} `{L : LruCache} `{U : UnicodeText} `{X : X509}.

(** A scan for the name came back empty before the row was written. *)
Lemma unique_insert_scan {V K} (table : Db → gmap string V) (key : V → option K) d f k v :
  unique_by key (table d) → existsb f (txn_list table d) = false →
  (∀ w x, key v = Some x → key w = Some x → f w = true) →
  unique_by key (<[k:=v]> (table d)).
Proof.
  intros Hu Hscan Hf. apply unique_insert; [done|]. intros j w x Hj Hx Hy.
  eapply txn_list_existsb_false in Hj; [|done]. by rewrite (Hf w x Hx Hy) in Hj.
Qed.

Lemma update_first_rule_ids rule_id f l l' :
  (∀ r, sgr_id (f r) = sgr_id r) → update_first_rule rule_id f l = Some l' →
  map sgr_id l' = map sgr_id l.
Proof.
  intros Hf. revert l'. induction l as [|r l IH]; intros l'; cbn; [done|].
  intros H. repeat case_match; simplify_eq/=; rewrite ?Hf; [done|]. f_equal. by apply IH.
Qed.

Lemma cluster_sweep_nodup ts node_id d :
  rows_nodup (λ c, map (λ n, n) (cl_node_ids c)) (clusters d) →
  rows_nodup (λ c, map (λ n, n) (cl_node_ids c))
    (foldl (cluster_sweep ts node_id) (clusters d) (txn_list clusters d)).
Proof.
  intros Hd. apply foldl_inv; [done|]. intros t c [k Hc]%elem_of_txn_list Ht.
  unfold cluster_sweep. cbv zeta. case_match; [done|]. apply rows_nodup_insert; [done|].
  apply nodup_by_filter. exact (Hd k c Hc).
Qed.

Lemma db_names_run amb cmd d d' r ev :
  db_keyed d → db_names d → run_command amb cmd d = Commit d' r ev → db_names d'.
Proof.
  intros Hk Hd H. destruct cmd; inv_commit H; destruct Hk, Hd; split; cbn; try assumption;
    norm_keys.
  all: try solve [eauto 4 with tables].
  all: try match goal with
    | Hn : rows_nodup _ ?t, E : ?t !! _ = Some _ |- rows_nodup _ (<[_:=_]> ?t) =>
        pose proof (rows_nodup_lookup _ _ _ _ Hn E); apply rows_nodup_insert; [done|]; cbn
    end; eauto using nodup_by_snoc, nodup_by_filter, NoDup_nil_2, rows_nodup_insert.
  all: try (eapply unique_insert_scan; [done|eassumption|]; cbn; intros ? ? [= <-] [= -> ->];
            by rewrite !bool_decide_true).
  - by apply (cluster_sweep_nodup _ _ d).
  - by apply (cluster_sweep_nodup _ _ d).
  - match goal with E : update_first_rule _ _ _ = Some _ |- _ =>
      apply update_first_rule_ids in E as ->; [done|] end. by intros rl; case_match.
Qed.

(** ** Accounts *)

Lemma accounts_ok_delete t k : accounts_ok t → accounts_ok (delete k t).
Proof. intros []. split; [by apply unique_delete..|by apply map_Forall_delete]. Qed.

(** A user account may be written if its identity belongs to no other account. *)
Lemma accounts_ok_user t k a :
  accounts_ok t → ac_kind a = KindUser →
  (∀ j w x, t !! j = Some w → oidc_identity a = Some x → oidc_identity w = Some x → j = k) →
  accounts_ok (<[k:=a]> t).
Proof.
  intros [] Ha Hid. split.
  - by apply unique_insert.
  - apply unique_insert_none; [done|]. unfold service_account_name. by rewrite Ha.
  - apply map_Forall_insert_2; [|done]. unfold service_account_plain. by rewrite Ha.
Qed.

Lemma oidc_matches_identity iss sub a :
  oidc_matches iss sub a = true ↔ oidc_identity a = Some (iss, sub).
Proof.
  unfold oidc_matches, oidc_identity, is_some_of. rewrite andb_true_iff, !bool_decide_eq_true.
  split; [by intros [-> ->]|]. by repeat case_match; intros [= -> ->].
Qed.

Lemma oidc_matches_user t k a iss sub :
  accounts_ok t → t !! k = Some a → oidc_matches iss sub a = true → ac_kind a = KindUser.
Proof.
  intros [_ _ Hp] Hk Hm. destruct (ac_kind a) eqn:E; [done|].
  destruct (Hp _ _ Hk E) as (H & _). apply oidc_matches_identity in Hm.
  unfold oidc_identity in Hm. by rewrite H in Hm.
Qed.

Lemma invite_matches_user t k a lc :
  accounts_ok t → t !! k = Some a → invite_matches lc a = true → ac_kind a = KindUser.
Proof.
  intros [_ _ Hp] Hk Hm. destruct (ac_kind a) eqn:E; [done|].
  destruct (Hp _ _ Hk E) as (_ & _ & H). unfold invite_matches in Hm. rewrite H in Hm.
  by norm_guards.
Qed.

Lemma accounts_ok_oidc ts new_id iss sub email name d d' r ev :
  keyed ac_id (accounts d) → accounts_ok (accounts d) →
  apply_ensure_account_from_oidc ts new_id iss sub email name d = Commit d' r ev →
  accounts_ok (accounts d').
Proof.
  intros Hk Hd H. unfold apply_ensure_account_from_oidc in H. cbv zeta in H.
  destruct (List.find (oidc_matches iss sub) _) as [a|] eqn:Hf.
  - pose proof (keyed_txn_find _ _ _ _ _ Hk Hf) as Ha. apply txn_find_Some in Hf as [_ Hm].
    pose proof (oidc_matches_user _ _ _ _ _ Hd Ha Hm) as Hu.
    assert (Hsame : ∀ a', ac_kind a' = ac_kind a → oidc_identity a' = oidc_identity a →
      accounts_ok (<[ac_id a:=a']> (accounts d))).
    { intros a' Hki Ho. apply accounts_ok_user; [done|congruence|]. rewrite Ho.
      intros j w y Hj Hy Hw. destruct Hd as [Huq _ _]. by apply (Huq j (ac_id a) w a y). }
    repeat case_match; simplify_eq/=; try done; by apply Hsame.
  - assert (Hnew : ∀ k a', ac_kind a' = KindUser → oidc_identity a' = Some (iss, sub) →
      accounts_ok (<[k:=a']> (accounts d))).
    { intros k a' Hki Ho. apply accounts_ok_user; [done|done|]. rewrite Ho.
      intros j w y Hj [= <-] Hw%oidc_matches_identity.
      eapply txn_find_None in Hj; [|exact Hf]. congruence. }
    destruct (e ← email; _) as [a|] eqn:He.
    + assert (ac_kind a = KindUser) as Hu.
      { apply bind_Some in He as (e & _ & He).
        pose proof (keyed_txn_find _ _ _ _ _ Hk He). apply txn_find_Some in He as [_ He].
        by eapply invite_matches_user. }
      case_match; simplify_eq/=; by apply Hnew.
    + simplify_eq/=. by apply Hnew.
Qed.

Lemma db_accounts_run amb cmd d d' r ev :
  db_keyed d → accounts_ok (accounts d) → run_command amb cmd d = Commit d' r ev →
  accounts_ok (accounts d').
Proof.
  intros Hk Hd H. destruct cmd; try solve [cbn in H; by eapply accounts_ok_oidc; [apply Hk|..]];
    inv_commit H; cbn; try assumption.
  - by apply accounts_ok_user.
  - destruct Hd as [Hi Hs Hp]. split.
    + by apply unique_insert_none.
    + eapply unique_insert_scan; [done|eassumption|]. intros w y [= <-].
      unfold service_account_name, is_some_of. repeat case_match; intros [= -> ->].
      by rewrite !bool_decide_true.
    + by apply map_Forall_insert_2.
  - by apply accounts_ok_delete.
Qed.

(** ** Reachable states *)

Context `{B : Bincode SnapshotEnvelope}.

Lemma db_names_empty : db_names db_empty.
Proof. split; eauto with tables. Qed.
Lemma accounts_ok_empty : accounts_ok ∅.
Proof. split; [apply unique_empty..|apply map_Forall_empty]. Qed.
Lemma db_names_image d : db_names d → db_names (snapshot_image d).
Proof. intros []. split; cbn; eauto with tables. Qed.

Lemma reachable_unique allowed n st :
  reachable allowed n st → db_names (db st) ∧ accounts_ok (accounts (db st)).
Proof.
  intros Hr. cut (db_keyed (db st) ∧ db_names (db st) ∧ accounts_ok (accounts (db st)));
    [tauto|].
  revert n st Hr. apply (reachable_ind_db allowed
    (λ d, db_keyed d ∧ db_names d ∧ accounts_ok (accounts d))).
  - split_and!; [apply db_keyed_empty|apply db_names_empty|apply accounts_ok_empty].
  - intros amb cmd d d' r ev _ (? & ? & ?) Hrun.
    split_and!; eauto using db_keyed_run, db_names_run. by eapply db_accounts_run.
  - intros d (? & ? & ?). split_and!;
      [by apply db_keyed_image|by apply db_names_image|apply accounts_ok_empty].
Qed.

(** C16: In every reachable state two networks, VMs or volumes of one project
    with the same name are the same row; a cluster lists a node at most once,
    a volume has no two snapshots with one name and a security group no two
    rules with one id. *)
Theorem names_unique allowed n st :
  reachable allowed n st →
  (∀ i j a b, networks (db st) !! i = Some a → networks (db st) !! j = Some b →
     nw_project_slug a = nw_project_slug b → nw_name a = nw_name b → i = j) ∧
  (∀ i j a b, vms (db st) !! i = Some a → vms (db st) !! j = Some b →
     vsp_project_slug (vm_spec a) = vsp_project_slug (vm_spec b) →
     vsp_name (vm_spec a) = vsp_name (vm_spec b) → i = j) ∧
  (∀ i j a b, volumes (db st) !! i = Some a → volumes (db st) !! j = Some b →
     vos_project_slug (vol_spec a) = vos_project_slug (vol_spec b) →
     vos_name (vol_spec a) = vos_name (vol_spec b) → i = j) ∧
  (∀ k c, clusters (db st) !! k = Some c → NoDup (cl_node_ids c)) ∧
  (∀ k v, volumes (db st) !! k = Some v → NoDup (map sn_name (vot_snapshots (vol_status v)))) ∧
  (∀ k g, security_groups (db st) !! k = Some g → NoDup (map sgr_id (sg_rules g))).
Proof.
  intros Hr. destruct (reachable_unique _ _ _ Hr) as [[Hnw Hvm Hvol Hm Hs Hg] _].
  split_and!.
  - intros i j a b Hi Hj Hp Hn. eapply Hnw; [done..|]. unfold network_name. congruence.
  - intros i j a b Hi Hj Hp Hn. eapply Hvm; [done..|]. unfold vm_name. congruence.
  - intros i j a b Hi Hj Hp Hn. eapply Hvol; [done..|]. unfold volume_name. congruence.
  - intros k c Hc. rewrite <- (map_id (cl_node_ids c)). exact (Hm k c Hc).
  - exact Hs.
  - exact Hg.
Qed.

(** In every reachable state an OIDC identity (issuer and subject) belongs
    to at most one account, and so does the name of a service account within its
    project; a service account has no OIDC identity, so nobody can sign in as
    one. *)
Theorem account_identity_unique allowed n st i j a b :
  reachable allowed n st → accounts (db st) !! i = Some a → accounts (db st) !! j = Some b →
  (ac_external_iss a = ac_external_iss b → is_Some (ac_external_iss a) →
   ac_external_sub a = ac_external_sub b → is_Some (ac_external_sub a) → i = j) ∧
  (ac_kind a = KindServiceAccount → ac_kind b = KindServiceAccount →
   ac_project_slug a = ac_project_slug b → is_Some (ac_project_slug a) →
   ac_display_name a = ac_display_name b → is_Some (ac_display_name a) → i = j) ∧
  (ac_kind a = KindServiceAccount → ∀ iss sub, oidc_matches iss sub a = false).
Proof.
  intros Hr Ha Hb. destruct (reachable_unique _ _ _ Hr) as [_ Hok]. pose proof Hok as [Hi Hs _].
  split_and!.
  - intros H1 [x Hx] H2 [y Hy]. eapply Hi; [done..| |]; unfold oidc_identity.
    + by rewrite Hx, Hy.
    + by rewrite <- H1, <- H2, Hx, Hy.
  - intros Ka Kb H1 [x Hx] H2 [y Hy]. eapply Hs; [done..| |]; unfold service_account_name.
    + by rewrite Ka, Hx, Hy.
    + by rewrite Kb, <- H1, <- H2, Hx, Hy.
  - intros Ka iss sub. apply not_true_iff_false. intros Hm.
    pose proof (oidc_matches_user _ _ _ _ _ Hok Ha Hm). congruence.
Qed.
End unique.

(** * Concrete instances *)

Lemma names_unique_witness :
  ∃ c, clusters (db ex_state) !! "eu1" = Some c ∧ "node1" ∈ cl_node_ids c ∧
    NoDup (cl_node_ids c).
Proof.
  assert (H : ∃ c, clusters (db ex_state) !! "eu1" = Some c ∧ cl_node_ids c = ["node1"]).
  { eexists. split; vm_compute; reflexivity. }
  destruct H as (c & Hc & Hn). exists c. split; [exact Hc|]. split; [rewrite Hn; left|].
  exact (proj1 (proj2 (proj2 (proj2 (names_unique _ _ _ ex_reachable)))) _ _ Hc).
Defined.

Definition ex_sa : Command :=
  CreateServiceAccount "r-sa" ex_now "sa1" "mb1" "web" "deployer" None "admin".

Lemma account_identity_unique_witness :
  ∃ a, accounts (db (ex_run [ex_org; ex_project; ex_sa])) !! "sa1" = Some a ∧
  oidc_matches "iss" "sub" a = false.
Proof.
  assert (H : ∃ a, accounts (db (ex_run [ex_org; ex_project; ex_sa])) !! "sa1" = Some a ∧
    ac_kind a = KindServiceAccount). { eexists. split; vm_compute; reflexivity. }
  destruct H as (a & Ha & Hk). exists a. split; [exact Ha|].
  exact (proj2 (proj2 (account_identity_unique _ _ _ _ _ a a
    (reachable_log (ex_log [ex_org; ex_project; ex_sa])) Ha Ha)) Hk "iss" "sub").
Defined.
