(* ===== verification/StateHistory.v ===== *)
(** What one command, or a whole log, can and cannot change: attachments of
    NICs, immutable fields of volumes and NICs, revocations and the CA, and the
    effect of the cascading deletes. *)

From S2P Require Import Prelude Command Event Externals Ca Db.
From S2P Require Import ApplyCompute ApplyTenancy ApplyIdentity ApplyStorage State Examples.
From S2P Require Import Tables StateFacts StateReach StateInv.

Definition nic_link (n : NicData) : option string := nsp_vm_id (nic_spec n).
(** A NIC without the fields that commands update. *)
Definition nic_identity (n : NicData) :=
  (nic_id n, nsp_project_slug (nic_spec n), nsp_name (nic_spec n), nsp_network_id (nic_spec n),
   nsp_mac_address (nic_spec n), nsp_ipv4_address (nic_spec n), nsp_ipv6_address (nic_spec n),
   nsp_security_group_id (nic_spec n), nic_created_at n).
Definition volume_identity (v : VolumeData) :=
  (vol_id v, vos_project_slug (vol_spec v), vos_node_id (vol_spec v), vos_name (vol_spec v),
   vos_template_id (vol_spec v), vol_created_at v).

(** The commands that may take NIC [k] away from VM [v]. *)
Definition releases (cmd : Command) (k v : string) : Prop :=
  match cmd with
  | DetachNic _ id _ => id = k
  | DeleteVm _ id => id = v
  | _ => False
  end.

(** [step_ok P t t']: rows present before and after a command are related by [P]. *)
Definition rows_evolve {V} (P : string → V → V → Prop) (t t' : gmap string V) : Prop :=
  ∀ k v v', t !! k = Some v → t' !! k = Some v' → P k v v'.

Section evolve.
Context {V : Type} (P : string → V → V → Prop).
Implicit Types t : gmap string V.

Lemma evolve_refl t : (∀ k v, P k v v) → rows_evolve P t t.
Proof. intros Hr k v v' Hv Hv'. simplify_eq. apply Hr. Qed.
Lemma evolve_delete t k : (∀ k v, P k v v) → rows_evolve P t (delete k t).
Proof. intros Hr j v v' Hv [_ Hv']%lookup_delete_Some. simplify_eq. apply Hr. Qed.
Lemma evolve_fresh t k v : (∀ k v, P k v v) → t !! k = None → rows_evolve P t (<[k:=v]> t).
Proof.
  intros Hr Hk j w w' Hw [[<- <-]|[_ Hw']]%lookup_insert_Some; simplify_eq. apply Hr.
Qed.
Lemma evolve_update t k v v' :
  (∀ k v, P k v v) → t !! k = Some v → P k v v' → rows_evolve P t (<[k:=v']> t).
Proof.
  intros Hr Hk HP j w w' Hw [[<- <-]|[_ Hw']]%lookup_insert_Some; simplify_eq; [done|].
  apply Hr.
Qed.
Lemma evolve_cascade {A} (key : A → string) l t :
  (∀ k v, P k v v) → rows_evolve P t (foldl (λ t a, delete (key a) t) t l).
Proof. intros Hr j v v' Hv [Hv' _]%foldl_delete_Some. simplify_eq. apply Hr. Qed.
End evolve.

Section history.
Context `{R : Redb} `{L : LruCache} `{U : UnicodeText} `{X : X509}.

(** No command changes the identity of a NIC (project, network, MAC,
    addresses, security group), and a NIC attached to a VM stays attached to
    that VM unless it is detached, the VM is deleted or the NIC itself goes: no
    other VM can take it over. *)
Theorem nic_attachment_stable amb cmd d d' r ev k nic nic' v :
  db_keyed d → run_command amb cmd d = Commit d' r ev →
  nics d !! k = Some nic → nics d' !! k = Some nic' →
  nic_identity nic' = nic_identity nic ∧
  (nic_link nic = Some v → nic_link nic' = Some v ∨ (nic_link nic' = None ∧ releases cmd k v)).
Proof.
  intros Hk H. revert k nic nic'.
  change (rows_evolve (λ k nic nic', nic_identity nic' = nic_identity nic ∧
    (nic_link nic = Some v → nic_link nic' = Some v ∨
       (nic_link nic' = None ∧ releases cmd k v))) (nics d) (nics d')).
  destruct cmd; inv_commit H; destruct Hk; norm_keys; cbn.
  all: try by apply evolve_refl; auto.
  all: try by apply evolve_delete; auto.
  all: try by apply evolve_fresh; auto.
  all: try by apply evolve_cascade; auto.
  all: eapply evolve_update; [by auto|done|]; unfold nic_identity, nic_link, set_vm_link; cbn;
    norm_keys; split; [done|]; intros Hl; rewrite ?Hl in *; auto; norm_guards.
  all: simplify_eq; auto.
Qed.

(** No command changes the project, node, name, template or creation time
    of a volume, and none shrinks it. *)
Theorem volume_never_shrinks amb cmd d d' r ev k v v' :
  db_keyed d → run_command amb cmd d = Commit d' r ev →
  volumes d !! k = Some v → volumes d' !! k = Some v' →
  volume_identity v' = volume_identity v ∧
  (vos_size_bytes (vol_spec v) ≤ vos_size_bytes (vol_spec v'))%N.
Proof.
  intros Hk H. revert k v v'.
  change (rows_evolve (λ _ v v', volume_identity v' = volume_identity v ∧
    (vos_size_bytes (vol_spec v) ≤ vos_size_bytes (vol_spec v'))%N) (volumes d) (volumes d')).
  assert (Hrefl : ∀ k v, (λ _ v v', volume_identity v' = volume_identity v ∧
    (vos_size_bytes (vol_spec v) ≤ vos_size_bytes (vol_spec v'))%N) (k : string) v v).
  { intros. split; [done|]. lia. }
  destruct cmd; inv_commit H; destruct Hk; norm_keys; cbn.
  all: try by apply evolve_refl.
  all: try by apply evolve_delete.
  all: try by apply evolve_fresh.
  all: eapply evolve_update; [done..|]; unfold volume_identity; cbn; norm_keys; auto with lia.
Qed.

(** ** Revocations *)

(** What a log can never take back. *)
Record trust_preserved (d d' : Db) : Prop := {
  ca_kept : ∀ ca, pki_ca d = Some ca → pki_ca d' = Some ca;
  revocation_kept : ∀ serial, is_Some (revoked_certs d !! serial) →
    is_Some (revoked_certs d' !! serial);
}.

Lemma trust_preserved_refl d : trust_preserved d d.
Proof. by split. Qed.
Lemma trust_preserved_trans d1 d2 d3 :
  trust_preserved d1 d2 → trust_preserved d2 d3 → trust_preserved d1 d3.
Proof. intros [] []. split; eauto. Qed.

Lemma trust_preserved_run amb cmd d d' r ev :
  run_command amb cmd d = Commit d' r ev → trust_preserved d d'.
Proof.
  intros H. destruct cmd; inv_commit H; split; cbn; try done; try congruence.
  all: intros serial' [? Hs]; apply lookup_insert_is_Some';
    right; eauto.
Qed.

(** Through any log the internal CA, once set, is never replaced, and a
    revoked certificate serial stays revoked. *)
Theorem trust_is_permanent log st :
  (∀ ca, pki_ca (db st) = Some ca → pki_ca (db (apply_log log st)) = Some ca) ∧
  (∀ serial, is_Some (revoked_certs (db st) !! serial) →
     is_Some (revoked_certs (db (apply_log log st)) !! serial)).
Proof.
  cut (trust_preserved (db st) (db (apply_log log st))); [by intros []|].
  unfold apply_log. apply (foldl_inv (λ s, trust_preserved (db st) (db s)));
    [apply trust_preserved_refl|].
  intros s [amb cmd] _ Hs. unfold apply_state, api_apply. cbn.
  repeat case_match; cbn; try done. eapply trust_preserved_trans; [done|].
  by eapply trust_preserved_run.
Qed.

Lemma token_sweep_sub node_id t l k v :
  foldl (token_sweep node_id) t l !! k = Some v → t !! k = Some v.
Proof.
  revert k v. apply (foldl_inv (λ t', ∀ k v, t' !! k = Some v → t !! k = Some v)); [done|].
  intros t' tok _ Ht k v. unfold token_sweep. case_match; [|auto].
  intros [_ Hk]%lookup_delete_Some. auto.
Qed.

(** A revoked API key keeps its revocation time, and a redeemed onboarding
    token its redemption, for as long as the row exists. *)
Theorem revocation_is_final amb cmd d d' r ev :
  db_keyed d → run_command amb cmd d = Commit d' r ev →
  (∀ k key key' ts, api_keys d !! k = Some key → ak_revoked_at key = Some ts →
     api_keys d' !! k = Some key' → ak_revoked_at key' = Some ts) ∧
  (∀ k tok tok' ts, onboarding_tokens d !! k = Some tok → ot_used_at tok = Some ts →
     onboarding_tokens d' !! k = Some tok' → tok' = tok).
Proof.
  intros Hk H.
  cut (rows_evolve (λ _ key key', ∀ ts, ak_revoked_at key = Some ts → ak_revoked_at key' = Some ts)
         (api_keys d) (api_keys d') ∧
       rows_evolve (λ _ tok tok', ∀ ts, ot_used_at tok = Some ts → tok' = tok)
         (onboarding_tokens d) (onboarding_tokens d')).
  { intros [Ha Ht]. split; intros; [by eapply Ha|by eapply Ht]. }
  destruct cmd; inv_commit H; destruct Hk; norm_keys; split; cbn.
  all: try by apply evolve_refl.
  all: try by apply evolve_delete.
  all: try by apply evolve_fresh.
  all: try by apply (evolve_cascade _ (λ k, k)).
  - eapply evolve_update; [done..|]. intros ts Hts. congruence.
  - intros k v v' Hv Hv'%token_sweep_sub. by simplify_eq.
  - intros k v v' Hv Hv'%token_sweep_sub. by simplify_eq.
  - eapply evolve_update; [done..|]. cbn. congruence.
Qed.

(** ** Deletion of a VM *)

Lemma delete_vm_nics now id d d' r ev vm k nic :
  db_keyed d → vms d !! id = Some vm → apply_delete_vm now id d = Commit d' r ev →
  nics d !! k = Some nic →
  nics d' !! k = Some (if (k == vsp_nic_id (vm_spec vm)) && negb (str_is_empty k) &&
                          is_some_of (nic_link nic) id
                       then set_vm_link None now nic else nic).
Proof.
  intros Hk Hvm H Hnic. unfold apply_delete_vm, txn_get in H. rewrite Hvm in H. cbv zeta in H.
  injection H as <- <- <-. unfold nic_link. destruct (decide (k = vsp_nic_id (vm_spec vm))) as [->|Hne].
  - rewrite Hnic, bool_decide_true by done. destruct (str_is_empty _); cbn; [done|].
    destruct (is_some_of _ _) eqn:E; cbn; [|done].
    by rewrite (keyed_lookup _ _ _ _ (keyed_nics _ Hk) Hnic), lookup_insert_eq.
  - rewrite bool_decide_false by done. cbn. repeat case_match; simplify_eq/=; try done.
    rewrite lookup_insert_ne; [done|]. by rewrite (keyed_lookup _ _ _ _ (keyed_nics _ Hk) H1).
Qed.

(** Deleting a VM always succeeds when it exists; it removes the VM and
    releases the NIC named in its specification if that NIC points back to it;
    every other NIC is left exactly as it was. *)
Theorem delete_vm_spec amb req id d vm :
  db_keyed d → vms d !! id = Some vm →
  ∃ d' ev, run_command amb (DeleteVm req id) d = Commit d' (RespDeleted id) ev ∧
    vms d' = delete id (vms d) ∧
    ∀ k nic, nics d !! k = Some nic →
      (k = vsp_nic_id (vm_spec vm) → k ≠ "" → nic_link nic = Some id →
         ∃ nic', nics d' !! k = Some nic' ∧ nic_link nic' = None ∧
           nic_identity nic' = nic_identity nic) ∧
      (k ≠ vsp_nic_id (vm_spec vm) ∨ nic_link nic ≠ Some id → nics d' !! k = Some nic).
Proof.
  intros Hk Hvm. cbn [run_command].
  destruct (apply_delete_vm (amb_utc_now amb) id d) as [|d' r ev] eqn:H.
  { unfold apply_delete_vm, txn_get in H. by rewrite Hvm in H. }
  exists d', ev. assert (r = RespDeleted id ∧ vms d' = delete id (vms d)) as [-> Hd].
  { unfold apply_delete_vm, txn_get in H. rewrite Hvm in H. cbv zeta in H.
    injection H as <- <- _. split; [done|]. cbn. by repeat case_match. }
  split_and!; [done..|]. intros k nic Hnic.
  rewrite (delete_vm_nics _ _ _ _ _ _ _ _ _ Hk Hvm H Hnic). unfold is_some_of. split.
  - intros -> Hne Hl. rewrite !bool_decide_true by done.
    destruct (str_is_empty _) eqn:E; [by destruct (vsp_nic_id (vm_spec vm))|]. cbn. eauto.
  - intros [Hn|Hn]; [by rewrite bool_decide_false by done|].
    by rewrite (bool_decide_false (nic_link nic = Some id)), andb_false_r by done.
Qed.

(** A NIC attached with [AttachNic], not named in the VM's specification,
    still points to the VM after the VM is deleted, and cannot be attached to
    another VM. *)
Theorem deleted_vm_pins_nic amb req id d d' r ev vm k nic req' ts vm' :
  db_keyed d → vms d !! id = Some vm →
  run_command amb (DeleteVm req id) d = Commit d' r ev →
  nics d !! k = Some nic → nic_link nic = Some id → k ≠ vsp_nic_id (vm_spec vm) →
  vms d' !! id = None ∧ nics d' !! k = Some nic ∧
  ∃ msg, run_command amb (AttachNic req' k ts vm') d' = Early (RespError 409 msg) [].
Proof.
  intros Hk Hvm H Hnic Hl Hne. cbn [run_command] in H.
  pose proof (delete_vm_nics _ _ _ _ _ _ _ _ _ Hk Hvm H Hnic) as Hnic'.
  rewrite bool_decide_false in Hnic' by done. cbn in Hnic'. split_and!; [|done|].
  - inv_commit H; cbn; apply lookup_delete_eq.
  - cbn [run_command]. unfold apply_attach_nic, txn_get. rewrite Hnic'.
    unfold nic_link in Hl. rewrite Hl. cbn. eauto.
Qed.

(** ** Cascades *)

(** Deleting a network is refused while it has NICs unless forced; when it
    goes through, the network and exactly its NICs are gone, the response and
    the events count each of them once, and no other table changes. *)
Theorem delete_network_spec amb req id force d :
  db_keyed d → is_Some (networks d !! id) →
  let in_net := λ nic, nsp_network_id (nic_spec nic) == id in
  let n := map_count in_net (nics d) in
  if negb force && (0 <? n)%nat
  then ∃ msg, run_command amb (DeleteNetwork req id force) d = Early (RespError 409 msg) []
  else ∃ d' ev, run_command amb (DeleteNetwork req id force) d =
         Commit d' (RespDeletedWithCount id (wrap 32 (N.of_nat n))) (ev ++ [NetworkDeleted id]) ∧
       length ev = n ∧
       d' = d <| networks := delete id (networks d) |>
              <| nics := filter (λ kn, in_net kn.2 = false) (nics d) |>.
Proof.
  intros Hk [nw Hnw] in_net n. cbn [run_command]. unfold apply_delete_network.
  fold in_net. set (l := List.filter in_net (txn_list nics d)).
  assert (length l = n) as Hlen by apply filter_scan_count. rewrite Hlen.
  replace (negb (bool_decide (l = []))) with (0 <? n)%nat by (rewrite <- Hlen; by destruct l).
  rewrite (andb_comm (0 <? n)%nat). destruct (negb force && (0 <? n)%nat); [eauto|].
  unfold txn_has. rewrite Hnw. cbn [negb is_some]. cbv zeta. do 2 eexists.
  split; [done|]. split; [by rewrite length_map|]. rewrite delete_nic_rows_frame.
  cbn. f_equal. apply map_eq. intros k. apply option_eq. intros nic.
  rewrite foldl_delete_Some, map_lookup_filter_Some. cbn. split; intros [Hn Hl]; (split; [done|]).
  - apply not_true_is_false. contradict Hl. eapply filter_scan_covers; [apply Hk|done..].
  - intros (m & Heq & [[j Hm] Hf]%elem_of_txn_filter)%list_elem_of_fmap.
    rewrite (keyed_lookup _ _ _ _ (keyed_nics _ Hk) Hm) in Heq. simplify_eq. congruence.
Qed.

(** Deleting a service account removes it together with all of its API keys
    and memberships, and nothing else. *)
Theorem delete_service_account_spec amb req ts id d acc :
  db_keyed d → accounts d !! id = Some acc → ac_kind acc = KindServiceAccount →
  ∃ d', run_command amb (DeleteServiceAccount req ts id) d = Commit d' (RespDeleted id) [] ∧
    d' = d <| accounts := delete id (accounts d) |>
           <| api_keys := filter (λ kv, ak_account_id kv.2 ≠ id) (api_keys d) |>
           <| memberships := filter (λ kv, mb_account_id kv.2 ≠ id) (memberships d) |>.
Proof.
  intros Hk Hacc Hkind. cbn [run_command]. unfold apply_delete_service_account, txn_get.
  rewrite Hacc, Hkind. cbv zeta. eexists. split; [done|].
  rewrite delete_memberships_frame, delete_keys_frame. cbn.
  f_equal; apply map_eq; intros k; apply option_eq; intros v;
    rewrite (foldl_delete_Some (λ k, k)), map_lookup_filter_Some, map_id; cbn;
    split; intros [Hv Hl]; (split; [done|]).
  - contradict Hl. eapply (filter_scan_covers memberships mb_id d); [apply Hk|done|].
    by apply bool_decide_eq_true.
  - intros (m & Heq & [[j Hm] Hf%bool_decide_eq_true]%(elem_of_txn_filter memberships d))%list_elem_of_fmap.
    rewrite (keyed_lookup _ _ _ _ (keyed_memberships _ Hk) Hm) in Heq. by simplify_eq.
  - contradict Hl. eapply filter_scan_covers; [apply Hk|done|]. by apply bool_decide_eq_true.
  - intros (m & Heq & [[j Hm] Hf%bool_decide_eq_true]%elem_of_txn_filter)%list_elem_of_fmap.
    rewrite (keyed_lookup _ _ _ _ (keyed_api_keys _ Hk) Hm) in Heq. by simplify_eq.
Qed.
(** ** Bootstrap of the first administrator *)

(** Of two bootstrap requests that race on a cluster without a platform
    administrator, the first grants the role to its account and the second is
    acknowledged without effect, whatever account it names: exactly one
    administrator results. *)
Theorem bootstrap_admin_once amb amb' req req' ts ts' id id' acc acc' d :
  map_count is_platform_admin_row (memberships d) = 0 → is_Some (accounts d !! acc) →
  ∃ d' m, run_command amb (BootstrapInitialPlatformAdmin req ts id acc) d =
      Commit d' (RespMembership m) [] ∧
    memberships d' !! id = Some m ∧ mb_account_id m = acc ∧
    map_count is_platform_admin_row (memberships d') = 1 ∧
    run_command amb' (BootstrapInitialPlatformAdmin req' ts' id' acc') d' = Early RespAck [].
Proof.
  intros H0 [a Ha]. cbn [run_command]. unfold apply_bootstrap_initial_platform_admin at 1.
  assert (existsb is_platform_admin_row (txn_list memberships d) = false) as ->.
  { apply txn_list_existsb_false_2. intros k v Hk. by eapply map_count_0. }
  unfold txn_has. rewrite Ha. cbn. do 2 eexists. split; [done|]. cbn.
  split; [apply lookup_insert_eq|]. split; [done|]. split.
  - rewrite <- insert_delete_eq, map_count_insert_fresh by apply lookup_delete_eq. cbn.
    f_equal. apply map_count_zero. intros k v [_ Hk]%lookup_delete_Some.
    by eapply map_count_0.
  - unfold apply_bootstrap_initial_platform_admin.
    assert (existsb is_platform_admin_row _ = true) as ->; [|done].
    apply txn_list_existsb_true. do 2 eexists. cbn. by rewrite lookup_insert_eq.
Qed.

(** ** Deregistration of a node *)

(** Deregistering a node removes its row and nothing else: clusters keep
    listing the node, and VMs, volumes and templates keep naming it. *)
Theorem deregister_node_leaves_references amb req id d :
  is_Some (nodes d !! id) →
  run_command amb (DeregisterNode req id) d =
    Commit (d <| nodes := delete id (nodes d) |>) (RespDeleted id) [NodeDeregistered id].
Proof.
  intros [n Hn]. cbn [run_command]. unfold apply_deregister_node, txn_has. by rewrite Hn.
Qed.
End history.

(** * Concrete instances *)

Lemma ex_keyed : db_keyed (db ex_state).
Proof. apply (reachable_wf _ _ _ ex_reachable). Qed.

(** The NIC [nic2] attached to the VM besides the NIC of its specification. *)
Definition ex_attached : ApiState :=
  ex_run (ex_base ++ [AttachNic "r-att" "nic2" ex_now "vm1"]).

Lemma ex_attached_keyed : db_keyed (db ex_attached).
Proof. exact (proj1 (reachable_wf _ _ _ (reachable_log (ex_log (ex_base ++ _))))). Qed.

Lemma nic_attachment_stable_witness :
  ∃ nic nic', nics (db ex_state) !! "nic1" = Some nic ∧
    nics (db (apply_state ex_state (ex_amb, DetachNic "r-det" "nic1" ex_now))) !! "nic1" =
      Some nic' ∧ nic_identity nic' = nic_identity nic.
Proof.
  assert (H : ∃ nic nic' d' r ev, nics (db ex_state) !! "nic1" = Some nic ∧
    run_command ex_amb (DetachNic "r-det" "nic1" ex_now) (db ex_state) = Commit d' r ev ∧
    nics d' !! "nic1" = Some nic' ∧
    nics (db (apply_state ex_state (ex_amb, DetachNic "r-det" "nic1" ex_now))) !! "nic1" =
      Some nic').
  { do 5 eexists. split_and!; vm_compute; reflexivity. }
  destruct H as (nic & nic' & d' & r & ev & H1 & H2 & H3 & H4). exists nic, nic'.
  split; [exact H1|]. split; [exact H4|].
  exact (proj1 (nic_attachment_stable _ _ _ _ _ _ _ _ _ "vm1" ex_keyed H2 H1 H3)).
Defined.

Definition ex_storage : list Command :=
  [ex_org; ex_project;
   CreateTemplate "r-tpl" "tpl1" ex_now "web" "node1" "debian" 100 None 0;
   CreateVolume "r-vol" "vol1" ex_now "web" "node1" "disk" 1000 (Some "tpl1")].

Lemma volume_never_shrinks_witness :
  ∃ v v' d' r ev, volumes (db (ex_run ex_storage)) !! "vol1" = Some v ∧
    run_command ex_amb (ResizeVolume "r-rs" "vol1" ex_now 2000) (db (ex_run ex_storage)) =
      Commit d' r ev ∧
    volumes d' !! "vol1" = Some v' ∧ volume_identity v' = volume_identity v ∧
    (vos_size_bytes (vol_spec v) ≤ vos_size_bytes (vol_spec v'))%N.
Proof.
  assert (H : ∃ v v' d' r ev, volumes (db (ex_run ex_storage)) !! "vol1" = Some v ∧
    run_command ex_amb (ResizeVolume "r-rs" "vol1" ex_now 2000) (db (ex_run ex_storage)) =
      Commit d' r ev ∧ volumes d' !! "vol1" = Some v').
  { do 5 eexists. split_and!; vm_compute; reflexivity. }
  destruct H as (v & v' & d' & r & ev & H1 & H2 & H3). exists v, v', d', r, ev.
  split; [exact H1|]. split; [exact H2|]. split; [exact H3|].
  exact (volume_never_shrinks _ _ _ _ _ _ _ _ _
    (proj1 (reachable_wf _ _ _ (reachable_log (ex_log ex_storage)))) H2 H1 H3).
Defined.

Definition ex_key_log : list Command :=
  [ex_org; ex_project;
   CreateServiceAccount "r-sa" ex_now "sa1" "mb1" "web" "deployer" None "admin";
   CreateStaticApiKey "r-key" ex_now "key1" "sa1" "abcd" "mvirt" None None "admin";
   RevokeStaticApiKey "r-rev" ex_now "key1"].

Lemma revocation_is_final_witness :
  ∃ key' d' r ev,
    run_command ex_amb (RevokeStaticApiKey "r-rev2" "later" "key1") (db (ex_run ex_key_log)) =
      Commit d' r ev ∧ api_keys d' !! "key1" = Some key' ∧ ak_revoked_at key' = Some ex_now.
Proof.
  assert (H : ∃ key key' d' r ev, api_keys (db (ex_run ex_key_log)) !! "key1" = Some key ∧
    ak_revoked_at key = Some ex_now ∧
    run_command ex_amb (RevokeStaticApiKey "r-rev2" "later" "key1") (db (ex_run ex_key_log)) =
      Commit d' r ev ∧ api_keys d' !! "key1" = Some key').
  { do 5 eexists. split_and!; vm_compute; reflexivity. }
  destruct H as (key & key' & d' & r & ev & H1 & H2 & H3 & H4). exists key', d', r, ev.
  split; [exact H3|]. split; [exact H4|].
  exact (proj1 (revocation_is_final _ _ _ _ _ _
    (proj1 (reachable_wf _ _ _ (reachable_log (ex_log ex_key_log)))) H3) _ _ _ _ H1 H2 H4).
Defined.

Lemma ex_vm1 : ∃ vm, vms (db ex_attached) !! "vm1" = Some vm ∧ vsp_nic_id (vm_spec vm) = "nic1".
Proof. eexists. split; vm_compute; reflexivity. Qed.

Lemma delete_vm_spec_witness :
  ∃ d' ev, run_command ex_amb (DeleteVm "r-del" "vm1") (db ex_attached) =
    Commit d' (RespDeleted "vm1") ev ∧ vms d' = delete "vm1" (vms (db ex_attached)).
Proof.
  destruct ex_vm1 as (vm & Hvm & _).
  destruct (delete_vm_spec ex_amb "r-del" "vm1" (db ex_attached) vm ex_attached_keyed Hvm)
    as (d' & ev & H1 & H2 & _). exists d', ev. split; [exact H1|exact H2].
Defined.

Lemma deleted_vm_pins_nic_witness :
  ∃ d' r ev nic, run_command ex_amb (DeleteVm "r-del" "vm1") (db ex_attached) =
    Commit d' r ev ∧ vms d' !! "vm1" = None ∧ nics d' !! "nic2" = Some nic ∧
    nic_link nic = Some "vm1".
Proof.
  destruct ex_vm1 as (vm & Hvm & Hn).
  assert (H : ∃ d' r ev nic, run_command ex_amb (DeleteVm "r-del" "vm1") (db ex_attached) =
    Commit d' r ev ∧ nics (db ex_attached) !! "nic2" = Some nic ∧ nic_link nic = Some "vm1").
  { do 4 eexists. split_and!; vm_compute; reflexivity. }
  destruct H as (d' & r & ev & nic & H1 & H2 & H3). exists d', r, ev, nic.
  destruct (deleted_vm_pins_nic ex_amb "r-del" "vm1" (db ex_attached) d' r ev vm "nic2" nic
    "r-a" ex_now "vm2" ex_attached_keyed Hvm H1 H2 H3) as (G1 & G2 & _).
  { rewrite Hn. discriminate. }
  split; [exact H1|]. split; [exact G1|]. split; [exact G2|exact H3].
Defined.

Lemma delete_network_spec_witness :
  ∃ msg, run_command ex_amb (DeleteNetwork "r-dn" "net1" false) (db ex_state) =
    Early (RespError 409 msg) [].
Proof.
  assert (Hn : is_Some (networks (db ex_state) !! "net1")).
  { vm_compute. eexists. reflexivity. }
  pose proof (delete_network_spec ex_amb "r-dn" "net1" false (db ex_state) ex_keyed Hn) as H.
  cbv zeta in H. replace (0 <? _)%nat with true in H by (vm_compute; reflexivity). exact H.
Defined.

Lemma delete_service_account_spec_witness :
  ∃ d', run_command ex_amb (DeleteServiceAccount "r-dsa" ex_now "sa1") (db (ex_run ex_key_log)) =
    Commit d' (RespDeleted "sa1") [].
Proof.
  assert (H : ∃ acc, accounts (db (ex_run ex_key_log)) !! "sa1" = Some acc ∧
    ac_kind acc = KindServiceAccount). { eexists. split; vm_compute; reflexivity. }
  destruct H as (acc & H1 & H2).
  destruct (delete_service_account_spec ex_amb "r-dsa" ex_now "sa1" _ acc
    (proj1 (reachable_wf _ _ _ (reachable_log (ex_log ex_key_log)))) H1 H2) as (d' & H & _).
  exists d'. exact H.
Defined.

Lemma bootstrap_admin_once_witness :
  ∃ d' m, run_command ex_amb (BootstrapInitialPlatformAdmin "r-b" ex_now "m1" "sa1")
    (db (ex_run ex_key_log)) = Commit d' (RespMembership m) [] ∧
    map_count is_platform_admin_row (memberships d') = 1.
Proof.
  destruct (bootstrap_admin_once ex_amb ex_amb' "r-b" "r-b2" ex_now ex_now "m1" "m2" "sa1" "x"
    (db (ex_run ex_key_log))) as (d' & m & H1 & _ & _ & H2 & _).
  - vm_compute. reflexivity.
  - vm_compute. eexists. reflexivity.
  - exists d', m. split; [exact H1|exact H2].
Defined.

Lemma deregister_node_leaves_references_witness :
  ∃ c d' r ev, run_command ex_amb (DeregisterNode "r-dr" "node1") (db ex_state) =
    Commit d' r ev ∧ clusters d' !! "eu1" = Some c ∧ "node1" ∈ cl_node_ids c ∧
    nodes d' !! "node1" = None.
Proof.
  assert (Hn : is_Some (nodes (db ex_state) !! "node1")).
  { vm_compute. eexists. reflexivity. }
  pose proof (deregister_node_leaves_references ex_amb "r-dr" "node1" (db ex_state) Hn) as H.
  assert (Hc : ∃ c, clusters (db ex_state) !! "eu1" = Some c ∧ cl_node_ids c = ["node1"]).
  { eexists. split; vm_compute; reflexivity. }
  destruct Hc as (c & Hc & Hids). do 4 eexists. split; [exact H|]. split; [exact Hc|].
  split; [rewrite Hids; left|]. apply lookup_delete_eq.
Defined.
