(* ===== verification/Onboarding.v ===== *)
(** Node onboarding and revocation: redemption of a token, the identity in the
    certificate it yields, single use, decommissioning. *)

From S2P Require Import Prelude Command Event Externals Ca Db.
From S2P Require Import ApplyCompute ApplyTenancy ApplyIdentity ApplyStorage State Examples.
From S2P Require Import Tables StateFacts StateReach StateInv StateHistory.

(** * Scans under an update

    A table is scanned in key order, so overwriting a row changes one element of
    the scan and moves none. *)

Lemma assoc_list_eq {V} (l1 l2 : list (string * V)) :
  l1.*1 = l2.*1 → NoDup l1.*1 → (∀ p, p ∈ l1 → p ∈ l2) → l1 = l2.
Proof.
  revert l2. induction l1 as [|[k v] l1 IH]; intros [|[k' v'] l2]; cbn; try done.
  intros [= <- Hk] [Hnot Hnd]%list.NoDup_cons Hin.
  assert (v' = v) as ->.
  { assert ((k, v) ∈ (k, v') :: l2) as [[= ->]|Hl]%elem_of_cons by (apply Hin; left); [done|].
    contradict Hnot. rewrite Hk. apply list_elem_of_fmap. by exists (k, v). }
  f_equal. apply IH; [done..|]. intros [j w] Hp.
  assert ((j, w) ∈ (k, v) :: l2) as [[= -> ->]|Hl]%elem_of_cons by (apply Hin; by right); [|done].
  contradict Hnot. apply list_elem_of_fmap. by exists (k, v).
Qed.

Definition overwrite {V} (k : string) (w : V) (p : string * V) : string * V :=
  if decide (p.1 = k) then (k, w) else p.

Section scan_update.
Context `{R : Redb} {V : Type}.
Implicit Types t : gmap string V.

Lemma elem_of_redb_iter t p : p ∈ redb_iter t ↔ t !! p.1 = Some p.2.
Proof. rewrite redb_iter_perm. destruct p. apply elem_of_map_to_list. Qed.

Lemma redb_iter_keys_nodup t : NoDup (redb_iter t).*1.
Proof. rewrite redb_iter_perm. apply NoDup_fst_map_to_list. Qed.

Lemma redb_iter_overwrite t k v w :
  t !! k = Some v → redb_iter (<[k:=w]> t) = map (overwrite k w) (redb_iter t).
Proof.
  intros Hk.
  assert (Hkeys : (map (overwrite k w) (redb_iter t)).*1 = (redb_iter t).*1).
  { induction (redb_iter t) as [|[j x] l IH]; cbn; [done|]. rewrite IH. f_equal.
    unfold overwrite. cbn. by case_decide. }
  apply assoc_list_eq.
  - rewrite Hkeys. apply (StronglySorted_unique String.le); [apply redb_iter_sorted..|].
    apply NoDup_Permutation; [apply redb_iter_keys_nodup..|]. intros j.
    rewrite !list_elem_of_fmap. setoid_rewrite elem_of_redb_iter. split.
    + intros ([j' x] & -> & Hj). cbn in *.
      apply lookup_insert_Some in Hj as [[<- <-]|[_ Hj]]; [by exists (k, v)|by exists (j', x)].
    + intros ([j' x] & -> & Hj). cbn in *. destruct (decide (k = j')) as [<-|Hne].
      * exists (k, w). by rewrite lookup_insert_eq.
      * exists (j', x). by rewrite lookup_insert_ne.
  - apply redb_iter_keys_nodup.
  - intros [j x] Hj%elem_of_redb_iter. cbn in Hj. apply list_elem_of_fmap.
    apply lookup_insert_Some in Hj as [[<- <-]|[Hne Hj]].
    + exists (k, v). rewrite elem_of_redb_iter. unfold overwrite. cbn. by rewrite decide_True.
    + exists (j, x). rewrite elem_of_redb_iter. unfold overwrite. cbn. by rewrite decide_False by congruence.
Qed.

(** A search that found row [v] finds its replacement when the predicate does
    not see the difference. *)
Lemma find_overwrite (table : Db → gmap string V) d d' f k v w :
  table d !! k = Some v → table d' = <[k:=w]> (table d) → f w = f v →
  (∀ j, table d !! j = Some v → j = k) →
  List.find f (txn_list table d) = Some v → List.find f (txn_list table d') = Some w.
Proof.
  unfold txn_list. intros Hk -> Hf Honly. rewrite (redb_iter_overwrite _ _ _ _ Hk).
  assert (Hall : ∀ p, p ∈ redb_iter (table d) → table d !! p.1 = Some p.2)
    by (intros p Hp; by apply elem_of_redb_iter).
  induction (redb_iter (table d)) as [|[j x] l IH]; cbn; [done|].
  assert (Hj : table d !! j = Some x) by (apply (Hall (j, x)); left).
  change (overwrite k w (j, x)) with (if decide (j = k) then (k, w) else (j, x)).
  destruct (decide (j = k)) as [Hjk|Hjk]; cbn.
  - subst j. assert (x = v) as -> by congruence. rewrite Hf. destruct (f v); [done|].
    apply IH. intros p Hp. apply Hall. by right.
  - destruct (f x).
    + intros [= ->]. by destruct Hjk; apply Honly.
    + apply IH. intros p Hp. apply Hall. by right.
Qed.
End scan_update.

(** * Redemption *)

Definition redeemed_token (ts : string) (tok : OnboardingTokenData) : OnboardingTokenData :=
  tok <| ot_used_at := Some ts |> <| ot_used_by_node_id := Some (ot_node_id tok) |>.

Definition redeemed_node (ts host agent : string) (signed : SignedLeaf) (node : NodeData) :
    NodeData :=
  node <| nd_status := NodeOnline |> <| nd_last_heartbeat := ts |> <| nd_updated_at := ts |>
       <| nd_cert_serial_hex := Some (sl_serial_hex signed) |>
       <| nd_cert_expires_at := Some (sl_not_after signed) |>
       <| nd_hostname := Some host |> <| nd_agent_version := Some agent |>.

(** Everything that must hold for a token to be redeemed. *)
Record redeemable `{Redb} `{X509} (amb : Ambient) (ts hash csr : string) (d : Db)
    (tok : OnboardingTokenData) (node : NodeData) (ca : InternalCa) (signed : SignedLeaf) :
    Prop := {
  rd_found : List.find (λ t, ot_token_hash_hex t == hash) (txn_list onboarding_tokens d) =
    Some tok;
  rd_unused : ot_used_at tok = None;
  rd_live : str_gt ts (ot_expires_at tok) = false;
  rd_cluster : is_Some (clusters d !! ot_cluster_slug tok);
  rd_node : nodes d !! ot_node_id tok = Some node;
  rd_ca : pki_ca d = Some ca;
  rd_signed : sign_node_leaf (amb_now amb) ca csr (ot_node_id tok) (ot_cluster_slug tok)
    (amb_serial amb) = Ok signed;
}.

Section onboarding.
Context `{R : Redb} `{L : LruCache} `{U : UnicodeText} `{X : X509}.

(** The outcome of a redemption, as a function of what [redeemable] names. *)
Definition redeemed_db (ts host agent : string) (tok : OnboardingTokenData) (node : NodeData)
    (signed : SignedLeaf) (d : Db) : Db :=
  d <| onboarding_tokens := <[ot_id tok := redeemed_token ts tok]> (onboarding_tokens d) |>
    <| nodes := <[ot_node_id tok := redeemed_node ts host agent signed node]> (nodes d) |>.

Definition agent_string (agent kernel arch : string) : string :=
  agent +:+ " (" +:+ kernel +:+ " " +:+ arch +:+ ")".

Lemma redeem_commits amb ts hash csr host agent kernel arch d tok node ca signed :
  redeemable amb ts hash csr d tok node ca signed →
  apply_redeem_onboarding_token amb ts hash csr host agent kernel arch d =
  let a := agent_string agent kernel arch in
  Commit (redeemed_db ts host a tok node signed d)
    (RespBootstrapResult (redeemed_node ts host a signed node) (sl_cert_pem signed)
       (ca_cert_pem ca)) [].
Proof.
  intros [Hf Hu Hl [c Hc] Hn Hca Hs]. unfold apply_redeem_onboarding_token.
  rewrite Hf, Hu, Hl. unfold txn_has, txn_get. by rewrite Hc, Hn, Hca, Hs.
Qed.

Lemma redeem_inv amb ts hash csr host agent kernel arch d d' r ev :
  apply_redeem_onboarding_token amb ts hash csr host agent kernel arch d = Commit d' r ev →
  ∃ tok node ca signed, redeemable amb ts hash csr d tok node ca signed.
Proof.
  unfold apply_redeem_onboarding_token. intros H.
  repeat lazymatch type of H with
  | (match ?x with _ => _ end) = _ => destruct x eqn:?; try discriminate H
  end. norm_guards. do 4 eexists. split; eauto.
Qed.

(** C17: A redemption goes through exactly when the token is known, unused, not
    expired, its cluster and placeholder node still exist, the CA is set up and
    the request can be signed; it then marks the token used by that node, brings
    the node online with the serial and expiry of the new certificate, and
    touches nothing else. *)
Theorem redeem_spec amb req ts hash csr host agent kernel arch d d' r ev :
  run_command amb (RedeemOnboardingToken req ts hash csr host agent kernel arch) d =
    Commit d' r ev ↔
  ∃ tok node ca signed, redeemable amb ts hash csr d tok node ca signed ∧
    let a := agent_string agent kernel arch in
    d' = redeemed_db ts host a tok node signed d ∧
    r = RespBootstrapResult (redeemed_node ts host a signed node) (sl_cert_pem signed)
          (ca_cert_pem ca) ∧ ev = [].
Proof.
  cbn [run_command]. split.
  - intros H. pose proof H as (tok & node & ca & signed & Hr)%redeem_inv.
    rewrite (redeem_commits _ _ _ _ _ _ _ _ _ _ _ _ _ Hr) in H. injection H as <- <- <-.
    eauto 10.
  - intros (tok & node & ca & signed & Hr & -> & -> & ->). by apply redeem_commits.
Qed.

(** The certificate a redemption returns carries the node and cluster that
    the operator bound to the token: reading the identity back from it, as the
    tunnel listener does, gives exactly these, whatever the signing request of
    the node asked for. *)
Theorem redeem_pins_identity amb req ts hash csr host agent kernel arch d d' node' pem ca_pem ev :
  run_command amb (RedeemOnboardingToken req ts hash csr host agent kernel arch) d =
    Commit d' (RespBootstrapResult node' pem ca_pem) ev →
  ∃ k tok leaf, onboarding_tokens d !! k = Some tok ∧ ot_token_hash_hex tok = hash ∧
    pem = certificate_pem leaf ∧
    extract_identity_from_der (certificate_der leaf) = Ok (ot_node_id tok, ot_cluster_slug tok) ∧
    nodes d' !! ot_node_id tok = Some node' ∧
    nd_cert_serial_hex node' = Some (hex_serial (amb_serial amb)).
Proof.
  cbn [run_command]. intros H. pose proof H as (tok & node & ca & signed & Hr)%redeem_inv.
  rewrite (redeem_commits _ _ _ _ _ _ _ _ _ _ _ _ _ Hr) in H. injection H as <- <- <- <- <-.
  destruct Hr as [Hf _ _ _ _ _ Hs]. apply txn_find_Some in Hf as [[k Hk] Hh].
  apply bool_decide_eq_true in Hh. apply sign_node_leaf_identity in Hs as (leaf & Hp & Hi & Hse & _).
  exists k, tok, leaf. cbn. rewrite lookup_insert_eq, Hse. done.
Qed.

(** An onboarding token is good for one node: once redeemed, every later
    redemption with it is refused, whatever certificate request, host or time
    comes with it. *)
Theorem redeem_single_use amb amb' req req' ts ts' hash csr csr' host host' agent agent'
    kernel kernel' arch arch' d d' r ev :
  db_keyed d →
  run_command amb (RedeemOnboardingToken req ts hash csr host agent kernel arch) d =
    Commit d' r ev →
  run_command amb' (RedeemOnboardingToken req' ts' hash csr' host' agent' kernel' arch') d' =
    Early (RespError 401 "invalid onboarding token") [].
Proof.
  cbn [run_command]. intros Hk H. pose proof H as (tok & node & ca & signed & Hr)%redeem_inv.
  rewrite (redeem_commits _ _ _ _ _ _ _ _ _ _ _ _ _ Hr) in H. injection H as <- _ _.
  destruct Hr as [Hf _ _ _ _ _ _].
  pose proof (keyed_txn_find _ _ _ _ _ (keyed_onboarding_tokens _ Hk) Hf) as Htok.
  unfold apply_redeem_onboarding_token.
  erewrite (find_overwrite onboarding_tokens d _ _ (ot_id tok) tok (redeemed_token ts tok));
    [done|done|done|done| |done].
  intros j Hj. symmetry. exact (keyed_lookup _ _ _ _ (keyed_onboarding_tokens _ Hk) Hj).
Qed.

(** ** Revocation *)

Lemma elem_of_retain_other x node_id l : x ∈ retain_other node_id l ↔ x ∈ l ∧ x ≠ node_id.
Proof.
  unfold retain_other. rewrite !list_elem_of_In, filter_In, negb_true_iff, bool_decide_eq_false.
  done.
Qed.

Lemma retain_other_length node_id l :
  length (retain_other node_id l) = length l → retain_other node_id l = l.
Proof.
  assert (Hle : ∀ l, length (retain_other node_id l) ≤ length l) by (intros; apply filter_length_le).
  unfold retain_other in *. induction l as [|x l IH]; cbn; [done|].
  destruct (negb _); cbn; [intros [= H]; f_equal; auto|]. specialize (Hle l). lia.
Qed.

(** The cluster loop: the rows still to be visited are the only ones that may
    list the node. *)
Lemma cluster_sweep_removes ts node_id l t :
  (∀ k c, t !! k = Some c → node_id ∈ cl_node_ids c → c ∈ l ∧ cl_slug c = k) →
  ∀ k c, foldl (cluster_sweep ts node_id) t l !! k = Some c → node_id ∉ cl_node_ids c.
Proof.
  revert t. induction l as [|c0 l IH]; intros t Ht; cbn.
  { intros k c Hk Hin. by apply Ht in Hk as [?%elem_of_nil _]. }
  apply IH. intros k c. unfold cluster_sweep. cbv zeta. cbn.
  destruct (Nat.eqb _ _) eqn:E.
  - intros Hk Hin. destruct (Ht k c Hk Hin) as [[->|Hl]%elem_of_cons Hs]; [|done].
    apply Nat.eqb_eq, retain_other_length in E. rewrite <- E in Hin.
    by apply elem_of_retain_other in Hin as [_ ?].
  - intros [[<- <-]|[Hne Hk]]%lookup_insert_Some Hin.
    + by apply elem_of_retain_other in Hin as [_ ?].
    + destruct (Ht k c Hk Hin) as [[->|Hl]%elem_of_cons Hs]; done.
Qed.

Lemma token_sweep_removes node_id l t :
  (∀ k tok, t !! k = Some tok → ot_node_id tok = node_id → ot_used_at tok = None →
     tok ∈ l ∧ ot_id tok = k) →
  ∀ k tok, foldl (token_sweep node_id) t l !! k = Some tok →
    ot_node_id tok = node_id → is_Some (ot_used_at tok).
Proof.
  revert t. induction l as [|tok0 l IH]; intros t Ht; cbn.
  { intros k tok Hk Hn. apply not_eq_None_Some. intros Hu.
    by destruct (Ht k tok Hk Hn Hu) as [?%elem_of_nil _]. }
  apply IH. intros k tok. unfold token_sweep. destruct (_ && _) eqn:E.
  - intros [Hne Hk]%lookup_delete_Some Hn Hu.
    destruct (Ht k tok Hk Hn Hu) as [[->|Hl]%elem_of_cons Hs]; [congruence|done].
  - intros Hk Hn Hu. destruct (Ht k tok Hk Hn Hu) as [[->|Hl]%elem_of_cons Hs]; [|done].
    by rewrite bool_decide_true, Hu in E.
Qed.

(** Decommissioning a node removes its row, its unredeemed onboarding
    tokens and its entry in every cluster, and records the serial of its
    certificate as revoked. *)
Theorem decommission_spec amb req ts id d node :
  db_keyed d → nodes d !! id = Some node →
  ∃ d', run_command amb (RevokeNodeCert req ts id Decommission) d =
      Commit d' (RespDeleted id) [] ∧
    nodes d' = delete id (nodes d) ∧
    (∀ k c, clusters d' !! k = Some c → id ∉ cl_node_ids c) ∧
    (∀ k tok, onboarding_tokens d' !! k = Some tok →
       onboarding_tokens d !! k = Some tok ∧
       (ot_node_id tok = id → is_Some (ot_used_at tok))) ∧
    (∀ serial, nd_cert_serial_hex node = Some serial → is_Some (revoked_certs d' !! serial)).
Proof.
  intros Hk Hn. cbn [run_command]. unfold apply_revoke_node_cert, txn_get. rewrite Hn.
  cbv zeta. eexists. split; [done|]. autorewrite with frames. cbn. split_and!.
  - by destruct (nd_cert_serial_hex node).
  - destruct (nd_cert_serial_hex node); cbn; apply (cluster_sweep_removes ts id);
      intros k c Hc Hin; (split; [apply (elem_of_txn_list clusters d); eauto|]);
      exact (keyed_lookup _ _ _ _ (keyed_clusters _ Hk) Hc).
  - intros k tok Htok.
    assert (Hs : foldl (token_sweep id) (onboarding_tokens d) (txn_list onboarding_tokens d) !! k =
      Some tok) by (by destruct (nd_cert_serial_hex node)).
    split; [by eapply token_sweep_sub|]. revert k tok Hs Htok. intros k tok Hs _.
    revert k tok Hs. apply token_sweep_removes. intros k tok Htok _ _.
    split; [apply elem_of_txn_list; eauto|].
    exact (keyed_lookup _ _ _ _ (keyed_onboarding_tokens _ Hk) Htok).
  - intros serial Hs. rewrite Hs. cbn. rewrite lookup_insert_eq. eauto.
Qed.

(** Revoking a node as compromised before it has redeemed its token does
    not withdraw the token: a redemption that was possible stays possible and
    puts the revoked node back online. *)
Theorem compromised_node_can_redeem amb amb' req ts req' ts' hash csr host agent kernel arch
    d d1 r ev tok node ca signed :
  db_keyed d →
  redeemable amb' ts' hash csr d tok node ca signed →
  run_command amb (RevokeNodeCert req ts (ot_node_id tok) Compromise) d = Commit d1 r ev →
  (∃ n1, nodes d1 !! ot_node_id tok = Some n1 ∧ nd_status n1 = NodeRevoked) ∧
  ∃ d2 n2 pem ca_pem,
    run_command amb' (RedeemOnboardingToken req' ts' hash csr host agent kernel arch) d1 =
      Commit d2 (RespBootstrapResult n2 pem ca_pem) [] ∧
    nodes d2 !! ot_node_id tok = Some n2 ∧ nd_status n2 = NodeOnline.
Proof.
  intros Hk [Hf Hu Hl Hc Hn Hca Hs] H. cbn [run_command] in H.
  unfold apply_revoke_node_cert, txn_get in H. rewrite Hn in H. cbv zeta in H.
  injection H as <- _ _. split.
  { cbn. eexists. split; [apply lookup_insert_eq|done]. }
  cbn [run_command]. erewrite redeem_commits; last first.
  { split; try by destruct (nd_cert_serial_hex node). cbn. apply lookup_insert_eq. }
  do 4 eexists. split; [done|]. cbn. by rewrite lookup_insert_eq.
Qed.
End onboarding.

(** * Concrete instances *)

Lemma ex_redeem_ok : ∃ d' n pem ca_pem,
  run_command ex_amb (ex_redeem "r-red") (db ex_state) =
    Commit d' (RespBootstrapResult n pem ca_pem) [].
Proof. do 4 eexists. vm_compute. reflexivity. Qed.

Lemma redeem_pins_identity_witness :
  ∃ tok leaf, ot_token_hash_hex tok = "hash1" ∧
    extract_identity_from_der (certificate_der leaf) = Ok (ot_node_id tok, ot_cluster_slug tok).
Proof.
  destruct ex_redeem_ok as (d' & n & pem & ca_pem & H).
  destruct (redeem_pins_identity _ _ _ _ _ _ _ _ _ _ _ _ _ _ _ H)
    as (k & tok & leaf & _ & H1 & _ & H2 & _).
  exists tok, leaf. split; [exact H1|exact H2].
Defined.

Lemma redeem_single_use_witness :
  ∃ d' r ev, run_command ex_amb (ex_redeem "r-red") (db ex_state) = Commit d' r ev ∧
    run_command ex_amb' (ex_redeem "r-again") d' =
      Early (RespError 401 "invalid onboarding token") [].
Proof.
  destruct ex_redeem_ok as (d' & n & pem & ca_pem & H). do 3 eexists. split; [exact H|].
  exact (redeem_single_use _ ex_amb' _ "r-again" _ _ _ _ _ _ _ _ _ _ _ _ _ _ _ _ _ ex_keyed H).
Defined.

(** The cluster with the node after it has redeemed its token. *)
Definition ex_joined : ApiState := ex_run (ex_base ++ [ex_redeem "r-red"]).

Lemma ex_joined_keyed : db_keyed (db ex_joined).
Proof. exact (proj1 (reachable_wf _ _ _ (reachable_log (ex_log (ex_base ++ _))))). Qed.

Lemma decommission_spec_witness :
  ∃ d', run_command ex_amb (RevokeNodeCert "r-rv" ex_now "node1" Decommission) (db ex_joined) =
    Commit d' (RespDeleted "node1") [] ∧ is_Some (revoked_certs d' !! "010203").
Proof.
  assert (H : ∃ node, nodes (db ex_joined) !! "node1" = Some node ∧
    nd_cert_serial_hex node = Some "010203"). { eexists. split; vm_compute; reflexivity. }
  destruct H as (node & H1 & H2).
  destruct (decommission_spec ex_amb "r-rv" ex_now "node1" _ node ex_joined_keyed H1)
    as (d' & G1 & _ & _ & _ & G2).
  exists d'. split; [exact G1|exact (G2 _ H2)].
Defined.

Lemma compromised_node_can_redeem_witness :
  ∃ d1 d2 n2 pem ca_pem,
    run_command ex_amb (RevokeNodeCert "r-rv" ex_now "node1" Compromise) (db ex_state) =
      Commit d1 (RespDeleted "node1") [] ∧
    run_command ex_amb (ex_redeem "r-red") d1 = Commit d2 (RespBootstrapResult n2 pem ca_pem) [] ∧
    nd_status n2 = NodeOnline.
Proof.
  destruct ex_redeem_ok as (d' & n & pem & ca_pem & H).
  apply redeem_inv in H as (tok & node & ca & signed & Hr).
  assert (Hid : ot_node_id tok = "node1").
  { destruct Hr as [Hf _ _ _ _ _ _]. vm_compute in Hf. injection Hf as <-. reflexivity. }
  assert (H1 : ∃ d1, run_command ex_amb (RevokeNodeCert "r-rv" ex_now (ot_node_id tok) Compromise)
    (db ex_state) = Commit d1 (RespDeleted (ot_node_id tok)) []).
  { rewrite Hid. eexists. vm_compute. reflexivity. }
  destruct H1 as (d1 & H1).
  destruct (compromised_node_can_redeem _ _ _ _ "r-red" _ _ _ "host1" "1.0" "6.1" "x86_64"
    _ _ _ _ _ _ _ _ ex_keyed Hr H1) as (_ & d2 & n2 & p & c & H2 & _ & H3).
  rewrite Hid in H1. do 5 eexists. split; [exact H1|]. split; [exact H2|exact H3].
Defined.
