(* ===== verification/Tunnel.v ===== *)
(** The reverse tunnel of the nodes (mvirt-cplane/src/tunnel.rs): admission of a
    connection by its client certificate, the registry of connected nodes, the
    status updates a connection makes, and the events a node sends.

    The TLS handshake is rustls with a verifier for the internal CA: a peer that
    gets past it holds a certificate signed by that CA. What the listener does
    next starts from the DER of the leaf certificate. The RPCs to the node are
    inputs: [None] is an RPC that failed. *)

From S2P Require Import Prelude Command Event Externals Ca Db.
From S2P Require Import ApplyCompute ApplyTenancy ApplyIdentity ApplyStorage.
From S2P Require Import Queries Scheduler State RaftStore Examples.
From S2P Require Import Tables StateFacts StoreFacts StateReach StateInv StateHistory Onboarding.

(** * Registry *)

(** The four clients of a handle share one channel, the connection's own;
    [nh_channel] is the number of that connection. *)
Record NodeHandle := mkNodeHandle {
  nh_node_id : string;
  nh_name : string;
  nh_cluster_slug : string;
  nh_address : string;
  nh_channel : nat;
}.

(** [NodeRegistry]: the connected nodes by id. *)
Abbreviation NodeRegistry := (gmap string NodeHandle).
Definition registry_insert (handle : NodeHandle) (reg : NodeRegistry) : NodeRegistry :=
  <[nh_node_id handle := handle]> reg.
Definition registry_remove (node_id : string) (reg : NodeRegistry) : NodeRegistry :=
  delete node_id reg.
Definition registry_get (node_id : string) (reg : NodeRegistry) : option NodeHandle :=
  reg !! node_id.

(** * Events of a node *)

Inductive VmmVmState := VmmUnspecified | VmmStopped | VmmStarting | VmmRunning | VmmStopping.
Inductive DaemonNicState := DNicUnspecified | DNicCreated | DNicActive | DNicError.
Inductive ImportJobState :=
  | IJUnspecified | IJPending | IJDownloading | IJConverting | IJWriting | IJCompleted
  | IJFailed | IJCancelled.

(** [X::try_from(state).unwrap_or(Unspecified)] for the protobuf enums. *)
Definition vmm_vm_state (n : Z) : VmmVmState :=
  match n with
  | 1 => VmmStopped | 2 => VmmStarting | 3 => VmmRunning | 4 => VmmStopping
  | _ => VmmUnspecified
  end%Z.
Definition daemon_nic_state (n : Z) : DaemonNicState :=
  match n with 1 => DNicCreated | 2 => DNicActive | 3 => DNicError | _ => DNicUnspecified end%Z.
Definition import_job_state (n : Z) : ImportJobState :=
  match n with
  | 1 => IJPending | 2 => IJDownloading | 3 => IJConverting | 4 => IJWriting
  | 5 => IJCompleted | 6 => IJFailed | 7 => IJCancelled | _ => IJUnspecified
  end%Z.

Record ImportJob := mkImportJob {
  ij_state : Z;
  ij_bytes_written : u64;
  ij_total_bytes : u64;
  ij_error : option string;
}.

(** The fields of the daemons' messages that the control plane reads. *)
Inductive NodeEvent :=
  | EvVmState (vm_id : string) (state : option Z)
  | EvVolumeState (volume_id : string) (volume : option (string * u64))
  | EvTemplateState (template_id : string) (size_bytes : option u64)
      (import_job : option ImportJob)
  | EvNicState (nic_id : string) (nic : option (Z * string))
  | EvNetworkState (network_id : string)
  | EvResources
  | EvDaemonHealth
  | EvNone.

Definition vm_event_phase (state : option Z) : option VmPhase :=
  match vmm_vm_state <$> state with
  | Some VmmRunning => Some VmRunning
  | Some VmmStarting => Some VmCreating
  | Some VmmStopping => Some VmStopping
  | Some VmmStopped => Some VmStopped
  | Some VmmUnspecified => None
  | None => Some VmFailed
  end.

Definition volume_event_status (volume : option (string * u64)) :
    VolumePhase * option string * u64 * option string :=
  match volume with
  | Some (path, used_bytes) =>
      (if str_is_empty path then VolCreating else VolReady, Some path, used_bytes, None)
  | None => (VolFailed, None, 0%N, Some "daemon reports gone")
  end.

Definition template_event_status (size_bytes : option u64) (import_job : option ImportJob) :
    TemplatePhase * u64 * u64 * option string :=
  match size_bytes, import_job with
  | _, Some job =>
      let phase := match import_job_state (ij_state job) with
                   | IJCompleted => TplReady
                   | IJFailed | IJCancelled => TplFailed
                   | _ => TplImporting
                   end in
      (phase, ij_bytes_written job, ij_total_bytes job,
       match ij_error job with
       | Some s => if str_is_empty s then None else Some s
       | None => None
       end)
  | Some size, None => (TplReady, size, size, None)
  | None, None => (TplFailed, 0%N, 0%N, Some "daemon reports gone")
  end.

Definition nic_event_status (nic : option (Z * string)) : NicPhase * string :=
  match nic with
  | Some (state, socket_path) =>
      (match daemon_nic_state state with
       | DNicActive | DNicCreated => NicActive
       | DNicError => NicFailed
       | DNicUnspecified => NicPending
       end, socket_path)
  | None => (NicFailed, "")
  end.

Section tunnel.
Context `{R : Redb} `{L : LruCache} `{U : UnicodeText} `{X : X509}.

(** [handle_node_event]; a store error is logged and dropped. *)
Definition handle_node_event (amb : Ambient) (f : Fresh) (event : NodeEvent) (node_id : string)
    (st : ApiState) : ApiState :=
  match event with
  | EvVmState vm_id state =>
      match vm_event_phase state with
      | None => st
      | Some phase =>
          (run_op amb (update_vm_status f vm_id {|
             vst_phase := phase;
             vst_node_id := Some node_id;
             vst_ip_address := None;
             vst_message := None;
           |}) st).1
      end
  | EvVolumeState volume_id volume =>
      let '(phase, path, used_bytes, error) := volume_event_status volume in
      (run_op amb (update_volume_status f volume_id phase path used_bytes error) st).1
  | EvTemplateState template_id size_bytes import_job =>
      let '(phase, bytes_written, size, error) := template_event_status size_bytes import_job in
      (run_op amb (update_template_status f template_id phase bytes_written size error) st).1
  | EvNicState nic_id nic =>
      let '(phase, socket_path) := nic_event_status nic in
      (run_op amb (update_nic_status f nic_id phase socket_path None) st).1
  | EvNetworkState network_id => (update_network_status network_id st).1
  | EvResources | EvDaemonHealth | EvNone => st
  end.

(** [pull_resources]; [resources] is the answer of the node. *)
Definition pull_resources (amb : Ambient) (f : Fresh) (resources : option NodeResources)
    (node_id : string) (st : ApiState) : ApiState :=
  match resources with
  | Some res => (run_op amb (update_node_status f node_id NodeOnline (Some res)) st).1
  | None => st
  end.

(** ** Admission

    Steps 2 and 3 of [handle_connection]: the identity in the leaf certificate
    is checked against the node table. *)
Inductive AdmitError :=
  | NoClientCert
  | EmptyCertChain
  | BadIdentity (e : string)
  | NodeIsRevoked (node_id : string)
  | ClusterMismatch (claimed : string) (row : option string)
  | NotInNodeTable (node_id : string).

Definition admit_peer (peer_certificates : option (list (list u8))) (d : Db) :
    result AdmitError (string * string * NodeData) :=
  match peer_certificates with
  | None => Err NoClientCert
  | Some [] => Err EmptyCertChain
  | Some (leaf :: _) =>
      match extract_identity_from_der leaf with
      | Err e => Err (BadIdentity e)
      | Ok (node_id, cluster_slug) =>
          match get_node d node_id with
          | Some n =>
              if nd_status n == NodeRevoked then Err (NodeIsRevoked node_id)
              else if negb (nd_cluster_slug n == Some cluster_slug)
              then Err (ClusterMismatch cluster_slug (nd_cluster_slug n))
              else Ok (node_id, cluster_slug, n)
          | None => Err (NotInNodeTable node_id)
          end
      end
  end.

(** ** Connections

    [serve] spawns one task per accepted socket, so the tasks of several
    connections, of one node even, interleave at every await. A connection is
    the local state of its task and how far [handle_connection] has got. *)
Inductive ConnPhase :=
  | PeerAccepted        (* past step 3 *)
  | Pulled          (* first [pull_resources] done *)
  | Registered      (* in the registry, event loop running *)
  | Unregistered.   (* event loop over, [registry.remove] done *)

Record Conn := mkConn {
  cn_node_id : string;
  cn_cluster_slug : string;
  cn_name : string;
  cn_peer : string;
  cn_phase : ConnPhase;
}.

Record Tunnel := mkTunnel {
  tn_state : ApiState;
  tn_registry : NodeRegistry;
  tn_conns : gmap nat Conn;
}.

Definition conn_at (phase : ConnPhase) (c : Conn) : Conn :=
  mkConn (cn_node_id c) (cn_cluster_slug c) (cn_name c) (cn_peer c) phase.

Definition handle_of (cid : nat) (c : Conn) : NodeHandle := {|
  nh_node_id := cn_node_id c;
  nh_name := cn_name c;
  nh_cluster_slug := cn_cluster_slug c;
  nh_address := cn_peer c;
  nh_channel := cid;
|}.

(** The atomic steps: what a task does between two awaits, and the commands
    written by the rest of the control plane. *)
Inductive TunnelAct :=
  | ActAccept (cid : nat) (peer : string) (certs : option (list (list u8)))
  | ActChannelFailed (cid : nat)
  | ActFirstPull (amb : Ambient) (f : Fresh) (cid : nat) (resources : option NodeResources)
  | ActRegister (cid : nat)
  | ActEvent (amb : Ambient) (f : Fresh) (cid : nat) (event : NodeEvent)
  | ActTick (amb : Ambient) (f : Fresh) (cid : nat) (resources : option NodeResources)
  | ActUnregister (cid : nat)
  | ActFinish (amb : Ambient) (f : Fresh) (cid : nat)
  | ActCommand (amb : Ambient) (cmd : Command).

(** The connection [cid], when its task has got to [phase]. *)
Definition conn_in (phase : ConnPhase) (cid : nat) (t : Tunnel) : option Conn :=
  match tn_conns t !! cid with
  | Some c =>
      match phase, cn_phase c with
      | PeerAccepted, PeerAccepted | Pulled, Pulled | Registered, Registered
      | Unregistered, Unregistered => Some c
      | _, _ => None
      end
  | None => None
  end.

Definition set_conn (cid : nat) (c : Conn) (t : Tunnel) : gmap nat Conn :=
  <[cid := c]> (tn_conns t).

(** [None] when the step is not enabled. A refused connection changes nothing,
    so it has no step. *)
Definition tunnel_step (t : Tunnel) (a : TunnelAct) : option Tunnel :=
  match a with
  | ActAccept cid peer certs =>
      match tn_conns t !! cid, admit_peer certs (db (tn_state t)) with
      | None, Ok (node_id, cluster_slug, node_row) =>
          let c := mkConn node_id cluster_slug (nd_name node_row) peer PeerAccepted in
          Some (mkTunnel (tn_state t) (tn_registry t) (set_conn cid c t))
      | _, _ => None
      end
  | ActChannelFailed cid =>
      c ← conn_in PeerAccepted cid t;
      Some (mkTunnel (tn_state t) (tn_registry t) (delete cid (tn_conns t)))
  | ActFirstPull amb f cid resources =>
      c ← conn_in PeerAccepted cid t;
      Some (mkTunnel (pull_resources amb f resources (cn_node_id c) (tn_state t))
              (tn_registry t) (set_conn cid (conn_at Pulled c) t))
  | ActRegister cid =>
      c ← conn_in Pulled cid t;
      Some (mkTunnel (tn_state t) (registry_insert (handle_of cid c) (tn_registry t))
              (set_conn cid (conn_at Registered c) t))
  | ActEvent amb f cid event =>
      c ← conn_in Registered cid t;
      Some (mkTunnel (handle_node_event amb f event (cn_node_id c) (tn_state t))
              (tn_registry t) (tn_conns t))
  | ActTick amb f cid resources =>
      c ← conn_in Registered cid t;
      Some (mkTunnel (pull_resources amb f resources (cn_node_id c) (tn_state t))
              (tn_registry t) (tn_conns t))
  | ActUnregister cid =>
      c ← conn_in Registered cid t;
      Some (mkTunnel (tn_state t) (registry_remove (cn_node_id c) (tn_registry t))
              (set_conn cid (conn_at Unregistered c) t))
  | ActFinish amb f cid =>
      c ← conn_in Unregistered cid t;
      Some (mkTunnel (run_op amb (update_node_status f (cn_node_id c) NodeOffline None)
                        (tn_state t)).1
              (tn_registry t) (delete cid (tn_conns t)))
  | ActCommand amb cmd =>
      Some (mkTunnel (write_command amb cmd (tn_state t)).1 (tn_registry t) (tn_conns t))
  end.

Fixpoint tunnel_run (l : list TunnelAct) (t : Tunnel) : option Tunnel :=
  match l with
  | [] => Some t
  | a :: l' => t' ← tunnel_step t a; tunnel_run l' t'
  end.

(** The listener starts with no connection. *)
Inductive tunnel_reachable : Tunnel → Prop :=
  | tunnel_start st : tunnel_reachable (mkTunnel st ∅ ∅)
  | tunnel_next t a t' : tunnel_reachable t → tunnel_step t a = Some t' → tunnel_reachable t'.
End tunnel.

(** * Properties *)

Section tunnel_facts.
Context `{R : Redb} `{L : LruCache} `{U : UnicodeText} `{X : X509}.

Lemma admit_ok certs d node_id slug row :
  admit_peer certs d = Ok (node_id, slug, row) ↔
  ∃ leaf chain, certs = Some (leaf :: chain) ∧
    extract_identity_from_der leaf = Ok (node_id, slug) ∧
    nodes d !! node_id = Some row ∧ nd_status row ≠ NodeRevoked ∧
    nd_cluster_slug row = Some slug.
Proof.
  unfold admit_peer, get_node, read_get. split.
  - intros H. repeat (case_match; simplify_eq/=); norm_guards. eauto 8.
  - intros (leaf & chain & -> & -> & -> & Hs & Hc).
    rewrite bool_decide_eq_false_2 by done. by rewrite bool_decide_eq_true_2.
Qed.

Lemma conn_in_Some phase cid t c :
  conn_in phase cid t = Some c ↔ tn_conns t !! cid = Some c ∧ cn_phase c = phase.
Proof.
  unfold conn_in. destruct (tn_conns t !! cid) as [c'|]; [|by split; [|intros []]].
  destruct phase, (cn_phase c') eqn:E;
    (split; [intros [= <-]; done|intros [[= <-] ?]; congruence]).
Qed.

(** Case analysis on an enabled step. *)
Ltac inv_step H :=
  match type of H with tunnel_step _ ?a = _ => destruct a end; cbn [tunnel_step] in H;
  repeat match type of H with
  | (_ ← ?x; _) = Some _ => let E := fresh "Hc" in destruct x eqn:E; cbn [mbind option_bind] in H; [|discriminate H]
  | (match ?x with _ => _ end) = Some _ => let E := fresh "Hm" in destruct x eqn:E; try discriminate H
  end;
  injection H as <-;
  repeat match goal with
  | E : conn_in _ _ _ = Some _ |- _ => apply conn_in_Some in E as [? ?]
  end.

(** The registry entry of a node is the handle of a connection of that node
    whose event loop is running. *)
Definition registry_live (t : Tunnel) : Prop :=
  ∀ node_id h, registry_get node_id (tn_registry t) = Some h →
    ∃ c, tn_conns t !! nh_channel h = Some c ∧ cn_phase c = Registered ∧
      cn_node_id c = node_id ∧ h = handle_of (nh_channel h) c.

(** A step that touches only a connection that is not running keeps it. *)
Lemma registry_live_conns st reg conns conns' st' :
  registry_live (mkTunnel st reg conns) →
  (∀ cid c, conns !! cid = Some c → cn_phase c = Registered → conns' !! cid = Some c) →
  registry_live (mkTunnel st' reg conns').
Proof. intros Hl Hc n h Hh. destruct (Hl n h Hh) as (c & H1 & H2 & H3 & H4). eauto 6. Qed.

Lemma registry_live_step t a t' : registry_live t → tunnel_step t a = Some t' → registry_live t'.
Proof.
  intros Hl H. destruct t as [st reg conns]. inv_step H; cbn in *; unfold set_conn; cbn;
    try (eapply registry_live_conns; [exact Hl|]; intros cid' c' ? ?;
         first [done|destruct (decide (cid = cid')) as [<-|];
           [congruence|by rewrite ?lookup_insert_ne, ?lookup_delete_ne]]).
  - intros n h. unfold registry_get, registry_insert. cbn.
    destruct (decide (n = cn_node_id c)) as [->|Hn].
    + rewrite lookup_insert_eq. intros [= <-]. exists (conn_at Registered c). cbn.
      by rewrite lookup_insert_eq.
    + rewrite lookup_insert_ne by done. intros Hh.
      destruct (Hl n h Hh) as (c' & H1 & H2 & H3 & H4). exists c'. cbn in H1.
      rewrite lookup_insert_ne by congruence. eauto.
  - intros n h. unfold registry_get, registry_remove. cbn. intros Hh.
    apply lookup_delete_Some in Hh as [Hn Hh].
    destruct (Hl n h Hh) as (c' & H1 & H2 & H3 & H4). exists c'. cbn in H1.
    rewrite lookup_insert_ne by congruence. eauto.
Qed.

(** C21: In every state the listener can reach, whatever the interleaving of its
    connections with each other and with the other commands, the handle the
    reconcilers find for a node is the channel of a running connection that was
    admitted as that node: never a closed channel, never another node's. *)
Theorem registry_handles_live t node_id h :
  tunnel_reachable t → registry_get node_id (tn_registry t) = Some h →
  nh_node_id h = node_id ∧
  ∃ c, tn_conns t !! nh_channel h = Some c ∧ cn_phase c = Registered ∧ cn_node_id c = node_id.
Proof.
  intros Hr. assert (Hl : registry_live t).
  { induction Hr; [|by eapply registry_live_step].
    intros n h'. unfold registry_get. cbn. by rewrite lookup_empty. }
  intros Hh. destruct (Hl _ _ Hh) as (c & H1 & H2 & H3 & ->). cbn in *. eauto 6.
Qed.

(** A status update of a node that has a row, under a fresh request id. *)
Lemma update_node_status_outcome amb f id status res st row :
  unseen f st → nodes (db st) !! id = Some row →
  ∃ row', db (run_op amb (update_node_status f id status res) st).1 =
      (db st) <| nodes := <[id := row']> (nodes (db st)) |> ∧
    nd_status row' = status ∧ nd_cluster_slug row' = nd_cluster_slug row ∧
    nd_cert_serial_hex row' = nd_cert_serial_hex row.
Proof.
  intros Hu Hn. unfold run_op, write_command, api_apply.
  cbn [op_cmd update_node_status cmd_request_id]. rewrite Hu. cbn [run_command].
  unfold apply_update_node_status, txn_get. rewrite Hn. eexists. split; [done|].
  by destruct res.
Qed.

(** The two steps that end a running connection. *)
Lemma tunnel_run_close amb f cid t c :
  tn_conns t !! cid = Some c → cn_phase c = Registered →
  tunnel_run [ActUnregister cid; ActFinish amb f cid] t =
    Some (mkTunnel (run_op amb (update_node_status f (cn_node_id c) NodeOffline None)
                      (tn_state t)).1
            (registry_remove (cn_node_id c) (tn_registry t)) (delete cid (tn_conns t))).
Proof.
  intros Hc Hp. cbn [tunnel_run tunnel_step].
  rewrite (proj2 (conn_in_Some _ _ _ _) (conj Hc Hp)). cbn [mbind option_bind tunnel_step].
  unfold conn_in, set_conn. cbn. rewrite lookup_insert_eq. cbn. by rewrite delete_insert_eq.
Qed.

(** The converse does not hold. When a node has reconnected while its old
    connection was not over yet, the end of the old one takes the new one's
    handle out of the registry and marks the node offline, although the new
    connection is still running. *)
Theorem stale_connection_evicts_live amb f t c1 c2 old new row :
  tn_conns t !! c1 = Some old → tn_conns t !! c2 = Some new → c1 ≠ c2 →
  cn_phase old = Registered → cn_phase new = Registered →
  cn_node_id new = cn_node_id old →
  nodes (db (tn_state t)) !! cn_node_id old = Some row → unseen f (tn_state t) →
  ∃ t', tunnel_run [ActUnregister c1; ActFinish amb f c1] t = Some t' ∧
    registry_get (cn_node_id new) (tn_registry t') = None ∧
    (∃ row', nodes (db (tn_state t')) !! cn_node_id new = Some row' ∧
             nd_status row' = NodeOffline) ∧
    tn_conns t' !! c2 = Some new.
Proof.
  intros H1 H2 Hne Hp1 _ -> Hrow Hu. eexists. split; [by apply tunnel_run_close|]. cbn.
  unfold registry_get, registry_remove. rewrite lookup_delete_eq, lookup_delete_ne by done.
  destruct (update_node_status_outcome amb f (cn_node_id old) NodeOffline None _ _ Hu Hrow)
    as (row' & -> & Hs & _). cbn. rewrite lookup_insert_eq. eauto.
Qed.

Lemma revoke_compromised_outcome amb req ts id st row serial :
  lru_peek (applied_requests st) req = None →
  nodes (db st) !! id = Some row → nd_cert_serial_hex row = Some serial →
  let st' := (write_command amb (RevokeNodeCert req ts id Compromise) st).1 in
  ∃ row' resp, applied_requests st' = lru_put req resp (applied_requests st) ∧
    nodes (db st') !! id = Some row' ∧ is_cert_revoked (db st') serial = true ∧
    nd_status row' = NodeRevoked ∧ nd_cluster_slug row' = nd_cluster_slug row ∧
    nd_cert_serial_hex row' = Some serial.
Proof.
  intros Hu Hn Hs. unfold write_command, api_apply. cbn [cmd_request_id]. rewrite Hu.
  cbn [run_command]. unfold apply_revoke_node_cert, txn_get. rewrite Hn, Hs. cbn.
  do 2 eexists. rewrite lookup_insert_eq. split; [done|]. split; [done|].
  split; [|done]. unfold is_cert_revoked, read_get. cbn. by rewrite lookup_insert_eq.
Qed.

(** Revoking a compromised node does not outlive its connection. Right after
    the revocation its certificate is refused; when the connection that was open
    at the time ends, the row goes from revoked to offline, and the certificate
    is admitted again, although its serial is still in the revocation set. *)
Theorem revoked_node_readmitted amb amb' req ts f t cid c row serial leaf slug :
  tn_conns t !! cid = Some c → cn_phase c = Registered →
  nodes (db (tn_state t)) !! cn_node_id c = Some row →
  nd_cluster_slug row = Some slug → nd_cert_serial_hex row = Some serial →
  extract_identity_from_der leaf = Ok (cn_node_id c, slug) →
  lru_peek (applied_requests (tn_state t)) req = None → unseen f (tn_state t) →
  req ≠ f_request_id f →
  ∃ t1 t2 row',
    tunnel_step t (ActCommand amb (RevokeNodeCert req ts (cn_node_id c) Compromise)) = Some t1 ∧
    admit_peer (Some [leaf]) (db (tn_state t1)) = Err (NodeIsRevoked (cn_node_id c)) ∧
    tunnel_run [ActUnregister cid; ActFinish amb' f cid] t1 = Some t2 ∧
    admit_peer (Some [leaf]) (db (tn_state t2)) = Ok (cn_node_id c, slug, row') ∧
    nd_cert_serial_hex row' = Some serial ∧
    is_cert_revoked (db (tn_state t2)) serial = true.
Proof.
  intros Hc Hp Hrow Hslug Hser Hleaf Hreq Hu Hne.
  destruct (revoke_compromised_outcome amb req ts _ _ _ _ Hreq Hrow Hser)
    as (row1 & resp & Hst & Hrow1 & Hrv & Hs1 & Hc1 & Hx1).
  cbn zeta in *. set (st1 := (write_command _ _ _).1) in *.
  exists (mkTunnel st1 (tn_registry t) (tn_conns t)). eexists _.
  assert (Hu1 : unseen f st1).
  { unfold unseen in *. rewrite Hst.
    by destruct (lru_peek_put_ne req (f_request_id f) resp (applied_requests (tn_state t)) Hne)
      as [->| ->]. }
  destruct (update_node_status_outcome amb' f (cn_node_id c) NodeOffline None _ _ Hu1 Hrow1)
    as (row' & Hdb & Hs' & Hc' & Hx'). exists row'.
  split; [done|]. split.
  { cbn. unfold admit_peer, get_node, read_get. by rewrite Hleaf, Hrow1, Hs1. }
  split; [by apply tunnel_run_close|]. cbn [tn_state]. rewrite Hdb.
  split_and!; [|congruence|exact Hrv]. apply admit_ok. exists leaf, []. cbn.
  rewrite lookup_insert_eq. split_and!; try done; congruence.
Qed.

(** The certificate a node receives for its token opens the tunnel, and as
    that node in that cluster only: right after a redemption in which the row of
    the node names the token's cluster, the issued certificate is admitted. *)
Theorem redeemed_node_admitted amb req ts hash csr host agent kernel arch d d' node' pem ca_pem ev
    tok node ca signed :
  redeemable amb ts hash csr d tok node ca signed →
  nd_cluster_slug node = Some (ot_cluster_slug tok) →
  run_command amb (RedeemOnboardingToken req ts hash csr host agent kernel arch) d =
    Commit d' (RespBootstrapResult node' pem ca_pem) ev →
  ∃ leaf, pem = certificate_pem leaf ∧
    admit_peer (Some [certificate_der leaf]) d' = Ok (ot_node_id tok, ot_cluster_slug tok, node').
Proof.
  cbn [run_command]. intros Hr Hslug H.
  rewrite (redeem_commits _ _ _ _ _ _ _ _ _ _ _ _ _ Hr) in H. injection H as <- <- <- <- <-.
  destruct (sign_node_leaf_identity _ _ _ _ _ _ _ (rd_signed _ _ _ _ _ _ _ _ _ Hr))
    as (leaf & Hp & Hi & _). exists leaf. split; [done|]. apply admit_ok.
  exists (certificate_der leaf), []. cbn. by rewrite lookup_insert_eq.
Qed.
(** The row an event is about: the table and the key. *)
Definition event_target (event : NodeEvent) : string * string :=
  match event with
  | EvVmState id _ => ("vms", id)
  | EvVolumeState id _ => ("volumes", id)
  | EvTemplateState id _ _ => ("templates", id)
  | EvNicState id _ => ("nics", id)
  | EvNetworkState id => ("networks", id)
  | EvResources | EvDaemonHealth | EvNone => ("", "")
  end.

(** [d'] is [d] but for the row [id] of one table, whose [spec] is the same. *)
Definition status_write {V B} (table : Db → gmap string V) `{!Setter table} (spec : V → B)
    (id : string) (d d' : Db) : Prop :=
  d' = d ∨ ∃ v w, table d !! id = Some v ∧ spec w = spec v ∧
    d' = d <| table := <[id := w]> (table d) |>.

Lemma run_op_write {A V B} amb (op : Op A) st (table : Db → gmap string V) `{!Setter table}
    (spec : V → B) id :
  (∀ d' r ev, run_command amb (op_cmd op) (db st) = Commit d' r ev →
     status_write table spec id (db st) d') →
  status_write table spec id (db st) (db (run_op amb op st).1).
Proof.
  intros H. unfold run_op, write_command, api_apply.
  destruct (lru_peek _ _); [by left|]. destruct (run_command _ _ _) eqn:E; [by left|]. cbn. eauto.
Qed.

Ltac solve_status_write :=
  apply run_op_write; intros d' r ev H; cbn [op_cmd update_vm_status update_volume_status
    update_template_status update_nic_status] in H; inv_outcome H; norm_guards;
  right; do 2 eexists; split; [eassumption|split; [|reflexivity]]; done.

Lemma update_vm_status_write amb f id s st :
  status_write vms vm_spec id (db st) (db (run_op amb (update_vm_status f id s) st).1).
Proof. solve_status_write. Qed.
Lemma update_volume_status_write amb f id phase path used error st :
  status_write volumes vol_spec id (db st)
    (db (run_op amb (update_volume_status f id phase path used error) st).1).
Proof. solve_status_write. Qed.
Lemma update_template_status_write amb f id phase written size error st :
  status_write templates tpl_spec id (db st)
    (db (run_op amb (update_template_status f id phase written size error) st).1).
Proof. solve_status_write. Qed.
Lemma update_nic_status_write amb f id phase socket msg st :
  status_write nics nic_spec id (db st)
    (db (run_op amb (update_nic_status f id phase socket msg) st).1).
Proof. solve_status_write. Qed.

(** Two tables agree on every specification, and on every row but [id]. *)
Lemma status_write_rows {V B} (m : gmap string V) (spec : V → B) id v w :
  m !! id = Some v → spec w = spec v →
  (∀ k, spec <$> <[id := w]> m !! k = spec <$> m !! k) ∧
  (∀ k, id ≠ k → <[id := w]> m !! k = m !! k).
Proof.
  intros Hv Hs. split; intros k; [|intros Hk; by rewrite lookup_insert_ne].
  destruct (decide (id = k)) as [<-|]; [|by rewrite lookup_insert_ne].
  rewrite lookup_insert_eq, Hv. cbn. by rewrite Hs.
Qed.

(** What a node reports cannot reach further than the status of the row its
    event names: no table but those of VMs, volumes, templates and NICs
    changes, no row appears or disappears, every other row is as before, and
    every specification, the operator's side of the row, is untouched. *)
Theorem node_event_confined amb f event node_id st :
  let d := db st in
  let d' := db (handle_node_event amb f event node_id st) in
  d' = d <| vms := vms d' |> <| volumes := volumes d' |> <| templates := templates d' |>
         <| nics := nics d' |> ∧
  (∀ k, vm_spec <$> vms d' !! k = vm_spec <$> vms d !! k) ∧
  (∀ k, vol_spec <$> volumes d' !! k = vol_spec <$> volumes d !! k) ∧
  (∀ k, tpl_spec <$> templates d' !! k = tpl_spec <$> templates d !! k) ∧
  (∀ k, nic_spec <$> nics d' !! k = nic_spec <$> nics d !! k) ∧
  (∀ k, event_target event ≠ ("vms", k) → vms d' !! k = vms d !! k) ∧
  (∀ k, event_target event ≠ ("volumes", k) → volumes d' !! k = volumes d !! k) ∧
  (∀ k, event_target event ≠ ("templates", k) → templates d' !! k = templates d !! k) ∧
  (∀ k, event_target event ≠ ("nics", k) → nics d' !! k = nics d !! k).
Proof.
  assert (Hid : ∀ d : Db, d = d <| vms := vms d |> <| volumes := volumes d |>
    <| templates := templates d |> <| nics := nics d |>) by (by intros []).
  cbn zeta. destruct event as [id state|id volume|id size job|id nic|id| | |];
    cbn [handle_node_event event_target];
    [destruct (vm_event_phase state) as [phase|]
    |destruct (volume_event_status volume) as [[[phase path] used] error]
    |destruct (template_event_status size job) as [[[phase written] size'] error]
    |destruct (nic_event_status nic) as [phase socket]|..];
    try (split_and!; [apply Hid|done..]);
    [destruct (update_vm_status_write amb f id (mkVmStatus phase (Some node_id) None None) st)
       as [->|(v & w & Hv & Hs & ->)]
    |destruct (update_volume_status_write amb f id phase path used error st)
       as [->|(v & w & Hv & Hs & ->)]
    |destruct (update_template_status_write amb f id phase written size' error st)
       as [->|(v & w & Hv & Hs & ->)]
    |destruct (update_nic_status_write amb f id phase socket None st)
       as [->|(v & w & Hv & Hs & ->)]];
    try (split_and!; [apply Hid|done..]);
    destruct (status_write_rows _ _ _ _ _ Hv Hs) as [H1 H2];
    (split_and!; [by destruct (db st)|try done..]);
    intros k Hk; apply H2; congruence.
Qed.
End tunnel_facts.

(** * Concrete instances *)

Definition ex_leaf : list u8 :=
  certificate_der [SanUri "mvirt://node/node1"; SanUri "mvirt://cluster/eu1"].
Definition ex_fresh (req : string) : Fresh := mkFresh req "" "" ex_now.
Definition ex_res : NodeResources := mkNodeResources 8 16384 500 4 8192 200.

(** The steps that bring connection [cid] of node1 up. *)
Definition ex_connect (cid : nat) (req : string) : list TunnelAct :=
  [ActAccept cid "10.0.0.1:4242" (Some [ex_leaf]);
   ActFirstPull ex_amb (ex_fresh req) cid (Some ex_res);
   ActRegister cid].
Definition ex_start : Tunnel := mkTunnel ex_joined ∅ ∅.
Definition ex_run_acts (l : list TunnelAct) : Tunnel :=
  match tunnel_run l ex_start with Some t => t | None => ex_start end.
Definition ex_twice : Tunnel := ex_run_acts (ex_connect 0 "p0" ++ ex_connect 1 "p1").

Definition ex_conn : Conn := mkConn "node1" "eu1" "host1" "10.0.0.1:4242" Registered.

Lemma tunnel_run_reachable l t t' :
  tunnel_reachable t → tunnel_run l t = Some t' → tunnel_reachable t'.
Proof.
  revert t. induction l as [|a l IH]; intros t Ht; [by intros [= <-]|]. cbn.
  destruct (tunnel_step t a) as [t1|] eqn:E; cbn; [|done].
  apply IH. by eapply tunnel_next.
Qed.

Lemma ex_twice_run : tunnel_run (ex_connect 0 "p0" ++ ex_connect 1 "p1") ex_start = Some ex_twice.
Proof.
  unfold ex_twice, ex_run_acts. destruct (tunnel_run _ _) eqn:E; [done|]. vm_compute in E. done.
Qed.

Lemma registry_handles_live_witness :
  ∃ h, registry_get "node1" (tn_registry ex_twice) = Some h ∧ nh_channel h = 1 ∧
    ∃ c, tn_conns ex_twice !! 1 = Some c ∧ cn_phase c = Registered.
Proof.
  assert (H : registry_get "node1" (tn_registry ex_twice) = Some (handle_of 1 ex_conn)).
  { vm_compute. reflexivity. }
  destruct (registry_handles_live ex_twice "node1" _
    (tunnel_run_reachable _ _ _ (tunnel_start ex_joined) ex_twice_run) H) as (_ & c & H1 & H2 & _).
  exists (handle_of 1 ex_conn). split; [exact H|]. split; [reflexivity|].
  exists c. split; [exact H1|exact H2].
Defined.

Lemma stale_connection_evicts_live_witness :
  ∃ t', tunnel_run [ActUnregister 0; ActFinish ex_amb (ex_fresh "q") 0] ex_twice = Some t' ∧
    registry_get "node1" (tn_registry t') = None ∧ tn_conns t' !! 1 = Some ex_conn.
Proof.
  assert (Hrow : ∃ row, nodes (db (tn_state ex_twice)) !! "node1" = Some row).
  { eexists. vm_compute. reflexivity. }
  destruct Hrow as [row Hrow].
  destruct (stale_connection_evicts_live ex_amb (ex_fresh "q") ex_twice 0 1 ex_conn ex_conn row)
    as (t' & H1 & H2 & _ & H3);
    [vm_compute; reflexivity|vm_compute; reflexivity|discriminate|reflexivity|reflexivity
    |reflexivity|exact Hrow|vm_compute; reflexivity|].
  exists t'. split; [exact H1|]. split; [exact H2|exact H3].
Defined.

Lemma revoked_node_readmitted_witness :
  ∃ t1 t2 row',
    admit_peer (Some [ex_leaf]) (db (tn_state t1)) = Err (NodeIsRevoked "node1") ∧
    tunnel_run [ActUnregister 1; ActFinish ex_amb (ex_fresh "q") 1] t1 = Some t2 ∧
    admit_peer (Some [ex_leaf]) (db (tn_state t2)) = Ok ("node1", "eu1", row') ∧
    is_cert_revoked (db (tn_state t2)) "010203" = true.
Proof.
  assert (Hrow : ∃ row, nodes (db (tn_state ex_twice)) !! "node1" = Some row ∧
    nd_cluster_slug row = Some "eu1" ∧ nd_cert_serial_hex row = Some "010203").
  { eexists. split_and!; vm_compute; reflexivity. }
  destruct Hrow as (row & Hrow & Hslug & Hser).
  destruct (revoked_node_readmitted ex_amb ex_amb "r-rv" ex_now (ex_fresh "q") ex_twice 1 ex_conn row
    "010203" ex_leaf "eu1") as (t1 & t2 & row' & _ & H1 & H2 & H3 & _ & H4);
    [vm_compute; reflexivity|reflexivity|exact Hrow|exact Hslug|exact Hser
    |vm_compute; reflexivity|vm_compute; reflexivity|vm_compute; reflexivity|discriminate|].
  exists t1, t2, row'. split; [exact H1|]. split; [exact H2|]. split; [exact H3|exact H4].
Defined.

Lemma redeemed_node_admitted_witness :
  ∃ d' node' pem ca_pem leaf,
    run_command ex_amb (ex_redeem "r-red") (db ex_state) =
      Commit d' (RespBootstrapResult node' pem ca_pem) [] ∧
    admit_peer (Some [certificate_der leaf]) d' = Ok ("node1", "eu1", node').
Proof.
  destruct ex_redeem_ok as (d' & n & pem & ca_pem & H).
  pose proof H as (tok & node & ca & signed & Hr)%redeem_inv.
  assert (Ht : ot_node_id tok = "node1" ∧ ot_cluster_slug tok = "eu1").
  { destruct Hr as [Hf _ _ _ _ _ _]. vm_compute in Hf. injection Hf as <-. split; reflexivity. }
  destruct Ht as [Hid Hcl].
  assert (Hn : nd_cluster_slug node = Some (ot_cluster_slug tok)).
  { destruct Hr as [_ _ _ _ Hn _ _]. rewrite Hid in Hn. vm_compute in Hn. injection Hn as <-.
    rewrite Hcl. reflexivity. }
  destruct (redeemed_node_admitted _ _ _ _ _ _ _ _ _ _ _ _ _ _ _ _ _ _ _ Hr Hn H)
    as (leaf & _ & Ha).
  rewrite Hid, Hcl in Ha. exists d', n, pem, ca_pem, leaf. split; [exact H|exact Ha].
Defined.
