(* ===== verification/Auth.v ===== *)
(** Authentication and roles of the REST API (mvirt-cplane/src/auth.rs), and the
    minting of API keys (rest/ui_handlers.rs, create_api_key).

    The validation of a JWT (jsonwebtoken with the issuer's keys) is an input:
    [validator] is absent when no issuer is configured, and otherwise maps a
    token to its claims or to an error. *)

From S2P Require Import Prelude Command Event Externals Ca Db.
From S2P Require Import ApplyCompute ApplyTenancy ApplyIdentity ApplyStorage.
From S2P Require Import Queries State RaftStore Examples.
From S2P Require Import Tables StateFacts StoreFacts StateReach StateInv StateHistory.

Record AuthClaims := mkAuthClaims {
  acl_sub : string;
  acl_iss : string;
  acl_exp : Z;
  acl_iat : option Z;
  acl_email : option string;
  acl_name : option string;
  acl_given_name : option string;
  acl_family_name : option string;
  acl_preferred_username : option string;
}.

Record AuthContext := mkAuthContext {
  ctx_claims : AuthClaims;
  ctx_account : AccountData;
  ctx_memberships : list MembershipData;
}.

(** blake3: 32 bytes for every input. *)
Class Blake3 := {
  blake3_hash : string → list u8;
  blake3_hash_len : ∀ s, length (blake3_hash s) = 32%nat;
  blake3_hash_bytes : ∀ s, Forall (λ b, (b < 256)%N) (blake3_hash s);
}.
Definition BLAKE3_OUT_LEN : nat := 32.
(** [Hash::to_hex]: lower-case, two digits for each byte. *)
Definition blake3_to_hex (h : list u8) : string := hex_serial h.

(** * Roles *)

Definition is_platform_admin (ctx : AuthContext) : bool :=
  existsb (λ m, (mb_scope m == ScopePlatform) && (mb_role m == PlatformAdmin))
    (ctx_memberships ctx).

Definition is_org_admin (ctx : AuthContext) (org_slug : string) : bool :=
  if is_platform_admin ctx then true
  else existsb (λ m, (mb_role m == OrgAdmin) &&
                     match mb_scope m with ScopeOrg s => s == org_slug | _ => false end)
         (ctx_memberships ctx).

Definition is_project_admin (ctx : AuthContext) (project_slug : string)
    (project_org_slug : option string) : bool :=
  if is_platform_admin ctx then true
  else if match project_org_slug with Some org => is_org_admin ctx org | None => false end
  then true
  else existsb (λ m, (mb_role m == ProjectAdmin) &&
                     match mb_scope m with ScopeProject s => s == project_slug | _ => false end)
         (ctx_memberships ctx).

(** * Hexadecimal *)

Definition hex_nybble (b : u8) : option u8 :=
  (if (48 <=? b) && (b <=? 57) then Some (b - 48)
   else if (97 <=? b) && (b <=? 102) then Some (b - 97 + 10)
   else if (65 <=? b) && (b <=? 70) then Some (b - 65 + 10)
   else None)%N.

(** The loop of [hex_to_array], over the bytes two at a time. *)
Fixpoint hex_pairs (l : list u8) : option (list u8) :=
  match l with
  | hi :: lo :: l' =>
      hi ← hex_nybble hi;
      lo ← hex_nybble lo;
      rest ← hex_pairs l';
      Some (N.lor (N.shiftl hi 4) lo :: rest)
  | _ => Some []
  end.

Definition hex_to_array (s : string) : option (list u8) :=
  if negb (Nat.eqb (String.length s) (BLAKE3_OUT_LEN * 2)) then None else hex_pairs (str_bytes s).

Section auth.
Context `{R : Redb} `{L : LruCache} `{U : UnicodeText} `{X : X509} `{B : Blake3}.

Definition non_blank (o : option string) : option string :=
  match o with
  | Some s => if str_is_empty (str_trim s) then None else Some s
  | None => None
  end.

Definition best_display_name (c : AuthClaims) : option string :=
  match non_blank (acl_name c) with
  | Some n => Some (str_trim n)
  | None =>
      let g := str_trim (default "" (acl_given_name c)) in
      let f := str_trim (default "" (acl_family_name c)) in
      let fallback := str_trim <$> non_blank (acl_preferred_username c) in
      if negb (str_is_empty g) || negb (str_is_empty f)
      then
        let joined := str_trim (g +:+ " " +:+ f) in
        if negb (str_is_empty joined) then Some joined else fallback
      else fallback
  end.

(** * Static API keys *)

(** [now] is [Utc::now().to_rfc3339()]. *)
Definition authenticate_static_api_key (now : string) (d : Db) (token : string) :
    result string AuthContext :=
  let? rest := ok_or "bad prefix" (strip_prefix "mvirt_sa_" token) in
  let? (id, secret) := ok_or "missing secret segment" (split_once "." rest) in
  if str_is_empty id || str_is_empty secret then Err "empty id or secret" else
  let? api_key := ok_or "unknown key id" (get_api_key d id) in
  if is_some (ak_revoked_at api_key) then Err "key revoked" else
  if match ak_expires_at api_key with Some exp => str_gt now exp | None => false end
  then Err "key expired" else
  let presented := blake3_hash secret in
  let? stored_bytes := ok_or "corrupt stored hash" (hex_to_array (ak_hash_hex api_key)) in
  if negb (presented == stored_bytes) then Err "secret mismatch" else
  let? account := ok_or "orphan key (account gone)" (get_account d (ak_account_id api_key)) in
  let memberships := list_memberships_for_account d (ac_id account) in
  let claims := {|
    acl_sub := ac_id account;
    acl_iss := "mvirt:service-account";
    acl_exp := 0;
    acl_iat := None;
    acl_email := ac_email account;
    acl_name := ac_display_name account;
    acl_given_name := None;
    acl_family_name := None;
    acl_preferred_username := ac_display_name account;
  |} in
  Ok (mkAuthContext claims account memberships).

(** [create_api_key] from the drawn [secret] on: the row that is stored, and the
    key string that is shown to the user once. *)
Definition mint_api_key (amb : Ambient) (f : Fresh) (secret account_id : string)
    (description expires_at : option string) (caller : string) (st : ApiState) :
    ApiState * result StoreError (ApiKeyData * string) :=
  let hash_hex := blake3_to_hex (blake3_hash secret) in
  let display_prefix := String.substring 0 4 secret in
  let '(st, r) := run_op amb (create_static_api_key f account_id hash_hex display_prefix
                    (non_blank description) (non_blank expires_at) caller) st in
  (st, let? key := r in Ok (key, "mvirt_sa_" +:+ ak_id key +:+ "." +:+ secret)).

(** * The middleware *)

Inductive AuthResult :=
  | PassThrough                       (* no bearer, authentication disabled *)
  | Refused (code : N) (msg : string)
  | Authenticated (ctx : AuthContext).

(** [require_auth]. The two writes are store calls of their own, each with its
    request id and ambient inputs. *)
Definition require_auth (validator : option (string → result string AuthClaims))
    (initial_admin_email authorization : option string) (now : string)
    (amb1 amb2 : Ambient) (f1 f2 : Fresh) (st : ApiState) : ApiState * AuthResult :=
  match (h ← authorization; strip_prefix "Bearer " h) with
  | None =>
      match validator with
      | None => (st, PassThrough)
      | Some _ => (st, Refused 401 "missing bearer token")
      end
  | Some token =>
      if starts_with "mvirt_sa_" token then
        match authenticate_static_api_key now (db st) token with
        | Ok ctx => (st, Authenticated ctx)
        | Err _ => (st, Refused 401 "invalid api key")
        end
      else
        match validator with
        | None => (st, Refused 401 "JWT auth not configured")
        | Some validate =>
            match validate token with
            | Err _ => (st, Refused 401 "invalid token")
            | Ok claims =>
                match run_op amb1 (ensure_account_from_oidc f1 (acl_iss claims) (acl_sub claims)
                        (acl_email claims) (best_display_name claims)) st with
                | (st, Err _) => (st, Refused 500 "account provisioning failed")
                | (st, Ok account) =>
                    let st :=
                      match initial_admin_email with
                      | Some target_email =>
                          if is_some_of (ac_email account) target_email
                          then (run_op amb2 (bootstrap_initial_platform_admin f2
                                               (ac_id account)) st).1
                          else st
                      | None => st
                      end in
                    let memberships := list_memberships_for_account (db st) (ac_id account) in
                    (st, Authenticated (mkAuthContext claims account memberships))
                end
            end
        end
  end.
End auth.

(** * Properties *)

Lemma split_once_Some c s k v :
  split_once c s = Some (k, v) ↔
  s = k +:+ String c v ∧ str_forall (λ a, negb (Ascii.eqb a c)) k = true.
Proof.
  revert k v. induction s as [|a s IH]; intros k v; cbn.
  - split; [done|]. intros [H _]. by destruct k.
  - destruct (Ascii.eqb_spec a c) as [->|Hne].
    + split; [by intros [= <- <-]|]. intros [H Hk]. destruct k as [|b k]; [by injection H as ->|].
      injection H as <- _. cbn in Hk. by rewrite Ascii.eqb_refl in Hk.
    + split.
      * destruct (split_once c s) as [[k' v']|]; [|done]. intros [= <- <-].
        destruct (proj1 (IH k' v') eq_refl) as [-> Hk]. split; [done|]. cbn.
        rewrite Hk. by destruct (Ascii.eqb_spec a c).
      * intros [H Hk]. destruct k as [|b k]; [by injection H as -> ->|].
        injection H as <- H. cbn in Hk. apply andb_true_iff in Hk as [_ Hk].
        by rewrite (proj2 (IH k v) (conj H Hk)).
Qed.

Lemma strip_prefix_Some p s t : strip_prefix p s = Some t ↔ s = p +:+ t.
Proof.
  split; [|intros ->; apply strip_prefix_app].
  revert s. induction p as [|a p IH]; intros s; cbn; [by intros [= ->]|].
  destruct s as [|b s]; [done|]. destruct (Ascii.eqb_spec a b) as [->|]; [|done].
  intros H. by rewrite (IH _ H).
Qed.

Lemma ok_or_Ok {E A} (e : E) (o : option A) a : ok_or e o = Ok a ↔ o = Some a.
Proof. destruct o; cbn; naive_solver. Qed.

(** ** Hexadecimal *)

(** The two digits printed for a byte read back as that byte. *)
Definition byte_reads_back (b : u8) : bool :=
  match hex_nybble (N_of_ascii (hex_digit (b `div` 16))),
        hex_nybble (N_of_ascii (hex_digit (b `mod` 16))) with
  | Some hi, Some lo => (N.lor (N.shiftl hi 4) lo =? b)%N
  | _, _ => false
  end.

Lemma byte_reads_back_all b : (b < 256)%N → byte_reads_back b = true.
Proof. intros Hb. apply (forall_below _ 256); [vm_compute; reflexivity|done]. Qed.

Lemma hex_pairs_serial l :
  Forall (λ b, (b < 256)%N) l → hex_pairs (str_bytes (hex_serial l)) = Some l.
Proof.
  induction 1 as [|b l Hb _ IH]; [done|].
  apply byte_reads_back_all in Hb. unfold byte_reads_back in Hb.
  change (str_bytes (hex_serial (b :: l))) with
    (N_of_ascii (hex_digit (b `div` 16)) :: N_of_ascii (hex_digit (b `mod` 16)) ::
     str_bytes (hex_serial l)). cbn [hex_pairs].
  destruct (hex_nybble _) as [hi|]; [|done]. destruct (hex_nybble _) as [lo|]; [|done].
  apply N.eqb_eq in Hb. cbn. rewrite IH. cbn. by rewrite Hb.
Qed.

Lemma hex_serial_length l : String.length (hex_serial l) = length l * 2.
Proof. induction l as [|b l IH]; [done|].
  change (S (S (String.length (hex_serial l))) = S (S (length l * 2))). by rewrite IH. Qed.

Section auth_facts.
Context `{R : Redb} `{L : LruCache} `{U : UnicodeText} `{X : X509} `{B : Blake3}.

(** What the store keeps of a key reads back as the hash of its secret. *)
Lemma hex_to_array_hash secret :
  hex_to_array (blake3_to_hex (blake3_hash secret)) = Some (blake3_hash secret).
Proof.
  unfold hex_to_array, blake3_to_hex. rewrite hex_serial_length, blake3_hash_len. cbn [negb Nat.eqb].
  apply hex_pairs_serial, blake3_hash_bytes.
Qed.

(** Everything that must hold for an API key to be accepted. *)
Record key_accepted (now : string) (d : Db) (id secret : string) (key : ApiKeyData)
    (account : AccountData) : Prop := {
  ka_id : id ≠ "" ∧ str_forall (λ a, negb (Ascii.eqb a ".")) id = true;
  ka_secret : secret ≠ "";
  ka_row : api_keys d !! id = Some key;
  ka_live : ak_revoked_at key = None;
  ka_unexpired : ∀ exp, ak_expires_at key = Some exp → str_gt now exp = false;
  ka_hash : hex_to_array (ak_hash_hex key) = Some (blake3_hash secret);
  ka_account : accounts d !! ak_account_id key = Some account;
}.

(** The caller an accepted key stands for. *)
Definition key_context (d : Db) (account : AccountData) : AuthContext :=
  mkAuthContext
    (mkAuthClaims (ac_id account) "mvirt:service-account" 0 None (ac_email account)
       (ac_display_name account) None None (ac_display_name account))
    account (list_memberships_for_account d (ac_id account)).

Definition key_string (id secret : string) : string :=
  "mvirt_sa_" +:+ id +:+ "." +:+ secret.

Lemma str_is_empty_false s : str_is_empty s = false ↔ s ≠ "".
Proof. by destruct s. Qed.

Lemma key_accepted_ok now d id secret key account :
  key_accepted now d id secret key account →
  authenticate_static_api_key now d (key_string id secret) = Ok (key_context d account).
Proof.
  intros [[Hi Hd] Hs Hk Hr He Hh Ha]. unfold authenticate_static_api_key, key_string.
  rewrite strip_prefix_app. cbn [ok_or].
  rewrite (proj2 (split_once_Some "." _ id secret)) by done. cbn [ok_or].
  rewrite (proj2 (str_is_empty_false _) Hi), (proj2 (str_is_empty_false _) Hs). cbn [orb].
  unfold get_api_key, get_account, read_get. rewrite Hk. cbn [ok_or]. rewrite Hr. cbn [is_some].
  replace (match ak_expires_at key with Some exp => str_gt now exp | None => false end)
    with false by (destruct (ak_expires_at key); [symmetry; auto|done]).
  rewrite Hh. cbn [ok_or]. rewrite bool_decide_eq_true_2 by done. cbn [negb]. by rewrite Ha.
Qed.

Lemma authenticate_inv now d token ctx :
  authenticate_static_api_key now d token = Ok ctx →
  ∃ id secret key account, token = key_string id secret ∧
    key_accepted now d id secret key account ∧ ctx = key_context d account.
Proof.
  unfold authenticate_static_api_key. intros H.
  destruct (strip_prefix "mvirt_sa_" token) as [rest|] eqn:E1; [|done].
  apply strip_prefix_Some in E1 as ->. cbn [ok_or] in H.
  destruct (split_once "." rest) as [[id secret]|] eqn:E2; [|done].
  apply split_once_Some in E2 as [-> Hd]. cbn [ok_or] in H.
  destruct (str_is_empty id) eqn:E3; [done|]. destruct (str_is_empty secret) eqn:E4; [done|].
  unfold get_api_key, get_account, read_get in H. cbn [orb] in H.
  destruct (api_keys d !! id) as [key|] eqn:E5; [|done]. cbn [ok_or] in H.
  destruct (ak_revoked_at key) eqn:E6; [done|]. cbn [is_some] in H.
  destruct (match ak_expires_at key with Some _ => _ | None => _ end) eqn:E7; [done|].
  destruct (hex_to_array (ak_hash_hex key)) as [h|] eqn:E8; [|done]. cbn [ok_or] in H.
  destruct (bool_decide (blake3_hash secret = h)) eqn:E9; [|done].
  apply bool_decide_eq_true in E9 as <-. cbn [negb] in H.
  destruct (accounts d !! ak_account_id key) as [account|] eqn:E10; [|done].
  injection H as <-. exists id, secret, key, account. split; [done|]. split; [|done].
  apply str_is_empty_false in E3, E4. split; try done.
  intros exp Hexp. by rewrite Hexp in E7.
Qed.

(** An API key lets a caller in exactly when it is the id of a stored key
    followed by a secret with the stored hash, the key is neither revoked nor
    expired and its account exists; the caller is then that account, with the
    memberships of that account. *)
Theorem api_key_accepted_iff now d token ctx :
  authenticate_static_api_key now d token = Ok ctx ↔
  ∃ id secret key account, token = key_string id secret ∧
    key_accepted now d id secret key account ∧ ctx = key_context d account.
Proof.
  split; [apply authenticate_inv|].
  intros (id & secret & key & account & -> & H & ->). by apply (key_accepted_ok _ _ _ _ key).
Qed.

Lemma if_true_orb (a b : bool) : (if a then true else b) = a || b.
Proof. by destruct a. Qed.

(** The roles form a hierarchy, and a role counts only at its own scope: a
    caller administers a project exactly when some membership of theirs is
    platform admin of the platform, org admin of the project's organization, or
    project admin of that very project. *)
Theorem project_admin_iff ctx project_slug org_slug :
  is_project_admin ctx project_slug (Some org_slug) = true ↔
  ∃ m, m ∈ ctx_memberships ctx ∧
    ((mb_scope m = ScopePlatform ∧ mb_role m = PlatformAdmin) ∨
     (mb_scope m = ScopeOrg org_slug ∧ mb_role m = OrgAdmin) ∨
     (mb_scope m = ScopeProject project_slug ∧ mb_role m = ProjectAdmin)).
Proof.
  unfold is_project_admin, is_org_admin, is_platform_admin.
  rewrite !if_true_orb, !orb_assoc, orb_diag, <- !orb_assoc, !orb_true_iff, !existsb_exists.
  split.
  - intros [(m & Hm & H)|[(m & Hm & H)|(m & Hm & H)]]; exists m;
      (split; [by apply list_elem_of_In|]); apply andb_true_iff in H as [H1 H2];
      apply bool_decide_eq_true in H1.
    + apply bool_decide_eq_true in H2. auto.
    + destruct (mb_scope m); try done. apply bool_decide_eq_true in H2 as ->. auto.
    + destruct (mb_scope m); try done. apply bool_decide_eq_true in H2 as ->. auto.
  - intros (m & Hm%list_elem_of_In & [[H1 H2]|[[H1 H2]|[H1 H2]]]);
      [left|right; left|right; right]; exists m; split; try done;
      rewrite H1, H2; by rewrite !bool_decide_eq_true_2.
Qed.

(** ** Life of a key *)

Lemma create_key_outcome amb f account_id hash prefix desc exp by_ st st' key :
  unseen f st →
  run_op amb (create_static_api_key f account_id hash prefix desc exp by_) st = (st', Ok key) →
  ∃ account, accounts (db st) !! account_id = Some account ∧
    accounts (db st') = accounts (db st) ∧ api_keys (db st') !! f_id f = Some key ∧
    applied_requests st' = lru_put (f_request_id f) (RespApiKey key) (applied_requests st) ∧
    ak_id key = f_id f ∧ ak_account_id key = account_id ∧ ak_hash_hex key = hash ∧
    ak_revoked_at key = None ∧ ak_expires_at key = exp.
Proof.
  intros Hu. unfold run_op, write_command, api_apply.
  cbn [op_cmd create_static_api_key cmd_request_id]. rewrite Hu.
  destruct (run_command _ _ _) eqn:H; cbn.
  - inv_outcome H; cbn; try done. all: by destruct (_ : N).
  - inv_outcome H; cbn; norm_guards. intros [= <- <-]. cbn. rewrite lookup_insert_eq. eauto 12.
Qed.

Lemma revoke_key_outcome amb f id st key :
  unseen f st → api_keys (db st) !! id = Some key →
  ∃ key', api_keys (db (run_op amb (revoke_static_api_key f id) st).1) !! id = Some key' ∧
    is_Some (ak_revoked_at key').
Proof.
  intros Hu Hk. unfold run_op, write_command, api_apply.
  cbn [op_cmd revoke_static_api_key cmd_request_id]. rewrite Hu. cbn [run_command].
  unfold apply_revoke_static_api_key, txn_get. rewrite Hk.
  destruct (ak_revoked_at key) as [ts|] eqn:E; cbn [is_none is_some negb]; cbn.
  - exists key. rewrite E. eauto.
  - rewrite lookup_insert_eq. eauto.
Qed.

Lemma key_revoked_refused now d id secret key :
  id ≠ "" → str_forall (λ a, negb (Ascii.eqb a ".")) id = true → secret ≠ "" →
  api_keys d !! id = Some key → is_Some (ak_revoked_at key) →
  authenticate_static_api_key now d (key_string id secret) = Err "key revoked".
Proof.
  intros Hi Hd Hs Hk [ts Hr]. unfold authenticate_static_api_key, key_string.
  rewrite strip_prefix_app. cbn [ok_or].
  rewrite (proj2 (split_once_Some "." _ id secret)) by done. cbn [ok_or].
  rewrite (proj2 (str_is_empty_false _) Hi), (proj2 (str_is_empty_false _) Hs). cbn [orb].
  unfold get_api_key, read_get. rewrite Hk. cbn [ok_or]. by rewrite Hr.
Qed.

(** ** Logging in *)

Lemma ensure_account_memberships amb f iss sub email name st :
  memberships (db (run_op amb (ensure_account_from_oidc f iss sub email name) st).1) =
  memberships (db st).
Proof.
  unfold run_op, write_command, api_apply. destruct (lru_peek _ _); [done|].
  destruct (run_command _ _ _) eqn:H; [done|]. cbn [op_cmd ensure_account_from_oidc] in H.
  by inv_outcome H.
Qed.

(** The membership the bootstrap grants. *)
Definition bootstrap_row (f : Fresh) (account_id : string) : MembershipData :=
  mkMembershipData (f_id f) account_id ScopePlatform PlatformAdmin account_id (f_now f).

Lemma bootstrap_outcome amb f account_id st :
  let st' := (run_op amb (bootstrap_initial_platform_admin f account_id) st).1 in
  memberships (db st') = memberships (db st) ∨
  (existsb is_platform_admin_row (txn_list memberships (db st)) = false ∧
   memberships (db st') = <[f_id f := bootstrap_row f account_id]> (memberships (db st))).
Proof.
  unfold run_op, write_command, api_apply. destruct (lru_peek _ _); [by left|].
  destruct (run_command _ _ _) eqn:H; [by left|].
  cbn [op_cmd bootstrap_initial_platform_admin] in H. inv_outcome H. by right.
Qed.

Lemma elem_of_account_memberships d account_id m :
  m ∈ list_memberships_for_account d account_id ↔
  mb_account_id m = account_id ∧ ∃ k, memberships d !! k = Some m.
Proof.
  unfold list_memberships_for_account.
  rewrite list_elem_of_In, filter_In, <- list_elem_of_In, bool_decide_eq_true.
  change (read_list d memberships) with (txn_list memberships d).
  rewrite elem_of_txn_list. split; intros []; done.
Qed.

(** C34: Authenticating a request grants nothing to anyone, with one exception:
    the memberships are as before, or there was no platform administrator, the
    caller's account has the configured initial administrator's email, and the
    one new membership is theirs. The memberships a handler then sees are rows
    of the store that belong to the caller. *)
Theorem login_grants_nothing validator admin authorization now amb1 amb2 f1 f2 st :
  let '(st', res) := require_auth validator admin authorization now amb1 amb2 f1 f2 st in
  (memberships (db st') = memberships (db st) ∨
   ∃ ctx, res = Authenticated ctx ∧
     is_Some admin ∧ ac_email (ctx_account ctx) = admin ∧
     existsb is_platform_admin_row (txn_list memberships (db st)) = false ∧
     memberships (db st') =
       <[f_id f2 := bootstrap_row f2 (ac_id (ctx_account ctx))]> (memberships (db st))) ∧
  (∀ ctx m, res = Authenticated ctx → m ∈ ctx_memberships ctx →
     mb_account_id m = ac_id (ctx_account ctx) ∧ ∃ k, memberships (db st') !! k = Some m).
Proof.
  unfold require_auth. destruct (authorization ≫= _) as [token|];
    [|destruct validator; (split; [by left|done])].
  destruct (starts_with "mvirt_sa_" token).
  { destruct (authenticate_static_api_key now (db st) token) as [ctx|] eqn:H;
      (split; [by left|]); [|done]. intros ctx' m [= <-] Hm.
    apply authenticate_inv in H as (_ & _ & _ & account & _ & _ & ->). by apply elem_of_account_memberships. }
  destruct validator as [validate|]; [|split; [by left|done]].
  destruct (validate token) as [claims|]; [|split; [by left|done]].
  pose proof (ensure_account_memberships amb1 f1 (acl_iss claims) (acl_sub claims)
    (acl_email claims) (best_display_name claims) st) as Hm1.
  destruct (run_op amb1 _ st) as [st1 [account|e]]; cbn in Hm1; [|split; [by left|done]].
  split; [|intros ctx m [= <-] Hm; by apply elem_of_account_memberships].
  rewrite <- Hm1. destruct admin as [target|]; [|by left].
  destruct (is_some_of (ac_email account) target) eqn:E; [|by left].
  destruct (bootstrap_outcome amb2 f2 (ac_id account) st1) as [->|[H1 H2]]; [by left|].
  right. eexists. split; [done|]. cbn. apply bool_decide_eq_true in E. split_and!; try done.
  unfold txn_list in *. by rewrite <- Hm1.
Qed.

Lemma ensure_account_commits ts id iss sub email name d :
  db_keyed d →
  ∃ d' account, apply_ensure_account_from_oidc ts id iss sub (Some email) name d =
      Commit d' (RespAccount account) [] ∧
    ac_email account = Some email ∧ is_Some (accounts d' !! ac_id account).
Proof.
  intros Hk. unfold apply_ensure_account_from_oidc. cbv zeta.
  destruct (List.find (oidc_matches iss sub) _) as [acc|] eqn:E.
  - apply (keyed_txn_find accounts ac_id) in E; [|by destruct Hk]. cbn [is_some andb].
    destruct (ac_email acc == Some email) eqn:Ee; [apply bool_decide_eq_true in Ee|];
      cbn [negb orb];
      destruct (is_some name && _); cbn [orb];
      do 2 eexists; (split; [done|]); cbn; rewrite ?lookup_insert_eq; eauto.
  - destruct (Some email ≫= _) as [acc|];
      [destruct (is_some name)|]; do 2 eexists; (split; [done|]); cbn;
      rewrite lookup_insert_eq; eauto.
Qed.

Lemma ensure_account_outcome amb f iss sub email name st :
  db_keyed (db st) → unseen f st →
  ∃ st' account, run_op amb (ensure_account_from_oidc f iss sub (Some email) name) st =
      (st', Ok account) ∧
    ac_email account = Some email ∧ is_Some (accounts (db st') !! ac_id account) ∧
    applied_requests st' = lru_put (f_request_id f) (RespAccount account) (applied_requests st).
Proof.
  intros Hk Hu. unfold run_op, write_command, api_apply.
  cbn [op_cmd ensure_account_from_oidc cmd_request_id]. rewrite Hu. cbn [run_command].
  destruct (ensure_account_commits (f_now f) (f_id f) iss sub email name _ Hk)
    as (d' & account & -> & He & Ha). eauto 8.
Qed.

Lemma bootstrap_grants amb f account_id st :
  unseen f st → is_Some (accounts (db st) !! account_id) →
  existsb is_platform_admin_row (txn_list memberships (db st)) = false →
  memberships (db (run_op amb (bootstrap_initial_platform_admin f account_id) st).1) =
    <[f_id f := bootstrap_row f account_id]> (memberships (db st)).
Proof.
  intros Hu [a Ha] Hn. unfold run_op, write_command, api_apply.
  cbn [op_cmd bootstrap_initial_platform_admin cmd_request_id]. rewrite Hu. cbn [run_command].
  unfold apply_bootstrap_initial_platform_admin, txn_has. by rewrite Hn, Ha.
Qed.

(** The first login that carries the configured email becomes platform
    administrator, whatever else its token says. The claims the code reads have
    no field for whether the issuer verified the address. *)
Theorem first_login_becomes_admin validate target token claims now amb1 amb2 f1 f2 st :
  db_keyed (db st) → unseen f1 st → unseen f2 st → f_request_id f1 ≠ f_request_id f2 →
  starts_with "mvirt_sa_" token = false → validate token = Ok claims →
  acl_email claims = Some target →
  existsb is_platform_admin_row (txn_list memberships (db st)) = false →
  ∃ st' ctx, require_auth (Some validate) (Some target) (Some ("Bearer " +:+ token)) now
      amb1 amb2 f1 f2 st = (st', Authenticated ctx) ∧
    ctx_claims ctx = claims ∧ is_platform_admin ctx = true.
Proof.
  intros Hk Hu1 Hu2 Hne Htok Hval Hemail Hnone.
  destruct (ensure_account_outcome amb1 f1 (acl_iss claims) (acl_sub claims) target
    (best_display_name claims) st Hk Hu1) as (st1 & account & Hop & He & Hrow & Hcache).
  pose proof (ensure_account_memberships amb1 f1 (acl_iss claims) (acl_sub claims)
    (Some target) (best_display_name claims) st) as Hm. rewrite Hop in Hm. cbn in Hm.
  assert (Hu : unseen f2 st1).
  { unfold unseen in *. rewrite Hcache.
    by destruct (lru_peek_put_ne (f_request_id f1) (f_request_id f2) (RespAccount account)
      (applied_requests st) Hne) as [->| ->]. }
  pose proof (bootstrap_grants amb2 f2 (ac_id account) st1 Hu Hrow) as Hb.
  unfold txn_list in Hb, Hnone. rewrite Hm in Hb. specialize (Hb Hnone).
  unfold require_auth. cbn [mbind option_bind]. rewrite strip_prefix_app, Htok, Hval, Hemail, Hop.
  unfold is_some_of. rewrite bool_decide_eq_true_2 by done.
  eexists _, _. split; [done|]. split; [done|].
  unfold is_platform_admin. cbn [ctx_memberships]. apply existsb_exists.
  exists (bootstrap_row f2 (ac_id account)). split; [|done].
  apply list_elem_of_In, elem_of_account_memberships. split; [done|].
  exists (f_id f2). by rewrite Hb, lookup_insert_eq.
Qed.
End auth_facts.

(** * Concrete instances *)

Module AuthModel.
(** A stand-in for the hash: the first 32 bytes, padded with zeros. *)
#[export] Instance blake3_model : Blake3.
Proof.
  refine {| blake3_hash := λ s, map (λ b, b `mod` 256)%N
              (resize 32 0%N (str_bytes s)) |}.
  - intros s. rewrite length_map. apply length_resize.
  - intros s. apply Forall_forall. intros b (a & <- & _)%in_map_iff. apply N.mod_lt. lia.
Defined.
End AuthModel.
Import AuthModel.

Definition ex_accounts : ApiState := ex_run (take 3 ex_key_log).
Definition ex_key_fresh : Fresh := mkFresh "q1" "key9" "" ex_now.
Definition ex_later : Fresh := mkFresh "q2" "mb9" "" ex_now.


Definition ex_claims : AuthClaims :=
  mkAuthClaims "u1" "https://id" 0 None (Some "root@example.org") None None None None.

Lemma first_login_becomes_admin_witness :
  ∃ st' ctx, require_auth (Some (λ _, Ok ex_claims)) (Some "root@example.org")
      (Some ("Bearer " +:+ "jwt")) "2026" ex_amb ex_amb ex_key_fresh ex_later ex_accounts =
      (st', Authenticated ctx) ∧ is_platform_admin ctx = true.
Proof.
  destruct (first_login_becomes_admin (λ _, Ok ex_claims) "root@example.org" "jwt" ex_claims "2026"
    ex_amb ex_amb ex_key_fresh ex_later ex_accounts) as (st' & ctx & H1 & _ & H2);
    [exact (proj1 (reachable_wf _ _ _ (reachable_log (ex_log (take 3 ex_key_log)))))
    |vm_compute; reflexivity|vm_compute; reflexivity|discriminate|reflexivity|reflexivity
    |reflexivity|vm_compute; reflexivity|].
  exists st', ctx. split; [exact H1|exact H2].
Defined.
