(* ===== verification/Packet.v ===== *)
(** Packet buffers: reads and writes at byte offsets, as the eBPF programs
    perform them through raw pointers. An access outside the buffer has no
    result, so that a program that returns a result is one that stayed inside. *)

From S2P Require Import Prelude.

(** Reads [*((data + off) as *const T)]. *)
Definition read_u8 (d : list u8) (off : nat) : option u8 := d !! off.
Definition read_be16 (d : list u8) (off : nat) : option u16 :=
  hi ← d !! off; lo ← d !! S off; Some (hi * 256 + lo)%N.
Definition read_array (n : nat) (d : list u8) (off : nat) : option (list u8) :=
  if (off + n <=? length d)%nat then Some (take n (drop off d)) else None.

(** Writes [*((data + off) as *mut T) = v]. *)
Definition write_bytes (d : list u8) (off : nat) (bs : list u8) : option (list u8) :=
  if (off + length bs <=? length d)%nat
  then Some (take off d ++ bs ++ drop (off + length bs) d) else None.

(** [to_be] of integers, as bytes. *)
Definition be16 (v : u16) : list u8 := [(v `div` 256) `mod` 256; v `mod` 256]%N.
Definition be32 (v : u32) : list u8 :=
  [(v `div` 16777216) `mod` 256; (v `div` 65536) `mod` 256; (v `div` 256) `mod` 256;
   v `mod` 256]%N.

Definition bytes_ok (l : list u8) : Prop := Forall (λ b, (b < 256)%N) l.

Lemma read_u8_some d off : off < length d → is_Some (read_u8 d off).
Proof. apply lookup_lt_is_Some_2. Qed.

Lemma read_be16_some d off : off + 2 <= length d → is_Some (read_be16 d off).
Proof.
  intros H. unfold read_be16.
  destruct (lookup_lt_is_Some_2 d off) as [hi ->]; [lia|].
  destruct (lookup_lt_is_Some_2 d (S off)) as [lo ->]; [lia|]. cbn. eauto.
Qed.

Lemma read_array_some n d off : off + n <= length d →
  ∃ l, read_array n d off = Some l ∧ length l = n.
Proof.
  intros H. unfold read_array. rewrite (proj2 (Nat.leb_le _ _) H).
  eexists. split; [done|]. rewrite length_take, length_drop. lia.
Qed.

Lemma write_bytes_some d off bs : off + length bs <= length d →
  ∃ d', write_bytes d off bs = Some d' ∧ length d' = length d.
Proof.
  intros H. unfold write_bytes. rewrite (proj2 (Nat.leb_le _ _) H).
  eexists. split; [done|]. rewrite !length_app, length_take, length_drop. lia.
Qed.

Lemma write_bytes_eq d off bs : (off + length bs <= length d)%nat →
  write_bytes d off bs = Some (take off d ++ bs ++ drop (off + length bs) d).
Proof. intros H. unfold write_bytes. by rewrite (proj2 (Nat.leb_le _ _) H). Qed.

(** A write right after another one. *)
Lemma write_bytes_snoc d off bs bs' off' :
  off' = (off + length bs)%nat → (off + length (bs ++ bs') <= length d)%nat →
  write_bytes (take off d ++ bs ++ drop (off + length bs) d) off' bs' =
    Some (take off d ++ (bs ++ bs') ++ drop (off + length (bs ++ bs')) d).
Proof.
  rewrite length_app. intros -> H.
  assert (Hl : length (take off d ++ bs) = (off + length bs)%nat)
    by (rewrite length_app, length_take; lia).
  rewrite write_bytes_eq by (rewrite app_assoc, length_app, length_drop; lia).
  rewrite (app_assoc (take off d) bs), take_app_length', drop_app_ge, drop_drop by lia.
  rewrite Hl, <- !app_assoc. do 5 f_equal. lia.
Qed.

Lemma read_be16_be16 a c v off :
  off = length a → (v < 65536)%N → read_be16 (a ++ be16 v ++ c) off = Some v.
Proof.
  intros -> Hv. unfold read_be16, be16. cbn.
  rewrite (list_lookup_middle a _ _ (length a) eq_refl). cbn.
  rewrite cons_middle, app_assoc, list_lookup_middle by (rewrite length_app; cbn; lia). cbn.
  f_equal. assert (v `div` 256 < 256)%N by (apply N.Div0.div_lt_upper_bound; done).
  rewrite (N.mod_small (v `div` 256)) by done. pose proof (N.div_mod v 256). lia.
Qed.
