(* ===== verification/Ebpf.v ===== *)
(** The data plane's packet filter: the types of mvirt-ebpf/programs/src/lib.rs,
    the rule matching and routing the two TC programs share, and the kernel
    behind them. *)

From S2P Require Import Prelude Packet.

(** * Types shared with user space *)

Record RouteEntry := MkRouteEntry {
  re_action : u8; re_target_ifindex : u32; re_dst_mac : list u8; re_src_mac : list u8 }.

Definition ACTION_DROP : u8 := 0.
Definition ACTION_REDIRECT : u8 := 1.
Definition ACTION_PASS : u8 := 2.

Definition ETH_HLEN : nat := 14.
Definition IPV6_HDR_SIZE : nat := 40.
Definition IPPROTO_IPIP : u8 := 4.
Definition IPPROTO_IPV6_ENCAP : u8 := 41.
Definition ETH_P_IP : u16 := 2048.
Definition ETH_P_IPV6 : u16 := 34525.
Definition ETH_P_ARP : u16 := 2054.
Definition IPPROTO_TCP : u8 := 6.
Definition IPPROTO_UDP : u8 := 17.
Definition IPPROTO_ICMPV6 : u8 := 58.
Definition DHCP_SERVER_PORT : u16 := 67.
Definition DHCP_CLIENT_PORT : u16 := 68.
Definition DHCPV6_SERVER_PORT : u16 := 547.
Definition DHCPV6_CLIENT_PORT : u16 := 546.
Definition DIRECTION_INGRESS : u8 := 0.
Definition DIRECTION_EGRESS : u8 := 1.
Definition PROTO_ALL : u8 := 0.
Definition CT_STATE_NEW : u8 := 0.
Definition CT_STATE_ESTABLISHED : u8 := 1.
Definition CT_FLAG_SEEN_REPLY : u8 := 1.

Record SecurityRule := MkSecurityRule {
  sr_enabled : u8; sr_direction : u8; sr_protocol : u8; sr_ip_version : u8;
  sr_port_start : u16; sr_port_end : u16; sr_cidr_addr : list u8; sr_cidr_prefix_len : u8 }.

(** The padding of a key is always written as zero and is left out. *)
Record ConnTrackKey := from_tuple {
  ck_src_addr : list u8; ck_dst_addr : list u8; ck_src_port : u16; ck_dst_port : u16;
  ck_protocol : u8; ck_ip_version : u8 }.

#[export] Instance ConnTrackKey_eq : EqDecision ConnTrackKey.
Proof. solve_decision. Defined.
#[export] Instance ConnTrackKey_countable : Countable ConnTrackKey.
Proof.
  apply (inj_countable'
    (λ k, (ck_src_addr k, ck_dst_addr k, ck_src_port k, ck_dst_port k, ck_protocol k,
           ck_ip_version k))
    (λ '(a, b, c, d, e, f), from_tuple a b c d e f)).
  by intros [].
Defined.

Definition ct_reverse (k : ConnTrackKey) : ConnTrackKey :=
  from_tuple (ck_dst_addr k) (ck_src_addr k) (ck_dst_port k) (ck_src_port k)
    (ck_protocol k) (ck_ip_version k).

Record ConnTrackEntry := MkConnTrackEntry {
  ce_state : u8; ce_flags : u8; ce_last_seen_ns : u64; ce_packet_count : u64 }.

Definition with_state (state : u8) (last_seen_ns : u64) : ConnTrackEntry :=
  MkConnTrackEntry state 0 last_seen_ns 1.

Record NicSecurityConfig := MkNicSecurityConfig {
  nc_enabled : u8; nc_rules_start : u32; nc_rules_count : u32 }.
Record TunnelEndpoint := MkTunnelEndpoint { te_remote_prefix : list u8 }.
Record LocalNicInfo := MkLocalNicInfo {
  ln_nf_id : u16; ln_sg_id : u32; ln_local_prefix : list u8 }.
Record TunnelMetadata := MkTunnelMetadata {
  tm_nf_id : u16; tm_sg_id : u32; tm_inner_ip_version : u8 }.

(** * The kernel *)

(** A socket buffer: the interface it is on, the protocol the kernel recorded
    when the frame arrived, and the frame. *)
Record Skb := MkSkb { skb_ifindex : u32; skb_protocol : u16; skb_data : list u8 }.

Inductive Verdict := TC_ACT_OK | TC_ACT_SHOT | TC_ACT_REDIRECT (target : u32).

(** The length of the network header [bpf_skb_adjust_room] assumes: that of the
    fixed header of the recorded protocol. *)
Definition net_base_len (proto : u16) : nat :=
  if proto == ETH_P_IP then 20 else if proto == ETH_P_IPV6 then 40 else 0.

(** The helpers the programs call. [adjust_room_net] is [bpf_skb_adjust_room]
    with [BPF_ADJ_ROOM_NET], documented to add or remove the room between the
    network and the transport header; [None] is a failure code. A full hash map
    refuses new keys and still updates the ones it holds. *)
Class BpfKernel := {
  bpf_redirect : u32 → Verdict;
  ct_insert : ConnTrackKey → ConnTrackEntry →
    gmap ConnTrackKey ConnTrackEntry → gmap ConnTrackKey ConnTrackEntry;
  adjust_room_grow : nat → Skb → option Skb;
  adjust_room_shrink : nat → Skb → option Skb;
}.

Class BpfKernelLaws (K : BpfKernel) := {
  bpf_redirect_result ifx : bpf_redirect ifx = TC_ACT_REDIRECT ifx ∨ bpf_redirect ifx = TC_ACT_SHOT;
  ct_insert_result k e m : ct_insert k e m = <[k := e]> m ∨ ct_insert k e m = m;
  ct_insert_present k e m : is_Some (m !! k) → ct_insert k e m = <[k := e]> m;
  ct_insert_room k e m : (size m < N.to_nat 65536)%nat → ct_insert k e m = <[k := e]> m;
  grow_result n s s' : adjust_room_grow n s = Some s' →
    let off := (ETH_HLEN + net_base_len (skb_protocol s))%nat in
    ∃ room, length room = n ∧ skb_ifindex s' = skb_ifindex s ∧
      skb_data s' = take off (skb_data s) ++ room ++ drop off (skb_data s);
  shrink_result n s s' : adjust_room_shrink n s = Some s' →
    let off := (ETH_HLEN + net_base_len (skb_protocol s))%nat in
    (off + n <= length (skb_data s))%nat ∧ skb_ifindex s' = skb_ifindex s ∧
      skb_data s' = take off (skb_data s) ++ drop (off + n) (skb_data s);
}.

(** * Rule matching *)

(** [cidr_matches]: the loop over whole bytes, then the bits that remain.
    [None] is an index outside an array. *)
Fixpoint bytes_eq (fuel i : nat) (cidr_addr addr : list u8) : option bool :=
  match fuel with
  | O => Some true
  | S fuel => a ← cidr_addr !! i; b ← addr !! i;
      if a == b then bytes_eq fuel (S i) cidr_addr addr else Some false
  end.

Definition cidr_mask (remaining_bits : N) : u8 := wrap 8 (N.shiftl 255 (8 - remaining_bits)).

Definition cidr_matches (cidr_addr : list u8) (prefix_len : u8) (addr : list u8)
    (ip_version : u8) : option bool :=
  let bytes := if ip_version == 4%N then 4%nat else 16%nat in
  let full_bytes := N.to_nat (prefix_len `div` 8) in
  let remaining_bits := (prefix_len `mod` 8)%N in
  full ← bytes_eq (full_bytes `min` bytes) 0 cidr_addr addr;
  if negb full then Some false
  else if (0 <? remaining_bits)%N && (full_bytes <? bytes)%nat then
    a ← cidr_addr !! full_bytes; b ← addr !! full_bytes;
    Some (N.land a (cidr_mask remaining_bits) == N.land b (cidr_mask remaining_bits))
  else Some true.

Definition rule_matches (rule : SecurityRule) (addr : list u8) (port : u16)
    (protocol ip_version : u8) : option bool :=
  if negb (sr_ip_version rule == 0%N) && negb (sr_ip_version rule == ip_version) then Some false
  else if negb (sr_protocol rule == PROTO_ALL) && negb (sr_protocol rule == protocol)
  then Some false
  else if ((protocol == IPPROTO_TCP) || (protocol == IPPROTO_UDP))
       && negb (sr_port_start rule == 0%N)
       && ((port <? sr_port_start rule)%N || (sr_port_end rule <? port)%N) then Some false
  else if (0 <? sr_cidr_prefix_len rule)%N
  then cidr_matches (sr_cidr_addr rule) (sr_cidr_prefix_len rule) addr ip_version
  else Some true.

(** The loop over the rules of an interface; [fuel] is what [max_iter] leaves. *)
Fixpoint scan_rules (fuel : nat) (direction : u8) (rules : gmap u32 SecurityRule) (i last : u32)
    (addr : list u8) (port : u16) (protocol ip_version : u8) : option bool :=
  match fuel with
  | O => Some false
  | S fuel =>
      if (i <? last)%N then
        let next :=
          scan_rules fuel direction rules (u32_add i 1) last addr port protocol ip_version in
        match rules !! i with
        | Some rule =>
            if negb (sr_enabled rule == 0%N) && (sr_direction rule == direction) then
              hit ← rule_matches rule addr port protocol ip_version;
              if hit : bool then Some true else next
            else next
        | None => next
        end
      else Some false
  end.

Definition max_iter : nat := 256.

(** * Headers *)

(** The two ports of a TCP or UDP packet whose transport header starts at [off],
    or zeros when the frame ends before them. *)
Definition read_ports (d : list u8) (proto : u8) (off : nat) : option (u16 * u16) :=
  if (proto == IPPROTO_TCP) || (proto == IPPROTO_UDP) then
    if (length d <? off + 4)%nat then Some (0, 0)%N
    else sp ← read_be16 d off; dp ← read_be16 d (off + 2)%nat; Some (sp, dp)
  else Some (0, 0)%N.

(** An IPv4 address as the first four of sixteen bytes. *)
Definition pad16 (ip4 : list u8) : list u8 := ip4 ++ replicate 12 0%N.

(** The fields both programs read from an IPv4 packet of at least 20 bytes, and
    the IPv4 destination. *)
Definition parse_v4 (d : list u8) : option (ConnTrackKey * list u8) :=
  version_ihl ← read_u8 d ETH_HLEN;
  let ihl := N.to_nat (N.land version_ihl 15 * 4) in
  proto ← read_u8 d (ETH_HLEN + 9)%nat;
  src_ip4 ← read_array 4 d (ETH_HLEN + 12)%nat;
  dst_ip4 ← read_array 4 d (ETH_HLEN + 16)%nat;
  ports ← read_ports d proto (ETH_HLEN + ihl)%nat;
  Some (from_tuple (pad16 src_ip4) (pad16 dst_ip4) ports.1 ports.2 proto 4, dst_ip4).

Definition parse_v6 (d : list u8) : option ConnTrackKey :=
  next_hdr ← read_u8 d (ETH_HLEN + 6)%nat;
  src_addr ← read_array 16 d (ETH_HLEN + 8)%nat;
  dst_addr ← read_array 16 d (ETH_HLEN + 24)%nat;
  ports ← read_ports d next_hdr (ETH_HLEN + IPV6_HDR_SIZE)%nat;
  Some (from_tuple src_addr dst_addr ports.1 ports.2 next_hdr 6).

Definition with_data (s : Skb) (d : list u8) : Skb := MkSkb (skb_ifindex s) (skb_protocol s) d.

Definition handle_route `{!BpfKernel} (s : Skb) (route : RouteEntry) : option (Verdict * Skb) :=
  if re_action route == ACTION_DROP then Some (TC_ACT_SHOT, s)
  else if re_action route == ACTION_PASS then Some (TC_ACT_OK, s)
  else if re_action route == ACTION_REDIRECT then
    if (length (skb_data s) <? 12)%nat then Some (TC_ACT_OK, s) else
    d ← write_bytes (skb_data s) 0 (re_dst_mac route);
    d ← write_bytes d 6 (re_src_mac route);
    Some (bpf_redirect (re_target_ifindex route), with_data s d)
  else Some (TC_ACT_OK, s).

(** * Well-typed arrays *)

(** The lengths Rust's array types fix, and bytes below 256. *)
Definition arr (n : nat) (l : list u8) : Prop := length l = n ∧ bytes_ok l.
Definition rule_ok (r : SecurityRule) : Prop :=
  arr 16 (sr_cidr_addr r) ∧ (sr_cidr_prefix_len r < 256)%N.
Definition route_ok (r : RouteEntry) : Prop := arr 6 (re_dst_mac r) ∧ arr 6 (re_src_mac r).
Definition rules_ok (rules : gmap u32 SecurityRule) : Prop := map_Forall (λ _, rule_ok) rules.
Definition lookup_ok {A} (P : A → Prop) (f : list u8 → option A) : Prop :=
  ∀ key a, f key = Some a → P a.

(** * Prefix matching *)

(** The bits of an address, the most significant bit of each byte first. *)
Definition byte_bits (b : u8) : list bool :=
  map (N.testbit b) [7; 6; 5; 4; 3; 2; 1; 0]%N.
Definition addr_bits (addr : list u8) : list bool := addr ≫= byte_bits.

Lemma length_addr_bits l : length (addr_bits l) = (8 * length l)%nat.
Proof. induction l as [|b l IH]; [done|]. cbn -[Nat.mul]. unfold addr_bits in IH. cbn in IH. lia. Qed.

(** A byte is determined by its bits, and the masked byte by the bits it keeps. *)
Definition of_bits (bs : list bool) : N := foldl (λ n b, 2 * n + N.b2n b)%N 0%N bs.
Definition byte_facts (b : N) : bool :=
  (of_bits (byte_bits b) =? b)%N &&
  forallb (λ r, let m := N.land b (cidr_mask (N.of_nat r)) in
    bool_decide (take r (byte_bits m) = take r (byte_bits b)) &&
    (of_bits (take r (byte_bits b)) * 2 ^ (8 - N.of_nat r) =? m)%N) (seq 1 7).

Lemma byte_facts_all b : (b < 256)%N → byte_facts b = true.
Proof. intros Hb. apply (forall_below _ 256); [vm_compute; reflexivity|done]. Qed.

Lemma byte_bits_inj b c : (b < 256)%N → (c < 256)%N → byte_bits b = byte_bits c → b = c.
Proof.
  intros [Hb _]%byte_facts_all%andb_prop [Hc _]%byte_facts_all%andb_prop E.
  apply N.eqb_eq in Hb, Hc. congruence.
Qed.

Lemma masked_byte b r : (b < 256)%N → (0 < r < 8)%nat →
  take r (byte_bits (N.land b (cidr_mask (N.of_nat r)))) = take r (byte_bits b) ∧
  N.land b (cidr_mask (N.of_nat r)) = (of_bits (take r (byte_bits b)) * 2 ^ (8 - N.of_nat r))%N.
Proof.
  intros [_ Hf]%byte_facts_all%andb_prop Hr. rewrite forallb_forall in Hf.
  destruct (andb_prop _ _ (Hf r ltac:(apply in_seq; lia))) as [H1%bool_decide_eq_true H2%N.eqb_eq].
  by split.
Qed.

(** Two bytes agree under the mask when their leading bits agree. *)
Lemma mask_eq_iff a b r : (a < 256)%N → (b < 256)%N → (0 < r < 8)%nat →
  N.land a (cidr_mask (N.of_nat r)) = N.land b (cidr_mask (N.of_nat r)) ↔
  take r (byte_bits a) = take r (byte_bits b).
Proof.
  intros Ha Hb Hr. destruct (masked_byte a r Ha Hr) as [A1 A2], (masked_byte b r Hb Hr) as [B1 B2].
  split; intros E; [rewrite <- A1, <- B1; by rewrite E | rewrite A2, B2; by rewrite E].
Qed.

Lemma addr_bits_app l k : addr_bits (l ++ k) = addr_bits l ++ addr_bits k.
Proof. apply bind_app. Qed.

Lemma addr_bits_inj l k : bytes_ok l → bytes_ok k → length l = length k →
  addr_bits l = addr_bits k → l = k.
Proof.
  intros Hl. revert k. induction Hl as [|b l Hb Hl IH]; intros [|c k] Hk Hlen E; try done.
  apply Forall_cons_1 in Hk as [Hc Hk]. change (byte_bits b ++ addr_bits l = byte_bits c ++ addr_bits k) in E.
  apply app_inj_1 in E as [E1 E2]; [|done]. f_equal; [by apply byte_bits_inj|].
  apply IH; [done| |done]. by injection Hlen.
Qed.

Lemma take_addr_bits k r l : (k <= length l)%nat →
  take (8 * k + r) (addr_bits l) = addr_bits (take k l) ++ take r (addr_bits (drop k l)).
Proof.
  intros Hk. rewrite <- (take_drop k l) at 1. rewrite addr_bits_app.
  rewrite take_app, length_addr_bits, length_take, Nat.min_l by done.
  f_equal; [|f_equal; lia]. apply take_ge. rewrite length_addr_bits, length_take. lia.
Qed.

Lemma bytes_eq_spec n i c a : (i + n <= length c)%nat → (i + n <= length a)%nat →
  bytes_eq n i c a = Some (bool_decide (take n (drop i c) = take n (drop i a))).
Proof.
  revert i. induction n as [|n IH]; intros i Hc Ha; cbn [bytes_eq].
  { by rewrite !take_0, bool_decide_eq_true_2. }
  destruct (lookup_lt_is_Some_2 c i) as [x Hx]; [lia|].
  destruct (lookup_lt_is_Some_2 a i) as [y Hy]; [lia|].
  rewrite Hx, Hy, (drop_S _ _ _ Hx), (drop_S _ _ _ Hy). cbn.
  destruct (decide (x = y)) as [<-|Hne].
  - rewrite (bool_decide_eq_true_2 (x = x)) by done. rewrite IH by lia. f_equal.
    apply bool_decide_ext. split; [by intros ->|by intros [=]].
  - rewrite !bool_decide_eq_false_2; [done|by intros [=]|done].
Qed.

Definition addr_bytes (ip_version : u8) : nat := if ip_version == 4%N then 4%nat else 16%nat.

Lemma addr_bytes_le v : (addr_bytes v <= 16)%nat.
Proof. unfold addr_bytes. case_match; lia. Qed.

(** Prefixes of [8 * k + r] bits agree when [k] bytes and [r] bits of the next do. *)
Lemma prefix_eq_iff k r c a x y : bytes_ok c → bytes_ok a →
  c !! k = Some x → a !! k = Some y → (r <= 8)%nat →
  take (8 * k + r) (addr_bits c) = take (8 * k + r) (addr_bits a) ↔
  take k c = take k a ∧ take r (byte_bits x) = take r (byte_bits y).
Proof.
  intros Hc Ha Hx Hy Hr.
  pose proof (lookup_lt_Some _ _ _ Hx). pose proof (lookup_lt_Some _ _ _ Hy).
  rewrite !take_addr_bits by lia. rewrite (drop_S _ _ _ Hx), (drop_S _ _ _ Hy).
  assert (E : ∀ b l, take r (addr_bits (b :: l)) = take r (byte_bits b)).
  { intros b l. change (addr_bits (b :: l)) with (byte_bits b ++ addr_bits l).
    by rewrite take_app_le. }
  rewrite !E. split; [|by intros [-> ->]].
  intros [E1 E2]%app_inj_1; [|rewrite !length_addr_bits, !length_take; lia].
  split; [|done]. apply addr_bits_inj; [by apply Forall_take|by apply Forall_take| |done].
  rewrite !length_take. lia.
Qed.

(** The loop over bytes and the mask decide equality of the first bits. *)
Lemma cidr_matches_spec c p a v : arr 16 c → arr 16 a →
  let n := (N.to_nat p `min` (8 * addr_bytes v))%nat in
  cidr_matches c p a v = Some (bool_decide (take n (addr_bits c) = take n (addr_bits a))).
Proof.
  intros [Hlc Hc] [Hla Ha] n. unfold cidr_matches. fold (addr_bytes v).
  pose proof (addr_bytes_le v) as Hv.
  pose proof (N.div_mod p 8 ltac:(done)) as Hp. pose proof (N.mod_lt p 8 ltac:(done)) as Hr.
  set (fb := N.to_nat (p `div` 8)) in *. set (r := N.to_nat (p `mod` 8)).
  assert (p `mod` 8 = N.of_nat r)%N as -> by lia.
  rewrite bytes_eq_spec by lia. rewrite !drop_0. cbn [mbind option_bind].
  destruct (decide (fb < addr_bytes v)%nat) as [Hlt|Hge].
  - destruct (lookup_lt_is_Some_2 c fb) as [x Hx]; [lia|].
    destruct (lookup_lt_is_Some_2 a fb) as [y Hy]; [lia|].
    assert (n = (8 * fb + r)%nat) as -> by lia. rewrite Nat.min_l by lia.
    assert (Hr8 : (r <= 8)%nat) by lia. pose proof (prefix_eq_iff fb r c a x y Hc Ha Hx Hy Hr8) as Hiff.
    rewrite (bool_decide_ext _ _ Hiff).
    rewrite (proj2 (Nat.ltb_lt _ _) Hlt), andb_true_r, Hx, Hy, bool_decide_and.
    destruct (bool_decide (take fb c = take fb a)); [cbn [negb andb]|done].
    destruct (N.ltb_spec 0 (N.of_nat r)) as [Hr0|Hr0]; cbn [mbind option_bind].
    + f_equal. apply bool_decide_ext, mask_eq_iff; [| |lia];
        [apply (Forall_lookup_1 _ _ _ _ Hc Hx)|apply (Forall_lookup_1 _ _ _ _ Ha Hy)].
    + assert (r = 0%nat) as -> by lia. by rewrite !take_0, bool_decide_eq_true_2.
  - assert (Hn : n = (8 * addr_bytes v + 0)%nat) by lia. rewrite Hn, Nat.min_r by lia.
    rewrite (proj2 (Nat.ltb_ge _ _)), andb_false_r by lia.
    rewrite !take_addr_bits, !take_0, !app_nil_r by lia.
    assert (take (addr_bytes v) c = take (addr_bytes v) a ↔
      addr_bits (take (addr_bytes v) c) = addr_bits (take (addr_bytes v) a)) as Hiff.
    { split; [by intros ->|]. apply addr_bits_inj; [by apply Forall_take|by apply Forall_take|].
      rewrite !length_take. lia. }
    rewrite (bool_decide_ext _ _ Hiff). by case_bool_decide.
Qed.

(** * Rules *)

(** What a rule says of a packet. *)
Definition rule_allows (rule : SecurityRule) (addr : list u8) (port : u16)
    (protocol ip_version : u8) : Prop :=
  let n := (N.to_nat (sr_cidr_prefix_len rule) `min` (8 * addr_bytes ip_version))%nat in
  (sr_ip_version rule = 0%N ∨ sr_ip_version rule = ip_version) ∧
  (sr_protocol rule = PROTO_ALL ∨ sr_protocol rule = protocol) ∧
  (protocol = IPPROTO_TCP ∨ protocol = IPPROTO_UDP → sr_port_start rule ≠ 0%N →
     (sr_port_start rule ≤ port ≤ sr_port_end rule)%N) ∧
  take n (addr_bits (sr_cidr_addr rule)) = take n (addr_bits addr).

(** An early return of [false] adds a conjunct to what the rest decides. *)
Lemma early_false_iff (g : bool) (P Q : Prop) (r : option bool) :
  (g = false ↔ P) → (P → ∃ b, r = Some b ∧ (b = true ↔ Q)) →
  ∃ b, (if g then Some false else r) = Some b ∧ (b = true ↔ P ∧ Q).
Proof.
  intros Hg Hr. destruct g.
  - exists false. split; [done|]. split; [done|]. intros [HP _]. by apply Hg in HP.
  - destruct Hr as (b & -> & Hb); [by apply Hg|]. exists b. split; [done|]. rewrite Hb.
    split; [|by intros []]. intros HQ. split; [by apply Hg|done].
Qed.

(** C28: The chain of early returns decides [rule_allows]. *)
Theorem rule_matches_iff rule addr port protocol ip_version :
  rule_ok rule → arr 16 addr →
  ∃ b, rule_matches rule addr port protocol ip_version = Some b ∧
       (b = true ↔ rule_allows rule addr port protocol ip_version).
Proof.
  intros [Hc _] Ha. unfold rule_matches, rule_allows.
  apply early_false_iff; [|intros _; apply early_false_iff; [|intros _; apply early_false_iff]].
  - repeat case_bool_decide; cbn; naive_solver.
  - repeat case_bool_decide; cbn; naive_solver.
  - rewrite !andb_false_iff, !orb_false_iff, negb_false_iff, !N.ltb_ge, !bool_decide_eq_true,
      !bool_decide_eq_false. destruct (decide (protocol = IPPROTO_TCP)),
      (decide (protocol = IPPROTO_UDP)), (decide (sr_port_start rule = 0%N)); intuition.
  - intros _. destruct (N.ltb_spec 0 (sr_cidr_prefix_len rule)).
    + rewrite cidr_matches_spec by done. eexists. split; [done|]. apply bool_decide_eq_true.
    + replace (N.to_nat (sr_cidr_prefix_len rule)) with 0%nat by lia.
      rewrite Nat.min_0_l, !take_0. by exists true.
Qed.

Lemma cidr_matches_some c p a v :
  length c = 16%nat → length a = 16%nat → is_Some (cidr_matches c p a v).
Proof.
  intros Hc Ha. unfold cidr_matches. fold (addr_bytes v). pose proof (addr_bytes_le v).
  rewrite bytes_eq_spec by lia. cbn [mbind option_bind]. case_match; [by eauto|].
  destruct (andb _ _) eqn:E; [|by eauto]. apply andb_prop in E as [_ E%Nat.ltb_lt].
  destruct (lookup_lt_is_Some_2 c (N.to_nat (p `div` 8))) as [x ->]; [lia|].
  destruct (lookup_lt_is_Some_2 a (N.to_nat (p `div` 8))) as [y ->]; [lia|]. cbn. eauto.
Qed.

Lemma rule_matches_some rule addr port protocol ip_version :
  rule_ok rule → length addr = 16%nat → is_Some (rule_matches rule addr port protocol ip_version).
Proof.
  intros [[Hc _] _] Ha. unfold rule_matches. repeat case_match; eauto using cidr_matches_some.
Qed.

(** A rule at index [j] that the scan accepts. *)
Definition rule_hits (direction : u8) (rules : gmap u32 SecurityRule) (addr : list u8) (port : u16)
    (protocol ip_version : u8) (j : u32) : Prop :=
  ∃ rule, rules !! j = Some rule ∧ sr_enabled rule ≠ 0%N ∧ sr_direction rule = direction ∧
    rule_matches rule addr port protocol ip_version = Some true.

(** The scan looks at [fuel] indexes at most and stays below [last]. *)
Lemma scan_rules_spec fuel direction rules i last addr port protocol ip_version :
  rules_ok rules → length addr = 16%nat → (last < 2 ^ 32)%N →
  ∃ b, scan_rules fuel direction rules i last addr port protocol ip_version = Some b ∧
    (b = true ↔ ∃ j, (i ≤ j < last)%N ∧ (j < i + N.of_nat fuel)%N ∧
                     rule_hits direction rules addr port protocol ip_version j).
Proof.
  intros Hok Ha Hlast. revert i. induction fuel as [|fuel IH]; intros i; cbn [scan_rules].
  { exists false. split; [done|]. split; [done|]. intros (j & ? & ? & _). lia. }
  destruct (N.ltb_spec i last) as [Hi|Hi]; cycle 1.
  { exists false. split; [done|]. split; [done|]. intros (j & ? & _). lia. }
  rewrite u32_add_small by lia. destruct (IH (i + 1)%N) as (b & Hb & Hiff). rewrite !Hb.
  assert (Hskip : ¬ rule_hits direction rules addr port protocol ip_version i →
    (b = true ↔ ∃ j, (i ≤ j < last)%N ∧ (j < i + N.of_nat (S fuel))%N ∧
                rule_hits direction rules addr port protocol ip_version j)).
  { intros Hno. rewrite Hiff. split; intros (j & ? & ? & Hj); exists j.
    - split_and!; [lia..|done].
    - destruct (decide (j = i)) as [->|]; [done|]. split_and!; [lia..|done]. }
  destruct (rules !! i) as [rule|] eqn:Hr; cycle 1.
  { exists b. split; [done|]. apply Hskip. intros (rule & ? & _). congruence. }
  destruct (andb _ _) eqn:E; cycle 1.
  { exists b. split; [done|]. apply Hskip. intros (rule' & ? & He & Hd & _). simplify_eq.
    by rewrite bool_decide_eq_false_2, bool_decide_eq_true_2 in E. }
  apply andb_prop in E as [He%negb_true_iff%bool_decide_eq_false Hd%bool_decide_eq_true].
  destruct (rule_matches_some rule addr port protocol ip_version (Hok _ _ Hr) Ha) as [hit Hhit].
  rewrite Hhit. cbn [mbind option_bind]. destruct hit.
  - exists true. split; [done|]. split; [|done]. intros _. exists i. split_and!; [lia..|].
    by exists rule.
  - exists b. split; [done|]. apply Hskip. intros (rule' & ? & _ & _ & ?). simplify_eq.
Qed.

(** * Accesses stay inside the frame *)

Lemma read_ports_some d proto off : is_Some (read_ports d proto off).
Proof.
  unfold read_ports. case_match; [|by eauto]. destruct (Nat.ltb_spec (length d) (off + 4)); [by eauto|].
  destruct (read_be16_some d off) as [sp ->]; [lia|].
  destruct (read_be16_some d (off + 2)) as [dp ->]; [lia|]. cbn. eauto.
Qed.

(** A flow whose addresses are sixteen bytes. *)
Definition flow_ok (k : ConnTrackKey) : Prop :=
  length (ck_src_addr k) = 16%nat ∧ length (ck_dst_addr k) = 16%nat.

Lemma parse_v4_some d : (ETH_HLEN + 20 <= length d)%nat →
  ∃ flow dst, parse_v4 d = Some (flow, dst) ∧ flow_ok flow ∧ length dst = 4%nat.
Proof.
  unfold ETH_HLEN. intros H. unfold parse_v4, ETH_HLEN.
  destruct (read_u8_some d 14) as [b ->]; [lia|].
  destruct (read_u8_some d (14 + 9)) as [proto ->]; [lia|].
  destruct (read_array_some 4 d (14 + 12)) as (src & -> & Hs); [lia|].
  destruct (read_array_some 4 d (14 + 16)) as (dst & -> & Hd); [lia|].
  cbn [mbind option_bind].
  destruct (read_ports_some d proto (14 + N.to_nat (N.land b 15 * 4))) as [ports ->].
  eexists _, dst. split; [done|]. split; [|done].
  split; cbn; unfold pad16; rewrite length_app, length_replicate; lia.
Qed.

Lemma parse_v6_some d : (ETH_HLEN + IPV6_HDR_SIZE <= length d)%nat →
  ∃ flow, parse_v6 d = Some flow ∧ flow_ok flow.
Proof.
  unfold ETH_HLEN, IPV6_HDR_SIZE. intros H. unfold parse_v6, ETH_HLEN, IPV6_HDR_SIZE.
  destruct (read_u8_some d (14 + 6)) as [proto ->]; [lia|].
  destruct (read_array_some 16 d (14 + 8)) as (src & -> & Hs); [lia|].
  destruct (read_array_some 16 d (14 + 24)) as (dst & -> & Hd); [lia|].
  cbn [mbind option_bind].
  destruct (read_ports_some d proto (14 + 40)) as [ports ->]. by eexists.
Qed.

(** What routing does: a drop, a hand-over to the kernel stack with the frame as
    it is, or a redirect with both MAC addresses rewritten. *)
Inductive routed `{!BpfKernel} (s : Skb) (route : RouteEntry) : Verdict → Skb → Prop :=
| routed_drop : re_action route = ACTION_DROP → routed s route TC_ACT_SHOT s
| routed_pass : re_action route ≠ ACTION_DROP → routed s route TC_ACT_OK s
| routed_redirect : re_action route = ACTION_REDIRECT →
    routed s route (bpf_redirect (re_target_ifindex route))
      (with_data s (re_dst_mac route ++ re_src_mac route ++ drop 12 (skb_data s))).

Lemma handle_route_routed `{!BpfKernel} s route : route_ok route →
  ∃ v s', handle_route s route = Some (v, s') ∧ routed s route v s'.
Proof.
  intros [[Hd _] [Hs _]]. unfold handle_route.
  case_bool_decide; [by eauto using routed|]. case_bool_decide; [by eauto using routed|].
  case_bool_decide; [|by eauto using routed].
  destruct (Nat.ltb_spec (length (skb_data s)) 12); [by eauto using routed|].
  rewrite write_bytes_eq by lia. rewrite Hd, take_0. cbn [mbind option_bind app Nat.add].
  rewrite write_bytes_eq by (rewrite length_app, length_drop; lia).
  rewrite Hs, take_app_length', drop_app_ge, Hd, drop_drop by (done || lia).
  cbn [mbind option_bind]. eexists _, _. split; [done|]. by constructor.
Qed.

(** * A kernel for examples *)

Module EbpfModel.

Definition model_insert (k : ConnTrackKey) (e : ConnTrackEntry)
    (m : gmap ConnTrackKey ConnTrackEntry) : gmap ConnTrackKey ConnTrackEntry :=
  if bool_decide (is_Some (m !! k)) || (size m <? N.to_nat 65536)%nat then <[k := e]> m else m.

Definition room_off (s : Skb) : nat := ETH_HLEN + net_base_len (skb_protocol s).

#[export] Instance kernel_model : BpfKernel := {
  bpf_redirect := TC_ACT_REDIRECT;
  ct_insert := model_insert;
  adjust_room_grow n s := Some (with_data s
    (take (room_off s) (skb_data s) ++ replicate n 0%N ++ drop (room_off s) (skb_data s)));
  adjust_room_shrink n s :=
    if (room_off s + n <=? length (skb_data s))%nat
    then Some (with_data s (take (room_off s) (skb_data s) ++ drop (room_off s + n) (skb_data s)))
    else None;
}.

#[export] Instance kernel_model_laws : BpfKernelLaws kernel_model.
Proof.
  split; cbn -[Nat.leb Nat.add ETH_HLEN].
  - by left.
  - intros k e m. unfold model_insert. case_match; auto.
  - intros k e m Hx. unfold model_insert. by rewrite bool_decide_eq_true_2.
  - intros k e m Hm. unfold model_insert. apply Nat.ltb_lt in Hm. by rewrite Hm, orb_true_r.
  - intros n s s' [= <-]. eexists. split; [apply length_replicate|]. done.
  - intros n s s'. case_match eqn:E; [|done]. intros [= <-]. apply Nat.leb_le in E. done.
Qed.

(** An IPv4 frame with a 20-byte header and the start of a transport header. *)
Definition ipv4_frame (src dst : list u8) (proto : u8) (sport dport : u16) : list u8 :=
  replicate 12 0%N ++ be16 ETH_P_IP ++
  [69; 0; 0; 40; 0; 0; 0; 0; 64; proto; 0; 0]%N ++ src ++ dst ++ be16 sport ++ be16 dport ++
  replicate 16 7%N.

Definition ipv6_frame (src dst : list u8) (next_hdr : u8) (payload : list u8) : list u8 :=
  replicate 12 0%N ++ be16 ETH_P_IPV6 ++ [96; 0; 0; 0]%N ++ be16 (N.of_nat (length payload)) ++
  [next_hdr; 64%N] ++ src ++ dst ++ payload.

(** Web traffic from 10.0.0.0/8. *)
Definition web_rule : SecurityRule :=
  MkSecurityRule 1 DIRECTION_INGRESS IPPROTO_TCP 4 80 80 (pad16 [10; 0; 0; 0]%N) 8.

Lemma web_rule_ok : rule_ok web_rule.
Proof. split; [split; [done|]|done]. unfold bytes_ok. by repeat constructor. Qed.

End EbpfModel.

Import EbpfModel.

Lemma rule_matches_iff_witness :
  ∃ b, rule_matches web_rule (pad16 [10; 1; 2; 3]%N) 80 IPPROTO_TCP 4 = Some b ∧
       (b = true ↔ rule_allows web_rule (pad16 [10; 1; 2; 3]%N) 80 IPPROTO_TCP 4).
Proof.
  apply (rule_matches_iff web_rule (pad16 [10; 1; 2; 3]%N) 80 IPPROTO_TCP 4).
  - exact web_rule_ok.
  - split; [done|]. unfold bytes_ok. by repeat constructor.
Defined.
