(* ===== verification/EbpfEgress.v ===== *)
(** The TC program on the frames a VM sends (mvirt-ebpf/programs/src/tc_egress.rs):
    filtering, connection tracking, routing and tunnel encapsulation. *)

From S2P Require Import Prelude Packet Ebpf.

(** The maps of the egress object. LPM tries are only looked up by the program
    and are given by their lookup functions. *)
Record EgressMaps := MkEgressMaps {
  eg_routes_v4 : list u8 → option RouteEntry;
  eg_routes_v6 : list u8 → option RouteEntry;
  eg_security_rules : gmap u32 SecurityRule;
  eg_nic_security : gmap u32 NicSecurityConfig;
  eg_conn_track : gmap ConnTrackKey ConnTrackEntry;
  eg_tunnels_v4 : list u8 → option TunnelEndpoint;
  eg_tunnels_v6 : list u8 → option TunnelEndpoint;
  eg_local_nic_info : gmap u32 LocalNicInfo;
}.

Definition eg_set_conn_track (m : EgressMaps) (ct : gmap ConnTrackKey ConnTrackEntry) :=
  MkEgressMaps (eg_routes_v4 m) (eg_routes_v6 m) (eg_security_rules m) (eg_nic_security m) ct
    (eg_tunnels_v4 m) (eg_tunnels_v6 m) (eg_local_nic_info m).

(** A run of the program: the verdict, the frame and the maps it leaves. [None]
    is an access outside the frame or outside an array. *)
Abbreviation EgressRun := (option (Verdict * Skb * EgressMaps)) (only parsing).

Definition compute_flow_label_simple (src_port dst_port : u16) (protocol : u8) : u32 :=
  let hash := N.lxor (N.lxor (N.lxor 0 (N.shiftl src_port 16)) dst_port) (N.shiftl protocol 8) in
  let hash := N.lxor hash (N.shiftr hash 16) in
  let hash := wrap 32 (hash * 2246822507) in
  let hash := N.lxor hash (N.shiftr hash 13) in
  N.land hash 1048575.

(** The bytes of the two outer addresses. *)
Definition outer_src (nic_info : LocalNicInfo) : list u8 :=
  ln_local_prefix nic_info ++
  [0; wrap 8 (N.shiftr (ln_nf_id nic_info) 8); wrap 8 (ln_nf_id nic_info);
   N.land (N.shiftr (ln_sg_id nic_info) 16) 255; N.land (N.shiftr (ln_sg_id nic_info) 8) 255;
   N.land (ln_sg_id nic_info) 255]%N.
Definition outer_dst_v4 (tunnel : TunnelEndpoint) (inner_dst : list u8) : list u8 :=
  te_remote_prefix tunnel ++ [0; 0]%N ++ inner_dst.
Definition outer_dst_v6 (tunnel : TunnelEndpoint) (inner_dst : list u8) : list u8 :=
  te_remote_prefix tunnel ++ drop 10 inner_dst.

Section egress.
Context {kernel : BpfKernel}.

Definition check_security_egress (m : EgressMaps) (ifindex : u32) (flow : ConnTrackKey)
    (now_ns : u64) : option (bool * EgressMaps) :=
  match eg_nic_security m !! ifindex with
  | Some config =>
      if nc_enabled config == 0%N then Some (true, m) else
      _rule_matched ← scan_rules max_iter DIRECTION_EGRESS (eg_security_rules m)
        (nc_rules_start config) (u32_add (nc_rules_start config) (nc_rules_count config))
        (ck_dst_addr flow) (ck_dst_port flow) (ck_protocol flow) (ck_ip_version flow);
      let ct_entry := with_state CT_STATE_NEW now_ns in
      Some (true, eg_set_conn_track m (ct_insert flow ct_entry (eg_conn_track m)))
  | None => Some (true, m)
  end.

(** The outer header both encapsulations write: version and flow label, payload
    length, next header, hop limit, source and destination; then the EtherType. *)
Definition write_outer (s : Skb) (flow_label : u32) (payload_len : u16) (next_header : u8)
    (src dst : list u8) : option (Verdict * Skb) :=
  if (length (skb_data s) <? ETH_HLEN + IPV6_HDR_SIZE)%nat then Some (TC_ACT_OK, s) else
  d ← write_bytes (skb_data s) ETH_HLEN
        (be32 (N.lor (N.shiftl 6 28) (N.land flow_label 1048575)));
  d ← write_bytes d (ETH_HLEN + 4)%nat (be16 payload_len);
  d ← write_bytes d (ETH_HLEN + 6)%nat [next_header];
  d ← write_bytes d (ETH_HLEN + 7)%nat [64%N];
  d ← write_bytes d (ETH_HLEN + 8)%nat src;
  d ← write_bytes d (ETH_HLEN + 24)%nat dst;
  if (length d <? 14)%nat then Some (TC_ACT_OK, with_data s d) else
  d ← write_bytes d 12 (be16 ETH_P_IPV6);
  Some (TC_ACT_OK, with_data s d).

Definition handle_tunnel_encap_v4 (m : EgressMaps) (s : Skb) (inner_dst : list u8)
    (tunnel : TunnelEndpoint) (flow : ConnTrackKey) : option (Verdict * Skb) :=
  match eg_local_nic_info m !! skb_ifindex s with
  | None => Some (TC_ACT_OK, s)
  | Some nic_info =>
      let flow_label :=
        compute_flow_label_simple (ck_src_port flow) (ck_dst_port flow) (ck_protocol flow) in
      if (length (skb_data s) <? ETH_HLEN + 4)%nat then Some (TC_ACT_OK, s) else
      inner_len ← read_be16 (skb_data s) (ETH_HLEN + 2)%nat;
      match adjust_room_grow IPV6_HDR_SIZE s with
      | None => Some (TC_ACT_OK, s)
      | Some s => write_outer s flow_label (wrap 16 inner_len) IPPROTO_IPIP
                    (outer_src nic_info) (outer_dst_v4 tunnel inner_dst)
      end
  end.

Definition handle_tunnel_encap_v6 (m : EgressMaps) (s : Skb) (inner_dst : list u8)
    (tunnel : TunnelEndpoint) (flow : ConnTrackKey) : option (Verdict * Skb) :=
  match eg_local_nic_info m !! skb_ifindex s with
  | None => Some (TC_ACT_OK, s)
  | Some nic_info =>
      let flow_label :=
        compute_flow_label_simple (ck_src_port flow) (ck_dst_port flow) (ck_protocol flow) in
      if (length (skb_data s) <? ETH_HLEN + 6)%nat then Some (TC_ACT_OK, s) else
      payload_len ← read_be16 (skb_data s) (ETH_HLEN + 4)%nat;
      let inner_len := (payload_len + 40)%N in
      match adjust_room_grow IPV6_HDR_SIZE s with
      | None => Some (TC_ACT_OK, s)
      | Some s => write_outer s flow_label (wrap 16 inner_len) IPPROTO_IPV6_ENCAP
                    (outer_src nic_info) (outer_dst_v6 tunnel inner_dst)
      end
  end.

(** The verdict of a step that leaves the maps alone. *)
Definition keep_maps (m : EgressMaps) (r : option (Verdict * Skb)) : EgressRun :=
  '(v, s) ← r; Some (v, s, m).

Definition egress_v4 (m : EgressMaps) (s : Skb) (now_ns : u64) : EgressRun :=
  if (length (skb_data s) <? ETH_HLEN + 20)%nat then Some (TC_ACT_OK, s, m) else
  '(flow, dst_ip4) ← parse_v4 (skb_data s);
  if (ck_protocol flow == IPPROTO_UDP)
     && ((ck_dst_port flow == DHCP_SERVER_PORT) || (ck_src_port flow == DHCP_CLIENT_PORT))
  then Some (TC_ACT_OK, s, m) else
  '(allowed, m) ← check_security_egress m (skb_ifindex s) flow now_ns;
  if negb allowed then Some (TC_ACT_SHOT, s, m) else
  match eg_routes_v4 m dst_ip4 with
  | Some route => keep_maps m (handle_route s route)
  | None =>
      match eg_tunnels_v4 m dst_ip4 with
      | Some tunnel => keep_maps m (handle_tunnel_encap_v4 m s dst_ip4 tunnel flow)
      | None => Some (TC_ACT_OK, s, m)
      end
  end.

(** Neighbour discovery: ICMPv6 types 133 to 136, and an ICMPv6 packet with no
    type byte. *)
Definition passes_ndp (d : list u8) (next_hdr : u8) : option bool :=
  if next_hdr == IPPROTO_ICMPV6 then
    if (length d <? ETH_HLEN + IPV6_HDR_SIZE + 1)%nat then Some true else
    icmp_type ← read_u8 d (ETH_HLEN + IPV6_HDR_SIZE)%nat;
    Some ((133 <=? icmp_type)%N && (icmp_type <=? 136)%N)
  else Some false.

Definition egress_v6 (m : EgressMaps) (s : Skb) (now_ns : u64) : EgressRun :=
  if (length (skb_data s) <? ETH_HLEN + IPV6_HDR_SIZE)%nat then Some (TC_ACT_OK, s, m) else
  flow ← parse_v6 (skb_data s);
  ndp ← passes_ndp (skb_data s) (ck_protocol flow);
  if ndp : bool then Some (TC_ACT_OK, s, m) else
  if (ck_protocol flow == IPPROTO_UDP)
     && ((ck_dst_port flow == DHCPV6_SERVER_PORT) || (ck_src_port flow == DHCPV6_CLIENT_PORT)
         || (ck_dst_port flow == DHCPV6_CLIENT_PORT) || (ck_src_port flow == DHCPV6_SERVER_PORT))
  then Some (TC_ACT_OK, s, m) else
  '(allowed, m) ← check_security_egress m (skb_ifindex s) flow now_ns;
  if negb allowed then Some (TC_ACT_SHOT, s, m) else
  match eg_routes_v6 m (ck_dst_addr flow) with
  | Some route => keep_maps m (handle_route s route)
  | None =>
      match eg_tunnels_v6 m (ck_dst_addr flow) with
      | Some tunnel => keep_maps m (handle_tunnel_encap_v6 m s (ck_dst_addr flow) tunnel flow)
      | None => Some (TC_ACT_OK, s, m)
      end
  end.

(** [try_tc_egress] never takes its [Err] branch, so [tc_egress] is the same. *)
Definition tc_egress (m : EgressMaps) (s : Skb) (now_ns : u64) : EgressRun :=
  if (length (skb_data s) <? ETH_HLEN)%nat then Some (TC_ACT_OK, s, m) else
  eth_type ← read_be16 (skb_data s) 12;
  if eth_type == ETH_P_ARP then Some (TC_ACT_OK, s, m)
  else if eth_type == ETH_P_IP then egress_v4 m s now_ns
  else if eth_type == ETH_P_IPV6 then egress_v6 m s now_ns
  else Some (TC_ACT_OK, s, m).

End egress.

(** * The program stays inside its buffers *)

Record egress_maps_ok (m : EgressMaps) : Prop := {
  eg_ok_rules : rules_ok (eg_security_rules m);
  eg_ok_v4 : lookup_ok route_ok (eg_routes_v4 m);
  eg_ok_v6 : lookup_ok route_ok (eg_routes_v6 m);
  eg_ok_tunnels_v4 : lookup_ok (λ t, length (te_remote_prefix t) = 10%nat) (eg_tunnels_v4 m);
  eg_ok_tunnels_v6 : lookup_ok (λ t, length (te_remote_prefix t) = 10%nat) (eg_tunnels_v6 m);
  eg_ok_nics : map_Forall (λ _ n, length (ln_local_prefix n) = 10%nat) (eg_local_nic_info m);
}.

(** The outer header. *)
Definition outer_header (flow_label : u32) (payload_len : u16) (next_header : u8)
    (src dst : list u8) : list u8 :=
  ((((be32 (N.lor (N.shiftl 6 28) (N.land flow_label 1048575)) ++ be16 payload_len)
     ++ [next_header]) ++ [64%N]) ++ src) ++ dst.

Section egress_facts.
Context {kernel : BpfKernel}.

(** The maps after the filter: the flow is tracked on a secured interface. *)
Definition egress_track (m : EgressMaps) (ifindex : u32) (flow : ConnTrackKey) (now_ns : u64) :=
  match eg_nic_security m !! ifindex with
  | Some config => if nc_enabled config == 0%N then m else
      eg_set_conn_track m (ct_insert flow (with_state CT_STATE_NEW now_ns) (eg_conn_track m))
  | None => m
  end.

Lemma check_security_egress_allows m ifindex flow now_ns :
  rules_ok (eg_security_rules m) → flow_ok flow →
  check_security_egress m ifindex flow now_ns = Some (true, egress_track m ifindex flow now_ns).
Proof.
  intros Hr [_ Hf]. unfold check_security_egress, egress_track. case_match; [|done]. case_match; [done|].
  edestruct (scan_rules_spec max_iter DIRECTION_EGRESS (eg_security_rules m)) as (b & -> & _);
    [done|done| |done]. by apply N.mod_lt.
Qed.

Lemma write_outer_frame s label len nh src dst :
  (ETH_HLEN + IPV6_HDR_SIZE <= length (skb_data s))%nat →
  length src = 16%nat → length dst = 16%nat →
  write_outer s label len nh src dst = Some (TC_ACT_OK, with_data s
    (take 12 (skb_data s) ++ be16 ETH_P_IPV6 ++ outer_header label len nh src dst
     ++ drop 54 (skb_data s))).
Proof.
  destruct s as [ifx proto d]. cbn [skb_data with_data skb_ifindex skb_protocol].
  unfold ETH_HLEN, IPV6_HDR_SIZE. intros Hl Hs Hd. unfold write_outer, outer_header. cbn [skb_data].
  rewrite (proj2 (Nat.ltb_ge _ _)) by (unfold ETH_HLEN, IPV6_HDR_SIZE; lia). unfold ETH_HLEN.
  set (b0 := be32 _). assert (H0 : length b0 = 4%nat) by done.
  set (b1 := be16 len). assert (H1 : length b1 = 2%nat) by done.
  rewrite write_bytes_eq by lia. cbn [mbind option_bind].
  do 5 (rewrite write_bytes_snoc by (rewrite ?length_app; cbn [length]; lia); cbn [mbind option_bind]).
  set (hd := ((((b0 ++ b1) ++ [nh]) ++ [64%N]) ++ src) ++ dst).
  assert (Hh : length hd = 40%nat) by (unfold hd; rewrite !length_app; cbn [length]; lia).
  assert (Ht : length (take 14 d) = 14%nat) by (rewrite length_take; lia).
  rewrite (proj2 (Nat.ltb_ge _ _)) by (rewrite length_app; lia).
  rewrite write_bytes_eq by (rewrite length_app; cbn [length be16]; lia).
  cbn [mbind option_bind]. unfold with_data. cbn [skb_ifindex skb_protocol]. do 3 f_equal.
  change (length (be16 ETH_P_IPV6)) with 2%nat. change (12 + 2)%nat with 14%nat.
  rewrite take_app_le, take_take, drop_app_length' by lia. by rewrite Hh.
Qed.

Lemma outer_src_length n : length (ln_local_prefix n) = 10%nat → length (outer_src n) = 16%nat.
Proof. intros H. unfold outer_src. rewrite length_app. cbn. lia. Qed.

Lemma write_outer_some s label len nh src dst :
  length src = 16%nat → length dst = 16%nat →
  ∃ s', write_outer s label len nh src dst = Some (TC_ACT_OK, s').
Proof.
  intros Hs Hd. destruct (Nat.ltb_spec (length (skb_data s)) (ETH_HLEN + IPV6_HDR_SIZE)) as [Hl|Hl].
  - unfold write_outer. rewrite (proj2 (Nat.ltb_lt _ _) Hl). by eexists.
  - rewrite write_outer_frame by done. by eexists.
Qed.

Lemma encap_v4_passes m s dst tunnel flow : egress_maps_ok m →
  length (te_remote_prefix tunnel) = 10%nat → length dst = 4%nat →
  ∃ s', handle_tunnel_encap_v4 m s dst tunnel flow = Some (TC_ACT_OK, s').
Proof.
  intros [_ _ _ _ _ Hn] Ht Hd. unfold handle_tunnel_encap_v4.
  destruct (eg_local_nic_info m !! skb_ifindex s) as [nic|] eqn:E; [|by eexists].
  destruct (Nat.ltb_spec (length (skb_data s)) (ETH_HLEN + 4)); [by eexists|].
  destruct (read_be16_some (skb_data s) (ETH_HLEN + 2)) as [len ->]; [lia|]. cbn [mbind option_bind].
  destruct (adjust_room_grow IPV6_HDR_SIZE s); [|by eexists].
  apply write_outer_some; [by eapply outer_src_length, Hn|].
  unfold outer_dst_v4. rewrite !length_app. cbn. lia.
Qed.

Lemma encap_v6_passes m s dst tunnel flow : egress_maps_ok m →
  length (te_remote_prefix tunnel) = 10%nat → length dst = 16%nat →
  ∃ s', handle_tunnel_encap_v6 m s dst tunnel flow = Some (TC_ACT_OK, s').
Proof.
  intros [_ _ _ _ _ Hn] Ht Hd. unfold handle_tunnel_encap_v6.
  destruct (eg_local_nic_info m !! skb_ifindex s) as [nic|] eqn:E; [|by eexists].
  destruct (Nat.ltb_spec (length (skb_data s)) (ETH_HLEN + 6)); [by eexists|].
  destruct (read_be16_some (skb_data s) (ETH_HLEN + 4)) as [len ->]; [lia|]. cbn [mbind option_bind].
  destruct (adjust_room_grow IPV6_HDR_SIZE s); [|by eexists].
  apply write_outer_some; [by eapply outer_src_length, Hn|].
  unfold outer_dst_v6. rewrite length_app, length_drop. lia.
Qed.

(** What a run of the program can be: the frame goes to the kernel stack, as it
    came or encapsulated, or a route of the tables decides. *)
Inductive egress_outcome (m : EgressMaps) (s : Skb) : Verdict → Skb → Prop :=
| egress_pass : egress_outcome m s TC_ACT_OK s
| egress_encap_v4 dst tunnel flow s' :
    eg_tunnels_v4 m dst = Some tunnel →
    handle_tunnel_encap_v4 m s dst tunnel flow = Some (TC_ACT_OK, s') →
    egress_outcome m s TC_ACT_OK s'
| egress_encap_v6 dst tunnel flow s' :
    eg_tunnels_v6 m dst = Some tunnel →
    handle_tunnel_encap_v6 m s dst tunnel flow = Some (TC_ACT_OK, s') →
    egress_outcome m s TC_ACT_OK s'
| egress_routed dst route v s' :
    eg_routes_v4 m dst = Some route ∨ eg_routes_v6 m dst = Some route →
    routed s route v s' → egress_outcome m s v s'.

(** The tables other than the connection table. *)
Definition same_tables (m m' : EgressMaps) : Prop := m' = eg_set_conn_track m (eg_conn_track m').

Lemma egress_track_tables m ifindex flow now_ns : same_tables m (egress_track m ifindex flow now_ns).
Proof. unfold egress_track, same_tables. destruct m. by repeat case_match. Qed.

Lemma egress_maps_ok_tables m m' : same_tables m m' → egress_maps_ok m → egress_maps_ok m'.
Proof. by intros -> []. Qed.

Lemma egress_v4_outcome m s now_ns : egress_maps_ok m →
  ∃ v s' m', egress_v4 m s now_ns = Some (v, s', m') ∧ same_tables m m' ∧ egress_outcome m s v s'.
Proof.
  intros Hok. assert (Hrefl : same_tables m m) by (by destruct m). unfold egress_v4.
  destruct (Nat.ltb_spec (length (skb_data s)) (ETH_HLEN + 20)) as [Hl|Hl]; [by eauto 10 using egress_outcome|].
  destruct (parse_v4_some _ Hl) as (flow & dst & -> & Hf & Hd). cbn [mbind option_bind].
  case_match; [by eauto 10 using egress_outcome|].
  rewrite check_security_egress_allows by (done || by apply eg_ok_rules). cbn [mbind option_bind negb].
  pose proof (egress_track_tables m (skb_ifindex s) flow now_ns) as Ht.
  set (m1 := egress_track _ _ _ _) in *. pose proof (egress_maps_ok_tables _ _ Ht Hok) as Hok1.
  destruct (eg_routes_v4 m1 dst) as [route|] eqn:Er.
  { destruct (handle_route_routed s route) as (v & s' & -> & Hr); [by eapply (eg_ok_v4 _ Hok1)|].
    eexists v, s', m1. split_and!; [done..|]. rewrite Ht in Er. by eapply egress_routed; [left|]. }
  destruct (eg_tunnels_v4 m1 dst) as [tunnel|] eqn:Et; [|by eauto 10 using egress_outcome].
  destruct (encap_v4_passes m1 s dst tunnel flow Hok1) as (s' & He); [by eapply (eg_ok_tunnels_v4 _ Hok1)|done|].
  rewrite He. eexists _, s', m1. split_and!; [done..|]. rewrite Ht in Et, He.
  by eapply egress_encap_v4.
Qed.

Lemma passes_ndp_some d nh : is_Some (passes_ndp d nh).
Proof.
  unfold passes_ndp. case_match; [|by eauto].
  destruct (Nat.ltb_spec (length d) (ETH_HLEN + IPV6_HDR_SIZE + 1)); [by eauto|].
  destruct (read_u8_some d (ETH_HLEN + IPV6_HDR_SIZE)) as [b ->]; [lia|]. cbn. eauto.
Qed.

Lemma egress_v6_outcome m s now_ns : egress_maps_ok m →
  ∃ v s' m', egress_v6 m s now_ns = Some (v, s', m') ∧ same_tables m m' ∧ egress_outcome m s v s'.
Proof.
  intros Hok. assert (Hrefl : same_tables m m) by (by destruct m). unfold egress_v6.
  destruct (Nat.ltb_spec (length (skb_data s)) (ETH_HLEN + IPV6_HDR_SIZE)) as [Hl|Hl];
    [by eauto 10 using egress_outcome|].
  destruct (parse_v6_some _ Hl) as (flow & -> & Hf). cbn [mbind option_bind].
  destruct (passes_ndp_some (skb_data s) (ck_protocol flow)) as [[] ->]; cbn [mbind option_bind];
    [by eauto 10 using egress_outcome|].
  case_match; [by eauto 10 using egress_outcome|].
  rewrite check_security_egress_allows by (done || by apply eg_ok_rules). cbn [mbind option_bind negb].
  pose proof (egress_track_tables m (skb_ifindex s) flow now_ns) as Ht.
  set (m1 := egress_track _ _ _ _) in *. pose proof (egress_maps_ok_tables _ _ Ht Hok) as Hok1.
  destruct (eg_routes_v6 m1 (ck_dst_addr flow)) as [route|] eqn:Er.
  { destruct (handle_route_routed s route) as (v & s' & -> & Hr); [by eapply (eg_ok_v6 _ Hok1)|].
    eexists v, s', m1. split_and!; [done..|]. rewrite Ht in Er. by eapply egress_routed; [right|]. }
  destruct (eg_tunnels_v6 m1 (ck_dst_addr flow)) as [tunnel|] eqn:Et; [|by eauto 10 using egress_outcome].
  destruct (encap_v6_passes m1 s (ck_dst_addr flow) tunnel flow Hok1) as (s' & He);
    [by eapply (eg_ok_tunnels_v6 _ Hok1)|by apply Hf|].
  rewrite He. eexists _, s', m1. split_and!; [done..|]. rewrite Ht in Et, He.
  by eapply egress_encap_v6.
Qed.


Definition eg_set_rules (m : EgressMaps) (rules : gmap u32 SecurityRule) :=
  MkEgressMaps (eg_routes_v4 m) (eg_routes_v6 m) rules (eg_nic_security m) (eg_conn_track m)
    (eg_tunnels_v4 m) (eg_tunnels_v6 m) (eg_local_nic_info m).

Definition with_rules (rules : gmap u32 SecurityRule) (r : Verdict * Skb * EgressMaps) :=
  (r.1.1, r.1.2, eg_set_rules r.2 rules).

Lemma egress_track_rules m rules ifindex flow now_ns :
  egress_track (eg_set_rules m rules) ifindex flow now_ns =
  eg_set_rules (egress_track m ifindex flow now_ns) rules.
Proof. unfold egress_track. cbn. by repeat case_match. Qed.

Lemma keep_maps_rules m rules r :
  keep_maps (eg_set_rules m rules) r = with_rules rules <$> keep_maps m r.
Proof. by destruct r as [[]|]. Qed.

(** Egress rules have no effect: with any other rules the program gives the same
    verdict, the same frame and the same connection table. *)
Theorem egress_rules_ignored m rules s now_ns :
  rules_ok (eg_security_rules m) → rules_ok rules →
  tc_egress (eg_set_rules m rules) s now_ns = with_rules rules <$> tc_egress m s now_ns.
Proof.
  intros Hm Hr. unfold tc_egress. case_match; [done|]. destruct (read_be16 _ _); [|done].
  cbn [mbind option_bind]. repeat case_match; try done.
  - unfold egress_v4. destruct (Nat.ltb_spec (length (skb_data s)) (ETH_HLEN + 20)) as [|Hl]; [done|].
    destruct (parse_v4_some _ Hl) as (flow & dst & -> & Hf & _). cbn [mbind option_bind].
    case_match; [done|]. rewrite !check_security_egress_allows by done.
    cbn [mbind option_bind negb]. rewrite egress_track_rules.
    set (m1 := egress_track _ _ _ _). cbn [eg_routes_v4 eg_tunnels_v4 eg_set_rules].
    repeat case_match; [apply keep_maps_rules..|done].
  - unfold egress_v6. case_match eqn:Hl; [done|]. apply Nat.ltb_ge in Hl.
    destruct (parse_v6_some _ Hl) as (flow & -> & Hf). cbn [mbind option_bind].
    destruct (passes_ndp _ _) as [[]|]; [done| |done]. cbn [mbind option_bind].
    case_match; [done|]. rewrite !check_security_egress_allows by done.
    cbn [mbind option_bind negb]. rewrite egress_track_rules.
    set (m1 := egress_track _ _ _ _). cbn [eg_routes_v6 eg_tunnels_v6 eg_set_rules].
    repeat case_match; [apply keep_maps_rules..|done].
Qed.

End egress_facts.

(** * Encapsulation *)

Section encap.
Context {kernel : BpfKernel} {laws : BpfKernelLaws kernel}.

(** The frame after room was made behind the inner network header and the outer
    header was written behind the Ethernet header. *)
Lemma encap_frame s s1 base label len nh src dst :
  net_base_len (skb_protocol s) = base → (base <= 40)%nat →
  (ETH_HLEN + base <= length (skb_data s))%nat →
  adjust_room_grow IPV6_HDR_SIZE s = Some s1 → length src = 16%nat → length dst = 16%nat →
  ∃ filler s2, length filler = base ∧
    write_outer s1 label len nh src dst = Some (TC_ACT_OK, s2) ∧
    skb_data s2 = take 12 (skb_data s) ++ be16 ETH_P_IPV6 ++ outer_header label len nh src dst
                  ++ filler ++ drop (ETH_HLEN + base) (skb_data s).
Proof.
  unfold ETH_HLEN, IPV6_HDR_SIZE. intros Hb Hb40 Hl Hg Hs Hd.
  destruct (grow_result _ _ _ Hg) as (room & Hroom & _ & Hdata). rewrite Hb in Hdata.
  change (ETH_HLEN + base)%nat with (14 + base)%nat in Hdata.
  assert (Ht : length (take (14 + base) (skb_data s)) = (14 + base)%nat) by (rewrite length_take; lia).
  exists (drop (40 - base) room). eexists. split; [rewrite length_drop; lia|].
  rewrite write_outer_frame by
    (done || (rewrite Hdata, !length_app, length_drop; unfold ETH_HLEN, IPV6_HDR_SIZE; lia)).
  split; [done|]. cbn [skb_data with_data]. rewrite Hdata.
  rewrite take_app_le, take_take, Nat.min_l by lia.
  rewrite drop_app_ge, Ht, drop_app_le by lia. do 4 f_equal.
Qed.

(** Encapsulating an IPv4 frame overwrites the inner header. The room is made
    behind the inner IPv4 header and the outer header is written over it, so what
    follows the outer header is twenty bytes of that room and then the inner
    payload: the addresses and the protocol of the inner packet are gone. *)
Theorem encap_overwrites_inner_header m s s1 dst tunnel flow nic len :
  skb_protocol s = ETH_P_IP → (ETH_HLEN + 20 <= length (skb_data s))%nat →
  eg_local_nic_info m !! skb_ifindex s = Some nic →
  length (ln_local_prefix nic) = 10%nat → length (te_remote_prefix tunnel) = 10%nat →
  length dst = 4%nat → read_be16 (skb_data s) (ETH_HLEN + 2) = Some len →
  adjust_room_grow IPV6_HDR_SIZE s = Some s1 →
  ∃ filler s2, length filler = 20%nat ∧
    handle_tunnel_encap_v4 m s dst tunnel flow = Some (TC_ACT_OK, s2) ∧
    skb_data s2 = take 12 (skb_data s) ++ be16 ETH_P_IPV6 ++
      outer_header
        (compute_flow_label_simple (ck_src_port flow) (ck_dst_port flow) (ck_protocol flow))
        (wrap 16 len) IPPROTO_IPIP (outer_src nic) (outer_dst_v4 tunnel dst) ++
      filler ++ drop (ETH_HLEN + 20) (skb_data s).
Proof.
  intros Hp Hl Hn Hln Ht Hd Hlen Hg. unfold handle_tunnel_encap_v4.
  rewrite Hn, (proj2 (Nat.ltb_ge _ _)), Hlen, Hg by lia. cbn [mbind option_bind].
  apply (encap_frame s s1 20); [by rewrite Hp|lia|done|done|by apply outer_src_length|].
  unfold outer_dst_v4. rewrite !length_app. cbn. lia.
Qed.

End encap.

(** * Examples *)

Import EbpfModel.

(** A host with a secured VM on interface 3, an egress rule and a tunnel to
    10.1.0.0/16. *)
Definition ex_egress : EgressMaps :=
  MkEgressMaps (λ _, None) (λ _, None)
    {[ 0%N := MkSecurityRule 1 DIRECTION_EGRESS IPPROTO_TCP 4 443 443 (pad16 [0; 0; 0; 0]%N) 0 ]}
    {[ 3%N := MkNicSecurityConfig 1 0 1 ]} ∅
    (λ dst, if take 2 dst == [10; 1]%N then Some (MkTunnelEndpoint (replicate 10 253%N)) else None)
    (λ _, None) {[ 3%N := MkLocalNicInfo 7 9 (replicate 10 252%N) ]}.

Definition ex_out : Skb :=
  MkSkb 3 ETH_P_IP (ipv4_frame [10; 0; 0; 5]%N [10; 1; 0; 9]%N IPPROTO_TCP 4000 22).

Lemma ex_egress_ok : egress_maps_ok ex_egress.
Proof.
  split; try done.
  - apply map_Forall_singleton. split; [split; [done|]|done]. unfold bytes_ok. by repeat constructor.
  - intros dst t. cbn. case_bool_decide; [|done]. by intros [= <-].
  - by apply map_Forall_singleton.
Qed.


(** The frame passes although the only rule allows port 443, and as it would with
    no rules at all. *)
Lemma egress_rules_ignored_witness :
  tc_egress (eg_set_rules ex_egress ∅) ex_out 1 = with_rules ∅ <$> tc_egress ex_egress ex_out 1.
Proof.
  apply (egress_rules_ignored ex_egress ∅ ex_out 1).
  - apply ex_egress_ok.
  - apply map_Forall_empty.
Defined.

Lemma encap_overwrites_inner_header_witness :
  ∃ filler s2, length filler = 20%nat ∧
    handle_tunnel_encap_v4 ex_egress ex_out [10; 1; 0; 9]%N (MkTunnelEndpoint (replicate 10 253%N))
      (from_tuple (pad16 [10; 0; 0; 5]) (pad16 [10; 1; 0; 9]) 4000 22 IPPROTO_TCP 4)%N =
      Some (TC_ACT_OK, s2) ∧
    skb_data s2 = take 12 (skb_data ex_out) ++ be16 ETH_P_IPV6 ++
      outer_header (compute_flow_label_simple 4000 22 IPPROTO_TCP) (wrap 16 40) IPPROTO_IPIP
        (outer_src (MkLocalNicInfo 7 9 (replicate 10 252%N)))
        (outer_dst_v4 (MkTunnelEndpoint (replicate 10 253%N)) [10; 1; 0; 9]%N) ++
      filler ++ drop (ETH_HLEN + 20) (skb_data ex_out).
Proof.
  eapply (encap_overwrites_inner_header ex_egress ex_out _ [10; 1; 0; 9]%N
    (MkTunnelEndpoint (replicate 10 253%N))
    (from_tuple (pad16 [10; 0; 0; 5]) (pad16 [10; 1; 0; 9]) 4000 22 IPPROTO_TCP 4)%N
    (MkLocalNicInfo 7 9 (replicate 10 252%N)) 40).
  - reflexivity.
  - vm_compute. lia.
  - vm_compute. reflexivity.
  - reflexivity.
  - reflexivity.
  - reflexivity.
  - vm_compute. reflexivity.
  - vm_compute. reflexivity.
Defined.
