(* ===== verification/EbpfIngress.v ===== *)
(** The TC program on the frames that arrive for VMs
    (mvirt-ebpf/programs/src/tc_ingress.rs): decapsulation, routing and the
    default-deny filter with connection tracking. *)

From S2P Require Import Prelude Packet Ebpf.

Record IngressMaps := MkIngressMaps {
  in_routes_v4 : list u8 → option RouteEntry;
  in_routes_v6 : list u8 → option RouteEntry;
  in_security_rules : gmap u32 SecurityRule;
  in_nic_security : gmap u32 NicSecurityConfig;
  in_conn_track : gmap ConnTrackKey ConnTrackEntry;
}.

Definition in_set_conn_track (m : IngressMaps) (ct : gmap ConnTrackKey ConnTrackEntry) :=
  MkIngressMaps (in_routes_v4 m) (in_routes_v6 m) (in_security_rules m) (in_nic_security m) ct.

Abbreviation IngressRun := (option (Verdict * Skb * IngressMaps)) (only parsing).

Definition extract_tunnel_metadata (outer_src : list u8) (inner_ip_version : u8)
    : option TunnelMetadata :=
  b11 ← outer_src !! 11%nat; b12 ← outer_src !! 12%nat;
  b13 ← outer_src !! 13%nat; b14 ← outer_src !! 14%nat; b15 ← outer_src !! 15%nat;
  Some (MkTunnelMetadata (N.lor (N.shiftl b11 8) b12)
    (N.lor (N.lor (N.shiftl b13 16) (N.shiftl b14 8)) b15) inner_ip_version).

Section ingress.
Context {kernel : BpfKernel}.

Definition ingress_hit (m : IngressMaps) (config : NicSecurityConfig) (flow : ConnTrackKey)
    : option bool :=
  scan_rules max_iter DIRECTION_INGRESS (in_security_rules m)
    (nc_rules_start config) (u32_add (nc_rules_start config) (nc_rules_count config))
    (ck_src_addr flow) (ck_dst_port flow) (ck_protocol flow) (ck_ip_version flow).

Definition check_security_ingress (m : IngressMaps) (target_ifindex : u32) (flow : ConnTrackKey)
    (now_ns : u64) : option (bool * IngressMaps) :=
  match in_nic_security m !! target_ifindex with
  | Some config =>
      if nc_enabled config == 0%N then Some (true, m) else
      let reverse_key := ct_reverse flow in
      match in_conn_track m !! reverse_key with
      | Some ct_entry =>
          let updated_entry := MkConnTrackEntry CT_STATE_ESTABLISHED
            (N.lor (ce_flags ct_entry) CT_FLAG_SEEN_REPLY) now_ns
            (u64_wrapping_add (ce_packet_count ct_entry) 1) in
          Some (true, in_set_conn_track m (ct_insert reverse_key updated_entry (in_conn_track m)))
      | None =>
          hit ← ingress_hit m config flow;
          if hit : bool then
            Some (true, in_set_conn_track m
              (ct_insert flow (with_state CT_STATE_NEW now_ns) (in_conn_track m)))
          else Some (false, m)
      end
  | None => Some (true, m)
  end.

(** Route, filter, deliver: the end of every branch for IP packets. *)
Definition deliver (m : IngressMaps) (s : Skb) (route : option RouteEntry) (flow : ConnTrackKey)
    (now_ns : u64) : IngressRun :=
  match route with
  | None => Some (TC_ACT_SHOT, s, m)
  | Some route =>
      '(allowed, m) ← check_security_ingress m (re_target_ifindex route) flow now_ns;
      if negb allowed then Some (TC_ACT_SHOT, s, m) else
      '(v, s) ← handle_route s route; Some (v, s, m)
  end.

Definition deliver_v4 (m : IngressMaps) (s : Skb) (now_ns : u64) : IngressRun :=
  if (length (skb_data s) <? ETH_HLEN + 20)%nat then Some (TC_ACT_SHOT, s, m) else
  '(flow, dst_ip4) ← parse_v4 (skb_data s);
  deliver m s (in_routes_v4 m dst_ip4) flow now_ns.

Definition deliver_v6 (m : IngressMaps) (s : Skb) (now_ns : u64) : IngressRun :=
  if (length (skb_data s) <? ETH_HLEN + IPV6_HDR_SIZE)%nat then Some (TC_ACT_SHOT, s, m) else
  flow ← parse_v6 (skb_data s);
  deliver m s (in_routes_v6 m (ck_dst_addr flow)) flow now_ns.

Definition handle_tunnel_decap (m : IngressMaps) (s : Skb) (next_hdr : u8) (now_ns : u64)
    : IngressRun :=
  let min_inner := if next_hdr == IPPROTO_IPIP then 20%nat else 40%nat in
  if (length (skb_data s) <? ETH_HLEN + IPV6_HDR_SIZE + min_inner)%nat
  then Some (TC_ACT_SHOT, s, m) else
  outer_src ← read_array 16 (skb_data s) (ETH_HLEN + 8)%nat;
  _metadata ← extract_tunnel_metadata outer_src (if next_hdr == IPPROTO_IPIP then 4%N else 6%N);
  match adjust_room_shrink IPV6_HDR_SIZE s with
  | None => Some (TC_ACT_SHOT, s, m)
  | Some s =>
      if (length (skb_data s) <? 14)%nat then Some (TC_ACT_SHOT, s, m) else
      let new_ethertype := if next_hdr == IPPROTO_IPIP then ETH_P_IP else ETH_P_IPV6 in
      d ← write_bytes (skb_data s) 12 (be16 new_ethertype);
      let s := with_data s d in
      if next_hdr == IPPROTO_IPIP then deliver_v4 m s now_ns else deliver_v6 m s now_ns
  end.

Definition tc_ingress (m : IngressMaps) (s : Skb) (now_ns : u64) : IngressRun :=
  if (length (skb_data s) <? ETH_HLEN)%nat then Some (TC_ACT_OK, s, m) else
  eth_type ← read_be16 (skb_data s) 12;
  if eth_type == ETH_P_IP then deliver_v4 m s now_ns
  else if eth_type == ETH_P_IPV6 then
    if (length (skb_data s) <? ETH_HLEN + IPV6_HDR_SIZE)%nat then Some (TC_ACT_SHOT, s, m) else
    next_hdr ← read_u8 (skb_data s) (ETH_HLEN + 6)%nat;
    if (next_hdr == IPPROTO_IPIP) || (next_hdr == IPPROTO_IPV6_ENCAP)
    then handle_tunnel_decap m s next_hdr now_ns
    else deliver_v6 m s now_ns
  else Some (TC_ACT_SHOT, s, m).

End ingress.

(** Frames handled one after the other. *)
Fixpoint ingress_run {kernel : BpfKernel} (m : IngressMaps) (frames : list (Skb * u64))
    : option IngressMaps :=
  match frames with
  | [] => Some m
  | (s, now_ns) :: frames => '(_, _, m) ← tc_ingress m s now_ns; ingress_run m frames
  end.

(** * The filter *)

Record ingress_maps_ok (m : IngressMaps) : Prop := {
  in_ok_rules : rules_ok (in_security_rules m);
  in_ok_v4 : lookup_ok route_ok (in_routes_v4 m);
  in_ok_v6 : lookup_ok route_ok (in_routes_v6 m);
}.

Definition in_same_tables (m m' : IngressMaps) : Prop :=
  m' = in_set_conn_track m (in_conn_track m').

(** An interface with filtering on. *)
Definition secured (m : IngressMaps) (ifindex : u32) (config : NicSecurityConfig) : Prop :=
  in_nic_security m !! ifindex = Some config ∧ nc_enabled config ≠ 0%N.

(** One of the first 256 rules of an interface allows the flow. *)
Definition allowed_by_rule (m : IngressMaps) (config : NicSecurityConfig) (flow : ConnTrackKey) : Prop :=
  ∃ j, (nc_rules_start config ≤ j < u32_add (nc_rules_start config) (nc_rules_count config))%N ∧
       (j < nc_rules_start config + 256)%N ∧
       rule_hits DIRECTION_INGRESS (in_security_rules m) (ck_src_addr flow) (ck_dst_port flow)
         (ck_protocol flow) (ck_ip_version flow) j.

Section ingress_facts.
Context {kernel : BpfKernel}.

Inductive filtered (m : IngressMaps) (ifindex : u32) (flow : ConnTrackKey) (now_ns : u64)
    : bool → IngressMaps → Prop :=
| filtered_open : (∀ config, ¬ secured m ifindex config) → filtered m ifindex flow now_ns true m
| filtered_reply config e : secured m ifindex config →
    in_conn_track m !! ct_reverse flow = Some e →
    filtered m ifindex flow now_ns true (in_set_conn_track m (ct_insert (ct_reverse flow)
      (MkConnTrackEntry CT_STATE_ESTABLISHED (N.lor (ce_flags e) CT_FLAG_SEEN_REPLY) now_ns
         (u64_wrapping_add (ce_packet_count e) 1)) (in_conn_track m)))
| filtered_rule config : secured m ifindex config → in_conn_track m !! ct_reverse flow = None →
    allowed_by_rule m config flow →
    filtered m ifindex flow now_ns true (in_set_conn_track m
      (ct_insert flow (with_state CT_STATE_NEW now_ns) (in_conn_track m)))
| filtered_deny config : secured m ifindex config → in_conn_track m !! ct_reverse flow = None →
    ¬ allowed_by_rule m config flow → filtered m ifindex flow now_ns false m.

Lemma check_security_ingress_filtered m ifindex flow now_ns :
  rules_ok (in_security_rules m) → flow_ok flow →
  ∃ b m', check_security_ingress m ifindex flow now_ns = Some (b, m') ∧
          filtered m ifindex flow now_ns b m'.
Proof.
  intros Hr [Hf _]. unfold check_security_ingress.
  destruct (in_nic_security m !! ifindex) as [config|] eqn:Ec; cycle 1.
  { eexists _, _. split; [done|]. apply filtered_open. intros c [? _]. congruence. }
  case_bool_decide as Hen.
  { eexists _, _. split; [done|]. apply filtered_open. intros c [? ?]. congruence. }
  assert (Hs : secured m ifindex config) by done.
  destruct (in_conn_track m !! ct_reverse flow) as [e|] eqn:Et.
  { eexists _, _. split; [done|]. by eapply filtered_reply. }
  edestruct (scan_rules_spec max_iter DIRECTION_INGRESS (in_security_rules m)
    (nc_rules_start config) (u32_add (nc_rules_start config) (nc_rules_count config)))
    as (b & Hb & Hiff); [done|done|by apply N.mod_lt|].
  unfold ingress_hit. rewrite Hb. cbn [mbind option_bind].
  destruct b; eexists _, _; (split; [done|]).
  - eapply filtered_rule; [done..|]. by apply Hiff.
  - eapply filtered_deny; [done..|]. intros Ha. by apply Hiff in Ha.
Qed.

Lemma filtered_tables m ifindex flow now_ns b m' :
  filtered m ifindex flow now_ns b m' → in_same_tables m m'.
Proof. destruct m. by destruct 1. Qed.

Lemma ingress_maps_ok_tables m m' : in_same_tables m m' → ingress_maps_ok m → ingress_maps_ok m'.
Proof. by intros -> []. Qed.

(** What a run does to the maps: nothing, or what the filter does for a flow. *)
Definition ingress_effect (m m' : IngressMaps) : Prop :=
  m' = m ∨ ∃ ifindex flow now_ns b, flow_ok flow ∧ filtered m ifindex flow now_ns b m'.

Lemma deliver_effect m s route flow now_ns :
  ingress_maps_ok m → flow_ok flow → (∀ r, route = Some r → route_ok r) →
  ∃ v s' m', deliver m s route flow now_ns = Some (v, s', m') ∧ ingress_effect m m'.
Proof.
  intros Hok Hf Hr. unfold deliver. destruct route as [route|]; cycle 1.
  { eexists _, _, _. split; [done|]. by left. }
  destruct (check_security_ingress_filtered m (re_target_ifindex route) flow now_ns)
    as (b & m' & -> & Hb); [apply Hok|done|]. cbn [mbind option_bind].
  assert (ingress_effect m m') by (right; eauto 10).
  destruct b; cbn [negb]; [|by eauto 10].
  destruct (handle_route_routed s route) as (v & s' & -> & _); [by apply Hr|]. cbn. eauto 10.
Qed.

Lemma deliver_v4_effect m s now_ns : ingress_maps_ok m →
  ∃ v s' m', deliver_v4 m s now_ns = Some (v, s', m') ∧ ingress_effect m m'.
Proof.
  intros Hok. unfold deliver_v4. case_match eqn:Hl; [eexists _, _, _; split; [done|by left]|].
  apply Nat.ltb_ge in Hl. destruct (parse_v4_some _ Hl) as (flow & dst & -> & Hf & _).
  apply deliver_effect; [done..|]. intros r Hr. by eapply in_ok_v4.
Qed.

Lemma deliver_v6_effect m s now_ns : ingress_maps_ok m →
  ∃ v s' m', deliver_v6 m s now_ns = Some (v, s', m') ∧ ingress_effect m m'.
Proof.
  intros Hok. unfold deliver_v6. case_match eqn:Hl; [eexists _, _, _; split; [done|by left]|].
  apply Nat.ltb_ge in Hl. destruct (parse_v6_some _ Hl) as (flow & -> & Hf).
  apply deliver_effect; [done..|]. intros r Hr. by eapply in_ok_v6.
Qed.

Lemma extract_tunnel_metadata_some l v : length l = 16%nat → is_Some (extract_tunnel_metadata l v).
Proof. intros Hl. do 16 (destruct l as [|? l]; [done|]). cbn. eauto. Qed.

Lemma decap_effect m s nh now_ns : ingress_maps_ok m →
  ∃ v s' m', handle_tunnel_decap m s nh now_ns = Some (v, s', m') ∧ ingress_effect m m'.
Proof.
  intros Hok. unfold handle_tunnel_decap.
  case_match eqn:Hl; [eexists _, _, _; split; [done|by left]|]. apply Nat.ltb_ge in Hl.
  destruct (read_array_some 16 (skb_data s) (ETH_HLEN + 8)) as (src & -> & Hs);
    [unfold ETH_HLEN, IPV6_HDR_SIZE in *; lia|]. cbn [mbind option_bind].
  edestruct (extract_tunnel_metadata_some src) as [md ->]; [done|]. cbn [mbind option_bind].
  destruct (adjust_room_shrink IPV6_HDR_SIZE s) as [s1|];
    [|eexists _, _, _; split; [done|by left]].
  destruct (Nat.ltb_spec (length (skb_data s1)) 14); [eexists _, _, _; split; [done|by left]|].
  rewrite write_bytes_eq by (cbn [length be16]; lia). cbn [mbind option_bind].
  case_match; [by apply deliver_v4_effect|by apply deliver_v6_effect].
Qed.

Lemma tc_ingress_effect m s now_ns : ingress_maps_ok m →
  ∃ v s' m', tc_ingress m s now_ns = Some (v, s', m') ∧ ingress_effect m m'.
Proof.
  intros Hok. unfold tc_ingress.
  destruct (Nat.ltb_spec (length (skb_data s)) ETH_HLEN) as [|Hl];
    [eexists _, _, _; split; [done|by left]|]. unfold ETH_HLEN in Hl.
  destruct (read_be16_some (skb_data s) 12) as [eth ->]; [lia|]. cbn [mbind option_bind].
  case_match; [by apply deliver_v4_effect|].
  case_match; [|eexists _, _, _; split; [done|by left]].
  destruct (Nat.ltb_spec (length (skb_data s)) (ETH_HLEN + IPV6_HDR_SIZE));
    [eexists _, _, _; split; [done|by left]|]. unfold ETH_HLEN, IPV6_HDR_SIZE in *.
  destruct (read_u8_some (skb_data s) (14 + 6)) as [nh ->]; [lia|]. cbn [mbind option_bind].
  case_match; [by apply decap_effect|by apply deliver_v6_effect].
Qed.

Lemma ingress_effect_tables m m' : ingress_effect m m' → in_same_tables m m'.
Proof.
  intros [->|(? & ? & ? & ? & _ & Hf)]; [by destruct m|by eapply filtered_tables].
Qed.

Lemma in_same_tables_trans m1 m2 m3 :
  in_same_tables m1 m2 → in_same_tables m2 m3 → in_same_tables m1 m3.
Proof. unfold in_same_tables. by intros -> ->. Qed.

(** A property of the maps that the filter keeps holds after any frames. *)
Lemma ingress_run_inv (P : IngressMaps → Prop) m frames m' :
  (∀ m ifindex flow now_ns b m', flow_ok flow →
     filtered m ifindex flow now_ns b m' → P m → P m') →
  ingress_maps_ok m → P m → ingress_run m frames = Some m' → P m'.
Proof.
  intros HP. revert m. induction frames as [|[s now] frames IH]; intros m Hok Hm Hrun.
  { by injection Hrun as <-. }
  cbn [ingress_run] in Hrun. destruct (tc_ingress_effect m s now Hok) as (v & s' & m1 & E & He).
  rewrite E in Hrun. cbn [mbind option_bind] in Hrun. apply (IH m1); [| |done].
  - by eapply ingress_maps_ok_tables, Hok; apply ingress_effect_tables.
  - destruct He as [->|(ifx & flow & t & b & Hf & He)]; [done|by eapply HP].
Qed.

(** C30: Any sequence of frames is handled: no access leaves a frame or an array, every
    frame gets a verdict, and only the connection table changes. *)
Theorem ingress_run_total m frames : ingress_maps_ok m →
  ∃ m', ingress_run m frames = Some m' ∧ in_same_tables m m'.
Proof.
  revert m. induction frames as [|[s now] frames IH]; intros m Hok.
  { exists m. split; [done|]. by destruct m. }
  cbn [ingress_run]. destruct (tc_ingress_effect m s now Hok) as (v & s' & m1 & -> & He).
  apply ingress_effect_tables in He. cbn [mbind option_bind].
  destruct (IH m1) as (m' & Hm' & Ht); [by eapply ingress_maps_ok_tables|].
  exists m'. split; [done|]. by eapply in_same_tables_trans.
Qed.

End ingress_facts.

(** * Connection tracking *)

(** Every tracked flow was allowed by a rule of a secured interface. *)
Definition ct_justified (m : IngressMaps) : Prop :=
  ∀ k, is_Some (in_conn_track m !! k) →
    ∃ ifindex config, secured m ifindex config ∧ allowed_by_rule m config k.

Section tracking.
Context {kernel : BpfKernel} {laws : BpfKernelLaws kernel}.

Lemma ct_insert_tracked k e ct k' :
  is_Some (ct_insert k e ct !! k') → k' = k ∨ is_Some (ct !! k').
Proof.
  destruct (ct_insert_result k e ct) as [->| ->]; [|by right]. intros Hk'.
  destruct (decide (k = k')) as [->|]; [by left|]. right. by rewrite lookup_insert_ne in Hk'.
Qed.

Lemma ct_insert_keeps k e ct k' : is_Some (ct !! k') → is_Some (ct_insert k e ct !! k').
Proof.
  destruct (ct_insert_result k e ct) as [->| ->]; [|done]. intros Hk'.
  apply lookup_insert_is_Some. destruct (decide (k = k')); auto.
Qed.

Lemma filtered_justified m ifindex flow now_ns b m' :
  filtered m ifindex flow now_ns b m' → ct_justified m → ct_justified m'.
Proof.
  intros Hf Hm. destruct Hf as [| |config Hs _ Hr|]; [done| | |done];
    intros k [->|Hk]%ct_insert_tracked; try by apply Hm.
  by exists ifindex, config.
Qed.

Lemma filtered_keeps k m ifindex flow now_ns b m' :
  filtered m ifindex flow now_ns b m' →
  is_Some (in_conn_track m !! k) → is_Some (in_conn_track m' !! k).
Proof. destruct 1; [done|by apply ct_insert_keeps..|done]. Qed.


(** An admitted flow admits its reverse, to every interface and for good. Once a
    rule has let a flow in, packets of the reverse flow pass the filter of
    whichever interface they are routed to, whatever its rules, after any number
    of frames: entries are never removed. *)
Theorem admission_opens_reverse m ifindex config flow now_ns :
  ingress_maps_ok m → flow_ok flow → secured m ifindex config →
  in_conn_track m !! ct_reverse flow = None → allowed_by_rule m config flow →
  (size (in_conn_track m) < N.to_nat 65536)%nat →
  ∃ m1, check_security_ingress m ifindex flow now_ns = Some (true, m1) ∧
    ∀ frames m2 target now_ns', ingress_run m1 frames = Some m2 →
      ∃ m3, check_security_ingress m2 target (ct_reverse flow) now_ns' = Some (true, m3).
Proof.
  intros Hok Hf Hs Hu Hr Hroom.
  destruct (check_security_ingress_filtered m ifindex flow now_ns)
    as (b & m1 & Hc & Hfil); [apply Hok|done|].
  pose proof (filtered_tables _ _ _ _ _ _ Hfil) as Ht1.
  pose proof (ingress_maps_ok_tables _ _ Ht1 Hok) as Hok1.
  inversion Hfil as [Hopen|? ? ? Htr|c Hs' Hu' Hr'|c Hs' _ Hn]; subst; clear Hfil.
  { by destruct (Hopen config). }
  { congruence. }
  2: { destruct Hs as [Hs _], Hs' as [Hs' _]. by simplify_eq. }
  rewrite ct_insert_room in * by done. eexists. split; [done|].
  intros frames m2 target now' Hrun.
  assert (is_Some (in_conn_track m2 !! flow)) as [e Hk].
  { eapply (ingress_run_inv (λ m, is_Some (in_conn_track m !! flow))); [|done| |done].
    - intros. by eapply filtered_keeps.
    - cbn. rewrite lookup_insert_eq. by eexists. }
  unfold check_security_ingress. destruct (in_nic_security m2 !! target); [|by eexists].
  case_match; [by eexists|]. replace (ct_reverse (ct_reverse flow)) with flow by (by destruct flow).
  rewrite Hk. by eexists.
Qed.

End tracking.

(** * Examples *)

Import EbpfModel.

Definition ex_mac : list u8 := replicate 6 2%N.

(** Two VMs behind the filter: 10.0.0.1 on interface 1 with no rules, and the web
    server 10.0.0.2 on interface 2. *)
Definition ex_ingress : IngressMaps :=
  MkIngressMaps
    (λ dst, if dst == [10; 0; 0; 1]%N then Some (MkRouteEntry ACTION_REDIRECT 1 ex_mac ex_mac)
            else if dst == [10; 0; 0; 2]%N then Some (MkRouteEntry ACTION_REDIRECT 2 ex_mac ex_mac)
            else None)
    (λ _, None) {[ 0%N := web_rule ]}
    {[ 1%N := MkNicSecurityConfig 1 10 0; 2%N := MkNicSecurityConfig 1 0 1 ]} ∅.

Lemma ex_ingress_ok : ingress_maps_ok ex_ingress.
Proof.
  assert (arr 6 ex_mac) by (split; [done|]; unfold bytes_ok; by repeat constructor).
  split; [|intros dst r; cbn; repeat case_bool_decide; [by intros [= <-]..|done]|done].
  apply map_Forall_singleton, web_rule_ok.
Qed.

(** A web request to interface 2 that claims to come from 10.0.0.1, port 22. *)
Definition ex_flow : ConnTrackKey :=
  from_tuple (pad16 [10; 0; 0; 1]%N) (pad16 [10; 0; 0; 2]%N) 22 80 IPPROTO_TCP 4.
Definition ex_request : Skb :=
  MkSkb 9 ETH_P_IP (ipv4_frame [10; 0; 0; 1]%N [10; 0; 0; 2]%N IPPROTO_TCP 22 80).

Lemma ex_secured : secured ex_ingress 2 (MkNicSecurityConfig 1 0 1).
Proof. split; [vm_compute; reflexivity|done]. Qed.

Lemma ex_allowed : allowed_by_rule ex_ingress (MkNicSecurityConfig 1 0 1) ex_flow.
Proof.
  exists 0%N. split; [done|]. split; [done|]. exists web_rule.
  split; [vm_compute; reflexivity|]. split; [done|]. split; [done|]. vm_compute. reflexivity.
Qed.

Lemma ingress_run_total_witness :
  ∃ m', ingress_run ex_ingress [(ex_request, 1%N); (MkSkb 9 ETH_P_IP [1]%N, 2%N)] = Some m' ∧
        in_same_tables ex_ingress m'.
Proof. apply (ingress_run_total ex_ingress). exact ex_ingress_ok. Defined.


(** The forged request opens port 22 of 10.0.0.1, which no rule allows. *)
Lemma admission_opens_reverse_witness :
  check_security_ingress ex_ingress 1 (ct_reverse ex_flow) 0 = Some (false, ex_ingress) ∧
  ∃ m1, check_security_ingress ex_ingress 2 ex_flow 1 = Some (true, m1) ∧
    ∀ frames m2 target now_ns', ingress_run m1 frames = Some m2 →
      ∃ m3, check_security_ingress m2 target (ct_reverse ex_flow) now_ns' = Some (true, m3).
Proof.
  split; [vm_compute; reflexivity|].
  apply (admission_opens_reverse ex_ingress 2 (MkNicSecurityConfig 1 0 1) ex_flow 1).
  - exact ex_ingress_ok.
  - by split.
  - exact ex_secured.
  - reflexivity.
  - exact ex_allowed.
  - apply Nat.ltb_lt. vm_compute. reflexivity.
Defined.
