(* ===== verification/EbpfTunnel.v ===== *)
(** Two hosts: the egress program of one encapsulates, the ingress program of the
    other decapsulates. *)

From S2P Require Import Prelude Packet Ebpf EbpfEgress EbpfIngress.

(** * The sender's identity in the outer source address *)

Lemma bit_mod a w n : N.testbit (a `mod` 2 ^ w) n = (n <? w)%N && N.testbit a n.
Proof.
  destruct (N.ltb_spec n w); [by apply N.mod_pow2_bits_low|by apply N.mod_pow2_bits_high].
Qed.

Lemma bit_shiftl a w n : N.testbit (N.shiftl a w) n = (w <=? n)%N && N.testbit a (n - w).
Proof.
  destruct (N.leb_spec w n); [by apply N.shiftl_spec_high'|by apply N.shiftl_spec_low].
Qed.

(** Two bytes put back together are the low 16 bits of the number they came from. *)
Lemma join_bytes a lo : lo = (a `mod` 2 ^ 8)%N →
  N.lor (N.shiftl (N.shiftr a 8 `mod` 2 ^ 8) 8) lo = (a `mod` 2 ^ 16)%N.
Proof.
  intros ->. apply N.bits_inj. intros n.
  rewrite N.lor_spec, bit_shiftl, !bit_mod, N.shiftr_spec'.
  destruct (N.leb_spec 8 n), (N.ltb_spec n 8), (N.ltb_spec (n - 8) 8), (N.ltb_spec n 16);
    try lia; cbn; rewrite ?orb_false_r; try done; f_equal; lia.
Qed.

Lemma join_three_bytes a :
  N.lor (N.lor (N.shiftl (N.shiftr a 16 `mod` 2 ^ 8) 16) (N.shiftl (N.shiftr a 8 `mod` 2 ^ 8) 8))
    (a `mod` 2 ^ 8) = (a `mod` 2 ^ 24)%N.
Proof.
  rewrite <- N.lor_assoc, join_bytes by done. apply N.bits_inj. intros n.
  rewrite N.lor_spec, bit_shiftl, !bit_mod, N.shiftr_spec'.
  destruct (N.leb_spec 16 n), (N.ltb_spec n 16), (N.ltb_spec (n - 16) 8), (N.ltb_spec n 24);
    try lia; cbn; rewrite ?orb_false_r; try done; f_equal; lia.
Qed.

(** The sender's network function and the low 24 bits of its security group are
    what the receiver extracts from the outer source address. *)
Theorem tunnel_metadata_roundtrip nic v :
  length (ln_local_prefix nic) = 10%nat → (ln_nf_id nic < 2 ^ 16)%N →
  extract_tunnel_metadata (outer_src nic) v =
    Some (MkTunnelMetadata (ln_nf_id nic) (ln_sg_id nic `mod` 2 ^ 24) v).
Proof.
  destruct nic as [nf sg prefix]. cbn [ln_local_prefix ln_nf_id ln_sg_id]. intros Hp Hnf.
  do 10 (destruct prefix as [|? prefix]; [done|]). destruct prefix; [|done]. cbn.
  change 255%N with (N.ones 8). rewrite !N.land_ones, join_three_bytes.
  unfold wrap. rewrite join_bytes by done. by rewrite N.mod_small.
Qed.

(** * Encapsulation followed by decapsulation *)

Lemma outer_header_length label len nh src dst :
  length src = 16%nat → length dst = 16%nat → length (outer_header label len nh src dst) = 40%nat.
Proof. intros Hs Hd. unfold outer_header. rewrite !length_app. cbn [length be32 be16]. lia. Qed.

(** The fields of the outer header, where the ingress program reads them. *)
Lemma outer_header_fields label len nh src dst :
  length src = 16%nat → length dst = 16%nat →
  let h := outer_header label len nh src dst in
  h !! 6%nat = Some nh ∧ take 16 (drop 8 h) = src ∧ take 16 (drop 24 h) = dst.
Proof.
  intros Hs Hd h. unfold h, outer_header. split_and!.
  - done.
  - rewrite <- !app_assoc. cbn [be32 be16 app drop]. by apply take_app_length'.
  - rewrite drop_app_length'; [by apply take_ge; rewrite Hd|].
    rewrite !length_app. cbn [length be32 be16]. lia.
Qed.

(** A frame whose network header is [hdr], of a protocol without ports. *)
Lemma parse_v6_header a hdr rest nh :
  length a = ETH_HLEN → length hdr = IPV6_HDR_SIZE → hdr !! 6%nat = Some nh →
  nh ≠ IPPROTO_TCP → nh ≠ IPPROTO_UDP →
  parse_v6 (a ++ hdr ++ rest) =
    Some (from_tuple (take 16 (drop 8 hdr)) (take 16 (drop 24 hdr)) 0 0 nh 6).
Proof.
  unfold ETH_HLEN, IPV6_HDR_SIZE. intros Ha Hh Hnh H1 H2. unfold parse_v6, ETH_HLEN, IPV6_HDR_SIZE.
  assert (Hr : ∀ off, (off + 16 <= 40)%nat →
    read_array 16 (a ++ hdr ++ rest) (14 + off) = Some (take 16 (drop off hdr))).
  { intros off Hoff. unfold read_array.
    rewrite (proj2 (Nat.leb_le _ _)) by (rewrite !length_app; lia). f_equal.
    rewrite <- drop_drop, drop_app_length' by done.
    rewrite drop_app_le, take_app_le by (rewrite ?length_drop; lia). done. }
  unfold read_u8. rewrite lookup_app_r by lia. rewrite Ha. change (14 + 6 - 14)%nat with 6%nat.
  rewrite lookup_app_l by lia. rewrite Hnh. cbn [mbind option_bind].
  rewrite (Hr 8%nat), (Hr 24%nat) by lia. cbn [mbind option_bind].
  unfold read_ports. by rewrite !bool_decide_eq_false_2.
Qed.

Lemma tc_ingress_decap {kernel : BpfKernel} m r now_ns macs hdr rest :
  length macs = 12%nat → length hdr = IPV6_HDR_SIZE →
  hdr !! 6%nat = Some IPPROTO_IPV6_ENCAP → skb_data r = macs ++ be16 ETH_P_IPV6 ++ hdr ++ rest →
  tc_ingress m r now_ns = handle_tunnel_decap m r IPPROTO_IPV6_ENCAP now_ns.
Proof.
  unfold IPV6_HDR_SIZE. intros Hm Hh H6 Hr. unfold tc_ingress.
  assert (Hl : (54 <= length (skb_data r))%nat)
    by (rewrite Hr, !length_app; cbn [length be16]; lia).
  rewrite (proj2 (Nat.ltb_ge _ _)) by (unfold ETH_HLEN; lia).
  rewrite Hr at 1. rewrite (read_be16_be16 macs) by done. cbn [mbind option_bind].
  change (ETH_P_IPV6 == ETH_P_IP) with false. change (ETH_P_IPV6 == ETH_P_IPV6) with true.
  cbv iota. rewrite (proj2 (Nat.ltb_ge _ _)) by (unfold ETH_HLEN, IPV6_HDR_SIZE; lia).
  assert (read_u8 (skb_data r) (ETH_HLEN + 6) = Some IPPROTO_IPV6_ENCAP) as ->; [|done].
  unfold read_u8, ETH_HLEN. rewrite Hr, app_assoc.
  rewrite lookup_app_r; rewrite length_app, Hm; cbn [length be16]; [|lia].
  change (14 + 6 - (12 + 2))%nat with 6%nat. rewrite lookup_app_l by lia. done.
Qed.

Section decap.
Context {kernel : BpfKernel} {laws : BpfKernelLaws kernel}.

(** Shrinking removes the forty bytes behind the outer header. *)
Lemma shrink_frame s s1 macs hdr room rest :
  skb_protocol s = ETH_P_IPV6 → skb_data s = macs ++ be16 ETH_P_IPV6 ++ hdr ++ room ++ rest →
  length macs = 12%nat → length hdr = IPV6_HDR_SIZE → length room = IPV6_HDR_SIZE →
  adjust_room_shrink IPV6_HDR_SIZE s = Some s1 →
  skb_data s1 = macs ++ be16 ETH_P_IPV6 ++ hdr ++ rest.
Proof.
  unfold IPV6_HDR_SIZE. intros Hp Hd Hm Hh Hr Hs.
  destruct (shrink_result _ _ _ Hs) as (_ & _ & Hs1). rewrite Hp in Hs1.
  change (ETH_HLEN + net_base_len ETH_P_IPV6)%nat with 54%nat in Hs1. rewrite Hs1, Hd.
  assert (H54 : length (macs ++ be16 ETH_P_IPV6 ++ hdr) = 54%nat)
    by (rewrite !length_app; cbn [length be16]; lia).
  replace (macs ++ be16 ETH_P_IPV6 ++ hdr ++ room ++ rest)
    with ((macs ++ be16 ETH_P_IPV6 ++ hdr) ++ room ++ rest) by (by rewrite <- !app_assoc).
  set (p := macs ++ be16 ETH_P_IPV6 ++ hdr) in *. rewrite take_app_length' by done.
  rewrite (app_assoc p room), drop_app_length' by (rewrite length_app; lia).
  unfold p. by rewrite <- !app_assoc.
Qed.

(** Decapsulating an IPv6 packet delivers it by its outer addresses. *)
Lemma decap_v6_frame m s s1 macs hdr room rest now_ns :
  skb_protocol s = ETH_P_IPV6 → skb_data s = macs ++ be16 ETH_P_IPV6 ++ hdr ++ room ++ rest →
  length macs = 12%nat → length hdr = IPV6_HDR_SIZE → length room = IPV6_HDR_SIZE →
  hdr !! 6%nat = Some IPPROTO_IPV6_ENCAP → adjust_room_shrink IPV6_HDR_SIZE s = Some s1 →
  let src := take 16 (drop 8 hdr) in
  let dst := take 16 (drop 24 hdr) in
  handle_tunnel_decap m s IPPROTO_IPV6_ENCAP now_ns =
    deliver m (with_data s1 (macs ++ be16 ETH_P_IPV6 ++ hdr ++ rest))
      (in_routes_v6 m dst) (from_tuple src dst 0 0 IPPROTO_IPV6_ENCAP 6) now_ns.
Proof.
  intros Hp Hd Hm Hh Hr Hnh Hs src dst.
  pose proof (shrink_frame _ _ _ _ _ _ Hp Hd Hm Hh Hr Hs) as Hs1.
  unfold IPV6_HDR_SIZE in Hh, Hr.
  assert (Hl : (94 <= length (skb_data s))%nat)
    by (rewrite Hd, !length_app; cbn [length be16]; lia).
  assert (Hl1 : (54 <= length (skb_data s1))%nat)
    by (rewrite Hs1, !length_app; cbn [length be16]; lia).
  assert (Hw : write_bytes (skb_data s1) 12 (be16 ETH_P_IPV6) = Some (skb_data s1)).
  { rewrite write_bytes_eq by (cbn [length be16]; lia). rewrite Hs1.
    rewrite take_app_length' by done. do 3 f_equal.
    rewrite app_assoc. apply drop_app_length'. rewrite length_app. cbn. lia. }
  unfold handle_tunnel_decap. change (IPPROTO_IPV6_ENCAP == IPPROTO_IPIP) with false. cbv iota zeta.
  rewrite (proj2 (Nat.ltb_ge _ _)) by (unfold ETH_HLEN, IPV6_HDR_SIZE; lia).
  destruct (read_array_some 16 (skb_data s) (ETH_HLEN + 8)) as (o & -> & Ho);
    [unfold ETH_HLEN; lia|]. cbn [mbind option_bind].
  edestruct (extract_tunnel_metadata_some o) as [md ->]; [done|]. cbn [mbind option_bind].
  rewrite Hs, (proj2 (Nat.ltb_ge _ _)), Hw by lia. cbn [mbind option_bind].
  unfold deliver_v6. cbn [skb_data with_data].
  rewrite (proj2 (Nat.ltb_ge _ _)) by (unfold ETH_HLEN, IPV6_HDR_SIZE; lia).
  rewrite Hs1, app_assoc, (parse_v6_header _ hdr rest IPPROTO_IPV6_ENCAP); try done.
  rewrite length_app. cbn. by rewrite Hm.
Qed.

End decap.

(** The VM's packet does not reach the other host. The sender's program
    overwrites the inner IPv6 header and the receiver's removes what is left of
    the room behind the outer one. So the receiver looks up its routes with the
    tunnel's destination address, filters by the tunnel's addresses with protocol
    41 and no ports, and delivers the sender's payload behind the outer header;
    the inner addresses, protocol and ports play no part. *)
Theorem tunnel_loses_inner_header
    {K1 : BpfKernel} {L1 : BpfKernelLaws K1} {K2 : BpfKernel} {L2 : BpfKernelLaws K2}
    ms s s1 dst tunnel flow nic len mr r r1 macs now_ns :
  skb_protocol s = ETH_P_IPV6 → (ETH_HLEN + IPV6_HDR_SIZE <= length (skb_data s))%nat →
  eg_local_nic_info ms !! skb_ifindex s = Some nic →
  length (ln_local_prefix nic) = 10%nat → length (te_remote_prefix tunnel) = 10%nat →
  length dst = 16%nat → read_be16 (skb_data s) (ETH_HLEN + 4) = Some len →
  @adjust_room_grow K1 IPV6_HDR_SIZE s = Some s1 →
  ∃ s2, handle_tunnel_encap_v6 (kernel := K1) ms s dst tunnel flow = Some (TC_ACT_OK, s2) ∧
    (length macs = 12%nat → skb_protocol r = ETH_P_IPV6 →
     skb_data r = macs ++ drop 12 (skb_data s2) →
     @adjust_room_shrink K2 IPV6_HDR_SIZE r = Some r1 →
     let outer := outer_header
       (compute_flow_label_simple (ck_src_port flow) (ck_dst_port flow) (ck_protocol flow))
       (wrap 16 (len + 40)) IPPROTO_IPV6_ENCAP (outer_src nic) (outer_dst_v6 tunnel dst) in
     tc_ingress (kernel := K2) mr r now_ns =
       deliver (kernel := K2) mr
         (with_data r1 (macs ++ be16 ETH_P_IPV6 ++ outer ++
                        drop (ETH_HLEN + IPV6_HDR_SIZE) (skb_data s)))
         (in_routes_v6 mr (outer_dst_v6 tunnel dst))
         (from_tuple (outer_src nic) (outer_dst_v6 tunnel dst) 0 0 IPPROTO_IPV6_ENCAP 6) now_ns).
Proof.
  intros Hp Hl Hn Hln Ht Hd Hlen Hg. unfold ETH_HLEN, IPV6_HDR_SIZE in Hl.
  assert (Hos : length (outer_src nic) = 16%nat) by (by apply outer_src_length).
  assert (Hod : length (outer_dst_v6 tunnel dst) = 16%nat)
    by (unfold outer_dst_v6; rewrite length_app, length_drop; lia).
  unfold handle_tunnel_encap_v6. rewrite Hn, (proj2 (Nat.ltb_ge _ _)), Hlen, Hg
    by (unfold ETH_HLEN; lia). cbn [mbind option_bind].
  edestruct (encap_frame (kernel := K1) s s1 40) as (filler & s2 & Hf & Hw & Hs2);
    [by rewrite Hp|lia|done|done|exact Hos|exact Hod|].
  exists s2. split; [exact Hw|]. intros Hm Hpr Hr Hs.
  rewrite Hs2, drop_app_length' in Hr by (rewrite length_take; lia).
  destruct (outer_header_fields
    (compute_flow_label_simple (ck_src_port flow) (ck_dst_port flow) (ck_protocol flow))
    (wrap 16 (len + 40)) IPPROTO_IPV6_ENCAP _ _ Hos Hod) as (H6 & H8 & H24).
  set (outer := outer_header _ _ _ _ _) in *.
  assert (Ho : length outer = 40%nat) by (by apply outer_header_length).
  pose proof (decap_v6_frame (kernel := K2) mr r r1 macs outer filler _ now_ns Hpr Hr Hm Ho Hf H6 Hs) as Hdec.
  cbv zeta in Hdec. rewrite H8, H24 in Hdec. etransitivity; [|exact Hdec].
  by apply (tc_ingress_decap _ _ _ macs outer (filler ++ drop 54 (skb_data s))).
Qed.

(** * Examples *)

Import EbpfModel.

Definition ex_nic : LocalNicInfo := MkLocalNicInfo 7 (2 ^ 24 + 9) (replicate 10 252%N).

Lemma tunnel_metadata_roundtrip_witness :
  extract_tunnel_metadata (outer_src ex_nic) 4 =
    Some (MkTunnelMetadata (ln_nf_id ex_nic) (ln_sg_id ex_nic `mod` 2 ^ 24) 4) ∧
  ln_sg_id ex_nic ≠ (ln_sg_id ex_nic `mod` 2 ^ 24)%N.
Proof.
  split; [|done]. apply (tunnel_metadata_roundtrip ex_nic 4); [reflexivity|done].
Defined.

Definition ex_tunnel : TunnelEndpoint := MkTunnelEndpoint (replicate 10 253%N).
Definition ex_dst : list u8 := replicate 16 5%N.
Definition ex_sender : EgressMaps :=
  MkEgressMaps (λ _, None) (λ _, None) ∅ ∅ ∅ (λ _, None) (λ _, Some ex_tunnel) {[ 3%N := ex_nic ]}.
Definition ex_receiver : IngressMaps := MkIngressMaps (λ _, None) (λ _, None) ∅ ∅ ∅.
Definition ex_packet : Skb :=
  MkSkb 3 ETH_P_IPV6 (ipv6_frame (replicate 16 4%N) ex_dst IPPROTO_TCP (replicate 24 7%N)).
Definition ex_packet_flow : ConnTrackKey :=
  from_tuple (replicate 16 4%N) ex_dst 1799 1799 IPPROTO_TCP 6.

(** The frame on the wire. *)
Definition ex_wire : Skb :=
  match handle_tunnel_encap_v6 ex_sender ex_packet ex_dst ex_tunnel ex_packet_flow with
  | Some (_, s2) => with_data s2 (replicate 12 1%N ++ drop 12 (skb_data s2))
  | None => ex_packet
  end.

Lemma tunnel_loses_inner_header_witness :
  ∃ s2 r1, handle_tunnel_encap_v6 ex_sender ex_packet ex_dst ex_tunnel ex_packet_flow =
        Some (TC_ACT_OK, s2) ∧
    tc_ingress ex_receiver ex_wire 0 =
      deliver ex_receiver
        (with_data r1 (replicate 12 1%N ++ be16 ETH_P_IPV6 ++
           outer_header (compute_flow_label_simple 1799 1799 IPPROTO_TCP) (wrap 16 (24 + 40))
             IPPROTO_IPV6_ENCAP (outer_src ex_nic) (outer_dst_v6 ex_tunnel ex_dst) ++
           drop (ETH_HLEN + IPV6_HDR_SIZE) (skb_data ex_packet)))
        (in_routes_v6 ex_receiver (outer_dst_v6 ex_tunnel ex_dst))
        (from_tuple (outer_src ex_nic) (outer_dst_v6 ex_tunnel ex_dst) 0 0 IPPROTO_IPV6_ENCAP 6) 0.
Proof.
  set (wire1 := match adjust_room_shrink IPV6_HDR_SIZE ex_wire with Some r => r | None => ex_wire end).
  destruct (tunnel_loses_inner_header ex_sender ex_packet
    (match adjust_room_grow IPV6_HDR_SIZE ex_packet with Some r => r | None => ex_packet end)
    ex_dst ex_tunnel ex_packet_flow ex_nic 24 ex_receiver ex_wire wire1 (replicate 12 1%N) 0)
    as (s2 & Henc & Hdec).
  - reflexivity.
  - vm_compute. lia.
  - vm_compute. reflexivity.
  - reflexivity.
  - reflexivity.
  - reflexivity.
  - vm_compute. reflexivity.
  - vm_compute. reflexivity.
  - exists s2, wire1. split; [exact Henc|]. apply Hdec.
    + reflexivity.
    + vm_compute. reflexivity.
    + unfold ex_wire. rewrite Henc. reflexivity.
    + vm_compute. reflexivity.
Defined.
