(* ===== verification/Rpc.v ===== *)
(** What the daemons of a node and their clients share: the status codes of gRPC
    that the sources use and the status a failed call returns. *)

From S2P Require Import Prelude.

Inductive Code :=
  InvalidArgument | NotFound | AlreadyExists | FailedPrecondition | Internal | Unavailable.
#[export] Instance Code_eq : EqDecision Code.
Proof. solve_decision. Defined.

(** [tonic::Status]. *)
Record RpcStatus := MkRpcStatus { rs_code : Code; rs_message : string }.

(** [.map_err(f)?]. *)
Definition map_err {E F A} (f : E → F) (r : result E A) : result F A :=
  match r with Ok a => Ok a | Err e => Err (f e) end.

(** A fallible operation: its answer and the state it leaves. *)
Definition Fallible (E S A : Type) : Type := S → result E A * S.
(** A method of a service. *)
Definition Rpc (S A : Type) : Type := Fallible RpcStatus S A.

Section rpc.
Context {E S : Type}.

Definition is_ok {E A} (r : result E A) : bool := match r with Ok _ => true | Err _ => false end.
Definition rpc_ret {A} (a : A) : Fallible E S A := λ s, (Ok a, s).
Definition rpc_err {A} (e : E) : Fallible E S A := λ s, (Err e, s).
(** [let a = m.await?; k(a)]: an error ends the method, in the state reached. *)
Definition rpc_bind {A B} (m : Fallible E S A) (k : A → Fallible E S B) : Fallible E S B :=
  λ s, match m s with (Ok a, s') => k a s' | (Err e, s') => (Err e, s') end.
Definition rpc_get : Fallible E S S := λ s, (Ok s, s).
Definition rpc_modify (f : S → S) : Fallible E S unit := λ s, (Ok tt, f s).
(** [.map_err(f)]. *)
Definition rpc_map_err {A F} (f : E → F) (m : Fallible E S A) : Fallible F S A :=
  λ s, (map_err f (m s).1, (m s).2).

End rpc.

Section status.
Context {S : Type}.

Definition rpc_fail {A} (code : Code) (message : string) : Rpc S A :=
  rpc_err (MkRpcStatus code message).
(** [.ok_or_else(|| status)?]. *)
Definition rpc_some {A} (o : option A) (code : Code) (message : string) : Rpc S A :=
  match o with Some a => rpc_ret a | None => rpc_fail code message end.
Definition rpc_guard (b : bool) (code : Code) (message : string) : Rpc S unit :=
  if b then rpc_ret tt else rpc_fail code message.

End status.

Section wp.
Context {E S : Type}.

Lemma rpc_bind_Ok {A B} (m : Fallible E S A) (k : A → Fallible E S B) s b s' :
  rpc_bind m k s = (Ok b, s') → ∃ a s1, m s = (Ok a, s1) ∧ k a s1 = (Ok b, s').
Proof. unfold rpc_bind. destruct (m s) as [[a|e] s1]; [eauto|done]. Qed.

(** A method whose answer is known. *)
Lemma answered {A} (p : result E A * S) r : p.1 = r → p = (r, p.2).
Proof. intros <-. by destruct p. Qed.

(** What holds of answer and state after a method: [Q] if it succeeds, [E] if it
    fails. *)
Definition rpc_wp {A} (m : Fallible E S A) (s : S) (Q : A → S → Prop) (F : S → Prop) : Prop :=
  match m s with (Ok a, s') => Q a s' | (Err _, s') => F s' end.

Lemma wp_bind {A B} (m : Fallible E S A) (k : A → Fallible E S B) s Q F :
  rpc_wp m s (λ a s', rpc_wp (k a) s' Q F) F → rpc_wp (rpc_bind m k) s Q F.
Proof. unfold rpc_wp, rpc_bind. by destruct (m s) as [[]]. Qed.
Lemma wp_ret {A} (a : A) s (Q : A → S → Prop) F : Q a s → rpc_wp (rpc_ret a) s Q F.
Proof. done. Qed.
Lemma wp_err {A} e s (Q : A → S → Prop) (F : S → Prop) : F s → rpc_wp (rpc_err e) s Q F.
Proof. done. Qed.
Lemma wp_get s (Q : S → S → Prop) F : Q s s → rpc_wp rpc_get s Q F.
Proof. done. Qed.
Lemma wp_modify f s (Q : unit → S → Prop) F : Q tt (f s) → rpc_wp (rpc_modify f) s Q F.
Proof. done. Qed.
Lemma wp_mono {A} (m : Fallible E S A) s (Q Q' : A → S → Prop) (F F' : S → Prop) :
  rpc_wp m s Q F → (∀ a s', Q a s' → Q' a s') → (∀ s', F s' → F' s') → rpc_wp m s Q' F'.
Proof. unfold rpc_wp. destruct (m s) as [[]]; eauto. Qed.
(** An invariant, read off the state a method leaves. *)
Lemma wp_inv {A} (m : Fallible E S A) s (I : S → Prop) : rpc_wp m s (λ _, I) I → I (m s).2.
Proof. unfold rpc_wp. by destruct (m s) as [[]]. Qed.

End wp.

Section wp_status.
Context {S : Type}.

Lemma wp_fail {A} c t s (Q : A → S → Prop) (F : S → Prop) : F s → rpc_wp (rpc_fail c t) s Q F.
Proof. done. Qed.
Lemma wp_some {A} (o : option A) c t s (Q : A → S → Prop) (F : S → Prop) :
  F s → (∀ a, o = Some a → Q a s) → rpc_wp (rpc_some o c t) s Q F.
Proof. intros HF HQ. destruct o; [by apply HQ|done]. Qed.
Lemma wp_guard b c t s (Q : unit → S → Prop) (F : S → Prop) :
  F s → (b = true → Q tt s) → rpc_wp (rpc_guard b c t) s Q F.
Proof. intros HF HQ. destruct b; [by apply HQ|done]. Qed.

End wp_status.

Declare Scope rpc_scope.
Delimit Scope rpc_scope with rpc.
Notation "'let!' x := m 'in' k" := (rpc_bind m (λ x, k))
  (at level 200, x name, right associativity) : rpc_scope.
Notation "m ;! k" := (rpc_bind m (λ _, k)) (at level 100, right associativity) : rpc_scope.

(** Run a method on every branch. *)
Ltac rpc_unfold :=
  unfold rpc_bind, rpc_some, rpc_guard, rpc_get, rpc_modify, rpc_ret, rpc_fail, rpc_err in *; cbn beta iota in *.

(** One step of a proof on the calculus above. *)
Ltac rpc_step :=
  cbv beta zeta;
  lazymatch goal with
  | |- rpc_wp (rpc_bind _ _) _ _ _ => apply wp_bind
  | |- rpc_wp (rpc_ret _) _ _ _ => apply wp_ret
  | |- rpc_wp (rpc_fail _ _) _ _ _ => apply wp_fail
  | |- rpc_wp (rpc_err _) _ _ _ => apply wp_err
  | |- rpc_wp rpc_get _ _ _ => apply wp_get
  | |- rpc_wp (rpc_modify _) _ _ _ => apply wp_modify
  | |- rpc_wp (rpc_some _ _ _) _ _ _ => apply wp_some; [|intros ? ?]
  | |- rpc_wp (rpc_guard _ _ _) _ _ _ => apply wp_guard; [|intros ?]
  end.

(** Evaluation that does not read the results back. *)
Ltac vm_refl := lazymatch goal with |- ?x = ?y => exact (@eq_refl _ y <: x = y) end.
