(* ===== verification/NetAddr.v ===== *)
(** Addresses, subnets and the request validation of the eBPF network service
    (mvirt-ebpf/src/grpc/validation.rs), with the address allocators. *)

From S2P Require Import Prelude Externals.

(** * Subnets

    The ipnet crate: subnets of [w]-bit addresses. [contains] includes the network
    and the broadcast address. *)
Class IpNets (w : N) := {
  ipnet : Type;
  ipnet_eq_dec :: EqDecision ipnet;
  net_network : ipnet → N;
  net_broadcast : ipnet → N;
  net_prefix_len : ipnet → N;
  net_contains : ipnet → N → bool;
  net_parse : string → option ipnet;
  net_string : ipnet → string;
  net_prefix_len_le : ∀ n, (net_prefix_len n ≤ w)%N;
  net_network_aligned : ∀ n, (net_network n `mod` 2 ^ (w - net_prefix_len n) = 0)%N;
  net_network_lt : ∀ n, (net_network n < 2 ^ w)%N;
  net_broadcast_eq : ∀ n, net_broadcast n = (net_network n + 2 ^ (w - net_prefix_len n) - 1)%N;
  net_contains_iff : ∀ n a, net_contains n a = true ↔ (net_network n ≤ a ≤ net_broadcast n)%N;
}.
Arguments ipnet w {_}.
Abbreviation Ipv4Net := (ipnet 32).
Abbreviation Ipv6Net := (ipnet 128).
Abbreviation Ipv4Addr := N (only parsing).
Abbreviation Ipv6Addr := N (only parsing).

Inductive IpAddr := V4 (a : Ipv4Addr) | V6 (a : Ipv6Addr).
#[export] Instance IpAddr_eq : EqDecision IpAddr.
Proof. solve_decision. Defined.

(** The text forms of addresses and of UUIDs, which are 128-bit numbers. *)
Abbreviation Uuid := N (only parsing).
Class AddrText := {
  ipv4_parse : string → option Ipv4Addr;
  ipv4_string : Ipv4Addr → string;
  ipv6_parse : string → option Ipv6Addr;
  ipv6_string : Ipv6Addr → string;
  ip_parse : string → option IpAddr;
  uuid_parse : string → option Uuid;
  uuid_string : Uuid → string;
  ipv4_parse_lt : ∀ s a, ipv4_parse s = Some a → (a < 2 ^ 32)%N;
  ipv6_parse_lt : ∀ s a, ipv6_parse s = Some a → (a < 2 ^ 128)%N;
  uuid_roundtrip : ∀ u, (u < 2 ^ 128)%N → uuid_parse (uuid_string u) = Some u;
  uuid_string_length : ∀ u, String.length (uuid_string u) = 36%nat;
}.

(** * Errors *)

Inductive ValidationError :=
  | NetworkNameRequired
  | NoIpVersionEnabled
  | Ipv4SubnetRequired
  | Ipv6PrefixRequired
  | InvalidIpv4Subnet (s : string)
  | InvalidIpv6Prefix (s : string)
  | SubnetOverlap (new existing_name existing : string)
  | InvalidMacAddress (s : string)
  | InvalidIpv4Address (s : string)
  | InvalidIpv6Address (s : string)
  | Ipv4NotInSubnet (addr subnet : string)
  | Ipv6NotInPrefix (addr prefix : string)
  | InvalidDnsServer (s : string)
  | InvalidRoutedPrefix (s : string)
  | SecurityGroupNameRequired
  | InvalidRuleDirection
  | InvalidRuleProtocol
  | InvalidPortRange (start last : N)
  | PortOutOfRange (p : N)
  | PortsNotAllowedForProtocol (s : string)
  | InvalidCidr (s : string).

(** * MAC addresses *)

Definition hex_value (a : ascii) : option N :=
  let n := N_of_ascii a in
  if (48 <=? n)%N && (n <=? 57)%N then Some (n - 48)%N
  else if (97 <=? n)%N && (n <=? 102)%N then Some (n - 87)%N
  else if (65 <=? n)%N && (n <=? 70)%N then Some (n - 55)%N
  else None.

(** [u8::from_str_radix(s, 16)]: an optional plus sign, then at least one digit;
    [None] on any other character and on overflow. *)
Fixpoint hex_digits (acc : N) (s : string) : option u8 :=
  match s with
  | EmptyString => Some acc
  | String a s =>
      d ← hex_value a;
      let acc := (acc * 16 + d)%N in
      if (acc <? 256)%N then hex_digits acc s else None
  end.
Definition u8_from_hex (s : string) : option u8 :=
  let digits := match s with String "+" s' => s' | _ => s end in
  if str_is_empty digits then None else hex_digits 0 digits.

Definition parse_mac_address (s : string) : option (list u8) :=
  let parts := str_split ":" s in
  if (length parts =? 6)%nat then mapM u8_from_hex parts else None.

Definition mac_string (mac : list u8) : string := String.concat ":" (map fmt_02x mac).

(** [generate_mac_address], from the six random bytes it draws. *)
Definition generate_mac_address (random : list u8) : list u8 :=
  match random with
  | b :: bs => N.lor (N.land b 254) 2 :: bs
  | [] => []
  end.

(** * Allocation *)

(** The first address from [i] on that is neither the gateway nor used; [n]
    addresses are tried. *)
Fixpoint first_free (n : nat) (i : N) (used : list N) (gateway : N) : option N :=
  match n with
  | O => None
  | S n => if negb (i == gateway) && negb (bool_decide (i ∈ used)) then Some i
           else first_free n (i + 1) used gateway
  end.

Section nets.
Context {nets4 : IpNets 32} {nets6 : IpNets 128}.

(** [(network + 2)..broadcast], with [u32] addition. *)
Definition allocate_ipv4_address (subnet : Ipv4Net) (used : list Ipv4Addr) (gateway : Ipv4Addr)
    : option Ipv4Addr :=
  let start := wrap 32 (net_network subnet + 2) in
  first_free (N.to_nat (net_broadcast subnet - start)) start used gateway.

(** [2..1000] above the network, with [u128] addition. *)
Fixpoint first_free_v6 (n : nat) (i network : N) (used : list N) (gateway : N) : option N :=
  match n with
  | O => None
  | S n =>
      let addr := wrap 128 (network + i) in
      if negb (addr == gateway) && negb (bool_decide (addr ∈ used)) then Some addr
      else first_free_v6 n (i + 1) network used gateway
  end.
Definition allocate_ipv6_address (prefix : Ipv6Net) (used : list Ipv6Addr) (gateway : Ipv6Addr)
    : option Ipv6Addr :=
  first_free_v6 998 2 (net_network prefix) used gateway.

(** * Overlap *)

Definition ipv4_subnets_overlap (a b : Ipv4Net) : bool :=
  net_contains a (net_network b) || net_contains a (net_broadcast b)
  || net_contains b (net_network a) || net_contains b (net_broadcast a).
Definition ipv6_prefixes_overlap (a b : Ipv6Net) : bool :=
  net_contains a (net_network b) || net_contains b (net_network a).

(** * Requests *)

Context {text : AddrText} {unicode : UnicodeText}.

(** Parse each string that is not empty. *)
Definition parse_each {A E} (parse : string → option A) (err : string → E) (l : list string)
    : result E (list A) :=
  map_result (λ s, ok_or (err s) (parse s)) (List.filter (λ s, negb (str_is_empty s)) l).

(** An optional field of a request: the empty string stands for none. *)
Definition parse_nonempty {A E} (parse : string → option A) (err : E) (s : string)
    : result E (option A) :=
  if str_is_empty s then Ok None else let? a := ok_or err (parse s) in Ok (Some a).

(** What validation reads of an existing public network. *)
Record PublicNet := MkPublicNet {
  pn_name : string; pn_ipv4 : option Ipv4Net; pn_ipv6 : option Ipv6Net }.

Fixpoint check_overlap (new_v4 : option Ipv4Net) (new_v6 : option Ipv6Net) (l : list PublicNet)
    : result ValidationError unit :=
  match l with
  | [] => Ok tt
  | existing :: l =>
      let v6 :=
        match new_v6, pn_ipv6 existing with
        | Some new, Some old =>
            if ipv6_prefixes_overlap new old
            then Err (SubnetOverlap (net_string new) (pn_name existing) (net_string old))
            else check_overlap new_v4 new_v6 l
        | _, _ => check_overlap new_v4 new_v6 l
        end in
      match new_v4, pn_ipv4 existing with
      | Some new, Some old =>
          if ipv4_subnets_overlap new old
          then Err (SubnetOverlap (net_string new) (pn_name existing) (net_string old))
          else v6
      | _, _ => v6
      end
  end.

Definition validate_create_network (name : string) (ipv4_enabled : bool) (ipv4_subnet : string)
    (ipv6_enabled : bool) (ipv6_prefix : string) (is_public : bool) (dns_servers : list string)
    (public_networks : list PublicNet)
    : result ValidationError (option Ipv4Net * option Ipv6Net * list IpAddr) :=
  if str_is_empty (str_trim name) then Err NetworkNameRequired
  else if negb ipv4_enabled && negb ipv6_enabled then Err NoIpVersionEnabled
  else
    let? parsed_v4 :=
      if ipv4_enabled then
        if str_is_empty ipv4_subnet then Err Ipv4SubnetRequired
        else let? n := ok_or (InvalidIpv4Subnet ipv4_subnet) (net_parse ipv4_subnet) in Ok (Some n)
      else Ok None in
    let? parsed_v6 :=
      if ipv6_enabled then
        if str_is_empty ipv6_prefix then Err Ipv6PrefixRequired
        else let? n := ok_or (InvalidIpv6Prefix ipv6_prefix) (net_parse ipv6_prefix) in Ok (Some n)
      else Ok None in
    let? _ := if is_public then check_overlap parsed_v4 parsed_v6 public_networks else Ok tt in
    let? parsed_dns := parse_each ip_parse InvalidDnsServer dns_servers in
    Ok (parsed_v4, parsed_v6, parsed_dns).

(** An address, when given, lies in the subnet, when there is one. *)
Definition check_addr {w} {nets : IpNets w} (addr : string) (parse : string → option N)
    (invalid : ValidationError) (outside : string → string → ValidationError)
    (subnet : option (ipnet w)) : result ValidationError (option N) :=
  let? a := parse_nonempty parse invalid addr in
  match a, subnet with
  | Some a', Some n => if net_contains n a' then Ok a else Err (outside addr (net_string n))
  | _, _ => Ok a
  end.

Definition validate_create_nic (mac_address ipv4_address ipv6_address : string)
    (ipv4_subnet : option Ipv4Net) (ipv6_prefix : option Ipv6Net)
    : result ValidationError (option (list u8) * option Ipv4Addr * option Ipv6Addr) :=
  let? mac := parse_nonempty parse_mac_address (InvalidMacAddress mac_address) mac_address in
  let? ipv4 := check_addr ipv4_address ipv4_parse (InvalidIpv4Address ipv4_address)
                 Ipv4NotInSubnet ipv4_subnet in
  let? ipv6 := check_addr ipv6_address ipv6_parse (InvalidIpv6Address ipv6_address)
                 Ipv6NotInPrefix ipv6_prefix in
  Ok (mac, ipv4, ipv6).

Definition parse_routed_prefixes (v4_prefixes v6_prefixes : list string)
    : result ValidationError (list Ipv4Net * list Ipv6Net) :=
  let? v4 := parse_each net_parse InvalidRoutedPrefix v4_prefixes in
  let? v6 := parse_each net_parse InvalidRoutedPrefix v6_prefixes in
  Ok (v4, v6).

Definition validate_create_security_group (name : string) : result ValidationError unit :=
  if str_is_empty (str_trim name) then Err SecurityGroupNameRequired else Ok tt.

End nets.

(** * Security group rules *)

Inductive EbDirection := DirUnspecified | DirIngress | DirEgress.
Inductive EbProtocol := ProtoUnspecified | ProtoAll | ProtoTcp | ProtoUdp | ProtoIcmp | ProtoIcmpv6.
#[export] Instance EbDirection_eq : EqDecision EbDirection.
Proof. solve_decision. Defined.
#[export] Instance EbProtocol_eq : EqDecision EbProtocol.
Proof. solve_decision. Defined.

Definition direction_from (v : Z) : EbDirection :=
  if v == 1%Z then DirIngress else if v == 2%Z then DirEgress else DirUnspecified.
Definition protocol_from (v : Z) : EbProtocol :=
  if v == 1%Z then ProtoAll else if v == 2%Z then ProtoTcp else if v == 3%Z then ProtoUdp
  else if v == 4%Z then ProtoIcmp else if v == 5%Z then ProtoIcmpv6 else ProtoUnspecified.
Definition direction_str (d : EbDirection) : string :=
  match d with DirIngress => "ingress" | DirEgress => "egress" | DirUnspecified => "unspecified" end.
Definition protocol_str (p : EbProtocol) : string :=
  match p with
  | ProtoAll => "all" | ProtoTcp => "tcp" | ProtoUdp => "udp" | ProtoIcmp => "icmp"
  | ProtoIcmpv6 => "icmpv6" | ProtoUnspecified => "unspecified"
  end.
Definition direction_parse (s : string) : EbDirection :=
  if s == "ingress" then DirIngress else if s == "egress" then DirEgress else DirUnspecified.
Definition protocol_parse (s : string) : EbProtocol :=
  if s == "all" then ProtoAll else if s == "tcp" then ProtoTcp else if s == "udp" then ProtoUdp
  else if s == "icmp" then ProtoIcmp else if s == "icmpv6" then ProtoIcmpv6
  else ProtoUnspecified.

Section rules.
Context {nets4 : IpNets 32} {nets6 : IpNets 128}.

(** The address in network byte order, the prefix length and the IP version. *)
Record ParsedCidr := MkParsedCidr { pc_addr : list u8; pc_prefix_len : u8; pc_ip_version : u8 }.

Fixpoint be_octets (n : nat) (v : N) : list u8 :=
  match n with O => [] | S n => be_octets n (v `div` 256) ++ [v `mod` 256]%N end.

(** [IpNet::from_str] tries an IPv4 subnet first. *)
Definition parse_cidr (cidr : string) : result ValidationError ParsedCidr :=
  match @net_parse 32 _ cidr, @net_parse 128 _ cidr with
  | Some v4, _ =>
      Ok (MkParsedCidr (be_octets 4 (net_network v4) ++ replicate 12 0%N) (net_prefix_len v4) 4)
  | None, Some v6 => Ok (MkParsedCidr (be_octets 16 (net_network v6)) (net_prefix_len v6) 6)
  | None, None => Err (InvalidCidr cidr)
  end.

Definition validate_ports (proto : EbProtocol) (port_start port_end : u32)
    : result ValidationError (option u16 * option u16) :=
  if (0 <? port_start)%N || (0 <? port_end)%N then
    if negb ((proto == ProtoTcp) || (proto == ProtoUdp) || (proto == ProtoAll))
    then Err (PortsNotAllowedForProtocol (protocol_str proto))
    else if (65535 <? port_start)%N then Err (PortOutOfRange port_start)
    else if (65535 <? port_end)%N then Err (PortOutOfRange port_end)
    else
      let start := if (0 <? port_start)%N then wrap 16 port_start else 1%N in
      let last := if (0 <? port_end)%N then wrap 16 port_end else start in
      if (last <? start)%N then Err (InvalidPortRange start last)
      else Ok (Some start, Some last)
  else Ok (None, None).

Definition validate_security_group_rule (direction protocol : Z) (port_start port_end : u32)
    (cidr : string)
    : result ValidationError
        (EbDirection * EbProtocol * option u16 * option u16 * option ParsedCidr) :=
  let dir := direction_from direction in
  if dir == DirUnspecified then Err InvalidRuleDirection else
  let proto := protocol_from protocol in
  if proto == ProtoUnspecified then Err InvalidRuleProtocol else
  let? ports := validate_ports proto port_start port_end in
  let? parsed_cidr :=
    if str_is_empty cidr then Ok None else let? c := parse_cidr cidr in Ok (Some c) in
  Ok (dir, proto, ports.1, ports.2, parsed_cidr).

End rules.

(** * Facts *)

(** Allocation returns the least free address of the range, and none only when
    there is none. *)
Lemma first_free_spec n i used gateway :
  match first_free n i used gateway with
  | Some a => (i ≤ a < i + N.of_nat n)%N ∧ a ≠ gateway ∧ a ∉ used ∧
              ∀ b, (i ≤ b < a)%N → b = gateway ∨ b ∈ used
  | None => ∀ b, (i ≤ b < i + N.of_nat n)%N → b = gateway ∨ b ∈ used
  end.
Proof.
  revert i. induction n as [|n IH]; intros i; cbn [first_free]; [lia|].
  destruct (negb (i == gateway) && negb (bool_decide (i ∈ used))) eqn:E.
  - apply andb_prop in E as [E1 E2]. apply negb_true_iff, bool_decide_eq_false in E1, E2.
    split_and!; [lia..|done|done|]. lia.
  - assert (Hi : i = gateway ∨ i ∈ used).
    { rewrite andb_false_iff, !negb_false_iff, !bool_decide_eq_true in E. done. }
    specialize (IH (i + 1)%N). destruct (first_free n (i + 1) used gateway) as [a|].
    + destruct IH as (? & ? & ? & IH). split_and!; [lia..|done|done|].
      intros b Hb. destruct (decide (b = i)) as [->|]; [done|]. apply IH. lia.
    + intros b Hb. destruct (decide (b = i)) as [->|]; [done|]. apply IH. lia.
Qed.

Lemma first_free_v6_spec n i network used gateway :
  match first_free_v6 n i network used gateway with
  | Some a => ∃ j, (i ≤ j < i + N.of_nat n)%N ∧ a = wrap 128 (network + j) ∧
                   a ≠ gateway ∧ a ∉ used
  | None => ∀ j, (i ≤ j < i + N.of_nat n)%N →
              wrap 128 (network + j) = gateway ∨ wrap 128 (network + j) ∈ used
  end.
Proof.
  revert i. induction n as [|n IH]; intros i; cbn [first_free_v6]; [lia|]. cbv zeta.
  destruct (negb (wrap 128 (network + i) == gateway) &&
            negb (bool_decide (wrap 128 (network + i) ∈ used))) eqn:E.
  - apply andb_prop in E as [E1 E2]. apply negb_true_iff, bool_decide_eq_false in E1, E2.
    exists i. split_and!; [lia..|done|done|done].
  - rewrite andb_false_iff, !negb_false_iff, !bool_decide_eq_true in E.
    specialize (IH (i + 1)%N). destruct (first_free_v6 n (i + 1) network used gateway) as [a|].
    + destruct IH as (j & ? & ?). exists j. split; [lia|done].
    + intros j Hj. destruct (decide (j = i)) as [->|]; [done|]. apply IH. lia.
Qed.

Section facts.
Context {nets4 : IpNets 32} {nets6 : IpNets 128}.

Lemma net_network_broadcast {w} {nets : IpNets w} (n : ipnet w) :
  (net_network n ≤ net_broadcast n < 2 ^ w)%N.
Proof.
  rewrite net_broadcast_eq. pose proof (net_network_lt n) as Hlt.
  pose proof (net_network_aligned n) as Ha. pose proof (net_prefix_len_le n) as Hl.
  set (b := (2 ^ (w - net_prefix_len n))%N) in *.
  assert (Hb : (b ≠ 0)%N) by (by apply N.pow_nonzero).
  assert (Hw : (2 ^ w = 2 ^ net_prefix_len n * b)%N).
  { unfold b. rewrite <- N.pow_add_r. f_equal. lia. }
  apply N.Div0.mod_divides in Ha as [q Hq].
  assert (q < 2 ^ net_prefix_len n)%N by nia. nia.
Qed.

(** An allocated IPv4 address is the least one of the subnet, from the second
    after the network address to before the broadcast address, that is neither
    used nor the gateway; there is no result only when all are taken. The
    subnets at the very end of the address space are left out. *)
Theorem allocate_ipv4_spec (subnet : Ipv4Net) used gateway :
  (net_network subnet + 2 < 2 ^ 32)%N →
  match allocate_ipv4_address subnet used gateway with
  | Some a => (net_network subnet + 2 ≤ a < net_broadcast subnet)%N ∧
      net_contains subnet a = true ∧ a ≠ gateway ∧ a ∉ used ∧
      ∀ b, (net_network subnet + 2 ≤ b < a)%N → b = gateway ∨ b ∈ used
  | None => ∀ b, (net_network subnet + 2 ≤ b < net_broadcast subnet)%N → b = gateway ∨ b ∈ used
  end.
Proof.
  intros Hn. unfold allocate_ipv4_address. unfold wrap. rewrite N.mod_small by done.
  set (start := (net_network subnet + 2)%N).
  pose proof (first_free_spec (N.to_nat (net_broadcast subnet - start)) start used gateway) as H.
  destruct (first_free _ _ _ _) as [a|].
  - destruct H as (? & ? & ? & ?). split_and!; [lia..| |done|done|done].
    apply net_contains_iff. lia.
  - intros b Hb. apply H. lia.
Qed.

(** A prefix of length 127 or 128 has no address from the second on, so every
    address allocated for it lies outside of it. *)
Theorem allocate_ipv6_escapes (prefix : Ipv6Net) used gateway a :
  (127 ≤ net_prefix_len prefix)%N → (net_network prefix + 1000 ≤ 2 ^ 128)%N →
  allocate_ipv6_address prefix used gateway = Some a → net_contains prefix a = false.
Proof.
  intros Hl Hn Ha. unfold allocate_ipv6_address in Ha.
  pose proof (first_free_v6_spec 998 2 (net_network prefix) used gateway) as H.
  rewrite Ha in H. destruct H as (j & Hj & -> & _).
  unfold wrap. rewrite N.mod_small by lia.
  apply not_true_iff_false. rewrite net_contains_iff, net_broadcast_eq.
  pose proof (N.pow_le_mono_r 2 (128 - net_prefix_len prefix) 1 ltac:(done) ltac:(lia)). lia.
Qed.

Lemma overlap_range {w} {nets : IpNets w} (a b : ipnet w) :
  net_contains a (net_network b) || net_contains b (net_network a) = true ↔
  ∃ x, net_contains a x = true ∧ net_contains b x = true.
Proof.
  pose proof (net_network_broadcast a). pose proof (net_network_broadcast b).
  rewrite orb_true_iff, !net_contains_iff. split.
  - intros [?|?]; [exists (net_network b)|exists (net_network a)]; rewrite !net_contains_iff; lia.
  - intros (x & Hx). rewrite !net_contains_iff in Hx. lia.
Qed.

Lemma ipv6_overlap_iff (a b : Ipv6Net) :
  ipv6_prefixes_overlap a b = true ↔ ∃ x, net_contains a x = true ∧ net_contains b x = true.
Proof. apply overlap_range. Qed.

Lemma ipv4_overlap_iff (a b : Ipv4Net) :
  ipv4_subnets_overlap a b = true ↔ ∃ x, net_contains a x = true ∧ net_contains b x = true.
Proof.
  pose proof (net_network_broadcast a). pose proof (net_network_broadcast b).
  unfold ipv4_subnets_overlap. rewrite !orb_true_iff, !net_contains_iff. split.
  - intros [[[?|?]|?]|?];
      [exists (net_network b)|exists (net_broadcast b)|exists (net_network a)|exists (net_broadcast a)];
      rewrite !net_contains_iff; lia.
  - intros (x & Hx). rewrite !net_contains_iff in Hx. lia.
Qed.

End facts.

(** * MAC addresses *)

Definition hex_pair_facts (b : N) : bool :=
  (u8_from_hex (fmt_02x b) == Some b) && negb (Ascii.eqb (hex_digit (b `div` 16)) ":")
  && negb (Ascii.eqb (hex_digit (b `mod` 16)) ":").

Lemma hex_pair_facts_all b : (b < 256)%N → hex_pair_facts b = true.
Proof. intros Hb. apply (forall_below _ 256); [vm_compute; reflexivity|done]. Qed.

Lemma split_fmt_02x_both b s : (b < 256)%N →
  str_split ":" (fmt_02x b +:+ String ":" s) = fmt_02x b :: str_split ":" s ∧
  str_split ":" (fmt_02x b) = [fmt_02x b].
Proof.
  intros Hb. pose proof (hex_pair_facts_all b Hb) as H. unfold hex_pair_facts in H.
  rewrite !andb_true_iff, !negb_true_iff in H. destruct H as [[_ H1] H2].
  unfold fmt_02x. revert H1 H2.
  generalize (hex_digit (b `div` 16)), (hex_digit (b `mod` 16)). intros a1 a2 H1 H2.
  change (String a1 (String a2 "") +:+ String ":" s) with (String a1 (String a2 (String ":" s))).
  cbn [str_split]. by rewrite H1, H2.
Qed.

Lemma split_fmt_02x b s : (b < 256)%N →
  str_split ":" (fmt_02x b +:+ ":" +:+ s) = fmt_02x b :: str_split ":" s.
Proof. intros Hb. by apply split_fmt_02x_both. Qed.
Lemma split_fmt_02x_last b : (b < 256)%N → str_split ":" (fmt_02x b) = [fmt_02x b].
Proof. intros Hb. by apply (split_fmt_02x_both b ""). Qed.

Lemma mapM_u8_from_hex mac : Forall (λ b, (b < 256)%N) mac →
  mapM u8_from_hex (map fmt_02x mac) = Some mac.
Proof.
  induction 1 as [|b mac Hb _ IH]; [done|]. cbn. rewrite IH.
  pose proof (hex_pair_facts_all b Hb) as H. unfold hex_pair_facts in H.
  rewrite !andb_true_iff, bool_decide_eq_true in H. by destruct H as [[-> _] _].
Qed.

(** A MAC address printed into the database reads back. *)
Theorem mac_roundtrip mac :
  length mac = 6%nat → Forall (λ b, (b < 256)%N) mac → parse_mac_address (mac_string mac) = Some mac.
Proof.
  intros Hl Hb. pose proof (mapM_u8_from_hex mac Hb) as Hm.
  do 6 (destruct mac as [|? mac]; [done|]). destruct mac; [|done].
  repeat match goal with H : Forall _ (_ :: _) |- _ => apply Forall_cons_1 in H as [? H] end.
  unfold parse_mac_address, mac_string. cbn [map String.concat].
  rewrite !split_fmt_02x, split_fmt_02x_last by done. exact Hm.
Qed.

(** * A model of the address types

    Networks are an address with a prefix length, read as such. IPv4 is written in
    dotted decimals; IPv6 addresses and UUIDs are numbers in a fixed width. *)

Module NetModels.

Section model.
Context (w : N).

Definition prefix_of (n : N * N) : N := N.min (n.2) w.
Definition network_of (n : N * N) : N :=
  let step := (2 ^ (w - prefix_of n))%N in (n.1 `mod` 2 ^ w / step * step)%N.

Lemma network_of_lt n : (network_of n < 2 ^ w)%N.
Proof.
  unfold network_of. set (step := (2 ^ (w - prefix_of n))%N).
  pose proof (N.mod_lt n.1 (2 ^ w) ltac:(by apply N.pow_nonzero)).
  pose proof (N.Div0.mul_div_le (n.1 `mod` 2 ^ w) step). lia.
Qed.

Definition nets_model (parse : string → option (N * N)) (show : N * N → string) : IpNets w.
Proof.
  refine {| ipnet := N * N; net_network := network_of; net_prefix_len := prefix_of;
    net_broadcast := λ n, (network_of n + 2 ^ (w - prefix_of n) - 1)%N;
    net_contains := λ n a, bool_decide (network_of n ≤ a ≤ network_of n + 2 ^ (w - prefix_of n) - 1)%N;
    net_parse := parse; net_string := show |}.
  - intros n. unfold prefix_of. lia.
  - intros n. unfold network_of. apply N.Div0.mod_mul.
  - apply network_of_lt.
  - done.
  - intros n a. apply bool_decide_eq_true.
Defined.

End model.

Definition digit (a : ascii) : option N :=
  let n := N_of_ascii a in if (48 <=? n)%N && (n <=? 57)%N then Some (n - 48)%N else None.
Fixpoint decimal_from (acc : N) (s : string) : option N :=
  match s with
  | EmptyString => Some acc
  | String a s => d ← digit a; decimal_from (10 * acc + d) s
  end.
Definition decimal (s : string) : option N := if str_is_empty s then None else decimal_from 0 s.
Definition octet (s : string) : option N := n ← decimal s; if (n <? 256)%N then Some n else None.

Definition quad (s : string) : option N :=
  match mapM octet (str_split "." s) with
  | Some [a; b; c; d] => Some (((a * 256 + b) * 256 + c) * 256 + d)%N
  | _ => None
  end.

Definition cidr (addr : string → option N) (s : string) : option (N * N) :=
  match str_split "/" s with
  | [a; l] => a ← addr a; l ← decimal l; Some (a, l)
  | _ => None
  end.

(** [n] hexadecimal digits, the lowest first. *)
Fixpoint digits (n : nat) (u : N) : string :=
  match n with O => "" | S n => String (hex_digit (u `mod` 16)) (digits n (u / 16)) end.
Fixpoint undigits (s : string) : option N :=
  match s with
  | EmptyString => Some 0%N
  | String a s => d ← hex_value a; u ← undigits s; Some (d + 16 * u)%N
  end.

Lemma hex_value_digit d : (d < 16)%N → hex_value (hex_digit d) = Some d.
Proof.
  intros Hd. eapply bool_decide_eq_true_1.
  by apply (forall_below (λ d, bool_decide (hex_value (hex_digit d) = Some d)) 16 d); [vm_compute|].
Qed.

Lemma undigits_digits n u : (u < 16 ^ N.of_nat n)%N → undigits (digits n u) = Some u.
Proof.
  revert u. induction n as [|n IH]; intros u Hu; cbn [digits undigits].
  - by replace u with 0%N by (cbn in Hu; lia).
  - rewrite Nat2N.inj_succ, N.pow_succ_r' in Hu.
    rewrite hex_value_digit by (by apply N.mod_lt). cbn.
    rewrite IH by (apply N.Div0.div_lt_upper_bound; lia). cbn.
    f_equal. pose proof (N.div_mod u 16 ltac:(done)). lia.
Qed.

Lemma digits_length n u : String.length (digits n u) = n.
Proof. revert u. induction n as [|n IH]; intros u; cbn; auto. Qed.

Definition ipv6 (s : string) : option N :=
  n ← undigits s; if (n <? 2 ^ 128)%N then Some n else None.

Lemma octet_lt s n : octet s = Some n → (n < 256)%N.
Proof.
  unfold octet. destruct (decimal s) as [m|]; cbn; [|done].
  destruct (N.ltb_spec m 256); [|done]. by intros [= <-].
Qed.

Lemma quad_lt s a : quad s = Some a → (a < 2 ^ 32)%N.
Proof.
  unfold quad. destruct (mapM octet _) as [l|] eqn:E; [|done]. apply mapM_Some_1 in E.
  assert (Forall (λ n, (n < 256)%N) l) as F
    by (clear -E; induction E; constructor; eauto using octet_lt).
  destruct l as [|n1 [|n2 [|n3 [|n4 []]]]]; intros H; try done. injection H as <-.
  repeat match goal with H : Forall _ (_ :: _) |- _ => apply Forall_cons_1 in H as [? H] end.
  change (2 ^ 32)%N with 4294967296%N. lia.
Qed.

Lemma ipv6_lt s a : ipv6 s = Some a → (a < 2 ^ 128)%N.
Proof.
  unfold ipv6. destruct (undigits s) as [m|]; cbn; [|done].
  destruct (N.ltb_spec m (2 ^ 128)); [|done]. by intros [= <-].
Qed.

#[export] Instance nets4_model : IpNets 32 := nets_model 32 (cidr quad) (λ _, "").
#[export] Instance nets6_model : IpNets 128 := nets_model 128 (cidr ipv6) (λ _, "").

#[export] Instance text_model : AddrText.
Proof.
  refine {| ipv4_parse := quad; ipv4_string := λ _, ""; ipv6_parse := ipv6;
    ipv6_string := digits 32;
    ip_parse := λ s, match quad s with Some a => Some (V4 a) | None => V6 <$> ipv6 s end;
    uuid_parse := undigits; uuid_string := digits 36 |}.
  - apply quad_lt.
  - apply ipv6_lt.
  - intros u Hu. apply undigits_digits. etrans; [exact Hu|]. by vm_compute.
  - apply digits_length.
Defined.

End NetModels.
Import NetModels.

Definition ex_subnet : Ipv4Net := (3232237312, 29)%N.
Definition ex_prefix : Ipv6Net := (2 ^ 127, 127)%N.

(** 192.168.7.0/29 with two addresses in use: the next one is handed out. *)
Lemma allocate_ipv4_spec_witness :
  allocate_ipv4_address ex_subnet [3232237314; 3232237315]%N 3232237313 = Some 3232237316%N ∧
  net_contains ex_subnet 3232237316 = true.
Proof.
  split; [by vm_compute|].
  pose proof (allocate_ipv4_spec ex_subnet [3232237314; 3232237315]%N 3232237313
    ltac:(by vm_compute)) as H.
  replace (allocate_ipv4_address _ _ _) with (Some 3232237316%N) in H by (by vm_compute).
  apply H.
Defined.

(** A point-to-point prefix, /127, with its gateway: the address handed out is not
    in it. *)
Lemma allocate_ipv6_escapes_witness : net_contains ex_prefix (2 ^ 127 + 2)%N = false.
Proof. apply (allocate_ipv6_escapes ex_prefix [] (2 ^ 127 + 1)%N); by vm_compute. Defined.

Lemma mac_roundtrip_witness :
  parse_mac_address "02:00:00:00:0a:ff" = Some [2; 0; 0; 0; 10; 255]%N.
Proof.
  change "02:00:00:00:0a:ff" with (mac_string [2; 0; 0; 0; 10; 255]%N).
  apply mac_roundtrip; [done|]. repeat constructor.
Defined.
