(* ===== verification/EbNet.v ===== *)
(** The eBPF network service on a node: its SQLite tables
    (mvirt-ebpf/src/grpc/storage.rs), the devices and routes on the host
    (tap.rs, ebpf_loader.rs, proto_handler.rs), and the gRPC methods
    (mvirt-ebpf/src/grpc/service.rs). *)

From S2P Require Import Prelude Rpc Externals NetAddr Ebpf.

(** * Errors *)

Inductive StorageError :=
  | Database
  | NetworkNotFound (id : string)
  | NicNotFound (id : string)
  | NetworkNameExists (name : string)
  | SecurityGroupNameExists (name : string).

(** A status carries its code and what led to it; the message text is formatted
    from that. *)
Inductive Cause :=
  | Invalid (e : ValidationError)
  | Stored (e : StorageError)
  | Host
  | Other.
Record Status := MkStatus { st_code : Code; st_cause : Cause }.

Definition storage_err_to_status (e : StorageError) : Status :=
  MkStatus match e with
    | NetworkNotFound _ | NicNotFound _ => NotFound
    | NetworkNameExists _ | SecurityGroupNameExists _ => AlreadyExists
    | Database => Internal
    end (Stored e).
Definition validation_err_to_status (e : ValidationError) : Status :=
  MkStatus InvalidArgument (Invalid e).

Inductive NicState := NicUnspecified | NicCreated | NicActive | NicError.

Section ebnet.
Context {nets4 : IpNets 32} {nets6 : IpNets 128} {text : AddrText} {unicode : UnicodeText}.

(** * Tables *)

Record EbNetwork := MkEbNetwork {
  en_id : Uuid; en_name : string; en_ipv4_enabled : bool; en_ipv4_subnet : option Ipv4Net;
  en_ipv6_enabled : bool; en_ipv6_prefix : option Ipv6Net; en_dns_servers : list IpAddr;
  en_ntp_servers : list IpAddr; en_is_public : bool; en_created_at : string;
  en_updated_at : string }.

Record EbNic := MkEbNic {
  ec_id : Uuid; ec_name : option string; ec_network_id : Uuid; ec_mac_address : list u8;
  ec_ipv4_address : option Ipv4Addr; ec_ipv6_address : option Ipv6Addr;
  ec_routed_ipv4 : list Ipv4Net; ec_routed_ipv6 : list Ipv6Net; ec_tap_name : string;
  ec_state : NicState; ec_created_at : string; ec_updated_at : string }.

Record EbGroup := MkEbGroup {
  eg_id : Uuid; eg_name : string; eg_description : option string; eg_created_at : string;
  eg_updated_at : string }.

Record EbRule := MkEbRule {
  er_id : Uuid; er_security_group_id : Uuid; er_direction : EbDirection; er_protocol : EbProtocol;
  er_port_start : option u16; er_port_end : option u16; er_cidr : option string;
  er_description : option string; er_created_at : string; er_updated_at : string }.

(** The rows under their primary keys. *)
Record EbDb := MkEbDb {
  networks : gmap Uuid EbNetwork; nics : gmap Uuid EbNic; groups : gmap Uuid EbGroup;
  rules : gmap Uuid EbRule; nic_groups : gmap (Uuid * Uuid) string }.

#[global] Instance eta_EbNetwork : Eta EbNetwork := λ r,
  MkEbNetwork (en_id r) (en_name r) (en_ipv4_enabled r) (en_ipv4_subnet r) (en_ipv6_enabled r)
    (en_ipv6_prefix r) (en_dns_servers r) (en_ntp_servers r) (en_is_public r) (en_created_at r)
    (en_updated_at r).
#[global] Instance eta_EbNic : Eta EbNic := λ r,
  MkEbNic (ec_id r) (ec_name r) (ec_network_id r) (ec_mac_address r) (ec_ipv4_address r)
    (ec_ipv6_address r) (ec_routed_ipv4 r) (ec_routed_ipv6 r) (ec_tap_name r) (ec_state r)
    (ec_created_at r) (ec_updated_at r).
#[global] Instance eta_EbDb : Eta EbDb := λ r,
  MkEbDb (networks r) (nics r) (groups r) (rules r) (nic_groups r).

(** [self.ipv4_subnet.map(..)], with [u32] and [u128] addition. *)
Definition ipv4_gateway (n : EbNetwork) : option Ipv4Addr :=
  (λ net, wrap 32 (net_network net + 1)) <$> en_ipv4_subnet n.
Definition ipv6_gateway (n : EbNetwork) : option Ipv6Addr :=
  (λ net, wrap 128 (net_network net + 1)) <$> en_ipv6_prefix n.

(** ** Statements *)

Definition storage_create_network (n : EbNetwork) (db : EbDb) : result StorageError EbDb :=
  if is_some (networks db !! en_id n)
     || existsb (λ '(_, m), en_name m == en_name n) (map_to_list (networks db))
  then Err (NetworkNameExists (en_name n))
  else Ok (db <| networks := <[en_id n := n]> (networks db) |>).

Definition storage_update_network (id : Uuid) (dns ntp : list IpAddr) (now : string) (db : EbDb)
    : result StorageError EbDb :=
  match networks db !! id with
  | None => Err (NetworkNotFound (uuid_string id))
  | Some n => Ok (db <| networks := <[id := (((n <| en_dns_servers := dns |>)
                 <| en_ntp_servers := ntp |>) <| en_updated_at := now |>)]> (networks db) |>)
  end.

(** [ON DELETE CASCADE] from a NIC to its groups. *)
Definition cascade_nic (keep : Uuid → bool) (db : EbDb) : EbDb :=
  db <| nic_groups := filter (λ '((n, _), _), keep n = true) (nic_groups db) |>.

Definition storage_delete_network (id : Uuid) (db : EbDb) : bool * EbDb :=
  let doomed := λ n : EbNic, ec_network_id n = id in
  let gone := dom (filter (λ '(_, n), doomed n) (nics db)) in
  (is_some (networks db !! id),
   cascade_nic (λ n, negb (bool_decide (n ∈ gone)))
     ((db <| networks := delete id (networks db) |>)
          <| nics := filter (λ '(_, n), ¬ doomed n) (nics db) |>)).

Definition count_nics_in_network (id : Uuid) (db : EbDb) : u32 :=
  N.of_nat (size (filter (λ '(_, n), ec_network_id n = id) (nics db))).

(** Primary key and foreign key. *)
Definition storage_create_nic (n : EbNic) (db : EbDb) : result StorageError EbDb :=
  if is_some (nics db !! ec_id n) || is_none (networks db !! ec_network_id n) then Err Database
  else Ok (db <| nics := <[ec_id n := n]> (nics db) |>).

Definition update_nic_routed_prefixes (id : Uuid) (v4 : list Ipv4Net) (v6 : list Ipv6Net)
    (now : string) (db : EbDb) : result StorageError EbDb :=
  match nics db !! id with
  | None => Err (NicNotFound (uuid_string id))
  | Some n => Ok (db <| nics := <[id := (((n <| ec_routed_ipv4 := v4 |>)
                 <| ec_routed_ipv6 := v6 |>) <| ec_updated_at := now |>)]> (nics db) |>)
  end.

Definition storage_delete_nic (id : Uuid) (db : EbDb) : bool * EbDb :=
  (is_some (nics db !! id),
   cascade_nic (λ n, negb (n == id)) (db <| nics := delete id (nics db) |>)).

Definition used_addresses (addr : EbNic → option N) (network_id : Uuid) (db : EbDb) : list N :=
  omap (λ '(_, n), if ec_network_id n == network_id then addr n else None) (map_to_list (nics db)).
Definition get_used_ipv4_addresses := used_addresses ec_ipv4_address.
Definition get_used_ipv6_addresses := used_addresses ec_ipv6_address.

Definition addr_in_use (addr : EbNic → option N) (network_id : Uuid) (a : N) (db : EbDb) : bool :=
  bool_decide (a ∈ used_addresses addr network_id db).
Definition is_ipv4_in_use := addr_in_use ec_ipv4_address.
Definition is_ipv6_in_use := addr_in_use ec_ipv6_address.

Definition storage_create_security_group (g : EbGroup) (db : EbDb) : result StorageError EbDb :=
  if is_some (groups db !! eg_id g)
     || existsb (λ '(_, h), eg_name h == eg_name g) (map_to_list (groups db))
  then Err (SecurityGroupNameExists (eg_name g))
  else Ok (db <| groups := <[eg_id g := g]> (groups db) |>).

Definition storage_delete_security_group (id : Uuid) (db : EbDb) : bool * EbDb :=
  (is_some (groups db !! id),
   ((db <| groups := delete id (groups db) |>)
        <| rules := filter (λ '(_, r), er_security_group_id r ≠ id) (rules db) |>)
        <| nic_groups := filter (λ '((_, g), _), g ≠ id) (nic_groups db) |>).

Definition count_nics_in_security_group (id : Uuid) (db : EbDb) : u32 :=
  N.of_nat (size (filter (λ '((_, g), _), g = id) (nic_groups db))).

Definition create_security_group_rule (r : EbRule) (db : EbDb) : result StorageError EbDb :=
  if is_some (rules db !! er_id r) || is_none (groups db !! er_security_group_id r)
     || (er_direction r == DirUnspecified) || (er_protocol r == ProtoUnspecified)
  then Err Database else Ok (db <| rules := <[er_id r := r]> (rules db) |>).

Definition delete_security_group_rule (id : Uuid) (db : EbDb) : bool * EbDb :=
  (is_some (rules db !! id), db <| rules := delete id (rules db) |>).

(** [INSERT OR IGNORE]: a repeated key is ignored, a missing parent is not. *)
Definition storage_attach_security_group (nic_id sg_id : Uuid) (now : string) (db : EbDb)
    : result StorageError (bool * EbDb) :=
  if is_some (nic_groups db !! (nic_id, sg_id)) then Ok (false, db)
  else if is_none (nics db !! nic_id) || is_none (groups db !! sg_id) then Err Database
  else Ok (true, db <| nic_groups := <[(nic_id, sg_id) := now]> (nic_groups db) |>).

Definition storage_detach_security_group (nic_id sg_id : Uuid) (db : EbDb) : bool * EbDb :=
  (is_some (nic_groups db !! (nic_id, sg_id)),
   db <| nic_groups := delete (nic_id, sg_id) (nic_groups db) |>).

Definition detach_security_group_from_all_nics (sg_id : Uuid) (db : EbDb) : u32 * EbDb :=
  (count_nics_in_security_group sg_id db,
   db <| nic_groups := filter (λ '((_, g), _), g ≠ sg_id) (nic_groups db) |>).

(** * The host *)

(** TAP devices with their interface index, the routes of the egress program
    (under the full address, as the loader inserts them), the kernel's host routes,
    the NICs the service manages and the configuration of the protocol handlers. *)
Record EbHost := MkEbHost {
  taps : gmap string u32; ebpf_loaded : bool;
  routes_v4 : gmap Ipv4Addr RouteEntry; routes_v6 : gmap Ipv6Addr RouteEntry;
  kroutes_v4 : gmap Ipv4Addr u32; kroutes_v6 : gmap Ipv6Addr u32;
  managed : gmap Uuid u32; handlers : gmap u32 (EbNic * EbNetwork) }.

#[global] Instance eta_EbHost : Eta EbHost := λ r,
  MkEbHost (taps r) (ebpf_loaded r) (routes_v4 r) (routes_v6 r) (kroutes_v4 r) (kroutes_v6 r)
    (managed r) (handlers r).

(** [TUNSETIFF] on a name: the device of that name, unless it is in use, or a new
    one. *)
Class HostKernel := {
  open_tap : gmap string u32 → string → option u32;
  open_tap_known : ∀ t name i,
    t !! name = Some i → open_tap t name = Some i ∨ open_tap t name = None;
  open_tap_new : ∀ t name i,
    t !! name = None → open_tap t name = Some i → ∀ name', t !! name' ≠ Some i;
}.
Context {hostk : HostKernel}.

(** Host operations: a result and the host they leave, also when they fail. *)
Definition HostM (A : Type) : Type := EbHost → result Status A * EbHost.
Definition host_ret {A} (a : A) : HostM A := λ h, (Ok a, h).
Definition host_bind {A B} (m : HostM A) (k : A → HostM B) : HostM B :=
  λ h, match m h with (Ok a, h') => k a h' | (Err e, h') => (Err e, h') end.
Definition host_err : Status := MkStatus Internal Host.
(** A call that has the effect [f] or fails without one. *)
Definition host_call (ok : bool) (f : EbHost → EbHost) : HostM unit :=
  λ h, if ok then (Ok tt, f h) else (Err host_err, h).

(** Which of the calls of one setup and of one teardown succeed. *)
Record SetupEnv := MkSetupEnv {
  ok_mac : bool; ok_up : bool; ok_attach : bool; ok_route_v4 : bool; ok_kroute_v4 : bool;
  ok_route_v6 : bool; ok_kroute_v6 : bool }.
Record TeardownEnv := MkTeardownEnv {
  td_route_v4 : bool; td_kroute_v4 : bool; td_route_v6 : bool; td_kroute_v6 : bool;
  td_tap : bool }.

Definition tap_name_from_nic_id (id : Uuid) : string :=
  "tap_" +:+ String.substring 0 7 (uuid_string id).

Definition create_persistent_tap (name : string) : HostM u32 := λ h,
  if (15 <? String.length name)%nat then (Err host_err, h) else
  match open_tap (taps h) name with
  | Some i => (Ok i, h <| taps := <[name := i]> (taps h) |>)
  | None => (Err host_err, h)
  end.

Definition GATEWAY_MAC : list u8 := [2; 0; 0; 0; 0; 1]%N.

Definition add_egress_route_v4 (a : Ipv4Addr) (e : RouteEntry) (h : EbHost) : EbHost :=
  if ebpf_loaded h then h <| routes_v4 := <[a := e]> (routes_v4 h) |> else h.
Definition add_egress_route_v6 (a : Ipv6Addr) (e : RouteEntry) (h : EbHost) : EbHost :=
  if ebpf_loaded h then h <| routes_v6 := <[a := e]> (routes_v6 h) |> else h.
(** [ip route add]: an existing route stays. *)
Definition add_host_route_v4 (a : Ipv4Addr) (i : u32) (h : EbHost) : EbHost :=
  if is_some (kroutes_v4 h !! a) then h else h <| kroutes_v4 := <[a := i]> (kroutes_v4 h) |>.
Definition add_host_route_v6 (a : Ipv6Addr) (i : u32) (h : EbHost) : EbHost :=
  if is_some (kroutes_v6 h !! a) then h else h <| kroutes_v6 := <[a := i]> (kroutes_v6 h) |>.
Definition register_nic (i : u32) (n : EbNic) (net : EbNetwork) (h : EbHost) : EbHost :=
  h <| handlers := <[i := (n, net)]> (handlers h) |>.

(** [if let Some(addr) = .. { .. }]. *)
Definition when_some {A} (o : option A) (k : A → HostM unit) : HostM unit :=
  match o with Some a => k a | None => host_ret tt end.

Definition setup_nic (env : SetupEnv) (nic : EbNic) (network : EbNetwork) : HostM unit :=
  host_bind (create_persistent_tap (ec_tap_name nic)) (λ if_index,
  host_bind (host_call (ok_mac env) id) (λ _,
  host_bind (host_call (ok_up env) id) (λ _,
  host_bind (host_call (ok_attach env) id) (λ _,
  host_bind (host_call true (register_nic if_index nic network)) (λ _,
  let route := MkRouteEntry ACTION_REDIRECT if_index (ec_mac_address nic) GATEWAY_MAC in
  host_bind (when_some (ec_ipv4_address nic) (λ a,
    host_bind (host_call (ok_route_v4 env) (add_egress_route_v4 a route)) (λ _,
    host_call (ok_kroute_v4 env) (add_host_route_v4 a if_index)))) (λ _,
  host_bind (when_some (ec_ipv6_address nic) (λ a,
    host_bind (host_call (ok_route_v6 env) (add_egress_route_v6 a route)) (λ _,
    host_call (ok_kroute_v6 env) (add_host_route_v6 a if_index)))) (λ _,
  host_call true (λ h, h <| managed := <[ec_id nic := if_index]> (managed h) |>)))))))).

Definition remove_egress_route_v4 (a : Ipv4Addr) (h : EbHost) : EbHost :=
  if ebpf_loaded h then h <| routes_v4 := delete a (routes_v4 h) |> else h.
Definition remove_egress_route_v6 (a : Ipv6Addr) (h : EbHost) : EbHost :=
  if ebpf_loaded h then h <| routes_v6 := delete a (routes_v6 h) |> else h.
(** [ip route del .. dev ..]: only the route through that device. *)
Definition remove_host_route_v4 (a : Ipv4Addr) (i : u32) (h : EbHost) : EbHost :=
  if kroutes_v4 h !! a == Some i then h <| kroutes_v4 := delete a (kroutes_v4 h) |> else h.
Definition remove_host_route_v6 (a : Ipv6Addr) (i : u32) (h : EbHost) : EbHost :=
  if kroutes_v6 h !! a == Some i then h <| kroutes_v6 := delete a (kroutes_v6 h) |> else h.
(** Deleting a device takes the kernel's routes through it along. *)
Definition delete_tap_interface (name : string) (h : EbHost) : EbHost :=
  match taps h !! name with
  | None => h
  | Some i => ((h <| taps := delete name (taps h) |>)
      <| kroutes_v4 := filter (λ '(_, j), j ≠ i) (kroutes_v4 h) |>)
      <| kroutes_v6 := filter (λ '(_, j), j ≠ i) (kroutes_v6 h) |>
  end.

(** [let _ = ..]: a failed call has no effect. *)
Definition try_call (ok : bool) (f : EbHost → EbHost) (h : EbHost) : EbHost :=
  if ok then f h else h.

Definition unmanage_nic (nic : EbNic) (if_index : option u32) (h : EbHost) : EbHost :=
  match if_index with
  | Some i => (h <| managed := delete (ec_id nic) (managed h) |>)
                 <| handlers := delete i (handlers h) |>
  | None => h
  end.
Definition unroute_v4 (env : TeardownEnv) (nic : EbNic) (if_index : option u32) (h : EbHost) : EbHost :=
  match ec_ipv4_address nic with
  | Some a =>
      let h := try_call (td_route_v4 env) (remove_egress_route_v4 a) h in
      match if_index with
      | Some i => try_call (td_kroute_v4 env) (remove_host_route_v4 a i) h
      | None => h
      end
  | None => h
  end.
Definition unroute_v6 (env : TeardownEnv) (nic : EbNic) (if_index : option u32) (h : EbHost) : EbHost :=
  match ec_ipv6_address nic with
  | Some a =>
      let h := try_call (td_route_v6 env) (remove_egress_route_v6 a) h in
      match if_index with
      | Some i => try_call (td_kroute_v6 env) (remove_host_route_v6 a i) h
      | None => h
      end
  | None => h
  end.

Definition teardown_nic (env : TeardownEnv) (nic : EbNic) (h : EbHost) : EbHost :=
  let if_index := managed h !! ec_id nic in
  let h := unmanage_nic nic if_index h in
  let h := unroute_v4 env nic if_index h in
  let h := unroute_v6 env nic if_index h in
  try_call (td_tap env) (delete_tap_interface (ec_tap_name nic)) h.

(** * The service *)

Record EbState := MkEbState {
  es_db : EbDb; es_host : EbHost; es_masq_v4 : list Ipv4Net; es_masq_v6 : list Ipv6Net }.
#[global] Instance eta_EbState : Eta EbState := λ r,
  MkEbState (es_db r) (es_host r) (es_masq_v4 r) (es_masq_v6 r).

(** A published event: the NIC or network, or its deletion. *)
Inductive EbEvent :=
  | NicPublished (id : Uuid) (nic : option EbNic)
  | NetworkPublished (id : Uuid) (network : option EbNetwork).

(** A method: its answer, the state and the events it publishes. *)
Definition Reply (A : Type) : Type := result Status A * EbState * list EbEvent.
Definition fail {A} (code : Code) (cause : Cause) (st : EbState) : Reply A :=
  (Err (MkStatus code cause), st, []).
(** [let x = e?;] at the start of a method. *)
Definition try_in {A B} (st : EbState) (r : result Status A) (k : A → Reply B) : Reply B :=
  match r with Ok a => k a | Err e => (Err e, st, []) end.

(** The values a method draws: a fresh id, the time, random bytes. *)
Record EbFresh := MkEbFresh { ef_uuid : Uuid; ef_now : string; ef_mac : list u8 }.

Definition parse_id (s : string) : result Status Uuid :=
  ok_or (MkStatus InvalidArgument Other) (uuid_parse s).
Definition id_or_fresh (s : string) (fresh : Uuid) : result Status Uuid :=
  if str_is_empty s then Ok fresh else parse_id s.

Definition resolve_network (id name : string) (db : EbDb) : result Status EbNetwork :=
  if negb (str_is_empty id) then
    let? uuid := parse_id id in ok_or (MkStatus NotFound Other) (networks db !! uuid)
  else if negb (str_is_empty name) then
    ok_or (MkStatus NotFound Other)
      (snd <$> List.find (λ '(_, n), en_name n == name) (map_to_list (networks db)))
  else Err (MkStatus InvalidArgument Other).
(** With an empty name, as the methods here call them. *)
Definition resolve_nic (id : string) (db : EbDb) : result Status EbNic :=
  if str_is_empty id then Err (MkStatus InvalidArgument Other) else
  let? uuid := parse_id id in ok_or (MkStatus NotFound Other) (nics db !! uuid).
Definition resolve_security_group (id : string) (db : EbDb) : result Status EbGroup :=
  if str_is_empty id then Err (MkStatus InvalidArgument Other) else
  let? uuid := parse_id id in ok_or (MkStatus NotFound Other) (groups db !! uuid).

(** [.filter(not empty).filter_map(|s| s.parse().ok())]. *)
Definition parse_servers (l : list string) : list IpAddr :=
  omap (λ s, if str_is_empty s then None else ip_parse s) l.

(** ** Networks *)

Record CreateNetworkRequest := MkCreateNetworkRequest {
  cn_id : string; cn_name : string; cn_ipv4_enabled : bool; cn_ipv4_subnet : string;
  cn_ipv6_enabled : bool; cn_ipv6_prefix : string; cn_dns_servers : list string;
  cn_ntp_servers : list string; cn_is_public : bool }.

Definition list_public_networks (db : EbDb) : list PublicNet :=
  omap (λ '(_, n), if en_is_public n
                   then Some (MkPublicNet (en_name n) (en_ipv4_subnet n) (en_ipv6_prefix n))
                   else None) (map_to_list (networks db)).

(** What the method decides from the tables: the row to insert. *)
Definition plan_network (fresh : EbFresh) (req : CreateNetworkRequest) (db : EbDb)
    : result Status EbNetwork :=
  let? (ipv4_subnet, ipv6_prefix, dns_servers) :=
    map_err validation_err_to_status
      (validate_create_network (cn_name req) (cn_ipv4_enabled req) (cn_ipv4_subnet req)
         (cn_ipv6_enabled req) (cn_ipv6_prefix req) (cn_is_public req) (cn_dns_servers req)
         (list_public_networks db)) in
  let? id := id_or_fresh (cn_id req) (ef_uuid fresh) in
  Ok (MkEbNetwork id (cn_name req) (cn_ipv4_enabled req) ipv4_subnet (cn_ipv6_enabled req)
        ipv6_prefix dns_servers (parse_servers (cn_ntp_servers req)) (cn_is_public req)
        (ef_now fresh) (ef_now fresh)).

(** Inserting it, and the masquerade rules of a public network; [nat_ok] says
    which of the two commands, for IPv4 and IPv6, succeed. *)
Definition commit_network (nat_ok : bool * bool) (n : EbNetwork) (st : EbState) : Reply EbNetwork :=
  try_in st (map_err storage_err_to_status (storage_create_network n (es_db st))) (λ db,
  let st := st <| es_db := db |> in
  let st :=
    if en_is_public n && nat_ok.1
    then st <| es_masq_v4 := es_masq_v4 st ++ option_list (en_ipv4_subnet n) |> else st in
  let st :=
    if en_is_public n && nat_ok.2
    then st <| es_masq_v6 := es_masq_v6 st ++ option_list (en_ipv6_prefix n) |> else st in
  (Ok n, st, [NetworkPublished (en_id n) (Some n)])).

Definition create_network (fresh : EbFresh) (nat_ok : bool * bool) (req : CreateNetworkRequest)
    (st : EbState) : Reply EbNetwork :=
  try_in st (plan_network fresh req (es_db st)) (λ n, commit_network nat_ok n st).

Definition update_network (now : string) (id : string) (dns ntp : list string) (st : EbState)
    : Reply EbNetwork :=
  try_in st (parse_id id) (λ uuid,
  try_in st (map_err storage_err_to_status
    (storage_update_network uuid (parse_servers dns) (parse_servers ntp) now (es_db st))) (λ db,
  let st := st <| es_db := db |> in
  try_in st (ok_or (MkStatus NotFound Other) (networks db !! uuid)) (λ n, (Ok n, st, [])))).

Definition nics_in_network (id : Uuid) (db : EbDb) : list EbNic :=
  snd <$> map_to_list (filter (λ '(_, n), ec_network_id n = id) (nics db)).

(** Answers whether the row existed and how many NICs went with it. *)
Definition delete_network (td : TeardownEnv) (nat_ok : bool * bool) (id : string) (force : bool)
    (st : EbState) : Reply (bool * u32) :=
  try_in st (parse_id id) (λ uuid,
  let nic_count := count_nics_in_network uuid (es_db st) in
  if (0 <? nic_count)%N && negb force then fail FailedPrecondition Other st else
  let network := networks (es_db st) !! uuid in
  let st :=
    if force && (0 <? nic_count)%N then
      st <| es_host := foldl (λ h n, teardown_nic td n h) (es_host st)
                         (nics_in_network uuid (es_db st)) |>
    else st in
  let '(deleted, db) := storage_delete_network uuid (es_db st) in
  let st := st <| es_db := db |> in
  let nics_deleted := if force then nic_count else 0%N in
  match network with
  | None => (Ok (deleted, nics_deleted), st, [])
  | Some n =>
      let st :=
        if en_is_public n && nat_ok.1 then
          st <| es_masq_v4 := List.filter (λ m, negb (Some m == en_ipv4_subnet n)) (es_masq_v4 st) |>
        else st in
      let st :=
        if en_is_public n && nat_ok.2 then
          st <| es_masq_v6 := List.filter (λ m, negb (Some m == en_ipv6_prefix n)) (es_masq_v6 st) |>
        else st in
      (Ok (deleted, nics_deleted), st, [NetworkPublished (en_id n) None])
  end).

(** ** NICs *)

Record CreateNicRequest := MkCreateNicRequest {
  cc_id : string; cc_name : string; cc_network_id : string; cc_mac_address : string;
  cc_ipv4_address : string; cc_ipv6_address : string; cc_routed_ipv4 : list string;
  cc_routed_ipv6 : list string }.

(** A requested address must be unused; otherwise one is allocated. *)
Definition choose_ipv4 (network : EbNetwork) (requested : option Ipv4Addr) (db : EbDb)
    : result Status (option Ipv4Addr) :=
  match requested, en_ipv4_subnet network with
  | Some a, _ =>
      if is_ipv4_in_use (en_id network) a db then Err (MkStatus AlreadyExists Other)
      else Ok (Some a)
  | None, Some subnet =>
      Ok (allocate_ipv4_address subnet (get_used_ipv4_addresses (en_id network) db)
            (wrap 32 (net_network subnet + 1)))
  | None, None => Ok None
  end.
Definition choose_ipv6 (network : EbNetwork) (requested : option Ipv6Addr) (db : EbDb)
    : result Status (option Ipv6Addr) :=
  match requested, en_ipv6_prefix network with
  | Some a, _ =>
      if is_ipv6_in_use (en_id network) a db then Err (MkStatus AlreadyExists Other)
      else Ok (Some a)
  | None, Some prefix =>
      Ok (allocate_ipv6_address prefix (get_used_ipv6_addresses (en_id network) db)
            (wrap 128 (net_network prefix + 1)))
  | None, None => Ok None
  end.

(** The reads and checks before the row is stored. *)
Definition plan_nic (fresh : EbFresh) (req : CreateNicRequest) (db : EbDb)
    : result Status (EbNetwork * EbNic) :=
  let? network := resolve_network (cc_network_id req) "" db in
  let? (mac, ipv4, ipv6) :=
    map_err validation_err_to_status
      (validate_create_nic (cc_mac_address req) (cc_ipv4_address req) (cc_ipv6_address req)
         (en_ipv4_subnet network) (en_ipv6_prefix network)) in
  let mac_address := match mac with Some m => m | None => generate_mac_address (ef_mac fresh) end in
  let? ipv4_address := choose_ipv4 network ipv4 db in
  let? ipv6_address := choose_ipv6 network ipv6 db in
  let? (routed_v4, routed_v6) :=
    map_err validation_err_to_status
      (parse_routed_prefixes (cc_routed_ipv4 req) (cc_routed_ipv6 req)) in
  let? nic_id := id_or_fresh (cc_id req) (ef_uuid fresh) in
  Ok (network, MkEbNic nic_id (if str_is_empty (cc_name req) then None else Some (cc_name req))
        (en_id network) mac_address ipv4_address ipv6_address routed_v4 routed_v6
        (tap_name_from_nic_id nic_id) NicCreated (ef_now fresh) (ef_now fresh)).

(** Storing the row and setting the device up; a failed setup deletes the row. *)
Definition commit_nic (env : SetupEnv) (network : EbNetwork) (nic : EbNic) (st : EbState)
    : Reply EbNic :=
  try_in st (map_err storage_err_to_status (storage_create_nic nic (es_db st))) (λ db,
  match setup_nic env nic network (es_host st) with
  | (Err e, h) =>
      (Err e, (st <| es_db := (storage_delete_nic (ec_id nic) db).2 |>) <| es_host := h |>, [])
  | (Ok _, h) =>
      (Ok nic, (st <| es_db := db |>) <| es_host := h |>, [NicPublished (ec_id nic) (Some nic)])
  end).

Definition create_nic (fresh : EbFresh) (env : SetupEnv) (req : CreateNicRequest) (st : EbState)
    : Reply EbNic :=
  try_in st (plan_nic fresh req (es_db st)) (λ '(network, nic), commit_nic env network nic st).

Definition update_nic (now : string) (id : string) (v4 v6 : list string) (st : EbState)
    : Reply EbNic :=
  try_in st (parse_id id) (λ uuid,
  try_in st (map_err validation_err_to_status (parse_routed_prefixes v4 v6)) (λ '(v4, v6),
  try_in st (map_err storage_err_to_status
    (update_nic_routed_prefixes uuid v4 v6 now (es_db st))) (λ db,
  let st := st <| es_db := db |> in
  try_in st (ok_or (MkStatus NotFound Other) (nics db !! uuid)) (λ n, (Ok n, st, []))))).

Definition delete_nic (td : TeardownEnv) (id : string) (st : EbState) : Reply bool :=
  try_in st (parse_id id) (λ uuid,
  let '(st, events) :=
    match nics (es_db st) !! uuid with
    | Some nic => (st <| es_host := teardown_nic td nic (es_host st) |>, [NicPublished (ec_id nic) None])
    | None => (st, [])
    end in
  let '(deleted, db) := storage_delete_nic uuid (es_db st) in
  (Ok deleted, st <| es_db := db |>, events)).

(** Answers whether the NIC was attached by this call. *)
Definition attach_nic (env : SetupEnv) (id : string) (st : EbState) : Reply bool :=
  try_in st (parse_id id) (λ uuid,
  try_in st (ok_or (MkStatus NotFound Other) (nics (es_db st) !! uuid)) (λ nic,
  if is_some (managed (es_host st) !! uuid) then (Ok false, st, []) else
  try_in st (ok_or (MkStatus Internal Other) (networks (es_db st) !! ec_network_id nic)) (λ network,
  match setup_nic env nic network (es_host st) with
  | (Err e, h) => (Err e, st <| es_host := h |>, [])
  | (Ok _, h) => (Ok true, st <| es_host := h |>, [])
  end))).

(** At start-up: every stored NIC, in the order listed, whatever fails. *)
Definition recover_nics (listed : list (EbNic * SetupEnv)) (st : EbState) : EbState :=
  foldl (λ st '(nic, env),
    match networks (es_db st) !! ec_network_id nic with
    | None => st
    | Some network => st <| es_host := (setup_nic env nic network (es_host st)).2 |>
    end) st listed.

(** ** Security groups *)

Definition create_security_group (fresh : EbFresh) (name description : string) (st : EbState)
    : Reply EbGroup :=
  try_in st (map_err validation_err_to_status (validate_create_security_group name)) (λ _,
  let g := MkEbGroup (ef_uuid fresh) name (if str_is_empty description then None else Some description)
             (ef_now fresh) (ef_now fresh) in
  try_in st (map_err storage_err_to_status (storage_create_security_group g (es_db st))) (λ db,
  (Ok g, st <| es_db := db |>, []))).

Definition delete_security_group (id : string) (force : bool) (st : EbState) : Reply (bool * u32) :=
  try_in st (parse_id id) (λ uuid,
  let nic_count := count_nics_in_security_group uuid (es_db st) in
  if (0 <? nic_count)%N && negb force then fail FailedPrecondition Other st else
  let '(nics_detached, db) :=
    if force && (0 <? nic_count)%N then detach_security_group_from_all_nics uuid (es_db st)
    else (0%N, es_db st) in
  let '(deleted, db) := storage_delete_security_group uuid db in
  (Ok (deleted, nics_detached), st <| es_db := db |>, [])).

Record AddRuleRequest := MkAddRuleRequest {
  ar_security_group_id : string; ar_direction : Z; ar_protocol : Z; ar_port_start : u32;
  ar_port_end : u32; ar_cidr : string; ar_description : string }.

Definition add_security_group_rule (fresh : EbFresh) (req : AddRuleRequest) (st : EbState)
    : Reply EbRule :=
  try_in st (resolve_security_group (ar_security_group_id req) (es_db st)) (λ sg,
  try_in st (map_err validation_err_to_status
    (validate_security_group_rule (ar_direction req) (ar_protocol req) (ar_port_start req)
       (ar_port_end req) (ar_cidr req))) (λ '(direction, protocol, port_start, port_end, _),
  let rule := MkEbRule (ef_uuid fresh) (eg_id sg) direction protocol port_start port_end
    (if str_is_empty (ar_cidr req) then None else Some (ar_cidr req))
    (if str_is_empty (ar_description req) then None else Some (ar_description req))
    (ef_now fresh) (ef_now fresh) in
  try_in st (map_err storage_err_to_status (create_security_group_rule rule (es_db st))) (λ db,
  (Ok rule, st <| es_db := db |>, [])))).

Definition remove_security_group_rule (rule_id : string) (st : EbState) : Reply bool :=
  try_in st (parse_id rule_id) (λ uuid,
  let '(deleted, db) := delete_security_group_rule uuid (es_db st) in
  (Ok deleted, st <| es_db := db |>, [])).

Definition attach_security_group (now : string) (nic_id sg_id : string) (st : EbState) : Reply bool :=
  try_in st (resolve_nic nic_id (es_db st)) (λ nic,
  try_in st (resolve_security_group sg_id (es_db st)) (λ sg,
  try_in st (map_err storage_err_to_status
    (storage_attach_security_group (ec_id nic) (eg_id sg) now (es_db st))) (λ '(attached, db),
  (Ok attached, st <| es_db := db |>, [])))).

Definition detach_security_group (nic_id sg_id : string) (st : EbState) : Reply bool :=
  try_in st (resolve_nic nic_id (es_db st)) (λ nic,
  try_in st (resolve_security_group sg_id (es_db st)) (λ sg,
  let '(detached, db) := storage_detach_security_group (ec_id nic) (eg_id sg) (es_db st) in
  (Ok detached, st <| es_db := db |>, []))).

End ebnet.

(** * A model of the host's kernel *)

Module HostModel.

(** The index above all that are in use. *)
Definition next_index (t : gmap string u32) : u32 := (1 + foldr N.max 0 (map_to_list t).*2)%N.

Lemma foldr_max_ge (l : list N) x : x ∈ l → (x ≤ foldr N.max 0 l)%N.
Proof. induction 1; cbn; lia. Qed.

#[export] Instance host_model : HostKernel.
Proof.
  refine {| open_tap := λ t name,
    match t !! name with Some i => Some i | None => Some (next_index t) end |}.
  - intros t name i ->. by left.
  - intros t name i -> [= <-] name' H%elem_of_map_to_list%(list_elem_of_fmap_2 snd).
    apply foldr_max_ge in H. cbn in H. unfold next_index in H. lia.
Defined.

End HostModel.
