(* ===== verification/EbNetFacts.v ===== *)
(** Theorems on the eBPF network service: what holds of its tables when requests
    are served one at a time, what breaks when they interleave, and what setup and
    teardown do to the host. *)

From S2P Require Import Prelude Rpc Externals NetAddr Ebpf EbNet.

(** * Requests *)

Section facts.
Context {nets4 : IpNets 32} {nets6 : IpNets 128} {text : AddrText} {unicode : UnicodeText}.
Context {hostk : HostKernel}.

(** A request with the values it draws and the fate of its host calls. *)
Inductive EbCall :=
  | CallCreateNetwork (fresh : EbFresh) (nat_ok : bool * bool) (req : CreateNetworkRequest)
  | CallUpdateNetwork (now id : string) (dns ntp : list string)
  | CallDeleteNetwork (td : TeardownEnv) (nat_ok : bool * bool) (id : string) (force : bool)
  | CallCreateNic (fresh : EbFresh) (env : SetupEnv) (req : CreateNicRequest)
  | CallUpdateNic (now id : string) (v4 v6 : list string)
  | CallDeleteNic (td : TeardownEnv) (id : string)
  | CallAttachNic (env : SetupEnv) (id : string)
  | CallCreateGroup (fresh : EbFresh) (name description : string)
  | CallDeleteGroup (id : string) (force : bool)
  | CallAddRule (fresh : EbFresh) (req : AddRuleRequest)
  | CallRemoveRule (id : string)
  | CallAttachGroup (now nic_id sg_id : string)
  | CallDetachGroup (nic_id sg_id : string).

Definition eb_call (c : EbCall) (st : EbState) : EbState :=
  match c with
  | CallCreateNetwork fresh nat_ok req => (create_network fresh nat_ok req st).1.2
  | CallUpdateNetwork now id dns ntp => (update_network now id dns ntp st).1.2
  | CallDeleteNetwork td nat_ok id force => (delete_network td nat_ok id force st).1.2
  | CallCreateNic fresh env req => (create_nic fresh env req st).1.2
  | CallUpdateNic now id v4 v6 => (update_nic now id v4 v6 st).1.2
  | CallDeleteNic td id => (delete_nic td id st).1.2
  | CallAttachNic env id => (attach_nic env id st).1.2
  | CallCreateGroup fresh name description => (create_security_group fresh name description st).1.2
  | CallDeleteGroup id force => (delete_security_group id force st).1.2
  | CallAddRule fresh req => (add_security_group_rule fresh req st).1.2
  | CallRemoveRule id => (remove_security_group_rule id st).1.2
  | CallAttachGroup now nic_id sg_id => (attach_security_group now nic_id sg_id st).1.2
  | CallDetachGroup nic_id sg_id => (detach_security_group nic_id sg_id st).1.2
  end.

Definition eb_serve (calls : list EbCall) (st : EbState) : EbState :=
  foldl (λ st c, eb_call c st) st calls.

(** * The tables *)

(** Two public networks share no address. *)
Definition nets_disjoint (n m : EbNetwork) : Prop :=
  (∀ a b, en_ipv4_subnet n = Some a → en_ipv4_subnet m = Some b →
     ∀ x, ¬ (net_contains a x = true ∧ net_contains b x = true)) ∧
  (∀ a b, en_ipv6_prefix n = Some a → en_ipv6_prefix m = Some b →
     ∀ x, ¬ (net_contains a x = true ∧ net_contains b x = true)).

(** An IPv4 address lies in the subnet of its network. The subnets at the very end
    of the address space are left out. *)
Definition addr_in_subnet (net : EbNetwork) (n : EbNic) : Prop :=
  ∀ subnet a, en_ipv4_subnet net = Some subnet → (net_network subnet + 2 < 2 ^ 32)%N →
    ec_ipv4_address n = Some a → net_contains subnet a = true.

Record eb_inv (db : EbDb) : Prop := {
  inv_net_key i n : networks db !! i = Some n → en_id n = i;
  inv_net_name i j n m : networks db !! i = Some n → networks db !! j = Some m →
    en_name n = en_name m → i = j;
  inv_public i j n m : networks db !! i = Some n → networks db !! j = Some m → i ≠ j →
    en_is_public n = true → en_is_public m = true → nets_disjoint n m;
  inv_nic_key i n : nics db !! i = Some n → ec_id n = i;
  inv_nic_net i n : nics db !! i = Some n →
    ∃ net, networks db !! ec_network_id n = Some net ∧ addr_in_subnet net n;
  inv_nic_v4 i j n m a : nics db !! i = Some n → nics db !! j = Some m →
    ec_network_id n = ec_network_id m → ec_ipv4_address n = Some a → ec_ipv4_address m = Some a →
    i = j;
  inv_nic_v6 i j n m a : nics db !! i = Some n → nics db !! j = Some m →
    ec_network_id n = ec_network_id m → ec_ipv6_address n = Some a → ec_ipv6_address m = Some a →
    i = j;
  inv_group_key i g : groups db !! i = Some g → eg_id g = i;
  inv_rule_group i r : rules db !! i = Some r → is_Some (groups db !! er_security_group_id r);
  inv_nic_groups n g t : nic_groups db !! (n, g) = Some t →
    is_Some (nics db !! n) ∧ is_Some (groups db !! g);
}.

(** ** Statements keep the invariant *)

Lemma elem_used_addresses (addr : EbNic → option N) id db a :
  a ∈ used_addresses addr id db ↔
  ∃ i n, nics db !! i = Some n ∧ ec_network_id n = id ∧ addr n = Some a.
Proof.
  unfold used_addresses. rewrite list_elem_of_omap. split.
  - intros ([i n] & Hin%elem_of_map_to_list & E). case_bool_decide; [|done]. eauto.
  - intros (i & n & Hn & Hid & Ha). exists (i, n). split; [by apply elem_of_map_to_list|].
    by rewrite bool_decide_eq_true_2.
Qed.

(** What a planned NIC satisfies in the tables it was planned against. *)
Record nic_fits (db : EbDb) (network : EbNetwork) (n : EbNic) : Prop := {
  fits_net : networks db !! ec_network_id n = Some network;
  fits_subnet : addr_in_subnet network n;
  fits_v4 a : ec_ipv4_address n = Some a →
    a ∉ used_addresses ec_ipv4_address (ec_network_id n) db;
  fits_v6 a : ec_ipv6_address n = Some a →
    a ∉ used_addresses ec_ipv6_address (ec_network_id n) db;
}.

Lemma eb_inv_create_nic db db' network n :
  eb_inv db → nic_fits db network n → storage_create_nic n db = Ok db' → eb_inv db'.
Proof.
  intros H [Hnet Hsub H4 H6]. unfold storage_create_nic. case_match eqn:E; [done|].
  apply orb_false_iff in E as [E _]. unfold is_some in E.
  destruct (nics db !! ec_id n) as [?|] eqn:Hfree; [done|]. intros [= <-].
  split; cbn; try apply H.
  - intros i m. rewrite lookup_insert_Some. intros [[<- <-]|[_ Hm]]; [done|by eapply inv_nic_key].
  - intros i m. rewrite lookup_insert_Some. intros [[<- <-]|[_ Hm]]; [by eauto|].
    by eapply inv_nic_net.
  - intros i j m m' a. rewrite !lookup_insert_Some.
    intros [[<- <-]|[? Hm]] [[<- <-]|[? Hm']] Hid Ha Ha'; [done| | |by eapply inv_nic_v4].
    + destruct (H4 a Ha). apply elem_used_addresses. eauto.
    + destruct (H4 a Ha'). apply elem_used_addresses. eauto.
  - intros i j m m' a. rewrite !lookup_insert_Some.
    intros [[<- <-]|[? Hm]] [[<- <-]|[? Hm']] Hid Ha Ha'; [done| | |by eapply inv_nic_v6].
    + destruct (H6 a Ha). apply elem_used_addresses. eauto.
    + destruct (H6 a Ha'). apply elem_used_addresses. eauto.
  - intros i g t Hg. destruct (inv_nic_groups _ H _ _ _ Hg) as [? ?].
    split; [|done]. apply lookup_insert_is_Some'. by right.
Qed.

Lemma try_in_state {A B} st (r : result Status A) (k : A → Reply B) (P : EbState → Prop) :
  P st → (∀ a, r = Ok a → P (k a).1.2) → P (try_in st r k).1.2.
Proof. intros Hst Hk. destruct r; cbn; eauto. Qed.

Lemma map_err_Ok {E F A} (f : E → F) (r : result E A) a : map_err f r = Ok a → r = Ok a.
Proof. by destruct r as [|]; [intros [= <-]|]. Qed.

Lemma ok_or_Some {E A} (e : E) (o : option A) a : ok_or e o = Ok a → o = Some a.
Proof. by destruct o; [intros [= <-]|]. Qed.

Lemma resolve_network_lookup id db n : eb_inv db → resolve_network id "" db = Ok n →
  networks db !! en_id n = Some n.
Proof.
  intros H. unfold resolve_network. case_match; [|done].
  destruct (parse_id id) as [u|] eqn:E; [|done]. intros Hn%ok_or_Some.
  by rewrite (inv_net_key _ H _ _ Hn).
Qed.

(** Address validation and choice. *)
Lemma check_addr_contains {w} {nets : IpNets w} addr parse invalid outside (subnet : option (ipnet w)) a n :
  check_addr addr parse invalid outside subnet = Ok (Some a) → subnet = Some n →
  net_contains n a = true.
Proof.
  unfold check_addr. intros H ->. destruct (parse_nonempty _ _ _) as [[b|]|]; [|done..].
  destruct (net_contains n b) eqn:E; [|done]. by injection H as ->.
Qed.

Lemma choose_ipv4_fits network req db o :
  choose_ipv4 network req db = Ok o →
  (∀ a subnet, req = Some a → en_ipv4_subnet network = Some subnet → net_contains subnet a = true) →
  ∀ a, o = Some a → a ∉ used_addresses ec_ipv4_address (en_id network) db ∧
    ∀ subnet, en_ipv4_subnet network = Some subnet → (net_network subnet + 2 < 2 ^ 32)%N →
      net_contains subnet a = true.
Proof.
  unfold choose_ipv4. intros H Hreq a ->. destruct req as [r|].
  - unfold is_ipv4_in_use, addr_in_use in H. case_bool_decide; [done|].
    destruct (en_ipv4_subnet network); injection H as <-; eauto.
  - destruct (en_ipv4_subnet network) as [subnet|]; [|done].
    injection H as H. assert (Hff := first_free_spec).
    unfold allocate_ipv4_address in H.
    match type of H with first_free ?n ?i ?u ?g = _ => specialize (Hff n i u g) end.
    rewrite H in Hff. destruct Hff as (Hr & _ & Hu & _). split; [done|].
    intros ? [= <-] Hlt. unfold wrap in Hr. rewrite N.mod_small in Hr by done.
    apply net_contains_iff. lia.
Qed.

Lemma choose_ipv6_fits network req db o :
  choose_ipv6 network req db = Ok o →
  ∀ a, o = Some a → a ∉ used_addresses ec_ipv6_address (en_id network) db.
Proof.
  unfold choose_ipv6. intros H a ->. destruct req as [r|].
  - unfold is_ipv6_in_use, addr_in_use in H. case_bool_decide; [done|].
    destruct (en_ipv6_prefix network); by injection H as <-.
  - destruct (en_ipv6_prefix network) as [prefix|]; [|done].
    injection H as H. unfold allocate_ipv6_address in H.
    pose proof (first_free_v6_spec 998 2 (net_network prefix)
      (get_used_ipv6_addresses (en_id network) db) (wrap 128 (net_network prefix + 1))) as Hff.
    rewrite H in Hff. by destruct Hff as (j & _ & _ & _ & Hu).
Qed.

Lemma plan_nic_fits fresh req db network n :
  eb_inv db → plan_nic fresh req db = Ok (network, n) → nic_fits db network n.
Proof.
  intros H. unfold plan_nic.
  destruct (resolve_network _ _ _) as [net|] eqn:En; [|done].
  apply resolve_network_lookup in En; [|done].
  destruct (map_err _ (validate_create_nic _ _ _ _ _)) as [[[mac v4] v6]|] eqn:Ev; [|done].
  apply map_err_Ok in Ev.
  destruct (choose_ipv4 net v4 db) as [o4|] eqn:E4; [|done].
  destruct (choose_ipv6 net v6 db) as [o6|] eqn:E6; [|done].
  destruct (map_err _ (parse_routed_prefixes _ _)) as [[r4 r6]|]; [|done].
  destruct (id_or_fresh _ _) as [id|]; [|done]. intros [= <- <-].
  assert (Hin : ∀ a subnet, v4 = Some a → en_ipv4_subnet net = Some subnet → net_contains subnet a = true).
  { intros a subnet -> Hs. unfold validate_create_nic in Ev.
    destruct (parse_nonempty _ _ _); [|done].
    destruct (check_addr (cc_ipv4_address req) _ _ _ _) as [o|] eqn:Ec; [|done].
    destruct (check_addr (cc_ipv6_address req) _ _ _ _); [|done].
    injection Ev as _ -> _. by eapply check_addr_contains. }
  split; cbn; [done| | |].
  - intros subnet a Hs Hlt Ha. cbn in Ha. by eapply choose_ipv4_fits.
  - intros a Ha. by eapply choose_ipv4_fits.
  - intros a Ha. by eapply choose_ipv6_fits.
Qed.

(** ** Networks *)

Lemma check_overlap_Ok v4 v6 l u : check_overlap v4 v6 l = Ok u →
  ∀ p, p ∈ l →
    (∀ a b, v4 = Some a → pn_ipv4 p = Some b → ipv4_subnets_overlap a b = false) ∧
    (∀ a b, v6 = Some a → pn_ipv6 p = Some b → ipv6_prefixes_overlap a b = false).
Proof.
  induction l as [|q l IH]; [by intros _ p Hp%elem_of_nil|]. intros H p Hp.
  assert (Hq : ((∀ a b, v4 = Some a → pn_ipv4 q = Some b → ipv4_subnets_overlap a b = false) ∧
    (∀ a b, v6 = Some a → pn_ipv6 q = Some b → ipv6_prefixes_overlap a b = false)) ∧
    check_overlap v4 v6 l = Ok u).
  { cbn [check_overlap] in H. cbv zeta in H.
    destruct v4 as [x4|], (pn_ipv4 q) as [y4|], v6 as [x6|], (pn_ipv6 q) as [y6|];
      repeat match type of H with (if ?b then _ else _) = _ => destruct b eqn:?; [done|] end;
      (split; [split; intros ? ? [=] [=]; by subst|exact H]). }
  destruct Hq as [Hq Hl]. apply elem_of_cons in Hp as [->|Hp]; [done|]. by apply IH.
Qed.

Lemma not_overlap_disjoint n m :
  (∀ a b, en_ipv4_subnet n = Some a → en_ipv4_subnet m = Some b → ipv4_subnets_overlap a b = false) →
  (∀ a b, en_ipv6_prefix n = Some a → en_ipv6_prefix m = Some b → ipv6_prefixes_overlap a b = false) →
  nets_disjoint n m.
Proof.
  intros H4 H6. split; intros a b Ha Hb x Hx.
  - specialize (H4 a b Ha Hb). apply not_true_iff_false in H4. apply H4, ipv4_overlap_iff. eauto.
  - specialize (H6 a b Ha Hb). apply not_true_iff_false in H6. apply H6, ipv6_overlap_iff. eauto.
Qed.

Lemma nets_disjoint_sym n m : nets_disjoint n m → nets_disjoint m n.
Proof. intros [H4 H6]. split; intros a b Ha Hb x [Hx Hy]; [by eapply H4|by eapply H6]. Qed.

Lemma elem_list_public_networks db i n : networks db !! i = Some n → en_is_public n = true →
  MkPublicNet (en_name n) (en_ipv4_subnet n) (en_ipv6_prefix n) ∈ list_public_networks db.
Proof.
  intros Hn Hp. unfold list_public_networks. apply list_elem_of_omap.
  exists (i, n). split; [by apply elem_of_map_to_list|]. by rewrite Hp.
Qed.

(** A planned public network overlaps none that is stored. *)
Lemma plan_network_disjoint fresh req db n i m :
  plan_network fresh req db = Ok n → en_is_public n = true →
  networks db !! i = Some m → en_is_public m = true → nets_disjoint n m.
Proof.
  intros H Hn Hm Hpm. unfold plan_network, validate_create_network in H.
  destruct (str_is_empty _); [done|]. destruct (negb _ && negb _); [done|]. cbv zeta in H.
  destruct (if cn_ipv4_enabled req then _ else _) as [v4|] in H; [|done].
  destruct (if cn_ipv6_enabled req then _ else _) as [v6|] in H; [|done].
  destruct (cn_is_public req) eqn:Epub.
  - destruct (check_overlap v4 v6 (list_public_networks db)) as [u|] eqn:Eo; [|done].
    destruct (parse_each _ _ _); [|done]. cbn [map_err] in H.
    destruct (id_or_fresh _ _); [|done]. injection H as <-.
    apply (elem_list_public_networks _ _ _ Hm) in Hpm.
    destruct (check_overlap_Ok _ _ _ _ Eo _ Hpm) as [H4 H6]. by apply not_overlap_disjoint.
  - destruct (parse_each _ _ _); [|done]. cbn [map_err] in H.
    destruct (id_or_fresh _ _); [|done]. by injection H as <-.
Qed.

Lemma eb_inv_create_network db db' n :
  eb_inv db → (∀ i m, networks db !! i = Some m → en_is_public n = true →
                 en_is_public m = true → nets_disjoint n m) →
  storage_create_network n db = Ok db' → eb_inv db'.
Proof.
  intros H Hd. unfold storage_create_network. case_match eqn:E; [done|].
  apply orb_false_iff in E as [E Ename]. unfold is_some in E.
  destruct (networks db !! en_id n) eqn:Hfree; [done|]. intros [= <-].
  assert (Hname : ∀ i m, networks db !! i = Some m → en_name n = en_name m → False).
  { intros i m Hm Heq. apply not_true_iff_false in Ename. apply Ename, existsb_exists.
    exists (i, m). split; [by apply list_elem_of_In, elem_of_map_to_list|].
    by apply bool_decide_eq_true. }
  split; cbn; try apply H.
  - intros i m. rewrite lookup_insert_Some. intros [[<- <-]|[_ Hm]]; [done|by eapply inv_net_key].
  - intros i j m m'. rewrite !lookup_insert_Some.
    intros [[<- <-]|[? Hm]] [[<- <-]|[? Hm']] Heq; [done| | |by eapply inv_net_name].
    + by destruct (Hname _ _ Hm').
    + by destruct (Hname _ _ Hm).
  - intros i j m m'. rewrite !lookup_insert_Some.
    intros [[<- <-]|[? Hm]] [[<- <-]|[? Hm']] Hne Hp Hp'; [done| | |by eapply inv_public].
    + by eapply Hd.
    + apply nets_disjoint_sym. by eapply Hd.
  - intros i m Hm. destruct (inv_nic_net _ H _ _ Hm) as (net & Hnet & ?). exists net.
    split; [|done]. rewrite lookup_insert_ne; [done|]. intros E'. rewrite E' in Hfree. congruence.
Qed.

Lemma eb_inv_update_network db db' id dns ntp now :
  eb_inv db → storage_update_network id dns ntp now db = Ok db' → eb_inv db'.
Proof.
  intros H. unfold storage_update_network. destruct (networks db !! id) as [n|] eqn:Hn; [|done].
  intros [= <-].
  set (n' := ((n <| en_dns_servers := dns |>) <| en_ntp_servers := ntp |>) <| en_updated_at := now |>).
  assert (Hback : ∀ i m, <[id := n']> (networks db) !! i = Some m →
    ∃ m0, networks db !! i = Some m0 ∧ en_id m = en_id m0 ∧ en_name m = en_name m0 ∧
      en_is_public m = en_is_public m0 ∧ en_ipv4_subnet m = en_ipv4_subnet m0 ∧
      en_ipv6_prefix m = en_ipv6_prefix m0).
  { intros i m. rewrite lookup_insert_Some. intros [[<- <-]|[_ Hm]]; eauto 10. }
  split; cbn; try apply H.
  - intros i m (m0 & Hm0 & -> & _)%Hback. by eapply inv_net_key.
  - intros i j m m' (m0 & Hm0 & _ & -> & _)%Hback (m1 & Hm1 & _ & -> & _)%Hback.
    by eapply inv_net_name.
  - intros i j m m' (m0 & Hm0 & _ & _ & -> & E4 & E6)%Hback
      (m1 & Hm1 & _ & _ & -> & F4 & F6)%Hback Hne Hp Hp'.
    unfold nets_disjoint. rewrite E4, E6, F4, F6. by eapply (inv_public _ H i j).
  - intros i m Hm. destruct (inv_nic_net _ H _ _ Hm) as (net & Hnet & Hs).
    destruct (decide (ec_network_id m = id)) as [E|].
    + exists n'. rewrite E, lookup_insert_eq. split; [done|]. rewrite E in Hnet.
      simplify_eq. exact Hs.
    + exists net. by rewrite lookup_insert_ne.
Qed.

(** ** Removals *)

(** Removing rows keeps the invariant when no reference is left behind. *)
Lemma eb_inv_remove db db' :
  eb_inv db → networks db' ⊆ networks db → nics db' ⊆ nics db → groups db' ⊆ groups db →
  rules db' ⊆ rules db → nic_groups db' ⊆ nic_groups db →
  (∀ i n, nics db' !! i = Some n → is_Some (networks db' !! ec_network_id n)) →
  (∀ i r, rules db' !! i = Some r → is_Some (groups db' !! er_security_group_id r)) →
  (∀ n g t, nic_groups db' !! (n, g) = Some t → is_Some (nics db' !! n) ∧ is_Some (groups db' !! g)) →
  eb_inv db'.
Proof.
  intros H Hnet Hnic Hg Hr Hng Cn Cr Cg.
  split.
  - intros i n Hn. eapply inv_net_key; [done|]. by eapply lookup_weaken.
  - intros i j n m Hn Hm. eapply inv_net_name; [done|by eapply lookup_weaken..].
  - intros i j n m Hn Hm. eapply inv_public; [done|by eapply lookup_weaken..].
  - intros i n Hn. eapply inv_nic_key; [done|]. by eapply lookup_weaken.
  - intros i n Hn. destruct (Cn i n Hn) as [net Hnet']. exists net. split; [done|].
    eapply lookup_weaken in Hn; [|done]. destruct (inv_nic_net _ H _ _ Hn) as (net0 & Hnet0 & ?).
    eapply lookup_weaken in Hnet'; [|done]. by simplify_eq.
  - intros i j n m a Hn Hm. eapply inv_nic_v4; [done|by eapply lookup_weaken..].
  - intros i j n m a Hn Hm. eapply inv_nic_v6; [done|by eapply lookup_weaken..].
  - intros i g Hi. eapply inv_group_key; [done|]. by eapply lookup_weaken.
  - done.
  - done.
Qed.

Lemma eb_inv_delete_network db id : eb_inv db → eb_inv (storage_delete_network id db).2.
Proof.
  intros H. apply (eb_inv_remove db); [done|..]; cbn;
    try apply delete_subseteq; try apply map_filter_subseteq; try done.
  - intros i n. rewrite map_lookup_filter_Some. intros [Hn Hid].
    rewrite lookup_delete_ne by congruence. destruct (inv_nic_net _ H _ _ Hn) as (net & -> & _). eauto.
  - apply H.
  - intros n g t. rewrite map_lookup_filter_Some. intros [Hg Hk].
    destruct (inv_nic_groups _ H _ _ _ Hg) as [[m Hm] ?]. split; [|done].
    exists m. apply map_lookup_filter_Some. split; [done|]. intros Hid.
    apply negb_true_iff, bool_decide_eq_false in Hk. apply Hk, elem_of_dom.
    exists m. by apply map_lookup_filter_Some.
Qed.

Lemma eb_inv_delete_nic db id : eb_inv db → eb_inv (storage_delete_nic id db).2.
Proof.
  intros H. apply (eb_inv_remove db); [done|..]; cbn;
    try apply delete_subseteq; try apply map_filter_subseteq; try done.
  - intros i n [_ Hn]%lookup_delete_Some. destruct (inv_nic_net _ H _ _ Hn) as (net & -> & _). eauto.
  - apply H.
  - intros n g t. rewrite map_lookup_filter_Some. intros [Hg Hk%negb_true_iff%bool_decide_eq_false].
    rewrite lookup_delete_ne by done. by eapply inv_nic_groups.
Qed.

Lemma eb_inv_delete_group db id : eb_inv db → eb_inv (storage_delete_security_group id db).2.
Proof.
  intros H. apply (eb_inv_remove db); [done|..]; cbn;
    try apply delete_subseteq; try apply map_filter_subseteq; try done.
  - intros i n Hn. destruct (inv_nic_net _ H _ _ Hn) as (net & -> & _). eauto.
  - intros i r. rewrite map_lookup_filter_Some. intros [Hr Hne].
    rewrite lookup_delete_ne by done. by eapply inv_rule_group.
  - intros n g t. rewrite map_lookup_filter_Some. intros [Hg Hne].
    rewrite lookup_delete_ne by done. by eapply inv_nic_groups.
Qed.

Lemma eb_inv_set_nic_groups db ng : eb_inv db → ng ⊆ nic_groups db →
  eb_inv (db <| nic_groups := ng |>).
Proof.
  intros H Hng. apply (eb_inv_remove db); cbn; try done.
  - intros i n Hn. destruct (inv_nic_net _ H _ _ Hn) as (net & -> & _). eauto.
  - apply H.
  - intros n g t Hg. eapply inv_nic_groups; [done|]. by eapply lookup_weaken.
Qed.

Lemma eb_inv_delete_rule db id : eb_inv db → eb_inv (delete_security_group_rule id db).2.
Proof.
  intros H. apply (eb_inv_remove db); cbn; try done; try apply delete_subseteq.
  - intros i n Hn. destruct (inv_nic_net _ H _ _ Hn) as (net & -> & _). eauto.
  - intros i r [_ Hr]%lookup_delete_Some. by eapply inv_rule_group.
  - apply H.
Qed.

(** ** Other insertions *)

Lemma eb_inv_update_nic db db' id v4 v6 now :
  eb_inv db → update_nic_routed_prefixes id v4 v6 now db = Ok db' → eb_inv db'.
Proof.
  intros H. unfold update_nic_routed_prefixes. destruct (nics db !! id) as [n|] eqn:Hn; [|done].
  intros [= <-].
  set (n' := ((n <| ec_routed_ipv4 := v4 |>) <| ec_routed_ipv6 := v6 |>) <| ec_updated_at := now |>).
  assert (Hback : ∀ i m, <[id := n']> (nics db) !! i = Some m →
    ∃ m0, nics db !! i = Some m0 ∧ ec_id m = ec_id m0 ∧ ec_network_id m = ec_network_id m0 ∧
      ec_ipv4_address m = ec_ipv4_address m0 ∧ ec_ipv6_address m = ec_ipv6_address m0).
  { intros i m. rewrite lookup_insert_Some. intros [[<- <-]|[_ Hm]]; eauto 10. }
  split; cbn; try apply H.
  - intros i m (m0 & Hm0 & -> & _)%Hback. by eapply inv_nic_key.
  - intros i m (m0 & Hm0 & _ & -> & E4 & _)%Hback.
    destruct (inv_nic_net _ H _ _ Hm0) as (net & Hnet & Hs). exists net. split; [done|].
    unfold addr_in_subnet. by rewrite E4.
  - intros i j m m' a (m0 & Hm0 & _ & -> & -> & _)%Hback (m1 & Hm1 & _ & -> & -> & _)%Hback.
    by eapply inv_nic_v4.
  - intros i j m m' a (m0 & Hm0 & _ & -> & _ & ->)%Hback (m1 & Hm1 & _ & -> & _ & ->)%Hback.
    by eapply inv_nic_v6.
  - intros m g t Hg. destruct (inv_nic_groups _ H _ _ _ Hg). split; [|done].
    apply lookup_insert_is_Some'. by right.
Qed.

Lemma eb_inv_create_group db db' g :
  eb_inv db → storage_create_security_group g db = Ok db' → eb_inv db'.
Proof.
  intros H. unfold storage_create_security_group. case_match; [done|]. intros [= <-].
  split; cbn; try apply H.
  - intros i h. rewrite lookup_insert_Some. intros [[<- <-]|[_ Hh]]; [done|by eapply inv_group_key].
  - intros i r Hr. apply lookup_insert_is_Some'. right. by eapply inv_rule_group.
  - intros n h t Hg. destruct (inv_nic_groups _ H _ _ _ Hg). split; [done|].
    apply lookup_insert_is_Some'. by right.
Qed.

Lemma eb_inv_create_rule db db' r :
  eb_inv db → create_security_group_rule r db = Ok db' → eb_inv db'.
Proof.
  intros H. unfold create_security_group_rule. case_match eqn:E; [done|]. intros [= <-].
  rewrite !orb_false_iff in E. destruct E as [[[_ E] _] _].
  split; cbn; try apply H. intros i r'. rewrite lookup_insert_Some.
  intros [[<- <-]|[_ Hr]]; [|by eapply inv_rule_group].
  unfold is_none, is_some in E. destruct (groups db !! _); [by eauto|done].
Qed.

Lemma eb_inv_attach_group db db' n g now b :
  eb_inv db → storage_attach_security_group n g now db = Ok (b, db') → eb_inv db'.
Proof.
  intros H. unfold storage_attach_security_group. case_match; [by intros [= _ <-]|].
  case_match eqn:E; [done|]. intros [= _ <-]. apply orb_false_iff in E as [E1 E2].
  split; cbn; try apply H. intros n' g' t. rewrite lookup_insert_Some.
  intros [[[= <- <-] _]|[_ Hg]]; [|by eapply inv_nic_groups]. unfold is_none, is_some in E1, E2.
  destruct (nics db !! _), (groups db !! _); done || eauto.
Qed.

(** ** Methods keep the invariant *)

Abbreviation db_ok := (λ st : EbState, eb_inv (es_db st)).

Lemma commit_nic_inv env network n st :
  db_ok st → nic_fits (es_db st) network n → db_ok (commit_nic env network n st).1.2.
Proof.
  intros H Hf. unfold commit_nic. apply try_in_state; [done|]. intros db Hdb%map_err_Ok.
  pose proof (eb_inv_create_nic _ _ _ _ H Hf Hdb) as Hdb'.
  destruct (setup_nic env n network (es_host st)) as [[u|e] h]; cbn; [done|].
  by apply eb_inv_delete_nic.
Qed.

Lemma commit_network_inv nat_ok n st :
  db_ok st → (∀ i m, networks (es_db st) !! i = Some m → en_is_public n = true →
                en_is_public m = true → nets_disjoint n m) →
  db_ok (commit_network nat_ok n st).1.2.
Proof.
  intros H Hd. unfold commit_network. apply try_in_state; [done|]. intros db Hdb%map_err_Ok.
  pose proof (eb_inv_create_network _ _ _ H Hd Hdb). by repeat case_match.
Qed.

Lemma delete_network_inv td nat_ok id force st :
  db_ok st → db_ok (delete_network td nat_ok id force st).1.2.
Proof.
  intros H. unfold delete_network. apply try_in_state; [done|]. intros uuid _.
  case_match; [done|]. cbv zeta.
  set (st1 := if force && _ then _ else _).
  assert (Hst1 : es_db st1 = es_db st) by (unfold st1; by case_match).
  pose proof (eb_inv_delete_network _ uuid H) as Hd. rewrite <- Hst1 in Hd.
  destruct (storage_delete_network uuid (es_db st1)) as [b db]. cbn [fst snd] in Hd.
  by repeat case_match.
Qed.

Lemma delete_nic_inv td id st : db_ok st → db_ok (delete_nic td id st).1.2.
Proof.
  intros H. unfold delete_nic. apply try_in_state; [done|]. intros uuid _.
  destruct (nics (es_db st) !! uuid); cbn; by apply eb_inv_delete_nic.
Qed.

Lemma delete_group_inv id force st : db_ok st → db_ok (delete_security_group id force st).1.2.
Proof.
  intros H. unfold delete_security_group. apply try_in_state; [done|]. intros uuid _.
  case_match; [done|].
  destruct (force && _); [|by apply (eb_inv_delete_group (es_db st))].
  refine (eb_inv_delete_group (detach_security_group_from_all_nics uuid (es_db st)).2 uuid _).
  apply eb_inv_set_nic_groups; [done|]. apply map_filter_subseteq.
Qed.

Lemma eb_call_inv c st : db_ok st → db_ok (eb_call c st).
Proof.
  intros H. destruct c; cbn [eb_call].
  - unfold create_network. apply try_in_state; [done|]. intros n Hn. apply commit_network_inv; [done|].
    intros i m Hm Hp Hpm. by eapply plan_network_disjoint.
  - unfold update_network. apply try_in_state; [done|]. intros ? ?.
    apply try_in_state; [done|]. intros db Hdb%map_err_Ok.
    pose proof (eb_inv_update_network _ _ _ _ _ _ H Hdb). by apply try_in_state.
  - by apply delete_network_inv.
  - unfold create_nic. apply try_in_state; [done|]. intros [network n] Hn.
    apply commit_nic_inv; [done|]. by eapply plan_nic_fits.
  - unfold update_nic. apply try_in_state; [done|]. intros ? ?.
    apply try_in_state; [done|]. intros [v4' v6'] ?.
    apply try_in_state; [done|]. intros db Hdb%map_err_Ok.
    pose proof (eb_inv_update_nic _ _ _ _ _ _ H Hdb). by apply try_in_state.
  - by apply delete_nic_inv.
  - unfold attach_nic. apply try_in_state; [done|]. intros ? ?.
    apply try_in_state; [done|]. intros nic ?. destruct (is_some _); [done|].
    apply try_in_state; [done|]. intros net ?.
    destruct (setup_nic env nic net (es_host st)) as [[] ?]; exact H.
  - unfold create_security_group. apply try_in_state; [done|]. intros ? ?.
    apply try_in_state; [done|]. intros db Hdb%map_err_Ok.
    exact (eb_inv_create_group _ _ _ H Hdb).
  - by apply delete_group_inv.
  - unfold add_security_group_rule. apply try_in_state; [done|]. intros ? ?.
    apply try_in_state; [done|]. intros [[[[? ?] ?] ?] ?] ?.
    apply try_in_state; [done|]. intros db Hdb%map_err_Ok.
    exact (eb_inv_create_rule _ _ _ H Hdb).
  - unfold remove_security_group_rule. apply try_in_state; [done|]. intros ? ?. cbn.
    by apply eb_inv_delete_rule.
  - unfold attach_security_group. apply try_in_state; [done|]. intros ? ?.
    apply try_in_state; [done|]. intros ? ?. apply try_in_state; [done|].
    intros [b db] Hdb%map_err_Ok.
    exact (eb_inv_attach_group _ _ _ _ _ _ H Hdb).
  - unfold detach_security_group. apply try_in_state; [done|]. intros ? ?.
    apply try_in_state; [done|]. intros ? ?. cbn. apply eb_inv_set_nic_groups; [done|].
    apply delete_subseteq.
Qed.

Definition eb_empty : EbDb := MkEbDb ∅ ∅ ∅ ∅ ∅.

Lemma eb_inv_empty : eb_inv eb_empty.
Proof. split; cbn; intros *; rewrite ?lookup_empty; done. Qed.


(** A plan without a requested address takes the allocated one. *)
Lemma plan_nic_allocates fresh req db network n :
  plan_nic fresh req db = Ok (network, n) → cc_ipv4_address req = "" →
  resolve_network (cc_network_id req) "" db = Ok network ∧ ec_network_id n = en_id network ∧
  choose_ipv4 network None db = Ok (ec_ipv4_address n).
Proof.
  unfold plan_nic. intros H Hr. destruct (resolve_network _ _ _) as [net|]; [|done].
  destruct (map_err _ (validate_create_nic _ _ _ _ _)) as [[[mac v4] v6]|] eqn:Ev; [|done].
  apply map_err_Ok in Ev. unfold validate_create_nic in Ev. rewrite Hr in Ev.
  destruct (parse_nonempty _ _ (cc_mac_address req)); [|done].
  change (check_addr "" _ _ _ _) with (Ok (E := ValidationError) (A := option N) None) in Ev.
  destruct (check_addr _ _ _ _ _); [|done]. injection Ev as _ <- _.
  destruct (choose_ipv4 net None db) as [o4|] eqn:E4; [|done].
  destruct (choose_ipv6 net v6 db); [|done].
  destruct (map_err _ (parse_routed_prefixes _ _)) as [[r4 r6]|]; [|done].
  destruct (id_or_fresh _ _); [|done]. injection H as <- <-. cbn. auto.
Qed.

Lemma commit_nic_Ok env network n st h :
  nics (es_db st) !! ec_id n = None → is_Some (networks (es_db st) !! ec_network_id n) →
  setup_nic env n network (es_host st) = (Ok tt, h) →
  ∃ st', commit_nic env network n st = (Ok n, st', [NicPublished (ec_id n) (Some n)]) ∧
    nics (es_db st') = <[ec_id n := n]> (nics (es_db st)) ∧
    networks (es_db st') = networks (es_db st) ∧ es_host st' = h.
Proof.
  intros Hf [net Hnet] Hs. unfold commit_nic, storage_create_nic. rewrite Hf, Hnet. cbn.
  rewrite Hs. eexists. done.
Qed.

(** Two requests for a NIC of the same network, with no address given, that
    interleave get the same address. Both read the used addresses before either
    stores its row, and the table has no constraint on addresses, so both succeed. *)
Theorem concurrent_create_nic_duplicates fresh1 fresh2 env1 env2 req1 req2 net1 net2 n1 n2 st h1 h2 :
  plan_nic fresh1 req1 (es_db st) = Ok (net1, n1) →
  plan_nic fresh2 req2 (es_db st) = Ok (net2, n2) →
  cc_network_id req1 = cc_network_id req2 →
  cc_ipv4_address req1 = "" → cc_ipv4_address req2 = "" →
  is_Some (networks (es_db st) !! en_id net1) → ec_id n1 ≠ ec_id n2 →
  nics (es_db st) !! ec_id n1 = None → nics (es_db st) !! ec_id n2 = None →
  setup_nic env1 n1 net1 (es_host st) = (Ok tt, h1) → setup_nic env2 n2 net2 h1 = (Ok tt, h2) →
  ∃ st1 st2 ev1 ev2,
    commit_nic env1 net1 n1 st = (Ok n1, st1, ev1) ∧
    commit_nic env2 net2 n2 st1 = (Ok n2, st2, ev2) ∧
    nics (es_db st2) !! ec_id n1 = Some n1 ∧ nics (es_db st2) !! ec_id n2 = Some n2 ∧
    ec_network_id n1 = ec_network_id n2 ∧ ec_ipv4_address n1 = ec_ipv4_address n2.
Proof.
  intros P1 P2 Hid H1 H2 Hnet Hne F1 F2 S1 S2.
  destruct (plan_nic_allocates _ _ _ _ _ P1 H1) as (R1 & I1 & C1).
  destruct (plan_nic_allocates _ _ _ _ _ P2 H2) as (R2 & I2 & C2).
  rewrite <- Hid, R1 in R2. injection R2 as <-. rewrite C1 in C2. injection C2 as C2.
  destruct (commit_nic_Ok env1 net1 n1 st h1 F1) as (st1 & E1 & N1 & W1 & Hh1); [by rewrite I1|done|].
  destruct (commit_nic_Ok env2 net1 n2 st1 h2) as (st2 & E2 & N2 & W2 & _).
  - by rewrite N1, lookup_insert_ne.
  - by rewrite W1, I2.
  - by rewrite Hh1.
  - eexists st1, st2, _, _. split_and!; [exact E1|exact E2| | |congruence|done].
    + by rewrite N2, lookup_insert_ne, N1, lookup_insert_eq.
    + by rewrite N2, lookup_insert_eq.
Qed.

(** * The host *)

Lemma host_bind_Ok {A B} (m : HostM A) (k : A → HostM B) h b h' :
  host_bind m k h = (Ok b, h') → ∃ a h1, m h = (Ok a, h1) ∧ k a h1 = (Ok b, h').
Proof. unfold host_bind. destruct (m h) as [[a|e] h1]; [eauto|done]. Qed.

Lemma host_call_Ok ok f h u h' : host_call ok f h = (Ok u, h') → h' = f h.
Proof. unfold host_call. destruct ok; [by intros [= _ <-]|done]. Qed.

(** The routes of one address. *)
Definition route_v4 (o : option Ipv4Addr) (e : RouteEntry) (i : u32) (h : EbHost) : EbHost :=
  match o with Some a => add_host_route_v4 a i (add_egress_route_v4 a e h) | None => h end.
Definition route_v6 (o : option Ipv6Addr) (e : RouteEntry) (i : u32) (h : EbHost) : EbHost :=
  match o with Some a => add_host_route_v6 a i (add_egress_route_v6 a e h) | None => h end.
Definition nic_route (nic : EbNic) (i : u32) : RouteEntry :=
  MkRouteEntry ACTION_REDIRECT i (ec_mac_address nic) GATEWAY_MAC.

(** The host after a successful setup. *)
Definition set_up (nic : EbNic) (network : EbNetwork) (i : u32) (h : EbHost) : EbHost :=
  let h := h <| taps := <[ec_tap_name nic := i]> (taps h) |> in
  let h := register_nic i nic network h in
  let h := route_v4 (ec_ipv4_address nic) (nic_route nic i) i h in
  let h := route_v6 (ec_ipv6_address nic) (nic_route nic i) i h in
  h <| managed := <[ec_id nic := i]> (managed h) |>.

Lemma when_some_Ok {A} (o : option A) (k : A → HostM unit) f h u h' :
  (∀ a h u h', k a h = (Ok u, h') → h' = f a h) →
  when_some o k h = (Ok u, h') → h' = match o with Some a => f a h | None => h end.
Proof. intros Hk. destruct o; cbn; [by apply Hk|]. by intros [= _ <-]. Qed.

Lemma setup_nic_Ok env nic network h h' :
  setup_nic env nic network h = (Ok tt, h') →
  ∃ i, open_tap (taps h) (ec_tap_name nic) = Some i ∧ h' = set_up nic network i h.
Proof.
  unfold setup_nic. intros (i & h1 & H1 & H)%host_bind_Ok.
  unfold create_persistent_tap in H1. case_match; [done|].
  destruct (open_tap (taps h) (ec_tap_name nic)) as [j|] eqn:Eo; [|done]. injection H1 as -> <-.
  exists i. split; [done|].
  apply host_bind_Ok in H as (u1 & h2 & ->%host_call_Ok & H).
  apply host_bind_Ok in H as (u2 & h3 & ->%host_call_Ok & H).
  apply host_bind_Ok in H as (u3 & h4 & ->%host_call_Ok & H).
  apply host_bind_Ok in H as (u4 & h5 & ->%host_call_Ok & H).
  apply host_bind_Ok in H as (u5 & h6 & H6 & H).
  apply host_bind_Ok in H as (u6 & h7 & H7 & ->%host_call_Ok).
  apply (when_some_Ok _ _ (λ a h, add_host_route_v4 a i (add_egress_route_v4 a (nic_route nic i) h))) in H6;
    [|by intros a g u g' (? & ? & ->%host_call_Ok & ->%host_call_Ok)%host_bind_Ok].
  apply (when_some_Ok _ _ (λ a h, add_host_route_v6 a i (add_egress_route_v6 a (nic_route nic i) h))) in H7;
    [|by intros a g u g' (? & ? & ->%host_call_Ok & ->%host_call_Ok)%host_bind_Ok].
  unfold set_up, route_v4, route_v6. by rewrite H7, H6.
Qed.

(** All calls of a teardown succeed. *)
Definition td_all : TeardownEnv := MkTeardownEnv true true true true true.

(** A NIC whose device, routes and index are not on the host yet. *)
Record nic_new (nic : EbNic) (i : u32) (h : EbHost) : Prop := {
  new_tap : taps h !! ec_tap_name nic = None;
  new_managed : managed h !! ec_id nic = None;
  new_handler : handlers h !! i = None;
  new_v4 a : ec_ipv4_address nic = Some a → routes_v4 h !! a = None ∧ kroutes_v4 h !! a = None;
  new_v6 a : ec_ipv6_address nic = Some a → routes_v6 h !! a = None ∧ kroutes_v6 h !! a = None;
  new_index_v4 a : kroutes_v4 h !! a ≠ Some i;
  new_index_v6 a : kroutes_v6 h !! a ≠ Some i;
}.

Lemma filter_all_ne {K} `{Countable K} (m : gmap K u32) i :
  (∀ a, m !! a ≠ Some i) → filter (λ '(_, j), j ≠ i) m = m.
Proof. intros Hi. apply map_filter_id. intros a j Ha ->. by eapply Hi. Qed.

(** ** The fields of a host after setup and after teardown *)

Lemma set_up_fields nic network i h :
  let h' := set_up nic network i h in
  taps h' = <[ec_tap_name nic := i]> (taps h) ∧ ebpf_loaded h' = ebpf_loaded h ∧
  managed h' = <[ec_id nic := i]> (managed h) ∧
  handlers h' = <[i := (nic, network)]> (handlers h) ∧
  routes_v4 h' = match ec_ipv4_address nic with
    | Some a => if ebpf_loaded h then <[a := nic_route nic i]> (routes_v4 h) else routes_v4 h
    | None => routes_v4 h end ∧
  routes_v6 h' = match ec_ipv6_address nic with
    | Some a => if ebpf_loaded h then <[a := nic_route nic i]> (routes_v6 h) else routes_v6 h
    | None => routes_v6 h end ∧
  kroutes_v4 h' = match ec_ipv4_address nic with
    | Some a => if is_some (kroutes_v4 h !! a) then kroutes_v4 h else <[a := i]> (kroutes_v4 h)
    | None => kroutes_v4 h end ∧
  kroutes_v6 h' = match ec_ipv6_address nic with
    | Some a => if is_some (kroutes_v6 h !! a) then kroutes_v6 h else <[a := i]> (kroutes_v6 h)
    | None => kroutes_v6 h end.
Proof.
  cbv zeta. unfold set_up, route_v4, route_v6, register_nic, add_host_route_v4, add_host_route_v6,
    add_egress_route_v4, add_egress_route_v6.
  destruct h as [T L R4 R6 K4 K6 M Hd].
  destruct L, (ec_ipv4_address nic) as [a4|], (ec_ipv6_address nic) as [a6|]; cbn;
    try (destruct (K4 !! a4); cbn); try (destruct (K6 !! a6); cbn); split_and!; done.
Qed.

Definition drop_v4 (nic : EbNic) (oi : option u32) (m : gmap Ipv4Addr u32) : gmap Ipv4Addr u32 :=
  match ec_ipv4_address nic, oi with
  | Some a, Some i => if m !! a == Some i then delete a m else m
  | _, _ => m
  end.
Definition drop_v6 (nic : EbNic) (oi : option u32) (m : gmap Ipv6Addr u32) : gmap Ipv6Addr u32 :=
  match ec_ipv6_address nic, oi with
  | Some a, Some i => if m !! a == Some i then delete a m else m
  | _, _ => m
  end.
Definition drop_route (loaded : bool) (o : option N) (m : gmap N RouteEntry) : gmap N RouteEntry :=
  match o with Some a => if loaded then delete a m else m | None => m end.
Definition drop_dev (o : option u32) (m : gmap N u32) : gmap N u32 :=
  match o with Some i => filter (λ '(_, j), j ≠ i) m | None => m end.

Lemma unroute_v4_eq nic oi T L R4 R6 K4 K6 M Hd :
  unroute_v4 td_all nic oi (MkEbHost T L R4 R6 K4 K6 M Hd) =
  MkEbHost T L (drop_route L (ec_ipv4_address nic) R4) R6 (drop_v4 nic oi K4) K6 M Hd.
Proof.
  unfold unroute_v4, drop_v4, drop_route, try_call, remove_egress_route_v4, remove_host_route_v4.
  destruct (ec_ipv4_address nic) as [a|]; [|done]. destruct L, oi; cbn; try done;
    by case_bool_decide.
Qed.

Lemma unroute_v6_eq nic oi T L R4 R6 K4 K6 M Hd :
  unroute_v6 td_all nic oi (MkEbHost T L R4 R6 K4 K6 M Hd) =
  MkEbHost T L R4 (drop_route L (ec_ipv6_address nic) R6) K4 (drop_v6 nic oi K6) M Hd.
Proof.
  unfold unroute_v6, drop_v6, drop_route, try_call, remove_egress_route_v6, remove_host_route_v6.
  destruct (ec_ipv6_address nic) as [a|]; [|done]. destruct L, oi; cbn; try done;
    by case_bool_decide.
Qed.

Lemma teardown_eq nic h :
  let oi := managed h !! ec_id nic in
  teardown_nic td_all nic h = MkEbHost (delete (ec_tap_name nic) (taps h)) (ebpf_loaded h)
    (drop_route (ebpf_loaded h) (ec_ipv4_address nic) (routes_v4 h))
    (drop_route (ebpf_loaded h) (ec_ipv6_address nic) (routes_v6 h))
    (drop_dev (taps h !! ec_tap_name nic) (drop_v4 nic oi (kroutes_v4 h)))
    (drop_dev (taps h !! ec_tap_name nic) (drop_v6 nic oi (kroutes_v6 h)))
    (delete (ec_id nic) (managed h))
    (match oi with Some i => delete i (handlers h) | None => handlers h end).
Proof.
  destruct h as [T L R4 R6 K4 K6 M Hd]. cbv zeta. unfold teardown_nic. cbn [managed].
  assert (unmanage_nic nic (M !! ec_id nic) (MkEbHost T L R4 R6 K4 K6 M Hd) =
    MkEbHost T L R4 R6 K4 K6 (delete (ec_id nic) M)
      (match M !! ec_id nic with Some i => delete i Hd | None => Hd end)) as ->.
  { unfold unmanage_nic. destruct (M !! ec_id nic) eqn:E; cbn; [done|]. by rewrite delete_id. }
  rewrite unroute_v4_eq, unroute_v6_eq. unfold try_call, td_all, delete_tap_interface. cbn [taps td_tap].
  destruct (T !! ec_tap_name nic) eqn:E; cbn; [done|]. by rewrite (delete_id T).
Qed.

Lemma host_eq h h' :
  taps h = taps h' → ebpf_loaded h = ebpf_loaded h' → managed h = managed h' →
  handlers h = handlers h' → routes_v4 h = routes_v4 h' → routes_v6 h = routes_v6 h' →
  kroutes_v4 h = kroutes_v4 h' → kroutes_v6 h = kroutes_v6 h' → h = h'.
Proof. destruct h, h'. cbn. intros. by subst. Qed.


(** Two NICs with the same IPv4 address, as in two private networks with the same
    subnet, share one route. The later one takes the route of the earlier one over,
    and deleting the later one leaves the earlier one with no route, although it is
    still managed. *)
Theorem same_address_steals_route env1 env2 n1 n2 net1 net2 a h h1 h2 :
  ebpf_loaded h = true → ec_id n1 ≠ ec_id n2 →
  ec_ipv4_address n1 = Some a → ec_ipv4_address n2 = Some a →
  setup_nic env1 n1 net1 h = (Ok tt, h1) → setup_nic env2 n2 net2 h1 = (Ok tt, h2) →
  ∃ i1 i2, managed h2 !! ec_id n1 = Some i1 ∧
    routes_v4 h1 !! a = Some (nic_route n1 i1) ∧ routes_v4 h2 !! a = Some (nic_route n2 i2) ∧
    managed (teardown_nic td_all n2 h2) !! ec_id n1 = Some i1 ∧
    routes_v4 (teardown_nic td_all n2 h2) !! a = None.
Proof.
  intros Hl Hne H1 H2 (i1 & _ & ->)%setup_nic_Ok (i2 & _ & ->)%setup_nic_Ok.
  destruct (set_up_fields n1 net1 i1 h) as (_ & Sl & Sm & _ & S4 & _).
  set (g := set_up n1 net1 i1 h) in *.
  destruct (set_up_fields n2 net2 i2 g) as (_ & Sl' & Sm' & _ & S4' & _).
  set (g' := set_up n2 net2 i2 g) in *.
  rewrite H1, Hl in S4. rewrite H2, Sl, Hl in S4'. exists i1, i2.
  rewrite teardown_eq. cbn [managed routes_v4]. rewrite Sm', Sm, S4', S4, Sl', Sl, Hl, H2.
  rewrite lookup_delete_ne, !lookup_insert_ne, !lookup_insert_eq by done. cbn [drop_route].
  by rewrite lookup_delete_eq.
Qed.

(** Nothing after the first step of a setup touches the devices. *)
Definition keeps_taps {A} (m : HostM A) : Prop := ∀ h, taps (m h).2 = taps h.

Lemma keeps_bind {A B} (m : HostM A) (k : A → HostM B) :
  keeps_taps m → (∀ a, keeps_taps (k a)) → keeps_taps (host_bind m k).
Proof.
  intros Hm Hk h. unfold host_bind. specialize (Hm h). destruct (m h) as [[a|e] h1]; [|done].
  by rewrite (Hk a h1).
Qed.

Lemma keeps_call ok f : (∀ h, taps (f h) = taps h) → keeps_taps (host_call ok f).
Proof. intros Hf h. unfold host_call. destruct ok; [apply Hf|done]. Qed.

Lemma keeps_when {A} (o : option A) k : (∀ a, keeps_taps (k a)) → keeps_taps (when_some o k).
Proof. intros Hk h. by destruct o; [apply Hk|]. Qed.

Lemma setup_nic_tap env nic network h i :
  (String.length (ec_tap_name nic) <= 15)%nat →
  open_tap (taps h) (ec_tap_name nic) = Some i →
  taps (setup_nic env nic network h).2 = <[ec_tap_name nic := i]> (taps h).
Proof.
  intros Hl Ho. unfold setup_nic, host_bind at 1, create_persistent_tap.
  rewrite (proj2 (Nat.ltb_ge _ _)), Ho by lia.
  match goal with |- taps (?m ?h1).2 = _ => assert (K : keeps_taps m); [|by rewrite (K h1)] end.
  repeat (apply keeps_bind; [|intros _]);
    repeat first [apply keeps_when; intros ? | apply keeps_bind; [|intros _] | apply keeps_call];
    intros []; unfold add_egress_route_v4, add_egress_route_v6, add_host_route_v4, add_host_route_v6;
    try done; by case_match.
Qed.

(** A setup that fails after the device was created leaves it behind. The method
    answers with the error and deletes the row, but nothing removes the device, and
    no later request names it. *)
Theorem failed_create_leaks_device env nic network st e h i :
  nics (es_db st) !! ec_id nic = None → is_Some (networks (es_db st) !! ec_network_id nic) →
  (String.length (ec_tap_name nic) <= 15)%nat →
  open_tap (taps (es_host st)) (ec_tap_name nic) = Some i →
  setup_nic env nic network (es_host st) = (Err e, h) →
  ∃ st', commit_nic env network nic st = (Err e, st', []) ∧
    nics (es_db st') = nics (es_db st) ∧ taps (es_host st') !! ec_tap_name nic = Some i.
Proof.
  intros Hf [net Hnet] Hl Ho Hs. pose proof (setup_nic_tap env nic network _ _ Hl Ho) as Ht.
  rewrite Hs in Ht. cbn in Ht.
  unfold commit_nic, storage_create_nic. rewrite Hf, Hnet. cbn [is_some is_none orb negb map_err try_in].
  rewrite Hs. eexists. split; [done|]. cbn. rewrite delete_insert_id by done.
  split; [done|]. by rewrite Ht, lookup_insert_eq.
Qed.

End facts.

(** * Examples *)

Import Externals.Models NetModels HostModel.

Definition ex_host : EbHost := MkEbHost ∅ true ∅ ∅ ∅ ∅ ∅ ∅.
Definition ex_env : SetupEnv := MkSetupEnv true true true true true true true.
(** The routes cannot be installed. *)
Definition ex_no_routes : SetupEnv := MkSetupEnv true true true false true true true.
Definition ex_fresh (i : N) : EbFresh := MkEbFresh i "2026-01-01T00:00:00Z" [1; 2; 3; 4; 5; 6]%N.
Definition ex_network : CreateNetworkRequest :=
  MkCreateNetworkRequest "" "blue" true "10.0.0.0/24" false "" ["1.1.1.1"] [] true.
Definition ex_nic_in (id : N) : CreateNicRequest :=
  MkCreateNicRequest "" "eth0" (uuid_string id) "" "" "" [] [].
Definition ex_empty : EbState := MkEbState eb_empty ex_host [] [].
Definition ex_calls : list EbCall :=
  [CallCreateNetwork (ex_fresh 1) (true, true) ex_network;
   CallCreateNic (ex_fresh 2) ex_env (ex_nic_in 1);
   CallCreateNic (ex_fresh 3) ex_env (ex_nic_in 1)].
Definition ex_state : EbState := eb_serve ex_calls ex_empty.


Definition ex_net : EbNetwork :=
  MkEbNetwork 1 "blue" true (Some (167772160, 24)%N) false None [] [] false "" "".
Definition ex_nic (id : N) : EbNic :=
  MkEbNic id (Some "eth0") 1 [82; 84; 0; 1; 2; 3]%N (Some 167772162%N) None [] []
    (tap_name_from_nic_id id) NicCreated "" "".
Definition ex_one_net : EbState :=
  MkEbState (MkEbDb {[ 1%N := ex_net ]} ∅ ∅ ∅ ∅) ex_host [] [].
Definition ex_up (n : EbNic) (h : EbHost) : EbHost := (setup_nic ex_env n ex_net h).2.

Definition ex_planned (id : N) : EbNic :=
  MkEbNic id (Some "eth0") 1 [2; 2; 3; 4; 5; 6]%N (Some 167772162%N) None [] []
    (tap_name_from_nic_id id) NicCreated "2026-01-01T00:00:00Z" "2026-01-01T00:00:00Z".

(** Two requests planned on the same tables, then committed: both NICs get
    10.0.0.2. *)
Lemma concurrent_create_nic_duplicates_witness :
  ∃ st1 st2 ev1 ev2,
    commit_nic ex_env ex_net (ex_planned 2) ex_one_net = (Ok (ex_planned 2), st1, ev1) ∧
    commit_nic ex_env ex_net (ex_planned 18) st1 = (Ok (ex_planned 18), st2, ev2) ∧
    ec_ipv4_address <$> nics (es_db st2) !! 2%N = Some (Some 167772162%N) ∧
    ec_ipv4_address <$> nics (es_db st2) !! 18%N = Some (Some 167772162%N).
Proof.
  destruct (concurrent_create_nic_duplicates (ex_fresh 2) (ex_fresh 18) ex_env ex_env (ex_nic_in 1)
    (ex_nic_in 1) ex_net ex_net (ex_planned 2) (ex_planned 18) ex_one_net
    (ex_up (ex_planned 2) ex_host) (ex_up (ex_planned 18) (ex_up (ex_planned 2) ex_host)))
    as (st1 & st2 & ev1 & ev2 & C1 & C2 & N1 & N2 & _); [vm_refl|vm_refl|vm_refl|vm_refl|vm_refl|by eexists|done|vm_refl..|].
  exists st1, st2, ev1, ev2. split_and!; [exact C1|exact C2| |].
  - change 2%N with (ec_id (ex_planned 2)). by rewrite N1.
  - change 18%N with (ec_id (ex_planned 18)). by rewrite N2.
Defined.


(** Two NICs at 10.0.0.2: the first one ends up without a route. *)
Lemma same_address_steals_route_witness :
  let h2 := ex_up (ex_nic 18) (ex_up (ex_nic 2) ex_host) in
  let h3 := teardown_nic td_all (ex_nic 18) h2 in
  managed h3 !! 2%N = Some 1%N ∧ routes_v4 h3 !! 167772162%N = None.
Proof.
  cbv zeta. destruct (same_address_steals_route ex_env ex_env (ex_nic 2) (ex_nic 18)
    ex_net ex_net 167772162 ex_host (ex_up (ex_nic 2) ex_host)
    (ex_up (ex_nic 18) (ex_up (ex_nic 2) ex_host))) as (i1 & i2 & M & _ & _ & M' & R);
    [vm_refl|done|vm_refl..|].
  split; [|exact R]. etrans; [exact M'|]. rewrite <- M. vm_refl.
Defined.

Lemma failed_create_leaks_device_witness :
  ∃ st', (commit_nic ex_no_routes ex_net (ex_nic 2) ex_one_net).1.2 = st' ∧
    nics (es_db st') = ∅ ∧ taps (es_host st') !! ec_tap_name (ex_nic 2) = Some 1%N.
Proof.
  destruct (failed_create_leaks_device ex_no_routes (ex_nic 2) ex_net ex_one_net host_err
    (setup_nic ex_no_routes (ex_nic 2) ex_net ex_host).2 1)
    as (st' & C & N & T); [vm_refl|by eexists|apply Nat.leb_le; vm_refl|vm_refl..|].
  exists st'. by rewrite C.
Defined.
