(* ===== verification/Vmm.v ===== *)
(** The virtual machine monitor daemon of a node (mvirt-vmm): its tables
    (store.rs), the cloud-hypervisor processes it runs (hypervisor.rs), the VM
    service (grpc.rs) and the pod service (pod_service.rs).

    Calls to the operating system are inputs: what became of a spawn, which files
    exist. A process that exited stays in the process table until its parent waits
    for it. SQLite statements succeed unless a constraint of the schema forbids
    them. *)

From S2P Require Import Prelude Rpc.
Local Open Scope rpc_scope.

(** * States and configurations *)

Inductive VmState := VsUnspecified | VsStopped | VsStarting | VsRunning | VsStopping.
#[export] Instance VmState_eq : EqDecision VmState.
Proof. solve_decision. Defined.

(** The protobuf number of a state, [self.state.into()]. *)
Definition vm_state_code (s : VmState) : Z :=
  match s with
  | VsUnspecified => 0 | VsStopped => 1 | VsStarting => 2 | VsRunning => 3 | VsStopping => 4
  end.

Definition state_to_str (s : VmState) : string :=
  match s with
  | VsUnspecified => "unspecified" | VsStopped => "stopped" | VsStarting => "starting"
  | VsRunning => "running" | VsStopping => "stopping"
  end.
Definition str_to_state (s : string) : VmState :=
  if s == "stopped" then VsStopped else if s == "starting" then VsStarting
  else if s == "running" then VsRunning else if s == "stopping" then VsStopping
  else VsUnspecified.

Inductive BootMode := BootUnspecified | BootDisk | BootKernel.
(** [BootMode::try_from(mode).unwrap_or(BootMode::Disk)]. *)
Definition boot_mode (n : Z) : BootMode :=
  match n with 0 => BootUnspecified | 2 => BootKernel | _ => BootDisk end%Z.

Record DiskConfig := MkDiskConfig { dc_path : string; dc_readonly : bool }.
Record NicConfig := MkNicConfig {
  nc_tap : option string; nc_mac : option string; nc_vhost_socket : option string }.
Record VmConfig := MkVmConfig {
  vc_vcpus : u32; vc_memory_mb : u64; vc_boot_mode : Z; vc_kernel : option string;
  vc_initramfs : option string; vc_cmdline : option string; vc_disks : list DiskConfig;
  vc_nics : list NicConfig; vc_user_data : option string; vc_nested_virt : bool }.

(** A row of [vms]; the service hides the rows of pods from its list. *)
Record VmEntry := MkVmEntry {
  ve_id : string; ve_name : option string; ve_state : VmState; ve_config : VmConfig;
  ve_created_at : Z; ve_started_at : option Z; ve_microvm : bool }.
Record VmRuntime := MkVmRuntime { rt_pid : u32; rt_api_socket : string; rt_serial_socket : string }.

(** A process of the host that runs a VM. *)
Record Proc := MkProc { pr_vm : string; pr_exited : bool }.

Inductive VmEventType := VmEventCreated | VmEventStarted | VmEventStopped | VmEventDeleted.
Record VmEvent := MkVmEvent { ev_vm_id : string; ev_type : VmEventType; ev_vm : option VmEntry }.

(** Tables, child handles, processes of the host, and the events published. *)
Record Vmm := MkVmm {
  vms : gmap string VmEntry; runtimes : gmap string VmRuntime; processes : gmap string u32;
  procs : gmap u32 Proc; published : list VmEvent }.

#[export] Instance eta_VmEntry : Eta VmEntry := λ r,
  MkVmEntry (ve_id r) (ve_name r) (ve_state r) (ve_config r) (ve_created_at r) (ve_started_at r)
    (ve_microvm r).
#[export] Instance eta_Vmm : Eta Vmm := λ r,
  MkVmm (vms r) (runtimes r) (processes r) (procs r) (published r).

(** * The store *)

Section store.

(** The text SQLite gives for a violated constraint. *)
Context (constraint_error : string).

Definition create_internal (now : Z) (id : string) (name : option string) (config : VmConfig)
    (microvm : bool) : Rpc Vmm VmEntry :=
  let! s := rpc_get in
  if is_some (vms s !! id) then rpc_fail Internal constraint_error else
  let entry := MkVmEntry id name VsStopped config now None microvm in
  rpc_modify (λ s, s <| vms := <[id := entry]> (vms s) |>) ;! rpc_ret entry.

End store.

Definition list_all (s : Vmm) : list VmEntry := snd <$> map_to_list (vms s).
Definition vm_list (s : Vmm) : list VmEntry := List.filter (λ e, negb (ve_microvm e)) (list_all s).

(** [COALESCE(?, started_at)] with the time only when the state is Running. *)
Definition update_state (now : Z) (id : string) (st : VmState) (s : Vmm) : option VmEntry * Vmm :=
  match vms s !! id with
  | None => (None, s)
  | Some e =>
      let started := if st == VsRunning then Some now else ve_started_at e in
      let e := (e <| ve_state := st |>) <| ve_started_at := started |> in
      (Some e, s <| vms := <[id := e]> (vms s) |>)
  end.
Definition set_state (now : Z) (id : string) (st : VmState) (s : Vmm) : Vmm :=
  (update_state now id st s).2.

Definition set_runtime (id : string) (rt : VmRuntime) (s : Vmm) : Vmm :=
  s <| runtimes := <[id := rt]> (runtimes s) |>.
Definition clear_runtime (id : string) (s : Vmm) : Vmm :=
  s <| runtimes := delete id (runtimes s) |>.

Definition publish (id : string) (ty : VmEventType) (vm : option VmEntry) (s : Vmm) : Vmm :=
  s <| published := published s ++ [MkVmEvent id ty vm] |>.

(** * The command line of a hypervisor *)

Section args.
Context (data_dir firmware_path : string).

Definition vm_dir (id : string) : string := data_dir +:+ "/vm/" +:+ id.
Definition api_socket (id : string) : string := vm_dir id +:+ "/api.sock".
Definition cloudinit_iso (id : string) : string := vm_dir id +:+ "/cloudinit.iso".

Definition with_mac (mac : option string) (arg : string) : string :=
  match mac with Some m => arg +:+ ",mac=" +:+ m | None => arg end.
(** A TAP device goes first; a socket path says by its prefix what it is. *)
Definition net_args (nic : NicConfig) : list string :=
  match nc_tap nic, nc_vhost_socket nic with
  | Some tap, _ => ["--net"; with_mac (nc_mac nic) ("tap=" +:+ tap)]
  | None, Some spec =>
      match strip_prefix "vhost-user:" spec, strip_prefix "tap:" spec with
      | Some socket, _ =>
          ["--net"; with_mac (nc_mac nic) ("vhost_user=true,socket=" +:+ socket +:+ ",num_queues=2")]
      | None, Some tap => ["--net"; with_mac (nc_mac nic) ("tap=" +:+ tap)]
      | None, None =>
          ["--net"; with_mac (nc_mac nic) ("vhost_user=true,socket=" +:+ spec +:+ ",num_queues=2")]
      end
  | None, None => []
  end.

Definition serial_path (config : VmConfig) (id : string) : string :=
  match boot_mode (vc_boot_mode config) with
  | BootKernel => vm_dir id +:+ "/console.log"
  | _ => vm_dir id +:+ "/serial.sock"
  end.
Definition boot_args (config : VmConfig) (id : string) : option (list string) :=
  match boot_mode (vc_boot_mode config) with
  | BootKernel =>
      match vc_kernel config with
      | Some kernel => Some ["--kernel"; kernel; "--serial"; "file=" +:+ serial_path config id]
      | None => None
      end
  | _ => Some ["--kernel"; firmware_path; "--serial"; "socket=" +:+ serial_path config id]
  end.
Definition memory_arg (hugepages : bool) (config : VmConfig) : string :=
  "size=" +:+ pretty (vc_memory_mb config) +:+ "M"
  +:+ (if hugepages then ",hugepages=on" else "")
  +:+ (if existsb (λ n, is_some (nc_vhost_socket n)) (vc_nics config) then ",shared=on" else "").
Definition disk_arg (d : DiskConfig) : string :=
  "path=" +:+ dc_path d +:+ (if dc_readonly d then ",readonly=on" else "").
Definition disk_args (config : VmConfig) (id : string) : list string :=
  let disks := map disk_arg (vc_disks config)
    ++ match vc_user_data config with
       | Some _ => ["path=" +:+ cloudinit_iso id +:+ ",readonly=on"]
       | None => []
       end in
  match disks with [] => [] | _ => "--disk" :: disks end.
Definition kernel_args (config : VmConfig) : list string :=
  match boot_mode (vc_boot_mode config) with
  | BootKernel =>
      match vc_cmdline config with Some c => ["--cmdline"; c] | None => [] end
      ++ match vc_initramfs config with Some i => ["--initramfs"; i] | None => [] end
  | _ => []
  end.

(** [None] when kernel boot has no kernel. *)
Definition hypervisor_args (hugepages : bool) (id : string) (config : VmConfig) (vsock : option u32)
    : option (list string) :=
  boot ← boot_args config id;
  Some (["--api-socket"; "path=" +:+ api_socket id] ++ boot ++ ["--console"; "off"]
    ++ ["--cpus"; "boot=" +:+ pretty (vc_vcpus config)
          +:+ (if vc_nested_virt config then ",nested=on" else "")]
    ++ ["--memory"; memory_arg hugepages config] ++ disk_args config id ++ kernel_args config
    ++ concat (map net_args (vc_nics config))
    ++ match vsock with
       | Some cid => ["--vsock"; "cid=" +:+ pretty cid +:+ ",socket=" +:+ vm_dir id +:+ "/vsock.sock"]
       | None => []
       end).

(** * Processes *)

(** What became of a start: an error before there was a process, a process that
    exited within the first 100 ms (and was waited for), or one that runs; whether
    its runtime row could be stored. *)
Inductive Spawn :=
  | NotSpawned (error : string)
  | ExitedAtOnce (error : string)
  | Spawned (pid : u32) (stored : result string unit).

Definition hypervisor_start (env : Spawn) (id : string) (config : VmConfig) (s : Vmm)
    : result string unit * Vmm :=
  match boot_args config id with
  | None => (Err "Kernel boot mode requires kernel path", s)
  | Some _ =>
      match env with
      | NotSpawned e | ExitedAtOnce e => (Err e, s)
      | Spawned pid stored =>
          let s := s <| procs := <[pid := MkProc id false]> (procs s) |> in
          match stored with
          | Err e => (Err e, s)
          | Ok _ =>
              let s := set_runtime id (MkVmRuntime pid (api_socket id) (serial_path config id)) s in
              (Ok tt, s <| processes := <[id := pid]> (processes s) |>)
          end
      end
  end.

End args.

(** [kill(pid, 0)]: a process that exited still counts until it is waited for. *)
Definition is_process_alive (pid : u32) (s : Vmm) : bool := is_some (procs s !! pid).
Definition reap (pid : u32) (s : Vmm) : Vmm := s <| procs := delete pid (procs s) |>.

(** Dropping a child handle does not end the process; one that exited is reaped. *)
Definition drop_child (id : string) (s : Vmm) : Vmm :=
  let s' := s <| processes := delete id (processes s) |> in
  match processes s !! id with
  | Some pid =>
      match procs s !! pid with
      | Some p => if pr_exited p then reap pid s' else s'
      | None => s'
      end
  | None => s'
  end.

Definition cleanup (id : string) (s : Vmm) : Vmm := clear_runtime id (drop_child id s).

Definition is_running (id : string) (s : Vmm) : bool :=
  match processes s !! id with
  | Some pid => is_process_alive pid s
  | None =>
      match runtimes s !! id with Some rt => is_process_alive (rt_pid rt) s | None => false end
  end.

(** [Hypervisor::kill]: the child is killed and waited for; without a handle, the
    process of the runtime row is. *)
Definition hypervisor_kill (now : Z) (id : string) (s : Vmm) : Vmm :=
  let s :=
    match processes s !! id with
    | Some pid => reap pid (s <| processes := delete id (processes s) |>)
    | None =>
        match runtimes s !! id with Some rt => reap (rt_pid rt) s | None => s end
    end in
  cleanup id (set_state now id VsStopped s).

(** The wait loop of [Hypervisor::stop]: [polls] is how many times the process is
    looked at before the deadline, [world] what else happens between two looks. *)
Fixpoint wait_exit (now : Z) (polls : nat) (world : nat → Vmm → Vmm) (id : string) (s : Vmm) : Vmm :=
  if negb (is_running id s) then s
  else match polls with
       | O => hypervisor_kill now id s
       | S polls => wait_exit now polls (λ k, world (S k)) id (world O s)
       end.

(** One look every 100 ms; a timeout of zero does not wait at all. *)
Definition hypervisor_stop (now : Z) (timeout_seconds : u32) (world : nat → Vmm → Vmm) (id : string)
    (s : Vmm) : Vmm :=
  let s := if (0 <? timeout_seconds)%N
           then wait_exit now (10 * N.to_nat timeout_seconds) world id s else s in
  cleanup id s.

(** ** The watcher *)

Definition handle_vm_exit (now : Z) (s : Vmm) (id : string) : Vmm :=
  let s := set_state now id VsStopped (clear_runtime id (drop_child id s)) in
  publish id VmEventStopped (vms s !! id) s.

(** Tracked children that exited, which [try_wait] reaps. *)
Definition exited_children (s : Vmm) : list (string * u32) :=
  List.filter (λ '(_, pid), match procs s !! pid with Some p => pr_exited p | None => false end)
    (map_to_list (processes s)).
(** Rows marked running that have no child handle and no live process. *)
Definition lost_vms (s : Vmm) : list string :=
  ve_id <$> List.filter (λ e,
    (ve_state e == VsRunning) && is_none (processes s !! ve_id e)
    && match runtimes s !! ve_id e with
       | Some rt => negb (is_process_alive (rt_pid rt) s)
       | None => true
       end) (list_all s).

Definition check_processes (now : Z) (s : Vmm) : Vmm :=
  let gone := exited_children s in
  let s' := foldl (λ s '(_, pid), reap pid s) s gone in
  foldl (handle_vm_exit now) s' ((fst <$> gone) ++ lost_vms s').

(** ** Start-up *)

(** A new daemon has no child handles. *)
Definition restart (s : Vmm) : Vmm := s <| processes := ∅ |>.

(** Start-up looks at every VM that is not stopped; [files] says whether its console
    and its API socket exist. *)
Definition recover_vm (now : Z) (files : string → bool * bool) (s : Vmm) (e : VmEntry) : Vmm :=
  let id := ve_id e in
  let alive := match runtimes s !! id with
               | Some rt => is_process_alive (rt_pid rt) s
               | None => false
               end in
  let console := is_some (runtimes s !! id) && (files id).1 in
  if alive && console && (files id).2 then s
  else
    let s := match runtimes s !! id with
             | Some rt => if alive then reap (rt_pid rt) s else s
             | None => s
             end in
    clear_runtime id (set_state now id VsStopped s).
Definition recover_vms (now : Z) (files : string → bool * bool) (s : Vmm) : Vmm :=
  foldl (recover_vm now files) s
    (List.filter (λ e, (ve_state e == VsRunning) || (ve_state e == VsStarting)
                       || (ve_state e == VsStopping)) (list_all s)).

(** * The VM service *)

Section service.
Context (constraint_error data_dir firmware : string).

Definition vm_not_found (id : string) : string := "VM " +:+ id +:+ " not found".

Record CreateVmRequest := MkCreateVmRequest {
  cv_id : option string; cv_name : option string; cv_config : option VmConfig }.

(** [uuid] is the id drawn when the request has none. *)
Definition create_vm (now : Z) (uuid : string) (req : CreateVmRequest) : Rpc Vmm VmEntry :=
  let! config := rpc_some (cv_config req) InvalidArgument "config is required" in
  match boot_mode (vc_boot_mode config) with
  | BootKernel => rpc_guard (is_some (vc_kernel config)) InvalidArgument
                    "Kernel boot mode requires kernel path"
  | _ => rpc_guard (negb (Nat.eqb (length (vc_disks config)) 0)) InvalidArgument
           "Disk boot mode requires at least one disk"
  end ;!
  let id := match cv_id req with
            | Some id => if str_is_empty id then uuid else id
            | None => uuid
            end in
  let! entry := create_internal constraint_error now id (cv_name req) config false in
  rpc_modify (publish id VmEventCreated (Some entry)) ;! rpc_ret entry.

Definition get_vm (id : string) : Rpc Vmm VmEntry :=
  let! s := rpc_get in rpc_some (vms s !! id) NotFound (vm_not_found id).

Definition delete_vm (id : string) : Rpc Vmm unit :=
  let! entry := get_vm id in
  rpc_guard (negb (ve_state entry == VsRunning)) FailedPrecondition "Cannot delete running VM" ;!
  rpc_modify (λ s, publish id VmEventDeleted None (s <| vms := delete id (vms s) |>)).

(** A start reads the row and marks it; then the process is spawned and the row
    marked again. Other requests can run in between. *)
Definition start_begin (now : Z) (id : string) : Rpc Vmm VmEntry :=
  let! entry := get_vm id in
  rpc_guard (negb (ve_state entry == VsRunning)) FailedPrecondition "VM is already running" ;!
  rpc_modify (set_state now id VsStarting) ;! rpc_ret entry.
Definition start_finish (now : Z) (env : Spawn) (id : string) (entry : VmEntry) : Rpc Vmm VmEntry :=
  λ s,
    match hypervisor_start data_dir firmware env id (ve_config entry) s with
    | (Err e, s) => rpc_fail Internal ("Failed to start VM: " +:+ e) (set_state now id VsStopped s)
    | (Ok _, s) =>
        let '(updated, s) := update_state now id VsRunning s in
        (let! entry := rpc_some updated Internal "Failed to update VM state" in
         rpc_modify (publish id VmEventStarted (Some entry)) ;! rpc_ret entry) s
    end.
Definition start_vm (now : Z) (env : Spawn) (id : string) : Rpc Vmm VmEntry :=
  let! entry := start_begin now id in start_finish now env id entry.

(** A stop marks the row and answers; a task then waits for the process. *)
Definition stop_vm (now : Z) (id : string) : Rpc Vmm VmEntry :=
  let! entry := get_vm id in
  rpc_guard (ve_state entry == VsRunning) FailedPrecondition "VM is not running" ;!
  let! s := rpc_get in
  let! entry := rpc_some (update_state now id VsStopping s).1 Internal "Failed to update VM state" in
  rpc_modify (set_state now id VsStopping) ;! rpc_ret entry.
Definition stop_task (now : Z) (timeout_seconds : u32) (world : nat → Vmm → Vmm) (id : string)
    (s : Vmm) : Vmm :=
  set_state now id VsStopped (hypervisor_stop now timeout_seconds world id s).

Definition kill_vm (now : Z) (id : string) : Rpc Vmm VmEntry :=
  let! entry := get_vm id in
  rpc_guard ((ve_state entry == VsRunning) || (ve_state entry == VsStopping)) FailedPrecondition
    "VM is not running" ;!
  if ve_state entry == VsStopping then rpc_ret entry else
  let! s := rpc_get in
  let! entry := rpc_some (update_state now id VsStopping s).1 Internal "Failed to update VM state" in
  rpc_modify (set_state now id VsStopping) ;! rpc_ret entry.
Definition kill_task (now : Z) (id : string) (s : Vmm) : Vmm :=
  set_state now id VsStopped (hypervisor_kill now id s).

End service.

(** * Pods *)

Inductive PodState :=
  PodUnspecified | PodCreated | PodStarting | PodRunning | PodStopping | PodStopped | PodFailed.
#[export] Instance PodState_eq : EqDecision PodState.
Proof. solve_decision. Defined.

Record PodResources := MkPodResources { pr_vcpus : u32; pr_memory_mb : u64 }.
Record ContainerSpec := MkContainerSpec { cs_id : string; cs_name : string; cs_image : string }.
Record PodData := MkPodData {
  pd_id : string; pd_name : string; pd_state : PodState; pd_vm_id : option string;
  pd_containers : list ContainerSpec; pd_resources : option PodResources;
  pd_root_disk_path : option string; pd_nic_socket_path : option string;
  pd_nic_mac_address : option string; pd_ip_address : string; pd_created_at : Z;
  pd_started_at : option Z; pd_error_message : option string }.
#[export] Instance eta_PodData : Eta PodData := λ r,
  MkPodData (pd_id r) (pd_name r) (pd_state r) (pd_vm_id r) (pd_containers r) (pd_resources r)
    (pd_root_disk_path r) (pd_nic_socket_path r) (pd_nic_mac_address r) (pd_ip_address r)
    (pd_created_at r) (pd_started_at r) (pd_error_message r).

(** The pods, the connections to their guests, the disks that hold a root file
    system of a pod (with the number of times it was written) and the daemon. *)
Record PodService := MkPodService {
  pods : gmap string PodData; one_clients : gset string; disk_writes : gmap string nat; ps_vmm : Vmm }.
#[export] Instance eta_PodService : Eta PodService := λ r,
  MkPodService (pods r) (one_clients r) (disk_writes r) (ps_vmm r).

Definition POD_DEFAULT_MEMORY_MB : u64 := 256%N.
Definition POD_DEFAULT_VCPUS : u32 := 1%N.
Definition ONE_KERNEL_PATH : string := "/usr/share/mvirt/one/bzImage".

Section pods.
Context (constraint_error data_dir firmware : string).
(** [DefaultHasher] on a string: 64 bits. *)
Context (default_hash : string → u64).

(** [((hash % (u32::MAX - 3)) + 3) as u32]. *)
Definition vm_id_to_cid (vm_id : string) : u32 :=
  wrap 32 (default_hash vm_id `mod` (2 ^ 32 - 1 - 3) + 3)%N.

Definition pod_not_found (id : string) : string := "Pod " +:+ id +:+ " not found".

Definition create_pod (now : Z) (uuid : string) (ids : nat → string) (name : option string)
    (containers : list ContainerSpec) (resources : option PodResources)
    (root_disk nic_socket nic_mac : option string) : Rpc PodService PodData :=
  rpc_guard (negb (Nat.eqb (length containers) 0)) InvalidArgument
    "At least one container is required" ;!
  let containers := imap (λ i c,
    if str_is_empty (cs_id c) then MkContainerSpec (ids i) (cs_name c) (cs_image c) else c) containers in
  let name := match name with Some n => n | None => "pod-" +:+ String.substring 0 8 uuid end in
  let pod := MkPodData uuid name PodCreated None containers resources root_disk nic_socket nic_mac ""
               now None None in
  rpc_modify (λ s, s <| pods := <[uuid := pod]> (pods s) |>) ;! rpc_ret pod.

(** [if let Some(pod) = pods.get_mut(id) { .. }]. *)
Definition on_pod (id : string) (f : PodData → PodData) (s : PodService) : PodService :=
  match pods s !! id with
  | Some pod => s <| pods := <[id := f pod]> (pods s) |>
  | None => s
  end.
Definition pod_failed (message : string) (pod : PodData) : PodData :=
  (pod <| pd_state := PodFailed |>) <| pd_error_message := Some message |>.
Definition on_vmm (f : Vmm → Vmm) (s : PodService) : PodService := s <| ps_vmm := f (ps_vmm s) |>.

(** What the steps of a start meet: [None] is success. *)
Record PodEnv := MkPodEnv {
  pe_dd : option string; pe_dir : option string; pe_listener : option string; pe_spawn : Spawn;
  pe_ready : option string; pe_connect : option string; pe_start : option string;
  pe_cmdline : string }.

Definition pod_config (env : PodEnv) (pod : PodData) (root_disk : string) : VmConfig :=
  let vcpus := match pd_resources pod with
               | Some r => if (0 <? pr_vcpus r)%N then pr_vcpus r else POD_DEFAULT_VCPUS
               | None => POD_DEFAULT_VCPUS
               end in
  let memory := match pd_resources pod with
                | Some r => if (0 <? pr_memory_mb r)%N then pr_memory_mb r else POD_DEFAULT_MEMORY_MB
                | None => POD_DEFAULT_MEMORY_MB
                end in
  let nics := match pd_nic_socket_path pod with
              | Some socket => [MkNicConfig None (pd_nic_mac_address pod) (Some socket)]
              | None => []
              end in
  MkVmConfig vcpus memory 2 (Some ONE_KERNEL_PATH) None (Some (pe_cmdline env))
    [MkDiskConfig root_disk false] nics None false.

(** Mark the pod failed and end the method. *)
Definition pod_abort {A} (id message : string) (code : Code) : Rpc PodService A :=
  rpc_modify (on_pod id (pod_failed message)) ;! rpc_fail code message.
Definition pod_step (id : string) (outcome : option string) (what : string) : Rpc PodService unit :=
  match outcome with
  | None => rpc_ret tt
  | Some e => pod_abort id (what +:+ e) Internal
  end.

(** Run a call of the daemon inside the pod service. *)
Definition lift_vmm {A} (m : Rpc Vmm A) : Rpc PodService A := λ s,
  let '(r, v) := m (ps_vmm s) in (r, s <| ps_vmm := v |>).

Definition write_rootfs (disk : string) (s : PodService) : PodService :=
  s <| disk_writes := <[disk := S (default 0%nat (disk_writes s !! disk))]> (disk_writes s) |>.

(** The guest did not come up: its process is killed and the pod marked failed. *)
Definition pod_boot_failed {A} (now : Z) (id message : string) : Rpc PodService A :=
  rpc_modify (on_vmm (λ v, set_state now id VsStopped (hypervisor_kill now id v))) ;!
  pod_abort id message Internal.

Definition start_pod (now : Z) (env : PodEnv) (id : string) : Rpc PodService PodData :=
  let! s := rpc_get in
  let! pod := rpc_some (pods s !! id) NotFound (pod_not_found id) in
  rpc_guard (negb (pd_state pod == PodRunning)) FailedPrecondition "Pod is already running" ;!
  rpc_modify (on_pod id (λ p, p <| pd_state := PodStarting |>)) ;!
  match pd_root_disk_path pod with
  | None =>
      rpc_modify (on_pod id (pod_failed "No root disk path provided. Create volume first.")) ;!
      rpc_fail FailedPrecondition "No root disk path provided. Create volume with CLI first."
  | Some disk =>
      rpc_modify (write_rootfs disk) ;!
      match pe_dd env with
      | Some e => pod_abort id e Internal
      | None =>
          let config := pod_config env pod disk in
          let! s := rpc_get in
          match create_internal constraint_error now id (Some (pd_name pod)) config true (ps_vmm s) with
          | (Err e, _) => pod_abort id ("Failed to create VM entry: " +:+ rs_message e) Internal
          | (Ok _, v) =>
              rpc_modify (on_vmm (λ _, v)) ;!
              pod_step id (pe_dir env) "Failed to prepare VM directory: " ;!
              pod_step id (pe_listener env) "Failed to create ready listener: " ;!
              rpc_modify (on_vmm (set_state now id VsStarting)) ;!
              let! s := rpc_get in
              match hypervisor_start data_dir firmware (pe_spawn env) id config (ps_vmm s) with
              | (Err e, v) =>
                  rpc_modify (on_vmm (λ _, set_state now id VsStopped v)) ;!
                  pod_abort id ("Failed to start MicroVM: " +:+ e) Internal
              | (Ok _, v) =>
                  rpc_modify (on_vmm (λ _, set_state now id VsRunning v)) ;!
                  match pe_ready env, pe_connect env with
                  | Some e, _ => pod_boot_failed now id ("Ready signal failed: " +:+ e)
                  | None, Some e => pod_boot_failed now id ("vsock connection failed: " +:+ e)
                  | None, None =>
                      rpc_modify (λ s, s <| one_clients := {[ id ]} ∪ one_clients s |>) ;!
                      match pe_start env with
                      | Some e => rpc_modify (on_pod id (λ p,
                          p <| pd_error_message := Some ("Container start failed: " +:+ e) |>))
                      | None => rpc_ret tt
                      end ;!
                      rpc_modify (on_pod id (λ p,
                        (((p <| pd_state := PodRunning |>) <| pd_vm_id := Some id |>)
                            <| pd_started_at := Some now |>) <| pd_error_message := None |>)) ;!
                      let! s := rpc_get in
                      rpc_some (pods s !! id) Internal ""
                  end
              end
          end
      end
  end.

Definition stop_pod (now : Z) (world : nat → Vmm → Vmm) (timeout_seconds : u32) (id : string)
    : Rpc PodService PodData :=
  let! s := rpc_get in
  let! pod := rpc_some (pods s !! id) NotFound (pod_not_found id) in
  rpc_guard (pd_state pod == PodRunning) FailedPrecondition "Pod is not running" ;!
  rpc_modify (on_pod id (λ p, p <| pd_state := PodStopping |>)) ;!
  let timeout := if (0 <? timeout_seconds)%N then timeout_seconds else 10%N in
  match pd_vm_id pod with
  | Some vm =>
      rpc_modify (λ s, s <| one_clients := one_clients s ∖ {[ id ]} |>) ;!
      rpc_modify (on_vmm (λ v, set_state now vm VsStopped (hypervisor_stop now timeout world vm v)))
  | None => rpc_ret tt
  end ;!
  rpc_modify (on_pod id (λ p, (p <| pd_state := PodStopped |>) <| pd_vm_id := None |>)) ;!
  let! s := rpc_get in rpc_some (pods s !! id) Internal "".

Definition delete_pod (now : Z) (force : bool) (id : string) : Rpc PodService unit :=
  let! s := rpc_get in
  let! pod := rpc_some (pods s !! id) NotFound (pod_not_found id) in
  rpc_guard (negb ((pd_state pod == PodRunning) && negb force)) FailedPrecondition
    "Pod is running. Use force=true to delete anyway" ;!
  match pd_vm_id pod with
  | Some vm =>
      rpc_modify (λ s, s <| one_clients := one_clients s ∖ {[ id ]} |>) ;!
      rpc_modify (on_vmm (hypervisor_kill now vm))
  | None => rpc_ret tt
  end ;!
  rpc_modify (on_vmm (λ v, v <| vms := delete id (vms v) |>)) ;!
  rpc_modify (λ s, s <| pods := delete id (pods s) |>).

End pods.
