(* ===== verification/VmmFacts.v ===== *)
(** Theorems on the virtual machine monitor daemon: one process per VM as long as
    VMs are started and deleted only when they are stopped, what stopping and the
    watcher achieve, and what goes wrong when requests overlap. *)

From S2P Require Import Prelude Rpc Vmm.

(** The text form of a state reads back. *)
Lemma state_str_roundtrip s : str_to_state (state_to_str s) = s.
Proof. by destruct s. Qed.

(** * The invariant *)

Definition active (st : VmState) : Prop := st = VsRunning ∨ st = VsStopping.

Record vmm_ok (s : Vmm) : Prop := {
  ok_key id e : vms s !! id = Some e → ve_id e = id;
  ok_child id pid : processes s !! id = Some pid →
    ∃ rt, runtimes s !! id = Some rt ∧ rt_pid rt = pid;
  ok_proc pid p : procs s !! pid = Some p →
    ∃ rt, runtimes s !! pr_vm p = Some rt ∧ rt_pid rt = pid;
  ok_runtime id rt : runtimes s !! id = Some rt →
    ∃ e, vms s !! id = Some e ∧ active (ve_state e);
  ok_pid id rt p : runtimes s !! id = Some rt → procs s !! rt_pid rt = Some p → pr_vm p = id;
}.

(** No process runs the VM. *)
Definition no_proc (id : string) (s : Vmm) : Prop := ∀ pid p, procs s !! pid = Some p → pr_vm p ≠ id.

(** A stopped VM has no process, no handle and no runtime row. *)
Lemma stopped_idle s id e :
  vmm_ok s → vms s !! id = Some e → ¬ active (ve_state e) →
  runtimes s !! id = None ∧ processes s !! id = None ∧ no_proc id s.
Proof.
  intros H He Ha.
  assert (Hr : runtimes s !! id = None).
  { destruct (runtimes s !! id) as [rt|] eqn:E; [|done].
    destruct (ok_runtime s H _ _ E) as (e' & ? & ?). by simplify_eq. }
  split; [done|]. split.
  - destruct (processes s !! id) as [pid|] eqn:E; [|done].
    destruct (ok_child s H _ _ E) as (? & ? & _). congruence.
  - intros pid p Hp <-. destruct (ok_proc s H _ _ Hp) as (? & ? & _). congruence.
Qed.

Lemma not_running_no_proc s id : vmm_ok s → is_running id s = false → no_proc id s.
Proof.
  intros H Hr pid p Hp <-. destruct (ok_proc s H _ _ Hp) as (rt & Hrt & <-).
  unfold is_running, is_process_alive in Hr.
  destruct (processes s !! pr_vm p) as [pid'|] eqn:E.
  - destruct (ok_child s H _ _ E) as (rt' & Hrt' & <-). rewrite Hrt in Hrt'. injection Hrt' as <-.
    by rewrite Hp in Hr.
  - by rewrite Hrt, Hp in Hr.
Qed.

(** ** Building blocks *)

Lemma update_state_vms now id st s e :
  vms s !! id = Some e →
  ∃ e', vms (set_state now id st s) = <[id := e']> (vms s) ∧ ve_state e' = st ∧ ve_id e' = ve_id e ∧
    ve_config e' = ve_config e ∧ (update_state now id st s).1 = Some e'.
Proof. intros He. unfold set_state, update_state. rewrite He. eexists. done. Qed.

Lemma set_state_fields now id st s :
  runtimes (set_state now id st s) = runtimes s ∧ processes (set_state now id st s) = processes s ∧
  procs (set_state now id st s) = procs s ∧ published (set_state now id st s) = published s.
Proof. unfold set_state, update_state. by destruct (vms s !! id). Qed.

Lemma set_state_lookup now id st s i :
  vms (set_state now id st s) !! i =
    if decide (i = id) then (λ e, (e <| ve_state := st |>) <| ve_started_at :=
        if st == VsRunning then Some now else ve_started_at e |>) <$> vms s !! id
    else vms s !! i.
Proof.
  unfold set_state, update_state. destruct (vms s !! id) as [e|] eqn:E; cbn.
  - destruct (decide (i = id)) as [->|]; [by rewrite lookup_insert_eq|by rewrite lookup_insert_ne].
  - by destruct (decide (i = id)) as [->|].
Qed.

(** Changing the state of a row keeps the invariant when the row has no runtime
    entry or stays active. *)
Lemma ok_set_state now id st s :
  vmm_ok s → (active st ∨ runtimes s !! id = None) → vmm_ok (set_state now id st s).
Proof.
  intros H Hst. destruct (set_state_fields now id st s) as (Er & Ep & Eo & _).
  split; rewrite ?Er, ?Ep, ?Eo.
  - intros i e. rewrite set_state_lookup. destruct (decide (i = id)) as [->|]; [|apply H].
    destruct (vms s !! id) as [e0|] eqn:E; [|done]. intros [= <-]. exact (ok_key s H _ _ E).
  - apply H.
  - apply H.
  - intros i rt Hi. destruct (ok_runtime s H _ _ Hi) as (e & He & Ha). rewrite set_state_lookup.
    destruct (decide (i = id)) as [->|]; [|by exists e]. rewrite He. eexists. split; [done|].
    destruct Hst as [Hst|Hst]; [done|congruence].
  - apply H.
Qed.

Lemma ok_reap pid s : vmm_ok s → vmm_ok (reap pid s).
Proof.
  intros H. split; cbn; [apply H|apply H| |apply H|].
  - intros q p Hq. apply lookup_delete_Some in Hq as [_ Hq]. by apply (ok_proc s H).
  - intros i rt p Hi Hq. apply lookup_delete_Some in Hq as [_ Hq]. by eapply (ok_pid s H).
Qed.

Lemma ok_drop_child id s : vmm_ok s → vmm_ok (drop_child id s).
Proof.
  intros H. assert (H' : vmm_ok (s <| processes := delete id (processes s) |>)).
  { split; cbn; [apply H| |apply H|apply H|apply H].
    intros i pid Hi. apply lookup_delete_Some in Hi as [_ Hi]. by apply (ok_child s H). }
  unfold drop_child. destruct (processes s !! id) as [pid|]; [|done].
  destruct (procs s !! pid) as [p|]; [|done]. destruct (pr_exited p); [by apply ok_reap|done].
Qed.

Lemma drop_child_fields id s :
  vms (drop_child id s) = vms s ∧ runtimes (drop_child id s) = runtimes s ∧
  processes (drop_child id s) = delete id (processes s) ∧ procs (drop_child id s) ⊆ procs s ∧
  published (drop_child id s) = published s.
Proof.
  unfold drop_child. destruct (processes s !! id) as [pid|]; [|done].
  destruct (procs s !! pid) as [p|]; [|done]. destruct (pr_exited p); [|done].
  cbn. split_and!; [done..| |done]. apply delete_subseteq.
Qed.

Lemma no_proc_mono id s s' : procs s' ⊆ procs s → no_proc id s → no_proc id s'.
Proof. intros Hsub H pid p Hp. eapply H. by eapply lookup_weaken. Qed.

(** Taking a VM without a process off the books. *)
Lemma ok_retire now id s :
  vmm_ok s → no_proc id s → vmm_ok (set_state now id VsStopped (clear_runtime id (drop_child id s))).
Proof.
  intros H Hn. pose proof (ok_drop_child id s H) as Hd.
  destruct (drop_child_fields id s) as (Ev & Er & Ep & Eo & _).
  apply (no_proc_mono _ _ _ Eo) in Hn.
  apply ok_set_state; [|right; cbn; by rewrite lookup_delete_eq].
  split; cbn; [apply Hd| | | |].
  - intros i pid Hi. destruct (decide (i = id)) as [->|Hne].
    + rewrite Ep, lookup_delete_eq in Hi. done.
    + rewrite lookup_delete_ne by done. by apply (ok_child _ Hd).
  - intros pid p Hp. rewrite lookup_delete_ne by (symmetry; by eapply Hn). by apply (ok_proc _ Hd).
  - intros i rt Hi. apply lookup_delete_Some in Hi as [_ Hi]. by apply (ok_runtime _ Hd _ _ Hi).
  - intros i rt p Hi Hp. apply lookup_delete_Some in Hi as [_ Hi]. by eapply (ok_pid _ Hd).
Qed.

Lemma retire_fields now id s :
  let s' := set_state now id VsStopped (clear_runtime id (drop_child id s)) in
  runtimes s' = delete id (runtimes s) ∧ processes s' = delete id (processes s) ∧
  procs s' ⊆ procs s ∧ published s' = published s.
Proof.
  cbv zeta. destruct (drop_child_fields id s) as (Ev & Er & Ep & Eo & Eu).
  destruct (set_state_fields now id VsStopped (clear_runtime id (drop_child id s))) as (-> & -> & -> & ->).
  cbn. by rewrite Er, Ep.
Qed.

Lemma ok_publish id ty vm s : vmm_ok s → vmm_ok (publish id ty vm s).
Proof. intros H. split; cbn; apply H. Qed.

Lemma ok_handle_vm_exit now id s : vmm_ok s → no_proc id s → vmm_ok (handle_vm_exit now s id).
Proof. intros H Hn. apply ok_publish. by apply ok_retire. Qed.

Lemma handle_vm_exit_procs now id s : procs (handle_vm_exit now s id) ⊆ procs s.
Proof. unfold handle_vm_exit. cbn. apply retire_fields. Qed.

(** ** The watcher *)

Lemma reap_all_fields (l : list (string * u32)) s :
  let s' := foldl (λ s '(_, pid), reap pid s) s l in
  vms s' = vms s ∧ runtimes s' = runtimes s ∧ processes s' = processes s ∧ procs s' ⊆ procs s ∧
  published s' = published s ∧ (vmm_ok s → vmm_ok s') ∧ ∀ id pid, (id, pid) ∈ l → procs s' !! pid = None.
Proof.
  cbv zeta. revert s. induction l as [|[i q] l IH]; intros s; cbn [foldl].
  { split_and!; [done..|]. intros ? ? H%elem_of_nil. done. }
  destruct (IH (reap q s)) as (E1 & E2 & E3 & E4 & E5 & E6 & E7).
  split_and!; [done|done|done| |done|by intros H; apply E6, ok_reap|].
  - etrans; [exact E4|]. apply delete_subseteq.
  - intros id pid [[= <- <-]|H]%elem_of_cons; [|by eapply E7].
    apply (lookup_weaken_None _ _ _ (lookup_delete_eq (procs s) pid) E4).
Qed.

Lemma exited_child_gone s id pid :
  vmm_ok s → (id, pid) ∈ exited_children s →
  no_proc id (foldl (λ s '(_, pid), reap pid s) s (exited_children s)).
Proof.
  intros H Hin q p Hq Hp.
  destruct (reap_all_fields (exited_children s) s) as (_ & Er & Ec & _ & _ & Hok & Hnone).
  destruct (ok_proc _ (Hok H) _ _ Hq) as (rt & Hrt & <-). rewrite Hp, Er in Hrt.
  pose proof Hin as Hc. apply list_elem_of_In, filter_In in Hc as [Hc _].
  apply list_elem_of_In, elem_of_map_to_list in Hc.
  destruct (ok_child s H _ _ Hc) as (rt' & Hrt' & <-). rewrite Hrt in Hrt'. injection Hrt' as <-.
  by rewrite (Hnone _ _ Hin) in Hq.
Qed.

Lemma lost_vm_gone s id : vmm_ok s → id ∈ lost_vms s → no_proc id s.
Proof.
  intros H Hin. apply not_running_no_proc; [done|]. unfold lost_vms in Hin.
  apply list_elem_of_fmap in Hin as (e & -> & Hin).
  apply list_elem_of_In, filter_In in Hin as [_ Hb].
  rewrite !andb_true_iff in Hb. destruct Hb as [[_ Hn] Hb]. unfold is_running.
  destruct (processes s !! ve_id e); [done|].
  destruct (runtimes s !! ve_id e); [by apply negb_true_iff in Hb|done].
Qed.

Definition row_stopped (id : string) (s : Vmm) : Prop :=
  ∀ e, vms s !! id = Some e → ve_state e = VsStopped.

Lemma row_stopped_exit now id i s : row_stopped i s → row_stopped i (handle_vm_exit now s id).
Proof.
  intros H e. unfold handle_vm_exit. cbn. rewrite set_state_lookup. cbn.
  destruct (drop_child_fields id s) as (-> & _). destruct (decide (i = id)) as [->|]; [|apply H].
  destruct (vms s !! id) as [e0|]; [|done]. by intros [= <-].
Qed.

Lemma exit_row_stopped now id s : row_stopped id (handle_vm_exit now s id).
Proof.
  intros e. unfold handle_vm_exit. cbn. rewrite set_state_lookup. cbn. rewrite decide_True by done.
  destruct (drop_child_fields id s) as (-> & _). destruct (vms s !! id) as [e0|]; [|done].
  by intros [= <-].
Qed.

Lemma exits_ok now ids s :
  vmm_ok s → (∀ id, id ∈ ids → no_proc id s) →
  let s' := foldl (handle_vm_exit now) s ids in
  vmm_ok s' ∧ procs s' ⊆ procs s ∧
  (∀ id, id ∈ ids ∨ row_stopped id s → row_stopped id s') ∧
  ∀ id, id ∈ ids → ∃ vm, MkVmEvent id VmEventStopped vm ∈ published s'.
Proof.
  cbv zeta. assert (Hkeep : ∀ ids s ev, ev ∈ published s →
    ev ∈ published (foldl (handle_vm_exit now) s ids)).
  { clear. intros ids. induction ids as [|i ids IH]; intros s ev H; [done|]. cbn. apply IH.
    unfold handle_vm_exit, publish. cbn. destruct (retire_fields now i s) as (_ & _ & _ & ->).
    apply elem_of_app. by left. }
  revert s. induction ids as [|i ids IH]; intros s H Hn; cbn [foldl].
  { split_and!; [done|done| |]; [|by intros ? ?%elem_of_nil]. by intros id [?%elem_of_nil|]. }
  pose proof (handle_vm_exit_procs now i s) as Hsub.
  destruct (IH (handle_vm_exit now s i)) as (H1 & H2 & H3 & H4).
  { apply ok_handle_vm_exit; [done|]. apply Hn. by left. }
  { intros j Hj. eapply no_proc_mono; [exact Hsub|]. apply Hn. by right. }
  split_and!; [done|by etrans| |].
  - intros j [[->|Hj]%elem_of_cons|Hj]; apply H3; [right; apply exit_row_stopped|by left|].
    right. by apply row_stopped_exit.
  - intros j [->|Hj]%elem_of_cons; [|by apply H4].
    eexists. apply Hkeep. unfold handle_vm_exit, publish. cbn. apply elem_of_app. right. by left.
Qed.

Lemma check_processes_ok now s :
  vmm_ok s →
  let s' := check_processes now s in
  vmm_ok s' ∧ procs s' ⊆ procs s ∧
  ∀ id pid p, processes s !! id = Some pid → procs s !! pid = Some p → pr_exited p = true →
    row_stopped id s' ∧ no_proc id s' ∧ ∃ vm, MkVmEvent id VmEventStopped vm ∈ published s'.
Proof.
  intros H. cbv zeta. unfold check_processes.
  destruct (reap_all_fields (exited_children s) s) as (_ & _ & _ & Hsub & _ & Hok & _).
  pose proof (exited_child_gone s) as Hgone.
  set (s1 := foldl (λ s '(_, pid), reap pid s) s (exited_children s)) in *. specialize (Hok H).
  set (ids := (exited_children s).*1 ++ lost_vms s1).
  assert (Hn : ∀ id, id ∈ ids → no_proc id s1).
  { intros id [Hid|Hid]%elem_of_app; [|by apply lost_vm_gone].
    apply list_elem_of_fmap in Hid as ([i pid] & -> & Hin). by eapply Hgone. }
  destruct (exits_ok now ids s1 Hok Hn) as (H1 & H2 & H3 & H4).
  split_and!; [done|by etrans|]. intros id pid p Hc Hp Hx.
  assert (Hid : id ∈ ids).
  { apply elem_of_app. left. apply list_elem_of_fmap. exists (id, pid). split; [done|].
    unfold exited_children. apply list_elem_of_In, filter_In. rewrite Hp. split; [|done].
    apply list_elem_of_In. by apply elem_of_map_to_list. }
  split_and!; [by apply H3; left| |by apply H4].
  eapply no_proc_mono; [exact H2|]. by apply Hn.
Qed.

(** ** Stopping *)

Lemma cleanup_set_state now id st s :
  cleanup id (set_state now id st s) = set_state now id st (clear_runtime id (drop_child id s)).
Proof.
  unfold cleanup, set_state, update_state, drop_child, reap. cbn.
  destruct (vms s !! id) as [e|] eqn:E; cbn; destruct (processes s !! id) as [pid|]; cbn;
    rewrite ?E; try done; destruct (procs s !! pid) as [p|]; cbn; rewrite ?E; try done;
    destruct (pr_exited p); cbn; by rewrite ?E.
Qed.

Lemma retire_row_stopped now id s :
  row_stopped id (set_state now id VsStopped (clear_runtime id (drop_child id s))).
Proof.
  intros e. rewrite set_state_lookup, decide_True by done. cbn.
  destruct (drop_child_fields id s) as (-> & _). destruct (vms s !! id); [|done]. by intros [= <-].
Qed.

(** The books are closed: nothing of the VM is left but its row, stopped. *)
Definition vm_down (id : string) (s : Vmm) : Prop :=
  row_stopped id s ∧ no_proc id s ∧ runtimes s !! id = None ∧ processes s !! id = None.

Lemma retire_down now id s :
  vmm_ok s → no_proc id s →
  let s' := set_state now id VsStopped (clear_runtime id (drop_child id s)) in
  vmm_ok s' ∧ vm_down id s'.
Proof.
  intros H Hn. cbv zeta. destruct (retire_fields now id s) as (Er & Ep & Eo & _).
  split; [by apply ok_retire|]. split; [apply retire_row_stopped|]. rewrite Er, Ep.
  split; [by eapply no_proc_mono|]. by rewrite !lookup_delete_eq.
Qed.

(** Without its process, handle known or not, a VM has none. *)
Lemma reap_runtime_no_proc s s' id rt :
  vmm_ok s → runtimes s !! id = Some rt → procs s' = delete (rt_pid rt) (procs s) → no_proc id s'.
Proof.
  intros H Hrt E pid p Hp <-. rewrite E in Hp. apply lookup_delete_Some in Hp as [Hne Hp].
  destruct (ok_proc s H _ _ Hp) as (rt' & Hrt' & <-). congruence.
Qed.

(** Killing takes the process of the VM away, whichever way it is known. *)
Lemma kill_down now id s :
  vmm_ok s → vmm_ok (hypervisor_kill now id s) ∧ vm_down id (hypervisor_kill now id s).
Proof.
  intros H. unfold hypervisor_kill. rewrite cleanup_set_state. apply retire_down.
  - destruct (processes s !! id) as [pid|] eqn:Ec.
    + apply ok_reap. split; cbn; [apply H| |apply H|apply H|apply H].
      intros i q Hi. apply lookup_delete_Some in Hi as [_ Hi]. by apply (ok_child s H).
    + destruct (runtimes s !! id); [by apply ok_reap|done].
  - destruct (processes s !! id) as [pid|] eqn:Ec.
    + destruct (ok_child s H _ _ Ec) as (rt & Hrt & <-). by eapply reap_runtime_no_proc.
    + destruct (runtimes s !! id) as [rt|] eqn:Er; [by eapply reap_runtime_no_proc|].
      apply not_running_no_proc; [done|]. unfold is_running. by rewrite Ec, Er.
Qed.

(** The wait ends, with no process of the VM left, however the rest of the daemon
    and of the host move on in the meantime. *)
Lemma wait_exit_ends now polls world id s :
  vmm_ok s → (∀ k s, vmm_ok s → vmm_ok (world k s)) →
  vmm_ok (wait_exit now polls world id s) ∧ no_proc id (wait_exit now polls world id s).
Proof.
  revert world s. induction polls as [|n IH]; intros world s H Hw; cbn;
    destruct (is_running id s) eqn:E; cbn.
  - destruct (kill_down now id s H) as (? & ? & ? & ?). done.
  - split; [done|by apply not_running_no_proc].
  - apply IH; [by apply Hw|]. intros k s'. apply Hw.
  - split; [done|by apply not_running_no_proc].
Qed.

Lemma stop_task_down now timeout world id s :
  vmm_ok s → (∀ k s, vmm_ok s → vmm_ok (world k s)) → (0 < timeout)%N →
  vmm_ok (stop_task now timeout world id s) ∧ vm_down id (stop_task now timeout world id s).
Proof.
  intros H Hw Ht. unfold stop_task, hypervisor_stop. rewrite (proj2 (N.ltb_lt _ _)) by done.
  destruct (wait_exit_ends now (10 * N.to_nat timeout) world id s H Hw). by apply retire_down.
Qed.

Lemma set_state_down now id st s : vm_down id s → st = VsStopped → vmm_ok s →
  vmm_ok (set_state now id st s) ∧ vm_down id (set_state now id st s).
Proof.
  intros (Hr & Hn & Er & Ep) -> H. destruct (set_state_fields now id VsStopped s) as (E1 & E2 & E3 & _).
  split; [apply ok_set_state; auto|]. split; [|by unfold no_proc; rewrite E1, E2, E3].
  intros e. rewrite set_state_lookup, decide_True by done. destruct (vms s !! id); [|done].
  by intros [= <-].
Qed.

(** ** Starting *)

(** A process number that is neither in use nor still recorded. *)
Definition pid_fresh (pid : u32) (s : Vmm) : Prop :=
  procs s !! pid = None ∧ ∀ id rt, runtimes s !! id = Some rt → rt_pid rt ≠ pid.
(** The runtime row of a spawned process gets stored. *)
Definition spawn_ok (env : Spawn) (s : Vmm) : Prop :=
  match env with Spawned pid stored => stored = Ok tt ∧ pid_fresh pid s | _ => True end.

Section facts.
Context (constraint_error data_dir firmware : string).

(** The process, its runtime row and its handle. *)
Definition spawned (id : string) (pid : u32) (config : VmConfig) (s : Vmm) : Vmm :=
  (set_runtime id (MkVmRuntime pid (api_socket data_dir id) (serial_path data_dir config id))
    (s <| procs := <[pid := MkProc id false]> (procs s) |>))
      <| processes := <[id := pid]> (processes s) |>.

Lemma ok_spawned s id e pid config :
  vmm_ok s → vms s !! id = Some e → active (ve_state e) → runtimes s !! id = None → pid_fresh pid s →
  vmm_ok (spawned id pid config s).
Proof.
  intros H He Ha Hr [Hp Hf]. unfold spawned, set_runtime. split; cbn.
  - apply H.
  - intros i q. destruct (decide (i = id)) as [->|Hne].
    + rewrite !lookup_insert_eq. intros [= <-]. by eexists.
    + rewrite !lookup_insert_ne by done. apply H.
  - intros q p. destruct (decide (q = pid)) as [->|Hne].
    + rewrite lookup_insert_eq. intros [= <-]. cbn. rewrite lookup_insert_eq. by eexists.
    + rewrite lookup_insert_ne by done. intros Hq. destruct (ok_proc s H _ _ Hq) as (rt & Hrt & <-).
      rewrite lookup_insert_ne by congruence. by exists rt.
  - intros i rt. destruct (decide (i = id)) as [->|Hne].
    + intros _. by exists e.
    + rewrite lookup_insert_ne by done. apply H.
  - intros i rt p. destruct (decide (i = id)) as [->|Hne].
    + rewrite lookup_insert_eq. intros [= <-]. cbn. rewrite lookup_insert_eq. by intros [= <-].
    + rewrite lookup_insert_ne by done. intros Hi. rewrite lookup_insert_ne by (symmetry; by eapply Hf).
      by apply (ok_pid s H).
Qed.

(** What a start of a stopped VM does: a process and a running row, or the row
    stopped as before. *)
Lemma start_vm_stopped now env id s e :
  vmm_ok s → vms s !! id = Some e → ve_state e = VsStopped → spawn_ok env s →
  let '(r, s') := start_vm data_dir firmware now env id s in
  vmm_ok s' ∧
  match env, boot_args data_dir firmware (ve_config e) id with
  | Spawned pid _, Some _ => ∃ e', r = Ok e' ∧ vms s' !! id = Some e' ∧ ve_state e' = VsRunning ∧
      ve_config e' = ve_config e ∧ procs s' = <[pid := MkProc id false]> (procs s) ∧
      processes s' !! id = Some pid
  | _, _ => (∃ st, r = Err st) ∧ procs s' = procs s ∧ vm_down id s'
  end.
Proof.
  intros H He Hst Hsp. destruct (stopped_idle s id e H He) as (Hr & Hc & Hn); [rewrite Hst; by intros []|].
  set (s1 := set_state now id VsStarting s).
  assert (start_vm data_dir firmware now env id s = start_finish data_dir firmware now env id e s1) as ->.
  { unfold start_vm, start_begin, get_vm, rpc_bind, rpc_some, rpc_get, rpc_guard, rpc_ret. cbn beta iota.
    rewrite He. cbn beta iota. by rewrite Hst. }
  destruct (set_state_fields now id VsStarting s) as (E1 & E2 & E3 & _).
  destruct (update_state_vms now id VsStarting s e He) as (e1 & V1 & S1 & I1 & C1 & _).
  assert (He1 : vms s1 !! id = Some e1) by (subst s1; by rewrite V1, lookup_insert_eq).
  assert (H1 : vmm_ok s1) by (apply ok_set_state; auto).
  assert (Hd1 : no_proc id s1) by (intros ? ?; subst s1; rewrite E3; apply Hn).
  assert (Hdown : vmm_ok (set_state now id VsStopped s1) ∧ procs (set_state now id VsStopped s1) = procs s ∧
    vm_down id (set_state now id VsStopped s1)).
  { destruct (set_state_fields now id VsStopped s1) as (F1 & F2 & F3 & _).
    split; [apply ok_set_state; [done|right; subst s1; by rewrite E1]|].
    unfold vm_down, no_proc. rewrite F1, F2, F3. subst s1. rewrite E1, E2, E3.
    split; [done|]. split; [|done]. intros e2. rewrite set_state_lookup, decide_True by done.
    rewrite He1. by intros [= <-]. }
  unfold start_finish, hypervisor_start.
  destruct (boot_args data_dir firmware (ve_config e) id) as [args|];
    [|destruct env; destruct Hdown as (? & ? & ?); cbn; eauto 10].
  destruct env as [er|er|pid stored]; [destruct Hdown as (? & ? & ?); cbn; by eauto 10..|].
  destruct Hsp as [-> Hf]. cbn [fst snd].
  destruct (update_state_vms now id VsRunning s1 e1 He1) as (e2 & V2 & S2 & I2 & C2 & U2).
  set (s2 := set_state now id VsRunning s1) in *.
  assert (He2 : vms s2 !! id = Some e2) by (by rewrite V2, lookup_insert_eq).
  destruct (set_state_fields now id VsRunning s1) as (G1 & G2 & G3 & _). fold s2 in G1, G2, G3.
  fold s1 in E1, E2, E3.
  assert (H2 : vmm_ok s2) by (apply ok_set_state; [done|left; by left]).
  match goal with |- context [update_state now id VsRunning ?t] =>
    change t with (spawned id pid (ve_config e) s1) end.
  assert (update_state now id VsRunning (spawned id pid (ve_config e) s1)
    = (Some e2, spawned id pid (ve_config e) s2)) as ->.
  { revert U2. subst s2. unfold set_state, update_state, spawned, set_runtime. cbn.
    rewrite He1. cbn. by intros [= <-]. }
  cbn. split.
  - apply ok_publish. eapply ok_spawned; [done|done|by left|by rewrite G1, E1|].
    split; [rewrite G3, E3; apply Hf|rewrite G1, E1; apply Hf].
  - exists e2. split_and!; [done|done|done|by rewrite C2, C1| |by rewrite lookup_insert_eq].
    by rewrite G3, E3.
Qed.

(** ** Runs of the daemon *)

(** A process of the host exits. *)
Definition exit_proc (pid : u32) (s : Vmm) : Vmm :=
  s <| procs := alter (λ p, MkProc (pr_vm p) true) pid (procs s) |>.

Lemma ok_exit_proc pid s : vmm_ok s → vmm_ok (exit_proc pid s).
Proof.
  intros H. split; cbn; [apply H|apply H| |apply H|].
  - intros q p Hq. destruct (decide (q = pid)) as [->|].
    + rewrite lookup_alter_eq in Hq. destruct (procs s !! pid) as [p0|] eqn:E; [|done].
      injection Hq as <-. cbn. by apply (ok_proc s H).
    + rewrite lookup_alter_ne in Hq by done. by apply (ok_proc s H).
  - intros i rt p Hi Hq. destruct (decide (rt_pid rt = pid)) as [<-|].
    + rewrite lookup_alter_eq in Hq. destruct (procs s !! rt_pid rt) as [p0|] eqn:E; [|done].
      injection Hq as <-. cbn. by eapply (ok_pid s H).
    + rewrite lookup_alter_ne in Hq by done. by eapply (ok_pid s H).
Qed.

(** What happens on its own: processes exit, the watcher runs. *)
Inductive Background := BgExit (pid : u32) | BgWatch (now : Z).
Definition background (b : Background) (s : Vmm) : Vmm :=
  match b with BgExit pid => exit_proc pid s | BgWatch now => check_processes now s end.
Definition world_of (events : nat → list Background) (k : nat) (s : Vmm) : Vmm :=
  foldl (λ s b, background b s) s (events k).

Lemma ok_world events k s : vmm_ok s → vmm_ok (world_of events k s).
Proof.
  unfold world_of. revert s. induction (events k) as [|b l IH]; intros s H; [done|]. cbn. apply IH.
  destruct b; [by apply ok_exit_proc|by apply check_processes_ok].
Qed.

Lemma cleanup_untracked id s : processes s !! id = None → cleanup id s = clear_runtime id s.
Proof. intros E. unfold cleanup, drop_child. rewrite E, delete_id by done. by destruct s. Qed.

Lemma recover_vm_ok now files s e :
  vmm_ok s → processes s = ∅ →
  vmm_ok (recover_vm now files s e) ∧ processes (recover_vm now files s e) = ∅.
Proof.
  intros H Hc. unfold recover_vm. set (id := ve_id e). cbv zeta.
  set (alive := match runtimes s !! id with Some rt => is_process_alive (rt_pid rt) s | None => false end).
  destruct (alive && _ && _); [done|].
  set (s1 := match runtimes s !! id with Some rt => if alive then reap (rt_pid rt) s else s | None => s end).
  assert (H1 : vmm_ok s1 ∧ no_proc id s1 ∧ processes s1 = ∅).
  { subst s1 alive. destruct (runtimes s !! id) as [rt|] eqn:Er.
    - destruct (is_process_alive (rt_pid rt) s) eqn:Ea.
      + split_and!; [by apply ok_reap|by eapply reap_runtime_no_proc|done].
      + split_and!; [done| |done]. apply not_running_no_proc; [done|].
        unfold is_running. by rewrite Hc, lookup_empty, Er.
    - split_and!; [done| |done]. apply not_running_no_proc; [done|].
      unfold is_running. by rewrite Hc, lookup_empty, Er. }
  destruct H1 as (H1 & Hn & Hc1).
  destruct (set_state_fields now id VsStopped s1) as (_ & Ec & _ & _).
  split; [|unfold clear_runtime; cbn; by rewrite Ec].
  rewrite <- cleanup_untracked by (by rewrite Ec, Hc1, lookup_empty).
  rewrite cleanup_set_state. by apply ok_retire.
Qed.

Lemma ok_recover now files s : vmm_ok s → vmm_ok (recover_vms now files (restart s)).
Proof.
  intros H. assert (Hr : vmm_ok (restart s)) by (split; cbn; [apply H|done|apply H|apply H|apply H]).
  assert (Hc : processes (restart s) = ∅) by done. revert Hr Hc. clear H. generalize (restart s).
  clear s. intros s. unfold recover_vms. generalize (List.filter (λ e, (ve_state e == VsRunning)
    || (ve_state e == VsStarting) || (ve_state e == VsStopping)) (list_all s)).
  intros l. revert s. induction l as [|e l IH]; intros s H Hc; [done|]. cbn [foldl].
  destruct (recover_vm_ok now files s e H Hc). by apply IH.
Qed.

(** A run: requests one at a time, where VMs are started and deleted only when they
    are stopped and stops have a timeout, and everything that happens on its own. *)
Inductive vmm_step : Vmm → Vmm → Prop :=
  | StepCreate now uuid req s :
      vmm_step s (create_vm constraint_error now uuid req s).2
  | StepDelete id s : row_stopped id s → vmm_step s (delete_vm id s).2
  | StepStart now env id s : row_stopped id s → spawn_ok env s →
      vmm_step s (start_vm data_dir firmware now env id s).2
  | StepStop now id s : vmm_step s (stop_vm now id s).2
  | StepStopTask now timeout events id s : (0 < timeout)%N →
      vmm_step s (stop_task now timeout (world_of events) id s)
  | StepKill now id s : vmm_step s (kill_vm now id s).2
  | StepKillTask now id s : vmm_step s (kill_task now id s)
  | StepBackground b s : vmm_step s (background b s)
  | StepRestart now files s : vmm_step s (recover_vms now files (restart s)).

Definition vmm_empty : Vmm := MkVmm ∅ ∅ ∅ ∅ [].
Definition vmm_reach (s : Vmm) : Prop := rtc vmm_step vmm_empty s.

Lemma ok_insert_row id e s :
  vmm_ok s → vms s !! id = None → ve_id e = id → vmm_ok (s <| vms := <[id := e]> (vms s) |>).
Proof.
  intros H Hn He. split; cbn; [|apply H|apply H| |apply H].
  - intros i e'. destruct (decide (i = id)) as [->|].
    + rewrite lookup_insert_eq. by intros [= <-].
    + rewrite lookup_insert_ne by done. apply H.
  - intros i rt Hi. destruct (ok_runtime s H _ _ Hi) as (e' & He' & Ha). exists e'.
    by rewrite lookup_insert_ne by congruence.
Qed.

Lemma ok_delete_row id s :
  vmm_ok s → runtimes s !! id = None → vmm_ok (s <| vms := delete id (vms s) |>).
Proof.
  intros H Hn. split; cbn; [|apply H|apply H| |apply H].
  - intros i e Hi. apply lookup_delete_Some in Hi as [_ Hi]. by apply (ok_key s H).
  - intros i rt Hi. rewrite lookup_delete_ne by congruence. by apply (ok_runtime s H _ _ Hi).
Qed.

(** A creation adds a stopped row under a new id, or changes nothing. *)
Lemma create_vm_cases now uuid req s :
  (∃ st, create_vm constraint_error now uuid req s = (Err st, s)) ∨
  ∃ e, vms s !! ve_id e = None ∧ ve_state e = VsStopped ∧
    create_vm constraint_error now uuid req s =
      (Ok e, publish (ve_id e) VmEventCreated (Some e) (s <| vms := <[ve_id e := e]> (vms s) |>)).
Proof.
  unfold create_vm, create_internal. rpc_unfold.
  destruct (cv_config req) as [config|]; [|by left; eexists]. cbn beta iota.
  generalize (match cv_id req with Some id => if str_is_empty id then uuid else id | None => uuid end).
  intros id. destruct (boot_mode (vc_boot_mode config));
    [destruct (negb _)|destruct (negb _)|destruct (is_some (vc_kernel config))];
    cbn beta iota; try (by left; eexists);
    (destruct (vms s !! id) as [e|] eqn:E; [by left; eexists|right]);
    by exists (MkVmEntry id (cv_name req) VsStopped config now None false).
Qed.

Lemma get_vm_cases id s :
  (∃ e, vms s !! id = Some e ∧ get_vm id s = (Ok e, s)) ∨
  (vms s !! id = None ∧ ∃ st, get_vm id s = (Err st, s)).
Proof.
  unfold get_vm, rpc_bind, rpc_get, rpc_some. destruct (vms s !! id) as [e|] eqn:E; cbn; eauto.
Qed.

(** A stop or a kill marks the row of an active VM, or changes nothing. *)
Lemma mark_stopping_ok now id s r s' :
  vmm_ok s → (stop_vm now id s = (r, s') ∨ kill_vm now id s = (r, s')) → vmm_ok s'.
Proof.
  intros H. assert (Hm : ∀ e, vms s !! id = Some e → vmm_ok (set_state now id VsStopping s) ∧
    ∃ e', (update_state now id VsStopping s).1 = Some e').
  { intros e He. destruct (update_state_vms now id VsStopping s e He) as (e' & _ & _ & _ & _ & E).
    split; [|by eexists]. apply ok_set_state; [done|left; by right]. }
  unfold stop_vm, kill_vm, get_vm. rpc_unfold. destruct (vms s !! id) as [e|] eqn:He; cbn beta iota.
  - destruct (Hm e eq_refl) as (Hok & e' & E).
    destruct (ve_state e == VsRunning), (ve_state e == VsStopping); cbn beta iota delta [orb];
      rewrite ?E; intros [Hs|Hs]; revert Hs; intros [= _ <-]; done.
  - intros [Hs|Hs]; revert Hs; intros [= _ <-]; done.
Qed.

Lemma ok_start now env id s :
  vmm_ok s → row_stopped id s → spawn_ok env s → vmm_ok (start_vm data_dir firmware now env id s).2.
Proof.
  intros H Hr Hs. destruct (get_vm_cases id s) as [(e & He & _)|(Hn & st & E)].
  - pose proof (start_vm_stopped now env id s e H He (Hr e He) Hs) as Hst.
    destruct (start_vm _ _ _ _ _ _) as [r s']. apply Hst.
  - unfold start_vm, start_begin, rpc_bind at 1 2. by rewrite E.
Qed.

Lemma ok_delete id s : vmm_ok s → row_stopped id s → vmm_ok (delete_vm id s).2.
Proof.
  intros H Hr. unfold delete_vm, rpc_bind at 1.
  destruct (get_vm_cases id s) as [(e & He & ->)|(_ & st & ->)]; [|done].
  rewrite (Hr e He). cbn. apply ok_publish. apply ok_delete_row; [done|].
  eapply stopped_idle; [done|done|]. rewrite (Hr e He). by intros [].
Qed.

Lemma vmm_step_ok s s' : vmm_step s s' → vmm_ok s → vmm_ok s'.
Proof.
  intros Hs H. destruct Hs.
  - destruct (create_vm_cases now uuid req s) as [[st ->]|(e & Hn & _ & ->)]; [done|].
    cbn [snd]. apply ok_publish. by apply ok_insert_row.
  - by apply ok_delete.
  - by apply ok_start.
  - destruct (stop_vm now id s) as [r s'] eqn:E. eapply mark_stopping_ok; [done|by left].
  - apply stop_task_down; [done| |done]. intros k s'. apply ok_world.
  - destruct (kill_vm now id s) as [r s'] eqn:E. eapply mark_stopping_ok; [done|by right].
  - destruct (kill_down now id s H) as [Hk Hd]. by apply set_state_down.
  - destruct b; [by apply ok_exit_proc|by apply check_processes_ok].
  - by apply ok_recover.
Qed.

Lemma vmm_reach_ok s : vmm_reach s → vmm_ok s.
Proof.
  intros H. assert (Hg : ∀ s0 s1, rtc vmm_step s0 s1 → vmm_ok s0 → vmm_ok s1)
    by (induction 1; eauto using vmm_step_ok).
  apply (Hg _ _ H). split; intros *; done.
Qed.



Lemma check_processes_dom now s id :
  is_Some (vms s !! id) → is_Some (vms (check_processes now s) !! id).
Proof.
  unfold check_processes. intros H.
  destruct (reap_all_fields (exited_children s) s) as (E & _). rewrite <- E in H. revert H.
  generalize (foldl (λ s '(_, pid), reap pid s) s (exited_children s)). intros s1.
  generalize ((exited_children s).*1 ++ lost_vms s1). intros l. revert s1.
  induction l as [|i l IH]; intros s1 H; [done|]. cbn. apply IH. unfold handle_vm_exit. cbn.
  rewrite set_state_lookup. cbn. destruct (drop_child_fields i s1) as (-> & _).
  destruct (decide (id = i)) as [->|]; [by apply fmap_is_Some|done].
Qed.

(** A VM whose process exited is marked stopped by the next look of the watcher,
    which also tells the subscribers. *)
Theorem watcher_reports_exit now id pid p s :
  vmm_reach s → processes s !! id = Some pid → procs s !! pid = Some p → pr_exited p = true →
  let s' := check_processes now s in
  (∃ e, vms s' !! id = Some e ∧ ve_state e = VsStopped) ∧ no_proc id s' ∧
  ∃ vm, MkVmEvent id VmEventStopped vm ∈ published s'.
Proof.
  intros H%vmm_reach_ok Hc Hp Hx. cbv zeta.
  destruct (check_processes_ok now s H) as (_ & _ & Hall).
  destruct (Hall id pid p Hc Hp Hx) as (Hr & Hn & Hv). split; [|done].
  destruct (ok_child s H _ _ Hc) as (rt & Hrt & _). destruct (ok_runtime s H _ _ Hrt) as (e & He & _).
  destruct (check_processes_dom now s id) as [e' He']; [by eexists|]. exists e'. auto.
Qed.

(** * Overlapping requests *)

(** Nothing keeps a VM from being started while it is being stopped. The second
    process runs beside the first one, on the same disks. *)
Theorem start_while_stopping now pid1 pid2 id e e' rt s s1 :
  vms s !! id = Some e → ve_state e = VsRunning → runtimes s !! id = Some rt → rt_pid rt = pid1 →
  procs s !! pid1 = Some (MkProc id false) → procs s !! pid2 = None →
  boot_args data_dir firmware (ve_config e) id ≠ None →
  stop_vm now id s = (Ok e', s1) →
  ∃ e2 s2, start_vm data_dir firmware now (Spawned pid2 (Ok tt)) id s1 = (Ok e2, s2) ∧
    procs s2 !! pid1 = Some (MkProc id false) ∧ procs s2 !! pid2 = Some (MkProc id false) ∧ pid1 ≠ pid2.
Proof.
  intros He Hst Hr Hp1 Hl1 Hl2 Hb Hs.
  destruct (update_state_vms now id VsStopping s e He) as (e1 & V1 & S1 & _ & C1 & U1).
  assert (s1 = set_state now id VsStopping s) as ->.
  { revert Hs. unfold stop_vm, get_vm. rpc_unfold. rewrite He. cbn beta iota.
    rewrite Hst, bool_decide_eq_true_2 by done. cbn beta iota. rewrite U1. by intros [= _ <-]. }
  destruct (set_state_fields now id VsStopping s) as (_ & _ & E3 & _).
  set (s1 := set_state now id VsStopping s) in *.
  assert (He1 : vms s1 !! id = Some e1) by (by rewrite V1, lookup_insert_eq).
  destruct (update_state_vms now id VsStarting s1 e1 He1) as (e2 & V2 & S2 & _ & C2 & U2).
  destruct (set_state_fields now id VsStarting s1) as (_ & _ & F3 & _).
  set (s2 := set_state now id VsStarting s1) in *.
  assert (He2 : vms s2 !! id = Some e2) by (by rewrite V2, lookup_insert_eq).
  unfold start_vm, start_begin, get_vm. rpc_unfold. rewrite He1. cbn beta iota. rewrite S1.
  rewrite bool_decide_eq_false_2 by done. cbn beta iota delta [negb]. fold s2.
  unfold start_finish, hypervisor_start. rewrite C1.
  destruct (boot_args _ _ _ _); [|done]. unfold set_runtime, update_state.
  cbn -[set_state]. fold s2. rewrite He2. cbn. do 2 eexists. split; [done|]. cbn.
  rewrite lookup_insert_eq, lookup_insert_ne by congruence. split_and!; [congruence|done|congruence].
Qed.

(** A stop with a timeout of zero forgets the process without ending it: the VM is
    marked stopped, can be started again, and its first process goes on. *)
Theorem stop_without_timeout_leaks now world id e pid s :
  vms s !! id = Some e → processes s !! id = Some pid → procs s !! pid = Some (MkProc id false) →
  let s' := stop_task now 0 world id s in
  (∃ e', vms s' !! id = Some e' ∧ ve_state e' = VsStopped) ∧
  runtimes s' !! id = None ∧ processes s' !! id = None ∧ procs s' !! pid = Some (MkProc id false).
Proof.
  intros He Hc Hp. cbv zeta. unfold stop_task, hypervisor_stop, cleanup. cbn [N.ltb N.compare].
  unfold drop_child. rewrite Hc, Hp. cbn [pr_exited]. cbv iota.
  set (s1 := clear_runtime id (s <| processes := delete id (processes s) |>)).
  assert (He1 : vms s1 !! id = Some e) by done.
  destruct (update_state_vms now id VsStopped s1 e He1) as (e' & V & S & _).
  destruct (set_state_fields now id VsStopped s1) as (-> & -> & -> & _). rewrite V, lookup_insert_eq.
  unfold s1. cbn. rewrite !lookup_delete_eq. split_and!; [by exists e'|done|done|done].
Qed.

(** The watcher never looks at a VM that has no child handle and is not marked
    running. *)
Definition overlooked (id : string) (e : VmEntry) (s : Vmm) : Prop :=
  vms s !! id = Some e ∧ processes s !! id = None.

Lemma overlooked_exit now i id e s :
  overlooked id e s → i ≠ id → overlooked id e (handle_vm_exit now s i).
Proof.
  intros [He Hc] Hne. unfold overlooked, handle_vm_exit, publish. cbn.
  rewrite set_state_lookup, decide_False by done. cbn.
  destruct (drop_child_fields i s) as (-> & _). split; [done|].
  destruct (retire_fields now i s) as (_ & -> & _). by rewrite lookup_delete_ne.
Qed.

Lemma overlooked_background b id e s :
  (∀ i e, vms s !! i = Some e → ve_id e = i) → ve_state e ≠ VsRunning →
  overlooked id e s → overlooked id e (background b s) ∧
  ∀ i e, vms (background b s) !! i = Some e → ve_id e = i.
Proof.
  intros Hkey Hst [He Hc]. destruct b as [pid|now]; [done|]. cbn. unfold check_processes.
  pose proof (reap_all_fields (exited_children s) s) as (Ev & _ & Ec & _).
  assert (Hgone : id ∉ (exited_children s).*1).
  { intros ([i q] & -> & Hin)%list_elem_of_fmap. apply list_elem_of_In, filter_In in Hin as [Hin _].
    apply list_elem_of_In, elem_of_map_to_list in Hin. cbn in Hc. congruence. }
  set (s1 := foldl (λ s '(_, pid), reap pid s) s (exited_children s)) in *.
  assert (Ho : overlooked id e s1) by (unfold overlooked; by rewrite Ev, Ec).
  assert (Hk1 : ∀ i e, vms s1 !! i = Some e → ve_id e = i) by (by rewrite Ev).
  assert (Hl : id ∉ (exited_children s).*1 ++ lost_vms s1).
  { intros [?|Hin]%elem_of_app; [done|]. unfold lost_vms, list_all in Hin.
    apply list_elem_of_fmap in Hin as (e' & Hid & Hin). apply list_elem_of_In, filter_In in Hin as [Hin Hb].
    apply list_elem_of_In, list_elem_of_fmap in Hin as ([k e''] & -> & Hin). cbn in *.
    apply elem_of_map_to_list in Hin. rewrite (Hk1 _ _ Hin) in Hid. subst k.
    destruct Ho as [Ho _]. rewrite Ho in Hin. injection Hin as <-.
    rewrite !andb_true_iff, bool_decide_eq_true in Hb. tauto. }
  revert Hl Ho Hk1. generalize ((exited_children s).*1 ++ lost_vms s1). generalize s1. clear.
  intros s l. revert s. induction l as [|i l IH]; intros s Hl Ho Hk; [done|]. cbn [foldl].
  apply IH; [set_solver|apply overlooked_exit; [done|set_solver]|].
  intros j e'. unfold handle_vm_exit. cbn. rewrite set_state_lookup. cbn.
  destruct (drop_child_fields i s) as (-> & _). destruct (decide (j = i)) as [->|]; [|apply Hk].
  destruct (vms s !! i) as [e0|] eqn:E0; [|done]. intros [= <-]. exact (Hk _ _ E0).
Qed.

(** A VM that was starting or stopping when the daemon restarted, and whose process
    is alive, is left as it is, and stays so for good: its process may exit and the
    watcher may run as often as it likes. *)
Theorem recovered_vm_stuck now files events id e rt s :
  (∀ i e, vms s !! i = Some e → ve_id e = i) →
  vms s !! id = Some e → ve_state e = VsStarting ∨ ve_state e = VsStopping →
  runtimes s !! id = Some rt → is_Some (procs s !! rt_pid rt) → files id = (true, true) →
  recover_vm now files (restart s) e = restart s ∧
  vms (foldl (λ s b, background b s) (restart s) events) !! id = Some e.
Proof.
  intros Hkey He Hst Hrt [p Hp] Hf. split.
  - unfold recover_vm. rewrite (Hkey _ _ He). unfold restart at 1. cbn.
    unfold is_process_alive. cbn. by rewrite Hrt, Hp, Hf.
  - assert (Ho : overlooked id e (restart s)) by (split; cbn; [done|apply lookup_empty]).
    assert (Hk : ∀ i e, vms (restart s) !! i = Some e → ve_id e = i) by apply Hkey.
    revert Ho Hk. generalize (restart s). clear -Hst.
    induction events as [|b l IH]; intros s Ho Hk; [apply Ho|]. cbn.
    destruct (overlooked_background b id e s Hk) as [Ho' Hk']; [|done|by apply IH].
    destruct Hst as [->| ->]; done.
Qed.

(** * Pods *)

(** The vsock context identifier of a pod avoids the reserved ones and fits its
    width. *)
Lemma cid_range default_hash id :
  (3 ≤ vm_id_to_cid default_hash id < 2 ^ 32 - 1)%N.
Proof.
  unfold vm_id_to_cid, wrap. change (2 ^ 32 - 1 - 3)%N with 4294967292%N.
  change (2 ^ 32 - 1)%N with 4294967295%N. change (2 ^ 32)%N with 4294967296%N.
  pose proof (N.mod_lt (default_hash id) 4294967292 ltac:(done)) as H.
  revert H. generalize (default_hash id `mod` 4294967292)%N. intros h H.
  rewrite N.mod_small by lia. lia.
Qed.

(** A pod that was started once cannot be started again: the row of its VM is still
    there. The second attempt has already overwritten the root disk by then. *)
Theorem pod_restart_fails now env id pod disk e s :
  pods s !! id = Some pod → pd_state pod ≠ PodRunning → pd_root_disk_path pod = Some disk →
  pe_dd env = None → vms (ps_vmm s) !! id = Some e →
  ∃ st s', start_pod constraint_error data_dir firmware now env id s = (Err st, s') ∧
    ps_vmm s' = ps_vmm s ∧ pd_state <$> (pods s' !! id) = Some PodFailed ∧
    disk_writes s' !! disk = Some (S (default 0%nat (disk_writes s !! disk))).
Proof.
  intros Hp Hs Hd Hdd He. unfold start_pod, create_internal, pod_abort. rpc_unfold. rewrite Hp. cbn beta iota.
  rewrite bool_decide_eq_false_2 by done. cbn beta iota delta [negb]. rewrite Hd. cbn beta iota.
  rewrite Hdd. cbn beta iota.
  set (s1 := on_pod id (λ p, p <| pd_state := PodStarting |>) s).
  assert (E : ps_vmm (write_rootfs disk s1) = ps_vmm s).
  { subst s1. unfold on_pod. by rewrite Hp. }
  rewrite E, He. cbn beta iota delta [is_some].
  do 2 eexists. split; [done|]. subst s1. unfold on_pod, write_rootfs. rewrite Hp. cbn.
  rewrite !lookup_insert_eq. cbn. by rewrite !lookup_insert_eq.
Qed.

(** A container that did not start leaves no trace: the message is cleared before the
    pod is reported as running. *)
Theorem container_failure_hidden now env id pod disk pid m s :
  pods s !! id = Some pod → pd_state pod ≠ PodRunning → pd_root_disk_path pod = Some disk →
  vms (ps_vmm s) !! id = None → pe_dd env = None → pe_dir env = None → pe_listener env = None →
  pe_spawn env = Spawned pid (Ok tt) → pe_ready env = None → pe_connect env = None →
  pe_start env = Some m →
  ∃ pod' s', start_pod constraint_error data_dir firmware now env id s = (Ok pod', s') ∧
    pd_state pod' = PodRunning ∧ pd_error_message pod' = None.
Proof.
  intros Hp Hs Hd Hv H1 H2 H3 H4 H5 H6 H7.
  unfold start_pod, create_internal, pod_abort, pod_step. rpc_unfold. rewrite Hp. cbn beta iota.
  rewrite bool_decide_eq_false_2 by done. cbn beta iota delta [negb]. rewrite Hd. cbn beta iota.
  rewrite H1. cbn beta iota. rewrite H2, H3, H4, H5, H6, H7.
  unfold on_pod, write_rootfs. rewrite Hp. cbn. rewrite Hv. cbn.
  repeat (rewrite !lookup_insert_eq; cbn).
  do 2 eexists. split; [done|]. done.
Qed.

End facts.

(** * Examples *)

Definition ex_config : VmConfig :=
  MkVmConfig 2 1024 1 None None None [MkDiskConfig "/dev/zvol/pool/volumes/a" false]
    [MkNicConfig None (Some "02:00:00:00:0a:ff") (Some "tap:tap_1234567")] None false.
Definition ex_create : CreateVmRequest := MkCreateVmRequest (Some "vm-a") (Some "a") (Some ex_config).
Definition ex_stopped : Vmm := (create_vm "" 0 "" ex_create vmm_empty).2.
Definition ex_running : Vmm := (start_vm "/d" "/fw" 1 (Spawned 7 (Ok tt)) "vm-a" ex_stopped).2.
Definition ex_entry (st : VmState) (started : option Z) : VmEntry :=
  MkVmEntry "vm-a" (Some "a") st ex_config 0 started false.

Lemma ex_running_reach : vmm_reach "" "/d" "/fw" ex_running.
Proof.
  eapply rtc_l; [apply (StepCreate "" "/d" "/fw" 0 "" ex_create)|].
  eapply rtc_l; [apply (StepStart "" "/d" "/fw" 1 (Spawned 7 (Ok tt)) "vm-a" ex_stopped)|apply rtc_refl].
  - intros e H. vm_compute in H. by injection H as <-.
  - split; [done|]. split; [done|]. intros id rt H. by vm_compute in H.
Qed.



Definition ex_exited : Vmm := exit_proc 7 ex_running.
Lemma ex_exited_reach : vmm_reach "" "/d" "/fw" ex_exited.
Proof.
  eapply rtc_r; [apply ex_running_reach|]. apply (StepBackground "" "/d" "/fw" (BgExit 7) ex_running).
Qed.

Lemma watcher_reports_exit_witness :
  ∃ vm, MkVmEvent "vm-a" VmEventStopped vm ∈ published (check_processes 3 ex_exited).
Proof.
  destruct (watcher_reports_exit "" "/d" "/fw" 3 "vm-a" 7 (MkProc "vm-a" true) ex_exited
    ex_exited_reach) as (_ & _ & H); [by vm_compute..|]. exact H.
Defined.

Lemma start_while_stopping_witness :
  ∃ e2 s2, start_vm "/d" "/fw" 2 (Spawned 8 (Ok tt)) "vm-a" (stop_vm 2 "vm-a" ex_running).2 = (Ok e2, s2) ∧
    procs s2 !! 7%N = Some (MkProc "vm-a" false) ∧ procs s2 !! 8%N = Some (MkProc "vm-a" false).
Proof.
  destruct (start_while_stopping "/d" "/fw" 2 7 8 "vm-a" (ex_entry VsRunning (Some 1%Z))
    (ex_entry VsStopping (Some 1%Z)) (MkVmRuntime 7 "/d/vm/vm-a/api.sock" "/d/vm/vm-a/serial.sock")
    ex_running (stop_vm 2 "vm-a" ex_running).2) as (e2 & s2 & H1 & H2 & H3 & _); [by vm_compute..|].
  by exists e2, s2.
Defined.

Lemma stop_without_timeout_leaks_witness :
  procs (stop_task 2 0 (λ _ s, s) "vm-a" (stop_vm 2 "vm-a" ex_running).2) !! 7%N
    = Some (MkProc "vm-a" false).
Proof.
  apply (stop_without_timeout_leaks 2 (λ _ s, s) "vm-a" (ex_entry VsStopping (Some 1%Z)) 7
    (stop_vm 2 "vm-a" ex_running).2); by vm_compute.
Defined.

(** The daemon restarts while it waits for the VM to stop; then the process exits. *)
Lemma recovered_vm_stuck_witness :
  let s := (stop_vm 2 "vm-a" ex_running).2 in
  vms (foldl (λ s b, background b s) (restart s) [BgExit 7; BgWatch 3; BgWatch 4]) !! "vm-a"
    = Some (ex_entry VsStopping (Some 1%Z)).
Proof.
  cbv zeta. apply (recovered_vm_stuck 3 (λ _, (true, true)) [BgExit 7; BgWatch 3; BgWatch 4] "vm-a"
    (ex_entry VsStopping (Some 1%Z)) (MkVmRuntime 7 "/d/vm/vm-a/api.sock" "/d/vm/vm-a/serial.sock"));
    [|by vm_compute|by right|by vm_compute|by vm_compute; eexists|done].
  intros i e H. destruct (decide (i = "vm-a")) as [->|Hne].
  - vm_compute in H. by injection H as <-.
  - change (vms (stop_vm 2 "vm-a" ex_running).2)
      with (<["vm-a" := ex_entry VsStopping (Some 1%Z)]> (vms ex_running)) in H.
    rewrite lookup_insert_ne in H by done.
    change (vms ex_running) with (<["vm-a" := ex_entry VsRunning (Some 1%Z)]>
      (<["vm-a" := ex_entry VsStarting None]> {["vm-a" := ex_entry VsStopped None]}) : gmap _ _) in H.
    by rewrite !lookup_insert_ne, lookup_singleton_ne in H by done.
Defined.

Definition ex_pod : PodData :=
  MkPodData "pod-a" "a" PodCreated None [MkContainerSpec "c" "c" "busybox"] None (Some "/dev/zvol/p")
    None None "" 0 None None.
Definition ex_pods : PodService := MkPodService {[ "pod-a" := ex_pod ]} ∅ ∅ vmm_empty.
Definition ex_pod_env (pid : u32) (start : option string) : PodEnv :=
  MkPodEnv None None None (Spawned pid (Ok tt)) None None start "quiet".
(** Started and stopped once. *)
Definition ex_pod_stopped : PodService :=
  (stop_pod 2 (λ _ s, check_processes 2 (exit_proc 7 s)) 0 "pod-a"
    (start_pod "" "/d" "/fw" 1 (ex_pod_env 7 None) "pod-a" ex_pods).2).2.

Lemma pod_restart_fails_witness :
  ∃ st s', start_pod "" "/d" "/fw" 3 (ex_pod_env 8 None) "pod-a" ex_pod_stopped = (Err st, s') ∧
    pd_state <$> (pods s' !! "pod-a") = Some PodFailed ∧ disk_writes s' !! "/dev/zvol/p" = Some 2%nat.
Proof.
  destruct (pod_restart_fails "" "/d" "/fw" 3 (ex_pod_env 8 None) "pod-a"
    ((ex_pod <| pd_state := PodStopped |>) <| pd_started_at := Some 1%Z |>) "/dev/zvol/p"
    (MkVmEntry "pod-a" (Some "a") VsStopped (pod_config (ex_pod_env 7 None) ex_pod "/dev/zvol/p") 1
       (Some 1%Z) true) ex_pod_stopped) as (st & s' & H1 & _ & H2 & H3);
    [by vm_compute|done|done|done|by vm_compute|]. exists st, s'. split_and!; [exact H1|done|].
  rewrite H3. by vm_compute.
Defined.

Lemma container_failure_hidden_witness :
  ∃ pod s', start_pod "" "/d" "/fw" 1 (ex_pod_env 7 (Some "no such image")) "pod-a" ex_pods = (Ok pod, s') ∧
    pd_error_message pod = None.
Proof.
  destruct (container_failure_hidden "" "/d" "/fw" 1 (ex_pod_env 7 (Some "no such image")) "pod-a" ex_pod
    "/dev/zvol/p" 7 "no such image" ex_pods) as (pod & s' & H & _ & E); [by vm_compute..|].
  by exists pod, s'.
Defined.
