(* ===== verification/VmmLife.v ===== *)
(** The VM service as an implementation of a life cycle: a small machine that knows
    of each VM only its configuration and state. Every run of the daemon is a run of
    that machine, with the same requests and the same answers. *)

From S2P Require Import Prelude Rpc Vmm VmmFacts.

(** ** The contract *)

(** What a client knows of a VM: whether it is there, its configuration, its state. *)
Definition Life : Type := option (VmConfig * VmState).

(** What happens to a daemon: requests, the ends of the tasks of a stop and a kill, and
    what happens on its own, restarts included. *)
Inductive VmLabel :=
  | LCreate (id : string) (config : option VmConfig) | LDelete (id : string) | LStart (id : string)
  | LStop (id : string) | LKill (id : string) | LEnded (id : string) | LTime.

Definition label_vm (l : VmLabel) : option string :=
  match l with
  | LCreate id _ | LDelete id | LStart id | LStop id | LKill id | LEnded id => Some id
  | LTime => None
  end.

(** The VM is as before, or it stopped. *)
Definition ended (x y : Life) : Prop := y = x ∨ ∃ c st, x = Some (c, st) ∧ y = Some (c, VsStopped).

(** What a request does to the VM it names, when it is granted and when it is not. *)
Definition life_call (l : VmLabel) (ok : bool) (x y : Life) : Prop :=
  match l, ok with
  | LCreate _ config, true => x = None ∧ ∃ c, config = Some c ∧ y = Some (c, VsStopped)
  | LDelete _, true => (∃ c, x = Some (c, VsStopped)) ∧ y = None
  | LDelete _, false => x = None ∧ y = None
  | LStart _, true => ∃ c, x = Some (c, VsStopped) ∧ y = Some (c, VsRunning)
  | LStop _, true => ∃ c, x = Some (c, VsRunning) ∧ y = Some (c, VsStopping)
  | LStop _, false => (∀ c, x ≠ Some (c, VsRunning)) ∧ y = x
  | LKill _, true => ∃ c st, x = Some (c, st) ∧ active st ∧ y = Some (c, VsStopping)
  | LKill _, false => (∀ c st, x = Some (c, st) → ¬ active st) ∧ y = x
  | LEnded _, _ => match x with Some (c, _) => y = Some (c, VsStopped) | None => y = None end
  | LCreate _ _, false | LStart _, false => y = x
  | LTime, _ => ended x y
  end.

(** While a task waits, and on their own, other VMs can stop; a request leaves them. *)
Definition life_other (l : VmLabel) (x y : Life) : Prop :=
  match l with LEnded _ | LTime => ended x y | _ => y = x end.

Definition life_step (l : VmLabel) (ok : bool) (m m' : string → Life) : Prop :=
  ∀ id, if decide (label_vm l = Some id) then life_call l ok (m id) (m' id) else life_other l (m id) (m' id).

(** ** The implementation *)

Definition vm_life (s : Vmm) (id : string) : Life := (λ e, (ve_config e, ve_state e)) <$> vms s !! id.

Definition ends (s s' : Vmm) : Prop := ∀ id, ended (vm_life s id) (vm_life s' id).

#[export] Instance ended_preorder : PreOrder ended.
Proof.
  split; [by left|]. intros x y z [->|(c & st & -> & ->)] Hz; [done|].
  destruct Hz as [->|(c' & st' & [= <- <-] & ->)]; right; by eexists _, _.
Qed.
#[export] Instance ends_preorder : PreOrder ends.
Proof. split; [by intros s id|]. intros s1 s2 s3 H12 H23 id. etrans; [apply H12|apply H23]. Qed.

Lemma ends_same s s' : vms s' = vms s → ends s s'.
Proof. intros E id. unfold vm_life. by rewrite E. Qed.

Lemma set_state_life now id st s i :
  vm_life (set_state now id st s) i =
    if decide (i = id) then (λ '(c, _), (c, st)) <$> vm_life s i else vm_life s i.
Proof.
  unfold vm_life. rewrite set_state_lookup. destruct (decide (i = id)) as [->|]; [|done].
  by destruct (vms s !! id).
Qed.

Lemma ends_stopped now id s : ends s (set_state now id VsStopped s).
Proof.
  intros i. rewrite set_state_life. destruct (decide (i = id)); [|done].
  destruct (vm_life s i) as [[c st]|]; [|done]. right. by eexists _, _.
Qed.

Lemma ends_cleanup id s : ends s (cleanup id s).
Proof.
  apply ends_same. unfold cleanup, drop_child. destruct (processes s !! id); [|done].
  destruct (procs s !! _) as [p|]; [|done]. by destruct (pr_exited p).
Qed.

Lemma ends_kill now id s : ends s (hypervisor_kill now id s).
Proof.
  unfold hypervisor_kill. etrans; [|apply ends_cleanup]. etrans; [|apply ends_stopped].
  apply ends_same. destruct (processes s !! id); [done|]. by destruct (runtimes s !! id).
Qed.

Lemma ends_exit now id s : ends s (handle_vm_exit now s id).
Proof.
  unfold handle_vm_exit. etrans; [|by apply ends_same]. etrans; [|apply ends_stopped].
  apply ends_same. apply drop_child_fields.
Qed.

Lemma ends_foldl {A} (f : Vmm → A → Vmm) l s : (∀ s a, ends s (f s a)) → ends s (foldl f s l).
Proof. intros H. revert s. induction l as [|a l IH]; intros s; [done|]. cbn. by etrans; [apply H|apply IH]. Qed.

Lemma ends_background b s : ends s (background b s).
Proof.
  destruct b as [pid|now]; [by apply ends_same|]. cbn. unfold check_processes.
  etrans; [|apply ends_foldl; intros; apply ends_exit]. apply ends_foldl. intros s' []. by apply ends_same.
Qed.

Lemma ends_wait now polls events id s : ends s (wait_exit now polls (world_of events) id s).
Proof.
  revert events s. induction polls as [|n IH]; intros events s; cbn; destruct (is_running id s); cbn; try done;
    [apply ends_kill|].
  etrans; [apply (ends_foldl (λ s b, background b s) (events 0)); intros; apply ends_background|].
  exact (IH (λ k, events (S k)) _).
Qed.

Lemma ends_recover now files s : ends s (recover_vms now files (restart s)).
Proof.
  unfold recover_vms. etrans; [by apply (ends_same s (restart s))|]. apply ends_foldl. intros s' e.
  unfold recover_vm. cbv zeta. destruct (_ && _); [done|].
  etrans; [|apply ends_same; done]. etrans; [|apply ends_stopped].
  apply ends_same. destruct (runtimes s' !! ve_id e); [|done]. by destruct (is_process_alive _ s').
Qed.

(** Marking a VM stopped at the end ends it, whatever came before. *)
Lemma ends_then_stopped now id s s' :
  ends s s' → life_step (LEnded id) true (vm_life s) (vm_life (set_state now id VsStopped s')).
Proof.
  intros H i. cbn [label_vm]. rewrite set_state_life. destruct (decide (Some id = Some i)) as [[= <-]|Hn].
  - rewrite decide_True by done. cbn. destruct (H id) as [->|(c & st & -> & ->)]; [|done].
    by destruct (vm_life s id) as [[]|].
  - rewrite decide_False by congruence. apply H.
Qed.

(** A request that touches at most the VM it names. *)
Lemma life_step_call id l ok s s' :
  label_vm l = Some id → l ≠ LEnded id → life_call l ok (vm_life s id) (vm_life s' id) →
  (∀ i, i ≠ id → vms s' !! i = vms s !! i) → life_step l ok (vm_life s) (vm_life s').
Proof.
  intros Hl Hne Hc Ho i. rewrite Hl. destruct (decide (Some id = Some i)) as [[= <-]|Hn]; [done|].
  assert (E : vm_life s' i = vm_life s i) by (unfold vm_life; rewrite Ho by congruence; done).
  rewrite E. destruct l; try done; by left.
Qed.

Section life.
Context (constraint_error data_dir firmware : string).

(** The labelled steps of the daemon, with the answers; as in [vmm_step], VMs are
    started and deleted only when they are stopped. *)
Inductive vmm_act : VmLabel → bool → Vmm → Vmm → Prop :=
  | ActCreate now uuid req r s s' : create_vm constraint_error now uuid req s = (r, s') →
      vmm_act (LCreate match cv_id req with Some id => if str_is_empty id then uuid else id | None => uuid end
                 (cv_config req)) (is_ok r) s s'
  | ActDelete id r s s' : row_stopped id s → delete_vm id s = (r, s') → vmm_act (LDelete id) (is_ok r) s s'
  | ActStart now env id r s s' : row_stopped id s → spawn_ok env s →
      start_vm data_dir firmware now env id s = (r, s') → vmm_act (LStart id) (is_ok r) s s'
  | ActStop now id r s s' : stop_vm now id s = (r, s') → vmm_act (LStop id) (is_ok r) s s'
  | ActStopTask now timeout events id s : (0 < timeout)%N →
      vmm_act (LEnded id) true s (stop_task now timeout (world_of events) id s)
  | ActKill now id r s s' : kill_vm now id s = (r, s') → vmm_act (LKill id) (is_ok r) s s'
  | ActKillTask now id s : vmm_act (LEnded id) true s (kill_task now id s)
  | ActBackground b s : vmm_act LTime true s (background b s)
  | ActRestart now files s : vmm_act LTime true s (recover_vms now files (restart s)).

Lemma create_refines now uuid req r s s' :
  create_vm constraint_error now uuid req s = (r, s') →
  life_step (LCreate match cv_id req with Some id => if str_is_empty id then uuid else id | None => uuid end
               (cv_config req)) (is_ok r) (vm_life s) (vm_life s').
Proof.
  set (id := match cv_id req with Some id => if str_is_empty id then uuid else id | None => uuid end).
  intros E. assert (Hc : (∃ st, r = Err st ∧ s' = s) ∨ ∃ e, r = Ok e ∧ ve_id e = id ∧ vms s !! id = None ∧
    ve_state e = VsStopped ∧ cv_config req = Some (ve_config e) ∧ vms s' = <[id := e]> (vms s)).
  { revert E. unfold create_vm, create_internal. rpc_unfold. fold id.
    destruct (cv_config req) as [c|]; [|by intros [= <- <-]; left; eexists]. cbn beta iota.
    destruct (boot_mode (vc_boot_mode c)); [destruct (negb _)|destruct (negb _)|destruct (is_some (vc_kernel c))];
      cbn beta iota; try (by intros [= <- <-]; left; eexists);
      (destruct (vms s !! id) as [e|] eqn:En; [by intros [= <- <-]; left; eexists|]);
      intros [= <- <-]; right; by eexists. }
  destruct Hc as [(st & -> & ->)|(e & -> & He & Hn & Hs & Hcf & Hv)]; apply (life_step_call id); try done.
  - cbn. split; [unfold vm_life; by rewrite Hn|]. exists (ve_config e). split; [done|].
    unfold vm_life. rewrite Hv, lookup_insert_eq. cbn. by rewrite Hs.
  - intros i Hi. rewrite Hv. by rewrite lookup_insert_ne.
Qed.

Lemma delete_refines id r s s' :
  row_stopped id s → delete_vm id s = (r, s') → life_step (LDelete id) (is_ok r) (vm_life s) (vm_life s').
Proof.
  intros Hr. unfold delete_vm, rpc_bind at 1. destruct (get_vm_cases id s) as [(e & He & ->)|(Hn & st & ->)].
  - rewrite (Hr e He). rpc_unfold. rewrite bool_decide_eq_false_2 by done. intros [= <- <-].
    apply (life_step_call id); try done; cbn.
    + unfold vm_life. rewrite He. cbn. rewrite (Hr e He), lookup_delete_eq. eauto.
    + intros i Hi. by rewrite lookup_delete_ne.
  - intros [= <- <-]. apply (life_step_call id); try done. unfold vm_life. by rewrite Hn.
Qed.

(** Of a marked VM the client sees the new state. *)
Lemma vm_life_mark now id st s e :
  vms s !! id = Some e → vm_life (set_state now id st s) id = Some (ve_config e, st).
Proof. intros He. rewrite set_state_life, decide_True by done. unfold vm_life. by rewrite He. Qed.
Lemma set_state_others now id st s i : i ≠ id → vms (set_state now id st s) !! i = vms s !! i.
Proof. intros Hi. by rewrite set_state_lookup, decide_False. Qed.

Lemma start_refines now env id r s s' :
  row_stopped id s → start_vm data_dir firmware now env id s = (r, s') →
  life_step (LStart id) (is_ok r) (vm_life s) (vm_life s').
Proof.
  intros Hr. unfold start_vm, start_begin, rpc_bind at 1 2.
  destruct (get_vm_cases id s) as [(e & He & ->)|(Hn & st & ->)];
    [|by intros [= <- <-]; apply (life_step_call id)].
  rewrite (Hr e He). rpc_unfold. rewrite bool_decide_eq_false_2 by done. cbn beta iota delta [negb].
  set (s1 := set_state now id VsStarting s).
  assert (H1 : ∃ e1, vms s1 !! id = Some e1 ∧ ve_config e1 = ve_config e)
    by (unfold s1; rewrite set_state_lookup, decide_True, He by done; by eexists).
  assert (Ho : ∀ i, i ≠ id → vms s1 !! i = vms s !! i) by apply set_state_others. clearbody s1.
  destruct H1 as (e1 & He1 & Hc1).
  assert (Hdone : ∀ st s2, vms s2 = vms s1 → ∀ s3, vms s3 = vms (set_state now id st s2) →
    vm_life s3 id = Some (ve_config e, st) ∧ ∀ i, i ≠ id → vms s3 !! i = vms s !! i).
  { intros st s2 E2 s3 E3. split.
    - unfold vm_life at 1. rewrite E3. rewrite <- Hc1. apply vm_life_mark. by rewrite E2.
    - intros i Hi. by rewrite E3, set_state_others, E2, Ho. }
  assert (Hx : vm_life s id = Some (ve_config e, VsStopped)) by (unfold vm_life; rewrite He; cbn; by rewrite (Hr e He)).
  assert (Hfail : ∀ s2 m, vms s2 = vms s1 → rpc_fail Internal m (set_state now id VsStopped s2) = (r, s') →
    life_step (LStart id) (is_ok r) (vm_life s) (vm_life s')).
  { intros s2 m E2 [= <- <-]. destruct (Hdone VsStopped s2 E2 _ eq_refl) as [Hl Hoth].
    apply (life_step_call id); [done|done| |done]. cbn. by rewrite Hl, Hx. }
  unfold start_finish, hypervisor_start.
  destruct (boot_args data_dir firmware (ve_config e) id); [|by apply Hfail].
  destruct env as [| |pid [[]|]]; try by apply Hfail.
  set (s2 := (set_runtime _ _ _) <| processes := _ |>).
  assert (E2 : vms s2 = vms s1) by done. clearbody s2.
  assert (∃ e2, (update_state now id VsRunning s2) = (Some e2, set_state now id VsRunning s2)) as [e2 Eu].
  { unfold set_state, update_state. rewrite E2, He1. by eexists. }
  rewrite Eu. intros [= <- <-].
  destruct (Hdone VsRunning s2 E2 (publish id VmEventStarted (Some e2) (set_state now id VsRunning s2)) eq_refl)
    as [Hl Hoth].
  apply (life_step_call id); [done|done| |done]. cbn. by exists (ve_config e).
Qed.

Lemma stop_refines now id r s s' :
  stop_vm now id s = (r, s') → life_step (LStop id) (is_ok r) (vm_life s) (vm_life s').
Proof.
  unfold stop_vm, get_vm. rpc_unfold. destruct (vms s !! id) as [e|] eqn:He; cbn beta iota.
  - assert (Hx : vm_life s id = Some (ve_config e, ve_state e)) by (unfold vm_life; by rewrite He).
    destruct (ve_state e == VsRunning) eqn:Es; cbn beta iota.
    + apply bool_decide_eq_true in Es. destruct (update_state_vms now id VsStopping s e He) as (e' & _ & _ & _ & _ & ->).
      intros [= <- <-]. apply (life_step_call id); [done|done| |intros; by apply set_state_others].
      exists (ve_config e). split; [by rewrite Hx, Es|by apply vm_life_mark].
    + apply bool_decide_eq_false in Es. intros [= <- <-]. apply (life_step_call id); try done.
      split; [|done]. intros c. rewrite Hx. congruence.
  - intros [= <- <-]. apply (life_step_call id); try done. split; [|done]. intros c. unfold vm_life. by rewrite He.
Qed.

Lemma kill_refines now id r s s' :
  kill_vm now id s = (r, s') → life_step (LKill id) (is_ok r) (vm_life s) (vm_life s').
Proof.
  unfold kill_vm, get_vm. rpc_unfold. destruct (vms s !! id) as [e|] eqn:He; cbn beta iota.
  - assert (Hx : vm_life s id = Some (ve_config e, ve_state e)) by (unfold vm_life; by rewrite He).
    destruct (ve_state e == VsStopping) eqn:Es.
    { apply bool_decide_eq_true in Es. rewrite orb_true_r. intros [= <- <-]. apply (life_step_call id); try done.
      exists (ve_config e), VsStopping. rewrite Hx, Es. split_and!; [done|by right|done]. }
    rewrite orb_false_r. apply bool_decide_eq_false in Es.
    destruct (ve_state e == VsRunning) eqn:Er; cbn beta iota.
    + apply bool_decide_eq_true in Er. destruct (update_state_vms now id VsStopping s e He) as (e' & _ & _ & _ & _ & ->).
      intros [= <- <-]. apply (life_step_call id); [done|done| |intros; by apply set_state_others].
      exists (ve_config e), VsRunning. split_and!; [by rewrite Hx, Er|by left|by apply vm_life_mark].
    + apply bool_decide_eq_false in Er. intros [= <- <-]. apply (life_step_call id); try done.
      split; [|done]. intros c st. rewrite Hx. intros [= _ <-] [Ha|Ha]; congruence.
  - intros [= <- <-]. apply (life_step_call id); try done. split; [|done]. intros c st. unfold vm_life. by rewrite He.
Qed.

(** One step of the daemon is one step of the life cycle. *)
Lemma vmm_act_refines l ok s s' : vmm_act l ok s s' → life_step l ok (vm_life s) (vm_life s').
Proof.
  destruct 1.
  - by eapply create_refines.
  - by apply delete_refines.
  - by eapply start_refines.
  - by eapply stop_refines.
  - apply ends_then_stopped. unfold hypervisor_stop. etrans; [|apply ends_cleanup].
    destruct (0 <? timeout)%N; [apply ends_wait|done].
  - by eapply kill_refines.
  - apply ends_then_stopped, ends_kill.
  - intros id. apply ends_background.
  - intros id. apply ends_recover.
Qed.

Lemma vmm_act_step l ok s s' : vmm_act l ok s s' → vmm_step constraint_error data_dir firmware s s'.
Proof.
  destruct 1; repeat match goal with H : ?m ?s0 = (?r, ?s1) |- _ =>
    assert (s1 = (m s0).2) as -> by (by rewrite H); clear H end; by constructor.
Qed.

End life.

(** Runs, with what was asked and what was answered. *)
Inductive run {S} (step : VmLabel → bool → S → S → Prop) : list (VmLabel * bool) → S → S → Prop :=
  | run_nil s : run step [] s s
  | run_cons l ok tr s1 s2 s3 : step l ok s1 s2 → run step tr s2 s3 → run step ((l, ok) :: tr) s1 s3.


(** A VM is created, started, asked to stop twice and stopped. *)
Definition ex_life : list (VmLabel * bool) :=
  [(LCreate "vm-a" (Some ex_config), true); (LStart "vm-a", true); (LStop "vm-a", true); (LStop "vm-a", false);
   (LEnded "vm-a", true)].
Definition ex_asked : Vmm := (stop_vm 5 "vm-a" ex_running).2.
Definition ex_ended : Vmm := kill_task 7 "vm-a" ex_asked.

Lemma ex_life_run : run (vmm_act "" "/d" "/fw") ex_life vmm_empty ex_ended.
Proof.
  eapply run_cons.
  { exact (ActCreate "" "/d" "/fw" 0 "" ex_create _ vmm_empty ex_stopped (surjective_pairing _)). }
  eapply run_cons.
  { refine (ActStart "" "/d" "/fw" 1 (Spawned 7 (Ok tt)) "vm-a" _ ex_stopped ex_running _ _ (surjective_pairing _)).
    - intros e H. vm_compute in H. by injection H as <-.
    - split; [done|]. split; [done|]. intros id rt H. by vm_compute in H. }
  eapply run_cons; [exact (ActStop "" "/d" "/fw" 5 "vm-a" _ ex_running ex_asked (surjective_pairing _))|].
  eapply run_cons; [exact (ActStop "" "/d" "/fw" 6 "vm-a" _ ex_asked ex_asked (surjective_pairing _))|].
  eapply run_cons; [apply (ActKillTask "" "/d" "/fw" 7)|]. apply run_nil.
Qed.

