(* ===== verification/Zfs.v ===== *)
(** The storage daemon of a node (mvirt-zfs): its metadata (store.rs), the import
    of images (import.rs) and the gRPC methods (grpc.rs), over the [zfs] command
    (zfs.rs), of which only the documented behaviour is used. *)

From S2P Require Import Prelude Rpc.
Local Open Scope rpc_scope.

(** * The pool *)

(** A ZVOL: its size, its snapshots from the oldest to the newest, and the snapshot
    it was cloned from. *)
Record Dataset := MkDataset {
  ds_volsize : u64; ds_snaps : list string; ds_origin : option (string * string) }.
#[export] Instance eta_Dataset : Eta Dataset := λ r,
  MkDataset (ds_volsize r) (ds_snaps r) (ds_origin r).

Definition clones_of (path snap : string) (m : gmap string Dataset) : list string :=
  fst <$> List.filter (λ '(_, d), ds_origin d == Some (path, snap)) (map_to_list m).
Definition has_clones (path : string) (m : gmap string Dataset) : Prop :=
  ∃ snap c d, m !! c = Some d ∧ ds_origin d = Some (path, snap).

(** Snapshots of a list up to and including [snap]. *)
Fixpoint up_to (snap : string) (l : list string) : list string :=
  match l with
  | [] => []
  | s :: l => if s == snap then [s] else s :: up_to snap l
  end.

(** The [zfs] command: what a command that succeeds has done, and what makes one
    fail (zfs-create(8), zfs-destroy(8), zfs-snapshot(8), zfs-clone(8),
    zfs-promote(8), zfs-rollback(8), zfs-set(8)). An error carries the text the
    command printed. *)
Class Zpool := {
  pool : Type;
  datasets : pool → gmap string Dataset;
  ds_used : pool → string → u64;
  zfs_create : string → u64 → pool → result string pool;
  zfs_destroy : string → pool → result string pool;
  zfs_destroy_r : string → pool → result string pool;
  zfs_snapshot : string → string → pool → result string pool;
  zfs_destroy_snapshot : string → string → pool → result string pool;
  zfs_clone : string → string → string → pool → result string pool;
  zfs_promote : string → pool → result string pool;
  zfs_rollback_r : string → string → pool → result string pool;
  zfs_set_volsize : string → u64 → pool → result string pool;
  zfs_send_receive : string → string → string → pool → result string pool;
  zfs_create_Ok : ∀ path size p p', zfs_create path size p = Ok p' →
    datasets p !! path = None ∧ datasets p' = <[path := MkDataset size [] None]> (datasets p);
  zfs_destroy_Ok : ∀ path p p', zfs_destroy path p = Ok p' →
    (∃ d, datasets p !! path = Some d ∧ ds_snaps d = []) ∧ datasets p' = delete path (datasets p);
  zfs_destroy_r_Ok : ∀ path p p', zfs_destroy_r path p = Ok p' →
    is_Some (datasets p !! path) ∧ ¬ has_clones path (datasets p) ∧
    datasets p' = delete path (datasets p);
  zfs_snapshot_Ok : ∀ path snap p p', zfs_snapshot path snap p = Ok p' →
    ∃ d, datasets p !! path = Some d ∧ snap ∉ ds_snaps d ∧
      datasets p' = <[path := d <| ds_snaps := ds_snaps d ++ [snap] |>]> (datasets p);
  zfs_destroy_snapshot_Ok : ∀ path snap p p', zfs_destroy_snapshot path snap p = Ok p' →
    ∃ d, datasets p !! path = Some d ∧
      datasets p' = <[path := d <| ds_snaps := List.filter (λ s, negb (s == snap)) (ds_snaps d) |>]>
        (datasets p);
  zfs_clone_Ok : ∀ path snap target p p', zfs_clone path snap target p = Ok p' →
    ∃ d, datasets p !! path = Some d ∧ snap ∈ ds_snaps d ∧ datasets p !! target = None ∧
      datasets p' = <[target := MkDataset (ds_volsize d) [] (Some (path, snap))]> (datasets p);
  zfs_promote_Ok : ∀ path p p', zfs_promote path p = Ok p' →
    ∃ d o snap od, datasets p !! path = Some d ∧ ds_origin d = Some (o, snap) ∧
      datasets p !! o = Some od ∧
      ds_snaps <$> datasets p' !! path = Some (up_to snap (ds_snaps od) ++ ds_snaps d) ∧
      ds_origin <$> datasets p' !! o = Some (Some (path, snap)) ∧
      (ds_snaps <$> datasets p' !! o = Some (drop (length (up_to snap (ds_snaps od))) (ds_snaps od))) ∧
      (∀ q e, q ≠ path → q ≠ o → datasets p !! q = Some e → ds_origin e = Some (o, snap) →
         ds_origin <$> datasets p' !! q = Some (Some (path, snap))) ∧
      (∀ q, ds_volsize <$> datasets p' !! q = ds_volsize <$> datasets p !! q);
  zfs_rollback_r_Ok : ∀ path snap p p', zfs_rollback_r path snap p = Ok p' →
    ∃ d, datasets p !! path = Some d ∧ snap ∈ ds_snaps d ∧
      ds_snaps <$> datasets p' !! path = Some (up_to snap (ds_snaps d)) ∧
      ∀ q, q ≠ path → datasets p' !! q = datasets p !! q;
  zfs_set_volsize_Ok : ∀ path size p p', zfs_set_volsize path size p = Ok p' →
    ∃ d, datasets p !! path = Some d ∧
      datasets p' = <[path := d <| ds_volsize := size |>]> (datasets p);
  zfs_send_receive_Ok : ∀ path snap target p p', zfs_send_receive path snap target p = Ok p' →
    ∃ d, datasets p !! path = Some d ∧ snap ∈ ds_snaps d ∧ datasets p !! target = None ∧
      datasets p' = <[target := MkDataset (ds_volsize d) [snap] None]> (datasets p);
}.

(** * Metadata *)

Record VolumeEntry := MkVolumeEntry {
  vl_id : string; vl_name : string; vl_zfs_path : string; vl_device_path : string;
  vl_size_bytes : u64; vl_origin_template_id : option string; vl_created_at : string;
  vl_updated_at : string }.
Record TemplateEntry := MkTemplateEntry {
  te_id : string; te_name : string; te_base_zvol_path : option string;
  te_snapshot_path : option string; te_size_bytes : u64; te_created_at : string }.
Record SnapshotEntry := MkSnapshotEntry {
  se_id : string; se_volume_id : string; se_name : string; se_zfs_name : string;
  se_created_at : string }.
Record ImportJobEntry := MkImportJobEntry {
  je_id : string; je_template_name : string; je_source : string; je_format : string;
  je_state : string; je_bytes_written : u64; je_total_bytes : option u64; je_error : option string;
  je_created_at : string; je_completed_at : option string }.

(** What a volume message carries. *)
Record VolumeMsg := MkVolumeMsg {
  vm_id : string; vm_name : string; vm_path : string; vm_volsize_bytes : u64; vm_used_bytes : u64 }.

#[export] Instance eta_VolumeEntry : Eta VolumeEntry := λ r,
  MkVolumeEntry (vl_id r) (vl_name r) (vl_zfs_path r) (vl_device_path r) (vl_size_bytes r)
    (vl_origin_template_id r) (vl_created_at r) (vl_updated_at r).
#[export] Instance eta_ImportJobEntry : Eta ImportJobEntry := λ r,
  MkImportJobEntry (je_id r) (je_template_name r) (je_source r) (je_format r) (je_state r)
    (je_bytes_written r) (je_total_bytes r) (je_error r) (je_created_at r) (je_completed_at r).

(** The number of the state of a job in an answer. *)
Definition job_state_code (state : string) : Z :=
  if state == "pending" then 1 else if state == "downloading" then 2
  else if state == "converting" then 3 else if state == "writing" then 4
  else if state == "completed" then 5 else if state == "failed" then 6
  else if state == "cancelled" then 7 else 0.

Section zfs.
Context `{Z : Zpool}.
(** The name of the pool, and SQLite's text for a violated constraint. *)
Context (pool_name constraint_error : string).

(** Pool, tables, the jobs that can be cancelled and those that were told to stop,
    and the volume events published. *)
Record Zfs := MkZfs {
  z_pool : pool; z_volumes : gmap string VolumeEntry; z_templates : gmap string TemplateEntry;
  z_snapshots : gmap string SnapshotEntry; z_jobs : gmap string ImportJobEntry;
  z_running : gset string; z_cancelled : gset string;
  z_events : list (string * option VolumeMsg) }.
#[global] Instance eta_Zfs : Eta Zfs := λ r,
  MkZfs (z_pool r) (z_volumes r) (z_templates r) (z_snapshots r) (z_jobs r) (z_running r)
    (z_cancelled r) (z_events r).

Definition volume_zfs_path (uuid : string) : string := pool_name +:+ "/volumes/" +:+ uuid.
Definition template_zfs_path (uuid : string) : string := pool_name +:+ "/templates/" +:+ uuid.
Definition template_snapshot_path (uuid : string) : string := template_zfs_path uuid +:+ "@img".
Definition device_path (zfs_path : string) : string := "/dev/zvol/" +:+ zfs_path.

(** ** Rows *)

(** The primary key is the id. *)
Definition store_create_volume (e : VolumeEntry) : Rpc Zfs unit :=
  let! s := rpc_get in
  rpc_guard (is_none (z_volumes s !! vl_id e)) Internal constraint_error ;!
  rpc_modify (λ s, s <| z_volumes := <[vl_id e := e]> (z_volumes s) |>).
(** Names need not be unique; the first row found counts. *)
Definition get_volume_by_name (name : string) (s : Zfs) : option VolumeEntry :=
  snd <$> List.find (λ '(_, e), vl_name e == name) (map_to_list (z_volumes s)).
Definition update_volume_size (now id : string) (size : u64) (s : Zfs) : Zfs :=
  s <| z_volumes := alter (λ e, (e <| vl_size_bytes := size |>) <| vl_updated_at := now |>) id
                      (z_volumes s) |>.

(** Templates under their id; the name is unique. *)
Definition get_template (name : string) (s : Zfs) : option TemplateEntry :=
  snd <$> List.find (λ '(_, e), te_name e == name) (map_to_list (z_templates s)).
Definition store_create_template (e : TemplateEntry) : Rpc Zfs unit :=
  let! s := rpc_get in
  rpc_guard (is_none (z_templates s !! te_id e) && is_none (get_template (te_name e) s)) Internal
    constraint_error ;!
  rpc_modify (λ s, s <| z_templates := <[te_id e := e]> (z_templates s) |>).
Definition store_delete_template (name : string) (s : Zfs) : Zfs :=
  s <| z_templates := filter (λ '(_, e), te_name e ≠ name) (z_templates s) |>.

Definition snapshots_of (volume_id : string) (s : Zfs) : list SnapshotEntry :=
  List.filter (λ e, se_volume_id e == volume_id) (snd <$> map_to_list (z_snapshots s)).
Definition get_snapshot (volume_id name : string) (s : Zfs) : option SnapshotEntry :=
  List.find (λ e, se_name e == name) (snapshots_of volume_id s).
(** [UNIQUE(volume_id, name)]. *)
Definition store_create_snapshot (e : SnapshotEntry) : Rpc Zfs unit :=
  let! s := rpc_get in
  rpc_guard (is_none (z_snapshots s !! se_id e) && is_none (get_snapshot (se_volume_id e) (se_name e) s))
    Internal constraint_error ;!
  rpc_modify (λ s, s <| z_snapshots := <[se_id e := e]> (z_snapshots s) |>).
Definition delete_snapshot_row (volume_id name : string) (s : Zfs) : Zfs :=
  s <| z_snapshots := filter (λ '(_, e), ¬ (se_volume_id e = volume_id ∧ se_name e = name))
                        (z_snapshots s) |>.
Definition delete_snapshot_by_id (s : Zfs) (id : string) : Zfs :=
  s <| z_snapshots := delete id (z_snapshots s) |>.
Definition delete_volume_with_snapshots (id : string) (s : Zfs) : Zfs :=
  (s <| z_snapshots := filter (λ '(_, e), se_volume_id e ≠ id) (z_snapshots s) |>)
     <| z_volumes := delete id (z_volumes s) |>.

Definition job_done (state : string) : bool :=
  (state == "completed") || (state == "failed") || (state == "cancelled").
Definition update_import_job (now id state : string) (bytes : u64) (total : option u64)
    (error : option string) (s : Zfs) : Zfs :=
  s <| z_jobs := alter (λ e,
      ((((e <| je_state := state |>) <| je_bytes_written := bytes |>)
         <| je_total_bytes := match total with Some t => Some t | None => je_total_bytes e end |>)
         <| je_error := error |>)
         <| je_completed_at := if job_done state then Some now else je_completed_at e |>) id (z_jobs s) |>.

(** ** Commands *)

(** A command on the pool; its error text becomes an internal error. *)
Definition zfs_cmd (f : pool → result string pool) : Rpc Zfs unit := λ s,
  match f (z_pool s) with
  | Ok p => (Ok tt, s <| z_pool := p |>)
  | Err e => (Err (MkRpcStatus Internal e), s)
  end.
(** [zfs list] on one volume: size and space used. *)
Definition zfs_get_volume (path : string) (s : Zfs) : option (u64 * u64) :=
  d ← datasets (z_pool s) !! path; Some (ds_volsize d, ds_used (z_pool s) path).
(** The device node of a new volume appears in time, or not. *)
Definition wait_for_device (appears : bool) (path : string) : Rpc Zfs unit :=
  rpc_guard appears Internal ("Timeout waiting for device " +:+ device_path path +:+ " to appear").
Definition read_volume (path : string) : Rpc Zfs (u64 * u64) :=
  let! s := rpc_get in rpc_some (zfs_get_volume path s) Internal "Volume not found".

Definition volume_to_proto (e : VolumeEntry) (info : u64 * u64) : VolumeMsg :=
  MkVolumeMsg (vl_id e) (vl_name e) (vl_device_path e) info.1 info.2.
Definition publish_volume (id : string) (v : option VolumeMsg) (s : Zfs) : Zfs :=
  s <| z_events := z_events s ++ [(id, v)] |>.

Definition volume_not_found (name : string) : string := "Volume '" +:+ name +:+ "' not found".
Definition template_not_found (name : string) : string := "Template '" +:+ name +:+ "' not found".
Definition the_volume (name : string) : Rpc Zfs VolumeEntry :=
  let! s := rpc_get in rpc_some (get_volume_by_name name s) NotFound (volume_not_found name).
Definition the_template (name : string) : Rpc Zfs TemplateEntry :=
  let! s := rpc_get in rpc_some (get_template name s) NotFound (template_not_found name).

(** What a method draws: two fresh ids and the time; whether a device appears. *)
Record ZfsFresh := MkZfsFresh { zf_uuid : string; zf_uuid2 : string; zf_now : string; zf_device : bool }.

(** ** Volumes *)

(** The id of the request is not used. *)
Definition create_volume (f : ZfsFresh) (id name : string) (size : u64) : Rpc Zfs VolumeMsg :=
  rpc_guard (negb (str_is_empty name)) InvalidArgument "name is required" ;!
  rpc_guard (negb (size =? 0)%N) InvalidArgument "size_bytes must be > 0" ;!
  let! s := rpc_get in
  rpc_guard (is_none (get_volume_by_name name s)) AlreadyExists ("Volume '" +:+ name +:+ "' already exists") ;!
  let path := volume_zfs_path (zf_uuid f) in
  zfs_cmd (zfs_create path size) ;!
  let! info := read_volume path in
  wait_for_device (zf_device f) path ;!
  let e := MkVolumeEntry (zf_uuid f) name path (device_path path) size None (zf_now f) (zf_now f) in
  store_create_volume e ;!
  let msg := volume_to_proto e info in
  rpc_modify (publish_volume (vl_id e) (Some msg)) ;! rpc_ret msg.

Definition get_volume (name : string) : Rpc Zfs VolumeMsg :=
  let! e := the_volume name in
  let! s := rpc_get in
  let! info := rpc_some (zfs_get_volume (volume_zfs_path (vl_id e)) s) NotFound "Volume not found" in
  rpc_ret (volume_to_proto e info).

Definition delete_volume (name : string) : Rpc Zfs unit :=
  let! e := the_volume name in
  zfs_cmd (zfs_destroy_r (volume_zfs_path (vl_id e))) ;!
  rpc_modify (delete_volume_with_snapshots (vl_id e)) ;!
  rpc_modify (publish_volume (vl_id e) None).

Definition resize_volume (now name : string) (size : u64) : Rpc Zfs VolumeMsg :=
  let! e := the_volume name in
  zfs_cmd (zfs_set_volsize (volume_zfs_path (vl_id e)) size) ;!
  let! info := read_volume (volume_zfs_path (vl_id e)) in
  rpc_modify (update_volume_size now (vl_id e) size) ;!
  rpc_ret (volume_to_proto e info).

(** ** Snapshots *)

Definition snapshot_not_found (name : string) : string := "Snapshot '" +:+ name +:+ "' not found".

Definition create_snapshot (f : ZfsFresh) (volume_name snapshot_name : string) : Rpc Zfs unit :=
  let! e := the_volume volume_name in
  zfs_cmd (zfs_snapshot (volume_zfs_path (vl_id e)) (zf_uuid f)) ;!
  store_create_snapshot (MkSnapshotEntry (zf_uuid2 f) (vl_id e) snapshot_name (zf_uuid f) (zf_now f)).

Definition the_snapshot (volume_id name : string) : Rpc Zfs SnapshotEntry :=
  let! s := rpc_get in rpc_some (get_snapshot volume_id name s) NotFound (snapshot_not_found name).

Definition delete_snapshot (volume_name snapshot_name : string) : Rpc Zfs unit :=
  let! e := the_volume volume_name in
  let! snap := the_snapshot (vl_id e) snapshot_name in
  zfs_cmd (zfs_destroy_snapshot (volume_zfs_path (vl_id e)) (se_zfs_name snap)) ;!
  rpc_modify (delete_snapshot_row (vl_id e) snapshot_name).

(** How [zfs list] went: it could not be run, it failed, or it listed. *)
Inductive Listing := NotRun | ListFailed | Listed.

(** Drop the rows of snapshots that are not listed; a listing that fails is an empty
    one. *)
Definition sync_snapshots_after_rollback (listing : Listing) (volume_id : string) (s : Zfs) : Zfs :=
  let drop_others names :=
    foldl delete_snapshot_by_id s
      (se_id <$> List.filter (λ e, negb (bool_decide (se_zfs_name e ∈ names))) (snapshots_of volume_id s)) in
  match listing with
  | NotRun => s
  | ListFailed => drop_others []
  | Listed => drop_others match datasets (z_pool s) !! volume_zfs_path volume_id with
                          | Some d => ds_snaps d
                          | None => []
                          end
  end.

Definition rollback_snapshot (listing : Listing) (volume_name snapshot_name : string) : Rpc Zfs VolumeMsg :=
  let! e := the_volume volume_name in
  let! snap := the_snapshot (vl_id e) snapshot_name in
  zfs_cmd (zfs_rollback_r (volume_zfs_path (vl_id e)) (se_zfs_name snap)) ;!
  let! info := read_volume (volume_zfs_path (vl_id e)) in
  rpc_modify (sync_snapshots_after_rollback listing (vl_id e)) ;!
  rpc_ret (volume_to_proto e info).

(** ** Templates *)

Definition promote_snapshot_to_template (f : ZfsFresh) (template_name volume_name snapshot_name : string)
    : Rpc Zfs TemplateEntry :=
  let! s := rpc_get in
  rpc_guard (is_none (get_template template_name s)) AlreadyExists
    ("Template '" +:+ template_name +:+ "' already exists") ;!
  let! e := the_volume volume_name in
  let! snap := the_snapshot (vl_id e) snapshot_name in
  let! info := read_volume (volume_zfs_path (vl_id e)) in
  let id := zf_uuid f in
  zfs_cmd (zfs_send_receive (volume_zfs_path (vl_id e)) (se_zfs_name snap) (template_zfs_path id)) ;!
  zfs_cmd (zfs_snapshot (template_zfs_path id) "img") ;!
  let t := MkTemplateEntry id template_name (Some (template_zfs_path id))
             (Some (template_snapshot_path id)) info.1 (zf_now f) in
  store_create_template t ;! rpc_ret t.

(** The clones of all snapshots of a dataset, in the order of the list. *)
Definition get_snapshot_clones (path : string) (s : Zfs) : list string :=
  match datasets (z_pool s) !! path with
  | Some d => concat (map (λ snap, clones_of path snap (datasets (z_pool s))) (ds_snaps d))
  | None => []
  end.

Definition delete_template (name : string) : Rpc Zfs unit :=
  let! t := the_template name in
  let path := match te_base_zvol_path t with
              | Some p => p
              | None => template_zfs_path (te_id t)
              end in
  let! s := rpc_get in
  match get_snapshot_clones path s with
  | clone :: _ => zfs_cmd (zfs_promote clone)
  | [] => rpc_ret tt
  end ;!
  zfs_cmd (zfs_destroy path) ;!
  rpc_modify (store_delete_template name).

(** [uuid_text] is [Uuid::parse_str(..)] printed again. *)
Definition clone_from_template (uuid_text : string → option string) (f : ZfsFresh) (id template_name name : string)
    (size : option u64) : Rpc Zfs VolumeMsg :=
  let! t := the_template template_name in
  let volume_size := default (te_size_bytes t) size in
  rpc_guard (negb (volume_size <? te_size_bytes t)%N) InvalidArgument
    ("Volume size " +:+ pretty volume_size +:+ " is smaller than template size "
     +:+ pretty (te_size_bytes t)) ;!
  let! volume_id :=
    if str_is_empty id then rpc_ret (zf_uuid f)
    else rpc_some (uuid_text id) InvalidArgument ("invalid volume id: " +:+ id) in
  let path := volume_zfs_path volume_id in
  zfs_cmd (zfs_clone (template_zfs_path (te_id t)) "img" path) ;!
  let! info := read_volume path in
  wait_for_device (zf_device f) path ;!
  let! info :=
    if (te_size_bytes t <? volume_size)%N
    then zfs_cmd (zfs_set_volsize path volume_size) ;! read_volume path
    else rpc_ret info in
  let e := MkVolumeEntry volume_id name path (device_path path) volume_size (Some (te_id t))
             (zf_now f) (zf_now f) in
  store_create_volume e ;!
  let msg := volume_to_proto e info in
  rpc_modify (publish_volume volume_id (Some msg)) ;! rpc_ret msg.

(** * Import *)

Inductive ImageFormat := Raw | Qcow2.
#[global] Instance ImageFormat_eq : EqDecision ImageFormat.
Proof. solve_decision. Defined.
Inductive ImportSource := LocalFile (path : string) | HttpUrl (url : string).

Definition source_parse (source : string) : ImportSource :=
  if starts_with "http://" source || starts_with "https://" source then HttpUrl source
  else LocalFile source.

Definition QCOW2_MAGIC : list u8 := [81; 70; 73; 251]%N.
Definition detect_format_from_magic (bytes : list u8) : ImageFormat :=
  if (4 <=? length bytes)%nat && (take 4 bytes == QCOW2_MAGIC) then Qcow2 else Raw.
(** [None]: the file is shorter than its header. *)
Definition detect_format_from_file (content : list u8) : option ImageFormat :=
  if (length content <? 4)%nat then None
  else Some (if take 4 content == QCOW2_MAGIC then Qcow2 else Raw).

(** The download loop, as far as the format is concerned: the header is taken from
    the first chunk if it is long enough. *)
Record Download := MkDownload { dl_magic : list u8; dl_captured : bool; dl_bytes : u64 }.
Definition download_chunk (d : Download) (chunk : list u8) : Download :=
  let d := if negb (dl_captured d) && (dl_bytes d =? 0)%N && (4 <=? length chunk)%nat
           then MkDownload (take 4 chunk) true (dl_bytes d) else d in
  MkDownload (dl_magic d) (dl_captured d) (dl_bytes d + N.of_nat (length chunk)).
Definition download_format (chunks : list (list u8)) : ImageFormat :=
  detect_format_from_magic
    (dl_magic (foldl download_chunk (MkDownload [0; 0; 0; 0]%N false 0) chunks)).

Definition start_import (now job_id template_name source format : string) (size : option u64) (s : Zfs)
    : Zfs :=
  let e := MkImportJobEntry job_id template_name source format "pending" 0 size None now None in
  (s <| z_jobs := <[job_id := e]> (z_jobs s) |>) <| z_running := {[ job_id ]} ∪ z_running s |>.

Definition list_templates (s : Zfs) : list TemplateEntry := snd <$> map_to_list (z_templates s).
(** The newest first; here in no particular order. *)
Definition list_import_jobs (include_completed : bool) (s : Zfs) : list ImportJobEntry :=
  List.filter (λ j, include_completed || negb (job_done (je_state j))) (snd <$> map_to_list (z_jobs s)).

(** [files] gives the content of a local file, or why it cannot be read. *)
Definition import_template (files : string → result string (list u8)) (now job_id name source : string)
    (size : option u64) : Rpc Zfs unit :=
  rpc_guard (negb (str_is_empty name)) InvalidArgument "name is required" ;!
  rpc_guard (negb (str_is_empty source)) InvalidArgument "source is required" ;!
  let! s := rpc_get in
  rpc_guard (is_none (get_template name s)) AlreadyExists ("Template '" +:+ name +:+ "' already exists") ;!
  let! format :=
    match source_parse source with
    | LocalFile path =>
        match files path with
        | Ok content =>
            match detect_format_from_file content with
            | Some Raw => rpc_ret "raw"
            | Some Qcow2 => rpc_ret "qcow2"
            | None => rpc_fail Internal "Failed to read file header"
            end
        | Err e => rpc_fail Internal e
        end
    | HttpUrl _ => rpc_ret "auto"
    end in
  rpc_modify (start_import now job_id name source format size).

(** The job is told to stop and its row marked, if it still runs. *)
Definition cancel_job (now job_id : string) (s : Zfs) : bool * Zfs :=
  if bool_decide (job_id ∈ z_running s) then
    (true, update_import_job now job_id "cancelled" 0 None None
      ((s <| z_running := z_running s ∖ {[ job_id ]} |>)
          <| z_cancelled := {[ job_id ]} ∪ z_cancelled s |>))
  else (false, s).

(** The snapshot, the row of the template and the end of the job. *)
Definition finish_import (now job_id template_id template_name : string) (size bytes : u64) : Rpc Zfs unit :=
  zfs_cmd (zfs_snapshot (template_zfs_path template_id) "img") ;!
  store_create_template (MkTemplateEntry template_id template_name (Some (template_zfs_path template_id))
    (Some (template_snapshot_path template_id)) size now) ;!
  rpc_modify (update_import_job now job_id "completed" bytes None None).

(** The copy loop of a raw file: before each chunk, what other requests did, and
    whether the job has been told to stop. [None] ends the file; an error is one of
    reading or writing. *)
Inductive Copied := CopyDone (bytes : u64) | CopyCancelled (bytes : u64) | CopyError (e : string).
Fixpoint copy_loop (job_id : string) (reads : list ((Zfs → Zfs) * result string u64)) (bytes : u64)
    (s : Zfs) : Copied * Zfs :=
  match reads with
  | [] => (if bool_decide (job_id ∈ z_cancelled s) then CopyCancelled bytes else CopyDone bytes, s)
  | (others, read) :: reads =>
      let s := others s in
      if bool_decide (job_id ∈ z_cancelled s) then (CopyCancelled bytes, s)
      else match read with
           | Err e => (CopyError e, s)
           | Ok n => copy_loop job_id reads (bytes + n) s
           end
  end.

Definition import_raw_file (now job_id template_id template_name : string) (file_size : u64) (device : bool)
    (reads : list ((Zfs → Zfs) * result string u64)) : Rpc Zfs unit :=
  rpc_modify (update_import_job now job_id "writing" 0 None None) ;!
  zfs_cmd (zfs_create (template_zfs_path template_id) file_size) ;!
  wait_for_device device (template_zfs_path template_id) ;!
  λ s, match copy_loop job_id reads 0 s with
       | (CopyError e, s) => (Err (MkRpcStatus Internal e), s)
       | (CopyCancelled bytes, s) =>
           let s := match zfs_destroy_r (template_zfs_path template_id) (z_pool s) with
                    | Ok p => s <| z_pool := p |>
                    | Err _ => s
                    end in
           (Ok tt, update_import_job now job_id "cancelled" bytes None None s)
       | (CopyDone bytes, s) => finish_import now job_id template_id template_name file_size bytes s
       end.

(** A qcow2 image is converted in one go; nobody looks whether the job was told to
    stop. [others] is what other requests did in the meantime. *)
Definition import_qcow2_file (now job_id template_id template_name : string)
    (virtual_size : result string u64) (device : bool) (others : Zfs → Zfs)
    (converted : result string unit) : Rpc Zfs unit :=
  rpc_modify (update_import_job now job_id "converting" 0 None None) ;!
  match virtual_size with
  | Err e => rpc_fail Internal e
  | Ok size =>
      zfs_cmd (zfs_create (template_zfs_path template_id) size) ;!
      wait_for_device device (template_zfs_path template_id) ;!
      rpc_modify (update_import_job now job_id "writing" 0 None None) ;!
      rpc_modify others ;!
      match converted with
      | Err e => rpc_fail Internal e
      | Ok _ => finish_import now job_id template_id template_name size size
      end
  end.

(** The download: before each chunk, what other requests did and whether the job has
    been told to stop; after it, whether a second has passed since the last report. *)
Inductive Downloaded := DownloadDone (d : Download) | DownloadCancelled (bytes : u64) | DownloadError (e : string).
Fixpoint download_loop (now job_id : string) (content_length : option u64)
    (chunks : list ((Zfs → Zfs) * result string (list u8) * bool)) (d : Download) (s : Zfs)
    : Downloaded * Zfs :=
  match chunks with
  | [] => (DownloadDone d, s)
  | (others, chunk, tick) :: chunks =>
      let s := others s in
      if bool_decide (job_id ∈ z_cancelled s) then (DownloadCancelled (dl_bytes d), s)
      else match chunk with
           | Err e => (DownloadError e, s)
           | Ok chunk =>
               let d := download_chunk d chunk in
               let s := if tick
                        then update_import_job now job_id "downloading" (dl_bytes d) content_length None s
                        else s in
               download_loop now job_id content_length chunks d s
           end
  end.

(** [response] is the answer to the request, with the length it announces; [written]
    the copy of the downloaded file to the device, during which [others] happens. *)
Definition import_from_url (now job_id template_id template_name : string) (size_bytes : option u64)
    (response : result string (option u64)) (chunks : list ((Zfs → Zfs) * result string (list u8) * bool))
    (virtual_size : result string u64) (device : bool) (others : Zfs → Zfs)
    (converted : result string unit) (written : result string u64) : Rpc Zfs unit :=
  rpc_modify (update_import_job now job_id "downloading" 0 None None) ;!
  match response with
  | Err e => rpc_fail Internal e
  | Ok content_length => λ s,
      match download_loop now job_id content_length chunks (MkDownload [0; 0; 0; 0]%N false 0) s with
      | (DownloadError e, s) => (Err (MkRpcStatus Internal e), s)
      | (DownloadCancelled bytes, s) => (Ok tt, update_import_job now job_id "cancelled" bytes None None s)
      | (DownloadDone d, s) =>
          match detect_format_from_magic (dl_magic d) with
          | Qcow2 =>
              import_qcow2_file now job_id template_id template_name virtual_size device others converted s
          | Raw =>
              let file_size := match size_bytes, content_length with
                               | Some n, _ => n
                               | None, Some n => n
                               | None, None => dl_bytes d
                               end in
              (rpc_modify (update_import_job now job_id "writing" 0 None None) ;!
               zfs_cmd (zfs_create (template_zfs_path template_id) file_size) ;!
               wait_for_device device (template_zfs_path template_id) ;!
               rpc_modify others ;!
               match written with
               | Err e => rpc_fail Internal e
               | Ok bytes => finish_import now job_id template_id template_name file_size bytes
               end) s
          end
      end
  end.

(** The task of a job: an error removes the volume and marks the job failed; the job
    can no longer be cancelled afterwards. *)
Definition run_import (now job_id template_id : string) (inner : Rpc Zfs unit) (s : Zfs) : Zfs :=
  let s :=
    match inner s with
    | (Ok _, s) => s
    | (Err e, s) =>
        let s := match zfs_destroy_r (template_zfs_path template_id) (z_pool s) with
                 | Ok p => s <| z_pool := p |>
                 | Err _ => s
                 end in
        update_import_job now job_id "failed" 0 None (Some (rs_message e)) s
    end in
  s <| z_running := z_running s ∖ {[ job_id ]} |>.

End zfs.
