(* ===== verification/ZfsFacts.v ===== *)
(** Theorems on the storage daemon: its metadata stays backed by the pool, how the
    format of a download is found, and which requests cannot do what they say. *)

From S2P Require Import Prelude Rpc Zfs.

(** * Formats *)

Lemma download_captured chunks d :
  dl_captured d = true → dl_magic (foldl download_chunk d chunks) = dl_magic d.
Proof.
  revert d. induction chunks as [|c chunks IH]; intros d H; [done|]. cbn [foldl].
  rewrite IH; unfold download_chunk; by rewrite H.
Qed.

(** If the first chunk of a download holds the four bytes of the header, the format
    found is the one of the whole file. *)
Theorem download_format_agrees c chunks :
  (4 <= length c)%nat →
  detect_format_from_file (concat (c :: chunks)) = Some (download_format (c :: chunks)).
Proof.
  intros Hc. unfold detect_format_from_file, download_format, detect_format_from_magic.
  cbn [foldl concat]. rewrite length_app, (proj2 (Nat.ltb_ge _ _)), take_app_le by lia.
  assert (E : download_chunk (MkDownload [0; 0; 0; 0]%N false 0) c
    = MkDownload (take 4 c) true (N.of_nat (length c))).
  { unfold download_chunk. cbn [dl_captured dl_bytes negb andb].
    rewrite (proj2 (Nat.leb_le _ _)) by done. done. }
  rewrite E, download_captured by done. cbn [dl_magic].
  rewrite length_take, (proj2 (Nat.leb_le _ _)), take_take by lia.
  by replace (4 `min` 4)%nat with 4%nat by done.
Qed.

Lemma download_missed chunks d :
  dl_captured d = false → (0 < dl_bytes d)%N → dl_magic (foldl download_chunk d chunks) = dl_magic d.
Proof.
  revert d. induction chunks as [|c chunks IH]; intros d H Hb; [done|]. cbn [foldl].
  assert (E : download_chunk d c = MkDownload (dl_magic d) false (dl_bytes d + N.of_nat (length c))).
  { unfold download_chunk. rewrite H, (proj2 (N.eqb_neq _ _)) by lia. cbn. by rewrite H. }
  rewrite E, IH; cbn; [done|done|lia].
Qed.

(** If the first chunk is shorter than that, the header is never looked at: every
    image is taken for a raw one. *)
Theorem short_chunk_raw c chunks :
  (0 < length c < 4)%nat → download_format (c :: chunks) = Raw.
Proof.
  intros Hc. unfold download_format. cbn [foldl].
  assert (E : download_chunk (MkDownload [0; 0; 0; 0]%N false 0) c
    = MkDownload [0; 0; 0; 0]%N false (N.of_nat (length c))).
  { unfold download_chunk. cbn [dl_captured dl_bytes negb andb N.eqb].
    by rewrite (proj2 (Nat.leb_gt _ _)) by lia. }
  rewrite E, download_missed by (cbn; done || lia). done.
Qed.

Create HintDb zpool.

Section facts.
Context `{Z : Zpool} (pool_name constraint_error : string) (uuid_text : string → option string).

(** * Paths *)

Lemma app_inj_l s t u : s +:+ t = s +:+ u → t = u.
Proof. induction s as [|a s IH]; cbn; [done|]. intros [= H]. by apply IH. Qed.

Lemma volume_path_inj a b : volume_zfs_path pool_name a = volume_zfs_path pool_name b → a = b.
Proof. intros H%app_inj_l. by apply app_inj_l in H. Qed.
Lemma template_path_inj a b : template_zfs_path pool_name a = template_zfs_path pool_name b → a = b.
Proof. intros H%app_inj_l. by apply app_inj_l in H. Qed.
Lemma template_volume_path a b : template_zfs_path pool_name a ≠ volume_zfs_path pool_name b.
Proof. intros H%app_inj_l. done. Qed.

(** * Rows and datasets *)

Record zfs_ok (s : Zfs) : Prop := {
  zok_vol id e : z_volumes s !! id = Some e → vl_id e = id;
  zok_vol_ds id e : z_volumes s !! id = Some e →
    is_Some (datasets (z_pool s) !! volume_zfs_path pool_name id);
  zok_tpl id t : z_templates s !! id = Some t →
    te_id t = id ∧ te_base_zvol_path t = Some (template_zfs_path pool_name id);
  zok_tpl_ds id t : z_templates s !! id = Some t →
    is_Some (datasets (z_pool s) !! template_zfs_path pool_name id);
}.

(** The pool keeps the datasets of the rows. *)
Definition pool_keeps (s : Zfs) (p : pool) : Prop :=
  (∀ id, is_Some (z_volumes s !! id) → is_Some (datasets (z_pool s) !! volume_zfs_path pool_name id) →
     is_Some (datasets p !! volume_zfs_path pool_name id)) ∧
  (∀ id, is_Some (z_templates s !! id) → is_Some (datasets (z_pool s) !! template_zfs_path pool_name id) →
     is_Some (datasets p !! template_zfs_path pool_name id)).

Lemma zfs_ok_pool s p : zfs_ok s → pool_keeps s p → zfs_ok (s <| z_pool := p |>).
Proof.
  intros H [Hv Ht]. split; cbn; [apply H| |apply H|].
  - intros id e He. apply Hv; [by eexists|by eapply (zok_vol_ds s H)].
  - intros id t Hi. apply Ht; [by eexists|by eapply (zok_tpl_ds s H)].
Qed.

Lemma dom_keeps s p : dom (datasets (z_pool s)) ⊆ dom (datasets p) → pool_keeps s p.
Proof.
  intros H. assert (Hk : ∀ path, is_Some (datasets (z_pool s) !! path) → is_Some (datasets p !! path)).
  { intros path. rewrite <- !elem_of_dom. set_solver. }
  split; intros id _; apply Hk.
Qed.

(** Which commands keep all datasets. *)
Definition keeps_datasets (f : pool → result string pool) : Prop :=
  ∀ p p', f p = Ok p' → dom (datasets p) ⊆ dom (datasets p').

Lemma keeps_insert (f : pool → result string pool) :
  (∀ p p', f p = Ok p' → ∃ k d, datasets p' = <[k := d]> (datasets p)) → keeps_datasets f.
Proof. intros H p p' E. destruct (H _ _ E) as (k & d & ->). set_solver. Qed.

Lemma keeps_create path size : keeps_datasets (zfs_create path size).
Proof. apply keeps_insert. intros p p' (_ & ->)%zfs_create_Ok. eauto. Qed.
Lemma keeps_snapshot path snap : keeps_datasets (zfs_snapshot path snap).
Proof. apply keeps_insert. intros p p' (d & _ & _ & ->)%zfs_snapshot_Ok. eauto. Qed.
Lemma keeps_destroy_snapshot path snap : keeps_datasets (zfs_destroy_snapshot path snap).
Proof. apply keeps_insert. intros p p' (d & _ & ->)%zfs_destroy_snapshot_Ok. eauto. Qed.
Lemma keeps_clone path snap target : keeps_datasets (zfs_clone path snap target).
Proof. apply keeps_insert. intros p p' (d & _ & _ & _ & ->)%zfs_clone_Ok. eauto. Qed.
Lemma keeps_set_volsize path size : keeps_datasets (zfs_set_volsize path size).
Proof. apply keeps_insert. intros p p' (d & _ & ->)%zfs_set_volsize_Ok. eauto. Qed.
Lemma keeps_send_receive path snap target : keeps_datasets (zfs_send_receive path snap target).
Proof. apply keeps_insert. intros p p' (d & _ & _ & _ & ->)%zfs_send_receive_Ok. eauto. Qed.
Lemma keeps_promote path : keeps_datasets (zfs_promote path).
Proof.
  intros p p' (d & o & snap & od & _ & _ & _ & _ & _ & _ & _ & Hs)%zfs_promote_Ok q Hq.
  apply elem_of_dom in Hq as [e He]. specialize (Hs q). rewrite He in Hs.
  apply elem_of_dom. destruct (datasets p' !! q); [by eexists|done].
Qed.
Lemma keeps_rollback path snap : keeps_datasets (zfs_rollback_r path snap).
Proof.
  intros p p' (d & Hd & _ & Hs & Ho)%zfs_rollback_r_Ok q Hq. apply elem_of_dom.
  destruct (decide (q = path)) as [->|Hne].
  - destruct (datasets p' !! path); [by eexists|done].
  - rewrite Ho by done. by apply elem_of_dom.
Qed.

(** ** The methods keep it *)

Lemma wp_cmd f s (Q : unit → Zfs → Prop) (E : Zfs → Prop) :
  E s → (∀ p, f (z_pool s) = Ok p → Q tt (s <| z_pool := p |>)) → rpc_wp (zfs_cmd f) s Q E.
Proof. intros HE HQ. unfold rpc_wp, zfs_cmd. destruct (f (z_pool s)) eqn:E1; [by apply HQ|done]. Qed.

Lemma wp_read path s (Q : u64 * u64 → Zfs → Prop) (E : Zfs → Prop) :
  E s → (∀ d i, datasets (z_pool s) !! path = Some d → i.1 = ds_volsize d → Q i s) →
  rpc_wp (read_volume path) s Q E.
Proof.
  intros HE HQ. unfold read_volume. repeat rpc_step; [done|].
  unfold zfs_get_volume in *. destruct (datasets (z_pool s) !! path) eqn:Ed; [|done].
  simplify_eq/=. by eapply HQ.
Qed.

Lemma find_entry {A} (P : A → bool) (m : gmap string A) e :
  snd <$> List.find (λ '(_, e), P e) (map_to_list m) = Some e →
  ∃ id, m !! id = Some e ∧ P e = true.
Proof.
  intros H. destruct (List.find _ _) as [[id e']|] eqn:E; [|done]. cbn in H. simplify_eq.
  apply List.find_some in E as [Hi He]. exists id. split; [|done].
  by apply elem_of_map_to_list, list_elem_of_In.
Qed.

Lemma wp_the_volume name s (Q : VolumeEntry → Zfs → Prop) (E : Zfs → Prop) :
  E s → zfs_ok s →
  (∀ e, z_volumes s !! vl_id e = Some e → vl_name e = name → Q e s) →
  rpc_wp (the_volume name) s Q E.
Proof.
  intros HE Hok HQ. unfold the_volume. repeat rpc_step; [done|].
  unfold get_volume_by_name in *.
  apply (find_entry (λ e, vl_name e == name)) in H as (id & Hi & Hn%bool_decide_eq_true).
  apply HQ; [|done]. by rewrite (zok_vol s Hok _ _ Hi).
Qed.

Lemma wp_the_template name s (Q : TemplateEntry → Zfs → Prop) (E : Zfs → Prop) :
  E s → zfs_ok s →
  (∀ t, z_templates s !! te_id t = Some t → te_name t = name →
     te_base_zvol_path t = Some (template_zfs_path pool_name (te_id t)) → Q t s) →
  rpc_wp (the_template name) s Q E.
Proof.
  intros HE Hok HQ. unfold the_template. repeat rpc_step; [done|].
  unfold get_template in *.
  apply (find_entry (λ e, te_name e == name)) in H as (id & Hi & Hn%bool_decide_eq_true).
  destruct (zok_tpl s Hok _ _ Hi) as [<- Hp]. by apply HQ.
Qed.

(** States that agree on pool, volumes and templates. *)
Lemma zfs_ok_same s s' :
  z_pool s' = z_pool s → z_volumes s' = z_volumes s → z_templates s' = z_templates s →
  zfs_ok s → zfs_ok s'.
Proof. intros Ep Ev Et H. split; rewrite ?Ep, ?Ev, ?Et; apply H. Qed.

Lemma zfs_ok_cmd f s p : keeps_datasets f → zfs_ok s → f (z_pool s) = Ok p → zfs_ok (s <| z_pool := p |>).
Proof. intros Hk H E. apply zfs_ok_pool; [done|]. by apply dom_keeps, (Hk _ _ E). Qed.

Lemma wp_store_volume e s (Q : unit → Zfs → Prop) (E : Zfs → Prop) :
  E s → zfs_ok s → is_Some (datasets (z_pool s) !! volume_zfs_path pool_name (vl_id e)) →
  (zfs_ok (s <| z_volumes := <[vl_id e := e]> (z_volumes s) |>) →
     Q tt (s <| z_volumes := <[vl_id e := e]> (z_volumes s) |>)) →
  rpc_wp (store_create_volume constraint_error e) s Q E.
Proof.
  intros HE H Hd HQ. unfold store_create_volume. repeat rpc_step; [done|]. apply HQ.
  split; cbn; [| |apply H|apply H]; intros id e'; rewrite lookup_insert;
    case_decide as Hi; subst; [by intros [= ->]|apply H|by intros _|apply H].
Qed.

Lemma wp_store_template t s (Q : unit → Zfs → Prop) (E : Zfs → Prop) :
  E s → zfs_ok s → te_base_zvol_path t = Some (template_zfs_path pool_name (te_id t)) →
  is_Some (datasets (z_pool s) !! template_zfs_path pool_name (te_id t)) →
  (zfs_ok (s <| z_templates := <[te_id t := t]> (z_templates s) |>) →
     Q tt (s <| z_templates := <[te_id t := t]> (z_templates s) |>)) →
  rpc_wp (store_create_template constraint_error t) s Q E.
Proof.
  intros HE H Hp Hd HQ. unfold store_create_template. repeat rpc_step; [done|]. apply HQ.
  split; cbn; [apply H|apply H| |]; intros id e'; rewrite lookup_insert;
    case_decide as Hi; subst; [by intros [= <-]|apply H|by intros _|apply H].
Qed.

(** A command that keeps the datasets, in the middle of a method. *)
Lemma wp_cmd_ok f s (Q : unit → Zfs → Prop) (E : Zfs → Prop) :
  keeps_datasets f → zfs_ok s → E s →
  (∀ p, f (z_pool s) = Ok p → zfs_ok (s <| z_pool := p |>) → Q tt (s <| z_pool := p |>)) →
  rpc_wp (zfs_cmd f) s Q E.
Proof. intros Hk H HE HQ. apply wp_cmd; [done|]. intros p Ep. apply HQ; [done|]. by eapply zfs_ok_cmd. Qed.

Hint Resolve keeps_create keeps_snapshot keeps_destroy_snapshot keeps_clone keeps_set_volsize
  keeps_send_receive keeps_promote keeps_rollback : zpool.

Ltac zfs_step_tac :=
  cbv beta zeta;
  lazymatch goal with
  | |- rpc_wp (zfs_cmd _) _ _ _ => apply wp_cmd_ok; [auto with zpool|done|done|let p := fresh "p" in let Ep := fresh "Ep" in let Hp := fresh "Hp" in intros p Ep Hp]
  | |- rpc_wp (read_volume _) _ _ _ => apply wp_read; [done|let d := fresh "d" in let i := fresh "info" in intros d i ? ?]
  | |- rpc_wp (the_volume _) _ _ _ => apply wp_the_volume; [done|done|intros e He Hname]
  | |- rpc_wp (the_template _) _ _ _ => apply wp_the_template; [done|done|intros t Ht Htn Htp]
  | |- rpc_wp (the_snapshot _ _) _ _ _ => unfold the_snapshot
  | |- rpc_wp (wait_for_device _ _) _ _ _ => unfold wait_for_device
  | _ => rpc_step
  end.

Lemma ok_create_volume f id name size s :
  zfs_ok s → zfs_ok (create_volume pool_name constraint_error f id name size s).2.
Proof.
  intros H. apply wp_inv. unfold create_volume. repeat (zfs_step_tac; try done).
  apply wp_store_volume; [done|done|by eexists|]. intros Hok. repeat rpc_step.
  by refine (zfs_ok_same _ _ _ _ _ Hok).
Qed.

Lemma ok_clone f id template_name name size s :
  zfs_ok s →
  zfs_ok (clone_from_template pool_name constraint_error uuid_text f id template_name name size s).2.
Proof.
  intros H. apply wp_inv. unfold clone_from_template.
  repeat (zfs_step_tac; try done).
  apply wp_mono with (Q := λ _ s', s' = s) (F := zfs_ok); [|intros vid ? ->|done].
  { destruct (str_is_empty id); by repeat rpc_step. }
  repeat (zfs_step_tac; try done).
  apply wp_mono with (Q := λ _ s', zfs_ok s' ∧
    is_Some (datasets (z_pool s') !! volume_zfs_path pool_name vid)) (F := zfs_ok); [| |done].
  { destruct (te_size_bytes t <? _)%N; [|rpc_step; by eauto]. repeat (zfs_step_tac; try done). }
  intros info2 s2 [Hs2 Hd]. rpc_step. apply wp_store_volume; [done|done|done|]. intros Hok. repeat rpc_step.
  by refine (zfs_ok_same _ _ _ _ _ Hok).
Qed.

Lemma ok_delete_volume name s : zfs_ok s → zfs_ok (delete_volume pool_name name s).2.
Proof.
  intros H. apply wp_inv. unfold delete_volume. zfs_step_tac. zfs_step_tac.
  rpc_step. apply wp_cmd; [done|]. intros p (_ & _ & Ep)%zfs_destroy_r_Ok. repeat rpc_step.
  split; cbn; rewrite ?Ep.
  - intros id e' Hi. apply lookup_delete_Some in Hi as [_ Hi]. by apply (zok_vol s H).
  - intros id e' Hi. apply lookup_delete_Some in Hi as [Hne Hi]. rewrite lookup_delete_ne.
    + by eapply (zok_vol_ds s H).
    + by intros ?%volume_path_inj.
  - apply H.
  - intros id t Ht. rewrite lookup_delete_ne; [by eapply (zok_tpl_ds s H)|].
    intros E. by apply (template_volume_path id (vl_id e)).
Qed.

Lemma ok_resize now name size s : zfs_ok s → zfs_ok (resize_volume pool_name now name size s).2.
Proof.
  intros H. apply wp_inv. unfold resize_volume. repeat (zfs_step_tac; try done).
  split; cbn; [| |apply Hp|apply Hp]; intros id e';
    rewrite lookup_alter; case_decide as Hi; subst; try apply Hp.
  - cbn. rewrite He. by intros [= <-].
  - intros _. by eexists.
Qed.

Lemma ok_create_snapshot f volume_name name s :
  zfs_ok s → zfs_ok (create_snapshot pool_name constraint_error f volume_name name s).2.
Proof.
  intros H. apply wp_inv. unfold create_snapshot, store_create_snapshot.
  repeat (zfs_step_tac; try done). by refine (zfs_ok_same _ _ _ _ _ Hp).
Qed.

Lemma ok_delete_snapshot volume_name name s :
  zfs_ok s → zfs_ok (delete_snapshot pool_name volume_name name s).2.
Proof.
  intros H. apply wp_inv. unfold delete_snapshot. repeat (zfs_step_tac; try done).
  by refine (zfs_ok_same _ _ _ _ _ Hp).
Qed.

Lemma sync_same listing volume_id s :
  let s' := sync_snapshots_after_rollback pool_name listing volume_id s in
  z_pool s' = z_pool s ∧ z_volumes s' = z_volumes s ∧ z_templates s' = z_templates s.
Proof.
  assert (Hl : ∀ l s, let s' := foldl delete_snapshot_by_id s l in
    z_pool s' = z_pool s ∧ z_volumes s' = z_volumes s ∧ z_templates s' = z_templates s).
  { intros l. induction l as [|i l IH]; intros s0; [done|]. cbn [foldl].
    by destruct (IH (delete_snapshot_by_id s0 i)) as (-> & -> & ->). }
  cbv zeta. unfold sync_snapshots_after_rollback. destruct listing; [done|apply Hl|apply Hl].
Qed.

Lemma ok_rollback listing volume_name name s :
  zfs_ok s → zfs_ok (rollback_snapshot pool_name listing volume_name name s).2.
Proof.
  intros H. apply wp_inv. unfold rollback_snapshot. repeat (zfs_step_tac; try done).
  by refine (zfs_ok_same _ _ _ _ _ Hp); apply sync_same.
Qed.

Lemma ok_promote f template_name volume_name name s :
  zfs_ok s →
  zfs_ok (promote_snapshot_to_template pool_name constraint_error f template_name volume_name name s).2.
Proof.
  intros H. apply wp_inv. unfold promote_snapshot_to_template. repeat (zfs_step_tac; try done).
  apply wp_store_template; [done|done|done| |]; [|intros; by repeat rpc_step]. cbn.
  apply zfs_snapshot_Ok in Ep0 as (? & _ & _ & ->). by rewrite lookup_insert_eq.
Qed.

Lemma ok_delete_template name s : zfs_ok s → zfs_ok (delete_template pool_name name s).2.
Proof.
  intros H. apply wp_inv. unfold delete_template. repeat (zfs_step_tac; try done). rewrite Htp.
  apply wp_mono with (Q := λ _ s', zfs_ok s' ∧ z_templates s' !! te_id t = Some t) (F := zfs_ok);
    [|intros [] s1 [H1 Ht1]|done].
  { destruct (get_snapshot_clones _ _); repeat (zfs_step_tac; try done). }
  rpc_step. apply wp_cmd; [done|]. intros p (_ & Ep)%zfs_destroy_Ok. rpc_step.
  split; cbn; rewrite ?Ep.
  - apply H1.
  - intros id e Hi. rewrite lookup_delete_ne; [by eapply (zok_vol_ds s1 H1)|]. apply template_volume_path.
  - intros id t' Hi. apply map_lookup_filter_Some in Hi as [Hi _]. by apply (zok_tpl s1 H1).
  - intros id t' Hi. apply map_lookup_filter_Some in Hi as [Hi Hn]. rewrite lookup_delete_ne.
    + by eapply (zok_tpl_ds s1 H1).
    + intros <-%template_path_inj. congruence.
Qed.

(** ** Runs *)

(** The methods that change state, with what they draw. *)
Inductive ZfsCall :=
  | CCreate (f : ZfsFresh) (id name : string) (size : u64)
  | CDelete (name : string)
  | CResize (now name : string) (size : u64)
  | CSnapshot (f : ZfsFresh) (volume name : string)
  | CDeleteSnapshot (volume name : string)
  | CRollback (listing : Listing) (volume name : string)
  | CPromote (f : ZfsFresh) (template volume name : string)
  | CDeleteTemplate (name : string)
  | CClone (f : ZfsFresh) (id template name : string) (size : option u64)
  | CStartImport (now job template source format : string) (size : option u64)
  | CCancel (now job : string).

Definition zfs_call (c : ZfsCall) (s : Zfs) : Zfs :=
  match c with
  | CCreate f id name size => (create_volume pool_name constraint_error f id name size s).2
  | CDelete name => (delete_volume pool_name name s).2
  | CResize now name size => (resize_volume pool_name now name size s).2
  | CSnapshot f v n => (create_snapshot pool_name constraint_error f v n s).2
  | CDeleteSnapshot v n => (delete_snapshot pool_name v n s).2
  | CRollback listing v n => (rollback_snapshot pool_name listing v n s).2
  | CPromote f t v n => (promote_snapshot_to_template pool_name constraint_error f t v n s).2
  | CDeleteTemplate n => (delete_template pool_name n s).2
  | CClone f id t n size =>
      (clone_from_template pool_name constraint_error uuid_text f id t n size s).2
  | CStartImport now job t source format size => start_import now job t source format size s
  | CCancel now job => (cancel_job now job s).2
  end.

(** A call does not draw the id of a template that is being imported. *)
Definition call_avoids (tid : string) (c : ZfsCall) : Prop :=
  match c with CPromote f _ _ _ => zf_uuid f ≠ tid | _ => True end.

Lemma zfs_call_ok c s : zfs_ok s → zfs_ok (zfs_call c s).
Proof.
  intros H. destruct c; cbn [zfs_call].
  - by apply ok_create_volume.
  - by apply ok_delete_volume.
  - by apply ok_resize.
  - by apply ok_create_snapshot.
  - by apply ok_delete_snapshot.
  - by apply ok_rollback.
  - by apply ok_promote.
  - by apply ok_delete_template.
  - by apply ok_clone.
  - by refine (zfs_ok_same _ _ _ _ _ H).
  - unfold cancel_job. case_bool_decide; [|done]. by refine (zfs_ok_same _ _ _ _ _ H).
Qed.

(** A command on the pool leaves the rows alone. *)
Lemma wp_cmd_rows f s (Q : unit → Zfs → Prop) (E : Zfs → Prop) :
  E s → (∀ p, Q tt (s <| z_pool := p |>)) → rpc_wp (zfs_cmd f) s Q E.
Proof. intros HE HQ. apply wp_cmd; auto. Qed.

Ltac rows_tac :=
  cbv beta zeta;
  lazymatch goal with
  | |- rpc_wp (zfs_cmd _) _ _ _ => apply wp_cmd_rows; [done|intros ?]
  | |- rpc_wp (if ?b then _ else _) _ _ _ => destruct b
  | |- rpc_wp (match ?l with [] => _ | _ => _ end) _ _ _ => destruct l
  | |- rpc_wp _ _ _ _ => rpc_step
  end.

Lemma unused_call tid c s :
  call_avoids tid c → z_templates s !! tid = None → z_templates (zfs_call c s) !! tid = None.
Proof.
  intros Ha H. destruct c; cbn [zfs_call]; try exact H;
    try (by unfold cancel_job; case_bool_decide); apply (wp_inv _ _ (λ s, z_templates s !! tid = None)).
  - unfold create_volume, read_volume, wait_for_device, store_create_volume. by repeat (rows_tac; try done).
  - unfold delete_volume, the_volume. by repeat (rows_tac; try done).
  - unfold resize_volume, the_volume, read_volume. by repeat (rows_tac; try done).
  - unfold create_snapshot, the_volume, store_create_snapshot. by repeat (rows_tac; try done).
  - unfold delete_snapshot, the_volume, the_snapshot. by repeat (rows_tac; try done).
  - unfold rollback_snapshot, the_volume, the_snapshot, read_volume. repeat (rows_tac; try done).
    by rewrite (proj2 (proj2 (sync_same _ _ _))).
  - unfold promote_snapshot_to_template, the_volume, the_snapshot, read_volume, store_create_template.
    repeat (rows_tac; try done). cbn. by rewrite lookup_insert_ne.
  - unfold delete_template, the_template. repeat (rows_tac; try done); cbn;
      apply map_lookup_filter_None; by left.
  - unfold clone_from_template, the_template, read_volume, wait_for_device, store_create_volume.
    by repeat (rows_tac; try done).
Qed.

(** *** Imports *)

(** Nothing has been recorded under the id of the template being imported. *)
Definition importing (tid : string) (s : Zfs) : Prop := zfs_ok s ∧ z_templates s !! tid = None.

Definition others (cs : list ZfsCall) (s : Zfs) : Zfs := foldl (λ s c, zfs_call c s) s cs.

Lemma importing_others tid cs s :
  Forall (call_avoids tid) cs → importing tid s → importing tid (others cs s).
Proof.
  unfold others. intros Hc. revert s. induction Hc as [|c cs Hc1 Hc IHc]; intros s [H Hn]; [done|]. cbn [foldl].
  apply IHc. split; [by apply zfs_call_ok|by apply unused_call].
Qed.

Lemma importing_same tid s s' :
  z_pool s' = z_pool s → z_volumes s' = z_volumes s → z_templates s' = z_templates s →
  importing tid s → importing tid s'.
Proof. intros Ep Ev Et [H Hn]. split; [by eapply zfs_ok_same|by rewrite Et]. Qed.

(** Removing the volume of an import. *)
Lemma importing_destroy tid s :
  importing tid s →
  importing tid (match zfs_destroy_r (template_zfs_path pool_name tid) (z_pool s) with
                 | Ok p => s <| z_pool := p |>
                 | Err _ => s
                 end).
Proof.
  intros [H Hn]. destruct (zfs_destroy_r _ _) as [p|] eqn:Ep; [|done]. split; [|done].
  apply zfs_destroy_r_Ok in Ep as (_ & _ & Ep). apply zfs_ok_pool; [done|]. split; rewrite Ep.
  - intros id _ Hd. rewrite lookup_delete_ne; [done|]. apply template_volume_path.
  - intros id [t Ht] Hd. rewrite lookup_delete_ne; [done|]. intros <-%template_path_inj. congruence.
Qed.

Lemma importing_cmd tid f s p :
  keeps_datasets f → importing tid s → f (z_pool s) = Ok p → importing tid (s <| z_pool := p |>).
Proof. intros Hk [H Hn] E. split; [by eapply zfs_ok_cmd|done]. Qed.

Lemma wp_finish now job tid name size bytes s :
  importing tid s →
  rpc_wp (finish_import pool_name constraint_error now job tid name size bytes) s
    (λ _, zfs_ok) (importing tid).
Proof.
  intros H. unfold finish_import. rpc_step. apply wp_cmd; [done|]. intros p Ep.
  pose proof (importing_cmd _ _ _ _ (keeps_snapshot _ _) H Ep) as H1. rpc_step.
  apply wp_store_template; [done|apply H1|done| |].
  - cbn. apply zfs_snapshot_Ok in Ep as (? & _ & _ & ->). by rewrite lookup_insert_eq.
  - intros Hok. repeat rpc_step. by refine (zfs_ok_same _ _ _ _ _ Hok).
Qed.

Lemma copy_loop_ok tid job (reads : list (list ZfsCall * result string u64)) bytes s :
  Forall (λ r, Forall (call_avoids tid) r.1) reads → importing tid s →
  importing tid (copy_loop job ((λ r, (others r.1, r.2)) <$> reads) bytes s).2.
Proof.
  intros Hc. revert bytes s. induction Hc as [|[cs [n|e]] reads Hr Hc IH]; intros bytes s H;
    cbn; [done| |]; (case_bool_decide; [by apply importing_others|]);
    [apply IH|]; by apply importing_others.
Qed.

Lemma import_raw_ok now job tid name size device reads s :
  Forall (λ r, Forall (call_avoids tid) r.1) reads → importing tid s →
  rpc_wp (import_raw_file pool_name constraint_error now job tid name size device
    ((λ r, (others r.1, r.2)) <$> reads)) s (λ _, zfs_ok) (importing tid).
Proof.
  intros Hc H. unfold import_raw_file. rpc_step. rpc_step.
  assert (H0 : importing tid (update_import_job now job "writing" 0 None None s))
    by by refine (importing_same _ _ _ _ _ _ H).
  rpc_step. apply wp_cmd; [done|]. intros p Ep.
  pose proof (importing_cmd _ _ _ _ (keeps_create _ _) H0 Ep) as H1. cbv beta.
  unfold wait_for_device. rpc_step. rpc_step; [done|]. unfold rpc_wp at 1.
  pose proof (copy_loop_ok tid job reads 0 _ Hc H1) as H3.
  destruct (copy_loop _ _ _ _) as [[bytes|bytes|e] s2]; cbn [snd] in H3.
  - exact (wp_finish _ _ _ _ _ _ _ H3).
  - by refine (zfs_ok_same _ _ _ _ _ (proj1 (importing_destroy tid s2 H3))).
  - done.
Qed.

Lemma import_qcow2_ok now job tid name size device cs converted s :
  Forall (call_avoids tid) cs → importing tid s →
  rpc_wp (import_qcow2_file pool_name constraint_error now job tid name size device (others cs) converted) s
    (λ _, zfs_ok) (importing tid).
Proof.
  intros Hc H. unfold import_qcow2_file. rpc_step. rpc_step.
  assert (H0 : importing tid (update_import_job now job "converting" 0 None None s))
    by by refine (importing_same _ _ _ _ _ _ H).
  destruct size as [size|e]; [|by rpc_step]. rpc_step. apply wp_cmd; [done|]. intros p Ep.
  pose proof (importing_cmd _ _ _ _ (keeps_create _ _) H0 Ep) as H1. cbv beta.
  unfold wait_for_device. rpc_step. rpc_step; [done|]. repeat rpc_step.
  assert (H3 : importing tid (others cs (update_import_job now job "writing" 0 None None
    (update_import_job now job "converting" 0 None None s <| z_pool := p |>)))).
  { apply importing_others; [done|]. by refine (importing_same _ _ _ _ _ _ H1). }
  destruct converted; [by apply wp_finish|by rpc_step].
Qed.

Lemma download_loop_ok tid now job len (chunks : list (list ZfsCall * result string (list u8) * bool)) d s :
  Forall (λ r, Forall (call_avoids tid) r.1.1) chunks → importing tid s →
  importing tid (download_loop now job len ((λ r, (others r.1.1, r.1.2, r.2)) <$> chunks) d s).2.
Proof.
  intros Hc. revert d s. induction Hc as [|[[cs chunk] tick] chunks Hr Hc IH]; intros d s H; [done|].
  cbn in Hr |- *. pose proof (importing_others _ _ _ Hr H) as H1.
  case_bool_decide; [done|]. destruct chunk as [chunk|e]; [|done]. apply IH.
  destruct tick; [|done]. by refine (importing_same _ _ _ _ _ _ H1).
Qed.

Lemma import_url_ok now job tid name size response chunks vsize device cs converted written s :
  Forall (λ r, Forall (call_avoids tid) r.1.1) chunks → Forall (call_avoids tid) cs → importing tid s →
  rpc_wp (import_from_url pool_name constraint_error now job tid name size response
    ((λ r, (others r.1.1, r.1.2, r.2)) <$> chunks) vsize device (others cs) converted written) s
    (λ _, zfs_ok) (importing tid).
Proof.
  intros Hd Hc H. unfold import_from_url. rpc_step. rpc_step.
  assert (H0 : importing tid (update_import_job now job "downloading" 0 None None s))
    by by refine (importing_same _ _ _ _ _ _ H).
  destruct response as [len|e]; [|by rpc_step]. unfold rpc_wp at 1.
  pose proof (download_loop_ok tid now job len chunks (MkDownload [0; 0; 0; 0]%N false 0) _ Hd H0) as H1.
  destruct (download_loop _ _ _ _ _ _) as [[d|bytes|e] s1]; cbn [snd] in H1;
    [|by refine (zfs_ok_same _ _ _ _ _ (proj1 H1))|done].
  destruct (detect_format_from_magic _); [|exact (import_qcow2_ok _ _ _ _ _ _ _ _ _ Hc H1)].
  match goal with |- match ?m ?st with _ => _ end => change (rpc_wp m st (λ _, zfs_ok) (importing tid)) end.
  rpc_step. rpc_step.
  assert (H2 : importing tid (update_import_job now job "writing" 0 None None s1))
    by by refine (importing_same _ _ _ _ _ _ H1).
  rpc_step. apply wp_cmd; [done|]. intros p Ep.
  pose proof (importing_cmd _ _ _ _ (keeps_create _ _) H2 Ep) as H3. cbv beta.
  unfold wait_for_device. rpc_step. rpc_step; [done|]. repeat rpc_step.
  pose proof (importing_others _ _ _ Hc H3) as H5.
  destruct written; [by apply wp_finish|by rpc_step].
Qed.

Lemma run_import_ok now job tid inner s :
  rpc_wp inner s (λ _, zfs_ok) (importing tid) → zfs_ok (run_import pool_name now job tid inner s).
Proof.
  unfold rpc_wp, run_import. destruct (inner s) as [[[]|e] s1]; intros H.
  - by refine (zfs_ok_same _ _ _ _ _ H).
  - by refine (zfs_ok_same _ _ _ _ _ (proj1 (importing_destroy tid s1 H))).
Qed.

(** A run: calls, and whole imports into a new template id with the calls served
    meanwhile. *)
Inductive zfs_step : Zfs → Zfs → Prop :=
  | StepCall c s : zfs_step s (zfs_call c s)
  | StepRaw now job tid name size device reads s :
      z_templates s !! tid = None → Forall (λ r, Forall (call_avoids tid) r.1) reads →
      zfs_step s (run_import pool_name now job tid
        (import_raw_file pool_name constraint_error now job tid name size device
          ((λ r, (others r.1, r.2)) <$> reads)) s)
  | StepQcow2 now job tid name size device cs converted s :
      z_templates s !! tid = None → Forall (call_avoids tid) cs →
      zfs_step s (run_import pool_name now job tid
        (import_qcow2_file pool_name constraint_error now job tid name size device (others cs) converted) s)
  | StepUrl now job tid name size response chunks vsize device cs converted written s :
      z_templates s !! tid = None → Forall (λ r, Forall (call_avoids tid) r.1.1) chunks →
      Forall (call_avoids tid) cs →
      zfs_step s (run_import pool_name now job tid
        (import_from_url pool_name constraint_error now job tid name size response
          ((λ r, (others r.1.1, r.1.2, r.2)) <$> chunks) vsize device (others cs) converted written) s).

Definition zfs_reach (p : pool) (s : Zfs) : Prop := rtc zfs_step (MkZfs p ∅ ∅ ∅ ∅ ∅ ∅ []) s.

Lemma zfs_reach_ok p s : zfs_reach p s → zfs_ok s.
Proof.
  assert (Hs : ∀ s s', zfs_step s s' → zfs_ok s → zfs_ok s').
  { intros s0 s1 Hs Hok; destruct Hs; [by apply zfs_call_ok|..]; apply run_import_ok;
      [by apply import_raw_ok|by apply import_qcow2_ok|by apply import_url_ok]. }
  intros H. assert (Hg : ∀ s0 s1, rtc zfs_step s0 s1 → zfs_ok s0 → zfs_ok s1)
    by (induction 1; eauto).
  apply (Hg _ _ H). split; intros *; done.
Qed.

(** C14: In every run, whatever the commands answer and wherever requests fail, each row
    of a volume or a template stands under its id and its ZVOL exists in the pool. *)
Theorem rows_have_datasets p s :
  zfs_reach p s →
  (∀ id e, z_volumes s !! id = Some e →
     vl_id e = id ∧ is_Some (datasets (z_pool s) !! volume_zfs_path pool_name id)) ∧
  (∀ id t, z_templates s !! id = Some t →
     te_base_zvol_path t = Some (template_zfs_path pool_name id) ∧
     is_Some (datasets (z_pool s) !! template_zfs_path pool_name id)).
Proof.
  intros H%zfs_reach_ok. split; intros id r Hr; split.
  - by apply (zok_vol s H).
  - by eapply (zok_vol_ds s H).
  - by apply (zok_tpl s H).
  - by eapply (zok_tpl_ds s H).
Qed.

(** * Requests that cannot do what they say *)

Lemma get_snapshot_clones_nil path s :
  (∀ q d snap, datasets (z_pool s) !! q = Some d → ds_origin d ≠ Some (path, snap)) →
  get_snapshot_clones path s = [].
Proof.
  intros Hn. unfold get_snapshot_clones. destruct (datasets (z_pool s) !! path) as [d|]; [|done].
  assert (Hc : ∀ snap, clones_of path snap (datasets (z_pool s)) = []).
  { intros snap. unfold clones_of. destruct (List.filter _ _) as [|[q e] l] eqn:E; [done|exfalso].
    assert (Hi : List.In (q, e) ((q, e) :: l)) by by left. rewrite <- E in Hi.
    apply List.filter_In in Hi as [Hi Ho%bool_decide_eq_true].
    apply list_elem_of_In, elem_of_map_to_list in Hi. by eapply Hn. }
  induction (ds_snaps d) as [|snap l IH]; cbn; [done|]. by rewrite Hc.
Qed.

(** A template no volume was cloned from cannot be deleted: its [@img] snapshot is
    in the way of the [zfs destroy] that is used, and the request changes nothing. *)
Theorem delete_template_unused name t d s :
  get_template name s = Some t → te_base_zvol_path t = Some (template_zfs_path pool_name (te_id t)) →
  datasets (z_pool s) !! template_zfs_path pool_name (te_id t) = Some d → ds_snaps d = ["img"] →
  (∀ q e snap, datasets (z_pool s) !! q = Some e →
     ds_origin e ≠ Some (template_zfs_path pool_name (te_id t), snap)) →
  ∃ status, delete_template pool_name name s = (Err status, s).
Proof.
  intros Ht Hp Hd Hs Hn. unfold delete_template, the_template, zfs_cmd. rpc_unfold. rewrite Ht. cbn beta iota.
  rewrite Hp, get_snapshot_clones_nil by done. destruct (zfs_destroy _ _) as [p|e] eqn:E; [|by eexists].
  apply zfs_destroy_Ok in E as ((d' & Hd' & He) & _). simplify_eq. congruence.
Qed.

(** Deleting a template moves its snapshot to one of the volumes cloned from it. As
    long as another clone exists that volume cannot be deleted. *)
Theorem promoted_volume_pinned name t a b ea eb da db s s' :
  get_template name s = Some t → te_base_zvol_path t = Some (template_zfs_path pool_name (te_id t)) →
  get_snapshot_clones (template_zfs_path pool_name (te_id t)) s =
    [volume_zfs_path pool_name (vl_id ea); volume_zfs_path pool_name (vl_id eb)] →
  vl_id ea ≠ vl_id eb →
  datasets (z_pool s) !! volume_zfs_path pool_name (vl_id ea) = Some da →
  datasets (z_pool s) !! volume_zfs_path pool_name (vl_id eb) = Some db →
  ds_origin da = Some (template_zfs_path pool_name (te_id t), "img") →
  ds_origin db = Some (template_zfs_path pool_name (te_id t), "img") →
  get_volume_by_name a s = Some ea → get_volume_by_name b s = Some eb →
  delete_template pool_name name s = (Ok tt, s') →
  get_template name s' = None ∧
  ∃ status, delete_volume pool_name a s' = (Err status, s').
Proof.
  intros Ht Hp Hcl Hne Hda Hdb Hoa Hob Ha Hb.
  unfold delete_template, the_template, zfs_cmd. rpc_unfold. rewrite Ht. cbn beta iota.
  rewrite Hp, Hcl. destruct (zfs_promote _ _) as [p1|] eqn:E1; [|done].
  cbn beta iota. change (z_pool (s <| z_pool := p1 |>)) with p1.
  destruct (zfs_destroy _ p1) as [p2|] eqn:E2; [|done]. intros [= Es].
  assert (Ha' : get_volume_by_name a s' = Some ea) by (rewrite <- Es; exact Ha).
  assert (Hp2 : z_pool s' = p2) by by rewrite <- Es.
  split.
  { rewrite <- Es. unfold get_template, store_delete_template. cbn.
    destruct (List.find _ _) as [[id e]|] eqn:E; [exfalso|done].
    apply List.find_some in E as [Hi He%bool_decide_eq_true].
    apply list_elem_of_In, elem_of_map_to_list, map_lookup_filter_Some in Hi as [_ Hi]. done. }
  unfold delete_volume, the_volume, zfs_cmd. rpc_unfold.
  rewrite Ha'. cbn beta iota. rewrite Hp2.
  destruct (zfs_destroy_r _ p2) as [p3|] eqn:E3; [exfalso|by eexists].
  apply zfs_destroy_r_Ok in E3 as (_ & Hno & _). apply Hno.
  apply zfs_promote_Ok in E1 as (d & o & snap & od & Hd & Ho & _ & _ & _ & _ & Hoth & _).
  rewrite Hda in Hd. injection Hd as <-. rewrite Hoa in Ho. injection Ho as <- <-.
  assert (Hq : volume_zfs_path pool_name (vl_id eb) ≠ volume_zfs_path pool_name (vl_id ea))
    by by intros ?%volume_path_inj.
  assert (Hq2 : volume_zfs_path pool_name (vl_id eb) ≠ template_zfs_path pool_name (te_id t))
    by (intros E; by apply (template_volume_path (te_id t) (vl_id eb))).
  specialize (Hoth _ _ Hq Hq2 Hdb Hob).
  apply zfs_destroy_Ok in E2 as (_ & Ep2). exists "img", (volume_zfs_path pool_name (vl_id eb)).
  destruct (datasets p1 !! volume_zfs_path pool_name (vl_id eb)) as [e|] eqn:Ee; [|done].
  exists e. rewrite Ep2, lookup_delete_ne by done. split; [done|]. by injection Hoth.
Qed.

(** A rollback whose listing fails forgets every snapshot of the volume, also the
    one rolled back to, which the pool still has. *)
Theorem failed_listing_forgets volume_id s e :
  (∀ id e, z_snapshots s !! id = Some e → se_id e = id) →
  e ∈ snapshots_of volume_id s →
  z_snapshots (sync_snapshots_after_rollback pool_name ListFailed volume_id s) !! se_id e = None.
Proof.
  intros Hk He. unfold sync_snapshots_after_rollback.
  assert (Hf : List.filter (λ e, negb (bool_decide (se_zfs_name e ∈ @nil string)))
    (snapshots_of volume_id s) = snapshots_of volume_id s).
  { apply forallb_filter_id, List.forallb_forall. intros x _. apply negb_true_iff.
    apply bool_decide_eq_false_2. set_solver. }
  rewrite Hf. assert (Hi : se_id e ∈ se_id <$> snapshots_of volume_id s) by by apply list_elem_of_fmap_2.
  revert Hi. generalize (se_id e) as id. generalize (se_id <$> snapshots_of volume_id s) as l. clear.
  intros l id. assert (Hn : ∀ l s, z_snapshots s !! id = None →
    z_snapshots (foldl delete_snapshot_by_id s l) !! id = None).
  { clear. induction l as [|i l IH]; intros s H; [done|]. cbn [foldl]. apply IH. cbn.
    rewrite lookup_delete_None. by right. }
  revert s. induction l as [|i l IH]; intros s Hi; [set_solver|]. cbn [foldl].
  destruct (decide (i = id)) as [->|Hne].
  - apply Hn. cbn. apply lookup_delete_eq.
  - apply IH. set_solver.
Qed.

(** A cancellation that arrives while an image is converted is confirmed and
    ignored: the job ends completed and the template exists. *)
Theorem cancelled_conversion_completes now job tid name size p1 p2 s :
  zfs_create (template_zfs_path pool_name tid) size (z_pool s) = Ok p1 →
  zfs_snapshot (template_zfs_path pool_name tid) "img" p1 = Ok p2 →
  z_templates s !! tid = None → get_template name s = None →
  job ∈ z_running s → is_Some (z_jobs s !! job) →
  let others s := (cancel_job now job s).2 in
  let s1 := update_import_job now job "writing" 0 None None
    (update_import_job now job "converting" 0 None None s <| z_pool := p1 |>) in
  let s' := run_import pool_name now job tid
    (import_qcow2_file pool_name constraint_error now job tid name (Ok size) true others (Ok tt)) s in
  (cancel_job now job s1).1 = true ∧ job ∈ z_cancelled s' ∧
  (je_state <$> z_jobs s' !! job) = Some "completed" ∧ is_Some (z_templates s' !! tid).
Proof.
  intros E1 E2 Ht Hn Hr [j Hj]. cbv zeta. destruct s as [p vols tpls snaps jobs run canc evs].
  cbn in E1, Ht, Hr, Hj. unfold get_template in Hn. cbn [z_templates] in Hn.
  unfold run_import, import_qcow2_file, finish_import, wait_for_device, zfs_cmd, store_create_template,
    get_template, update_import_job, cancel_job. rpc_unfold.
  cbn. rewrite E1. cbn. rewrite bool_decide_eq_true_2 by done. cbn. rewrite E2. cbn. rewrite Ht, Hn.
  cbn. split_and!; [done|set_solver| |].
  - by rewrite !lookup_alter_eq, Hj.
  - rewrite lookup_insert_eq. by eexists.
Qed.

End facts.

(** * A pool *)

(** Datasets and nothing else; commands fail exactly when they have to. *)
Module PoolModel.

Definition origin_is (path : string) (d : Dataset) : bool :=
  match ds_origin d with Some (o, _) => o == path | None => false end.
Definition cloned (path : string) (m : gmap string Dataset) : bool :=
  existsb (λ '(_, d), origin_is path d) (map_to_list m).

Definition on (path : string) (f : Dataset → option Dataset) (m : gmap string Dataset)
    : result string (gmap string Dataset) :=
  match m !! path with
  | Some d => match f d with Some d' => Ok (<[path := d']> m) | None => Err "failed" end
  | None => Err "dataset does not exist"
  end.
Definition new (path : string) (od : option Dataset) (m : gmap string Dataset)
    : result string (gmap string Dataset) :=
  match m !! path, od with
  | None, Some d => Ok (<[path := d]> m)
  | _, _ => Err "failed"
  end.

Definition promoted (path o snap : string) (d od : Dataset) (m : gmap string Dataset) : gmap string Dataset :=
  let moved := up_to snap (ds_snaps od) in
  <[path := MkDataset (ds_volsize d) (moved ++ ds_snaps d) (ds_origin od)]>
  (<[o := MkDataset (ds_volsize od) (drop (length moved) (ds_snaps od)) (Some (path, snap))]>
   ((λ e, match ds_origin e with
          | Some (o', s) => if (o' == o) && bool_decide (s ∈ moved)
                            then e <| ds_origin := Some (path, s) |> else e
          | None => e
          end) <$> m)).

Definition promote (path : string) (m : gmap string Dataset) : result string (gmap string Dataset) :=
  match m !! path with
  | Some d =>
      match ds_origin d with
      | Some (o, snap) =>
          match m !! o with
          | Some od => if bool_decide (snap ∈ ds_snaps od ∧ o ≠ path)
                       then Ok (promoted path o snap d od m) else Err "failed"
          | None => Err "failed"
          end
      | None => Err "not a cloned filesystem"
      end
  | None => Err "dataset does not exist"
  end.

Lemma on_Ok path f m m' : on path f m = Ok m' →
  ∃ d d', m !! path = Some d ∧ f d = Some d' ∧ m' = <[path := d']> m.
Proof.
  unfold on. destruct (m !! path) as [d|]; [|done]. destruct (f d) as [d'|] eqn:E; [|done].
  intros [= <-]. by exists d, d'.
Qed.
Lemma new_Ok path od m m' : new path od m = Ok m' →
  m !! path = None ∧ ∃ d, od = Some d ∧ m' = <[path := d]> m.
Proof. unfold new. destruct (m !! path), od; try done. intros [= <-]. eauto. Qed.

Lemma up_to_In snap l : snap ∈ l → snap ∈ up_to snap l.
Proof.
  induction l as [|s l IH]; [set_solver|]. cbn. case_bool_decide; [set_solver|].
  intros [->|Hi]%elem_of_cons; [done|]. apply elem_of_cons. auto.
Qed.

Lemma promote_Ok path m m' : promote path m = Ok m' →
  ∃ d o snap od, m !! path = Some d ∧ ds_origin d = Some (o, snap) ∧ m !! o = Some od ∧
    ds_snaps <$> m' !! path = Some (up_to snap (ds_snaps od) ++ ds_snaps d) ∧
    ds_origin <$> m' !! o = Some (Some (path, snap)) ∧
    (ds_snaps <$> m' !! o = Some (drop (length (up_to snap (ds_snaps od))) (ds_snaps od))) ∧
    (∀ q e, q ≠ path → q ≠ o → m !! q = Some e → ds_origin e = Some (o, snap) →
       ds_origin <$> m' !! q = Some (Some (path, snap))) ∧
    (∀ q, ds_volsize <$> m' !! q = ds_volsize <$> m !! q).
Proof.
  unfold promote. destruct (m !! path) as [d|] eqn:Hd; [|done].
  destruct (ds_origin d) as [[o snap]|] eqn:Ho; [|done]. destruct (m !! o) as [od|] eqn:Hod; [|done].
  case_bool_decide as Hs; [|done]. destruct Hs as [Hs Hne]. intros [= <-]. exists d, o, snap, od.
  unfold promoted. split_and!; [done..| | | | |].
  - by rewrite lookup_insert_eq.
  - by rewrite lookup_insert_ne, lookup_insert_eq by done.
  - by rewrite lookup_insert_ne, lookup_insert_eq by done.
  - intros q e Hq1 Hq2 He Hoe. rewrite !lookup_insert_ne, lookup_fmap, He by done. cbn.
    rewrite Hoe, !bool_decide_eq_true_2 by (done || by apply up_to_In). done.
  - intros q. destruct (decide (q = path)) as [->|]; [by rewrite lookup_insert_eq, Hd|].
    rewrite lookup_insert_ne by done.
    destruct (decide (q = o)) as [->|]; [by rewrite lookup_insert_eq, Hod|].
    rewrite lookup_insert_ne, lookup_fmap by done. destruct (m !! q) as [e|]; [|done]. cbn.
    destruct (ds_origin e) as [[o' s]|]; [|done]. by destruct ((o' == o) && _).
Qed.

Lemma cloned_false path m : cloned path m = false → ¬ has_clones path m.
Proof.
  intros H (snap & c & d & Hc & Ho). apply not_true_iff_false in H. apply H.
  apply List.existsb_exists. exists (c, d). split.
  - by apply list_elem_of_In, elem_of_map_to_list.
  - unfold origin_is. rewrite Ho. by apply bool_decide_eq_true_2.
Qed.

#[refine, global] Instance pool_model : Zpool := {
  pool := gmap string Dataset;
  datasets m := m;
  ds_used _ _ := 0%N;
  zfs_create path size := new path (Some (MkDataset size [] None));
  zfs_destroy path m :=
    match m !! path with
    | Some d => if bool_decide (ds_snaps d = []) then Ok (delete path m) else Err "filesystem has children"
    | None => Err "dataset does not exist"
    end;
  zfs_destroy_r path m :=
    if is_some (m !! path) && negb (cloned path m) then Ok (delete path m) else Err "has dependent clones";
  zfs_snapshot path snap :=
    on path (λ d, if bool_decide (snap ∈ ds_snaps d) then None
                  else Some (d <| ds_snaps := ds_snaps d ++ [snap] |>));
  zfs_destroy_snapshot path snap :=
    on path (λ d, Some (d <| ds_snaps := List.filter (λ s, negb (s == snap)) (ds_snaps d) |>));
  zfs_clone path snap target m :=
    new target (d ← m !! path;
      if bool_decide (snap ∈ ds_snaps d) then Some (MkDataset (ds_volsize d) [] (Some (path, snap))) else None) m;
  zfs_promote := promote;
  zfs_rollback_r path snap :=
    on path (λ d, if bool_decide (snap ∈ ds_snaps d)
                  then Some (d <| ds_snaps := up_to snap (ds_snaps d) |>) else None);
  zfs_set_volsize path size := on path (λ d, Some (d <| ds_volsize := size |>));
  zfs_send_receive path snap target m :=
    new target (d ← m !! path;
      if bool_decide (snap ∈ ds_snaps d) then Some (MkDataset (ds_volsize d) [snap] None) else None) m
}.
Proof.
  - intros path size p p' (Hn & d & [= <-] & ->)%new_Ok. done.
  - intros path p p'. destruct (p !! path) as [d|] eqn:E; [|done]. case_bool_decide; [|done].
    intros [= <-]. eauto.
  - intros path p p'. destruct (p !! path) as [d|] eqn:E; [|done]. cbn.
    destruct (cloned path p) eqn:Ec; [done|]. intros [= <-]. split_and!; [done|by apply cloned_false|done].
  - intros path snap p p' (d & d' & Hd & Hf & ->)%on_Ok. case_bool_decide; [done|].
    injection Hf as <-. by exists d.
  - intros path snap p p' (d & d' & Hd & [= <-] & ->)%on_Ok. by exists d.
  - intros path snap target p p' (Hn & d' & Hf & ->)%new_Ok.
    destruct (p !! path) as [d|] eqn:Hd; [|done]. cbn in Hf. case_bool_decide; [|done].
    injection Hf as <-. by exists d.
  - exact promote_Ok.
  - intros path snap p p' (d & d' & Hd & Hf & ->)%on_Ok. case_bool_decide; [|done].
    injection Hf as <-. exists d. split_and!; [done|done|by rewrite lookup_insert_eq|].
    intros q Hq. by rewrite lookup_insert_ne.
  - intros path size p p' (d & d' & Hd & [= <-] & ->)%on_Ok. by exists d.
  - intros path snap target p p' (Hn & d' & Hf & ->)%new_Ok.
    destruct (p !! path) as [d|] eqn:Hd; [|done]. cbn in Hf. case_bool_decide; [|done].
    injection Hf as <-. by exists d.
Defined.

End PoolModel.

(** * Instances *)

Module ZfsExamples.
Import PoolModel.

Definition ex_fresh (id : string) : ZfsFresh := MkZfsFresh id (id +:+ "-2") "now" true.
Definition ex_zfs : Zfs := MkZfs ∅ ∅ ∅ ∅ ∅ ∅ ∅ [].
Definition ex_call : ZfsCall → Zfs → Zfs := zfs_call "tank" "UNIQUE constraint failed" Some.
(** A template of ten bytes, imported from a raw file. *)
Definition ex_import (s : Zfs) : Zfs :=
  run_import "tank" "now" "j1" "t1"
    (import_raw_file "tank" "UNIQUE constraint failed" "now" "j1" "t1" "base" 10 true
      ((λ r, (others "tank" "UNIQUE constraint failed" Some r.1, r.2)) <$> [([], Ok 6%N); ([], Ok 4%N)])) s.
Definition ex_started : Zfs := ex_call (CStartImport "now" "j1" "base" "/img" "raw" None) ex_zfs.
Definition ex_tpl : Zfs := ex_import ex_started.
(** Two volumes cloned from it. *)
Definition ex_two : Zfs :=
  ex_call (CClone (ex_fresh "vb") "" "base" "b" (Some 20%N))
    (ex_call (CClone (ex_fresh "va") "" "base" "a" None) ex_tpl).

Definition ex_template : TemplateEntry :=
  MkTemplateEntry "t1" "base" (Some "tank/templates/t1") (Some "tank/templates/t1@img") 10 "now".

Lemma ex_two_reach : zfs_reach "tank" "UNIQUE constraint failed" Some ∅ ex_two.
Proof.
  eapply rtc_l; [exact (StepCall _ _ _ (CStartImport "now" "j1" "base" "/img" "raw" None) ex_zfs)|].
  eapply rtc_l.
  { apply (StepRaw "tank" "UNIQUE constraint failed" Some "now" "j1" "t1" "base" 10 true
      [([], Ok 6%N); ([], Ok 4%N)]); [vm_refl|by repeat constructor]. }
  eapply rtc_l; [exact (StepCall _ _ _ (CClone (ex_fresh "va") "" "base" "a" None) ex_tpl)|].
  eapply rtc_l; [exact (StepCall _ _ _ (CClone (ex_fresh "vb") "" "base" "b" (Some 20%N)) _)|].
  done.
Qed.

Lemma rows_have_datasets_witness :
  size (z_volumes ex_two) = 2 ∧ size (z_templates ex_two) = 1 ∧
  (∀ id e, z_volumes ex_two !! id = Some e →
     vl_id e = id ∧ is_Some (datasets (z_pool ex_two) !! volume_zfs_path "tank" id)) ∧
  (∀ id t, z_templates ex_two !! id = Some t →
     te_base_zvol_path t = Some (template_zfs_path "tank" id) ∧
     is_Some (datasets (z_pool ex_two) !! template_zfs_path "tank" id)).
Proof.
  split; [vm_refl|]. split; [vm_refl|].
  exact (rows_have_datasets "tank" "UNIQUE constraint failed" Some ∅ ex_two ex_two_reach).
Defined.

Lemma delete_template_unused_witness :
  ∃ status, delete_template "tank" "base" ex_tpl = (Err status, ex_tpl).
Proof.
  apply (delete_template_unused "tank" "base" ex_template (MkDataset 10 ["img"] None));
    [vm_refl|done|vm_refl|done|].
  intros q e snap. assert (E : datasets (z_pool ex_tpl) = {[ "tank/templates/t1" := MkDataset 10 ["img"] None ]})
    by vm_refl.
  rewrite E. intros [<- <-]%lookup_singleton_Some. done.
Defined.

Definition ex_vol (id name : string) (size : u64) : VolumeEntry :=
  MkVolumeEntry id name ("tank/volumes/" +:+ id) ("/dev/zvol/tank/volumes/" +:+ id) size (Some "t1") "now" "now".

Lemma promoted_volume_pinned_witness :
  let s' := (delete_template "tank" "base" ex_two).2 in
  get_template "base" s' = None ∧ ∃ status, delete_volume "tank" "a" s' = (Err status, s').
Proof.
  apply (promoted_volume_pinned "tank" "base" ex_template "a" "b" (ex_vol "va" "a" 10) (ex_vol "vb" "b" 20)
    (MkDataset 10 [] (Some ("tank/templates/t1", "img"))) (MkDataset 20 [] (Some ("tank/templates/t1", "img"))) ex_two);
    [vm_refl|done|vm_refl|done|vm_refl|vm_refl|done|done|vm_refl|vm_refl|].
  apply answered. vm_refl.
Defined.

Definition ex_snapped : Zfs :=
  ex_call (CSnapshot (ex_fresh "s1") "a" "before") ex_two.

Lemma failed_listing_forgets_witness :
  datasets (z_pool (sync_snapshots_after_rollback "tank" ListFailed "va" ex_snapped))
    !! "tank/volumes/va" = Some (MkDataset 10 ["s1"] (Some ("tank/templates/t1", "img"))) ∧
  z_snapshots (sync_snapshots_after_rollback "tank" ListFailed "va" ex_snapped) !! "s1-2" = None.
Proof.
  split; [vm_refl|].
  apply (failed_listing_forgets "tank" "va" ex_snapped (MkSnapshotEntry "s1-2" "va" "before" "s1" "now")).
  - assert (E : z_snapshots ex_snapped = {[ "s1-2" := MkSnapshotEntry "s1-2" "va" "before" "s1" "now" ]})
      by vm_refl.
    rewrite E. intros id e [<- <-]%lookup_singleton_Some. done.
  - assert (E : snapshots_of "va" ex_snapped = [MkSnapshotEntry "s1-2" "va" "before" "s1" "now"]) by vm_refl.
    rewrite E. by left.
Defined.

Lemma cancelled_conversion_completes_witness :
  let others s := (cancel_job "now" "j1" s).2 in
  let s' := run_import "tank" "now" "j1" "t1"
    (import_qcow2_file "tank" "UNIQUE constraint failed" "now" "j1" "t1" "base" (Ok 10%N) true others (Ok tt))
    ex_started in
  "j1" ∈ z_cancelled s' ∧ (je_state <$> z_jobs s' !! "j1") = Some "completed" ∧
  is_Some (z_templates s' !! "t1").
Proof.
  apply (cancelled_conversion_completes "tank" "UNIQUE constraint failed" Some "now" "j1" "t1" "base" 10
    {[ "tank/templates/t1" := MkDataset 10 [] None ]} {[ "tank/templates/t1" := MkDataset 10 ["img"] None ]}
    ex_started); [vm_refl|vm_refl|vm_refl|vm_refl| |].
  { apply (bool_decide_eq_true_1 ("j1" ∈ z_running ex_started)). vm_refl. }
  by exists (MkImportJobEntry "j1" "base" "/img" "raw" "pending" 0 None None "now" None).
Defined.

Lemma download_format_agrees_witness :
  detect_format_from_file (concat [[81; 70; 73; 251; 0]; [0; 3]]%N) =
    Some (download_format [[81; 70; 73; 251; 0]; [0; 3]]%N) ∧
  download_format [[81; 70; 73; 251; 0]; [0; 3]]%N = Qcow2.
Proof. split; [apply download_format_agrees; cbn; lia|done]. Defined.

Lemma short_chunk_raw_witness :
  download_format [[81; 70]; [73; 251; 0; 3]]%N = Raw ∧
  detect_format_from_file (concat [[81; 70]; [73; 251; 0; 3]]%N) = Some Qcow2.
Proof. split; [apply short_chunk_raw; cbn; lia|done]. Defined.

End ZfsExamples.
