(* ===== verification/Reconciler.v ===== *)
(** The reconciling controller of the control plane (mvirt-cplane/src/reconciler):
    it reads the replicated tables, calls the daemons of the owning node through the
    tunnel and writes the status it finds back.

    The daemons are interfaces: the methods that the controller calls, as the clients
    of a [NodeHandle] offer them. Times and request ids are drawn by the environment
    and passed in. *)

From S2P Require Import Rpc Vmm NetAddr EbNet.
From S2P Require Import Prelude Tables Command Event Externals Ca Db.
From S2P Require Import ApplyCompute ApplyTenancy ApplyIdentity ApplyStorage.
From S2P Require Import Queries Scheduler State RaftStore Tunnel.
Local Open Scope rpc_scope.

(** * Clients *)

(** [VmServiceClient]; a VM is answered by its state number. *)
Class VmClient := {
  vm_daemon : Type;
  d_get_vm : string → Rpc vm_daemon Z;
  d_create_vm : CreateVmRequest → Rpc vm_daemon Z;
  d_start_vm : string → Rpc vm_daemon unit;
  d_stop_vm : string → u32 → Rpc vm_daemon unit;
}.

(** The fields of an import job that are read here. *)
Record JobMsg := MkJobMsg {
  jm_template_name : string; jm_state : Z; jm_bytes_written : u64; jm_total_bytes : u64;
  jm_template_size : option u64; jm_created_at : string }.

(** [ZfsServiceClient]; a volume is answered by its path and the bytes used, a
    template by its name and size. *)
Class ZfsClient := {
  zfs_daemon : Type;
  d_get_volume : string → Rpc zfs_daemon (string * u64);
  d_create_volume : string → string → u64 → Rpc zfs_daemon (string * u64);
  d_clone_from_template : string → string → string → option u64 → Rpc zfs_daemon (string * u64);
  d_list_templates : Rpc zfs_daemon (list (string * u64));
  d_list_import_jobs : bool → Rpc zfs_daemon (list JobMsg);
  d_import_template : string → string → option u64 → Rpc zfs_daemon unit;
}.

(** [NetServiceClient]; a NIC is answered by its socket path. *)
Class NetClient := {
  net_daemon : Type;
  d_get_network : string → Rpc net_daemon unit;
  d_create_network : CreateNetworkRequest → Rpc net_daemon unit;
  d_get_nic : string → Rpc net_daemon string;
  d_create_nic : CreateNicRequest → Rpc net_daemon string;
}.

(** [match client.get(..) { Ok(x) => Some, Err(NotFound) => None, Err(s) => error }]. *)
Definition found {S A} (what : string) (m : Rpc S A) : Fallible string S (option A) := λ s,
  match m s with
  | (Ok a, s') => (Ok (Some a), s')
  | (Err e, s') =>
      (if rs_code e == Rpc.NotFound then Ok None else Err (what +:+ ": " +:+ rs_message e), s')
  end.
(** [.map_err(|s| format!("what: {}", s.message()))]. *)
Definition calling {S A} (what : string) (m : Rpc S A) : Fallible string S A :=
  rpc_map_err (λ e, what +:+ ": " +:+ rs_message e) m.

(** * Decisions on one node *)

Section drive.
Context `{VC : VmClient} `{ZC : ZfsClient} `{NC : NetClient}.

(** ** VMs (vm.rs) *)

Definition at_target (current : VmPhase) (target_running : bool) : bool :=
  match current, target_running with
  | VmRunning, true | VmStopped, false | VmFailed, _ => true
  | _, _ => false
  end.

(** [str::replace('_', "-")]. *)
Fixpoint dashed (s : string) : string :=
  match s with
  | EmptyString => EmptyString
  | String a s => String (if Ascii.eqb a "_"%char then "-"%char else a) (dashed s)
  end.

Definition default_user_data (name : string) : string :=
  "#cloud-config" +:+ String "010"%char ("hostname: " +:+ dashed name +:+ String "010"%char "").

Definition vm_nics (nic_attach : option (string * string)) : list NicConfig :=
  match nic_attach with
  | Some (socket, mac) =>
      [MkNicConfig None (if str_is_empty mac then None else Some mac) (Some socket)]
  | None => []
  end.

Definition vm_config (spec : VmSpec) (disk_path : string) (nic_attach : option (string * string))
    : VmConfig :=
  MkVmConfig (vsp_cpu_cores spec) (vsp_memory_mb spec) 2
    (if str_is_empty (vsp_image spec) then None else Some (vsp_image spec)) None None
    [MkDiskConfig disk_path false] (vm_nics nic_attach)
    (Some (default (default_user_data (vsp_name spec)) (vsp_user_data spec))) false.

Definition drive_vm (vm : VmData) (disk_path : string) (nic_attach : option (string * string))
    (target_running : bool) : Fallible string vm_daemon VmPhase :=
  let! current := found "get_vm" (d_get_vm (vm_id vm)) in
  let! state :=
    match current with
    | Some state => rpc_ret state
    | None =>
        calling "create_vm" (d_create_vm (MkCreateVmRequest (Some (vm_id vm))
          (Some (vsp_name (vm_spec vm))) (Some (vm_config (vm_spec vm) disk_path nic_attach))))
    end in
  if target_running then
    match vmm_vm_state state with
    | VmmRunning => rpc_ret VmRunning
    | VmmStarting => rpc_ret VmCreating
    | VmmStopped | VmmUnspecified =>
        calling "start_vm" (d_start_vm (vm_id vm)) ;! rpc_ret VmCreating
    | VmmStopping => rpc_ret VmStopping
    end
  else
    match vmm_vm_state state with
    | VmmStopped | VmmUnspecified => rpc_ret VmStopped
    | VmmStopping => rpc_ret VmStopping
    | VmmRunning | VmmStarting =>
        calling "stop_vm" (d_stop_vm (vm_id vm) 30) ;! rpc_ret VmStopping
    end.

(** ** Volumes (volume.rs) *)

Definition drive_volume (id name : string) (template_name : option string) (size : u64)
    : Fallible string zfs_daemon (string * u64) :=
  let! existing := found "get_volume" (d_get_volume name) in
  match existing, template_name with
  | Some v, _ => rpc_ret v
  | None, Some template =>
      calling "clone_from_template" (d_clone_from_template id template name (Some size))
  | None, None => calling "create_volume" (d_create_volume id name size)
  end.

(** ** Templates (template.rs) *)

Record Progress := MkProgress {
  pg_phase : TemplatePhase; pg_bytes_written : u64; pg_size_bytes : u64 }.

Definition job_to_progress (job : JobMsg) : Progress :=
  MkProgress
    match import_job_state (jm_state job) with
    | IJPending | IJDownloading | IJConverting | IJWriting | IJUnspecified => TplImporting
    | IJCompleted => TplReady
    | IJFailed | IJCancelled => TplFailed
    end
    (jm_bytes_written job) (default (jm_total_bytes job) (jm_template_size job)).

(** [max_by] on the creation time: the last of the greatest. *)
Definition newest_job (jobs : list JobMsg) : option JobMsg :=
  foldl (λ best job,
    match best with
    | Some b => if str_gt (jm_created_at b) (jm_created_at job) then best else Some job
    | None => Some job
    end) None jobs.

Definition drive_template (name : string) (source_url : option string)
    : Fallible string zfs_daemon Progress :=
  let! templates := calling "list_templates" d_list_templates in
  match List.find (λ '(n, _), n == name) templates with
  | Some (_, size) => rpc_ret (MkProgress TplReady size size)
  | None =>
      let! jobs := calling "list_import_jobs" (d_list_import_jobs true) in
      match newest_job (List.filter (λ j, jm_template_name j == name) jobs), source_url with
      | Some job, _ => rpc_ret (job_to_progress job)
      | None, Some source =>
          if str_is_empty source then rpc_err "template has no source_url; cannot import"
          else calling "import_template" (d_import_template name source None) ;!
               rpc_ret (MkProgress TplImporting 0 0)
      | None, None => rpc_err "template has no source_url; cannot import"
      end
  end.

(** ** NICs (nic.rs) *)

Definition ensure_nic (network : NetworkData) (id : string) (nic : NicData)
    : Fallible string net_daemon string :=
  let! net := found "get_network" (d_get_network (nw_id network)) in
  match net with
  | Some _ => rpc_ret tt
  | None =>
      calling "create_network" (d_create_network (MkCreateNetworkRequest (nw_id network)
        (nw_name network) (nw_ipv4_enabled network) (default "" (nw_ipv4_prefix network))
        (nw_ipv6_enabled network) (default "" (nw_ipv6_prefix network)) (nw_dns_servers network)
        (nw_ntp_servers network) (nw_is_public network)))
  end ;!
  let! existing := found "get_nic" (d_get_nic id) in
  match existing with
  | Some socket_path => rpc_ret socket_path
  | None =>
      let spec := nic_spec nic in
      calling "create_nic" (d_create_nic (MkCreateNicRequest id (default "" (nsp_name spec))
        (nw_id network) (nsp_mac_address spec) (default "" (nsp_ipv4_address spec))
        (default "" (nsp_ipv6_address spec)) (nsp_routed_ipv4_prefixes spec)
        (nsp_routed_ipv6_prefixes spec)))
  end.

End drive.

(** * The controller *)

Section controller.
Context `{VC : VmClient} `{ZC : ZfsClient} `{NC : NetClient}.
Context `{R : Redb} `{L : LruCache} `{U : UnicodeText} `{X : X509}.

(** The daemons behind one connection. *)
Record Node := MkNode { n_vmm : vm_daemon; n_zfs : zfs_daemon; n_net : net_daemon }.
#[global] Instance eta_Node : Eta Node := λ r, MkNode (n_vmm r) (n_zfs r) (n_net r).

(** The store, the registry, the daemons behind the channels of the registered
    handles, and the events the controller has not received yet. *)
Record Ctl := MkCtl {
  ct_state : ApiState; ct_registry : NodeRegistry; ct_nodes : gmap nat Node;
  ct_events : list Event }.
#[global] Instance eta_Ctl : Eta Ctl := λ r,
  MkCtl (ct_state r) (ct_registry r) (ct_nodes r) (ct_events r).

(** Calls over the channel of a handle; [Node -> S] is one of the clients. A channel
    that is gone answers nothing. *)
Definition on_node {D A} (h : NodeHandle) (proj : Node → D) `{!Setter proj} (m : Fallible string D A)
    (c : Ctl) : result string A * Ctl :=
  match ct_nodes c !! nh_channel h with
  | Some n =>
      let '(r, d) := m (proj n) in
      (r, c <| ct_nodes := <[nh_channel h := n <| proj := d |>]> (ct_nodes c) |>)
  | None => (Err "transport error", c)
  end.

(** [store.submit]: the command is applied and its events are sent to the receiver. *)
Definition submit (amb : Ambient) (cmd : Command) (c : Ctl) : Ctl :=
  let '(st, _, events) := api_apply amb cmd (ct_state c) in
  (c <| ct_state := st |>) <| ct_events := ct_events c ++ events |>.

(** What one reconciliation draws: the clock of the replica, a request id, the time. *)
Definition Draw : Type := Ambient * Fresh.

Definition vm_status_after (node_id : string) (vm : VmData) (outcome : result string VmPhase)
    : VmStatus :=
  match outcome with
  | Ok phase => mkVmStatus phase (Some node_id) (vst_ip_address (vm_status vm)) None
  | Err e => mkVmStatus VmFailed (Some node_id) (vst_ip_address (vm_status vm)) (Some e)
  end.

(** The path of the boot disk, once there is one. *)
Definition boot_disk (d : Db) (vm : VmData) : option string :=
  match get_volume d (vsp_volume_id (vm_spec vm)) with
  | Some vol =>
      if negb (vot_phase (vol_status vol) == VolReady) then None
      else if str_is_empty (vot_path (vol_status vol)) then None
      else Some (vot_path (vol_status vol))
  | None => None
  end.

(** What to attach: [None] while the NIC is not there yet. *)
Definition nic_attachment (d : Db) (vm : VmData) : option (option (string * string)) :=
  if str_is_empty (vsp_nic_id (vm_spec vm)) then Some None
  else match get_nic d (vsp_nic_id (vm_spec vm)) with
       | Some nic =>
           if str_is_empty (nst_socket_path (nic_status nic)) then None
           else Some (Some (nst_socket_path (nic_status nic), nsp_mac_address (nic_spec nic)))
       | None => None
       end.

Definition target_running (vm : VmData) : bool :=
  match vsp_desired_state (vm_spec vm) with DesiredRunning => true | DesiredStopped => false end.

Definition vm_reconcile (w : Draw) (id : string) (c : Ctl) : Ctl :=
  let d := db (ct_state c) in
  match get_vm d id with
  | None => c
  | Some vm =>
      match vst_node_id (vm_status vm) with
      | None => c
      | Some node_id =>
          if at_target (vst_phase (vm_status vm)) (target_running vm) then c
          else match boot_disk d vm, nic_attachment d vm, registry_get node_id (ct_registry c) with
               | Some disk_path, Some nic_attach, Some node =>
                   let '(outcome, c) :=
                     on_node node n_vmm (drive_vm vm disk_path nic_attach (target_running vm)) c in
                   submit w.1 (UpdateVmStatus (f_request_id w.2) id (f_now w.2)
                     (vm_status_after node_id vm outcome)) c
               | _, _, _ => c
               end
      end
  end.

Definition volume_reconcile (w : Draw) (id : string) (c : Ctl) : Ctl :=
  let d := db (ct_state c) in
  match get_volume d id with
  | None => c
  | Some vol =>
      if vot_phase (vol_status vol) == VolReady then c
      else
        let spec := vol_spec vol in
        match registry_get (vos_node_id spec) (ct_registry c) with
        | None => c
        | Some node =>
            let template_name := (λ tid, match get_template d tid with
                                         | Some t => tsp_name (tpl_spec t)
                                         | None => tid
                                         end) <$> vos_template_id spec in
            let '(outcome, c) :=
              on_node node n_zfs (drive_volume id (vos_name spec) template_name (vos_size_bytes spec)) c in
            submit w.1
              match outcome with
              | Ok (path, used) =>
                  UpdateVolumeStatus (f_request_id w.2) id (f_now w.2) VolReady (Some path) used None
              | Err e =>
                  UpdateVolumeStatus (f_request_id w.2) id (f_now w.2) VolFailed None 0 (Some e)
              end c
        end
  end.

Definition template_reconcile (w : Draw) (id : string) (c : Ctl) : Ctl :=
  match get_template (db (ct_state c)) id with
  | None => c
  | Some tmpl =>
      if tst_phase (tpl_status tmpl) == TplReady then c
      else
        let spec := tpl_spec tmpl in
        match registry_get (tsp_node_id spec) (ct_registry c) with
        | None => c
        | Some node =>
            let '(outcome, c) :=
              on_node node n_zfs (drive_template (tsp_name spec) (tsp_source_url spec)) c in
            submit w.1
              match outcome with
              | Ok p => UpdateTemplateStatus (f_request_id w.2) id (f_now w.2) (pg_phase p)
                          (pg_bytes_written p) (pg_size_bytes p) None
              | Err e => UpdateTemplateStatus (f_request_id w.2) id (f_now w.2) TplFailed
                           (tst_bytes_written (tpl_status tmpl)) (tst_size_bytes (tpl_status tmpl)) (Some e)
              end c
        end
  end.

(** [registry.list()] comes in no particular order; its first element is taken. *)
Definition first_node (reg : NodeRegistry) : option NodeHandle :=
  snd <$> head (map_to_list reg).

Definition nic_reconcile (w : Draw) (id : string) (c : Ctl) : Ctl :=
  let d := db (ct_state c) in
  match get_nic d id with
  | None => c
  | Some nic =>
      if (nst_phase (nic_status nic) == NicActive) && negb (str_is_empty (nst_socket_path (nic_status nic)))
      then c
      else match get_network d (nsp_network_id (nic_spec nic)), first_node (ct_registry c) with
           | Some network, Some node =>
               let '(outcome, c) := on_node node n_net (ensure_nic network id nic) c in
               submit w.1
                 match outcome with
                 | Ok socket_path =>
                     UpdateNicStatus (f_request_id w.2) id (f_now w.2) NicActive socket_path None
                 | Err e => UpdateNicStatus (f_request_id w.2) id (f_now w.2) NicFailed "" (Some e)
                 end c
           | _, _ => c
           end
  end.

(** ** Dispatch *)

(** Several reconciliations in a row; [draws i] is what the [i]th one draws. *)
Fixpoint each (f : Draw → string → Ctl → Ctl) (draws : nat → Draw) (ids : list string) (c : Ctl) : Ctl :=
  match ids with
  | [] => c
  | id :: ids => each f (λ i, draws (S i)) ids (f (draws 0%nat) id c)
  end.

Definition dependents (uses : VmData → bool) (d : Db) : list string :=
  vm_id <$> List.filter uses (omap (get_vm d) (vm_ids d)).

Definition reconcile_for_volume (draws : nat → Draw) (volume_id : string) (c : Ctl) : Ctl :=
  each vm_reconcile draws
    (dependents (λ vm, vsp_volume_id (vm_spec vm) == volume_id) (db (ct_state c))) c.
Definition reconcile_for_nic (draws : nat → Draw) (nic_id : string) (c : Ctl) : Ctl :=
  each vm_reconcile draws (dependents (λ vm, vsp_nic_id (vm_spec vm) == nic_id) (db (ct_state c))) c.

(** Reconciling networks and security groups does nothing yet. *)
Definition dispatch_event (draws : nat → Draw) (event : Event) (c : Ctl) : Ctl :=
  let id := event_resource_id event in
  match event with
  | NodeRegistered _ | NodeUpdated _ _ _ | NodeDeregistered _ => c
  | NetworkCreated _ | NetworkUpdated _ _ _ | NetworkDeleted _ => c
  | NicCreated _ | NicDeleted _ _ => nic_reconcile (draws 0%nat) id c
  | NicUpdated _ _ _ =>
      reconcile_for_nic (λ i, draws (S i)) id (nic_reconcile (draws 0%nat) id c)
  | VmCreated _ | VmUpdated _ _ _ | VmStatusUpdated _ _ _ | VmDeleted _ =>
      vm_reconcile (draws 0%nat) id c
  | VolumeCreated _ | VolumeDeleted _ _ => volume_reconcile (draws 0%nat) id c
  | VolumeStatusUpdated _ _ _ => reconcile_for_volume draws id c
  | TemplateCreated _ | TemplateUpdated _ _ _ => template_reconcile (draws 0%nat) id c
  | SecurityGroupCreated _ | SecurityGroupDeleted _ => c
  end.

(** The ids are those of one snapshot; each reconciliation reads its own. *)
Definition resync_all (draws : nat → nat → Draw) (c : Ctl) : Ctl :=
  let d := db (ct_state c) in
  let c := each volume_reconcile (draws 0%nat) (volume_ids d) c in
  let c := each vm_reconcile (draws 1%nat) (vm_ids d) c in
  let c := each nic_reconcile (draws 2%nat) (nic_ids d) c in
  each template_reconcile (draws 3%nat) (template_ids d) c.

(** The loop of [spawn]: the next event, a tick of the resync timer, or a receiver
    that fell behind and lost the oldest [n] events. *)
Inductive CtlAct :=
  | ActReceive (draws : nat → Draw)
  | ActResync (draws : nat → nat → Draw)
  | ActLagged (n : nat) (draws : nat → nat → Draw).

Definition ctl_step (c : Ctl) (a : CtlAct) : Ctl :=
  match a with
  | ActReceive draws =>
      match ct_events c with
      | event :: rest => dispatch_event draws event (c <| ct_events := rest |>)
      | [] => c
      end
  | ActResync draws => resync_all draws c
  | ActLagged n draws => resync_all draws (c <| ct_events := drop n (ct_events c) |>)
  end.

End controller.
