(* ===== verification/ReconcilerFacts.v ===== *)
(** Theorems on the controller: what a reconciliation may change, that a VM reaches
    the state asked for, and where the event loop does not do what its comments
    say. *)

From S2P Require Import Rpc Vmm NetAddr EbNet.
From S2P Require Import Prelude Tables Command Event Externals Ca Db.
From S2P Require Import ApplyCompute ApplyTenancy ApplyIdentity ApplyStorage.
From S2P Require Import Queries Scheduler State RaftStore Tunnel Reconciler.
Local Open Scope rpc_scope.

(** * What the daemons promise *)

(** A VM daemon that answers: the state of each VM, and how the calls move it.
    [vm_can_start] says that the host can run one more process. *)
Class VmClientLaws `{VC : VmClient} := {
  vm_view : vm_daemon → string → option VmmVmState;
  vm_can_start : vm_daemon → string → Prop;
  get_vm_law : ∀ id s,
    match vm_view s id with
    | Some st => ∃ n, d_get_vm id s = (Ok n, s) ∧ vmm_vm_state n = st
    | None => ∃ m, d_get_vm id s = (Err (MkRpcStatus Rpc.NotFound m), s)
    end;
  create_vm_law : ∀ id name config s,
    vm_view s id = None → id ≠ "" → vc_boot_mode config = 2%Z → is_some (vc_kernel config) = true →
    ∃ n s', d_create_vm (MkCreateVmRequest (Some id) name (Some config)) s = (Ok n, s') ∧
      vmm_vm_state n = VmmStopped ∧ vm_view s' id = Some VmmStopped ∧
      (vm_can_start s id → vm_can_start s' id) ∧
      ∀ id', id' ≠ id → vm_view s' id' = vm_view s id';
  start_vm_law : ∀ id s,
    vm_view s id = Some VmmStopped → vm_can_start s id →
    ∃ s', d_start_vm id s = (Ok tt, s') ∧ vm_view s' id = Some VmmRunning ∧
      ∀ id', id' ≠ id → vm_view s' id' = vm_view s id';
  stop_vm_law : ∀ id t s,
    vm_view s id = Some VmmRunning →
    ∃ s', d_stop_vm id t s = (Ok tt, s') ∧ vm_view s' id = Some VmmStopping ∧
      ∀ id', id' ≠ id → vm_view s' id' = vm_view s id';
}.

(** A storage daemon that finds volumes by name, and lists without effect. *)
Class ZfsClientLaws `{ZC : ZfsClient} := {
  volume_view : zfs_daemon → string → option string;
  get_volume_law : ∀ name s,
    match volume_view s name with
    | Some path => ∃ used, d_get_volume name s = (Ok (path, used), s)
    | None => ∃ m, d_get_volume name s = (Err (MkRpcStatus Rpc.NotFound m), s)
    end;
  create_volume_law : ∀ id name size s path used s',
    volume_view s name = None → d_create_volume id name size s = (Ok (path, used), s') →
    volume_view s' name = Some path;
  list_templates_law : ∀ s, (d_list_templates s).2 = s;
  list_jobs_law : ∀ b s, (d_list_import_jobs b s).2 = s;
}.

Section facts.
Context `{VC : VmClient} `{ZC : ZfsClient} `{NC : NetClient}.
Context `{R : Redb} `{L : LruCache} `{U : UnicodeText} `{X : X509}.

Lemma found_missing {S A} what (m : Rpc S A) t s s' :
  m s = (Err (MkRpcStatus Rpc.NotFound t), s') → found what m s = (Ok None, s').
Proof. unfold found. by intros ->. Qed.

(** * Writing a status back *)

(** A request id the state machine has not answered yet. *)
Definition unused (r : string) (c : Ctl) : Prop := lru_peek (applied_requests (ct_state c)) r = None.

Lemma unused_put r r' resp (cache : lru Response) :
  lru_peek cache r = None → r' ≠ r → lru_peek (lru_put r' resp cache) r = None.
Proof. intros H Hne. destruct (lru_peek_put_ne r' r resp cache Hne) as [->| ->]; done. Qed.

Definition with_status (status : VmStatus) (now : string) (vm : VmData) : VmData :=
  vm <| vm_status := status |> <| vm_updated_at := now |>.

Lemma submit_vm_status amb r id now status c vm :
  unused r c → vms (db (ct_state c)) !! id = Some vm →
  submit amb (UpdateVmStatus r id now status) c =
    MkCtl (mkApiState (txn_put vms id (with_status status now vm) (db (ct_state c)))
             (lru_put r (RespVm (with_status status now vm)) (applied_requests (ct_state c))))
      (ct_registry c) (ct_nodes c)
      (ct_events c ++ [VmStatusUpdated id vm (with_status status now vm)]).
Proof.
  intros Hr Hv. unfold submit, api_apply. cbn [cmd_request_id run_command].
  unfold unused in Hr. rewrite Hr. unfold apply_update_vm_status, txn_get. by rewrite Hv.
Qed.

(** Whatever the request id, the command changes at most the status of its row. *)
Lemma submit_vm_status_confined amb r id now status c :
  let c' := submit amb (UpdateVmStatus r id now status) c in
  ct_registry c' = ct_registry c ∧ ct_nodes c' = ct_nodes c ∧
  (db (ct_state c') = db (ct_state c) ∨
   ∃ vm, vms (db (ct_state c)) !! id = Some vm ∧
     db (ct_state c') = txn_put vms id (with_status status now vm) (db (ct_state c))).
Proof.
  unfold submit, api_apply. cbn [cmd_request_id run_command].
  destruct (lru_peek _ _); [by eauto|]. unfold apply_update_vm_status, txn_get.
  destruct (vms (db (ct_state c)) !! id) as [vm|]; cbn; eauto 8.
Qed.

(** * One reconciliation of a VM *)

(** Everything a VM waits for is there. *)
Record vm_ready (id node_id : string) (vm : VmData) (h : NodeHandle) (n : Node) (disk : string)
    (nic : option (string * string)) (c : Ctl) : Prop := {
  rd_row : vms (db (ct_state c)) !! id = Some vm;
  rd_id : vm_id vm = id;
  rd_placed : vst_node_id (vm_status vm) = Some node_id;
  rd_disk : boot_disk (db (ct_state c)) vm = Some disk;
  rd_nic : nic_attachment (db (ct_state c)) vm = Some nic;
  rd_registered : ct_registry c !! node_id = Some h;
  rd_connected : ct_nodes c !! nh_channel h = Some n;
}.

(** The state after a reconciliation that wrote [status], with the daemon in [d]. *)
Definition written (w : Draw) (id : string) (vm : VmData) (h : NodeHandle) (n : Node) (d : vm_daemon)
    (status : VmStatus) (c : Ctl) : Ctl :=
  let vm' := with_status status (f_now w.2) vm in
  MkCtl (mkApiState (txn_put vms id vm' (db (ct_state c)))
           (lru_put (f_request_id w.2) (RespVm vm') (applied_requests (ct_state c))))
    (ct_registry c) (<[nh_channel h := n <| n_vmm := d |>]> (ct_nodes c))
    (ct_events c ++ [VmStatusUpdated id vm vm']).

Lemma vm_reconcile_ready w id node_id vm h n disk nic c outcome d :
  vm_ready id node_id vm h n disk nic c → unused (f_request_id w.2) c →
  at_target (vst_phase (vm_status vm)) (target_running vm) = false →
  drive_vm vm disk nic (target_running vm) (n_vmm n) = (outcome, d) →
  vm_reconcile w id c = written w id vm h n d (vm_status_after node_id vm outcome) c.
Proof.
  intros [Hrow Hid Hpl Hdisk Hnic Hreg Hcon] Hu Ht Hd.
  unfold vm_reconcile, get_vm, read_get, registry_get. rewrite Hrow, Hpl, Ht, Hdisk, Hnic, Hreg.
  unfold on_node. rewrite Hcon, Hd.
  by rewrite (submit_vm_status _ _ _ _ _ _ vm).
Qed.

Lemma vm_ready_written w id node_id vm h n disk nic c d outcome :
  vm_ready id node_id vm h n disk nic c →
  let status := vm_status_after node_id vm outcome in
  vm_ready id node_id (with_status status (f_now w.2) vm) h (n <| n_vmm := d |>) disk nic
    (written w id vm h n d status c).
Proof.
  intros [Hrow Hid Hpl Hdisk Hnic Hreg Hcon]. cbv zeta. split; cbn.
  - apply lookup_insert_eq.
  - done.
  - by destruct outcome.
  - exact Hdisk.
  - exact Hnic.
  - done.
  - apply lookup_insert_eq.
Qed.

Lemma unused_written w id vm h n d status c r :
  unused r c → f_request_id w.2 ≠ r → unused r (written w id vm h n d status c).
Proof. intros H Hne. by apply unused_put. Qed.

(** A VM at its target is left alone. *)
Lemma vm_reconcile_at_target w id vm c :
  vms (db (ct_state c)) !! id = Some vm →
  at_target (vst_phase (vm_status vm)) (target_running vm) = true → vm_reconcile w id c = c.
Proof.
  intros Hrow Ht. unfold vm_reconcile, get_vm, read_get. rewrite Hrow, Ht.
  by destruct (vst_node_id (vm_status vm)).
Qed.

Lemma at_target_written status now vm :
  at_target (vst_phase (vm_status (with_status status now vm))) (target_running (with_status status now vm)) =
  at_target (vst_phase status) (target_running vm).
Proof. done. Qed.

Lemma target_written status now vm : target_running (with_status status now vm) = target_running vm.
Proof. done. Qed.

(** * Reaching the target *)

Section live.
Context `{VL : !VmClientLaws}.

Lemma found_view id s :
  found "get_vm" (d_get_vm id) s =
    (match vm_view s id with Some _ => (found "get_vm" (d_get_vm id) s).1 | None => Ok None end, s) ∧
  ∀ st, vm_view s id = Some st → ∃ n, found "get_vm" (d_get_vm id) s = (Ok (Some n), s) ∧ vmm_vm_state n = st.
Proof.
  pose proof (get_vm_law id s) as H. unfold found. destruct (vm_view s id) as [st|].
  - destruct H as (n & -> & Hn). split; [done|]. intros ? [= <-]. eauto.
  - destruct H as (m & ->). split; [|done]. cbn. done.
Qed.

Lemma drive_absent vm disk nic s :
  vm_view s (vm_id vm) = None → vm_id vm ≠ "" → vsp_image (vm_spec vm) ≠ "" → vm_can_start s (vm_id vm) →
  ∃ s', drive_vm vm disk nic true s = (Ok VmCreating, s') ∧ vm_view s' (vm_id vm) = Some VmmRunning.
Proof.
  intros Hv Hid Himg Hs. destruct (found_view (vm_id vm) s) as [Hf _]. rewrite Hv in Hf.
  destruct (create_vm_law (vm_id vm) (Some (vsp_name (vm_spec vm))) (vm_config (vm_spec vm) disk nic) s Hv Hid)
    as (n & s1 & Ec & Hn & Hv1 & Hs1 & _); [done| |].
  { cbn. by destruct (vsp_image (vm_spec vm)). }
  destruct (start_vm_law (vm_id vm) s1 Hv1 (Hs1 Hs)) as (s2 & Es & Hv2 & _).
  exists s2. split; [|done]. unfold drive_vm, rpc_bind at 1. rewrite Hf. cbn beta iota.
  unfold rpc_bind at 1, calling at 1, rpc_map_err. rewrite Ec. cbn [fst snd Rpc.map_err]. cbn beta iota. rewrite Hn.
  unfold rpc_bind, calling, rpc_map_err. by rewrite Es.
Qed.

Lemma drive_present vm disk nic target s st :
  vm_view s (vm_id vm) = Some st →
  ∃ n, vmm_vm_state n = st ∧
  drive_vm vm disk nic target s =
    (if target then
       match st with
       | VmmRunning => rpc_ret VmRunning
       | VmmStarting => rpc_ret VmCreating
       | VmmStopped | VmmUnspecified => calling "start_vm" (d_start_vm (vm_id vm)) ;! rpc_ret VmCreating
       | VmmStopping => rpc_ret VmStopping
       end
     else
       match st with
       | VmmStopped | VmmUnspecified => rpc_ret VmStopped
       | VmmStopping => rpc_ret VmStopping
       | VmmRunning | VmmStarting => calling "stop_vm" (d_stop_vm (vm_id vm) 30) ;! rpc_ret VmStopping
       end) s.
Proof.
  intros Hv. destruct (proj2 (found_view (vm_id vm) s) _ Hv) as (n & Hf & Hn). exists n. split; [done|].
  unfold drive_vm, rpc_bind at 1. rewrite Hf. cbn beta iota. unfold rpc_bind at 1, rpc_ret at 1. cbn beta iota.
  rewrite Hn. by destruct target.
Qed.

Lemma drive_stopped vm disk nic s :
  vm_view s (vm_id vm) = Some VmmStopped → vm_can_start s (vm_id vm) →
  ∃ s', drive_vm vm disk nic true s = (Ok VmCreating, s') ∧ vm_view s' (vm_id vm) = Some VmmRunning.
Proof.
  intros Hv Hs. destruct (drive_present vm disk nic true s _ Hv) as (n & _ & ->).
  destruct (start_vm_law _ _ Hv Hs) as (s' & E & Hv' & _). exists s'. split; [|done].
  unfold rpc_bind, calling, rpc_map_err. by rewrite E.
Qed.

(** The events that make the controller look at a VM. *)
Definition vm_event (id : string) (e : Event) : Prop :=
  match e with
  | VmCreated _ | VmUpdated _ _ _ | VmStatusUpdated _ _ _ | VmDeleted _ => event_resource_id e = id
  | _ => False
  end.

Lemma receive_vm_event id e draws c :
  ct_events c = [e] → vm_event id e →
  ctl_step c (ActReceive draws) = vm_reconcile (draws 0%nat) id (c <| ct_events := [] |>).
Proof. intros He Hv. unfold ctl_step. rewrite He. destruct e; cbn in Hv |- *; subst; done. Qed.

Lemma vm_ready_events id node_id vm h n disk nic c l :
  vm_ready id node_id vm h n disk nic c → vm_ready id node_id vm h n disk nic (c <| ct_events := l |>).
Proof. intros []. by split. Qed.

(** A received event of a VM that is not where it should be. *)
Lemma receive_ready id node_id vm h n disk nic c e draws outcome d :
  ct_events c = [e] → vm_event id e → vm_ready id node_id vm h n disk nic c →
  unused (f_request_id (draws 0%nat).2) c →
  at_target (vst_phase (vm_status vm)) (target_running vm) = false →
  drive_vm vm disk nic (target_running vm) (n_vmm n) = (outcome, d) →
  let status := vm_status_after node_id vm outcome in
  let c' := written (draws 0%nat) id vm h n d status (c <| ct_events := [] |>) in
  ctl_step c (ActReceive draws) = c' ∧
  vm_ready id node_id (with_status status (f_now (draws 0%nat).2) vm) h (n <| n_vmm := d |>) disk nic c' ∧
  ct_events c' = [VmStatusUpdated id vm (with_status status (f_now (draws 0%nat).2) vm)].
Proof.
  intros He Hv Hr Hu Ht Hd. cbv zeta. split_and!; [|by apply vm_ready_written, vm_ready_events|done].
  rewrite (receive_vm_event id e draws c He Hv).
  by apply (vm_reconcile_ready _ _ _ _ _ _ disk nic); [apply vm_ready_events|..].
Qed.

(** The last event, of a VM that has arrived, changes nothing. *)
Lemma receive_at_target id node_id vm h n disk nic c e draws :
  ct_events c = [e] → vm_event id e → vm_ready id node_id vm h n disk nic c →
  at_target (vst_phase (vm_status vm)) (target_running vm) = true →
  ctl_step c (ActReceive draws) = c <| ct_events := [] |>.
Proof.
  intros He Hv Hr Ht. rewrite (receive_vm_event id e draws c He Hv).
  eapply vm_reconcile_at_target; [apply Hr|done].
Qed.

(** C4: A VM that is to run, whose disk and NIC are there and whose node is connected, is
    running on that node and known to be so after three events, and then the queue
    is empty. *)
Theorem vm_reaches_running id node_id vm h n disk nic c e draws1 draws2 draws3 :
  vm_ready id node_id vm h n disk nic c → ct_events c = [e] → vm_event id e →
  target_running vm = true → vst_phase (vm_status vm) ≠ VmRunning → vst_phase (vm_status vm) ≠ VmFailed →
  id ≠ "" → vsp_image (vm_spec vm) ≠ "" → vm_can_start (n_vmm n) id →
  vm_view (n_vmm n) id = None ∨ vm_view (n_vmm n) id = Some VmmStopped →
  unused (f_request_id (draws1 0%nat).2) c → unused (f_request_id (draws2 0%nat).2) c →
  f_request_id (draws1 0%nat).2 ≠ f_request_id (draws2 0%nat).2 →
  let c' := foldl ctl_step c [ActReceive draws1; ActReceive draws2; ActReceive draws3] in
  ct_events c' = [] ∧
  ∃ vm' n', vms (db (ct_state c')) !! id = Some vm' ∧ vm_spec vm' = vm_spec vm ∧
    vst_phase (vm_status vm') = VmRunning ∧ ct_nodes c' !! nh_channel h = Some n' ∧
    vm_view (n_vmm n') id = Some VmmRunning.
Proof.
  intros Hr He Hv Ht Hp1 Hp2 Hid Himg Hcs Hview Hu1 Hu2 Hne. cbn [foldl]. cbv zeta.
  assert (Hnt : at_target (vst_phase (vm_status vm)) (target_running vm) = false)
    by (rewrite Ht; by destruct (vst_phase (vm_status vm))).
  pose proof (rd_id _ _ _ _ _ _ _ _ Hr) as Hi.
  assert (Hd : ∃ s', drive_vm vm disk nic true (n_vmm n) = (Ok VmCreating, s') ∧
    vm_view s' id = Some VmmRunning).
  { rewrite <- Hi in *. destruct Hview; [by apply drive_absent|by apply drive_stopped]. }
  destruct Hd as (d1 & Hd1 & Hv1). rewrite <- Ht in Hd1.
  destruct (receive_ready _ _ _ _ _ _ _ c e draws1 _ _ He Hv Hr Hu1 Hnt Hd1) as (-> & Hr1 & He1).
  destruct (drive_present (with_status (vm_status_after node_id vm (Ok VmCreating)) (f_now (draws1 0%nat).2) vm)
    disk nic true d1 VmmRunning) as (_ & _ & Hd2); [by rewrite <- Hv1, <- Hi|].
  rewrite <- Ht in Hd2.
  pose proof (unused_written (draws1 0%nat) id vm h n d1 (vm_status_after node_id vm (Ok VmCreating))
    (c <| ct_events := [] |>) _ Hu2 Hne) as Hu2'.
  destruct (receive_ready _ _ _ _ _ _ _ _ _ draws2 _ _ He1 eq_refl Hr1 Hu2'
    ltac:(by rewrite at_target_written, Ht) Hd2) as (-> & Hr2 & He2).
  rewrite (receive_at_target _ _ _ _ _ _ _ _ _ _ He2 eq_refl Hr2)
    by by rewrite at_target_written, target_written, Ht.
  split; [done|]. eexists _, _. split_and!; [apply Hr2|done|done|apply Hr2|done].
Qed.

(** Receiving one event after the other, with what each reconciliation draws. *)
Definition receives (ds : list Draw) (c : Ctl) : Ctl :=
  foldl (λ c w, ctl_step c (ActReceive (λ _, w))) c ds.

(** Request ids that are new and differ. *)
Definition fresh (ds : list Draw) (c : Ctl) : Prop :=
  NoDup ((λ w, f_request_id w.2) <$> ds) ∧ ∀ w, w ∈ ds → unused (f_request_id w.2) c.

Lemma fresh_written w ds id vm h n d status c :
  fresh (w :: ds) c → fresh ds (written w id vm h n d status (c <| ct_events := [] |>)).
Proof.
  intros [Hn Hu]. apply list.NoDup_cons in Hn as [Hw Hn]. split; [done|]. intros w' Hw'.
  apply unused_written; [by apply Hu; right|]. intros E. apply Hw. rewrite E.
  by apply (list_elem_of_fmap_2 (λ w, f_request_id w.2)).
Qed.

Lemma same_vmm n : n <| n_vmm := n_vmm n |> = n.
Proof. by destruct n. Qed.

(** A VM that the daemon is still stopping: one event leads to the next. *)
Lemma receive_stopping id node_id vm h n disk nic c e w :
  ct_events c = [e] → vm_event id e → vm_ready id node_id vm h n disk nic c →
  unused (f_request_id w.2) c → vst_phase (vm_status vm) = VmStopping →
  vm_view (n_vmm n) id = Some VmmStopping →
  let status := vm_status_after node_id vm (Ok VmStopping) in
  let vm' := with_status status (f_now w.2) vm in
  let c' := written w id vm h n (n_vmm n) status (c <| ct_events := [] |>) in
  ctl_step c (ActReceive (λ _, w)) = c' ∧ vm_ready id node_id vm' h n disk nic c' ∧
  ct_events c' = [VmStatusUpdated id vm vm'].
Proof.
  intros He Hv Hr Hu Hp Hview. cbv zeta. pose proof (rd_id _ _ _ _ _ _ _ _ Hr) as Hi.
  destruct (drive_present vm disk nic (target_running vm) (n_vmm n) VmmStopping) as (_ & _ & Hd);
    [by rewrite Hi|].
  destruct (receive_ready id node_id vm h n disk nic c e (λ _, w) (Ok VmStopping) (n_vmm n))
    as (E & Hr1 & He1); [done..| | |].
  - rewrite Hp. by destruct (target_running vm).
  - rewrite Hd. by destruct (target_running vm).
  - by rewrite same_vmm in Hr1.
Qed.

Lemma receives_stopping ds id node_id h n disk nic c vm e :
  ct_events c = [e] → vm_event id e → vm_ready id node_id vm h n disk nic c →
  fresh ds c → vst_phase (vm_status vm) = VmStopping → vm_view (n_vmm n) id = Some VmmStopping →
  ∃ vm' e', ct_events (receives ds c) = [e'] ∧ vm_event id e' ∧
    vm_ready id node_id vm' h n disk nic (receives ds c) ∧ vst_phase (vm_status vm') = VmStopping ∧
    vm_spec vm' = vm_spec vm ∧
    vm_updated_at vm' = default (vm_updated_at vm) ((λ w, f_now w.2) <$> list.last ds) ∧
    ∀ ds', fresh (ds ++ ds') c → fresh ds' (receives ds c).
Proof.
  revert c vm e. induction ds as [|w ds IH]; intros c vm e He Hv Hr Hf Hp Hview.
  { exists vm, e. by split_and!. }
  destruct (receive_stopping id node_id vm h n disk nic c e w) as (E & Hr1 & He1); [done..| |done|done|].
  { apply Hf. by left. }
  unfold receives. cbn [foldl]. rewrite E. fold (receives ds).
  destruct (IH _ _ _ He1 eq_refl Hr1 (fresh_written _ _ _ _ _ _ _ _ _ Hf) eq_refl Hview)
    as (vm' & e' & H1 & H2 & H3 & H4 & H5 & H6 & H7).
  exists vm', e'. split_and!; [done|done|done|done|by rewrite H5| |].
  - rewrite H6, (list.last_cons w ds). by destruct (list.last ds).
  - intros ds' Hf'. apply H7. by apply fresh_written.
Qed.

(** While a daemon stops a VM, every status written makes the controller ask again at
    once and write again: the queue does not drain, however many events it takes. *)
Theorem stopping_vm_polled_without_pause ds w id node_id vm h n disk nic c e :
  ct_events c = [e] → vm_event id e → vm_ready id node_id vm h n disk nic c → fresh (ds ++ [w]) c →
  vst_phase (vm_status vm) = VmStopping → vm_view (n_vmm n) id = Some VmmStopping →
  let c' := receives (ds ++ [w]) c in
  ct_events c' ≠ [] ∧ ∃ vm', vms (db (ct_state c')) !! id = Some vm' ∧
    vst_phase (vm_status vm') = VmStopping ∧ vm_updated_at vm' = f_now w.2.
Proof.
  intros He Hv Hr Hf Hp Hview. cbv zeta.
  destruct (receives_stopping _ _ _ _ _ _ _ _ _ _ He Hv Hr Hf Hp Hview)
    as (vm' & e' & -> & _ & Hr' & Hp' & _ & Hu & _).
  split; [done|]. exists vm'. split_and!; [apply Hr'|done|]. by rewrite Hu, list.last_snoc.
Qed.

(** What happens on the node itself. *)
Definition node_acts (h : NodeHandle) (d : vm_daemon) (c : Ctl) : Ctl :=
  c <| ct_nodes := alter (λ n, n <| n_vmm := d |>) (nh_channel h) (ct_nodes c) |>.

Lemma vm_ready_node id node_id vm h n disk nic c d :
  vm_ready id node_id vm h n disk nic c →
  vm_ready id node_id vm h (n <| n_vmm := d |>) disk nic (node_acts h d c).
Proof. intros []. split; try done. cbn. by rewrite lookup_alter_eq, rd_connected0. Qed.

(** A running VM that is to stop is told to; however often the controller polls while
    the daemon works, once the daemon is done two more events settle the VM as
    stopped and leave the queue empty. *)
Theorem vm_reaches_stopped ds w0 w1 w2 id node_id vm h n disk nic c e d :
  ct_events c = [e] → vm_event id e → vm_ready id node_id vm h n disk nic c →
  fresh (w0 :: ds ++ [w1]) c → target_running vm = false →
  vst_phase (vm_status vm) ≠ VmStopped → vst_phase (vm_status vm) ≠ VmFailed →
  vm_view (n_vmm n) id = Some VmmRunning → vm_view d id = Some VmmStopped →
  let c1 := receives (w0 :: ds) c in
  let c' := receives [w1; w2] (node_acts h d c1) in
  (∃ n1, ct_nodes c1 !! nh_channel h = Some n1 ∧ vm_view (n_vmm n1) id = Some VmmStopping) ∧
  ct_events c' = [] ∧
  ∃ vm', vms (db (ct_state c')) !! id = Some vm' ∧ vm_spec vm' = vm_spec vm ∧
    vst_phase (vm_status vm') = VmStopped.
Proof.
  intros He Hv Hr Hf Ht Hp1 Hp2 Hview Hd. cbv zeta.
  pose proof (rd_id _ _ _ _ _ _ _ _ Hr) as Hi.
  assert (Hnt : at_target (vst_phase (vm_status vm)) (target_running vm) = false)
    by (rewrite Ht; by destruct (vst_phase (vm_status vm))).
  destruct (stop_vm_law id 30 (n_vmm n) Hview) as (d0 & Es & Hv0 & _).
  destruct (drive_present vm disk nic false (n_vmm n) VmmRunning) as (_ & _ & Hd0); [by rewrite Hi|].
  assert (Hd0' : drive_vm vm disk nic (target_running vm) (n_vmm n) = (Ok VmStopping, d0)).
  { rewrite Ht, Hd0. unfold rpc_bind, calling, rpc_map_err. by rewrite Hi, Es. }
  destruct (receive_ready id node_id vm h n disk nic c e (λ _, w0) (Ok VmStopping) d0) as (E & Hr1 & He1);
    [done..|by apply Hf; left|done|done|].
  change (receives (w0 :: ds) c) with (receives ds (ctl_step c (ActReceive (λ _, w0)))). rewrite E.
  pose proof (fresh_written w0 (ds ++ [w1]) id vm h n d0 (vm_status_after node_id vm (Ok VmStopping)) c Hf) as Hf1.
  assert (Hfd : fresh ds (written w0 id vm h n d0 (vm_status_after node_id vm (Ok VmStopping)) (c <| ct_events := [] |>))).
  { destruct Hf1 as [Hn Hu]. rewrite fmap_app in Hn. apply list.NoDup_app in Hn as (Hn & _). split; [done|].
    intros w Hw. apply Hu, elem_of_app. by left. }
  destruct (receives_stopping ds id _ _ _ _ _ _ _ _ He1 eq_refl Hr1 Hfd eq_refl Hv0)
    as (vm2 & e2 & He2 & Hve2 & Hr2 & Hp2' & Hs2 & _ & Hf2).
  specialize (Hf2 _ Hf1). set (c2 := receives ds _) in *.
  split; [exists (n <| n_vmm := d0 |>); split; [apply Hr2|done]|].
  pose proof (vm_ready_node _ _ _ _ _ _ _ _ d Hr2) as Hr3.
  assert (Ht2 : target_running vm2 = false) by (unfold target_running in *; by rewrite Hs2).
  destruct (drive_present vm2 disk nic false d VmmStopped) as (_ & _ & Hd3);
    [by rewrite (rd_id _ _ _ _ _ _ _ _ Hr2)|].
  rewrite <- Ht2 in Hd3.
  destruct (receive_ready id node_id vm2 h (n <| n_vmm := d0 |> <| n_vmm := d |>) disk nic (node_acts h d c2) e2 (λ _, w1) (Ok VmStopped) d)
    as (E3 & Hr4 & He4); [exact He2|done|exact Hr3|apply Hf2; by left|by rewrite Hp2', Ht2|exact Hd3|].
  change (receives [w1; w2] (node_acts h d c2)) with
    (ctl_step (ctl_step (node_acts h d c2) (ActReceive (λ _, w1))) (ActReceive (λ _, w2))). rewrite E3.
  rewrite (receive_at_target _ _ _ _ _ _ _ _ _ _ He4 eq_refl Hr4) by by rewrite at_target_written, Ht2.
  split; [done|]. eexists. split_and!; [apply Hr4|done|done].
Qed.

End live.

(** * What a reconciliation leaves alone *)

Lemma on_node_spec {D A} h (proj : Node → D) `{!Setter proj} (m : Fallible string D A) c :
  let '(_, c') := on_node h proj m c in
  ct_state c' = ct_state c ∧ ct_registry c' = ct_registry c ∧ ct_events c' = ct_events c ∧
  (ct_nodes c' = ct_nodes c ∨ ∃ n d, ct_nodes c !! nh_channel h = Some n ∧
     ct_nodes c' = <[nh_channel h := n <| proj := d |>]> (ct_nodes c)).
Proof.
  unfold on_node. destruct (ct_nodes c !! nh_channel h) as [n|]; [|by eauto].
  destruct (m (proj n)) as [r d]. eauto 8.
Qed.

(** Reconciling a VM writes at most the status of that VM, never what the user asked
    for, and talks only to the VM daemon of the node that owns it. *)
Theorem vm_reconcile_confined w id c :
  let c' := vm_reconcile w id c in
  ct_registry c' = ct_registry c ∧
  (db (ct_state c') = db (ct_state c) ∨
   ∃ vm status, vms (db (ct_state c)) !! id = Some vm ∧ vst_node_id status = vst_node_id (vm_status vm) ∧
     db (ct_state c') = txn_put vms id (with_status status (f_now w.2) vm) (db (ct_state c))) ∧
  (ct_nodes c' = ct_nodes c ∨
   ∃ vm node_id h n d, vms (db (ct_state c)) !! id = Some vm ∧ vst_node_id (vm_status vm) = Some node_id ∧
     ct_registry c !! node_id = Some h ∧ ct_nodes c !! nh_channel h = Some n ∧
     ct_nodes c' = <[nh_channel h := n <| n_vmm := d |>]> (ct_nodes c)).
Proof.
  cbv zeta. unfold vm_reconcile, get_vm, read_get, registry_get.
  destruct (vms (db (ct_state c)) !! id) as [vm|] eqn:Hvm; [|by eauto].
  destruct (vst_node_id (vm_status vm)) as [node_id|] eqn:Hn; [|by eauto].
  destruct (at_target _ _); [by eauto|]. destruct (boot_disk _ _); [|by eauto].
  destruct (nic_attachment _ _) as [nic|]; [|by eauto].
  destruct (ct_registry c !! node_id) as [h|] eqn:Hh; [|by eauto].
  pose proof (on_node_spec h n_vmm (drive_vm vm s nic (target_running vm)) c) as Hon.
  destruct (on_node _ _ _ _) as [outcome c1]. destruct Hon as (E1 & E2 & _ & E4).
  destruct (submit_vm_status_confined w.1 (f_request_id w.2) id (f_now w.2)
    (vm_status_after node_id vm outcome) c1) as (-> & -> & Hd). rewrite E1 in Hd.
  split_and!; [done| |].
  - destruct Hd as [|(vm' & Hvm' & ->)]; [by left|right]. simplify_eq.
    exists vm, (vm_status_after node_id vm outcome). split_and!; [done| |done]. by destruct outcome.
  - destruct E4 as [|(n & d & Hn' & ->)]; [by left|right]. by exists vm, node_id, h, n, d.
Qed.

(** ** VM rows *)

(** The writes of the other reconcilers do not touch the VMs. *)
Lemma submit_keeps_vms amb cmd c :
  match cmd with
  | UpdateVolumeStatus _ _ _ _ _ _ _ | UpdateTemplateStatus _ _ _ _ _ _ _ | UpdateNicStatus _ _ _ _ _ _ =>
      True
  | _ => False
  end →
  vms (db (ct_state (submit amb cmd c))) = vms (db (ct_state c)).
Proof.
  intros H. unfold submit, api_apply. destruct (lru_peek _ _); [done|].
  destruct cmd; try done; cbn [run_command];
    unfold apply_update_volume_status, apply_update_template_status, apply_update_nic_status;
    by destruct (txn_get _ _ _).
Qed.

Lemma on_node_vms {D A} h (proj : Node → D) `{!Setter proj} (m : Fallible string D A) c :
  vms (db (ct_state (on_node h proj m c).2)) = vms (db (ct_state c)).
Proof. pose proof (on_node_spec h proj m c) as H. destruct (on_node _ _ _ _). cbn [snd]. by destruct H as (-> & _). Qed.

Lemma volume_reconcile_vms w id c : vms (db (ct_state (volume_reconcile w id c))) = vms (db (ct_state c)).
Proof.
  unfold volume_reconcile. destruct (get_volume _ _) as [vol|]; [|done]. case_bool_decide; [done|].
  destruct (registry_get _ _) as [h|]; [|done].
  match goal with |- context [on_node h n_zfs ?m c] => pose proof (on_node_vms h n_zfs m c) as Hv;
    destruct (on_node h n_zfs m c) as [[[]|] c1] end; by rewrite submit_keeps_vms.
Qed.

Lemma template_reconcile_vms w id c : vms (db (ct_state (template_reconcile w id c))) = vms (db (ct_state c)).
Proof.
  unfold template_reconcile. destruct (get_template _ _) as [t|]; [|done]. case_bool_decide; [done|].
  destruct (registry_get _ _) as [h|]; [|done].
  match goal with |- context [on_node h n_zfs ?m c] => pose proof (on_node_vms h n_zfs m c) as Hv;
    destruct (on_node h n_zfs m c) as [[|] c1] end; by rewrite submit_keeps_vms.
Qed.

Lemma nic_reconcile_vms w id c : vms (db (ct_state (nic_reconcile w id c))) = vms (db (ct_state c)).
Proof.
  unfold nic_reconcile. destruct (get_nic _ _) as [nic|]; [|done]. destruct (_ && _); [done|].
  destruct (get_network _ _); [|done]. destruct (first_node _) as [h|]; [|done].
  match goal with |- context [on_node h n_net ?m c] => pose proof (on_node_vms h n_net m c) as Hv;
    destruct (on_node h n_net m c) as [[|] c1] end; by rewrite submit_keeps_vms.
Qed.

(** A VM that has arrived stays as it is when any VM is reconciled. *)
Definition arrived (id : string) (vm : VmData) (c : Ctl) : Prop :=
  vms (db (ct_state c)) !! id = Some vm ∧
  at_target (vst_phase (vm_status vm)) (target_running vm) = true.

Lemma arrived_vm_reconcile id vm w id' c : arrived id vm c → arrived id vm (vm_reconcile w id' c).
Proof.
  intros [Hr Ht]. split; [|done]. destruct (decide (id' = id)) as [->|Hne].
  - by rewrite (vm_reconcile_at_target w id vm c).
  - destruct (vm_reconcile_confined w id' c) as (_ & [-> |(vm' & st & _ & _ & ->)] & _); [done|].
    cbn. by rewrite lookup_insert_ne.
Qed.

Lemma arrived_same id vm c c' :
  vms (db (ct_state c')) = vms (db (ct_state c)) → arrived id vm c → arrived id vm c'.
Proof. intros E [Hr Ht]. split; [by rewrite E|done]. Qed.

Lemma arrived_each id vm f draws ids c :
  (∀ w i c, arrived id vm c → arrived id vm (f w i c)) → arrived id vm c →
  arrived id vm (each f draws ids c).
Proof. intros Hf. revert draws c. induction ids as [|i ids IH]; intros draws c H; [done|]. cbn. by apply IH, Hf. Qed.

Lemma arrived_resync id vm draws c : arrived id vm c → arrived id vm (resync_all draws c).
Proof.
  intros H. unfold resync_all. cbv zeta.
  apply arrived_each; [intros; eapply arrived_same; [apply template_reconcile_vms|done]|].
  apply arrived_each; [intros; eapply arrived_same; [apply nic_reconcile_vms|done]|].
  apply arrived_each; [intros; by apply arrived_vm_reconcile|].
  apply arrived_each; [intros; eapply arrived_same; [apply volume_reconcile_vms|done]|done].
Qed.

Lemma arrived_dispatch id vm draws e c : arrived id vm c → arrived id vm (dispatch_event draws e c).
Proof.
  intros H. unfold dispatch_event, reconcile_for_nic, reconcile_for_volume.
  destruct e; try done;
    first [ eapply arrived_same; [apply volume_reconcile_vms|done]
          | eapply arrived_same; [apply template_reconcile_vms|done]
          | by apply arrived_vm_reconcile
          | apply arrived_each; [intros; by apply arrived_vm_reconcile|];
            first [done | eapply arrived_same; [apply nic_reconcile_vms|done]]
          | eapply arrived_same; [apply nic_reconcile_vms|done] ].
Qed.

Lemma arrived_step id vm c a : arrived id vm c → arrived id vm (ctl_step c a).
Proof.
  intros H. destruct a as [draws|draws|k draws]; cbn.
  - destruct (ct_events c) as [|e l]; [done|]. by apply arrived_dispatch.
  - by apply arrived_resync.
  - by apply arrived_resync.
Qed.

(** What happens around the store: the controller acts, or a node does. *)
Inductive Happening := ByController (a : CtlAct) | ByNode (channel : nat) (n : Node).
Definition happen (c : Ctl) (x : Happening) : Ctl :=
  match x with
  | ByController a => ctl_step c a
  | ByNode ch n => c <| ct_nodes := <[ch := n]> (ct_nodes c) |>
  end.

Lemma arrived_run xs id vm c : arrived id vm c → vms (db (ct_state (foldl happen c xs))) !! id = Some vm.
Proof.
  revert c. induction xs as [|x xs IH]; intros c H; [apply H|]. cbn [foldl]. apply IH.
  destruct x; [by apply arrived_step|]. by apply (arrived_same id vm c).
Qed.

(** A VM recorded as running is never looked at again: whatever becomes of it on its
    node, no event and no resync changes the record, unless the node reports it. *)
Lemma running_vm_not_rechecked xs id vm c :
  vms (db (ct_state c)) !! id = Some vm → vst_phase (vm_status vm) = VmRunning →
  vsp_desired_state (vm_spec vm) = DesiredRunning →
  vms (db (ct_state (foldl happen c xs))) !! id = Some vm.
Proof.
  intros Hr Hp Hd. apply arrived_run. split; [done|]. unfold target_running. by rewrite Hp, Hd.
Qed.

(** * NICs *)

Definition nic_published (socket_path now : string) (nic : NicData) : NicData :=
  nic <| nic_status := (((nic_status nic) <| nst_phase := NicActive |>) <| nst_socket_path := socket_path |>)
                         <| nst_message := None |> |>
      <| nic_updated_at := now |>.

Lemma submit_nic_active amb r id now socket_path c nic :
  unused r c → nics (db (ct_state c)) !! id = Some nic → socket_path ≠ "" →
  submit amb (UpdateNicStatus r id now NicActive socket_path None) c =
    MkCtl (mkApiState (txn_put nics id (nic_published socket_path now nic) (db (ct_state c)))
             (lru_put r (RespNic (nic_published socket_path now nic)) (applied_requests (ct_state c))))
      (ct_registry c) (ct_nodes c) (ct_events c).
Proof.
  intros Hr Hv Hs. unfold submit, api_apply. cbn [cmd_request_id run_command].
  unfold unused in Hr. rewrite Hr. unfold apply_update_nic_status, txn_get. rewrite Hv.
  destruct (str_is_empty socket_path) eqn:E; [by destruct socket_path|]. cbn. by rewrite app_nil_r.
Qed.

(** When the node has made a NIC, its socket is recorded, but nobody is told: the
    queue is empty, further receiving does nothing, and a VM that waited only for
    this NIC is where it was. *)
Theorem nic_ready_wakes_nobody draws1 draws2 nic network h n d socket_path vmid vm c :
  let id := nic_id nic in
  ct_events c = [NicCreated nic] → nics (db (ct_state c)) !! id = Some nic →
  nst_socket_path (nic_status nic) = "" →
  networks (db (ct_state c)) !! nsp_network_id (nic_spec nic) = Some network →
  first_node (ct_registry c) = Some h → ct_nodes c !! nh_channel h = Some n →
  ensure_nic network id nic (n_net n) = (Ok socket_path, d) → socket_path ≠ "" →
  unused (f_request_id (draws1 0%nat).2) c →
  vms (db (ct_state c)) !! vmid = Some vm → vsp_nic_id (vm_spec vm) = id → id ≠ "" →
  let c' := foldl ctl_step c [ActReceive draws1; ActReceive draws2] in
  nic_attachment (db (ct_state c)) vm = None ∧
  nic_attachment (db (ct_state c')) vm = Some (Some (socket_path, nsp_mac_address (nic_spec nic))) ∧
  ct_events c' = [] ∧ vms (db (ct_state c')) !! vmid = Some vm.
Proof.
  cbv zeta. intros He Hn Hs Hnet Hf Hc Hd Hsp Hu Hvm Hid Hne. cbn [foldl].
  assert (E : ctl_step c (ActReceive draws1) = nic_reconcile (draws1 0%nat) (nic_id nic) (c <| ct_events := [] |>)).
  { unfold ctl_step. by rewrite He. }
  assert (E1 : nic_reconcile (draws1 0%nat) (nic_id nic) (c <| ct_events := [] |>) =
    MkCtl (mkApiState (txn_put nics (nic_id nic) (nic_published socket_path (f_now (draws1 0%nat).2) nic)
                         (db (ct_state c)))
             (lru_put (f_request_id (draws1 0%nat).2)
                (RespNic (nic_published socket_path (f_now (draws1 0%nat).2) nic)) (applied_requests (ct_state c))))
      (ct_registry c) (<[nh_channel h := n <| n_net := d |>]> (ct_nodes c)) []).
  { unfold nic_reconcile, get_nic, get_network, read_get. cbn [ct_state ct_registry].
    change (db (ct_state (c <| ct_events := [] |>))) with (db (ct_state c)). rewrite Hn, Hs.
    rewrite andb_false_r. rewrite Hnet. change (ct_registry (c <| ct_events := [] |>)) with (ct_registry c).
    rewrite Hf. unfold on_node. change (ct_nodes (c <| ct_events := [] |>)) with (ct_nodes c).
    rewrite Hc, Hd. by rewrite (submit_nic_active _ _ _ _ _ _ nic). }
  rewrite E, E1. split_and!.
  - unfold nic_attachment, get_nic, read_get. rewrite Hid, Hn, Hs. by destruct (nic_id nic).
  - unfold nic_attachment, get_nic, read_get. rewrite Hid. destruct (str_is_empty (nic_id nic)) eqn:Ee.
    { by destruct (nic_id nic). }
    cbn. rewrite lookup_insert_eq. cbn. by destruct socket_path.
  - done.
  - done.
Qed.

(** * Templates *)

Lemma unused_submit r amb cmd c : unused r c → cmd_request_id cmd ≠ r → unused r (submit amb cmd c).
Proof.
  unfold unused, submit, api_apply. intros H Hne. destruct (lru_peek _ (cmd_request_id cmd)); [done|].
  destruct (run_command _ _ _); [done|]. by apply unused_put.
Qed.

Section templates.
Context `{ZL : !ZfsClientLaws}.

Definition template_importing (p : Progress) (now : string) (t : TemplateData) : TemplateData :=
  t <| tpl_status := ((((tpl_status t) <| tst_phase := pg_phase p |>) <| tst_bytes_written := pg_bytes_written p |>)
                        <| tst_size_bytes := pg_size_bytes p |>) <| tst_error := None |> |>
    <| tpl_updated_at := now |>.

Record tpl_ready (id : string) (t : TemplateData) (h : NodeHandle) (n : Node) (c : Ctl) : Prop := {
  tr_row : templates (db (ct_state c)) !! id = Some t;
  tr_registered : ct_registry c !! tsp_node_id (tpl_spec t) = Some h;
  tr_connected : ct_nodes c !! nh_channel h = Some n;
}.

(** The node has an import under way for the template. *)
Definition under_import (name : string) (job : JobMsg) (z : zfs_daemon) : Prop :=
  ∃ ts jobs, (d_list_templates z).1 = Ok ts ∧ List.find (λ '(n, _), n == name) ts = None ∧
    (d_list_import_jobs true z).1 = Ok jobs ∧
    newest_job (List.filter (λ j, jm_template_name j == name) jobs) = Some job.

Lemma drive_importing name url job z :
  under_import name job z → drive_template name url z = (Ok (job_to_progress job), z).
Proof.
  intros (ts & jobs & Ht & Hf & Hj & Hn). pose proof (list_templates_law z) as Et.
  pose proof (list_jobs_law true z) as Ej. unfold drive_template, calling, rpc_map_err, rpc_bind.
  rewrite Ht, Et. cbn. rewrite Hf, Hj, Ej. cbn. by rewrite Hn.
Qed.

Lemma receive_importing id t h n c job w e :
  tpl_ready id t h n c → under_import (tsp_name (tpl_spec t)) job (n_zfs n) →
  tst_phase (tpl_status t) ≠ TplReady → ct_events c = [e] →
  (∃ old new, e = TemplateUpdated id old new) → unused (f_request_id w.2) c →
  let t' := template_importing (job_to_progress job) (f_now w.2) t in
  let c' := ctl_step c (ActReceive (λ _, w)) in
  tpl_ready id t' h n c' ∧ ct_events c' = [TemplateUpdated id t t'] ∧
  ∀ r, unused r c → f_request_id w.2 ≠ r → unused r c'.
Proof.
  intros [Hr Hreg Hcon] Hi Hp He (old & new & ->) Hu. cbv zeta.
  assert (E : ctl_step c (ActReceive (λ _, w)) =
    submit w.1 (UpdateTemplateStatus (f_request_id w.2) id (f_now w.2) (pg_phase (job_to_progress job))
      (pg_bytes_written (job_to_progress job)) (pg_size_bytes (job_to_progress job)) None)
      (MkCtl (ct_state c) (ct_registry c) (<[nh_channel h := n]> (ct_nodes c)) [])).
  { unfold ctl_step. rewrite He. cbn [dispatch_event event_resource_id].
    unfold template_reconcile, get_template, read_get, registry_get.
    change (db (ct_state (c <| ct_events := [] |>))) with (db (ct_state c)). rewrite Hr.
    rewrite bool_decide_eq_false_2 by done.
    change (ct_registry (c <| ct_events := [] |>)) with (ct_registry c). rewrite Hreg.
    unfold on_node. change (ct_nodes (c <| ct_events := [] |>)) with (ct_nodes c). rewrite Hcon.
    rewrite (drive_importing _ _ job _ Hi). by destruct n. }
  rewrite E. split_and!.
  - unfold submit, api_apply. cbn [cmd_request_id run_command ct_state]. unfold unused in Hu. rewrite Hu.
    unfold apply_update_template_status, txn_get. rewrite Hr. split; cbn; [apply lookup_insert_eq|done|].
    apply lookup_insert_eq.
  - unfold submit, api_apply. cbn [cmd_request_id run_command ct_state]. unfold unused in Hu. rewrite Hu.
    unfold apply_update_template_status, txn_get. by rewrite Hr.
  - intros r Hur Hne. by apply unused_submit.
Qed.

(** While an image is imported, every progress written makes the controller ask for
    the progress again at once, without waiting for the resync: the queue does not
    drain. *)
Theorem importing_template_polled_without_pause ds w id t h n c job old new :
  tpl_ready id t h n c → under_import (tsp_name (tpl_spec t)) job (n_zfs n) →
  pg_phase (job_to_progress job) = TplImporting → tst_phase (tpl_status t) ≠ TplReady →
  ct_events c = [TemplateUpdated id old new] → fresh (ds ++ [w]) c →
  let c' := receives (ds ++ [w]) c in
  ct_events c' ≠ [] ∧ ∃ t', templates (db (ct_state c')) !! id = Some t' ∧
    tst_phase (tpl_status t') = TplImporting ∧ tpl_updated_at t' = f_now w.2.
Proof.
  intros Hr Hi Hj Hp He Hf. cbv zeta. revert c t old new Hr Hi Hp He Hf.
  induction ds as [|w' ds IH]; intros c t old new Hr Hi Hp He [Hnd Hu].
  - destruct (receive_importing id t h n c job w _ Hr Hi Hp He) as (Hr' & He' & _);
      [by eexists _, _|apply Hu; set_solver|].
    change (receives ([] ++ [w]) c) with (ctl_step c (ActReceive (λ _, w))). rewrite He'.
    split; [done|]. eexists. split_and!; [apply Hr'|done|done].
  - destruct (receive_importing id t h n c job w' _ Hr Hi Hp He) as (Hr' & He' & Hu');
      [by eexists _, _|apply Hu; set_solver|].
    change (receives ((w' :: ds) ++ [w]) c) with (receives (ds ++ [w]) (ctl_step c (ActReceive (λ _, w')))).
    eapply IH; [done|done| |done|].
    + change (pg_phase (job_to_progress job) ≠ TplReady). by rewrite Hj.
    + cbn in Hnd. apply list.NoDup_cons in Hnd as [Hw Hnd]. split; [done|]. intros w0 Hw0. apply Hu'.
      * apply Hu. cbn. by right.
      * intros E. apply Hw. rewrite E. by apply (list_elem_of_fmap_2 (λ w, f_request_id w.2)).
Qed.

(** * Volumes *)

Definition volume_ready (path : string) (used : u64) (now : string) (v : VolumeData) : VolumeData :=
  v <| vol_status := ((((vol_status v) <| vot_phase := VolReady |>) <| vot_path := path |>)
                        <| vot_used_bytes := used |>) <| vot_error := None |> |>
    <| vol_updated_at := now |>.

(** A new volume whose node answers becomes ready with the path the node gave it. *)
Lemma volume_reconcile_ready w id v h n c path used z :
  volumes (db (ct_state c)) !! id = Some v → vot_phase (vol_status v) ≠ VolReady →
  vos_template_id (vol_spec v) = None → ct_registry c !! vos_node_id (vol_spec v) = Some h →
  ct_nodes c !! nh_channel h = Some n → unused (f_request_id w.2) c →
  drive_volume id (vos_name (vol_spec v)) None (vos_size_bytes (vol_spec v)) (n_zfs n) = (Ok (path, used), z) →
  let v' := volume_ready path used (f_now w.2) v in
  volume_reconcile w id c =
    MkCtl (mkApiState (txn_put volumes id v' (db (ct_state c)))
             (lru_put (f_request_id w.2) (RespVolume v') (applied_requests (ct_state c))))
      (ct_registry c) (<[nh_channel h := n <| n_zfs := z |>]> (ct_nodes c))
      (ct_events c ++ [VolumeStatusUpdated id v v']).
Proof.
  intros Hr Hp Ht Hreg Hcon Hu Hd. cbv zeta. unfold volume_reconcile, get_volume, read_get, registry_get.
  rewrite Hr, bool_decide_eq_false_2, Hreg, Ht by done. cbn [fmap option_fmap option_map].
  unfold on_node. rewrite Hcon, Hd. unfold submit, api_apply. cbn [cmd_request_id run_command ct_state].
  change (ct_state (c <| ct_nodes := <[nh_channel h := n <| n_zfs := z |>]> (ct_nodes c) |>)) with (ct_state c).
  unfold unused in Hu. rewrite Hu. unfold apply_update_volume_status, txn_get. by rewrite Hr.
Qed.

(** Two volumes of the same name on one node, of two projects say, end up ready with
    the same disk: the second is looked up by name and found. *)
Theorem same_name_volumes_share_disk w1 w2 id1 id2 v1 v2 h n c path used z :
  id1 ≠ id2 → volumes (db (ct_state c)) !! id1 = Some v1 → volumes (db (ct_state c)) !! id2 = Some v2 →
  vos_name (vol_spec v1) = vos_name (vol_spec v2) → vos_node_id (vol_spec v1) = vos_node_id (vol_spec v2) →
  vos_template_id (vol_spec v1) = None → vos_template_id (vol_spec v2) = None →
  vot_phase (vol_status v1) ≠ VolReady → vot_phase (vol_status v2) ≠ VolReady →
  ct_registry c !! vos_node_id (vol_spec v1) = Some h → ct_nodes c !! nh_channel h = Some n →
  volume_view (n_zfs n) (vos_name (vol_spec v1)) = None →
  d_create_volume id1 (vos_name (vol_spec v1)) (vos_size_bytes (vol_spec v1)) (n_zfs n) = (Ok (path, used), z) →
  unused (f_request_id w1.2) c → unused (f_request_id w2.2) c → f_request_id w1.2 ≠ f_request_id w2.2 →
  let c' := volume_reconcile w2 id2 (volume_reconcile w1 id1 c) in
  ∃ v1' v2', volumes (db (ct_state c')) !! id1 = Some v1' ∧ volumes (db (ct_state c')) !! id2 = Some v2' ∧
    vol_spec v1' = vol_spec v1 ∧ vol_spec v2' = vol_spec v2 ∧
    vot_phase (vol_status v1') = VolReady ∧ vot_phase (vol_status v2') = VolReady ∧
    vot_path (vol_status v1') = path ∧ vot_path (vol_status v2') = path.
Proof.
  intros Hne H1 H2 Hname Hnode Ht1 Ht2 Hp1 Hp2 Hreg Hcon Hview Hc Hu1 Hu2 Hr. cbv zeta.
  assert (Hd1 : drive_volume id1 (vos_name (vol_spec v1)) None (vos_size_bytes (vol_spec v1)) (n_zfs n)
    = (Ok (path, used), z)).
  { pose proof (get_volume_law (vos_name (vol_spec v1)) (n_zfs n)) as Hg. rewrite Hview in Hg.
    destruct Hg as [m Hg]. unfold drive_volume, rpc_bind.
    rewrite (found_missing _ _ _ _ _ Hg). unfold calling, rpc_map_err. by rewrite Hc. }
  pose proof (create_volume_law _ _ _ _ _ _ _ Hview Hc) as Hz.
  assert (Hd2 : ∃ used', drive_volume id2 (vos_name (vol_spec v2)) None (vos_size_bytes (vol_spec v2)) z
    = (Ok (path, used'), z)).
  { rewrite Hname in Hz. pose proof (get_volume_law (vos_name (vol_spec v2)) z) as Hg. rewrite Hz in Hg.
    destruct Hg as [used' Hg]. exists used'. unfold drive_volume, found, rpc_bind. by rewrite Hg. }
  destruct Hd2 as [used' Hd2].
  rewrite (volume_reconcile_ready w1 id1 v1 h n c path used z) by done.
  set (c1 := MkCtl _ _ _ _).
  rewrite (volume_reconcile_ready w2 id2 v2 h (n <| n_zfs := z |>) c1 path used' z); cbn.
  - eexists _, _. rewrite lookup_insert_eq, lookup_insert_ne, lookup_insert_eq by done. by split_and!.
  - by rewrite lookup_insert_ne.
  - done.
  - done.
  - by rewrite <- Hnode.
  - apply lookup_insert_eq.
  - by apply unused_put.
  - done.
Qed.

End templates.

End facts.
