(* ===== verification/NodeDaemons.v ===== *)
(** The daemons of a node as the clients the controller calls: the VM daemon, the
    storage daemon and the network daemon discharge the interfaces of
    [Reconciler], so what is proved of the controller holds with them in place. *)

From S2P Require Import Rpc Vmm VmmFacts Zfs ZfsFacts NetAddr EbNet.
From S2P Require Import Prelude Tables Command Event Externals Ca Db.
From S2P Require Import ApplyCompute ApplyTenancy ApplyIdentity ApplyStorage.
From S2P Require Import Queries Scheduler State RaftStore Tunnel Reconciler ReconcilerFacts.
Local Open Scope rpc_scope.

(** Run a method of a daemon on its part of a larger state. *)
Definition serve {H S A B} (part : H → S) `{!Setter part} (f : A → B) (m : Rpc S A) : Rpc H B := λ h,
  let '(r, s) := m (part h) in
  (match r with Ok a => Ok (f a) | Err e => Err e end, h <| part := s |>).

(** * The VM daemon *)

(** The daemon, and what its next calls draw: the time, an id, and what becomes of
    the process it spawns. *)
Record VmmHost := MkVmmHost { vh_vmm : Vmm; vh_now : Z; vh_uuid : string; vh_spawn : Spawn }.
#[export] Instance eta_VmmHost : Eta VmmHost := λ r,
  MkVmmHost (vh_vmm r) (vh_now r) (vh_uuid r) (vh_spawn r).

Section vmm.
Context (constraint_error data_dir firmware : string).

Definition state_code (e : VmEntry) : Z := vm_state_code (ve_state e).

#[export] Instance vmm_client : VmClient := {
  vm_daemon := VmmHost;
  d_get_vm id := serve vh_vmm state_code (Vmm.get_vm id);
  d_create_vm req := λ h,
    serve vh_vmm state_code (Vmm.create_vm constraint_error (vh_now h) (vh_uuid h) req) h;
  d_start_vm id := λ h,
    serve vh_vmm (λ _, tt) (Vmm.start_vm data_dir firmware (vh_now h) (vh_spawn h) id) h;
  d_stop_vm id _ := λ h, serve vh_vmm (λ _, tt) (Vmm.stop_vm (vh_now h) id) h;
}.

Definition vmm_view (h : VmmHost) (id : string) : option VmmVmState :=
  (λ e, vmm_vm_state (state_code e)) <$> (Vmm.vms (vh_vmm h) !! id).

(** The daemon keeps its invariant, the next process starts and is new, and the VM,
    if it is known, has a configuration that boots. *)
Definition vmm_can_start (h : VmmHost) (id : string) : Prop :=
  vmm_ok (vh_vmm h) ∧
  (∃ pid, vh_spawn h = Spawned pid (Ok tt) ∧ pid_fresh pid (vh_vmm h)) ∧
  ∀ e, Vmm.vms (vh_vmm h) !! id = Some e → is_Some (boot_args data_dir firmware (ve_config e) id).

Lemma state_code_inv e st : vmm_vm_state (state_code e) = st →
  ve_state e = match st with
               | VmmUnspecified => VsUnspecified | VmmStopped => VsStopped | VmmStarting => VsStarting
               | VmmRunning => VsRunning | VmmStopping => VsStopping
               end.
Proof. intros <-. unfold state_code. by destruct (ve_state e). Qed.

Lemma set_state_frame now id st s id' :
  id' ≠ id → Vmm.vms (set_state now id st s) !! id' = Vmm.vms s !! id'.
Proof.
  intros Hne. destruct (Vmm.vms s !! id) as [e|] eqn:He.
  - destruct (update_state_vms now id st s e He) as (e' & -> & _). by rewrite lookup_insert_ne.
  - unfold set_state, update_state. by rewrite He.
Qed.

Lemma start_vm_frame now env id s id' :
  id' ≠ id → Vmm.vms (Vmm.start_vm data_dir firmware now env id s).2 !! id' = Vmm.vms s !! id'.
Proof.
  intros Hne. apply (wp_inv _ _ (λ s1, Vmm.vms s1 !! id' = Vmm.vms s !! id')).
  unfold Vmm.start_vm, start_begin, Vmm.get_vm. repeat (rpc_step; try done).
  assert (E : Vmm.vms (set_state now id VsStarting s) !! id' = Vmm.vms s !! id') by by apply set_state_frame.
  unfold rpc_wp, start_finish.
  assert (Hh : Vmm.vms (hypervisor_start data_dir firmware env id (ve_config a)
    (set_state now id VsStarting s)).2 = Vmm.vms (set_state now id VsStarting s)).
  { unfold hypervisor_start. destruct (boot_args _ _ _ _); [|done]. by destruct env as [| |? []]. }
  destruct (hypervisor_start _ _ _ _ _ _) as [[[]|err] s1]; cbn [snd] in Hh.
  - pose proof (set_state_frame now id VsRunning s1 id' Hne) as E2. unfold set_state in E2.
    destruct (update_state now id VsRunning s1) as [[e'|] s2]; cbn [snd] in E2; cbn; congruence.
  - cbn. rewrite set_state_frame by done. congruence.
Qed.

#[export] Instance vmm_client_laws : VmClientLaws (VC := vmm_client).
Proof.
  refine {| vm_view := vmm_view : vm_daemon (VmClient := vmm_client) → _;
            vm_can_start := vmm_can_start : vm_daemon (VmClient := vmm_client) → _ |}.
  - intros id h. unfold vmm_view. cbn [d_get_vm vmm_client]. unfold serve.
    destruct (get_vm_cases id (vh_vmm h)) as [(e & He & E)|(Hn & st & E)].
    + rewrite He. exists (state_code e). split; [|done]. rewrite E. by destruct h.
    + rewrite Hn. cbn. unfold Vmm.get_vm. rpc_unfold. rewrite Hn. exists (vm_not_found id). by destruct h.
  - intros id name config h Hv Hid Hb Hk. unfold vmm_view in Hv.
    destruct (Vmm.vms (vh_vmm h) !! id) as [?|] eqn:Hn; [done|].
    set (e := MkVmEntry id name VsStopped config (vh_now h) None false).
    set (s' := publish id VmEventCreated (Some e) ((vh_vmm h) <| Vmm.vms := <[id := e]> (Vmm.vms (vh_vmm h)) |>)).
    assert (E : Vmm.create_vm constraint_error (vh_now h) (vh_uuid h)
      (MkCreateVmRequest (Some id) name (Some config)) (vh_vmm h) = (Ok e, s')).
    { unfold Vmm.create_vm, create_internal. rpc_unfold. cbn [cv_config cv_id cv_name]. cbn beta iota.
      rewrite Hb. change (boot_mode 2) with BootKernel. cbn beta iota. rewrite Hk. cbn beta iota.
      destruct (str_is_empty id) eqn:Ee; [by destruct id|]. by rewrite Hn. }
    exists 1%Z, (h <| vh_vmm := s' |>). split_and!.
    + cbn. unfold serve. rewrite E. done.
    + done.
    + unfold vmm_view. cbn. by rewrite lookup_insert_eq.
    + intros (Hok & (pid & Hsp & Hpf) & _). split_and!.
      * cbn. apply ok_publish. by apply ok_insert_row.
      * by exists pid.
      * cbn. intros e'. rewrite lookup_insert_eq. intros [= <-]. cbn. unfold boot_args. rewrite Hb. cbn.
        destruct (vc_kernel config); [by eexists|done].
    + intros id' Hne. unfold vmm_view. cbn. by rewrite lookup_insert_ne.
  - intros id h Hv (Hok & (pid & Hsp & Hpf) & Hboot). unfold vmm_view in Hv.
    destruct (Vmm.vms (vh_vmm h) !! id) as [e|] eqn:He; [|done]. cbn in Hv. injection Hv as Hv%state_code_inv.
    pose proof (start_vm_stopped data_dir firmware (vh_now h) (vh_spawn h) id (vh_vmm h) e Hok He Hv) as Hst.
    rewrite Hsp in Hst. specialize (Hst (conj eq_refl Hpf)).
    pose proof (start_vm_frame (vh_now h) (vh_spawn h) id (vh_vmm h)) as Hfr. rewrite Hsp in Hfr.
    cbn [d_start_vm vmm_client]. unfold serve. rewrite Hsp.
    destruct (Vmm.start_vm data_dir firmware (vh_now h) (Spawned pid (Ok tt)) id (vh_vmm h)) as [r s'].
    destruct Hst as [_ Hst]. destruct (Hboot e eq_refl) as [args Eb]. rewrite Eb in Hst.
    destruct Hst as (e' & -> & He' & Hr & _). exists (h <| vh_vmm := s' |>). split_and!; [done| |].
    + unfold vmm_view. cbn. rewrite He'. cbn. unfold state_code. by rewrite Hr.
    + intros id' Hne. unfold vmm_view. cbn. by rewrite <- (Hfr id' Hne).
  - intros id t h Hv. unfold vmm_view in Hv.
    destruct (Vmm.vms (vh_vmm h) !! id) as [e|] eqn:He; [|done]. cbn in Hv. injection Hv as Hv%state_code_inv.
    destruct (update_state_vms (vh_now h) id VsStopping (vh_vmm h) e He) as (e' & V & S & _ & _ & E).
    exists (h <| vh_vmm := set_state (vh_now h) id VsStopping (vh_vmm h) |>). split_and!.
    + cbn [d_stop_vm vmm_client]. unfold serve, Vmm.stop_vm, Vmm.get_vm. rpc_unfold. rewrite He.
      cbn beta iota. rewrite Hv, bool_decide_eq_true_2 by done. cbn beta iota. by rewrite E.
    + unfold vmm_view. cbn. rewrite V, lookup_insert_eq. cbn. unfold state_code. by rewrite S.
    + intros id' Hne. unfold vmm_view. cbn. by rewrite set_state_frame.
Defined.

End vmm.

(** * The storage daemon *)

Section zfs.
Context `{ZP : Zpool} (pool_name constraint_error : string) (uuid_text : string → option string).

(** The daemon, and what its next calls draw: ids and times, the id of a job, and
    the local files. *)
Record ZfsHost := MkZfsHost {
  zh_zfs : Zfs; zh_fresh : ZfsFresh; zh_job : string; zh_files : string → result string (list u8) }.

#[global] Instance eta_ZfsHost : Eta ZfsHost := λ r,
  MkZfsHost (zh_zfs r) (zh_fresh r) (zh_job r) (zh_files r).

Definition volume_answer (v : VolumeMsg) : string * u64 := (vm_path v, vm_used_bytes v).
Definition job_answer (j : ImportJobEntry) : JobMsg :=
  MkJobMsg (je_template_name j) (job_state_code (je_state j)) (je_bytes_written j)
    (default 0%N (je_total_bytes j)) None (je_created_at j).

#[global] Instance zfs_client : ZfsClient := {
  zfs_daemon := ZfsHost;
  d_get_volume name := serve zh_zfs volume_answer (Zfs.get_volume pool_name name);
  d_create_volume id name size := λ h,
    serve zh_zfs volume_answer (Zfs.create_volume pool_name constraint_error (zh_fresh h) id name size) h;
  d_clone_from_template id template name size := λ h,
    serve zh_zfs volume_answer
      (Zfs.clone_from_template pool_name constraint_error uuid_text (zh_fresh h) id template name size) h;
  d_list_templates := λ h,
    (Ok ((λ t, (te_name t, te_size_bytes t)) <$> Zfs.list_templates (zh_zfs h)), h);
  d_list_import_jobs b := λ h, (Ok (job_answer <$> Zfs.list_import_jobs b (zh_zfs h)), h);
  d_import_template name source size := λ h,
    serve zh_zfs id (Zfs.import_template (zh_files h) (zf_now (zh_fresh h)) (zh_job h) name source size) h;
}.

(** The volume of a name, if its ZVOL is there. *)
Definition zfs_view (h : ZfsHost) (name : string) : option string :=
  match Zfs.get_volume_by_name name (zh_zfs h) with
  | Some e => match zfs_get_volume (volume_zfs_path pool_name (vl_id e)) (zh_zfs h) with
              | Some _ => Some (vl_device_path e)
              | None => None
              end
  | None => None
  end.

Lemma by_name_insert name e s :
  Zfs.get_volume_by_name name s = None → vl_name e = name →
  Zfs.get_volume_by_name name (s <| z_volumes := <[vl_id e := e]> (z_volumes s) |>) = Some e.
Proof.
  intros Hn He. unfold Zfs.get_volume_by_name in *. cbn.
  destruct (List.find _ (map_to_list (<[vl_id e := e]> (z_volumes s)))) as [[i e']|] eqn:E; cbn.
  - apply List.find_some in E as [Hi Hb%bool_decide_eq_true].
    apply list_elem_of_In, elem_of_map_to_list, lookup_insert_Some in Hi as [[_ ->]|[_ Hi]]; [done|].
    destruct (List.find _ (map_to_list (z_volumes s))) as [|] eqn:E'; [done|exfalso].
    apply elem_of_map_to_list, list_elem_of_In, (List.find_none _ _ E') in Hi. cbn in Hi.
    by rewrite bool_decide_eq_true_2 in Hi.
  - exfalso. assert (Hi : List.In (vl_id e, e) (map_to_list (<[vl_id e := e]> (z_volumes s)))).
    { apply list_elem_of_In, elem_of_map_to_list, lookup_insert_eq. }
    apply (List.find_none _ _ E) in Hi. cbn in Hi. by rewrite bool_decide_eq_true_2 in Hi.
Qed.

Lemma create_volume_found f id name size s :
  rpc_wp (Zfs.create_volume pool_name constraint_error f id name size) s
    (λ msg s', ∃ e i, Zfs.get_volume_by_name name s' = Some e ∧ vl_device_path e = vm_path msg ∧
       zfs_get_volume (volume_zfs_path pool_name (vl_id e)) s' = Some i) (λ _, True).
Proof.
  unfold Zfs.create_volume, wait_for_device, store_create_volume.
  repeat lazymatch goal with
  | |- rpc_wp (zfs_cmd _) _ _ _ => apply wp_cmd; [done|intros p Hp]
  | |- rpc_wp (read_volume _) _ _ _ => apply wp_read; [done|intros d i Hd Hi]
  | |- _ => rpc_step; try done
  end.
  set (e := MkVolumeEntry (zf_uuid f) name _ _ _ _ _ _). exists e, (ds_volsize d, ds_used p (vl_zfs_path e)).
  split_and!.
  - apply (by_name_insert name e (s <| z_pool := p |>)); [|done].
    unfold is_none in *. change (Zfs.get_volume_by_name name (s <| z_pool := p |>)) with (Zfs.get_volume_by_name name s).
    by destruct (Zfs.get_volume_by_name name s).
  - done.
  - unfold zfs_get_volume. cbn in Hd |- *. by rewrite Hd.
Qed.

#[global] Instance zfs_client_laws : ZfsClientLaws (ZC := zfs_client).
Proof.
  refine {| volume_view := zfs_view : zfs_daemon (ZfsClient := zfs_client) → _ |}.
  - intros name h. unfold zfs_view. cbn [d_get_volume zfs_client]. unfold serve, Zfs.get_volume, the_volume.
    rpc_unfold. destruct (Zfs.get_volume_by_name name (zh_zfs h)) as [e|]; cbn beta iota.
    + destruct (zfs_get_volume _ _) as [[sz used]|]; cbn beta iota.
      * exists used. by destruct h.
      * eexists. by destruct h.
    + eexists. by destruct h.
  - intros id name size h path used h' _. cbn [d_create_volume zfs_client]. unfold serve.
    pose proof (create_volume_found (zh_fresh h) id name size (zh_zfs h)) as Hc. unfold rpc_wp in Hc.
    destruct (Zfs.create_volume _ _ _ _ _ _ _) as [[msg|st] s']; [|done].
    destruct Hc as (e & i & He & Hp & Hi). intros [= <- <- <-]. unfold zfs_view. cbn. by rewrite He, Hi, Hp.
  - done.
  - done.
Defined.

End zfs.

(** * The network daemon *)

Section net.
Context {nets4 : IpNets 32} {nets6 : IpNets 128} {text : AddrText} {unicode : UnicodeText}.
Context {hostk : HostKernel}.
(** The text of an error. *)
Context (status_text : EbNet.Status → string).

(** The daemon, and what its next calls draw: ids and times, and which calls to the
    host succeed. *)
Record NetHost := MkNetHost {
  nt_state : EbState; nt_fresh : EbFresh; nt_nat : bool * bool; nt_env : SetupEnv }.
#[global] Instance eta_NetHost : Eta NetHost := λ r,
  MkNetHost (nt_state r) (nt_fresh r) (nt_nat r) (nt_env r).

Definition net_status (e : EbNet.Status) : RpcStatus := MkRpcStatus (st_code e) (status_text e).
(** [socket_path] of [nic_data_to_proto]. *)
Definition socket_path (n : EbNic) : string := "tap:" +:+ ec_tap_name n.

Definition net_reply {A B} (f : A → B) (h : NetHost) (reply : Reply A) : result RpcStatus B * NetHost :=
  let '(r, st, _) := reply in
  (match r with Ok a => Ok (f a) | Err e => Err (net_status e) end, h <| nt_state := st |>).

#[global] Instance net_client : NetClient := {
  net_daemon := NetHost;
  d_get_network id := λ h,
    (match resolve_network id "" (es_db (nt_state h)) with Ok _ => Ok tt | Err e => Err (net_status e) end, h);
  d_create_network req := λ h,
    net_reply (λ _, tt) h (EbNet.create_network (nt_fresh h) (nt_nat h) req (nt_state h));
  d_get_nic id := λ h,
    (match resolve_nic id (es_db (nt_state h)) with
     | Ok n => Ok (socket_path n)
     | Err e => Err (net_status e)
     end, h);
  d_create_nic req := λ h,
    net_reply socket_path h (EbNet.create_nic (nt_fresh h) (nt_env h) req (nt_state h));
}.


End net.

(** * Reports that do not arrive *)

Section reports.
Context (constraint_error data_dir firmware : string).
Context `{R : Redb} `{L : LruCache} `{U : UnicodeText} `{X : X509}.

Lemma cleanup_rows id s : published (cleanup id s) = published s ∧ Vmm.vms (cleanup id s) = Vmm.vms s.
Proof.
  unfold cleanup, drop_child, reap. cbv zeta. destruct (Vmm.processes s !! id); [|done].
  destruct (procs s !! _) as [p|]; [|done]. by destruct (pr_exited p).
Qed.

(** Killing a VM tells no subscriber. *)
Lemma kill_silent now id s e :
  Vmm.vms s !! id = Some e → ve_state e = VsRunning →
  let s' := kill_task now id (kill_vm now id s).2 in
  published s' = published s ∧ (ve_state <$> (Vmm.vms s' !! id)) = Some VsStopped.
Proof.
  intros He Hr. cbv zeta.
  destruct (update_state_vms now id VsStopping s e He) as (e1 & V1 & S1 & _ & _ & U1).
  assert (E : (kill_vm now id s).2 = set_state now id VsStopping s).
  { unfold kill_vm, Vmm.get_vm. rpc_unfold. rewrite He. cbn beta iota.
    rewrite Hr, (bool_decide_eq_true_2 (VsRunning = VsRunning)), (bool_decide_eq_false_2 (VsRunning = VsStopping))
      by done. cbn beta iota delta [orb]. by rewrite U1. }
  rewrite E. set (s1 := set_state now id VsStopping s) in *.
  assert (P1 : published s1 = published s) by apply set_state_fields.
  unfold kill_task, hypervisor_kill.
  set (s2 := match Vmm.processes s1 !! id with Some pid => _ | None => _ end).
  assert (P2 : published s2 = published s1 ∧ Vmm.vms s2 = Vmm.vms s1).
  { subst s2. destruct (Vmm.processes s1 !! id); [done|]. by destruct (runtimes s1 !! id). }
  destruct P2 as [P2 V2].
  destruct (cleanup_rows id (set_state now id VsStopped s2)) as [P3 V3].
  assert (He2 : Vmm.vms s2 !! id = Some e1) by (by rewrite V2, V1, lookup_insert_eq).
  destruct (update_state_vms now id VsStopped s2 e1 He2) as (e3 & V4 & _ & _ & _ & _).
  assert (He3 : Vmm.vms (cleanup id (set_state now id VsStopped s2)) !! id = Some e3)
    by (by rewrite V3, V4, lookup_insert_eq).
  destruct (update_state_vms now id VsStopped _ e3 He3) as (e4 & V5 & S5 & _ & _ & _).
  destruct (set_state_fields now id VsStopped (cleanup id (set_state now id VsStopped s2))) as (_ & _ & _ & ->).
  split.
  - rewrite P3. destruct (set_state_fields now id VsStopped s2) as (_ & _ & _ & ->). congruence.
  - rewrite V5, lookup_insert_eq. cbn. by rewrite S5.
Qed.

Section killed.
Context `{ZC : ZfsClient} `{NC : NetClient}.
#[local] Existing Instance vmm_client.
Context (xs : list (Happening (VC := vmm_client constraint_error data_dir firmware))).

(** A VM killed on its node is stopped there, no event says so, and the control plane
    goes on recording it as running, whatever else happens and however often it
    resyncs. *)
Theorem killed_vm_recorded_running now id e s vm (c : Ctl (VC := vmm_client constraint_error data_dir firmware)) :
  Vmm.vms s !! id = Some e → ve_state e = VsRunning →
  vms (db (ct_state c)) !! id = Some vm → vst_phase (vm_status vm) = VmRunning →
  vsp_desired_state (vm_spec vm) = DesiredRunning →
  let s' := kill_task now id (kill_vm now id s).2 in
  (ve_state <$> (Vmm.vms s' !! id)) = Some VsStopped ∧ published s' = published s ∧
  vms (db (ct_state (foldl happen c xs))) !! id = Some vm.
Proof.
  intros He Hr Hv Hp Hd. cbv zeta. destruct (kill_silent now id s e He Hr) as [H1 H2].
  split_and!; [done|done|]. by apply running_vm_not_rechecked.
Qed.

(** A VM that its daemon holds as starting, as one that was starting when the daemon
    was restarted is for good, cannot be stopped: the daemon refuses, the VM is
    marked failed, and it stays so. *)
Theorem stop_while_starting_fails id node_id vm h n disk nic
    (c : Ctl (VC := vmm_client constraint_error data_dir firmware)) ev w entry :
  ct_events c = [ev] → vm_event id ev → vm_ready id node_id vm h n disk nic c →
  unused (f_request_id w.2) c → target_running vm = false →
  vst_phase (vm_status vm) ≠ VmStopped → vst_phase (vm_status vm) ≠ VmFailed →
  Vmm.vms (vh_vmm (n_vmm n)) !! id = Some entry → ve_state entry = VsStarting →
  let c' := foldl happen (ctl_step c (ActReceive (λ _, w))) xs in
  ∃ vm', vms (db (ct_state c')) !! id = Some vm' ∧ vst_phase (vm_status vm') = VmFailed ∧
    vst_message (vm_status vm') = Some "stop_vm: VM is not running".
Proof.
  intros He Hv Hr Hu Ht Hp1 Hp2 Hrow Hst. cbv zeta.
  pose proof (rd_id _ _ _ _ _ _ _ _ Hr) as Hi.
  assert (Hview : vm_view (n_vmm n) id = Some VmmStarting).
  { change (vmm_view (n_vmm n) id = Some VmmStarting). unfold vmm_view. rewrite Hrow. cbn.
    unfold state_code. by rewrite Hst. }
  destruct (drive_present vm disk nic false (n_vmm n) VmmStarting) as (_ & _ & Hd); [by rewrite Hi|].
  assert (Hd' : ∃ d, drive_vm vm disk nic (target_running vm) (n_vmm n) = (Err "stop_vm: VM is not running", d)).
  { rewrite Ht, Hd, Hi. unfold rpc_bind at 1, calling, rpc_map_err. cbn [d_stop_vm vmm_client].
    unfold serve, Vmm.stop_vm, Vmm.get_vm. rpc_unfold. rewrite Hrow. cbn beta iota.
    rewrite Hst, bool_decide_eq_false_2 by done. cbn beta iota. by eexists. }
  destruct Hd' as [d Hd'].
  destruct (receive_ready id node_id vm h n disk nic c ev (λ _, w) (Err "stop_vm: VM is not running") d He Hv Hr Hu)
    as (-> & Hr' & _).
  - rewrite Ht. by destruct (vst_phase (vm_status vm)).
  - exact Hd'.
  - exists (with_status (vm_status_after node_id vm (Err "stop_vm: VM is not running")) (f_now w.2) vm).
    split_and!; [|done|done]. apply (arrived_run xs). split; [apply Hr'|].
    rewrite at_target_written. by destruct (target_running vm).
Qed.

End killed.

(** ** Volumes *)

Section volumes.
Context `{ZP : Zpool} (pool_name : string).

(** A volume the control plane asked for under its own id is stored and published
    under another one, and the control plane drops such a report. *)
Theorem created_volume_report_lost f id name size s msg s' amb fr node_id (st : ApiState) :
  Zfs.create_volume pool_name constraint_error f id name size s = (Ok msg, s') →
  zf_uuid f ≠ id → volumes (db st) !! zf_uuid f = None →
  lru_peek (applied_requests st) (f_request_id fr) = None →
  z_events s' = z_events s ++ [(zf_uuid f, Some msg)] ∧ Zfs.vm_id msg = zf_uuid f ∧
  z_volumes s' !! id = z_volumes s !! id ∧
  handle_node_event amb fr (EvVolumeState (zf_uuid f) (Some (vm_path msg, vm_used_bytes msg))) node_id st = st.
Proof.
  intros Hc Hne Hrow Hpeek.
  assert (Hw : rpc_wp (Zfs.create_volume pool_name constraint_error f id name size) s (λ msg s',
    z_events s' = z_events s ++ [(zf_uuid f, Some msg)] ∧ Zfs.vm_id msg = zf_uuid f ∧
    z_volumes s' !! id = z_volumes s !! id) (λ _, True)).
  { unfold Zfs.create_volume, wait_for_device, store_create_volume.
    repeat lazymatch goal with
    | |- rpc_wp (zfs_cmd _) _ _ _ => apply wp_cmd; [done|intros p Hp]
    | |- rpc_wp (read_volume _) _ _ _ => apply wp_read; [done|intros d i Hd Hi]
    | |- _ => rpc_step; try done
    end.
    split_and!; [done|done|]. cbn. by rewrite lookup_insert_ne. }
  unfold rpc_wp in Hw. rewrite Hc in Hw. destruct Hw as (H1 & H2 & H3). split_and!; [done|done|done|].
  unfold handle_node_event, volume_event_status, run_op, write_command, api_apply, update_volume_status.
  cbn [op_cmd cmd_request_id run_command]. rewrite Hpeek. unfold apply_update_volume_status, txn_get.
  by rewrite Hrow.
Qed.

End volumes.

End reports.
