(* ===== verification/NodeExamples.v ===== *)
(** A small cluster: one node with its three daemons, connected to a control plane
    with a VM, its disk and its NIC. The theorems on the controller are instantiated
    at it. *)

From S2P Require Import Rpc Vmm VmmFacts Zfs ZfsFacts NetAddr EbNet EbNetFacts.
From S2P Require Import Prelude Tables Command Event Externals Ca Db.
From S2P Require Import ApplyCompute ApplyTenancy ApplyIdentity ApplyStorage.
From S2P Require Import Queries Scheduler State RaftStore Examples Tunnel.
From S2P Require Import Reconciler ReconcilerFacts NodeDaemons.

Import PoolModel NetModels HostModel.

(** ** The control plane *)

Definition nx_volume (req id project : string) : Command :=
  CreateVolume req id ex_now project "node1" "data" 10 None.
Definition nx_running : VmStatus := mkVmStatus VmRunning (Some "node1") None None.
Definition nx_pending : VmStatus := mkVmStatus VmPending (Some "node1") None None.
Definition nx_stopping : VmStatus := mkVmStatus VmStopping (Some "node1") None None.

(** Disk and NIC are ready, the VM is placed. *)
Definition nx_ready : list Command :=
  ex_base ++
  [nx_volume "r-vol" "vol1" "web";
   UpdateVolumeStatus "r-vs" "vol1" ex_now VolReady (Some "/dev/zvol/tank/volumes/x") 0 None;
   UpdateNicStatus "r-ns" "nic1" ex_now NicActive "tap:tap_nic1" None;
   UpdateVmStatus "r-place" "vm1" ex_now nx_pending].
Definition nx_state (more : list Command) : ApiState := ex_run (nx_ready ++ more).

Definition nx_handle : NodeHandle := mkNodeHandle "node1" "host1" "eu1" "10.0.0.1" 7.
Definition nx_draw (i : nat) : Draw := (ex_amb, mkFresh ("q" +:+ pretty i) "" "" ("t" +:+ pretty i)).

(** ** The node *)

#[export] Instance nx_vmm : VmClient := vmm_client "UNIQUE" "/var/lib/mvirt" "/fw".
#[export] Instance nx_vmm_laws : VmClientLaws := vmm_client_laws "UNIQUE" "/var/lib/mvirt" "/fw".
#[export] Instance nx_zfs : ZfsClient := zfs_client "tank" "UNIQUE" Some.
#[export] Instance nx_zfs_laws : ZfsClientLaws := zfs_client_laws "tank" "UNIQUE" Some.
#[export] Instance nx_net : NetClient := net_client (λ _, "error").

Definition nx_vmm_host (s : Vmm) : VmmHost := MkVmmHost s 0 "u1" (Spawned 41 (Ok tt)).
Definition nx_zfs_host (s : Zfs) : ZfsHost :=
  MkZfsHost s (MkZfsFresh "z1" "z2" "now" true) "j1" (λ _, Err "no such file").
Definition nx_net_host (s : EbState) : NetHost := MkNetHost s (EbNetFacts.ex_fresh 5) (true, true) EbNetFacts.ex_env.
Definition nx_node (v : Vmm) (z : Zfs) (e : EbState) : Node :=
  MkNode (nx_vmm_host v : vm_daemon) (nx_zfs_host z : zfs_daemon) (nx_net_host e : net_daemon).
Definition nx_plain (v : Vmm) : Node := nx_node v ZfsExamples.ex_zfs EbNetFacts.ex_empty.

Definition nx_ctl (st : ApiState) (n : Node) (events : list Event) : Ctl :=
  MkCtl st {[ "node1" := nx_handle ]} {[ 7%nat := n ]} events.

Definition nx_config : VmConfig :=
  vm_config (ex_vm_spec "a" "nic1") "/dev/zvol/tank/volumes/x" (Some ("tap:tap_nic1", "02:00:00:00:00:01")).
Definition nx_entry (st : VmState) : VmEntry := MkVmEntry "vm1" (Some "a") st nx_config 0 None false.
Definition nx_vms (st : VmState) : Vmm := MkVmm {[ "vm1" := nx_entry st ]} ∅ ∅ ∅ [].

(** The row of the VM, as the tables have it. *)
Definition nx_vm (status : VmStatus) (desired : VmDesiredState) (updated : string) : VmData :=
  mkVmData "vm1" ((ex_vm_spec "a" "nic1") <| vsp_desired_state := desired |>) status ex_now updated.

Definition nx_nic1 : option (string * string) := Some ("tap:tap_nic1", generate_mac_from_id "nic1").

Lemma nx_vm_ready more vm n events :
  vms (db (nx_state more)) !! "vm1" = Some vm → vm_id vm = "vm1" → vst_node_id (vm_status vm) = Some "node1" →
  boot_disk (db (nx_state more)) vm = Some "/dev/zvol/tank/volumes/x" →
  nic_attachment (db (nx_state more)) vm = Some nx_nic1 →
  vm_ready "vm1" "node1" vm nx_handle n "/dev/zvol/tank/volumes/x" nx_nic1 (nx_ctl (nx_state more) n events).
Proof. intros. split; try done; cbn; apply lookup_singleton_eq. Qed.

Definition nx_event : Event := VmDeleted "vm1".

Lemma vm_reaches_running_witness :
  let c := nx_ctl (nx_state []) (nx_plain vmm_empty) [nx_event] in
  let c' := foldl ctl_step c [ActReceive (λ _, nx_draw 1); ActReceive (λ _, nx_draw 2); ActReceive (λ _, nx_draw 3)] in
  ct_events c' = [] ∧
  ∃ vm' n', vms (db (ct_state c')) !! "vm1" = Some vm' ∧ vm_spec vm' = ex_vm_spec "a" "nic1" ∧
    vst_phase (vm_status vm') = VmRunning ∧ ct_nodes c' !! 7%nat = Some n' ∧
    vm_view (n_vmm n') "vm1" = Some VmmRunning.
Proof.
  apply (vm_reaches_running "vm1" "node1" (nx_vm nx_pending DesiredRunning ex_now) nx_handle
    (nx_plain vmm_empty) "/dev/zvol/tank/volumes/x" nx_nic1 _ nx_event);
    [apply nx_vm_ready; vm_refl|done|done|done|done|done|done|done| |by left|unfold unused; vm_refl|unfold unused; vm_refl|done].
  split_and!; [split; intros *; done|by exists 41%N|done].
Defined.

(** The request ids of a concrete list of draws are new and differ. *)
Ltac nx_fresh :=
  split; [apply (bool_decide_eq_true_1 (NoDup _)); vm_refl|];
  let w := fresh "w" in let Hw := fresh "Hw" in intros w Hw; unfold unused;
  repeat (apply elem_of_cons in Hw as [->|Hw]; [vm_refl|]); by apply elem_of_nil in Hw.

(** ** A VM that is stopped *)

Definition nx_stop (status : VmStatus) : list Command :=
  [UpdateVmStatus "r-status" "vm1" ex_now status; UpdateVmSpec "r-stop" "vm1" ex_now DesiredStopped].
Definition nx_stop_ctl (status : VmStatus) (v : Vmm) : Ctl :=
  nx_ctl (nx_state (nx_stop status)) (nx_plain v) [nx_event].
Definition nx_draws : list Draw := [nx_draw 2; nx_draw 3].

Lemma nx_stop_ready status v :
  status ∈ [nx_running; nx_stopping; nx_pending] →
  vm_ready "vm1" "node1" (nx_vm status DesiredStopped ex_now) nx_handle (nx_plain v) "/dev/zvol/tank/volumes/x"
    nx_nic1 (nx_stop_ctl status v).
Proof.
  intros Hs. unfold nx_stop_ctl. apply nx_vm_ready; try done;
    repeat (apply elem_of_cons in Hs as [->|Hs]; [vm_refl|]); by apply elem_of_nil in Hs.
Qed.

Lemma vm_reaches_stopped_witness :
  let c1 := receives (nx_draw 1 :: nx_draws) (nx_stop_ctl nx_running (nx_vms VsRunning)) in
  let c' := receives [nx_draw 4; nx_draw 5] (node_acts nx_handle (nx_vmm_host (nx_vms VsStopped)) c1) in
  (∃ n1, ct_nodes c1 !! 7%nat = Some n1 ∧ vm_view (n_vmm n1) "vm1" = Some VmmStopping) ∧
  ct_events c' = [] ∧
  ∃ vm', vms (db (ct_state c')) !! "vm1" = Some vm' ∧
    vm_spec vm' = vm_spec (nx_vm nx_running DesiredStopped ex_now) ∧ vst_phase (vm_status vm') = VmStopped.
Proof.
  apply (vm_reaches_stopped nx_draws (nx_draw 1) (nx_draw 4) (nx_draw 5) "vm1" "node1"
    (nx_vm nx_running DesiredStopped ex_now) nx_handle (nx_plain (nx_vms VsRunning)) "/dev/zvol/tank/volumes/x"
    nx_nic1 _ nx_event); [done|done|apply nx_stop_ready; by left|nx_fresh|done|done|done|vm_refl|vm_refl].
Defined.

Lemma stopping_vm_polled_without_pause_witness :
  let c' := receives ([nx_draw 1; nx_draw 2; nx_draw 3] ++ [nx_draw 4]) (nx_stop_ctl nx_stopping (nx_vms VsStopping)) in
  ct_events c' ≠ [] ∧ ∃ vm', vms (db (ct_state c')) !! "vm1" = Some vm' ∧
    vst_phase (vm_status vm') = VmStopping ∧ vm_updated_at vm' = "t4".
Proof.
  apply (stopping_vm_polled_without_pause [nx_draw 1; nx_draw 2; nx_draw 3] (nx_draw 4) "vm1" "node1"
    (nx_vm nx_stopping DesiredStopped ex_now) nx_handle (nx_plain (nx_vms VsStopping)) "/dev/zvol/tank/volumes/x"
    nx_nic1 _ nx_event); [done|done|apply nx_stop_ready; by right; left|nx_fresh|done|vm_refl].
Defined.

Lemma stop_while_starting_fails_witness :
  let c' := foldl happen (ctl_step (nx_stop_ctl nx_pending (nx_vms VsStarting)) (ActReceive (λ _, nx_draw 1)))
    [ByController (ActResync (λ _ _, nx_draw 2)); ByController (ActReceive (λ _, nx_draw 3))] in
  ∃ vm', vms (db (ct_state c')) !! "vm1" = Some vm' ∧ vst_phase (vm_status vm') = VmFailed ∧
    vst_message (vm_status vm') = Some "stop_vm: VM is not running".
Proof.
  apply (stop_while_starting_fails "UNIQUE" "/var/lib/mvirt" "/fw"
    [ByController (ActResync (λ _ _, nx_draw 2)); ByController (ActReceive (λ _, nx_draw 3))] "vm1" "node1"
    (nx_vm nx_pending DesiredStopped ex_now) nx_handle (nx_plain (nx_vms VsStarting)) "/dev/zvol/tank/volumes/x"
    nx_nic1 _ nx_event (nx_draw 1) (nx_entry VsStarting));
    [done|done|apply nx_stop_ready; by right; right; left|unfold unused; vm_refl|done|done|done|vm_refl|done].
Defined.

(** ** A NIC, a template and two volumes on their way *)

Definition nx_net_id : string := uuid_string 1.
Definition nx_nic_id : string := uuid_string 2.
Definition nx_bare : ApiState := ex_run
  [ex_org; ex_project; ex_cluster; ex_sg;
   CreateNetwork "r-net" nx_net_id ex_now "web" "lan" true (Some "10.0.0.0/24") false None [] [] false;
   CreateNic "r-nic" nx_nic_id ex_now "web" nx_net_id None None None None [] [] (Some "sg1");
   CreateVm "r-vm" "vm1" ex_now (ex_vm_spec "a" nx_nic_id)].
Definition nx_network : NetworkData :=
  mkNetworkData nx_net_id "web" "lan" true (Some "10.0.0.0/24") false None [] [] false 1 ex_now ex_now.
Definition nx_nic : NicData :=
  mkNicData nx_nic_id
    (mkNicSpec "web" None nx_net_id "52:54:00:72:ec:02" None None [] [] (Some "sg1") (Some "vm1"))
    (mkNicStatus NicPending "" None) ex_now ex_now.
Definition nx_waiting : VmData :=
  mkVmData "vm1" (ex_vm_spec "a" nx_nic_id) (mkVmStatus VmPending None None None) ex_now ex_now.
Definition nx_nic_ctl : Ctl := nx_ctl nx_bare (nx_plain vmm_empty) [NicCreated nx_nic].
Definition nx_nic_made : NetHost := (ensure_nic nx_network nx_nic_id nx_nic (nx_net_host EbNetFacts.ex_empty)).2.
Definition nx_tap : string := "tap:tap_2000000".

Lemma nic_ready_wakes_nobody_witness :
  let c' := foldl ctl_step nx_nic_ctl [ActReceive (λ _, nx_draw 1); ActReceive (λ _, nx_draw 2)] in
  nic_attachment (db (ct_state nx_nic_ctl)) nx_waiting = None ∧
  nic_attachment (db (ct_state c')) nx_waiting = Some (Some (nx_tap, "52:54:00:72:ec:02")) ∧
  ct_events c' = [] ∧ vms (db (ct_state c')) !! "vm1" = Some nx_waiting.
Proof.
  assert (E : (ensure_nic nx_network nx_nic_id nx_nic (nx_net_host EbNetFacts.ex_empty)).1 = Ok nx_tap) by vm_refl.
  apply (nic_ready_wakes_nobody _ _ nx_nic nx_network nx_handle (nx_plain vmm_empty) nx_nic_made);
    [done|vm_refl|done|vm_refl|vm_refl|apply lookup_singleton_eq| |done|unfold unused; vm_refl|vm_refl|done|done].
  rewrite <- E. apply surjective_pairing.
Defined.


Definition nx_tpl_state : ApiState :=
  ex_run [ex_org; ex_project; CreateTemplate "r-t" "t1" ex_now "web" "node1" "base" 10 (Some "http://img") 0].
Definition nx_tpl : TemplateData :=
  mkTemplateData "t1" (mkTemplateSpec "web" "node1" "base" (Some "http://img"))
    (mkTemplateStatus TplPending 10 0 0 0 None) ex_now ex_now.
Definition nx_job : JobMsg := MkJobMsg "base" 1 0 0 None "now".

Lemma importing_template_polled_without_pause_witness :
  let c := nx_ctl nx_tpl_state (nx_node vmm_empty ZfsExamples.ex_started EbNetFacts.ex_empty)
             [TemplateUpdated "t1" nx_tpl nx_tpl] in
  let c' := receives ([nx_draw 1; nx_draw 2] ++ [nx_draw 3]) c in
  ct_events c' ≠ [] ∧ ∃ t', templates (db (ct_state c')) !! "t1" = Some t' ∧
    tst_phase (tpl_status t') = TplImporting ∧ tpl_updated_at t' = "t3".
Proof.
  apply (importing_template_polled_without_pause [nx_draw 1; nx_draw 2] (nx_draw 3) "t1" nx_tpl nx_handle
    (nx_node vmm_empty ZfsExamples.ex_started EbNetFacts.ex_empty) _ nx_job nx_tpl nx_tpl).
  - split; [vm_refl|apply lookup_singleton_eq|apply lookup_singleton_eq].
  - exists [], [nx_job]. by split_and!; vm_refl.
  - done.
  - done.
  - done.
  - nx_fresh.
Defined.

Definition nx_vol_state : ApiState :=
  ex_run [ex_org; ex_project; CreateProject "r-proj2" ex_now "acme" "db" "Db" None;
    nx_volume "r-v1" "vol1" "web"; nx_volume "r-v2" "vol2" "db"].
Definition nx_vol (id project : string) : VolumeData :=
  mkVolumeData id (mkVolumeSpec project "node1" "data" 10 None)
    (mkVolumeStatus VolPending "" 0 4607182418800017408 [] None) ex_now ex_now.
Definition nx_created : result RpcStatus (string * u64) * ZfsHost :=
  d_create_volume "vol1" "data" 10 (nx_zfs_host ZfsExamples.ex_zfs).
Definition nx_path : string := "/dev/zvol/tank/volumes/z1".

Lemma same_name_volumes_share_disk_witness :
  let c' := volume_reconcile (nx_draw 2) "vol2" (volume_reconcile (nx_draw 1) "vol1"
              (nx_ctl nx_vol_state (nx_plain vmm_empty) [])) in
  ∃ v1' v2', volumes (db (ct_state c')) !! "vol1" = Some v1' ∧ volumes (db (ct_state c')) !! "vol2" = Some v2' ∧
    vol_spec v1' = vol_spec (nx_vol "vol1" "web") ∧ vol_spec v2' = vol_spec (nx_vol "vol2" "db") ∧
    vot_phase (vol_status v1') = VolReady ∧ vot_phase (vol_status v2') = VolReady ∧
    vot_path (vol_status v1') = nx_path ∧ vot_path (vol_status v2') = nx_path.
Proof.
  assert (E : nx_created.1 = Ok (nx_path, 0%N)) by vm_refl.
  apply (same_name_volumes_share_disk _ _ "vol1" "vol2" (nx_vol "vol1" "web") (nx_vol "vol2" "db") nx_handle
    (nx_plain vmm_empty) _ nx_path 0 nx_created.2);
    [done|vm_refl|vm_refl|done|done|done|done|done|done|apply lookup_singleton_eq|apply lookup_singleton_eq|vm_refl|
    |unfold unused; vm_refl|unfold unused; vm_refl|done].
  rewrite <- E. apply surjective_pairing.
Defined.

(** ** Reports that do not arrive *)

Lemma killed_vm_recorded_running_witness :
  let s' := kill_task 1 "vm1" (kill_vm 1 "vm1" (nx_vms VsRunning)).2 in
  (ve_state <$> (Vmm.vms s' !! "vm1")) = Some VsStopped ∧ published s' = [] ∧
  vms (db (ct_state (foldl happen
    (nx_ctl (nx_state [UpdateVmStatus "r-run" "vm1" ex_now nx_running]) (nx_plain (nx_vms VsRunning)) [])
    [ByNode 7 (nx_plain s'); ByController (ActResync (λ _ _, nx_draw 2))]))) !! "vm1" =
  Some (nx_vm nx_running DesiredRunning ex_now).
Proof.
  apply (killed_vm_recorded_running "UNIQUE" "/var/lib/mvirt" "/fw"
    [ByNode 7 (nx_plain (kill_task 1 "vm1" (kill_vm 1 "vm1" (nx_vms VsRunning)).2));
     ByController (ActResync (λ _ _, nx_draw 2))] 1 "vm1" (nx_entry VsRunning) (nx_vms VsRunning));
    [vm_refl|done|vm_refl|done|done].
Defined.

Definition nx_asked : result RpcStatus VolumeMsg * Zfs :=
  Zfs.create_volume "tank" "UNIQUE" (MkZfsFresh "z1" "z2" "now" true) "vol1" "data" 10 ZfsExamples.ex_zfs.
Definition nx_answer : VolumeMsg := MkVolumeMsg "z1" "data" nx_path 10 0.

Lemma created_volume_report_lost_witness :
  z_events nx_asked.2 = [("z1", Some nx_answer)] ∧ Zfs.vm_id nx_answer = "z1" ∧
  z_volumes nx_asked.2 !! "vol1" = None ∧
  handle_node_event ex_amb (nx_draw 1).2 (EvVolumeState "z1" (Some (nx_path, 0%N))) "node1" nx_vol_state = nx_vol_state.
Proof.
  assert (E : nx_asked.1 = Ok nx_answer) by vm_refl.
  apply (created_volume_report_lost "UNIQUE" "tank" (MkZfsFresh "z1" "z2" "now" true) "vol1" "data" 10
    ZfsExamples.ex_zfs nx_answer nx_asked.2); [rewrite <- E; apply surjective_pairing|done|vm_refl|vm_refl].
Defined.
