(* ===== verification/Isolation.v ===== *)
(** Tenant isolation of the state machine: a command that acts on a resource of one
    project leaves the rows of every other project as they are, up to the counters and
    the attachments the tables keep on both sides of a reference. *)

From S2P Require Import Prelude Command Event Externals Ca Db.
From S2P Require Import ApplyCompute ApplyTenancy ApplyIdentity ApplyStorage State.
From S2P Require Import Tables StateFacts StateReach StateInv.

(** * What the rest of the system sees of a table *)

(** The rows outside project [p], each as [view] shows it. *)
Definition foreign {V} (project : V → string) (view : V → V) (p : string) (t : gmap string V)
    : gmap string V :=
  omap (λ v, if project v == p then None else Some (view v)) t.
#[global] Arguments foreign : simpl never.

Section foreign.
Context {V : Type} (project : V → string) (view : V → V) (p : string).
Implicit Types (t : gmap string V) (k : string) (v : V).

Lemma foreign_ext t t' :
  (∀ k, (v ← t' !! k; if project v == p then None else Some (view v)) =
        (v ← t !! k; if project v == p then None else Some (view v))) →
  foreign project view p t' = foreign project view p t.
Proof. intros H. apply map_eq. intros k. unfold foreign. rewrite !lookup_omap. apply H. Qed.

Lemma foreign_put_new t k v :
  t !! k = None → project v = p → foreign project view p (<[k := v]> t) = foreign project view p t.
Proof.
  intros Hk Hv. apply foreign_ext. intros j. destruct (decide (j = k)) as [->|].
  - rewrite lookup_insert_eq, Hk. cbn. by rewrite bool_decide_true.
  - by rewrite lookup_insert_ne.
Qed.
Lemma foreign_put_own t k v0 v :
  t !! k = Some v0 → project v0 = p → project v = p →
  foreign project view p (<[k := v]> t) = foreign project view p t.
Proof.
  intros Hk H0 Hv. apply foreign_ext. intros j. destruct (decide (j = k)) as [->|].
  - rewrite lookup_insert_eq, Hk. cbn. by rewrite !bool_decide_true.
  - by rewrite lookup_insert_ne.
Qed.
Lemma foreign_put_same t k v0 v :
  t !! k = Some v0 → project v = project v0 → view v = view v0 →
  foreign project view p (<[k := v]> t) = foreign project view p t.
Proof.
  intros Hk H0 Hv. apply foreign_ext. intros j. destruct (decide (j = k)) as [->|].
  - rewrite lookup_insert_eq, Hk. cbn. by rewrite H0, Hv.
  - by rewrite lookup_insert_ne.
Qed.
Lemma foreign_delete_own t k v0 :
  t !! k = Some v0 → project v0 = p → foreign project view p (delete k t) = foreign project view p t.
Proof.
  intros Hk H0. apply foreign_ext. intros j. destruct (decide (j = k)) as [->|].
  - rewrite lookup_delete_eq, Hk. cbn. by rewrite bool_decide_true.
  - by rewrite lookup_delete_ne.
Qed.
End foreign.

(** The counters of references from elsewhere, and the VM a NIC is attached to. *)
Definition network_view (n : NetworkData) : NetworkData := n <| nw_nic_count := 0%N |>.
Definition group_view (g : SecurityGroupData) : SecurityGroupData := g <| sg_nic_count := 0%N |>.
Definition template_view (t : TemplateData) : TemplateData :=
  t <| tpl_status := (tpl_status t) <| tst_clone_count := 0%N |> |>.
Definition nic_view (n : NicData) : NicData := set_vm_link None "" n.

Definition vm_project (v : VmData) : string := vsp_project_slug (vm_spec v).
Definition nic_project (n : NicData) : string := nsp_project_slug (nic_spec n).
Definition volume_project (v : VolumeData) : string := vos_project_slug (vol_spec v).
Definition template_project (t : TemplateData) : string := tsp_project_slug (tpl_spec t).

(** [d] and [d'] differ at most in the resources of project [p]. *)
Record same_elsewhere (p : string) (d d' : Db) : Prop := {
  se_vms : foreign vm_project id p (vms d') = foreign vm_project id p (vms d);
  se_networks : foreign nw_project_slug network_view p (networks d') =
                foreign nw_project_slug network_view p (networks d);
  se_nics : foreign nic_project nic_view p (nics d') = foreign nic_project nic_view p (nics d);
  se_volumes : foreign volume_project id p (volumes d') = foreign volume_project id p (volumes d);
  se_templates : foreign template_project template_view p (templates d') =
                 foreign template_project template_view p (templates d);
  se_groups : foreign sg_project_slug group_view p (security_groups d') =
              foreign sg_project_slug group_view p (security_groups d);
  se_nodes : nodes d' = nodes d;
  se_orgs : orgs d' = orgs d;
  se_projects : projects d' = projects d;
  se_clusters : clusters d' = clusters d;
  se_tokens : onboarding_tokens d' = onboarding_tokens d;
  se_revoked : revoked_certs d' = revoked_certs d;
  se_accounts : accounts d' = accounts d;
  se_memberships : memberships d' = memberships d;
  se_keys : api_keys d' = api_keys d;
  se_ca : pki_ca d' = pki_ca d;
  se_server : pki_server d' = pki_server d;
}.

#[export] Instance same_elsewhere_equiv p : Equivalence (same_elsewhere p).
Proof.
  split.
  - done.
  - intros d d' []. by split.
  - intros d1 d2 d3 [] []. split; congruence.
Qed.

(** The resources of project [q]. *)
Definition rows_of {V} (project : V → string) (view : V → V) (q : string) (t : gmap string V)
    : gmap string V :=
  omap (λ v, if project v == q then Some (view v) else None) t.
#[global] Arguments rows_of : simpl never.
Definition project_rows (q : string) (d : Db) :=
  (rows_of vm_project id q (vms d), rows_of nw_project_slug network_view q (networks d),
   rows_of nic_project nic_view q (nics d), rows_of volume_project id q (volumes d),
   rows_of template_project template_view q (templates d),
   rows_of sg_project_slug group_view q (security_groups d)).

(** * The project a command acts on *)

(** The project of the row named, or the one the new row is put in; [None] for the
    commands that are not a tenant's. *)
Definition acts_on (d : Db) (cmd : Command) : option string :=
  match cmd with
  | CreateNetwork _ _ _ p _ _ _ _ _ _ _ _ => Some p
  | UpdateNetwork _ id _ _ _ | DeleteNetwork _ id false => nw_project_slug <$> networks d !! id
  | CreateNic _ _ _ p _ _ _ _ _ _ _ _ => Some p
  | UpdateNic _ id _ _ _ | DeleteNic _ id | AttachNic _ id _ _ | DetachNic _ id _
  | UpdateNicStatus _ id _ _ _ _ => nic_project <$> nics d !! id
  | CreateVm _ _ _ spec => Some (vsp_project_slug spec)
  | UpdateVmSpec _ id _ _ | UpdateVmStatus _ id _ _ | DeleteVm _ id => vm_project <$> vms d !! id
  | CreateVolume _ _ _ p _ _ _ _ => Some p
  | DeleteVolume _ id | UpdateVolumeStatus _ id _ _ _ _ _ | ResizeVolume _ id _ _
  | CreateSnapshot _ _ _ id _ => volume_project <$> volumes d !! id
  | CreateTemplate _ _ _ p _ _ _ _ _ => Some p
  | UpdateTemplateStatus _ id _ _ _ _ _ => template_project <$> templates d !! id
  | CreateSecurityGroup _ _ _ p _ _ => Some p
  | UpdateSecurityGroup _ _ id _ _ | DeleteSecurityGroup _ id
  | CreateSecurityGroupRule _ _ _ id _ _ _ _ _ _ | DeleteSecurityGroupRule _ id _
  | UpdateSecurityGroupRule _ _ id _ _ => sg_project_slug <$> security_groups d !! id
  | _ => None
  end.

(** The membership a command can add. *)
Definition confers (cmd : Command) : option (MembershipScope * Role) :=
  match cmd with
  | CreateMembership _ _ _ _ scope role _ => Some (scope, role)
  | BootstrapInitialPlatformAdmin _ _ _ _ => Some (ScopePlatform, PlatformAdmin)
  | CreateServiceAccount _ _ _ _ project_slug _ _ _ => Some (ScopeProject project_slug, ProjectAdmin)
  | _ => None
  end.

(** The project a command deletes. *)
Definition drops_project (cmd : Command) : option string :=
  match cmd with DeleteProject _ slug => Some slug | _ => None end.

(** One table of a committing run. *)
Ltac foreign_step :=
  first
    [ reflexivity
    | eapply foreign_put_new; [eassumption | reflexivity]
    | eapply foreign_put_own; [eassumption | eassumption || reflexivity | eassumption || reflexivity]
    | eapply foreign_delete_own; [eassumption | eassumption || reflexivity]
    | eapply foreign_put_same;
        [ eassumption | reflexivity
        | cbv [network_view group_view template_view nic_view set_vm_link]; cbn; norm_keys; reflexivity ] ].

Section isolation.
Context `{R : Redb} `{L : LruCache} `{U : UnicodeText} `{X : X509}.

Lemma acts_on_Some {V} (project : V → string) (t : gmap string V) k p :
  project <$> t !! k = Some p → ∃ v, t !! k = Some v ∧ project v = p.
Proof. intros (v & ? & ?)%fmap_Some. eauto. Qed.

Lemma command_confined amb cmd d d' r ev p :
  db_keyed d → acts_on d cmd = Some p → run_command amb cmd d = Commit d' r ev → same_elsewhere p d d'.
Proof.
  intros Hk Hp H.
  destruct cmd; try discriminate Hp; cbn in Hp;
    repeat match type of Hp with (if ?b then _ else _) = _ => destruct b; [discriminate Hp|] end;
    try apply acts_on_Some in Hp as (? & ? & ?);
    inv_commit H; destruct Hk; split; cbn; norm_keys; try foreign_step.
  rewrite andb_true_r in Heqb. apply negb_false_iff, bool_decide_eq_true in Heqb. by rewrite Heqb.
Qed.

(** * What a project owns *)

Lemma rows_of_foreign {V} (project : V → string) (view : V → V) p q (t t' : gmap string V) :
  (∀ v, project (view v) = project v) → p ≠ q →
  foreign project view p t' = foreign project view p t →
  rows_of project view q t' = rows_of project view q t.
Proof.
  intros Hview Hne H. apply map_eq. intros k. apply (f_equal (lookup k)) in H.
  unfold foreign, rows_of in *. rewrite !lookup_omap in *.
  destruct (t' !! k) as [v'|], (t !! k) as [v|]; cbn in *;
    repeat case_bool_decide; simplify_eq; try congruence;
    pose proof (Hview v); pose proof (Hview v'); congruence.
Qed.

Lemma same_elsewhere_rows p q d d' : p ≠ q → same_elsewhere p d d' → project_rows q d' = project_rows q d.
Proof.
  intros Hne []. unfold project_rows.
  repeat (f_equal; [|by eapply rows_of_foreign]). by eapply rows_of_foreign.
Qed.

Lemma command_keeps_rows amb cmd d d' r ev q :
  db_keyed d → acts_on d cmd ≠ Some q → is_forced_delete cmd = false →
  run_command amb cmd d = Commit d' r ev → project_rows q d' = project_rows q d.
Proof.
  intros Hk Hq Hf H. destruct (acts_on d cmd) as [p|] eqn:Hp.
  - eapply (same_elsewhere_rows p); [congruence|]. by eapply command_confined.
  - destruct cmd; try discriminate Hp; cbn in Hp, Hf; rewrite ?Hf in Hp; try discriminate Hf;
      try apply fmap_None in Hp; inv_commit H; try reflexivity; cbn in *; congruence.
Qed.

Lemma apply_keeps_rows amb cmd st q :
  db_keyed (db st) → acts_on (db st) cmd ≠ Some q → is_forced_delete cmd = false →
  project_rows q (db (api_apply amb cmd st).1.1) = project_rows q (db st).
Proof.
  intros Hk Hq Hf. unfold api_apply. repeat case_match; try done. cbn. by eapply command_keeps_rows.
Qed.

(** * The roles over a project *)

Lemma command_grants amb cmd d d' r ev k m :
  run_command amb cmd d = Commit d' r ev → memberships d' !! k = Some m →
  memberships d !! k = Some m ∨ confers cmd = Some (mb_scope m, mb_role m).
Proof.
  intros H. destruct cmd; inv_commit H; cbn; auto.
  all: try (intros [[<- <-]|[_ ?]]%lookup_insert_Some; by auto).
  - intros [_ ?]%lookup_delete_Some. by left.
  - intros [? _]%(foldl_delete_Some (λ k, k)). by left.
Qed.

Lemma apply_grants amb cmd st k m :
  memberships (db (api_apply amb cmd st).1.1) !! k = Some m →
  memberships (db st) !! k = Some m ∨ confers cmd = Some (mb_scope m, mb_role m).
Proof.
  unfold api_apply. repeat case_match; try by left. by eapply command_grants.
Qed.

(** A project stays where it is until it is deleted. *)
Lemma command_keeps_project amb cmd d d' r ev q pj :
  projects d !! q = Some pj → drops_project cmd ≠ Some q → run_command amb cmd d = Commit d' r ev →
  projects d' !! q = Some pj.
Proof.
  intros Hq Hd H. destruct cmd; inv_commit H; cbn in *; try done.
  - rewrite lookup_insert_ne; [done|]. congruence.
  - rewrite lookup_delete_ne; [done|]. congruence.
Qed.
Lemma apply_keeps_project amb cmd st q pj :
  drops_project cmd ≠ Some q → projects (db st) !! q = Some pj →
  projects (db (api_apply amb cmd st).1.1) !! q = Some pj.
Proof.
  intros Hd Hq. unfold api_apply. repeat case_match; try done. by eapply command_keeps_project.
Qed.

Lemma apply_keyed amb cmd st : db_keyed (db st) → db_keyed (db (api_apply amb cmd st).1.1).
Proof. intros Hk. unfold api_apply. repeat case_match; try done. by eapply db_keyed_run. Qed.
End isolation.
