(* ===== verification/Rest.v ===== *)
(** The REST API of the control plane (mvirt-cplane/src/rest/ui_handlers.rs,
    rest/handlers/mod.rs, rest/routes.rs): the guards, and one definition for each
    handler that writes or that reads the resources of a project. A handler is a
    fallible method on the state machine; its store calls draw ids and time from the
    caller of the model. *)

From S2P Require Import Rpc.
From S2P Require Import Prelude Command Event Externals Ca Db.
From S2P Require Import ApplyCompute ApplyTenancy ApplyIdentity ApplyStorage.
From S2P Require Import Queries Scheduler State RaftStore Auth.

Open Scope rpc_scope.

(** * Errors *)

Record ApiError := MkApiError { ae_error : string; ae_code : N }.

Definition api_error (e : StoreError) : ApiError :=
  match e with
  | RaftStore.NotFound msg => MkApiError msg 404
  | Conflict msg => MkApiError msg 409
  | NotLeader _ => MkApiError "Not leader" 503
  | ScheduleFailed msg => MkApiError msg 503
  | RaftStore.Internal msg => MkApiError msg 500
  | VersionMismatch expected actual =>
      MkApiError ("Version mismatch: expected " +:+ pretty expected +:+ ", got " +:+ pretty actual) 409
  | Unauthorized msg => MkApiError msg 401
  | Validation msg => MkApiError msg 400
  | Gone msg => MkApiError msg 410
  end.

(** The status code of the answer. *)
Definition into_response (e : ApiError) : N :=
  if bool_decide (ae_code e ∈ [400; 401; 403; 404; 409; 410; 422; 501; 503]%N) then ae_code e else 500%N.

(** * Slugs *)

Definition slug_char (a : ascii) : bool :=
  let n := N_of_ascii a in
  ((97 <=? n) && (n <=? 122) || (48 <=? n) && (n <=? 57) || (n =? 45))%N.
Definition ends_with_dash (s : string) : bool :=
  match String.get (String.length s - 1) s with Some a => Ascii.eqb a "-"%char | None => false end.

Definition validate_slug (slug field : string) : result ApiError unit :=
  if str_is_empty slug then Err (MkApiError (field +:+ " cannot be empty") 400)
  else if Nat.ltb 63 (String.length slug)
  then Err (MkApiError (field +:+ " must be 63 characters or fewer") 400)
  else if str_forall slug_char slug && negb (starts_with "-" slug) && negb (ends_with_dash slug)
  then Ok tt
  else Err (MkApiError (field +:+ " must be kebab-case (lowercase letters, digits, hyphens; no leading/trailing hyphen)") 400).

Section rest.
Context `{R : Redb} `{L : LruCache} `{U : UnicodeText} `{X : X509} `{B : Blake3}.
(** Whether a JWT validator is configured; without one authentication is disabled.
    SHA-256 of an onboarding token, in hex. *)
Context (jwt_validator : bool) (sha256_hex : string → string).

Definition Rest (A : Type) : Type := Fallible ApiError ApiState A.
Definition Draw : Type := Ambient * Fresh.

Definition reject {A} (code : N) (error : string) : Rest A := rpc_err (MkApiError error code).
Definition not_found {A} (o : option A) (error : string) : Rest A :=
  match o with Some a => rpc_ret a | None => reject 404 error end.
Definition read {A} (f : Db → A) : Rest A := λ st, (Ok (f (db st)), st).
Definition lift {A} (r : result ApiError A) : Rest A := λ st, (r, st).
(** [state.store.method(..).await?]. *)
Definition store {A} (w : Draw) (op : Fresh → Op A) : Rest A := λ st,
  let '(st', r) := run_op w.1 (op w.2) st in (Rpc.map_err api_error r, st').

Definition named (what id : string) : string := what +:+ " '" +:+ id +:+ "' not found".

(** * Guards *)

Definition require_platform_admin (auth : option AuthContext) : Rest unit :=
  if negb jwt_validator then rpc_ret tt
  else match auth with
       | None => reject 401 "missing auth"
       | Some ctx => if is_platform_admin ctx then rpc_ret tt else reject 403 "platform-admin required"
       end.

Definition require_org_admin (auth : option AuthContext) (org_slug : string) : Rest unit :=
  if negb jwt_validator then rpc_ret tt
  else match auth with
       | None => reject 401 "missing auth"
       | Some ctx => if is_org_admin ctx org_slug then rpc_ret tt
                     else reject 403 ("org-admin in '" +:+ org_slug +:+ "' required")
       end.

Definition require_project_access (auth : option AuthContext) (project_slug : string) : Rest unit :=
  let! found := read (λ d, get_project d project_slug) in
  let! project := not_found found (named "Project" project_slug) in
  if negb jwt_validator then rpc_ret tt
  else match auth with
       | None => reject 401 "missing auth"
       | Some ctx => if is_project_admin ctx project_slug (Some (pj_org_slug project)) then rpc_ret tt
                     else reject 403 ("project-admin in '" +:+ project_slug +:+ "' required")
       end.

(** [if state.jwt_validator.is_some() { .. }]. *)
Definition if_enforced (m : Rest unit) : Rest unit := if jwt_validator then m else rpc_ret tt.

(** The row of [id] is read and its project guards the request. *)
Definition owned {V} (get : Db → string → option V) (project : V → string) (what : string)
    (auth : option AuthContext) (id : string) : Rest unit :=
  if_enforced (let! found := read (λ d, get d id) in
               let! v := not_found found (named what id) in
               require_project_access auth (project v)).

Definition vm_owned := owned get_vm (λ vm, vsp_project_slug (vm_spec vm)) "VM".
Definition network_owned := owned get_network nw_project_slug "Network".
Definition nic_owned := owned get_nic (λ n, nsp_project_slug (nic_spec n)) "NIC".
Definition volume_owned := owned get_volume (λ v, vos_project_slug (vol_spec v)) "Volume".
Definition group_owned := owned get_security_group sg_project_slug "Security group".

(** The row of a cluster is read and its organization guards the request. *)
Definition cluster_owned (auth : option AuthContext) (slug : string) : Rest unit :=
  if_enforced (let! found := read (λ d, get_cluster d slug) in
               let! cluster := not_found found (named "Cluster" slug) in
               require_org_admin auth (cl_org_slug cluster)).

Definition caller_account_id (auth : option AuthContext) : string :=
  if negb jwt_validator then "system"
  else match auth with Some ctx => ac_id (ctx_account ctx) | None => "system" end.

(** The guard the member handlers of an organization spell out. *)
Definition org_admin_only (auth : option AuthContext) (org_slug : string) : Rest unit :=
  if_enforced match auth with
              | None => reject 401 "missing auth"
              | Some ctx => if is_org_admin ctx org_slug then rpc_ret tt else reject 403 "org-admin required"
              end.

(** * Organizations, projects, clusters *)

(** The caller becomes administrator of the new organization; that call's failure is
    ignored. *)
Definition create_org (w : nat → Draw) (auth : option AuthContext) (slug name : string) : Rest OrgData :=
  require_platform_admin auth ;!
  lift (validate_slug slug "Org slug") ;!
  let! data := store (w 0%nat) (λ f, RaftStore.create_org f slug name) in
  match auth with
  | Some ctx => λ st, (Ok data, (run_op (w 1%nat).1 (create_membership (w 1%nat).2 (ac_id (ctx_account ctx))
                                  (ScopeOrg (og_slug data)) OrgAdmin (ac_id (ctx_account ctx))) st).1)
  | None => rpc_ret data
  end.
Definition update_org (w : nat → Draw) (auth : option AuthContext) (slug : string) (name : option string)
    (contact : option OrgContact) : Rest OrgData :=
  require_org_admin auth slug ;!
  let! found := read (λ d, get_org d slug) in
  let! org := not_found found (named "Org" slug) in
  store (w 0%nat) (λ f, RaftStore.update_org f (og_slug org) name contact).
Definition delete_org (w : nat → Draw) (auth : option AuthContext) (slug : string) : Rest unit :=
  require_org_admin auth slug ;!
  let! found := read (λ d, get_org d slug) in
  let! org := not_found found (named "Org" slug) in
  store (w 0%nat) (λ f, RaftStore.delete_org f (og_slug org)).

Definition create_project (w : nat → Draw) (auth : option AuthContext) (org_slug slug name : string)
    (description : option string) : Rest ProjectData :=
  require_org_admin auth org_slug ;!
  lift (validate_slug slug "Project slug") ;!
  let! found := read (λ d, get_org d org_slug) in
  let! org := not_found found (named "Org" org_slug) in
  store (w 0%nat) (λ f, RaftStore.create_project f (og_slug org) slug name description).
Definition delete_project (w : nat → Draw) (auth : option AuthContext) (id : string) : Rest unit :=
  if_enforced (let! found := read (λ d, get_project d id) in
               let! project := not_found found (named "Project" id) in
               require_org_admin auth (pj_org_slug project)) ;!
  store (w 0%nat) (λ f, RaftStore.delete_project f id).

Definition create_cluster (w : nat → Draw) (auth : option AuthContext) (org_slug slug name : string)
    (description location : option string) : Rest ClusterData :=
  require_org_admin auth org_slug ;!
  lift (validate_slug slug "Cluster slug") ;!
  let! found := read (λ d, get_org d org_slug) in
  let! org := not_found found (named "Org" org_slug) in
  store (w 0%nat) (λ f, RaftStore.create_cluster f (og_slug org) slug name description location).
Definition update_cluster (w : nat → Draw) (auth : option AuthContext) (slug : string) (name : option string)
    (description location : option (option string)) : Rest ClusterData :=
  cluster_owned auth slug ;!
  store (w 0%nat) (λ f, RaftStore.update_cluster f slug name description location).
Definition delete_cluster (w : nat → Draw) (auth : option AuthContext) (slug : string) : Rest unit :=
  cluster_owned auth slug ;! store (w 0%nat) (λ f, RaftStore.delete_cluster f slug).
Definition add_node_to_cluster (w : nat → Draw) (auth : option AuthContext) (slug node_id : string)
    : Rest ClusterData :=
  cluster_owned auth slug ;! store (w 0%nat) (λ f, RaftStore.add_node_to_cluster f slug node_id).
Definition remove_node_from_cluster (w : nat → Draw) (auth : option AuthContext) (slug node_id : string)
    : Rest ClusterData :=
  cluster_owned auth slug ;! store (w 0%nat) (λ f, RaftStore.remove_node_from_cluster f slug node_id).

(** * Onboarding *)

(** [bare] and [expires_at] are the token and its expiry as the store draws them. *)
Definition create_onboarding_token (w : nat → Draw) (auth : option AuthContext) (slug hostname : string)
    (description : option string) (bare expires_at : string) : Rest (OnboardingTokenData * string) :=
  let! found := read (λ d, get_cluster d slug) in
  let! cluster := not_found found (named "Cluster" slug) in
  require_org_admin auth (cl_org_slug cluster) ;!
  let hostname := str_trim hostname in
  if str_is_empty hostname then reject 400 "hostname is required"
  else store (w 0%nat) (λ f, RaftStore.create_onboarding_token f (sha256_hex bare) slug hostname description
                         expires_at "operator" bare).
Definition delete_onboarding_token (w : nat → Draw) (auth : option AuthContext) (slug id : string) : Rest unit :=
  cluster_owned auth slug ;! store (w 0%nat) (λ f, RaftStore.delete_onboarding_token f slug id).

(** Not behind the account middleware: the token is the credential. [generated] is
    the CA the leader would make. *)
Definition bootstrap_onboarding (w : nat → Draw) (authorization : option string)
    (generated : result string InternalCa) (csr_pem hostname agent_version kernel_version arch : string)
    : Rest BootstrapOutcome :=
  match (h ← authorization; strip_prefix "Bearer " h) with
  | None => reject 401 "missing Authorization: Bearer header"
  | Some token =>
      (λ st, let '(st', r) := ensure_internal_ca (w 0%nat).1 (w 0%nat).2 generated st in
             (Rpc.map_err api_error r, st')) ;!
      store (w 1%nat) (λ f, RaftStore.redeem_onboarding_token f (sha256_hex (str_trim token)) csr_pem hostname
                         agent_version kernel_version arch)
  end.

Definition revoke_node (w : nat → Draw) (auth : option AuthContext) (id reason : string) : Rest unit :=
  if_enforced
    (let! found := read (λ d, get_node d id) in
     let! node := not_found found (named "Node" id) in
     match nd_cluster_slug node with
     | Some cluster_slug =>
         let! cluster := read (λ d, get_cluster d cluster_slug) in
         match cluster with
         | Some cluster => require_org_admin auth (cl_org_slug cluster)
         | None => require_platform_admin auth
         end
     | None => require_platform_admin auth
     end) ;!
  let! reason :=
    if reason == "decommission" then rpc_ret Decommission
    else if reason == "compromise" then rpc_ret Compromise
    else if reason == "other" then rpc_ret OtherReason
    else reject 400 ("unknown reason '" +:+ reason +:+ "'; allowed: decommission, compromise, other") in
  store (w 0%nat) (λ f, RaftStore.revoke_node_cert f id reason).

(** * Accounts and members *)

(** [profile] is what the identity provider answers. *)
Definition post_signin (w : nat → Draw) (authorization : option string) (auth : option AuthContext)
    (profile : option AuthClaims) : Rest AccountData :=
  match auth, (h ← authorization; strip_prefix "Bearer " h) with
  | None, _ => reject 401 "no auth context in request"
  | Some _, None => reject 401 "missing Authorization: Bearer header"
  | Some ctx, Some _ =>
      let account := ctx_account ctx in
      match ac_external_iss account, ac_external_sub account, profile with
      | Some iss, Some sub, Some profile =>
          let name := best_display_name profile in
          let email := acl_email profile in
          if jwt_validator && ((is_some name && negb (name == ac_display_name account))
                               || (is_some email && negb (email == ac_email account)))
          then store (w 0%nat) (λ f, RaftStore.ensure_account_from_oidc f iss sub
                 (match email with Some _ => email | None => ac_email account end)
                 (match name with Some _ => name | None => ac_display_name account end))
          else rpc_ret account
      | _, _, _ => rpc_ret account
      end
  end.
Definition invite_account (w : nat → Draw) (auth : option AuthContext) (email : string)
    (display_name : option string) : Rest AccountData :=
  require_platform_admin auth ;! store (w 0%nat) (λ f, create_account_by_email f email display_name).

Definition create_org_member (w : nat → Draw) (auth : option AuthContext) (org_slug account_id role : string)
    : Rest MembershipData :=
  org_admin_only auth org_slug ;!
  if role == "org-admin"
  then store (w 0%nat) (λ f, create_membership f account_id (ScopeOrg org_slug) OrgAdmin (caller_account_id auth))
  else reject 400 ("unknown role '" +:+ role +:+ "'; allowed: org-admin").
Definition create_project_member (w : nat → Draw) (auth : option AuthContext)
    (project_slug account_id role : string) : Rest MembershipData :=
  require_project_access auth project_slug ;!
  let caller := match auth with Some ctx => ac_id (ctx_account ctx) | None => "system" end in
  if role == "project-admin"
  then store (w 0%nat) (λ f, create_membership f account_id (ScopeProject project_slug) ProjectAdmin caller)
  else reject 400 ("unknown role '" +:+ role +:+ "'; allowed: project-admin").
Definition delete_project_member (w : nat → Draw) (auth : option AuthContext) (project_slug id : string)
    : Rest unit :=
  require_project_access auth project_slug ;! store (w 0%nat) (λ f, delete_membership f id).
Definition delete_org_member (w : nat → Draw) (auth : option AuthContext) (org_slug id : string) : Rest unit :=
  org_admin_only auth org_slug ;! store (w 0%nat) (λ f, delete_membership f id).

(** ** Service accounts *)

(** The account exists and lives in the project of the URL. *)
Definition account_in_project (project_slug id : string) : Rest unit :=
  let! found := read (λ d, get_account d id) in
  let! acc := not_found found (named "ServiceAccount" id) in
  if ac_project_slug acc == Some project_slug then rpc_ret tt
  else reject 404 "service account does not belong to this project".

Definition create_service_account (w : nat → Draw) (auth : option AuthContext) (project_slug name : string)
    (description : option string) : Rest AccountData :=
  require_project_access auth project_slug ;!
  let trimmed := str_trim name in
  if str_is_empty trimmed then reject 400 "name is required"
  else store (w 0%nat) (λ f, RaftStore.create_service_account f project_slug trimmed (non_blank description)
                         (caller_account_id auth)).
Definition delete_service_account (w : nat → Draw) (auth : option AuthContext) (project_slug id : string)
    : Rest unit :=
  require_project_access auth project_slug ;! account_in_project project_slug id ;!
  store (w 0%nat) (λ f, RaftStore.delete_service_account f id).
(** [secret] is the drawn secret in base64. *)
Definition create_api_key (w : nat → Draw) (auth : option AuthContext) (project_slug id secret : string)
    (description expires_at : option string) : Rest (ApiKeyData * string) :=
  require_project_access auth project_slug ;! account_in_project project_slug id ;!
  λ st, let '(st', r) := mint_api_key (w 0%nat).1 (w 0%nat).2 secret id description expires_at
                           (caller_account_id auth) st in
        (Rpc.map_err api_error r, st').
Definition revoke_api_key (w : nat → Draw) (auth : option AuthContext) (project_slug id key_id : string)
    : Rest ApiKeyData :=
  require_project_access auth project_slug ;! account_in_project project_slug id ;!
  let! found := read (λ d, get_api_key d key_id) in
  let! key := not_found found (named "API key" key_id) in
  if ak_account_id key == id then store (w 0%nat) (λ f, revoke_static_api_key f key_id)
  else reject 404 "API key does not belong to this ServiceAccount".

(** * Virtual machines *)

(** A panic while a node is selected ends the request without an answer. *)
Definition create_vm (w : nat → Draw) (auth : option AuthContext) (project_slug name : string)
    (node_selector : option string) (vcpus : u32) (memory_mb : u64) (volume_id nic_id image : string)
    (user_data : option string) : Rest VmData :=
  require_project_access auth project_slug ;!
  let spec := mkVmSpec name project_slug node_selector vcpus memory_mb volume_id nic_id image
    (match user_data with Some s => if str_is_empty s then None else Some s | None => None end)
    DesiredRunning in
  λ st, match create_and_schedule_vm (w 0%nat).1 (w 1%nat).1 (w 0%nat).2 (w 1%nat).2 spec st with
        | Some (st', r) => (Rpc.map_err api_error r, st')
        | None => (Err (MkApiError "" 500), st)
        end.
Definition delete_vm (w : nat → Draw) (auth : option AuthContext) (id : string) : Rest unit :=
  vm_owned auth id ;! store (w 0%nat) (λ f, RaftStore.delete_vm f id).

Definition start_vm (w : nat → Draw) (auth : option AuthContext) (id : string) : Rest VmData :=
  vm_owned auth id ;! store (w 0%nat) (λ f, update_vm_spec f id DesiredRunning).
Definition stop_vm (w : nat → Draw) (auth : option AuthContext) (id : string) : Rest VmData :=
  vm_owned auth id ;! store (w 0%nat) (λ f, update_vm_spec f id DesiredStopped).
(** What a start or a stop leaves to a task, two seconds later: the status of the VM
    is written as if the change had happened. *)
Definition simulated_transition (w : Draw) (id : string) (phase : VmPhase) (st : ApiState) : ApiState :=
  (run_op w.1 (update_vm_status w.2 id (mkVmStatus phase None None None)) st).1.
Definition kill_vm (w : nat → Draw) (auth : option AuthContext) (id : string) : Rest VmData :=
  vm_owned auth id ;!
  store (w 0%nat) (λ f, update_vm_spec f id DesiredStopped) ;!
  store (w 1%nat) (λ f, update_vm_status f id (mkVmStatus VmStopped None None (Some "Killed"))).

(** * Networks and NICs *)

Definition create_network (w : nat → Draw) (auth : option AuthContext) (project_slug name : string)
    (ipv4_enabled : bool) (ipv4_prefix : option string) (ipv6_enabled : bool) (ipv6_prefix : option string)
    (dns_servers ntp_servers : list string) (is_public : bool) : Rest NetworkData :=
  require_project_access auth project_slug ;!
  store (w 0%nat) (λ f, RaftStore.create_network f project_slug name ipv4_enabled ipv4_prefix ipv6_enabled
                     ipv6_prefix dns_servers ntp_servers is_public).
Definition delete_network (w : nat → Draw) (auth : option AuthContext) (id : string) : Rest u32 :=
  network_owned auth id ;! store (w 0%nat) (λ f, RaftStore.delete_network f id false).

Definition create_nic (w : nat → Draw) (auth : option AuthContext) (project_slug network_id : string)
    (name mac_address ipv4_address ipv6_address security_group_id : option string) : Rest NicData :=
  require_project_access auth project_slug ;!
  store (w 0%nat) (λ f, RaftStore.create_nic f project_slug network_id name mac_address ipv4_address
                     ipv6_address [] [] security_group_id).
Definition delete_nic (w : nat → Draw) (auth : option AuthContext) (id : string) : Rest unit :=
  nic_owned auth id ;! store (w 0%nat) (λ f, RaftStore.delete_nic f id).
Definition attach_nic (w : nat → Draw) (auth : option AuthContext) (id vm_id : string) : Rest NicData :=
  nic_owned auth id ;! store (w 0%nat) (λ f, RaftStore.attach_nic f id vm_id).
Definition detach_nic (w : nat → Draw) (auth : option AuthContext) (id : string) : Rest NicData :=
  nic_owned auth id ;! store (w 0%nat) (λ f, RaftStore.detach_nic f id).

(** * Storage *)

Definition create_volume (w : nat → Draw) (auth : option AuthContext) (project_slug node_id name : string)
    (size_bytes : u64) (template_id : option string) : Rest VolumeData :=
  require_project_access auth project_slug ;!
  store (w 0%nat) (λ f, RaftStore.create_volume f project_slug node_id name size_bytes template_id).
Definition delete_volume (w : nat → Draw) (auth : option AuthContext) (id : string) : Rest unit :=
  volume_owned auth id ;! store (w 0%nat) (λ f, RaftStore.delete_volume f id).
Definition resize_volume (w : nat → Draw) (auth : option AuthContext) (id : string) (size_bytes : u64)
    : Rest VolumeData :=
  volume_owned auth id ;! store (w 0%nat) (λ f, RaftStore.resize_volume f id size_bytes).
Definition create_snapshot (w : nat → Draw) (auth : option AuthContext) (id name : string) : Rest VolumeData :=
  volume_owned auth id ;! store (w 0%nat) (λ f, RaftStore.create_snapshot f id name).
Definition import_template (w : nat → Draw) (auth : option AuthContext) (project_slug node_id name url : string)
    (total_bytes : u64) : Rest TemplateData :=
  require_project_access auth project_slug ;!
  store (w 0%nat) (λ f, create_template f project_slug node_id name 0 (Some url) total_bytes).

(** * Security groups *)

Inductive UiRuleDirection := UiIngress | UiEgress.
Definition to_command_direction (d : UiRuleDirection) : RuleDirection :=
  match d with UiIngress => Inbound | UiEgress => Outbound end.
Inductive UiRuleProtocol := UiAll | UiTcp | UiUdp | UiIcmp | UiIcmpv6.
Definition to_protocol_string (p : UiRuleProtocol) : option string :=
  match p with
  | UiAll => None | UiTcp => Some "TCP" | UiUdp => Some "UDP" | UiIcmp => Some "ICMP" | UiIcmpv6 => Some "ICMPV6"
  end.

Definition create_security_group (w : nat → Draw) (auth : option AuthContext) (project_slug name : string)
    (description : option string) : Rest SecurityGroupData :=
  require_project_access auth project_slug ;!
  store (w 0%nat) (λ f, RaftStore.create_security_group f project_slug name description).
Definition update_security_group (w : nat → Draw) (auth : option AuthContext) (id : string)
    (name : option string) (description : option (option string)) : Rest SecurityGroupData :=
  group_owned auth id ;! store (w 0%nat) (λ f, RaftStore.update_security_group f id name description).
Definition delete_security_group (w : nat → Draw) (auth : option AuthContext) (id : string) : Rest unit :=
  group_owned auth id ;! store (w 0%nat) (λ f, RaftStore.delete_security_group f id).
Definition create_security_group_rule (w : nat → Draw) (auth : option AuthContext) (sg_id : string)
    (direction : UiRuleDirection) (protocol : UiRuleProtocol) (port_start port_end : option u16)
    (cidr description : option string) : Rest SecurityGroupData :=
  group_owned auth sg_id ;!
  store (w 0%nat) (λ f, RaftStore.create_security_group_rule f sg_id (to_command_direction direction)
                     (to_protocol_string protocol) port_start port_end cidr description).
Definition delete_security_group_rule (w : nat → Draw) (auth : option AuthContext) (sg_id rule_id : string)
    : Rest SecurityGroupData :=
  group_owned auth sg_id ;! store (w 0%nat) (λ f, RaftStore.delete_security_group_rule f sg_id rule_id).
Definition update_security_group_rule (w : nat → Draw) (auth : option AuthContext) (sg_id rule_id : string)
    (description : option (option string)) : Rest SecurityGroupData :=
  group_owned auth sg_id ;!
  store (w 0%nat) (λ f, RaftStore.update_security_group_rule f sg_id rule_id description).

(** * Reads of the resources of a project *)

Definition list_in_project {V} (rows : Db → string → list V) (keep : V → bool) (auth : option AuthContext)
    (project_slug : string) : Rest (list V) :=
  require_project_access auth project_slug ;! read (λ d, List.filter keep (rows d project_slug)).
Definition list_vms (auth : option AuthContext) (project_slug : string) (node_id : option string)
    : Rest (list VmData) :=
  list_in_project list_vms_by_project
    (λ vm, match node_id with Some nid => vst_node_id (vm_status vm) == Some nid | None => true end)
    auth project_slug.
Definition list_networks (auth : option AuthContext) (project_slug : string) : Rest (list NetworkData) :=
  list_in_project list_networks_by_project (λ _, true) auth project_slug.
Definition list_nics (auth : option AuthContext) (project_slug : string) (network_id : option string)
    : Rest (list NicData) :=
  list_in_project list_nics_by_project
    (λ n, match network_id with Some nid => nsp_network_id (nic_spec n) == nid | None => true end)
    auth project_slug.
Definition list_volumes (auth : option AuthContext) (project_slug : string) (node_id : option string)
    : Rest (list VolumeData) :=
  require_project_access auth project_slug ;! read (λ d, Queries.list_volumes d (Some project_slug) node_id).
Definition list_templates (auth : option AuthContext) (project_slug : string) : Rest (list TemplateData) :=
  list_in_project list_templates_by_project (λ _, true) auth project_slug.
Definition list_security_groups (auth : option AuthContext) (project_slug : string) : Rest (list SecurityGroupData) :=
  list_in_project list_security_groups_by_project (λ _, true) auth project_slug.
Definition list_service_accounts (auth : option AuthContext) (project_slug : string) : Rest (list AccountData) :=
  list_in_project list_service_accounts_in_project (λ _, true) auth project_slug.
Definition list_project_members (auth : option AuthContext) (project_slug : string) : Rest (list MembershipData) :=
  list_in_project (λ d p, list_memberships_at_scope d (ScopeProject p)) (λ _, true) auth project_slug.
Definition list_api_keys (auth : option AuthContext) (project_slug id : string) : Rest (list ApiKeyData) :=
  require_project_access auth project_slug ;! account_in_project project_slug id ;!
  read (λ d, list_api_keys_for_account d id).

(** The row is read, by id or by name where the handler does that, and then guarded. *)
Definition get_guarded {V} (get : Db → option V) (project : V → string) (missing : string)
    (auth : option AuthContext) : Rest V :=
  let! found := read get in
  let! v := not_found found missing in
  require_project_access auth (project v) ;! rpc_ret v.
Definition get_vm (auth : option AuthContext) (id : string) : Rest VmData :=
  get_guarded (λ d, match Queries.get_vm d id with Some vm => Some vm | None => get_vm_by_name d id end)
    (λ vm, vsp_project_slug (vm_spec vm)) "VM not found" auth.
Definition get_network (auth : option AuthContext) (id : string) : Rest NetworkData :=
  get_guarded (λ d, match Queries.get_network d id with Some n => Some n | None => get_network_by_name d id end)
    nw_project_slug "Network not found" auth.
Definition get_nic (auth : option AuthContext) (id : string) : Rest NicData :=
  get_guarded (λ d, match Queries.get_nic d id with Some n => Some n | None => get_nic_by_name d id end)
    (λ n, nsp_project_slug (nic_spec n)) "NIC not found" auth.
Definition get_volume (auth : option AuthContext) (id : string) : Rest VolumeData :=
  get_guarded (λ d, Queries.get_volume d id) (λ v, vos_project_slug (vol_spec v)) "Volume not found" auth.
Definition get_import_job (auth : option AuthContext) (id : string) : Rest TemplateData :=
  get_guarded (λ d, get_template d id) (λ t, tsp_project_slug (tpl_spec t)) "Import job not found" auth.
Definition get_security_group (auth : option AuthContext) (id : string) : Rest SecurityGroupData :=
  get_guarded (λ d, Queries.get_security_group d id) sg_project_slug "Security group not found" auth.

(** ** Reads of tenancy and identity; those without [auth] are open to every account *)

Definition list_orgs : Rest (list OrgData) := read Queries.list_orgs.
Definition get_org (slug : string) : Rest OrgData :=
  let! found := read (λ d, Queries.get_org d slug) in not_found found (named "Org" slug).
Definition list_projects_in_org (org_slug : string) : Rest (list ProjectData) :=
  let! org := get_org org_slug in read (λ d, list_projects_by_org d (og_slug org)).
Definition list_projects : Rest (list ProjectData) := read Queries.list_projects.
Definition get_project (id : string) : Rest ProjectData :=
  let! found := read (λ d, Queries.get_project d id) in not_found found "Project not found".
Definition list_clusters_in_org (org_slug : string) : Rest (list ClusterData) :=
  let! org := get_org org_slug in read (λ d, list_clusters_by_org d (og_slug org)).
Definition list_clusters : Rest (list ClusterData) := read Queries.list_clusters.
Definition get_cluster (slug : string) : Rest ClusterData :=
  let! found := read (λ d, Queries.get_cluster d slug) in not_found found (named "Cluster" slug).
Definition list_onboarding_tokens_in_cluster (slug : string) : Rest (list OnboardingTokenData) :=
  get_cluster slug ;! read (λ d, list_onboarding_tokens_by_cluster d slug).
Definition list_accounts (auth : option AuthContext) : Rest (list AccountData) :=
  require_platform_admin auth ;! read Queries.list_accounts.
Definition list_org_members (auth : option AuthContext) (org_slug : string) : Rest (list MembershipData) :=
  org_admin_only auth org_slug ;! get_org org_slug ;!
  read (λ d, list_memberships_at_scope d (ScopeOrg org_slug)).
(** Account, memberships, and whether it administers the platform. *)
Definition get_me (auth : option AuthContext) : Rest (AccountData * list MembershipData * bool) :=
  match auth with
  | Some ctx => rpc_ret (ctx_account ctx, ctx_memberships ctx, is_platform_admin ctx)
  | None => reject 401 "no auth context in request"
  end.

(** The stream of VM events of a project, from the events of the store. *)
Definition vm_event_type (e : Event) : string :=
  match e with
  | VmCreated _ => "created" | VmUpdated _ _ _ => "updated" | VmStatusUpdated _ _ _ => "status_updated"
  | VmDeleted _ => "deleted" | _ => "unknown"
  end.
Definition vm_events (project_slug : string) (events : list Event) : list (string * string) :=
  map (λ e, (vm_event_type e, event_resource_id e)) (List.filter (λ e, event_resource_type e == "vm") events).

(** * The routes of the hypervisor nodes (handlers/nodes.rs), which no middleware guards *)

Definition register_hypervisor_node (w : nat → Draw) (name address : string)
    (resources : option NodeResources) (labels : option (gmap string string)) : Rest NodeData :=
  store (w 0%nat) (λ f, register_node f name address (default NodeResources_default resources) (default ∅ labels)).
Definition update_hypervisor_node_status (w : nat → Draw) (id status : string)
    (resources : option NodeResources) : Rest NodeData :=
  let status := str_to_lowercase status in
  store (w 0%nat) (λ f, update_node_status f id
    (if status == "online" then NodeOnline else if status == "offline" then NodeOffline else NodeUnknown) resources).
Definition deregister_hypervisor_node (w : nat → Draw) (id : string) : Rest unit :=
  store (w 0%nat) (λ f, deregister_node f id).

(** * The requests that write *)

(** One constructor for each route behind the account middleware that changes the
    replicated state: the parameters of its path and its body. *)
Inductive RestCall :=
  | RestCreateOrg (slug name : string)
  | RestUpdateOrg (slug : string) (name : option string) (contact : option OrgContact)
  | RestDeleteOrg (slug : string)
  | RestCreateProject (org_slug slug name : string) (description : option string)
  | RestDeleteProject (id : string)
  | RestCreateCluster (org_slug slug name : string) (description location : option string)
  | RestUpdateCluster (slug : string) (name : option string) (description location : option (option string))
  | RestDeleteCluster (slug : string)
  | RestAddNodeToCluster (slug node_id : string)
  | RestRemoveNodeFromCluster (slug node_id : string)
  | RestCreateOnboardingToken (slug hostname : string) (description : option string) (bare expires_at : string)
  | RestDeleteOnboardingToken (slug id : string)
  | RestRevokeNode (id reason : string)
  | RestInviteAccount (email : string) (display_name : option string)
  | RestCreateOrgMember (org_slug account_id role : string)
  | RestDeleteOrgMember (org_slug id : string)
  | RestCreateProjectMember (project_slug account_id role : string)
  | RestDeleteProjectMember (project_slug id : string)
  | RestCreateServiceAccount (project_slug name : string) (description : option string)
  | RestDeleteServiceAccount (project_slug id : string)
  | RestCreateApiKey (project_slug id secret : string) (description expires_at : option string)
  | RestRevokeApiKey (project_slug id key_id : string)
  | RestCreateVm (project_slug name : string) (node_selector : option string) (vcpus : u32) (memory_mb :
      u64) (volume_id nic_id image : string) (user_data : option string)
  | RestDeleteVm (id : string)
  | RestStartVm (id : string)
  | RestStopVm (id : string)
  | RestKillVm (id : string)
  | RestCreateNetwork (project_slug name : string) (ipv4_enabled : bool) (ipv4_prefix : option string)
      (ipv6_enabled : bool) (ipv6_prefix : option string) (dns_servers ntp_servers : list string) (is_public :
      bool)
  | RestDeleteNetwork (id : string)
  | RestCreateNic (project_slug network_id : string) (name mac_address ipv4_address ipv6_address
      security_group_id : option string)
  | RestDeleteNic (id : string)
  | RestAttachNic (id vm_id : string)
  | RestDetachNic (id : string)
  | RestCreateVolume (project_slug node_id name : string) (size_bytes : u64) (template_id : option string)
  | RestDeleteVolume (id : string)
  | RestResizeVolume (id : string) (size_bytes : u64)
  | RestCreateSnapshot (id name : string)
  | RestImportTemplate (project_slug node_id name url : string) (total_bytes : u64)
  | RestCreateSecurityGroup (project_slug name : string) (description : option string)
  | RestUpdateSecurityGroup (id : string) (name : option string) (description : option (option string))
  | RestDeleteSecurityGroup (id : string)
  | RestCreateSecurityGroupRule (sg_id : string) (direction : UiRuleDirection) (protocol : UiRuleProtocol)
      (port_start port_end : option u16) (cidr description : option string)
  | RestDeleteSecurityGroupRule (sg_id rule_id : string)
  | RestUpdateSecurityGroupRule (sg_id rule_id : string) (description : option (option string)).

Definition discard {A} (m : Rest A) : Rest unit := let! _ := m in rpc_ret tt.

Definition handle (w : nat → Draw) (auth : option AuthContext) (call : RestCall) : Rest unit :=
  match call with
  | RestCreateOrg slug name => discard (create_org w auth slug name)
  | RestUpdateOrg slug name contact => discard (update_org w auth slug name contact)
  | RestDeleteOrg slug => discard (delete_org w auth slug)
  | RestCreateProject org_slug slug name description =>
      discard (create_project w auth org_slug slug name description)
  | RestDeleteProject id => discard (delete_project w auth id)
  | RestCreateCluster org_slug slug name description location =>
      discard (create_cluster w auth org_slug slug name description location)
  | RestUpdateCluster slug name description location =>
      discard (update_cluster w auth slug name description location)
  | RestDeleteCluster slug => discard (delete_cluster w auth slug)
  | RestAddNodeToCluster slug node_id => discard (add_node_to_cluster w auth slug node_id)
  | RestRemoveNodeFromCluster slug node_id => discard (remove_node_from_cluster w auth slug node_id)
  | RestCreateOnboardingToken slug hostname description bare expires_at =>
      discard (create_onboarding_token w auth slug hostname description bare expires_at)
  | RestDeleteOnboardingToken slug id => discard (delete_onboarding_token w auth slug id)
  | RestRevokeNode id reason => discard (revoke_node w auth id reason)
  | RestInviteAccount email display_name => discard (invite_account w auth email display_name)
  | RestCreateOrgMember org_slug account_id role =>
      discard (create_org_member w auth org_slug account_id role)
  | RestDeleteOrgMember org_slug id => discard (delete_org_member w auth org_slug id)
  | RestCreateProjectMember project_slug account_id role =>
      discard (create_project_member w auth project_slug account_id role)
  | RestDeleteProjectMember project_slug id => discard (delete_project_member w auth project_slug id)
  | RestCreateServiceAccount project_slug name description =>
      discard (create_service_account w auth project_slug name description)
  | RestDeleteServiceAccount project_slug id =>
      discard (delete_service_account w auth project_slug id)
  | RestCreateApiKey project_slug id secret description expires_at =>
      discard (create_api_key w auth project_slug id secret description expires_at)
  | RestRevokeApiKey project_slug id key_id => discard (revoke_api_key w auth project_slug id key_id)
  | RestCreateVm project_slug name node_selector vcpus memory_mb volume_id nic_id image user_data =>
      discard (create_vm w auth project_slug name node_selector vcpus memory_mb volume_id nic_id image
          user_data)
  | RestDeleteVm id => discard (delete_vm w auth id)
  | RestStartVm id => discard (start_vm w auth id)
  | RestStopVm id => discard (stop_vm w auth id)
  | RestKillVm id => discard (kill_vm w auth id)
  | RestCreateNetwork project_slug name ipv4_enabled ipv4_prefix ipv6_enabled ipv6_prefix dns_servers
      ntp_servers is_public =>
      discard (create_network w auth project_slug name ipv4_enabled ipv4_prefix ipv6_enabled ipv6_prefix
          dns_servers ntp_servers is_public)
  | RestDeleteNetwork id => discard (delete_network w auth id)
  | RestCreateNic project_slug network_id name mac_address ipv4_address ipv6_address security_group_id =>
      discard (create_nic w auth project_slug network_id name mac_address ipv4_address ipv6_address
          security_group_id)
  | RestDeleteNic id => discard (delete_nic w auth id)
  | RestAttachNic id vm_id => discard (attach_nic w auth id vm_id)
  | RestDetachNic id => discard (detach_nic w auth id)
  | RestCreateVolume project_slug node_id name size_bytes template_id =>
      discard (create_volume w auth project_slug node_id name size_bytes template_id)
  | RestDeleteVolume id => discard (delete_volume w auth id)
  | RestResizeVolume id size_bytes => discard (resize_volume w auth id size_bytes)
  | RestCreateSnapshot id name => discard (create_snapshot w auth id name)
  | RestImportTemplate project_slug node_id name url total_bytes =>
      discard (import_template w auth project_slug node_id name url total_bytes)
  | RestCreateSecurityGroup project_slug name description =>
      discard (create_security_group w auth project_slug name description)
  | RestUpdateSecurityGroup id name description =>
      discard (update_security_group w auth id name description)
  | RestDeleteSecurityGroup id => discard (delete_security_group w auth id)
  | RestCreateSecurityGroupRule sg_id direction protocol port_start port_end cidr description =>
      discard (create_security_group_rule w auth sg_id direction protocol port_start port_end cidr description)
  | RestDeleteSecurityGroupRule sg_id rule_id =>
      discard (delete_security_group_rule w auth sg_id rule_id)
  | RestUpdateSecurityGroupRule sg_id rule_id description =>
      discard (update_security_group_rule w auth sg_id rule_id description)
  end.

End rest.

(** * Serving a request *)

Section serve.
Context `{R : Redb} `{L : LruCache} `{U : UnicodeText} `{X : X509} `{B : Blake3}.

(** A request behind the account middleware, with the time it is checked at and what
    its writes draw: those of the handler, then those of the middleware. *)
Record HttpRequest := mkHttpRequest {
  hr_authorization : option string;
  hr_now : string;
  hr_draw : nat → Draw;
  hr_login : Draw * Draw;
  hr_call : RestCall;
}.

(** [require_auth] for [rq]. *)
Definition login (validator : option (string → result string AuthClaims))
    (initial_admin_email : option string) (rq : HttpRequest) (st : ApiState) : ApiState * AuthResult :=
  require_auth validator initial_admin_email (hr_authorization rq) (hr_now rq)
    (hr_login rq).1.1 (hr_login rq).2.1 (hr_login rq).1.2 (hr_login rq).2.2 st.

(** The middleware, then the handler. *)
Definition serve (validator : option (string → result string AuthClaims))
    (initial_admin_email : option string) (sha256_hex : string → string) (rq : HttpRequest)
    (st : ApiState) : result ApiError unit * ApiState :=
  let on := is_some validator in
  match login validator initial_admin_email rq st with
  | (st, Refused code msg) => (Err (MkApiError msg code), st)
  | (st, PassThrough) => handle on sha256_hex (hr_draw rq) None (hr_call rq) st
  | (st, Authenticated ctx) => handle on sha256_hex (hr_draw rq) (Some ctx) (hr_call rq) st
  end.
End serve.
