(* ===== verification/RestFacts.v ===== *)
(** What the REST API guarantees to the tenants, and where it does not: the guards
    decide the access table below, a caller who does not administer a project changes
    none of its resources and gains no role over it. *)

From S2P Require Import Rpc.
From S2P Require Import Prelude Command Event Externals Ca Db.
From S2P Require Import ApplyCompute ApplyTenancy ApplyIdentity ApplyStorage.
From S2P Require Import Queries Scheduler State RaftStore Examples.
From S2P Require Import Tables StateFacts StoreFacts StateReach StateInv Isolation Auth Rest.

Open Scope rpc_scope.

(** * The access table *)

Definition by_platform (auth : option AuthContext) : bool :=
  match auth with Some ctx => is_platform_admin ctx | None => false end.
Definition by_org (auth : option AuthContext) (org_slug : string) : bool :=
  match auth with Some ctx => is_org_admin ctx org_slug | None => false end.
Definition by_project (auth : option AuthContext) (d : Db) (project_slug : string) : bool :=
  match auth, projects d !! project_slug with
  | Some ctx, Some pj => is_project_admin ctx project_slug (Some (pj_org_slug pj))
  | _, _ => false
  end.
Definition by_cluster (auth : option AuthContext) (d : Db) (slug : string) : bool :=
  match clusters d !! slug with Some c => by_org auth (cl_org_slug c) | None => false end.
Definition by_row {V} (auth : option AuthContext) (d : Db) (project : V → string) (t : gmap string V)
    (id : string) : bool :=
  match t !! id with Some v => by_project auth d (project v) | None => false end.

(** Who may send a request, as the tables stand. *)
Definition allowed (auth : option AuthContext) (d : Db) (call : RestCall) : bool :=
  match call with
  | RestCreateOrg _ _ | RestInviteAccount _ _ => by_platform auth
  | RestUpdateOrg org _ _ | RestDeleteOrg org | RestCreateProject org _ _ _ | RestCreateCluster org _ _ _ _
  | RestCreateOrgMember org _ _ | RestDeleteOrgMember org _ => by_org auth org
  | RestUpdateCluster slug _ _ _ | RestDeleteCluster slug | RestAddNodeToCluster slug _
  | RestRemoveNodeFromCluster slug _ | RestCreateOnboardingToken slug _ _ _ _
  | RestDeleteOnboardingToken slug _ => by_cluster auth d slug
  | RestDeleteProject p => match projects d !! p with Some pj => by_org auth (pj_org_slug pj) | None => false end
  | RestRevokeNode id _ =>
      match nodes d !! id with
      | Some node => match (c ← nd_cluster_slug node; clusters d !! c) with
                     | Some c => by_org auth (cl_org_slug c)
                     | None => by_platform auth
                     end
      | None => false
      end
  | RestCreateProjectMember p _ _ | RestDeleteProjectMember p _ | RestCreateServiceAccount p _ _
  | RestDeleteServiceAccount p _ | RestCreateApiKey p _ _ _ _ | RestRevokeApiKey p _ _
  | RestCreateVm p _ _ _ _ _ _ _ _ | RestCreateNetwork p _ _ _ _ _ _ _ _ | RestCreateNic p _ _ _ _ _ _
  | RestCreateVolume p _ _ _ _ | RestImportTemplate p _ _ _ _ | RestCreateSecurityGroup p _ _ => by_project auth d p
  | RestDeleteVm id | RestStartVm id | RestStopVm id | RestKillVm id => by_row auth d vm_project (vms d) id
  | RestDeleteNetwork id => by_row auth d nw_project_slug (networks d) id
  | RestDeleteNic id | RestAttachNic id _ | RestDetachNic id => by_row auth d nic_project (nics d) id
  | RestDeleteVolume id | RestResizeVolume id _ | RestCreateSnapshot id _ =>
      by_row auth d volume_project (volumes d) id
  | RestUpdateSecurityGroup id _ _ | RestDeleteSecurityGroup id | RestCreateSecurityGroupRule id _ _ _ _ _ _
  | RestDeleteSecurityGroupRule id _ | RestUpdateSecurityGroupRule id _ _ =>
      by_row auth d sg_project_slug (security_groups d) id
  end.

Section rest_facts.
Context `{R : Redb} `{L : LruCache} `{U : UnicodeText} `{X : X509} `{B : Blake3}.

(** * Guards *)

(** The request is answered with an error of the guard and the state is the old one. *)
Definition refused {A} (m : Rest A) (st : ApiState) : Prop :=
  ∃ e, m st = (Err e, st) ∧ into_response e ∈ [401; 403; 404]%N.

Lemma refused_bind {A C} (m : Rest A) (k : A → Rest C) st : refused m st → refused (rpc_bind m k) st.
Proof. intros (e & H & He). exists e. split; [|done]. unfold rpc_bind. by rewrite H. Qed.
Lemma refused_reject {A} code msg st : code ∈ [401; 403; 404]%N → refused (A := A) (reject code msg) st.
Proof. intros H. eexists. split; [reflexivity|]. unfold into_response. cbn. repeat case_bool_decide; set_solver. Qed.
Lemma read_bind {A C} (f : Db → A) (k : A → Rest C) st : rpc_bind (read f) k st = k (f (db st)) st.
Proof. done. Qed.

(** [guard on] with authentication on and off: it lets the request through exactly
    when [ok], and lets every such request through when authentication is off. *)
Definition decides (guard : bool → Rest unit) (ok : bool) (st : ApiState) : Prop :=
  if ok then ∀ on, guard on st = (Ok tt, st) else refused (guard true) st.

Lemma decides_bind {A} guard ok (k : bool → Rest A) st :
  decides guard ok st →
  if ok then ∀ on, rpc_bind (guard on) (λ _, k on) st = k on st
  else refused (rpc_bind (guard true) (λ _, k true)) st.
Proof.
  destruct ok; cbn; [|apply refused_bind]. intros H on. unfold rpc_bind. by rewrite H.
Qed.

Lemma decides_platform auth st : decides (λ on, require_platform_admin on auth) (by_platform auth) st.
Proof.
  unfold decides, require_platform_admin. destruct auth as [ctx|]; cbn; [destruct (is_platform_admin ctx)|];
    try (by intros []); apply refused_reject; set_solver.
Qed.
Lemma decides_org auth org st : decides (λ on, require_org_admin on auth org) (by_org auth org) st.
Proof.
  unfold decides, require_org_admin. destruct auth as [ctx|]; cbn; [destruct (is_org_admin ctx org)|];
    try (by intros []); apply refused_reject; set_solver.
Qed.
Lemma decides_org_only auth org st : decides (λ on, org_admin_only on auth org) (by_org auth org) st.
Proof.
  unfold decides, org_admin_only. destruct auth as [ctx|]; cbn; [destruct (is_org_admin ctx org)|];
    try (by intros []); apply refused_reject; set_solver.
Qed.
Lemma decides_eq (guard guard' : bool → Rest unit) ok st :
  (∀ on, guard on st = guard' on st) → decides guard' ok st → decides guard ok st.
Proof. unfold decides, refused. intros H. destruct ok; intros H'; [intros on|]; by rewrite H. Qed.

(** The first step of the guards that read a row. *)
Lemma decides_lookup {V} (get : Db → option V) msg (k : bool → V → Rest unit) ok st :
  match get (db st) with
  | Some v => decides (λ on, k on v) ok st
  | None => ok = false
  end →
  decides (λ on, let! found := read get in let! v := not_found found msg in k on v) ok st.
Proof.
  intros H. apply (decides_eq _ (λ on : bool, let! v := not_found (get (db st)) msg in k on v)); [done|].
  destruct (get (db st)) as [v|].
  - by apply (decides_eq _ (λ on, k on v)).
  - subst. apply refused_bind, refused_reject. set_solver.
Qed.
Lemma decides_enforced guard ok st :
  decides guard ok st → decides (λ on, if_enforced on (guard on)) ok st.
Proof. unfold decides. destruct ok; [|done]. intros H []; [apply (H true) | done]. Qed.

Lemma decides_project auth p st :
  decides (λ on, require_project_access on auth p) (by_project auth (db st) p) st.
Proof.
  apply decides_lookup. unfold by_project. change (Queries.get_project (db st) p) with (projects (db st) !! p).
  destruct (projects (db st) !! p) as [pj|]; [|by destruct auth].
  destruct auth as [ctx|]; cbn; [destruct (is_project_admin _ _ _)|];
    try (by intros []); apply refused_reject; set_solver.
Qed.
Lemma decides_owned {V} (get : Db → string → option V) project what (t : gmap string V) auth id st :
  get (db st) id = t !! id →
  decides (λ on, owned on get project what auth id) (by_row auth (db st) project t id) st.
Proof.
  intros Hget. apply decides_enforced, decides_lookup. rewrite Hget. unfold by_row.
  destruct (t !! id); [|done]. apply decides_project.
Qed.
Lemma decides_cluster auth slug st :
  decides (λ on, cluster_owned on auth slug) (by_cluster auth (db st) slug) st.
Proof.
  apply decides_enforced, decides_lookup.
  change (Queries.get_cluster (db st) slug) with (clusters (db st) !! slug). unfold by_cluster.
  destruct (clusters (db st) !! slug); [|done]. apply decides_org.
Qed.
Lemma decides_project_org auth p st :
  decides (λ on, if_enforced on (let! found := read (λ d, Queries.get_project d p) in
                                 let! project := not_found found (named "Project" p) in
                                 require_org_admin on auth (pj_org_slug project)))
    (match projects (db st) !! p with Some pj => by_org auth (pj_org_slug pj) | None => false end) st.
Proof.
  apply decides_enforced, decides_lookup. change (Queries.get_project (db st) p) with (projects (db st) !! p).
  destruct (projects (db st) !! p); [|done]. apply decides_org.
Qed.

Lemma decides_revoke auth id st :
  decides (λ on, if_enforced on
    (let! found := read (λ d, get_node d id) in
     let! node := not_found found (named "Node" id) in
     match nd_cluster_slug node with
     | Some cluster_slug =>
         let! cluster := read (λ d, Queries.get_cluster d cluster_slug) in
         match cluster with
         | Some cluster => require_org_admin on auth (cl_org_slug cluster)
         | None => require_platform_admin on auth
         end
     | None => require_platform_admin on auth
     end))
    (match nodes (db st) !! id with
     | Some node => match (c ← nd_cluster_slug node; clusters (db st) !! c) with
                    | Some c => by_org auth (cl_org_slug c)
                    | None => by_platform auth
                    end
     | None => false
     end) st.
Proof.
  apply decides_enforced, decides_lookup. change (get_node (db st) id) with (nodes (db st) !! id).
  destruct (nodes (db st) !! id) as [node|]; [|done].
  destruct (nd_cluster_slug node) as [c|]; cbn; [|apply decides_platform].
  change (Queries.get_cluster (db st) c) with (clusters (db st) !! c).
  destruct (clusters (db st) !! c) as [cl|] eqn:E.
  - apply (decides_eq _ (λ on, require_org_admin on auth (cl_org_slug cl))); [|apply decides_org].
    intros on. rewrite read_bind. unfold Queries.get_cluster, read_get. by rewrite E.
  - apply (decides_eq _ (λ on, require_platform_admin on auth)); [|apply decides_platform].
    intros on. rewrite read_bind. unfold Queries.get_cluster, read_get. by rewrite E.
Qed.

(** A handler that starts with its guard; [same] is the condition under which the rest
    of it does not depend on whether authentication is on. *)
Definition guarded {A} (same : Prop) (m : bool → Rest A) (ok : bool) (st : ApiState) : Prop :=
  if ok then same → m true st = m false st else refused (m true) st.
Lemma guarded_bind {A} same guard ok (k : bool → Rest A) st :
  decides guard ok st → (same → k true st = k false st) →
  guarded same (λ on, rpc_bind (guard on) (λ _, k on)) ok st.
Proof.
  unfold guarded. intros H Hk. destruct ok; [|by apply refused_bind].
  unfold rpc_bind. by rewrite !(H _).
Qed.
Lemma guarded_lookup {V A} same (get : Db → option V) msg (k : bool → V → Rest A) ok st :
  match get (db st) with
  | Some v => guarded same (λ on, k on v) ok st
  | None => ok = false
  end →
  guarded same (λ on, let! found := read get in let! v := not_found found msg in k on v) ok st.
Proof.
  unfold guarded, refused. rewrite !read_bind. destruct (get (db st)) as [v|]; [done|].
  intros ->. apply refused_bind, refused_reject. set_solver.
Qed.
Lemma guarded_discard {A} same (m : bool → Rest A) ok st :
  guarded same m ok st → guarded same (λ on, discard (m on)) ok st.
Proof.
  unfold guarded. destruct ok; [|apply refused_bind]. intros H Hs. unfold discard, rpc_bind. by rewrite H.
Qed.

(** The requests whose row records the account that sent them. *)
Definition records_caller (call : RestCall) : bool :=
  match call with
  | RestCreateOrgMember _ _ _ | RestCreateServiceAccount _ _ _ | RestCreateApiKey _ _ _ _ _ => true
  | _ => false
  end.

Context (sha256_hex : string → string).

Lemma handle_guarded w auth call st :
  guarded (records_caller call = false) (λ on, handle on sha256_hex w auth call) (allowed auth (db st) call) st.
Proof.
  destruct call; cbn [allowed handle records_caller]; apply guarded_discard;
    try (apply guarded_bind;
         [ first [ apply decides_platform | apply decides_org | apply decides_org_only | apply decides_project
                 | apply decides_cluster | apply decides_project_org | apply decides_revoke
                 | by apply decides_owned ]
         | first [done | discriminate ] ]).
  apply guarded_lookup. unfold by_cluster, Queries.get_cluster, read_get.
  destruct (clusters (db st) !! slug) as [c|]; [|done]. by apply guarded_bind; [apply decides_org|].
Qed.


(** * What a request leaves alone *)

(** [keep] holds between the states before and after [m]. *)
Definition keeps {A} (keep : ApiState → ApiState → Prop) (m : Rest A) (st : ApiState) : Prop :=
  keep st (m st).2.

(** Guards and reads. *)
Class Pure {A} (m : Rest A) := pure_state : ∀ st, (m st).2 = st.
#[global] Instance pure_ret {A} (a : A) : Pure (rpc_ret a).
Proof. done. Qed.
#[global] Instance pure_reject {A} code msg : Pure (A := A) (reject code msg).
Proof. done. Qed.
#[global] Instance pure_read {A} (f : Db → A) : Pure (read f).
Proof. done. Qed.
#[global] Instance pure_lift {A} (r : result ApiError A) : Pure (lift r).
Proof. done. Qed.
#[global] Instance pure_not_found {A} (o : option A) msg : Pure (not_found o msg).
Proof. by destruct o. Qed.
#[global] Instance pure_bind {A C} (m : Rest A) (k : A → Rest C) :
  Pure m → (∀ a, Pure (k a)) → Pure (rpc_bind m k).
Proof.
  intros Hm Hk st. specialize (Hm st). unfold rpc_bind.
  destruct (m st) as [[a|e] st'] eqn:E; cbn in *; subst; [apply Hk|done].
Qed.
#[global] Instance pure_if {A} (b : bool) (m m' : Rest A) : Pure m → Pure m' → Pure (if b then m else m').
Proof. by destruct b. Qed.
#[global] Instance pure_option {A C} (o : option C) (m : C → Rest A) m' :
  (∀ c, Pure (m c)) → Pure m' → Pure (match o with Some c => m c | None => m' end).
Proof. by destruct o. Qed.
#[global] Instance pure_platform on auth : Pure (require_platform_admin on auth).
Proof. apply _. Qed.
#[global] Instance pure_org on auth org : Pure (require_org_admin on auth org).
Proof. apply _. Qed.
#[global] Instance pure_org_only on auth org : Pure (org_admin_only on auth org).
Proof. apply _. Qed.
#[global] Instance pure_project on auth p : Pure (require_project_access on auth p).
Proof. apply _. Qed.
#[global] Instance pure_enforced on m : Pure m → Pure (if_enforced on m).
Proof. apply _. Qed.
#[global] Instance pure_owned {V} on (get : Db → string → option V) project what auth id :
  Pure (owned on get project what auth id).
Proof. apply _. Qed.
#[global] Instance pure_cluster on auth slug : Pure (cluster_owned on auth slug).
Proof. apply _. Qed.
#[global] Instance pure_account p id : Pure (account_in_project p id).
Proof. apply _. Qed.

Section keeps.
Context (keep : ApiState → ApiState → Prop) `{!PreOrder keep}.

Lemma keeps_pure {A} (m : Rest A) st : Pure m → keeps keep m st.
Proof. intros H. unfold keeps. by rewrite H. Qed.
Lemma keeps_seq {A C} (m : Rest A) (k : A → Rest C) st :
  keeps keep m st → (∀ a st', m st = (Ok a, st') → keeps keep (k a) st') → keeps keep (rpc_bind m k) st.
Proof.
  unfold keeps, rpc_bind. intros Hm Hk. destruct (m st) as [[a|e] st'] eqn:E; [|done].
  etrans; [apply Hm | by apply Hk].
Qed.
Lemma keeps_pure_bind {A C} (m : Rest A) (k : A → Rest C) st :
  Pure m → (∀ a, m st = (Ok a, st) → keeps keep (k a) st) → keeps keep (rpc_bind m k) st.
Proof.
  intros Hp Hk. apply keeps_seq; [by apply keeps_pure|]. intros a st' H.
  assert (st' = st) as -> by (rewrite <-(Hp st); by rewrite H). auto.
Qed.
Lemma keeps_discard {A} (m : Rest A) st : keeps keep m st → keeps keep (discard m) st.
Proof. intros H. apply keeps_seq; [done|]. intros. apply keeps_pure, _. Qed.
Lemma keeps_store {A} w (op : Fresh → Op A) st :
  keep st (api_apply w.1 (op_cmd (op w.2)) st).1.1 → keeps keep (store w op) st.
Proof.
  unfold keeps, store, run_op, write_command. by destruct (api_apply _ _ _) as [[st' r] ev].
Qed.
End keeps.

(** A role that makes its holder administrator of project [q], which belongs to [org]. *)
Definition confers_admin (q : string) (org : option string) (scope : MembershipScope) (role : Role) : bool :=
  match scope, role with
  | ScopePlatform, PlatformAdmin => true
  | ScopeOrg o, OrgAdmin => org == Some o
  | ScopeProject p, ProjectAdmin => p == q
  | _, _ => false
  end.
Definition org_of (q : string) (d : Db) : option string := pj_org_slug <$> projects d !! q.

(** The project [q] and its resources are as they were, and nobody got a role over it. *)
Definition leaves (q : string) (org : option string) (st st' : ApiState) : Prop :=
  db_keyed (db st) →
  db_keyed (db st') ∧ project_rows q (db st') = project_rows q (db st) ∧
  (∀ k m, memberships (db st') !! k = Some m → confers_admin q org (mb_scope m) (mb_role m) = true →
          memberships (db st) !! k = Some m) ∧
  ∀ pj, projects (db st) !! q = Some pj → projects (db st') !! q = Some pj.
#[global] Instance leaves_preorder q org : PreOrder (leaves q org).
Proof.
  split; [by intros st; split|]. intros st1 st2 st3 H12 H23 Hk.
  destruct (H12 Hk) as (Hk2 & Hr2 & Hm2 & ?). destruct (H23 Hk2) as (Hk3 & Hr3 & Hm3 & ?).
  split_and!; [done | congruence | eauto..].
Qed.

Definition harmless (q : string) (org : option string) (d : Db) (cmd : Command) : Prop :=
  acts_on d cmd ≠ Some q ∧ is_forced_delete cmd = false ∧ drops_project cmd ≠ Some q ∧
  match confers cmd with Some (scope, role) => confers_admin q org scope role = false | None => True end.
Lemma apply_leaves q org amb cmd st :
  harmless q org (db st) cmd → leaves q org st (api_apply amb cmd st).1.1.
Proof.
  intros (Ha & Hf & Hd & Hc) Hk. split_and!.
  - by apply apply_keyed.
  - by apply apply_keeps_rows.
  - intros k m Hm Hq. destruct (apply_grants _ _ _ _ _ Hm) as [|H]; [done|].
    rewrite H in Hc. congruence.
  - intros pj. by apply apply_keeps_project.
Qed.

Lemma by_row_other {V} auth d (project : V → string) t id q :
  by_row auth d project t id = true → by_project auth d q = false → project <$> t !! id ≠ Some q.
Proof.
  unfold by_row. destruct (t !! id) as [v|]; [|done]. cbn. intros H Hq [= <-]. congruence.
Qed.
Lemma by_project_other auth d p q : by_project auth d p = true → by_project auth d q = false → Some p ≠ Some q.
Proof. intros H Hq [= <-]. congruence. Qed.
Lemma by_org_other auth d org q :
  by_org auth org = true → by_project auth d q = false → (org_of q d == Some org) = false.
Proof.
  unfold by_org, by_project, org_of, is_project_admin. destruct auth as [ctx|]; [|done].
  intros Ho. destruct (projects d !! q) as [pj|]; cbn; [|done]. intros Hq.
  apply bool_decide_eq_false. intros [= <-]. rewrite Ho in Hq. by destruct (is_platform_admin ctx).
Qed.
Lemma org_drops_other auth d p q :
  match projects d !! p with Some pj => by_org auth (pj_org_slug pj) | None => false end = true →
  by_project auth d q = false → Some p ≠ Some q.
Proof.
  intros H Hq [= ->]. destruct (projects d !! q) as [pj|] eqn:E; [|done].
  pose proof (by_org_other _ _ _ _ H Hq) as Ho. unfold org_of in Ho. rewrite E in Ho. cbn in Ho.
  by rewrite bool_decide_true in Ho.
Qed.
Lemma by_platform_other auth d q org :
  by_platform auth = true → by_project auth d q = false → (org_of q d == Some org) = false.
Proof.
  intros H. apply by_org_other. unfold by_platform, by_org, is_org_admin in *.
  destruct auth as [ctx|]; [|done]. by rewrite H.
Qed.

Lemma run_op_state {A} amb (op : Op A) st : (run_op amb op st).1 = (api_apply amb (op_cmd op) st).1.1.
Proof. unfold run_op, write_command. by destruct (api_apply _ _ _) as [[??] ?]. Qed.

Ltac run_op_step :=
  match goal with
  | |- context [run_op ?a ?o ?s] => pose proof (run_op_state a o s) as E; destruct (run_op a o s) as [st1 r]
  end.

Definition fresh_draw (f : Fresh) (st : ApiState) : Prop := unseen f st ∧ vms (db st) !! f_id f = None.

Lemma rows_of_lookup {V} (project : V → string) q (t t' : gmap string V) k :
  rows_of project id q t' = rows_of project id q t →
  project <$> t' !! k = Some q → project <$> t !! k = Some q.
Proof.
  unfold rows_of. intros H. apply (f_equal (lookup k)) in H. rewrite !lookup_omap in H.
  destruct (t' !! k) as [v'|]; [|done]. cbn in *. intros [= Hv]. rewrite bool_decide_true in H by done.
  destruct (t !! k) as [v|]; cbn in *; [|done]. by case_bool_decide; simplify_eq.
Qed.
Lemma leaves_vm_project q org st st' id :
  db_keyed (db st) → leaves q org st st' →
  vm_project <$> vms (db st) !! id ≠ Some q → vm_project <$> vms (db st') !! id ≠ Some q.
Proof.
  intros Hk Hl Hne H. apply Hne. destruct (Hl Hk) as (_ & Hr & _). unfold project_rows in Hr. simplify_eq.
  by eapply rows_of_lookup.
Qed.

(** The handlers that write twice. *)
Lemma create_vm_leaves q org amb1 amb2 f1 f2 spec st :
  fresh_draw f1 st → db_keyed (db st) → vsp_project_slug spec ≠ q →
  match create_and_schedule_vm amb1 amb2 f1 f2 spec st with
  | Some (st', _) => leaves q org st st'
  | None => True
  end.
Proof.
  intros [Hu Hv] Hk Hne. unfold create_and_schedule_vm.
  destruct (select_node _ _) as [[sr|e]|]; [|done|done].
  pose proof (create_vm_outcome amb1 f1 spec st Hu Hv) as Hc.
  assert (leaves q org st (run_op amb1 (RaftStore.create_vm f1 spec) st).1) as Hl.
  { rewrite run_op_state. apply apply_leaves. split_and!; cbn; [congruence|done..]. }
  destruct (run_op amb1 _ st) as [st1 [vm|e]]; [|by subst]. cbn in Hl.
  destruct Hc as (_ & Hvm & Hid & Hs). rewrite Hid.
  pose proof (run_op_state amb2 (update_vm_status f2 (f_id f1)
    (mkVmStatus VmScheduled (Some (sr_node_id sr)) None (Some (sr_reason sr)))) st1) as E.
  destruct (run_op amb2 _ st1) as [st2 r2]. cbn [fst] in E. subst st2. etrans; [exact Hl|].
  apply apply_leaves. split_and!; [|done..].
  cbn. rewrite Hvm. cbn. unfold vm_project. congruence.
Qed.
Lemma kill_vm_leaves q org w1 w2 id s1 s2 st :
  db_keyed (db st) → vm_project <$> vms (db st) !! id ≠ Some q →
  keeps (leaves q org)
    (store w1 (λ f, update_vm_spec f id s1) ;! store w2 (λ f, update_vm_status f id s2)) st.
Proof.
  intros Hk Hne.
  assert (keeps (leaves q org) (store w1 (λ f, update_vm_spec f id s1)) st) as Hl
    by by apply keeps_store, apply_leaves.
  apply keeps_seq; [apply _|done|]. intros vm st' E. unfold keeps in Hl. rewrite E in Hl. cbn in Hl.
  apply keeps_store, apply_leaves. split_and!; [|done..]. by eapply leaves_vm_project.
Qed.

Ltac harmless_cmd :=
  apply apply_leaves; cbn [op_cmd]; split_and!; cbn;
  [ first [done | by eapply by_row_other | by eapply by_project_other ] | done | done || by eapply org_drops_other
  | first [ done | by eapply by_org_other | by eapply by_platform_other
          | by apply bool_decide_eq_false; intros ->; congruence ] ].

Lemma handle_leaves w auth call st q :
  fresh_draw (w 0%nat).2 st → db_keyed (db st) → by_project auth (db st) q = false →
  keeps (leaves q (org_of q (db st))) (handle true sha256_hex w auth call) st.
Proof.
  intros Hf Hk Hq. pose proof (handle_guarded w auth call st) as Hg. unfold guarded in Hg.
  destruct (allowed auth (db st) call) eqn:Ha; [clear Hg | destruct Hg as (e & He & _); unfold keeps; by rewrite He].
  destruct call; cbn [allowed handle] in *; (apply keeps_discard; [apply _|]);
    repeat (apply keeps_pure_bind; [apply _|apply _|intros ? _]); cbv zeta;
    try match goal with |- keeps _ (if ?b then _ else _) _ => destruct b end;
    try solve [apply keeps_pure; apply _ | apply keeps_store; harmless_cmd].
  - apply keeps_seq; [apply _|apply keeps_store; harmless_cmd|]. intros data st' _.
    destruct auth as [ctx|]; [|apply keeps_pure; apply _]. unfold keeps. cbn [snd].
    rewrite run_op_state. harmless_cmd.
  - unfold keeps, mint_api_key. run_op_step.
    cbn [fst snd] in *. subst. harmless_cmd.
  - unfold keeps. set (spec := mkVmSpec _ _ _ _ _ _ _ _ _ _).
    pose proof (create_vm_leaves q (org_of q (db st)) (w 0%nat).1 (w 1%nat).1 (w 0%nat).2 (w 1%nat).2 spec st) as Hc.
    destruct (create_and_schedule_vm _ _ _ _ _ _) as [[st' r]|]; [|done]. cbn. apply Hc; [done..|].
    cbn. intros ->. congruence.
  - apply kill_vm_leaves; [done|]. by eapply by_row_other.
Qed.

(** ** Outsiders of a project *)

Lemma no_role_no_access ctx d q :
  (∀ m, m ∈ ctx_memberships ctx → confers_admin q (org_of q d) (mb_scope m) (mb_role m) = false) →
  by_project (Some ctx) d q = false.
Proof.
  intros H. unfold by_project, is_project_admin, is_org_admin, is_platform_admin, org_of in *.
  destruct (projects d !! q) as [pj|]; [|done]. cbn in H.
  assert (∀ f, (∀ m, f m = true → confers_admin q (Some (pj_org_slug pj)) (mb_scope m) (mb_role m) = true) →
               existsb f (ctx_memberships ctx) = false) as He.
  { intros f Hf. apply not_true_iff_false. rewrite existsb_exists. intros (m & Hm & Hm').
    apply list_elem_of_In in Hm. specialize (Hf _ Hm'). by rewrite H in Hf. }
  rewrite !He; [done|..]; intros m [Hr Hs]%andb_true_iff; unfold confers_admin;
    repeat (case_bool_decide || case_match || simplify_eq/=); try done; congruence.
Qed.

Lemma login_leaves validate rq st q org :
  let '(st', res) := login (Some validate) None rq st in
  leaves q org st st' ∧ res ≠ PassThrough ∧
  ∀ ctx m, res = Authenticated ctx → m ∈ ctx_memberships ctx →
    mb_account_id m = ac_id (ctx_account ctx) ∧ ∃ k, memberships (db st') !! k = Some m.
Proof.
  unfold login, require_auth. destruct (hr_authorization rq ≫= _) as [token|]; [|done].
  destruct (starts_with "mvirt_sa_" token).
  { destruct (authenticate_static_api_key _ (db st) token) as [ctx|] eqn:H; [|done].
    split_and!; [done..|]. intros ctx' m [= <-] Hm.
    apply authenticate_inv in H as (_ & _ & _ & account & _ & _ & ->). by apply elem_of_account_memberships. }
  destruct (validate token) as [claims|]; [|done].
  run_op_step.
  cbn [fst] in E. assert (leaves q org st st1) by (subst st1; by apply apply_leaves).
  destruct r as [account|e]; [|done].
  split_and!; [done..|]. intros ctx m [= <-] Hm. by apply elem_of_account_memberships.
Qed.

(** Requests served one after the other, each sent by an account of [outsiders] or
    refused by the middleware. *)
Inductive served (validate : string → result string AuthClaims) (outsiders : string → Prop)
    : ApiState → ApiState → Prop :=
  | served_nil st : served validate outsiders st st
  | served_next rq st st' :
      (∀ ctx, (login (Some validate) None rq st).2 = Authenticated ctx → outsiders (ac_id (ctx_account ctx))) →
      fresh_draw (hr_draw rq 0%nat).2 (login (Some validate) None rq st).1 →
      served validate outsiders (serve (Some validate) None sha256_hex rq st).2 st' →
      served validate outsiders st st'.

(** No account of [outsiders] has a role over [q]. *)
Definition outside (outsiders : string → Prop) (q : string) (d : Db) : Prop :=
  ∀ k m, memberships d !! k = Some m → outsiders (mb_account_id m) →
         confers_admin q (org_of q d) (mb_scope m) (mb_role m) = false.

Lemma serve_leaves validate outsiders rq st q :
  db_keyed (db st) → is_Some (projects (db st) !! q) → outside outsiders q (db st) →
  (∀ ctx, (login (Some validate) None rq st).2 = Authenticated ctx → outsiders (ac_id (ctx_account ctx))) →
  fresh_draw (hr_draw rq 0%nat).2 (login (Some validate) None rq st).1 →
  leaves q (org_of q (db st)) st (serve (Some validate) None sha256_hex rq st).2.
Proof.
  intros Hk [pj Hpj] Ho Hout Hf. unfold serve.
  pose proof (login_leaves validate rq st q (org_of q (db st))) as Hl.
  destruct (login (Some validate) None rq st) as [st1 res]. destruct Hl as (Hl & Hp & Hm). cbn in Hout, Hf.
  destruct res as [|code msg|ctx]; [done|done|]. etrans; [exact Hl|].
  destruct (Hl Hk) as (Hk1 & _ & Hg & Hpr). specialize (Hpr _ Hpj).
  assert (org_of q (db st) = org_of q (db st1)) as Horg by (unfold org_of; by rewrite Hpj, Hpr).
  rewrite Horg. apply handle_leaves; [done..|]. apply no_role_no_access. intros m Hmem.
  destruct (Hm ctx m eq_refl Hmem) as [Hacc [k Hmk]]. rewrite <- Horg.
  destruct (confers_admin _ _ _ _) eqn:E; [|done].
  rewrite <- E. apply (Ho k); [by apply Hg|]. rewrite Hacc. by apply Hout.
Qed.


(** ** Reads *)

(** What a successful answer shows. *)
Definition shows {A} (m : Rest A) (st : ApiState) (P : A → Prop) : Prop :=
  match (m st).1 with Ok a => P a | Err _ => True end.

Lemma shows_guarded {A} guard ok (k : Rest A) st (P : A → Prop) :
  decides guard ok st → (ok = true → shows k st P) → shows (rpc_bind (guard true) (λ _, k)) st P.
Proof.
  unfold shows, rpc_bind. intros H Hk. destruct ok; [rewrite (H true); by apply Hk|].
  destruct H as (e & -> & _). done.
Qed.

Lemma list_in_project_confined {V} (rows : Db → string → list V) keep (project : V → string) auth p st :
  (∀ v, In v (rows (db st) p) → project v = p) →
  shows (list_in_project true rows keep auth p) st
    (Forall (λ v, by_project auth (db st) (project v) = true)).
Proof.
  intros Hrows. apply (shows_guarded _ _ _ _ _ (decides_project auth p st)). intros Hp. cbn.
  apply Forall_forall. intros v [Hv _]%filter_In. by rewrite Hrows.
Qed.
Lemma scan_project {V} (project : V → string) (t : Db → gmap string V) d p v :
  In v (List.filter (λ v, project v == p) (read_list d t)) → project v = p.
Proof. intros [_ H]%filter_In. by apply bool_decide_eq_true in H. Qed.

Lemma get_guarded_confined {V} (get : Db → option V) (project : V → string) msg auth st :
  shows (get_guarded true get project msg auth) st (λ v, by_project auth (db st) (project v) = true).
Proof.
  unfold shows, get_guarded. rewrite read_bind. destruct (get (db st)) as [v|]; [|done].
  by apply (shows_guarded _ _ (rpc_ret v) st (λ v, by_project auth (db st) (project v) = true)
              (decides_project auth (project v) st)).
Qed.

(** C9: With authentication on, each resource that a list or a lookup by id or by name shows
    belongs to a project that the caller administers. *)
Theorem rest_reads_confined auth st :
  let mine {V} (project : V → string) (v : V) := by_project auth (db st) (project v) = true in
  (∀ p node, shows (list_vms true auth p node) st (Forall (mine vm_project))) ∧
  (∀ p, shows (list_networks true auth p) st (Forall (mine nw_project_slug))) ∧
  (∀ p net, shows (list_nics true auth p net) st (Forall (mine nic_project))) ∧
  (∀ p node, shows (list_volumes true auth p node) st (Forall (mine volume_project))) ∧
  (∀ p, shows (list_templates true auth p) st (Forall (mine template_project))) ∧
  (∀ p, shows (list_security_groups true auth p) st (Forall (mine sg_project_slug))) ∧
  (∀ id, shows (get_vm true auth id) st (mine vm_project)) ∧
  (∀ id, shows (get_network true auth id) st (mine nw_project_slug)) ∧
  (∀ id, shows (get_nic true auth id) st (mine nic_project)) ∧
  (∀ id, shows (get_volume true auth id) st (mine volume_project)) ∧
  (∀ id, shows (get_import_job true auth id) st (mine template_project)) ∧
  (∀ id, shows (get_security_group true auth id) st (mine sg_project_slug)).
Proof.
  cbv zeta. split_and!; intros; try apply get_guarded_confined;
    try (apply list_in_project_confined; intros v; apply scan_project).
  apply (shows_guarded _ _ _ _ _ (decides_project auth p st)). intros Hp. cbn.
  apply Forall_forall. intros v [_ [Hv _]%andb_true_iff]%filter_In.
  apply bool_decide_eq_true in Hv. unfold volume_project. by rewrite Hv.
Qed.
End rest_facts.
