(* ===== verification/RestGaps.v ===== *)
(** What the guards of the REST API do not cover: memberships deleted across scopes,
    disks used across projects, projects created again under an old slug, and virtual
    machines whose node is forgotten. *)

From S2P Require Import Rpc.
From S2P Require Import Prelude Command Event Externals Ca Db.
From S2P Require Import ApplyCompute ApplyTenancy ApplyIdentity ApplyStorage.
From S2P Require Import Queries Scheduler State RaftStore Examples.
From S2P Require Import Tables StateFacts StoreFacts StateReach StateInv Isolation Auth Rest RestFacts.
From S2P Require Import Reconciler.

Open Scope rpc_scope.

Section gaps.
Context `{R : Redb} `{L : LruCache} `{U : UnicodeText} `{X : X509} `{B : Blake3}.
Context (sha256_hex : string → string).

(** An allowed request whose guard is passed: what is left is the handler's body. *)
Lemma handle_body {A} guard ok (k : Rest A) st :
  decides guard ok st → ok = true → rpc_bind (guard true) (λ _, k) st = k st.
Proof. intros H ->. unfold rpc_bind. by rewrite (H true). Qed.

Lemma store_unseen {A} (w : Draw) (op : Fresh → Op A) st :
  lru_peek (applied_requests st) (cmd_request_id (op_cmd (op w.2))) = None →
  store w op st =
  match run_command w.1 (op_cmd (op w.2)) (db st) with
  | Early r _ => (Rpc.map_err api_error (op_decode (op w.2) r), st)
  | Commit d r _ =>
      (Rpc.map_err api_error (op_decode (op w.2) r),
       mkApiState d (lru_put (cmd_request_id (op_cmd (op w.2))) r (applied_requests st)))
  end.
Proof.
  intros H. unfold store, run_op, write_command, api_apply. rewrite H. by destruct (run_command _ _ _).
Qed.

(** * Memberships *)

(** Whoever administers some project can delete every membership there is through the
    route of that project, the one of the platform administrator included: the handler
    does not compare the scope of the membership with the project. *)
Theorem any_membership_deletable w auth st p k m :
  unseen (w 0%nat).2 st → by_project auth (db st) p = true → memberships (db st) !! k = Some m →
  ∃ st', handle true sha256_hex w auth (RestDeleteProjectMember p k) st = (Ok tt, st') ∧
    memberships (db st') = delete k (memberships (db st)).
Proof.
  intros Hu Hp Hm. unfold handle, discard, delete_project_member. unfold rpc_bind at 1.
  rewrite (handle_body _ _ _ _ (decides_project auth p st) Hp), store_unseen by done.
  cbn [op_cmd run_command delete_membership]. unfold apply_delete_membership, txn_has. rewrite Hm. cbn.
  eexists. split; reflexivity.
Qed.

(** * Projects created again *)

Lemma delete_project_step w auth st q pj :
  unseen (w 0%nat).2 st → projects (db st) !! q = Some pj → by_org auth (pj_org_slug pj) = true →
  handle true sha256_hex w auth (RestDeleteProject q) st =
  (Ok tt, mkApiState ((db st) <| projects := delete q (projects (db st)) |>)
            (lru_put (f_request_id (w 0%nat).2) (RespDeleted q) (applied_requests st))).
Proof.
  intros Hu Hq Ha. unfold handle, discard, delete_project. unfold rpc_bind at 1.
  rewrite (handle_body _ _ _ _ (decides_project_org auth q st)); [|by rewrite Hq].
  rewrite store_unseen by done. cbn [op_cmd run_command RaftStore.delete_project].
  unfold apply_delete_project, txn_has. by rewrite Hq.
Qed.

Lemma create_project_step w auth st org o q name :
  unseen (w 0%nat).2 st → projects (db st) !! q = None → orgs (db st) !! org = Some o → og_slug o = org →
  validate_slug q "Project slug" = Ok tt → by_org auth org = true →
  ∃ pj cache, pj_org_slug pj = org ∧
    handle true sha256_hex w auth (RestCreateProject org q name None) st =
    (Ok tt, mkApiState ((db st) <| projects := <[q := pj]> (projects (db st)) |>) cache).
Proof.
  intros Hu Hq Ho Hs Hv Ha. unfold handle, discard, create_project. unfold rpc_bind at 1.
  rewrite (handle_body _ _ _ _ (decides_org auth org st) Ha). unfold lift at 1. unfold rpc_bind at 1. rewrite Hv.
  rewrite read_bind. unfold Queries.get_org, read_get. rewrite Ho. unfold not_found at 1, rpc_ret at 1, rpc_bind at 1.
  rewrite store_unseen by done. cbn [op_cmd run_command RaftStore.create_project]. rewrite Hs.
  unfold apply_create_project, txn_has. rewrite Hq, Ho. cbn. do 2 eexists. split; [|reflexivity]. reflexivity.
Qed.

(** A project that is deleted leaves its resources and its memberships behind. When
    another organization creates a project of that slug, its administrator administers
    everything the first one owned, and the old members keep their roles. *)
Theorem recreated_project_inherits w1 w2 auth1 auth2 st q pj org o name :
  unseen (w1 0%nat).2 st → unseen (w2 0%nat).2 st →
  f_request_id (w1 0%nat).2 ≠ f_request_id (w2 0%nat).2 →
  db_keyed (db st) → projects (db st) !! q = Some pj → orgs (db st) !! org = Some o →
  validate_slug q "Project slug" = Ok tt →
  by_org auth1 (pj_org_slug pj) = true → by_org auth2 org = true →
  ∃ st1 st2,
    handle true sha256_hex w1 auth1 (RestDeleteProject q) st = (Ok tt, st1) ∧
    handle true sha256_hex w2 auth2 (RestCreateProject org q name None) st1 = (Ok tt, st2) ∧
    by_project auth2 (db st2) q = true ∧ project_rows q (db st2) = project_rows q (db st) ∧
    memberships (db st2) = memberships (db st).
Proof.
  intros Hu1 Hu2 Hne Hk Hq Ho Hv Ha1 Ha2.
  rewrite (delete_project_step w1 auth1 st q pj) by done. set (st1 := mkApiState _ _).
  destruct (create_project_step w2 auth2 st1 org o q name) as (pj' & cache & Hpj & H2).
  - unfold unseen in *. cbn. by destruct (lru_peek_put_ne (f_request_id (w1 0%nat).2) (f_request_id (w2 0%nat).2)
      (RespDeleted q) (applied_requests st) Hne) as [->| ->].
  - apply lookup_delete_eq.
  - done.
  - destruct Hk. by eapply keyed_lookup.
  - done.
  - done.
  - eexists st1, _. split; [done|]. split; [exact H2|]. split_and!; [|done|done].
    unfold by_project, by_org, is_project_admin in *. destruct auth2 as [ctx|]; [|done]. cbn.
    rewrite lookup_insert_eq, Hpj, Ha2. by destruct (is_platform_admin ctx).
Qed.

(** * Disks of other projects *)

(** The specification [create_vm] stores. *)
Definition rest_vm_spec (p name volume_id nic_id image : string) : VmSpec :=
  mkVmSpec name p None 1 512 volume_id nic_id image None DesiredRunning.

Lemma create_vm_accepted amb f spec st nic :
  fresh_draw f st → nics (db st) !! vsp_nic_id spec = Some nic → nsp_vm_id (nic_spec nic) = None →
  existsb (λ v, (vm_project v == vsp_project_slug spec) && (vsp_name (vm_spec v) == vsp_name spec))
    (txn_list vms (db st)) = false →
  is_ok (run_op amb (RaftStore.create_vm f spec) st).2 = true.
Proof.
  intros [Hu Hv] Hn Hl Hname. unfold run_op, write_command, api_apply.
  cbn [op_cmd RaftStore.create_vm cmd_request_id]. rewrite Hu. cbn [run_command].
  unfold apply_create_vm, txn_get, vm_project in *. by rewrite Hname, Hv, Hn, Hl.
Qed.
Lemma create_vm_volumes amb f spec st :
  volumes (db (run_op amb (RaftStore.create_vm f spec) st).1) = volumes (db st).
Proof.
  rewrite run_op_state. unfold api_apply. repeat case_match; try done. cbn [op_cmd RaftStore.create_vm] in *.
  match goal with H : run_command _ _ _ = _ |- _ => by inv_outcome H end.
Qed.
Lemma update_vm_status_volumes amb f id s st :
  volumes (db (run_op amb (update_vm_status f id s) st).1) = volumes (db st).
Proof.
  rewrite run_op_state. unfold api_apply. repeat case_match; try done. cbn [op_cmd update_vm_status] in *.
  match goal with H : run_command _ _ _ = _ |- _ => by inv_outcome H end.
Qed.

(** A VM that was accepted is scheduled, and the volumes are as they were. *)
Lemma create_and_schedule_ok amb1 amb2 f1 f2 spec st nic sr :
  fresh_draw f1 st → unseen f2 st → f_request_id f1 ≠ f_request_id f2 →
  nics (db st) !! vsp_nic_id spec = Some nic → nsp_vm_id (nic_spec nic) = None →
  existsb (λ v, (vm_project v == vsp_project_slug spec) && (vsp_name (vm_spec v) == vsp_name spec))
    (txn_list vms (db st)) = false →
  select_node (list_nodes (db st)) spec = Some (Ok sr) →
  ∃ st' vm, create_and_schedule_vm amb1 amb2 f1 f2 spec st = Some (st', Ok vm) ∧
    vms (db st') !! f_id f1 = Some vm ∧ vm_spec vm = spec ∧
    vst_node_id (vm_status vm) = Some (sr_node_id sr) ∧ volumes (db st') = volumes (db st).
Proof.
  intros Hf Hu2 Hne Hn Hl Hname Hsel. pose proof (create_vm_accepted amb1 f1 spec st nic Hf Hn Hl Hname) as Hok.
  destruct Hf as [Hu1 Hv]. pose proof (create_vm_outcome amb1 f1 spec st Hu1 Hv) as Hc.
  pose proof (create_vm_volumes amb1 f1 spec st) as Hvol. unfold create_and_schedule_vm. rewrite Hsel.
  destruct (run_op amb1 _ st) as [st1 [vm|e]]; [|done]. destruct Hc as (Hcache & Hvm & Hvid & Hs). cbn in Hvol.
  rewrite Hvid. set (s := mkVmStatus _ _ _ _).
  destruct (update_vm_status_outcome amb2 f2 (f_id f1) s st1 vm) as (vm' & Hr & Hvm' & Hs' & Hst); [|done|].
  { unfold unseen in *. rewrite Hcache.
    by destruct (lru_peek_put_ne (f_request_id f1) (f_request_id f2) (RespVm vm) (applied_requests st) Hne)
      as [->| ->]. }
  pose proof (update_vm_status_volumes amb2 f2 (f_id f1) s st1) as Hvol'.
  destruct (run_op amb2 _ st1) as [st2 r2]. cbn in *. subst r2. exists st2, vm'.
  split_and!; [done|done|congruence|by rewrite Hst|congruence].
Qed.


(** * Virtual machines without a node *)

Context `{VC : VmClient} `{ZC : ZfsClient} `{NC : NetClient}.

(** The controller does nothing for [id], on any node and whatever runs there. *)
Definition unattended (id : string) (st : ApiState) : Prop :=
  ∀ w (c : Ctl), ct_state c = st → vm_reconcile w id c = c.

Lemma no_node_unattended id st vm :
  vms (db st) !! id = Some vm → vst_node_id (vm_status vm) = None → unattended id st.
Proof.
  intros Hv Hn w c Hc. unfold vm_reconcile, Queries.get_vm, read_get. by rewrite Hc, Hv, Hn.
Qed.

(** The first half of a start, a stop and a kill. *)
Lemma set_desired_step w auth st id vm s :
  unseen w.2 st → vms (db st) !! id = Some vm → by_row auth (db st) vm_project (vms (db st)) id = true →
  ∃ vm' cached,
    (vm_owned true auth id ;! store w (λ f, update_vm_spec f id s)) st =
    (Ok vm', mkApiState ((db st) <| vms := <[id := vm']> (vms (db st)) |>)
               (lru_put (f_request_id w.2) cached (applied_requests st))).
Proof.
  intros Hu Hv Ha.
  rewrite (handle_body (λ on, vm_owned on auth id) _ _ _
    (decides_owned Queries.get_vm vm_project "VM" (vms (db st)) auth id st eq_refl) Ha).
  rewrite store_unseen by done. cbn [op_cmd update_vm_spec run_command]. unfold apply_update_vm_spec, txn_get.
  rewrite Hv. cbn. do 2 eexists. reflexivity.
Qed.

(** A status written without a node. *)
Lemma status_without_node amb f st id vm phase msg :
  unseen f st → vms (db st) !! id = Some vm →
  ∃ vm', run_op amb (update_vm_status f id (mkVmStatus phase None None msg)) st =
           ((run_op amb (update_vm_status f id (mkVmStatus phase None None msg)) st).1, Ok vm') ∧
    let st' := (run_op amb (update_vm_status f id (mkVmStatus phase None None msg)) st).1 in
    vms (db st') !! id = Some vm' ∧ vst_phase (vm_status vm') = phase ∧ unattended id st'.
Proof.
  intros Hu Hv. destruct (update_vm_status_outcome amb f id (mkVmStatus phase None None msg) st vm Hu Hv)
    as (vm' & Hr & Hvm & _ & Hs). exists vm'. split; [by rewrite <- Hr; destruct (run_op _ _ _)|].
  split_and!; [done|by rewrite Hs|]. eapply no_node_unattended; [done|by rewrite Hs].
Qed.

(** A kill writes the status of the VM without its node, and so does the task that a
    start leaves behind: the controller does nothing for the VM from then on, whatever
    runs on the nodes, although it is recorded as stopped, or as running. *)
Theorem transitions_forget_node w auth st id vm :
  unseen (w 0%nat).2 st → unseen (w 1%nat).2 st →
  f_request_id (w 0%nat).2 ≠ f_request_id (w 1%nat).2 →
  vms (db st) !! id = Some vm → by_row auth (db st) vm_project (vms (db st)) id = true →
  (∃ st' vm', handle true sha256_hex w auth (RestKillVm id) st = (Ok tt, st') ∧
     vms (db st') !! id = Some vm' ∧ vst_phase (vm_status vm') = VmStopped ∧ unattended id st') ∧
  (∃ st1 vm', handle true sha256_hex w auth (RestStartVm id) st = (Ok tt, st1) ∧
     let st' := simulated_transition (w 1%nat) id VmRunning st1 in
     vms (db st') !! id = Some vm' ∧ vst_phase (vm_status vm') = VmRunning ∧ unattended id st').
Proof.
  intros Hu0 Hu1 Hne Hv Ha.
  assert (∀ d cached, unseen (w 1%nat).2 (mkApiState d (lru_put (f_request_id (w 0%nat).2) cached
    (applied_requests st)))) as Hu.
  { intros d cached. unfold unseen in *. cbn.
    by destruct (lru_peek_put_ne (f_request_id (w 0%nat).2) (f_request_id (w 1%nat).2) cached
      (applied_requests st) Hne) as [->| ->]. }
  split.
  - destruct (set_desired_step (w 0%nat) auth st id vm DesiredStopped Hu0 Hv Ha) as (vm1 & cached & H1).
    edestruct (status_without_node (w 1%nat).1 (w 1%nat).2) as (vm' & Hr & Hvm & Hp & Hun);
      [apply (Hu ((db st) <| vms := <[id := vm1]> (vms (db st)) |>) cached)|apply lookup_insert_eq|].
    do 2 eexists. split; [|split_and!; [exact Hvm|exact Hp|exact Hun]].
    unfold handle, discard, kill_vm. unfold rpc_bind in H1 |- *.
    destruct (vm_owned true auth id st) as [[[]|] st0]; [|done].
    destruct (store (w 0%nat) _ st0) as [[v|] st1]; [|done]. injection H1 as -> ->.
    unfold store. by rewrite Hr.
  - destruct (set_desired_step (w 0%nat) auth st id vm DesiredRunning Hu0 Hv Ha) as (vm1 & cached & H1).
    edestruct (status_without_node (w 1%nat).1 (w 1%nat).2) as (vm' & Hr & Hvm & Hp & Hun);
      [apply (Hu ((db st) <| vms := <[id := vm1]> (vms (db st)) |>) cached)|apply lookup_insert_eq|].
    do 2 eexists. split; [|split_and!; [exact Hvm|exact Hp|exact Hun]].
    unfold handle, discard, start_vm. unfold rpc_bind at 1. by rewrite H1.
Qed.
End gaps.
