(* ===== verification/RestExamples.v ===== *)
(** Two organizations on one control plane: acme with the project web, and zeta with
    the project shop. The theorems on the REST API are instantiated at them. *)

From S2P Require Import Rpc Vmm.
From S2P Require Import Prelude Command Event Externals Ca Db.
From S2P Require Import ApplyCompute ApplyTenancy ApplyIdentity ApplyStorage.
From S2P Require Import Queries Scheduler State RaftStore Examples.
From S2P Require Import Tables StateFacts StoreFacts StateReach StateInv Isolation Auth Rest RestFacts.
From S2P Require Import Reconciler NodeExamples RestGaps.

Import AuthModel.

Definition rx_hash : string := blake3_to_hex (blake3_hash "s3cret").

(** web has the base example's resources and a ready disk; shop has a service account
    with a key, and a NIC; zeta has an administrator. *)
Definition rx_log : list Command :=
  nx_ready ++
  [CreateOrg "x1" ex_now "zeta" "Zeta" ex_contact;
   CreateProject "x2" ex_now "zeta" "shop" "Shop" None;
   CreateServiceAccount "x3" ex_now "sa1" "m1" "shop" "ci" None "admin";
   CreateStaticApiKey "x4" ex_now "key1" "sa1" rx_hash "s3cr" None None "admin";
   CreateAccountByEmail "x5" ex_now "zoe" "zoe@example.org" None;
   CreateMembership "x6" ex_now "m2" "zoe" (ScopeOrg "zeta") OrgAdmin "admin";
   CreateAccountByEmail "x7" ex_now "root" "root@example.org" None;
   BootstrapInitialPlatformAdmin "x8" ex_now "m3" "root";
   CreateNetwork "x9" "net2" ex_now "shop" "lan" true None false None [] [] false;
   CreateNic "x10" "nic9" ex_now "shop" "net2" None None None None [] [] None;
   RegisterNode "x11" "node9" ex_now "host9" "addr" (mkNodeResources 8 8192 100 8 8192 100) ∅].
Definition rx_state : ApiState := ex_run rx_log.

Definition rx_draw (n i : nat) : Draw :=
  (ex_amb, mkFresh ("w" +:+ pretty n +:+ "-" +:+ pretty i) ("id" +:+ pretty n +:+ "-" +:+ pretty i) "" ex_now).
Definition rx_context (id : string) : option AuthContext :=
  account ← accounts (db rx_state) !! id;
  Some (mkAuthContext ex_claims account (list_memberships_for_account (db rx_state) id)).

Example rx_commits : map (λ c, resp_is_error (api_apply ex_amb c rx_state).1.2) rx_log = replicate 25 false.
Proof. vm_compute. reflexivity. Qed.

Lemma rx_keyed : db_keyed (db rx_state).
Proof. exact (proj1 (reachable_wf _ _ _ (reachable_log (ex_log rx_log)))). Qed.

(** ** The service account of shop sends requests *)

Definition rx_request (n : nat) (call : RestCall) : HttpRequest :=
  mkHttpRequest (Some "Bearer mvirt_sa_key1.s3cret") ex_now (rx_draw n) (rx_draw n 8, rx_draw n 9) call.
Definition rx_requests : list HttpRequest :=
  [rx_request 1 (RestCreateNetwork "shop" "dmz" true None false None [] [] false);
   rx_request 2 (RestDeleteVm "vm1");
   rx_request 3 (RestCreateProjectMember "web" "sa1" "project-admin")].
Definition rx_no_jwt : string → result string AuthClaims := λ _, Err "no token".
Definition rx_after (l : list HttpRequest) : ApiState :=
  foldl (λ st rq, (serve (Some rx_no_jwt) None id rq st).2) rx_state l.

(** What each request is answered, and whether shop got its network. *)
Example rx_answers :
  map (λ i, Rpc.map_err into_response (serve (Some rx_no_jwt) None id
                (nth i rx_requests (rx_request 9 (RestDeleteVm ""))) (rx_after (take i rx_requests))).1) (seq 0 3) =
    [Ok tt; Err 403; Err 403]%N ∧
  is_some (networks (db (rx_after rx_requests)) !! "id1-0") = true.
Proof. vm_compute. done. Qed.

Lemma rx_outside : outside (λ a, a = "sa1") "web" (db rx_state).
Proof.
  assert (map_Forall (λ _ m, mb_account_id m = "sa1" →
    confers_admin "web" (org_of "web" (db rx_state)) (mb_scope m) (mb_role m) = false)
    (memberships (db rx_state))) as H.
  { refine (bool_decide_unpack _ _). vm_compute. exact I. }
  intros k m Hm Ho. by apply (H k m).
Qed.

(** The requests of the session are all from [a] and draw fresh ids. *)
Definition sent_by (a : string) (rq : HttpRequest) (st : ApiState) : bool :=
  let '(st1, res) := login (Some rx_no_jwt) None rq st in
  match res with Authenticated ctx => ac_id (ctx_account ctx) == a | _ => true end &&
  is_none (lru_peek (applied_requests st1) (f_request_id (hr_draw rq 0%nat).2)) &&
  is_none (vms (db st1) !! f_id (hr_draw rq 0%nat).2).
Fixpoint session_by (a : string) (l : list HttpRequest) (st : ApiState) : bool :=
  match l with
  | [] => true
  | rq :: l => sent_by a rq st && session_by a l (serve (Some rx_no_jwt) None id rq st).2
  end.
Lemma session_served a l st :
  session_by a l st = true →
  served id rx_no_jwt (λ x, x = a) st (foldl (λ st rq, (serve (Some rx_no_jwt) None id rq st).2) st l).
Proof.
  revert st. induction l as [|rq l IH]; intros st; [intros _; apply served_nil|].
  intros [Hs Hl]%andb_true_iff. apply (served_next _ _ _ rq); [..|by apply IH]; unfold sent_by in Hs;
    destruct (login _ _ _ _) as [st1 res]; apply andb_true_iff in Hs as [[H1 H2]%andb_true_iff H3].
  - cbn. intros ctx ->. by apply bool_decide_eq_true in H1.
  - split; by apply is_none_true.
Qed.


(** ** The gaps *)

Definition rx_admin (k : string) : bool :=
  match memberships (db rx_state) !! k with
  | Some m => (mb_scope m == ScopePlatform) && (mb_role m == PlatformAdmin)
  | None => false
  end.

(** The service account of shop takes the platform administrator's role away. *)
Lemma any_membership_deletable_witness :
  ∃ st', handle true id (rx_draw 1) (rx_context "sa1") (RestDeleteProjectMember "shop" "m3") rx_state = (Ok tt, st') ∧
    memberships (db st') = delete "m3" (memberships (db rx_state)) ∧ rx_admin "m3" = true.
Proof.
  assert (H : is_some (memberships (db rx_state) !! "m3") = true) by (vm_compute; reflexivity).
  apply is_some_true in H as [m Hm].
  destruct (any_membership_deletable id (rx_draw 1) (rx_context "sa1") rx_state "shop" "m3" m) as (st' & H1 & H2);
    [vm_compute; reflexivity|vm_compute; reflexivity|exact Hm|].
  exists st'. split; [exact H1|]. split; [exact H2|]. vm_compute. reflexivity.
Defined.

(** root deletes web, zoe creates it again in zeta: the machine of acme is theirs. *)
Lemma recreated_project_inherits_witness :
  ∃ st1 st2,
    handle true id (rx_draw 1) (rx_context "root") (RestDeleteProject "web") rx_state = (Ok tt, st1) ∧
    handle true id (rx_draw 2) (rx_context "zoe") (RestCreateProject "zeta" "web" "Mine" None) st1 = (Ok tt, st2) ∧
    by_project (rx_context "zoe") (db st2) "web" = true ∧ by_project (rx_context "zoe") (db rx_state) "web" = false ∧
    project_rows "web" (db st2) = project_rows "web" (db rx_state) ∧ is_some (vms (db rx_state) !! "vm1") = true.
Proof.
  assert (H : is_some (projects (db rx_state) !! "web") = true) by (vm_compute; reflexivity).
  apply is_some_true in H as [pj Hpj].
  assert (H : is_some (orgs (db rx_state) !! "zeta") = true) by (vm_compute; reflexivity).
  apply is_some_true in H as [o Ho].
  assert (Ha : by_org (rx_context "root") (pj_org_slug pj) = true).
  { assert (∀ org, by_org (rx_context "root") org = true) as ->; [|done]. intros org. vm_compute. reflexivity. }
  destruct (recreated_project_inherits id (rx_draw 1) (rx_draw 2) (rx_context "root") (rx_context "zoe") rx_state
    "web" pj "zeta" o "Mine") as (st1 & st2 & H1 & H2 & H3 & H4 & _);
    [vm_compute; reflexivity|vm_compute; reflexivity|vm_compute; discriminate|exact rx_keyed|exact Hpj|exact Ho
    |vm_compute; reflexivity|exact Ha|vm_compute; reflexivity|].
  exists st1, st2. split; [exact H1|]. split; [exact H2|]. split; [exact H3|]. split; [vm_compute; reflexivity|].
  split; [exact H4|]. vm_compute. reflexivity.
Defined.


(** root kills the machine of web: it goes on running on its node. *)
Lemma transitions_forget_node_witness :
  ∃ st', handle true id (rx_draw 1) (rx_context "root") (RestKillVm "vm1") rx_state = (Ok tt, st') ∧
    ∀ w, vm_reconcile w "vm1" (nx_ctl st' (nx_plain (nx_vms VsRunning)) []) =
         nx_ctl st' (nx_plain (nx_vms VsRunning)) [].
Proof.
  assert (H : is_some (vms (db rx_state) !! "vm1") = true) by (vm_compute; reflexivity).
  apply is_some_true in H as [vm Hvm].
  destruct (transitions_forget_node id (rx_draw 1) (rx_context "root") rx_state "vm1" vm) as [(st' & vm' & H1 & H2) _];
    [vm_compute; reflexivity|vm_compute; reflexivity|vm_compute; discriminate|exact Hvm|vm_compute; reflexivity|].
  exists st'. split; [exact H1|]. intros w. apply H2. reflexivity.
Defined.
