(* ===== verification/LogStore.v ===== *)
(** The log service (mvirt-log): its command and entries (command.rs), the storage with
    its index by object (storage.rs), the batcher that stamps entries (batcher.rs) and the
    query request (main.rs).

    redb, ulid and prost are libraries: an ordered store whose ranges come in ascending
    order, identifiers of 48 bits of time and 80 bits of randomness, and an encoding that
    reads back. *)

From S2P Require Import Prelude Externals.

(** * Entries and commands *)

Record LogEntry := mkLogEntry {
  le_id : string;
  le_timestamp_ns : Z;                (* i64 *)
  le_message : string;
  le_level : Z;                       (* i32 *)
  le_component : string;
  le_related_object_ids : list string;
}.
#[export] Instance eta_LogEntry : Eta LogEntry := λ e,
  mkLogEntry (le_id e) (le_timestamp_ns e) (le_message e) (le_level e) (le_component e)
    (le_related_object_ids e).

(** [SerializableLogEntry] has the same fields. *)
Inductive LogCommand := AppendBatch (entries : list LogEntry).
Inductive LogCommandResponse := LogOk.

(** * Libraries *)

(** [Ulid::from_parts] drops the bits that do not fit. *)
Class UlidCrate := {
  ulid_from_parts : N → N → N;
  ulid_to_string : N → string;
  ulid_parse : string → option N;
  ulid_from_parts_eq : ∀ ms r, ulid_from_parts ms r = ((ms mod 2 ^ 48) * 2 ^ 80 + r mod 2 ^ 80)%N;
  ulid_parse_to_string : ∀ u, (u < 2 ^ 128)%N → ulid_parse (ulid_to_string u) = Some u;
}.

(** [encode_to_vec] and [decode] of a message. *)
Class Prost (A : Type) := {
  prost_bytes : Type;
  prost_encode : A → prost_bytes;
  prost_decode : prost_bytes → option A;
  prost_decode_encode : ∀ a, prost_decode (prost_encode a) = Some a;
}.

(** Ranges with both ends included, of a table of [u128] keys and of the index of one
    object. Nothing is promised for a range whose start is past its end. *)
Class RedbRange := {
  range_logs : ∀ {V : Type}, gmap N V → N → N → list (N * V);
  range_logs_elem : ∀ {V} (t : gmap N V) lo hi k v, (lo ≤ hi)%N →
    (k, v) ∈ range_logs t lo hi ↔ t !! k = Some v ∧ (lo ≤ k ≤ hi)%N;
  range_logs_sorted : ∀ {V} (t : gmap N V) lo hi, (lo ≤ hi)%N →
    StronglySorted N.lt (range_logs t lo hi).*1;
  range_index : gset (string * N) → string → N → N → list N;
  range_index_elem : ∀ t obj lo hi k, (lo ≤ hi)%N →
    k ∈ range_index t obj lo hi ↔ (obj, k) ∈ t ∧ (lo ≤ k ≤ hi)%N;
  range_index_sorted : ∀ t obj lo hi, (lo ≤ hi)%N → StronglySorted N.lt (range_index t obj lo hi);
}.

(** * Storage *)

Record LogDb `{P : Prost LogEntry} := mkLogDb {
  lg_logs : gmap N prost_bytes;
  lg_objects : gset (string * N);
  lg_components : gset (string * Z * N);
}.
#[global] Arguments mkLogDb {P} _ _ _.
#[export] Instance eta_LogDb `{P : Prost LogEntry} : Eta LogDb := λ d, mkLogDb (lg_logs d) (lg_objects d) (lg_components d).
Definition log_db_new `{P : Prost LogEntry} : LogDb := mkLogDb ∅ ∅ ∅.

Definition I64_MAX : Z := 2 ^ 63 - 1.
(** [x as u64] of an [i64]. *)
Definition i64_as_u64 (x : Z) : N := Z.to_N (x mod 2 ^ 64).
Definition NS_PER_MS : Z := 1000000.

Section log.
Context `{UC : UlidCrate} `{P : Prost LogEntry} `{RR : RedbRange}.

(** One entry of the loop of [append_batch]. *)
Definition insert_entry (key : N) (entry : LogEntry) (d : LogDb) : LogDb :=
  let d := d <| lg_logs := <[key := prost_encode entry]> (lg_logs d) |> in
  let d := d <| lg_objects := foldl (λ t obj_id, {[ (obj_id, key) ]} ∪ t) (lg_objects d)
                                (le_related_object_ids entry) |> in
  d <| lg_components := {[ (le_component entry, le_level entry, key) ]} ∪ lg_components d |>.

(** The loop inside the transaction; an error drops the transaction. *)
Fixpoint append_entries (entries : list LogEntry) (d : LogDb) : result string LogDb :=
  match entries with
  | [] => Ok d
  | entry :: entries =>
      match ulid_parse (le_id entry) with
      | Some key => append_entries entries (insert_entry key entry d)
      | None => Err "Invalid ULID in entry"
      end
  end.
Definition append_batch (entries : list LogEntry) (d : LogDb) : result string unit * LogDb :=
  match append_entries entries d with
  | Ok d' => (Ok tt, d')
  | Err e => (Err e, d)
  end.

(** [LogStateMachine::apply]: an error is logged and the answer is Ok. *)
Definition log_apply (cmd : LogCommand) (d : LogDb) : LogCommandResponse * LogDb :=
  let '(AppendBatch entries) := cmd in (LogOk, (append_batch entries d).2).

(** The loops of [query]: [rows] are the encoded entries the range yields. *)
Fixpoint collect (limit : nat) (rows : list prost_bytes) : result string (list LogEntry) :=
  match limit, rows with
  | O, _ | _, [] => Ok []
  | S limit, bytes :: rows =>
      match prost_decode bytes with
      | None => Err "decode"
      | Some entry => let? rest := collect limit rows in Ok (entry :: rest)
      end
  end.

Definition window (start_ns end_ns : option Z) : N * N :=
  let start_ms := Z.quot (default 0%Z start_ns) NS_PER_MS in
  let end_ms := Z.quot (default I64_MAX end_ns) NS_PER_MS in
  (ulid_from_parts (i64_as_u64 start_ms) 0, ulid_from_parts (i64_as_u64 end_ms) (2 ^ 128 - 1)).

Definition query (object_id : option string) (start_ns end_ns : option Z) (limit : nat) (d : LogDb)
    : result string (list LogEntry) :=
  let '(min_ulid, max_ulid) := window start_ns end_ns in
  match object_id with
  | Some obj =>
      collect limit (omap (λ k, lg_logs d !! k) (range_index (lg_objects d) obj min_ulid max_ulid))
  | None => collect limit (range_logs (lg_logs d) min_ulid max_ulid).*2
  end.

(** [MyLogService::query]: the defaults of the request. *)
Definition query_request (object_id : option string) (start_ns end_ns : option Z) (limit : u32) (d : LogDb)
    : result string (list LogEntry) :=
  query (match object_id with Some o => if str_is_empty o then None else Some o | None => None end)
    start_ns end_ns (if (limit =? 0)%N then 100%nat else N.to_nat limit) d.

(** * The batcher *)

(** What an entry gets before it is proposed; [now] is the clock, if it is past 1970, and
    [random] 128 drawn bits. *)
Definition stamp (now : option Z) (random : N) (entry : LogEntry) : LogEntry :=
  let entry :=
    if (le_timestamp_ns entry =? 0)%Z
    then match now with Some ns => entry <| le_timestamp_ns := ns |> | None => entry end
    else entry in
  let ms := i64_as_u64 (Z.quot (le_timestamp_ns entry) NS_PER_MS) in
  entry <| le_id := ulid_to_string (ulid_from_parts ms random) |>.
Definition BATCH_SIZE : nat := 100.
(** What one round takes from the channel, of what is queued within the time limit. *)
Definition take_batch (queue : list LogEntry) : list LogEntry * list LogEntry :=
  (take BATCH_SIZE queue, drop BATCH_SIZE queue).
End log.
