(* ===== verification/LogFacts.v ===== *)
(** The log service finds what was logged: the index by object agrees with a scan of all
    entries, an entry is found in every window of time around its stamp, and applying a
    batch again changes nothing. *)

From S2P Require Import Prelude Externals LogStore.

Section facts.
Context `{UC : UlidCrate} `{P : Prost LogEntry} `{RR : RedbRange}.

(** * Consistency of the tables *)

(** Each row sits under the id of its entry, and the index has exactly the objects the
    entries name. *)
Record log_consistent (d : LogDb) : Prop := {
  lc_rows : ∀ k b, lg_logs d !! k = Some b → ∃ e, b = prost_encode e ∧ ulid_parse (le_id e) = Some k;
  lc_index : ∀ o k, (o, k) ∈ lg_objects d ↔
    ∃ e, lg_logs d !! k = Some (prost_encode e) ∧ o ∈ le_related_object_ids e;
}.

(** No id is used for two entries. *)
Definition compatible (entries : list LogEntry) (d : LogDb) : Prop :=
  ∀ e k, e ∈ entries → ulid_parse (le_id e) = Some k →
    (∀ b, lg_logs d !! k = Some b → b = prost_encode e) ∧
    (∀ e', e' ∈ entries → ulid_parse (le_id e') = Some k → e' = e).

Lemma prost_encode_inj e e' : prost_encode e = prost_encode e' → e = e'.
Proof. intros H. apply (f_equal prost_decode) in H. rewrite !prost_decode_encode in H. by injection H. Qed.

Lemma elem_of_objects (os : list string) (key : N) (t : gset (string * N)) (o : string) (k : N) :
  (o, k) ∈ foldl (λ t obj, {[ (obj, key) ]} ∪ t) t os ↔ (o ∈ os ∧ k = key) ∨ (o, k) ∈ t.
Proof. revert t. induction os as [|x os IH]; intros t; cbn; [set_solver|]. rewrite IH. set_solver. Qed.

Lemma log_consistent_new : log_consistent log_db_new.
Proof.
  split; cbn; [by intros k b; rewrite lookup_empty|]. intros o k. split; [set_solver|].
  intros (e & H & _). by rewrite lookup_empty in H.
Qed.

Lemma insert_consistent key e d :
  log_consistent d → ulid_parse (le_id e) = Some key →
  (∀ b, lg_logs d !! key = Some b → b = prost_encode e) → log_consistent (insert_entry key e d).
Proof.
  intros [Hr Hi] Hk Hold. split; cbn.
  - intros k b [[<- <-]|[_ H]]%lookup_insert_Some; eauto.
  - intros o k. rewrite elem_of_objects, Hi. split.
    + intros [[Ho ->]|(e' & He' & Ho)]; [exists e; by rewrite lookup_insert_eq|].
      destruct (decide (k = key)) as [->|]; [|exists e'; by rewrite lookup_insert_ne].
      exists e. rewrite lookup_insert_eq. split; [done|]. apply Hold, prost_encode_inj in He'. by subst.
    + intros (e' & [[<- He']|[Hne He']]%lookup_insert_Some & Ho); [|eauto].
      apply prost_encode_inj in He'. subst. by left.
Qed.

Lemma append_consistent entries d :
  log_consistent d → compatible entries d → log_consistent (append_batch entries d).2.
Proof.
  unfold append_batch. intros Hd Hc.
  destruct (append_entries entries d) as [d'|] eqn:E; cbn; [|done].
  revert d Hd Hc E. induction entries as [|e entries IH]; intros d Hd Hc E; cbn in E; [by simplify_eq|].
  destruct (ulid_parse (le_id e)) as [key|] eqn:Hk; [|done].
  destruct (Hc e key) as [Hold Hsame]; [left|done|].
  apply (IH (insert_entry key e d)); [by apply insert_consistent| |done].
  intros e' k He' Hk'. destruct (Hc e' k) as [Hold' Hsame']; [by right|done|]. split.
  - cbn. intros b [[<- <-]|[_ ?]]%lookup_insert_Some; [|eauto].
    f_equal. apply Hsame'; [left|done].
  - intros e'' He''. apply Hsame'. by right.
Qed.

(** * Queries *)

Lemma collect_encoded n es : collect n (map prost_encode es) = Ok (take n es).
Proof.
  revert n. induction es as [|e es IH]; intros [|n]; cbn; try done. rewrite prost_decode_encode, IH. done.
Qed.

(** The entries in a range of ids, oldest first. *)
Definition entries_between (d : LogDb) (lo hi : N) : list LogEntry :=
  omap prost_decode (range_logs (lg_logs d) lo hi).*2.

Lemma decode_rows (rows : list (N * prost_bytes)) :
  Forall (λ r, ∃ e, r.2 = prost_encode e) rows → rows.*2 = map prost_encode (omap prost_decode rows.*2).
Proof.
  induction 1 as [|[k b] rows [e He] _ IH]; [done|]. cbn in *. subst b.
  rewrite prost_decode_encode. cbn. by rewrite <- IH.
Qed.

Lemma range_encoded d lo hi :
  log_consistent d → (lo ≤ hi)%N →
  Forall (λ r, ∃ e, r.2 = prost_encode e) (range_logs (lg_logs d) lo hi).
Proof.
  intros [Hr _] Hle. apply Forall_forall. intros [k b] Hin.
  apply list_elem_of_In, range_logs_elem in Hin as [Hb _]; [|done]. destruct (Hr _ _ Hb) as (e & -> & _). by exists e.
Qed.

(** A sorted list is determined by its elements. *)
Lemma sorted_keys_eq (l l' : list N) :
  StronglySorted N.lt l → StronglySorted N.lt l' → (∀ k, k ∈ l ↔ k ∈ l') → l = l'.
Proof.
  revert l'. induction l as [|x l IH]; intros [|y l'] Hl Hl' He; [done| | |].
  - exfalso. apply (not_elem_of_nil y), He. left.
  - exfalso. apply (not_elem_of_nil x), He. left.
  - apply StronglySorted_inv in Hl as [Hl Hx], Hl' as [Hl' Hy]. rewrite List.Forall_forall in Hx, Hy.
    assert (x = y) as ->.
    { assert (x ∈ y :: l') as H1 by (apply He; left). assert (y ∈ x :: l) as H2 by (apply He; left).
      apply elem_of_cons in H1 as [->|H1]; [done|]. apply elem_of_cons in H2 as [->|H2]; [done|].
      apply list_elem_of_In in H1, H2. specialize (Hy _ H1). specialize (Hx _ H2). lia. }
    f_equal. apply IH; [done..|]. intros k. specialize (He k). rewrite !elem_of_cons in He.
    split; intros Hk; pose proof (proj1 (list_elem_of_In _ _) Hk) as Hk'.
    + destruct (proj1 He) as [->|]; [by right| |done]. specialize (Hx _ Hk'). lia.
    + destruct (proj2 He) as [->|]; [by right| |done]. specialize (Hy _ Hk'). lia.
Qed.

Definition names (o : string) (e : LogEntry) : bool := bool_decide (o ∈ le_related_object_ids e).
Definition row_names (o : string) (r : N * prost_bytes) : bool :=
  match prost_decode r.2 with Some e => names o e | None => false end.

Lemma index_range_keys d o lo hi :
  log_consistent d → (lo ≤ hi)%N →
  range_index (lg_objects d) o lo hi = (List.filter (row_names o) (range_logs (lg_logs d) lo hi)).*1.
Proof.
  intros Hd Hle. apply sorted_keys_eq.
  - by apply range_index_sorted.
  - pose proof (range_logs_sorted (lg_logs d) lo hi Hle) as Hs. clear -Hs.
    induction (range_logs (lg_logs d) lo hi) as [|[k b] rows IH]; cbn in *; [constructor|].
    apply StronglySorted_inv in Hs as [Hs Hk]. destruct (row_names o (k, b)); [|auto]. cbn.
    constructor; [auto|]. rewrite List.Forall_forall in *. intros k' (r & <- & Hr)%in_map_iff.
    apply filter_In in Hr as [Hr _]. apply Hk. by apply in_map.
  - intros k. rewrite range_index_elem by done. rewrite (lc_index d Hd). rewrite list_elem_of_fmap. split.
    + intros [(e & He & Ho) Hk]. exists (k, prost_encode e). split; [done|].
      apply list_elem_of_In, filter_In. rewrite <- list_elem_of_In, range_logs_elem by done.
      split; [done|]. unfold row_names. cbn. rewrite prost_decode_encode. by apply bool_decide_eq_true.
    + intros ([k' b] & -> & Hin). apply list_elem_of_In, filter_In in Hin as [Hin Ho].
      apply list_elem_of_In, range_logs_elem in Hin as [Hb Hk]; [|done]. split; [|done].
      destruct (lc_rows d Hd _ _ Hb) as (e & -> & _). exists e. split; [done|].
      unfold row_names in Ho. cbn in Ho. rewrite prost_decode_encode in Ho. by apply bool_decide_eq_true in Ho.
Qed.

Lemma index_rows d o lo hi :
  log_consistent d → (lo ≤ hi)%N →
  omap (λ k, lg_logs d !! k) (range_index (lg_objects d) o lo hi) =
  map prost_encode (List.filter (names o) (entries_between d lo hi)).
Proof.
  intros Hd Hle. rewrite index_range_keys by done. unfold entries_between.
  pose proof (range_encoded d lo hi Hd Hle) as Henc.
  assert (Forall (λ r, lg_logs d !! r.1 = Some r.2) (range_logs (lg_logs d) lo hi)) as Hin.
  { apply Forall_forall. intros [k b] H. apply list_elem_of_In, range_logs_elem in H as [H _]; done. }
  induction (range_logs (lg_logs d) lo hi) as [|[k b] rows IH]; [done|].
  apply List.Forall_cons_iff in Henc as [[e He] Henc], Hin as [Hk Hin]. cbn in He, Hk. subst b.
  cbn. unfold row_names at 1. cbn. rewrite prost_decode_encode. cbn.
  destruct (names o e); cbn; [rewrite Hk; cbn; f_equal|]; by apply IH.
Qed.

(** The index by object agrees with a scan: in every consistent state and for every
    window, a query for an object gives, up to the limit, exactly the entries of the window
    that name the object, oldest first. *)
Theorem query_by_object_is_filter d start_ns end_ns :
  log_consistent d → ((window start_ns end_ns).1 ≤ (window start_ns end_ns).2)%N →
  ∃ all,
    (∀ n, query None start_ns end_ns n d = Ok (take n all)) ∧
    (∀ o n, query (Some o) start_ns end_ns n d = Ok (take n (List.filter (names o) all))).
Proof.
  intros Hd Hle. unfold query. destruct (window start_ns end_ns) as [lo hi]. cbn in Hle.
  exists (entries_between d lo hi). split.
  - intros n. rewrite (decode_rows _ (range_encoded d lo hi Hd Hle)). apply collect_encoded.
  - intros o n. rewrite index_rows by done. apply collect_encoded.
Qed.

(** * Time *)

Definition ms_of (ns : Z) : N := Z.to_N (ns / NS_PER_MS).

Lemma ms_of_i64 ns :
  (0 ≤ ns ≤ I64_MAX)%Z → i64_as_u64 (Z.quot ns NS_PER_MS) = ms_of ns ∧ (ms_of ns < 2 ^ 48)%N.
Proof.
  unfold i64_as_u64, ms_of, NS_PER_MS, I64_MAX. intros [H0 H1]. rewrite Z.quot_div_nonneg by lia.
  assert (0 ≤ ns / 1000000 < 2 ^ 48)%Z as [Hl Hh].
  { split; [apply Z.div_pos; lia|]. apply Z.div_lt_upper_bound; lia. }
  split; [|lia]. by rewrite Z.mod_small by lia.
Qed.

Lemma ulid_small ms r : (ms < 2 ^ 48)%N → ulid_from_parts ms r = (ms * 2 ^ 80 + r mod 2 ^ 80)%N.
Proof. intros H. by rewrite ulid_from_parts_eq, N.mod_small. Qed.
Lemma ulid_bound ms r : (ulid_from_parts ms r < 2 ^ 128)%N.
Proof.
  rewrite ulid_from_parts_eq.
  pose proof (N.mod_lt ms (2 ^ 48) ltac:(lia)). pose proof (N.mod_lt r (2 ^ 80) ltac:(lia)). lia.
Qed.

(** The ids of a window are exactly those of its milliseconds. *)
Lemma window_ms start_ns end_ns ts r :
  (0 ≤ start_ns)%Z → (end_ns ≤ I64_MAX)%Z → (start_ns ≤ end_ns)%Z → (0 ≤ ts ≤ I64_MAX)%Z →
  let '(lo, hi) := window (Some start_ns) (Some end_ns) in
  (lo ≤ hi)%N ∧
  ((lo ≤ ulid_from_parts (i64_as_u64 (Z.quot ts NS_PER_MS)) r ≤ hi)%N ↔
   (ms_of start_ns ≤ ms_of ts ≤ ms_of end_ns)%N).
Proof.
  intros Hs He Hse Ht. unfold window. cbn [from_option id].
  destruct (ms_of_i64 start_ns) as [-> Hs']; [lia|]. destruct (ms_of_i64 end_ns) as [-> He']; [lia|].
  destruct (ms_of_i64 ts) as [-> Ht']; [lia|]. rewrite !ulid_small by done.
  assert (ms_of start_ns ≤ ms_of end_ns)%N as Hle.
  { unfold ms_of, NS_PER_MS. apply Z2N.inj_le; try (apply Z.div_pos; lia). by apply Z.div_le_mono. }
  assert (((2 ^ 128 - 1) mod 2 ^ 80 = 2 ^ 80 - 1)%N) as -> by reflexivity.
  assert ((0 mod 2 ^ 80 = 0)%N) as -> by reflexivity.
  pose proof (N.mod_lt r (2 ^ 80) ltac:(lia)) as Hr. generalize dependent (r mod 2 ^ 80)%N. intros low Hlow.
  change (2 ^ 80)%N with 1208925819614629174706176%N in *. split; [lia|]. split; intros [? ?]; split; lia.
Qed.
Lemma ms_of_mono a b : (0 ≤ a ≤ b)%Z → (ms_of a ≤ ms_of b)%N.
Proof.
  intros H. unfold ms_of, NS_PER_MS. apply Z2N.inj_le; try (apply Z.div_pos; lia). apply Z.div_le_mono; lia.
Qed.

(** * Appending *)

Lemma append_union entries d d' :
  append_entries entries d = Ok d' →
  ∃ rows objs comps,
    (∀ d0, append_entries entries d0 =
       Ok (mkLogDb (rows ∪ lg_logs d0) (objs ∪ lg_objects d0) (comps ∪ lg_components d0))) ∧
    (∀ e, e ∈ entries → ∃ k, ulid_parse (le_id e) = Some k ∧ is_Some (rows !! k)).
Proof.
  revert d. induction entries as [|e entries IH]; intros d; cbn.
  - intros _. exists ∅, ∅, ∅. split; [|by intros e ?%elem_of_nil]. intros [l o c]. cbn.
    by rewrite !(left_id_L ∅ (∪)).
  - destruct (ulid_parse (le_id e)) as [key|] eqn:Hk; [|done]. intros H.
    destruct (IH _ H) as (rows & objs & comps & Heq & Hin).
    exists (rows ∪ {[ key := prost_encode e ]}), (objs ∪ foldl (λ t obj, {[ (obj, key) ]} ∪ t) ∅ (le_related_object_ids e)),
      (comps ∪ {[ (le_component e, le_level e, key) ]}). split.
    + intros d0. rewrite Heq. cbn. f_equal. f_equal.
      * by rewrite <- (assoc_L (∪)), <- insert_union_singleton_l.
      * rewrite <- (assoc_L (∪)). f_equal. apply set_eq. intros [o k]. rewrite elem_of_union, !elem_of_objects. set_solver.
      * by rewrite <- (assoc_L (∪)).
    + intros e' [->|He']%elem_of_cons.
      * exists key. split; [done|]. rewrite lookup_union, lookup_singleton_eq. destruct (rows !! key); cbn; by eexists.
      * destruct (Hin _ He') as (k & Hk' & [b Hb]). exists k. split; [done|].
        rewrite lookup_union, Hb. by destruct ({[key := prost_encode e]} !! k); eexists.
Qed.

(** Applying a batch once more, as a replica does that replays its log, changes nothing. *)
Theorem append_replay entries d :
  (append_batch entries (append_batch entries d).2).2 = (append_batch entries d).2.
Proof.
  unfold append_batch. destruct (append_entries entries d) as [d'|] eqn:E; cbn; [|by rewrite E].
  destruct (append_union _ _ _ E) as (rows & objs & comps & Heq & _). rewrite Heq in E. injection E as <-.
  rewrite Heq. cbn. by rewrite !(assoc_L (∪)), !(idemp_L (∪)).
Qed.

Lemma append_keeps_row entries d d' e k :
  append_entries entries d = Ok d' → lg_logs d !! k = Some (prost_encode e) →
  (∀ e', e' ∈ entries → ulid_parse (le_id e') = Some k → e' = e) → lg_logs d' !! k = Some (prost_encode e).
Proof.
  revert d. induction entries as [|x entries IH]; intros d; cbn; [by intros [= ->]|].
  destruct (ulid_parse (le_id x)) as [key|] eqn:Hx; [|done]. intros H Hk Hsame.
  apply (IH _ H); [|intros e' He'; apply Hsame; by right]. cbn.
  destruct (decide (k = key)) as [->|]; [|by rewrite lookup_insert_ne].
  rewrite lookup_insert_eq. do 2 f_equal. apply Hsame; [left|done].
Qed.
Lemma append_puts_row entries d d' e k :
  append_entries entries d = Ok d' → e ∈ entries → ulid_parse (le_id e) = Some k →
  (∀ e', e' ∈ entries → ulid_parse (le_id e') = Some k → e' = e) → lg_logs d' !! k = Some (prost_encode e).
Proof.
  revert d. induction entries as [|x entries IH]; intros d; cbn; [by intros _ ?%elem_of_nil|].
  destruct (ulid_parse (le_id x)) as [key|] eqn:Hx; [|done]. intros H He Hk Hsame.
  apply elem_of_cons in He as [->|He].
  - rewrite Hk in Hx. injection Hx as <-. apply (append_keeps_row _ _ _ _ _ H).
    + cbn. by rewrite lookup_insert_eq.
    + intros e' He'. apply Hsame. by right.
  - apply (IH _ H He Hk). intros e' He'. apply Hsame. by right.
Qed.

Definition stamped (e : LogEntry) : Prop := ∃ now r e0, e = stamp now r e0.
Lemma stamped_id e :
  stamped e → ∃ r, ulid_parse (le_id e) = Some (ulid_from_parts (i64_as_u64 (Z.quot (le_timestamp_ns e) NS_PER_MS)) r).
Proof. intros (now & r & e0 & ->). exists r. apply ulid_parse_to_string, ulid_bound. Qed.
Lemma append_stamped entries d : Forall stamped entries → ∃ d', append_entries entries d = Ok d'.
Proof.
  intros H. revert d. induction H as [|e entries He _ IH]; intros d; cbn; [by eexists|].
  destruct (stamped_id e He) as [r ->]. apply IH.
Qed.

(** C38: What is logged is found: an entry the batcher stamped and appended is among the
    answers to a query for each object it names in every window that contains its time
    stamp, and the answers are the same list up to the limit. *)
Theorem logged_entry_found batch d e o start_ns end_ns :
  log_consistent d → compatible batch d → Forall stamped batch → e ∈ batch → o ∈ le_related_object_ids e →
  (0 ≤ start_ns ≤ le_timestamp_ns e)%Z → (le_timestamp_ns e ≤ end_ns ≤ I64_MAX)%Z →
  ∃ found, e ∈ found ∧
    ∀ n, query (Some o) (Some start_ns) (Some end_ns) n (append_batch batch d).2 = Ok (take n found).
Proof.
  intros Hd Hc Hst He Ho Hs Hend.
  pose proof (append_consistent batch d Hd Hc) as Hd'. revert Hd'. unfold append_batch.
  destruct (append_stamped batch d Hst) as [d' E]. rewrite E. cbn [snd]. intros Hd'.
  assert (stamped e) as Hse by (apply List.Forall_forall with (x := e) in Hst; [done|by apply list_elem_of_In]).
  destruct (stamped_id e Hse) as [r Hk]. destruct (Hc e _ He Hk) as [_ Hsame].
  pose proof (append_puts_row batch d d' e _ E He Hk Hsame) as Hrow.
  pose proof (window_ms start_ns end_ns (le_timestamp_ns e) r) as Hw. unfold query.
  destruct (window (Some start_ns) (Some end_ns)) as [lo hi]. destruct Hw as [Hle Hin]; [lia..|].
  exists (List.filter (names o) (entries_between d' lo hi)). split.
  - apply list_elem_of_In, filter_In. split; [|by apply bool_decide_eq_true]. apply list_elem_of_In.
    unfold entries_between. apply list_elem_of_omap. exists (prost_encode e). split; [|apply prost_decode_encode].
    apply list_elem_of_fmap. eexists (_, _). split; [reflexivity|]. apply range_logs_elem; [done|]. split; [exact Hrow|].
    apply Hin. split; apply ms_of_mono; lia.
  - intros n. rewrite (index_rows d' o lo hi Hd' Hle). apply collect_encoded.
Qed.
End facts.

(** * A model of the libraries *)

Module LogModel.

(** Binary digits, the least first. *)
Fixpoint pos_digits (p : positive) : string :=
  match p with
  | xH => "1"
  | xO p => String "0"%char (pos_digits p)
  | xI p => String "1"%char (pos_digits p)
  end.
Fixpoint pos_parse (s : string) : option positive :=
  match s with
  | "" => None
  | String a rest =>
      if str_is_empty rest then (if Ascii.eqb a "1"%char then Some xH else None)
      else p ← pos_parse rest;
           if Ascii.eqb a "0"%char then Some (xO p) else if Ascii.eqb a "1"%char then Some (xI p) else None
  end.
Lemma pos_parse_digits p : pos_parse (pos_digits p) = Some p.
Proof.
  assert (∀ p, str_is_empty (pos_digits p) = false) as Hne by (intros []; done).
  induction p as [p IH|p IH|]; cbn; [rewrite Hne, IH..|]; done.
Qed.

#[export] Instance ulid_model : UlidCrate.
Proof.
  refine {| ulid_from_parts ms r := ((ms mod 2 ^ 48) * 2 ^ 80 + r mod 2 ^ 80)%N;
            ulid_to_string u := pos_digits (N.succ_pos u);
            ulid_parse s := N.pred ∘ N.pos <$> pos_parse s |}; [done|].
  intros u _. rewrite pos_parse_digits. cbn. f_equal. rewrite N.succ_pos_spec. apply N.pred_succ.
Defined.
#[export] Instance prost_model {A} : Prost A.
Proof. refine {| prost_bytes := A; prost_encode a := a; prost_decode a := Some a |}. done. Defined.

Lemma sorted_le_lt (l : list N) : NoDup l → StronglySorted N.le l → StronglySorted N.lt l.
Proof.
  induction 2 as [|x l _ IH Hx]; [constructor|]. inversion_clear H.
  constructor; [auto|]. rewrite List.Forall_forall in *. intros y Hy. specialize (Hx y Hy).
  assert (x ≠ y) by (intros ->; by apply H0, list_elem_of_In). lia.
Qed.
Definition sort_keys (l : list N) : list N := merge_sort N.le l.
Lemma sort_keys_sorted l : NoDup l → StronglySorted N.lt (sort_keys l).
Proof.
  intros Hl. apply sorted_le_lt; [|apply (StronglySorted_merge_sort N.le); apply _].
  unfold sort_keys. by rewrite (merge_sort_Permutation N.le l).
Qed.
Definition in_range (lo hi k : N) : bool := ((lo <=? k) && (k <=? hi))%N.
Lemma in_range_iff lo hi k : in_range lo hi k ↔ (lo ≤ k ≤ hi)%N.
Proof. unfold in_range. by rewrite Is_true_true, andb_true_iff, !N.leb_le. Qed.

Definition model_logs {V} (t : gmap N V) (lo hi : N) : list (N * V) :=
  omap (λ k, v ← t !! k; Some (k, v)) (sort_keys (filter (in_range lo hi) (map_to_list t).*1)).
Definition model_index (t : gset (string * N)) (obj : string) (lo hi : N) : list N :=
  sort_keys (filter (in_range lo hi) (filter (λ k, (obj, k) ∈ t) (elements (set_map snd t : gset N)))).

#[export] Instance redb_model : RedbRange.
Proof.
  refine {| range_logs := @model_logs; range_index := model_index |}.
  - intros V t lo hi k v _. unfold model_logs. rewrite list_elem_of_omap. unfold sort_keys. split.
    + intros (k' & Hk' & Hv). rewrite (merge_sort_Permutation N.le) in Hk'.
      destruct (t !! k') as [v'|] eqn:E; cbn in Hv; simplify_eq. split; [done|].
      by apply list_elem_of_filter in Hk' as [Hr%in_range_iff _].
    + intros [Hv Hr]. exists k. rewrite (merge_sort_Permutation N.le), Hv. split; [|done].
      apply list_elem_of_filter. split; [by apply in_range_iff|].
      apply list_elem_of_fmap. exists (k, v). split; [done|]. by apply elem_of_map_to_list.
  - intros V t lo hi _. unfold model_logs.
    assert (∀ l, (∀ k, k ∈ l → is_Some (t !! k)) → (omap (λ k, v ← t !! k; Some (k, v)) l).*1 = l) as Hfst.
    { induction l as [|k l IH]; intros Hl; [done|]. cbn. destruct (Hl k) as [v ->]; [left|]. cbn.
      f_equal. apply IH. intros j Hj. apply Hl. by right. }
    rewrite Hfst.
    + apply sort_keys_sorted, list.NoDup_filter, NoDup_fst_map_to_list.
    + intros k Hk. unfold sort_keys in Hk. rewrite (merge_sort_Permutation N.le) in Hk.
      apply list_elem_of_filter in Hk as [_ ([k' v] & -> & Hv)%list_elem_of_fmap].
      apply elem_of_map_to_list in Hv. by eexists.
  - intros t obj lo hi k _. unfold model_index, sort_keys. rewrite (merge_sort_Permutation N.le).
    rewrite !list_elem_of_filter, elem_of_elements, elem_of_map, in_range_iff. split.
    + by intros (Hr & Ht & _).
    + intros [Ht Hr]. split; [done|]. split; [done|]. by exists (obj, k).
  - intros t obj lo hi _. apply sort_keys_sorted. do 2 apply list.NoDup_filter. apply NoDup_elements.
Defined.
End LogModel.
Import LogModel.

(** * Concrete instances *)

Definition lx_entry (msg : string) (objects : list string) : LogEntry :=
  mkLogEntry "" 0 msg 4 "vmm" objects.
(** Three entries, two of them about vm-1, one and a half milliseconds apart. *)
Definition lx_batch : list LogEntry :=
  [stamp (Some 1700000000000000000)%Z 7 (lx_entry "created" ["vm-1"; "nic-1"]);
   stamp (Some 1700000000001500000)%Z 5 (lx_entry "other" ["vm-2"]);
   stamp (Some 1700000000003000000)%Z 3 (lx_entry "started" ["vm-1"])].
Definition lx_db : LogDb := (append_batch lx_batch log_db_new).2.

Lemma lx_compatible : compatible lx_batch log_db_new.
Proof.
  intros e k He Hk. split; [by intros b; cbn; rewrite lookup_empty|]. intros e' He' Hk'.
  unfold lx_batch in He, He'. rewrite !elem_of_cons, elem_of_nil in He, He'.
  destruct He as [->|[->|[->|[]]]], He' as [->|[->|[->|[]]]];
    first [exfalso; vm_compute in Hk, Hk'; congruence | reflexivity].
Qed.
Lemma lx_consistent : log_consistent lx_db.
Proof. apply append_consistent; [apply log_consistent_new|apply lx_compatible]. Qed.

Lemma query_by_object_is_filter_witness :
  ∃ all, (∀ n, query None None None n lx_db = Ok (take n all)) ∧
    (∀ o n, query (Some o) None None n lx_db = Ok (take n (List.filter (names o) all))) ∧
    map le_message all = ["created"; "other"; "started"].
Proof.
  destruct (query_by_object_is_filter lx_db None None lx_consistent) as (all & H1 & H2); [vm_compute; discriminate|].
  exists all. split; [exact H1|]. split; [exact H2|]. specialize (H1 9%nat).
  assert (Hq : match query None None None 9 lx_db with
               | Ok l => (map le_message l, length l) = (["created"; "other"; "started"], 3%nat)
               | Err _ => False
               end) by (vm_compute; reflexivity).
  rewrite H1 in Hq. injection Hq as Hm Hlen. rewrite <- Hm. f_equal. symmetry. apply take_ge.
  rewrite length_take in Hlen. lia.
Defined.

Lemma logged_entry_found_witness :
  ∃ e found, le_message e = "started" ∧ e ∈ found ∧
    ∀ n, query (Some "vm-1") (Some 1700000000002000000)%Z (Some 1700000000003000000)%Z n lx_db = Ok (take n found).
Proof.
  exists (stamp (Some 1700000000003000000)%Z 3 (lx_entry "started" ["vm-1"])).
  destruct (logged_entry_found lx_batch log_db_new (stamp (Some 1700000000003000000)%Z 3 (lx_entry "started" ["vm-1"]))
    "vm-1" 1700000000002000000 1700000000003000000) as (found & H1 & H2).
  - apply log_consistent_new.
  - apply lx_compatible.
  - repeat constructor; do 3 eexists; reflexivity.
  - right. right. left.
  - left.
  - cbn. lia.
  - unfold I64_MAX. cbn. lia.
  - exists found. split; [reflexivity|]. split; [exact H1|exact H2].
Defined.
