(* ===== verification/NetRoute.v ===== *)
(** The routing tables of the user-space network daemon (mvirt-net/src/routing.rs)
    and the commands that change them (mvirt-net/src/reactor/mod.rs): longest
    prefix match, the tables of a reactor, and the routing manager that keeps
    copies of its tables in step by broadcasting updates. *)

From S2P Require Import Prelude NetAddr.

(** * Prefixes and prefix maps

    [Ipv4Net::new] and [Ipv6Net::new] of the ipnet crate: an error exactly when the
    length is over the width of an address. *)
Class NetNew (w : N) {nets : IpNets w} := {
  net_new : N → N → option (ipnet w);
  net_new_some : ∀ a l, (a < 2 ^ w)%N → (l ≤ w)%N → ∃ n, net_new a l = Some n ∧
    net_prefix_len n = l ∧ net_network n = (a / 2 ^ (w - l) * 2 ^ (w - l))%N;
  net_new_none : ∀ a l, (w < l)%N → net_new a l = None;
}.

(** Two prefixes are the same to a prefix map when they agree but for host bits. *)
Definition same_net {w} {nets : IpNets w} (a b : ipnet w) : Prop :=
  net_network a = net_network b ∧ net_prefix_len a = net_prefix_len b.
#[export] Instance same_net_dec {w} {nets : IpNets w} (a b : ipnet w) : Decision (same_net a b).
Proof. unfold same_net. apply _. Defined.

(** [covers k q]: the prefix [k] contains the prefix [q]. *)
Definition covers {w} {nets : IpNets w} (k q : ipnet w) : Prop :=
  (net_prefix_len k ≤ net_prefix_len q)%N ∧ net_contains k (net_network q) = true.

(** [PrefixMap] of the prefix_trie crate. [get_lpm] returns the value of the
    longest prefix of the map that covers the query. *)
Class PrefixMaps (w : N) {nets : IpNets w} := {
  prefix_map : Type → Type;
  pm_new : ∀ {V}, prefix_map V;
  pm_insert : ∀ {V}, ipnet w → V → prefix_map V → prefix_map V;
  pm_remove : ∀ {V}, ipnet w → prefix_map V → prefix_map V;
  pm_get : ∀ {V}, ipnet w → prefix_map V → option V;
  pm_get_lpm : ∀ {V}, ipnet w → prefix_map V → option V;
  pm_get_same : ∀ V a b (m : prefix_map V), same_net a b → pm_get a m = pm_get b m;
  pm_get_new : ∀ V n, pm_get n (pm_new (V := V)) = None;
  pm_get_insert : ∀ V n k (v : V) m,
    pm_get n (pm_insert k v m) = if decide (same_net n k) then Some v else pm_get n m;
  pm_get_remove : ∀ V n k (m : prefix_map V),
    pm_get n (pm_remove k m) = if decide (same_net n k) then None else pm_get n m;
  pm_lpm_some : ∀ V q (v : V) m, pm_get_lpm q m = Some v →
    ∃ k, pm_get k m = Some v ∧ covers k q ∧
      ∀ k', is_Some (pm_get k' m) → covers k' q → (net_prefix_len k' ≤ net_prefix_len k)%N;
  pm_lpm_none : ∀ V q (m : prefix_map V), pm_get_lpm q m = None →
    ∀ k, covers k q → pm_get k m = None;
}.
Arguments prefix_map w {_ _} V.

(** * Targets, decisions and tables *)

Abbreviation ReactorId := N (only parsing).

Inductive RouteTarget :=
  | RtReactor (id : ReactorId)
  | RtVhost (id : Uuid)
  | RtTun (if_index : u32)
  | RtCustom (target_type : u32) (data : list u8)
  | RtDrop.

Inductive RoutingDecision :=
  | ToTun (if_index : u32)
  | ToVhost (reactor_id : ReactorId)
  | DropPacket.

#[export] Instance RouteTarget_eq : EqDecision RouteTarget.
Proof. solve_decision. Defined.
#[export] Instance RoutingDecision_eq : EqDecision RoutingDecision.
Proof. solve_decision. Defined.

Section tables.
Context {nets4 : IpNets 32} {nets6 : IpNets 128}.
Context {new4 : NetNew 32} {new6 : NetNew 128} {maps4 : PrefixMaps 32} {maps6 : PrefixMaps 128}.

Inductive IpPrefix := PrefixV4 (p : Ipv4Net) | PrefixV6 (p : Ipv6Net).

Record LpmTable := MkLpmTable {
  lt_id : Uuid; lt_name : string;
  lt_ipv4 : prefix_map 32 RouteTarget;
  lt_ipv6 : prefix_map 128 RouteTarget;
}.
#[export] Instance LpmTable_eta : Eta LpmTable := λ t,
  MkLpmTable (lt_id t) (lt_name t) (lt_ipv4 t) (lt_ipv6 t).

Definition lpm_new (id : Uuid) (name : string) : LpmTable := MkLpmTable id name pm_new pm_new.

Definition lookup_v4 (addr : Ipv4Addr) (t : LpmTable) : option RouteTarget :=
  prefix ← net_new addr 32; pm_get_lpm prefix (lt_ipv4 t).
Definition lookup_v6 (addr : Ipv6Addr) (t : LpmTable) : option RouteTarget :=
  prefix ← net_new addr 128; pm_get_lpm prefix (lt_ipv6 t).

Definition insert_v4 (p : Ipv4Net) (target : RouteTarget) (t : LpmTable) : LpmTable :=
  t <| lt_ipv4 := pm_insert p target (lt_ipv4 t) |>.
Definition insert_v6 (p : Ipv6Net) (target : RouteTarget) (t : LpmTable) : LpmTable :=
  t <| lt_ipv6 := pm_insert p target (lt_ipv6 t) |>.
Definition remove_v4 (p : Ipv4Net) (t : LpmTable) : LpmTable :=
  t <| lt_ipv4 := pm_remove p (lt_ipv4 t) |>.
Definition remove_v6 (p : Ipv6Net) (t : LpmTable) : LpmTable :=
  t <| lt_ipv6 := pm_remove p (lt_ipv6 t) |>.

Record RoutingTables := MkRoutingTables {
  rt_tables : gmap Uuid LpmTable;
  rt_default : option Uuid;
}.
#[export] Instance RoutingTables_eta : Eta RoutingTables := λ t,
  MkRoutingTables (rt_tables t) (rt_default t).

Definition rt_new : RoutingTables := MkRoutingTables ∅ None.

Definition add_table (table : LpmTable) (ts : RoutingTables) : RoutingTables :=
  MkRoutingTables (<[lt_id table := table]> (rt_tables ts))
    (match rt_default ts with None => Some (lt_id table) | Some d => Some d end).
Definition get_default (ts : RoutingTables) : option LpmTable :=
  id ← rt_default ts; rt_tables ts !! id.
Definition set_default (id : Uuid) (ts : RoutingTables) : RoutingTables :=
  if is_some (rt_tables ts !! id) then ts <| rt_default := Some id |> else ts.

(** [self.tables.keys().next()]: a key of the map, but the order of a [HashMap] is
    not specified, so which one is an input. *)
Definition KeyPick : Type := gmap Uuid LpmTable → option Uuid.
Definition pick_ok (pick : KeyPick) : Prop :=
  ∀ m, match pick m with Some k => is_Some (m !! k) | None => m = ∅ end.

Definition remove_table (pick : KeyPick) (id : Uuid) (ts : RoutingTables) : RoutingTables :=
  let tables := delete id (rt_tables ts) in
  MkRoutingTables tables (if rt_default ts == Some id then pick tables else rt_default ts).

(** [get_table_mut] followed by an update of the table. *)
Definition update_table (id : Uuid) (f : LpmTable → LpmTable) (ts : RoutingTables) : RoutingTables :=
  ts <| rt_tables := alter f id (rt_tables ts) |>.

(** * Updates and commands *)

Inductive RouteUpdate :=
  | UpCreateTable (id : Uuid) (name : string)
  | UpDeleteTable (id : Uuid)
  | UpAddRoute (table_id : Uuid) (prefix : IpPrefix) (target : RouteTarget)
  | UpRemoveRoute (table_id : Uuid) (prefix : IpPrefix)
  | UpSetDefaultTable (id : Uuid).

Definition update_apply (pick : KeyPick) (u : RouteUpdate) (ts : RoutingTables) : RoutingTables :=
  match u with
  | UpCreateTable id name => add_table (lpm_new id name) ts
  | UpDeleteTable id => remove_table pick id ts
  | UpAddRoute table_id prefix target =>
      update_table table_id
        (match prefix with
         | PrefixV4 p => insert_v4 p target
         | PrefixV6 p => insert_v6 p target
         end) ts
  | UpRemoveRoute table_id prefix =>
      update_table table_id
        (match prefix with PrefixV4 p => remove_v4 p | PrefixV6 p => remove_v6 p end) ts
  | UpSetDefaultTable id => set_default id ts
  end.

Inductive ReactorCommand :=
  | CmdShutdown
  | CmdCreateTable (id : Uuid) (name : string)
  | CmdDeleteTable (id : Uuid)
  | CmdAddRoute (table_id : Uuid) (prefix : IpPrefix) (target : RouteTarget)
  | CmdRemoveRoute (table_id : Uuid) (prefix : IpPrefix)
  | CmdSetDefaultTable (id : Uuid).

Definition route_update_to_command (u : RouteUpdate) : ReactorCommand :=
  match u with
  | UpCreateTable id name => CmdCreateTable id name
  | UpDeleteTable id => CmdDeleteTable id
  | UpAddRoute table_id prefix target => CmdAddRoute table_id prefix target
  | UpRemoveRoute table_id prefix => CmdRemoveRoute table_id prefix
  | UpSetDefaultTable id => CmdSetDefaultTable id
  end.

(** What the event loop of a reactor does with a command, but for [Shutdown]. *)
Definition command_apply (pick : KeyPick) (ts : RoutingTables) (c : ReactorCommand) : RoutingTables :=
  match c with
  | CmdShutdown => ts
  | CmdCreateTable id name => add_table (lpm_new id name) ts
  | CmdDeleteTable id => remove_table pick id ts
  | CmdAddRoute table_id (PrefixV4 p) target => update_table table_id (insert_v4 p target) ts
  | CmdAddRoute table_id (PrefixV6 p) target => update_table table_id (insert_v6 p target) ts
  | CmdRemoveRoute table_id (PrefixV4 p) => update_table table_id (remove_v4 p) ts
  | CmdRemoveRoute table_id (PrefixV6 p) => update_table table_id (remove_v6 p) ts
  | CmdSetDefaultTable id => set_default id ts
  end.

(** The tables of a reactor once it has taken these commands from its channel. *)
Definition tables_after (pick : KeyPick) (cmds : list ReactorCommand) : RoutingTables :=
  foldl (command_apply pick) rt_new cmds.

(** [route_target_to_decision], and the lookup in the default table. *)
Definition route_target_to_decision (t : RouteTarget) : RoutingDecision :=
  match t with
  | RtReactor id => ToVhost id
  | RtVhost _ => DropPacket
  | RtTun if_index => ToTun if_index
  | RtCustom _ _ => DropPacket
  | RtDrop => DropPacket
  end.

Definition decide_v4 (ts : RoutingTables) (dst : Ipv4Addr) : RoutingDecision :=
  match get_default ts with
  | Some table =>
      match lookup_v4 dst table with
      | Some target => route_target_to_decision target
      | None => DropPacket
      end
  | None => DropPacket
  end.
Definition decide_v6 (ts : RoutingTables) (dst : Ipv6Addr) : RoutingDecision :=
  match get_default ts with
  | Some table =>
      match lookup_v6 dst table with
      | Some target => route_target_to_decision target
      | None => DropPacket
      end
  | None => DropPacket
  end.

(** * The routing manager

    A reactor that registers gets a clone of the tables and a channel. A channel
    whose receiver is gone refuses messages, and is then dropped from the list of
    senders. *)

Record Replica (M : Type) := MkReplica {
  rp_tables : RoutingTables;
  rp_queue : list M;
  rp_open : bool;
}.
#[global] Arguments MkReplica {M} _ _ _.
#[global] Arguments rp_tables {M} _.
#[global] Arguments rp_queue {M} _.
#[global] Arguments rp_open {M} _.

Record RoutingManager := MkRoutingManager {
  rm_tables : RoutingTables;
  rm_update_senders : list nat;
  rm_command_senders : list nat;
  rm_update_reactors : gmap nat (Replica RouteUpdate);
  rm_command_reactors : gmap nat (Replica ReactorCommand);
}.
#[export] Instance RoutingManager_eta : Eta RoutingManager := λ m,
  MkRoutingManager (rm_tables m) (rm_update_senders m) (rm_command_senders m)
    (rm_update_reactors m) (rm_command_reactors m).

Definition rm_new : RoutingManager := MkRoutingManager rt_new [] [] ∅ ∅.

(** [senders.retain(|s| s.send(m).is_ok())]. *)
Fixpoint retain_send {M} (m : M) (senders : list nat) (rs : gmap nat (Replica M))
    : list nat * gmap nat (Replica M) :=
  match senders with
  | [] => ([], rs)
  | i :: senders' =>
      match rs !! i with
      | Some r =>
          if rp_open r then
            let '(kept, rs') :=
              retain_send m senders' (<[i := MkReplica (rp_tables r) (rp_queue r ++ [m]) true]> rs) in
            (i :: kept, rs')
          else retain_send m senders' rs
      | None => retain_send m senders' rs
      end
  end.

Definition broadcast (u : RouteUpdate) (m : RoutingManager) : RoutingManager :=
  let '(us, ur) := retain_send u (rm_update_senders m) (rm_update_reactors m) in
  let '(cs, cr) := retain_send (route_update_to_command u) (rm_command_senders m)
    (rm_command_reactors m) in
  MkRoutingManager (rm_tables m) us cs ur cr.

Definition apply_and_broadcast (pick : KeyPick) (u : RouteUpdate) (m : RoutingManager)
    : RoutingManager :=
  broadcast u (m <| rm_tables := update_apply pick u (rm_tables m) |>).

Definition rm_create_table (pick : KeyPick) (id : Uuid) (name : string) :=
  apply_and_broadcast pick (UpCreateTable id name).
Definition rm_delete_table (pick : KeyPick) (id : Uuid) := apply_and_broadcast pick (UpDeleteTable id).
Definition rm_add_route (pick : KeyPick) (table_id : Uuid) (prefix : IpPrefix) (target : RouteTarget)
    (m : RoutingManager) : RoutingManager :=
  match rt_tables (rm_tables m) !! table_id with
  | None => m
  | Some _ => apply_and_broadcast pick (UpAddRoute table_id prefix target) m
  end.
Definition rm_remove_route (pick : KeyPick) (table_id : Uuid) (prefix : IpPrefix) :=
  apply_and_broadcast pick (UpRemoveRoute table_id prefix).
Definition rm_set_default_table (pick : KeyPick) (id : Uuid) :=
  apply_and_broadcast pick (UpSetDefaultTable id).

Definition register_reactor (i : nat) (m : RoutingManager) : RoutingManager :=
  m <| rm_update_senders := rm_update_senders m ++ [i] |>
    <| rm_update_reactors := <[i := MkReplica (rm_tables m) [] true]> (rm_update_reactors m) |>.
Definition register_command_channel (i : nat) (m : RoutingManager) : RoutingManager :=
  m <| rm_command_senders := rm_command_senders m ++ [i] |>
    <| rm_command_reactors := <[i := MkReplica (rm_tables m) [] true]> (rm_command_reactors m) |>.

(** A reactor takes the first message of its channel, or drops its receiver. *)
Definition replica_take {M} (step : RoutingTables → M → RoutingTables) (r : Replica M) : Replica M :=
  match rp_queue r with
  | [] => r
  | m :: q => MkReplica (step (rp_tables r) m) q (rp_open r)
  end.
Definition replica_close {M} (r : Replica M) : Replica M := MkReplica (rp_tables r) (rp_queue r) false.

(** One step of the manager and its reactors. [pick] is the order of the manager's
    map, [picks] that of the map of each reactor. *)
Inductive rm_step (pick : KeyPick) (picks : nat → KeyPick) : RoutingManager → RoutingManager → Prop :=
  | rm_step_create id name m : rm_step pick picks m (rm_create_table pick id name m)
  | rm_step_delete id m : rm_step pick picks m (rm_delete_table pick id m)
  | rm_step_add id p t m : rm_step pick picks m (rm_add_route pick id p t m)
  | rm_step_remove id p m : rm_step pick picks m (rm_remove_route pick id p m)
  | rm_step_default id m : rm_step pick picks m (rm_set_default_table pick id m)
  | rm_step_register i m : rm_update_reactors m !! i = None →
      rm_step pick picks m (register_reactor i m)
  | rm_step_register_command i m : rm_command_reactors m !! i = None →
      rm_step pick picks m (register_command_channel i m)
  | rm_step_take i m : rm_step pick picks m
      (m <| rm_update_reactors := alter (replica_take (λ ts u, update_apply (picks i) u ts)) i
              (rm_update_reactors m) |>)
  | rm_step_take_command i m : rm_step pick picks m
      (m <| rm_command_reactors := alter (replica_take (command_apply (picks i))) i
              (rm_command_reactors m) |>)
  | rm_step_close i m : rm_step pick picks m
      (m <| rm_update_reactors := alter replica_close i (rm_update_reactors m) |>)
  | rm_step_close_command i m : rm_step pick picks m
      (m <| rm_command_reactors := alter replica_close i (rm_command_reactors m) |>).

(** The tables a reactor will have once its channel is empty. *)
Definition drained {M} (step : RoutingTables → M → RoutingTables) (r : Replica M) : RoutingTables :=
  foldl step (rp_tables r) (rp_queue r).

(** * Facts *)

Lemma command_apply_update pick u ts :
  command_apply pick ts (route_update_to_command u) = update_apply pick u ts.
Proof. by destruct u as [| |? []|? []|]. Qed.

(** The tables do not depend on which default was picked. *)
Lemma update_apply_tables pick pick' u ts ts' :
  rt_tables ts = rt_tables ts' →
  rt_tables (update_apply pick u ts) = rt_tables (update_apply pick' u ts').
Proof.
  intros H. destruct u as [| |? []|? []|id]; cbn; rewrite ?H; try done.
  unfold set_default. rewrite H. by destruct (is_some _).
Qed.

Section agreement.
Context (pick : KeyPick).

(** [agrees step p ts r]: the reactor [r], whose map has the order [p], comes to
    the tables [ts]; to the default as well if the orders agree. *)
Definition agrees {M} (step : RoutingTables → M → RoutingTables) (p : KeyPick) (ts : RoutingTables)
    (r : Replica M) : Prop :=
  rt_tables (drained step r) = rt_tables ts ∧ (p = pick → drained step r = ts).

Definition all_agree {M} (step : KeyPick → RoutingTables → M → RoutingTables) (picks : nat → KeyPick)
    (ts : RoutingTables) (senders : list nat) (rs : gmap nat (Replica M)) : Prop :=
  NoDup senders ∧ (∀ i, i ∈ senders → is_Some (rs !! i)) ∧
  ∀ i r, rs !! i = Some r → rp_open r = true → i ∈ senders ∧ agrees (step (picks i)) (picks i) ts r.

Lemma retain_send_spec {M} (m : M) senders rs : NoDup senders →
  let '(kept, rs') := retain_send m senders rs in
  (∀ i, i ∈ kept ↔ i ∈ senders ∧ ∃ r, rs !! i = Some r ∧ rp_open r = true) ∧ NoDup kept ∧
  ∀ i, rs' !! i = match rs !! i with
    | Some r => Some (if decide (i ∈ kept) then MkReplica (rp_tables r) (rp_queue r ++ [m]) true else r)
    | None => None
    end.
Proof.
  revert rs. induction senders as [|j l IH]; intros rs Hn; cbn.
  { split_and!; [set_solver|constructor|]. intros i. destruct (rs !! i); [|done].
    by rewrite decide_False by set_solver. }
  apply list.NoDup_cons in Hn as [Hj Hn].
  assert (Hskip : (∀ r, rs !! j = Some r → rp_open r = true → False) →
    let '(kept, rs') := retain_send m l rs in
    (∀ i, i ∈ kept ↔ i ∈ j :: l ∧ ∃ r, rs !! i = Some r ∧ rp_open r = true) ∧ NoDup kept ∧
    ∀ i, rs' !! i = match rs !! i with
      | Some r => Some (if decide (i ∈ kept) then MkReplica (rp_tables r) (rp_queue r ++ [m]) true else r)
      | None => None end).
  { intros Hno. specialize (IH rs Hn). destruct (retain_send m l rs) as [kept rs'].
    destruct IH as (Hk & Hd & Hl). split_and!; [|done|done]. intros i. rewrite Hk.
    split; [set_solver|]. intros [[->|Hi]%elem_of_cons (r & Hr & Ho)]; [by destruct (Hno r)|eauto]. }
  destruct (rs !! j) as [r|] eqn:Hr; [|by apply Hskip].
  destruct (rp_open r) eqn:Ho; [|apply Hskip; intros ? [= <-]; congruence].
  specialize (IH (<[j:=MkReplica (rp_tables r) (rp_queue r ++ [m]) true]> rs) Hn).
  destruct (retain_send m l _) as [kept rs']. destruct IH as (Hk & Hd & Hl).
  assert (Hjk : j ∉ kept) by (rewrite Hk; naive_solver).
  split_and!.
  - intros i. rewrite !elem_of_cons, Hk. destruct (decide (i = j)) as [->|Hij].
    { split; [|eauto]. intros _. split; [by left|eauto]. }
    rewrite lookup_insert_ne by done. naive_solver.
  - by constructor.
  - intros i. rewrite Hl. destruct (decide (i = j)) as [->|Hij].
    { rewrite lookup_insert_eq, Hr, decide_False by done. by rewrite decide_True by set_solver. }
    rewrite lookup_insert_ne by done. destruct (rs !! i); [|done].
    by destruct (decide (i ∈ kept)), (decide (i ∈ j :: kept)); set_solver.
Qed.

Lemma all_agree_send {M} (step : KeyPick → RoutingTables → M → RoutingTables) picks u (m : M)
    ts senders rs :
  (∀ p t, step p t m = update_apply p u t) →
  all_agree step picks ts senders rs →
  let '(kept, rs') := retain_send m senders rs in
  all_agree step picks (update_apply pick u ts) kept rs'.
Proof.
  intros Hm (Hn & Hdom & Ha). pose proof (retain_send_spec m senders rs Hn) as H.
  destruct (retain_send m senders rs) as [kept rs']. destruct H as (Hk & Hd & Hl).
  split_and!; [done| |].
  - intros i Hi. rewrite Hl. apply Hk in Hi as [_ (r & -> & _)]. eauto.
  - intros i r'. rewrite Hl. destruct (rs !! i) as [r|] eqn:Hr; [|done].
    destruct (decide (i ∈ kept)) as [Hi|Hi]; intros [= <-] Ho.
    + split; [done|]. apply Hk in Hi as [_ (r' & Hr' & Ho')]. rewrite Hr in Hr'.
      injection Hr' as <-. destruct (Ha i r Hr Ho') as (_ & Ht & Hp).
      unfold agrees, drained. cbn. rewrite foldl_app. cbn. rewrite !Hm. split.
      * by apply update_apply_tables.
      * intros He. rewrite He. f_equal. by rewrite <- (Hp He), He.
    + exfalso. apply Hi, Hk. split; [|eauto]. by apply (Ha i r Hr Ho).
Qed.

End agreement.

Definition rm_consistent (pick : KeyPick) (picks : nat → KeyPick) (m : RoutingManager) : Prop :=
  all_agree pick (λ p ts u, update_apply p u ts) picks (rm_tables m) (rm_update_senders m)
    (rm_update_reactors m) ∧
  all_agree pick command_apply picks (rm_tables m) (rm_command_senders m) (rm_command_reactors m).

Lemma broadcast_consistent pick picks u m :
  rm_consistent pick picks m → rm_consistent pick picks (apply_and_broadcast pick u m).
Proof.
  intros [H1 H2]. unfold apply_and_broadcast, broadcast. cbn.
  apply (all_agree_send pick (λ p ts u, update_apply p u ts) picks u u) in H1; [|done].
  apply (all_agree_send pick command_apply picks u (route_update_to_command u)) in H2;
    [|intros; apply command_apply_update].
  destruct (retain_send u _ _), (retain_send (route_update_to_command u) _ _). done.
Qed.

Lemma all_agree_register {M} (step : KeyPick → RoutingTables → M → RoutingTables) pick picks ts
    senders rs i :
  rs !! i = None → all_agree pick step picks ts senders rs →
  all_agree pick step picks ts (senders ++ [i]) (<[i := MkReplica ts [] true]> rs).
Proof.
  intros Hi (Hn & Hdom & Ha). assert (i ∉ senders).
  { intros [? ?]%Hdom. congruence. }
  split_and!.
  - apply list.NoDup_app. split_and!; [done|set_solver|apply NoDup_singleton].
  - intros j. rewrite elem_of_app, list_elem_of_singleton. intros [Hj| ->].
    + destruct (decide (i = j)) as [->|]; [rewrite lookup_insert_eq; eauto|].
      rewrite lookup_insert_ne by done. auto.
    + rewrite lookup_insert_eq. eauto.
  - intros j r. destruct (decide (i = j)) as [->|].
    + rewrite lookup_insert_eq. intros [= <-] _. split; [set_solver|]. by split.
    + rewrite lookup_insert_ne by done. intros Hr Ho. destruct (Ha j r Hr Ho). set_solver.
Qed.

Lemma all_agree_alter {M} (step : KeyPick → RoutingTables → M → RoutingTables) pick picks ts
    senders rs i f :
  (∀ r, rp_open (f r) = true → rp_open r = true ∧
    drained (step (picks i)) (f r) = drained (step (picks i)) r) →
  all_agree pick step picks ts senders rs → all_agree pick step picks ts senders (alter f i rs).
Proof.
  intros Hf (Hn & Hdom & Ha). split_and!; [done| |].
  - intros j Hj. destruct (Hdom j Hj) as [r Hr]. destruct (decide (i = j)) as [->|].
    + rewrite lookup_alter_eq, Hr. cbn. eauto.
    + rewrite lookup_alter_ne by done. eauto.
  - intros j r'. destruct (decide (i = j)) as [->|].
    + rewrite lookup_alter_eq. destruct (rs !! j) as [r|] eqn:Hr; [|done]. cbn.
      intros [= <-] Ho. destruct (Hf r Ho) as [Ho' Hd]. destruct (Ha j r Hr Ho') as [? Hag].
      split; [done|]. unfold agrees. by rewrite Hd.
    + rewrite lookup_alter_ne by done. apply Ha.
Qed.

Lemma drained_take {M} (step : RoutingTables → M → RoutingTables) r :
  rp_open (replica_take step r) = true →
  rp_open r = true ∧ drained step (replica_take step r) = drained step r.
Proof. unfold replica_take, drained. by destruct (rp_queue r) eqn:E; rewrite ?E. Qed.

Lemma rm_step_consistent pick picks m m' :
  rm_step pick picks m m' → rm_consistent pick picks m → rm_consistent pick picks m'.
Proof.
  intros Hs Hc. destruct Hs; try by apply broadcast_consistent.
  - unfold rm_add_route. destruct (_ !! _); [|done]. by apply broadcast_consistent.
  - destruct Hc. split; [by apply all_agree_register|done].
  - destruct Hc. split; [done|by apply all_agree_register].
  - destruct Hc as [H1 H2]. split; [|done]. apply all_agree_alter; [|done].
    intros r. apply (drained_take (λ ts u, update_apply (picks i) u ts)).
  - destruct Hc. split; [done|]. apply all_agree_alter; [|done]. apply drained_take.
  - destruct Hc. split; [|done]. by apply all_agree_alter.
  - destruct Hc. split; [done|]. by apply all_agree_alter.
Qed.

(** C25: A reactor registered with the manager whose channel is still open has, once it
    has taken every message of the channel, exactly the manager's tables; the
    default table as well, when its map iterates in the same order. *)
Theorem replicas_follow_manager pick picks m i :
  rtc (rm_step pick picks) rm_new m →
  (∀ r, rm_update_reactors m !! i = Some r → rp_open r = true →
     agrees pick (λ ts u, update_apply (picks i) u ts) (picks i) (rm_tables m) r) ∧
  (∀ r, rm_command_reactors m !! i = Some r → rp_open r = true →
     agrees pick (command_apply (picks i)) (picks i) (rm_tables m) r).
Proof.
  intros Hr. assert (rm_consistent pick picks m) as [(_ & _ & H1) (_ & _ & H2)].
  { revert Hr. apply (rtc_ind_r (λ m, rm_consistent pick picks m)).
    - split; (split_and!; [constructor|set_solver|intros ? ? [=]]).
    - intros m1 m2 _ Hs. by apply rm_step_consistent. }
  split; intros r Hl Ho; [by apply H1|by apply H2].
Qed.

(** ** Lookup *)

Lemma covers_host {w} {nets : IpNets w} {new : NetNew w} (k h : ipnet w) a :
  (a < 2 ^ w)%N → net_new a w = Some h → covers k h ↔ net_contains k a = true.
Proof.
  intros Ha Hh. destruct (net_new_some a w Ha ltac:(lia)) as (h' & Hh' & Hl & Hn).
  rewrite Hh in Hh'. injection Hh' as <-. unfold covers. rewrite Hl, Hn, N.sub_diag.
  rewrite N.pow_0_r, N.div_1_r, N.mul_1_r. pose proof (net_prefix_len_le k). tauto.
Qed.

Lemma host_net {w} {nets : IpNets w} {new : NetNew w} a :
  (a < 2 ^ w)%N → ∃ h, net_new a w = Some h ∧ net_prefix_len h = w ∧ net_network h = a.
Proof.
  intros Ha. destruct (net_new_some a w Ha ltac:(lia)) as (h & ? & ? & Hn).
  exists h. split_and!; [done..|]. rewrite Hn, N.sub_diag, N.pow_0_r, N.div_1_r. lia.
Qed.

Section lookup.
Context {w : N} {nets : IpNets w} {new : NetNew w} {maps : PrefixMaps w} {V : Type}.
Implicit Types m : prefix_map w V.

(** A host prefix is the longest there is. *)
Lemma lpm_host m a h (v : V) :
  (a < 2 ^ w)%N → net_new a w = Some h → pm_get h m = Some v → pm_get_lpm h m = Some v.
Proof.
  intros Ha Hh Hg. destruct (host_net a Ha) as (h' & Hh' & Hl & Hn).
  rewrite Hh in Hh'. injection Hh' as <-.
  assert (Hc : covers h h).
  { apply (covers_host h h a Ha Hh), net_contains_iff. pose proof (net_network_broadcast h). lia. }
  destruct (pm_get_lpm h m) as [v'|] eqn:E.
  - apply pm_lpm_some in E as (k & Hk & [Hkl Hkc] & Hmax).
    pose proof (Hmax h ltac:(eauto) Hc). assert (Hs : same_net k h).
    { split; [|lia]. assert (Hkw : net_prefix_len k = w) by lia.
      apply net_contains_iff in Hkc. rewrite net_broadcast_eq, Hkw, N.sub_diag, N.pow_0_r in Hkc.
      lia. }
    rewrite (pm_get_same _ k h m Hs) in Hk. congruence.
  - by rewrite (pm_lpm_none _ h m E h Hc) in Hg.
Qed.

Lemma lpm_contains m a h (v : V) :
  (a < 2 ^ w)%N → net_new a w = Some h → pm_get_lpm h m = Some v →
  ∃ k, pm_get k m = Some v ∧ net_contains k a = true.
Proof.
  intros Ha Hh (k & Hk & Hc & _)%pm_lpm_some. exists k. split; [done|].
  by apply (covers_host k h a Ha Hh).
Qed.

End lookup.

End tables.

(** * A model of prefix maps

    A finite map from network and length, searched from the longest length down. *)
Module RouteModels.

Section model.
Context {w : N} {nets : IpNets w} {new : NetNew w}.

Definition net_key (n : ipnet w) : N * N := (net_network n, net_prefix_len n).
Definition mask (a l : N) : N := (a / 2 ^ (w - l) * 2 ^ (w - l))%N.
Fixpoint lpm_from {V} (l : nat) (a : N) (m : gmap (N * N) V) : option V :=
  match m !! (mask a (N.of_nat l), N.of_nat l) with
  | Some v => Some v
  | None => match l with O => None | S l' => lpm_from l' a m end
  end.

Lemma covers_key k q : covers k q →
  net_key k = (mask (net_network q) (net_prefix_len k), net_prefix_len k).
Proof.
  intros [Hl Hc]. apply net_contains_iff in Hc. rewrite net_broadcast_eq in Hc.
  unfold net_key, mask. f_equal. pose proof (net_network_aligned k) as Ha.
  set (s := (2 ^ (w - net_prefix_len k))%N) in *.
  assert (Hs : (s ≠ 0)%N) by (by apply N.pow_nonzero).
  apply N.Div0.mod_divides in Ha as [c Hk]. rewrite Hk in *.
  assert (net_network q / s = c)%N as ->; [|lia].
  symmetry. apply (N.div_unique _ _ _ (net_network q - s * c)%N); lia.
Qed.

Lemma lpm_from_some {V} (l : nat) (a : N) (m : gmap (N * N) V) v : lpm_from l a m = Some v →
  ∃ i, i ≤ l ∧ m !! (mask a (N.of_nat i), N.of_nat i) = Some v ∧
    ∀ j, i < j ≤ l → m !! (mask a (N.of_nat j), N.of_nat j) = None.
Proof.
  induction l as [|l IH]; cbn; destruct (m !! _) eqn:E; intros H; simplify_eq.
  - exists 0. split_and!; [done|done|lia].
  - exists (S l). split_and!; [done|done|lia].
  - destruct (IH H) as (i & ? & ? & Hj). exists i. split_and!; [lia|done|].
    intros j Hi. destruct (decide (j = S l)) as [->|]; [done|]. apply Hj. lia.
Qed.

Lemma lpm_from_none {V} (l : nat) (a : N) (m : gmap (N * N) V) : lpm_from l a m = None →
  ∀ j, j ≤ l → m !! (mask a (N.of_nat j), N.of_nat j) = None.
Proof.
  induction l as [|l IH]; cbn; destruct (m !! _) eqn:E; intros H j Hj; simplify_eq.
  - by replace j with 0 by lia.
  - destruct (decide (j = S l)) as [->|]; [done|]. apply IH; [done|lia].
Qed.

Lemma mask_covers q l : (l ≤ net_prefix_len q)%N →
  ∃ k, net_key k = (mask (net_network q) l, l) ∧ covers k q.
Proof.
  intros Hl. pose proof (net_prefix_len_le q). pose proof (net_network_lt q) as Hq.
  destruct (net_new_some (net_network q) l Hq ltac:(lia)) as (k & _ & Hkl & Hkn).
  exists k. unfold net_key, covers. rewrite Hkl, Hkn. split_and!; [done|done|].
  apply net_contains_iff. rewrite net_broadcast_eq, Hkl, Hkn.
  set (s := (2 ^ (w - l))%N). assert (Hs : (s ≠ 0)%N) by (by apply N.pow_nonzero).
  pose proof (N.div_mod (net_network q) s Hs) as E. pose proof (N.mod_lt (net_network q) s Hs) as Hm.
  revert E Hm. generalize (net_network q / s)%N (net_network q `mod` s)%N. clearbody s.
  intros c r E Hm. rewrite (N.mul_comm c s). lia.
Qed.

#[export] Instance maps_model : PrefixMaps w.
Proof.
  refine {| prefix_map := gmap (N * N); pm_new := λ V, ∅; pm_insert := λ V n v m, <[net_key n := v]> m;
    pm_remove := λ V n m, delete (net_key n) m; pm_get := λ V n m, m !! net_key n;
    pm_get_lpm := λ V q m, lpm_from (N.to_nat (net_prefix_len q)) (net_network q) m |}.
  - intros V a b m [H1 H2]. unfold net_key. by rewrite H1, H2.
  - intros V n. apply lookup_empty.
  - intros V n k v m. unfold same_net, net_key. destruct (decide _) as [[-> ->]|Hn].
    + apply lookup_insert_eq.
    + apply lookup_insert_ne. intros [= ? ?]. by apply Hn.
  - intros V n k m. unfold same_net, net_key. destruct (decide _) as [[-> ->]|Hn].
    + apply lookup_delete_eq.
    + apply lookup_delete_ne. intros [= ? ?]. by apply Hn.
  - intros V q v m (i & Hi & Hv & Hmax)%lpm_from_some.
    destruct (mask_covers q (N.of_nat i) ltac:(lia)) as (k & Hk & Hc).
    exists k. rewrite Hk. split_and!; [done|done|]. intros k' [v' Hv'] Hc'.
    injection Hk as _ ->. apply N.le_ngt. intros Hlt.
    specialize (Hmax (N.to_nat (net_prefix_len k')) ltac:(destruct Hc'; lia)).
    rewrite N2Nat.id, <- (covers_key k' q Hc'), Hv' in Hmax. done.
  - intros V q m H k Hc. rewrite (covers_key k q Hc).
    pose proof (lpm_from_none _ _ _ H (N.to_nat (net_prefix_len k)) ltac:(destruct Hc; lia)) as Hn.
    by rewrite N2Nat.id in Hn.
Defined.

End model.

(** [net_new] for the networks of [NetModels]: an address with a length. *)
Definition new_model (w : N) (parse : string → option (N * N)) (show : N * N → string) :
  @NetNew w (NetModels.nets_model w parse show).
Proof.
  refine (@Build_NetNew w (NetModels.nets_model w parse show)
    (λ a l, if (l <=? w)%N then Some (a, l) else None) _ _).
  - intros a l Ha Hl. exists (a, l). rewrite (proj2 (N.leb_le _ _) Hl). cbn.
    unfold NetModels.network_of, NetModels.prefix_of. cbn. split_and!; [done|lia|].
    rewrite (N.mod_small a) by done. by rewrite (N.min_l l w) by done.
  - intros a l Hl. by rewrite (proj2 (N.leb_gt _ _) Hl).
Defined.

End RouteModels.
