(* ===== verification/NetSvc.v ===== *)
(** The control side of the user-space network daemon: its SQLite tables
    (mvirt-net/src/grpc/storage.rs), request validation (grpc/validation.rs), the
    manager of routers (grpc/manager.rs, router.rs) and the gRPC methods
    (grpc/service.rs). Each NIC has a router: a reactor thread with its own routing
    tables, reached through a channel of commands. *)

From S2P Require Import Prelude Rpc Externals NetAddr NetRoute.

(** * Errors *)

Inductive NtStorageError :=
  | NtDatabase
  | NtNetworkNotFound (id : Uuid)
  | NtNicNotFound (id : Uuid)
  | NtNetworkNameExists (name : string).

Inductive NtValidationError :=
  | NtCommon (e : ValidationError)
  | Ipv4AddressInUse (a : Ipv4Addr)
  | Ipv6AddressInUse (a : Ipv6Addr).

Inductive ManagerError := MgrIo | RouterCreationFailed.

Inductive NtCause :=
  | NtStored (e : NtStorageError)
  | NtInvalid (e : NtValidationError)
  | NtManaged (e : ManagerError)
  | NtOther.
Record NtStatus := MkNtStatus { nt_code : Code; nt_cause : NtCause }.

Definition nt_storage_err_to_status (e : NtStorageError) : NtStatus :=
  MkNtStatus match e with
    | NtNetworkNotFound _ | NtNicNotFound _ => NotFound
    | NtNetworkNameExists _ => AlreadyExists
    | NtDatabase => Internal
    end (NtStored e).
Definition nt_validation_err_to_status (e : NtValidationError) : NtStatus :=
  MkNtStatus InvalidArgument (NtInvalid e).
Definition nt_manager_err_to_status (e : ManagerError) : NtStatus :=
  MkNtStatus Internal (NtManaged e).

(** [NicConfig] of the reactor: what a VM is told about its NIC. *)
Record NicConfig := MkNicConfig {
  cfg_mac : list u8;
  cfg_ipv4_address : option Ipv4Addr; cfg_ipv4_gateway : option Ipv4Addr; cfg_ipv4_prefix_len : u8;
  cfg_ipv6_address : option Ipv6Addr; cfg_ipv6_gateway : option Ipv6Addr; cfg_ipv6_prefix_len : u8;
  cfg_dns_servers : list IpAddr;
}.
#[export] Instance NicConfig_eta : Eta NicConfig := λ c,
  MkNicConfig (cfg_mac c) (cfg_ipv4_address c) (cfg_ipv4_gateway c) (cfg_ipv4_prefix_len c)
    (cfg_ipv6_address c) (cfg_ipv6_gateway c) (cfg_ipv6_prefix_len c) (cfg_dns_servers c).

(** [VhostConfig::new] and its builder methods, as [to_nic_config] passes them on. *)
Definition vhost_config_new (mac : list u8) : NicConfig := MkNicConfig mac None None 24 None None 64 [].
Definition with_ipv4 (address gateway : Ipv4Addr) (prefix_len : u8) (c : NicConfig) : NicConfig :=
  c <| cfg_ipv4_address := Some address |> <| cfg_ipv4_gateway := Some gateway |>
    <| cfg_ipv4_prefix_len := prefix_len |>.
Definition with_ipv6 (address gateway : Ipv6Addr) (prefix_len : u8) (c : NicConfig) : NicConfig :=
  c <| cfg_ipv6_address := Some address |> <| cfg_ipv6_gateway := Some gateway |>
    <| cfg_ipv6_prefix_len := prefix_len |>.
Definition with_dns (servers : list IpAddr) (c : NicConfig) : NicConfig :=
  c <| cfg_dns_servers := servers |>.

Inductive NtNicState := NtUnspecified | NtCreated | NtActive | NtError.

Section netsvc.
Context {nets4 : IpNets 32} {nets6 : IpNets 128} {text : AddrText} {unicode : UnicodeText}.
Context {new4 : NetNew 32} {new6 : NetNew 128} {maps4 : PrefixMaps 32} {maps6 : PrefixMaps 128}.

(** * Storage *)

Record NtNetwork := MkNtNetwork {
  nw_id : Uuid; nw_name : string; nw_ipv4_enabled : bool; nw_ipv4_subnet : option Ipv4Net;
  nw_ipv6_enabled : bool; nw_ipv6_prefix : option Ipv6Net; nw_dns_servers : list IpAddr;
  nw_ntp_servers : list IpAddr; nw_is_public : bool; nw_created_at : string; nw_updated_at : string }.
#[export] Instance NtNetwork_eta : Eta NtNetwork := λ r,
  MkNtNetwork (nw_id r) (nw_name r) (nw_ipv4_enabled r) (nw_ipv4_subnet r) (nw_ipv6_enabled r)
    (nw_ipv6_prefix r) (nw_dns_servers r) (nw_ntp_servers r) (nw_is_public r) (nw_created_at r)
    (nw_updated_at r).

Record NtNic := MkNtNic {
  nc_id : Uuid; nc_name : option string; nc_network_id : Uuid; nc_mac_address : list u8;
  nc_ipv4_address : option Ipv4Addr; nc_ipv6_address : option Ipv6Addr;
  nc_routed_ipv4 : list Ipv4Net; nc_routed_ipv6 : list Ipv6Net; nc_socket_path : string;
  nc_state : NtNicState; nc_created_at : string; nc_updated_at : string }.
#[export] Instance NtNic_eta : Eta NtNic := λ r,
  MkNtNic (nc_id r) (nc_name r) (nc_network_id r) (nc_mac_address r) (nc_ipv4_address r)
    (nc_ipv6_address r) (nc_routed_ipv4 r) (nc_routed_ipv6 r) (nc_socket_path r) (nc_state r)
    (nc_created_at r) (nc_updated_at r).

Record NtDb := MkNtDb { nb_networks : gmap Uuid NtNetwork; nb_nics : gmap Uuid NtNic }.
#[export] Instance NtDb_eta : Eta NtDb := λ r, MkNtDb (nb_networks r) (nb_nics r).

(** [u32] and [u128] addition. *)
Definition nt_ipv4_gateway (n : NtNetwork) : option Ipv4Addr :=
  (λ net, wrap 32 (net_network net + 1)) <$> nw_ipv4_subnet n.
Definition nt_ipv6_gateway (n : NtNetwork) : option Ipv6Addr :=
  (λ net, wrap 128 (net_network net + 1)) <$> nw_ipv6_prefix n.

(** The name is unique, the id a primary key; a violation of either is reported
    as a name that exists. *)
Definition nt_storage_create_network (n : NtNetwork) (db : NtDb) : result NtStorageError NtDb :=
  if is_some (nb_networks db !! nw_id n)
     || existsb (λ '(_, m), nw_name m == nw_name n) (map_to_list (nb_networks db))
  then Err (NtNetworkNameExists (nw_name n))
  else Ok (db <| nb_networks := <[nw_id n := n]> (nb_networks db) |>).

Definition nt_storage_update_network (id : Uuid) (dns ntp : list IpAddr) (now : string) (db : NtDb)
    : result NtStorageError NtDb :=
  match nb_networks db !! id with
  | None => Err (NtNetworkNotFound id)
  | Some n => Ok (db <| nb_networks := <[id := n <| nw_dns_servers := dns |>
                 <| nw_ntp_servers := ntp |> <| nw_updated_at := now |>]> (nb_networks db) |>)
  end.

(** [ON DELETE CASCADE]. *)
Definition nt_storage_delete_network (id : Uuid) (db : NtDb) : bool * NtDb :=
  (is_some (nb_networks db !! id),
   db <| nb_networks := delete id (nb_networks db) |>
      <| nb_nics := filter (λ '(_, n), nc_network_id n ≠ id) (nb_nics db) |>).

(** [ORDER BY created_at] has no tie break; the order here is that of the ids. *)
Definition list_nics_in_network (id : Uuid) (db : NtDb) : list NtNic :=
  snd <$> map_to_list (filter (λ '(_, n), nc_network_id n = id) (nb_nics db)).
Definition nt_count_nics (id : Uuid) (db : NtDb) : u32 := N.of_nat (length (list_nics_in_network id db)).

Definition nt_storage_create_nic (n : NtNic) (db : NtDb) : result NtStorageError NtDb :=
  if is_some (nb_nics db !! nc_id n) || is_none (nb_networks db !! nc_network_id n)
  then Err NtDatabase
  else Ok (db <| nb_nics := <[nc_id n := n]> (nb_nics db) |>).

Definition nt_update_routed_prefixes (id : Uuid) (v4 : list Ipv4Net) (v6 : list Ipv6Net)
    (now : string) (db : NtDb) : result NtStorageError NtDb :=
  match nb_nics db !! id with
  | None => Err (NtNicNotFound id)
  | Some n => Ok (db <| nb_nics := <[id := n <| nc_routed_ipv4 := v4 |> <| nc_routed_ipv6 := v6 |>
                 <| nc_updated_at := now |>]> (nb_nics db) |>)
  end.

Definition nt_storage_delete_nic (id : Uuid) (db : NtDb) : bool * NtDb :=
  (is_some (nb_nics db !! id), db <| nb_nics := delete id (nb_nics db) |>).

Definition nt_used_addresses (addr : NtNic → option N) (network_id : Uuid) (db : NtDb) : list N :=
  omap addr (list_nics_in_network network_id db).
Definition nt_addr_in_use (addr : NtNic → option N) (network_id : Uuid) (a : N) (db : NtDb) : bool :=
  existsb (λ n, addr n == Some a) (list_nics_in_network network_id db).

(** * Validation *)

Definition nt_list_public_networks (db : NtDb) : list NtNetwork :=
  List.filter nw_is_public (snd <$> map_to_list (nb_networks db)).
Definition nt_public_nets (db : NtDb) : list PublicNet :=
  (λ n, MkPublicNet (nw_name n) (nw_ipv4_subnet n) (nw_ipv6_prefix n)) <$> nt_list_public_networks db.

(** An address that is given must be in the subnet, there must be one, and no NIC
    of the network has it. *)
Definition nt_check_addr {w} {nets : IpNets w} (parse : string → option N) (show : N → string)
    (s : string)
    (invalid : ValidationError) (outside : string → string → ValidationError)
    (in_use : N → NtValidationError) (subnet : option (ipnet w)) (used : N → bool)
    : result NtValidationError (option N) :=
  if str_is_empty s then Ok None else
  let? a := ok_or (NtCommon invalid) (parse s) in
  match subnet with
  | None => Err (NtCommon (outside (show a) "no subnet configured"))
  | Some n =>
      if negb (net_contains n a) then Err (NtCommon (outside (show a) (net_string n)))
      else if used a then Err (in_use a)
      else Ok (Some a)
  end.

Definition nt_validate_create_nic (network : NtNetwork) (mac ipv4 ipv6 : string)
    (routed_v4 routed_v6 : list string) (db : NtDb)
    : result NtValidationError
        (option (list u8) * option Ipv4Addr * option Ipv6Addr * list Ipv4Net * list Ipv6Net) :=
  let? mac := Rpc.map_err NtCommon (parse_nonempty parse_mac_address (InvalidMacAddress mac) mac) in
  let? v4 := nt_check_addr ipv4_parse ipv4_string ipv4 (InvalidIpv4Address ipv4) Ipv4NotInSubnet
    Ipv4AddressInUse (nw_ipv4_subnet network) (λ a, nt_addr_in_use nc_ipv4_address (nw_id network) a db) in
  let? v6 := nt_check_addr ipv6_parse ipv6_string ipv6 (InvalidIpv6Address ipv6) Ipv6NotInPrefix
    Ipv6AddressInUse (nw_ipv6_prefix network) (λ a, nt_addr_in_use nc_ipv6_address (nw_id network) a db) in
  let? (r4, r6) := Rpc.map_err NtCommon (parse_routed_prefixes routed_v4 routed_v6) in
  Ok (mac, v4, v6, r4, r6).

(** The first address from [i] on, of [n], that is not used. *)
Fixpoint nt_first_free (n : nat) (i : N) (used : list N) : option N :=
  match n with
  | O => None
  | S n => if negb (bool_decide (i ∈ used)) then Some i else nt_first_free n (i + 1) used
  end.

(** [(network + 1)..broadcast]. *)
Definition nt_allocate_ipv4 (network : NtNetwork) (db : NtDb) : option Ipv4Addr :=
  subnet ← nw_ipv4_subnet network;
  let start := wrap 32 (net_network subnet + 1) in
  nt_first_free (N.to_nat (net_broadcast subnet - start)) start
    (nt_used_addresses nc_ipv4_address (nw_id network) db).

(** [1..65536] above the network, with [u128] addition. *)
Fixpoint nt_first_free_v6 (n : nat) (i network : N) (used : list N) : option N :=
  match n with
  | O => None
  | S n =>
      let addr := wrap 128 (network + i) in
      if negb (bool_decide (addr ∈ used)) then Some addr else nt_first_free_v6 n (i + 1) network used
  end.
Definition nt_allocate_ipv6 (network : NtNetwork) (db : NtDb) : option Ipv6Addr :=
  prefix ← nw_ipv6_prefix network;
  nt_first_free_v6 (N.to_nat 65535) 1 (net_network prefix)
    (nt_used_addresses nc_ipv6_address (nw_id network) db).

(** * Routers and the manager *)

(** A router: its reactor, the TUN device of the reactor, and every command sent
    to it through its handle, oldest first. *)
Record Router := MkRouter {
  ro_reactor : ReactorId;
  ro_if_index : u32;
  ro_config : option NicConfig;
  ro_commands : list ReactorCommand;
}.
#[export] Instance Router_eta : Eta Router := λ r,
  MkRouter (ro_reactor r) (ro_if_index r) (ro_config r) (ro_commands r).

(** [send_command]. *)
Definition handle_send (cmds : list ReactorCommand) (r : Router) : Router :=
  r <| ro_commands := ro_commands r ++ cmds |>.

Inductive InterfaceType := IfTun (if_index : u32) | IfVhost (device_id : Uuid).

(** [ReactorInfo]; [ri_open] says that the reactor still holds the receivers of its
    channels, so that sending to it succeeds. *)
Record ReactorInfo := MkReactorInfo {
  ri_interface_type : InterfaceType;
  ri_mac_address : option (list u8);
  ri_open : bool;
}.

Record ManagedNic := MkManagedNic { mn_data : NtNic; mn_router : Router; mn_table_id : Uuid }.
#[export] Instance ManagedNic_eta : Eta ManagedNic := λ m,
  MkManagedNic (mn_data m) (mn_router m) (mn_table_id m).

(** The manager, with the kernel routes it keeps: pairs of device and subnet. *)
Record NtManager := MkNtManager {
  mg_registry : gmap ReactorId ReactorInfo;
  mg_tun_router : option Router;
  mg_tun_table_id : option Uuid;
  mg_nics : gmap Uuid ManagedNic;
  mg_kernel_v4 : list (u32 * Ipv4Net);
  mg_kernel_v6 : list (u32 * Ipv6Net);
}.
#[export] Instance NtManager_eta : Eta NtManager := λ m,
  MkNtManager (mg_registry m) (mg_tun_router m) (mg_tun_table_id m) (mg_nics m) (mg_kernel_v4 m)
    (mg_kernel_v6 m).

Definition manager_new : NtManager := MkNtManager ∅ None None ∅ [] [].

(** What starting a router draws and meets: whether the directory of the sockets
    and the router could be made, the ids drawn at random, the index of the device. *)
Record RouterEnv := MkRouterEnv {
  re_dir_ok : bool; re_router_ok : bool; re_reactor : ReactorId; re_device : Uuid;
  re_if_index : u32; re_table : Uuid }.

(** [Router::with_shared_registry]: on success the reactor is in the registry. *)
Definition with_shared_registry (env : RouterEnv) (config : option NicConfig) (m : NtManager)
    : result ManagerError (Router * NtManager) :=
  if re_router_ok env then
    let info := match config with
      | Some c => MkReactorInfo (IfVhost (re_device env)) (Some (cfg_mac c)) true
      | None => MkReactorInfo (IfTun (re_if_index env)) None true
      end in
    Ok (MkRouter (re_reactor env) (re_if_index env) config [],
        m <| mg_registry := <[re_reactor env := info]> (mg_registry m) |>)
  else Err RouterCreationFailed.

(** [Router::shutdown]: the reactor ends and drops its receivers. The registry
    keeps its entry. *)
Definition close_info (i : ReactorInfo) : ReactorInfo :=
  MkReactorInfo (ri_interface_type i) (ri_mac_address i) false.
Definition router_shutdown (r : Router) (m : NtManager) : NtManager :=
  m <| mg_registry := alter close_info (ro_reactor r) (mg_registry m) |>.

(** [Ipv4Net::new(a, 32).unwrap()] as a prefix; the length is never too large. *)
Definition host_v4 (a : Ipv4Addr) : list IpPrefix := option_list (PrefixV4 <$> net_new a 32).
Definition host_v6 (a : Ipv6Addr) : list IpPrefix := option_list (PrefixV6 <$> net_new a 128).
(** ["0.0.0.0/0"] and ["::/0"]. *)
Definition default_v4 : list IpPrefix := option_list (PrefixV4 <$> net_new 0 0).
Definition default_v6 : list IpPrefix := option_list (PrefixV6 <$> net_new 0 0).
Definition add_routes (table : Uuid) (target : RouteTarget) (ps : list IpPrefix) : list ReactorCommand :=
  (λ p, CmdAddRoute table p target) <$> ps.

Definition on_tun (f : Router → Uuid → Router) (m : NtManager) : NtManager :=
  match mg_tun_router m, mg_tun_table_id m with
  | Some router, Some table_id => m <| mg_tun_router := Some (f router table_id) |>
  | _, _ => m
  end.

Definition add_nic_route_to_tun (nic : NtNic) (reactor : ReactorId) : NtManager → NtManager :=
  on_tun (λ router table_id,
    handle_send (add_routes table_id (RtReactor reactor)
      (from_option host_v4 [] (nc_ipv4_address nic) ++ from_option host_v6 [] (nc_ipv6_address nic)))
      router).
Definition remove_nic_route_from_tun (ipv4 : Ipv4Addr) : NtManager → NtManager :=
  on_tun (λ router table_id,
    handle_send (CmdRemoveRoute table_id <$> host_v4 ipv4) router).

(** [create_nic_router]: the configuration of the NIC. *)
Definition nic_config (nic : NtNic) (network : NtNetwork) : NicConfig :=
  let c := vhost_config_new (nc_mac_address nic) in
  let c := match nc_ipv4_address nic, nt_ipv4_gateway network, nw_ipv4_subnet network with
    | Some addr, Some gateway, Some subnet => with_ipv4 addr gateway (net_prefix_len subnet) c
    | _, _, _ => c
    end in
  let c := match nc_ipv6_address nic, nt_ipv6_gateway network, nw_ipv6_prefix network with
    | Some addr, Some gateway, Some prefix => with_ipv6 addr gateway (net_prefix_len prefix) c
    | _, _, _ => c
    end in
  with_dns (nw_dns_servers network) c.

(** The routes to the NIC's own addresses. *)
Definition own_routes (nic : NtNic) (reactor : ReactorId) (table : Uuid) : list ReactorCommand :=
  add_routes table (RtReactor reactor)
    (from_option host_v4 [] (nc_ipv4_address nic) ++ from_option host_v6 [] (nc_ipv6_address nic)).

(** Is the NIC [o], under the key [oid], another one of the network? *)
Definition is_peer (nic : NtNic) (network : NtNetwork) (oid : Uuid) (o : ManagedNic) : bool :=
  negb (oid == nc_id nic) && (nc_network_id (mn_data o) == nw_id network).

(** [add_vm_to_vm_routes]: what the new router learns of the others, and they of
    it. *)
Definition routes_to_peers (nic : NtNic) (network : NtNetwork) (table : Uuid)
    (nics : gmap Uuid ManagedNic) : list ReactorCommand :=
  '(oid, o) ← map_to_list nics;
  if is_peer nic network oid o then
    add_routes table (RtReactor (ro_reactor (mn_router o)))
      (from_option host_v4 [] (nc_ipv4_address (mn_data o)))
  else [].
Definition peer_learns (nic : NtNic) (network : NtNetwork) (reactor : ReactorId) (oid : Uuid)
    (o : ManagedNic) : ManagedNic :=
  if is_peer nic network oid o then
    o <| mn_router := handle_send (add_routes (mn_table_id o) (RtReactor reactor)
           (from_option host_v4 [] (nc_ipv4_address nic))) (mn_router o) |>
  else o.

Definition create_nic_router (env : RouterEnv) (nic : NtNic) (network : NtNetwork) (m : NtManager)
    : result ManagerError unit * NtManager :=
  if is_some (mg_nics m !! nc_id nic) then (Ok tt, m)
  else if negb (re_dir_ok env) then (Err MgrIo, m)
  else match with_shared_registry env (Some (nic_config nic network)) m with
  | Err e => (Err e, m)
  | Ok (router, m) =>
      let table := re_table env in
      let reactor := ro_reactor router in
      let router := handle_send
        ([CmdCreateTable table ("nic-" +:+ uuid_string (nc_id nic)); CmdSetDefaultTable table]
         ++ own_routes nic reactor table) router in
      let router :=
        match nw_is_public network, mg_tun_router m with
        | true, Some tun =>
            handle_send (add_routes table (RtReactor (ro_reactor tun)) (default_v4 ++ default_v6)) router
        | _, _ => router
        end in
      let m := if nw_is_public network then add_nic_route_to_tun nic reactor m else m in
      let router := handle_send (routes_to_peers nic network table (mg_nics m)) router in
      let nics := map_imap (λ oid o, Some (peer_learns nic network reactor oid o)) (mg_nics m) in
      (Ok tt, m <| mg_nics := <[nc_id nic := MkManagedNic nic router table]> nics |>)
  end.

Definition remove_nic_router (nic_id : Uuid) (m : NtManager) : NtManager :=
  match mg_nics m !! nic_id with
  | None => m
  | Some managed =>
      let m := m <| mg_nics := delete nic_id (mg_nics m) |> in
      let m := match nc_ipv4_address (mn_data managed) with
        | Some ipv4 => remove_nic_route_from_tun ipv4 m
        | None => m
        end in
      router_shutdown (mn_router managed) m
  end.

(** Kernel routes. A route that exists already, or not any more, is no error; [ok]
    says whether the netlink call works. *)
Definition kernel_add {A} `{EqDecision A} (ok : bool) (r : A) (l : list A) : list A :=
  if ok && negb (bool_decide (r ∈ l)) then l ++ [r] else l.
Definition kernel_delete {A} `{EqDecision A} (ok : bool) (r : A) (l : list A) : list A :=
  if ok then List.filter (λ r', negb (r' == r)) l else l.
Record KernelEnv := MkKernelEnv { ke_v4 : Ipv4Net → bool; ke_v6 : Ipv6Net → bool }.

Definition add_public_network_routes (ke : KernelEnv) (network : NtNetwork) (m : NtManager) : NtManager :=
  if negb (nw_is_public network) then m else
  match mg_tun_router m, mg_tun_table_id m with
  | Some router, Some table_id =>
      let i := ro_if_index router in
      let cmds := add_routes table_id (RtTun i)
        (option_list (PrefixV4 <$> nw_ipv4_subnet network)
         ++ option_list (PrefixV6 <$> nw_ipv6_prefix network)) in
      m <| mg_kernel_v4 := foldl (λ l s, kernel_add (ke_v4 ke s) (i, s) l) (mg_kernel_v4 m)
             (option_list (nw_ipv4_subnet network)) |>
        <| mg_kernel_v6 := foldl (λ l s, kernel_add (ke_v6 ke s) (i, s) l) (mg_kernel_v6 m)
             (option_list (nw_ipv6_prefix network)) |>
        <| mg_tun_router := Some (handle_send cmds router) |>
  | _, _ => m
  end.

Definition remove_public_network_routes (ke : KernelEnv) (network : NtNetwork) (m : NtManager)
    : NtManager :=
  if negb (nw_is_public network) then m else
  match mg_tun_router m, mg_tun_table_id m with
  | Some router, Some table_id =>
      let i := ro_if_index router in
      let cmds := CmdRemoveRoute table_id <$>
        (option_list (PrefixV4 <$> nw_ipv4_subnet network)
         ++ option_list (PrefixV6 <$> nw_ipv6_prefix network)) in
      m <| mg_kernel_v4 := foldl (λ l s, kernel_delete (ke_v4 ke s) (i, s) l) (mg_kernel_v4 m)
             (option_list (nw_ipv4_subnet network)) |>
        <| mg_kernel_v6 := foldl (λ l s, kernel_delete (ke_v6 ke s) (i, s) l) (mg_kernel_v6 m)
             (option_list (nw_ipv6_prefix network)) |>
        <| mg_tun_router := Some (handle_send cmds router) |>
  | _, _ => m
  end.
(** [sync_public_network_routes], after the routes of the device could be listed.
    The sets of the source have no order. *)
Definition sync_routes {A} `{EqDecision A} (ok : A → bool) (i : u32) (desired : list A)
    (kernel : list (u32 * A)) : list (u32 * A) :=
  let current := omap (λ '(j, s), if j == i then Some s else None) kernel in
  let added := foldl (λ l s, if bool_decide (s ∈ current) then l else kernel_add (ok s) (i, s) l)
    kernel desired in
  foldl (λ l s, if bool_decide (s ∈ desired) then l else kernel_delete (ok s) (i, s) l) added current.

Definition sync_public_network_routes (listed : bool) (ke : KernelEnv) (db : NtDb) (m : NtManager)
    : result ManagerError unit * NtManager :=
  match mg_tun_router m, mg_tun_table_id m with
  | Some router, Some table_id =>
      if negb listed then (Err MgrIo, m) else
      let i := ro_if_index router in
      let networks := nt_list_public_networks db in
      let v4 := remove_dups (omap nw_ipv4_subnet networks) in
      let v6 := remove_dups (omap nw_ipv6_prefix networks) in
      (Ok tt, m <| mg_kernel_v4 := sync_routes (ke_v4 ke) i v4 (mg_kernel_v4 m) |>
                <| mg_kernel_v6 := sync_routes (ke_v6 ke) i v6 (mg_kernel_v6 m) |>
                <| mg_tun_router := Some (handle_send
                     (add_routes table_id (RtTun i) ((PrefixV4 <$> v4) ++ (PrefixV6 <$> v6))) router) |>)
  | _, _ => (Ok tt, m)
  end.

Definition init_tun (env : RouterEnv) (listed : bool) (ke : KernelEnv) (db : NtDb) (m : NtManager)
    : result ManagerError unit * NtManager :=
  if is_some (mg_tun_router m) then (Ok tt, m) else
  match with_shared_registry env None m with
  | Err e => (Err e, m)
  | Ok (router, m) =>
      let table := re_table env in
      let router := handle_send [CmdCreateTable table "tun-routes"; CmdSetDefaultTable table] router in
      sync_public_network_routes listed ke db
        (m <| mg_tun_table_id := Some table |> <| mg_tun_router := Some router |>)
  end.

(** [recover_nics]: every stored NIC, in the order listed, whatever fails. *)
Definition nt_recover_nics (listed : list (NtNic * RouterEnv)) (db : NtDb) (m : NtManager) : NtManager :=
  foldl (λ m '(nic, env),
    match nb_networks db !! nc_network_id nic with
    | None => m
    | Some network => (create_nic_router env nic network m).2
    end) m listed.

(** [NetworkManager::shutdown]. *)
Definition manager_shutdown (m : NtManager) : NtManager :=
  let m := foldl (λ m '(_, managed), router_shutdown (mn_router managed) m) m (map_to_list (mg_nics m)) in
  let m := m <| mg_nics := ∅ |> in
  match mg_tun_router m with
  | Some router => (router_shutdown router m) <| mg_tun_router := None |>
  | None => m
  end.

(** * Methods *)

Record NtState := MkNtState { ns_db : NtDb; ns_mgr : NtManager }.
#[export] Instance NtState_eta : Eta NtState := λ s, MkNtState (ns_db s) (ns_mgr s).

Definition NtM : Type → Type := Fallible NtStatus NtState.
Open Scope rpc_scope.

Definition nt_fail {A} (c : Code) : NtM A := rpc_err (MkNtStatus c NtOther).
(** [e.map_err(f)?]. *)
Definition nt_try {E A} (f : E → NtStatus) (r : result E A) : NtM A :=
  match r with Ok a => rpc_ret a | Err e => rpc_err (f e) end.
Definition nt_found {A} (o : option A) : NtM A :=
  match o with Some a => rpc_ret a | None => nt_fail NotFound end.
Definition nt_parse_id (s : string) : NtM Uuid :=
  match uuid_parse s with Some u => rpc_ret u | None => nt_fail InvalidArgument end.
(** A statement on the database. *)
Definition nt_db {A} (f : NtDb → A * NtDb) : NtM A := λ s,
  let '(a, db) := f (ns_db s) in (Ok a, s <| ns_db := db |>).
Definition nt_write (f : NtDb → result NtStorageError NtDb) : NtM unit := λ s,
  match f (ns_db s) with
  | Ok db => (Ok tt, s <| ns_db := db |>)
  | Err e => (Err (nt_storage_err_to_status e), s)
  end.
Definition nt_mgr (f : NtManager → NtManager) : NtM unit :=
  rpc_modify (λ s, s <| ns_mgr := f (ns_mgr s) |>).

Record NtFresh := MkNtFresh { nf_uuid : Uuid; nf_now : string; nf_mac : list u8 }.

Record NtCreateNetwork := MkNtCreateNetwork {
  cw_name : string; cw_ipv4_enabled : bool; cw_ipv4_subnet : string; cw_ipv6_enabled : bool;
  cw_ipv6_prefix : string; cw_dns_servers : list string; cw_ntp_servers : list string;
  cw_is_public : bool }.

(** [.filter(not empty).filter_map(|s| s.parse().ok())]. *)
Definition nt_parse_ok {A} (parse : string → option A) (l : list string) : list A :=
  omap (λ s, if str_is_empty s then None else parse s) l.

Definition nt_create_network (fresh : NtFresh) (ke : KernelEnv) (req : NtCreateNetwork) : NtM NtNetwork :=
  let! s := rpc_get in
  let! parsed := nt_try (λ e, nt_validation_err_to_status (NtCommon e))
    (validate_create_network (cw_name req) (cw_ipv4_enabled req) (cw_ipv4_subnet req)
       (cw_ipv6_enabled req) (cw_ipv6_prefix req) (cw_is_public req) (cw_dns_servers req)
       (nt_public_nets (ns_db s))) in
  let network := MkNtNetwork (nf_uuid fresh) (cw_name req) (cw_ipv4_enabled req) parsed.1.1
    (cw_ipv6_enabled req) parsed.1.2 parsed.2 (nt_parse_ok ip_parse (cw_ntp_servers req))
    (cw_is_public req) (nf_now fresh) (nf_now fresh) in
  nt_write (nt_storage_create_network network) ;!
  nt_mgr (add_public_network_routes ke network) ;!
  rpc_ret network.

Definition nt_update_network (now id : string) (dns ntp : list string) : NtM NtNetwork :=
  let! uuid := nt_parse_id id in
  nt_write (nt_storage_update_network uuid (nt_parse_ok ip_parse dns) (nt_parse_ok ip_parse ntp) now) ;!
  let! s := rpc_get in nt_found (nb_networks (ns_db s) !! uuid).

(** The loop over the NICs of a network that is deleted by force. *)
Fixpoint nt_delete_nics (nics : list NtNic) : NtM unit :=
  match nics with
  | [] => rpc_ret tt
  | nic :: nics =>
      nt_mgr (remove_nic_router (nc_id nic)) ;!
      nt_db (nt_storage_delete_nic (nc_id nic)) ;!
      nt_delete_nics nics
  end.

Definition nt_delete_network (ke : KernelEnv) (id : string) (force : bool) : NtM (bool * u32) :=
  let! uuid := nt_parse_id id in
  let! s := rpc_get in
  let! network := nt_found (nb_networks (ns_db s) !! uuid) in
  let nics := list_nics_in_network uuid (ns_db s) in
  let count := nt_count_nics uuid (ns_db s) in
  if (0 <? count)%N && negb force then nt_fail FailedPrecondition else
  let doomed := if force then nics else [] in
  nt_delete_nics doomed ;!
  nt_mgr (remove_public_network_routes ke network) ;!
  let! deleted := nt_db (nt_storage_delete_network uuid) in
  rpc_ret (deleted, N.of_nat (length doomed)).

Record NtCreateNic := MkNtCreateNic {
  ck_name : string; ck_network_id : string; ck_mac_address : string; ck_ipv4_address : string;
  ck_ipv6_address : string; ck_routed_ipv4 : list string; ck_routed_ipv6 : list string }.

Definition generate_socket_path (nic_id : Uuid) : string :=
  "/run/mvirt/net" +:+ "/nic-" +:+ uuid_string nic_id +:+ ".sock".

(** By id if the text is a UUID, by name otherwise. *)
Definition nt_resolve (s : string) (db : NtDb) : option NtNetwork :=
  match uuid_parse s with
  | Some uuid => nb_networks db !! uuid
  | None => List.find (λ n, nw_name n == s) (snd <$> map_to_list (nb_networks db))
  end.

(** The row of the new NIC, from what was validated. *)
Definition nt_plan_nic (fresh : NtFresh) (req : NtCreateNic) (network : NtNetwork) (db : NtDb)
    : result NtValidationError NtNic :=
  let? (mac, ipv4, ipv6, r4, r6) := nt_validate_create_nic network (ck_mac_address req)
    (ck_ipv4_address req) (ck_ipv6_address req) (ck_routed_ipv4 req) (ck_routed_ipv6 req) db in
  let mac := match mac with Some m => m | None => generate_mac_address (nf_mac fresh) end in
  let ipv4 := if nw_ipv4_enabled network then
    match ipv4 with Some a => Some a | None => nt_allocate_ipv4 network db end else None in
  let ipv6 := if nw_ipv6_enabled network then
    match ipv6 with Some a => Some a | None => nt_allocate_ipv6 network db end else None in
  Ok (MkNtNic (nf_uuid fresh) (if str_is_empty (ck_name req) then None else Some (ck_name req))
    (nw_id network) mac ipv4 ipv6 r4 r6 (generate_socket_path (nf_uuid fresh)) NtCreated
    (nf_now fresh) (nf_now fresh)).

(** The router of a NIC just stored; if it cannot be made the row goes again. *)
Definition nt_start_nic (env : RouterEnv) (nic : NtNic) (network : NtNetwork) : NtM unit := λ s,
  match create_nic_router env nic network (ns_mgr s) with
  | (Ok _, m) => (Ok tt, s <| ns_mgr := m |>)
  | (Err e, m) =>
      (Err (nt_manager_err_to_status e),
       MkNtState (nt_storage_delete_nic (nc_id nic) (ns_db s)).2 m)
  end.

Definition nt_create_nic (fresh : NtFresh) (env : RouterEnv) (req : NtCreateNic) : NtM NtNic :=
  let! s := rpc_get in
  let! network := nt_found (nt_resolve (ck_network_id req) (ns_db s)) in
  let! nic := nt_try nt_validation_err_to_status (nt_plan_nic fresh req network (ns_db s)) in
  nt_write (nt_storage_create_nic nic) ;!
  nt_start_nic env nic network ;!
  rpc_ret nic.

Definition nt_update_nic (now id : string) (v4 v6 : list string) : NtM NtNic :=
  let! uuid := nt_parse_id id in
  nt_write (nt_update_routed_prefixes uuid (nt_parse_ok net_parse v4) (nt_parse_ok net_parse v6) now) ;!
  let! s := rpc_get in nt_found (nb_nics (ns_db s) !! uuid).

Definition nt_delete_nic (id : string) : NtM bool :=
  let! uuid := nt_parse_id id in
  let! s := rpc_get in
  nt_found (nb_nics (ns_db s) !! uuid) ;!
  nt_mgr (remove_nic_router uuid) ;!
  nt_db (nt_storage_delete_nic uuid).

(** [attach_nic]: a socket is always ready. *)
Definition nt_attach_nic (id : string) : NtM bool :=
  let! uuid := nt_parse_id id in
  let! s := rpc_get in
  nt_found (nb_nics (ns_db s) !! uuid) ;!
  rpc_ret true.

Definition nt_get_network (ident : string + string) : NtM (NtNetwork * u32) :=
  let! s := rpc_get in
  let! network :=
    match ident with
    | inl id =>
        if str_is_empty id then nt_fail InvalidArgument
        else let! uuid := nt_parse_id id in nt_found (nb_networks (ns_db s) !! uuid)
    | inr name =>
        if str_is_empty name then nt_fail InvalidArgument
        else nt_found (List.find (λ n, nw_name n == name) (snd <$> map_to_list (nb_networks (ns_db s))))
    end in
  rpc_ret (network, nt_count_nics (nw_id network) (ns_db s)).

Definition nt_get_nic (ident : string + string) : NtM NtNic :=
  let! s := rpc_get in
  match ident with
  | inl id =>
      if str_is_empty id then
        nt_found (List.find (λ n, nc_name n == Some "") (snd <$> map_to_list (nb_nics (ns_db s))))
      else let! uuid := nt_parse_id id in nt_found (nb_nics (ns_db s) !! uuid)
  | inr name =>
      nt_found (List.find (λ n, nc_name n == Some name) (snd <$> map_to_list (nb_nics (ns_db s))))
  end.

Definition nt_list_nics (network_id : string) : NtM (list NtNic) :=
  let! s := rpc_get in
  if str_is_empty network_id then rpc_ret (snd <$> map_to_list (nb_nics (ns_db s)))
  else let! uuid := nt_parse_id network_id in rpc_ret (list_nics_in_network uuid (ns_db s)).

(** * Runs

    Requests one after the other, and a restart of the daemon, which keeps the
    tables and starts a fresh manager with the TUN device and the stored NICs.
    What routes the kernel then has is an input. A daemon whose start failed serves
    nothing. *)

Inductive NtRequest :=
  | NtCreateNetworkReq (fresh : NtFresh) (ke : KernelEnv) (req : NtCreateNetwork)
  | NtUpdateNetworkReq (now id : string) (dns ntp : list string)
  | NtDeleteNetworkReq (ke : KernelEnv) (id : string) (force : bool)
  | NtCreateNicReq (fresh : NtFresh) (env : RouterEnv) (req : NtCreateNic)
  | NtUpdateNicReq (now id : string) (v4 v6 : list string)
  | NtDeleteNicReq (id : string)
  | NtRestart (env : RouterEnv) (listed : bool) (ke : KernelEnv) (kernel_v4 : list (u32 * Ipv4Net))
      (kernel_v6 : list (u32 * Ipv6Net)) (nics : list (NtNic * RouterEnv)).

Record NtDaemon := MkNtDaemon { nd_state : NtState; nd_up : bool }.

Definition nt_serve (r : NtRequest) (s : NtState) : NtState :=
  match r with
  | NtCreateNetworkReq fresh ke req => (nt_create_network fresh ke req s).2
  | NtUpdateNetworkReq now id dns ntp => (nt_update_network now id dns ntp s).2
  | NtDeleteNetworkReq ke id force => (nt_delete_network ke id force s).2
  | NtCreateNicReq fresh env req => (nt_create_nic fresh env req s).2
  | NtUpdateNicReq now id v4 v6 => (nt_update_nic now id v4 v6 s).2
  | NtDeleteNicReq id => (nt_delete_nic id s).2
  | NtRestart _ _ _ _ _ _ => s
  end.

Definition nt_step (r : NtRequest) (d : NtDaemon) : NtDaemon :=
  match r with
  | NtRestart env listed ke kernel_v4 kernel_v6 nics =>
      let db := ns_db (nd_state d) in
      match init_tun env listed ke db (manager_new <| mg_kernel_v4 := kernel_v4 |>
                                                   <| mg_kernel_v6 := kernel_v6 |>) with
      | (Ok _, m) => MkNtDaemon (MkNtState db (nt_recover_nics nics db m)) true
      | (Err _, _) => MkNtDaemon (MkNtState db manager_new) false
      end
  | _ => if nd_up d then MkNtDaemon (nt_serve r (nd_state d)) true else d
  end.

Definition nt_boot : NtDaemon := MkNtDaemon (MkNtState (MkNtDb ∅ ∅) manager_new) false.

(** The ids a step draws are new: random 128-bit numbers. At a restart the rows
    listed are those of the table. *)
Definition nt_fresh (r : NtRequest) (d : NtDaemon) : Prop :=
  match r with
  | NtCreateNicReq _ env _ => mg_registry (ns_mgr (nd_state d)) !! re_reactor env = None
  | NtRestart env _ _ _ _ nics =>
      NoDup (re_reactor env :: (re_reactor ∘ snd <$> nics)) ∧
      Forall (λ n, nb_nics (ns_db (nd_state d)) !! nc_id n.1 = Some n.1) nics
  | _ => True
  end.

Definition nt_run (d d' : NtDaemon) : Prop := rtc (λ d d', ∃ r, nt_fresh r d ∧ d' = nt_step r d) d d'.

End netsvc.
