(* ===== verification/NetSvcFacts.v ===== *)
(** Where the routers of the user-space network daemon send packets: every reactor
    only to the NICs of its network, under every sequence of requests; and the
    routes that go missing. *)

From S2P Require Import Prelude Rpc Externals NetAddr NetRoute NetSvc.

(** The parts of a managed NIC. *)
Abbreviation reactor_of mn := (ro_reactor (mn_router mn)).
Abbreviation net_of mn := (nc_network_id (mn_data mn)).
Abbreviation v4_of mn := (nc_ipv4_address (mn_data mn)).
Abbreviation v6_of mn := (nc_ipv6_address (mn_data mn)).

Section facts.
Context {nets4 : IpNets 32} {nets6 : IpNets 128} {text : AddrText} {unicode : UnicodeText}.
Context {new4 : NetNew 32} {new6 : NetNew 128} {maps4 : PrefixMaps 32} {maps6 : PrefixMaps 128}.

(** * The tables a list of commands leaves

    A router is sent the creation of its one table and then only routes for it. *)

Inductive is_route (t : Uuid) : ReactorCommand → Prop :=
  | is_route_add p target : is_route t (CmdAddRoute t p target)
  | is_route_remove p : is_route t (CmdRemoveRoute t p).

Definition step4 (m : prefix_map 32 RouteTarget) (c : ReactorCommand) : prefix_map 32 RouteTarget :=
  match c with
  | CmdAddRoute _ (PrefixV4 p) target => pm_insert p target m
  | CmdRemoveRoute _ (PrefixV4 p) => pm_remove p m
  | _ => m
  end.
Definition step6 (m : prefix_map 128 RouteTarget) (c : ReactorCommand) : prefix_map 128 RouteTarget :=
  match c with
  | CmdAddRoute _ (PrefixV6 p) target => pm_insert p target m
  | CmdRemoveRoute _ (PrefixV6 p) => pm_remove p m
  | _ => m
  end.

Lemma tables_routes pick t routes ts tb :
  Forall (is_route t) routes → rt_default ts = Some t → rt_tables ts !! t = Some tb →
  get_default (foldl (command_apply pick) ts routes) =
    Some (MkLpmTable (lt_id tb) (lt_name tb) (foldl step4 (lt_ipv4 tb) routes)
            (foldl step6 (lt_ipv6 tb) routes)).
Proof.
  intros Hr. revert ts tb. induction Hr as [|c routes Hc Hr IH]; intros ts tb Hd Ht.
  { cbn [foldl]. unfold get_default. rewrite Hd. cbn. rewrite Ht. by destruct tb. }
  cbn [foldl]. set (tb' := MkLpmTable (lt_id tb) (lt_name tb) (step4 (lt_ipv4 tb) c) (step6 (lt_ipv6 tb) c)).
  rewrite (IH _ tb'); [done| |].
  - by destruct Hc as [[]|[]].
  - destruct Hc as [[]|[]]; cbn; rewrite lookup_alter_eq, Ht; done.
Qed.

(** The commands of a router, as far as its reactor has taken them. *)
Lemma router_tables pick t name routes n :
  Forall (is_route t) routes →
  get_default (tables_after pick (take n (CmdCreateTable t name :: CmdSetDefaultTable t :: routes))) =
    match n with
    | O => None
    | S n' => Some (MkLpmTable t name (foldl step4 pm_new (take (pred n') routes))
                      (foldl step6 pm_new (take (pred n') routes)))
    end.
Proof.
  intros Hr. unfold tables_after. destruct n as [|[|n]]; [done| |].
  { cbn. unfold get_default. cbn. by rewrite lookup_insert_eq. }
  cbn [take foldl]. set (ts := command_apply pick rt_new (CmdCreateTable t name)).
  set (ts' := command_apply pick ts (CmdSetDefaultTable t)).
  assert (Ht : rt_tables ts !! t = Some (lpm_new t name)) by (cbn; by rewrite lookup_insert_eq).
  assert (Hts : ts' = MkRoutingTables (rt_tables ts) (Some t)).
  { unfold ts'. cbn [command_apply]. unfold set_default. rewrite Ht. done. }
  rewrite (tables_routes pick t (take n routes) ts' (lpm_new t name)); [done| | |].
  - by apply Forall_take.
  - by rewrite Hts.
  - by rewrite Hts.
Qed.

(** What is in a table was added by one of the commands. *)
Lemma step4_origin k target routes m :
  pm_get k (foldl step4 m routes) = Some target →
  pm_get k m = Some target ∨ ∃ t p, CmdAddRoute t (PrefixV4 p) target ∈ routes ∧ same_net k p.
Proof.
  revert m. induction routes as [|c routes IH]; intros m; cbn; [auto|].
  intros [H|(t & p & Hin & Hs)]%IH; [|right; exists t, p; set_solver].
  destruct c as [| | |t [p|p] tg|t [p|p]|]; cbn in H; auto.
  - rewrite pm_get_insert in H. destruct (decide (same_net k p)); [|auto].
    right. exists t, p. simplify_eq. set_solver.
  - rewrite pm_get_remove in H. destruct (decide (same_net k p)); [done|auto].
Qed.
Lemma step6_origin k target routes m :
  pm_get k (foldl step6 m routes) = Some target →
  pm_get k m = Some target ∨ ∃ t p, CmdAddRoute t (PrefixV6 p) target ∈ routes ∧ same_net k p.
Proof.
  revert m. induction routes as [|c routes IH]; intros m; cbn; [auto|].
  intros [H|(t & p & Hin & Hs)]%IH; [|right; exists t, p; set_solver].
  destruct c as [| | |t [p|p] tg|t [p|p]|]; cbn in H; auto.
  - rewrite pm_get_insert in H. destruct (decide (same_net k p)); [|auto].
    right. exists t, p. simplify_eq. set_solver.
  - rewrite pm_get_remove in H. destruct (decide (same_net k p)); [done|auto].
Qed.

(** Routes to prefixes other than [k] do not matter for [k]. *)
Definition touches4 (k : Ipv4Net) (c : ReactorCommand) : Prop :=
  match c with
  | CmdAddRoute _ (PrefixV4 p) _ | CmdRemoveRoute _ (PrefixV4 p) => same_net k p
  | _ => False
  end.

Lemma step4_other k routes m :
  Forall (λ c, ¬ touches4 k c) routes → pm_get k (foldl step4 m routes) = pm_get k m.
Proof.
  intros H. revert m. induction H as [|c routes Hc _ IH]; intros m; [done|]. cbn. rewrite IH.
  destruct c as [| | |t [p|p] tg|t [p|p]|]; cbn in *; try done.
  - rewrite pm_get_insert. by rewrite decide_False.
  - rewrite pm_get_remove. by rewrite decide_False.
Qed.

(** A route is in force when nothing after it touches its prefix. *)
Lemma step4_last k t p target before after m :
  same_net k p → Forall (λ c, ¬ touches4 k c) after →
  pm_get k (foldl step4 m (before ++ CmdAddRoute t (PrefixV4 p) target :: after)) = Some target.
Proof.
  intros Hs Ha. rewrite foldl_app. cbn. rewrite step4_other by done.
  rewrite pm_get_insert. by rewrite decide_True.
Qed.

Lemma same_net_contains {w} {nets : IpNets w} (k p : ipnet w) a :
  same_net k p → net_contains k a = net_contains p a.
Proof.
  intros [Hn Hl]. apply eq_true_iff_eq. rewrite !net_contains_iff, !net_broadcast_eq.
  by rewrite Hn, Hl.
Qed.

(** A decision for a reactor comes from a route that was sent. *)
Lemma decide_v4_origin pick t name routes n dst id :
  (dst < 2 ^ 32)%N → Forall (is_route t) routes →
  decide_v4 (tables_after pick (take n (CmdCreateTable t name :: CmdSetDefaultTable t :: routes))) dst
    = ToVhost id →
  ∃ t' p, CmdAddRoute t' (PrefixV4 p) (RtReactor id) ∈ routes ∧ net_contains p dst = true.
Proof.
  intros Hd Hr. unfold decide_v4. rewrite router_tables by done. destruct n as [|n]; [done|].
  unfold lookup_v4. destruct (host_net dst Hd) as (h & Hh & _ & _). rewrite Hh. cbn.
  destruct (pm_get_lpm h _) as [target|] eqn:E; [|done].
  destruct target as [id'| | | |]; try done. cbn. intros [= ->].
  apply (lpm_contains _ dst) in E as (k & Hk & Hc); [|done..].
  apply step4_origin in Hk as [Hk|(t' & p & Hin & Hs)]; [by rewrite pm_get_new in Hk|].
  exists t', p. split; [|by rewrite <- (same_net_contains k p)].
  eapply elem_of_submseteq; [done|]. apply sublist_submseteq, sublist_take.
Qed.
Lemma decide_v6_origin pick t name routes n dst id :
  (dst < 2 ^ 128)%N → Forall (is_route t) routes →
  decide_v6 (tables_after pick (take n (CmdCreateTable t name :: CmdSetDefaultTable t :: routes))) dst
    = ToVhost id →
  ∃ t' p, CmdAddRoute t' (PrefixV6 p) (RtReactor id) ∈ routes ∧ net_contains p dst = true.
Proof.
  intros Hd Hr. unfold decide_v6. rewrite router_tables by done. destruct n as [|n]; [done|].
  unfold lookup_v6. destruct (host_net dst Hd) as (h & Hh & _ & _). rewrite Hh. cbn.
  destruct (pm_get_lpm h _) as [target|] eqn:E; [|done].
  destruct target as [id'| | | |]; try done. cbn. intros [= ->].
  apply (lpm_contains _ dst) in E as (k & Hk & Hc); [|done..].
  apply step6_origin in Hk as [Hk|(t' & p & Hin & Hs)]; [by rewrite pm_get_new in Hk|].
  exists t', p. split; [|by rewrite <- (same_net_contains k p)].
  eapply elem_of_submseteq; [done|]. apply sublist_submseteq, sublist_take.
Qed.

(** The route for a single address in force is the decision for it. *)
Lemma decide_v4_host pick t name routes a h id :
  (a < 2 ^ 32)%N → Forall (is_route t) routes → net_new a 32 = Some h →
  pm_get h (foldl step4 pm_new routes) = Some (RtReactor id) →
  decide_v4 (tables_after pick (CmdCreateTable t name :: CmdSetDefaultTable t :: routes)) a = ToVhost id.
Proof.
  intros Ha Hr Hh Hg. unfold decide_v4.
  pose proof (router_tables pick t name routes (2 + length routes) Hr) as H.
  rewrite firstn_all2 in H by (cbn; lia). rewrite H. cbn [pred plus].
  rewrite firstn_all2 by lia. unfold lookup_v4. rewrite Hh. cbn.
  by rewrite (lpm_host _ a h (RtReactor id)).
Qed.

(** * Addresses *)

Lemma host_v4_elem a p : (a < 2 ^ 32)%N → p ∈ host_v4 a →
  ∃ h, p = PrefixV4 h ∧ net_new a 32 = Some h ∧ ∀ b, net_contains h b = true → b = a.
Proof.
  intros Ha. unfold host_v4. destruct (host_net a Ha) as (h & Hh & Hl & Hn). rewrite Hh. cbn.
  intros ->%list_elem_of_singleton. exists h. split_and!; [done..|].
  intros b Hb%net_contains_iff. rewrite net_broadcast_eq, Hn, Hl, N.sub_diag, N.pow_0_r in Hb. lia.
Qed.
Lemma host_v6_elem a p : (a < 2 ^ 128)%N → p ∈ host_v6 a →
  ∃ h, p = PrefixV6 h ∧ net_new a 128 = Some h ∧ ∀ b, net_contains h b = true → b = a.
Proof.
  intros Ha. unfold host_v6. destruct (host_net a Ha) as (h & Hh & Hl & Hn). rewrite Hh. cbn.
  intros ->%list_elem_of_singleton. exists h. split_and!; [done..|].
  intros b Hb%net_contains_iff. rewrite net_broadcast_eq, Hn, Hl, N.sub_diag, N.pow_0_r in Hb. lia.
Qed.
Lemma host_v4_eq a h : net_new a 32 = Some h → host_v4 a = [PrefixV4 h].
Proof. intros H. unfold host_v4. by rewrite H. Qed.

Lemma same_host a b (ha hb : Ipv4Net) :
  (a < 2 ^ 32)%N → (b < 2 ^ 32)%N → net_new a 32 = Some ha → net_new b 32 = Some hb →
  same_net ha hb → a = b.
Proof.
  intros Ha Hb Hha Hhb [Hn _]. destruct (host_net a Ha) as (ha' & Ha' & _ & Ea).
  destruct (host_net b Hb) as (hb' & Hb' & _ & Eb).
  assert (ha' = ha) as -> by congruence. assert (hb' = hb) as -> by congruence. congruence.
Qed.

(** * The invariant *)

(** A reactor to which packets can be sent. *)
Definition live (m : NtManager) (id : ReactorId) : Prop :=
  ∃ i, mg_registry m !! id = Some i ∧ ri_open i = true.
Definition public (db : NtDb) (nid : Uuid) : Prop :=
  ∃ nw, nb_networks db !! nid = Some nw ∧ nw_is_public nw = true.

(** The tables: rows under their ids, in an existing network, with an IPv4 address
    no other NIC of the network has. *)
Record db_inv (db : NtDb) : Prop := {
  di_network : ∀ k nw, nb_networks db !! k = Some nw → nw_id nw = k;
  di_nic : ∀ k n, nb_nics db !! k = Some n → nc_id n = k ∧ is_Some (nb_networks db !! nc_network_id n) ∧
    (∀ a, nc_ipv4_address n = Some a → (a < 2 ^ 32)%N) ∧
    (∀ a, nc_ipv6_address n = Some a → (a < 2 ^ 128)%N);
  di_unique : ∀ k k' n n' a, nb_nics db !! k = Some n → nb_nics db !! k' = Some n' →
    nc_network_id n = nc_network_id n' → nc_ipv4_address n = Some a → nc_ipv4_address n' = Some a →
    k = k';
}.

(** What the manager knows of a row, which does not change. *)
Definition same_addr (n row : NtNic) : Prop :=
  nc_id n = nc_id row ∧ nc_network_id n = nc_network_id row ∧
  nc_ipv4_address n = nc_ipv4_address row ∧ nc_ipv6_address n = nc_ipv6_address row.

(** A route of the NIC [mn]: the default route of a public network, to the TUN
    reactor; a route to the address of a NIC of the network, if that NIC is still
    there; or the route to its own IPv6 address. *)
Inductive nic_route_ok (db : NtDb) (m : NtManager) (mn : ManagedNic) : ReactorCommand → Prop :=
  | nr_default p r : mg_tun_router m = Some r → public db (net_of mn) →
      nic_route_ok db m mn (CmdAddRoute (mn_table_id mn) p (RtReactor (ro_reactor r)))
  | nr_host4 p a id : (a < 2 ^ 32)%N → p ∈ host_v4 a → is_Some (mg_registry m !! id) →
      (live m id → ∃ k b, mg_nics m !! k = Some b ∧ reactor_of b = id ∧ net_of b = net_of mn ∧
         v4_of b = Some a) →
      nic_route_ok db m mn (CmdAddRoute (mn_table_id mn) p (RtReactor id))
  | nr_host6 p a : (a < 2 ^ 128)%N → p ∈ host_v6 a → v6_of mn = Some a →
      nic_route_ok db m mn (CmdAddRoute (mn_table_id mn) p (RtReactor (reactor_of mn))).

(** A route of the TUN reactor: to a subnet, to the address of a NIC of a public
    network, if it is still there, or the removal of a route. *)
Inductive tun_route_ok (db : NtDb) (m : NtManager) (t : Uuid) : ReactorCommand → Prop :=
  | tr_net p i : tun_route_ok db m t (CmdAddRoute t p (RtTun i))
  | tr_remove p : tun_route_ok db m t (CmdRemoveRoute t p)
  | tr_host4 p a id : (a < 2 ^ 32)%N → p ∈ host_v4 a → is_Some (mg_registry m !! id) →
      (live m id → ∃ k b, mg_nics m !! k = Some b ∧ reactor_of b = id ∧ public db (net_of b) ∧
         v4_of b = Some a) →
      tun_route_ok db m t (CmdAddRoute t p (RtReactor id))
  | tr_host6 p a id : (a < 2 ^ 128)%N → p ∈ host_v6 a → is_Some (mg_registry m !! id) →
      (live m id → ∃ k b, mg_nics m !! k = Some b ∧ reactor_of b = id ∧ public db (net_of b) ∧
         v6_of b = Some a) →
      tun_route_ok db m t (CmdAddRoute t p (RtReactor id)).

(** The table of [routes] leads to every NIC of the network. *)
Definition leads_to_peers (m : NtManager) (mn : ManagedNic) (routes : list ReactorCommand) : Prop :=
  ∀ k b a h, mg_nics m !! k = Some b → net_of b = net_of mn → v4_of b = Some a →
    net_new a 32 = Some h → pm_get h (foldl step4 pm_new routes) = Some (RtReactor (reactor_of b)).

Definition router_cmds (t : Uuid) (r : Router) (routes : list ReactorCommand) : Prop :=
  ∃ name, ro_commands r = CmdCreateTable t name :: CmdSetDefaultTable t :: routes.

Record mgr_inv (db : NtDb) (m : NtManager) : Prop := {
  mi_row : ∀ k mn, mg_nics m !! k = Some mn →
    ∃ row, nb_nics db !! k = Some row ∧ same_addr (mn_data mn) row;
  mi_live : ∀ k mn, mg_nics m !! k = Some mn → live m (reactor_of mn);
  mi_tun : ∀ r, mg_tun_router m = Some r → live m (ro_reactor r) ∧
    ∀ k mn, mg_nics m !! k = Some mn → reactor_of mn ≠ ro_reactor r;
  mi_inj : ∀ k k' mn mn', mg_nics m !! k = Some mn → mg_nics m !! k' = Some mn' →
    reactor_of mn = reactor_of mn' → k = k';
  mi_cmds : ∀ k mn, mg_nics m !! k = Some mn → ∃ routes,
    router_cmds (mn_table_id mn) (mn_router mn) routes ∧ Forall (nic_route_ok db m mn) routes ∧
    leads_to_peers m mn routes;
  mi_tun_cmds : ∀ r, mg_tun_router m = Some r → ∃ t routes, mg_tun_table_id m = Some t ∧
    router_cmds t r routes ∧ Forall (tun_route_ok db m t) routes;
}.

Lemma nic_route_is_route db m mn c : nic_route_ok db m mn c → is_route (mn_table_id mn) c.
Proof. destruct 1; constructor. Qed.
Lemma tun_route_is_route db m t c : tun_route_ok db m t c → is_route t c.
Proof. destruct 1; constructor. Qed.

(** ** What keeps the routes right *)

Record mgr_le (db : NtDb) (m : NtManager) (db' : NtDb) (m' : NtManager) : Prop := {
  ml_registry : ∀ id, is_Some (mg_registry m !! id) →
    is_Some (mg_registry m' !! id) ∧ (live m' id → live m id);
  ml_tun : ∀ r, mg_tun_router m = Some r →
    ∃ r', mg_tun_router m' = Some r' ∧ ro_reactor r' = ro_reactor r;
  ml_nics : ∀ k b, mg_nics m !! k = Some b → live m' (reactor_of b) →
    ∃ b', mg_nics m' !! k = Some b' ∧ mn_data b' = mn_data b ∧ reactor_of b' = reactor_of b;
  ml_public : ∀ k b, mg_nics m' !! k = Some b → public db (net_of b) → public db' (net_of b);
}.

Lemma nic_route_mono db m db' m' k mn mn' c :
  mgr_le db m db' m' → mg_nics m' !! k = Some mn' → mn_data mn' = mn_data mn →
  reactor_of mn' = reactor_of mn → mn_table_id mn' = mn_table_id mn →
  nic_route_ok db m mn c → nic_route_ok db' m' mn' c.
Proof.
  intros Hle Hk Hd Hr Ht Hc. destruct Hc as [p r Htun Hp|p a id Ha Hp Hid Hl|p a Ha Hp Hv];
    rewrite <- Ht.
  - destruct (ml_tun _ _ _ _ Hle r Htun) as (r' & Htun' & <-). apply nr_default; [done|].
    apply (ml_public _ _ _ _ Hle k); [done|]. by rewrite Hd.
  - destruct (ml_registry _ _ _ _ Hle id Hid) as [Hid' Hl'].
    apply (nr_host4 _ _ _ p a); [done..|]. intros Hlive.
    destruct (Hl (Hl' Hlive)) as (k2 & b & Hb & <- & Hn & Hv).
    destruct (ml_nics _ _ _ _ Hle k2 b Hb Hlive) as (b' & Hb' & Hbd & Hbr).
    exists k2, b'. by rewrite Hbd, Hd.
  - rewrite <- Hr. apply (nr_host6 _ _ _ p a); [done..|]. by rewrite Hd.
Qed.

Lemma tun_route_mono db m db' m' t c :
  mgr_le db m db' m' → tun_route_ok db m t c → tun_route_ok db' m' t c.
Proof.
  intros Hle Hc. destruct Hc as [p i|p|p a id Ha Hp Hid Hl|p a id Ha Hp Hid Hl].
  - constructor.
  - constructor.
  - destruct (ml_registry _ _ _ _ Hle id Hid) as [Hid' Hl'].
    apply (tr_host4 _ _ _ p a); [done..|]. intros Hlive.
    destruct (Hl (Hl' Hlive)) as (k2 & b & Hb & <- & Hn & Hv).
    destruct (ml_nics _ _ _ _ Hle k2 b Hb Hlive) as (b' & Hb' & Hbd & Hbr).
    exists k2, b'. rewrite Hbr, Hbd. split_and!; [done..| |done]. rewrite <- Hbd in Hn |- *.
    by apply (ml_public _ _ _ _ Hle k2).
  - destruct (ml_registry _ _ _ _ Hle id Hid) as [Hid' Hl'].
    apply (tr_host6 _ _ _ p a); [done..|]. intros Hlive.
    destruct (Hl (Hl' Hlive)) as (k2 & b & Hb & <- & Hn & Hv).
    destruct (ml_nics _ _ _ _ Hle k2 b Hb Hlive) as (b' & Hb' & Hbd & Hbr).
    exists k2, b'. rewrite Hbr, Hbd. split_and!; [done..| |done]. rewrite <- Hbd in Hn |- *.
    by apply (ml_public _ _ _ _ Hle k2).
Qed.

(** Only the tables change. *)
Lemma mgr_inv_db db db' m :
  (∀ k mn row, mg_nics m !! k = Some mn → nb_nics db !! k = Some row →
     ∃ row', nb_nics db' !! k = Some row' ∧ same_addr row row') →
  (∀ k mn, mg_nics m !! k = Some mn → public db (net_of mn) → public db' (net_of mn)) →
  mgr_inv db m → mgr_inv db' m.
Proof.
  intros Hrow Hpub [H1 H2 H3 H4 H5 H6].
  assert (Hle : mgr_le db m db' m) by (split; eauto). split; [|done..| |].
  - intros k mn Hk. destruct (H1 k mn Hk) as (row & Hr & Hs).
    destruct (Hrow k mn row Hk Hr) as (row' & Hr' & Hs'). exists row'. split; [done|].
    unfold same_addr in *. intuition congruence.
  - intros k mn Hk. destruct (H5 k mn Hk) as (routes & Hc & Hf & Hp). exists routes.
    split_and!; [done| |done]. eapply list.Forall_impl; [exact Hf|]. intros c.
    by apply (nic_route_mono db m db' m k).
  - intros r Hr. destruct (H6 r Hr) as (t & routes & Ht & Hc & Hf). exists t, routes.
    split_and!; [done..|]. eapply list.Forall_impl; [exact Hf|]. intros c. by apply tun_route_mono.
Qed.

(** Only the TUN reactor is sent commands, or kernel routes change. *)
Lemma mgr_inv_tun db m m' t r cmds :
  mg_registry m' = mg_registry m → mg_nics m' = mg_nics m → mg_tun_table_id m' = mg_tun_table_id m →
  mg_tun_router m = Some r → mg_tun_table_id m = Some t →
  mg_tun_router m' = Some (handle_send cmds r) → Forall (tun_route_ok db m t) cmds →
  mgr_inv db m → mgr_inv db m'.
Proof.
  intros Hreg Hn Htt Htr Ht Htr' Hcmds [H1 H2 H3 H4 H5 H6].
  assert (Hl : ∀ id, live m' id ↔ live m id) by (intros id; unfold live; by rewrite Hreg).
  assert (Hle : mgr_le db m db m').
  { split.
    - intros id ?. rewrite Hreg. split; [done|apply Hl].
    - intros r'. rewrite Htr. intros [= <-]. eauto.
    - intros k b Hb _. rewrite Hn. eauto.
    - rewrite Hn. eauto. }
  split; rewrite ?Hn.
  - done.
  - intros k mn Hk. by apply Hl, (H2 k).
  - intros r'. rewrite Htr'. intros [= <-]. cbn. rewrite Hl. by apply H3.
  - done.
  - intros k mn Hk. destruct (H5 k mn Hk) as (routes & Hc & Hf & Hp). exists routes.
    split_and!; [done| |]; [|unfold leads_to_peers; by rewrite Hn].
    eapply list.Forall_impl; [exact Hf|]. intros c. apply (nic_route_mono db m db m' k); rewrite ?Hn; done.
  - intros r'. rewrite Htr'. intros [= <-]. destruct (H6 r Htr) as (t' & routes & Ht' & [name Hc] & Hf).
    rewrite Ht in Ht'. injection Ht' as <-. exists t, (routes ++ cmds). rewrite Htt.
    split_and!; [done|exists name; cbn; by rewrite Hc|].
    apply Forall_app. split; (eapply list.Forall_impl; [eassumption|]; intros c; by apply tun_route_mono).
Qed.

Lemma on_tun_inv db m f cmds :
  (∀ r t, f r t = handle_send (cmds t) r) →
  (∀ r t, mg_tun_router m = Some r → Forall (tun_route_ok db m t) (cmds t)) →
  mgr_inv db m → mgr_inv db (on_tun f m).
Proof.
  intros Hf Hok Hm. unfold on_tun. destruct (mg_tun_router m) as [r|] eqn:Hr; [|done].
  destruct (mg_tun_table_id m) as [t|] eqn:Ht; [|done].
  apply (mgr_inv_tun db m _ t r (cmds t)); try done; [|by apply (Hok r)]. cbn. by rewrite Hf.
Qed.

(** ** Removing a NIC *)

Lemma live_close m r id :
  live (router_shutdown r m) id ↔ live m id ∧ id ≠ ro_reactor r.
Proof.
  unfold live, router_shutdown. cbn. destruct (decide (id = ro_reactor r)) as [->|Hne].
  - rewrite lookup_alter_eq. split; [|by intros []].
    intros (i & Hi & Ho). destruct (mg_registry m !! ro_reactor r); [|done].
    cbn in Hi. by injection Hi as <-.
  - rewrite lookup_alter_ne by done. tauto.
Qed.

Lemma remove_nic_router_inv db k m :
  mgr_inv db m → mgr_inv db (remove_nic_router k m).
Proof.
  intros Hm. unfold remove_nic_router. destruct (mg_nics m !! k) as [gone|] eqn:Hk; [|done].
  set (m0 := m <| mg_nics := delete k (mg_nics m) |>).
  set (m2 := router_shutdown (mn_router gone) m0).
  assert (Hl : ∀ id, live m2 id ↔ live m id ∧ id ≠ reactor_of gone).
  { intros id. apply (live_close m0 (mn_router gone) id). }
  assert (H2 : mgr_inv db m2).
  { destruct Hm as [H1 H2 H3 H4 H5 H6].
    assert (Hn : ∀ k' mn, mg_nics m2 !! k' = Some mn ↔ k' ≠ k ∧ mg_nics m !! k' = Some mn).
    { intros k' mn. unfold m2. cbn. rewrite lookup_delete_Some. naive_solver. }
    assert (Hle : mgr_le db m db m2).
    { split.
      - intros id Hid. rewrite Hl. split; [|tauto]. unfold m2. cbn.
        destruct (decide (id = reactor_of gone)) as [->|].
        + rewrite lookup_alter_eq. destruct Hid as [i ->]. cbn. eauto.
        + by rewrite lookup_alter_ne.
      - eauto.
      - intros k' b Hb Hlive. exists b. split_and!; [|done..]. rewrite Hn. split; [|done].
        intros ->. apply Hl in Hlive as [_ []]. congruence.
      - eauto. }
    split.
    - intros k' mn [_ Hk']%Hn. eauto.
    - intros k' mn [Hne Hk']%Hn. apply Hl. split; [eauto|].
      intros He. apply Hne. by apply (H4 k' k mn gone).
    - intros r Hr. destruct (H3 r Hr) as [Hlr Hd]. rewrite Hl. split_and!; [done| |].
      + intros He. by apply (Hd k gone Hk).
      + intros k' mn [_ Hk']%Hn. eauto.
    - intros k1 k2 mn1 mn2 [_ Hk1]%Hn [_ Hk2]%Hn. eauto.
    - intros k' mn [Hne Hk']%Hn. destruct (H5 k' mn Hk') as (routes & Hc & Hf & Hp).
      exists routes. split_and!; [done| |].
      + eapply list.Forall_impl; [exact Hf|]. intros c. apply (nic_route_mono db m db m2 k'); [done| |done..].
        by apply Hn.
      + intros k2 b a h [_ Hb]%Hn. eauto.
    - intros r Hr. destruct (H6 r Hr) as (t & routes & Ht & Hc & Hf). exists t, routes.
      split_and!; [done..|]. eapply list.Forall_impl; [exact Hf|]. intros c. by apply tun_route_mono. }
  (* The command to the TUN reactor comes before the shutdown; the two commute. *)
  destruct (v4_of gone) as [a|]; [|exact H2].
  assert (Hcomm : router_shutdown (mn_router gone) (remove_nic_route_from_tun a m0) =
    remove_nic_route_from_tun a m2).
  { unfold remove_nic_route_from_tun, on_tun. cbn. by destruct (mg_tun_router m), (mg_tun_table_id m). }
  rewrite Hcomm. eapply on_tun_inv; [done| |exact H2].
  intros r t _. apply Forall_fmap, Forall_true. intros p. constructor.
Qed.

(** ** Creating a NIC *)

(** A prefix all of whose routes have one target. *)
Lemma step4_unique k target routes m :
  (∃ c, c ∈ routes ∧ touches4 k c) →
  (∀ c, c ∈ routes → touches4 k c → ∃ t p, c = CmdAddRoute t p target) →
  pm_get k (foldl step4 m routes) = Some target.
Proof.
  induction routes as [|c routes IH] using rev_ind; intros (c' & Hin & Hc') Hall; [set_solver|].
  rewrite foldl_snoc. assert (Htouch : touches4 k c ∨ ¬ touches4 k c).
  { destruct c as [| | |t [p|p] tg|t [p|p]|]; cbn; try tauto; destruct (decide (same_net k p)); auto. }
  destruct Htouch as [Ht|Ht].
  - destruct (Hall c ltac:(set_solver) Ht) as (t & [p|p] & ->); [|done]. cbn in *.
    rewrite pm_get_insert. by rewrite decide_True.
  - change (step4 (foldl step4 m routes) c) with (foldl step4 (foldl step4 m routes) [c]).
    rewrite step4_other by (constructor; [done|constructor]). apply IH.
    + exists c'. split; [|done]. apply elem_of_app in Hin as [?|Hin%list_elem_of_singleton]; [done|by subst].
    + intros c2 Hc2. apply Hall. set_solver.
Qed.

Lemma elem_of_add_routes t target ps c :
  c ∈ add_routes t target ps ↔ ∃ p, c = CmdAddRoute t p target ∧ p ∈ ps.
Proof. unfold add_routes. rewrite list_elem_of_fmap. done. Qed.

Lemma elem_of_routes_to_peers nic network t nics c :
  c ∈ routes_to_peers nic network t nics ↔ ∃ k o p, nics !! k = Some o ∧
    is_peer nic network k o = true ∧ p ∈ from_option host_v4 [] (v4_of o) ∧
    c = CmdAddRoute t p (RtReactor (reactor_of o)).
Proof.
  unfold routes_to_peers. rewrite list_elem_of_bind. split.
  - intros ([k o] & Hc & Hko%elem_of_map_to_list). destruct (is_peer nic network k o) eqn:Hp.
    + apply elem_of_add_routes in Hc as (p & -> & Hpin). eauto 10.
    + set_solver.
  - intros (k & o & p & Hk & Hp & Hin & ->). exists (k, o). split; [|by apply elem_of_map_to_list].
    rewrite Hp. apply elem_of_add_routes. eauto.
Qed.

Lemma is_peer_true nic network k o :
  is_peer nic network k o = true ↔ k ≠ nc_id nic ∧ net_of o = nw_id network.
Proof.
  unfold is_peer. rewrite andb_true_iff, negb_true_iff, bool_decide_eq_false, bool_decide_eq_true.
  done.
Qed.

Lemma peer_learns_data nic network r k o :
  mn_data (peer_learns nic network r k o) = mn_data o ∧
  reactor_of (peer_learns nic network r k o) = reactor_of o ∧
  mn_table_id (peer_learns nic network r k o) = mn_table_id o.
Proof. unfold peer_learns. by destruct (is_peer nic network k o). Qed.

Lemma touches_host (a : Ipv4Addr) (h : Ipv4Net) t p target :
  (a < 2 ^ 32)%N → net_new a 32 = Some h → ∀ b, (b < 2 ^ 32)%N → p ∈ host_v4 b →
  touches4 h (CmdAddRoute t p target) → b = a.
Proof.
  intros Ha Hh b Hb Hp Ht. destruct (host_v4_elem b p Hb Hp) as (hb & -> & Hhb & _).
  symmetry. by apply (same_host a b h hb).
Qed.

Lemma host_touches (a : Ipv4Addr) (h : Ipv4Net) t target :
  net_new a 32 = Some h → ∃ p, p ∈ host_v4 a ∧ touches4 h (CmdAddRoute t p target).
Proof.
  intros Hh. exists (PrefixV4 h). rewrite (host_v4_eq a h Hh). split; [set_solver|]. by split.
Qed.

Lemma default_no_touch (a : Ipv4Addr) (h : Ipv4Net) t p target :
  (a < 2 ^ 32)%N → net_new a 32 = Some h → p ∈ default_v4 → ¬ touches4 h (CmdAddRoute t p target).
Proof.
  intros Ha Hh. unfold default_v4.
  destruct (net_new_some (w := 32) 0 0 ltac:(done) ltac:(done)) as (d & -> & Hl & _). cbn.
  intros ->%list_elem_of_singleton [_ He].
  destruct (host_net (w := 32) a Ha) as (h' & Hh' & Hl' & _). rewrite Hh in Hh'. injection Hh' as <-.
  congruence.
Qed.

Lemma v6_no_touch (h : Ipv4Net) t p target ps :
  (ps = default_v6 ∨ ∃ a, ps = host_v6 a) → p ∈ ps → ¬ touches4 h (CmdAddRoute t p target).
Proof.
  intros [->|[a ->]].
  - unfold default_v6. destruct (net_new (w := 128) 0 0); cbn; [|set_solver]. intros ->%list_elem_of_singleton [].
  - unfold host_v6. destruct (net_new (w := 128) a 128); cbn; [|set_solver]. intros ->%list_elem_of_singleton [].
Qed.

Section create.
Context (env : RouterEnv) (nic : NtNic) (network : NtNetwork) (db : NtDb) (m : NtManager).

Let new_reactor := re_reactor env.
Let new_table := re_table env.

Definition default_routes : list ReactorCommand :=
  match nw_is_public network, mg_tun_router m with
  | true, Some tun => add_routes (re_table env) (RtReactor (ro_reactor tun)) (default_v4 ++ default_v6)
  | _, _ => []
  end.
Definition new_routes : list ReactorCommand :=
  own_routes nic (re_reactor env) (re_table env) ++ default_routes
  ++ routes_to_peers nic network (re_table env) (mg_nics m).
Definition new_nic : ManagedNic :=
  MkManagedNic nic (MkRouter (re_reactor env) (re_if_index env) (Some (nic_config nic network))
    (CmdCreateTable (re_table env) ("nic-" +:+ uuid_string (nc_id nic))
     :: CmdSetDefaultTable (re_table env) :: new_routes)) (re_table env).
Definition tun_routes : list IpPrefix :=
  from_option host_v4 [] (nc_ipv4_address nic) ++ from_option host_v6 [] (nc_ipv6_address nic).

Lemma create_nic_router_shape :
  mg_nics m !! nc_id nic = None → re_dir_ok env = true → re_router_ok env = true →
  ∃ info m1 m', create_nic_router env nic network m = (Ok tt, m') ∧ ri_open info = true ∧
    ri_mac_address info = Some (cfg_mac (nic_config nic network)) ∧
    m1 = m <| mg_registry := <[re_reactor env := info]> (mg_registry m) |> ∧
    m' = (if nw_is_public network then add_nic_route_to_tun nic (re_reactor env) m1 else m1)
      <| mg_nics := <[nc_id nic := new_nic]>
           (map_imap (λ k o, Some (peer_learns nic network (re_reactor env) k o)) (mg_nics m)) |>.
Proof.
  intros Hk Hd Hr. unfold create_nic_router, with_shared_registry. rewrite Hk, Hd, Hr. cbn [is_some negb].
  exists (MkReactorInfo (IfVhost (re_device env)) (Some (cfg_mac (nic_config nic network))) true).
  eexists _, _. split; [reflexivity|]. split_and!; [done|done|reflexivity|].
  unfold new_nic, new_routes, default_routes, handle_send, add_nic_route_to_tun, on_tun. cbn.
  destruct (nw_is_public network); cbn; [|by rewrite ?app_nil_l].
  destruct (mg_tun_router m) as [tun|], (mg_tun_table_id m); cbn; by rewrite <- ?app_assoc.
Qed.

Hypothesis (Hdb : db_inv db) (Hm : mgr_inv db m).
Hypothesis Hrow : nb_nics db !! nc_id nic = Some nic.
Hypothesis Hnet : nb_networks db !! nc_network_id nic = Some network.
Hypothesis Hfresh : mg_registry m !! re_reactor env = None.
Hypothesis Hnew : mg_nics m !! nc_id nic = None.

Lemma network_is : nw_id network = nc_network_id nic.
Proof. by apply (di_network _ Hdb). Qed.
Lemma nic_v4_lt a : nc_ipv4_address nic = Some a → (a < 2 ^ 32)%N.
Proof. apply (di_nic _ Hdb _ _ Hrow). Qed.
Lemma nic_v6_lt a : nc_ipv6_address nic = Some a → (a < 2 ^ 128)%N.
Proof. apply (di_nic _ Hdb _ _ Hrow). Qed.
Lemma managed_v4_lt k mn a : mg_nics m !! k = Some mn → v4_of mn = Some a → (a < 2 ^ 32)%N.
Proof.
  intros Hk Ha. destruct (mi_row _ _ Hm k mn Hk) as (row & Hr & _ & _ & E & _).
  apply (di_nic _ Hdb _ _ Hr). congruence.
Qed.
(** No two NICs of a network have the same IPv4 address. *)
Lemma managed_unique k k' mn mn' a : mg_nics m !! k = Some mn → mg_nics m !! k' = Some mn' →
  net_of mn = net_of mn' → v4_of mn = Some a → v4_of mn' = Some a → k = k'.
Proof.
  intros Hk Hk' Hn Ha Ha'. destruct (mi_row _ _ Hm k mn Hk) as (row & Hr & _ & E1 & E2 & _).
  destruct (mi_row _ _ Hm k' mn' Hk') as (row' & Hr' & _ & E1' & E2' & _).
  apply (di_unique _ Hdb k k' row row' a); congruence.
Qed.
Lemma managed_not_new k mn a : mg_nics m !! k = Some mn → net_of mn = nc_network_id nic →
  v4_of mn = Some a → nc_ipv4_address nic ≠ Some a.
Proof.
  intros Hk Hn Ha Ha'. destruct (mi_row _ _ Hm k mn Hk) as (row & Hr & _ & E1 & E2 & _).
  assert (k = nc_id nic) by (apply (di_unique _ Hdb k (nc_id nic) row nic a); congruence).
  congruence.
Qed.

(** The new router's routes lead to all NICs of the network, itself included. *)
Lemma new_routes_target (a : Ipv4Addr) (h : Ipv4Net) id :
  (a < 2 ^ 32)%N → net_new a 32 = Some h →
  (nc_ipv4_address nic = Some a ∧ id = re_reactor env ∨
   ∃ k b, mg_nics m !! k = Some b ∧ net_of b = nc_network_id nic ∧ v4_of b = Some a ∧ id = reactor_of b) →
  pm_get h (foldl step4 pm_new new_routes) = Some (RtReactor id).
Proof.
  intros Ha Hh Hid. apply step4_unique.
  - destruct (host_touches a h (re_table env) (RtReactor id) Hh) as (p & Hp & Ht).
    exists (CmdAddRoute (re_table env) p (RtReactor id)). split; [|done].
    unfold new_routes, own_routes. rewrite !elem_of_app, elem_of_add_routes, elem_of_routes_to_peers.
    destruct Hid as [[Hv ->]|(k & b & Hb & Hn & Hv & ->)].
    + left. exists p. split; [done|]. rewrite Hv, elem_of_app. by left.
    + right. right. exists k, b, p. rewrite Hv. split_and!; [done| |done..].
      apply is_peer_true. rewrite network_is. split; [|done]. intros ->. congruence.
  - intros c. unfold new_routes, own_routes.
    rewrite !elem_of_app, elem_of_add_routes, elem_of_routes_to_peers.
    intros [(p & -> & Hp)|[Hd|(k' & o & p & Ho & Hpeer & Hp & ->)]] Ht.
    + apply elem_of_app in Hp as [Hp|Hp].
      * destruct (nc_ipv4_address nic) as [x|] eqn:Hx; [|set_solver]. cbn in Hp.
        assert (x = a) as -> by (by eapply (touches_host a h); eauto using nic_v4_lt).
        destruct Hid as [[_ ->]|(k & b & Hb & Hn & Hv & ->)]; [eauto|].
        by destruct (managed_not_new k b a Hb Hn Hv).
      * destruct (nc_ipv6_address nic) as [x|]; [|set_solver]. cbn in Hp.
        exfalso. by eapply (v6_no_touch h); eauto.
    + exfalso. revert Hd Ht. unfold default_routes. destruct (nw_is_public network); [|set_solver].
      destruct (mg_tun_router m) as [tun|]; [|set_solver].
      intros (p & -> & [Hp|Hp]%elem_of_app)%elem_of_add_routes.
      * by eapply (default_no_touch a h).
      * eapply (v6_no_touch h); [by left|done].
    + apply is_peer_true in Hpeer as [Hk' Hon]. rewrite network_is in Hon.
      destruct (v4_of o) as [x|] eqn:Hx; [|set_solver]. cbn in Hp.
      assert (x = a) as -> by (by eapply (touches_host a h); eauto using managed_v4_lt).
      destruct Hid as [[Hv ->]|(k & b & Hb & Hn & Hv & ->)].
      * by destruct (managed_not_new k' o a Ho Hon Hx).
      * assert (k' = k) as -> by (apply (managed_unique k' k o b a); congruence).
        rewrite Ho in Hb. injection Hb as <-. eauto.
Qed.

(** The manager after the creation. *)
Context (info : ReactorInfo) (m' : NtManager).
Hypothesis Hopen : ri_open info = true.
Hypothesis Hreg : mg_registry m' = <[re_reactor env := info]> (mg_registry m).
Hypothesis Hnics : mg_nics m' = <[nc_id nic := new_nic]>
  (map_imap (λ k o, Some (peer_learns nic network (re_reactor env) k o)) (mg_nics m)).

Lemma created_live id : live m' id ↔ id = re_reactor env ∨ live m id.
Proof.
  unfold live. rewrite Hreg. destruct (decide (id = re_reactor env)) as [->|Hne].
  - rewrite lookup_insert_eq. naive_solver.
  - rewrite lookup_insert_ne by done. naive_solver.
Qed.
Lemma live_not_new id : live m id → id ≠ re_reactor env.
Proof. intros (i & Hi & _) ->. congruence. Qed.

Lemma created_lookup k mn' : mg_nics m' !! k = Some mn' ↔
  k = nc_id nic ∧ mn' = new_nic ∨
  k ≠ nc_id nic ∧ ∃ mn, mg_nics m !! k = Some mn ∧ mn' = peer_learns nic network (re_reactor env) k mn.
Proof.
  rewrite Hnics. destruct (decide (k = nc_id nic)) as [->|Hne].
  - rewrite lookup_insert_eq. naive_solver.
  - rewrite lookup_insert_ne by done. rewrite map_lookup_imap.
    destruct (mg_nics m !! k) as [mn|]; cbn; naive_solver.
Qed.

Hypothesis Htun : ∀ r, mg_tun_router m = Some r →
  ∃ r', mg_tun_router m' = Some r' ∧ ro_reactor r' = ro_reactor r.

Lemma created_le : mgr_le db m db m'.
Proof.
  split.
  - intros id Hid. rewrite created_live. assert (id ≠ re_reactor env) by (intros ->; destruct Hid; congruence).
    split; [|naive_solver]. rewrite Hreg. by rewrite lookup_insert_ne.
  - done.
  - intros k b Hb _. assert (k ≠ nc_id nic) by congruence.
    exists (peer_learns nic network (re_reactor env) k b).
    destruct (peer_learns_data nic network (re_reactor env) k b) as (? & ? & _).
    split_and!; [|done..]. rewrite created_lookup. eauto.
  - eauto.
Qed.

(** What the others learn, and the routes of the new NIC, are right. *)
Lemma learned_ok k mn p a : mg_nics m !! k = Some mn → is_peer nic network k mn = true →
  nc_ipv4_address nic = Some a → p ∈ host_v4 a →
  nic_route_ok db m' (peer_learns nic network (re_reactor env) k mn)
    (CmdAddRoute (mn_table_id mn) p (RtReactor (re_reactor env))).
Proof.
  intros Hk Hp Ha Hpin. destruct (peer_learns_data nic network (re_reactor env) k mn) as (Hd & _ & Ht).
  rewrite <- Ht. apply (nr_host4 _ _ _ p a); [by apply nic_v4_lt|done| |].
  - rewrite Hreg, lookup_insert_eq. eauto.
  - intros _. exists (nc_id nic), new_nic. rewrite created_lookup, Hd.
    apply is_peer_true in Hp as [_ Hn]. rewrite network_is in Hn. naive_solver.
Qed.

Lemma new_routes_ok : Forall (nic_route_ok db m' new_nic) new_routes.
Proof.
  assert (Hself : mg_nics m' !! nc_id nic = Some new_nic) by (apply created_lookup; auto).
  apply list.Forall_forall. intros c. unfold new_routes, own_routes.
  rewrite !elem_of_app, elem_of_add_routes, elem_of_routes_to_peers.
  intros [(p & -> & [Hp|Hp]%elem_of_app)|[Hd|(k' & o & p & Ho & Hpeer & Hp & ->)]].
  - destruct (nc_ipv4_address nic) as [a|] eqn:Ha; [|set_solver]. cbn in Hp.
    apply (nr_host4 _ _ new_nic p a); [by apply nic_v4_lt|done|rewrite Hreg, lookup_insert_eq; eauto|].
    intros _. exists (nc_id nic), new_nic. done.
  - destruct (nc_ipv6_address nic) as [a|] eqn:Ha; [|set_solver]. cbn in Hp.
    apply (nr_host6 _ _ new_nic p a); [by apply nic_v6_lt|done..].
  - revert Hd. unfold default_routes. destruct (nw_is_public network) eqn:Hpub; [|set_solver].
    destruct (mg_tun_router m) as [tun|] eqn:Ht; [|set_solver].
    intros (p & -> & _)%elem_of_add_routes. destruct (Htun tun eq_refl) as (r' & Ht' & <-).
    apply (nr_default _ _ new_nic); [done|]. exists network. done.
  - apply is_peer_true in Hpeer as [Hk' Hon]. rewrite network_is in Hon.
    destruct (v4_of o) as [a|] eqn:Ha; [|set_solver]. cbn in Hp.
    apply (nr_host4 _ _ new_nic p a); [by eapply managed_v4_lt|done| |].
    + destruct (mi_live _ _ Hm k' o Ho) as (i & Hi & _).
      apply (ml_registry _ _ _ _ created_le). eauto.
    + intros _. destruct (peer_learns_data nic network (re_reactor env) k' o) as (Hd & Hr & _).
      exists k', (peer_learns nic network (re_reactor env) k' o). rewrite created_lookup, Hr, Hd.
      split_and!; [|done..]. right. eauto.
Qed.

(** The others still reach everyone, the new NIC included. *)
Lemma learned_leads k mn routes : mg_nics m !! k = Some mn → leads_to_peers m mn routes →
  leads_to_peers m' (peer_learns nic network (re_reactor env) k mn)
    (routes ++ if is_peer nic network k mn then
       add_routes (mn_table_id mn) (RtReactor (re_reactor env))
         (from_option host_v4 [] (nc_ipv4_address nic)) else []).
Proof.
  intros Hk Hp k2 b' a h Hb' Hn Ha Hh.
  destruct (peer_learns_data nic network (re_reactor env) k mn) as (Hd & _ & _). rewrite Hd in Hn.
  assert (Hkn : k ≠ nc_id nic) by congruence.
  assert (Hpeer : is_peer nic network k mn = true ↔ net_of mn = nc_network_id nic).
  { rewrite is_peer_true, network_is. tauto. }
  apply created_lookup in Hb' as [[-> ->]|(Hk2 & b & Hb & ->)].
  - cbn in Hn, Ha. rewrite (proj2 Hpeer), Ha by done. cbn. rewrite (host_v4_eq a h Hh). cbn.
    apply step4_last; [by split|constructor].
  - destruct (peer_learns_data nic network (re_reactor env) k2 b) as (Hbd & Hbr & _).
    rewrite Hbd in Hn, Ha. rewrite Hbr. pose proof (Hp k2 b a h Hb Hn Ha Hh) as Hold.
    rewrite foldl_app. destruct (is_peer nic network k mn) eqn:Ep; [|done].
    rewrite step4_other; [done|]. apply list.Forall_forall.
    intros c (p & -> & Hpin)%elem_of_add_routes Ht.
    destruct (nc_ipv4_address nic) as [x|] eqn:Hx; [|set_solver]. cbn in Hpin.
    assert (x = a) as -> by (eapply (touches_host a h); eauto using nic_v4_lt, managed_v4_lt).
    apply (managed_not_new k2 b a Hb); [|done..]. rewrite Hn. by apply Hpeer.
Qed.

Hypothesis Htun' : ∀ r', mg_tun_router m' = Some r' → ∃ r t cmds, mg_tun_router m = Some r ∧
  mg_tun_table_id m = Some t ∧ r' = handle_send cmds r ∧
  Forall (λ c, nw_is_public network = true ∧ ∃ p, p ∈ tun_routes ∧
    c = CmdAddRoute t p (RtReactor (re_reactor env))) cmds.
Hypothesis Htable : mg_tun_table_id m' = mg_tun_table_id m.

Lemma created_inv : mgr_inv db m'.
Proof.
  split.
  - intros k mn' [[-> ->]|(_ & mn & Hk & ->)]%created_lookup; [exists nic; split; [done|by repeat split]|].
    destruct (peer_learns_data nic network (re_reactor env) k mn) as (-> & _ & _). by apply (mi_row _ _ Hm).
  - intros k mn' Hk. rewrite created_live. apply created_lookup in Hk as [[-> ->]|(_ & mn & Hk & ->)]; [auto|].
    destruct (peer_learns_data nic network (re_reactor env) k mn) as (_ & -> & _). right.
    by apply (mi_live _ _ Hm k).
  - intros r' (r & t & cmds & Hr & _ & -> & _)%Htun'. cbn. destruct (mi_tun _ _ Hm r Hr) as [Hl Hd].
    rewrite created_live. split; [by right|].
    intros k mn' [[-> ->]|(_ & mn & Hk & ->)]%created_lookup.
    + cbn. intros He. by apply (live_not_new _ Hl).
    + destruct (peer_learns_data nic network (re_reactor env) k mn) as (_ & -> & _). by apply (Hd k).
  - intros k1 k2 mn1 mn2 H1 H2 He.
    assert (Hr : ∀ k mn', mg_nics m' !! k = Some mn' → reactor_of mn' = re_reactor env → k = nc_id nic).
    { intros k mn' [[-> ->]|(_ & mn & Hk & ->)]%created_lookup; [done|].
      destruct (peer_learns_data nic network (re_reactor env) k mn) as (_ & -> & _).
      intros E. by destruct (live_not_new _ (mi_live _ _ Hm k mn Hk)). }
    apply created_lookup in H1 as [[-> ->]|(_ & m1 & Hk1 & ->)]; [symmetry; by apply (Hr k2 mn2)|].
    pose proof H2 as H2'. apply created_lookup in H2' as [[-> ->]|(_ & m2 & Hk2 & ->)].
    + destruct (peer_learns_data nic network (re_reactor env) k1 m1) as (_ & E & _).
      rewrite E in He. by destruct (live_not_new _ (mi_live _ _ Hm k1 m1 Hk1)).
    + destruct (peer_learns_data nic network (re_reactor env) k1 m1) as (_ & E1 & _).
      destruct (peer_learns_data nic network (re_reactor env) k2 m2) as (_ & E2 & _).
      apply (mi_inj _ _ Hm k1 k2 m1 m2); congruence.
  - intros k mn' [[-> ->]|(Hne & mn & Hk & ->)]%created_lookup.
    { exists new_routes. split_and!; [by eexists|apply new_routes_ok|].
      intros k2 b' a h Hb' Hn Ha Hh. apply created_lookup in Hb' as [[-> ->]|(_ & b & Hb & ->)].
      - apply (new_routes_target a h); [by apply nic_v4_lt|done|]. by left.
      - destruct (peer_learns_data nic network (re_reactor env) k2 b) as (Hbd & -> & _).
        rewrite Hbd in Hn, Ha. apply (new_routes_target a h); [by eapply managed_v4_lt|done|].
        right. by exists k2, b. }
    destruct (mi_cmds _ _ Hm k mn Hk) as (routes & [name Hc] & Hf & Hp).
    eexists. split_and!; [|apply Forall_app; split|by apply learned_leads].
    + exists name. unfold peer_learns. destruct (is_peer nic network k mn); cbn; rewrite Hc; cbn;
        by rewrite ?app_nil_r.
    + eapply list.Forall_impl; [exact Hf|]. intros c.
      destruct (peer_learns_data nic network (re_reactor env) k mn) as (? & ? & ?).
      apply (nic_route_mono db m db m' k); [apply created_le| |done..].
      apply created_lookup. eauto.
    + destruct (is_peer nic network k mn) eqn:Hpeer; [|constructor].
      apply list.Forall_forall. intros c (p & -> & Hpin)%elem_of_add_routes.
      destruct (nc_ipv4_address nic) as [a|] eqn:Ha; [|set_solver]. by apply (learned_ok k mn p a).
  - intros r' (r & t & cmds & Hr & Ht & -> & Hcmds)%Htun'.
    destruct (mi_tun_cmds _ _ Hm r Hr) as (t' & routes & Ht' & [name Hc] & Hf).
    rewrite Ht in Ht'. injection Ht' as <-. exists t, (routes ++ cmds). rewrite Htable.
    split_and!; [done|exists name; cbn; by rewrite Hc|]. apply Forall_app. split.
    + eapply list.Forall_impl; [exact Hf|]. intros c. apply tun_route_mono, created_le.
    + eapply list.Forall_impl; [exact Hcmds|]. intros c (Hpub & p & Hp & ->).
      assert (Hreg' : is_Some (mg_registry m' !! re_reactor env)) by (rewrite Hreg, lookup_insert_eq; eauto).
      assert (Hself : mg_nics m' !! nc_id nic = Some new_nic) by (apply created_lookup; auto).
      assert (Hpub' : public db (nc_network_id nic)) by (by exists network).
      unfold tun_routes in Hp. apply elem_of_app in Hp as [Hp|Hp].
      * destruct (nc_ipv4_address nic) as [a|] eqn:Ha; [|set_solver]. cbn in Hp.
        apply (tr_host4 _ _ _ p a); [by apply nic_v4_lt|done..|]. intros _. by exists (nc_id nic), new_nic.
      * destruct (nc_ipv6_address nic) as [a|] eqn:Ha; [|set_solver]. cbn in Hp.
        apply (tr_host6 _ _ _ p a); [by apply nic_v6_lt|done..|]. intros _. by exists (nc_id nic), new_nic.
Qed.

End create.

Lemma create_nic_router_inv env nic network db m :
  db_inv db → nb_nics db !! nc_id nic = Some nic → nb_networks db !! nc_network_id nic = Some network →
  mg_registry m !! re_reactor env = None → mgr_inv db m →
  mgr_inv db (create_nic_router env nic network m).2.
Proof.
  intros Hdb Hrow Hnet Hfresh Hm.
  destruct (mg_nics m !! nc_id nic) as [mn|] eqn:Hk.
  { unfold create_nic_router. rewrite Hk. done. }
  destruct (re_dir_ok env) eqn:Hd; [|unfold create_nic_router; rewrite Hk, Hd; done].
  destruct (re_router_ok env) eqn:Hr;
    [|unfold create_nic_router, with_shared_registry; rewrite Hk, Hd, Hr; done].
  destruct (create_nic_router_shape env nic network m Hk Hd Hr)
    as (info & m1 & m' & -> & Ho & _ & -> & ->). cbn [snd].
  eapply (created_inv env nic network db m Hdb Hm Hrow Hnet Hfresh Hk info); [done| |done| | |];
    unfold add_nic_route_to_tun, on_tun; destruct (nw_is_public network) eqn:Hpub; cbn;
    destruct (mg_tun_router m) as [r|] eqn:Htr; cbn; try done;
    destruct (mi_tun_cmds _ _ Hm r Htr) as (t & routes & Ht & _); rewrite ?Ht; cbn; try done.
  - intros r'' [= <-]. eauto.
  - intros r'' [= <-]. eauto.
  - intros r'' [= <-]. eexists r, t, _. split_and!; [done..|].
    apply list.Forall_forall. intros c (p & -> & Hp)%elem_of_add_routes. eauto.
  - intros r'' [= <-]. exists r, t, []. split_and!; [done..| |constructor].
    unfold handle_send. rewrite app_nil_r. by destruct r.
Qed.

(** ** Networks *)

Lemma public_routes_inv db m ke network :
  mgr_inv db m → mgr_inv db (add_public_network_routes ke network m).
Proof.
  intros Hm. unfold add_public_network_routes. destruct (nw_is_public network); [|done]. cbn.
  destruct (mg_tun_router m) as [r|] eqn:Hr; [|done].
  destruct (mg_tun_table_id m) as [t|] eqn:Ht; [|done].
  eapply (mgr_inv_tun db m _ t r); [done..| |done]. apply list.Forall_forall.
  intros c (p & -> & _)%elem_of_add_routes. constructor.
Qed.
Lemma unpublic_routes_inv db m ke network :
  mgr_inv db m → mgr_inv db (remove_public_network_routes ke network m).
Proof.
  intros Hm. unfold remove_public_network_routes. destruct (nw_is_public network); [|done]. cbn.
  destruct (mg_tun_router m) as [r|] eqn:Hr; [|done].
  destruct (mg_tun_table_id m) as [t|] eqn:Ht; [|done].
  eapply (mgr_inv_tun db m _ t r); [done..| |done]. apply Forall_fmap, Forall_true. intros p. constructor.
Qed.

Definition state_inv (s : NtState) : Prop := db_inv (ns_db s) ∧ mgr_inv (ns_db s) (ns_mgr s).

Lemma create_network_inv fresh ke req s : state_inv s → state_inv (nt_create_network fresh ke req s).2.
Proof.
  intros [Hdb Hm]. unfold nt_create_network. rpc_unfold.
  destruct (validate_create_network _ _ _ _ _ _ _ _) as [[[v4 v6] dns]|e]; [|done]. cbn.
  set (nw := MkNtNetwork _ _ _ _ _ _ _ _ _ _ _). clearbody nw. unfold nt_write, nt_storage_create_network.
  destruct (nb_networks (ns_db s) !! nw_id nw) as [old|] eqn:Hfresh; [done|]. cbn [is_some orb].
  destruct (existsb _ _); [done|]. cbn [snd]. unfold nt_mgr. rpc_unfold. cbn [snd ns_db ns_mgr].
  set (db' := (ns_db s) <| nb_networks := <[nw_id nw := nw]> (nb_networks (ns_db s)) |>).
  assert (Hpub : ∀ nid, public (ns_db s) nid → public db' nid).
  { intros nid (n & Hn & Hp). exists n. split; [|done]. unfold db'. cbn. rewrite lookup_insert_ne; congruence. }
  split; cbn.
  - destruct Hdb as [H1 H2 H3]. split; [|cbn|done].
    + intros k n. unfold db'. cbn. rewrite lookup_insert_Some. intros [[<- <-]|[_ ?]]; [done|auto].
    + intros k n Hk. destruct (H2 k n Hk) as (? & [x Hx] & ?). split_and!; [done| |tauto..].
      destruct (decide (nw_id nw = nc_network_id n)) as [<-|]; [rewrite lookup_insert_eq; eauto|].
      rewrite lookup_insert_ne by done. eauto.
  - apply public_routes_inv. apply (mgr_inv_db (ns_db s)); [|eauto|done].
    intros k mn row _ Hr. exists row. split; [done|]. by repeat split.
Qed.

Lemma update_network_inv now id dns ntp s :
  state_inv s → state_inv (nt_update_network now id dns ntp s).2.
Proof.
  intros [Hdb Hm]. unfold nt_update_network, nt_parse_id, nt_write, nt_storage_update_network. rpc_unfold.
  destruct (uuid_parse id) as [u|]; [|done].
  destruct (nb_networks (ns_db s) !! u) as [n|] eqn:Hn; [|done]. cbn [snd ns_db].
  set (n' := n <| nw_dns_servers := _ |> <| nw_ntp_servers := _ |> <| nw_updated_at := now |>).
  set (db' := (ns_db s) <| nb_networks := <[u := n']> (nb_networks (ns_db s)) |>).
  assert (Hi : state_inv (MkNtState db' (ns_mgr s))).
  { split; cbn.
    - destruct Hdb as [H1 H2 H3]. split; [|cbn|done].
      + intros k x. unfold db'. cbn. rewrite lookup_insert_Some. intros [[<- <-]|[_ ?]]; [|auto].
        by apply (H1 u n).
      + intros k x Hk. destruct (H2 k x Hk) as (? & [y Hy] & ?). split_and!; [done| |tauto..].
        destruct (decide (u = nc_network_id x)) as [<-|]; [rewrite lookup_insert_eq; eauto|].
        rewrite lookup_insert_ne by done. eauto.
    - apply (mgr_inv_db (ns_db s)); [| |done].
      + intros k mn row _ Hr. exists row. split; [done|]. by repeat split.
      + intros k mn _ (x & Hx & Hp). unfold public, db'. cbn.
        destruct (decide (u = net_of mn)) as [E|].
        * rewrite <- E in *. rewrite lookup_insert_eq. exists n'. split; [done|]. rewrite Hn in Hx. by injection Hx as <-.
        * rewrite lookup_insert_ne by done. eauto. }
  unfold nt_found. by destruct (nb_networks (ns_db (s <| ns_db := db' |>)) !! u).
Qed.

(** ** Deleting *)

Lemma db_inv_delete db k : db_inv db → db_inv (db <| nb_nics := delete k (nb_nics db) |>).
Proof.
  intros [H1 H2 H3]. split; cbn; [done| |].
  - intros k' n [_ ?]%lookup_delete_Some. auto.
  - intros k1 k2 n1 n2 a [_ ?]%lookup_delete_Some [_ ?]%lookup_delete_Some. eauto.
Qed.

Lemma mgr_inv_delete db k m : mg_nics m !! k = None → mgr_inv db m →
  mgr_inv (db <| nb_nics := delete k (nb_nics db) |>) m.
Proof.
  intros Hk. apply mgr_inv_db; [|done]. intros k' mn row Hk' Hr. exists row. cbn.
  rewrite lookup_delete_ne by congruence. split; [done|]. by repeat split.
Qed.

Lemma remove_not_managed k m : mg_nics (remove_nic_router k m) !! k = None.
Proof.
  unfold remove_nic_router. destruct (mg_nics m !! k) as [mn|] eqn:Hk; [|done].
  destruct (v4_of mn); cbn; [|by rewrite lookup_delete_eq].
  unfold remove_nic_route_from_tun, on_tun. cbn.
  destruct (mg_tun_router m), (mg_tun_table_id m); cbn; by rewrite lookup_delete_eq.
Qed.

Lemma delete_one_inv k s : state_inv s →
  state_inv (MkNtState (nt_storage_delete_nic k (ns_db s)).2 (remove_nic_router k (ns_mgr s))).
Proof.
  intros [Hdb Hm]. split; cbn; [by apply db_inv_delete|].
  apply mgr_inv_delete; [apply remove_not_managed|by apply remove_nic_router_inv].
Qed.

Lemma nt_delete_nic_inv id s : state_inv s → state_inv (nt_delete_nic id s).2.
Proof.
  intros Hs. unfold nt_delete_nic, nt_parse_id, nt_found, nt_mgr, nt_db. rpc_unfold.
  destruct (uuid_parse id) as [u|]; [|done].
  destruct (nb_nics (ns_db s) !! u); [|done]. exact (delete_one_inv u s Hs).
Qed.

Lemma delete_nics_spec l s : state_inv s →
  ∃ s', nt_delete_nics l s = (Ok tt, s') ∧ state_inv s' ∧
    nb_networks (ns_db s') = nb_networks (ns_db s) ∧
    ∀ k n, nb_nics (ns_db s') !! k = Some n ↔ k ∉ nc_id <$> l ∧ nb_nics (ns_db s) !! k = Some n.
Proof.
  revert s. induction l as [|x l IH]; intros s Hs.
  { exists s. split_and!; [done..|]. intros k n. set_solver. }
  cbn. unfold nt_mgr, nt_db. rpc_unfold.
  destruct (IH _ (delete_one_inv (nc_id x) s Hs)) as (s' & He & Hi & Hn & Hl).
  exists s'. cbn in *. rewrite He. split_and!; [done..|]. intros k n. rewrite Hl, lookup_delete_Some.
  set_solver.
Qed.

Lemma elem_of_nics_in_network n id db :
  n ∈ list_nics_in_network id db ↔ ∃ k, nb_nics db !! k = Some n ∧ nc_network_id n = id.
Proof.
  unfold list_nics_in_network. rewrite list_elem_of_fmap. split.
  - intros ([k x] & -> & Hk%elem_of_map_to_list). apply map_lookup_filter_Some in Hk as [? ?]. eauto.
  - intros (k & Hk & Hn). exists (k, n). split; [done|]. apply elem_of_map_to_list, map_lookup_filter_Some.
    done.
Qed.

Lemma nt_delete_network_inv ke id force s : state_inv s → state_inv (nt_delete_network ke id force s).2.
Proof.
  intros Hs. unfold nt_delete_network, nt_parse_id, nt_found. rpc_unfold.
  destruct (uuid_parse id) as [u|]; [|done]. unfold rpc_get.
  destruct (nb_networks (ns_db s) !! u) as [nw|] eqn:Hu; [|done].
  destruct (_ && _) eqn:Hcount; [done|]. set (doomed := if force then _ else _).
  destruct (delete_nics_spec doomed s Hs) as (s' & -> & [Hdb' Hm'] & Hn' & Hl').
  unfold nt_mgr, nt_db. rpc_unfold. cbn [snd ns_db ns_mgr nt_storage_delete_network].
  assert (Hnone : ∀ k n, nb_nics (ns_db s') !! k = Some n → nc_network_id n ≠ u).
  { intros k n [Hk Hkn]%Hl' <-. apply Hk.
    assert (Hin : n ∈ list_nics_in_network (nc_network_id n) (ns_db s)) by (apply elem_of_nics_in_network; eauto).
    destruct (di_nic _ (proj1 Hs) k n Hkn) as (<- & _). apply list_elem_of_fmap. exists n. split; [done|].
    unfold doomed. destruct force; [done|]. exfalso. rewrite andb_true_r in Hcount.
    unfold nt_count_nics in Hcount. apply N.ltb_ge in Hcount.
    destruct (list_nics_in_network _ _); [set_solver|cbn in Hcount; lia]. }
  set (db' := (ns_db s') <| nb_networks := delete u (nb_networks (ns_db s')) |>
     <| nb_nics := filter (λ '(_, n), nc_network_id n ≠ u) (nb_nics (ns_db s')) |>).
  assert (Hnics : ∀ k n, nb_nics db' !! k = Some n ↔ nb_nics (ns_db s') !! k = Some n).
  { intros k n. unfold db'. cbn. rewrite map_lookup_filter_Some. naive_solver. }
  split; cbn.
  - destruct Hdb' as [H1 H2 H3]. split.
    + intros k n. cbn. intros [_ ?]%lookup_delete_Some. auto.
    + intros k n Hk%Hnics. destruct (H2 k n Hk) as (? & ? & ?). split_and!; [done| |tauto..].
      cbn. rewrite lookup_delete_ne; [done|]. intros ->. by apply (Hnone k n Hk).
    + intros k1 k2 n1 n2 a Hk1%Hnics Hk2%Hnics. eauto.
  - apply unpublic_routes_inv. apply (mgr_inv_db (ns_db s')); [| |done].
    + intros k mn row _ Hr. exists row. split; [by apply Hnics|]. by repeat split.
    + intros k mn Hk (x & Hx & Hp). exists x. split; [|done]. cbn. rewrite lookup_delete_ne; [done|].
      intros ->. destruct (mi_row _ _ Hm' k mn Hk) as (row & Hr & _ & E & _).
      apply (Hnone k row Hr). congruence.
Qed.

(** ** Addresses of a new NIC *)

Lemma nt_first_free_spec n i used a : nt_first_free n i used = Some a →
  (i ≤ a < i + N.of_nat n)%N ∧ a ∉ used ∧ ∀ b, (i ≤ b < a)%N → b ∈ used.
Proof.
  revert i. induction n as [|n IH]; intros i; cbn; [done|].
  case_bool_decide as Hi; cbn.
  - intros (? & ? & Hb)%IH. split_and!; [lia|lia|done|]. intros b Hb'.
    destruct (decide (b = i)) as [->|]; [done|]. apply Hb. lia.
  - intros [= <-]. split_and!; [lia|lia|done|lia].
Qed.
Lemma nt_first_free_v6_spec n i network used a : nt_first_free_v6 n i network used = Some a →
  (a < 2 ^ 128)%N ∧ a ∉ used.
Proof.
  revert i. induction n as [|n IH]; intros i; cbn; [done|].
  case_bool_decide as Hi; cbn; [apply IH|]. intros [= <-]. split; [|done]. by apply N.mod_lt.
Qed.

Lemma nt_addr_in_use_false addr nid a db : nt_addr_in_use addr nid a db = false ↔
  ∀ k n, nb_nics db !! k = Some n → nc_network_id n = nid → addr n ≠ Some a.
Proof.
  unfold nt_addr_in_use. rewrite <- not_true_iff_false, existsb_exists. split.
  - intros H k n Hk Hn Ha. apply H. exists n. rewrite bool_decide_eq_true. split; [|done].
    apply list_elem_of_In, elem_of_nics_in_network. eauto.
  - intros H (n & (k & Hk & Hn)%list_elem_of_In%elem_of_nics_in_network & Ha).
    apply bool_decide_eq_true in Ha. by apply (H k n).
Qed.
Lemma nt_used_spec (addr : NtNic → option N) nid a db :
  a ∉ nt_used_addresses addr nid db →
  ∀ k n, nb_nics db !! k = Some n → nc_network_id n = nid → addr n ≠ Some a.
Proof.
  intros H k n Hk Hn Ha. apply H. unfold nt_used_addresses. apply list_elem_of_omap.
  exists n. split; [|done]. apply elem_of_nics_in_network. eauto.
Qed.

(** A given address is parsed and free. *)
Lemma nt_check_addr_ok {w} {nets : IpNets w} parse show s e1 e2 e3 subnet used a :
  nt_check_addr parse show s e1 e2 e3 subnet used = Ok (Some a) → parse s = Some a ∧ used a = false.
Proof.
  unfold nt_check_addr. destruct (str_is_empty s); [done|].
  destruct (parse s) as [b|]; [|done]. cbn. destruct subnet as [n|]; [|done].
  destruct (negb _); [done|]. destruct (used b) eqn:E; [done|]. by intros [= <-].
Qed.

Lemma nt_plan_nic_spec fresh req network db nic :
  nt_plan_nic fresh req network db = Ok nic →
  nc_id nic = nf_uuid fresh ∧ nc_network_id nic = nw_id network ∧
  (∀ a, nc_ipv4_address nic = Some a → (a < 2 ^ 32)%N ∧
     ∀ k n, nb_nics db !! k = Some n → nc_network_id n = nw_id network → nc_ipv4_address n ≠ Some a) ∧
  (∀ a, nc_ipv6_address nic = Some a → (a < 2 ^ 128)%N).
Proof.
  unfold nt_plan_nic, nt_validate_create_nic.
  destruct (Rpc.map_err NtCommon _) as [mac|]; [|done].
  destruct (nt_check_addr ipv4_parse _ _ _ _ _ _ _) as [v4|] eqn:E4; [|done].
  destruct (nt_check_addr ipv6_parse _ _ _ _ _ _ _) as [v6|] eqn:E6; [|done].
  destruct (Rpc.map_err NtCommon _) as [[r4 r6]|]; [|done].
  intros [= <-]. cbn. split_and!; [done..| |].
  - intros a. destruct (nw_ipv4_enabled network); [|done]. destruct v4 as [x|].
    + intros [= ->]. apply nt_check_addr_ok in E4 as [Hp Hu].
      split; [by eapply ipv4_parse_lt|]. by apply nt_addr_in_use_false.
    + unfold nt_allocate_ipv4. destruct (nw_ipv4_subnet network) as [net|]; [|done]. cbn.
      intros (Hr & Hu & _)%nt_first_free_spec. split; [|by apply nt_used_spec].
      pose proof (net_network_broadcast net). lia.
  - intros a. destruct (nw_ipv6_enabled network); [|done]. destruct v6 as [x|].
    + intros [= ->]. apply nt_check_addr_ok in E6 as [Hp _]. by eapply ipv6_parse_lt.
    + unfold nt_allocate_ipv6. destruct (nw_ipv6_prefix network) as [net|]; [|done]. cbn -[nt_first_free_v6].
      intros [? _]%nt_first_free_v6_spec. done.
Qed.

Lemma nt_resolve_spec s db network : db_inv db → nt_resolve s db = Some network →
  nb_networks db !! nw_id network = Some network.
Proof.
  intros Hdb. unfold nt_resolve. destruct (uuid_parse s) as [u|].
  - intros H. by rewrite (di_network _ Hdb u network H).
  - intros [Hin _]%find_some. apply list_elem_of_In, list_elem_of_fmap in Hin as ([k n] & -> & Hk).
    apply elem_of_map_to_list in Hk. cbn. by rewrite (di_network _ Hdb k n Hk).
Qed.

Lemma create_nic_inv fresh env req s :
  mg_registry (ns_mgr s) !! re_reactor env = None →
  state_inv s → state_inv (nt_create_nic fresh env req s).2.
Proof.
  intros Hfresh [Hdb Hm]. unfold nt_create_nic, nt_found. rpc_unfold.
  destruct (nt_resolve (ck_network_id req) (ns_db s)) as [network|] eqn:Hres; [|done]. cbn.
  apply (nt_resolve_spec _ _ _ Hdb) in Hres.
  destruct (nt_plan_nic fresh req network (ns_db s)) as [nic|e] eqn:Hplan; [|done].
  apply nt_plan_nic_spec in Hplan as (Hid & Hn & H4 & H6). cbn.
  unfold nt_write, nt_storage_create_nic.
  destruct (nb_nics (ns_db s) !! nc_id nic) as [old|] eqn:Hk; [done|]. cbn [is_some orb].
  rewrite Hn, Hres. cbn [is_none is_some negb]. rpc_unfold.
  set (db' := (ns_db s) <| nb_nics := <[nc_id nic := nic]> (nb_nics (ns_db s)) |>).
  assert (Hdb' : db_inv db').
  { destruct Hdb as [H1 H2 H3]. split; cbn; [done| |].
    - intros k n. rewrite lookup_insert_Some. intros [[<- <-]|[_ ?]]; [|auto].
      split_and!; [done|rewrite Hn; eauto|intros a Ha; by apply H4|done].
    - intros k1 k2 n1 n2 a. rewrite !lookup_insert_Some.
      intros [[<- <-]|[_ Hk1]] [[<- <-]|[_ Hk2]] He Ha1 Ha2; [done| | |eauto].
      + exfalso. apply (proj2 (H4 a Ha1) k2 n2 Hk2); congruence.
      + exfalso. apply (proj2 (H4 a Ha2) k1 n1 Hk1); congruence. }
  assert (Hm' : mgr_inv db' (ns_mgr s)).
  { apply (mgr_inv_db (ns_db s)); [|done|done]. intros k mn row _ Hr. exists row. cbn.
    rewrite lookup_insert_ne by congruence. split; [done|]. by repeat split. }
  assert (Hm2 : mgr_inv db' (create_nic_router env nic network (ns_mgr s)).2).
  { apply create_nic_router_inv; [done| | |done|done]; cbn; [by rewrite lookup_insert_eq|by rewrite Hn]. }
  assert (Hgone : ∀ e m, create_nic_router env nic network (ns_mgr s) = (Err e, m) →
    mg_nics m !! nc_id nic = None).
  { intros e m. unfold create_nic_router. destruct (mg_nics (ns_mgr s) !! nc_id nic) eqn:E; [done|].
    cbn. destruct (re_dir_ok env); cbn; [|by intros [= _ <-]].
    destruct (with_shared_registry _ _ _) as [[r m0]|]; [done|]. by intros [= _ <-]. }
  unfold nt_start_nic. change (ns_mgr (s <| ns_db := db' |>)) with (ns_mgr s).
  destruct (create_nic_router env nic network (ns_mgr s)) as [[[]|e] m] eqn:Ecr.
  - split; [exact Hdb'|exact Hm2].
  - split; [by apply db_inv_delete|]. apply mgr_inv_delete; [by apply (Hgone e)|exact Hm2].
Qed.

Lemma update_nic_inv now id v4 v6 s : state_inv s → state_inv (nt_update_nic now id v4 v6 s).2.
Proof.
  intros [Hdb Hm]. unfold nt_update_nic, nt_parse_id, nt_write, nt_update_routed_prefixes. rpc_unfold.
  destruct (uuid_parse id) as [u|]; [|done].
  destruct (nb_nics (ns_db s) !! u) as [n|] eqn:Hn; [|done]. cbn [snd ns_db].
  set (n' := n <| nc_routed_ipv4 := _ |> <| nc_routed_ipv6 := _ |> <| nc_updated_at := now |>).
  set (db' := (ns_db s) <| nb_nics := <[u := n']> (nb_nics (ns_db s)) |>).
  assert (Hl : ∀ k x, nb_nics db' !! k = Some x → ∃ y, nb_nics (ns_db s) !! k = Some y ∧ same_addr y x).
  { intros k x. unfold db'. cbn. rewrite lookup_insert_Some. intros [[<- <-]|[_ ?]].
    - exists n. split; [done|]. by repeat split.
    - exists x. split; [done|]. by repeat split. }
  assert (Hi : state_inv (MkNtState db' (ns_mgr s))).
  { split; cbn.
    - destruct Hdb as [H1 H2 H3]. split; [done| |].
      + intros k x (y & Hy & E1 & E2 & E3 & E4)%Hl. rewrite <- E1, <- E2, <- E3, <- E4. by apply H2.
      + intros k1 k2 x1 x2 a (y1 & Hy1 & _ & E1 & E1' & _)%Hl (y2 & Hy2 & _ & E2 & E2' & _)%Hl.
        rewrite <- E1, <- E2, <- E1', <- E2'. by apply H3.
    - apply (mgr_inv_db (ns_db s)); [|done|done]. intros k mn row _ Hr. cbn.
      destruct (decide (u = k)) as [->|].
      + exists n'. rewrite lookup_insert_eq. split; [done|]. rewrite Hn in Hr. injection Hr as <-.
        by repeat split.
      + exists row. rewrite lookup_insert_ne by done. split; [done|]. by repeat split. }
  unfold nt_found. by destruct (nb_nics (ns_db (s <| ns_db := db' |>)) !! u).
Qed.

(** ** Starting *)

Lemma manager_new_inv db : mgr_inv db manager_new.
Proof. split; cbn; try done; intros *; by rewrite lookup_empty. Qed.

Lemma init_tun_inv env listed ke db k4 k6 m :
  init_tun env listed ke db (manager_new <| mg_kernel_v4 := k4 |> <| mg_kernel_v6 := k6 |>) = (Ok tt, m) →
  mgr_inv db m ∧ ∀ id, id ≠ re_reactor env → mg_registry m !! id = None.
Proof.
  unfold init_tun, with_shared_registry. cbn [is_some mg_tun_router]. destruct (re_router_ok env); [|done].
  cbn. set (m0 := MkNtManager _ _ _ _ _ _). unfold sync_public_network_routes. cbn.
  destruct listed; cbn; [|done]. intros [= <-].
  assert (H0 : mgr_inv db m0).
  { split; unfold m0; cbn; try (intros *; by rewrite lookup_empty).
    - intros r [= <-]. cbn. split; [|intros *; by rewrite lookup_empty].
      exists (MkReactorInfo (IfTun (re_if_index env)) None true). split; [apply lookup_insert_eq|done].
    - intros r [= <-]. exists (re_table env), []. split_and!; [done|by eexists|constructor]. }
  split.
  - eapply (mgr_inv_tun db m0); [done..| |done]. apply list.Forall_forall.
    intros c (p & -> & _)%elem_of_add_routes. constructor.
  - intros id Hid. cbn. by rewrite lookup_insert_ne.
Qed.

Lemma create_nic_router_registry env nic network m id :
  id ≠ re_reactor env → mg_registry (create_nic_router env nic network m).2 !! id = mg_registry m !! id.
Proof.
  intros Hid. unfold create_nic_router, with_shared_registry.
  destruct (is_some _); [done|]. destruct (negb _); [done|]. destruct (re_router_ok env); [|done].
  cbn. unfold add_nic_route_to_tun, on_tun. cbn.
  destruct (nw_is_public network), (mg_tun_router m), (mg_tun_table_id m); cbn; by rewrite lookup_insert_ne.
Qed.

Lemma recover_inv db nics m :
  db_inv db → NoDup (re_reactor ∘ snd <$> nics) →
  Forall (λ n, nb_nics db !! nc_id n.1 = Some n.1) nics →
  (∀ id, id ∈ re_reactor ∘ snd <$> nics → mg_registry m !! id = None) →
  mgr_inv db m → mgr_inv db (nt_recover_nics nics db m).
Proof.
  intros Hdb. revert m. induction nics as [|[nic env] nics IH]; intros m Hd Hrows Hfresh Hm; [done|].
  apply list.NoDup_cons in Hd as [Hni Hd]. apply List.Forall_cons_iff in Hrows as [Hrow Hrows]. cbn.
  destruct (nb_networks db !! nc_network_id nic) as [network|] eqn:Hn.
  - apply IH; [done|done| |].
    + intros id Hid. rewrite create_nic_router_registry; [|intros ->; by apply Hni].
      apply Hfresh. set_solver.
    + apply create_nic_router_inv; [done|done|done| |done]. apply Hfresh. set_solver.
  - apply IH; [done|done| |done]. intros id Hid. apply Hfresh. set_solver.
Qed.

Lemma nt_step_inv r d : nt_fresh r d → state_inv (nd_state d) → state_inv (nd_state (nt_step r d)).
Proof.
  intros Hf Hs. destruct r as [fresh ke req|now id dns ntp|ke id force|fresh env req|now id v4 v6|id
    |env listed ke k4 k6 nics]; cbn [nt_step]; try (destruct (nd_up d); [|done]; cbn).
  - by apply create_network_inv.
  - by apply update_network_inv.
  - by apply nt_delete_network_inv.
  - by apply create_nic_inv.
  - by apply update_nic_inv.
  - by apply nt_delete_nic_inv.
  - destruct (init_tun _ _ _ _ _) as [[[]|e] m] eqn:E; [|by split; [apply Hs|apply manager_new_inv]].
    apply init_tun_inv in E as [Hm Hreg]. destruct Hf as [Hnd Hrows].
    apply list.NoDup_cons in Hnd as [Hni Hnd]. split; [apply Hs|]. cbn.
    apply recover_inv; [apply Hs|done|done| |done]. intros id Hid. apply Hreg. by intros ->.
Qed.

Lemma nt_run_inv d : nt_run nt_boot d → state_inv (nd_state d).
Proof.
  unfold nt_run. apply (rtc_ind_r (λ d, state_inv (nd_state d))).
  - split; cbn; [|apply manager_new_inv]. split; cbn; intros *; by rewrite lookup_empty.
  - intros d1 d2 _ (r & Hf & ->). by apply nt_step_inv.
Qed.

(** * Properties *)

(** Routing an address of either family, and having it. *)
Definition decide_ip (ts : RoutingTables) (dst : IpAddr) : RoutingDecision :=
  match dst with V4 a => decide_v4 ts a | V6 a => decide_v6 ts a end.
Definition ip_ok (dst : IpAddr) : Prop :=
  match dst with V4 a => (a < 2 ^ 32)%N | V6 a => (a < 2 ^ 128)%N end.
Definition has_addr (mn : ManagedNic) (dst : IpAddr) : Prop :=
  match dst with V4 a => v4_of mn = Some a | V6 a => v6_of mn = Some a end.

(** C6: Whatever requests were served and however many of its commands the reactor of
    a NIC has taken, a packet it forwards to a running reactor goes to the NIC of
    its own network that has the destination address, or, only from a public
    network, to the TUN reactor. *)
Theorem nic_traffic_confined d k mn n pick dst id :
  nt_run nt_boot d → mg_nics (ns_mgr (nd_state d)) !! k = Some mn → ip_ok dst →
  decide_ip (tables_after pick (take n (ro_commands (mn_router mn)))) dst = ToVhost id →
  live (ns_mgr (nd_state d)) id →
  (∃ r, mg_tun_router (ns_mgr (nd_state d)) = Some r ∧ id = ro_reactor r ∧
     public (ns_db (nd_state d)) (net_of mn)) ∨
  (∃ k' b, mg_nics (ns_mgr (nd_state d)) !! k' = Some b ∧ reactor_of b = id ∧
     net_of b = net_of mn ∧ has_addr b dst).
Proof.
  intros Hrun Hk Hok Hdec Hlive. destruct (nt_run_inv d Hrun) as [_ Hm].
  destruct (mi_cmds _ _ Hm k mn Hk) as (routes & [name Hc] & Hf & _). rewrite Hc in Hdec.
  assert (Hir : Forall (is_route (mn_table_id mn)) routes).
  { eapply list.Forall_impl; [exact Hf|]. intros c. apply nic_route_is_route. }
  assert (Hpre : ∃ t' p, CmdAddRoute t' p (RtReactor id) ∈ routes ∧
    match p, dst with
    | PrefixV4 q, V4 a => net_contains q a = true
    | PrefixV6 q, V6 a => net_contains q a = true
    | _, _ => False
    end).
  { destruct dst; cbn in Hok, Hdec.
    - apply decide_v4_origin in Hdec as (t' & p & ? & ?); [|done..]. by exists t', (PrefixV4 p).
    - apply decide_v6_origin in Hdec as (t' & p & ? & ?); [|done..]. by exists t', (PrefixV6 p). }
  destruct Hpre as (t' & p & Hin & Hcont).
  pose proof (proj1 (list.Forall_forall _ _) Hf _ Hin) as Hroute.
  inversion Hroute as [? r Htun Hpub|? a ? Ha Hp Hid Hl|? a Ha Hp Hv]; subst.
  - left. eauto.
  - right. destruct (host_v4_elem a p Ha Hp) as (h & -> & _ & Heq). destruct dst as [x|x]; [|done].
    rewrite (Heq x Hcont). destruct (Hl Hlive) as (k' & b & ? & ? & ? & ?). eauto 10.
  - right. destruct (host_v6_elem a p Ha Hp) as (h & -> & _ & Heq). destruct dst as [x|x]; [done|].
    rewrite (Heq x Hcont). eauto 10.
Qed.

(** What the TUN reactor forwards into the machine goes to the NIC of a public
    network that has the destination address. *)
Theorem tun_traffic_confined d r n pick dst id :
  nt_run nt_boot d → mg_tun_router (ns_mgr (nd_state d)) = Some r → ip_ok dst →
  decide_ip (tables_after pick (take n (ro_commands r))) dst = ToVhost id →
  live (ns_mgr (nd_state d)) id →
  ∃ k b, mg_nics (ns_mgr (nd_state d)) !! k = Some b ∧ reactor_of b = id ∧
    public (ns_db (nd_state d)) (net_of b) ∧ has_addr b dst.
Proof.
  intros Hrun Hr Hok Hdec Hlive. destruct (nt_run_inv d Hrun) as [_ Hm].
  destruct (mi_tun_cmds _ _ Hm r Hr) as (t & routes & _ & [name Hc] & Hf). rewrite Hc in Hdec.
  assert (Hir : Forall (is_route t) routes).
  { eapply list.Forall_impl; [exact Hf|]. intros c. apply tun_route_is_route. }
  destruct dst as [x|x]; cbn in Hok, Hdec.
  - apply decide_v4_origin in Hdec as (t' & p & Hin & Hcont); [|done..].
    pose proof (proj1 (list.Forall_forall _ _) Hf _ Hin) as Hroute.
    inversion Hroute as [| |? a ? Ha Hp Hid Hl|? a ? Ha Hp Hid Hl]; subst.
    + destruct (host_v4_elem a _ Ha Hp) as (h & [= <-] & _ & Heq). rewrite (Heq x Hcont).
      destruct (Hl Hlive) as (k & b & ? & ? & ? & ?). by exists k, b.
    + by destruct (host_v6_elem a _ Ha Hp) as (h & [=] & _).
  - apply decide_v6_origin in Hdec as (t' & p & Hin & Hcont); [|done..].
    pose proof (proj1 (list.Forall_forall _ _) Hf _ Hin) as Hroute.
    inversion Hroute as [| |? a ? Ha Hp Hid Hl|? a ? Ha Hp Hid Hl]; subst.
    + by destruct (host_v4_elem a _ Ha Hp) as (h & [=] & _).
    + destruct (host_v6_elem a _ Ha Hp) as (h & [= <-] & _ & Heq). rewrite (Heq x Hcont).
      destruct (Hl Hlive) as (k & b & ? & ? & ? & ?). by exists k, b.
Qed.

(** C19: Any two NICs of a network reach each other by IPv4: a reactor that has taken
    its commands forwards packets for the address of a NIC of its network to that
    NIC's reactor, which is running. *)
Theorem nics_reach_each_other d k mn k' b a pick :
  nt_run nt_boot d → mg_nics (ns_mgr (nd_state d)) !! k = Some mn →
  mg_nics (ns_mgr (nd_state d)) !! k' = Some b → net_of b = net_of mn → v4_of b = Some a →
  decide_v4 (tables_after pick (ro_commands (mn_router mn))) a = ToVhost (reactor_of b) ∧
  live (ns_mgr (nd_state d)) (reactor_of b).
Proof.
  intros Hrun Hk Hb Hn Ha. destruct (nt_run_inv d Hrun) as [Hdb Hm].
  split; [|by apply (mi_live _ _ Hm k')].
  assert (Hlt : (a < 2 ^ 32)%N) by (by eapply managed_v4_lt).
  destruct (mi_cmds _ _ Hm k mn Hk) as (routes & [name Hc] & Hf & Hp).
  destruct (host_net (w := 32) a Hlt) as (h & Hh & _ & _). rewrite Hc.
  apply (decide_v4_host pick _ name routes a h); [done| |done|by apply (Hp k' b a h)].
  eapply list.Forall_impl; [exact Hf|]. intros c. apply nic_route_is_route.
Qed.

(** IPv6 routes are made for a NIC's own address only: on a private network a packet
    for the IPv6 address of another NIC is dropped. *)
Theorem private_ipv6_unreachable d k mn a pick n :
  nt_run nt_boot d → mg_nics (ns_mgr (nd_state d)) !! k = Some mn →
  ¬ public (ns_db (nd_state d)) (net_of mn) → (a < 2 ^ 128)%N → v6_of mn ≠ Some a →
  decide_v6 (tables_after pick (take n (ro_commands (mn_router mn)))) a = DropPacket.
Proof.
  intros Hrun Hk Hpriv Hlt Ha. destruct (nt_run_inv d Hrun) as [_ Hm].
  destruct (mi_cmds _ _ Hm k mn Hk) as (routes & [name Hc] & Hf & _). rewrite Hc. unfold decide_v6.
  rewrite router_tables;
    [|eapply list.Forall_impl; [exact Hf|]; intros c; apply nic_route_is_route].
  destruct n as [|n]; [done|]. unfold lookup_v6.
  destruct (host_net (w := 128) a Hlt) as (h & Hh & _ & _). rewrite Hh. cbn.
  destruct (pm_get_lpm h _) as [target|] eqn:E; [|done]. exfalso.
  apply (lpm_contains _ a) in E as (q & Hq & Hcont); [|done..].
  apply step6_origin in Hq as [Hq|(t' & p & Hin & Hs)]; [by rewrite pm_get_new in Hq|].
  rewrite (same_net_contains q p a Hs) in Hcont.
  assert (Hin' : CmdAddRoute t' (PrefixV6 p) target ∈ routes).
  { eapply elem_of_submseteq; [done|]. apply sublist_submseteq, sublist_take. }
  pose proof (proj1 (list.Forall_forall _ _) Hf _ Hin') as Hroute.
  inversion Hroute as [? r Htun Hpub|? x ? Hx Hp Hid Hl|? x Hx Hp Hv]; subst; [done| |].
  - by destruct (host_v4_elem x _ Hx Hp) as (? & [=] & _).
  - destruct (host_v6_elem x _ Hx Hp) as (? & [= <-] & _ & Heq). by rewrite (Heq a Hcont) in Ha.
Qed.

Lemma tun_removed db m t name routes a (h : Ipv4Net) pick reactor :
  (a < 2 ^ 32)%N → net_new a 32 = Some h → Forall (tun_route_ok db m t) routes →
  decide_v4 (tables_after pick (CmdCreateTable t name :: CmdSetDefaultTable t ::
    routes ++ [CmdRemoveRoute t (PrefixV4 h)])) a ≠ ToVhost reactor.
Proof.
  intros Hlt Hh Hf. set (all := routes ++ [CmdRemoveRoute t (PrefixV4 h)]).
  assert (Hall : Forall (is_route t) all).
  { apply Forall_app. split; [|repeat constructor].
    eapply list.Forall_impl; [exact Hf|]. intros c. apply tun_route_is_route. }
  unfold decide_v4. pose proof (router_tables pick t name all (2 + length all) Hall) as Htab.
  rewrite firstn_all2 in Htab by (cbn; lia). rewrite Htab. cbn [pred plus].
  rewrite firstn_all2 by lia. unfold lookup_v4. rewrite Hh. cbn.
  destruct (pm_get_lpm h _) as [target|] eqn:E; [|done]. destruct target; try done. intros [= ->].
  apply (lpm_contains _ a) in E as (q & Hq & Hcont); [|done..].
  assert (Hgone : ¬ same_net q h).
  { intros Hs. unfold all in Hq. rewrite foldl_app in Hq. cbn in Hq. rewrite pm_get_remove in Hq.
    by rewrite decide_True in Hq. }
  apply Hgone. apply step4_origin in Hq as [Hq|(t' & p & Hin & Hs)]; [by rewrite pm_get_new in Hq|].
  unfold all in Hin. apply elem_of_app in Hin as [Hin|[=]%list_elem_of_singleton].
  pose proof (proj1 (list.Forall_forall _ _) Hf _ Hin) as Hroute.
  rewrite (same_net_contains q p a Hs) in Hcont.
  inversion Hroute as [| |? x ? Hx Hp Hid Hl|? x ? Hx Hp Hid Hl]; subst.
  - destruct (host_v4_elem x _ Hx Hp) as (hx & [= <-] & Hhx & Heq). rewrite (Heq a Hcont), Hhx in Hh.
    by injection Hh as <-.
  - by destruct (host_v6_elem x _ Hx Hp) as (? & [=] & _).
Qed.

(** Deleting a NIC removes the route to its IPv4 address from the TUN reactor, also
    when the NIC is on a private network: no NIC receives packets for that address
    from outside any more, although one of a public network may have it. *)
Theorem delete_cuts_address d id k mn a r pick :
  nt_run nt_boot d → nd_up d = true → uuid_parse id = Some k →
  mg_nics (ns_mgr (nd_state d)) !! k = Some mn → v4_of mn = Some a →
  mg_tun_router (ns_mgr (nd_state (nt_step (NtDeleteNicReq id) d))) = Some r →
  ∀ reactor, decide_v4 (tables_after pick (ro_commands r)) a ≠ ToVhost reactor.
Proof.
  intros Hrun Hup Hid Hk Ha Htun reactor. destruct (nt_run_inv d Hrun) as [Hdb Hm].
  destruct (mi_row _ _ Hm k mn Hk) as (row & Hrow & _).
  assert (Hlt : (a < 2 ^ 32)%N) by (by eapply managed_v4_lt).
  destruct (host_net (w := 32) a Hlt) as (h & Hh & _ & _).
  revert Htun. cbn [nt_step nt_serve]. rewrite Hup. cbn [nd_state nt_serve].
  unfold nt_delete_nic, nt_parse_id, nt_found, nt_mgr, nt_db. rpc_unfold. rewrite Hid, Hrow.
  cbn. unfold remove_nic_router. rewrite Hk, Ha.
  unfold remove_nic_route_from_tun, on_tun, router_shutdown. cbn.
  destruct (mg_tun_router (ns_mgr (nd_state d))) as [r0|] eqn:Hr0; [|cbn; congruence].
  destruct (mi_tun_cmds _ _ Hm r0 Hr0) as (t & routes & Ht & [name Hc] & Hf). rewrite Ht. cbn.
  intros [= <-]. cbn. rewrite Hc, (host_v4_eq a h Hh). cbn. by eapply tun_removed.
Qed.

End facts.
