(* ===== verification/NetExamples.v ===== *)
(** A run of the user-space network daemon, and the theorems of [NetSvcFacts] and
    [NetRoute] at it: a public and a private network of the same subnet, with two
    NICs each. *)

From S2P Require Import Prelude Rpc Externals NetAddr NetRoute NetSvc NetSvcFacts.
Import Models NetModels RouteModels.

#[export] Instance nw_new4 : @NetNew 32 nets4_model := new_model 32 (cidr quad) (λ _, "").
#[export] Instance nw_new6 : @NetNew 128 nets6_model := new_model 128 (cidr ipv6) (λ _, "").

(** * Runs from a list of requests *)

Definition nw_freshb (r : NtRequest) (d : NtDaemon) : bool :=
  match r with
  | NtCreateNicReq _ env _ => is_none (mg_registry (ns_mgr (nd_state d)) !! re_reactor env)
  | NtRestart _ _ _ _ _ nics => match nics with [] => true | _ => false end
  | _ => true
  end.

Fixpoint nw_all_fresh (rs : list NtRequest) (d : NtDaemon) : bool :=
  match rs with
  | [] => true
  | r :: rs => nw_freshb r d && nw_all_fresh rs (nt_step r d)
  end.

Definition nw_serve (rs : list NtRequest) (d : NtDaemon) : NtDaemon :=
  foldl (λ d r, nt_step r d) d rs.

Lemma nw_run rs d : nw_all_fresh rs d = true → nt_run d (nw_serve rs d).
Proof.
  revert d. induction rs as [|r rs IH]; intros d; [intros _; apply rtc_refl|].
  cbn [nw_all_fresh]. intros [Hf Hrs]%andb_true_iff.
  eapply rtc_l; [exists r; split; [|reflexivity]|exact (IH _ Hrs)].
  destruct r; cbn in *; try done.
  - by destruct (mg_registry _ !! _).
  - destruct nics; [|done]. split; [|constructor]. repeat constructor. set_solver.
Qed.

(** * The requests *)

Definition nw_fresh (u : N) : NtFresh := MkNtFresh u "2026-01-01T00:00:00Z" [1; 2; 3; 4; 5; 6]%N.
Definition nw_env (u : N) : RouterEnv := MkRouterEnv true true u (100 + u)%N (200 + u)%N (300 + u)%N.
Definition nw_kernel : KernelEnv := MkKernelEnv (λ _, true) (λ _, true).
Definition nw_network (u : N) (name : string) (is_public : bool) : NtRequest :=
  NtCreateNetworkReq (nw_fresh u) nw_kernel
    (MkNtCreateNetwork name true "10.0.0.0/24" true "000000000000000000000000000000df/64" [] [] is_public).
Definition nw_nic (u net : N) : NtRequest :=
  NtCreateNicReq (nw_fresh u) (nw_env u) (MkNtCreateNic "" (uuid_string net) "" "" "" [] []).

Definition nw_requests : list NtRequest :=
  [ NtRestart (nw_env 9) true nw_kernel [] [] []; nw_network 1 "public" true; nw_network 2 "blue" false;
    nw_nic 11 1; nw_nic 12 1; nw_nic 13 2; nw_nic 14 2 ].
Definition nw_daemon : NtDaemon := nw_serve nw_requests nt_boot.

Abbreviation nw_mgr := (ns_mgr (nd_state nw_daemon)).
Definition nw_no_router : Router := MkRouter 0 0 None [].
Definition nw_at (u : N) : ManagedNic :=
  match mg_nics nw_mgr !! u with
  | Some mn => mn
  | None => MkManagedNic (MkNtNic 0 None 0 [] None None [] [] "" NtCreated "" "") nw_no_router 0
  end.
Definition nw_tun (m : NtManager) : Router :=
  match mg_tun_router m with Some r => r | None => nw_no_router end.
Definition nw_pick : KeyPick := λ m, fst <$> head (map_to_list m).

Lemma nw_daemon_run : nt_run nt_boot nw_daemon.
Proof. apply nw_run. vm_compute. reflexivity. Qed.
Lemma nw_managed u : is_some (mg_nics nw_mgr !! u) = true → mg_nics nw_mgr !! u = Some (nw_at u).
Proof. unfold nw_at. by destruct (mg_nics nw_mgr !! u). Qed.
Lemma nw_tun_router m : is_some (mg_tun_router m) = true → mg_tun_router m = Some (nw_tun m).
Proof. unfold nw_tun. by destruct (mg_tun_router m). Qed.
Lemma nw_live m u :
  match mg_registry m !! u with Some i => ri_open i | None => false end = true → live m u.
Proof. destruct (mg_registry m !! u) as [i|] eqn:E; [|done]. by exists i. Qed.
Lemma nw_private db u :
  match nb_networks db !! u with Some nw => negb (nw_is_public nw) | None => true end = true →
  ¬ public db u.
Proof. intros H (nw & E & Hp). by rewrite E, Hp in H. Qed.

(** 10.0.0.1, the address of NICs 11 and 13, and 10.0.0.2, that of 12 and 14. *)
Definition nw_first : Ipv4Addr := 167772161%N.
Definition nw_second : Ipv4Addr := 167772162%N.

Lemma nic_traffic_confined_witness :
  (∃ r, mg_tun_router nw_mgr = Some r ∧ 12%N = ro_reactor r ∧
     public (ns_db (nd_state nw_daemon)) (net_of (nw_at 11))) ∨
  (∃ k b, mg_nics nw_mgr !! k = Some b ∧ reactor_of b = 12%N ∧
     net_of b = net_of (nw_at 11) ∧ has_addr b (V4 nw_second)).
Proof.
  apply (nic_traffic_confined nw_daemon 11 (nw_at 11) 100 nw_pick (V4 nw_second) 12).
  - exact nw_daemon_run.
  - apply nw_managed. vm_compute. reflexivity.
  - done.
  - vm_compute. reflexivity.
  - apply nw_live. vm_compute. reflexivity.
Defined.

Lemma tun_traffic_confined_witness :
  ∃ k b, mg_nics nw_mgr !! k = Some b ∧ reactor_of b = 11%N ∧
    public (ns_db (nd_state nw_daemon)) (net_of b) ∧ has_addr b (V4 nw_first).
Proof.
  apply (tun_traffic_confined nw_daemon (nw_tun nw_mgr) 100 nw_pick (V4 nw_first) 11).
  - exact nw_daemon_run.
  - apply nw_tun_router. vm_compute. reflexivity.
  - done.
  - vm_compute. reflexivity.
  - apply nw_live. vm_compute. reflexivity.
Defined.

Lemma nics_reach_each_other_witness :
  decide_v4 (tables_after nw_pick (ro_commands (mn_router (nw_at 13)))) nw_second
    = ToVhost (reactor_of (nw_at 14)) ∧ live nw_mgr (reactor_of (nw_at 14)).
Proof.
  apply (nics_reach_each_other nw_daemon 13 (nw_at 13) 14 (nw_at 14) nw_second nw_pick).
  - exact nw_daemon_run.
  - apply nw_managed. vm_compute. reflexivity.
  - apply nw_managed. vm_compute. reflexivity.
  - vm_compute. reflexivity.
  - vm_compute. reflexivity.
Defined.

(** NIC 14 has the second address of the prefix; NIC 13, in its network, drops
    packets for it. *)
Lemma private_ipv6_unreachable_witness :
  decide_v6 (tables_after nw_pick (take 100 (ro_commands (mn_router (nw_at 13)))))
    336294682933583715844663186250927177730 = DropPacket.
Proof.
  apply (private_ipv6_unreachable nw_daemon 13 (nw_at 13)).
  - exact nw_daemon_run.
  - apply nw_managed. vm_compute. reflexivity.
  - apply nw_private. vm_compute. reflexivity.
  - vm_compute. reflexivity.
  - vm_compute. discriminate.
Defined.

(** Deleting the private NIC 13 takes the address of the public NIC 11 off the TUN
    reactor, which had it before. *)
Lemma delete_cuts_address_witness :
  let after := ns_mgr (nd_state (nt_step (NtDeleteNicReq (uuid_string 13)) nw_daemon)) in
  decide_v4 (tables_after nw_pick (ro_commands (nw_tun nw_mgr))) nw_first = ToVhost 11 ∧
  decide_v4 (tables_after nw_pick (ro_commands (nw_tun after))) nw_first ≠ ToVhost 11 ∧
  is_some (mg_nics after !! 11%N) = true.
Proof.
  cbv zeta. split; [vm_compute; reflexivity|]. split; [|vm_compute; reflexivity].
  apply (delete_cuts_address nw_daemon (uuid_string 13) 13 (nw_at 13)).
  - exact nw_daemon_run.
  - vm_compute. reflexivity.
  - vm_compute. reflexivity.
  - apply nw_managed. vm_compute. reflexivity.
  - vm_compute. reflexivity.
  - apply nw_tun_router. vm_compute. reflexivity.
Defined.

(** A reactor registers with the routing manager, is sent a table and a route, and
    has taken the first of the two messages. *)
Definition nw_route : IpPrefix := PrefixV4 (nets4 := nets4_model) (167772160, 24)%N.
Definition nw_steps : list (RoutingManager → RoutingManager) :=
  [ register_reactor 0; register_command_channel 1; rm_create_table nw_pick 7 "blue";
    rm_add_route nw_pick 7 nw_route (RtTun 3);
    λ m, m <| rm_command_reactors := alter (replica_take (command_apply nw_pick)) 1
                 (rm_command_reactors m) |> ].
Definition nw_manager : RoutingManager := foldl (λ m f, f m) rm_new nw_steps.

Lemma replicas_follow_manager_witness :
  ∃ r, rm_command_reactors nw_manager !! 1 = Some r ∧ length (rp_queue r) = 1 ∧
    drained (command_apply nw_pick) r = rm_tables nw_manager.
Proof.
  assert (Hr : match rm_command_reactors nw_manager !! 1 with
    | Some r => rp_open r && (length (rp_queue r) =? 1) | None => false end = true)
    by (vm_compute; reflexivity).
  destruct (rm_command_reactors nw_manager !! 1) as [r|] eqn:E; [|discriminate Hr].
  apply andb_true_iff in Hr as [Ho Hl%Nat.eqb_eq].
  exists r. split; [reflexivity|]. split; [exact Hl|].
  apply (replicas_follow_manager nw_pick (λ _, nw_pick) nw_manager 1); [|exact E|exact Ho|reflexivity].
  eapply rtc_l; [exact (rm_step_register _ _ 0 rm_new eq_refl)|].
  eapply rtc_l; [refine (rm_step_register_command _ _ 1 _ _); reflexivity|].
  eapply rtc_l; [exact (rm_step_create _ _ 7 "blue" _)|].
  eapply rtc_l; [exact (rm_step_add _ _ 7 nw_route (RtTun 3) _)|].
  eapply rtc_l; [exact (rm_step_take_command _ (λ _, nw_pick) 1 _)|].
  apply rtc_refl.
Defined.
