(* ===== verification/NetIovec.v ===== *)
(** Packets as scatter-gather lists: the copies the reactors of the user-space
    network daemon make of them, the virtio header they patch, and the lists they
    write to the TUN device (mvirt-net/src/reactor/mod.rs). *)

From S2P Require Import Prelude Packet.

Definition VIRTIO_NET_HDR_SIZE : nat := 12.
Definition ETHERNET_HDR_SIZE : nat := 14.
Definition PEEK_BUF_SIZE : nat := 600.
Definition MAX_TX_IOVECS : nat := 32.
Definition GATEWAY_MAC : list u8 := [2; 0; 0; 0; 0; 1]%N.

(** An [iovec] is the bytes it points to; [iov_len] is their number. The bytes do
    not change while a packet is processed. *)
Abbreviation iovec := (list u8) (only parsing).
Abbreviation pkt := concat (only parsing).

(** * Copies *)

Fixpoint copy_from_loop (iovecs : list iovec) (pos offset len : nat) (dst : list u8) : list u8 :=
  match iovecs with
  | [] => dst
  | iov :: iovecs =>
      let iov_end := pos + length iov in
      let dst :=
        if (offset <? iov_end) && (length dst <? len) then
          let start_in_iov := offset - pos in
          let bytes_avail := length iov - start_in_iov in
          dst ++ take (bytes_avail `min` (len - length dst)) (drop start_in_iov iov)
        else dst in
      if len <=? length dst then dst else copy_from_loop iovecs iov_end offset len dst
  end.

(** The destination is overwritten from its start; the flag says if to its end. *)
Definition copy_from_iovecs (iovecs : list iovec) (offset : nat) (dst : list u8) : bool * list u8 :=
  let out := copy_from_loop iovecs 0 offset (length dst) [] in
  (length dst <=? length out, out ++ drop (length out) dst).

(** The slow path of [peek_packet_headers]. *)
Fixpoint peek_loop (iovecs : list iovec) (buf : list u8) : list u8 :=
  match iovecs with
  | [] => buf
  | iov :: iovecs =>
      if PEEK_BUF_SIZE <=? length buf then buf
      else peek_loop iovecs (buf ++ take ((PEEK_BUF_SIZE - length buf) `min` length iov) iov)
  end.

Definition peek_packet_headers (iovecs : list iovec) (total_len : u32) : list u8 :=
  match iovecs with
  | [] => []
  | first :: _ =>
      if PEEK_BUF_SIZE <=? length first then take PEEK_BUF_SIZE first
      else if (N.of_nat VIRTIO_NET_HDR_SIZE <? total_len)%N then peek_loop iovecs []
      else []
  end.

(** * The virtio header *)

Definition le16 (v : u16) : list u8 := [v `mod` 256; (v `div` 256) `mod` 256]%N.
Definition get_le16 (h : list u8) (i : nat) : u16 := (h !!! i + 256 * h !!! S i)%N.
(** [h[i..i + bs.len()].copy_from_slice(bs)]. *)
Definition put (i : nat) (bs h : list u8) : list u8 := take i h ++ bs ++ drop (i + length bs) h.

Definition needs_csum (h : list u8) : bool := N.testbit (h !!! 0) 0.

Definition patch_virtio_hdr_for_eth_stripping (h : list u8) : list u8 :=
  if needs_csum h then
    let csum_start := get_le16 h 6 in
    let hdr_len := get_le16 h 2 in
    let h := put 6 (le16 (saturating_sub csum_start (N.of_nat ETHERNET_HDR_SIZE))) h in
    put 2 (le16 (if (N.of_nat ETHERNET_HDR_SIZE <=? hdr_len)%N
                 then hdr_len - N.of_nat ETHERNET_HDR_SIZE else hdr_len)) h
  else h.

Definition patch_virtio_hdr_for_eth_injection (h : list u8) : list u8 :=
  if needs_csum h then
    put 6 (le16 (wrap 16 (get_le16 h 6 + N.of_nat ETHERNET_HDR_SIZE))) h
  else h.

(** * Packets for the TUN device *)

Definition SKIP_END : nat := VIRTIO_NET_HDR_SIZE + ETHERNET_HDR_SIZE.

Fixpoint payload_iovecs (iovecs : list iovec) (pos iov_idx : nat) : list iovec :=
  match iovecs with
  | [] => []
  | iov :: iovecs =>
      let iov_end := pos + length iov in
      if (SKIP_END <? iov_end) && (iov_idx <? MAX_TX_IOVECS) then
        drop (SKIP_END - pos) iov :: payload_iovecs iovecs iov_end (S iov_idx)
      else payload_iovecs iovecs iov_end iov_idx
  end.

(** The list written to the device, the patched copy of the header first; [None] for
    [false]. *)
Definition prepare_tun_iovecs (src : list iovec) : option (list iovec) :=
  let '(ok, hdr) := copy_from_iovecs src 0 (replicate VIRTIO_NET_HDR_SIZE 0%N) in
  if negb ok then None else
  let payload := payload_iovecs src 0 1 in
  if 1 <? 1 + length payload
  then Some (patch_virtio_hdr_for_eth_stripping hdr :: payload) else None.

(** What [process_incoming_packets_to_tun] writes for a packet of another reactor. *)
Definition l3_packet (iovecs : list iovec) : option (list u8) :=
  let packet_data := pkt iovecs in
  if length packet_data <? SKIP_END then None
  else Some (patch_virtio_hdr_for_eth_stripping (take VIRTIO_NET_HDR_SIZE packet_data)
             ++ drop SKIP_END packet_data).

(** * Positions in a list

    [read_from_iovecs_to_buf], [copy_iovecs_to_guest] and [skip_in_iovecs] advance
    an index and an offset the same way; they differ in what they do with the bytes.
    The loop ends when the bytes or the iovecs do; one round more than the iovecs
    left is enough. *)

Section walk.
Context {E S : Type} (sink : list u8 → S → result E S).

Fixpoint iov_walk (fuel : nat) (iovecs : list iovec) (idx offset len : nat) (s : S)
    : option (result E (S * nat) * nat * nat) :=
  match fuel with
  | O => None
  | Datatypes.S fuel =>
      match len, iovecs !! idx with
      | O, _ | _, None => Some (Ok (s, len), idx, offset)
      | _, Some iov =>
          let to_copy := (length iov - offset) `min` len in
          match (if 0 <? to_copy then sink (take to_copy (drop offset iov)) s else Ok s) with
          | Err e => Some (Err e, idx, offset)
          | Ok s =>
              let offset := offset + to_copy in
              if length iov <=? offset
              then iov_walk fuel iovecs (Datatypes.S idx) 0 (len - to_copy) s
              else iov_walk fuel iovecs idx offset (len - to_copy) s
          end
      end
  end.

End walk.

(** The bytes of a list from a position on. *)
Definition rest_from (iovecs : list iovec) (idx offset : nat) : list u8 :=
  drop offset (pkt (drop idx iovecs)).

(** * Facts *)

Lemma take_drop_app_l {A} n k (l l' : list A) : k + n ≤ length l →
  take n (drop k (l ++ l')) = take n (drop k l).
Proof. intros H. by rewrite drop_app_le, take_app_le by (rewrite ?length_drop; lia). Qed.

Lemma copy_from_loop_spec iovecs pos offset len dst :
  length dst = pos - offset → length dst ≤ len →
  copy_from_loop iovecs pos offset len dst =
    dst ++ take (len - length dst) (drop (offset - pos) (pkt iovecs)).
Proof.
  revert pos dst. induction iovecs as [|iov iovecs IH]; intros pos dst Hd Hl;
    cbn [copy_from_loop concat]; cbv zeta.
  { by rewrite drop_nil, take_nil, app_nil_r. }
  destruct (Nat.ltb_spec offset (pos + length iov)) as [He|He]; cbn [andb];
    [destruct (Nat.ltb_spec (length dst) len) as [Hlt|Hge]|].
  - destruct (Nat.leb_spec len (length (dst ++ take
      ((length iov - (offset - pos)) `min` (len - length dst)) (drop (offset - pos) iov)))) as [H|H];
      rewrite length_app, length_take, length_drop in H.
    + rewrite take_drop_app_l by lia. do 2 f_equal. lia.
    + rewrite IH by (rewrite length_app, length_take, length_drop; lia).
      rewrite length_app, length_take, length_drop, <- app_assoc. f_equal.
      rewrite drop_app_le, take_app_ge by (rewrite ?length_drop; lia). rewrite length_drop.
      rewrite take_ge by (rewrite length_drop; lia). f_equal. f_equal; [lia|].
      replace (offset - (pos + length iov)) with 0 by lia. done.
  - rewrite (proj2 (Nat.leb_le _ _) Hge), (proj2 (Nat.sub_0_le _ _) Hge). by rewrite take_0, app_nil_r.
  - assert (dst = []) as -> by (destruct dst; [done|cbn in Hd; lia]).
    destruct (Nat.leb_spec len (length (A := u8) [])) as [H0|H0].
    + by replace len with 0 by (cbn in *; lia).
    + rewrite IH by (cbn; lia). cbn. rewrite drop_app_ge by lia. f_equal. f_equal. lia.
Qed.

(** The bytes from the offset on, as many as there are and fit. *)
Lemma copy_from_iovecs_spec iovecs offset dst :
  let out := take (length dst) (drop offset (pkt iovecs)) in
  copy_from_iovecs iovecs offset dst =
    (length dst <=? length (pkt iovecs) - offset, out ++ drop (length out) dst).
Proof.
  cbv zeta. unfold copy_from_iovecs. rewrite copy_from_loop_spec by (cbn; lia).
  cbn [length app]. rewrite !Nat.sub_0_r. f_equal.
  rewrite length_take, length_drop. apply Bool.eq_true_iff_eq. rewrite !Nat.leb_le. lia.
Qed.

Lemma peek_loop_spec iovecs buf : length buf ≤ PEEK_BUF_SIZE →
  peek_loop iovecs buf = buf ++ take (PEEK_BUF_SIZE - length buf) (pkt iovecs).
Proof.
  revert buf. induction iovecs as [|iov iovecs IH]; intros buf Hb; cbn [peek_loop concat].
  { by rewrite take_nil, app_nil_r. }
  destruct (Nat.leb_spec PEEK_BUF_SIZE (length buf)) as [H|H].
  { by rewrite (proj2 (Nat.sub_0_le _ _) H), take_0, app_nil_r. }
  rewrite IH by (rewrite length_app, length_take; lia). rewrite <- app_assoc. f_equal.
  rewrite length_app, length_take.
  destruct (Nat.le_gt_cases (PEEK_BUF_SIZE - length buf) (length iov)) as [Hi|Hi].
  - rewrite (Nat.min_l (PEEK_BUF_SIZE - _) (length iov)) by done. rewrite Nat.min_l by done.
    rewrite take_app_le by done. replace (_ - (_ + _)) with 0 by lia.
    by rewrite take_0, app_nil_r.
  - rewrite (Nat.min_r (PEEK_BUF_SIZE - _) (length iov)), Nat.min_id by lia.
    rewrite firstn_all, take_app_ge by lia. f_equal. f_equal. lia.
Qed.

(** Routing and the protocol handlers see the first 600 bytes of the packet, whatever
    its segments, if its length is counted right. *)
Lemma peek_packet_headers_spec iovecs total_len :
  (N.of_nat VIRTIO_NET_HDR_SIZE < total_len)%N →
  peek_packet_headers iovecs total_len = take PEEK_BUF_SIZE (pkt iovecs).
Proof.
  intros Ht. unfold peek_packet_headers. destruct iovecs as [|first iovecs]; [done|].
  destruct (Nat.leb_spec PEEK_BUF_SIZE (length first)) as [H|H].
  - cbn [concat]. by rewrite take_app_le.
  - rewrite (proj2 (N.ltb_lt _ _) Ht). apply peek_loop_spec. cbn; lia.
Qed.

(** ** Packets for the TUN device *)

(** The segments that end inside the bytes to skip. *)
Fixpoint skipped (iovecs : list iovec) (pos : nat) : nat :=
  match iovecs with
  | [] => 0
  | iov :: iovecs => if SKIP_END <? pos + length iov then 0 else S (skipped iovecs (pos + length iov))
  end.

Lemma payload_past iovecs pos idx : SKIP_END < pos →
  payload_iovecs iovecs pos idx = take (MAX_TX_IOVECS - idx) iovecs.
Proof.
  revert pos idx. induction iovecs as [|iov iovecs IH]; intros pos idx Hp; cbn [payload_iovecs].
  { by rewrite take_nil. }
  cbv zeta. rewrite (proj2 (Nat.ltb_lt SKIP_END _)) by lia. cbn [andb].
  destruct (Nat.ltb_spec idx MAX_TX_IOVECS) as [H|H]; rewrite IH by lia.
  - replace (SKIP_END - pos) with 0 by lia.
    by replace (MAX_TX_IOVECS - idx) with (S (MAX_TX_IOVECS - S idx)) by lia.
  - by replace (MAX_TX_IOVECS - idx) with 0 by lia.
Qed.

Lemma payload_iovecs_spec iovecs pos idx : idx < MAX_TX_IOVECS →
  pkt (payload_iovecs iovecs pos idx) =
    drop (SKIP_END - pos) (pkt (take (skipped iovecs pos + (MAX_TX_IOVECS - idx)) iovecs)).
Proof.
  intros Hi. revert pos. induction iovecs as [|iov iovecs IH]; intros pos; cbn [payload_iovecs skipped].
  { rewrite take_nil. cbn [concat]. by rewrite drop_nil. }
  cbv zeta. rewrite (proj2 (Nat.ltb_lt idx _) Hi), andb_true_r.
  destruct (Nat.ltb_spec SKIP_END (pos + length iov)) as [H|H].
  - rewrite payload_past by done. cbn [Nat.add].
    replace (MAX_TX_IOVECS - idx) with (S (MAX_TX_IOVECS - S idx)) by lia.
    cbn [take concat]. by rewrite drop_app_le by lia.
  - rewrite IH. cbn [Nat.add take concat]. rewrite drop_app_ge by lia. f_equal. lia.
Qed.

(** Some segment goes past the bytes to skip, and it is among the first. *)
Lemma skipped_reaches iovecs pos : SKIP_END < pos + length (pkt iovecs) → pos ≤ SKIP_END →
  skipped iovecs pos < length iovecs ∧
  SKIP_END < pos + length (pkt (take (S (skipped iovecs pos)) iovecs)).
Proof.
  revert pos. induction iovecs as [|iov iovecs IH]; intros pos Hl Hp; cbn [skipped]; [cbn [concat length] in Hl; lia|].
  cbn [concat] in Hl. rewrite length_app in Hl.
  destruct (Nat.ltb_spec SKIP_END (pos + length iov)) as [H|H].
  - cbn [take concat]. rewrite take_0, length_app. cbn [concat length]. lia.
  - destruct (IH (pos + length iov)) as [H1 H2]; [lia..|]. cbn [take concat length] in *.
    rewrite length_app. split; lia.
Qed.

Lemma prepare_tun_spec src :
  prepare_tun_iovecs src =
    if SKIP_END <? length (pkt src) then
      Some (patch_virtio_hdr_for_eth_stripping (take VIRTIO_NET_HDR_SIZE (pkt src))
            :: payload_iovecs src 0 1)
    else None.
Proof.
  unfold prepare_tun_iovecs. rewrite copy_from_iovecs_spec. cbv zeta.
  rewrite length_replicate, drop_0, Nat.sub_0_r.
  pose proof (payload_iovecs_spec src 0 1 ltac:(cbv; lia)) as Hp.
  destruct (Nat.ltb_spec SKIP_END (length (pkt src))) as [H|H].
  - rewrite (proj2 (Nat.leb_le _ _)) by (unfold SKIP_END in H; lia). cbn [negb].
    rewrite length_take, Nat.min_l by (unfold SKIP_END in H; lia).
    rewrite drop_ge, app_nil_r by (rewrite length_replicate; lia).
    destruct (skipped_reaches src 0) as [_ Hr]; [lia..|].
    destruct (payload_iovecs src 0 1) as [|x l] eqn:E; [|done]. exfalso.
    apply (f_equal length) in Hp. cbn [concat length] in Hp. rewrite length_drop in Hp.
    assert (length (pkt (take (S (skipped src 0)) src)) ≤
      length (pkt (take (skipped src 0 + (MAX_TX_IOVECS - 1)) src))); [|lia].
    replace (skipped src 0 + (MAX_TX_IOVECS - 1)) with (S (skipped src 0) + 30) by (cbn; lia).
    rewrite <- (take_take_drop src), concat_app, length_app. lia.
  - destruct (negb _); [done|].
    destruct (payload_iovecs src 0 1) as [|x l] eqn:E; [done|]. exfalso.
    assert (Hno : ∀ iovs pos idx, pos + length (pkt iovs) ≤ SKIP_END → payload_iovecs iovs pos idx = []).
    { clear. induction iovs as [|iov iovs IH]; intros pos idx Hl; [done|].
      cbn [payload_iovecs concat] in *. rewrite length_app in Hl. cbv zeta.
      rewrite (proj2 (Nat.ltb_ge SKIP_END _)) by lia. apply IH. lia. }
    by rewrite Hno in E.
Qed.

(** C37: A packet for outside has its Ethernet header removed and its virtio header
    adapted, and the two ways in which packets reach the TUN device agree, exactly if
    nothing is left in the segments that do not fit besides the header: the list has
    room for 32, and one is the copy of the header. *)
Theorem tun_paths_agree src : SKIP_END < length (pkt src) →
  ∃ iovs, prepare_tun_iovecs src = Some iovs ∧
    (l3_packet src = Some (pkt iovs) ↔ pkt (drop (skipped src 0 + 31) src) = []).
Proof.
  intros Hl. rewrite prepare_tun_spec, (proj2 (Nat.ltb_lt _ _) Hl). eexists. split; [done|].
  unfold l3_packet. rewrite (proj2 (Nat.ltb_ge _ _)) by lia. cbn [concat].
  rewrite (payload_iovecs_spec src 0 1) by (cbv; lia). rewrite Nat.sub_0_r.
  change (MAX_TX_IOVECS - 1) with 31. set (k := skipped src 0 + 31).
  destruct (skipped_reaches src 0) as [_ Hr]; [lia..|].
  assert (Hk : SKIP_END ≤ length (pkt (take k src))).
  { unfold k. replace (skipped src 0 + 31) with (S (skipped src 0) + 30) by lia.
    rewrite <- (take_take_drop src), concat_app, length_app. lia. }
  rewrite <- (take_drop k src) at 2. rewrite concat_app, drop_app_le by done.
  split.
  - intros [= E]. apply app_inv_head in E. rewrite <- (app_nil_r (drop _ _)) in E at 2.
    by apply app_inv_head in E.
  - intros ->. by rewrite app_nil_r.
Qed.

(** ** The virtio header *)

Lemma get_le16_le16 v c : (v < 65536)%N → get_le16 (le16 v ++ c) 0 = v.
Proof.
  intros Hv. unfold get_le16, le16. cbn.
  assert (v `div` 256 < 256)%N by (apply N.Div0.div_lt_upper_bound; done).
  rewrite (N.mod_small (v `div` 256)) by done. pose proof (N.div_mod v 256). lia.
Qed.

Lemma le16_bytes lo hi : (lo < 256)%N → (hi < 256)%N → le16 (lo + 256 * hi) = [lo; hi].
Proof.
  intros Hl Hh. unfold le16. rewrite (N.mul_comm 256 hi).
  rewrite N.Div0.mod_add, N.div_add, (N.mod_small lo), (N.div_small lo) by done.
  cbn [N.add]. by rewrite (N.mod_small hi).
Qed.

(** A header whose Ethernet header is removed on one way and put back on the other
    comes back with its checksum start; [hdr_len] is not restored. *)
Lemma strip_inject f g l0 l1 s0 s1 c0 c1 o0 o1 n0 n1 :
  N.testbit f 0 = true → (c0 < 256)%N → (c1 < 256)%N → (14 ≤ c0 + 256 * c1)%N →
  patch_virtio_hdr_for_eth_injection
    (patch_virtio_hdr_for_eth_stripping [f; g; l0; l1; s0; s1; c0; c1; o0; o1; n0; n1]) =
  [f; g] ++ le16 (if (14 <=? l0 + 256 * l1)%N then l0 + 256 * l1 - 14 else l0 + 256 * l1)%N
    ++ [s0; s1; c0; c1; o0; o1; n0; n1].
Proof.
  intros Hf Hc0 Hc1 Hc. unfold patch_virtio_hdr_for_eth_stripping, needs_csum.
  cbn [lookup_total list_lookup_total]. rewrite Hf. cbv zeta.
  change (get_le16 _ 6) with (c0 + 256 * c1)%N. change (get_le16 _ 2) with (l0 + 256 * l1)%N.
  change (N.of_nat ETHERNET_HDR_SIZE) with 14%N.
  set (len := if (14 <=? l0 + 256 * l1)%N then (l0 + 256 * l1 - 14)%N else (l0 + 256 * l1)%N). unfold patch_virtio_hdr_for_eth_injection, needs_csum.
  cbn [put take app drop Nat.add length le16 lookup_total list_lookup_total]. rewrite Hf.
  set (start := saturating_sub (c0 + 256 * c1) 14).
  assert (Hs : (start = c0 + 256 * c1 - 14)%N) by done.
  change (get_le16 _ 6) with (get_le16 (le16 start ++ []) 0).
  rewrite get_le16_le16 by lia. change (N.of_nat ETHERNET_HDR_SIZE) with 14%N.
  replace (start + 14)%N with (c0 + 256 * c1)%N by lia.
  unfold wrap. change (2 ^ 16)%N with 65536%N. rewrite (N.mod_small (c0 + 256 * c1) 65536) by lia.
  pose proof (le16_bytes c0 c1 Hc0 Hc1) as H. unfold le16 in H. injection H as -> ->. done.
Qed.

(** ** Positions *)

Definition pos_in (iovecs : list iovec) (idx offset : nat) : Prop :=
  match iovecs !! idx with Some iov => offset ≤ length iov | None => offset = 0 end.

Lemma rest_from_some iovecs idx offset iov : iovecs !! idx = Some iov → offset ≤ length iov →
  rest_from iovecs idx offset = drop offset iov ++ rest_from iovecs (S idx) 0.
Proof.
  intros Hi Ho. unfold rest_from. rewrite (drop_S iovecs iov idx Hi). cbn [concat].
  by rewrite drop_app_le, drop_0.
Qed.
Lemma rest_from_none iovecs idx offset : iovecs !! idx = None → rest_from iovecs idx offset = [].
Proof.
  intros Hi%lookup_ge_None. unfold rest_from. rewrite (drop_ge iovecs) by done. apply drop_nil.
Qed.
Lemma pos_in_next iovecs idx : pos_in iovecs idx 0.
Proof. unfold pos_in. destruct (iovecs !! idx); lia. Qed.

Section walk_facts.
Context {E S : Type} (sink : list u8 → S → result E S).

Fixpoint sink_all (slices : list (list u8)) (s : S) : result E S :=
  match slices with
  | [] => Ok s
  | bs :: slices => match sink bs s with Ok s => sink_all slices s | Err e => Err e end
  end.

(** The slices that the sink gets, one after the other, are the bytes asked for, and
    the position moves past them. *)
Lemma iov_walk_spec fuel iovecs idx offset len s :
  pos_in iovecs idx offset → length iovecs - idx < fuel →
  ∃ slices, pkt slices = take len (rest_from iovecs idx offset) ∧ Forall (λ bs, bs ≠ []) slices ∧
  match sink_all slices s with
  | Ok s' => ∃ idx' offset',
      iov_walk sink fuel iovecs idx offset len s = Some (Ok (s', len - length (pkt slices)), idx', offset') ∧
      pos_in iovecs idx' offset' ∧
      rest_from iovecs idx' offset' = drop len (rest_from iovecs idx offset)
  | Err e => ∃ i o, iov_walk sink fuel iovecs idx offset len s = Some (Err e, i, o)
  end.
Proof.
  revert idx offset len s. induction fuel as [|fuel IH]; intros idx offset len s Hp Hf; [lia|].
  cbn [iov_walk]. destruct len as [|len].
  { exists []. split_and!; [done|done|]. cbn. by eexists _, _. }
  destruct (iovecs !! idx) as [iov|] eqn:Hi; cycle 1.
  { exists []. rewrite (rest_from_none iovecs idx offset Hi), take_nil, drop_nil. cbn.
    split_and!; [done|done|]. eexists _, _. split_and!; [done|done|]. by apply rest_from_none. }
  unfold pos_in in Hp. rewrite Hi in Hp. pose proof (lookup_lt_Some _ _ _ Hi) as Hlt.
  set (n := (length iov - offset) `min` Datatypes.S len). cbv zeta.
  rewrite (rest_from_some _ _ _ _ Hi Hp).
  destruct (Nat.leb_spec (length iov) (offset + n)) as [Hend|Hend].
  - assert (Hn : n = length iov - offset) by lia.
    assert (Htake : take n (drop offset iov) = drop offset iov)
      by (apply take_ge; rewrite length_drop; lia).
    assert (Hsplit : ∀ sl, pkt sl = take (Datatypes.S len - n) (rest_from iovecs (Datatypes.S idx) 0) →
      pkt ((if 0 <? n then [drop offset iov] else []) ++ sl) =
        take (Datatypes.S len) (drop offset iov ++ rest_from iovecs (Datatypes.S idx) 0)).
    { intros sl Hsl. rewrite concat_app, Hsl, take_app_ge by (rewrite length_drop; lia).
      rewrite length_drop, <- Hn. f_equal. destruct (Nat.ltb_spec 0 n); cbn; [by rewrite app_nil_r|].
      by rewrite drop_ge by lia. }
    assert (Hdrop : drop (Datatypes.S len) (drop offset iov ++ rest_from iovecs (Datatypes.S idx) 0) =
      drop (Datatypes.S len - n) (rest_from iovecs (Datatypes.S idx) 0))
      by (rewrite drop_app_ge by (rewrite length_drop; lia); by rewrite length_drop, <- Hn).
    rewrite Htake, Hdrop. clear Hdrop.
    destruct (Nat.ltb_spec 0 n) as [H0|H0].
    + assert (Hne1 : drop offset iov ≠ []).
      { intros H%(f_equal length). rewrite length_drop in H. cbn in H. lia. }
      destruct (sink (drop offset iov) s) as [s1|e] eqn:Es.
      * destruct (IH (Datatypes.S idx) 0 (Datatypes.S len - n) s1) as (sl & Hsl & Hne & Hres);
          [apply pos_in_next|lia|]. exists (drop offset iov :: sl).
        split_and!; [by apply (Hsplit sl)|by constructor|].
        cbn [sink_all]. rewrite Es. cbn [concat]. rewrite length_app, length_drop.
        by replace (Datatypes.S len - (length iov - offset + length (pkt sl)))
          with (Datatypes.S len - n - length (pkt sl)) by lia.
      * destruct (IH (Datatypes.S idx) 0 (Datatypes.S len - n) s) as (sl & Hsl & Hne & _);
          [apply pos_in_next|lia|]. exists (drop offset iov :: sl).
        split_and!; [by apply (Hsplit sl)|by constructor|]. cbn [sink_all]. rewrite Es. by eexists _, _.
    + destruct (IH (Datatypes.S idx) 0 (Datatypes.S len - n) s) as (sl & Hsl & Hne & Hres);
        [apply pos_in_next|lia|]. exists sl. split_and!; [by apply (Hsplit sl)|done|].
      by replace (Datatypes.S len - n) with (Datatypes.S len) in * by lia.
  - assert (Hn : n = Datatypes.S len) by lia. rewrite Hn, Nat.sub_diag. cbn [Nat.ltb Nat.leb].
    rewrite take_app_le, drop_app_le, drop_drop by (rewrite length_drop; lia).
    set (bs := take (Datatypes.S len) (drop offset iov)).
    assert (Hbs : length bs = Datatypes.S len) by (unfold bs; rewrite length_take, length_drop; lia).
    exists [bs]. split_and!; [apply app_nil_r|by constructor; [by destruct bs|constructor]|].
    cbn [sink_all concat]. rewrite app_nil_r, Hbs, Nat.sub_diag.
    destruct (sink bs s) as [s1|e]; [|by eexists _, _].
    exists idx, (offset + Datatypes.S len). split_and!.
    + destruct fuel; [lia|]. done.
    + unfold pos_in. rewrite Hi. lia.
    + apply rest_from_some; [done|lia].
Qed.

End walk_facts.
