(* ===== verification/NetRx.v ===== *)
(** Delivery into a guest: packets of other reactors and replies of the protocol
    handlers are written to the buffers of the RX queue (copy_to_vhost_rx and
    inject_to_vhost_rx of mvirt-net/src/reactor/mod.rs). *)

From S2P Require Import Prelude Packet NetIovec.

(** * Guest memory and queues

    vm-memory and virtio-queue, by what they document. A slice is written exactly if
    all its addresses are mapped; a failed write changes nothing outside the slice. *)

Definition scatter (a : u64) (bs : list u8) (img : u64 → option u8) (x : u64) : option u8 :=
  if (a <=? x)%N then
    match bs !! N.to_nat (x - a) with Some b => Some b | None => img x end
  else img x.

Class GuestMemory := {
  gmem : Type;
  gm_read : gmem → u64 → option u8;
  gm_write : list u8 → u64 → gmem → bool * gmem;
  gm_write_iff bs a m :
    (gm_write bs a m).1 = true ↔ ∀ i, i < length bs → is_Some (gm_read m (a + N.of_nat i));
  gm_write_bytes bs a m x :
    (gm_write bs a m).1 = true → gm_read (gm_write bs a m).2 x = scatter a bs (gm_read m) x;
  gm_write_frame bs a m x :
    (x < a)%N ∨ (a + N.of_nat (length bs) ≤ x)%N → gm_read (gm_write bs a m).2 x = gm_read m x;
  gm_write_mapped bs a m x :
    is_Some (gm_read (gm_write bs a m).2 x) ↔ is_Some (gm_read m x) }.

Record Desc := MkDesc { de_addr : u64; de_len : u32; de_write_only : bool }.
Record Chain := MkChain { ch_head : u16; ch_descs : list Desc }.

(** A queue by the chains that it will yield, in this order, and the entries of its
    used ring. *)
Class VirtQueue := {
  vqueue : Type;
  vq_avail : vqueue → list Chain;
  vq_used : vqueue → list (u16 * u32);
  vq_pop : vqueue → option (Chain * vqueue);
  vq_add_used : u16 → u32 → vqueue → vqueue;
  (** The guest makes a chain available. *)
  vq_offer : Chain → vqueue → vqueue;
  vq_pop_none q : vq_avail q = [] → vq_pop q = None;
  vq_pop_some q c cs : vq_avail q = c :: cs →
    ∃ q', vq_pop q = Some (c, q') ∧ vq_avail q' = cs ∧ vq_used q' = vq_used q;
  vq_add_used_avail h n q : vq_avail (vq_add_used h n q) = vq_avail q;
  vq_add_used_used h n q : vq_used (vq_add_used h n q) = vq_used q ++ [(h, n)];
  vq_offer_avail c q : vq_avail (vq_offer c q) = vq_avail q ++ [c];
  vq_offer_used c q : vq_used (vq_offer c q) = vq_used q }.

(** [GuestAddress::checked_add]. *)
Definition checked_add (a : u64) (n : nat) : option u64 :=
  if (a + N.of_nat n <? 2 ^ 64)%N then Some (a + N.of_nat n)%N else None.

(** * Packets between reactors *)

Inductive PacketSource :=
  | SrcVhostTx (head_index : u16) (total_len : u32) (source_reactor : N)
  | SrcTunRx (chain_id : u64) (len : u32) (source_reactor : N) (dst_mac : list u8) (ethertype : u16)
  | SrcVhostToVhost (head_index : u16) (total_len : u32) (source_reactor : N)
      (dst_mac src_mac : list u8).

Record PacketRef := MkPacketRef { pk_id : u64; pk_iovecs : list iovec; pk_source : PacketSource }.

Definition source_reactor (s : PacketSource) : N :=
  match s with SrcVhostTx _ _ r | SrcTunRx _ _ r _ _ | SrcVhostToVhost _ _ r _ _ => r end.

Section rx.
Context {memory : GuestMemory} {queues : VirtQueue}.

(** * Filling chains

    The three routines pop chains until the packet is written, and write each
    write-only descriptor in their own way: [fill]. *)

Inductive Fill (S : Type) :=
  | FillOk (s : S)
  | FillErr (m : gmem)
  | FillPanic
  | FillSpin.
#[global] Arguments FillOk {S} _.
#[global] Arguments FillErr {S} _.
#[global] Arguments FillPanic {S}.
#[global] Arguments FillSpin {S}.

Record RxState (P : Type) := MkRxState { rx_mem : gmem; rx_written : nat; rx_pos : P }.
#[global] Arguments MkRxState {P} _ _ _.
#[global] Arguments rx_mem {P} _.
#[global] Arguments rx_written {P} _.
#[global] Arguments rx_pos {P} _.

Inductive Popped (P : Type) :=
  | PopDone (chains : list (u16 * u32)) (first : option u64) (s : RxState P) (q : vqueue)
  | PopShort (chains : list (u16 * u32)) (m : gmem) (q : vqueue)
  | PopErr (chains : list (u16 * u32)) (head : u16) (m : gmem) (q : vqueue)
  | PopPanic
  | PopSpin.
#[global] Arguments PopDone {P} _ _ _ _.
#[global] Arguments PopShort {P} _ _ _.
#[global] Arguments PopErr {P} _ _ _ _.
#[global] Arguments PopPanic {P}.
#[global] Arguments PopSpin {P}.

Section pop.
Context {P : Type} (fill : Desc → RxState P → Fill (RxState P)) (total : nat).

Fixpoint fill_chain (descs : list Desc) (first : option u64) (s : RxState P)
    : Fill (option u64 * RxState P) :=
  match descs with
  | [] => FillOk (first, s)
  | d :: descs =>
      if negb (de_write_only d) then fill_chain descs first s else
      let first := match first with None => Some (de_addr d) | Some a => Some a end in
      match fill d s with
      | FillOk s => if total <=? rx_written s then FillOk (first, s) else fill_chain descs first s
      | FillErr m => FillErr m
      | FillPanic => FillPanic
      | FillSpin => FillSpin
      end
  end.

Fixpoint fill_chains (fuel : nat) (q : vqueue) (chains : list (u16 * u32)) (first : option u64)
    (s : RxState P) : Popped P :=
  match fuel with
  | O => PopSpin
  | S fuel =>
      if total <=? rx_written s then PopDone chains first s q else
      match vq_pop q with
      | None => PopShort chains (rx_mem s) q
      | Some (c, q) =>
          match fill_chain (ch_descs c) first s with
          | FillOk (first, s') =>
              let chain_bytes := wrap 32 (N.of_nat (rx_written s' - rx_written s)) in
              fill_chains fuel q (chains ++ [(ch_head c, chain_bytes)]) first s'
          | FillErr m => PopErr chains (ch_head c) m q
          | FillPanic => PopPanic
          | FillSpin => PopSpin
          end
      end
  end.

End pop.

Definition add_all_used (l : list (u16 * u32)) (q : vqueue) : vqueue :=
  foldl (λ q '(h, n), vq_add_used h n q) q l.
(** The chains so far, and the current one, with length 0. *)
Definition return_chains_on_error (chains : list (u16 * u32)) (current : option u16) (q : vqueue)
    : vqueue :=
  add_all_used (((λ c, (c.1, 0%N)) <$> chains) ++ option_list ((λ h, (h, 0%N)) <$> current)) q.

(** * The state of a guest's RX side *)

Record VhostRx := MkVhostRx { vr_mem : gmem; vr_queue : vqueue; vr_signals : nat }.

#[export] Instance VhostRx_eta : Eta VhostRx := λ v, MkVhostRx (vr_mem v) (vr_queue v) (vr_signals v).

Inductive RxRes := RxRet (result : Z) | RxPanic | RxSpin.

Definition ENOSPC : Z := 28.
Definition EIO : Z := 5.
(** [usize as i32]. *)
Definition as_i32 (n : nat) : Z :=
  let v := wrap 32 (N.of_nat n) in
  if (v <? 2 ^ 31)%N then Z.of_N v else (Z.of_N v - 2 ^ 32)%Z.

Definition patch_num_buffers (hdr_addr : u64) (num_buffers : u16) (m : gmem) : option gmem :=
  a ← checked_add hdr_addr 10; Some (gm_write (le16 num_buffers) a m).2.

(** * [copy_to_vhost_rx] *)

(** One descriptor of the copy between guests; the position is the index and the
    offset in the iovecs. A round that copies nothing changes nothing. *)
Fixpoint vhost_fill (fuel : nat) (iovecs : list iovec) (total : nat) (d : Desc) (desc_offset : nat)
    (s : RxState (nat * nat)) : Fill (RxState (nat * nat)) :=
  match fuel with
  | O => FillSpin
  | S fuel =>
      let available := N.to_nat (de_len d) in
      if (desc_offset <? available) && (rx_written s <? total) then
        let '(idx, offset) := rx_pos s in
        match iovecs !! idx with
        | None => FillOk s
        | Some iov =>
            let to_copy := (length iov - offset) `min` (available - desc_offset) in
            if 0 <? to_copy then
              match checked_add (de_addr d) desc_offset with
              | None => FillPanic
              | Some dst =>
                  let '(ok, m) := gm_write (take to_copy (drop offset iov)) dst (rx_mem s) in
                  if negb ok then FillErr m else
                  let offset := offset + to_copy in
                  vhost_fill fuel iovecs total d (desc_offset + to_copy)
                    (MkRxState m (rx_written s + to_copy)
                       (if length iov <=? offset then (S idx, 0) else (idx, offset)))
              end
            else vhost_fill fuel iovecs total d desc_offset s
        end
      else FillOk s
  end.

(** [copy_iovecs_to_guest], as a sink for the walk over the iovecs. *)
Definition guest_sink (bs : list u8) (s : gmem * u64) : result gmem (gmem * u64) :=
  let '(ok, m) := gm_write bs s.2 s.1 in
  if negb ok then Err m else
  match checked_add s.2 (length bs) with Some a => Ok (m, a) | None => Err m end.

Record TunPos := MkTunPos { tp_phase : nat; tp_phase_offset : nat; tp_idx : nat; tp_offset : nat }.

Section tun_fill.
Context (iovecs : list iovec) (virtio_hdr eth_hdr : list u8) (total_src : nat).

Definition phase_len (phase : nat) : nat :=
  match phase with
  | 0 => VIRTIO_NET_HDR_SIZE
  | 1 => ETHERNET_HDR_SIZE
  | 2 => total_src - VIRTIO_NET_HDR_SIZE
  | _ => 0
  end.

(** The bytes of one round, from the patched header, the Ethernet header or the
    source; the new position in the source. *)
Definition tun_copy (p : TunPos) (to_copy : nat) (dst : option u64) (m : gmem)
    : Fill (gmem * nat * nat) :=
  if negb (0 <? to_copy) then FillOk (m, tp_idx p, tp_offset p) else
  match dst with
  | None => FillPanic
  | Some dst =>
      match tp_phase p with
      | 0 | 1 =>
          let buf := if tp_phase p =? 0 then virtio_hdr else eth_hdr in
          let '(ok, m) := gm_write (take to_copy (drop (tp_phase_offset p) buf)) dst m in
          if ok then FillOk (m, tp_idx p, tp_offset p) else FillErr m
      | _ =>
          match iov_walk guest_sink (S (length iovecs)) iovecs (tp_idx p) (tp_offset p) to_copy (m, dst) with
          | None => FillSpin
          | Some (Err m, _, _) => FillErr m
          | Some (Ok (m, _, missing), idx, offset) =>
              if missing =? 0 then FillOk (m, idx, offset) else FillErr m
          end
      end
  end.

Fixpoint tun_fill (fuel : nat) (total : nat) (d : Desc) (desc_offset : nat) (s : RxState TunPos)
    : Fill (RxState TunPos) :=
  match fuel with
  | O => FillSpin
  | S fuel =>
      let available := N.to_nat (de_len d) in
      let p := rx_pos s in
      if (desc_offset <? available) && (rx_written s <? total) && (tp_phase p <? 3) then
        let to_copy := (phase_len (tp_phase p) - tp_phase_offset p) `min` (available - desc_offset) in
        match tun_copy p to_copy (checked_add (de_addr d) desc_offset) (rx_mem s) with
        | FillOk (m, idx, offset) =>
            let phase_offset := tp_phase_offset p + to_copy in
            let p := if phase_len (tp_phase p) <=? phase_offset
                     then MkTunPos (S (tp_phase p)) 0 idx offset
                     else MkTunPos (tp_phase p) phase_offset idx offset in
            tun_fill fuel total d (desc_offset + to_copy) (MkRxState m (rx_written s + to_copy) p)
        | FillErr m => FillErr m
        | FillPanic => FillPanic
        | FillSpin => FillSpin
        end
      else FillOk s
  end.

End tun_fill.

(** The header of the packet, read into a zeroed buffer. *)
Definition read_virtio_hdr (iovecs : list iovec) : list u8 :=
  match iov_walk (E := unit) (λ bs buf, Ok (buf ++ bs)) (S (length iovecs)) iovecs 0 0
          VIRTIO_NET_HDR_SIZE [] with
  | Some (Ok (buf, missing), _, _) => buf ++ replicate missing 0%N
  | _ => replicate VIRTIO_NET_HDR_SIZE 0%N
  end.
Definition skip_in_iovecs (iovecs : list iovec) (len : nat) : nat * nat :=
  match iov_walk (E := unit) (λ _ _, Ok tt) (S (length iovecs)) iovecs 0 0 len tt with
  | Some (_, idx, offset) => (idx, offset)
  | None => (0, 0)
  end.

Definition eth_header (dst_mac src_mac : list u8) (ethertype : u16) : list u8 :=
  dst_mac ++ src_mac ++ be16 ethertype.

(** The MAC addresses of a packet between guests, written behind the virtio header. *)
Definition patch_macs (macs : option (list u8 * list u8)) (first : option u64) (m : gmem)
    : option gmem :=
  match macs, first with
  | Some (dst_mac, src_mac), Some hdr_addr =>
      eth_addr ← checked_add hdr_addr VIRTIO_NET_HDR_SIZE;
      let m := (gm_write dst_mac eth_addr m).2 in
      Some match checked_add eth_addr 6 with
           | Some src_addr => (gm_write src_mac src_addr m).2
           | None => m
           end
  | _, _ => Some m
  end.

(** The end of the routine: the chains are returned, or an error is. *)
Definition finish_rx {P} (macs : option (list u8 * list u8)) (r : Popped P) (signals : nat)
    (v : VhostRx) : RxRes * VhostRx :=
  match r with
  | PopDone chains first s q =>
      let patched :=
        m ← patch_macs macs first (rx_mem s);
        match first with
        | Some hdr_addr => patch_num_buffers hdr_addr (wrap 16 (N.of_nat (length chains))) m
        | None => Some m
        end in
      match patched with
      | Some m => (RxRet (as_i32 (rx_written s)), MkVhostRx m (add_all_used chains q) signals)
      | None => (RxPanic, v)
      end
  | PopShort [] m q => (RxRet (- ENOSPC), MkVhostRx m q signals)
  | PopShort chains m q =>
      (RxRet (- ENOSPC), MkVhostRx m (return_chains_on_error chains None q) (S signals))
  | PopErr chains head m q =>
      (RxRet (- EIO), MkVhostRx m (return_chains_on_error chains (Some head) q) (S signals))
  | PopPanic => (RxPanic, v)
  | PopSpin => (RxSpin, v)
  end.

Definition copy_to_vhost_rx (fuel : nat) (p : PacketRef) (v : VhostRx) : RxRes * VhostRx :=
  let total_src := length (pkt (pk_iovecs p)) in
  let chains_fuel := S (length (vq_avail (vr_queue v))) in
  match pk_source p with
  | SrcTunRx _ _ _ dst_mac ethertype =>
      let virtio_hdr := patch_virtio_hdr_for_eth_injection (read_virtio_hdr (pk_iovecs p)) in
      let total := total_src + ETHERNET_HDR_SIZE in
      let '(idx, offset) := skip_in_iovecs (pk_iovecs p) VIRTIO_NET_HDR_SIZE in
      finish_rx None
        (fill_chains
           (λ d, tun_fill (pk_iovecs p) virtio_hdr (eth_header dst_mac GATEWAY_MAC ethertype) total_src
              fuel total d 0)
           total chains_fuel (vr_queue v) [] None (MkRxState (vr_mem v) 0 (MkTunPos 0 0 idx offset)))
        (vr_signals v) v
  | src =>
      let macs := match src with
        | SrcVhostToVhost _ _ _ dst_mac src_mac => Some (dst_mac, src_mac) | _ => None end in
      finish_rx macs
        (fill_chains (λ d, vhost_fill fuel (pk_iovecs p) total_src d 0) total_src chains_fuel
           (vr_queue v) [] None (MkRxState (vr_mem v) 0 (0, 0)))
        (vr_signals v) v
  end.

(** * [inject_to_vhost_rx] *)

Definition inject_fill (packet : list u8) (d : Desc) (s : RxState unit) : Fill (RxState unit) :=
  let to_write := N.to_nat (de_len d) `min` (length packet - rx_written s) in
  if 0 <? to_write then
    let '(ok, m) := gm_write (take to_write (drop (rx_written s) packet)) (de_addr d) (rx_mem s) in
    if ok then FillOk (MkRxState m (rx_written s + to_write) tt) else FillErr m
  else FillOk s.

(** The guest is signalled also after success. *)
Definition inject_to_vhost_rx (packet : list u8) (v : VhostRx) : RxRes * VhostRx :=
  let r := fill_chains (inject_fill packet) (length packet) (S (length (vq_avail (vr_queue v))))
    (vr_queue v) [] None (MkRxState (vr_mem v) 0 tt) in
  match finish_rx None r (vr_signals v) v, r with
  | (RxRet _, v), PopDone _ _ _ _ => (RxRet 0, v <| vr_signals := S (vr_signals v) |>)
  | (RxRet _, v), _ => (RxRet 0, v)
  | x, _ => x
  end.

End rx.

(** * Models *)

Module RxModels.

Fixpoint write_at (bs : list u8) (a : u64) (m : gmap N u8) : gmap N u8 :=
  match bs with [] => m | b :: bs => write_at bs (a + 1) (<[a := b]> m) end.
Fixpoint mapped_at (n : nat) (a : u64) (m : gmap N u8) : bool :=
  match n with O => true | S n => is_some (m !! a) && mapped_at n (a + 1) m end.

Lemma mapped_at_iff n a m :
  mapped_at n a m = true ↔ ∀ i, i < n → is_Some (m !! (a + N.of_nat i)%N).
Proof.
  revert a. induction n as [|n IH]; intros a; cbn [mapped_at]; [split; [lia|done]|].
  rewrite andb_true_iff, IH. split.
  - intros [Ha Hn] [|i] Hi.
    + rewrite N.add_0_r. by destruct (m !! a).
    + replace (a + N.of_nat (S i))%N with (a + 1 + N.of_nat i)%N by lia. apply Hn. lia.
  - intros H. split.
    + destruct (H 0) as [b Hb]; [lia|]. rewrite N.add_0_r in Hb. by rewrite Hb.
    + intros i Hi. replace (a + 1 + N.of_nat i)%N with (a + N.of_nat (S i))%N by lia. apply H. lia.
Qed.

Lemma write_at_lookup bs a m x : write_at bs a m !! x = scatter a bs (λ x, m !! x) x.
Proof.
  revert a m. induction bs as [|b bs IH]; intros a m; cbn [write_at].
  { unfold scatter. by destruct (a <=? x)%N. }
  rewrite IH. unfold scatter. destruct (N.leb_spec (a + 1) x) as [H|H].
  - rewrite (proj2 (N.leb_le a x)) by lia.
    replace (N.to_nat (x - a)) with (S (N.to_nat (x - (a + 1)))) by lia. cbn.
    destruct (bs !! _); [done|]. by rewrite lookup_insert_ne by lia.
  - destruct (N.leb_spec a x) as [H'|H'].
    + assert (x = a) as -> by lia. rewrite N.sub_diag. cbn. by rewrite lookup_insert_eq.
    + by rewrite lookup_insert_ne by lia.
Qed.

#[export] Instance memory_model : GuestMemory.
Proof.
  refine {| gmem := gmap N u8; gm_read := λ m a, m !! a;
    gm_write := λ bs a m, if mapped_at (length bs) a m then (true, write_at bs a m) else (false, m) |}.
  - intros bs a m. rewrite <- mapped_at_iff. by destruct (mapped_at _ _ _).
  - intros bs a m x. destruct (mapped_at _ _ _); [|done]. intros _. apply write_at_lookup.
  - intros bs a m x Hx. destruct (mapped_at _ _ _); [|done]. cbn. rewrite write_at_lookup.
    unfold scatter. destruct (N.leb_spec a x); [|done]. by rewrite lookup_ge_None_2 by lia.
  - intros bs a m x. destruct (mapped_at (length bs) a m) eqn:E; [|done]. cbn. rewrite write_at_lookup.
    unfold scatter. destruct (N.leb_spec a x) as [H|H]; [|done].
    destruct (bs !! N.to_nat (x - a)) as [b|] eqn:Eb; [|done]. split; [intros _|eauto].
    replace x with (a + N.of_nat (N.to_nat (x - a)))%N by lia.
    apply (proj1 (mapped_at_iff _ _ _) E). by apply lookup_lt_Some in Eb.
Defined.

Record ListQueue := MkListQueue { lq_avail : list Chain; lq_used : list (u16 * u32) }.
#[export] Instance queue_model : VirtQueue.
Proof.
  refine {| vqueue := ListQueue; vq_avail := lq_avail; vq_used := lq_used;
    vq_pop := λ q, match lq_avail q with
                   | [] => None | c :: cs => Some (c, MkListQueue cs (lq_used q)) end;
    vq_add_used := λ h n q, MkListQueue (lq_avail q) (lq_used q ++ [(h, n)]);
    vq_offer := λ c q, MkListQueue (lq_avail q ++ [c]) (lq_used q) |}; try done.
  - by intros q ->.
  - intros q c cs ->. by eexists.
Defined.

End RxModels.
