(* ===== verification/NetRxFacts.v ===== *)
(** What a guest finds in the buffers of its RX queue: the frames of other guests
    and of the TUN device, whole and in order, in chains that are all returned; and
    the chains for which this fails. *)

From S2P Require Import Prelude Packet NetIovec NetRx.

(** * Writes *)

Lemma scatter_nil a img x : scatter a [] img x = img x.
Proof. unfold scatter. by destruct (a <=? x)%N. Qed.

Lemma scatter_ext a bs img img' x : img x = img' x → scatter a bs img x = scatter a bs img' x.
Proof. unfold scatter. intros ->. done. Qed.

Lemma scatter_app a b1 b2 img x :
  scatter a (b1 ++ b2) img x = scatter (a + N.of_nat (length b1)) b2 (scatter a b1 img) x.
Proof.
  unfold scatter. destruct (N.leb_spec a x) as [H|H].
  - destruct (N.leb_spec (a + N.of_nat (length b1)) x) as [H'|H'].
    + rewrite lookup_app_r by lia. replace (N.to_nat (x - a) - length b1)
        with (N.to_nat (x - (a + N.of_nat (length b1)))) by lia.
      destruct (b2 !! _); [done|]. by rewrite lookup_ge_None_2 by lia.
    + by rewrite lookup_app_l by lia.
  - destruct (N.leb_spec (a + N.of_nat (length b1)) x); [lia|done].
Qed.

Lemma scatter_in a bs img i b : bs !! i = Some b → scatter a bs img (a + N.of_nat i) = Some b.
Proof.
  intros H. unfold scatter. rewrite (proj2 (N.leb_le _ _)) by lia.
  replace (N.to_nat (a + N.of_nat i - a)) with i by lia. by rewrite H.
Qed.
Lemma scatter_out a bs img x :
  (x < a)%N ∨ (a + N.of_nat (length bs) ≤ x)%N → scatter a bs img x = img x.
Proof.
  intros H. unfold scatter. destruct (N.leb_spec a x); [|done].
  by rewrite lookup_ge_None_2 by lia.
Qed.

Section facts.
Context {memory : GuestMemory} {queues : VirtQueue}.

Definition mapped (m : gmem) (a : u64) (n : nat) : Prop :=
  ∀ i, i < n → is_Some (gm_read m (a + N.of_nat i)).

Lemma mapped_write bs a m a' n : mapped (gm_write bs a m).2 a' n ↔ mapped m a' n.
Proof. unfold mapped. setoid_rewrite gm_write_mapped. done. Qed.

Lemma mapped_app m a n k : mapped m a (n + k) → mapped m a n ∧ mapped m (a + N.of_nat n) k.
Proof.
  intros H. split; intros i Hi; [apply H; lia|]. replace (a + N.of_nat n + N.of_nat i)%N
    with (a + N.of_nat (n + i))%N by lia. apply H. lia.
Qed.

Lemma gm_write_spec bs a m : mapped m a (length bs) →
  ∃ m', gm_write bs a m = (true, m') ∧
    (∀ x, gm_read m' x = scatter a bs (gm_read m) x) ∧ (∀ a n, mapped m' a n ↔ mapped m a n).
Proof.
  intros H%gm_write_iff. destruct (gm_write bs a m) as [ok m'] eqn:E. cbn in H. subst ok.
  exists m'. split_and!; [done| |].
  - intros x. pose proof (gm_write_bytes bs a m x) as Hb. rewrite E in Hb. by apply Hb.
  - intros a' n. pose proof (mapped_write bs a m a' n) as Hm. by rewrite E in Hm.
Qed.

Lemma checked_add_some a n : (a + N.of_nat n < 2 ^ 64)%N → checked_add a n = Some (a + N.of_nat n)%N.
Proof. intros H. unfold checked_add. by rewrite (proj2 (N.ltb_lt _ _) H). Qed.

(** * Filling one descriptor

    [fills good fill frame at_]: given a position for the bytes written so far,
    [fill] writes the bytes that follow, as many as the (good) descriptor holds. *)

Definition chunk (d : Desc) (o w : nat) (frame : list u8) : list u8 :=
  take (N.to_nat (de_len d) - o) (drop w frame).

Definition fill_post {P} (frame : list u8) (at_ : nat → P → Prop) (d : Desc) (o : nat)
    (s : RxState P) (r : Fill (RxState P)) : Prop :=
  ∃ s', r = FillOk s' ∧ rx_written s' = rx_written s + length (chunk d o (rx_written s) frame) ∧
    at_ (rx_written s') (rx_pos s') ∧
    (∀ x, gm_read (rx_mem s') x =
       scatter (de_addr d + N.of_nat o) (chunk d o (rx_written s) frame) (gm_read (rx_mem s)) x) ∧
    (∀ a n, mapped (rx_mem s') a n ↔ mapped (rx_mem s) a n).

Definition desc_ok (d : Desc) : Prop := (de_addr d + de_len d < 2 ^ 64)%N.

Definition fills {P} (good : Desc → Prop) (fill : Desc → RxState P → Fill (RxState P))
    (frame : list u8) (at_ : nat → P → Prop) : Prop :=
  ∀ d s, good d → rx_written s ≤ length frame → at_ (rx_written s) (rx_pos s) →
    mapped (rx_mem s) (de_addr d) (length (chunk d 0 (rx_written s) frame)) →
    fill_post frame at_ d 0 s (fill d s).

(** A descriptor that is full, or a frame that is written. *)
Lemma fill_post_done {P} frame at_ d o (s : RxState P) :
  at_ (rx_written s) (rx_pos s) → N.to_nat (de_len d) ≤ o ∨ length frame ≤ rx_written s →
  fill_post frame at_ d o s (FillOk s).
Proof.
  intros Ha H. exists s. assert (chunk d o (rx_written s) frame = []) as ->.
  { unfold chunk. destruct H as [H|H].
    - by replace (N.to_nat (de_len d) - o) with 0 by lia.
    - by rewrite drop_ge, take_nil by lia. }
  cbn. split_and!; [done|lia|done| |done]. intros x. by rewrite scatter_nil.
Qed.

(** Some of the bytes now, the others by the next round. *)
Lemma fill_post_step {P} frame at_ d o (s s1 : RxState P) bs k r :
  length bs = k → k ≤ N.to_nat (de_len d) - o →
  rx_written s1 = rx_written s + k → bs = take k (drop (rx_written s) frame) →
  (∀ x, gm_read (rx_mem s1) x = scatter (de_addr d + N.of_nat o) bs (gm_read (rx_mem s)) x) →
  (∀ a n, mapped (rx_mem s1) a n ↔ mapped (rx_mem s) a n) →
  fill_post frame at_ d (o + k) s1 r → fill_post frame at_ d o s r.
Proof.
  intros Hl Hk Hw Hbs Hm Hmap (s' & -> & Hw' & Ha & Hm' & Hmap').
  assert (Hc : chunk d o (rx_written s) frame = bs ++ chunk d (o + k) (rx_written s1) frame).
  { unfold chunk. rewrite Hw, <- drop_drop, Hbs.
    replace (N.to_nat (de_len d) - o) with (k + (N.to_nat (de_len d) - (o + k))) by lia.
    by rewrite take_take_drop. }
  exists s'. split_and!; [done| |done| |].
  - rewrite Hw', Hc, length_app, Hw. lia.
  - intros x. rewrite Hm', Hc, scatter_app, Hl.
    replace (de_addr d + N.of_nat o + N.of_nat k)%N with (de_addr d + N.of_nat (o + k))%N by lia.
    apply scatter_ext, Hm.
  - intros a n. by rewrite Hmap', Hmap.
Qed.

(** The bytes still to be written have mapped addresses. *)
Lemma chunk_mapped {P} frame d o (s s1 : RxState P) k :
  k ≤ N.to_nat (de_len d) - o → rx_written s + k ≤ length frame → rx_written s1 = rx_written s + k →
  (∀ a n, mapped (rx_mem s1) a n ↔ mapped (rx_mem s) a n) →
  mapped (rx_mem s) (de_addr d + N.of_nat o) (length (chunk d o (rx_written s) frame)) →
  mapped (rx_mem s) (de_addr d + N.of_nat o) k ∧
  mapped (rx_mem s1) (de_addr d + N.of_nat (o + k)) (length (chunk d (o + k) (rx_written s1) frame)).
Proof.
  intros Hk Hf Hw Hmap H. unfold chunk in *. rewrite length_take, length_drop in *.
  rewrite Hmap, Hw. replace (de_addr d + N.of_nat (o + k))%N
    with (de_addr d + N.of_nat o + N.of_nat k)%N by lia. apply mapped_app.
  intros i Hi. apply H. lia.
Qed.

Lemma inject_fill_fills packet : fills (λ _, True) (inject_fill packet) packet (λ _ _, True).
Proof.
  intros d s Hd Hw _ Hm. unfold inject_fill. cbv zeta.
  set (n := N.to_nat (de_len d) `min` (length packet - rx_written s)).
  assert (Hc : chunk d 0 (rx_written s) packet = take n (drop (rx_written s) packet)).
  { unfold chunk. rewrite Nat.sub_0_r.
    destruct (Nat.le_ge_cases (N.to_nat (de_len d)) (length packet - rx_written s)).
    - f_equal. lia.
    - rewrite !take_ge; [done|rewrite length_drop; lia..]. }
  destruct (Nat.ltb_spec 0 n) as [H|H].
  - rewrite Hc in Hm. destruct (gm_write_spec _ _ _ Hm) as (m' & -> & Hb & Hmap).
    exists (MkRxState m' (rx_written s + n) tt). rewrite Hc. cbn.
    rewrite length_take, length_drop. split_and!; [done|lia|done| |done].
    intros x. by rewrite N.add_0_r, Hb.
  - apply fill_post_done; [done|]. lia.
Qed.

Section vhost.
Context (iovecs : list iovec).

Definition vhost_at (w : nat) (p : nat * nat) : Prop :=
  rest_from iovecs p.1 p.2 = drop w (pkt iovecs) ∧
  (∀ iov, iovecs !! p.1 = Some iov → p.2 < length iov).

Lemma vhost_at_next w idx offset iov k : Forall (λ iov, iov ≠ []) iovecs →
  vhost_at w (idx, offset) → iovecs !! idx = Some iov → k ≤ length iov - offset →
  take k (drop offset iov) = take k (drop w (pkt iovecs)) ∧
  vhost_at (w + k) (if length iov <=? offset + k then (S idx, 0) else (idx, offset + k)).
Proof.
  intros Hne [Hr Hp] Hi Hk. cbn [fst snd] in Hr, Hp. specialize (Hp iov Hi).
  rewrite (rest_from_some _ _ _ iov Hi) in Hr by lia. split.
  { rewrite <- Hr, take_app_le by (rewrite length_drop; lia). done. }
  unfold vhost_at. rewrite <- drop_drop, <- Hr, drop_app_le by (rewrite length_drop; lia).
  rewrite drop_drop. destruct (Nat.leb_spec (length iov) (offset + k)) as [H|H]; cbn [fst snd].
  - rewrite (drop_ge iov) by lia. split; [done|]. intros iov' Hi'.
    pose proof (proj1 (list.Forall_forall _ _) Hne iov' (list_elem_of_lookup_2 _ _ _ Hi')) as Hn.
    destruct iov'; cbn; [done|lia].
  - split; [|by intros ? ?; simplify_eq]. apply rest_from_some; [done|lia].
Qed.

Lemma vhost_fill_spec fuel d o s : Forall (λ iov, iov ≠ []) iovecs →
  N.to_nat (de_len d) - o < fuel → o ≤ N.to_nat (de_len d) → desc_ok d →
  rx_written s ≤ length (pkt iovecs) → vhost_at (rx_written s) (rx_pos s) →
  mapped (rx_mem s) (de_addr d + N.of_nat o) (length (chunk d o (rx_written s) (pkt iovecs))) →
  fill_post (pkt iovecs) vhost_at d o s (vhost_fill fuel iovecs (length (pkt iovecs)) d o s).
Proof.
  intros Hne. revert o s. induction fuel as [|fuel IH]; intros o s Hf Ho Hd Hw Ha Hm; [lia|].
  cbn [vhost_fill]. cbv zeta.
  destruct (Nat.ltb_spec o (N.to_nat (de_len d))) as [H1|H1]; cbn [andb];
    [|by apply fill_post_done; [|left]].
  destruct (Nat.ltb_spec (rx_written s) (length (pkt iovecs))) as [H2|H2];
    [|by apply fill_post_done; [|right]].
  destruct (rx_pos s) as [idx offset] eqn:Hpos.
  destruct (iovecs !! idx) as [iov|] eqn:Hi; cycle 1.
  { destruct Ha as [Hr _]. cbn [fst snd] in Hr. rewrite rest_from_none in Hr by done.
    apply (f_equal length) in Hr. rewrite length_drop in Hr. cbn in Hr. lia. }
  pose proof (proj2 Ha iov Hi) as Hoff. cbn in Hoff.
  set (k := (length iov - offset) `min` (N.to_nat (de_len d) - o)).
  rewrite (proj2 (Nat.ltb_lt 0 k)) by lia.
  destruct (vhost_at_next _ _ _ iov k Hne Ha Hi ltac:(lia)) as [Hbs Ha'].
  assert (Hlen : length (take k (drop offset iov)) = k) by (rewrite length_take, length_drop; lia).
  assert (Hwk : rx_written s + k ≤ length (pkt iovecs)).
  { rewrite Hbs, length_take, length_drop in Hlen. lia. }
  rewrite checked_add_some by (unfold desc_ok in Hd; lia).
  destruct (chunk_mapped (pkt iovecs) d o s (MkRxState (rx_mem s) (rx_written s + k) (0, 0)) k) as [Hm1 _];
    [lia|done..|].
  rewrite <- Hlen in Hm1. destruct (gm_write_spec _ _ _ Hm1) as (m' & -> & Hb & Hmap). cbn [negb].
  set (s1 := MkRxState m' (rx_written s + k) _).
  apply (fill_post_step _ _ _ _ s s1 _ k _ Hlen); [lia|done|done|done|done|].
  apply IH; [lia|lia|done|done|done|].
  by apply (chunk_mapped (pkt iovecs) d o s s1 k); [lia|..].
Qed.

Lemma vhost_fill_fills fuel : Forall (λ iov, iov ≠ []) iovecs →
  fills (λ d, desc_ok d ∧ N.to_nat (de_len d) < fuel)
    (λ d, vhost_fill fuel iovecs (length (pkt iovecs)) d 0) (pkt iovecs) vhost_at.
Proof.
  intros Hne d s [Hd Hf] Hw Ha Hm. apply vhost_fill_spec; rewrite ?N.add_0_r; done || lia.
Qed.

End vhost.

Lemma guest_sink_all slices m dst :
  (dst + N.of_nat (length (pkt slices)) < 2 ^ 64)%N → mapped m dst (length (pkt slices)) →
  ∃ m', sink_all guest_sink slices (m, dst) = Ok (m', (dst + N.of_nat (length (pkt slices)))%N) ∧
    (∀ x, gm_read m' x = scatter dst (pkt slices) (gm_read m) x) ∧
    (∀ a n, mapped m' a n ↔ mapped m a n).
Proof.
  revert m dst. induction slices as [|bs slices IH]; intros m dst Hd Hm; cbn [sink_all concat].
  { exists m. cbn. rewrite N.add_0_r. split_and!; [done| |done]. intros x. by rewrite scatter_nil. }
  cbn [concat] in Hd, Hm. rewrite length_app in *. apply mapped_app in Hm as [Hm1 Hm2].
  unfold guest_sink at 1. cbn [fst snd].
  destruct (gm_write_spec _ _ _ Hm1) as (m1 & -> & Hb & Hmap). cbn [negb].
  rewrite checked_add_some by lia.
  destruct (IH m1 (dst + N.of_nat (length bs))%N) as (m' & -> & Hb' & Hmap'); [lia|by apply Hmap|].
  exists m'. split_and!; [do 2 f_equal; lia| |].
  - intros x. rewrite Hb', scatter_app. by apply scatter_ext.
  - intros a n. by rewrite Hmap', Hmap.
Qed.

Section tun.
Context (iovecs : list iovec) (hdr eth : list u8).
Hypothesis hdr_len : length hdr = VIRTIO_NET_HDR_SIZE.
Hypothesis eth_len : length eth = ETHERNET_HDR_SIZE.
Hypothesis src_len : VIRTIO_NET_HDR_SIZE ≤ length (pkt iovecs).

Let payload := drop VIRTIO_NET_HDR_SIZE (pkt iovecs).
Let frame := hdr ++ eth ++ payload.
Let plen := phase_len (length (pkt iovecs)).

(** Where the phase starts, and its bytes. *)
Definition phase_start (phase : nat) : nat :=
  match phase with 0 => 0 | 1 => VIRTIO_NET_HDR_SIZE | _ => SKIP_END end.
Definition phase_bytes (phase : nat) : list u8 :=
  match phase with 0 => hdr | 1 => eth | 2 => payload | _ => [] end.

(** The position in the source only moves in the last phase. *)
Definition source_at (p : TunPos) : Prop :=
  pos_in iovecs (tp_idx p) (tp_offset p) ∧
  rest_from iovecs (tp_idx p) (tp_offset p) =
    drop (if tp_phase p =? 2 then tp_phase_offset p else 0) payload.

Definition tun_at (w : nat) (p : TunPos) : Prop :=
  length frame ≤ w ∨
  w = phase_start (tp_phase p) + tp_phase_offset p ∧ tp_phase p < 3 ∧
  tp_phase_offset p < plen (tp_phase p) ∧ source_at p.

Lemma frame_length : length frame = length (pkt iovecs) + ETHERNET_HDR_SIZE.
Proof. unfold frame, payload. rewrite !length_app, length_drop, hdr_len, eth_len. lia. Qed.

Lemma phase_bytes_length phase : length (phase_bytes phase) = plen phase.
Proof.
  destruct phase as [|[|[|phase]]]; [done|done| |done]. unfold phase_bytes, payload.
  by rewrite length_drop.
Qed.

Lemma frame_phase phase : phase < 3 →
  take (plen phase) (drop (phase_start phase) frame) = phase_bytes phase.
Proof.
  intros H. rewrite <- phase_bytes_length. unfold frame.
  destruct phase as [|[|[|]]]; [| | |lia]; cbn [phase_start phase_bytes].
  - by rewrite drop_0, take_app_length.
  - rewrite <- hdr_len, drop_app_length. by rewrite take_app_length.
  - unfold SKIP_END. rewrite <- hdr_len, <- eth_len, <- length_app, app_assoc, drop_app_length.
    by rewrite firstn_all.
Qed.

(** The bytes of a round are bytes of its phase. *)
Lemma round_bytes phase o k : phase < 3 → o + k ≤ plen phase →
  take k (drop (phase_start phase + o) frame) = take k (drop o (phase_bytes phase)).
Proof.
  intros Hp Hk. rewrite <- (frame_phase phase Hp), <- drop_drop, skipn_firstn_comm, take_take.
  f_equal. lia.
Qed.

Lemma tun_copy_spec p k dst m : 0 < k → tp_phase p < 3 →
  tp_phase_offset p + k ≤ plen (tp_phase p) → source_at p →
  (dst + N.of_nat k < 2 ^ 64)%N → mapped m dst k →
  ∃ m' idx offset, tun_copy iovecs hdr eth p k (Some dst) m = FillOk (m', idx, offset) ∧
    (∀ x, gm_read m' x =
       scatter dst (take k (drop (tp_phase_offset p) (phase_bytes (tp_phase p)))) (gm_read m) x) ∧
    (∀ a n, mapped m' a n ↔ mapped m a n) ∧
    pos_in iovecs idx offset ∧
    rest_from iovecs idx offset =
      drop (if tp_phase p =? 2 then tp_phase_offset p + k else 0) payload.
Proof.
  intros Hk Hp Ho [Hs1 Hs2] Hd Hm. unfold tun_copy.
  rewrite (proj2 (Nat.ltb_lt 0 k) Hk). cbn [negb].
  assert (Hlen : length (take k (drop (tp_phase_offset p) (phase_bytes (tp_phase p)))) = k)
    by (rewrite length_take, length_drop, phase_bytes_length; lia).
  destruct (tp_phase p) as [|[|[|]]]; [| | |lia]; cbn [Nat.eqb phase_bytes] in *.
  - rewrite <- Hlen in Hm. destruct (gm_write_spec _ _ _ Hm) as (m' & -> & ? & ?).
    by eexists _, _, _.
  - rewrite <- Hlen in Hm. destruct (gm_write_spec _ _ _ Hm) as (m' & -> & ? & ?).
    by eexists _, _, _.
  - destruct (iov_walk_spec guest_sink (S (length iovecs)) iovecs (tp_idx p) (tp_offset p) k (m, dst))
      as (sl & Hsl & _ & Hres); [done|lia|]. rewrite Hs2 in Hsl, Hres. rewrite <- Hsl in Hlen |- *.
    rewrite <- Hlen in Hd, Hm. destruct (guest_sink_all sl m dst Hd Hm) as (m' & E & Hb & Hmap).
    rewrite E in Hres. destruct Hres as (idx & offset & -> & Hin & Hrest).
    rewrite Hlen, Nat.sub_diag. cbn [Nat.eqb]. eexists _, _, _. split_and!; [done|done|done|done|].
    by rewrite Hrest, drop_drop.
Qed.

(** After a round: the next byte of the phase, the first of the next one, or the end. *)
Lemma tun_at_next p k idx offset : tp_phase p < 3 → tp_phase_offset p + k ≤ plen (tp_phase p) →
  pos_in iovecs idx offset →
  rest_from iovecs idx offset =
    drop (if tp_phase p =? 2 then tp_phase_offset p + k else 0) payload →
  tun_at (phase_start (tp_phase p) + tp_phase_offset p + k)
    (if plen (tp_phase p) <=? tp_phase_offset p + k then MkTunPos (S (tp_phase p)) 0 idx offset
     else MkTunPos (tp_phase p) (tp_phase_offset p + k) idx offset).
Proof.
  intros Hp Ho Hin Hrest. destruct (Nat.leb_spec (plen (tp_phase p)) (tp_phase_offset p + k)) as [H|H].
  - unfold tun_at, source_at. cbn [tp_phase tp_phase_offset tp_idx tp_offset].
    destruct (tp_phase p) as [|[|[|]]]; [| | |lia]; cbn [Nat.eqb] in *;
      change (plen 0) with 12 in *; change (plen 1) with 14 in *.
    + right. split_and!; [cbn; lia|lia|change (plen 1) with 14; lia|done|done].
    + destruct (Nat.eq_dec (length payload) 0) as [E|E].
      * left. unfold frame. rewrite !length_app, hdr_len, eth_len, E. cbn. lia.
      * right. pose proof (phase_bytes_length 2) as E2. cbn [phase_bytes] in E2.
        split_and!; [cbn; lia|lia|lia|done|done].
    + left. pose proof (phase_bytes_length 2) as E2. cbn [phase_bytes] in E2.
      unfold frame. rewrite !length_app, hdr_len, eth_len. cbn [phase_start]. unfold SKIP_END.
      rewrite E2. lia.
  - right. split_and!; cbn [tp_phase tp_phase_offset]; [lia|done|done|done].
Qed.

Lemma tun_fill_spec fuel d o s :
  N.to_nat (de_len d) - o < fuel → o ≤ N.to_nat (de_len d) → desc_ok d →
  rx_written s ≤ length frame → tun_at (rx_written s) (rx_pos s) →
  mapped (rx_mem s) (de_addr d + N.of_nat o) (length (chunk d o (rx_written s) frame)) →
  fill_post frame tun_at d o s
    (tun_fill iovecs hdr eth (length (pkt iovecs)) fuel (length frame) d o s).
Proof.
  revert o s. induction fuel as [|fuel IH]; intros o s Hf Ho Hd Hw Ha Hm; [lia|].
  cbn [tun_fill]. cbv zeta. fold plen.
  destruct (Nat.ltb_spec o (N.to_nat (de_len d))) as [H1|H1]; cbn [andb];
    [|by apply fill_post_done; [|left]].
  destruct (Nat.ltb_spec (rx_written s) (length frame)) as [H2|H2]; cbn [andb];
    [|by apply fill_post_done; [|right]].
  destruct Ha as [?|(Hws & Hp & Hpo & Hsrc)]; [lia|].
  rewrite (proj2 (Nat.ltb_lt _ _) Hp). set (p := rx_pos s) in *.
  set (k := (plen (tp_phase p) - tp_phase_offset p) `min` (N.to_nat (de_len d) - o)).
  assert (Hk : 0 < k ∧ tp_phase_offset p + k ≤ plen (tp_phase p) ∧ k ≤ N.to_nat (de_len d) - o) by lia.
  destruct Hk as (Hk & Hkp & Hkd). pose proof (round_bytes (tp_phase p) (tp_phase_offset p) k Hp Hkp) as Hbs.
  rewrite <- Hws in Hbs.
  assert (Hlen : length (take k (drop (tp_phase_offset p) (phase_bytes (tp_phase p)))) = k)
    by (rewrite length_take, length_drop, phase_bytes_length; lia).
  assert (Hwk : rx_written s + k ≤ length frame).
  { rewrite <- Hbs, length_take, length_drop in Hlen. lia. }
  rewrite checked_add_some by (unfold desc_ok in Hd; lia).
  destruct (chunk_mapped frame d o s (MkRxState (rx_mem s) (rx_written s + k) p) k) as [Hm1 _]; [done..|].
  destruct (tun_copy_spec p k (de_addr d + N.of_nat o) (rx_mem s)) as (m' & idx & offset & -> & Hb & Hmap & Hin & Hrest);
    [done|done|done|done|unfold desc_ok in Hd; lia|done|].
  set (s1 := MkRxState m' (rx_written s + k) _).
  apply (fill_post_step _ _ _ _ s s1 _ k _ Hlen); [done|done|done|done|done|].
  apply IH; [lia|lia|done|done| |by apply (chunk_mapped frame d o s s1 k)].
  unfold s1. cbn [rx_written rx_pos]. rewrite Hws. by apply tun_at_next.
Qed.

Lemma tun_fill_fills fuel :
  fills (λ d, desc_ok d ∧ N.to_nat (de_len d) < fuel)
    (λ d, tun_fill iovecs hdr eth (length (pkt iovecs)) fuel (length frame) d 0) frame tun_at.
Proof. intros d s [Hd Hf] Hw Ha Hm. apply tun_fill_spec; rewrite ?N.add_0_r; done || lia. Qed.

End tun.

(** * Filling chains

    The addresses of a chain's buffer, in the order in which they are filled. *)

Definition desc_addrs (d : Desc) : list u64 :=
  (λ i, de_addr d + N.of_nat i)%N <$> seq 0 (N.to_nat (de_len d)).
Definition writable (c : Chain) : list Desc := filter de_write_only (ch_descs c).
Definition descs_addrs (ds : list Desc) : list u64 := pkt (desc_addrs <$> ds).
Definition chain_addrs (c : Chain) : list u64 := descs_addrs (writable c).

Lemma desc_addrs_length d : length (desc_addrs d) = N.to_nat (de_len d).
Proof. unfold desc_addrs. by rewrite length_fmap, length_seq. Qed.
Lemma desc_addrs_lookup d i : i < N.to_nat (de_len d) →
  desc_addrs d !! i = Some (de_addr d + N.of_nat i)%N.
Proof. intros H. unfold desc_addrs. by rewrite list_lookup_fmap, lookup_seq_lt by done. Qed.

(** [stored A bs img img']: the bytes are at the first addresses of [A], and nothing
    else has changed. *)
Definition stored (A : list u64) (bs : list u8) (img img' : u64 → option u8) : Prop :=
  length bs ≤ length A ∧
  (∀ i a b, A !! i = Some a → bs !! i = Some b → img' a = Some b) ∧
  (∀ a, a ∉ take (length bs) A → img' a = img a).

Lemma stored_nil A img : stored A [] img img.
Proof. split_and!; [cbn; lia|by intros|done]. Qed.

Lemma stored_scatter d bs img img' : length bs ≤ N.to_nat (de_len d) →
  (∀ x, img' x = scatter (de_addr d) bs img x) → stored (desc_addrs d) bs img img'.
Proof.
  intros Hl Hx. split_and!; [by rewrite desc_addrs_length| |].
  - intros i a b Ha Hb. pose proof (lookup_lt_Some _ _ _ Hb).
    rewrite desc_addrs_lookup in Ha by lia. injection Ha as <-. rewrite Hx. by apply scatter_in.
  - intros a Ha. rewrite Hx. apply scatter_out.
    destruct (N.lt_ge_cases a (de_addr d)); [by left|].
    destruct (N.le_gt_cases (de_addr d + N.of_nat (length bs)) a) as [|Hlt]; [by right|].
    exfalso. apply Ha. apply list_elem_of_lookup. exists (N.to_nat (a - de_addr d)).
    rewrite lookup_take_lt, desc_addrs_lookup by lia. f_equal. lia.
Qed.

Lemma stored_prefix A B bs img img' : stored A bs img img' → stored (A ++ B) bs img img'.
Proof.
  intros (Hl & Hb & Hn). split_and!.
  - rewrite length_app. lia.
  - intros i a b Ha Hi. pose proof (lookup_lt_Some _ _ _ Hi). rewrite lookup_app_l in Ha by lia. eauto.
  - intros a. rewrite take_app_le by done. apply Hn.
Qed.

Lemma stored_app A B bs bs' img img1 img' : NoDup (A ++ B) → length bs = length A →
  stored A bs img img1 → stored B bs' img1 img' → stored (A ++ B) (bs ++ bs') img img'.
Proof.
  intros (_ & Hdis & _)%list.NoDup_app Hlen (_ & Hb1 & Hn1) (Hl2 & Hb2 & Hn2). split_and!.
  - rewrite !length_app. lia.
  - intros i a b Ha Hi. destruct (Nat.lt_ge_cases i (length A)) as [H|H].
    + rewrite lookup_app_l in Ha, Hi by lia. rewrite Hn2; [by eapply Hb1|].
      intros Hin%subseteq_take. apply (Hdis a); [|done]. by eapply list_elem_of_lookup_2.
    + rewrite lookup_app_r in Ha, Hi by lia. rewrite Hlen in Hi. by eapply Hb2.
  - intros a. rewrite length_app, take_app_ge by lia. rewrite Hlen, Nat.add_comm, Nat.add_sub.
    intros Ha. rewrite Hn2, Hn1; [done|..]; intros Hin; apply Ha, elem_of_app; [left|by right].
    by apply subseteq_take in Hin.
Qed.

Definition avail_addrs (cs : list Chain) : list u64 := pkt (chain_addrs <$> cs).

(** The used entries for [n] bytes: whole buffers, and the rest in the last one. *)
Fixpoint entries (n : nat) (cs : list Chain) : list (u16 * u32) :=
  match cs with
  | [] => []
  | c :: cs =>
      if n =? 0 then []
      else (ch_head c, N.of_nat (n `min` length (chain_addrs c)))
           :: entries (n - length (chain_addrs c)) cs
  end.

Lemma entries_0 cs : entries 0 cs = [].
Proof. by destruct cs. Qed.

(** What the guest reads: of each chain returned, the bytes it is told. *)
Definition received (m : gmem) (used : list (u16 * u32)) (cs : list Chain) : list (option u8) :=
  gm_read m <$> pkt (zip_with (λ e c, take (N.to_nat e.2) (chain_addrs c)) used cs).

Lemma entries_addrs n cs :
  pkt (zip_with (λ e c, take (N.to_nat e.2) (chain_addrs c)) (entries n cs) cs) =
    take n (avail_addrs cs).
Proof.
  revert n. induction cs as [|c cs IH]; intros n; [symmetry; apply take_nil|]. cbn [entries].
  destruct (Nat.eqb_spec n 0) as [->|H]; [by rewrite take_0|].
  cbn [zip_with concat snd]. rewrite IH, Nat2N.id.
  change (avail_addrs (c :: cs)) with (chain_addrs c ++ avail_addrs cs). rewrite take_app. f_equal.
  destruct (Nat.le_ge_cases n (length (chain_addrs c))); [by rewrite Nat.min_l|].
  by rewrite Nat.min_r, !take_ge.
Qed.

(** ** One chain *)

Section pop_facts.
Context {P : Type} (good : Desc → Prop) (fill : Desc → RxState P → Fill (RxState P)).
Context (frame : list u8) (at_ : nat → P → Prop).
Hypothesis fill_ok : fills good fill frame at_.

(** The first [k] addresses are mapped. *)
Definition all_mapped (m : gmem) (k : nat) (A : list u64) : Prop :=
  ∀ i a, A !! i = Some a → i < k → is_Some (gm_read m a).

Lemma all_mapped_desc m d k B n : n ≤ k → n ≤ N.to_nat (de_len d) →
  all_mapped m k (desc_addrs d ++ B) → mapped m (de_addr d) n.
Proof.
  intros Hk Hn Hm i Hi. apply (Hm i); [|lia].
  rewrite lookup_app_l by (rewrite desc_addrs_length; lia). apply desc_addrs_lookup. lia.
Qed.

Lemma all_mapped_next m m' k A B : (∀ a n, mapped m' a n ↔ mapped m a n) →
  all_mapped m k (A ++ B) → all_mapped m' (k - length A) B.
Proof.
  intros Hm H i a Ha Hi. destruct (proj2 (Hm a 1)) with (i := 0) as [b Hb]; [|lia|].
  - intros j Hj. replace (a + N.of_nat j)%N with a by lia. apply (H (length A + i)); [|lia].
    rewrite lookup_app_r by lia. by replace (length A + i - length A) with i by lia.
  - rewrite N.add_0_r in Hb. eauto.
Qed.

Definition first_addr (first : option u64) (ds : list Desc) : option u64 :=
  match first with Some a => Some a | None => de_addr <$> head ds end.

(** Descriptors are filled in order, with the bytes that follow. *)
Lemma fill_chain_spec descs first s :
  let ds := filter de_write_only descs in
  let bs := take (length (descs_addrs ds)) (drop (rx_written s) frame) in
  Forall good ds → NoDup (descs_addrs ds) → rx_written s < length frame →
  at_ (rx_written s) (rx_pos s) → all_mapped (rx_mem s) (length bs) (descs_addrs ds) →
  ∃ s', fill_chain fill (length frame) descs first s = FillOk (first_addr first ds, s') ∧
    rx_written s' = rx_written s + length bs ∧ at_ (rx_written s') (rx_pos s') ∧
    stored (descs_addrs ds) bs (gm_read (rx_mem s)) (gm_read (rx_mem s')) ∧
    (∀ a n, mapped (rx_mem s') a n ↔ mapped (rx_mem s) a n).
Proof.
  cbv zeta. revert first s. induction descs as [|d descs IH]; intros first s Hg Hnd Hw Ha Hm.
  { exists s. change (filter de_write_only []) with (@nil Desc). cbn. rewrite take_0. cbn.
    split_and!; [by destruct first|lia|done|apply stored_nil|done]. }
  cbn [fill_chain]. destruct (de_write_only d) eqn:Hwo; cycle 1.
  { assert (E : filter de_write_only (d :: descs) = filter de_write_only descs)
      by (apply filter_cons_False; rewrite Hwo; cbn; tauto).
    rewrite E in *. cbn [negb]. by apply IH. }
  assert (E : filter de_write_only (d :: descs) = d :: filter de_write_only descs)
    by (apply filter_cons_True; rewrite Hwo; cbn; tauto).
  rewrite E in *. cbn [negb]. clear E. set (ds := filter de_write_only descs) in *.
  change (descs_addrs (d :: ds)) with (desc_addrs d ++ descs_addrs ds) in *.
  rewrite length_app, desc_addrs_length in *. set (w := rx_written s) in *.
  set (c := chunk d 0 w frame).
  assert (Hc : c = take (N.to_nat (de_len d)) (drop w frame)) by (unfold c, chunk; by rewrite Nat.sub_0_r).
  apply Forall_cons_1 in Hg as [Hgd Hg].
  assert (Hlc : length c ≤ N.to_nat (de_len d)) by (rewrite Hc, length_take; lia).
  destruct (fill_ok d s Hgd) as (s1 & Hf & Hw1 & Ha1 & Hb1 & Hm1); [lia|done| |].
  { fold w c. eapply all_mapped_desc; [|done|exact Hm]. rewrite Hc, !length_take. lia. }
  rewrite Hf. fold w c in Hw1, Hb1. rewrite Hw1.
  assert (Hst : stored (desc_addrs d) c (gm_read (rx_mem s)) (gm_read (rx_mem s1))).
  { apply stored_scatter; [done|]. intros x. rewrite Hb1. by rewrite N.add_0_r. }
  destruct (Nat.leb_spec (length frame) (w + length c)) as [H|H].
  - assert (Hbs : take (N.to_nat (de_len d) + length (descs_addrs ds)) (drop w frame) = c).
    { assert (length (drop w frame) ≤ length c) by (rewrite length_drop; lia).
      rewrite Hc, !take_ge; [done|rewrite length_drop in *; lia..]. }
    rewrite Hbs in *. exists s1. split_and!; [by destruct first|done|done| |done].
    by apply stored_prefix.
  - assert (Hfull : length c = N.to_nat (de_len d)) by (rewrite Hc, length_take, length_drop in *; lia).
    assert (Hbs : take (N.to_nat (de_len d) + length (descs_addrs ds)) (drop w frame) =
      c ++ take (length (descs_addrs ds)) (drop (rx_written s1) frame)).
    { rewrite Hc, Hw1, Hfull, <- drop_drop. by rewrite take_take_drop. }
    rewrite Hbs in *. rewrite length_app in *.
    destruct (IH (match first with None => Some (de_addr d) | Some a => Some a end) s1)
      as (s' & -> & Hw' & Ha' & Hs' & Hm'); [done|by apply list.NoDup_app in Hnd as (_ & _ & ?)|lia|done| |].
    { eapply all_mapped_next in Hm; [|exact Hm1]. rewrite desc_addrs_length in Hm.
      by replace (_ + _ - _) with (length (take (length (descs_addrs ds)) (drop (rx_written s1) frame)))
        in Hm by lia. }
    exists s'. split_and!; [by destruct first|lia|done| |].
    + eapply stored_app; [done|by rewrite desc_addrs_length|done|done].
    + intros a n. by rewrite Hm', Hm1.
Qed.

Lemma first_addr_app first ds ds' :
  first_addr (first_addr first ds) ds' = first_addr first (ds ++ ds').
Proof. by destruct first, ds. Qed.

(** Chains are popped as long as bytes are left, and filled. *)
Lemma fill_chains_spec fuel q chains first s :
  let n := length frame - rx_written s in
  let A := avail_addrs (vq_avail q) in
  length (vq_avail q) < fuel → Forall (λ c, Forall good (writable c)) (vq_avail q) → NoDup A →
  n ≤ length A → rx_written s ≤ length frame → (N.of_nat (length frame) < 2 ^ 32)%N →
  at_ (rx_written s) (rx_pos s) → all_mapped (rx_mem s) n A →
  ∃ first' s' q', fill_chains fill (length frame) fuel q chains first s =
      PopDone (chains ++ entries n (vq_avail q)) first' s' q' ∧
    first' = (if n =? 0 then first else first_addr first (pkt (writable <$> vq_avail q))) ∧
    rx_written s' = length frame ∧
    stored A (drop (rx_written s) frame) (gm_read (rx_mem s)) (gm_read (rx_mem s')) ∧
    vq_avail q' = drop (length (entries n (vq_avail q))) (vq_avail q) ∧ vq_used q' = vq_used q ∧
    (∀ a n, mapped (rx_mem s') a n ↔ mapped (rx_mem s) a n).
Proof.
  cbv zeta. revert q chains first s. induction fuel as [|fuel IH]; intros q chains first s; [lia|].
  intros Hf Hg Hnd Hcap Hw Hsmall Ha Hm. cbn [fill_chains].
  destruct (Nat.leb_spec (length frame) (rx_written s)) as [H|H].
  { replace (length frame - rx_written s) with 0 by lia. rewrite entries_0, app_nil_r, drop_ge by lia.
    exists first, s, q. split_and!; [done|done|lia|apply stored_nil|done|done|done]. }
  destruct (vq_avail q) as [|c cs] eqn:Hq; [cbn in Hcap; lia|].
  destruct (vq_pop_some q c cs Hq) as (q1 & -> & Hq1 & Hu1).
  change (avail_addrs (c :: cs)) with (chain_addrs c ++ avail_addrs cs) in *.
  apply Forall_cons_1 in Hg as [Hgc Hg].
  set (w := rx_written s) in *. set (bs := take (length (chain_addrs c)) (drop w frame)).
  destruct (fill_chain_spec (ch_descs c) first s) as (s1 & -> & Hw1 & Ha1 & Hs1 & Hm1).
  { done. } { by apply list.NoDup_app in Hnd as (? & _). } { done. } { done. }
  { intros i a Hi Hlt. pose proof (lookup_lt_Some _ _ _ Hi). change (i < length bs) in Hlt.
    unfold bs in Hlt. rewrite length_take, length_drop in Hlt.
    apply (Hm i); [by rewrite lookup_app_l|lia]. }
  change (filter _ (ch_descs c)) with (writable c) in *. change (descs_addrs (writable c)) with (chain_addrs c) in *.
  fold w bs in Hw1, Hs1. set (n := length frame - w) in *.
  assert (Hbs : length bs = n `min` length (chain_addrs c))
    by (unfold bs, n; rewrite length_take, length_drop; lia).
  assert (Hn1 : length frame - rx_written s1 = n - length (chain_addrs c)) by lia.
  cbn [entries]. rewrite (proj2 (Nat.eqb_neq n 0)) by lia.
  replace (wrap 32 _) with (N.of_nat (n `min` length (chain_addrs c)));
    [|unfold wrap; rewrite N.mod_small; lia].
  assert (Hnd2 : NoDup (avail_addrs cs)) by (by apply list.NoDup_app in Hnd as (_ & _ & ?)).
  destruct (IH q1 (chains ++ [(ch_head c, N.of_nat (n `min` length (chain_addrs c)))])
    (first_addr first (writable c)) s1) as (first' & s' & q' & -> & Hfst & Hw' & Hs' & Hav & Hus & Hm');
    rewrite ?Hq1, ?Hn1; [cbn in Hf; lia|done|done|rewrite length_app in Hcap; lia|lia|done|done| |].
  { eapply all_mapped_next; [exact Hm1|exact Hm]. }
  rewrite Hq1, Hn1 in *. exists first', s', q'. split_and!.
  - by rewrite <- app_assoc.
  - rewrite Hfst, first_addr_app. cbn [fmap list_fmap concat].
    destruct (Nat.eqb_spec (n - length (chain_addrs c)) 0) as [E|E]; [|done].
    destruct (writable c) as [|d ds] eqn:Ew; [|by destruct first].
    exfalso. unfold chain_addrs in E. rewrite Ew in E. cbn in E. lia.
  - done.
  - assert (Hd : drop w frame = bs ++ drop (rx_written s1) frame).
    { unfold bs. rewrite Hw1, <- drop_drop. destruct (Nat.le_ge_cases n (length (chain_addrs c))).
      - rewrite (take_ge (drop w frame)) by (rewrite length_drop; lia).
        rewrite (drop_ge (drop w frame)) by (rewrite length_drop; lia). by rewrite app_nil_r.
      - rewrite Hbs, Nat.min_r by done. by rewrite take_drop. }
    rewrite Hd. destruct (Nat.le_gt_cases (length (chain_addrs c)) n).
    + eapply stored_app; [done|lia|exact Hs1|exact Hs'].
    + rewrite (drop_ge frame (rx_written s1)), app_nil_r in * by lia.
      destruct Hs' as (_ & _ & Hsame). destruct Hs1 as (Hl1 & Hb1 & Hn1'). apply stored_prefix.
      split_and!; [done| |].
      * intros i a b Hi Hb. rewrite Hsame by (cbn; set_solver). eauto.
      * intros a Hin. rewrite Hsame by (cbn; set_solver). eauto.
  - done.
  - congruence.
  - intros a k. by rewrite Hm', Hm1.
Qed.

End pop_facts.

(** * Patches in the delivered frame *)

Lemma reads_stored A f img img' : NoDup A → stored A f img img' → img' <$> take (length f) A = Some <$> f.
Proof.
  intros Hnd (Hl & Hb & _). apply list_eq. intros i. rewrite !list_lookup_fmap.
  destruct (Nat.lt_ge_cases i (length f)) as [Hi|Hi].
  - destruct (lookup_lt_is_Some_2 f i Hi) as [b Eb].
    destruct (lookup_lt_is_Some_2 A i) as [a Ea]; [lia|].
    rewrite lookup_take_lt, Ea, Eb by done. cbn. f_equal. eauto.
  - by rewrite !lookup_ge_None_2 by (rewrite ?length_take; lia).
Qed.

Lemma put_lookup k bs (f : list u8) i : k + length bs ≤ length f →
  put k bs f !! i = if (k <=? i) && (i <? k + length bs) then bs !! (i - k) else f !! i.
Proof.
  intros Hk. unfold put. destruct (Nat.leb_spec k i) as [H|H]; cbn [andb].
  - rewrite lookup_app_r by (rewrite length_take; lia). rewrite length_take, Nat.min_l by lia.
    destruct (Nat.ltb_spec i (k + length bs)).
    + by rewrite lookup_app_l by lia.
    + rewrite lookup_app_r, lookup_drop by lia. f_equal. lia.
  - rewrite lookup_app_l by (rewrite length_take; lia). by apply lookup_take_lt.
Qed.

Lemma put_length k bs (f : list u8) : k + length bs ≤ length f → length (put k bs f) = length f.
Proof. intros H. unfold put. rewrite !length_app, length_take, length_drop. lia. Qed.

Lemma reads_patch L f img img' a bs k : img <$> L = Some <$> f → NoDup L → k + length bs ≤ length f →
  (∀ i, i < length bs → L !! (k + i) = Some (a + N.of_nat i)%N) →
  (∀ x, img' x = scatter a bs img x) → img' <$> L = Some <$> put k bs f.
Proof.
  intros Hr Hnd Hk Ha Hx.
  assert (Hlen : length L = length f) by (apply (f_equal length) in Hr; by rewrite !length_fmap in Hr).
  apply list_eq. intros i. pose proof (f_equal (lookup i) Hr) as Hri.
  rewrite !list_lookup_fmap in *. rewrite put_lookup by done.
  destruct (Nat.lt_ge_cases i (length L)) as [Hi|Hi]; cycle 1.
  { rewrite lookup_ge_None_2 by lia.
    destruct (Nat.leb_spec k i), (Nat.ltb_spec i (k + length bs)); cbn [andb];
      try lia; by rewrite lookup_ge_None_2 by lia. }
  destruct (lookup_lt_is_Some_2 L i Hi) as [x Ex]. rewrite Ex in *.
  cbn [fmap option_fmap option_map] in Hri |- *. rewrite Hx.
  assert (Hout : i < k ∨ k + length bs ≤ i → (x < a)%N ∨ (a + N.of_nat (length bs) ≤ x)%N).
  { intros H. destruct (N.lt_ge_cases x a) as [|Hge]; [by left|].
    destruct (N.le_gt_cases (a + N.of_nat (length bs)) x) as [|Hlt]; [by right|]. exfalso.
    pose proof (Ha (N.to_nat (x - a)) ltac:(lia)) as E. rewrite N2Nat.id in E.
    replace (a + (x - a))%N with x in E by lia. pose proof (NoDup_lookup _ _ _ _ Hnd Ex E). lia. }
  destruct (Nat.leb_spec k i) as [H1|H1], (Nat.ltb_spec i (k + length bs)) as [H2|H2]; cbn [andb];
    try (rewrite scatter_out; [done|]; apply Hout; lia).
  destruct (lookup_lt_is_Some_2 bs (i - k)) as [b Eb]; [lia|]. rewrite Eb. cbn. f_equal.
  pose proof (Ha (i - k) ltac:(lia)) as E. replace (k + (i - k)) with i in E by lia.
  rewrite Ex in E. injection E as ->. by apply scatter_in.
Qed.

Lemma avail_addrs_descs cs : avail_addrs cs = descs_addrs (pkt (writable <$> cs)).
Proof.
  induction cs as [|c cs IH]; [done|].
  change (avail_addrs (c :: cs)) with (chain_addrs c ++ avail_addrs cs). rewrite IH.
  cbn [fmap list_fmap concat]. unfold descs_addrs, chain_addrs. by rewrite fmap_app, concat_app.
Qed.

(** The first descriptor holds the first addresses. *)
Lemma first_desc_addrs cs d i : head (pkt (writable <$> cs)) = Some d → i < N.to_nat (de_len d) →
  avail_addrs cs !! i = Some (de_addr d + N.of_nat i)%N.
Proof.
  intros Hd Hi. rewrite avail_addrs_descs. destruct (pkt (writable <$> cs)); [done|].
  injection Hd as ->. unfold descs_addrs. cbn. rewrite lookup_app_l by (rewrite desc_addrs_length; lia).
  by apply desc_addrs_lookup.
Qed.

Lemma nodup_take {A} n (l : list A) : NoDup l → NoDup (take n l).
Proof. rewrite <- (take_drop n l) at 1. by intros (? & _)%list.NoDup_app. Qed.

Section patch.
Context (cs : list Chain) (img : u64 → option u8) (d : Desc).
Hypothesis distinct : NoDup (avail_addrs cs).
Hypothesis first_desc : head (pkt (writable <$> cs)) = Some d.
Hypothesis in_range : desc_ok d.

(** The frame is in the buffers, and nothing else has changed. *)
Definition holds (f : list u8) (m : gmem) : Prop :=
  gm_read m <$> take (length f) (avail_addrs cs) = Some <$> f ∧
  (∀ a, a ∉ take (length f) (avail_addrs cs) → gm_read m a = img a).

Lemma holds_patch f m bs k : holds f m → k + length bs ≤ N.to_nat (de_len d) →
  k + length bs ≤ length f →
  checked_add (de_addr d) k = Some (de_addr d + N.of_nat k)%N ∧
  holds (put k bs f) (gm_write bs (de_addr d + N.of_nat k) m).2.
Proof.
  intros [Hr Hsame] Hk Hkf. split; [apply checked_add_some; unfold desc_ok in in_range; lia|].
  assert (Hcap : length f ≤ length (avail_addrs cs)).
  { apply (f_equal length) in Hr. rewrite !length_fmap, length_take in Hr. lia. }
  assert (Haddr : ∀ i, i < length bs →
    take (length f) (avail_addrs cs) !! (k + i) = Some (de_addr d + N.of_nat k + N.of_nat i)%N).
  { intros i Hi. rewrite lookup_take_lt, (first_desc_addrs _ d) by (done || lia). f_equal. lia. }
  destruct (gm_write_spec bs (de_addr d + N.of_nat k) m) as (m' & -> & Hb & _).
  { intros i Hi. pose proof (f_equal (lookup (k + i)) Hr) as E.
    rewrite !list_lookup_fmap, (Haddr i Hi) in E.
    destruct (lookup_lt_is_Some_2 f (k + i)) as [b Eb]; [lia|]. rewrite Eb in E.
    cbn in E. injection E as ->. eauto. }
  cbn [snd]. unfold holds. rewrite put_length by done. split.
  - eapply reads_patch; [exact Hr|by apply nodup_take|done|done|done].
  - intros a Ha. rewrite Hb, scatter_out; [by apply Hsame|].
    destruct (N.lt_ge_cases a (de_addr d + N.of_nat k)) as [|Hge]; [by left|].
    destruct (N.le_gt_cases (de_addr d + N.of_nat k + N.of_nat (length bs)) a) as [|Hlt]; [by right|].
    exfalso. apply Ha. apply list_elem_of_lookup. exists (k + N.to_nat (a - (de_addr d + N.of_nat k))).
    rewrite Haddr by lia. f_equal. lia.
Qed.

End patch.

Lemma add_all_used_spec l q :
  vq_used (add_all_used l q) = vq_used q ++ l ∧ vq_avail (add_all_used l q) = vq_avail q.
Proof.
  unfold add_all_used. revert q. induction l as [|[h n] l IH]; intros q; [by rewrite app_nil_r|].
  cbn. destruct (IH (vq_add_used h n q)) as [-> ->].
  by rewrite vq_add_used_used, vq_add_used_avail, <- app_assoc.
Qed.

(** * Delivery *)

(** The buffers suffice for [n] bytes, are apart, mapped and in the address space;
    [d] is the first one. *)
Record rx_ready (good : Desc → Prop) (cs : list Chain) (m : gmem) (n : nat) (d : Desc) : Prop := {
  rr_distinct : NoDup (avail_addrs cs);
  rr_room : n ≤ length (avail_addrs cs);
  rr_descs : Forall (λ c, Forall (λ d, desc_ok d ∧ good d) (writable c)) cs;
  rr_mapped : all_mapped m n (avail_addrs cs);
  rr_first : head (pkt (writable <$> cs)) = Some d }.

Lemma rr_first_ok good cs m n d : rx_ready good cs m n d → desc_ok d.
Proof.
  intros [_ _ Hgood _ Hd]. destruct (pkt (writable <$> cs)) as [|d' ds] eqn:E; [done|].
  injection Hd as ->. assert (Hin : d ∈ pkt (writable <$> cs)) by (rewrite E; left).
  apply list_elem_of_In, in_concat in Hin as (l & Hl%list_elem_of_In & Hin%list_elem_of_In).
  apply list_elem_of_fmap in Hl as (c & -> & Hc).
  apply (proj1 (list.Forall_forall _ _) Hgood) in Hc.
  by apply (proj1 (list.Forall_forall _ _) Hc) in Hin as [? _].
Qed.

(** The frame is in the buffers; its headers are to be patched and the chains to be
    returned. *)
Definition copied (macs : option (list u8 * list u8)) (frame : list u8) (d : Desc) (v : VhostRx)
    (r : RxRes * VhostRx) : Prop :=
  let cs := vq_avail (vr_queue v) in
  let used := entries (length frame) cs in
  ∃ m q, r = finish_rx macs (PopDone used (Some (de_addr d)) (MkRxState m (length frame) tt) q)
           (vr_signals v) v ∧
    holds cs (gm_read (vr_mem v)) frame m ∧ (∀ a n, mapped m a n ↔ mapped (vr_mem v) a n) ∧
    vq_avail q = drop (length used) cs ∧ vq_used q = vq_used (vr_queue v).

Lemma fill_all {P} good fill frame (at_ : nat → P → Prop) macs p0 d v :
  fills (λ d, desc_ok d ∧ good d) fill frame at_ → at_ 0 p0 →
  rx_ready good (vq_avail (vr_queue v)) (vr_mem v) (length frame) d →
  0 < length frame → (N.of_nat (length frame) < 2 ^ 31)%N →
  copied macs frame d v (finish_rx macs
    (fill_chains fill (length frame) (S (length (vq_avail (vr_queue v)))) (vr_queue v) [] None
       (MkRxState (vr_mem v) 0 p0)) (vr_signals v) v).
Proof.
  intros Hfill H0 [Hnd Hroom Hgood Hmap Hd] Hpos Hsmall. unfold copied.
  destruct (fill_chains_spec (λ d, desc_ok d ∧ good d) fill frame at_ Hfill
    (S (length (vq_avail (vr_queue v)))) (vr_queue v) [] None (MkRxState (vr_mem v) 0 p0))
    as (first & s & q & Hpop & Hfirst & Hw & Hst & Hav & Hus & Hmm);
    cbn [rx_written rx_mem rx_pos] in *; rewrite ?Nat.sub_0_r in *;
    [lia|done|done|done|lia|by eapply N.lt_trans; [exact Hsmall|]|done|done|].
  rewrite drop_0 in Hst. rewrite (proj2 (Nat.eqb_neq _ 0)) in Hfirst by lia.
  unfold first_addr in Hfirst. rewrite Hd in Hfirst. cbn in Hfirst. subst first.
  rewrite Hpop. exists (rx_mem s), q. split_and!; [|split|done|done|done].
  - cbn. by rewrite Hw.
  - by eapply reads_stored.
  - by destruct Hst as (_ & _ & ?).
Qed.

Definition with_macs (macs : option (list u8 * list u8)) (f : list u8) : list u8 :=
  match macs with Some (dst, src) => put 18 src (put 12 dst f) | None => f end.
Definition patched_bytes (macs : option (list u8 * list u8)) : nat :=
  match macs with Some _ => 24 | None => 12 end.

Definition rx_delivered (f : list u8) (v v' : VhostRx) : Prop :=
  let cs := vq_avail (vr_queue v) in
  let used := entries (length f) cs in
  vq_used (vr_queue v') = vq_used (vr_queue v) ++ used ∧
  vq_avail (vr_queue v') = drop (length used) cs ∧
  received (vr_mem v') used cs = Some <$> put 10 (le16 (wrap 16 (N.of_nat (length used)))) f ∧
  (∀ a, a ∉ take (length f) (avail_addrs cs) → gm_read (vr_mem v') a = gm_read (vr_mem v) a).

Lemma with_macs_length macs f : patched_bytes macs ≤ length f →
  match macs with Some (dst, src) => length dst = 6 ∧ length src = 6 | None => True end →
  length (with_macs macs f) = length f.
Proof.
  destruct macs as [[dst src]|]; [|done]. cbn. intros Hf [? ?].
  rewrite put_length by (rewrite put_length; lia). apply put_length. lia.
Qed.

Lemma as_i32_small n : (N.of_nat n < 2 ^ 31)%N → as_i32 n = Z.of_nat n.
Proof.
  intros H. unfold as_i32, wrap. rewrite N.mod_small by (by eapply N.lt_trans; [exact H|]).
  rewrite (proj2 (N.ltb_lt _ _) H). lia.
Qed.

Lemma patch_macs_holds macs cs img f d m :
  NoDup (avail_addrs cs) → head (pkt (writable <$> cs)) = Some d → desc_ok d →
  patched_bytes macs ≤ N.to_nat (de_len d) → patched_bytes macs ≤ length f →
  match macs with Some (dst, src) => length dst = 6 ∧ length src = 6 | None => True end →
  holds cs img f m →
  ∃ m', patch_macs macs (Some (de_addr d)) m = Some m' ∧ holds cs img (with_macs macs f) m'.
Proof.
  intros Hnd Hd Hok Hlen Hf Hmacs Hh.
  destruct macs as [[dst src]|]; cbn [patched_bytes with_macs patch_macs] in *; [|by exists m].
  destruct Hmacs as [Hdst Hsrc].
  destruct (holds_patch cs _ d Hnd Hd Hok f _ dst 12 Hh) as [E1 Hh1]; [lia..|].
  change VIRTIO_NET_HDR_SIZE with 12. rewrite E1. cbn [mbind option_bind].
  destruct (holds_patch cs _ d Hnd Hd Hok _ _ src 18 Hh1) as [E2 Hh2]; [lia|rewrite put_length; lia|].
  replace (checked_add (de_addr d + N.of_nat 12) 6) with (checked_add (de_addr d) 18)
    by (unfold checked_add; by rewrite <- N.add_assoc).
  rewrite E2. by eexists.
Qed.

Lemma copied_delivers good macs frame d v r : copied macs frame d v r →
  rx_ready good (vq_avail (vr_queue v)) (vr_mem v) (length frame) d →
  patched_bytes macs ≤ N.to_nat (de_len d) → patched_bytes macs ≤ length frame →
  (N.of_nat (length frame) < 2 ^ 31)%N →
  match macs with Some (dst, src) => length dst = 6 ∧ length src = 6 | None => True end →
  ∃ v', r = (RxRet (Z.of_nat (length frame)), v') ∧ rx_delivered (with_macs macs frame) v v'.
Proof.
  intros (m & q & -> & Hh & _ & Hav & Hus) Hr Hlen Hhdr Hsmall Hmacs.
  pose proof (rr_first_ok _ _ _ _ _ Hr) as Hok. destruct Hr as [Hnd _ _ _ Hd].
  cbn [finish_rx rx_mem rx_written]. rewrite as_i32_small by done.
  destruct (patch_macs_holds macs _ (gm_read (vr_mem v)) frame d m Hnd Hd Hok) as (m1 & -> & Hhm); [done..|].
  cbn [mbind option_bind]. unfold patch_num_buffers. unfold rx_delivered.
  set (cs := vq_avail (vr_queue v)) in *. rewrite (with_macs_length _ _ Hhdr Hmacs).
  set (used := entries (length frame) cs) in *. set (n := le16 (wrap 16 (N.of_nat (length used)))).
  assert (H12 : 12 ≤ patched_bytes macs) by (destruct macs; cbn; lia).
  assert (Hfl := with_macs_length _ _ Hhdr Hmacs).
  destruct (holds_patch cs _ d Hnd Hd Hok _ _ n 10 Hhm) as [-> [Hrd Hsame]];
    [change (length n) with 2; lia..|].
  rewrite put_length, Hfl in Hrd, Hsame by (change (length n) with 2; lia).
  cbn [mbind option_bind]. eexists. split; [done|]. cbn [vr_queue vr_mem].
  destruct (add_all_used_spec used q) as [-> ->]. split_and!; [by rewrite Hus|done| |done].
  unfold received. unfold used at 1. by rewrite entries_addrs.
Qed.

Lemma read_virtio_hdr_spec iovecs : VIRTIO_NET_HDR_SIZE ≤ length (pkt iovecs) →
  read_virtio_hdr iovecs = take VIRTIO_NET_HDR_SIZE (pkt iovecs).
Proof.
  intros Hl. unfold read_virtio_hdr.
  destruct (iov_walk_spec (E := unit) (λ bs buf : list u8, Ok (buf ++ bs)) (S (length iovecs)) iovecs 0 0
    VIRTIO_NET_HDR_SIZE []) as (sl & Hsl & _ & H); [apply pos_in_next|lia|].
  assert (Happ : ∀ buf, sink_all (E := unit) (λ bs buf : list u8, Ok (buf ++ bs)) sl buf = Ok (buf ++ pkt sl)).
  { clear. induction sl as [|bs sl IH]; intros buf; cbn; [by rewrite app_nil_r|].
    by rewrite IH, app_assoc. }
  rewrite Happ in H. destruct H as (idx & offset & -> & _).
  unfold rest_from in Hsl. rewrite !drop_0 in Hsl. rewrite Hsl, length_take.
  replace (_ - _) with 0 by lia. cbn [replicate app]. by rewrite app_nil_r.
Qed.

Lemma skip_in_iovecs_spec iovecs len idx offset : skip_in_iovecs iovecs len = (idx, offset) →
  pos_in iovecs idx offset ∧ rest_from iovecs idx offset = drop len (pkt iovecs).
Proof.
  unfold skip_in_iovecs.
  destruct (iov_walk_spec (E := unit) (λ _ _, Ok tt) (S (length iovecs)) iovecs 0 0 len tt)
    as (sl & _ & _ & H); [apply pos_in_next|lia|].
  assert (Hok : sink_all (E := unit) (λ _ _, Ok tt) sl tt = Ok tt) by (clear; by induction sl).
  rewrite Hok in H. destruct H as (idx' & offset' & -> & Hin & Hr). intros [= <- <-].
  split; [done|]. rewrite Hr. unfold rest_from. by rewrite !drop_0.
Qed.

(** The frame of a packet, as it is copied, with the MAC addresses that are patched. *)
Definition packet_macs (s : PacketSource) : option (list u8 * list u8) :=
  match s with SrcVhostToVhost _ _ _ dst src => Some (dst, src) | _ => None end.
Definition frame_of (p : PacketRef) : list u8 :=
  match pk_source p with
  | SrcTunRx _ _ _ dst_mac ethertype =>
      patch_virtio_hdr_for_eth_injection (take 12 (pkt (pk_iovecs p)))
      ++ eth_header dst_mac GATEWAY_MAC ethertype ++ drop 12 (pkt (pk_iovecs p))
  | _ => pkt (pk_iovecs p)
  end.

(** The packets for which the copy ends: with the headers it touches, and without
    empty segments when they come from a guest. *)
Definition packet_ok (p : PacketRef) : Prop :=
  (N.of_nat (length (pkt (pk_iovecs p))) < 2 ^ 31 - 14)%N ∧
  match pk_source p with
  | SrcTunRx _ _ _ dst_mac _ => 12 ≤ length (pkt (pk_iovecs p)) ∧ length dst_mac = 6
  | SrcVhostToVhost _ _ _ dst src =>
      24 ≤ length (pkt (pk_iovecs p)) ∧ length dst = 6 ∧ length src = 6 ∧
      Forall (λ iov, iov ≠ []) (pk_iovecs p)
  | SrcVhostTx _ _ _ => 12 ≤ length (pkt (pk_iovecs p)) ∧ Forall (λ iov, iov ≠ []) (pk_iovecs p)
  end.

Lemma injection_length h : 8 ≤ length h → length (patch_virtio_hdr_for_eth_injection h) = length h.
Proof.
  intros H. unfold patch_virtio_hdr_for_eth_injection. destruct (needs_csum h); [|done].
  by apply put_length.
Qed.

Lemma vhost_at_start iovecs : Forall (λ iov, iov ≠ []) iovecs → vhost_at iovecs 0 (0, 0).
Proof.
  intros Hne. split; [done|]. intros iov Hi. destruct iovecs; [done|]. injection Hi as ->.
  apply Forall_cons_1 in Hne as [? _]. destruct iov; [done|cbn; lia].
Qed.

Lemma frame_of_length p : packet_ok p →
  patched_bytes (packet_macs (pk_source p)) ≤ length (frame_of p) ∧
  (N.of_nat (length (frame_of p)) < 2 ^ 31)%N.
Proof.
  intros [Hs Hp]. unfold frame_of, packet_macs. destruct (pk_source p); cbn [patched_bytes].
  - split; [lia|]. eapply N.lt_trans; [exact Hs|done].
  - destruct Hp as [Hl Hmac]. unfold eth_header. rewrite !length_app, injection_length, length_take,
      length_drop, Hmac by (rewrite length_take; lia). cbn [length GATEWAY_MAC be16]. lia.
  - split; [lia|]. eapply N.lt_trans; [exact Hs|done].
Qed.

Lemma copy_to_vhost_rx_copied fuel p d v : packet_ok p →
  rx_ready (λ d, N.to_nat (de_len d) < fuel) (vq_avail (vr_queue v)) (vr_mem v) (length (frame_of p)) d →
  copied (packet_macs (pk_source p)) (frame_of p) d v (copy_to_vhost_rx fuel p v).
Proof.
  intros Hok Hr. destruct (frame_of_length p Hok) as [Hl1 Hl2]. destruct Hok as [_ Hp].
  unfold copy_to_vhost_rx, frame_of, packet_macs in *. cbv zeta.
  destruct (pk_source p) as [h t r|c l r mac ety|h t r dst src]; cbn [patched_bytes] in Hl1.
  - destruct Hp as [Hl Hne]. eapply fill_all; [by apply vhost_fill_fills|by apply vhost_at_start|done|lia|done].
  - destruct Hp as [Hl Hmac]. rewrite read_virtio_hdr_spec by done.
    set (hdr := patch_virtio_hdr_for_eth_injection _) in *. set (eth := eth_header mac GATEWAY_MAC ety) in *.
    set (data := pkt (pk_iovecs p)) in *.
    assert (Hhl : length hdr = 12) by (unfold hdr; rewrite injection_length; rewrite length_take; lia).
    assert (Hel : length eth = 14) by (unfold eth, eth_header; rewrite !length_app, Hmac; done).
    destruct (skip_in_iovecs _ _) as [idx offset] eqn:Hskip.
    apply skip_in_iovecs_spec in Hskip as [Hin Hrest].
    replace (length data + ETHERNET_HDR_SIZE) with (length (hdr ++ eth ++ drop 12 data))
      by (rewrite !length_app, length_drop, Hhl, Hel; unfold ETHERNET_HDR_SIZE; lia).
    apply (fill_all (λ d, N.to_nat (de_len d) < fuel) _ _ (tun_at (pk_iovecs p) hdr eth) None
      (MkTunPos 0 0 idx offset) d v); [by apply tun_fill_fills| |done|lia|done].
    right. split_and!; [done|by apply Nat.ltb_lt|by apply Nat.ltb_lt|done].
  - destruct Hp as (Hl & Hdst & Hsrc & Hne).
    eapply fill_all; [by apply vhost_fill_fills|by apply vhost_at_start|done|lia|done].
Qed.

(** What the guest is to find. *)
Definition guest_frame (p : PacketRef) (num_buffers : u16) : list u8 :=
  let data := pkt (pk_iovecs p) in
  match pk_source p with
  | SrcTunRx _ _ _ dst_mac ethertype =>
      take 10 (patch_virtio_hdr_for_eth_injection (take 12 data)) ++ le16 num_buffers
      ++ dst_mac ++ GATEWAY_MAC ++ be16 ethertype ++ drop 12 data
  | SrcVhostToVhost _ _ _ dst_mac src_mac =>
      take 10 data ++ le16 num_buffers ++ dst_mac ++ src_mac ++ drop 24 data
  | SrcVhostTx _ _ _ => take 10 data ++ le16 num_buffers ++ drop 12 data
  end.

(** Adjacent patches are one, in either order. *)
Lemma put_put k bs bs' (f : list u8) : k + length bs + length bs' ≤ length f →
  put (k + length bs) bs' (put k bs f) = put k (bs ++ bs') f ∧
  put k bs (put (k + length bs) bs' f) = put k (bs ++ bs') f.
Proof.
  intros H. split; apply list_eq; intros i;
    rewrite !put_lookup by (rewrite ?put_length, ?length_app; lia); rewrite length_app;
    repeat match goal with |- context [?a <=? ?b] => destruct (Nat.leb_spec a b) end;
    repeat match goal with |- context [?a <? ?b] => destruct (Nat.ltb_spec a b) end;
    cbn [andb]; try lia; try done;
    rewrite ?lookup_app_l by lia; rewrite ?lookup_app_r by lia; try done; f_equal; lia.
Qed.

Lemma guest_frame_eq p n : packet_ok p →
  put 10 (le16 n) (with_macs (packet_macs (pk_source p)) (frame_of p)) = guest_frame p n.
Proof.
  intros [_ Hp]. unfold guest_frame, frame_of, with_macs, packet_macs. cbv zeta.
  destruct (pk_source p) as [h t r|c l r mac ety|h t r dst src].
  - done.
  - destruct Hp as [Hl Hmac]. set (hdr := patch_virtio_hdr_for_eth_injection _).
    assert (Hhl : length hdr = 12) by (unfold hdr; rewrite injection_length; rewrite length_take; lia).
    unfold put. rewrite take_app_le by lia. change (10 + length (le16 n)) with 12.
    rewrite <- Hhl, drop_app_length. unfold eth_header. by rewrite <- !app_assoc.
  - destruct Hp as (Hl & Hdst & Hsrc & _).
    replace 18 with (12 + length dst) by lia. set (data := pkt (pk_iovecs p)) in *.
    destruct (put_put 12 dst src data) as [-> _]; [lia|].
    change 12 with (10 + length (le16 n)).
    destruct (put_put 10 (le16 n) (dst ++ src) data) as [_ ->]; [rewrite length_app; cbn; lia|].
    unfold put. rewrite !length_app, Hdst, Hsrc, <- !app_assoc. done.
Qed.


(** The replies of the protocol handlers arrive the same way. *)
Theorem guest_receives_reply packet d v : 12 ≤ length packet → (N.of_nat (length packet) < 2 ^ 31)%N →
  let cs := vq_avail (vr_queue v) in
  let used := entries (length packet) cs in
  rx_ready (λ _, True) cs (vr_mem v) (length packet) d → 12 ≤ N.to_nat (de_len d) →
  ∃ v', inject_to_vhost_rx packet v = (RxRet 0, v') ∧ vr_signals v' = S (vr_signals v) ∧
    vq_used (vr_queue v') = vq_used (vr_queue v) ++ used ∧
    vq_avail (vr_queue v') = drop (length used) cs ∧
    received (vr_mem v') used cs =
      Some <$> put 10 (le16 (wrap 16 (N.of_nat (length used)))) packet.
Proof.
  intros Hl Hs. cbv zeta. intros Hr Hd.
  assert (Hfill : fills (λ d, desc_ok d ∧ True) (inject_fill packet) packet (λ _ _, True)).
  { intros d' s _. by apply inject_fill_fills. }
  pose proof (fill_all _ _ _ _ None tt d v Hfill I Hr ltac:(lia) Hs) as Hc.
  unfold inject_to_vhost_rx. cbv zeta.
  destruct (copied_delivers _ _ _ d v _ Hc Hr Hd Hl Hs I) as (v' & E & Hu & Ha & Hrec & _).
  rewrite E. destruct (fill_chains _ _ _ _ _ _ _) as [chains first s q|[] m q|chains h m q| |];
    cbn in E; try done.
  - case_match; [|done]. injection E as _ <-. by eexists.
  - injection E as E _. unfold ENOSPC in E. lia.
  - injection E as E _. unfold ENOSPC in E. lia.
  - injection E as E _. unfold EIO in E. lia.
Qed.

(** * Chains are never lost

    Whatever the memory, the descriptors and the packet: when the copy returns, each
    chain that was popped has been given back, in order. *)

Lemma fill_chains_popped {P} (fill : Desc → RxState P → Fill (RxState P)) total fuel q chains first s :
  match fill_chains fill total fuel q chains first s with
  | PopDone chains' _ _ q' | PopShort chains' _ q' =>
      ∃ k, chains'.*1 = chains.*1 ++ (ch_head <$> take k (vq_avail q)) ∧
        vq_avail q' = drop k (vq_avail q) ∧ vq_used q' = vq_used q
  | PopErr chains' head _ q' =>
      ∃ k, chains'.*1 ++ [head] = chains.*1 ++ (ch_head <$> take k (vq_avail q)) ∧
        vq_avail q' = drop k (vq_avail q) ∧ vq_used q' = vq_used q
  | _ => True
  end.
Proof.
  revert q chains first s. induction fuel as [|fuel IH]; intros q chains first s; [done|].
  cbn [fill_chains]. destruct (total <=? _). { exists 0. by rewrite take_0, app_nil_r. }
  destruct (vq_avail q) as [|c cs] eqn:Hq.
  { rewrite vq_pop_none by done. exists 0. by rewrite Hq, app_nil_r. }
  destruct (vq_pop_some q c cs Hq) as (q1 & -> & Hq1 & Hu1).
  destruct (fill_chain _ _ _ _ _) as [[first' s']|m| |]; [|exists 1; rewrite Hq1, Hu1; by destruct cs|done|done].
  cbv zeta. set (chains1 := chains ++ _). specialize (IH q1 chains1 first' s').
  assert (Hstep : ∀ k, chains1.*1 ++ (ch_head <$> take k cs) =
    chains.*1 ++ (ch_head <$> take (S k) (c :: cs))).
  { intros k. unfold chains1. rewrite fmap_app, <- app_assoc. done. }
  rewrite Hq1, Hu1 in IH.
  destruct (fill_chains fill total fuel q1 chains1 first' s'); try done;
    destruct IH as (k & -> & -> & ->); exists (S k); by rewrite Hstep.
Qed.

Lemma finish_rx_popped {P} macs (fill : Desc → RxState P → Fill (RxState P)) total fuel s r v v' :
  finish_rx macs (fill_chains fill total fuel (vr_queue v) [] None s) (vr_signals v) v = (RxRet r, v') →
  ∃ k, (vq_used (vr_queue v')).*1 =
      (vq_used (vr_queue v)).*1 ++ (ch_head <$> take k (vq_avail (vr_queue v))) ∧
    vq_avail (vr_queue v') = drop k (vq_avail (vr_queue v)).
Proof.
  pose proof (fill_chains_popped fill total fuel (vr_queue v) [] None s) as H.
  assert (Hret : ∀ chains cur q, vq_used (return_chains_on_error chains cur q) =
    vq_used q ++ ((λ c, (c.1, 0%N)) <$> chains) ++ option_list ((λ h, (h, 0%N)) <$> cur) ∧
    vq_avail (return_chains_on_error chains cur q) = vq_avail q) by (intros; apply add_all_used_spec).
  assert (Hz : ∀ chains : list (u16 * u32), ((λ c, (c.1, 0%N)) <$> chains).*1 = chains.*1).
  { intros chains. rewrite <- list_fmap_compose. done. }
  destruct (fill_chains _ _ _ _ _ _ _) as [chains first s' q|chains m q|chains h m q| |]; intros E;
    cbn [finish_rx] in E; [..|done|done].
  - case_match; [|done]. injection E as _ <-. cbn [vr_queue].
    destruct H as (k & Hk & Ha & Hu). exists k. destruct (add_all_used_spec chains q) as [-> ->].
    by rewrite fmap_app, Hu, Hk.
  - destruct H as (k & Hk & Ha & Hu). exists k. destruct chains as [|c chains].
    + injection E as _ <-. cbn [vr_queue]. rewrite Ha, Hu. split; [|done].
      cbn in Hk. rewrite <- Hk. by rewrite app_nil_r.
    + injection E as _ <-. cbn [vr_queue]. destruct (Hret (c :: chains) None q) as [-> ->].
      by rewrite !fmap_app, Hz, app_nil_r, Hu, Hk.
  - injection E as _ <-. cbn [vr_queue]. destruct H as (k & Hk & Ha & Hu). exists k.
    destruct (Hret chains (Some h) q) as [-> ->]. rewrite !fmap_app, Hz, Hu. cbn. by rewrite Hk.
Qed.

Theorem rx_chains_returned fuel p v r v' :
  copy_to_vhost_rx fuel p v = (RxRet r, v') →
  ∃ k, (vq_used (vr_queue v')).*1 =
      (vq_used (vr_queue v)).*1 ++ (ch_head <$> take k (vq_avail (vr_queue v))) ∧
    vq_avail (vr_queue v') = drop k (vq_avail (vr_queue v)).
Proof.
  unfold copy_to_vhost_rx. cbv zeta. destruct (pk_source p); [|destruct (skip_in_iovecs _ _)|];
    apply finish_rx_popped.
Qed.

(** * Where delivery fails *)

Lemma fill_chain_spins {P} (fill : Desc → RxState P → Fill (RxState P)) total descs first s d ds :
  filter de_write_only descs = d :: ds → fill d s = FillSpin →
  fill_chain fill total descs first s = FillSpin.
Proof.
  intros Hd Hf. induction descs as [|d' descs IH]; [done|]. cbn [fill_chain].
  destruct (de_write_only d') eqn:E; cbn [negb].
  - rewrite filter_cons_True in Hd by (rewrite E; done). injection Hd as -> _. by rewrite Hf.
  - rewrite filter_cons_False in Hd by (rewrite E; cbn; tauto). by apply IH.
Qed.

(** C40: A guest that puts an empty descriptor before its packet stops the reactor of the
    guest it writes to: the copy never ends, however long it runs. *)
Theorem empty_segment_hangs fuel p rest head_index total_len reactor dst src v c cs d ds :
  pk_source p = SrcVhostToVhost head_index total_len reactor dst src →
  pk_iovecs p = [] :: rest → 0 < length (pkt rest) →
  vq_avail (vr_queue v) = c :: cs → writable c = d :: ds → (0 < de_len d)%N →
  copy_to_vhost_rx fuel p v = (RxSpin, v).
Proof.
  intros Hsrc Hiov Hrest Hq Hw Hd. unfold copy_to_vhost_rx. rewrite Hsrc, Hiov, Hq. cbv zeta.
  cbn [fill_chains concat app rx_written]. rewrite (proj2 (Nat.leb_gt _ _) Hrest).
  destruct (vq_pop_some _ _ _ Hq) as (q & -> & _).
  rewrite (fill_chain_spins _ _ _ _ _ d ds Hw); [done|].
  induction fuel as [|fuel IH]; [done|]. cbn [vhost_fill rx_pos rx_written]. cbv zeta.
  rewrite (proj2 (Nat.ltb_lt 0 (N.to_nat (de_len d)))) by lia.
  rewrite (proj2 (Nat.ltb_lt _ _) Hrest). exact IH.
Qed.

Lemma reads_outside (L : list u64) a bs img img' : (∀ x, img' x = scatter a bs img x) →
  (∀ i, i < length bs → (a + N.of_nat i)%N ∉ L) → img' <$> L = img <$> L.
Proof.
  intros Hx Hout. apply list_fmap_ext. intros i x Hi. rewrite Hx. apply scatter_out.
  destruct (N.lt_ge_cases x a) as [|Hge]; [by left|].
  destruct (N.le_gt_cases (a + N.of_nat (length bs)) x) as [|Hlt]; [by right|]. exfalso.
  apply (Hout (N.to_nat (x - a))); [lia|]. rewrite N2Nat.id.
  replace (a + (x - a))%N with x by lia. by eapply list_elem_of_lookup_2.
Qed.

(** The addresses are patched behind the virtio header in guest memory, not in the
    frame: a guest whose first buffer holds the header alone finds the frame with the
    sender's MAC addresses, and 12 bytes next to its header overwritten. *)
Theorem mac_patch_misses fuel p d v head_index total_len reactor dst src :
  packet_ok p → pk_source p = SrcVhostToVhost head_index total_len reactor dst src →
  let data := pkt (pk_iovecs p) in
  let cs := vq_avail (vr_queue v) in
  let used := entries (length data) cs in
  let behind := (de_addr d + 12)%N in
  rx_ready (λ d, N.to_nat (de_len d) < fuel) cs (vr_mem v) (length data) d → de_len d = 12%N →
  mapped (vr_mem v) behind 12 → (behind + 12 < 2 ^ 64)%N →
  (∀ i, i < 12 → (behind + N.of_nat i)%N ∉ avail_addrs cs) →
  ∃ v', copy_to_vhost_rx fuel p v = (RxRet (Z.of_nat (length data)), v') ∧
    received (vr_mem v') used cs =
      Some <$> take 10 data ++ le16 (wrap 16 (N.of_nat (length used))) ++ drop 12 data ∧
    (∀ i b, (dst ++ src) !! i = Some b → gm_read (vr_mem v') (behind + N.of_nat i) = Some b).
Proof.
  intros Hp Hsrc. cbv zeta. intros Hr Hd Hmap Hrange Hout.
  pose proof (copy_to_vhost_rx_copied fuel p d v Hp) as Hc. unfold frame_of, packet_macs in Hc.
  destruct (frame_of_length p Hp) as [Hl Hsmall]. unfold frame_of, packet_macs in Hl, Hsmall.
  destruct Hp as [_ Hp]. rewrite Hsrc in *. destruct Hp as (_ & Hdst & Hsrcl & _).
  cbn [patched_bytes] in Hl. set (data := pkt (pk_iovecs p)) in *.
  destruct (Hc Hr) as (m & q & -> & [Hrd _] & Hm & _).
  pose proof (rr_first_ok _ _ _ _ _ Hr) as Hok. destruct Hr as [Hnd _ _ _ Hfirst].
  set (cs := vq_avail (vr_queue v)) in *. set (used := entries (length data) cs).
  cbn [finish_rx patch_macs rx_mem rx_written]. rewrite as_i32_small by done.
  change VIRTIO_NET_HDR_SIZE with 12.
  rewrite (checked_add_some _ 12) by lia. cbn [mbind option_bind].
  change (N.of_nat 12) with 12%N. set (behind := (de_addr d + 12)%N) in *.
  rewrite (checked_add_some behind 6) by lia. change (N.of_nat 6) with 6%N.
  assert (Hm12 : mapped m behind 6 ∧ mapped m (behind + 6) 6).
  { apply (mapped_app m behind 6 6). by apply Hm. }
  destruct Hm12 as [Hm1 Hm2]. rewrite <- Hdst in Hm1. rewrite <- Hsrcl in Hm2.
  destruct (gm_write_spec dst behind m Hm1) as (m1 & -> & Hb1 & Hmm1). cbn [snd].
  destruct (gm_write_spec src (behind + 6) m1) as (m2 & -> & Hb2 & Hmm2); [by apply Hmm1|]. cbn [snd].
  set (L := take (length data) (avail_addrs cs)) in *.
  assert (HL : ∀ i, i < 12 → (behind + N.of_nat i)%N ∉ L) by (intros i Hi Hin%subseteq_take; by apply (Hout i)).
  assert (Hrd2 : gm_read m2 <$> L = Some <$> data).
  { rewrite (reads_outside L (behind + 6) src (gm_read m1)); [|done|].
    - rewrite (reads_outside L behind dst (gm_read m)); [done|done|]. intros i Hi. apply HL. lia.
    - intros i Hi. replace (behind + 6 + N.of_nat i)%N with (behind + N.of_nat (6 + i))%N by lia.
      apply HL. lia. }
  set (n := le16 _). unfold patch_num_buffers. cbn [mbind option_bind].
  destruct (holds_patch cs (gm_read m2) d Hnd Hfirst Hok data m2 n 10) as [-> [Hrd3 Hsame]];
    [by split|change (length n) with 2; lia..|]. fold n.
  rewrite put_length in Hrd3, Hsame by (change (length n) with 2; lia).
  cbn [mbind option_bind]. eexists. split_and!; [done| |].
  - unfold received. cbn [vr_mem]. unfold used. rewrite entries_addrs. exact Hrd3.
  - intros i b Hi. cbn [vr_mem]. pose proof (lookup_lt_Some _ _ _ Hi) as Hlt.
    rewrite length_app in Hlt. rewrite Hsame by (apply HL; lia). rewrite Hb2.
    replace (behind + 6)%N with (behind + N.of_nat (length dst))%N by lia.
    erewrite (scatter_ext _ _ (gm_read m1)) by apply Hb1.
    rewrite <- scatter_app. by apply scatter_in.
Qed.

(** The header is patched at the first descriptor also when that one is empty: a
    guest whose first buffer is an empty one at the end of the address space makes
    the reactor panic. *)
Theorem empty_first_buffer_panics fuel p d v : packet_ok p →
  rx_ready (λ d, N.to_nat (de_len d) < fuel) (vq_avail (vr_queue v)) (vr_mem v) (length (frame_of p)) d →
  de_len d = 0%N → (2 ^ 64 ≤ de_addr d + 10)%N →
  copy_to_vhost_rx fuel p v = (RxPanic, v).
Proof.
  intros Hp Hr _ Hd. destruct (copy_to_vhost_rx_copied fuel p d v Hp Hr) as (m & q & -> & _).
  assert (Hno : ∀ k, 10 ≤ k → checked_add (de_addr d) k = None).
  { intros k Hk. unfold checked_add. by rewrite (proj2 (N.ltb_ge _ _)) by lia. }
  cbn [finish_rx]. unfold patch_macs, patch_num_buffers.
  destruct (packet_macs (pk_source p)) as [[dst src]|]; [change VIRTIO_NET_HDR_SIZE with 12|];
    rewrite ?(Hno 12), ?(Hno 10) by lia; reflexivity.
Qed.

End facts.
