(* ===== verification/NetRxExamples.v ===== *)
(** The theorems on packets at concrete ones: delivery, and the cases in which it
    fails. *)

From S2P Require Import Prelude Packet NetIovec NetRx NetRxFacts.
Import RxModels.

(** * A packet of 32 segments for the TUN device

    The first segment is longer than the headers, so that each one needs a place in
    the list: the last one is lost. *)

Definition rx_many : list iovec := replicate 32 (replicate 30 7%N).

Lemma tun_paths_agree_witness :
  ∃ iovs, prepare_tun_iovecs rx_many = Some iovs ∧ l3_packet rx_many ≠ Some (pkt iovs).
Proof.
  destruct (tun_paths_agree rx_many) as (iovs & E & Hiff); [apply Nat.ltb_lt; vm_compute; reflexivity|].
  exists iovs. split; [exact E|]. intros H. apply Hiff in H. vm_compute in H. discriminate H.
Defined.

(** * A guest with two buffers *)

Definition rx_memory : gmem := list_to_map ((λ i, (N.of_nat i, 0%N)) <$> seq 0 512).
Definition rx_chain (head : u16) (descs : list Desc) : Chain := MkChain head descs.
Definition rx_guest (cs : list Chain) : VhostRx := MkVhostRx rx_memory (MkListQueue cs []) 0.

Definition rx_readyb (goodb : Desc → bool) (cs : list Chain) (m : gmem) (n : nat) (d : Desc) : bool :=
  bool_decide (NoDup (avail_addrs cs)) && (n <=? length (avail_addrs cs)) &&
  forallb (λ c, forallb (λ d, (de_addr d + de_len d <? 2 ^ 64)%N && goodb d) (writable c)) cs &&
  forallb (λ a, is_some (gm_read m a)) (take n (avail_addrs cs)).

Lemma rx_readyb_spec goodb (good : Desc → Prop) cs m n d :
  (∀ d, goodb d = true → good d) → rx_readyb goodb cs m n d = true →
  head (pkt (writable <$> cs)) = Some d → rx_ready good cs m n d.
Proof.
  intros Hg H Hd. unfold rx_readyb in H. apply andb_true_iff in H as [H H4].
  apply andb_true_iff in H as [H H3]. apply andb_true_iff in H as [H1 H2].
  split; [by apply bool_decide_eq_true in H1|by apply Nat.leb_le| | |done].
  - rewrite forallb_forall in H3. apply list.Forall_forall. intros c Hc%list_elem_of_In.
    specialize (H3 c Hc). rewrite forallb_forall in H3. apply list.Forall_forall.
    intros d' Hd'%list_elem_of_In. apply H3, andb_true_iff in Hd' as [? ?].
    split; [by apply N.ltb_lt|by apply Hg].
  - intros i a Ha Hi. rewrite forallb_forall in H4. specialize (H4 a).
    destruct (gm_read m a); [eauto|]. discriminate H4. apply list_elem_of_In, elem_of_take. eauto.
Qed.

(** 40 bytes, and 24 more in a second chain. *)
Definition rx_two : list Chain :=
  [ rx_chain 5 [MkDesc 0 16 false; MkDesc 100 30 true; MkDesc 200 10 true];
    rx_chain 9 [MkDesc 300 24 true] ].
Definition rx_bytes (n : nat) : list u8 := N.of_nat <$> seq 1 n.
Definition rx_tun_packet : PacketRef :=
  MkPacketRef 1 [rx_bytes 5; []; rx_bytes 31] (SrcTunRx 3 36 8 [2; 2; 3; 4; 5; 6]%N 2048).
Definition rx_vm_packet : PacketRef :=
  MkPacketRef 2 [rx_bytes 20; rx_bytes 30]
    (SrcVhostToVhost 4 50 8 [2; 2; 3; 4; 5; 6]%N GATEWAY_MAC).


Lemma guest_receives_reply_witness :
  ∃ v', inject_to_vhost_rx (rx_bytes 44) (rx_guest rx_two) = (RxRet 0, v') ∧
    vq_used (vr_queue v') = [(5, 40); (9, 4)]%N.
Proof.
  destruct (guest_receives_reply (rx_bytes 44) (MkDesc 100 30 true) (rx_guest rx_two))
    as (v' & E & _ & Hu & _).
  - apply Nat.leb_le. vm_compute. reflexivity.
  - vm_compute. reflexivity.
  - apply (rx_readyb_spec (λ _, true)); [done|vm_compute; reflexivity..].
  - apply Nat.leb_le. vm_compute. reflexivity.
  - exists v'. split; [exact E|exact Hu].
Defined.

(** The packet does not fit into the one chain, which is given back. *)
Lemma rx_chains_returned_witness :
  ∃ k, [5%N] = ch_head <$> take k (take 1 rx_two).
Proof.
  destruct (copy_to_vhost_rx 100 rx_vm_packet (rx_guest (take 1 rx_two))) as [r v'] eqn:E.
  assert (Hr : r = RxRet (- ENOSPC)) by (change r with (r, v').1; rewrite <- E; vm_compute; reflexivity).
  assert (Hu : (vq_used (vr_queue v')).*1 = [5%N])
    by (change v' with (r, v').2; rewrite <- E; vm_compute; reflexivity).
  rewrite Hr in E. destruct (rx_chains_returned _ _ _ _ _ E) as (k & Hk & _).
  exists k. rewrite <- Hu. exact Hk.
Defined.

Lemma empty_segment_hangs_witness :
  (copy_to_vhost_rx 1000 (MkPacketRef 2 [[]; rx_bytes 40]
     (SrcVhostToVhost 4 40 8 [2; 2; 3; 4; 5; 6]%N GATEWAY_MAC)) (rx_guest rx_two)).1 = RxSpin.
Proof.
  rewrite (empty_segment_hangs 1000 _ [rx_bytes 40] 4 40 8 [2; 2; 3; 4; 5; 6]%N GATEWAY_MAC _
    (rx_chain 5 [MkDesc 0 16 false; MkDesc 100 30 true; MkDesc 200 10 true])
    [rx_chain 9 [MkDesc 300 24 true]] (MkDesc 100 30 true) [MkDesc 200 10 true]);
    [reflexivity..| |reflexivity|reflexivity|reflexivity].
  apply Nat.ltb_lt. vm_compute. reflexivity.
Defined.

(** A buffer of 12 bytes for the header, at 100, and one for the frame, at 200. *)
Definition rx_split : list Chain := [rx_chain 5 [MkDesc 100 12 true; MkDesc 200 60 true]].

Lemma mac_patch_misses_witness :
  ∃ v', copy_to_vhost_rx 100 rx_vm_packet (rx_guest rx_split) = (RxRet 50, v') ∧
    gm_read (vr_mem v') 112 = Some 2%N.
Proof.
  destruct (mac_patch_misses 100 rx_vm_packet (MkDesc 100 12 true) (rx_guest rx_split) 4 50 8
    [2; 2; 3; 4; 5; 6]%N GATEWAY_MAC) as (v' & E & _ & Hm).
  - split; [vm_compute; reflexivity|]. split; [apply Nat.leb_le; vm_compute; reflexivity|].
    split; [reflexivity|]. split; [reflexivity|]. repeat constructor; discriminate.
  - reflexivity.
  - apply (rx_readyb_spec (λ d, N.to_nat (de_len d) <? 100)); [|vm_compute; reflexivity..].
    intros d. apply Nat.ltb_lt.
  - reflexivity.
  - refine (proj1 (mapped_at_iff 12 112 rx_memory) _). vm_compute. reflexivity.
  - vm_compute. reflexivity.
  - intros i Hi Hin. assert (Hb : forallb (λ i, bool_decide ((100 + 12 + N.of_nat i)%N ∉
      avail_addrs rx_split)) (seq 0 12) = true) by (vm_compute; reflexivity).
    rewrite forallb_forall in Hb. specialize (Hb i ltac:(apply in_seq; lia)).
    apply bool_decide_eq_true in Hb. exact (Hb Hin).
  - exists v'. split; [exact E|]. exact (Hm 0 2%N eq_refl).
Defined.

Lemma empty_first_buffer_panics_witness :
  copy_to_vhost_rx 100 rx_vm_packet
    (rx_guest [rx_chain 5 [MkDesc (2 ^ 64 - 3) 0 true; MkDesc 200 60 true]]) =
  (RxPanic, rx_guest [rx_chain 5 [MkDesc (2 ^ 64 - 3) 0 true; MkDesc 200 60 true]]).
Proof.
  apply (empty_first_buffer_panics 100 rx_vm_packet (MkDesc (2 ^ 64 - 3) 0 true)).
  - split; [vm_compute; reflexivity|]. split; [apply Nat.leb_le; vm_compute; reflexivity|].
    split; [reflexivity|]. split; [reflexivity|]. repeat constructor; discriminate.
  - apply (rx_readyb_spec (λ d, N.to_nat (de_len d) <? 100)); [|vm_compute; reflexivity..].
    intros d. apply Nat.ltb_lt.
  - reflexivity.
  - vm_compute. discriminate.
Defined.
