(* ===== verification/NetWire.v ===== *)
(** The wire formats of smoltcp and dhcproto that the protocol handlers of both
    network daemons use, as classes, and the checksum that the handlers compute
    themselves. *)

From S2P Require Import Prelude Packet NetAddr NetIovec.

(** * Formats

    A view is what the accessors of a checked packet return. *)

Inductive EtherType := EtIpv4 | EtArp | EtIpv6 | EtOther (n : u16).
Inductive IpProto := PrIcmp | PrUdp | PrIcmpv6 | PrOther (n : u8).
Inductive ArpOperation := ArpRequest | ArpReply | ArpOther (n : u16).
Inductive Icmp4Type := Echo4Request | Echo4Reply | Icmp4Other (n : u8).
Inductive Icmp6Type := NeighborSolicit | RouterSolicit | Echo6Request | Icmp6Other (n : u8).

Record EthView := MkEthView { ev_dst : list u8; ev_src : list u8; ev_type : EtherType; ev_payload : list u8 }.
Record ArpRepr := MkArpRepr {
  ar_op : ArpOperation; ar_sha : list u8; ar_spa : Ipv4Addr; ar_tha : list u8; ar_tpa : Ipv4Addr }.
Record Ip4View := MkIp4View { i4_src : Ipv4Addr; i4_dst : Ipv4Addr; i4_proto : IpProto; i4_payload : list u8 }.
Record Ip6View := MkIp6View { i6_src : Ipv6Addr; i6_dst : Ipv6Addr; i6_proto : IpProto; i6_payload : list u8 }.
Record UdpView := MkUdpView { ud_src_port : u16; ud_dst_port : u16; ud_payload : list u8 }.
Record Icmp4View := MkIcmp4View { ic_type : Icmp4Type; ic_ident : u16; ic_seq_no : u16; ic_data : list u8 }.
(** Neighbour discovery: [NdiscRepr]. *)
Inductive Ndisc :=
  | NdSolicit (target : Ipv6Addr)
  | NdAdvert (flags : u8) (target : Ipv6Addr) (lladdr : list u8)
  | NdOther.

Definition mac_ok (m : list u8) : Prop := length m = 6 ∧ bytes_ok m.

(** ** DHCP *)

Inductive DhcpType := Discover | Offer | Request | Ack | Nak | DhcpOtherType (n : u8).
Inductive DhcpOpt :=
  | OptMessageType (t : DhcpType)
  | OptServerIdentifier (a : Ipv4Addr)
  | OptAddressLeaseTime (n : u32)
  | OptSubnetMask (a : Ipv4Addr)
  | OptRouter (l : list Ipv4Addr)
  | OptClasslessStaticRoute (l : list (Ipv4Addr * u8 * Ipv4Addr))
  | OptDomainNameServer (l : list Ipv4Addr)
  | OptRequestedIpAddress (a : Ipv4Addr)
  | OptOther (code : u8) (data : list u8).
Definition opt_code (o : DhcpOpt) : u8 :=
  match o with
  | OptMessageType _ => 53
  | OptServerIdentifier _ => 54
  | OptAddressLeaseTime _ => 51
  | OptSubnetMask _ => 1
  | OptRouter _ => 3
  | OptClasslessStaticRoute _ => 121
  | OptDomainNameServer _ => 6
  | OptRequestedIpAddress _ => 50
  | OptOther code _ => code
  end%N.

(** [chaddr] is the hardware address of the length the message gives. *)
Record DhcpMsg := MkDhcpMsg {
  dm_request : bool; dm_htype : u8; dm_xid : u32; dm_flags : u16; dm_ciaddr : Ipv4Addr;
  dm_yiaddr : Ipv4Addr; dm_siaddr : Ipv4Addr; dm_chaddr : list u8; dm_opts : gmap N DhcpOpt }.
#[export] Instance DhcpMsg_eta : Eta DhcpMsg := λ m,
  MkDhcpMsg (dm_request m) (dm_htype m) (dm_xid m) (dm_flags m) (dm_ciaddr m) (dm_yiaddr m)
    (dm_siaddr m) (dm_chaddr m) (dm_opts m).

Definition broadcast_flag (f : u16) : bool := N.testbit f 15.
Definition opts_insert (o : DhcpOpt) (m : DhcpMsg) : DhcpMsg :=
  m <| dm_opts := <[opt_code o := o]> (dm_opts m) |>.

Inductive Dhcp6Type :=
  | Solicit6 | Advertise6 | Request6 | Confirm6 | Renew6 | Rebind6 | Reply6 | InformationRequest6
  | Dhcp6Other (n : u8).
#[export] Instance Dhcp6Type_eq : EqDecision Dhcp6Type.
Proof. solve_decision. Defined.
(** An [IAAddr] is an address with its two lifetimes. *)
Inductive Dhcp6Opt :=
  | Opt6ClientId (duid : list u8)
  | Opt6ServerId (duid : list u8)
  | Opt6IANA (iaid t1 t2 : u32) (addrs : list (Ipv6Addr * u32 * u32))
  | Opt6DomainNameServers (l : list Ipv6Addr)
  | Opt6StatusSuccess
  | Opt6Other (code : u16) (data : list u8).
Definition opt6_code (o : Dhcp6Opt) : u16 :=
  match o with
  | Opt6ClientId _ => 1 | Opt6ServerId _ => 2 | Opt6IANA _ _ _ _ => 3 | Opt6StatusSuccess => 13
  | Opt6DomainNameServers _ => 23 | Opt6Other code _ => code
  end%N.
(** The options of a message, of which [get] finds the first of a code. *)
Record Dhcp6Msg := MkDhcp6Msg { d6_type : Dhcp6Type; d6_xid : N; d6_opts : list Dhcp6Opt }.
Definition opts6_get (code : u16) (l : list Dhcp6Opt) : option Dhcp6Opt :=
  List.find (λ o, opt6_code o =? code)%N l.

(** No option is one that the library does not know. *)
Definition known_opts (m : DhcpMsg) : Prop :=
  ∀ k o, dm_opts m !! k = Some o → match o with OptOther _ _ => False | _ => True end.
Definition known_opts6 (m : Dhcp6Msg) : Prop :=
  ∀ o, o ∈ d6_opts m → match o with Opt6Other _ _ => False | _ => True end.

Class Dhcp := {
  dhcp_decode : list u8 → option DhcpMsg;
  dhcp_encode : DhcpMsg → option (list u8);
  dhcp_default : DhcpMsg;
  dhcp6_decode : list u8 → option Dhcp6Msg;
  dhcp6_encode : Dhcp6Msg → option (list u8);
  (** Options are kept in the order of their codes. *)
  dhcp6_insert : Dhcp6Opt → list Dhcp6Opt → list Dhcp6Opt;
  dhcp_default_opts : dm_opts dhcp_default = ∅;
  dhcp_roundtrip m b : known_opts m → dhcp_encode m = Some b → dhcp_decode b = Some m;
  dhcp6_roundtrip m b : known_opts6 m → dhcp6_encode m = Some b → dhcp6_decode b = Some m;
  dhcp6_insert_elem o l x : x ∈ dhcp6_insert o l ↔ x = o ∨ x ∈ l;
  dhcp6_bytes m b : dhcp6_encode m = Some b → bytes_ok b;
}.

(** * Checksums *)

(** The 16 bytes of an IPv6 address, and the address of 16 bytes. *)
Definition be128 (a : Ipv6Addr) : list u8 := (λ i, (a / 256 ^ N.of_nat i) `mod` 256)%N <$> reverse (seq 0 16).
Definition of_be (l : list u8) : N := foldl (λ a b, 256 * a + b)%N 0%N l.

(** The sum of the big-endian words; a last single byte is the high half of one. *)
Fixpoint words_sum (sum : u32) (l : list u8) : u32 :=
  match l with
  | [] => sum
  | [b] => u32_add sum (b * 256)
  | hi :: lo :: l => words_sum (u32_add sum (hi * 256 + lo)) l
  end.

(** [while sum > 0xffff]; two rounds are enough for 32 bits. *)
Fixpoint fold16 (fuel : nat) (sum : u32) : u32 :=
  match fuel with
  | O => sum
  | S fuel =>
      if (65535 <? sum)%N then fold16 fuel (u32_add (N.land sum 65535) (N.shiftr sum 16)) else sum
  end.

Definition pseudo_sum (src dst : Ipv6Addr) (next_header : u8) (data : list u8) : u32 :=
  words_sum (u32_add (u32_add (words_sum (words_sum 0 (be128 src)) (be128 dst))
    (wrap 32 (N.of_nat (length data)))) next_header) data.

(** [compute_icmpv6_checksum] with 58, [compute_udp6_checksum] with 17. *)
Definition compute_checksum (src dst : Ipv6Addr) (next_header : u8) (data : list u8) : u16 :=
  let result := N.lnot (fold16 2 (pseudo_sum src dst next_header data)) 16 in
  if (result =? 0)%N then 65535 else result.

(** What a receiver checks: the words, with the checksum among them, add up to ones. *)
Definition checksum_ok (src dst : Ipv6Addr) (next_header : u8) (data : list u8) : bool :=
  (fold16 2 (pseudo_sum src dst next_header data) =? 65535)%N.

(** ** The sum without overflow *)

Fixpoint plain_sum (l : list u8) : N :=
  match l with
  | [] => 0
  | [b] => b * 256
  | hi :: lo :: l => hi * 256 + lo + plain_sum l
  end%N.

Lemma list_pair_ind (Q : list u8 → Prop) :
  Q [] → (∀ b, Q [b]) → (∀ a b l, Q l → Q (a :: b :: l)) → ∀ l, Q l.
Proof.
  intros H0 H1 H2 l. assert (H : Q l ∧ ∀ b, Q (b :: l)); [|by destruct H].
  induction l as [|x l [IH1 IH2]]; [by split|]. split; [apply IH2|]. intros b. by apply H2.
Qed.

Lemma words_sum_plain l sum : bytes_ok l → (sum + 65536 * N.of_nat (length l) < 2 ^ 32)%N →
  words_sum sum l = (sum + plain_sum l)%N.
Proof.
  revert sum. induction l as [|b|hi lo l IH] using list_pair_ind; intros sum Hb Hs.
  - cbn. lia.
  - apply Forall_cons_1 in Hb as [Hb _]. cbn [words_sum plain_sum length] in *.
    apply u32_add_small. lia.
  - apply Forall_cons_1 in Hb as [Hhi Hb]. apply Forall_cons_1 in Hb as [Hlo Hb].
    cbn [words_sum plain_sum length] in *.
    rewrite u32_add_small by lia. rewrite IH by (done || lia). lia.
Qed.

Lemma plain_sum_app l l' : Nat.Even (length l) → plain_sum (l ++ l') = (plain_sum l + plain_sum l')%N.
Proof.
  induction l as [|b|hi lo l IH] using list_pair_ind; intros He; [done|by destruct He as [? [=]]; lia|].
  cbn [app plain_sum]. rewrite IH; [lia|]. destruct He as [k Hk]. exists (k - 1). cbn in Hk. lia.
Qed.

Lemma plain_sum_be16 v : (v < 65536)%N → plain_sum (be16 v) = v.
Proof.
  intros Hv. unfold be16. cbn [plain_sum].
  assert (v `div` 256 < 256)%N by (apply N.Div0.div_lt_upper_bound; done).
  rewrite (N.mod_small (v `div` 256)) by done. pose proof (N.div_mod v 256). lia.
Qed.

Lemma be128_ok a : length (be128 a) = 16 ∧ bytes_ok (be128 a).
Proof.
  unfold be128. split; [by rewrite length_fmap, length_reverse, length_seq|].
  apply Forall_fmap, list.Forall_forall. intros i _. cbn. by apply N.mod_lt.
Qed.

(** ** Folding *)

Lemma fold_step sum : (sum < 2 ^ 32)%N →
  u32_add (N.land sum 65535) (N.shiftr sum 16) = (sum `mod` 65536 + sum `div` 65536)%N.
Proof.
  intros H. change 65535%N with (N.ones 16). rewrite N.land_ones, N.shiftr_div_pow2.
  change (2 ^ 16)%N with 65536%N. apply u32_add_small.
  assert (sum `div` 65536 < 65536)%N by (apply N.Div0.div_lt_upper_bound; done).
  pose proof (N.mod_lt sum 65536). change (2 ^ 32)%N with 4294967296%N. lia.
Qed.

(** The folded sum is the sum modulo 65535, with 65535 for 0, unless it is 0. *)
Lemma fold16_spec sum : (sum < 2 ^ 32)%N →
  (fold16 2 sum ≤ 65535)%N ∧ (0 < sum → 0 < fold16 2 sum)%N ∧
  (∃ k, sum = fold16 2 sum + 65535 * k)%N.
Proof.
  intros H. change (2 ^ 32)%N with 4294967296%N in H. cbn [fold16].
  destruct (N.ltb_spec 65535 sum) as [H1|H1]; [|split_and!; [done|done|exists 0%N; lia]].
  rewrite fold_step by done.
  pose proof (N.div_mod sum 65536 ltac:(done)) as E. pose proof (N.mod_lt sum 65536 ltac:(done)) as Hm.
  assert (Hd : (sum `div` 65536 < 65536)%N) by (apply N.Div0.div_lt_upper_bound; done).
  revert E Hm Hd. generalize (sum `div` 65536)%N (sum `mod` 65536)%N. intros q r E Hm Hd.
  destruct (N.ltb_spec 65535 (r + q)) as [H2|H2]; [|split_and!; [lia|lia|exists q; lia]].
  rewrite fold_step by (change (2 ^ 32)%N with 4294967296%N; lia).
  assert ((r + q) `div` 65536 = 1)%N as Hq by (symmetry; apply (N.div_unique _ _ _ (r + q - 65536)%N); lia).
  rewrite (N.Div0.mod_eq (r + q) 65536), Hq.
  split_and!; [lia|lia|exists (q + 1)%N; lia].
Qed.

Lemma lnot16 n : (n ≤ 65535)%N → N.lnot n 16 = (65535 - n)%N.
Proof.
  intros H. destruct (N.eq_dec n 0%N) as [->|Hn]; [done|].
  apply N.add_cancel_r with (p := n). rewrite N.sub_add by done.
  rewrite N.add_comm. change 65535%N with (N.ones 16). apply N.add_lnot_diag_low.
  apply N.log2_lt_pow2; [lia|]. change (2 ^ 16)%N with 65536%N. lia.
Qed.

(** A sum with the complement of its fold added folds to ones. *)
Lemma complement_folds sum : (0 < sum)%N → (sum + 65535 < 2 ^ 32)%N →
  fold16 2 (sum + (if (N.lnot (fold16 2 sum) 16 =? 0)%N then 65535 else N.lnot (fold16 2 sum) 16)) = 65535%N.
Proof.
  intros H0 H. destruct (fold16_spec sum) as (Hle & Hpos & k & Hk); [lia|]. specialize (Hpos H0).
  rewrite lnot16 by done. set (f := fold16 2 sum) in *.
  set (c := if (65535 - f =? 0)%N then 65535%N else (65535 - f)%N).
  assert (Hc : (f + c = 65535 ∨ f + c = 131070)%N ∧ (c ≤ 65535)%N)
    by (unfold c; destruct (N.eqb_spec (65535 - f) 0); lia).
  destruct (fold16_spec (sum + c)) as (Hle' & Hpos' & k' & Hk'); [lia|]. specialize (Hpos' ltac:(lia)).
  set (g := fold16 2 (sum + c)) in *. destruct Hc as [[Hc|Hc] _]; lia.
Qed.

Lemma pseudo_sum_plain src dst nh data : bytes_ok data → (N.of_nat (length data) ≤ 65000)%N → (nh < 256)%N →
  pseudo_sum src dst nh data =
    (plain_sum (be128 src) + plain_sum (be128 dst) + N.of_nat (length data) + nh + plain_sum data)%N ∧
  (pseudo_sum src dst nh data + 65535 < 2 ^ 32)%N.
Proof.
  intros Hd Hl Hn. unfold pseudo_sum. destruct (be128_ok src) as [Ls Os], (be128_ok dst) as [Ld Od].
  assert (Hbound : ∀ l, bytes_ok l → (plain_sum l ≤ 65535 * N.of_nat (length l))%N).
  { clear. intros l. induction l as [|b|hi lo l IH] using list_pair_ind; intros Hb; [done|..].
    - apply Forall_cons_1 in Hb as [Hb _]. cbn [plain_sum length]. lia.
    - apply Forall_cons_1 in Hb as [Hhi Hb]. apply Forall_cons_1 in Hb as [Hlo Hb].
      specialize (IH Hb). cbn [plain_sum length]. lia. }
  pose proof (Hbound _ Os). pose proof (Hbound _ Od). pose proof (Hbound _ Hd).
  rewrite Ls, Ld in *. change (2 ^ 32)%N with 4294967296%N.
  rewrite (words_sum_plain (be128 src)) by (rewrite ?Ls; done).
  rewrite (words_sum_plain (be128 dst)) by (rewrite ?Ld; change (2 ^ 32)%N with 4294967296%N; done || lia).
  unfold wrap. rewrite N.mod_small by (change (2 ^ 32)%N with 4294967296%N; lia).
  rewrite (u32_add_small (_ + _) (N.of_nat _)) by (change (2 ^ 32)%N with 4294967296%N; lia).
  rewrite u32_add_small by (change (2 ^ 32)%N with 4294967296%N; lia).
  rewrite words_sum_plain by (change (2 ^ 32)%N with 4294967296%N; done || lia). lia.
Qed.

(** The checksum a handler writes into a zeroed field at an even offset is the one a
    receiver accepts. *)
Lemma checksum_valid src dst nh data k :
  bytes_ok data → (N.of_nat (length data) ≤ 65000)%N → (0 < nh < 256)%N → Nat.Even k → k + 2 ≤ length data →
  data !! k = Some 0%N → data !! S k = Some 0%N →
  checksum_ok src dst nh (put k (be16 (compute_checksum src dst nh data)) data) = true.
Proof.
  intros Hb Hl Hn Hk Hkl H0 H1. unfold checksum_ok, compute_checksum. cbv zeta.
  destruct (pseudo_sum_plain src dst nh data Hb Hl ltac:(lia)) as [Hs Hbound].
  set (s := pseudo_sum src dst nh data) in *.
  set (c := if (N.lnot (fold16 2 s) 16 =? 0)%N then 65535%N else N.lnot (fold16 2 s) 16).
  assert (Hc : (c ≤ 65535)%N).
  { unfold c. destruct (fold16_spec s) as (Hf & _); [lia|]. revert Hf. generalize (fold16 2 s).
    intros f Hf. rewrite lnot16 by done. destruct (N.eqb_spec (65535 - f) 0); lia. }
  assert (Hsplit : data = take k data ++ be16 0 ++ drop (k + 2) data).
  { rewrite <- (take_drop k data) at 1. f_equal.
    rewrite (drop_S data 0%N k H0), (drop_S data 0%N (S k) H1). by replace (k + 2) with (S (S k)) by lia. }
  assert (Htk : Nat.Even (length (take k data))) by (rewrite length_take, Nat.min_l by lia; done).
  assert (Hp : plain_sum (put k (be16 c) data) = (plain_sum data + c)%N).
  { unfold put. change (length (be16 c)) with 2. rewrite (plain_sum_app (take k data)) by done.
    rewrite (plain_sum_app (be16 c)) by (by exists 1). rewrite plain_sum_be16 by lia.
    rewrite Hsplit at 3. rewrite (plain_sum_app (take k data)) by done.
    rewrite (plain_sum_app (be16 0)) by (by exists 1). rewrite plain_sum_be16 by done. lia. }
  assert (Hlen : length (put k (be16 c) data) = length data).
  { unfold put. rewrite !length_app, length_take, length_drop. cbn. lia. }
  assert (Hok : bytes_ok (put k (be16 c) data)).
  { unfold put, bytes_ok. apply Forall_app. split; [by apply Forall_take|]. apply Forall_app.
    split; [|by apply Forall_drop]. repeat constructor; by apply N.mod_lt. }
  destruct (pseudo_sum_plain src dst nh (put k (be16 c) data) Hok) as [Hs' _]; [lia|lia|].
  rewrite Hs', Hlen, Hp, N.add_assoc, <- Hs. apply N.eqb_eq. apply complement_folds; lia.
Qed.

(** * Packets

    An emitted header or message is read back by the checked parser, and has a valid
    checksum. *)

Class Wire := {
  wire_eth : list u8 → option EthView;
  wire_arp : list u8 → option ArpRepr;
  wire_ip4 : list u8 → option Ip4View;
  wire_ip6 : list u8 → option Ip6View;
  wire_udp : list u8 → option UdpView;
  wire_icmp4 : list u8 → option Icmp4View;
  wire_icmp6 : list u8 → option Icmp6Type;
  (** The destinations by the accessors of an unchecked packet. *)
  raw_ip4_dst : list u8 → Ipv4Addr;
  raw_ip6_dst : list u8 → Ipv6Addr;
  wire_ndisc : list u8 → option Ndisc;
  emit_eth : list u8 → list u8 → EtherType → list u8;
  emit_arp : ArpRepr → list u8;
  emit_ip4 : Ipv4Addr → Ipv4Addr → IpProto → nat → u8 → list u8;
  emit_ip6 : Ipv6Addr → Ipv6Addr → IpProto → nat → u8 → list u8;
  emit_udp4 : Ipv4Addr → Ipv4Addr → u16 → u16 → list u8 → list u8;
  emit_icmp4_reply : u16 → u16 → list u8 → list u8;
  emit_ndisc : Ipv6Addr → Ipv6Addr → Ndisc → list u8;
  wire_eth_ok f v : wire_eth f = Some v →
    mac_ok (ev_dst v) ∧ mac_ok (ev_src v) ∧ (bytes_ok f → bytes_ok (ev_payload v)) ∧
    length (ev_payload v) < length f;
  wire_eth_emit dst src t p : mac_ok dst → mac_ok src → t = EtIpv4 ∨ t = EtArp ∨ t = EtIpv6 →
    wire_eth (emit_eth dst src t ++ p) = Some (MkEthView dst src t p);
  wire_arp_ok p r : wire_arp p = Some r →
    mac_ok (ar_sha r) ∧ (ar_spa r < 2 ^ 32)%N ∧ (ar_tpa r < 2 ^ 32)%N;
  wire_arp_emit sha spa tha tpa : mac_ok sha → mac_ok tha → (spa < 2 ^ 32)%N → (tpa < 2 ^ 32)%N →
    wire_arp (emit_arp (MkArpRepr ArpReply sha spa tha tpa)) = Some (MkArpRepr ArpReply sha spa tha tpa);
  wire_ip4_ok p v : wire_ip4 p = Some v →
    (i4_src v < 2 ^ 32)%N ∧ (i4_dst v < 2 ^ 32)%N ∧ length (i4_payload v) < length p;
  wire_ip4_emit src dst pr ttl p : (src < 2 ^ 32)%N → (dst < 2 ^ 32)%N → pr = PrUdp ∨ pr = PrIcmp →
    (20 + N.of_nat (length p) < 65536)%N →
    wire_ip4 (emit_ip4 src dst pr (length p) ttl ++ p) = Some (MkIp4View src dst pr p);
  wire_icmp4_ok p v : wire_icmp4 p = Some v →
    (ic_ident v < 65536)%N ∧ (ic_seq_no v < 65536)%N ∧ 8 + length (ic_data v) ≤ length p;
  wire_icmp4_emit ident seq d : (ident < 65536)%N → (seq < 65536)%N →
    wire_icmp4 (emit_icmp4_reply ident seq d) = Some (MkIcmp4View Echo4Reply ident seq d);
  emit_icmp4_length ident seq d : length (emit_icmp4_reply ident seq d) = 8 + length d;
  wire_ip6_ok p v : wire_ip6 p = Some v →
    (i6_src v < 2 ^ 128)%N ∧ (i6_dst v < 2 ^ 128)%N ∧ (bytes_ok p → bytes_ok (i6_payload v)) ∧
    length (i6_payload v) < length p;
  wire_ip6_emit src dst pr ttl p : (src < 2 ^ 128)%N → (dst < 2 ^ 128)%N → pr = PrUdp ∨ pr = PrIcmpv6 →
    (N.of_nat (length p) < 65536)%N →
    wire_ip6 (emit_ip6 src dst pr (length p) ttl ++ p) = Some (MkIp6View src dst pr p);
  wire_ndisc_ok p t : wire_ndisc p = Some (NdSolicit t) → (t < 2 ^ 128)%N;
  emit_ndisc_length src dst fl t ll : length ll = 6 → length (emit_ndisc src dst (NdAdvert fl t ll)) = 32;
  emit_ndisc_checksum src dst fl t ll : (fl < 256)%N → mac_ok ll →
    checksum_ok src dst 58 (emit_ndisc src dst (NdAdvert fl t ll)) = true;
}.
