(* ===== verification/NetProto.v ===== *)
(** The protocol handlers by which the daemons answer their guests: ARP, DHCP, ICMP,
    neighbour discovery and DHCPv6 of mvirt-net (src/reactor/arp.rs, dhcp.rs,
    icmpv6.rs, dhcpv6.rs) and of mvirt-ebpf (src/proto_handler.rs). *)

From S2P Require Import Prelude Rpc Packet NetAddr NetRoute EbNet NetSvc NetIovec NetRx NetWire.

Definition GATEWAY_IPV4_LINK_LOCAL : Ipv4Addr := 2851995649%N.
Definition GATEWAY_IPV6_LINK_LOCAL : Ipv6Addr := (65152 * 2 ^ 112 + 1)%N.
Definition BROADCAST_MAC : list u8 := [255; 255; 255; 255; 255; 255]%N.
Definition BROADCAST_IPV4 : Ipv4Addr := 4294967295%N.

Definition DHCP_SERVER_PORT : u16 := 67%N.
Definition DHCP_CLIENT_PORT : u16 := 68%N.
Definition DEFAULT_LEASE_TIME : u32 := 86400%N.
Definition DHCP6_SERVER_PORT : u16 := 547%N.
Definition DHCP6_CLIENT_PORT : u16 := 546%N.
Definition PREFERRED_LIFETIME : u32 := 86400%N.
Definition VALID_LIFETIME : u32 := 172800%N.

(** A handler sends a packet, says nothing, or indexes past the end of a slice. *)
Inductive Answer := Silent | Sends (packet : list u8) | Panics.
Definition answer_of (o : option (list u8)) : Answer :=
  match o with Some p => Sends p | None => Silent end.

(** [mac_to_link_local], also written out in [build_dhcpv6_packet]. *)
Definition mac_to_link_local (mac : list u8) : Ipv6Addr :=
  (65152 * 2 ^ 112
   + N.lor (N.shiftl (N.lxor (mac !!! 0%nat) 2) 8) (mac !!! 1%nat) * 2 ^ 48
   + N.lor (N.shiftl (mac !!! 2%nat) 8) 255 * 2 ^ 32
   + N.lor 65024 (mac !!! 3%nat) * 2 ^ 16
   + N.lor (N.shiftl (mac !!! 4%nat) 8) (mac !!! 5%nat))%N.

Definition ipv4_servers (l : list IpAddr) : list Ipv4Addr :=
  omap (λ ip, match ip with V4 a => Some a | V6 _ => None end) l.
Definition ipv6_servers (l : list IpAddr) : list Ipv6Addr :=
  omap (λ ip, match ip with V6 a => Some a | V4 _ => None end) l.

Section proto.
Context {wire : Wire} {dhcp : Dhcp}.

(** * Frames *)

Definition with_checksum (k : nat) (src dst : Ipv6Addr) (next_header : u8) (data : list u8) : list u8 :=
  put k (be16 (compute_checksum src dst next_header data)) data.

(** An ICMPv6 message with its headers, and a DHCPv6 message with its. *)
Definition icmpv6_frame (src dst : Ipv6Addr) (dst_mac : list u8) (hop_limit : u8) (data : list u8) : list u8 :=
  emit_eth dst_mac GATEWAY_MAC EtIpv6 ++ emit_ip6 src dst PrIcmpv6 (length data) hop_limit
  ++ with_checksum 2 src dst 58 data.

Definition dhcpv6_udp (dhcp_bytes : list u8) : list u8 :=
  be16 DHCP6_SERVER_PORT ++ be16 DHCP6_CLIENT_PORT ++ be16 (wrap 16 (8 + N.of_nat (length dhcp_bytes)))
  ++ [0; 0]%N ++ dhcp_bytes.
Definition dhcpv6_frame (dst : Ipv6Addr) (dst_mac dhcp_bytes : list u8) : list u8 :=
  let gateway_ll := mac_to_link_local GATEWAY_MAC in
  let udp := dhcpv6_udp dhcp_bytes in
  emit_eth dst_mac GATEWAY_MAC EtIpv6 ++ emit_ip6 gateway_ll dst PrUdp (length udp) 64
  ++ with_checksum 6 gateway_ll dst 17 udp.

Definition dhcp_frame (dst_ip : Ipv4Addr) (dst_mac dhcp_bytes : list u8) : list u8 :=
  emit_eth dst_mac GATEWAY_MAC EtIpv4
  ++ emit_ip4 GATEWAY_IPV4_LINK_LOCAL dst_ip PrUdp (8 + length dhcp_bytes) 64
  ++ emit_udp4 GATEWAY_IPV4_LINK_LOCAL dst_ip DHCP_SERVER_PORT DHCP_CLIENT_PORT dhcp_bytes.

Definition arp_frame (tha : list u8) (tpa spa : Ipv4Addr) : list u8 :=
  emit_eth tha GATEWAY_MAC EtArp ++ emit_arp (MkArpRepr ArpReply GATEWAY_MAC spa tha tpa).

Definition icmp_frame (dst_mac : list u8) (src dst : Ipv4Addr) (icmp : Icmp4View) : list u8 :=
  let reply := emit_icmp4_reply (ic_ident icmp) (ic_seq_no icmp) (ic_data icmp) in
  emit_eth dst_mac GATEWAY_MAC EtIpv4 ++ emit_ip4 src dst PrIcmp (length reply) 64 ++ reply.

Definition zero_hdr (virtio_hdr : list u8) : list u8 := replicate (length virtio_hdr) 0%N.

(** The bodies of the ICMPv6 messages, with the checksum still 0. *)
Definition na_body (target : Ipv6Addr) : list u8 :=
  [136; 0; 0; 0; 96; 0; 0; 0]%N ++ be128 target ++ [2; 1]%N ++ GATEWAY_MAC.
Definition ra_body (flags : u8) : list u8 :=
  [134; 0; 0; 0; 64; flags]%N ++ be16 1800 ++ replicate 8 0%N ++ [1; 1]%N ++ GATEWAY_MAC.
Definition echo_body (request : list u8) : list u8 := put 0 [129; 0; 0; 0]%N request.

(** * mvirt-net *)

(** ** ARP *)

Definition build_arp_reply (virtio_hdr tha : list u8) (tpa spa : Ipv4Addr) : list u8 :=
  virtio_hdr ++ arp_frame tha tpa spa.

Definition handle_arp_packet (virtio_hdr frame : list u8) : option (list u8) :=
  eth ← wire_eth frame;
  match ev_type eth with
  | EtArp =>
      arp ← wire_arp (ev_payload eth);
      match ar_op arp with
      | ArpRequest =>
          if (ar_tpa arp =? GATEWAY_IPV4_LINK_LOCAL)%N
          then Some (build_arp_reply virtio_hdr (ar_sha arp) (ar_spa arp) (ar_tpa arp)) else None
      | _ => None
      end
  | _ => None
  end.

(** ** ICMPv6 *)

Definition is_gateway_v6 (c : NicConfig) (a : Ipv6Addr) : bool :=
  (a =? GATEWAY_IPV6_LINK_LOCAL)%N
  || match cfg_ipv6_gateway c with Some g => (a =? g)%N | None => false end.

Definition build_neighbor_advertisement (virtio_hdr : list u8) (dst : Ipv6Addr) (dst_mac : list u8)
    (target : Ipv6Addr) : list u8 :=
  zero_hdr virtio_hdr ++ icmpv6_frame GATEWAY_IPV6_LINK_LOCAL dst dst_mac 255 (na_body target).
Definition build_echo_reply (virtio_hdr request : list u8) (dst : Ipv6Addr) (dst_mac : list u8) : list u8 :=
  zero_hdr virtio_hdr ++ icmpv6_frame GATEWAY_IPV6_LINK_LOCAL dst dst_mac 64 (echo_body request).
Definition build_router_advertisement (c : NicConfig) (virtio_hdr : list u8) (dst : Ipv6Addr)
    (dst_mac : list u8) : list u8 :=
  let flags := match cfg_dns_servers c with [] => 128%N | _ => 192%N end in
  zero_hdr virtio_hdr ++ icmpv6_frame GATEWAY_IPV6_LINK_LOCAL dst dst_mac 255 (ra_body flags).

Definition handle_neighbor_solicitation (c : NicConfig) (virtio_hdr raw : list u8) (src : Ipv6Addr)
    (src_mac : list u8) : option (list u8) :=
  if length raw <? 24 then None else
  let target := of_be (take 16 (drop 8 raw)) in
  if is_gateway_v6 c target then Some (build_neighbor_advertisement virtio_hdr src src_mac target)
  else None.
Definition handle_echo_request (c : NicConfig) (virtio_hdr raw : list u8) (src : Ipv6Addr)
    (src_mac : list u8) (dst : Ipv6Addr) : option (list u8) :=
  if length raw <? 8 then None else
  if is_gateway_v6 c dst then Some (build_echo_reply virtio_hdr raw src src_mac) else None.

Definition handle_icmpv6_packet (c : NicConfig) (virtio_hdr frame : list u8) : option (list u8) :=
  eth ← wire_eth frame;
  match ev_type eth with
  | EtIpv6 =>
      ip ← wire_ip6 (ev_payload eth);
      match i6_proto ip with
      | PrIcmpv6 =>
          t ← wire_icmp6 (i6_payload ip);
          match t with
          | NeighborSolicit =>
              handle_neighbor_solicitation c virtio_hdr (i6_payload ip) (i6_src ip) (ev_src eth)
          | RouterSolicit => Some (build_router_advertisement c virtio_hdr (i6_src ip) (ev_src eth))
          | Echo6Request =>
              handle_echo_request c virtio_hdr (i6_payload ip) (i6_src ip) (ev_src eth) (i6_dst ip)
          | Icmp6Other _ => None
          end
      | _ => None
      end
  | _ => None
  end.

(** ** DHCP *)

Definition get_dhcp_message_type (m : DhcpMsg) : option DhcpType :=
  match dm_opts m !! 53%N with Some (OptMessageType t) => Some t | _ => None end.
Definition requested_ip (m : DhcpMsg) : option Ipv4Addr :=
  match dm_opts m !! 50%N with Some (OptRequestedIpAddress a) => Some a | _ => None end.

(** 169.254.0.1 on the link, and everything else by it. *)
Definition static_routes : DhcpOpt :=
  OptClasslessStaticRoute [(GATEWAY_IPV4_LINK_LOCAL, 32, 0); (0, 0, GATEWAY_IPV4_LINK_LOCAL)]%N.

Definition with_dns_option (servers : list IpAddr) (m : DhcpMsg) : DhcpMsg :=
  match ipv4_servers servers with [] => m | l => opts_insert (OptDomainNameServer l) m end.

Definition dhcp_response (c : NicConfig) (request : DhcpMsg) (t : DhcpType) (assigned : Ipv4Addr) : DhcpMsg :=
  let m := dhcp_default <| dm_request := false |> <| dm_htype := dm_htype request |>
    <| dm_xid := dm_xid request |> <| dm_flags := dm_flags request |> <| dm_yiaddr := assigned |>
    <| dm_siaddr := GATEWAY_IPV4_LINK_LOCAL |> <| dm_chaddr := dm_chaddr request |> in
  let m := if broadcast_flag (dm_flags request) then m <| dm_flags := 32768%N |> else m in
  let m := opts_insert (OptMessageType t) m in
  let m := opts_insert (OptServerIdentifier GATEWAY_IPV4_LINK_LOCAL) m in
  let m := opts_insert (OptAddressLeaseTime DEFAULT_LEASE_TIME) m in
  let m := opts_insert (OptSubnetMask 4294967295) m in
  let m := opts_insert (OptRouter [GATEWAY_IPV4_LINK_LOCAL]) m in
  let m := opts_insert static_routes m in
  with_dns_option (cfg_dns_servers c) m.

Definition dhcp_nak (request : DhcpMsg) : DhcpMsg :=
  let m := dhcp_default <| dm_request := false |> <| dm_htype := dm_htype request |>
    <| dm_xid := dm_xid request |> <| dm_chaddr := dm_chaddr request |> in
  opts_insert (OptServerIdentifier GATEWAY_IPV4_LINK_LOCAL) (opts_insert (OptMessageType Nak) m).

(** [request.chaddr()[..6]] panics when the hardware address is shorter. *)
Definition build_dhcp_packet (virtio_hdr : list u8) (request : DhcpMsg) (dhcp_bytes : list u8)
    (assigned : Ipv4Addr) : Answer :=
  if broadcast_flag (dm_flags request) || (dm_ciaddr request =? 0)%N then
    Sends (zero_hdr virtio_hdr ++ dhcp_frame BROADCAST_IPV4 BROADCAST_MAC dhcp_bytes)
  else if length (dm_chaddr request) <? 6 then Panics
  else Sends (zero_hdr virtio_hdr ++ dhcp_frame assigned (take 6 (dm_chaddr request)) dhcp_bytes).

Definition build_dhcp_packet_broadcast (virtio_hdr dhcp_bytes : list u8) : Answer :=
  Sends (zero_hdr virtio_hdr ++ dhcp_frame BROADCAST_IPV4 BROADCAST_MAC dhcp_bytes).

Definition build_dhcp_response (c : NicConfig) (virtio_hdr : list u8) (request : DhcpMsg) (t : DhcpType)
    (assigned : Ipv4Addr) : Answer :=
  match dhcp_encode (dhcp_response c request t assigned) with
  | Some bytes => build_dhcp_packet virtio_hdr request bytes assigned
  | None => Silent
  end.
Definition build_dhcp_nak (virtio_hdr : list u8) (request : DhcpMsg) : Answer :=
  match dhcp_encode (dhcp_nak request) with
  | Some bytes => build_dhcp_packet_broadcast virtio_hdr bytes
  | None => Silent
  end.

Definition handle_discover (c : NicConfig) (virtio_hdr : list u8) (m : DhcpMsg) : Answer :=
  match cfg_ipv4_address c with
  | Some a => build_dhcp_response c virtio_hdr m Offer a
  | None => Silent
  end.
Definition handle_request (c : NicConfig) (virtio_hdr : list u8) (m : DhcpMsg) : Answer :=
  match cfg_ipv4_address c with
  | Some a =>
      match requested_ip m with
      | Some r => if (r =? a)%N then build_dhcp_response c virtio_hdr m Ack a else build_dhcp_nak virtio_hdr m
      | None => build_dhcp_response c virtio_hdr m Ack a
      end
  | None => Silent
  end.

(** The DHCP message of a client in a frame. *)
Definition dhcp_message (frame : list u8) : option DhcpMsg :=
  eth ← wire_eth frame;
  match ev_type eth with
  | EtIpv4 =>
      ip ← wire_ip4 (ev_payload eth);
      match i4_proto ip with
      | PrUdp =>
          udp ← wire_udp (i4_payload ip);
          if negb (ud_dst_port udp =? DHCP_SERVER_PORT)%N then None else
          m ← dhcp_decode (ud_payload udp);
          if dm_request m then Some m else None
      | _ => None
      end
  | _ => None
  end.

Definition handle_dhcp_packet (c : NicConfig) (virtio_hdr frame : list u8) : Answer :=
  match dhcp_message frame with
  | Some m =>
      match get_dhcp_message_type m with
      | Some Discover => handle_discover c virtio_hdr m
      | Some Request => handle_request c virtio_hdr m
      | _ => Silent
      end
  | None => Silent
  end.

(** ** DHCPv6 *)

Definition server_duid : list u8 := [0; 3; 0; 1]%N ++ GATEWAY_MAC.
Definition client_iaid (opts : list Dhcp6Opt) : u32 :=
  match opts6_get 3 opts with Some (Opt6IANA iaid _ _ _) => iaid | _ => 1%N end.
Definition ia_na (iaid : u32) (a : Ipv6Addr) : Dhcp6Opt :=
  Opt6IANA iaid (PREFERRED_LIFETIME / 2) (PREFERRED_LIFETIME * 4 / 5)
    [(a, PREFERRED_LIFETIME, VALID_LIFETIME)].

(** Both daemons build the same options. *)
Definition dhcpv6_response (servers : list IpAddr) (request : Dhcp6Msg) (t : Dhcp6Type)
    (assigned : option Ipv6Addr) : option Dhcp6Msg :=
  match opts6_get 1 (d6_opts request) with
  | Some (Opt6ClientId duid) =>
      let opts := dhcp6_insert (Opt6ServerId server_duid) (dhcp6_insert (Opt6ClientId duid) []) in
      let opts := match assigned with
        | Some a => dhcp6_insert (ia_na (client_iaid (d6_opts request)) a) opts
        | None => opts
        end in
      let opts := match ipv6_servers servers with
        | [] => opts | l => dhcp6_insert (Opt6DomainNameServers l) opts end in
      Some (MkDhcp6Msg t (d6_xid request) (dhcp6_insert Opt6StatusSuccess opts))
  | _ => None
  end.

Definition build_dhcpv6_response (c : NicConfig) (virtio_hdr : list u8) (request : Dhcp6Msg) (t : Dhcp6Type)
    (dst : Ipv6Addr) (dst_mac : list u8) (assigned : option Ipv6Addr) : option (list u8) :=
  m ← dhcpv6_response (cfg_dns_servers c) request t assigned;
  bytes ← dhcp6_encode m;
  Some (zero_hdr virtio_hdr ++ dhcpv6_frame dst dst_mac bytes).

Definition handle_dhcpv6_packet (c : NicConfig) (virtio_hdr frame : list u8) : option (list u8) :=
  eth ← wire_eth frame;
  match ev_type eth with
  | EtIpv6 =>
      ip ← wire_ip6 (ev_payload eth);
      match i6_proto ip with
      | PrUdp =>
          udp ← wire_udp (i6_payload ip);
          if negb (ud_dst_port udp =? DHCP6_SERVER_PORT)%N then None else
          m ← dhcp6_decode (ud_payload udp);
          let respond t assigned :=
            build_dhcpv6_response c virtio_hdr m t (i6_src ip) (ev_src eth) assigned in
          match d6_type m with
          | Solicit6 => a ← cfg_ipv6_address c; respond Advertise6 (Some a)
          | Request6 | Renew6 | Rebind6 => a ← cfg_ipv6_address c; respond Reply6 (Some a)
          | Confirm6 | InformationRequest6 => respond Reply6 None
          | _ => None
          end
      | _ => None
      end
  | _ => None
  end.

(** ** The handlers together *)

Definition icmp_echo_reply (virtio_hdr : list u8) (eth : EthView) : option (list u8) :=
  ip ← wire_ip4 (ev_payload eth);
  if (i4_dst ip =? GATEWAY_IPV4_LINK_LOCAL)%N then
    match i4_proto ip with
    | PrIcmp =>
        icmp ← wire_icmp4 (i4_payload ip);
        match ic_type icmp with
        | Echo4Request => Some (zero_hdr virtio_hdr ++ icmp_frame (ev_src eth) (i4_dst ip) (i4_src ip) icmp)
        | _ => None
        end
    | _ => None
    end
  else None.

Definition or_else (a b : Answer) : Answer := match a with Silent => b | _ => a end.

(** The reply to the first 600 bytes of a packet, if it is for the daemon. *)
Definition protocol_answer (c : NicConfig) (peek : list u8) : Answer :=
  if length peek <=? VIRTIO_NET_HDR_SIZE then Silent else
  let virtio_hdr := take VIRTIO_NET_HDR_SIZE peek in
  let frame := drop VIRTIO_NET_HDR_SIZE peek in
  match wire_eth frame with
  | None => Silent
  | Some eth =>
      match ev_type eth with
      | EtArp => answer_of (handle_arp_packet virtio_hdr frame)
      | EtIpv4 => or_else (handle_dhcp_packet c virtio_hdr frame) (answer_of (icmp_echo_reply virtio_hdr eth))
      | EtIpv6 => or_else (answer_of (handle_icmpv6_packet c virtio_hdr frame))
                    (answer_of (handle_dhcpv6_packet c virtio_hdr frame))
      | EtOther _ => Silent
      end
  end.

(** * mvirt-ebpf *)

Section ebpf.
Context {nets4 : IpNets 32} {nets6 : IpNets 128}.
Context (nic : EbNic) (network : EbNetwork).

Definition process_arp (eth : EthView) : option (list u8) :=
  arp ← wire_arp (ev_payload eth);
  match ar_op arp with
  | ArpRequest =>
      if (ar_tpa arp =? GATEWAY_IPV4_LINK_LOCAL)%N
      then Some (arp_frame (ar_sha arp) (ar_spa arp) (ar_tpa arp)) else None
  | _ => None
  end.

Definition process_icmp (eth : EthView) (ip : Ip4View) : option (list u8) :=
  icmp ← wire_icmp4 (i4_payload ip);
  match ic_type icmp with
  | Echo4Request =>
      if (i4_dst ip =? GATEWAY_IPV4_LINK_LOCAL)%N
      then Some (icmp_frame (ev_src eth) GATEWAY_IPV4_LINK_LOCAL (i4_src ip) icmp) else None
  | _ => None
  end.

(** [0xFFFFFFFF.checked_shl(32 - prefix_len).unwrap_or(0)]. *)
Definition subnet_mask (subnet : Ipv4Net) : Ipv4Addr :=
  let n := (32 - net_prefix_len subnet)%N in
  if (n <? 32)%N then wrap 32 (N.shiftl 4294967295 n) else 0%N.

Definition eb_dhcp_response (m : DhcpMsg) (t : DhcpType) (assigned : Ipv4Addr) (subnet : Ipv4Net) : DhcpMsg :=
  let r := dhcp_default <| dm_request := false |> <| dm_xid := dm_xid m |> <| dm_yiaddr := assigned |>
    <| dm_siaddr := GATEWAY_IPV4_LINK_LOCAL |> <| dm_chaddr := dm_chaddr m |> <| dm_flags := dm_flags m |> in
  let r := opts_insert (OptMessageType t) r in
  let r := opts_insert (OptServerIdentifier GATEWAY_IPV4_LINK_LOCAL) r in
  let r := opts_insert (OptSubnetMask (subnet_mask subnet)) r in
  let r := opts_insert (OptRouter [GATEWAY_IPV4_LINK_LOCAL]) r in
  let r := opts_insert (OptAddressLeaseTime 86400) r in
  let r := opts_insert static_routes r in
  with_dns_option (en_dns_servers network) r.

(** The text of the client's MAC address is made from six bytes of [chaddr]. *)
Definition process_dhcp (payload : list u8) : Answer :=
  match dhcp_decode payload with
  | None => Silent
  | Some m =>
      if negb (dm_request m) then Silent else
      match get_dhcp_message_type m with
      | None => Silent
      | Some t =>
          if length (dm_chaddr m) <? 6 then Panics else
          if negb (take 6 (dm_chaddr m) == ec_mac_address nic) then Silent else
          match ec_ipv4_address nic, en_ipv4_subnet network with
          | Some assigned, Some subnet =>
              match (match t with Discover => Some Offer | Request => Some Ack | _ => None end) with
              | None => Silent
              | Some response_type =>
                  match dhcp_encode (eb_dhcp_response m response_type assigned subnet) with
                  | None => Silent
                  | Some bytes =>
                      if broadcast_flag (dm_flags m)
                      then Sends (dhcp_frame BROADCAST_IPV4 BROADCAST_MAC bytes)
                      else Sends (dhcp_frame assigned (ec_mac_address nic) bytes)
                  end
              end
          | _, _ => Silent
          end
      end
  end.

Definition process_ipv4 (eth : EthView) : Answer :=
  match wire_ip4 (ev_payload eth) with
  | None => Silent
  | Some ip =>
      match i4_proto ip with
      | PrUdp =>
          match wire_udp (i4_payload ip) with
          | Some udp =>
              if (ud_src_port udp =? 68)%N && (ud_dst_port udp =? 67)%N
              then process_dhcp (ud_payload udp) else Silent
          | None => Silent
          end
      | PrIcmp => answer_of (process_icmp eth ip)
      | _ => Silent
      end
  end.

Definition process_neighbor_solicitation (eth : EthView) (ip : Ip6View) : option (list u8) :=
  nd ← wire_ndisc (i6_payload ip);
  match nd with
  | NdSolicit target =>
      if (target =? GATEWAY_IPV6_LINK_LOCAL)%N then
        let body := emit_ndisc target (i6_src ip) (NdAdvert 224 target GATEWAY_MAC) in
        Some (emit_eth (ev_src eth) GATEWAY_MAC EtIpv6
              ++ emit_ip6 target (i6_src ip) PrIcmpv6 (length body) 255 ++ body)
      else None
  | _ => None
  end.

Definition process_router_solicitation (eth : EthView) : option (list u8) :=
  if negb (en_ipv6_enabled network) then None else
  let flags := match ipv6_servers (en_dns_servers network) with [] => 128%N | _ => 192%N end in
  Some (icmpv6_frame GATEWAY_IPV6_LINK_LOCAL (mac_to_link_local (ev_src eth)) (ev_src eth) 255 (ra_body flags)).

Definition process_icmpv6_echo (eth : EthView) (ip : Ip6View) : option (list u8) :=
  if negb (i6_dst ip =? GATEWAY_IPV6_LINK_LOCAL)%N then None
  else if length (i6_payload ip) <? 8 then None
  else Some (icmpv6_frame GATEWAY_IPV6_LINK_LOCAL (i6_src ip) (ev_src eth) 64 (echo_body (i6_payload ip))).

Definition process_dhcpv6 (eth : EthView) (ip : Ip6View) : option (list u8) :=
  udp ← wire_udp (i6_payload ip);
  if negb (ud_dst_port udp =? DHCP6_SERVER_PORT)%N then None else
  m ← dhcp6_decode (ud_payload udp);
  address ← ec_ipv6_address nic;
  t ← match d6_type m with
      | Solicit6 => Some Advertise6
      | Request6 | Renew6 | Rebind6 | Confirm6 | InformationRequest6 => Some Reply6
      | _ => None
      end;
  let assigned := if d6_type m == InformationRequest6 then None else Some address in
  r ← dhcpv6_response (en_dns_servers network) m t assigned;
  bytes ← dhcp6_encode r;
  Some (dhcpv6_frame (i6_src ip) (ev_src eth) bytes).

Definition process_ipv6 (eth : EthView) : option (list u8) :=
  ip ← wire_ip6 (ev_payload eth);
  match i6_proto ip with
  | PrIcmpv6 =>
      t ← wire_icmp6 (i6_payload ip);
      match t with
      | NeighborSolicit => process_neighbor_solicitation eth ip
      | RouterSolicit => process_router_solicitation eth
      | Echo6Request => process_icmpv6_echo eth ip
      | Icmp6Other _ => None
      end
  | PrUdp => process_dhcpv6 eth ip
  | _ => None
  end.

Definition process_packet (packet : list u8) : Answer :=
  match wire_eth packet with
  | None => Silent
  | Some eth =>
      match ev_type eth with
      | EtArp => answer_of (process_arp eth)
      | EtIpv4 => process_ipv4 eth
      | EtIpv6 => answer_of (process_ipv6 eth)
      | EtOther _ => Silent
      end
  end.

End ebpf.

(** * From a guest's packet to its queue

    [handle_vhost_ethernet_protocols] injects the reply into the RX queue of the guest
    itself; [None] for a reactor that panicked. A TUN reactor has no configuration. *)

Context {memory : GuestMemory} {queues : VirtQueue}.

Definition handle_vhost_ethernet_protocols (nic_config : option NicConfig) (peek : list u8) (v : VhostRx)
    : option bool * VhostRx :=
  match nic_config with
  | None => (Some false, v)
  | Some c =>
      match protocol_answer c peek with
      | Silent => (Some false, v)
      | Panics => (None, v)
      | Sends reply =>
          match inject_to_vhost_rx reply v with
          | (RxRet _, v) => (Some true, v)
          | (_, v) => (None, v)
          end
      end
  end.

(** * Routing *)

Context {nets4 : IpNets 32} {nets6 : IpNets 128} {new4 : NetNew 32} {new6 : NetNew 128}.
Context {maps4 : PrefixMaps 32} {maps6 : PrefixMaps 128}.

Definition route_ipv4 (ts : RoutingTables) (ip_data : list u8) : RoutingDecision :=
  if length ip_data <? 20 then DropPacket else decide_v4 ts (raw_ip4_dst ip_data).
Definition route_ipv6 (ts : RoutingTables) (ip_data : list u8) : RoutingDecision :=
  if length ip_data <? 40 then DropPacket else decide_v6 ts (raw_ip6_dst ip_data).

Definition peek_and_route_ethernet (ts : RoutingTables) (peek : list u8) : RoutingDecision :=
  if length peek <=? VIRTIO_NET_HDR_SIZE then DropPacket else
  match wire_eth (drop VIRTIO_NET_HDR_SIZE peek) with
  | None => DropPacket
  | Some eth =>
      match ev_type eth with
      | EtIpv4 => route_ipv4 ts (ev_payload eth)
      | EtIpv6 => route_ipv6 ts (ev_payload eth)
      | _ => DropPacket
      end
  end.

End proto.
