(* ===== verification/NetProtoFacts.v ===== *)
(** What guests get from the protocol handlers: the address they are configured with,
    replies with valid checksums from the gateway, and the same answers from both
    daemons. *)

From S2P Require Import Prelude Rpc Packet NetAddr NetRoute EbNet NetSvc NetIovec NetRx NetRxFacts NetWire NetProto.

(** * Bounds *)

Lemma lor_lt a b k : (a < 2 ^ k)%N → (b < 2 ^ k)%N → (N.lor a b < 2 ^ k)%N.
Proof.
  intros Ha Hb. destruct (N.eq_dec (N.lor a b) 0%N) as [->|Hn]; [apply N.neq_0_lt_0, N.pow_nonzero; done|].
  apply N.log2_lt_pow2; [lia|]. rewrite N.log2_lor. apply N.max_lub_lt.
  - destruct (N.eq_dec a 0%N) as [->|]; [|apply N.log2_lt_pow2; lia].
    destruct k; [|cbn; lia]. assert (b = 0%N) as -> by (cbn in Hb; lia). done.
  - destruct (N.eq_dec b 0%N) as [->|]; [|apply N.log2_lt_pow2; lia].
    destruct k; [|cbn; lia]. assert (a = 0%N) as -> by (cbn in Ha; lia). done.
Qed.

Lemma mac_byte mac i : bytes_ok mac → (mac !!! i < 256)%N.
Proof.
  intros H. destruct (mac !! i) as [b|] eqn:E.
  - rewrite (list_lookup_total_correct _ _ _ E). by eapply Forall_lookup_1 in H.
  - by rewrite list_lookup_total_alt, E.
Qed.

Lemma mac_to_link_local_lt mac : bytes_ok mac → (mac_to_link_local mac < 2 ^ 128)%N.
Proof.
  intros H. pose proof (mac_byte mac) as Hb. unfold mac_to_link_local.
  assert (Hs : ∀ a, (a < 256)%N → (N.shiftl a 8 < 2 ^ 16)%N).
  { intros a Ha. rewrite N.shiftl_mul_pow2. change (2 ^ 8)%N with 256%N. change (2 ^ 16)%N with 65536%N. lia. }
  assert (H8 : ∀ a, (a < 256)%N → (a < 2 ^ 16)%N) by (intros; etrans; [done|by vm_compute]).
  assert (Hx : (N.lxor (mac !!! 0%nat) 2 < 256)%N).
  { specialize (Hb 0%nat H). revert Hb. generalize (mac !!! 0%nat : N). intros a Ha.
    apply (forall_below (λ a, N.lxor a 2 <? 256)%N 256 a) in Ha; [by apply N.ltb_lt|by vm_compute]. }
  pose proof (lor_lt _ _ 16 (Hs _ Hx) (H8 _ (Hb 1%nat H))) as E1.
  pose proof (lor_lt _ 255 16 (Hs _ (Hb 2%nat H)) ltac:(by vm_compute)) as E2.
  pose proof (lor_lt 65024 _ 16 ltac:(by vm_compute) (H8 _ (Hb 3%nat H))) as E3.
  pose proof (lor_lt _ _ 16 (Hs _ (Hb 4%nat H)) (H8 _ (Hb 5%nat H))) as E4.
  revert E1 E2 E3 E4. generalize (N.lor (N.shiftl (N.lxor (mac !!! 0%nat) 2) 8) (mac !!! 1%nat))
    (N.lor (N.shiftl (mac !!! 2%nat) 8) 255) (N.lor 65024 (mac !!! 3%nat))
    (N.lor (N.shiftl (mac !!! 4%nat) 8) (mac !!! 5%nat)).
  intros a b c d. change (2 ^ 16)%N with 65536%N. lia.
Qed.

Lemma bytes_ok_app l l' : bytes_ok (l ++ l') ↔ bytes_ok l ∧ bytes_ok l'.
Proof. apply Forall_app. Qed.
Lemma be16_ok v : bytes_ok (be16 v).
Proof. repeat constructor; by apply N.mod_lt. Qed.
Lemma put_ok k bs l : bytes_ok bs → bytes_ok l → bytes_ok (put k bs l).
Proof.
  intros Hb Hl. unfold put. rewrite !bytes_ok_app. unfold bytes_ok. eauto using Forall_take, Forall_drop.
Qed.

Section facts.
Context {wire : Wire} {dhcp : Dhcp}.

(** * Replies over IPv6 *)

Definition proto_number (p : IpProto) : u8 :=
  match p with PrIcmp => 1 | PrUdp => 17 | PrIcmpv6 => 58 | PrOther n => n end%N.

(** A frame from the gateway to [mac] and [dst], with a valid checksum. *)
Definition reply_v6 (mac : list u8) (dst : Ipv6Addr) (f : list u8) : Prop :=
  ∃ packet ip, wire_eth f = Some (MkEthView mac GATEWAY_MAC EtIpv6 packet) ∧
    wire_ip6 packet = Some ip ∧ i6_dst ip = dst ∧
    checksum_ok (i6_src ip) dst (proto_number (i6_proto ip)) (i6_payload ip) = true.

Lemma gateway_mac_ok : mac_ok GATEWAY_MAC.
Proof. split; [done|]. repeat constructor. Qed.

Lemma frame_v6 mac src dst pr ttl k data :
  mac_ok mac → (src < 2 ^ 128)%N → (dst < 2 ^ 128)%N → pr = PrUdp ∨ pr = PrIcmpv6 →
  bytes_ok data → (N.of_nat (length data) ≤ 65000)%N → Nat.Even k → k + 2 ≤ length data →
  data !! k = Some 0%N → data !! S k = Some 0%N →
  reply_v6 mac dst (emit_eth mac GATEWAY_MAC EtIpv6 ++ emit_ip6 src dst pr (length data) ttl
    ++ with_checksum k src dst (proto_number pr) data).
Proof.
  intros Hm Hs Hd Hp Hb Hl He Hk H0 H1. set (body := with_checksum _ _ _ _ _).
  assert (Hlen : length body = length data).
  { unfold body, with_checksum. apply put_length. change (length (be16 _)) with 2. lia. }
  exists (emit_ip6 src dst pr (length data) ttl ++ body), (MkIp6View src dst pr body).
  split_and!.
  - apply wire_eth_emit; [done|apply gateway_mac_ok|auto].
  - rewrite <- Hlen. apply wire_ip6_emit; [done|done|done|lia].
  - done.
  - cbn [i6_src i6_proto i6_payload]. unfold body, with_checksum. apply checksum_valid; [done|done| |done..].
    by destruct Hp as [-> | ->].
Qed.

Lemma icmpv6_frame_ok mac src dst ttl data :
  mac_ok mac → (src < 2 ^ 128)%N → (dst < 2 ^ 128)%N → bytes_ok data →
  (N.of_nat (length data) ≤ 65000)%N → 4 ≤ length data → data !! 2 = Some 0%N → data !! 3 = Some 0%N →
  reply_v6 mac dst (icmpv6_frame src dst mac ttl data).
Proof.
  intros. change 58%N with (proto_number PrIcmpv6). apply frame_v6; [done..|auto|done|done|by exists 1|lia|done|done].
Qed.

Lemma dhcpv6_frame_ok mac dst bytes : mac_ok mac → (dst < 2 ^ 128)%N → bytes_ok bytes →
  (N.of_nat (length bytes) ≤ 64000)%N → reply_v6 mac dst (dhcpv6_frame dst mac bytes).
Proof.
  intros Hm Hd Hb Hl. unfold dhcpv6_frame. cbv zeta. change 17%N with (proto_number PrUdp).
  assert (Hlen : length (dhcpv6_udp bytes) = 8 + length bytes) by done.
  apply frame_v6; [done|by vm_compute|done|auto| |lia|by exists 3|lia|done|done].
  unfold dhcpv6_udp. rewrite !bytes_ok_app. split_and!; [apply be16_ok..| |done]. by repeat constructor.
Qed.

Lemma na_body_ok t : length (na_body t) = 32 ∧ bytes_ok (na_body t).
Proof.
  unfold na_body. destruct (be128_ok t) as [Hl Hb]. split; [by rewrite !length_app, Hl|].
  rewrite !bytes_ok_app. split_and!; [by repeat constructor|done|by repeat constructor|by repeat constructor].
Qed.
Lemma ra_body_ok fl : (fl < 256)%N → length (ra_body fl) = 24 ∧ bytes_ok (ra_body fl).
Proof.
  intros H. split; [done|]. unfold ra_body. rewrite !bytes_ok_app.
  split_and!; by repeat constructor.
Qed.
Lemma echo_body_ok r : 8 ≤ length r → bytes_ok r →
  length (echo_body r) = length r ∧ bytes_ok (echo_body r) ∧
  echo_body r !! 2 = Some 0%N ∧ echo_body r !! 3 = Some 0%N.
Proof.
  intros Hl Hb. unfold echo_body. split_and!.
  - apply put_length. cbn. lia.
  - apply put_ok; [by repeat constructor|done].
  - rewrite put_lookup; [done|cbn; lia].
  - rewrite put_lookup; [done|cbn; lia].
Qed.

Lemma advert_ok src dst mac t : mac_ok mac → (src < 2 ^ 128)%N → (dst < 2 ^ 128)%N → (t < 2 ^ 128)%N →
  let body := emit_ndisc src dst (NdAdvert 224 t GATEWAY_MAC) in
  reply_v6 mac dst (emit_eth mac GATEWAY_MAC EtIpv6 ++ emit_ip6 src dst PrIcmpv6 (length body) 255 ++ body).
Proof.
  intros Hm Hs Hd Ht. cbv zeta. set (body := emit_ndisc _ _ _).
  exists (emit_ip6 src dst PrIcmpv6 (length body) 255 ++ body), (MkIp6View src dst PrIcmpv6 body).
  split_and!; [apply wire_eth_emit; [done|apply gateway_mac_ok|auto]| |done|].
  - apply wire_ip6_emit; [done|done|auto|]. unfold body. by rewrite emit_ndisc_length.
  - cbn. apply emit_ndisc_checksum; [done|apply gateway_mac_ok].
Qed.

(** The request of a guest over IPv6. *)
Record request_v6 (frame : list u8) (eth : EthView) (ip : Ip6View) : Prop := {
  rq_bytes : bytes_ok frame;
  rq_length : (N.of_nat (length frame) ≤ 65000)%N;
  rq_eth : wire_eth frame = Some eth;
  rq_type : ev_type eth = EtIpv6;
  rq_ip : wire_ip6 (ev_payload eth) = Some ip }.

Lemma request_v6_ok frame eth ip : request_v6 frame eth ip →
  mac_ok (ev_src eth) ∧ (i6_src ip < 2 ^ 128)%N ∧ bytes_ok (i6_payload ip) ∧
  (N.of_nat (length (i6_payload ip)) ≤ 65000)%N.
Proof.
  intros [Hb Hl He _ Hi]. destruct (wire_eth_ok _ _ He) as (_ & Hm & Hp & Hlt).
  destruct (wire_ip6_ok _ _ Hi) as (Hs & _ & Hp' & Hlt'). split_and!; [done|done|eauto|lia].
Qed.

Lemma echo_frame_ok frame eth ip : request_v6 frame eth ip → 8 ≤ length (i6_payload ip) →
  reply_v6 (ev_src eth) (i6_src ip)
    (icmpv6_frame GATEWAY_IPV6_LINK_LOCAL (i6_src ip) (ev_src eth) 64 (echo_body (i6_payload ip))).
Proof.
  intros Hr H8. destruct (request_v6_ok _ _ _ Hr) as (Hm & Hs & Hb & Hl).
  destruct (echo_body_ok _ H8 Hb) as (El & Eb & E2 & E3).
  apply icmpv6_frame_ok; [done|by vm_compute|done|done|lia|lia|done|done].
Qed.

Lemma ra_frame_ok mac dst fl : mac_ok mac → (dst < 2 ^ 128)%N → (fl < 256)%N →
  reply_v6 mac dst (icmpv6_frame GATEWAY_IPV6_LINK_LOCAL dst mac 255 (ra_body fl)).
Proof.
  intros Hm Hd Hf. destruct (ra_body_ok fl Hf) as [Hl Hb].
  apply icmpv6_frame_ok; [done|by vm_compute|done|done|by rewrite Hl|by rewrite Hl; lia|done|done].
Qed.

Lemma icmpv6_reply_ok c virtio_hdr frame eth ip p : request_v6 frame eth ip →
  handle_icmpv6_packet c virtio_hdr frame = Some p →
  ∃ f, p = zero_hdr virtio_hdr ++ f ∧ reply_v6 (ev_src eth) (i6_src ip) f.
Proof.
  intros Hr. destruct (request_v6_ok _ _ _ Hr) as (Hm & Hs & Hb & Hl).
  unfold handle_icmpv6_packet. rewrite (rq_eth _ _ _ Hr). cbn. rewrite (rq_type _ _ _ Hr), (rq_ip _ _ _ Hr). cbn.
  destruct (i6_proto ip); try done. destruct (wire_icmp6 _) as [[]|]; cbn; try done.
  - unfold handle_neighbor_solicitation. destruct (_ <? _); [done|]. cbv zeta.
    destruct (is_gateway_v6 _ _); [|done]. intros [= <-]. eexists. split; [done|].
    set (t := of_be _). destruct (na_body_ok t) as [Nl Nb].
    apply icmpv6_frame_ok; [done|by vm_compute|done|done|by rewrite Nl|by rewrite Nl; lia|done|done].
  - intros [= <-]. eexists. split; [done|]. apply ra_frame_ok; [done|done|]. by destruct (cfg_dns_servers c).
  - unfold handle_echo_request. destruct (Nat.ltb_spec (length (i6_payload ip)) 8); [done|].
    destruct (is_gateway_v6 _ _); [|done]. intros [= <-]. eexists. split; [done|]. by eapply echo_frame_ok.
Qed.

Lemma dhcpv6_frame_length dst mac bytes : length bytes ≤ length (dhcpv6_frame dst mac bytes).
Proof.
  unfold dhcpv6_frame, with_checksum. cbv zeta. rewrite !length_app, put_length by (cbn; lia).
  unfold dhcpv6_udp. rewrite !length_app. lia.
Qed.

Lemma dhcpv6_bytes_ok frame eth ip m bytes : request_v6 frame eth ip → dhcp6_encode m = Some bytes →
  (N.of_nat (length (dhcpv6_frame (i6_src ip) (ev_src eth) bytes)) ≤ 64000)%N →
  reply_v6 (ev_src eth) (i6_src ip) (dhcpv6_frame (i6_src ip) (ev_src eth) bytes).
Proof.
  intros Hr He Hl. destruct (request_v6_ok _ _ _ Hr) as (Hm & Hs & _).
  pose proof (dhcpv6_frame_length (i6_src ip) (ev_src eth) bytes).
  apply dhcpv6_frame_ok; [done|done|by eapply dhcp6_bytes|lia].
Qed.

Lemma dhcpv6_reply_ok c virtio_hdr frame eth ip p : request_v6 frame eth ip →
  handle_dhcpv6_packet c virtio_hdr frame = Some p → (N.of_nat (length p) ≤ 64000)%N →
  ∃ f, p = zero_hdr virtio_hdr ++ f ∧ reply_v6 (ev_src eth) (i6_src ip) f.
Proof.
  intros Hr. unfold handle_dhcpv6_packet. rewrite (rq_eth _ _ _ Hr). cbn.
  rewrite (rq_type _ _ _ Hr), (rq_ip _ _ _ Hr). cbn. destruct (i6_proto ip); try done.
  destruct (wire_udp _) as [udp|]; cbn; [|done]. destruct (negb _); [done|].
  destruct (dhcp6_decode _) as [m|]; cbn; [|done].
  assert (Hgo : ∀ t a, build_dhcpv6_response c virtio_hdr m t (i6_src ip) (ev_src eth) a = Some p →
    (N.of_nat (length p) ≤ 64000)%N → ∃ f, p = zero_hdr virtio_hdr ++ f ∧ reply_v6 (ev_src eth) (i6_src ip) f).
  { intros t a. unfold build_dhcpv6_response. destruct (dhcpv6_response _ _ _ _) as [r|]; cbn; [|done].
    destruct (dhcp6_encode r) as [bytes|] eqn:He; cbn; [|done]. intros [= <-] Hl. eexists. split; [done|].
    eapply dhcpv6_bytes_ok; [done|done|]. rewrite length_app in Hl. lia. }
  destruct (d6_type m); try done; try (destruct (cfg_ipv6_address c); cbn; [|done]); apply Hgo.
Qed.

(** C20: Every reply over IPv6, of either daemon, is an Ethernet frame of the gateway to
    the guest, addressed to the sender of the request (the router advertisement of
    mvirt-ebpf to the address made from its MAC), with a checksum that the guest
    accepts. *)
Theorem replies_v6_valid {nets4 : IpNets 32} {nets6 : IpNets 128} c nic network virtio_hdr frame eth ip :
  length virtio_hdr = VIRTIO_NET_HDR_SIZE → request_v6 frame eth ip →
  (∀ p, protocol_answer c (virtio_hdr ++ frame) = Sends p → (N.of_nat (length p) ≤ 64000)%N →
     ∃ f, p = replicate VIRTIO_NET_HDR_SIZE 0%N ++ f ∧ reply_v6 (ev_src eth) (i6_src ip) f) ∧
  (∀ f, process_packet nic network frame = Sends f → (N.of_nat (length f) ≤ 64000)%N →
     reply_v6 (ev_src eth) (i6_src ip) f ∨
     f = icmpv6_frame GATEWAY_IPV6_LINK_LOCAL (mac_to_link_local (ev_src eth)) (ev_src eth) 255
           (ra_body (match ipv6_servers (en_dns_servers network) with [] => 128 | _ => 192 end)) ∧
     reply_v6 (ev_src eth) (mac_to_link_local (ev_src eth)) f).
Proof.
  intros Hv Hr. destruct (request_v6_ok _ _ _ Hr) as (Hm & Hs & Hb & Hl). split.
  - intros p. unfold protocol_answer. rewrite length_app, Hv. destruct (_ <=? _); [done|].
    cbv zeta. rewrite take_app_length', drop_app_length' by done.
    rewrite (rq_eth _ _ _ Hr), (rq_type _ _ _ Hr).
    assert (Hz : zero_hdr virtio_hdr = replicate VIRTIO_NET_HDR_SIZE 0%N) by (unfold zero_hdr; by rewrite Hv).
    rewrite <- Hz.
    destruct (handle_icmpv6_packet c virtio_hdr frame) as [q|] eqn:E; cbn [answer_of or_else].
    + intros [= <-] _. by eapply icmpv6_reply_ok.
    + destruct (handle_dhcpv6_packet c virtio_hdr frame) as [q|] eqn:E'; [|done].
      intros [= <-] Hq. by eapply dhcpv6_reply_ok.
  - intros f. unfold process_packet. rewrite (rq_eth _ _ _ Hr), (rq_type _ _ _ Hr).
    unfold process_ipv6. rewrite (rq_ip _ _ _ Hr). cbn [mbind option_bind].
    destruct (i6_proto ip); try done.
    + unfold process_dhcpv6. destruct (wire_udp _) as [udp|]; cbn; [|done]. destruct (negb _); [done|].
      destruct (dhcp6_decode _) as [m|]; cbn; [|done]. destruct (ec_ipv6_address nic); cbn; [|done].
      destruct (match d6_type m with Solicit6 => _ | _ => _ end) as [t|]; cbn; [|done].
      destruct (dhcpv6_response _ _ _ _) as [r|]; cbn; [|done].
      destruct (dhcp6_encode r) as [bytes|] eqn:He; cbn; [|done]. intros [= <-] Hq. left.
      by eapply dhcpv6_bytes_ok.
    + destruct (wire_icmp6 _) as [[]|]; cbn; try done.
      * unfold process_neighbor_solicitation. destruct (wire_ndisc _) as [[t| |]|] eqn:Hn; cbn; try done.
        destruct (_ =? _)%N; [|done]. intros [= <-] _. left.
        apply wire_ndisc_ok in Hn. by apply advert_ok.
      * unfold process_router_solicitation. destruct (negb _); [done|]. intros [= <-] _. right.
        split; [done|]. apply ra_frame_ok; [done| |by destruct (ipv6_servers _)].
        apply mac_to_link_local_lt. by destruct Hm.
      * unfold process_icmpv6_echo. destruct (negb _); [done|].
        destruct (Nat.ltb_spec (length (i6_payload ip)) 8); [done|]. intros [= <-] _. left.
        by eapply echo_frame_ok.
Qed.

(** * DHCP *)

(** [r] answers [m] with a lease of [a]: the gateway is the server and the router, and
    has a route of its own. *)
Definition leases (m r : DhcpMsg) (a : Ipv4Addr) : Prop :=
  dm_request r = false ∧ dm_xid r = dm_xid m ∧ dm_chaddr r = dm_chaddr m ∧ dm_yiaddr r = a ∧
  dm_opts r !! 54%N = Some (OptServerIdentifier GATEWAY_IPV4_LINK_LOCAL) ∧
  dm_opts r !! 3%N = Some (OptRouter [GATEWAY_IPV4_LINK_LOCAL]) ∧
  dm_opts r !! 121%N = Some static_routes ∧
  dm_opts r !! 51%N = Some (OptAddressLeaseTime 86400).

Lemma with_dns_option_spec servers m :
  (∀ k, k ≠ 6%N → dm_opts (with_dns_option servers m) !! k = dm_opts m !! k) ∧
  dm_request (with_dns_option servers m) = dm_request m ∧ dm_xid (with_dns_option servers m) = dm_xid m ∧
  dm_chaddr (with_dns_option servers m) = dm_chaddr m ∧ dm_yiaddr (with_dns_option servers m) = dm_yiaddr m.
Proof.
  unfold with_dns_option. destruct (ipv4_servers servers); [done|]. split_and!; try done.
  intros k Hk. cbn. by rewrite lookup_insert_ne.
Qed.

Lemma known_insert o m : match o with OptOther _ _ => False | _ => True end → known_opts m →
  known_opts (opts_insert o m).
Proof. intros Ho Hm k o'. cbn. intros [[_ <-]|[_ H]]%lookup_insert_Some; [done|by apply Hm in H]. Qed.
Lemma known_dns servers m : known_opts m → known_opts (with_dns_option servers m).
Proof. intros Hm. unfold with_dns_option. destruct (ipv4_servers servers); [done|]. by apply known_insert. Qed.
Lemma known_empty m : dm_opts m = ∅ → known_opts m.
Proof. intros E k o. by rewrite E, lookup_empty. Qed.

Lemma dhcp_response_known c m t a : known_opts (dhcp_response c m t a).
Proof.
  unfold dhcp_response. cbv zeta. apply known_dns. repeat (apply known_insert; [done|]). apply known_empty.
  destruct (broadcast_flag _); apply dhcp_default_opts.
Qed.
Lemma dhcp_nak_known m : known_opts (dhcp_nak m).
Proof. repeat (apply known_insert; [done|]). apply known_empty, dhcp_default_opts. Qed.
Lemma eb_dhcp_response_known {nets4 : IpNets 32} {nets6 : IpNets 128} network m t a subnet :
  known_opts (eb_dhcp_response network m t a subnet).
Proof.
  unfold eb_dhcp_response. cbv zeta. apply known_dns. repeat (apply known_insert; [done|]).
  apply known_empty, dhcp_default_opts.
Qed.

Lemma dhcp_response_leases c m t a :
  leases m (dhcp_response c m t a) a ∧ get_dhcp_message_type (dhcp_response c m t a) = Some t.
Proof.
  unfold leases, dhcp_response, get_dhcp_message_type. cbv zeta.
  match goal with |- context [with_dns_option ?s ?x] => destruct (with_dns_option_spec s x)
    as (Ho & -> & -> & -> & ->); rewrite !Ho by done end.
  unfold opts_insert. cbn.
  rewrite !lookup_insert_eq, ?lookup_insert_ne, ?lookup_insert_eq by done.
  destruct (broadcast_flag _); split_and!; try done;
    rewrite ?lookup_insert_ne, ?lookup_insert_eq by done; done.
Qed.

Lemma eb_dhcp_response_leases {nets4 : IpNets 32} {nets6 : IpNets 128} network m t a subnet :
  leases m (eb_dhcp_response network m t a subnet) a ∧
  get_dhcp_message_type (eb_dhcp_response network m t a subnet) = Some t.
Proof.
  unfold leases, eb_dhcp_response, get_dhcp_message_type. cbv zeta.
  match goal with |- context [with_dns_option ?s ?x] => destruct (with_dns_option_spec s x)
    as (Ho & -> & -> & -> & ->); rewrite !Ho by done end.
  unfold opts_insert. cbn. split_and!; try done;
    rewrite ?lookup_insert_ne, ?lookup_insert_eq by done; done.
Qed.

Lemma build_dhcp_response_leases c virtio_hdr m t a p :
  build_dhcp_response c virtio_hdr m t a = Sends p →
  ∃ dst mac bytes r, p = zero_hdr virtio_hdr ++ dhcp_frame dst mac bytes ∧ dhcp_decode bytes = Some r ∧
    leases m r a ∧ get_dhcp_message_type r = Some t.
Proof.
  unfold build_dhcp_response. destruct (dhcp_encode _) as [bytes|] eqn:He; [|done].
  apply (dhcp_roundtrip _ _ (dhcp_response_known _ _ _ _)) in He. destruct (dhcp_response_leases c m t a) as [Hl Hty]. unfold build_dhcp_packet.
  destruct (_ || _); [intros [= <-]; by eexists _, _, _, _|].
  destruct (_ <? _); [done|]. intros [= <-]. by eexists _, _, _, _.
Qed.

Lemma handle_request_spec c virtio_hdr m p :
  handle_request c virtio_hdr m = Sends p →
  ∃ a dst mac bytes r, cfg_ipv4_address c = Some a ∧
    p = zero_hdr virtio_hdr ++ dhcp_frame dst mac bytes ∧ dhcp_decode bytes = Some r ∧
    (get_dhcp_message_type r = Some Ack ∧ leases m r a ∧ (requested_ip m = None ∨ requested_ip m = Some a) ∨
     get_dhcp_message_type r = Some Nak ∧ dm_xid r = dm_xid m ∧ ∃ q, requested_ip m = Some q ∧ q ≠ a).
Proof.
  unfold handle_request. destruct (cfg_ipv4_address c) as [a|]; [|done].
  destruct (requested_ip m) as [q|]; [destruct (N.eqb_spec q a) as [->|Hne]|]; intros H.
  1, 3: apply build_dhcp_response_leases in H as (dst & mac & bytes & r & -> & Hd & Hl & Hty);
        exists a, dst, mac, bytes, r; eauto 10.
  unfold build_dhcp_nak in H. destruct (dhcp_encode _) as [bytes|] eqn:He; [|done].
  apply (dhcp_roundtrip _ _ (dhcp_nak_known _)) in He. injection H as <-. eexists a, _, _, bytes, _.
  split_and!; [done|done|exact He|right].
  unfold dhcp_nak, get_dhcp_message_type, opts_insert. cbn.
  rewrite lookup_insert_ne, lookup_insert_eq by done. eauto.
Qed.

Lemma process_dhcp_spec {nets4 : IpNets 32} {nets6 : IpNets 128} nic network payload f :
  process_dhcp nic network payload = Sends f →
  ∃ m t a dst mac bytes r, dhcp_decode payload = Some m ∧ get_dhcp_message_type m = Some t ∧
    ec_ipv4_address nic = Some a ∧ f = dhcp_frame dst mac bytes ∧ dhcp_decode bytes = Some r ∧
    take 6 (dm_chaddr m) = ec_mac_address nic ∧ leases m r a ∧
    get_dhcp_message_type r = Some (match t with Discover => Offer | _ => Ack end).
Proof.
  unfold process_dhcp. destruct (dhcp_decode payload) as [m|]; [|done].
  destruct (dm_request m); [|done]. cbn [negb].
  destruct (get_dhcp_message_type m) as [t|] eqn:Ht; [|done].
  destruct (_ <? _); [done|]. destruct (take 6 (dm_chaddr m) == ec_mac_address nic) eqn:Hmac; [|done].
  apply bool_decide_eq_true in Hmac. cbn [negb].
  destruct (ec_ipv4_address nic) as [a|]; [|done]. destruct (en_ipv4_subnet network) as [subnet|]; [|done].
  destruct t; try done; (destruct (dhcp_encode (eb_dhcp_response _ _ ?[rt] _ _)) as [bytes|] eqn:Hen; [|done]);
    apply (dhcp_roundtrip _ _ (eb_dhcp_response_known _ _ _ _ _)) in Hen;
    match type of Hen with _ = Some (eb_dhcp_response _ _ ?rt _ _) =>
      destruct (eb_dhcp_response_leases network m rt a subnet) as [Hl Hty] end;
    destruct (broadcast_flag _); intros [= <-]; eexists m, _, a, _, _, bytes, _;
    (split_and!; [done|exact Ht|done|done|exact Hen|done|exact Hl|exact Hty]).
Qed.

(** C24: A guest gets by DHCP the address it is configured with, whatever it asks for, from
    either daemon; mvirt-net refuses a request for another address, and mvirt-ebpf
    serves the NIC's own MAC address only. *)
Theorem dhcp_leases_configured {nets4 : IpNets 32} {nets6 : IpNets 128} c nic network virtio_hdr frame eth ip udp m t :
  dhcp_message frame = Some m → get_dhcp_message_type m = Some t →
  wire_eth frame = Some eth → wire_ip4 (ev_payload eth) = Some ip → wire_udp (i4_payload ip) = Some udp →
  (∀ p, handle_dhcp_packet c virtio_hdr frame = Sends p →
     ∃ a dst mac bytes r, cfg_ipv4_address c = Some a ∧
       p = zero_hdr virtio_hdr ++ dhcp_frame dst mac bytes ∧ dhcp_decode bytes = Some r ∧
       match get_dhcp_message_type r with
       | Some Offer => t = Discover ∧ leases m r a
       | Some Ack => t = Request ∧ leases m r a ∧ (requested_ip m = None ∨ requested_ip m = Some a)
       | Some Nak => t = Request ∧ dm_xid r = dm_xid m ∧ ∃ q, requested_ip m = Some q ∧ q ≠ a
       | _ => False
       end) ∧
  (∀ f, process_packet nic network frame = Sends f →
     ∃ a dst mac bytes r, ec_ipv4_address nic = Some a ∧ f = dhcp_frame dst mac bytes ∧
       dhcp_decode bytes = Some r ∧ take 6 (dm_chaddr m) = ec_mac_address nic ∧ leases m r a ∧
       get_dhcp_message_type r = Some (match t with Discover => Offer | _ => Ack end)).
Proof.
  intros Hm Ht He Hi Hu. split.
  - intros p. unfold handle_dhcp_packet. rewrite Hm, Ht. destruct t; try done; intros H.
    + unfold handle_discover in H. destruct (cfg_ipv4_address c) as [a|] eqn:Ha; [|done].
      apply build_dhcp_response_leases in H as (dst & mac & bytes & r & -> & Hd & Hl & Hty).
      exists a, dst, mac, bytes, r. by rewrite Hty.
    + apply handle_request_spec in H as (a & dst & mac & bytes & r & Ha & -> & Hd & [(Hty & H)|(Hty & H)]);
        exists a, dst, mac, bytes, r; rewrite Hty; tauto.
  - intros f. unfold dhcp_message in Hm. unfold process_packet, process_ipv4. rewrite He in *. cbn in Hm.
    destruct (ev_type eth); try done. rewrite Hi in *. cbn in Hm. destruct (i4_proto ip); try done.
    rewrite Hu in *. cbn in Hm. destruct (ud_dst_port udp =? DHCP_SERVER_PORT)%N; [|done]. cbn [negb] in Hm.
    destruct (_ && _); [|done].
    intros H. apply process_dhcp_spec in H as (m' & t' & a & dst & mac & bytes & r & Hd & Ht' & H).
    rewrite Hd in Hm. cbn in Hm. destruct (dm_request m'); [|done]. simplify_eq. eauto 10.
Qed.

(** * DHCPv6 *)

(** [r] answers [m] and names the server; it assigns [a], or no address at all. *)
Definition assigns6 (m r : Dhcp6Msg) (a : option Ipv6Addr) : Prop :=
  d6_xid r = d6_xid m ∧ Opt6ServerId server_duid ∈ d6_opts r ∧
  (∀ duid, Opt6ClientId duid ∈ d6_opts r ↔ opts6_get 1 (d6_opts m) = Some (Opt6ClientId duid)) ∧
  (∀ iaid t1 t2 addrs, Opt6IANA iaid t1 t2 addrs ∈ d6_opts r ↔
     ∃ x, a = Some x ∧ Opt6IANA iaid t1 t2 addrs = ia_na (client_iaid (d6_opts m)) x).

Lemma dhcpv6_response_elem servers m t a r : dhcpv6_response servers m t a = Some r →
  ∃ duid, opts6_get 1 (d6_opts m) = Some (Opt6ClientId duid) ∧ d6_type r = t ∧ d6_xid r = d6_xid m ∧
    ∀ o, o ∈ d6_opts r ↔
      o = Opt6StatusSuccess ∨ (ipv6_servers servers ≠ [] ∧ o = Opt6DomainNameServers (ipv6_servers servers)) ∨
      (∃ x, a = Some x ∧ o = ia_na (client_iaid (d6_opts m)) x) ∨
      o = Opt6ServerId server_duid ∨ o = Opt6ClientId duid.
Proof.
  unfold dhcpv6_response. destruct (opts6_get 1 (d6_opts m)) as [[duid| | | | |]|]; try done. cbv zeta.
  intros [= <-]. exists duid. split_and!; try done. intros o. cbn [d6_opts]. rewrite dhcp6_insert_elem.
  destruct (ipv6_servers servers), a; rewrite ?dhcp6_insert_elem, elem_of_nil; naive_solver.
Qed.

Lemma dhcpv6_response_assigns servers m t a r : dhcpv6_response servers m t a = Some r →
  assigns6 m r a ∧ d6_type r = t ∧ known_opts6 r.
Proof.
  intros H. apply dhcpv6_response_elem in H as (duid & Hc & Ht & Hx & Ho). unfold assigns6.
  split_and!; [done|apply Ho; auto|intros d; rewrite Ho, Hc; naive_solver|intros; rewrite Ho; naive_solver|done|].
  intros o Hin. apply Ho in Hin. by destruct o; naive_solver.
Qed.

(** The address both daemons give: to a client that asks for one, the configured one;
    mvirt-ebpf also to a [CONFIRM]. *)
Definition wants6 (t : Dhcp6Type) : bool :=
  match t with Solicit6 | Request6 | Renew6 | Rebind6 => true | _ => false end.
Definition answers6 (t : Dhcp6Type) : Dhcp6Type := match t with Solicit6 => Advertise6 | _ => Reply6 end.

(** A guest gets by DHCPv6 the address it is configured with, under the identifier it
    sent, from either daemon. *)
Theorem dhcpv6_assigns_configured {nets4 : IpNets 32} {nets6 : IpNets 128}
    c nic network virtio_hdr frame eth ip udp m :
  wire_eth frame = Some eth → ev_type eth = EtIpv6 → wire_ip6 (ev_payload eth) = Some ip → i6_proto ip = PrUdp →
  wire_udp (i6_payload ip) = Some udp → dhcp6_decode (ud_payload udp) = Some m →
  (∀ p, handle_dhcpv6_packet c virtio_hdr frame = Some p →
     ∃ bytes r a, p = zero_hdr virtio_hdr ++ dhcpv6_frame (i6_src ip) (ev_src eth) bytes ∧
       dhcp6_decode bytes = Some r ∧ d6_type r = answers6 (d6_type m) ∧ assigns6 m r a ∧
       if wants6 (d6_type m) then a = cfg_ipv6_address c ∧ is_Some a else a = None) ∧
  (∀ f, process_packet nic network frame = Sends f →
     ∃ bytes r a, f = dhcpv6_frame (i6_src ip) (ev_src eth) bytes ∧
       dhcp6_decode bytes = Some r ∧ d6_type r = answers6 (d6_type m) ∧ assigns6 m r a ∧
       if wants6 (d6_type m) || (d6_type m == Confirm6) then a = ec_ipv6_address nic ∧ is_Some a else a = None).
Proof.
  intros He Ht Hi Hp Hu Hm. split.
  - intros p. unfold handle_dhcpv6_packet. rewrite He. cbn. rewrite Ht, Hi. cbn. rewrite Hp, Hu. cbn.
    destruct (negb _); [done|]. rewrite Hm. cbn.
    assert (Hgo : ∀ t a, build_dhcpv6_response c virtio_hdr m t (i6_src ip) (ev_src eth) a = Some p →
      ∃ bytes r, p = zero_hdr virtio_hdr ++ dhcpv6_frame (i6_src ip) (ev_src eth) bytes ∧
        dhcp6_decode bytes = Some r ∧ d6_type r = t ∧ assigns6 m r a).
    { intros t a. unfold build_dhcpv6_response. destruct (dhcpv6_response _ _ _ _) as [r|] eqn:Er; cbn; [|done].
      apply dhcpv6_response_assigns in Er as (Ha & Hty & Hk).
      destruct (dhcp6_encode r) as [bytes|] eqn:Hen; cbn; [|done]. apply dhcp6_roundtrip in Hen; [|done].
      intros [= <-]. eauto 10. }
    destruct (d6_type m); try done; try (destruct (cfg_ipv6_address c); cbn; [|done]);
      intros (bytes & r & -> & Hd & Hty & Ha)%Hgo; exists bytes, r; eexists;
      (do 3 (split; [done|]); split; [exact Ha|cbn; eauto]).
  - intros f. unfold process_packet. rewrite He, Ht. unfold process_ipv6. rewrite Hi. cbn. rewrite Hp.
    unfold process_dhcpv6. rewrite Hu. cbn. destruct (negb _); [done|]. rewrite Hm. cbn.
    destruct (ec_ipv6_address nic) as [a|]; cbn; [|done].
    destruct (match d6_type m with Solicit6 => _ | _ => _ end) as [t|] eqn:Et; cbn; [|done].
    destruct (dhcpv6_response _ _ _ _) as [r|] eqn:Er; cbn; [|done].
    apply dhcpv6_response_assigns in Er as (Ha & Hty & Hk).
    destruct (dhcp6_encode r) as [bytes|] eqn:Hen; cbn; [|done]. apply dhcp6_roundtrip in Hen; [|done].
    intros [= <-]. exists bytes, r. eexists. split_and!; [done|done| |exact Ha|].
    + destruct (d6_type m); naive_solver.
    + destruct (d6_type m); try done; cbn; eauto.
Qed.

(** * ARP and ICMP *)

(** The gateway's MAC address, told to the guest that asks for it. *)
Definition arp_reply_to (arp : ArpRepr) (f : list u8) : Prop :=
  ∃ payload, wire_eth f = Some (MkEthView (ar_sha arp) GATEWAY_MAC EtArp payload) ∧
    wire_arp payload =
      Some (MkArpRepr ArpReply GATEWAY_MAC GATEWAY_IPV4_LINK_LOCAL (ar_sha arp) (ar_spa arp)).

(** The gateway's reply to an echo request, with the data of the request. *)
Definition echo_reply_to (mac : list u8) (ip : Ip4View) (icmp : Icmp4View) (f : list u8) : Prop :=
  ∃ packet body, wire_eth f = Some (MkEthView mac GATEWAY_MAC EtIpv4 packet) ∧
    wire_ip4 packet = Some (MkIp4View GATEWAY_IPV4_LINK_LOCAL (i4_src ip) PrIcmp body) ∧
    wire_icmp4 body = Some (MkIcmp4View Echo4Reply (ic_ident icmp) (ic_seq_no icmp) (ic_data icmp)).

Lemma arp_frame_ok p arp : wire_arp p = Some arp →
  arp_reply_to arp (arp_frame (ar_sha arp) (ar_spa arp) GATEWAY_IPV4_LINK_LOCAL).
Proof.
  intros H. destruct (wire_arp_ok _ _ H) as (Hm & Hs & _). eexists. split.
  - apply wire_eth_emit; [done|apply gateway_mac_ok|auto].
  - apply wire_arp_emit; [apply gateway_mac_ok|done|by vm_compute|done].
Qed.

Lemma icmp_frame_ok frame eth ip icmp : (N.of_nat (length frame) ≤ 65000)%N →
  wire_eth frame = Some eth → wire_ip4 (ev_payload eth) = Some ip → wire_icmp4 (i4_payload ip) = Some icmp →
  echo_reply_to (ev_src eth) ip icmp (icmp_frame (ev_src eth) GATEWAY_IPV4_LINK_LOCAL (i4_src ip) icmp).
Proof.
  intros Hl He Hi Hc. destruct (wire_eth_ok _ _ He) as (_ & Hm & _ & H1).
  destruct (wire_ip4_ok _ _ Hi) as (Hs & _ & H2). destruct (wire_icmp4_ok _ _ Hc) as (Hid & Hsq & H3).
  eexists _, _. split_and!.
  - apply wire_eth_emit; [done|apply gateway_mac_ok|auto].
  - apply wire_ip4_emit; [by vm_compute|done|auto|]. rewrite emit_icmp4_length. lia.
  - by apply wire_icmp4_emit.
Qed.


End facts.
