(* ===== verification/NetProtoExamples.v ===== *)
(** Model instances of the wire formats, with the layouts of the protocols, and
    evaluations of the protocol handlers on requests of a guest. *)

From S2P Require Import Prelude Rpc Externals Packet NetAddr NetRoute EbNet NetSvc NetIovec NetRx NetRxFacts NetWire NetProto NetProtoFacts.
Import NetModels.

Module WireModels.

Definition bytes_okb (l : list u8) : bool := forallb (λ b, b <? 256)%N l.
Lemma bytes_okb_ok l : bytes_okb l = true ↔ bytes_ok l.
Proof.
  unfold bytes_okb. rewrite forallb_forall. unfold bytes_ok. rewrite list.Forall_forall.
  split; intros H b Hb; apply N.ltb_lt, H; by apply list_elem_of_In.
Qed.

(** The [n] bytes of a number. *)
Fixpoint be (n : nat) (a : N) : list u8 :=
  match n with O => [] | S n => ((a / 256 ^ N.of_nat n) `mod` 256)%N :: be n a end.

Lemma be_ok n a : length (be n a) = n ∧ bytes_ok (be n a).
Proof.
  induction n as [|n [IHl IHb]]; [by split; [|constructor]|]. cbn [be length]. split; [by rewrite IHl|].
  constructor; [by apply N.mod_lt|done].
Qed.

Lemma of_be_acc l x : foldl (λ a b, 256 * a + b)%N x l = (x * 256 ^ N.of_nat (length l) + of_be l)%N.
Proof.
  revert x. induction l as [|b l IH]; intros x; [cbn; lia|]. unfold of_be. cbn [foldl]. rewrite !IH.
  cbn [length]. rewrite Nat2N.inj_succ, N.pow_succ_r'. lia.
Qed.

Lemma of_be_be n a : of_be (be n a) = (a `mod` 256 ^ N.of_nat n)%N.
Proof.
  induction n as [|n IH]; [cbn [be]; change (256 ^ N.of_nat 0)%N with 1%N; by rewrite N.mod_1_r|].
  cbn [be]. unfold of_be. cbn [foldl]. rewrite of_be_acc, IH, (proj1 (be_ok n a)).
  rewrite Nat2N.inj_succ, N.pow_succ_r', (N.mul_comm 256 (256 ^ _)), N.Div0.mod_mul_r.
  cbn [N.mul N.add]. ring.
Qed.

Lemma of_be_lt l : bytes_ok l → (of_be l < 256 ^ N.of_nat (length l))%N.
Proof.
  induction l as [|b l IH]; intros H; [by vm_compute|]. apply Forall_cons_1 in H as [Hb H]. specialize (IH H).
  unfold of_be. cbn [foldl]. rewrite of_be_acc. cbn [length]. rewrite Nat2N.inj_succ, N.pow_succ_r'. nia.
Qed.

(** [n] bytes from [k] on. *)
Definition slice (k n : nat) (l : list u8) : list u8 := take n (drop k l).
Definition num (k n : nat) (l : list u8) : N := of_be (slice k n l).

Lemma slice_ok k n l : bytes_ok l → bytes_ok (slice k n l).
Proof. intros H. by apply Forall_take, Forall_drop. Qed.
Lemma num_lt k n l : bytes_ok l → (num k n l < 256 ^ N.of_nat n)%N.
Proof.
  intros H. eapply N.lt_le_trans; [by apply of_be_lt, slice_ok|]. apply N.pow_le_mono_r; [done|].
  unfold slice. rewrite length_take. lia.
Qed.
Lemma slice_app k n a b c : length a = k → length b = n → slice k n (a ++ b ++ c) = b.
Proof. intros <- <-. unfold slice. by rewrite drop_app_length, take_app_length. Qed.
Lemma num_be k n v a c : length a = k → (v < 256 ^ N.of_nat n)%N → num k n (a ++ be n v ++ c) = v.
Proof.
  intros Ha Hv. unfold num. rewrite slice_app by (done || apply be_ok). by rewrite of_be_be, N.mod_small.
Qed.

(** ** Ethernet and IP *)

Definition ether_num (t : EtherType) : u16 :=
  match t with EtIpv4 => 2048 | EtArp => 2054 | EtIpv6 => 34525 | EtOther n => n end%N.
Definition ether_of (n : u16) : EtherType :=
  if (n =? 2048)%N then EtIpv4 else if (n =? 2054)%N then EtArp else if (n =? 34525)%N then EtIpv6 else EtOther n.
Definition proto_of (n : u8) : IpProto :=
  if (n =? 1)%N then PrIcmp else if (n =? 17)%N then PrUdp else if (n =? 58)%N then PrIcmpv6 else PrOther n.

Definition m_eth (f : list u8) : option EthView :=
  if (14 <=? length f) && bytes_okb (take 14 f)
  then Some (MkEthView (slice 0 6 f) (slice 6 6 f) (ether_of (num 12 2 f)) (drop 14 f)) else None.
Definition m_emit_eth (dst src : list u8) (t : EtherType) : list u8 := dst ++ src ++ be 2 (ether_num t).

Definition m_ip4 (p : list u8) : option Ip4View :=
  let n := N.to_nat (num 2 2 p) in
  if (20 <=? n) && (n <=? length p) && bytes_okb (take 20 p)
  then Some (MkIp4View (num 12 4 p) (num 16 4 p) (proto_of (num 9 1 p)) (slice 20 (n - 20) p)) else None.
Definition m_emit_ip4 (src dst : Ipv4Addr) (pr : IpProto) (len : nat) (ttl : u8) : list u8 :=
  [69; 0]%N ++ be 2 (20 + N.of_nat len) ++ [0; 0; 64; 0]%N ++ be 1 ttl ++ be 1 (proto_number pr) ++ [0; 0]%N
  ++ be 4 src ++ be 4 dst.

Definition m_ip6 (p : list u8) : option Ip6View :=
  let n := N.to_nat (num 4 2 p) in
  if (40 + n <=? length p) && bytes_okb (take 40 p)
  then Some (MkIp6View (num 8 16 p) (num 24 16 p) (proto_of (num 6 1 p)) (slice 40 n p)) else None.
Definition m_emit_ip6 (src dst : Ipv6Addr) (pr : IpProto) (len : nat) (hop_limit : u8) : list u8 :=
  [96; 0; 0; 0]%N ++ be 2 (N.of_nat len) ++ be 1 (proto_number pr) ++ be 1 hop_limit ++ be 16 src ++ be 16 dst.

(** ** Messages *)

Definition arp_num (o : ArpOperation) : u16 := match o with ArpRequest => 1 | ArpReply => 2 | ArpOther n => n end%N.
Definition arp_of (n : u16) : ArpOperation :=
  if (n =? 1)%N then ArpRequest else if (n =? 2)%N then ArpReply else ArpOther n.
Definition m_arp (p : list u8) : option ArpRepr :=
  if (28 <=? length p) && bytes_okb p
  then Some (MkArpRepr (arp_of (num 6 2 p)) (slice 8 6 p) (num 14 4 p) (slice 18 6 p) (num 24 4 p)) else None.
Definition m_emit_arp (r : ArpRepr) : list u8 :=
  [0; 1; 8; 0; 6; 4]%N ++ be 2 (arp_num (ar_op r)) ++ ar_sha r ++ be 4 (ar_spa r) ++ ar_tha r ++ be 4 (ar_tpa r).

Definition m_udp (p : list u8) : option UdpView :=
  let n := N.to_nat (num 4 2 p) in
  if (8 <=? n) && (n <=? length p) then Some (MkUdpView (num 0 2 p) (num 2 2 p) (slice 8 (n - 8) p)) else None.
Definition m_emit_udp4 (_ _ : Ipv4Addr) (sport dport : u16) (p : list u8) : list u8 :=
  be 2 sport ++ be 2 dport ++ be 2 (8 + N.of_nat (length p)) ++ [0; 0]%N ++ p.

Definition icmp4_of (n : u8) : Icmp4Type :=
  if (n =? 8)%N then Echo4Request else if (n =? 0)%N then Echo4Reply else Icmp4Other n.
Definition m_icmp4 (p : list u8) : option Icmp4View :=
  if (8 <=? length p) && bytes_okb (take 8 p)
  then Some (MkIcmp4View (icmp4_of (num 0 1 p)) (num 4 2 p) (num 6 2 p) (drop 8 p)) else None.
Definition m_emit_icmp4_reply (ident seq_no : u16) (d : list u8) : list u8 :=
  [0; 0; 0; 0]%N ++ be 2 ident ++ be 2 seq_no ++ d.

Definition m_icmp6 (p : list u8) : option Icmp6Type :=
  match p with
  | 135%N :: _ => Some NeighborSolicit
  | 133%N :: _ => Some RouterSolicit
  | 128%N :: _ => Some Echo6Request
  | n :: _ => Some (Icmp6Other n)
  | [] => None
  end.
Definition m_ndisc (p : list u8) : option Ndisc :=
  if (24 <=? length p) && bytes_okb p
  then Some (if (p !!! 0%nat =? 135)%N then NdSolicit (num 8 16 p) else NdOther) else None.
Definition m_emit_ndisc (src dst : Ipv6Addr) (n : Ndisc) : list u8 :=
  match n with
  | NdAdvert flags target lladdr =>
      with_checksum 2 src dst 58 ([136; 0; 0; 0; flags; 0; 0; 0]%N ++ be128 target ++ [2; 1]%N ++ lladdr)
  | _ => []
  end.

(** ** Laws *)

Lemma slice_take k n m l : k + n ≤ m → slice k n (take m l) = slice k n l.
Proof. intros H. unfold slice. rewrite !take_drop_commute, take_take, Nat.min_l by lia. done. Qed.
Lemma slice_mac k m f : bytes_ok (take m f) → k + 6 ≤ m → m ≤ length f → mac_ok (slice k 6 f).
Proof.
  intros Hb Hk Hm. split; [unfold slice; rewrite length_take, length_drop; lia|].
  rewrite <- (slice_take k 6 m) by done. by apply slice_ok.
Qed.
Lemma num_take_lt k n m f : bytes_ok (take m f) → k + n ≤ m → (num k n f < 256 ^ N.of_nat n)%N.
Proof. intros Hb Hk. unfold num. rewrite <- (slice_take k n m) by done. by apply num_lt. Qed.
Lemma mac6 m : mac_ok m → ∃ a b c d e f, m = [a; b; c; d; e; f].
Proof. intros [H _]. do 7 (destruct m as [|? m]; try done). eauto 10. Qed.
Lemma of_be_small n v : (v < 256 ^ N.of_nat n)%N → of_be (be n v) = v.
Proof. intros H. by rewrite of_be_be, N.mod_small. Qed.

Ltac leb_guard := match goal with |- context [?a <=? ?b] => destruct (Nat.leb_spec a b); [|done] end.
Ltac bytes_guard := match goal with
  |- context [bytes_okb ?l] => let H := fresh "Hb" in destruct (bytes_okb l) eqn:H; [|done]; apply bytes_okb_ok in H end.

Lemma m_eth_ok f v : m_eth f = Some v →
  mac_ok (ev_dst v) ∧ mac_ok (ev_src v) ∧ (bytes_ok f → bytes_ok (ev_payload v)) ∧
  length (ev_payload v) < length f.
Proof.
  unfold m_eth. leb_guard. bytes_guard. cbn [andb]. intros [= <-]. cbn [ev_dst ev_src ev_payload].
  split_and!; [apply (slice_mac _ 14); [done|lia|done]..|by apply Forall_drop|rewrite length_drop; lia].
Qed.

Lemma m_eth_emit dst src t p : mac_ok dst → mac_ok src → t = EtIpv4 ∨ t = EtArp ∨ t = EtIpv6 →
  m_eth (m_emit_eth dst src t ++ p) = Some (MkEthView dst src t p).
Proof.
  intros Hd Hs Ht. assert (Hb : bytes_okb (dst ++ src ++ be 2 (ether_num t)) = true).
  { apply bytes_okb_ok. unfold bytes_ok. rewrite !Forall_app. split_and!; [apply Hd|apply Hs|apply be_ok]. }
  apply mac6 in Hd as (? & ? & ? & ? & ? & ? & ->), Hs as (? & ? & ? & ? & ? & ? & ->). unfold m_eth.
  match type of Hb with bytes_okb ?l = _ => change (take 14 _) with l end.
  rewrite Hb. by destruct Ht as [-> | [-> | ->]].
Qed.

Lemma m_arp_ok p r : m_arp p = Some r → mac_ok (ar_sha r) ∧ (ar_spa r < 2 ^ 32)%N ∧ (ar_tpa r < 2 ^ 32)%N.
Proof.
  unfold m_arp. leb_guard. bytes_guard. cbn [andb]. intros [= <-]. cbn [ar_sha ar_spa ar_tpa].
  split_and!; [|by apply (num_lt _ 4)..]. apply (slice_mac _ 28); [by apply Forall_take|lia|done].
Qed.

Lemma m_arp_emit sha spa tha tpa : mac_ok sha → mac_ok tha → (spa < 2 ^ 32)%N → (tpa < 2 ^ 32)%N →
  m_arp (m_emit_arp (MkArpRepr ArpReply sha spa tha tpa)) = Some (MkArpRepr ArpReply sha spa tha tpa).
Proof.
  intros Hs Ht Hsp Htp. unfold m_arp, m_emit_arp. cbn [ar_op ar_sha ar_spa ar_tha ar_tpa].
  set (l := _ ++ _). assert (Hb : bytes_okb l = true).
  { apply bytes_okb_ok. unfold l, bytes_ok. rewrite !Forall_app.
    split_and!; [by repeat constructor|apply be_ok|apply Hs|apply be_ok|apply Ht|apply be_ok]. }
  rewrite Hb. apply mac6 in Hs as (? & ? & ? & ? & ? & ? & ->), Ht as (? & ? & ? & ? & ? & ? & ->).
  change (num 14 4 l) with (of_be (be 4 spa)). change (num 24 4 l) with (of_be (be 4 tpa)).
  by rewrite !of_be_small.
Qed.

Lemma m_ip4_ok p v : m_ip4 p = Some v →
  (i4_src v < 2 ^ 32)%N ∧ (i4_dst v < 2 ^ 32)%N ∧ length (i4_payload v) < length p.
Proof.
  unfold m_ip4. cbv zeta. leb_guard. leb_guard. bytes_guard. cbn [andb]. intros [= <-].
  cbn [i4_src i4_dst i4_payload]. split_and!; [apply (num_take_lt _ 4 20); [done|lia]..|].
  unfold slice. rewrite length_take, length_drop. lia.
Qed.

Lemma proto_of_number pr : pr = PrUdp ∨ pr = PrIcmp ∨ pr = PrIcmpv6 →
  proto_of (of_be (be 1 (proto_number pr))) = pr.
Proof. by intros [-> | [-> | ->]]. Qed.

Lemma m_ip4_emit src dst pr ttl p : (src < 2 ^ 32)%N → (dst < 2 ^ 32)%N → pr = PrUdp ∨ pr = PrIcmp →
  (20 + N.of_nat (length p) < 65536)%N →
  m_ip4 (m_emit_ip4 src dst pr (length p) ttl ++ p) = Some (MkIp4View src dst pr p).
Proof.
  intros Hs Hd Hp Hl. set (h := m_emit_ip4 src dst pr (length p) ttl).
  assert (Hb : bytes_okb h = true).
  { apply bytes_okb_ok. unfold h, m_emit_ip4, bytes_ok. rewrite !Forall_app.
    split_and!; [by repeat constructor|apply be_ok|by repeat constructor|apply be_ok|apply be_ok|
      by repeat constructor|apply be_ok..]. }
  unfold m_ip4. cbv zeta. change (take 20 (h ++ p)) with h. rewrite Hb.
  change (num 2 2 (h ++ p)) with (of_be (be 2 (20 + N.of_nat (length p)))).
  change (num 12 4 (h ++ p)) with (of_be (be 4 src)). change (num 16 4 (h ++ p)) with (of_be (be 4 dst)).
  change (num 9 1 (h ++ p)) with (of_be (be 1 (proto_number pr))). rewrite proto_of_number by tauto.
  rewrite !of_be_small by done. rewrite length_app. change (length h) with 20.
  replace (N.to_nat _) with (20 + length p) by lia.
  destruct (Nat.leb_spec 20 (20 + length p)); [|lia]. rewrite Nat.leb_refl. cbn [andb].
  change (slice 20 ?n (h ++ p)) with (take n p). replace (20 + length p - 20) with (length p) by lia.
  by rewrite firstn_all.
Qed.

Lemma m_icmp4_ok p v : m_icmp4 p = Some v →
  (ic_ident v < 65536)%N ∧ (ic_seq_no v < 65536)%N ∧ 8 + length (ic_data v) ≤ length p.
Proof.
  unfold m_icmp4. leb_guard. bytes_guard. cbn [andb]. intros [= <-]. cbn [ic_ident ic_seq_no ic_data].
  split_and!; [apply (num_take_lt _ 2 8); [done|lia]..|]. rewrite length_drop. lia.
Qed.

Lemma m_icmp4_emit ident seq_no d : (ident < 65536)%N → (seq_no < 65536)%N →
  m_icmp4 (m_emit_icmp4_reply ident seq_no d) = Some (MkIcmp4View Echo4Reply ident seq_no d).
Proof.
  intros Hi Hs. set (l := m_emit_icmp4_reply ident seq_no d). unfold m_icmp4.
  change (take 8 l) with ([0; 0; 0; 0]%N ++ be 2 ident ++ be 2 seq_no). change (drop 8 l) with d.
  assert (Hb : bytes_okb ([0; 0; 0; 0]%N ++ be 2 ident ++ be 2 seq_no) = true).
  { apply bytes_okb_ok. unfold bytes_ok. rewrite !Forall_app. split_and!; [by repeat constructor|apply be_ok..]. }
  rewrite Hb. change (num 4 2 l) with (of_be (be 2 ident)). change (num 6 2 l) with (of_be (be 2 seq_no)).
  by rewrite !of_be_small.
Qed.

Lemma m_ip6_ok p v : m_ip6 p = Some v →
  (i6_src v < 2 ^ 128)%N ∧ (i6_dst v < 2 ^ 128)%N ∧ (bytes_ok p → bytes_ok (i6_payload v)) ∧
  length (i6_payload v) < length p.
Proof.
  unfold m_ip6. cbv zeta. leb_guard. bytes_guard. cbn [andb]. intros [= <-]. cbn [i6_src i6_dst i6_payload].
  split_and!; [apply (num_take_lt _ 16 40); [done|lia]..|apply slice_ok|].
  unfold slice. rewrite length_take, length_drop. lia.
Qed.

Lemma m_ip6_emit src dst pr ttl p : (src < 2 ^ 128)%N → (dst < 2 ^ 128)%N → pr = PrUdp ∨ pr = PrIcmpv6 →
  (N.of_nat (length p) < 65536)%N →
  m_ip6 (m_emit_ip6 src dst pr (length p) ttl ++ p) = Some (MkIp6View src dst pr p).
Proof.
  intros Hs Hd Hp Hl. set (h := m_emit_ip6 src dst pr (length p) ttl).
  assert (Hb : bytes_okb h = true).
  { apply bytes_okb_ok. unfold h, m_emit_ip6, bytes_ok. rewrite !Forall_app.
    split_and!; [by repeat constructor|apply be_ok..]. }
  unfold m_ip6. cbv zeta. change (take 40 (h ++ p)) with h. rewrite Hb.
  change (num 4 2 (h ++ p)) with (of_be (be 2 (N.of_nat (length p)))).
  change (num 8 16 (h ++ p)) with (of_be (be 16 src)). change (num 24 16 (h ++ p)) with (of_be (be 16 dst)).
  change (num 6 1 (h ++ p)) with (of_be (be 1 (proto_number pr))). rewrite proto_of_number by tauto.
  rewrite !of_be_small by done. rewrite length_app, Nat2N.id. change (length h) with 40.
  rewrite Nat.leb_refl. cbn [andb]. change (slice 40 ?n (h ++ p)) with (take n p). by rewrite firstn_all.
Qed.

Lemma m_ndisc_ok p t : m_ndisc p = Some (NdSolicit t) → (t < 2 ^ 128)%N.
Proof.
  unfold m_ndisc. leb_guard. bytes_guard. cbn [andb]. destruct (_ =? _)%N; [|done]. intros [= <-].
  by apply (num_lt _ 16).
Qed.

Definition advert_body (fl : u8) (t : Ipv6Addr) (ll : list u8) : list u8 :=
  [136; 0; 0; 0; fl; 0; 0; 0]%N ++ be128 t ++ [2; 1]%N ++ ll.
Lemma advert_body_length fl t ll : length ll = 6 → length (advert_body fl t ll) = 32.
Proof. intros H. unfold advert_body. by rewrite !length_app, (proj1 (be128_ok t)), H. Qed.

Lemma m_ndisc_length src dst fl t ll : length ll = 6 → length (m_emit_ndisc src dst (NdAdvert fl t ll)) = 32.
Proof.
  intros H. pose proof (advert_body_length fl t ll H) as Hl. cbn [m_emit_ndisc]. unfold with_checksum.
  fold (advert_body fl t ll). by rewrite put_length; [|cbn [length be16]; lia].
Qed.

Lemma m_ndisc_checksum src dst fl t ll : (fl < 256)%N → mac_ok ll →
  checksum_ok src dst 58 (m_emit_ndisc src dst (NdAdvert fl t ll)) = true.
Proof.
  intros Hf [Hl Hb]. pose proof (advert_body_length fl t ll Hl) as Hlen. cbn [m_emit_ndisc]. unfold with_checksum.
  fold (advert_body fl t ll). apply checksum_valid; [|by rewrite Hlen|done|by exists 1|lia|done|done].
  unfold advert_body, bytes_ok. rewrite !Forall_app.
  split_and!; [by repeat constructor|apply be128_ok|by repeat constructor|done].
Qed.

#[export] Instance wire_model : Wire := {
  wire_eth := m_eth; wire_arp := m_arp; wire_ip4 := m_ip4; wire_ip6 := m_ip6; wire_udp := m_udp;
  wire_icmp4 := m_icmp4; wire_icmp6 := m_icmp6; raw_ip4_dst := num 16 4; raw_ip6_dst := num 24 16;
  wire_ndisc := m_ndisc; emit_eth := m_emit_eth; emit_arp := m_emit_arp; emit_ip4 := m_emit_ip4;
  emit_ip6 := m_emit_ip6; emit_udp4 := m_emit_udp4; emit_icmp4_reply := m_emit_icmp4_reply;
  emit_ndisc := m_emit_ndisc; wire_eth_ok := m_eth_ok; wire_eth_emit := m_eth_emit; wire_arp_ok := m_arp_ok;
  wire_arp_emit := m_arp_emit; wire_ip4_ok := m_ip4_ok; wire_ip4_emit := m_ip4_emit;
  wire_icmp4_ok := m_icmp4_ok; wire_icmp4_emit := m_icmp4_emit; emit_icmp4_length _ _ _ := eq_refl;
  wire_ip6_ok := m_ip6_ok; wire_ip6_emit := m_ip6_emit; wire_ndisc_ok := m_ndisc_ok;
  emit_ndisc_length := m_ndisc_length; emit_ndisc_checksum := m_ndisc_checksum }.

(** ** DHCP

    The encoders give up on a message that does not come back. *)

#[export] Instance DhcpType_eq : EqDecision DhcpType.
Proof. solve_decision. Defined.
#[export] Instance DhcpOpt_eq : EqDecision DhcpOpt.
Proof. solve_decision. Defined.
#[export] Instance DhcpMsg_eq : EqDecision DhcpMsg.
Proof. solve_decision. Defined.
#[export] Instance Dhcp6Opt_eq : EqDecision Dhcp6Opt.
Proof. solve_decision. Defined.
#[export] Instance Dhcp6Msg_eq : EqDecision Dhcp6Msg.
Proof. solve_decision. Defined.

Definition type_num (t : DhcpType) : u8 :=
  match t with Discover => 1 | Offer => 2 | Request => 3 | Ack => 5 | Nak => 6 | DhcpOtherType n => n end%N.
Definition type_of (n : u8) : DhcpType :=
  match n with 1 => Discover | 2 => Offer | 3 => Request | 5 => Ack | 6 => Nak | _ => DhcpOtherType n end%N.

(** Options and their contents, by their codes. *)
Fixpoint chunks (fuel n : nat) (l : list u8) : list N :=
  match fuel, l with
  | S fuel, _ :: _ => of_be (take n l) :: chunks fuel n (drop n l)
  | _, _ => []
  end.
Definition route_bytes (r : Ipv4Addr * u8 * Ipv4Addr) : list u8 :=
  let '(dst, len, via) := r in len :: take (N.to_nat ((len + 7) / 8)) (be 4 dst) ++ be 4 via.
Fixpoint routes_of (fuel : nat) (l : list u8) : list (Ipv4Addr * u8 * Ipv4Addr) :=
  match fuel, l with
  | S fuel, len :: l =>
      let n := N.to_nat ((len + 7) / 8) in
      (of_be (take n l ++ replicate (4 - n) 0%N), len, num n 4 l) :: routes_of fuel (drop (n + 4) l)
  | _, _ => []
  end.

Definition opt_bytes (o : DhcpOpt) : list u8 :=
  match o with
  | OptMessageType t => [type_num t]
  | OptServerIdentifier a | OptAddressLeaseTime a | OptSubnetMask a | OptRequestedIpAddress a => be 4 a
  | OptRouter l | OptDomainNameServer l => l ≫= be 4
  | OptClasslessStaticRoute l => l ≫= route_bytes
  | OptOther _ d => d
  end.
Definition opt_of (code : u8) (d : list u8) : DhcpOpt :=
  match code with
  | 53 => OptMessageType (type_of (of_be d))
  | 54 => OptServerIdentifier (of_be d)
  | 51 => OptAddressLeaseTime (of_be d)
  | 1 => OptSubnetMask (of_be d)
  | 50 => OptRequestedIpAddress (of_be d)
  | 3 => OptRouter (chunks (length d) 4 d)
  | 6 => OptDomainNameServer (chunks (length d) 4 d)
  | 121 => OptClasslessStaticRoute (routes_of (length d) d)
  | _ => OptOther code d
  end%N.
Fixpoint opts_of (fuel : nat) (l : list u8) : gmap N DhcpOpt :=
  match fuel, l with
  | S fuel, code :: len :: l =>
      <[code := opt_of code (take (N.to_nat len) l)]> (opts_of fuel (drop (N.to_nat len) l))
  | _, _ => ∅
  end.

Definition m_dhcp_bytes (m : DhcpMsg) : list u8 :=
  [if dm_request m then 1%N else 2%N; dm_htype m; N.of_nat (length (dm_chaddr m)); 0%N] ++ be 4 (dm_xid m)
  ++ [0; 0]%N ++ be 2 (dm_flags m) ++ be 4 (dm_ciaddr m) ++ be 4 (dm_yiaddr m) ++ be 4 (dm_siaddr m)
  ++ replicate 4 0%N ++ take 16 (dm_chaddr m ++ replicate 16 0%N) ++ replicate 192 0%N ++ [99; 130; 83; 99]%N
  ++ ((map_to_list (dm_opts m)).*2 ≫= λ o, opt_code o :: N.of_nat (length (opt_bytes o)) :: opt_bytes o) ++ [255]%N.
Definition m_dhcp_decode (b : list u8) : option DhcpMsg :=
  if 240 <=? length b then
    Some (MkDhcpMsg (num 0 1 b =? 1)%N (num 1 1 b) (num 4 4 b) (num 10 2 b) (num 12 4 b) (num 16 4 b) (num 20 4 b)
      (slice 28 (N.to_nat (num 2 1 b)) b) (opts_of (length b) (drop 240 b)))
  else None.

Definition type6_num (t : Dhcp6Type) : u8 :=
  match t with
  | Solicit6 => 1 | Advertise6 => 2 | Request6 => 3 | Confirm6 => 4 | Renew6 => 5 | Rebind6 => 6 | Reply6 => 7
  | InformationRequest6 => 11 | Dhcp6Other n => n
  end%N.
Definition type6_of (n : u8) : Dhcp6Type :=
  match n with
  | 1 => Solicit6 | 2 => Advertise6 | 3 => Request6 | 4 => Confirm6 | 5 => Renew6 | 6 => Rebind6 | 7 => Reply6
  | 11 => InformationRequest6 | _ => Dhcp6Other n
  end%N.
Definition opt6_bytes (o : Dhcp6Opt) : list u8 :=
  match o with
  | Opt6ClientId d | Opt6ServerId d | Opt6Other _ d => d
  | Opt6IANA iaid t1 t2 addrs => be 4 iaid ++ be 4 t1 ++ be 4 t2
      ++ (addrs ≫= λ '(a, p, v), [0; 5; 0; 24]%N ++ be 16 a ++ be 4 p ++ be 4 v)
  | Opt6DomainNameServers l => l ≫= be 16
  | Opt6StatusSuccess => [0; 0]%N
  end.
Fixpoint addrs_of (fuel : nat) (l : list u8) : list (Ipv6Addr * u32 * u32) :=
  match fuel, l with
  | S fuel, _ :: _ => (num 4 16 l, num 20 4 l, num 24 4 l) :: addrs_of fuel (drop 28 l)
  | _, _ => []
  end.
Definition opt6_of (code : u16) (d : list u8) : Dhcp6Opt :=
  match code with
  | 1 => Opt6ClientId d
  | 2 => Opt6ServerId d
  | 3 => Opt6IANA (num 0 4 d) (num 4 4 d) (num 8 4 d) (addrs_of (length d) (drop 12 d))
  | 13 => Opt6StatusSuccess
  | 23 => Opt6DomainNameServers (chunks (length d) 16 d)
  | _ => Opt6Other code d
  end%N.
Fixpoint opts6_of (fuel : nat) (l : list u8) : list Dhcp6Opt :=
  match fuel, l with
  | S fuel, _ :: _ =>
      let n := N.to_nat (num 2 2 l) in opt6_of (num 0 2 l) (slice 4 n l) :: opts6_of fuel (drop (4 + n) l)
  | _, _ => []
  end.
Definition m_dhcp6_bytes (m : Dhcp6Msg) : list u8 :=
  type6_num (d6_type m) :: be 3 (d6_xid m)
  ++ (d6_opts m ≫= λ o, be 2 (opt6_code o) ++ be 2 (N.of_nat (length (opt6_bytes o))) ++ opt6_bytes o).
Definition m_dhcp6_decode (b : list u8) : option Dhcp6Msg :=
  if 4 <=? length b then Some (MkDhcp6Msg (type6_of (num 0 1 b)) (num 1 3 b) (opts6_of (length b) (drop 4 b)))
  else None.
Fixpoint m_dhcp6_insert (o : Dhcp6Opt) (l : list Dhcp6Opt) : list Dhcp6Opt :=
  match l with
  | [] => [o]
  | x :: l' => if (opt6_code o <? opt6_code x)%N then o :: l else x :: m_dhcp6_insert o l'
  end.

Definition checked {A} `{EqDecision A} (decode : list u8 → option A) (bytes : A → list u8) (m : A) : option (list u8) :=
  if (decode (bytes m) == Some m) && bytes_okb (bytes m) then Some (bytes m) else None.
Lemma checked_ok {A} `{EqDecision A} decode bytes (m : A) b : checked decode bytes m = Some b →
  decode b = Some m ∧ bytes_ok b.
Proof.
  unfold checked. destruct (_ == _) eqn:E; [|done]. apply bool_decide_eq_true in E. bytes_guard.
  by intros [= <-].
Qed.

#[export, refine] Instance dhcp_model : Dhcp := {
  dhcp_decode := m_dhcp_decode; dhcp_encode := checked m_dhcp_decode m_dhcp_bytes;
  dhcp_default := MkDhcpMsg true 1 0 0 0 0 0 (replicate 6 0%N) ∅;
  dhcp6_decode := m_dhcp6_decode; dhcp6_encode := checked m_dhcp6_decode m_dhcp6_bytes;
  dhcp6_insert := m_dhcp6_insert; dhcp_default_opts := eq_refl }.
Proof.
  - intros m b _ H. by apply checked_ok in H as [].
  - intros m b _ H. by apply checked_ok in H as [].
  - intros o l x. induction l as [|y l IH]; cbn [m_dhcp6_insert]; [set_solver|].
    destruct (_ <? _)%N; set_solver.
  - intros m b H. by apply checked_ok in H as [].
Defined.

End WireModels.

Import WireModels.

(** * A guest and its requests *)

Definition px_mac : list u8 := [82; 84; 0; 1; 2; 3]%N.
Definition px_ll : Ipv6Addr := mac_to_link_local px_mac.
Definition px_ip : Ipv4Addr := 167772162%N.
Definition px_ip6 : Ipv6Addr := (64768 * 2 ^ 112 + 2)%N.
Definition px_config : NicConfig :=
  MkNicConfig px_mac (Some px_ip) None 24 (Some px_ip6) None 64 [V4 134744072%N; V6 px_ip6].
Definition px_nic : EbNic :=
  MkEbNic 11 (Some "eth0") 1 px_mac (Some px_ip) (Some px_ip6) [] [] "tap0" NicActive "" "".
Definition px_network : EbNetwork :=
  MkEbNetwork 1 "blue" true (Some (167772160, 24)%N) true None [V4 134744072%N; V6 px_ip6] [] false "" "".
Definition px_hdr : list u8 := [1; 2; 3; 4; 5; 6; 7; 8; 9; 10; 11; 12]%N.

Definition px_v6 (pr : IpProto) (body : list u8) : list u8 :=
  emit_eth GATEWAY_MAC px_mac EtIpv6 ++ emit_ip6 px_ll GATEWAY_IPV6_LINK_LOCAL pr (length body) 64 ++ body.
Definition px_v4 (pr : IpProto) (body : list u8) : list u8 :=
  emit_eth GATEWAY_MAC px_mac EtIpv4 ++ emit_ip4 px_ip GATEWAY_IPV4_LINK_LOCAL pr (length body) 64 ++ body.
Definition px_udp (sport dport : u16) (body : list u8) : list u8 := emit_udp4 0 0 sport dport body.

Definition px_ping6 : list u8 := px_v6 PrIcmpv6 [128; 0; 17; 34; 0; 1; 0; 1; 104; 105]%N.
Definition px_ping : list u8 := px_v4 PrIcmp [8; 0; 17; 34; 0; 1; 0; 1; 104; 105]%N.
Definition px_arp : list u8 :=
  emit_eth BROADCAST_MAC px_mac EtArp
  ++ emit_arp (MkArpRepr ArpRequest px_mac px_ip (replicate 6 0%N) GATEWAY_IPV4_LINK_LOCAL).
Definition px_dhcp (q : Ipv4Addr) : DhcpMsg :=
  opts_insert (OptRequestedIpAddress q) (opts_insert (OptMessageType Request)
    (MkDhcpMsg true 1 7 0 0 0 0 px_mac ∅)).
Definition px_dhcp_frame (q : Ipv4Addr) : list u8 := px_v4 PrUdp (px_udp 68 67 (m_dhcp_bytes (px_dhcp q))).
Definition px_dhcp6 : Dhcp6Msg := MkDhcp6Msg Solicit6 9 [Opt6ClientId [0; 3; 0; 1]%N; Opt6IANA 5 0 0 []].
Definition px_dhcp6_frame : list u8 := px_v6 PrUdp (px_udp 546 547 (m_dhcp6_bytes px_dhcp6)).

Definition sent (a : Answer) : list u8 := match a with Sends p => p | _ => [] end.
Definition sends (a : Answer) : bool := match a with Sends _ => true | _ => false end.
Lemma sends_sent a : sends a = true → a = Sends (sent a).
Proof. by destruct a. Qed.

Lemma replies_v6_valid_witness : ∃ f,
  protocol_answer px_config (px_hdr ++ px_ping6) = Sends (replicate VIRTIO_NET_HDR_SIZE 0%N ++ f) ∧
  process_packet px_nic px_network px_ping6 = Sends f ∧ reply_v6 px_mac px_ll f.
Proof.
  assert (Hr : request_v6 px_ping6 (MkEthView GATEWAY_MAC px_mac EtIpv6 (drop 14 px_ping6))
    (MkIp6View px_ll GATEWAY_IPV6_LINK_LOCAL PrIcmpv6 (drop 54 px_ping6)))
    by (split; [apply bytes_okb_ok; vm_compute|vm_compute|vm_compute|vm_compute|vm_compute]; (reflexivity || discriminate)).
  destruct (replies_v6_valid px_config px_nic px_network px_hdr _ _ _ eq_refl Hr) as [Hn _].
  destruct (Hn (sent (protocol_answer px_config (px_hdr ++ px_ping6)))) as (f & Hf & Hok);
    [apply sends_sent; vm_compute; reflexivity|vm_compute; discriminate|].
  exists f. split; [|split; [|exact Hok]].
  - rewrite <- Hf. apply sends_sent. vm_compute. reflexivity.
  - rewrite (sends_sent (process_packet px_nic px_network px_ping6)) by (vm_compute; reflexivity).
    f_equal. apply (inj (replicate VIRTIO_NET_HDR_SIZE 0%N ++.)). rewrite <- Hf. vm_compute. reflexivity.
Defined.

(** A request for another address: mvirt-net refuses it, mvirt-ebpf leases the
    configured one. *)
Definition px_asks : Ipv4Addr := 167772200%N.
Definition px_dhcp_eth : EthView := MkEthView GATEWAY_MAC px_mac EtIpv4 (drop 14 (px_dhcp_frame px_asks)).
Definition px_dhcp_ip : Ip4View := MkIp4View px_ip GATEWAY_IPV4_LINK_LOCAL PrUdp (drop 34 (px_dhcp_frame px_asks)).
Definition px_dhcp_udp : UdpView := MkUdpView 68 67 (m_dhcp_bytes (px_dhcp px_asks)).

Lemma dhcp_leases_configured_witness :
  (∃ dst mac bytes r, handle_dhcp_packet px_config px_hdr (px_dhcp_frame px_asks)
     = Sends (zero_hdr px_hdr ++ dhcp_frame dst mac bytes) ∧
     dhcp_decode bytes = Some r ∧ get_dhcp_message_type r = Some Nak) ∧
  (∃ dst mac bytes r, process_packet px_nic px_network (px_dhcp_frame px_asks) = Sends (dhcp_frame dst mac bytes) ∧
     dhcp_decode bytes = Some r ∧ leases (px_dhcp px_asks) r px_ip ∧ get_dhcp_message_type r = Some Ack).
Proof.
  destruct (dhcp_leases_configured px_config px_nic px_network px_hdr (px_dhcp_frame px_asks) px_dhcp_eth
    px_dhcp_ip px_dhcp_udp (px_dhcp px_asks) Request) as [Hn He]; [vm_compute; reflexivity..|].
  split.
  - destruct (Hn (sent (handle_dhcp_packet px_config px_hdr (px_dhcp_frame px_asks))))
      as (a & dst & mac & bytes & r & [= <-] & Hp & Hd & Hr); [apply sends_sent; vm_compute; reflexivity|].
    exists dst, mac, bytes, r. split; [rewrite <- Hp; apply sends_sent; vm_compute; reflexivity|].
    split; [exact Hd|].
    destruct (get_dhcp_message_type r) as [[]|]; try tauto.
    + by destruct Hr.
    + destruct Hr as (_ & _ & [H|H]); vm_compute in H; discriminate.
  - destruct (He (sent (process_packet px_nic px_network (px_dhcp_frame px_asks))))
      as (a & dst & mac & bytes & r & [= <-] & Hp & Hd & _ & Hl & Ht); [apply sends_sent; vm_compute; reflexivity|].
    exists dst, mac, bytes, r. split; [rewrite <- Hp; apply sends_sent; vm_compute; reflexivity|]. tauto.
Defined.

Definition px_dhcp6_eth : EthView := MkEthView GATEWAY_MAC px_mac EtIpv6 (drop 14 px_dhcp6_frame).
Definition px_dhcp6_ip : Ip6View := MkIp6View px_ll GATEWAY_IPV6_LINK_LOCAL PrUdp (drop 54 px_dhcp6_frame).
Definition px_dhcp6_udp : UdpView := MkUdpView 546 547 (m_dhcp6_bytes px_dhcp6).

Lemma dhcpv6_assigns_configured_witness :
  ∃ bytes r, process_packet px_nic px_network px_dhcp6_frame = Sends (dhcpv6_frame px_ll px_mac bytes) ∧
    dhcp6_decode bytes = Some r ∧ d6_type r = Advertise6 ∧ assigns6 px_dhcp6 r (Some px_ip6).
Proof.
  destruct (dhcpv6_assigns_configured px_config px_nic px_network px_hdr px_dhcp6_frame px_dhcp6_eth
    px_dhcp6_ip px_dhcp6_udp px_dhcp6) as [_ He]; [vm_compute; reflexivity..|].
  destruct (He (sent (process_packet px_nic px_network px_dhcp6_frame)))
    as (bytes & r & a & Hp & Hd & Ht & Ha & Hw); [apply sends_sent; vm_compute; reflexivity|].
  exists bytes, r. split.
  { change px_ll with (i6_src px_dhcp6_ip). change px_mac with (ev_src px_dhcp6_eth). rewrite <- Hp.
    apply sends_sent. vm_compute. reflexivity. }
  destruct Hw as [-> _]. tauto.
Defined.

