(* ===== verification/NetReactor.v ===== *)
(** The event loop of mvirt-net's reactors (Reactor::run and the routines it calls in
    src/reactor/mod.rs, the registry of src/reactor/registry.rs, the buffer pool of
    src/virtqueue.rs): packets and completions pass between reactors over channels. *)

From stdpp Require Import gmultiset.
From S2P Require Import Prelude Packet NetAddr NetRoute NetSvc NetIovec NetRx NetWire NetProto.

(** * io_uring

    The operations pushed and not yet completed. A push fails when the submission
    queue is full; submitting empties it. *)

Inductive RingOp :=
  | OpReadEvent
  | OpReadFixed (chain_id : u64)
  | OpPollAdd
  | OpWritev (data : list u8)
  | OpWrite (data : list u8).
Record Sqe := MkSqe { sq_op : RingOp; sq_user_data : u64 }.
(** The bytes that a read stored come with its completion. *)
Record Cqe := MkCqe { cq_user_data : u64; cq_result : Z; cq_data : list u8 }.

Class Rings := {
  ring : Type;
  rg_ops : ring → list Sqe;
  rg_push : Sqe → ring → option ring;
  rg_submit : ring → ring;
  rg_push_ops e r r' : rg_push e r = Some r' → rg_ops r' = rg_ops r ++ [e];
  rg_submit_ops r : rg_ops (rg_submit r) = rg_ops r }.

Definition USER_DATA_RX_FLAG : u64 := (2 ^ 63)%N.
Definition USER_DATA_EVENT_FLAG : u64 := (2 ^ 62)%N.
Definition USER_DATA_VHOST_TX_FLAG : u64 := (2 ^ 61)%N.
Definition USER_DATA_INCOMING_TUN_FLAG : u64 := (2 ^ 60)%N.
Definition USER_DATA_TUN_POLL_FLAG : u64 := (2 ^ 59)%N.
Definition has_flag (user_data flag : u64) : bool := negb (N.land user_data flag =? 0)%N.
(** [user_data & !(RX | EVENT | TUN_POLL)]. *)
Definition chain_of (user_data : u64) : u64 :=
  N.ldiff user_data
    (N.lor (N.lor USER_DATA_RX_FLAG USER_DATA_EVENT_FLAG) USER_DATA_TUN_POLL_FLAG).

Definition EAGAIN : Z := 11.
Definition EINVAL : Z := 22.

(** * State *)

Inductive CompletionNotify :=
  | VhostTxComplete (packet_id : u64) (head_index : u16) (total_len : u32) (result : Z)
  | TunRxComplete (packet_id : u64) (chain_id : u64) (result : Z)
  | VhostToVhostComplete (packet_id : u64) (head_index : u16) (total_len : u32) (result : Z).

Section reactor.
Context {wire : Wire} {dhcp : Dhcp} {memory : GuestMemory} {queues : VirtQueue} {rings : Rings}.
Context {nets4 : IpNets 32} {nets6 : IpNets 128} {new4 : NetNew 32} {new6 : NetNew 128}.
Context {maps4 : PrefixMaps 32} {maps6 : PrefixMaps 128}.

(** [VhostState]: the guest's memory with its RX queue, and its TX queue. *)
Record Vhost := MkVhost { vh_rx : VhostRx; vh_tx : vqueue; vh_tx_signals : nat }.

(** A reactor with its local variables of [run], its entry in the registry and the
    receiving ends of its channels; [rc_alive] while its thread runs. The maps of
    descriptor chains are sets of their ids, which determine their buffers. The
    counter of its eventfd is [rc_event]; [rc_signal] are the reactors to wake at the
    end of the batch. *)
Record Reactor := MkReactor {
  rc_id : ReactorId; rc_alive : bool; rc_mac : option (list u8); rc_nic_config : option NicConfig;
  rc_commands : list ReactorCommand; rc_handshakes : list Vhost; rc_packets : list PacketRef;
  rc_completions : list CompletionNotify; rc_event : nat;
  rc_tables : RoutingTables; rc_next_packet_id : u64; rc_vhost : option Vhost;
  rc_available : list u64; rc_rx_in_flight : gset N; rc_rx_poll_pending : gset N;
  rc_vhost_tx_in_flight : gmap N (u16 * u32); rc_vhost_tx_id : u64;
  rc_vhost_to_vhost : gmap N (u16 * u32);
  rc_incoming_to_tun : gmap N (u64 * PacketSource); rc_incoming_tun_id : u64;
  rc_tun_rx : gmap N u64;
  rc_ring : ring; rc_signal : gset N; rc_shutdown : bool }.

#[export] Instance Vhost_eta : Eta Vhost := λ v, MkVhost (vh_rx v) (vh_tx v) (vh_tx_signals v).
#[export] Instance Reactor_eta : Eta Reactor := λ r,
  MkReactor (rc_id r) (rc_alive r) (rc_mac r) (rc_nic_config r) (rc_commands r) (rc_handshakes r)
    (rc_packets r) (rc_completions r) (rc_event r) (rc_tables r) (rc_next_packet_id r) (rc_vhost r)
    (rc_available r) (rc_rx_in_flight r) (rc_rx_poll_pending r) (rc_vhost_tx_in_flight r)
    (rc_vhost_tx_id r) (rc_vhost_to_vhost r) (rc_incoming_to_tun r) (rc_incoming_tun_id r)
    (rc_tun_rx r) (rc_ring r) (rc_signal r) (rc_shutdown r).

(** The running reactor and the others, as the registry reaches them. *)
Record World := MkWorld { w_self : Reactor; w_others : gmap N Reactor }.
#[export] Instance World_eta : Eta World := λ w, MkWorld (w_self w) (w_others w).
Definition on_self (f : Reactor → Reactor) (w : World) : World := w <| w_self := f (w_self w) |>.

(** * The registry *)

Definition world_get (i : ReactorId) (w : World) : option Reactor :=
  if (i =? rc_id (w_self w))%N then Some (w_self w) else w_others w !! i.
Definition world_set (i : ReactorId) (r : Reactor) (w : World) : World :=
  if (i =? rc_id (w_self w))%N then w <| w_self := r |> else w <| w_others := <[i := r]> (w_others w) |>.

Definition get_mac_for_reactor (i : ReactorId) (w : World) : option (list u8) := r ← world_get i w; rc_mac r.
(** A channel whose receiver is gone refuses. *)
Definition send_packet_to_no_signal (i : ReactorId) (p : PacketRef) (w : World) : bool * World :=
  match world_get i w with
  | Some r =>
      if rc_alive r then (true, world_set i (r <| rc_packets := rc_packets r ++ [p] |>) w) else (false, w)
  | None => (false, w)
  end.
Definition send_completion_to (i : ReactorId) (c : CompletionNotify) (w : World) : World :=
  match world_get i w with
  | Some r =>
      if rc_alive r then
        world_set i (r <| rc_completions := rc_completions r ++ [c] |> <| rc_event := S (rc_event r) |>) w
      else w
  | None => w
  end.
Definition signal_reactor (i : ReactorId) (w : World) : World :=
  match world_get i w with Some r => world_set i (r <| rc_event := S (rc_event r) |>) w | None => w end.

(** * The ring and the buffers *)

Definition push_sqe (e : Sqe) (r : Reactor) : option Reactor :=
  g ← rg_push e (rc_ring r); Some (r <| rc_ring := g |>).

Definition pop_available (r : Reactor) : option (u64 * Reactor) :=
  match rc_available r with [] => None | c :: cs => Some (c, r <| rc_available := cs |>) end.
Definition push_used (c : u64) (r : Reactor) : Reactor := r <| rc_available := rc_available r ++ [c] |>.

Definition read_sqe (c : u64) : Sqe := MkSqe (OpReadFixed c) (N.lor c USER_DATA_RX_FLAG).
Definition event_sqe : Sqe := MkSqe OpReadEvent USER_DATA_EVENT_FLAG.
(** A read into the buffer of a chain that is already popped. *)
Definition submit_read (c : u64) (r : Reactor) : option Reactor :=
  r ← push_sqe (read_sqe c) r; Some (r <| rc_rx_in_flight := {[ c ]} ∪ rc_rx_in_flight r |>).
(** A chain popped for a read that the full queue refuses is not put back. *)
Definition resubmit_rx (r : Reactor) : Reactor :=
  match pop_available r with
  | Some (c, r) => default r (submit_read c r)
  | None => r
  end.

(** * From the guest *)

(** The bytes behind a host address. Only the first is known to be mapped; past the
    end of the mapping the code reads what is there. *)
Definition host_bytes (m : gmem) (a : u64) (len : nat) : list u8 :=
  (λ i, default 0%N (gm_read m (a + N.of_nat i)%N)) <$> seq 0 len.

Fixpoint desc_chain_loop (m : gmem) (descs : list Desc) (iovecs : list iovec) (total_len : u32)
    : option (list iovec * u32) :=
  match descs with
  | [] => match iovecs with [] => None | _ => Some (iovecs, total_len) end
  | d :: descs =>
      if de_write_only d then desc_chain_loop m descs iovecs total_len else
      if MAX_TX_IOVECS <=? length iovecs then None else
      match gm_read m (de_addr d) with
      | None => None
      | Some _ =>
          desc_chain_loop m descs (iovecs ++ [host_bytes m (de_addr d) (N.to_nat (de_len d))])
            (u32_add total_len (de_len d))
      end
  end.
Definition desc_chain_to_iovecs (m : gmem) (c : Chain) : option (list iovec * u32) :=
  desc_chain_loop m (ch_descs c) [] 0%N.

Definition tx_used (h : u16) (n : u32) (v : Vhost) : Vhost := v <| vh_tx := vq_add_used h n (vh_tx v) |>.

Definition next_packet_id (w : World) : u64 * World :=
  (rc_next_packet_id (w_self w),
   on_self (λ r, r <| rc_next_packet_id := wrap 64 (rc_next_packet_id r + 1) |>) w).

(** A packet for another reactor, tracked by [track] if its channel takes it. *)
Definition forward (target : ReactorId) (iovecs : list iovec) (source : PacketSource)
    (track : u64 → Reactor → Reactor) (w : World) : bool * World :=
  let '(id, w) := next_packet_id w in
  let '(ok, w) := send_packet_to_no_signal target (MkPacketRef id iovecs source) w in
  if ok then
    (true, on_self (λ r, track id (r <| rc_signal := {[ target ]} ∪ rc_signal r |>)) w)
  else (false, w).

Definition BROADCAST : list u8 := replicate 6 255%N.
Definition forward_vhost (target : ReactorId) (h : u16) (total_len : u32) (iovecs : list iovec) (w : World)
    : bool * World :=
  let dst_mac := default BROADCAST (get_mac_for_reactor target w) in
  forward target iovecs (SrcVhostToVhost h total_len (rc_id (w_self w)) dst_mac GATEWAY_MAC)
    (λ id r, r <| rc_vhost_to_vhost := <[id := (h, total_len)]> (rc_vhost_to_vhost r) |>) w.

Definition submit_vhost_tx (h : u16) (total_len : u32) (data : list u8) (w : World) : bool * World :=
  let r := w_self w in
  let user_data := N.lor (rc_vhost_tx_id r) USER_DATA_VHOST_TX_FLAG in
  let r := r <| rc_vhost_tx_id := wrap 64 (rc_vhost_tx_id r + 1) |> in
  match push_sqe (MkSqe (OpWritev data) user_data) r with
  | Some r =>
      (true, w <| w_self := r <| rc_vhost_tx_in_flight := <[user_data := (h, total_len)]> (rc_vhost_tx_in_flight r) |> |>)
  | None => (false, w <| w_self := r |>)
  end.

(** One chain of the TX queue; [None] when the thread panics or does not come back.
    The result says whether the chain was returned. *)
Definition process_chain (c : Chain) (v : Vhost) (w : World) : option (bool * Vhost * World) :=
  let h := ch_head c in
  match desc_chain_to_iovecs (vr_mem (vh_rx v)) c with
  | None => Some (true, tx_used h 0 v, w)
  | Some (iovecs, total_len) =>
      let peek := peek_packet_headers iovecs total_len in
      match handle_vhost_ethernet_protocols (rc_nic_config (w_self w)) peek (vh_rx v) with
      | (None, _) => None
      | (Some true, rx) => Some (true, tx_used h total_len (v <| vh_rx := rx |>), w)
      | (Some false, rx) =>
          let v := v <| vh_rx := rx |> in
          let '(ok, w) :=
            match peek_and_route_ethernet (rc_tables (w_self w)) peek with
            | ToTun _ =>
                match prepare_tun_iovecs iovecs with
                | Some tun => submit_vhost_tx h total_len (pkt tun) w
                | None => (false, w)
                end
            | ToVhost target => forward_vhost target h total_len iovecs w
            | DropPacket => (false, w)
            end in
          Some (if ok then (false, v, w) else (true, tx_used h 0 v, w))
      end
  end.

Fixpoint tx_round (n : nat) (returned : bool) (v : Vhost) (w : World) : option (bool * Vhost * World) :=
  match n, vq_pop (vh_tx v) with
  | O, _ => None
  | _, None => Some (returned, v, w)
  | S n, Some (c, q) =>
      match process_chain c (v <| vh_tx := q |>) w with
      | Some (b, v, w) => tx_round n (returned || b) v w
      | None => None
      end
  end.

(** Rounds until no chain is left; [arrivals] are the chains that the guest makes
    available during the rounds, each time at least one. *)
Fixpoint process_vhost_tx (arrivals : list (Chain * list Chain)) (v : Vhost) (w : World)
    : option (Vhost * World) :=
  match tx_round (S (length (vq_avail (vh_tx v)))) false v w with
  | None => None
  | Some (returned, v, w) =>
      let v := if returned then v <| vh_tx_signals := S (vh_tx_signals v) |> else v in
      match arrivals with
      | [] => Some (v, w)
      | (c, cs) :: arrivals =>
          process_vhost_tx arrivals (v <| vh_tx := foldl (λ q c, vq_offer c q) (vh_tx v) (c :: cs) |>) w
      end
  end.

(** * From other reactors *)

(** The completion of a packet, with the result of the copy. *)
Definition completion_of (id : u64) (source : PacketSource) (result : Z) : CompletionNotify :=
  match source with
  | SrcVhostToVhost h len _ _ _ => VhostToVhostComplete id h len result
  | SrcTunRx chain _ _ _ _ => TunRxComplete id chain result
  | SrcVhostTx h len _ => VhostTxComplete id h len result
  end.
(** Of a packet for the device; one from a device reports its own length. *)
Definition incoming_completion (id : u64) (source : PacketSource) (result : Z) : CompletionNotify :=
  match source with
  | SrcTunRx chain len _ _ _ => TunRxComplete id chain (as_i32 (N.to_nat len))
  | _ => completion_of id source result
  end.
Definition send_incoming_completion (p : PacketRef) (result : Z) (w : World) : World :=
  send_completion_to (source_reactor (pk_source p)) (incoming_completion (pk_id p) (pk_source p) result) w.

Context (fuel : nat).

Fixpoint process_packets (ps : list PacketRef) (signal_needed : bool) (v : Vhost) (w : World)
    : option (bool * Vhost * World) :=
  match ps with
  | [] => Some (signal_needed, v, w)
  | p :: ps =>
      match copy_to_vhost_rx fuel p (vh_rx v) with
      | (RxRet result, rx) =>
          process_packets ps (signal_needed || (0 <=? result)%Z) (v <| vh_rx := rx |>)
            (send_completion_to (source_reactor (pk_source p)) (completion_of (pk_id p) (pk_source p) result) w)
      | _ => None
      end
  end.
Definition process_incoming_packets (v : Vhost) (w : World) : option (Vhost * World) :=
  match process_packets (rc_packets (w_self w)) false v (on_self (λ r, r <| rc_packets := [] |>) w) with
  | Some (signal_needed, v, w) =>
      Some (if signal_needed then v <| vh_rx := (vh_rx v) <| vr_signals := S (vr_signals (vh_rx v)) |> |> else v, w)
  | None => None
  end.

Definition packet_to_tun (w : World) (p : PacketRef) : World :=
  match l3_packet (pk_iovecs p) with
  | None => send_incoming_completion p (- EINVAL) w
  | Some l3 =>
      let r := w_self w in
      let user_data := N.lor USER_DATA_INCOMING_TUN_FLAG (rc_incoming_tun_id r) in
      let r := r <| rc_incoming_tun_id := wrap 64 (rc_incoming_tun_id r + 1) |> in
      match push_sqe (MkSqe (OpWrite l3) user_data) r with
      | Some r =>
          w <| w_self := r <| rc_incoming_to_tun :=
            <[user_data := (pk_id p, pk_source p)]> (rc_incoming_to_tun r) |> |>
      | None => send_incoming_completion p (- ENOSPC) (w <| w_self := r |>)
      end
  end.
Definition process_incoming_packets_to_tun (w : World) : World :=
  foldl packet_to_tun (on_self (λ r, r <| rc_packets := [] |>) w) (rc_packets (w_self w)).

(** * Completions *)

(** The head comes from the message; the map only says that it is awaited. *)
Definition vhost_complete (id : u64) (h : u16) (total_len : u32) (result : Z) (r : Reactor) : Reactor :=
  match rc_vhost r with
  | Some v =>
      if rc_vhost_to_vhost r !! id then
        let used_len := if (0 <=? result)%Z then total_len else 0%N in
        let v := tx_used h used_len v in
        r <| rc_vhost_to_vhost := delete id (rc_vhost_to_vhost r) |>
          <| rc_vhost := Some (v <| vh_tx_signals := S (vh_tx_signals v) |>) |>
      else r
  | None => r
  end.

Definition tun_rx_complete (id chain : u64) (r : Reactor) : Reactor :=
  if rc_tun_rx r !! id then
    resubmit_rx (push_used chain (r <| rc_tun_rx := delete id (rc_tun_rx r) |>))
  else r.

Definition take_completion (r : Reactor) (c : CompletionNotify) : Reactor :=
  match c with
  | VhostToVhostComplete id h len result | VhostTxComplete id h len result => vhost_complete id h len result r
  | TunRxComplete id chain _ => tun_rx_complete id chain r
  end.
Definition process_completions (r : Reactor) : Reactor :=
  foldl take_completion (r <| rc_completions := [] |>) (rc_completions r).

(** * The event loop *)

Context (pick : KeyPick).

Definition take_command (r : Reactor) (c : ReactorCommand) : Reactor :=
  match c with
  | CmdShutdown => r <| rc_shutdown := true |>
  | c => r <| rc_tables := command_apply pick (rc_tables r) c |>
  end.
Definition process_commands (r : Reactor) : Reactor := foldl take_command (r <| rc_commands := [] |>) (rc_commands r).

Definition check_handshake (r : Reactor) : Reactor :=
  match rc_handshakes r with
  | v :: vs => r <| rc_handshakes := vs |> <| rc_vhost := Some v |>
  | [] => r
  end.

Definition process_vhost (arrivals : list (Chain * list Chain)) (w : World) : option World :=
  match rc_vhost (w_self w) with
  | Some v =>
      '(v, w) ← process_vhost_tx arrivals v w;
      '(v, w) ← process_incoming_packets v w;
      Some (on_self (λ r, r <| rc_vhost := Some v |>) w)
  | None => Some (process_incoming_packets_to_tun w)
  end.

Definition process_event (arrivals : list (Chain * list Chain)) (w : World) : option World :=
  w ← process_vhost arrivals (on_self (λ r, check_handshake (process_commands r)) w);
  Some (on_self process_completions w).

Inductive Run := Runs (w : World) | Exits (w : World) | Stuck.

Definition rearm_event (r : Reactor) : Reactor :=
  if rc_shutdown r then r else default r (push_sqe event_sqe r).
Definition handle_event (arrivals : list (Chain * list Chain)) (result : Z) (w : World) : Run :=
  match (if (0 <? result)%Z then process_event arrivals w else Some w) with
  | Some w => Runs (on_self rearm_event w)
  | None => Stuck
  end.

Definition handle_vhost_tx (user_data : u64) (r : Reactor) : Reactor :=
  match rc_vhost_tx_in_flight r !! user_data with
  | Some (h, total_len) =>
      let r := r <| rc_vhost_tx_in_flight := delete user_data (rc_vhost_tx_in_flight r) |> in
      match rc_vhost r with
      | Some v =>
          let v := tx_used h total_len v in
          r <| rc_vhost := Some (v <| vh_tx_signals := S (vh_tx_signals v) |>) |>
      | None => r
      end
  | None => r
  end.

Definition handle_incoming_tun (user_data : u64) (result : Z) (w : World) : World :=
  match rc_incoming_to_tun (w_self w) !! user_data with
  | Some (id, source) =>
      send_completion_to (source_reactor source) (incoming_completion id source result)
        (on_self (λ r, r <| rc_incoming_to_tun := delete user_data (rc_incoming_to_tun r) |>) w)
  | None => w
  end.

Definition handle_tun_poll (chain : u64) (result : Z) (r : Reactor) : Reactor :=
  if decide (chain ∈ rc_rx_poll_pending r) then
    let r := r <| rc_rx_poll_pending := rc_rx_poll_pending r ∖ {[ chain ]} |> in
    if (0 <=? result)%Z then default (push_used chain r) (submit_read chain r) else push_used chain r
  else r.

(** A packet from the device, to the reactor of the route; whether it was sent. *)
Definition ip_version (ip_data : list u8) : N := N.shiftr (ip_data !!! 0%nat) 4.
Definition forward_tun_rx (target : ReactorId) (chain : u64) (version : N) (data : list u8) (w : World)
    : bool * World :=
  let dst_mac := default BROADCAST (get_mac_for_reactor target w) in
  let ethertype := if (version =? 6)%N then 34525%N else 2048%N in
  forward target [data] (SrcTunRx chain (wrap 32 (N.of_nat (length data))) (rc_id (w_self w)) dst_mac ethertype)
    (λ id r, r <| rc_tun_rx := <[id := chain]> (rc_tun_rx r) |>) w.
Definition route_tun_rx (chain : u64) (data : list u8) (w : World) : bool * World :=
  if length data <=? VIRTIO_NET_HDR_SIZE then (false, w) else
  let ip_data := drop VIRTIO_NET_HDR_SIZE data in
  let version := ip_version ip_data in
  let decision :=
    if (version =? 4)%N then route_ipv4 (rc_tables (w_self w)) ip_data
    else if (version =? 6)%N then route_ipv6 (rc_tables (w_self w)) ip_data
    else DropPacket in
  match decision with
  | ToVhost target => forward_tun_rx target chain version data w
  | _ => (false, w)
  end.

Definition handle_rx_error (chain : u64) (result : Z) (r : Reactor) : Reactor :=
  if (result =? - EAGAIN)%Z then
    match push_sqe (MkSqe OpPollAdd (N.lor chain USER_DATA_TUN_POLL_FLAG)) r with
    | Some r => r <| rc_rx_poll_pending := {[ chain ]} ∪ rc_rx_poll_pending r |>
    | None => push_used chain r
    end
  else push_used chain r.

Definition handle_rx (chain : u64) (result : Z) (data : list u8) (w : World) : Run :=
  if decide (chain ∈ rc_rx_in_flight (w_self w)) then
    let w := on_self (λ r, r <| rc_rx_in_flight := rc_rx_in_flight r ∖ {[ chain ]} |>) w in
    if (result <? 0)%Z then Runs (on_self (handle_rx_error chain result) w)
    else if (result =? 0)%Z then Exits w
    else
      let '(sent, w) := route_tun_rx chain data w in
      Runs (if sent then w
            else on_self (λ r, let r := push_used chain r in if rc_shutdown r then r else resubmit_rx r) w)
  else Runs w.

(** One completion. Nothing is ever put into [pending_tx], so that a completion
    without a flag is unknown. *)
Definition handle_cqe (arrivals : list (Chain * list Chain)) (c : Cqe) (w : World) : Run :=
  let u := cq_user_data c in
  if has_flag u USER_DATA_EVENT_FLAG then handle_event arrivals (cq_result c) w
  else if has_flag u USER_DATA_VHOST_TX_FLAG then Runs (on_self (handle_vhost_tx u) w)
  else if has_flag u USER_DATA_INCOMING_TUN_FLAG then Runs (handle_incoming_tun u (cq_result c) w)
  else if has_flag u USER_DATA_TUN_POLL_FLAG then Runs (on_self (handle_tun_poll (chain_of u) (cq_result c)) w)
  else if has_flag u USER_DATA_RX_FLAG then handle_rx (chain_of u) (cq_result c) (cq_data c) w
  else Runs w.

(** After a batch of completions the reactors with new packets are woken, and the
    queue is submitted, unless the loop ends. *)
Definition end_batch (w : World) : Run :=
  let w := on_self (λ r, r <| rc_signal := ∅ |>) (foldr signal_reactor w (elements (rc_signal (w_self w)))) in
  if rc_shutdown (w_self w) then Exits w
  else Runs (on_self (λ r, r <| rc_ring := rg_submit (rc_ring r) |>) w).

(** ** The start *)

Fixpoint submit_initial (n : nat) (r : Reactor) : Reactor :=
  match n with
  | O => r
  | S n =>
      match pop_available r with
      | None => r
      | Some (c, r) =>
          match submit_read c r with
          | Some r => submit_initial n r
          | None => push_used c r
          end
      end
  end.

(** [Reactor::with_registry] with [rx_count] buffers, and [run] up to its loop: the
    event first, then as many reads as the ring holds. [None] when the first push
    fails. *)
Definition reactor_start (id : ReactorId) (mac : option (list u8)) (config : option NicConfig)
    (rx_count : nat) (ring_size : nat) (g : ring) : option Reactor :=
  let r := MkReactor id true mac config [] [] [] [] 0 rt_new 0 None (N.of_nat <$> seq 0 rx_count) ∅ ∅ ∅ 0 ∅ ∅ 0 ∅
    g ∅ false in
  r ← push_sqe event_sqe r;
  let r := submit_initial (ring_size - 1) r in
  Some (r <| rc_ring := rg_submit (rc_ring r) |>).

(** * Several reactors

    The threads of the reactors, the kernel, the guests and the daemon's other tasks
    take turns; a turn of a reactor is one completion, or the end of a batch. *)

Definition join (w : World) : gmap N Reactor := <[rc_id (w_self w) := w_self w]> (w_others w).

(** The chains that arrive meanwhile. *)
Definition arrived (arrivals : list (Chain * list Chain)) : list Chain := concat ((λ a, a.1 :: a.2) <$> arrivals).

(** The most packets that an event can start. *)
Definition waiting (v : Vhost) : nat := length (vq_avail (vh_tx v)).
Definition event_work (arrivals : list (Chain * list Chain)) (r : Reactor) : nat :=
  length (rc_packets r) + sum_list_with waiting (option_list (rc_vhost r) ++ rc_handshakes r)
  + length (arrived arrivals).
(** Room for [n] more packets before the counters reach the flags. *)
Definition young (n : nat) (r : Reactor) : Prop :=
  (rc_next_packet_id r + N.of_nat n ≤ 2 ^ 59)%N ∧ (rc_vhost_tx_id r + N.of_nat n ≤ 2 ^ 59)%N ∧
  (rc_incoming_tun_id r + N.of_nat n ≤ 2 ^ 59)%N.

(** A read of the eventfd resets it. *)
Definition event_left (e : Sqe) (result : Z) (r : Reactor) : nat :=
  match sq_op e with OpReadEvent => if (0 <? result)%Z then 0 else rc_event r | _ => rc_event r end.

Inductive NetLabel :=
  | LOffer (i : ReactorId) (cs : list Chain)
  | LHandshake (i : ReactorId)
  | LOther.

(** A completion is one of an outstanding operation; the eventfd is read when it was
    signalled. The counters of ids are far from their end. A thread
    may end at any time: on a command, on the end of the device, by a panic, or in a
    loop without end. *)
Inductive net_step (net : gmap N Reactor) : NetLabel → gmap N Reactor → Prop :=
  | net_cqe i r e g result data arrivals w :
      net !! i = Some r → rc_alive r = true → rg_ops (rc_ring r) ≡ₚ e :: rg_ops g →
      (sq_op e = OpReadEvent → (0 < result)%Z → rc_event r ≠ 0) →
      young (S (event_work arrivals r)) r →
      handle_cqe arrivals (MkCqe (sq_user_data e) result data)
        (MkWorld (r <| rc_ring := g |> <| rc_event := event_left e result r |>) (delete i net)) = Runs w →
      net_step net
        (match sq_op e with
         | OpReadEvent => if (0 <? result)%Z && is_some (rc_vhost r) then LOffer i (arrived arrivals) else LOther
         | _ => LOther
         end) (join w)
  | net_batch i r w :
      net !! i = Some r → rc_alive r = true → young 0 r → end_batch (MkWorld r (delete i net)) = Runs w →
      net_step net LOther (join w)
  | net_die i r : net !! i = Some r → net_step net LOther (<[i := r <| rc_alive := false |>]> net)
  | net_offer i r v c :
      net !! i = Some r → rc_vhost r = Some v →
      net_step net (LOffer i [c])
        (<[i := r <| rc_vhost := Some (v <| vh_tx := vq_offer c (vh_tx v) |>) |> <| rc_event := S (rc_event r) |>]> net)
  | net_command i r c :
      net !! i = Some r →
      net_step net LOther
        (<[i := r <| rc_commands := rc_commands r ++ [c] |> <| rc_event := S (rc_event r) |>]> net)
  | net_handshake i r v :
      net !! i = Some r →
      net_step net (LHandshake i)
        (<[i := r <| rc_handshakes := rc_handshakes r ++ [v] |> <| rc_event := S (rc_event r) |>]> net)
  | net_start i mac config rx_count ring_size g r :
      net !! i = None → rg_ops g = [] → (N.of_nat rx_count ≤ 2 ^ 59)%N →
      reactor_start i mac config rx_count ring_size g = Some r → net_step net LOther (<[i := r]> net).

Inductive net_run (net : gmap N Reactor) : list NetLabel → gmap N Reactor → Prop :=
  | net_run_nil : net_run net [] net
  | net_run_snoc ls net1 l net2 : net_run net ls net1 → net_step net1 l net2 → net_run net (ls ++ [l]) net2.

End reactor.
