(* ===== verification/NetReactorInv.v ===== *)
(** The books of the reactors: what each waits for and what each holds for the others,
    the places of descriptors and buffers, and that every handler of the event loop
    keeps them in order. *)

From stdpp Require Import gmultiset.
From S2P Require Import Prelude Packet NetAddr NetRoute NetSvc NetIovec NetRx NetWire NetProto NetReactor.

(** * Multisets of the entries of maps *)

(** Equations between multisets, by the multiplicities of an element. *)
Ltac ms :=
  apply gmultiset_eq; let x := fresh "x" in intros x;
  repeat match goal with
  | H : @eq (gmultiset _) _ _ |- _ =>
      apply (f_equal (multiplicity x)) in H; rewrite ?multiplicity_disj_union, ?multiplicity_empty in H
  end;
  rewrite ?multiplicity_disj_union, ?multiplicity_empty; lia.

Section of_map.
Context {V X : Type} `{Countable X}.
Implicit Types (f : N → V → X) (m : gmap N V).

Definition of_map f m : gmultiset X := list_to_set_disj ((λ kv, f kv.1 kv.2) <$> map_to_list m).

Lemma of_map_empty f : of_map f ∅ = ∅.
Proof. unfold of_map. by rewrite map_to_list_empty. Qed.
Lemma of_map_insert f m k x : m !! k = None → of_map f (<[k := x]> m) = {[+ f k x +]} ⊎ of_map f m.
Proof.
  intros Hk. unfold of_map. rewrite (map_to_list_insert m k x Hk), fmap_cons, list_to_set_disj_cons. done.
Qed.
Lemma of_map_delete f m k x : m !! k = Some x → of_map f m = {[+ f k x +]} ⊎ of_map f (delete k m).
Proof. intros Hk. rewrite <- (insert_delete_id m k x Hk) at 1. apply of_map_insert, lookup_delete_eq. Qed.
Lemma elem_of_of_map f m y : y ∈ of_map f m ↔ ∃ k x, m !! k = Some x ∧ y = f k x.
Proof.
  unfold of_map. rewrite elem_of_list_to_set_disj, list_elem_of_fmap. split.
  - intros ([k x] & -> & Hin). exists k, x. by apply elem_of_map_to_list in Hin.
  - intros (k & x & Hk & ->). exists (k, x). by rewrite elem_of_map_to_list.
Qed.
Lemma of_map_empty_inv f m : of_map f m = ∅ → m = ∅.
Proof.
  intros E. apply map_empty. intros k. destruct (m !! k) as [x|] eqn:Hk; [|done].
  assert (f k x ∈ of_map f m) as Hin by (apply elem_of_of_map; eauto). rewrite E in Hin. multiset_solver.
Qed.
End of_map.

(** The sum over a map of multisets. *)
Section msum.
Context {V X : Type} `{Countable X} (f : V → gmultiset X).

Definition msum (m : gmap N V) : gmultiset X := map_fold (λ _ v acc, f v ⊎ acc) ∅ m.

Lemma msum_insert m k v : m !! k = None → msum (<[k := v]> m) = f v ⊎ msum m.
Proof.
  intros Hk. unfold msum.
  rewrite (map_fold_insert_L (λ _ v acc, f v ⊎ acc)); [done| |done]. intros. multiset_solver.
Qed.
Lemma msum_delete m k v : m !! k = Some v → msum m = f v ⊎ msum (delete k m).
Proof. intros Hk. rewrite <- (insert_delete_id m k v Hk) at 1. apply msum_insert, lookup_delete_eq. Qed.
Lemma msum_update m k v v' : m !! k = Some v → msum (<[k := v']> m) ⊎ f v = msum m ⊎ f v'.
Proof.
  intros Hk. rewrite (msum_delete m k v Hk), <- insert_delete_eq, msum_insert by apply lookup_delete_eq.
  multiset_solver.
Qed.
Lemma elem_of_msum m x : x ∈ msum m ↔ ∃ k v, m !! k = Some v ∧ x ∈ f v.
Proof.
  induction m as [|k v m Hk IH] using map_ind.
  - unfold msum. rewrite map_fold_empty. set_solver.
  - rewrite msum_insert by done. rewrite gmultiset_elem_of_disj_union, IH. split.
    + intros [Hx|(k' & v' & Hl & Hx)]; [exists k, v; by rewrite lookup_insert_eq|].
      exists k', v'. rewrite lookup_insert_ne by congruence. done.
    + intros (k' & v' & [[-> ->]|[_ Hl]]%lookup_insert_Some & Hx); eauto.
Qed.
End msum.

Lemma list_ms_snoc `{Countable X} (l : list X) (c : X) :
  list_to_set_disj (l ++ [c]) =@{gmultiset X} {[+ c +]} ⊎ list_to_set_disj l.
Proof.
  rewrite list_to_set_disj_app, list_to_set_disj_cons, list_to_set_disj_nil. ms.
Qed.

(** The elements of a set. *)
Definition of_set (s : gset N) : gmultiset N := list_to_set_disj (elements s).
Lemma of_set_empty : of_set ∅ = ∅.
Proof. unfold of_set. by rewrite elements_empty. Qed.
Lemma of_set_insert s c : c ∉ s → of_set ({[ c ]} ∪ s) = {[+ c +]} ⊎ of_set s.
Proof.
  intros H. unfold of_set. assert (Hp : elements ({[ c ]} ∪ s) ≡ₚ c :: elements s) by (by apply elements_union_singleton).
  by rewrite (list_to_set_disj_perm _ _ Hp), list_to_set_disj_cons.
Qed.
Lemma of_set_delete s c : c ∈ s → of_set s = {[+ c +]} ⊎ of_set (s ∖ {[ c ]}).
Proof.
  intros H. rewrite <- of_set_insert by set_solver. f_equal. apply set_eq. intros x.
  destruct (decide (x = c)); set_solver.
Qed.
Lemma elem_of_of_set s c : c ∈ of_set s ↔ c ∈ s.
Proof. unfold of_set. by rewrite elem_of_list_to_set_disj, elem_of_elements. Qed.

(** * Flags *)

Lemma has_flag_bit u k : has_flag u (2 ^ k)%N = N.testbit u k.
Proof.
  unfold has_flag. destruct (N.testbit u k) eqn:E.
  - destruct (N.eqb_spec (N.land u (2 ^ k)) 0) as [H|]; [|done].
    assert (N.testbit (N.land u (2 ^ k)) k = true) as H' by (by rewrite N.land_spec, E, N.pow2_bits_true).
    by rewrite H, N.bits_0 in H'.
  - assert (N.land u (2 ^ k) = 0%N) as ->; [|done]. apply N.bits_inj. intros j.
    rewrite N.land_spec, N.bits_0, N.pow2_bits_eqb. destruct (N.eqb_spec k j) as [<-|]; [by rewrite E|].
    by rewrite andb_false_r.
Qed.

Lemma small_bit i k : (i < 2 ^ 59)%N → (59 ≤ k)%N → N.testbit i k = false.
Proof.
  intros Hi Hk. destruct (N.eq_dec i 0%N) as [->|Hn]; [apply N.bits_0|]. apply N.bits_above_log2.
  assert (N.log2 i < 59)%N by (apply N.log2_lt_pow2; [lia|done]). lia.
Qed.

Lemma flag_of i k j : (i < 2 ^ 59)%N → (59 ≤ j)%N → has_flag (N.lor i (2 ^ k)) (2 ^ j)%N = (k =? j)%N.
Proof. intros Hi Hj. by rewrite has_flag_bit, N.lor_spec, small_bit, N.pow2_bits_eqb. Qed.

Lemma lor_flag_inj i j k : (i < 2 ^ 59)%N → (j < 2 ^ 59)%N → (59 ≤ k)%N → N.lor i (2 ^ k) = N.lor j (2 ^ k) → i = j.
Proof.
  intros Hi Hj Hk E. apply N.bits_inj. intros n.
  destruct (N.ltb_spec n 59) as [Hn|Hn]; [|by rewrite !small_bit].
  apply (f_equal (λ x, N.testbit x n)) in E. rewrite !N.lor_spec, N.pow2_bits_eqb in E.
  destruct (N.eqb_spec k n); [lia|]. by rewrite !orb_false_r in E.
Qed.

Lemma chain_of_flag c k : (c < 2 ^ 59)%N → k = 59%N ∨ k = 63%N → chain_of (N.lor c (2 ^ k)) = c.
Proof.
  intros Hc Hk. unfold chain_of. apply N.bits_inj. intros n.
  rewrite N.ldiff_spec, !N.lor_spec. unfold USER_DATA_RX_FLAG, USER_DATA_EVENT_FLAG, USER_DATA_TUN_POLL_FLAG.
  rewrite !N.pow2_bits_eqb. destruct (N.ltb_spec n 59) as [Hn|Hn].
  - destruct (N.eqb_spec 63 n), (N.eqb_spec 62 n), (N.eqb_spec 59 n), (N.eqb_spec k n); try lia.
    by rewrite orb_false_r, andb_true_r.
  - rewrite small_bit by done. destruct Hk as [-> | ->];
      destruct (N.eqb_spec 63 n), (N.eqb_spec 62 n), (N.eqb_spec 59 n); subst; done.
Qed.

(** An item: a packet of a reactor, by its id, and what goes back to the guest or to
    the pool when it is done. *)
Abbreviation Item := (N * (N * ((N * N) + N)))%type.

Section facts.
Context {wire : Wire} {dhcp : Dhcp} {memory : GuestMemory} {queues : VirtQueue} {rings : Rings}.
Context {nets4 : IpNets 32} {nets6 : IpNets 128} {new4 : NetNew 32} {new6 : NetNew 128}.
Context {maps4 : PrefixMaps 32} {maps6 : PrefixMaps 128}.
Implicit Types (r d : Reactor) (w : World).

(** Projections of an updated record. *)
Ltac rc := cbn [rc_id rc_alive rc_mac rc_nic_config rc_commands rc_handshakes rc_packets rc_completions rc_event
  rc_tables rc_next_packet_id rc_vhost rc_available rc_rx_in_flight rc_rx_poll_pending rc_vhost_tx_in_flight
  rc_vhost_tx_id rc_vhost_to_vhost rc_incoming_to_tun rc_incoming_tun_id rc_tun_rx rc_ring rc_signal rc_shutdown
  w_self w_others on_self set_field] in *.

(** * The ledger *)

Definition item_of (id : u64) (s : PacketSource) : Item :=
  (source_reactor s,
   (id, match s with
        | SrcVhostTx h l _ | SrcVhostToVhost h l _ _ _ => inl (h, l)
        | SrcTunRx chain _ _ _ _ => inr chain
        end)).
Definition completed (i : ReactorId) (c : CompletionNotify) : Item :=
  match c with
  | VhostTxComplete id h l _ | VhostToVhostComplete id h l _ => (i, (id, inl (h, l)))
  | TunRxComplete id chain _ => (i, (id, inr chain))
  end.

Lemma completed_of id s res : completed (source_reactor s) (completion_of id s res) = item_of id s.
Proof. by destruct s. Qed.
Lemma completed_incoming id s res : completed (source_reactor s) (incoming_completion id s res) = item_of id s.
Proof. by destruct s. Qed.

(** What a reactor waits for, and what it holds: packets in its channel, writes to its
    device, and completions of its own packets. *)
Definition owed r : gmultiset Item :=
  of_map (λ k x, (rc_id r, (k, inl x))) (rc_vhost_to_vhost r)
  ⊎ of_map (λ k c, (rc_id r, (k, inr c))) (rc_tun_rx r).
Definition packet_items (ps : list PacketRef) : gmultiset Item :=
  list_to_set_disj ((λ p, item_of (pk_id p) (pk_source p)) <$> ps).
Definition completion_items (i : ReactorId) (cs : list CompletionNotify) : gmultiset Item :=
  list_to_set_disj (completed i <$> cs).
Definition claims r : gmultiset Item :=
  packet_items (rc_packets r)
  ⊎ of_map (λ _ x, item_of x.1 x.2) (rc_incoming_to_tun r)
  ⊎ completion_items (rc_id r) (rc_completions r).

Definition total (f : Reactor → gmultiset Item) w : gmultiset Item := f (w_self w) ⊎ msum f (w_others w).

Definition world_wf w : Prop :=
  w_others w !! rc_id (w_self w) = None ∧ map_Forall (λ i d, rc_id d = i) (w_others w).
Definition all_alive w : Prop :=
  rc_alive (w_self w) = true ∧ map_Forall (λ _ d, rc_alive d = true) (w_others w).

(** The books: what is owed is claimed somewhere, is in hand ([H]), or is lost; and
    nothing is lost as long as no reactor has died. *)
Definition balanced (H : gmultiset Item) w : Prop :=
  ∃ lost, total owed w = total claims w ⊎ H ⊎ lost ∧ (all_alive w → lost = ∅).

Lemma packet_items_cons p ps : packet_items (p :: ps) = {[+ item_of (pk_id p) (pk_source p) +]} ⊎ packet_items ps.
Proof. unfold packet_items. by rewrite fmap_cons, list_to_set_disj_cons. Qed.
Lemma packet_items_snoc ps p : packet_items (ps ++ [p]) = packet_items ps ⊎ {[+ item_of (pk_id p) (pk_source p) +]}.
Proof. unfold packet_items. rewrite fmap_app, list_to_set_disj_app. f_equal. apply (right_id_L ∅ (⊎)). Qed.
Lemma completion_items_cons i c cs : completion_items i (c :: cs) = {[+ completed i c +]} ⊎ completion_items i cs.
Proof. unfold completion_items. by rewrite fmap_cons, list_to_set_disj_cons. Qed.
Lemma completion_items_snoc i cs c : completion_items i (cs ++ [c]) = completion_items i cs ⊎ {[+ completed i c +]}.
Proof. unfold completion_items. rewrite fmap_app, list_to_set_disj_app. f_equal. apply (right_id_L ∅ (⊎)). Qed.

Lemma world_get_id w i r : world_wf w → world_get i w = Some r → rc_id r = i.
Proof.
  intros [_ Ho]. unfold world_get. destruct (N.eqb_spec i (rc_id (w_self w))) as [->|]; [by intros [= <-]|].
  apply Ho.
Qed.

Lemma total_set f w i r r' : world_get i w = Some r → total f (world_set i r' w) ⊎ f r = total f w ⊎ f r'.
Proof.
  unfold world_get, world_set, total. destruct (i =? rc_id (w_self w))%N.
  - intros [= <-]. cbn. ms.
  - intros Hi. cbn. pose proof (msum_update f _ _ _ r' Hi) as E. rewrite <- !(assoc_L (⊎)), E.
    ms.
Qed.

(** Whoever is owed something is known to the registry. *)
Lemma owed_known w i x : world_wf w → (i, x) ∈ total owed w → ∃ r, world_get i w = Some r ∧ (i, x) ∈ owed r.
Proof.
  intros [Hs Ho]. unfold total, world_get. rewrite gmultiset_elem_of_disj_union.
  assert (Hid : ∀ r, (i, x) ∈ owed r → rc_id r = i).
  { intros r. unfold owed. rewrite gmultiset_elem_of_disj_union, !elem_of_of_map. naive_solver. }
  intros [H|(k & d & Hk & H)%elem_of_msum].
  - rewrite (Hid _ H), N.eqb_refl. eauto.
  - pose proof (Hid _ H) as Hi. rewrite (Ho _ _ Hk) in Hi. subst k.
    destruct (N.eqb_spec i (rc_id (w_self w))) as [->|_]; [congruence|]. eauto.
Qed.
Lemma world_get_alive w i r : all_alive w → world_get i w = Some r → rc_alive r = true.
Proof.
  intros [Hs Ho]. unfold world_get. destruct (_ =? _)%N; [by intros [= <-]|]. apply Ho.
Qed.

(** ** Messages *)

(** All that other reactors do to a reactor. *)
Definition msg_only d d' : Prop :=
  d' = d <| rc_packets := rc_packets d' |> <| rc_completions := rc_completions d' |> <| rc_event := rc_event d' |>.
Lemma msg_only_refl d : msg_only d d.
Proof. by destruct d. Qed.
Lemma msg_only_trans d1 d2 d3 : msg_only d1 d2 → msg_only d2 d3 → msg_only d1 d3.
Proof. unfold msg_only. intros E1 E2. rewrite E2, E1. by destruct d1. Qed.

Lemma msg_only_packets d ps : msg_only d (d <| rc_packets := ps |>).
Proof. by destruct d. Qed.
Lemma msg_only_completions d cs : msg_only d (d <| rc_completions := cs |>).
Proof. by destruct d. Qed.

Record moves w w' : Prop := {
  mv_id : rc_id (w_self w') = rc_id (w_self w);
  mv_alive : rc_alive (w_self w') = rc_alive (w_self w);
  mv_others i : option_Forall2 msg_only (w_others w !! i) (w_others w' !! i) }.

Lemma moves_refl w : moves w w.
Proof. split; [done|done|]. intros i. destruct (w_others w !! i); constructor. apply msg_only_refl. Qed.
Lemma moves_trans w1 w2 w3 : moves w1 w2 → moves w2 w3 → moves w1 w3.
Proof.
  intros [Hi Ha Ho] [Hi' Ha' Ho']. split; [congruence|congruence|]. intros i. specialize (Ho i). specialize (Ho' i).
  inversion Ho as [? ? Hm E1 E2|E1 E2]; inversion Ho' as [? ? Hm' E1' E2'|E1' E2'];
    try congruence; constructor. rewrite <- E2 in E1'. injection E1' as ->. by eapply msg_only_trans.
Qed.
Lemma moves_on_self f w : rc_id (f (w_self w)) = rc_id (w_self w) →
  rc_alive (f (w_self w)) = rc_alive (w_self w) → moves w (on_self f w).
Proof. intros Hi Ha. split; [done|done|]. apply (mv_others w w), moves_refl. Qed.

Lemma moves_get_other w w' i d' : moves w w' → w_others w' !! i = Some d' →
  ∃ d, w_others w !! i = Some d ∧ msg_only d d'.
Proof. intros Hm Hi. destruct (mv_others _ _ Hm i) as [d ? Hd|]; [|done]. injection Hi as ->. eauto. Qed.

Lemma moves_wf w w' : moves w w' → world_wf w → world_wf w'.
Proof.
  intros Hm [Hs Ho]. split.
  - rewrite (mv_id _ _ Hm). pose proof (mv_others _ _ Hm (rc_id (w_self w))) as H. rewrite Hs in H. by inversion H.
  - intros i d' Hi. destruct (moves_get_other _ _ _ _ Hm Hi) as (d & Hd & Hmsg).
    rewrite Hmsg. exact (Ho _ _ Hd).
Qed.
Lemma moves_all_alive w w' : moves w w' → all_alive w' → all_alive w.
Proof.
  intros Hm [Hs Ho]. split; [by rewrite <- (mv_alive _ _ Hm)|]. intros i d Hd.
  pose proof (mv_others _ _ Hm i) as H. rewrite Hd in H. inversion H as [? d' Hmsg E1 E2|]. subst.
  symmetry in E2. specialize (Ho _ _ E2). cbn in Ho. by rewrite Hmsg in Ho.
Qed.

(** A message to [i]. *)
Lemma moves_set w i r r' : world_wf w → world_get i w = Some r → msg_only r r' → moves w (world_set i r' w).
Proof.
  unfold world_get, world_set. intros _ Hg Hm. destruct (i =? rc_id (w_self w))%N eqn:E.
  - injection Hg as <-. split; [by rewrite Hm|by rewrite Hm|apply (mv_others w w), moves_refl].
  - split; [done|done|]. intros j. cbn. destruct (decide (i = j)) as [->|Hne].
    + rewrite Hg, lookup_insert_eq. by constructor.
    + rewrite lookup_insert_ne by done. apply (mv_others w w), moves_refl.
Qed.

Lemma owed_msg_only d d' : msg_only d d' → owed d' = owed d.
Proof. intros ->. done. Qed.

Lemma message_spec w i r r' gain : world_wf w → world_get i w = Some r → msg_only r r' →
  claims r' = claims r ⊎ gain →
  moves w (world_set i r' w) ∧ msg_only (w_self w) (w_self (world_set i r' w)) ∧
  total owed (world_set i r' w) = total owed w ∧ total claims (world_set i r' w) = total claims w ⊎ gain.
Proof.
  intros Hwf Hg Hm Hc. pose proof (total_set owed w i r r' Hg) as Eo. pose proof (total_set claims w i r r' Hg) as Ec.
  rewrite (owed_msg_only _ _ Hm) in Eo. rewrite Hc in Ec. split_and!.
  - by eapply moves_set.
  - unfold world_get, world_set in *. destruct (_ =? _)%N; [by injection Hg as <-|apply msg_only_refl].
  - ms.
  - ms.
Qed.

Lemma send_packet_spec w i p ok w' : world_wf w → send_packet_to_no_signal i p w = (ok, w') →
  moves w w' ∧ msg_only (w_self w) (w_self w') ∧ total owed w' = total owed w ∧
  total claims w' = total claims w ⊎ (if ok then {[+ item_of (pk_id p) (pk_source p) +]} else ∅).
Proof.
  intros Hwf. unfold send_packet_to_no_signal.
  assert (Hno : (false, w) = (ok, w') → moves w w' ∧ msg_only (w_self w) (w_self w') ∧ total owed w' = total owed w ∧
    total claims w' = total claims w ⊎ (if ok then {[+ item_of (pk_id p) (pk_source p) +]} else ∅)).
  { intros [= <- <-]. split_and!; [apply moves_refl|apply msg_only_refl|done|ms]. }
  destruct (world_get i w) as [r|] eqn:Hg; [|done]. destruct (rc_alive r); [|done]. intros [= <- <-].
  eapply message_spec; [done|done|by destruct r|].
  unfold claims. rc. rewrite packet_items_snoc. ms.
Qed.

Lemma balanced_lost w w' H H' lost : moves w w' → balanced H w →
  total owed w' = total owed w → total claims w' ⊎ H' ⊎ lost = total claims w ⊎ H →
  (all_alive w → lost = ∅) → balanced H' w'.
Proof.
  intros Hm (l & E & Hl) Eo Ec Hlost. exists (l ⊎ lost). split.
  - rewrite Eo, E, <- Ec. ms.
  - intros Ha%(moves_all_alive _ _ Hm). by rewrite Hl, Hlost.
Qed.

Lemma send_completion_spec w id s c H : world_wf w → completed (source_reactor s) c = item_of id s →
  balanced ({[+ item_of id s +]} ⊎ H) w →
  let w' := send_completion_to (source_reactor s) c w in
  moves w w' ∧ msg_only (w_self w) (w_self w') ∧ balanced H w'.
Proof.
  intros Hwf Hc Hb. cbv zeta. pose proof Hb as (lost & E & Hl).
  assert (Hin : item_of id s ∈ total owed w) by (rewrite E; set_solver).
  destruct (owed_known w _ _ Hwf Hin) as (r & Hg & _). unfold send_completion_to. rewrite Hg.
  destruct (rc_alive r) eqn:Ha.
  - destruct (message_spec w (source_reactor s) r
      (r <| rc_completions := rc_completions r ++ [c] |> <| rc_event := S (rc_event r) |>) {[+ item_of id s +]})
      as (Hm & Hs & Eo & Ec); [done|done|by destruct r| |].
    { unfold claims. rc. rewrite completion_items_snoc, (world_get_id _ _ _ Hwf Hg), Hc.
      ms. }
    split_and!; [done|done|]. eapply (balanced_lost w _ _ _ ∅); [done|done|done|rewrite Ec; ms|done].
  - split_and!; [apply moves_refl|apply msg_only_refl|].
    eapply (balanced_lost w _ _ _ {[+ item_of id s +]}); [apply moves_refl|done|done|ms|].
    intros Hall. pose proof (world_get_alive _ _ _ Hall Hg). congruence.
Qed.

(** * The invariant of a reactor *)

Definition keys (g : Sqe → option N) (l : list Sqe) : gmultiset N := list_to_set_disj (omap g l).
Definition writev_key (e : Sqe) : option N := match sq_op e with OpWritev _ => Some (sq_user_data e) | _ => None end.
Definition write_key (e : Sqe) : option N := match sq_op e with OpWrite _ => Some (sq_user_data e) | _ => None end.
Definition read_key (e : Sqe) : option N := match sq_op e with OpReadFixed c => Some c | _ => None end.

(** An operation and its user data agree. *)
Definition sqe_ok (e : Sqe) : Prop :=
  match sq_op e with
  | OpReadEvent => sq_user_data e = USER_DATA_EVENT_FLAG
  | OpReadFixed c => (c < 2 ^ 59)%N ∧ sq_user_data e = N.lor c USER_DATA_RX_FLAG
  | OpPollAdd => ∃ c, (c < 2 ^ 59)%N ∧ sq_user_data e = N.lor c USER_DATA_TUN_POLL_FLAG
  | OpWritev _ => ∃ i, (i < 2 ^ 59)%N ∧ sq_user_data e = N.lor i USER_DATA_VHOST_TX_FLAG
  | OpWrite _ => ∃ i, (i < 2 ^ 59)%N ∧ sq_user_data e = N.lor i USER_DATA_INCOMING_TUN_FLAG
  end.

(** The places of the buffers of the device. *)
Definition chains r : gmultiset N :=
  list_to_set_disj (rc_available r) ⊎ of_set (rc_rx_in_flight r) ⊎ of_set (rc_rx_poll_pending r)
  ⊎ of_map (λ _ c, c) (rc_tun_rx r).

(** [hole] are operations that have completed and are not handled yet, [hand] the
    buffers that a handler holds. *)
Record local_ok (hole : list Sqe) (hand : gmultiset N) r : Prop := {
  lo_sqes : Forall sqe_ok (hole ++ rg_ops (rc_ring r));
  lo_tx : keys writev_key (hole ++ rg_ops (rc_ring r)) = of_map (λ k _, k) (rc_vhost_tx_in_flight r);
  lo_tun : keys write_key (hole ++ rg_ops (rc_ring r)) = of_map (λ k _, k) (rc_incoming_to_tun r);
  lo_rx : keys read_key (hole ++ rg_ops (rc_ring r)) = of_set (rc_rx_in_flight r);
  lo_tx_keys : map_Forall (λ k _, ∃ i, (i < rc_vhost_tx_id r)%N ∧ k = N.lor i USER_DATA_VHOST_TX_FLAG)
    (rc_vhost_tx_in_flight r);
  lo_tun_keys : map_Forall (λ k _, ∃ i, (i < rc_incoming_tun_id r)%N ∧ k = N.lor i USER_DATA_INCOMING_TUN_FLAG)
    (rc_incoming_to_tun r);
  lo_v2v_ids : map_Forall (λ k _, k < rc_next_packet_id r)%N (rc_vhost_to_vhost r);
  lo_tun_rx_ids : map_Forall (λ k _, k < rc_next_packet_id r)%N (rc_tun_rx r);
  lo_once c : multiplicity c (hand ⊎ chains r) ≤ 1;
  lo_small c : c ∈ hand ⊎ chains r → (c < 2 ^ 59)%N;
  lo_vhost : rc_vhost r = None → rc_vhost_to_vhost r = ∅ ∧ rc_vhost_tx_in_flight r = ∅ }.

Record wok (hole : list Sqe) (hand : gmultiset N) (H : gmultiset Item) (n : nat) w : Prop := {
  wo_wf : world_wf w;
  wo_self : local_ok hole hand (w_self w);
  wo_others : map_Forall (λ _ d, local_ok [] ∅ d) (w_others w);
  wo_bal : balanced H w;
  wo_young : young n (w_self w) }.

Ltac lo := match goal with H : local_ok _ _ _ |- _ => destruct H; constructor; rc; try done end.

Lemma local_ok_msg hole hand d d' : msg_only d d' → local_ok hole hand d → local_ok hole hand d'.
Proof. intros -> H. lo. Qed.

Lemma wok_intro hole hand H n w hole' hand' H' n' w' : wok hole hand H n w → moves w w' →
  local_ok hole' hand' (w_self w') → balanced H' w' → young n' (w_self w') → wok hole' hand' H' n' w'.
Proof.
  intros [Hwf _ Ho _ _] Hm Hl Hb Hy. split; [by eapply moves_wf|done| |done|done].
  intros i d' Hd. destruct (moves_get_other _ _ _ _ Hm Hd) as (d & Hi & Hmsg).
  eapply local_ok_msg; [done|]. exact (Ho _ _ Hi).
Qed.

Lemma keys_app g l l' : keys g (l ++ l') = keys g l ⊎ keys g l'.
Proof. unfold keys. rewrite omap_app. apply list_to_set_disj_app. Qed.

Lemma keys_one g e : keys g [e] = match g e with Some k => {[+ k +]} | None => ∅ end.
Proof. unfold keys. cbn. destruct (g e); [|done]. rewrite list_to_set_disj_cons, list_to_set_disj_nil. ms. Qed.

Lemma push_sqe_spec e r r' : push_sqe e r = Some r' →
  r' = r <| rc_ring := rc_ring r' |> ∧ rg_ops (rc_ring r') = rg_ops (rc_ring r) ++ [e].
Proof.
  unfold push_sqe. destruct (rg_push e (rc_ring r)) as [g|] eqn:E; [|done]. intros [= <-].
  split; [by destruct r|]. by apply rg_push_ops.
Qed.

(** ** Buffers *)

Lemma local_ok_drop hole hand c r : local_ok hole ({[+ c +]} ⊎ hand) r → local_ok hole hand r.
Proof.
  intros H. lo.
  - intros x. specialize (lo_once0 x). rewrite !multiplicity_disj_union in *. lia.
  - intros x Hx. apply lo_small0. set_solver.
Qed.

Lemma push_used_ok hole hand c r : local_ok hole ({[+ c +]} ⊎ hand) r → local_ok hole hand (push_used c r).
Proof.
  intros H. assert (E : chains (push_used c r) = {[+ c +]} ⊎ chains r).
  { unfold chains, push_used. rc. rewrite list_ms_snoc. ms. }
  lo; rewrite E.
  - intros x. specialize (lo_once0 x). rewrite !multiplicity_disj_union in *. lia.
  - intros x Hx. apply lo_small0. set_solver.
Qed.

Lemma submit_read_ok hole hand c r r' : local_ok hole ({[+ c +]} ⊎ hand) r → submit_read c r = Some r' →
  local_ok hole hand r'.
Proof.
  intros H. unfold submit_read. destruct (push_sqe _ r) as [r1|] eqn:E; cbn; [|done]. intros [= <-].
  apply push_sqe_spec in E as [E1 E2]. rewrite E1. rc.
  assert (Hc : c ∉ rc_rx_in_flight r).
  { intros Hin%elem_of_of_set. rewrite elem_of_multiplicity in Hin. pose proof (lo_once _ _ _ H c) as Hone. unfold chains in Hone.
    rewrite !multiplicity_disj_union, multiplicity_singleton, decide_True in Hone by done. lia. }
  assert (Hs : (c < 2 ^ 59)%N) by (apply (lo_small _ _ _ H); set_solver).
  assert (Ech : ∀ g, chains (r <| rc_ring := g |> <| rc_rx_in_flight := {[ c ]} ∪ rc_rx_in_flight r |>)
    = {[+ c +]} ⊎ chains r) by (intros g; unfold chains; rc; rewrite of_set_insert by done; ms).
  destruct H; constructor; rc; rewrite ?E2, ?(assoc_L (++)), ?keys_app, ?keys_one; try done.
  - apply Forall_app. split; [done|]. by constructor.
  - rewrite <- lo_tx0, keys_app. cbn [writev_key write_key read_key read_sqe sq_op]. ms.
  - rewrite <- lo_tun0, keys_app. cbn [writev_key write_key read_key read_sqe sq_op]. ms.
  - rewrite of_set_insert, <- lo_rx0, keys_app by done. cbn [writev_key write_key read_key read_sqe sq_op]. ms.
  - intros x. specialize (lo_once0 x). rewrite Ech. rewrite !multiplicity_disj_union in *. lia.
  - intros x Hx. rewrite Ech in Hx. apply lo_small0. set_solver.
Qed.

Lemma push_plain_ok hole hand e r r' : sqe_ok e → writev_key e = None → write_key e = None → read_key e = None →
  push_sqe e r = Some r' → local_ok hole hand r → local_ok hole hand r'.
Proof.
  intros He Hv Hw Hr Hp H. apply push_sqe_spec in Hp as [E1 E2]. rewrite E1.
  destruct H; constructor; rc; rewrite ?E2, ?(assoc_L (++)), ?keys_app, ?keys_one; try done.
  - apply Forall_app. split; [done|]. by constructor.
  - rewrite Hv, <- lo_tx0, keys_app. ms.
  - rewrite Hw, <- lo_tun0, keys_app. ms.
  - rewrite Hr, <- lo_rx0, keys_app. ms.
Qed.

Lemma resubmit_rx_ok hole hand r : local_ok hole hand r → local_ok hole hand (resubmit_rx r).
Proof.
  intros H. unfold resubmit_rx, pop_available. destruct (rc_available r) as [|c cs] eqn:Ea; [done|].
  assert (H' : local_ok hole ({[+ c +]} ⊎ hand) (r <| rc_available := cs |>)).
  { assert (E : chains r = {[+ c +]} ⊎ chains (r <| rc_available := cs |>)).
    { unfold chains. rc. rewrite Ea, list_to_set_disj_cons. ms. }
    lo.
    - intros x. specialize (lo_once0 x). rewrite E, !multiplicity_disj_union in lo_once0.
      rewrite !multiplicity_disj_union. lia.
    - intros x Hx. apply lo_small0. rewrite E. set_solver. }
  destruct (submit_read c _) as [r'|] eqn:E; cbn [default]; [by eapply submit_read_ok|by eapply local_ok_drop].
Qed.

(** ** Steps of the running reactor alone *)

Lemma wok_on_self hole hand H n hole' hand' H' n' f w : wok hole hand H n w →
  rc_id (f (w_self w)) = rc_id (w_self w) → rc_alive (f (w_self w)) = rc_alive (w_self w) →
  local_ok hole' hand' (f (w_self w)) → young n' (f (w_self w)) →
  owed (f (w_self w)) ⊎ claims (w_self w) ⊎ H = owed (w_self w) ⊎ claims (f (w_self w)) ⊎ H' →
  wok hole' hand' H' n' (on_self f w).
Proof.
  intros Hw Hi Ha Hl Hy E. pose proof (moves_on_self f w Hi Ha) as Hm.
  eapply wok_intro; [exact Hw|exact Hm|exact Hl| |exact Hy].
  destruct (wo_bal _ _ _ _ _ Hw) as (lost & Eb & Hlost). exists lost. split.
  - unfold total in *. rc. ms.
  - intros Hall. by apply Hlost, (moves_all_alive _ _ Hm).
Qed.

(** Nothing of the ledger changes. *)
Lemma wok_local hole hand H n hole' hand' n' f w : wok hole hand H n w →
  rc_id (f (w_self w)) = rc_id (w_self w) → rc_alive (f (w_self w)) = rc_alive (w_self w) →
  local_ok hole' hand' (f (w_self w)) → young n' (f (w_self w)) →
  owed (f (w_self w)) = owed (w_self w) → claims (f (w_self w)) = claims (w_self w) →
  wok hole' hand' H n' (on_self f w).
Proof. intros Hw Hi Ha Hl Hy Eo Ec. eapply wok_on_self; [done..|]. rewrite Eo, Ec. ms. Qed.

Lemma young_le n n' r : n' ≤ n → young n r → young n' r.
Proof. unfold young. lia. Qed.

Lemma wok_le hole hand H n n' w : n' ≤ n → wok hole hand H n w → wok hole hand H n' w.
Proof. intros Hn [? ? ? ? Hy]. split; [done..|]. by eapply young_le. Qed.

(** ** Sending *)

Lemma young_next n r : young (S n) r → wrap 64 (rc_next_packet_id r + 1) = (rc_next_packet_id r + 1)%N.
Proof. intros (H & _). apply N.mod_small. change (2 ^ 59)%N with 576460752303423488%N in H. lia. Qed.

Lemma next_packet_id_ok hole hand H n w id w' : wok hole hand H (S n) w → next_packet_id w = (id, w') →
  wok hole hand H n w' ∧ moves w w' ∧ id = rc_next_packet_id (w_self w) ∧ rc_next_packet_id (w_self w') = (id + 1)%N ∧
  w_self w' = (w_self w) <| rc_next_packet_id := (id + 1)%N |>.
Proof.
  intros Hw [= <- <-]. pose proof (young_next _ _ (wo_young _ _ _ _ _ Hw)) as Hn.
  split_and!; [|by apply moves_on_self|done|done|by unfold on_self; rc; rewrite Hn].
  eapply wok_local; [exact Hw|done|done| | |done|done]; rewrite Hn.
  - pose proof (wo_self _ _ _ _ _ Hw) as Hl. lo; intros k x Hk;
      [specialize (lo_v2v_ids0 _ _ Hk)|specialize (lo_tun_rx_ids0 _ _ Hk)]; cbn in *; lia.
  - pose proof (wo_young _ _ _ _ _ Hw). unfold young in *. rc. lia.
Qed.

Lemma balanced_eq w w' H : moves w w' → total owed w' ⊎ total claims w = total owed w ⊎ total claims w' →
  balanced H w → balanced H w'.
Proof.
  intros Hm E (lost & Eb & Hl). exists lost. split; [ms|]. intros Ha. by apply Hl, (moves_all_alive _ _ Hm).
Qed.

(** A packet is sent and tracked, or the channel refused it. *)
Lemma forward_ok hole hand hand' H n target iovecs source track w ok w' (r0 := w_self w) (id := rc_next_packet_id r0) :
  wok hole hand H (S n) w → forward target iovecs source track w = (ok, w') →
  (∀ r s, msg_only (r0 <| rc_next_packet_id := (id + 1)%N |>) r → local_ok hole hand r →
     let r' := track id (r <| rc_signal := s |>) in
     local_ok hole hand' r' ∧ rc_id r' = rc_id r ∧ rc_alive r' = rc_alive r ∧ claims r' = claims r ∧
     owed r' = {[+ item_of id source +]} ⊎ owed r ∧ (young n r → young n r')) →
  wok hole (if ok then hand' else hand) H n w' ∧ moves w w' ∧
  ∃ r s, msg_only (r0 <| rc_next_packet_id := (id + 1)%N |>) r ∧
    w_self w' = if ok then track id (r <| rc_signal := s |>) else r.
Proof.
  subst id r0. intros Hw Hf Htr. unfold forward in Hf. destruct (next_packet_id w) as [id' w1] eqn:En.
  destruct (next_packet_id_ok _ _ _ _ _ _ _ Hw En) as (Hw1 & Hm1 & -> & _ & Es1).
  destruct (send_packet_to_no_signal target _ w1) as [ok' w2] eqn:Es.
  destruct (send_packet_spec _ _ _ _ _ (wo_wf _ _ _ _ _ Hw1) Es) as (Hm2 & Hs2 & Eo2 & Ec2).
  cbn [pk_id pk_source] in Ec2.
  assert (Hl2 : local_ok hole hand (w_self w2)) by (eapply local_ok_msg; [exact Hs2|apply Hw1]).
  assert (Hy2 : young n (w_self w2)) by (rewrite Hs2; apply Hw1).
  pose proof Hs2 as Hmsg. rewrite Es1 in Hmsg.
  destruct ok'; injection Hf as <- <-.
  - destruct (Htr (w_self w2) ({[target]} ∪ rc_signal (w_self w2)) Hmsg Hl2) as (Hl & Hi & Ha & Ec & Eo & Hy).
    set (r3 := track _ _) in *. set (w3 := on_self _ w2).
    assert (Hm3 : moves w2 w3) by (by apply moves_on_self).
    assert (Hm : moves w1 w3) by (by eapply moves_trans).
    split_and!; [|by eapply moves_trans|by eexists _, _].
    eapply wok_intro; [exact Hw1|exact Hm|exact Hl| |by apply Hy].
    eapply balanced_eq; [exact Hm| |apply Hw1].
    change (total owed w3) with (owed r3 ⊎ msum owed (w_others w2)).
    change (total claims w3) with (claims r3 ⊎ msum claims (w_others w2)). rewrite Eo, Ec. unfold total in *. ms.
  - split_and!; [|by eapply moves_trans|by exists (w_self w2), ∅].
    eapply wok_intro; [exact Hw1|exact Hm2|exact Hl2| |exact Hy2].
    eapply balanced_eq; [exact Hm2| |apply Hw1]. rewrite Eo2, Ec2. ms.
Qed.

Lemma fresh_id (A : Type) (m : gmap N A) n : map_Forall (λ k _, k < n)%N m → m !! n = None.
Proof. intros H. destruct (m !! n) eqn:E; [|done]. specialize (H _ _ E). cbn in H. lia. Qed.

(** The heads of the chains that a guest waits for. *)
Definition flight_heads r : gmultiset N :=
  of_map (λ _ x, x.1) (rc_vhost_tx_in_flight r) ⊎ of_map (λ _ x, x.1) (rc_vhost_to_vhost r).
Definition sends_head (ok : bool) (h : N) : gmultiset N := if ok then {[+ h +]} else ∅.

(** What a step of the TX side leaves alone. *)
Definition tx_frame r r' : Prop :=
  rc_vhost r' = rc_vhost r ∧ rc_handshakes r' = rc_handshakes r ∧ rc_tun_rx r' = rc_tun_rx r.

Lemma map_Forall_insert_lt (A : Type) (m : gmap N A) k x n :
  map_Forall (λ k _, k < n)%N m → (k < n)%N → map_Forall (λ k _, k < n)%N (<[k := x]> m).
Proof. intros H Hk. by apply map_Forall_insert_2. Qed.

Lemma forward_vhost_ok hole hand H n target h len iovecs w ok w' : wok hole hand H (S n) w →
  is_Some (rc_vhost (w_self w)) →
  forward_vhost target h len iovecs w = (ok, w') →
  wok hole hand H n w' ∧ moves w w' ∧ tx_frame (w_self w) (w_self w') ∧
  flight_heads (w_self w') = sends_head ok h ⊎ flight_heads (w_self w).
Proof.
  intros Hw [v Hv] Hf. unfold forward_vhost in Hf. cbv zeta in Hf.
  pose proof (fresh_id _ _ _ (lo_v2v_ids _ _ _ (wo_self _ _ _ _ _ Hw))) as Hfresh.
  apply (forward_ok _ _ hand _ _ _ _ _ _ _ _ _ Hw) in Hf as (Hw' & Hm & r & s & Hmsg & Es).
  - split_and!; [by destruct ok|done|rewrite Es, Hmsg; by destruct ok|].
    rewrite Es, Hmsg. unfold flight_heads. destruct ok; rc; cbn [sends_head]; [|ms].
    rewrite of_map_insert by done. cbn [fst]. ms.
  - intros r s Hmsg Hl. cbv zeta. split_and!; try done; try (by unfold young; rc).
    + lo; rewrite Hmsg in *; rc.
      * by apply map_Forall_insert_lt; [|lia].
      * by rewrite Hv.
    + unfold owed. rc. rewrite of_map_insert by (by rewrite Hmsg). rewrite Hmsg. rc. unfold item_of.
      cbn [source_reactor]. symmetry. apply (assoc_L (⊎)).
Qed.

(** ** Writes to the device *)

Lemma fresh_key (A : Type) (m : gmap N A) n k : (59 ≤ k)%N → (n < 2 ^ 59)%N →
  map_Forall (λ u _, ∃ i, (i < n)%N ∧ u = N.lor i (2 ^ k)) m → m !! N.lor n (2 ^ k) = None.
Proof.
  intros Hk Hn H. destruct (m !! _) eqn:E; [|done]. destruct (H _ _ E) as (i & Hi & Eq).
  apply lor_flag_inj in Eq; [lia|done|lia|done].
Qed.
Lemma keys_grow (A : Type) (m : gmap N A) n k :
  map_Forall (λ u _, ∃ i, (i < n)%N ∧ u = N.lor i (2 ^ k)) m →
  map_Forall (λ u _, ∃ i, (i < n + 1)%N ∧ u = N.lor i (2 ^ k)) m.
Proof. intros H u x Hu. destruct (H _ _ Hu) as (i & Hi & ->). exists i. split; [lia|done]. Qed.
Lemma keys_insert (A : Type) (m : gmap N A) n k x :
  map_Forall (λ u _, ∃ i, (i < n)%N ∧ u = N.lor i (2 ^ k)) m →
  map_Forall (λ u _, ∃ i, (i < n + 1)%N ∧ u = N.lor i (2 ^ k)) (<[N.lor n (2 ^ k) := x]> m).
Proof.
  intros H. apply map_Forall_insert_2; [|by apply keys_grow]. exists n. split; [lia|done].
Qed.

Lemma young_wrap n i : (i + N.of_nat (S n) ≤ 2 ^ 59)%N → wrap 64 (i + 1) = (i + 1)%N ∧ (i < 2 ^ 59)%N.
Proof.
  change (2 ^ 59)%N with 576460752303423488%N. intros H. split; [apply N.mod_small; lia|lia].
Qed.

Lemma submit_vhost_tx_ok hole hand H n h len data w ok w' : wok hole hand H (S n) w →
  is_Some (rc_vhost (w_self w)) → submit_vhost_tx h len data w = (ok, w') →
  wok hole hand H n w' ∧ moves w w' ∧ tx_frame (w_self w) (w_self w') ∧
  flight_heads (w_self w') = sends_head ok h ⊎ flight_heads (w_self w).
Proof.
  intros Hw [v Hv] Hf. unfold submit_vhost_tx in Hf. cbv zeta in Hf.
  pose proof (wo_self _ _ _ _ _ Hw) as Hl. pose proof (wo_young _ _ _ _ _ Hw) as (Hy1 & Hy2 & Hy3).
  destruct (young_wrap _ _ Hy2) as [Ewr Hlt]. rewrite Ewr in Hf.
  set (r1 := (w_self w) <| rc_vhost_tx_id := (rc_vhost_tx_id (w_self w) + 1)%N |>) in *.
  assert (Hl1 : local_ok hole hand r1) by (subst r1; lo; by apply keys_grow).
  assert (Hyn : young n r1) by (unfold young, r1; rc; lia).
  pose proof (fresh_key _ _ _ 61%N ltac:(done) Hlt (lo_tx_keys _ _ _ Hl)) as Hfresh.
  destruct (push_sqe _ r1) as [r2|] eqn:Ep; injection Hf as <- <-.
  - apply push_sqe_spec in Ep as [E1 E2]. cbn [sends_head].
    set (r3 := r2 <| rc_vhost_tx_in_flight := <[N.lor (rc_vhost_tx_id (w_self w)) USER_DATA_VHOST_TX_FLAG
      := (h, len)]> (rc_vhost_tx_in_flight r2) |>).
    assert (Hl3 : local_ok hole hand r3).
    { subst r3. rewrite E1. subst r1. destruct Hl; constructor; rc; rewrite ?E2, ?(assoc_L (++)), ?keys_app, ?keys_one; try done.
      - apply Forall_app. split; [done|]. constructor; [|done]. by eexists.
      - rewrite of_map_insert, <- lo_tx0, keys_app by done. cbn [writev_key sq_op sq_user_data]. ms.
      - rewrite <- lo_tun0, keys_app. cbn [write_key sq_op]. ms.
      - rewrite <- lo_rx0, keys_app. cbn [read_key sq_op]. ms.
      - by apply keys_insert.
      - by rewrite Hv. }
    split_and!.
    + eapply (wok_local _ _ _ _ _ _ _ (λ _, r3)); [exact Hw| | |exact Hl3| | |];
        subst r3; by rewrite E1.
    + apply (moves_on_self (λ _, r3)); subst r3; by rewrite E1.
    + subst r3. rc. by rewrite E1.
    + subst r3. rewrite E1. unfold flight_heads, r1. rc. rewrite of_map_insert by done. cbn [fst]. ms.
  - split_and!; [|by apply (moves_on_self (λ _, r1))|done|cbn [sends_head]; unfold flight_heads, r1; rc; ms].
    by eapply (wok_local _ _ _ _ _ _ _ (λ _, r1)); [exact Hw|..].
Qed.

(** * The TX queue of a guest *)

Definition chain_heads (cs : list Chain) : gmultiset N := list_to_set_disj (ch_head <$> cs).
Definition queue_heads (q : vqueue) : gmultiset N :=
  chain_heads (vq_avail q) ⊎ list_to_set_disj ((vq_used q).*1).

Lemma chain_heads_cons c cs : chain_heads (c :: cs) = {[+ ch_head c +]} ⊎ chain_heads cs.
Proof. unfold chain_heads. by rewrite fmap_cons, list_to_set_disj_cons. Qed.
Lemma chain_heads_app cs cs' : chain_heads (cs ++ cs') = chain_heads cs ⊎ chain_heads cs'.
Proof. unfold chain_heads. by rewrite fmap_app, list_to_set_disj_app. Qed.

Lemma add_used_heads h n q : queue_heads (vq_add_used h n q) = {[+ h +]} ⊎ queue_heads q.
Proof. unfold queue_heads. rewrite vq_add_used_avail, vq_add_used_used, fmap_app. cbn [fmap list_fmap fst]. rewrite list_ms_snoc. ms. Qed.

Lemma pop_heads q c q' : vq_pop q = Some (c, q') →
  vq_avail q = c :: vq_avail q' ∧ queue_heads q = {[+ ch_head c +]} ⊎ queue_heads q'.
Proof.
  intros Hp. destruct (vq_avail q) as [|c1 cs] eqn:Ea; [by rewrite (vq_pop_none _ Ea) in Hp|].
  destruct (vq_pop_some _ _ _ Ea) as (q1 & Hp' & Ha & Hu). rewrite Hp in Hp'. injection Hp' as -> ->.
  split; [by rewrite Ha|]. unfold queue_heads. rewrite Ea, Ha, Hu, chain_heads_cons. ms.
Qed.

Lemma offer_heads cs q :
  vq_avail (foldl (λ q c, vq_offer c q) q cs) = vq_avail q ++ cs ∧
  queue_heads (foldl (λ q c, vq_offer c q) q cs) = queue_heads q ⊎ chain_heads cs.
Proof.
  revert q. induction cs as [|c cs IH]; intros q; cbn [foldl].
  - split; [by rewrite app_nil_r|]. change (chain_heads []) with (∅ : gmultiset N). ms.
  - destruct (IH (vq_offer c q)) as [Ea Eh]. rewrite Ea, Eh, vq_offer_avail. split; [by rewrite <- (assoc_L (++))|].
    unfold queue_heads. rewrite vq_offer_avail, vq_offer_used, !chain_heads_app, !chain_heads_cons.
    change (chain_heads []) with (∅ : gmultiset N). ms.
Qed.

Lemma tx_frame_trans r1 r2 r3 : tx_frame r1 r2 → tx_frame r2 r3 → tx_frame r1 r3.
Proof. unfold tx_frame. intuition congruence. Qed.

Lemma process_chain_ok hole hand H n c v w b v' w' : wok hole hand H (S n) w → is_Some (rc_vhost (w_self w)) →
  process_chain c v w = Some (b, v', w') →
  wok hole hand H n w' ∧ moves w w' ∧ tx_frame (w_self w) (w_self w') ∧
  vq_avail (vh_tx v') = vq_avail (vh_tx v) ∧
  queue_heads (vh_tx v') ⊎ flight_heads (w_self w')
    = {[+ ch_head c +]} ⊎ queue_heads (vh_tx v) ⊎ flight_heads (w_self w).
Proof.
  intros Hw Hv Hp. set (h := ch_head c) in *.
  assert (Hstay : wok hole hand H n w ∧ moves w w ∧ tx_frame (w_self w) (w_self w) ∧
    flight_heads (w_self w) = sends_head false h ⊎ flight_heads (w_self w)).
  { split_and!; [|apply moves_refl|done|cbn [sends_head]; ms].
    eapply wok_le; [|done]. lia. }
  assert (Hend : ∀ ok w1 m x, wok hole hand H n w1 ∧ moves w w1 ∧ tx_frame (w_self w) (w_self w1) ∧
      flight_heads (w_self w1) = sends_head ok h ⊎ flight_heads (w_self w) →
    Some (if ok then (false, v <| vh_rx := x |>, w1) else (true, tx_used h m (v <| vh_rx := x |>), w1))
      = Some (b, v', w') →
    wok hole hand H n w' ∧ moves w w' ∧ tx_frame (w_self w) (w_self w') ∧
    vq_avail (vh_tx v') = vq_avail (vh_tx v) ∧
    queue_heads (vh_tx v') ⊎ flight_heads (w_self w') = {[+ h +]} ⊎ queue_heads (vh_tx v) ⊎ flight_heads (w_self w)).
  { intros ok w1 m x (H1 & H2 & H3 & E) [= Eq]. destruct ok; injection Eq as <- <- <-;
      (split_and!; [exact H1|exact H2|exact H3| |]); unfold tx_used; cbn [vh_tx set_field];
      rewrite ?vq_add_used_avail, ?add_used_heads, ?E; cbn [sends_head]; try done; ms. }
  unfold process_chain in Hp. cbv zeta in Hp. fold h in Hp.
  destruct (desc_chain_to_iovecs _ c) as [[iovecs len]|]; [|by apply (Hend false w 0%N (vh_rx v) Hstay)].
  destruct (handle_vhost_ethernet_protocols _ _ _) as [[[]|] rx]; [by apply (Hend false w len rx Hstay)| |done].
  match type of Hp with context [match peek_and_route_ethernet ?a ?b with _ => _ end] =>
    destruct (peek_and_route_ethernet a b) as [i|target|] end.
  - destruct (prepare_tun_iovecs iovecs) as [tun|]; [|by apply (Hend false w 0%N rx Hstay)].
    destruct (submit_vhost_tx _ _ _ w) as [ok w1] eqn:E.
    apply (Hend ok w1 0%N rx); [by eapply submit_vhost_tx_ok|done].
  - destruct (forward_vhost _ _ _ _ w) as [ok w1] eqn:E.
    apply (Hend ok w1 0%N rx); [by eapply forward_vhost_ok|done].
  - by apply (Hend false w 0%N rx Hstay).
Qed.

Lemma tx_round_ok hole hand H n k returned v w b v' w' : length (vq_avail (vh_tx v)) < k →
  wok hole hand H (length (vq_avail (vh_tx v)) + n) w → is_Some (rc_vhost (w_self w)) →
  tx_round k returned v w = Some (b, v', w') →
  wok hole hand H n w' ∧ moves w w' ∧ tx_frame (w_self w) (w_self w') ∧ vq_avail (vh_tx v') = [] ∧
  queue_heads (vh_tx v') ⊎ flight_heads (w_self w') = queue_heads (vh_tx v) ⊎ flight_heads (w_self w).
Proof.
  revert returned v w. induction k as [|k IH]; intros returned v w Hk Hw Hv Hr; [lia|]. cbn [tx_round] in Hr.
  destruct (vq_pop (vh_tx v)) as [[c q]|] eqn:Hp.
  - destruct (pop_heads _ _ _ Hp) as [Ea Eh].
    destruct (process_chain c (v <| vh_tx := q |>) w) as [[[b1 v1] w1]|] eqn:Ec; [|done].
    rewrite Ea in Hw, Hk. cbn [length] in Hw, Hk.
    destruct (process_chain_ok _ _ _ _ _ _ _ _ _ _ Hw Hv Ec) as (Hw1 & Hm1 & Hf1 & Ea1 & Eh1). cbn [vh_tx set_field] in Ea1, Eh1.
    destruct (IH (returned || b1) v1 w1) as (Hw' & Hm & Hf & Ea' & Eh');
      [rewrite Ea1; lia|by rewrite Ea1|by rewrite (proj1 Hf1)|done|].
    split_and!; [done|by eapply moves_trans|by eapply tx_frame_trans|done|].
    rewrite Eh', Eh1, Eh. done.
  - injection Hr as <- <- <-.
    assert (Ea : vq_avail (vh_tx v) = []).
    { destruct (vq_avail (vh_tx v)) as [|c cs] eqn:Ea; [done|].
      destruct (vq_pop_some _ _ _ Ea) as (q & Hq & _). congruence. }
    rewrite Ea in Hw. split_and!; [done|apply moves_refl|done|done|done].
Qed.

Lemma process_vhost_tx_ok hole hand H n arrivals v w v' w' :
  wok hole hand H (length (vq_avail (vh_tx v)) + length (arrived arrivals) + n) w → is_Some (rc_vhost (w_self w)) →
  process_vhost_tx arrivals v w = Some (v', w') →
  wok hole hand H n w' ∧ moves w w' ∧ tx_frame (w_self w) (w_self w') ∧ vq_avail (vh_tx v') = [] ∧
  queue_heads (vh_tx v') ⊎ flight_heads (w_self w')
    = chain_heads (arrived arrivals) ⊎ queue_heads (vh_tx v) ⊎ flight_heads (w_self w).
Proof.
  revert v w. induction arrivals as [|[c cs] arrivals IH]; intros v w Hw Hv Hp; cbn [process_vhost_tx] in Hp;
    destruct (tx_round _ false v w) as [[[b v1] w1]|] eqn:Er; try done;
    rewrite <- Nat.add_assoc in Hw; apply (tx_round_ok _ _ _ _ _ _ _ _ _ _ _ (Nat.lt_succ_diag_r _) Hw Hv) in Er
      as (Hw1 & Hm1 & Hf1 & Ea1 & Eh1).
  - injection Hp as <- <-. split_and!; [done|done|done|by destruct b|].
    change (chain_heads (arrived [])) with (∅ : gmultiset N).
    replace (vh_tx (if b then _ else v1)) with (vh_tx v1) by (by destruct b). rewrite Eh1. ms.
  - set (v2 := (if b then v1 <| vh_tx_signals := S (vh_tx_signals v1) |> else v1)) in *.
    assert (Et : vh_tx v2 = vh_tx v1) by (by unfold v2; destruct b). cbv zeta in Hp.
    destruct (offer_heads (c :: cs) (vh_tx v2)) as [Eo1 Eo2]. rewrite Et in *. rewrite Ea1 in Eo1.
    apply IH in Hp as (Hw' & Hm & Hf & Ea' & Eh').
    + split_and!; [done|by eapply moves_trans|by eapply tx_frame_trans|done|].
      cbn [vh_tx set_field] in Eh'. rewrite Eh', Eo2. unfold arrived at 2. rewrite fmap_cons. cbn [concat fst snd].
      rewrite chain_heads_app. fold (arrived arrivals).
      replace (chain_heads (c :: cs) ⊎ chain_heads (arrived arrivals) ⊎ queue_heads (vh_tx v) ⊎ flight_heads (w_self w))
        with (chain_heads (c :: cs) ⊎ chain_heads (arrived arrivals) ⊎ (queue_heads (vh_tx v) ⊎ flight_heads (w_self w)))
        by ms.
      rewrite <- Eh1. ms.
    + cbn [vh_tx set_field]. rewrite Eo1. cbn [app]. unfold arrived in Hw1. rewrite fmap_cons in Hw1. cbn [concat fst snd] in Hw1.
      rewrite length_app in Hw1. eapply wok_le; [|exact Hw1]. cbn [length]. unfold arrived. lia.
    + by rewrite (proj1 Hf1).
Qed.

(** * Packets of other reactors *)

Lemma send_completion_ok hole hand H n w id s c : completed (source_reactor s) c = item_of id s →
  wok hole hand ({[+ item_of id s +]} ⊎ H) n w →
  let w' := send_completion_to (source_reactor s) c w in
  wok hole hand H n w' ∧ moves w w' ∧ msg_only (w_self w) (w_self w').
Proof.
  intros Hc Hw. destruct (send_completion_spec _ _ _ _ _ (wo_wf _ _ _ _ _ Hw) Hc (wo_bal _ _ _ _ _ Hw)) as (Hm & Hs & Hb).
  split_and!; [|done|done]. eapply wok_intro; [exact Hw|exact Hm| |exact Hb|].
  - eapply local_ok_msg; [exact Hs|apply Hw].
  - rewrite Hs. apply Hw.
Qed.

Lemma take_packets_ok hole hand H n w : wok hole hand H n w →
  wok hole hand (packet_items (rc_packets (w_self w)) ⊎ H) n (on_self (λ r, r <| rc_packets := [] |>) w).
Proof.
  intros Hw. pose proof (wo_self _ _ _ _ _ Hw) as Hl.
  eapply wok_on_self; [exact Hw|done|done|lo|exact (wo_young _ _ _ _ _ Hw)|].
  unfold owed, claims. rc. change (packet_items []) with (∅ : gmultiset Item). ms.
Qed.

Context (fuel : nat).

Lemma process_packets_ok hole hand H n ps b v w b' v' w' :
  wok hole hand (packet_items ps ⊎ H) n w → process_packets fuel ps b v w = Some (b', v', w') →
  wok hole hand H n w' ∧ moves w w' ∧ msg_only (w_self w) (w_self w') ∧ vh_tx v' = vh_tx v.
Proof.
  revert b v w. induction ps as [|p ps IH]; intros b v w Hw Hp; cbn [process_packets] in Hp.
  - injection Hp as <- <- <-. split_and!; [|apply moves_refl|apply msg_only_refl|done].
    change (packet_items []) with (∅ : gmultiset Item) in Hw. by rewrite (left_id_L ∅ (⊎)) in Hw.
  - destruct (copy_to_vhost_rx fuel p (vh_rx v)) as [[result| |] rx]; try done.
    rewrite packet_items_cons, <- (assoc_L (⊎)) in Hw.
    destruct (send_completion_ok _ _ _ _ _ _ _ (completion_of (pk_id p) (pk_source p) result) (completed_of _ _ _) Hw)
      as (Hw1 & Hm1 & Hs1).
    apply (IH _ _ _ Hw1) in Hp as (Hw' & Hm & Hs & Ev).
    split_and!; [done|by eapply moves_trans|by eapply msg_only_trans|done].
Qed.

Lemma process_incoming_ok hole hand H n v w v' w' : wok hole hand H n w →
  process_incoming_packets fuel v w = Some (v', w') →
  wok hole hand H n w' ∧ moves w w' ∧ msg_only (w_self w) (w_self w') ∧ vh_tx v' = vh_tx v.
Proof.
  intros Hw Hp. unfold process_incoming_packets in Hp. apply take_packets_ok in Hw. set (w0 := on_self _ w) in *.
  assert (Hm0 : moves w w0) by (by apply moves_on_self).
  assert (Hs0 : msg_only (w_self w) (w_self w0)) by (apply msg_only_packets). clearbody w0.
  destruct (process_packets _ _ _ _ _) as [[[b v1] w1]|] eqn:E; [|done]. injection Hp as <- <-.
  apply (process_packets_ok _ _ _ _ _ _ _ _ _ _ _ Hw) in E as (Hw1 & Hm1 & Hs1 & Ev).
  split_and!; [done|by eapply moves_trans|by eapply msg_only_trans|by destruct b].
Qed.

(** What the handlers of messages leave alone. *)
Definition rx_frame r r' : Prop :=
  rc_vhost r' = rc_vhost r ∧ rc_handshakes r' = rc_handshakes r ∧ flight_heads r' = flight_heads r.
Lemma rx_frame_msg r r' : msg_only r r' → rx_frame r r'.
Proof. by intros ->. Qed.
Lemma rx_frame_trans r1 r2 r3 : rx_frame r1 r2 → rx_frame r2 r3 → rx_frame r1 r3.
Proof. unfold rx_frame. intuition congruence. Qed.

Lemma packet_to_tun_ok hole hand H n w p :
  wok hole hand ({[+ item_of (pk_id p) (pk_source p) +]} ⊎ H) (S n) w →
  wok hole hand H n (packet_to_tun w p) ∧ moves w (packet_to_tun w p) ∧ rx_frame (w_self w) (w_self (packet_to_tun w p)).
Proof.
  intros Hw. unfold packet_to_tun, send_incoming_completion. destruct (l3_packet (pk_iovecs p)) as [l3|].
  2: { apply (wok_le _ _ _ _ n) in Hw; [|lia].
       destruct (send_completion_ok _ _ _ _ _ _ _ (incoming_completion (pk_id p) (pk_source p) (- EINVAL))
         (completed_incoming _ _ _) Hw) as (Hw' & Hm & Hs). split_and!; [done|done|by apply rx_frame_msg]. }
  pose proof (wo_self _ _ _ _ _ Hw) as Hl. pose proof (wo_young _ _ _ _ _ Hw) as (Hy1 & Hy2 & Hy3).
  destruct (young_wrap _ _ Hy3) as [Ewr Hlt]. cbv zeta. rewrite Ewr, (N.lor_comm USER_DATA_INCOMING_TUN_FLAG).
  set (r1 := (w_self w) <| rc_incoming_tun_id := (rc_incoming_tun_id (w_self w) + 1)%N |>).
  assert (Hl1 : local_ok hole hand r1) by (subst r1; lo; by apply keys_grow).
  assert (Hyn : young n r1) by (unfold young, r1; rc; lia).
  pose proof (fresh_key _ _ _ 60%N ltac:(done) Hlt (lo_tun_keys _ _ _ Hl)) as Hfresh.
  set (k := N.lor _ USER_DATA_INCOMING_TUN_FLAG) in *.
  destruct (push_sqe _ r1) as [r2|] eqn:Ep.
  - apply push_sqe_spec in Ep as [E1 E2].
    set (r3 := r2 <| rc_incoming_to_tun := <[k := (pk_id p, pk_source p)]> (rc_incoming_to_tun r2) |>).
    assert (Hl3 : local_ok hole hand r3).
    { subst r3. rewrite E1. subst r1. destruct Hl; constructor; rc; rewrite ?E2, ?(assoc_L (++)), ?keys_app, ?keys_one; try done.
      - apply Forall_app. split; [done|]. constructor; [|done]. by eexists.
      - rewrite <- lo_tx0, keys_app. cbn [writev_key sq_op]. ms.
      - rewrite of_map_insert, <- lo_tun0, keys_app by done. cbn [write_key sq_op sq_user_data]. ms.
      - rewrite <- lo_rx0, keys_app. cbn [read_key sq_op]. ms.
      - by apply keys_insert. }
    split_and!.
    + eapply (wok_on_self _ _ _ _ _ _ _ _ (λ _, r3)); [exact Hw| | |exact Hl3| |]; subst r3; try (by rewrite E1).
      rewrite E1. unfold owed, claims, r1. rc. rewrite of_map_insert by done. cbn [fst snd]. ms.
    + apply (moves_on_self (λ _, r3)); subst r3; by rewrite E1.
    + subst r3. by rewrite E1.
  - assert (Hw1 : wok hole hand ({[+ item_of (pk_id p) (pk_source p) +]} ⊎ H) n (on_self (λ _, r1) w))
      by (by eapply (wok_local _ _ _ _ _ _ _ (λ _, r1)); [exact Hw|..]).
    destruct (send_completion_ok _ _ _ _ _ _ _ (incoming_completion (pk_id p) (pk_source p) (- ENOSPC))
      (completed_incoming _ _ _) Hw1) as (Hw' & Hm & Hs).
    split_and!; [done|eapply moves_trans; [by apply (moves_on_self (λ _, r1))|exact Hm]|].
    eapply rx_frame_trans; [|by apply rx_frame_msg]. done.
Qed.

Lemma process_incoming_to_tun_ok hole hand H n w : wok hole hand H (length (rc_packets (w_self w)) + n) w →
  let w' := process_incoming_packets_to_tun w in
  wok hole hand H n w' ∧ moves w w' ∧ rx_frame (w_self w) (w_self w').
Proof.
  intros Hw. cbv zeta. unfold process_incoming_packets_to_tun.
  apply take_packets_ok in Hw. set (w0 := on_self _ w) in *.
  assert (Hm0 : moves w w0) by (by apply moves_on_self).
  assert (Hf0 : rx_frame (w_self w) (w_self w0)) by done. clearbody w0.
  revert w0 Hw Hm0 Hf0. induction (rc_packets (w_self w)) as [|p ps IH]; intros w0 Hw Hm0 Hf0; cbn [foldl].
  - split_and!; [|done|done].
    change (packet_items []) with (∅ : gmultiset Item) in Hw. by rewrite (left_id_L ∅ (⊎)) in Hw.
  - rewrite packet_items_cons, <- (assoc_L (⊎)) in Hw. cbn [length Nat.add] in Hw.
    apply packet_to_tun_ok in Hw as (Hw1 & Hm1 & Hf1).
    apply IH; [done|by eapply moves_trans|by eapply rx_frame_trans].
Qed.

(** * Completions *)

(** The head of every chain that the guest has made available: still in the queue, in
    flight, or returned. *)
Definition reactor_heads r : gmultiset N :=
  match rc_vhost r with Some v => queue_heads (vh_tx v) | None => ∅ end ⊎ flight_heads r.

(** What moves buffers about. *)
Definition pool_only r r' : Prop :=
  r' = r <| rc_available := rc_available r' |> <| rc_ring := rc_ring r' |>
         <| rc_rx_in_flight := rc_rx_in_flight r' |> <| rc_rx_poll_pending := rc_rx_poll_pending r' |>.
Lemma pool_only_refl r : pool_only r r.
Proof. by destruct r. Qed.
Lemma pool_only_trans r1 r2 r3 : pool_only r1 r2 → pool_only r2 r3 → pool_only r1 r3.
Proof. unfold pool_only. intros E1 E2. rewrite E2, E1. by destruct r1. Qed.
Lemma push_used_pool c r : pool_only r (push_used c r).
Proof. by destruct r. Qed.
Lemma push_sqe_pool e r r' : push_sqe e r = Some r' → pool_only r r'.
Proof. intros H. apply push_sqe_spec in H as [-> _]. by destruct r. Qed.
Lemma submit_read_pool c r r' : submit_read c r = Some r' → pool_only r r'.
Proof.
  unfold submit_read. destruct (push_sqe _ r) as [r1|] eqn:E; cbn; [|done]. intros [= <-].
  eapply pool_only_trans; [by eapply push_sqe_pool|]. by destruct r1.
Qed.
Lemma resubmit_rx_pool r : pool_only r (resubmit_rx r).
Proof.
  unfold resubmit_rx, pop_available. destruct (rc_available r) as [|c cs]; [apply pool_only_refl|].
  apply (pool_only_trans _ (r <| rc_available := cs |>)); [by destruct r|].
  destruct (submit_read c _) as [r'|] eqn:E; cbn [default]; [by eapply submit_read_pool|apply pool_only_refl].
Qed.
Lemma pool_only_frame r r' : pool_only r r' →
  rc_id r' = rc_id r ∧ rc_alive r' = rc_alive r ∧ owed r' = owed r ∧ claims r' = claims r ∧
  (∀ n, young n r → young n r') ∧ reactor_heads r' = reactor_heads r ∧ rc_handshakes r' = rc_handshakes r ∧
  rc_vhost r' = rc_vhost r.
Proof. by intros ->. Qed.

Lemma wok_pool hole hand H n hole' hand' f w : wok hole hand H n w → pool_only (w_self w) (f (w_self w)) →
  local_ok hole' hand' (f (w_self w)) → wok hole' hand' H n (on_self f w) ∧ moves w (on_self f w).
Proof.
  intros Hw Hp Hl. destruct (pool_only_frame _ _ Hp) as (Hi & Ha & Eo & Ec & Hy & _).
  split; [|by apply moves_on_self]. eapply wok_local; [exact Hw|done|done|done|apply Hy, Hw|done|done].
Qed.

Lemma owed_mine hole hand H n w x : wok hole hand ({[+ (rc_id (w_self w), x) +]} ⊎ H) n w →
  (rc_id (w_self w), x) ∈ owed (w_self w).
Proof.
  intros Hw. destruct (wo_bal _ _ _ _ _ Hw) as (lost & E & _).
  destruct (owed_known w (rc_id (w_self w)) x (wo_wf _ _ _ _ _ Hw)) as (r & Hg & Hin); [rewrite E; set_solver|].
  unfold world_get in Hg. rewrite N.eqb_refl in Hg. injection Hg as <-. exact Hin.
Qed.

Lemma vhost_complete_ok hole hand H n w id h len res :
  wok hole hand ({[+ (rc_id (w_self w), (id, inl (h, len))) +]} ⊎ H) n w →
  let w' := on_self (vhost_complete id h len res) w in
  wok hole hand H n w' ∧ moves w w' ∧ reactor_heads (w_self w') = reactor_heads (w_self w) ∧
  rc_handshakes (w_self w') = rc_handshakes (w_self w) ∧ (is_Some (rc_vhost (w_self w')) ↔ is_Some (rc_vhost (w_self w))).
Proof.
  intros Hw. cbv zeta. assert (Hid : rc_vhost_to_vhost (w_self w) !! id = Some (h, len)).
  { pose proof (owed_mine _ _ _ _ _ _ Hw) as Hin. unfold owed in Hin.
    rewrite gmultiset_elem_of_disj_union, !elem_of_of_map in Hin. naive_solver. }
  pose proof (wo_self _ _ _ _ _ Hw) as Hl.
  destruct (rc_vhost (w_self w)) as [v|] eqn:Ev.
  2: { destruct (lo_vhost _ _ _ Hl Ev) as [E _]. by rewrite E in Hid. }
  set (f := vhost_complete id h len res).
  assert (Ef : ∃ m s, f (w_self w) = (w_self w) <| rc_vhost_to_vhost := delete id (rc_vhost_to_vhost (w_self w)) |>
    <| rc_vhost := Some ((tx_used h m v) <| vh_tx_signals := s |>) |>).
  { unfold f, vhost_complete. rewrite Ev, Hid. eauto. }
  destruct Ef as (m & s & Ef). split_and!.
  - eapply wok_on_self; [exact Hw|by rewrite Ef|by rewrite Ef| |rewrite Ef; exact (wo_young _ _ _ _ _ Hw)|].
    + rewrite Ef. lo. by apply map_Forall_delete.
    + rewrite Ef. unfold owed, claims. rc.
      rewrite (of_map_delete (λ k x, (rc_id (w_self w), (k, inl x))) (rc_vhost_to_vhost (w_self w)) id _ Hid). ms.
  - apply moves_on_self; by rewrite Ef.
  - unfold on_self. rc. change (reactor_heads (f (w_self w)) = reactor_heads (w_self w)). rewrite Ef.
    unfold reactor_heads, flight_heads. rc. rewrite Ev.
    rewrite (of_map_delete (λ _ x, x.1) (rc_vhost_to_vhost (w_self w)) id _ Hid).
    unfold tx_used. cbn [vh_tx set_field fst]. rewrite add_used_heads. ms.
  - unfold on_self. rc. change (rc_handshakes (f (w_self w)) = rc_handshakes (w_self w)). by rewrite Ef.
  - unfold on_self. rc. change (is_Some (rc_vhost (f (w_self w))) ↔ is_Some (Some v)). rewrite Ef. rc. split; eauto.
Qed.

Lemma drop_tun_rx_ok hole hand r id c : local_ok hole hand r → rc_tun_rx r !! id = Some c →
  local_ok hole ({[+ c +]} ⊎ hand) (r <| rc_tun_rx := delete id (rc_tun_rx r) |>).
Proof.
  intros H Hid. assert (E : chains r = {[+ c +]} ⊎ chains (r <| rc_tun_rx := delete id (rc_tun_rx r) |>)).
  { unfold chains. rc. rewrite (of_map_delete _ (rc_tun_rx r) id c Hid). ms. }
  lo.
  - by apply map_Forall_delete.
  - intros x. specialize (lo_once0 x). rewrite E, !multiplicity_disj_union in lo_once0.
    rewrite !multiplicity_disj_union. lia.
  - intros x Hx. apply lo_small0. rewrite E. set_solver.
Qed.

Lemma tun_rx_complete_ok hole hand H n w id c :
  wok hole hand ({[+ (rc_id (w_self w), (id, inr c)) +]} ⊎ H) n w →
  let w' := on_self (tun_rx_complete id c) w in
  wok hole hand H n w' ∧ moves w w' ∧ reactor_heads (w_self w') = reactor_heads (w_self w) ∧
  rc_handshakes (w_self w') = rc_handshakes (w_self w) ∧ (is_Some (rc_vhost (w_self w')) ↔ is_Some (rc_vhost (w_self w))).
Proof.
  intros Hw. cbv zeta. assert (Hid : rc_tun_rx (w_self w) !! id = Some c).
  { pose proof (owed_mine _ _ _ _ _ _ Hw) as Hin. unfold owed in Hin.
    rewrite gmultiset_elem_of_disj_union, !elem_of_of_map in Hin. naive_solver. }
  pose proof (drop_tun_rx_ok _ _ _ _ _ (wo_self _ _ _ _ _ Hw) Hid) as Hl.
  set (f := tun_rx_complete id c). set (r1 := (w_self w) <| rc_tun_rx := delete id (rc_tun_rx (w_self w)) |>) in *.
  assert (Ef : f (w_self w) = resubmit_rx (push_used c r1)) by (unfold f, tun_rx_complete; by rewrite Hid).
  assert (Hp : pool_only r1 (f (w_self w)))
    by (rewrite Ef; eapply pool_only_trans; [apply push_used_pool|apply resubmit_rx_pool]).
  destruct (pool_only_frame _ _ Hp) as (Hi & Ha & Eo & Ec & Hy & Eh & Ehs & Ev).
  split_and!; [|by apply moves_on_self|exact Eh|exact Ehs|by unfold on_self; rc; fold f; rewrite Ev].
  eapply wok_on_self; [exact Hw|exact Hi|exact Ha| |apply Hy; exact (wo_young _ _ _ _ _ Hw)|].
  - rewrite Ef. by apply resubmit_rx_ok, push_used_ok.
  - rewrite Eo, Ec. unfold owed, claims, r1. rc.
    rewrite (of_map_delete (λ k c, (rc_id (w_self w), (k, inr c))) (rc_tun_rx (w_self w)) id _ Hid). ms.
Qed.

(** What a handler of the running reactor leaves alone. *)
Definition quiet r r' : Prop :=
  reactor_heads r' = reactor_heads r ∧ rc_handshakes r' = rc_handshakes r ∧
  (is_Some (rc_vhost r') ↔ is_Some (rc_vhost r)).
Lemma quiet_trans r1 r2 r3 : quiet r1 r2 → quiet r2 r3 → quiet r1 r3.
Proof. unfold quiet. intuition congruence. Qed.
Lemma quiet_refl r : quiet r r.
Proof. done. Qed.

Lemma take_completion_ok hole hand H n w c : wok hole hand ({[+ completed (rc_id (w_self w)) c +]} ⊎ H) n w →
  let w' := on_self (λ r, take_completion r c) w in
  wok hole hand H n w' ∧ moves w w' ∧ quiet (w_self w) (w_self w').
Proof.
  destruct c; cbn [completed take_completion]; intros Hw.
  - exact (vhost_complete_ok _ _ _ _ _ _ _ _ result Hw).
  - exact (tun_rx_complete_ok _ _ _ _ _ _ _ Hw).
  - exact (vhost_complete_ok _ _ _ _ _ _ _ _ result Hw).
Qed.

Lemma process_completions_ok hole hand H n w : wok hole hand H n w →
  let w' := on_self process_completions w in
  wok hole hand H n w' ∧ moves w w' ∧ quiet (w_self w) (w_self w').
Proof.
  intros Hw. cbv zeta. pose proof (wo_self _ _ _ _ _ Hw) as Hl.
  set (w0 := on_self (λ r, r <| rc_completions := [] |>) w).
  assert (Hw0 : wok hole hand (completion_items (rc_id (w_self w)) (rc_completions (w_self w)) ⊎ H) n w0).
  { eapply wok_on_self; [exact Hw|done|done|lo|exact (wo_young _ _ _ _ _ Hw)|].
    unfold owed, claims. rc. change (completion_items _ []) with (∅ : gmultiset Item). ms. }
  assert (Hm0 : moves w w0) by (by apply moves_on_self).
  assert (Hq0 : quiet (w_self w) (w_self w0)) by done.
  change (on_self process_completions w)
    with (on_self (λ r, foldl take_completion r (rc_completions (w_self w))) w0). clearbody w0.
  revert w0 Hw0 Hm0 Hq0. induction (rc_completions (w_self w)) as [|c cs IH]; intros w0 Hw0 Hm0 Hq0; cbn [foldl].
  - change (completion_items _ []) with (∅ : gmultiset Item) in Hw0. rewrite (left_id_L ∅ (⊎)) in Hw0.
    replace (on_self (λ r, r) w0) with w0 by (by destruct w0). done.
  - rewrite completion_items_cons, <- (assoc_L (⊎)), <- (mv_id _ _ Hm0) in Hw0.
    apply take_completion_ok in Hw0 as (Hw1 & Hm1 & Hq1). set (w1 := on_self _ w0) in *.
    change (on_self (λ r, foldl take_completion (take_completion r c) cs) w0)
      with (on_self (λ r, foldl take_completion r cs) w1).
    apply IH; [|by eapply moves_trans|by eapply quiet_trans].
    by rewrite <- (mv_id _ _ (moves_trans _ _ _ Hm0 Hm1)), <- (mv_id _ _ Hm1) in *.
Qed.

(** * The event *)

Context (pick : KeyPick).

Definition cmd_only r r' : Prop :=
  r' = r <| rc_commands := rc_commands r' |> <| rc_tables := rc_tables r' |> <| rc_shutdown := rc_shutdown r' |>.
Lemma cmd_only_trans r1 r2 r3 : cmd_only r1 r2 → cmd_only r2 r3 → cmd_only r1 r3.
Proof. unfold cmd_only. intros E1 E2. rewrite E2, E1. by destruct r1. Qed.
Lemma process_commands_only r : cmd_only r (process_commands pick r).
Proof.
  unfold process_commands. set (r0 := r <| rc_commands := [] |>).
  assert (H : cmd_only r r0) by (by destruct r). clearbody r0. revert r0 H.
  induction (rc_commands r) as [|c cs IH]; intros r0 H; cbn [foldl]; [done|].
  apply IH. eapply cmd_only_trans; [exact H|]. destruct c; by destruct r0.
Qed.

(** The chains that are read during the event. *)
Definition arrivals_read (arrivals : list (Chain * list Chain)) r : gmultiset N :=
  if rc_vhost r then chain_heads (arrived arrivals) else ∅.

Lemma process_vhost_ok hole hand H n arrivals w w' :
  wok hole hand H (length (rc_packets (w_self w)) + sum_list_with waiting (option_list (rc_vhost (w_self w)))
    + length (arrived arrivals) + n) w →
  process_vhost fuel arrivals w = Some w' →
  wok hole hand H n w' ∧ moves w w' ∧ rc_handshakes (w_self w') = rc_handshakes (w_self w) ∧
  (is_Some (rc_vhost (w_self w')) ↔ is_Some (rc_vhost (w_self w))) ∧
  reactor_heads (w_self w') = arrivals_read arrivals (w_self w) ⊎ reactor_heads (w_self w).
Proof.
  intros Hw Hp. unfold process_vhost in Hp. unfold arrivals_read.
  destruct (rc_vhost (w_self w)) as [v|] eqn:Ev.
  - change (sum_list_with waiting (option_list (Some v))) with (waiting v + 0) in Hw.
    destruct (process_vhost_tx arrivals v w) as [[v1 w1]|] eqn:E1; cbn [mbind option_bind] in Hp; [|done].
    apply (process_vhost_tx_ok hole hand H n) in E1 as (Hw1 & Hm1 & Hf1 & _ & Eh1);
      [|eapply wok_le; [|exact Hw]; unfold waiting; lia|by eexists].
    destruct (process_incoming_packets fuel v1 w1) as [[v2 w2]|] eqn:E2; cbn [mbind option_bind] in Hp; [|done].
    apply (process_incoming_ok _ _ _ _ _ _ _ _ Hw1) in E2 as (Hw2 & Hm2 & Hs2 & Et2). injection Hp as <-.
    assert (Hv2 : is_Some (rc_vhost (w_self w2))) by (rewrite Hs2; rc; rewrite (proj1 Hf1), Ev; by eexists).
    pose proof (wo_self _ _ _ _ _ Hw2) as Hl2. split_and!.
    + eapply wok_local; [exact Hw2|done|done|lo|exact (wo_young _ _ _ _ _ Hw2)|done|done].
    + eapply moves_trans; [exact Hm1|]. eapply moves_trans; [exact Hm2|]. by apply moves_on_self.
    + rc. rewrite Hs2. rc. apply Hf1.
    + rc. split; by eexists.
    + assert (Ef : flight_heads (w_self w2) = flight_heads (w_self w1)) by (by rewrite Hs2).
      change (queue_heads (vh_tx v2) ⊎ flight_heads (w_self w2)
        = chain_heads (arrived arrivals) ⊎ reactor_heads (w_self w)).
      unfold reactor_heads. rewrite Ev, Et2, Ef, Eh1. ms.
  - injection Hp as <-. destruct (process_incoming_to_tun_ok hole hand H n w) as (Hw' & Hm & Ev' & Ehs & Ef);
      [eapply wok_le; [|exact Hw]; lia|].
    split_and!; [done|done|done|by rewrite Ev', Ev|]. unfold reactor_heads. rewrite Ev', Ev, Ef. ms.
Qed.

Lemma process_event_ok hole hand H n arrivals w w' :
  wok hole hand H (event_work arrivals (w_self w) + n) w → process_event fuel pick arrivals w = Some w' →
  wok hole hand H n w' ∧ moves w w' ∧
  (rc_handshakes (w_self w) = [] → rc_handshakes (w_self w') = [] ∧
     reactor_heads (w_self w') = arrivals_read arrivals (w_self w) ⊎ reactor_heads (w_self w)).
Proof.
  intros Hw Hp. unfold process_event in Hp. set (f := λ r, check_handshake (process_commands pick r)) in Hp.
  set (r1 := process_commands pick (w_self w)). pose proof (process_commands_only (w_self w)) as Hc. fold r1 in Hc.
  pose proof (wo_self _ _ _ _ _ Hw) as Hl. pose proof (wo_young _ _ _ _ _ Hw) as Hy.
  assert (Hf : f (w_self w) = r1 ∧ rc_handshakes (w_self w) = [] ∨
    ∃ v vs, rc_handshakes (w_self w) = v :: vs ∧ f (w_self w) = r1 <| rc_handshakes := vs |> <| rc_vhost := Some v |>).
  { assert (Ehs : rc_handshakes r1 = rc_handshakes (w_self w)) by (by rewrite Hc).
    unfold f, check_handshake. fold r1. rewrite Ehs. destruct (rc_handshakes (w_self w)) as [|v vs]; [by left|].
    right. by exists v, vs. }
  assert (Hw1 : wok hole hand H (event_work arrivals (w_self w) + n) (on_self f w) ∧ moves w (on_self f w)).
  { split; [|apply moves_on_self; destruct Hf as [[-> _]|(v & vs & _ & ->)]; by rewrite Hc].
    eapply wok_local; [exact Hw| | | | | |]; (destruct Hf as [[-> _]|(v & vs & _ & ->)]; rewrite Hc; try done; lo). }
  destruct Hw1 as [Hw1 Hm1].
  destruct (process_vhost fuel arrivals (on_self f w)) as [w2|] eqn:E2; cbn [mbind option_bind] in Hp; [|done].
  apply (process_vhost_ok hole hand H n) in E2 as (Hw2 & Hm2 & Ehs2 & _ & Eh2).
  - injection Hp as <-. destruct (process_completions_ok _ _ _ _ _ Hw2) as (Hw3 & Hm3 & Eh3 & Ehs3 & _).
    split_and!; [done|eapply moves_trans; [exact Hm1|]; by eapply moves_trans|]. intros Hno.
    rewrite Ehs3, Ehs2, Eh3, Eh2. destruct Hf as [[Ef _]|(v & vs & E & _)]; [|by rewrite Hno in E].
    change (w_self (on_self f w)) with (f (w_self w)). rewrite Ef, Hc. by split.
  - eapply wok_le; [|exact Hw1]. unfold event_work. change (w_self (on_self f w)) with (f (w_self w)).
    destruct Hf as [[-> _]|(v & vs & E & ->)]; rewrite Hc; rc; rewrite ?E; rewrite sum_list_with_app; [lia|].
    change (sum_list_with waiting (option_list (Some v))) with (waiting v + 0).
    change (sum_list_with waiting (v :: vs)) with (waiting v + sum_list_with waiting vs). lia.
Qed.

(** * One completion *)

Lemma hole_plain hand e r : writev_key e = None → write_key e = None → read_key e = None →
  local_ok [e] hand r → local_ok [] hand r.
Proof.
  intros Hv Hw Hr H. destruct H; constructor; try done.
  - by apply Forall_cons_1 in lo_sqes0 as [_ ?].
  - rewrite <- lo_tx0. unfold keys. cbn [app omap list_omap]. by rewrite Hv.
  - rewrite <- lo_tun0. unfold keys. cbn [app omap list_omap]. by rewrite Hw.
  - rewrite <- lo_rx0. unfold keys. cbn [app omap list_omap]. by rewrite Hr.
Qed.

Lemma hole_keys g e l : keys g ([e] ++ l) = match g e with Some k => {[+ k +]} | None => ∅ end ⊎ keys g l.
Proof. by rewrite keys_app, keys_one. Qed.

(** The state after one completion. *)
Definition handled (gain : gmultiset N) (n : nat) w w' : Prop :=
  wok [] ∅ ∅ n w' ∧ moves w w' ∧
  (rc_handshakes (w_self w) = [] → rc_handshakes (w_self w') = [] ∧
     reactor_heads (w_self w') = gain ⊎ reactor_heads (w_self w)).

Lemma handle_event_ok n arrivals result w w' : wok [event_sqe] ∅ ∅ (event_work arrivals (w_self w) + n) w →
  handle_event fuel pick arrivals result w = Runs w' →
  handled (if (0 <? result)%Z then arrivals_read arrivals (w_self w) else ∅) n w w'.
Proof.
  intros Hw Hh. unfold handle_event in Hh.
  destruct (if (0 <? result)%Z then _ else Some w) as [w1|] eqn:E; [|done]. injection Hh as <-.
  assert (H1 : wok [event_sqe] ∅ ∅ n w1 ∧ moves w w1 ∧
    (rc_handshakes (w_self w) = [] → rc_handshakes (w_self w1) = [] ∧
      reactor_heads (w_self w1) = (if (0 <? result)%Z then arrivals_read arrivals (w_self w) else ∅) ⊎ reactor_heads (w_self w))).
  { destruct (0 <? result)%Z; [by eapply process_event_ok|]. injection E as <-.
    split_and!; [eapply wok_le; [|exact Hw]; lia|apply moves_refl|]. intros ->. split; [done|ms]. }
  destruct H1 as (Hw1 & Hm1 & Hq1).
  assert (Hp : pool_only (w_self w1) (rearm_event (w_self w1))).
  { unfold rearm_event. destruct (rc_shutdown _); [apply pool_only_refl|].
    destruct (push_sqe _ _) eqn:Ep; cbn [default]; [by eapply push_sqe_pool|apply pool_only_refl]. }
  pose proof (wo_self _ _ _ _ _ Hw1) as Hl. apply hole_plain in Hl; [|done..].
  destruct (wok_pool _ _ _ _ [] ∅ rearm_event w1 Hw1 Hp) as [Hw2 Hm2].
  { unfold rearm_event. destruct (rc_shutdown _); [done|].
    destruct (push_sqe _ _) eqn:Ep; cbn [default]; [|done]. by eapply push_plain_ok in Ep. }
  destruct (pool_only_frame _ _ Hp) as (_ & _ & _ & _ & _ & Eh & Ehs & _).
  split_and!; [done|by eapply moves_trans|]. intros Hno. destruct (Hq1 Hno) as [E1 E2].
  rc. by rewrite Ehs, Eh.
Qed.

Lemma handle_vhost_tx_ok n e w data : sq_op e = OpWritev data → wok [e] ∅ ∅ n w →
  handled ∅ n w (on_self (handle_vhost_tx (sq_user_data e)) w).
Proof.
  intros He Hw. set (u := sq_user_data e). pose proof (wo_self _ _ _ _ _ Hw) as Hl.
  assert (Ek : keys writev_key ([e] ++ rg_ops (rc_ring (w_self w))) = {[+ u +]} ⊎ keys writev_key (rg_ops (rc_ring (w_self w)))).
  { rewrite hole_keys. unfold writev_key at 1. by rewrite He. }
  assert (Hu : u ∈ of_map (λ k (_ : N * N), k) (rc_vhost_tx_in_flight (w_self w))).
  { rewrite <- (lo_tx _ _ _ Hl), Ek. set_solver. }
  apply elem_of_of_map in Hu as (? & [h len] & Hu & <-).
  destruct (rc_vhost (w_self w)) as [v|] eqn:Ev.
  2: { destruct (lo_vhost _ _ _ Hl Ev) as [_ E]. by rewrite E in Hu. }
  set (f := handle_vhost_tx u). set (r' := (w_self w) <| rc_vhost_tx_in_flight := delete u (rc_vhost_tx_in_flight (w_self w)) |>
    <| rc_vhost := Some ((tx_used h len v) <| vh_tx_signals := S (vh_tx_signals (tx_used h len v)) |>) |>).
  assert (Ef : f (w_self w) = r') by (unfold f, handle_vhost_tx; rewrite Hu; rc; by rewrite Ev).
  split_and!.
  - eapply wok_local; [exact Hw| | | | | |]; rewrite Ef; try done; [|exact (wo_young _ _ _ _ _ Hw)].
    unfold r'. destruct Hl; constructor; rc; try done.
    + by apply Forall_cons_1 in lo_sqes0 as [_ ?].
    + rewrite (of_map_delete _ _ _ _ Hu) in lo_tx0. rewrite Ek in lo_tx0. cbn [app]. ms.
    + rewrite <- lo_tun0, hole_keys. unfold write_key at 2. rewrite He. cbn [app]. ms.
    + rewrite <- lo_rx0, hole_keys. unfold read_key at 2. rewrite He. cbn [app]. ms.
    + by apply map_Forall_delete.
  - apply moves_on_self; fold f; by rewrite Ef.
  - change (w_self (on_self f w)) with (f (w_self w)). rewrite Ef. intros Hno. split; [done|].
    change (queue_heads (vq_add_used h len (vh_tx v)) ⊎ (of_map (λ _ x, x.1) (delete u (rc_vhost_tx_in_flight (w_self w)))
      ⊎ of_map (λ _ x, x.1) (rc_vhost_to_vhost (w_self w))) = ∅ ⊎ reactor_heads (w_self w)).
    unfold reactor_heads, flight_heads. rewrite Ev, add_used_heads.
    rewrite (of_map_delete (λ _ x, x.1) (rc_vhost_tx_in_flight (w_self w)) u _ Hu). cbn [fst]. ms.
Qed.

Lemma handle_incoming_tun_ok n e w data result : sq_op e = OpWrite data → wok [e] ∅ ∅ n w →
  handled ∅ n w (handle_incoming_tun (sq_user_data e) result w).
Proof.
  intros He Hw. set (u := sq_user_data e). pose proof (wo_self _ _ _ _ _ Hw) as Hl.
  assert (Ek : keys write_key ([e] ++ rg_ops (rc_ring (w_self w))) = {[+ u +]} ⊎ keys write_key (rg_ops (rc_ring (w_self w)))).
  { rewrite hole_keys. unfold write_key at 1. by rewrite He. }
  assert (Hu : u ∈ of_map (λ k (_ : N * PacketSource), k) (rc_incoming_to_tun (w_self w))).
  { rewrite <- (lo_tun _ _ _ Hl), Ek. set_solver. }
  apply elem_of_of_map in Hu as (? & [id s] & Hu & <-). unfold handle_incoming_tun. rewrite Hu.
  set (w1 := on_self _ w).
  assert (Hw1 : wok [] ∅ ({[+ item_of id s +]} ⊎ ∅) n w1).
  { eapply wok_on_self; [exact Hw|done|done| |exact (wo_young _ _ _ _ _ Hw)|].
    - destruct Hl; constructor; rc; try done.
      + by apply Forall_cons_1 in lo_sqes0 as [_ ?].
      + rewrite <- lo_tx0, hole_keys. unfold writev_key at 2. rewrite He. cbn [app]. ms.
      + rewrite (of_map_delete _ _ _ _ Hu) in lo_tun0. rewrite Ek in lo_tun0. cbn [app]. ms.
      + rewrite <- lo_rx0, hole_keys. unfold read_key at 2. rewrite He. cbn [app]. ms.
      + by apply map_Forall_delete.
    - unfold owed, claims. rc.
      rewrite (of_map_delete (λ _ x, item_of x.1 x.2) (rc_incoming_to_tun (w_self w)) u _ Hu). cbn [fst snd]. ms. }
  destruct (send_completion_ok _ _ _ _ _ _ _ (incoming_completion id s result) (completed_incoming _ _ _) Hw1)
    as (Hw2 & Hm2 & Hs2).
  split_and!; [done|eapply moves_trans; [|exact Hm2]; by apply moves_on_self|].
  rewrite Hs2. intros Hno. split; [done|]. symmetry. apply (left_id_L ∅ (⊎)).
Qed.

Lemma poll_taken_ok e c r : local_ok [e] ∅ r → sq_op e = OpPollAdd → c ∈ rc_rx_poll_pending r →
  local_ok [] {[+ c +]} (r <| rc_rx_poll_pending := rc_rx_poll_pending r ∖ {[ c ]} |>).
Proof.
  intros Hl He Hc. apply hole_plain in Hl; [|by unfold writev_key, write_key, read_key; rewrite He..].
  assert (E : chains r = {[+ c +]} ⊎ chains (r <| rc_rx_poll_pending := rc_rx_poll_pending r ∖ {[ c ]} |>)).
  { unfold chains. rc. rewrite (of_set_delete (rc_rx_poll_pending r) c Hc). ms. }
  lo.
  - intros x. specialize (lo_once0 x). rewrite (left_id_L ∅ (⊎)), E in lo_once0. done.
  - intros x Hx. apply lo_small0. by rewrite (left_id_L ∅ (⊎)), E.
Qed.

Lemma handled_pool n w f e : wok [e] ∅ ∅ n w → pool_only (w_self w) (f (w_self w)) →
  local_ok [] ∅ (f (w_self w)) → handled ∅ n w (on_self f w).
Proof.
  intros Hw Hp Hl. destruct (wok_pool _ _ _ _ [] ∅ f w Hw Hp Hl) as [Hw' Hm].
  destruct (pool_only_frame _ _ Hp) as (_ & _ & _ & _ & _ & Eh & Ehs & _).
  split_and!; [done|done|]. rc. rewrite Ehs, Eh. intros Hno. split; [done|]. symmetry. apply (left_id_L ∅ (⊎)).
Qed.

Lemma handle_tun_poll_ok n e w c result : sq_op e = OpPollAdd → wok [e] ∅ ∅ n w →
  handled ∅ n w (on_self (handle_tun_poll c result) w).
Proof.
  intros He Hw. pose proof (wo_self _ _ _ _ _ Hw) as Hl.
  assert (Hnop : local_ok [] ∅ (w_self w))
    by (eapply hole_plain; [| | |exact Hl]; unfold writev_key, write_key, read_key; by rewrite He).
  eapply handled_pool; [exact Hw|..]; unfold handle_tun_poll; destruct (decide _) as [Hc|]; try done;
    try apply pool_only_refl; cbv zeta; set (r1 := (w_self w) <| rc_rx_poll_pending := _ |>).
  - assert (H1 : pool_only (w_self w) r1) by (by unfold r1; destruct (w_self w)).
    eapply pool_only_trans; [exact H1|]. destruct (0 <=? result)%Z; [|apply push_used_pool].
    destruct (submit_read c r1) eqn:E; cbn [default]; [by eapply submit_read_pool|apply push_used_pool].
  - pose proof (poll_taken_ok _ _ _ Hl He Hc) as Hl1. fold r1 in Hl1.
    rewrite <- (right_id_L ∅ (⊎) {[+ c +]}) in Hl1. destruct (0 <=? result)%Z; [|by apply push_used_ok].
    destruct (submit_read c r1) eqn:E; cbn [default]; [by eapply submit_read_ok|by apply push_used_ok].
Qed.

Lemma rx_taken_ok e c r : local_ok [e] ∅ r → sq_op e = OpReadFixed c →
  c ∈ rc_rx_in_flight r ∧ local_ok [] {[+ c +]} (r <| rc_rx_in_flight := rc_rx_in_flight r ∖ {[ c ]} |>).
Proof.
  intros Hl He.
  assert (Ek : keys read_key ([e] ++ rg_ops (rc_ring r)) = {[+ c +]} ⊎ keys read_key (rg_ops (rc_ring r))).
  { rewrite hole_keys. unfold read_key at 1. by rewrite He. }
  assert (Hc : c ∈ rc_rx_in_flight r).
  { apply elem_of_of_set. rewrite <- (lo_rx _ _ _ Hl), Ek. set_solver. }
  split; [done|].
  assert (E : chains r = {[+ c +]} ⊎ chains (r <| rc_rx_in_flight := rc_rx_in_flight r ∖ {[ c ]} |>)).
  { unfold chains. rc. rewrite (of_set_delete (rc_rx_in_flight r) c Hc). ms. }
  destruct Hl; constructor; rc; try done.
  - by apply Forall_cons_1 in lo_sqes0 as [_ ?].
  - rewrite <- lo_tx0, hole_keys. unfold writev_key at 2. rewrite He. cbn [app]. ms.
  - rewrite <- lo_tun0, hole_keys. unfold write_key at 2. rewrite He. cbn [app]. ms.
  - rewrite (of_set_delete _ _ Hc), Ek in lo_rx0. cbn [app]. ms.
  - intros x. specialize (lo_once0 x). rewrite (left_id_L ∅ (⊎)), E in lo_once0. done.
  - intros x Hx. apply lo_small0. by rewrite (left_id_L ∅ (⊎)), E.
Qed.

Lemma handle_rx_error_ok c result r : local_ok [] {[+ c +]} r →
  local_ok [] ∅ (handle_rx_error c result r) ∧ pool_only r (handle_rx_error c result r).
Proof.
  intros Hl. rewrite <- (right_id_L ∅ (⊎) {[+ c +]}) in Hl.
  assert (Hpush : local_ok [] ∅ (push_used c r) ∧ pool_only r (push_used c r))
    by (split; [by apply push_used_ok|apply push_used_pool]).
  unfold handle_rx_error. destruct (_ =? _)%Z; [|done]. destruct (push_sqe _ r) as [r1|] eqn:E; [|done].
  assert (Hs : (c < 2 ^ 59)%N) by (apply (lo_small _ _ _ Hl); set_solver).
  pose proof (push_sqe_pool _ _ _ E) as Hp. eapply push_plain_ok in E; [|by exists c|done..|exact Hl].
  assert (Hc : c ∉ rc_rx_poll_pending r1).
  { intros Hin%elem_of_of_set. rewrite elem_of_multiplicity in Hin. pose proof (lo_once _ _ _ E c) as Hone.
    unfold chains in Hone. rewrite !multiplicity_disj_union, multiplicity_singleton, decide_True in Hone by done. lia. }
  split; [|eapply pool_only_trans; [exact Hp|by destruct r1]].
  assert (Ech : chains (r1 <| rc_rx_poll_pending := {[ c ]} ∪ rc_rx_poll_pending r1 |>) = {[+ c +]} ⊎ chains r1)
    by (unfold chains; rc; rewrite of_set_insert by done; ms).
  destruct E; constructor; rc; try done.
  - intros x. specialize (lo_once0 x). rewrite Ech. rewrite (right_id_L ∅ (⊎)) in lo_once0. by rewrite (left_id_L ∅ (⊎)).
  - intros x Hx. rewrite Ech, (left_id_L ∅ (⊎)) in Hx. apply lo_small0. by rewrite (right_id_L ∅ (⊎)).
Qed.

Lemma forward_tun_rx_ok H n target c version data w ok w' : wok [] {[+ c +]} H (S n) w →
  forward_tun_rx target c version data w = (ok, w') →
  wok [] (if ok then ∅ else {[+ c +]}) H n w' ∧ moves w w' ∧ quiet (w_self w) (w_self w').
Proof.
  intros Hw Hf. unfold forward_tun_rx in Hf. cbv zeta in Hf.
  pose proof (fresh_id _ _ _ (lo_tun_rx_ids _ _ _ (wo_self _ _ _ _ _ Hw))) as Hfresh.
  apply (forward_ok _ _ ∅ _ _ _ _ _ _ _ _ _ Hw) in Hf as (Hw' & Hm & r & s & Hmsg & Es).
  - split_and!; [done|done|]. rewrite Es, Hmsg. by destruct ok.
  - intros r s Hmsg Hl. cbv zeta.
    assert (Hfr : rc_tun_rx r !! rc_next_packet_id (w_self w) = None) by (by rewrite Hmsg).
    split_and!; try done; try (by unfold young; rc).
    + set (r' := r <| rc_signal := s |> <| rc_tun_rx := _ |>).
      assert (Ech : chains r' = {[+ c +]} ⊎ chains r).
      { unfold chains, r'. rc. rewrite of_map_insert by done. ms. }
      destruct Hl; constructor; try done.
      * unfold r'. rc. apply map_Forall_insert_lt; [done|]. rewrite Hmsg. rc. lia.
      * intros x. rewrite (left_id_L ∅ (⊎)), Ech. apply lo_once0.
      * intros x Hx. rewrite (left_id_L ∅ (⊎)), Ech in Hx. by apply lo_small0.
    + unfold owed. rc. rewrite of_map_insert by done. rewrite Hmsg. rc. unfold item_of. cbn [source_reactor]. ms.
Qed.

Lemma route_tun_rx_ok H n c data w ok w' : wok [] {[+ c +]} H (S n) w → route_tun_rx c data w = (ok, w') →
  wok [] (if ok then ∅ else {[+ c +]}) H n w' ∧ moves w w' ∧ quiet (w_self w) (w_self w').
Proof.
  intros Hw Hr.
  assert (Hno : (false, w) = (ok, w') → wok [] (if ok then ∅ else {[+ c +]}) H n w' ∧ moves w w' ∧ quiet (w_self w) (w_self w')).
  { intros [= <- <-]. split; [eapply wok_le; [|exact Hw]; lia|]. split; [apply moves_refl|apply quiet_refl]. }
  unfold route_tun_rx in Hr. cbv zeta in Hr. destruct (_ <=? _); [by apply Hno|].
  match type of Hr with context [match ?d with ToTun _ => _ | _ => _ end] => destruct d as [i|target|] end;
    try (by apply Hno).
  by eapply forward_tun_rx_ok.
Qed.

Lemma handle_rx_ok n e c w result data w' : sq_op e = OpReadFixed c → wok [e] ∅ ∅ (S n) w →
  handle_rx c result data w = Runs w' → handled ∅ n w w'.
Proof.
  intros He Hw Hh. unfold handle_rx in Hh. destruct (rx_taken_ok _ _ _ (wo_self _ _ _ _ _ Hw) He) as [Hc Hl].
  destruct (decide _) as [_|Hn] in Hh; [|done]. cbv zeta in Hh. set (w1 := on_self _ w) in Hh.
  assert (Hp1 : pool_only (w_self w) (w_self w1)) by (unfold w1, on_self; rc; by destruct (w_self w)).
  destruct (wok_pool _ _ _ _ [] {[+ c +]} (λ r, r <| rc_rx_in_flight := rc_rx_in_flight r ∖ {[ c ]} |>) w Hw Hp1 Hl)
    as [Hw1 Hm1]. change (wok [] {[+ c +]} ∅ (S n) w1) in Hw1. change (moves w w1) in Hm1.
  destruct (pool_only_frame _ _ Hp1) as (_ & _ & _ & _ & _ & Eh1 & Ehs1 & _). clear Hp1. clearbody w1.
  assert (Hend : ∀ w2 f, wok [] {[+ c +]} ∅ n w2 → moves w w2 →
    (rc_handshakes (w_self w) = [] → rc_handshakes (w_self w2) = [] ∧ reactor_heads (w_self w2) = reactor_heads (w_self w)) →
    local_ok [] ∅ (f (w_self w2)) → pool_only (w_self w2) (f (w_self w2)) → handled ∅ n w (on_self f w2)).
  { intros w2 f Hw2 Hm2 Hq2 Hl2 Hp2. destruct (wok_pool _ _ _ _ [] ∅ f w2 Hw2 Hp2 Hl2) as [Hw3 Hm3].
    destruct (pool_only_frame _ _ Hp2) as (_ & _ & _ & _ & _ & Eh & Ehs & _).
    split_and!; [done|by eapply moves_trans|]. intros Hno%Hq2. rc. rewrite Ehs, Eh, (left_id_L ∅ (⊎)). done. }
  destruct (result <? 0)%Z; [|destruct (result =? 0)%Z; [done|]].
  - injection Hh as <-. destruct (handle_rx_error_ok c result _ (wo_self _ _ _ _ _ Hw1)) as [Hl2 Hp2].
    apply Hend; [eapply wok_le; [|exact Hw1]; lia|done|by rewrite Ehs1, Eh1|done|done].
  - destruct (route_tun_rx c data w1) as [sent w2] eqn:E.
    apply (route_tun_rx_ok _ _ _ _ _ _ _ Hw1) in E as (Hw2 & Hm2 & Eh2 & Ehs2 & _). injection Hh as <-.
    destruct sent.
    + split_and!; [done|by eapply moves_trans|]. intros Hno. rewrite Ehs2, Eh2, Ehs1, Eh1, (left_id_L ∅ (⊎)). done.
    + pose proof (wo_self _ _ _ _ _ Hw2) as Hl2. rewrite <- (right_id_L ∅ (⊎) {[+ c +]}) in Hl2. apply push_used_ok in Hl2.
      apply Hend; [done|by eapply moves_trans|by rewrite Ehs2, Eh2, Ehs1, Eh1| |]; cbv beta zeta;
        destruct (rc_shutdown (w_self w2)).
      * done.
      * by apply resubmit_rx_ok.
      * apply push_used_pool.
      * eapply pool_only_trans; [apply push_used_pool|apply resubmit_rx_pool].
Qed.

(** Only the event reads chains. *)
Definition cqe_gain (arrivals : list (Chain * list Chain)) (e : Sqe) (result : Z) r : gmultiset N :=
  match sq_op e with
  | OpReadEvent => if (0 <? result)%Z then arrivals_read arrivals r else ∅
  | _ => ∅
  end.

Lemma handle_cqe_ok n e arrivals result data w w' : sqe_ok e →
  wok [e] ∅ ∅ (S (event_work arrivals (w_self w)) + n) w →
  handle_cqe fuel pick arrivals (MkCqe (sq_user_data e) result data) w = Runs w' →
  handled (cqe_gain arrivals e result (w_self w)) n w w'.
Proof.
  intros Hok Hw Hh. unfold handle_cqe in Hh. cbn [cq_user_data cq_result cq_data] in Hh. unfold cqe_gain.
  unfold USER_DATA_EVENT_FLAG, USER_DATA_VHOST_TX_FLAG, USER_DATA_INCOMING_TUN_FLAG, USER_DATA_TUN_POLL_FLAG, USER_DATA_RX_FLAG in Hh.
  unfold sqe_ok in Hok. destruct (sq_op e) as [|c| |d|d] eqn:He.
  - rewrite Hok in Hh. change (has_flag USER_DATA_EVENT_FLAG (2 ^ 62)%N) with true in Hh. cbn [negb] in Hh.
    assert (e = event_sqe) as -> by (destruct e; cbn in *; by subst).
    eapply handle_event_ok; [|exact Hh]. eapply wok_le; [|exact Hw]. lia.
  - destruct Hok as [Hc Hu]. rewrite Hu in Hh. unfold USER_DATA_RX_FLAG in Hh. rewrite !flag_of in Hh by done.
    cbn [N.eqb Pos.eqb] in Hh. rewrite chain_of_flag in Hh by auto.
    eapply handle_rx_ok; [done|eapply wok_le; [|exact Hw]; lia|exact Hh].
  - destruct Hok as (c & Hc & Hu). rewrite Hu in Hh. unfold USER_DATA_TUN_POLL_FLAG in Hh. rewrite !flag_of in Hh by done.
    cbn [N.eqb Pos.eqb] in Hh. injection Hh as <-. eapply handle_tun_poll_ok; [done|]. eapply wok_le; [|exact Hw]. lia.
  - destruct Hok as (i & Hi & Hu). unfold USER_DATA_VHOST_TX_FLAG in Hu.
    assert (Hf : ∀ k, (59 ≤ k)%N → has_flag (sq_user_data e) (2 ^ k)%N = (61 =? k)%N) by (intros; rewrite Hu; by apply flag_of).
    rewrite !Hf in Hh by done. cbn [N.eqb Pos.eqb] in Hh. injection Hh as <-.
    eapply handle_vhost_tx_ok; [done|]. eapply wok_le; [|exact Hw]. lia.
  - destruct Hok as (i & Hi & Hu). unfold USER_DATA_INCOMING_TUN_FLAG in Hu.
    assert (Hf : ∀ k, (59 ≤ k)%N → has_flag (sq_user_data e) (2 ^ k)%N = (60 =? k)%N) by (intros; rewrite Hu; by apply flag_of).
    rewrite !Hf in Hh by done. cbn [N.eqb Pos.eqb] in Hh. injection Hh as <-.
    eapply handle_incoming_tun_ok; [done|]. eapply wok_le; [|exact Hw]. lia.
Qed.

End facts.
