(* ===== verification/NetReactorFacts.v ===== *)
(** What the reactors owe each other and their guests: every descriptor of a guest and
    every buffer of a device is in one place, and what is handed to another reactor
    comes back. *)

From stdpp Require Import gmultiset.
From S2P Require Import Prelude Packet NetAddr NetRoute NetSvc NetIovec NetRx NetWire NetProto NetReactor NetReactorInv.

Section facts.
Context {wire : Wire} {dhcp : Dhcp} {memory : GuestMemory} {queues : VirtQueue} {rings : Rings}.
Context {nets4 : IpNets 32} {nets6 : IpNets 128} {new4 : NetNew 32} {new6 : NetNew 128}.
Context {maps4 : PrefixMaps 32} {maps6 : PrefixMaps 128}.
Context (fuel : nat) (pick : KeyPick).
Implicit Types (r d : Reactor) (w : World) (net : gmap N Reactor).

(** * The invariant of the network *)

Definition net_alive net : Prop := map_Forall (λ _ r, rc_alive r = true) net.

Record net_ok net : Prop := {
  no_ids : map_Forall (λ i r, rc_id r = i) net;
  no_local : map_Forall (λ _ r, local_ok [] ∅ r) net;
  no_books : ∃ lost, msum owed net = msum claims net ⊎ lost ∧ (net_alive net → lost = ∅) }.

(** A reactor takes its turn. *)
Lemma enter net i r r1 hole n : net_ok net → net !! i = Some r → rc_id r1 = rc_id r → rc_alive r1 = rc_alive r →
  owed r1 = owed r → claims r1 = claims r → local_ok hole ∅ r1 → young n r1 →
  wok hole ∅ ∅ n (MkWorld r1 (delete i net)).
Proof.
  intros [Hid Hl (lost & E & Hlost)] Hi Eid Eal Eo Ec Hl1 Hy. pose proof (Hid _ _ Hi) as Er. cbn in Er. split.
  - split; cbn [w_self w_others]; [rewrite Eid, Er; apply lookup_delete_eq|by apply map_Forall_delete].
  - done.
  - by apply map_Forall_delete.
  - exists lost. unfold total. cbn [w_self w_others]. rewrite Eo, Ec. split.
    + rewrite <- !(msum_delete _ _ _ _ Hi), E. ms.
    + intros [Ha Ho]. apply Hlost. rewrite <- (insert_delete_id net i r Hi). apply map_Forall_insert_2; [|done].
      by rewrite <- Eal.
  - done.
Qed.

Lemma leave n w : wok [] ∅ ∅ n w → net_ok (join w).
Proof.
  intros [[Hn Hid] Hl Ho (lost & E & Hlost) _]. unfold join. split.
  - by apply map_Forall_insert_2.
  - by apply map_Forall_insert_2.
  - exists lost. rewrite !msum_insert by done. split.
    + unfold total in E. rewrite E. ms.
    + intros Ha. apply Hlost. split; [apply (Ha (rc_id (w_self w))), lookup_insert_eq|].
      intros j d Hd. apply (Ha j). rewrite lookup_insert_ne; [done|]. intros <-. congruence.
Qed.

(** A change from outside. *)
Lemma outside net i r r1 : net_ok net → net !! i = Some r → rc_id r1 = rc_id r → owed r1 = owed r → claims r1 = claims r →
  (rc_alive r1 = true → rc_alive r = true) → local_ok [] ∅ r1 → net_ok (<[i := r1]> net).
Proof.
  intros [Hid Hl (lost & E & Hlost)] Hi Eid Eo Ec Hal Hl1. split.
  - apply map_Forall_insert_2; [|done]. rewrite Eid. exact (Hid _ _ Hi).
  - by apply map_Forall_insert_2.
  - exists lost. pose proof (msum_update owed _ _ _ r1 Hi) as E1. pose proof (msum_update claims _ _ _ r1 Hi) as E2.
    rewrite Eo in E1. rewrite Ec in E2. split; [ms|]. intros Ha. apply Hlost. intros j d Hd.
    destruct (decide (j = i)) as [->|Hne].
    + rewrite Hi in Hd. injection Hd as <-. apply Hal, (Ha i), lookup_insert_eq.
    + apply (Ha j). by rewrite lookup_insert_ne.
Qed.

(** ** The start *)

Lemma submit_initial_ok n r : local_ok [] ∅ r → local_ok [] ∅ (submit_initial n r) ∧ pool_only r (submit_initial n r).
Proof.
  revert r. induction n as [|n IH]; intros r Hl; cbn [submit_initial]; [split; [done|apply pool_only_refl]|].
  unfold pop_available. destruct (rc_available r) as [|c cs] eqn:Ea; [split; [done|apply pool_only_refl]|].
  set (r1 := r <| rc_available := cs |>).
  assert (Hp1 : pool_only r r1) by (by unfold r1; destruct r).
  assert (Hl1 : local_ok [] ({[+ c +]} ⊎ ∅) r1).
  { assert (E : chains r = {[+ c +]} ⊎ chains r1).
    { unfold chains, r1. cbn [rc_available set_field rc_rx_in_flight rc_rx_poll_pending rc_tun_rx].
      rewrite Ea, list_to_set_disj_cons. ms. }
    destruct Hl; constructor; try done.
    - intros x. specialize (lo_once x). rewrite E in lo_once. rewrite (right_id_L ∅ (⊎)).
      by rewrite (left_id_L ∅ (⊎)) in lo_once.
    - intros x Hx. apply lo_small. rewrite E, (left_id_L ∅ (⊎)). by rewrite (right_id_L ∅ (⊎)) in Hx. }
  destruct (submit_read c r1) as [r2|] eqn:E2.
  - destruct (IH r2) as [H1 H2]; [by eapply submit_read_ok|].
    split; [done|]. eapply pool_only_trans; [exact Hp1|]. eapply pool_only_trans; [by eapply submit_read_pool|done].
  - split; [by apply push_used_ok|]. eapply pool_only_trans; [exact Hp1|apply push_used_pool].
Qed.

Lemma nodup_once (l : list N) c : NoDup l → multiplicity c (list_to_set_disj l : gmultiset N) ≤ 1.
Proof.
  induction 1 as [|x l Hx _ IH]; [by rewrite list_to_set_disj_nil, multiplicity_empty; lia|].
  rewrite list_to_set_disj_cons, multiplicity_disj_union, multiplicity_singleton.
  destruct (decide (c = x)) as [->|_]; [|lia].
  assert (multiplicity x (list_to_set_disj l : gmultiset N) = 0); [|lia].
  apply not_elem_of_multiplicity. by rewrite elem_of_list_to_set_disj.
Qed.

Lemma reactor_start_ok i mac config rx_count ring_size g r : rg_ops g = [] → (N.of_nat rx_count ≤ 2 ^ 59)%N →
  reactor_start i mac config rx_count ring_size g = Some r →
  local_ok [] ∅ r ∧ rc_id r = i ∧ owed r = ∅ ∧ claims r = ∅.
Proof.
  intros Hg Hn Hr. unfold reactor_start in Hr.
  set (r0 := MkReactor i true mac config _ _ _ _ _ _ _ _ _ _ _ _ _ _ _ _ _ _ _ _) in Hr.
  assert (Hl0 : local_ok [] ∅ r0).
  { split; cbn [rc_ring r0]; rewrite ?Hg; try done.
    - intros c. unfold chains. cbn [rc_available rc_rx_in_flight rc_rx_poll_pending rc_tun_rx r0].
      rewrite !multiplicity_disj_union, of_set_empty, of_map_empty, !multiplicity_empty.
      assert (Hnd : NoDup (N.of_nat <$> seq 0 rx_count)).
      { apply NoDup_fmap_2; [intros a b Hab; lia|apply NoDup_seq]. }
      pose proof (nodup_once _ c Hnd). lia.
    - intros c. unfold chains. cbn [rc_available rc_rx_in_flight rc_rx_poll_pending rc_tun_rx r0].
      rewrite of_set_empty, of_map_empty, !(right_id_L ∅ (⊎)), (left_id_L ∅ (⊎)).
      rewrite elem_of_list_to_set_disj, list_elem_of_fmap. intros (k & -> & Hk%elem_of_seq). lia. }
  destruct (push_sqe event_sqe r0) as [r1|] eqn:Ep; cbn [mbind option_bind] in Hr; [|done]. injection Hr as <-.
  pose proof (push_sqe_pool _ _ _ Ep) as Hp1. eapply push_plain_ok in Ep as Hl1; [|done..].
  destruct (submit_initial_ok (ring_size - 1) r1 Hl1) as [Hl2 Hp2].
  set (r2 := submit_initial _ r1) in *. pose proof (pool_only_trans _ _ _ Hp1 Hp2) as Hp.
  destruct (pool_only_frame _ _ Hp) as (Hi & _ & Eo & Ec & _).
  split_and!.
  - destruct Hl2; constructor; cbn [rc_ring set_field rc_vhost_tx_in_flight rc_incoming_to_tun rc_rx_in_flight];
      rewrite ?rg_submit_ops; done.
  - exact Hi.
  - etrans; [exact Eo|]. unfold owed. cbn [r0 rc_vhost_to_vhost rc_tun_rx]. rewrite !of_map_empty. ms.
  - etrans; [exact Ec|]. unfold claims. cbn [r0 rc_packets rc_incoming_to_tun rc_completions]. rewrite of_map_empty.
    change (packet_items []) with (∅ : gmultiset Item). change (completion_items _ []) with (∅ : gmultiset Item). ms.
Qed.

(** ** The end of a batch *)

Lemma signal_reactor_ok hole hand H n i w : wok hole hand H n w →
  wok hole hand H n (signal_reactor i w) ∧ moves w (signal_reactor i w) ∧ msg_only (w_self w) (w_self (signal_reactor i w)).
Proof.
  intros Hw. unfold signal_reactor. destruct (world_get i w) as [d|] eqn:Hg.
  2: { split_and!; [done|apply moves_refl|apply msg_only_refl]. }
  destruct (message_spec w i d (d <| rc_event := S (rc_event d) |>) ∅) as (Hm & Hs & Eo & Ec);
    [apply Hw|done|by destruct d|symmetry; apply (right_id_L ∅ (⊎))|].
  split_and!; [|done|done]. eapply wok_intro; [exact Hw|exact Hm| | |].
  - eapply local_ok_msg; [exact Hs|apply Hw].
  - eapply balanced_eq; [exact Hm| |apply Hw]. rewrite Eo, Ec. ms.
  - rewrite Hs. apply Hw.
Qed.

Lemma signal_all_ok hole hand H n l w : wok hole hand H n w →
  wok hole hand H n (foldr signal_reactor w l) ∧ moves w (foldr signal_reactor w l) ∧
  msg_only (w_self w) (w_self (foldr signal_reactor w l)).
Proof.
  intros Hw. induction l as [|i l (Hw1 & Hm1 & Hs1)]; cbn [foldr].
  - split_and!; [done|apply moves_refl|apply msg_only_refl].
  - destruct (signal_reactor_ok _ _ _ _ i _ Hw1) as (Hw2 & Hm2 & Hs2).
    split_and!; [done|by eapply moves_trans|by eapply msg_only_trans].
Qed.

Lemma end_batch_ok n w w' : wok [] ∅ ∅ n w → end_batch w = Runs w' → handled ∅ n w w'.
Proof.
  intros Hw He. unfold end_batch in He.
  destruct (signal_all_ok _ _ _ _ (elements (rc_signal (w_self w))) w Hw) as (Hw1 & Hm1 & Hs1).
  set (w1 := foldr _ _ _) in *. cbv zeta in He.
  destruct (rc_shutdown _) in He; [done|]. injection He as <-.
  set (f := λ r : Reactor, r <| rc_signal := ∅ |> <| rc_ring := rg_submit (rc_ring r) |>).
  change (handled ∅ n w (on_self f w1)). pose proof (wo_self _ _ _ _ _ Hw1) as Hl1.
  split_and!.
  - eapply wok_local; [exact Hw1|done|done| |exact (wo_young _ _ _ _ _ Hw1)|done|done].
    unfold f. destruct Hl1; constructor;
      cbn [rc_ring set_field rc_vhost_tx_in_flight rc_incoming_to_tun rc_rx_in_flight]; rewrite ?rg_submit_ops; done.
  - eapply moves_trans; [exact Hm1|]. by apply moves_on_self.
  - intros Hno. change (rc_handshakes (w_self w1) = [] ∧ reactor_heads (w_self w1) = ∅ ⊎ reactor_heads (w_self w)).
    rewrite Hs1. split; [done|]. symmetry. apply (left_id_L ∅ (⊎)).
Qed.

(** * Steps *)

Lemma keys_perm g l l' : l ≡ₚ l' → keys g l = keys g l'.
Proof. intros H. unfold keys. apply list_to_set_disj_perm. by rewrite H. Qed.

(** The operation that completed is taken out of the ring. *)
Lemma open_hole r e g k : local_ok [] ∅ r → rg_ops (rc_ring r) ≡ₚ e :: rg_ops g →
  local_ok [e] ∅ (r <| rc_ring := g |> <| rc_event := k |>) ∧ sqe_ok e.
Proof.
  intros Hl Hp. destruct Hl. cbn [app] in *.
  split; [|rewrite Hp in lo_sqes; by apply Forall_cons_1 in lo_sqes as [? _]].
  constructor; try done; cbn [rc_ring set_field rc_vhost_tx_in_flight rc_incoming_to_tun rc_rx_in_flight app].
  - by rewrite <- Hp.
  - rewrite <- lo_tx. by apply keys_perm.
  - rewrite <- lo_tun. by apply keys_perm.
  - rewrite <- lo_rx. by apply keys_perm.
Qed.

(** What happens to the heads of reactor [i] in a step. *)
Definition offered (i : ReactorId) (l : NetLabel) : gmultiset N :=
  match l with LOffer j cs => if (j =? i)%N then chain_heads cs else ∅ | _ => ∅ end.

Definition heads_step (l : NetLabel) net net' : Prop :=
  ∀ i r r', net !! i = Some r → net' !! i = Some r' → rc_handshakes r = [] → l ≠ LHandshake i →
    rc_handshakes r' = [] ∧ reactor_heads r' = offered i l ⊎ reactor_heads r.

(** The turn of reactor [i] is not seen by the others but for their messages. *)
Lemma turn_heads net i r r1 w' n l gain : net_ok net → net !! i = Some r →
  handled gain n (MkWorld r1 (delete i net)) w' →
  rc_id r1 = rc_id r → rc_handshakes r1 = rc_handshakes r → reactor_heads r1 = reactor_heads r →
  (rc_handshakes r = [] → offered i l = gain) → (∀ j, j ≠ i → offered j l = ∅) →
  heads_step l net (join w').
Proof.
  intros Hok Hi (Hw' & Hm & Hh) Eid Ehs Eh Hl Hl'. pose proof (no_ids _ Hok _ _ Hi) as Er. cbn in Er.
  assert (Ei : rc_id (w_self w') = i) by (rewrite (mv_id _ _ Hm); cbn [w_self]; congruence).
  intros j d d' Hj Hj' Hno _. unfold join in Hj'. rewrite Ei in Hj'.
  destruct (decide (j = i)) as [->|Hne].
  - rewrite Hi in Hj. injection Hj as <-. rewrite lookup_insert_eq in Hj'. injection Hj' as <-.
    cbn [w_self] in Hh. rewrite Ehs in Hh. destruct (Hh Hno) as [H1 H2]. split; [done|]. by rewrite (Hl Hno), H2, Eh.
  - rewrite lookup_insert_ne in Hj' by done. destruct (moves_get_other _ _ _ _ Hm Hj') as (d0 & Hd0 & Hmsg).
    cbn [w_others] in Hd0. rewrite lookup_delete_ne in Hd0 by done. rewrite Hj in Hd0. injection Hd0 as <-.
    rewrite Hmsg. split; [done|]. rewrite (Hl' _ Hne). symmetry. apply (left_id_L ∅ (⊎)).
Qed.

Lemma outside_heads net i r r1 l : net !! i = Some r → rc_handshakes r1 = rc_handshakes r ∨ l = LHandshake i →
  reactor_heads r1 = offered i l ⊎ reactor_heads r → (∀ j, j ≠ i → offered j l = ∅) →
  heads_step l net (<[i := r1]> net).
Proof.
  intros Hi Hhs Eh Hl j d d' Hj Hj' Hno Hne. destruct (decide (j = i)) as [->|Hji].
  - rewrite Hi in Hj. injection Hj as <-. rewrite lookup_insert_eq in Hj'. injection Hj' as <-.
    destruct Hhs as [-> | ->]; [|done]. done.
  - rewrite lookup_insert_ne, Hj in Hj' by done. injection Hj' as <-. split; [done|].
    rewrite Hl by done. symmetry. apply (left_id_L ∅ (⊎)).
Qed.

Lemma offered_other l i : match l with LOffer k _ => k = i | _ => True end → ∀ j, j ≠ i → offered j l = ∅.
Proof. destruct l as [k cs| |]; try done. intros -> j Hj. cbn [offered]. by destruct (N.eqb_spec i j). Qed.

(** No reactor leaves the registry. *)
Lemma turn_dom net i r r1 w' : net_ok net → net !! i = Some r → rc_id r1 = rc_id r →
  moves (MkWorld r1 (delete i net)) w' → ∀ j, is_Some (net !! j) → is_Some (join w' !! j).
Proof.
  intros Hok Hi Eid Hm j Hj. pose proof (no_ids _ Hok _ _ Hi) as Er. cbn in Er. unfold join.
  rewrite lookup_insert_is_Some, (mv_id _ _ Hm). cbn [w_self]. rewrite Eid, Er.
  destruct (decide (i = j)) as [|Hne]; [by left|right]. split; [done|].
  pose proof (mv_others _ _ Hm j) as H. cbn [w_others] in H. rewrite lookup_delete_ne in H by done.
  destruct Hj as [d Hd]. rewrite Hd in H. by inversion H.
Qed.

(** A completion is handled. *)
Lemma cqe_turn net i r e g arrivals result data w : net_ok net → net !! i = Some r →
  rg_ops (rc_ring r) ≡ₚ e :: rg_ops g → young (S (event_work arrivals r)) r →
  let r1 := r <| rc_ring := g |> <| rc_event := event_left e result r |> in
  handle_cqe fuel pick arrivals (MkCqe (sq_user_data e) result data) (MkWorld r1 (delete i net)) = Runs w →
  handled (cqe_gain arrivals e result r1) 0 (MkWorld r1 (delete i net)) w ∧ sqe_ok e.
Proof.
  intros Hok Hi Hp Hy r1 Hh. destruct (open_hole r e g (event_left e result r) (no_local _ Hok _ _ Hi) Hp) as [Hl He'].
  fold r1 in Hl. split; [|done].
  assert (Hw : wok [e] ∅ ∅ (S (event_work arrivals r1) + 0) (MkWorld r1 (delete i net))).
  { eapply enter; [exact Hok|exact Hi|done|done|done|done|exact Hl|]. by rewrite Nat.add_0_r. }
  exact (handle_cqe_ok fuel pick 0 e arrivals result data (MkWorld r1 (delete i net)) w He' Hw Hh).
Qed.

Lemma net_step_ok net l net' : net_ok net → net_step fuel pick net l net' →
  net_ok net' ∧ heads_step l net net' ∧ ∀ i, is_Some (net !! i) → is_Some (net' !! i).
Proof.
  intros Hok Hs.
  destruct Hs as [i r e g result data arrivals w Hi Ha Hp He Hy Hh|i r w Hi Ha Hy Hh|i r Hi|i r v c Hi Hv|i r c Hi|i r v Hi|
    i mac config n size g r Hi Hg Hn Hr].
  2: { assert (Hw : wok [] ∅ ∅ 0 (MkWorld r (delete i net)))
         by (eapply enter; [exact Hok|exact Hi|done..|exact (no_local _ Hok _ _ Hi)|done]).
       pose proof (end_batch_ok _ _ _ Hw Hh) as Hd.
       split_and!; [eapply leave, Hd| |eapply turn_dom; [exact Hok|exact Hi|done|apply Hd]].
       by eapply (turn_heads _ _ r r); [exact Hok|exact Hi|exact Hd|..]. }
  2-5: pose proof (no_local _ Hok _ _ Hi) as Hl; split_and!;
    [eapply outside; [exact Hok|exact Hi|done|done|done|done|by destruct Hl; constructor]|
     eapply outside_heads; [exact Hi|by (left + right)| |by apply offered_other]|
     intros j Hj; rewrite lookup_insert_is_Some'; by right].
  - destruct (cqe_turn _ _ _ _ _ _ _ _ _ Hok Hi Hp Hy Hh) as [Hd _].
    set (r1 := r <| rc_ring := g |> <| rc_event := _ |>) in Hd.
    split_and!; [eapply leave, Hd| |eapply (turn_dom _ _ r r1); [exact Hok|exact Hi|done|apply Hd]].
    eapply (turn_heads _ _ r r1); [exact Hok|exact Hi|exact Hd|done|done|done| |].
    + intros Hno. unfold cqe_gain, arrivals_read. cbn [w_self]. destruct (sq_op e); try done.
      destruct (0 <? result)%Z; [|done]. change (rc_vhost r1) with (rc_vhost r).
      destruct (rc_vhost r); cbn [is_some andb offered]; [by rewrite N.eqb_refl|done].
    + apply offered_other. destruct (sq_op e); try done. by destruct (_ && _).
  - symmetry. apply (left_id_L ∅ (⊎)).
  - cbn [offered]. rewrite N.eqb_refl. unfold reactor_heads. cbn [rc_vhost set_field]. rewrite Hv.
    destruct (offer_heads [c] (vh_tx v)) as [_ E]. cbn [foldl] in E.
    change (queue_heads (vq_offer c (vh_tx v)) ⊎ flight_heads r = chain_heads [c] ⊎ (queue_heads (vh_tx v) ⊎ flight_heads r)).
    rewrite E. ms.
  - symmetry. apply (left_id_L ∅ (⊎)).
  - symmetry. apply (left_id_L ∅ (⊎)).
  - destruct (reactor_start_ok _ _ _ _ _ _ _ Hg Hn Hr) as (Hl & Eid & Eo & Ec). split_and!.
    + destruct Hok as [H1 H2 (lost & E & Hlost)]. split; [by apply map_Forall_insert_2..|].
      exists lost. rewrite !msum_insert, Eo, Ec by done. split; [rewrite E; ms|].
      intros Hall. apply Hlost. intros j d Hd. apply (Hall j). rewrite lookup_insert_ne; [done|]. congruence.
    + intros j d d' Hj Hj' Hno _. rewrite lookup_insert_ne in Hj' by congruence.
      rewrite Hj in Hj'. injection Hj' as <-. split; [done|]. symmetry. apply (left_id_L ∅ (⊎)).
    + intros j Hj. rewrite lookup_insert_is_Some'. by right.
Qed.

Definition net_reachable net : Prop := ∃ ls, net_run fuel pick ∅ ls net.

Lemma net_empty_ok : net_ok ∅.
Proof.
  split; [done|done|]. exists ∅. split; [|done]. unfold msum. rewrite !map_fold_empty. ms.
Qed.

Lemma net_run_ok net ls net' : net_ok net → net_run fuel pick net ls net' →
  net_ok net' ∧ ∀ i, is_Some (net !! i) → is_Some (net' !! i).
Proof.
  intros Hok. induction 1 as [|ls net1 l net2 _ [IH1 IH2] Hs]; [done|].
  destruct (net_step_ok _ _ _ IH1 Hs) as (? & _ & ?). eauto.
Qed.

Lemma net_reachable_ok net : net_reachable net → net_ok net.
Proof. intros [ls H]. by eapply net_run_ok in H as [? _]; [|apply net_empty_ok]. Qed.

(** * Descriptors of a guest *)

Definition offers (i : ReactorId) (ls : list NetLabel) : gmultiset N := foldr (λ l acc, offered i l ⊎ acc) ∅ ls.

Lemma offers_snoc i ls l : offers i (ls ++ [l]) = offered i l ⊎ offers i ls.
Proof.
  unfold offers. induction ls as [|x ls IH]; [done|].
  change (foldr _ _ ((x :: ls) ++ [l])) with (offered i x ⊎ foldr (λ l acc, offered i l ⊎ acc) ∅ (ls ++ [l])).
  rewrite IH. cbn [foldr]. ms.
Qed.

Lemma heads_run net ls net' i r r' : net_ok net → net_run fuel pick net ls net' →
  net !! i = Some r → net' !! i = Some r' → rc_handshakes r = [] → LHandshake i ∉ ls →
  rc_handshakes r' = [] ∧ reactor_heads r' = offers i ls ⊎ reactor_heads r.
Proof.
  intros Hok H. revert r'. induction H as [|ls net1 l net2 Hr IH Hs]; intros r' Hi Hi' Hno Hls.
  - rewrite Hi in Hi'. injection Hi' as <-. split; [done|]. symmetry. apply (left_id_L ∅ (⊎)).
  - destruct (net_run_ok _ _ _ Hok Hr) as [Hok1 Hdom]. destruct (Hdom i) as [r1 Hi1]; [by rewrite Hi|].
    apply not_elem_of_app in Hls as [Hls Hl].
    destruct (IH r1 Hi Hi1 Hno Hls) as [Hno1 E1]. destruct (net_step_ok _ _ _ Hok1 Hs) as (_ & Hh & _).
    destruct (Hh i r1 r' Hi1 Hi' Hno1) as [Hno2 E2]; [intros ->; apply Hl; by left|]. split; [done|].
    rewrite E2, E1, offers_snoc. ms.
Qed.

(** C5: Every descriptor chain that a guest makes available is, at any later time of any
    interleaving of the reactors, in exactly one place: still in the available ring,
    in flight, or returned in the used ring; none is lost and none is returned twice,
    as long as the guest does not connect anew. *)
Theorem tx_descriptors_conserved net ls net' i r r' :
  net_reachable net → net_run fuel pick net ls net' → net !! i = Some r → net' !! i = Some r' →
  rc_handshakes r = [] → LHandshake i ∉ ls → reactor_heads r' = offers i ls ⊎ reactor_heads r.
Proof. intros Hn%net_reachable_ok H ????. by eapply heads_run. Qed.

(** * What is handed over comes back *)

Definition quiet_sqe (e : Sqe) : bool := match sq_op e with OpWritev _ | OpWrite _ => false | _ => true end.
(** Nothing is under way to or from the reactor. *)
Definition idle r : Prop :=
  rc_packets r = [] ∧ rc_completions r = [] ∧ Forall (λ e, quiet_sqe e = true) (rg_ops (rc_ring r)).

Lemma quiet_keys l : Forall (λ e, quiet_sqe e = true) l → keys writev_key l = ∅ ∧ keys write_key l = ∅.
Proof.
  unfold keys. induction 1 as [|e l He _ [IH1 IH2]]; [done|].
  cbn [omap list_omap]. unfold writev_key at 1, write_key at 1. unfold quiet_sqe in He. by destruct (sq_op e).
Qed.

Lemma idle_claims r : local_ok [] ∅ r → idle r → claims r = ∅ ∧ rc_vhost_tx_in_flight r = ∅.
Proof.
  intros [_ Htx Htun _ _ _ _ _ _ _ _] (Hp & Hc & Hq). cbn [app] in *. destruct (quiet_keys _ Hq) as [E1 E2].
  rewrite E1 in Htx. rewrite E2 in Htun. symmetry in Htx, Htun.
  apply of_map_empty_inv in Htx. apply of_map_empty_inv in Htun. split; [|done].
  unfold claims. rewrite Hp, Hc, Htun, of_map_empty.
  change (packet_items []) with (∅ : gmultiset Item). change (completion_items _ []) with (∅ : gmultiset Item). ms.
Qed.

Lemma msum_empty (f : Reactor → gmultiset Item) net : map_Forall (λ _ r, f r = ∅) net → msum f net = ∅.
Proof.
  intros H. induction net as [|i r net Hi IH] using map_ind.
  - unfold msum. apply map_fold_empty.
  - rewrite msum_insert by done. apply map_Forall_insert in H as [-> H]; [|done]. rewrite (IH H). ms.
Qed.

Lemma owed_empty r : owed r = ∅ → rc_vhost_to_vhost r = ∅ ∧ rc_tun_rx r = ∅.
Proof.
  intros E. split.
  - apply (of_map_empty_inv (λ k x, (rc_id r, (k, inl x)) : Item)). unfold owed in E. ms.
  - apply (of_map_empty_inv (λ k c, (rc_id r, (k, inr c)) : Item)). unfold owed in E. ms.
Qed.


(** * Buffers of the device *)

(** C18: The buffer of a packet from the device that is queued at another reactor, or
    is being written, or whose completion is under way, belongs to a reactor that
    still tracks it, is not free, and is not the target of any read: the bytes that
    the other reactor copies are not overwritten meanwhile. *)
Theorem tun_buffers_exclusive net j d i id c : net_reachable net → net !! j = Some d → (i, (id, inr c)) ∈ claims d →
  ∃ r, net !! i = Some r ∧ rc_tun_rx r !! id = Some c ∧ c ∉ rc_available r ∧
    c ∉ rc_rx_poll_pending r ∧ Forall (λ e, sq_op e ≠ OpReadFixed c) (rg_ops (rc_ring r)).
Proof.
  intros [Hid Hl (lost & E & _)]%net_reachable_ok Hj Hc.
  assert (Hin : (i, (id, inr c)) ∈ msum owed net).
  { rewrite E, gmultiset_elem_of_disj_union. left. apply elem_of_msum. eauto. }
  apply elem_of_msum in Hin as (k & r & Hk & Hin). pose proof (Hid _ _ Hk) as Er. cbn in Er.
  assert (Ht : k = i ∧ rc_tun_rx r !! id = Some c).
  { unfold owed in Hin. rewrite gmultiset_elem_of_disj_union, !elem_of_of_map in Hin. naive_solver. }
  destruct Ht as [-> Ht]. exists r. split; [done|]. split; [done|].
  pose proof (Hl _ _ Hk) as Hr. pose proof (lo_once _ _ _ Hr c) as H1. unfold chains in H1.
  assert (Hm : 1 ≤ multiplicity c (of_map (λ _ x, x) (rc_tun_rx r))).
  { apply elem_of_multiplicity, elem_of_of_map. eauto. }
  rewrite !multiplicity_disj_union in H1.
  assert (Hz : ∀ X : gmultiset N, multiplicity c X = 0 → c ∉ X) by (intros X; apply not_elem_of_multiplicity).
  split_and!.
  - rewrite <- elem_of_list_to_set_disj. apply Hz. lia.
  - rewrite <- elem_of_of_set. apply Hz. lia.
  - apply list.Forall_forall. intros e He Ho. assert (Hn : c ∈ of_set (rc_rx_in_flight r)).
    { rewrite <- (lo_rx _ _ _ Hr). unfold keys. cbn [app].
      apply elem_of_list_to_set_disj, list_elem_of_omap. exists e. split; [done|]. unfold read_key. by rewrite Ho. }
    revert Hn. apply Hz. lia.
Qed.

End facts.
