(* ===== verification/NetReactorWake.v ===== *)
(** No wake-up is lost: a reactor with a message, a command or a chain of its guest
    waiting has its eventfd signalled, or is on the list of a reactor that signals it
    at the end of its batch. *)

From stdpp Require Import gmultiset.
From S2P Require Import Prelude Packet NetAddr NetRoute NetSvc NetIovec NetRx NetWire NetProto NetReactor NetReactorInv NetReactorFacts.

Section wake.
Context {wire : Wire} {dhcp : Dhcp} {memory : GuestMemory} {queues : VirtQueue} {rings : Rings}.
Context {nets4 : IpNets 32} {nets6 : IpNets 128} {new4 : NetNew 32} {new6 : NetNew 128}.
Context {maps4 : PrefixMaps 32} {maps6 : PrefixMaps 128}.
Implicit Types (r d : Reactor) (w : World) (net : gmap N Reactor) (s : gset N).

(** * Waiting work *)

Definition tx_avail r : list Chain := match rc_vhost r with Some v => vq_avail (vh_tx v) | None => [] end.

(** Whoever has something to do will be told; [called] when another reactor will tell. *)
Record awake (called : Prop) r : Prop := {
  aw_packets : rc_packets r ≠ [] → rc_event r ≠ 0 ∨ called;
  aw_completions : rc_completions r ≠ [] → rc_event r ≠ 0;
  aw_commands : rc_commands r ≠ [] → rc_event r ≠ 0;
  aw_avail : tx_avail r ≠ [] → rc_event r ≠ 0 }.

Definition served r : Prop :=
  rc_packets r = [] ∧ rc_completions r = [] ∧ rc_commands r = [] ∧ tx_avail r = [].

Lemma served_awake called r : served r → awake called r.
Proof. intros (H1 & H2 & H3 & H4). by split; rewrite ?H1, ?H2, ?H3, ?H4. Qed.

(** ** New work comes with a signal *)

Record stir1 (called : Prop) d d' : Prop := {
  st_event : rc_event d ≤ rc_event d';
  st_packets : rc_packets d' ≠ [] → rc_packets d ≠ [] ∨ called;
  st_completions : rc_completions d' ≠ [] → rc_completions d ≠ [] ∨ rc_event d' ≠ 0;
  st_commands : rc_commands d' ≠ [] → rc_commands d ≠ [];
  st_avail : tx_avail d' ≠ [] → tx_avail d ≠ [] }.

Lemma stir1_refl called d : stir1 called d d.
Proof. split; auto. Qed.
Lemma stir1_trans called d1 d2 d3 : stir1 called d1 d2 → stir1 called d2 d3 → stir1 called d1 d3.
Proof.
  intros [A1 A2 A3 A4 A5] [B1 B2 B3 B4 B5]. split; [lia|naive_solver| |naive_solver|naive_solver].
  intros [H|H]%B3; [|auto]. apply A3 in H as [H|H]; [auto|right; lia].
Qed.
Lemma stir1_mono (c c' : Prop) d d' : (c → c') → stir1 c d d' → stir1 c' d d'.
Proof. intros Hc [A1 A2 A3 A4 A5]. split; naive_solver. Qed.
Lemma awake_stir1 (c c' : Prop) d d' : (c → c') → awake c d → stir1 c' d d' → awake c' d'.
Proof.
  intros Hc [A1 A2 A3 A4] [B1 B2 B3 B4 B5]. split; intros H.
  - destruct (B2 H) as [H'|?]; [|auto]. destruct (A1 H'); [left; lia|auto].
  - destruct (B3 H) as [H'|?]; [|done]. apply A2 in H'. lia.
  - apply B4, A3 in H. lia.
  - apply B5, A4 in H. lia.
Qed.

(** [s] are the reactors that will be signalled. *)
Record stir s w w' : Prop := {
  sr_id : rc_id (w_self w') = rc_id (w_self w);
  sr_signal : rc_signal (w_self w) ⊆ rc_signal (w_self w');
  sr_get j d' : world_get j w' = Some d' → ∃ d, world_get j w = Some d ∧ stir1 (j ∈ s) d d' }.

Lemma stir_refl s w : stir s w w.
Proof. split; [done|done|]. intros j d Hd. exists d. split; [done|apply stir1_refl]. Qed.
Lemma stir_trans s w1 w2 w3 : stir s w1 w2 → stir s w2 w3 → stir s w1 w3.
Proof.
  intros [A1 A2 A3] [B1 B2 B3]. split; [congruence|set_solver|]. intros j d3 (d2 & H2 & E2)%B3.
  apply A3 in H2 as (d1 & H1 & E1). exists d1. split; [done|]. by eapply stir1_trans.
Qed.
Lemma stir_mono s s' w w' : s ⊆ s' → stir s w w' → stir s' w w'.
Proof.
  intros Hs [A1 A2 A3]. split; [done|done|]. intros j d' (d & H & E)%A3. exists d. split; [done|].
  eapply stir1_mono; [|exact E]. apply Hs.
Qed.
Lemma stir_self s w w' : stir s w w' → stir1 (rc_id (w_self w) ∈ s) (w_self w) (w_self w').
Proof.
  intros [A1 _ A3]. destruct (A3 (rc_id (w_self w)) (w_self w')) as (d & Hd & E).
  - unfold world_get. by rewrite A1, N.eqb_refl.
  - unfold world_get in Hd. rewrite N.eqb_refl in Hd. by injection Hd as <-.
Qed.

(** ** Local changes *)

Definition calm r r' : Prop :=
  rc_id r' = rc_id r ∧ rc_signal r' = rc_signal r ∧ rc_event r' = rc_event r ∧ rc_packets r' = rc_packets r ∧
  rc_completions r' = rc_completions r ∧ rc_commands r' = rc_commands r ∧ tx_avail r' = tx_avail r.
Lemma calm_trans r1 r2 r3 : calm r1 r2 → calm r2 r3 → calm r1 r3.
Proof. unfold calm. intuition congruence. Qed.
Lemma calm_pool r r' : pool_only r r' → calm r r'.
Proof. by intros ->. Qed.
Lemma calm_stir1 called r r' : calm r r' → stir1 called r r'.
Proof. intros (_ & _ & E1 & E2 & E3 & E4 & E5). split; rewrite ?E1, ?E2, ?E3, ?E4, ?E5; auto. Qed.

Lemma stir_on_self s f w : rc_id (f (w_self w)) = rc_id (w_self w) →
  rc_signal (w_self w) ⊆ rc_signal (f (w_self w)) → stir1 (rc_id (w_self w) ∈ s) (w_self w) (f (w_self w)) →
  stir s w (on_self f w).
Proof.
  intros Hi Hs Hst. split; [done|done|]. intros j d'. unfold world_get, on_self. cbn [w_self w_others set_field].
  rewrite Hi.
  destruct (N.eqb_spec j (rc_id (w_self w))) as [->|_]; [intros [= <-]; eauto|].
  intros Hd. exists d'. split; [done|apply stir1_refl].
Qed.
Lemma stir_calm s f w : calm (w_self w) (f (w_self w)) → stir s w (on_self f w).
Proof. intros Hc. apply stir_on_self; [apply Hc|by rewrite (proj1 (proj2 Hc))|by apply calm_stir1]. Qed.
Lemma stir_replace s r' w : calm (w_self w) r' → stir s w (MkWorld r' (w_others w)).
Proof. apply (stir_calm s (λ _, r')). Qed.

(** ** Messages *)

Lemma world_get_set i j r' w : (i = rc_id (w_self w) → rc_id r' = i) →
  world_get j (world_set i r' w) = if (j =? i)%N then Some r' else world_get j w.
Proof.
  intros Hr. unfold world_get, world_set. destruct (N.eqb_spec i (rc_id (w_self w))) as [Ei|Hne].
  - cbn [w_self set_field w_others]. rewrite (Hr Ei). destruct (N.eqb_spec j i) as [->|Hj]; [done|].
    subst i. by destruct (N.eqb_spec j (rc_id (w_self w))).
  - cbn [w_self set_field w_others]. destruct (N.eqb_spec j i) as [->|Hj].
    + destruct (N.eqb_spec i (rc_id (w_self w))); [done|]. apply lookup_insert_eq.
    + by rewrite lookup_insert_ne.
Qed.

Lemma stir_set s i r r' w : world_get i w = Some r → rc_id r' = rc_id r → rc_signal r' = rc_signal r →
  stir1 (i ∈ s) r r' → stir s w (world_set i r' w).
Proof.
  intros Hg Hi Hs Hst. assert (Hself : i = rc_id (w_self w) → w_self w = r).
  { intros ->. unfold world_get in Hg. rewrite N.eqb_refl in Hg. by injection Hg as <-. }
  split.
  - unfold world_set. destruct (N.eqb_spec i (rc_id (w_self w))) as [E|]; [|done]. cbn [w_self set_field].
    by rewrite (Hself E).
  - unfold world_set. destruct (N.eqb_spec i (rc_id (w_self w))) as [E|]; [|done]. cbn [w_self set_field].
    by rewrite (Hself E), Hs.
  - intros j d'. rewrite world_get_set by (intros E; rewrite Hi, <- (Hself E); congruence).
    destruct (N.eqb_spec j i) as [->|_]; [intros [= <-]; eauto|].
    intros Hd. exists d'. split; [done|apply stir1_refl].
Qed.

Lemma send_completion_stir s i c w : stir s w (send_completion_to i c w).
Proof.
  unfold send_completion_to. destruct (world_get i w) as [r|] eqn:Hg; [|apply stir_refl].
  destruct (rc_alive r); [|apply stir_refl]. eapply stir_set; [exact Hg|done|done|]. split; auto.
  cbn [rc_event set_field]. lia.
Qed.

Lemma forward_stir target iovecs source track w ok w' : (∀ id r, calm r (track id r)) →
  forward target iovecs source track w = (ok, w') → stir (rc_signal (w_self w')) w w'.
Proof.
  intros Htr. unfold forward, next_packet_id. cbv zeta.
  set (w1 := on_self _ w). set (p := MkPacketRef _ _ _).
  assert (H1 : ∀ s, stir s w w1) by (intros s; by apply stir_calm). clearbody w1 p.
  unfold send_packet_to_no_signal. destruct (world_get target w1) as [d|] eqn:Hg; [|by intros [= <- <-]].
  destruct (rc_alive d); [|by intros [= <- <-]].
  set (d' := d <| rc_packets := rc_packets d ++ [p] |>).
  assert (H2 : stir {[ target ]} w1 (world_set target d' w1)).
  { eapply stir_set; [exact Hg|done|done|]. split; auto. intros _. right. set_solver. }
  set (w2 := world_set _ _ _) in *. clearbody w2. intros [= <- <-].
  set (f := λ r, track (rc_next_packet_id (w_self w)) (r <| rc_signal := {[ target ]} ∪ rc_signal r |>)).
  change (stir (rc_signal (f (w_self w2))) w (on_self f w2)).
  assert (Ef : calm ((w_self w2) <| rc_signal := {[ target ]} ∪ rc_signal (w_self w2) |>) (f (w_self w2))) by apply Htr.
  assert (Es : rc_signal (f (w_self w2)) = {[ target ]} ∪ rc_signal (w_self w2)) by (by rewrite (proj1 (proj2 Ef))).
  eapply stir_trans; [apply H1|]. eapply stir_trans; [eapply stir_mono, H2; rewrite Es; set_solver|].
  apply stir_on_self; [by rewrite (proj1 Ef)|rewrite Es; set_solver|].
  eapply stir1_trans; [|by apply calm_stir1]. split; auto.
Qed.

Lemma forward_vhost_stir target h len iovecs w ok w' : forward_vhost target h len iovecs w = (ok, w') →
  stir (rc_signal (w_self w')) w w'.
Proof. by apply forward_stir. Qed.
Lemma forward_tun_rx_stir target chain version data w ok w' : forward_tun_rx target chain version data w = (ok, w') →
  stir (rc_signal (w_self w')) w w'.
Proof. by apply forward_stir. Qed.

Lemma push_sqe_calm e r r' : push_sqe e r = Some r' → calm r r'.
Proof. intros H%push_sqe_pool. by apply calm_pool. Qed.

Lemma submit_vhost_tx_stir h len data w ok w' : submit_vhost_tx h len data w = (ok, w') →
  stir (rc_signal (w_self w')) w w'.
Proof.
  unfold submit_vhost_tx. cbv zeta. set (r1 := _ <| rc_vhost_tx_id := _ |>).
  assert (H1 : calm (w_self w) r1) by done. clearbody r1.
  destruct (push_sqe _ r1) as [r2|] eqn:E; intros [= <- <-].
  - apply push_sqe_calm in E. apply stir_replace.
    eapply calm_trans; [exact H1|]. by eapply calm_trans; [exact E|].
  - by apply stir_replace.
Qed.

(** * The TX queue *)

Lemma stir_final w1 w2 w3 : stir (rc_signal (w_self w2)) w1 w2 → stir (rc_signal (w_self w3)) w2 w3 →
  stir (rc_signal (w_self w3)) w1 w3.
Proof. intros H1 H2. eapply stir_trans; [|exact H2]. eapply stir_mono; [apply (sr_signal _ _ _ H2)|done]. Qed.

Lemma process_chain_stir c v w b v' w' : process_chain c v w = Some (b, v', w') →
  stir (rc_signal (w_self w')) w w' ∧ vq_avail (vh_tx v') = vq_avail (vh_tx v).
Proof.
  unfold process_chain. destruct (desc_chain_to_iovecs _ c) as [[iovecs len]|].
  2: { intros [= _ <- <-]. split; [apply stir_refl|apply vq_add_used_avail]. }
  cbv zeta. destruct (handle_vhost_ethernet_protocols _ _ _) as [[[]|] rx]; [| |done].
  { intros [= _ <- <-]. split; [apply stir_refl|apply vq_add_used_avail]. }
  set (route := match peek_and_route_ethernet _ _ with ToTun _ => _ | ToVhost _ => _ | DropPacket => _ end).
  assert (Hr : stir (rc_signal (w_self route.2)) w route.2).
  { destruct route as [ok w1] eqn:E. unfold route in E. cbn [snd].
    destruct (peek_and_route_ethernet _ _) as [?|target|].
    - destruct (prepare_tun_iovecs iovecs); [by eapply submit_vhost_tx_stir|injection E as <- <-; apply stir_refl].
    - by eapply forward_vhost_stir.
    - injection E as <- <-. apply stir_refl. }
  destruct route as [ok w1]. cbn [snd] in Hr.
  destruct ok; intros [= _ <- <-]; (split; [exact Hr|]); [done|apply vq_add_used_avail].
Qed.

Lemma tx_round_stir n returned v w b v' w' : tx_round n returned v w = Some (b, v', w') →
  stir (rc_signal (w_self w')) w w' ∧ vq_avail (vh_tx v') = [].
Proof.
  revert returned v w. induction n as [|n IH]; intros returned v w; cbn [tx_round]; [done|].
  destruct (vq_avail (vh_tx v)) as [|c cs] eqn:Ea.
  - rewrite (vq_pop_none _ Ea). intros [= _ <- <-]. split; [apply stir_refl|done].
  - destruct (vq_pop_some _ _ _ Ea) as (q & Eq & _). rewrite Eq.
    destruct (process_chain c _ w) as [[[b1 v1] w1]|] eqn:Ep; [|done].
    apply process_chain_stir in Ep as [H1 _]. intros [H2 H3]%IH. split; [by eapply stir_final|done].
Qed.

Lemma process_vhost_tx_stir arrivals v w v' w' : process_vhost_tx arrivals v w = Some (v', w') →
  stir (rc_signal (w_self w')) w w' ∧ vq_avail (vh_tx v') = [].
Proof.
  revert v w. induction arrivals as [|[c cs] arrivals IH]; intros v w; cbn [process_vhost_tx];
    (destruct (tx_round _ false v w) as [[[b v1] w1]|] eqn:E; [|done]); apply tx_round_stir in E as [H1 H2]; cbv zeta.
  - intros [= <- <-]. split; [done|]. by destruct b.
  - intros [H3 H4]%IH. split; [by eapply stir_final|done].
Qed.

(** * Messages from others *)

Lemma process_packets_stir fuel ps b v w b' v' w' : process_packets fuel ps b v w = Some (b', v', w') →
  (∀ s, stir s w w') ∧ vh_tx v' = vh_tx v.
Proof.
  revert b v w. induction ps as [|p ps IH]; intros b v w; cbn [process_packets].
  - intros [= _ <- <-]. split; [intros; apply stir_refl|done].
  - destruct (copy_to_vhost_rx _ _ _) as [[result| |] rx]; [|done..]. intros [H1 H2]%IH.
    split; [|done]. intros s. eapply stir_trans; [|apply H1]. apply send_completion_stir.
Qed.

Lemma drain_packets_stir s w : stir s w (on_self (λ r, r <| rc_packets := [] |>) w).
Proof. apply stir_on_self; [done|done|]. by split; auto. Qed.

(** What only completes packets leaves the drained channel empty. *)
Lemma stir_drained w w' : (∀ s, stir s (on_self (λ r, r <| rc_packets := [] |>) w) w') →
  (∀ s, stir s w w') ∧ rc_packets (w_self w') = [].
Proof.
  intros H. split; [intros s; eapply stir_trans; [apply drain_packets_stir|apply H]|].
  pose proof (st_packets _ _ _ (stir_self _ _ _ (H ∅))) as Hp. destruct (rc_packets (w_self w')); [done|].
  destruct Hp as [Hp|Hp]; [done|done|set_solver].
Qed.

Lemma process_incoming_stir fuel v w v' w' : process_incoming_packets fuel v w = Some (v', w') →
  ((∀ s, stir s w w') ∧ rc_packets (w_self w') = []) ∧ vh_tx v' = vh_tx v.
Proof.
  unfold process_incoming_packets. destruct (process_packets _ _ _ _ _) as [[[b v1] w1]|] eqn:E; [|done].
  apply process_packets_stir in E as [H1 H2]. intros [= <- <-]. split; [by apply stir_drained|]. by destruct b.
Qed.

Lemma packet_to_tun_stir s w p : stir s w (packet_to_tun w p).
Proof.
  unfold packet_to_tun, send_incoming_completion. destruct (l3_packet _) as [l3|]; [|apply send_completion_stir].
  cbv zeta. set (r1 := _ <| rc_incoming_tun_id := _ |>).
  assert (H1 : calm (w_self w) r1) by done. clearbody r1. destruct (push_sqe _ r1) as [r2|] eqn:E.
  - apply push_sqe_calm in E. apply stir_replace.
    eapply calm_trans; [exact H1|]. by eapply calm_trans; [exact E|].
  - eapply stir_trans; [|apply send_completion_stir]. by apply stir_replace.
Qed.

Lemma process_incoming_to_tun_stir w : (∀ s, stir s w (process_incoming_packets_to_tun w)) ∧
  rc_packets (w_self (process_incoming_packets_to_tun w)) = [].
Proof.
  apply stir_drained. intros s. unfold process_incoming_packets_to_tun. generalize (on_self (λ r, r <| rc_packets := [] |>) w).
  induction (rc_packets (w_self w)) as [|p ps IH]; intros w1; cbn [foldl]; [apply stir_refl|].
  eapply stir_trans; [apply packet_to_tun_stir|apply IH].
Qed.

(** * The event *)

Lemma process_vhost_stir fuel arrivals w w' : process_vhost fuel arrivals w = Some w' →
  stir (rc_signal (w_self w')) w w' ∧ rc_packets (w_self w') = [] ∧ tx_avail (w_self w') = [].
Proof.
  unfold process_vhost. destruct (rc_vhost (w_self w)) as [v|] eqn:Ev.
  - destruct (process_vhost_tx arrivals v w) as [[v1 w1]|] eqn:E1; cbn [mbind option_bind]; [|done].
    destruct (process_incoming_packets fuel v1 w1) as [[v2 w2]|] eqn:E2; cbn [mbind option_bind]; [|done].
    apply process_vhost_tx_stir in E1 as [H1 Ha]. apply process_incoming_stir in E2 as [[H2 Hp] Et]. intros [= <-].
    assert (Hv : tx_avail ((w_self w2) <| rc_vhost := Some v2 |>) = [])
      by (unfold tx_avail; cbn [rc_vhost set_field]; by rewrite Et).
    split_and!; [|done|done]. eapply stir_final; [exact H1|]. eapply stir_trans; [apply H2|].
    apply stir_on_self; [done|done|]. split; try done; auto.
  - intros [= <-]. destruct (process_incoming_to_tun_stir w) as [H1 Hp]. split_and!; [apply H1|done|].
    destruct (tx_avail (w_self (process_incoming_packets_to_tun w))) eqn:E; [done|exfalso].
    apply (st_avail _ _ _ (stir_self _ _ _ (H1 ∅))); [by rewrite E|]. unfold tx_avail. by rewrite Ev.
Qed.

Lemma vhost_complete_calm id h len result r : calm r (vhost_complete id h len result r).
Proof.
  unfold vhost_complete. destruct (rc_vhost r) as [v|] eqn:Ev; [|done]. destruct (rc_vhost_to_vhost r !! id); [|done].
  repeat (split; [done|]). unfold tx_avail. cbn [rc_vhost set_field vh_tx tx_used]. rewrite Ev. apply vq_add_used_avail.
Qed.

Lemma take_completion_calm r c : calm r (take_completion r c).
Proof.
  destruct c; cbn [take_completion]; [apply vhost_complete_calm| |apply vhost_complete_calm].
  unfold tun_rx_complete. destruct (rc_tun_rx r !! packet_id); [|done].
  eapply calm_trans; [|apply calm_pool, resubmit_rx_pool]. by eapply calm_trans; [|apply calm_pool, push_used_pool].
Qed.

Lemma process_completions_calm r : calm (r <| rc_completions := [] |>) (process_completions r).
Proof.
  unfold process_completions. generalize (r <| rc_completions := [] |>) as r0.
  induction (rc_completions r) as [|c cs IH]; intros r0; cbn [foldl]; [done|].
  eapply calm_trans; [apply take_completion_calm|apply IH].
Qed.

Context (fuel : nat) (pick : KeyPick).

Lemma process_commands_served r : rc_commands (process_commands pick r) = [] ∧ cmd_only r (process_commands pick r).
Proof.
  split; [|apply process_commands_only]. unfold process_commands.
  assert (H : rc_commands (r <| rc_commands := [] |>) = []) by done. revert H.
  generalize (r <| rc_commands := [] |>) as r0. induction (rc_commands r) as [|c cs IH]; intros r0 H; cbn [foldl]; [done|].
  apply IH. by destruct c.
Qed.

(** The others see only new messages; the reactor itself has done all there was. *)
Lemma process_event_served arrivals w w' : process_event fuel pick arrivals w = Some w' →
  rc_id (w_self w') = rc_id (w_self w) ∧ rc_signal (w_self w) ⊆ rc_signal (w_self w') ∧ served (w_self w') ∧
  ∀ j d', j ≠ rc_id (w_self w) → world_get j w' = Some d' →
    ∃ d, world_get j w = Some d ∧ stir1 (j ∈ rc_signal (w_self w')) d d'.
Proof.
  unfold process_event. set (f := λ r, check_handshake (process_commands pick r)).
  destruct (process_commands_served (w_self w)) as [Hc Hco].
  assert (Hf : rc_commands (f (w_self w)) = [] ∧ rc_id (f (w_self w)) = rc_id (w_self w) ∧
    rc_signal (f (w_self w)) = rc_signal (w_self w)).
  { unfold f, check_handshake. destruct (rc_handshakes _); [|cbn [rc_commands rc_id rc_signal set_field]]; by rewrite Hc, Hco. }
  destruct Hf as (Hc1 & Hi1 & Hs1).
  destruct (process_vhost fuel arrivals (on_self f w)) as [w2|] eqn:E2; cbn [mbind option_bind]; [|done].
  apply process_vhost_stir in E2 as (H2 & Hp2 & Ha2). intros [= <-].
  destruct (process_completions_calm (w_self w2)) as (I3 & S3 & _ & P3 & C3 & M3 & A3).
  pose proof (sr_id _ _ _ H2) as I2. pose proof (sr_signal _ _ _ H2) as S2.
  pose proof (st_commands _ _ _ (stir_self _ _ _ H2)) as M2.
  change (w_self (on_self f w)) with (f (w_self w)) in *. cbn [on_self w_self set_field].
  rewrite I3, S3. cbn [rc_id rc_signal set_field]. rewrite Hi1 in I2. rewrite Hs1 in S2. split_and!; [done|done| |].
  - split_and!; [by rewrite P3|by rewrite C3| |by rewrite A3].
    rewrite M3. cbn [rc_commands set_field]. destruct (rc_commands (w_self w2)); [done|]. exfalso. by apply M2.
  - intros j d' Hj Hd. assert (Hd2 : world_get j w2 = Some d').
    { unfold world_get in *. cbn [on_self w_self w_others set_field] in Hd. rewrite I3 in Hd. cbn [rc_id set_field] in Hd.
      rewrite I2 in *. by destruct (N.eqb_spec j (rc_id (w_self w))). }
    apply (sr_get _ _ _ H2) in Hd2 as (d & Hd2 & Hst). exists d. split; [|done]. unfold world_get in *.
    cbn [on_self w_self w_others set_field] in Hd2.
    rewrite Hi1 in Hd2. by destruct (N.eqb_spec j (rc_id (w_self w))).
Qed.

Lemma rearm_event_calm r : calm r (rearm_event r).
Proof.
  unfold rearm_event. destruct (rc_shutdown r); [done|]. destruct (push_sqe event_sqe r) eqn:E; [|done].
  by apply push_sqe_calm in E.
Qed.

Lemma served_calm r r' : calm r r' → served r → served r'.
Proof. intros (_ & _ & _ & E1 & E2 & E3 & E4) (H1 & H2 & H3 & H4). split_and!; congruence. Qed.

(** What a turn of a reactor does to itself and to the others. *)
Record turned w w' : Prop := {
  tn_id : rc_id (w_self w') = rc_id (w_self w);
  tn_signal : rc_signal (w_self w) ⊆ rc_signal (w_self w');
  tn_others j d' : j ≠ rc_id (w_self w) → world_get j w' = Some d' →
    ∃ d, world_get j w = Some d ∧ stir1 (j ∈ rc_signal (w_self w')) d d' }.

Lemma stir_turned w w' : stir (rc_signal (w_self w')) w w' → turned w w'.
Proof. intros [A1 A2 A3]. split; auto. Qed.
Lemma turned_calm w w' f : calm (w_self w') (f (w_self w')) → turned w w' → turned w (on_self f w').
Proof.
  intros (I & S & _) [A1 A2 A3]. split; cbn [on_self w_self set_field]; [congruence|by rewrite S|].
  intros j d' Hj Hd. rewrite S. apply A3; [done|]. revert Hd. unfold world_get.
  cbn [on_self w_self w_others set_field]. rewrite I, A1. by destruct (N.eqb_spec j (rc_id (w_self w))).
Qed.

Lemma handle_event_turned arrivals result w w' : handle_event fuel pick arrivals result w = Runs w' →
  turned w w' ∧ (if (0 <? result)%Z then served (w_self w') else stir1 False (w_self w) (w_self w')).
Proof.
  unfold handle_event. destruct (0 <? result)%Z.
  - destruct (process_event _ _ _ _) as [w1|] eqn:E; [|done]. intros [= <-].
    apply process_event_served in E as (I & S & V & O). pose proof (rearm_event_calm (w_self w1)) as Hc.
    split; [by apply turned_calm|]. by eapply served_calm.
  - intros [= <-]. pose proof (rearm_event_calm (w_self w)) as Hc.
    split; [by apply stir_turned, stir_calm|by apply calm_stir1].
Qed.

(** ** The other completions *)

Lemma handle_vhost_tx_calm u r : calm r (handle_vhost_tx u r).
Proof.
  unfold handle_vhost_tx. destruct (rc_vhost_tx_in_flight r !! u) as [[h len]|]; [|done].
  cbv zeta. change (rc_vhost (r <| rc_vhost_tx_in_flight := _ |>)) with (rc_vhost r).
  destruct (rc_vhost r) as [v|] eqn:Ev; [|done]. repeat (split; [done|]).
  unfold tx_avail. cbn [rc_vhost set_field vh_tx tx_used]. rewrite Ev. apply vq_add_used_avail.
Qed.

Lemma handle_tun_poll_calm c result r : calm r (handle_tun_poll c result r).
Proof.
  unfold handle_tun_poll. destruct (decide _); [|done]. cbv zeta. set (r1 := r <| rc_rx_poll_pending := _ |>).
  assert (H1 : calm r r1) by done. clearbody r1.
  destruct (0 <=? result)%Z; [destruct (submit_read c r1) as [r2|] eqn:E|]; cbn [default];
    (eapply calm_trans; [exact H1|]); apply calm_pool; [by eapply submit_read_pool|apply push_used_pool..].
Qed.

Lemma handle_rx_error_calm c result r : calm r (handle_rx_error c result r).
Proof.
  unfold handle_rx_error. destruct (_ =? _)%Z; [|apply calm_pool, push_used_pool].
  destruct (push_sqe _ r) as [r1|] eqn:E; [|apply calm_pool, push_used_pool].
  apply push_sqe_calm in E. by eapply calm_trans.
Qed.

Lemma handle_incoming_tun_stir s u result w : stir s w (handle_incoming_tun u result w).
Proof.
  unfold handle_incoming_tun. destruct (_ !! u) as [[id source]|]; [|apply stir_refl].
  eapply stir_trans; [|apply send_completion_stir]. by apply stir_calm.
Qed.

Lemma route_tun_rx_stir c data w ok w' : route_tun_rx c data w = (ok, w') → stir (rc_signal (w_self w')) w w'.
Proof.
  unfold route_tun_rx. destruct (_ <=? _); [intros [= <- <-]; apply stir_refl|]. cbv zeta.
  destruct (if (_ =? 4)%N then _ else _) as [?|target|]; [intros [= <- <-]; apply stir_refl| |intros [= <- <-]; apply stir_refl].
  apply forward_tun_rx_stir.
Qed.

Lemma handle_rx_stir c result data w w' : handle_rx c result data w = Runs w' → stir (rc_signal (w_self w')) w w'.
Proof.
  unfold handle_rx. destruct (decide _); [|intros [= <-]; apply stir_refl]. cbv zeta.
  set (w1 := on_self _ w). assert (H1 : ∀ s, stir s w w1) by (intros s; by apply stir_calm). clearbody w1.
  destruct (result <? 0)%Z.
  { intros [= <-]. eapply stir_trans; [apply H1|]. apply stir_calm, handle_rx_error_calm. }
  destruct (result =? 0)%Z; [done|]. destruct (route_tun_rx c data w1) as [ok w2] eqn:E. apply route_tun_rx_stir in E.
  assert (H2 : stir (rc_signal (w_self w2)) w w2) by (eapply stir_trans; [apply H1|done]).
  destruct ok; intros [= <-]; [done|]. eapply stir_final; [exact H2|]. apply stir_calm. cbv zeta.
  destruct (rc_shutdown _); [apply calm_pool, push_used_pool|].
  eapply calm_trans; [apply calm_pool, push_used_pool|apply calm_pool, resubmit_rx_pool].
Qed.

Lemma handle_cqe_turned arrivals c w w' : handle_cqe fuel pick arrivals c w = Runs w' →
  turned w w' ∧ (stir1 (rc_id (w_self w) ∈ rc_signal (w_self w')) (w_self w) (w_self w') ∨ served (w_self w')).
Proof.
  assert (Hst : stir (rc_signal (w_self w')) w w' → turned w w' ∧
    (stir1 (rc_id (w_self w) ∈ rc_signal (w_self w')) (w_self w) (w_self w') ∨ served (w_self w'))).
  { intros H. split; [by apply stir_turned|left; by apply stir_self]. }
  unfold handle_cqe. cbv zeta. destruct (has_flag _ USER_DATA_EVENT_FLAG).
  { intros H. apply handle_event_turned in H as [Ht Hs]. split; [done|].
    destruct (0 <? _)%Z; [by right|left]. by eapply stir1_mono, Hs. }
  destruct (has_flag _ USER_DATA_VHOST_TX_FLAG); [intros [= <-]; apply Hst, stir_calm, handle_vhost_tx_calm|].
  destruct (has_flag _ USER_DATA_INCOMING_TUN_FLAG); [intros [= <-]; apply Hst, handle_incoming_tun_stir|].
  destruct (has_flag _ USER_DATA_TUN_POLL_FLAG); [intros [= <-]; apply Hst, stir_calm, handle_tun_poll_calm|].
  destruct (has_flag _ USER_DATA_RX_FLAG); [intros H; by apply Hst, (handle_rx_stir (chain_of (cq_user_data c)) (cq_result c) (cq_data c))|].
  intros [= <-]. apply Hst, stir_refl.
Qed.

(** * Steps *)

Definition called net (j : ReactorId) : Prop := ∃ i r, net !! i = Some r ∧ j ∈ rc_signal r.
Definition net_awake net : Prop := map_Forall (λ j d, awake (called net j) d) net.

Lemma join_get w j : join w !! j = world_get j w.
Proof.
  unfold join, world_get. destruct (N.eqb_spec j (rc_id (w_self w))) as [->|Hj]; [apply lookup_insert_eq|].
  by rewrite lookup_insert_ne.
Qed.
Lemma awake_signalled c r : rc_event r ≠ 0 → awake c r.
Proof. intros H. split; auto. Qed.
Lemma awake_mono (c c' : Prop) r : (c → c') → awake c r → awake c' r.
Proof. intros Hc H. eapply awake_stir1; [exact Hc|exact H|apply stir1_refl]. Qed.

Lemma called_join net i r r1 w' j : net !! i = Some r → rc_id r = i → rc_id r1 = i → rc_signal r1 = rc_signal r →
  moves (MkWorld r1 (delete i net)) w' → turned (MkWorld r1 (delete i net)) w' →
  called net j ∨ j ∈ rc_signal (w_self w') → called (join w') j.
Proof.
  intros Hi Er Er1 Es Hm Ht H. pose proof (mv_id _ _ Hm) as I. cbn [w_self] in I.
  assert (Hself : j ∈ rc_signal (w_self w') → called (join w') j).
  { intros Hj. exists i, (w_self w'). split; [|done]. unfold join. rewrite I, Er1. apply lookup_insert_eq. }
  destruct H as [(k & d & Hk & Hd)|H]; [|auto]. destruct (decide (k = i)) as [->|Hne].
  - rewrite Hi in Hk. injection Hk as <-. apply Hself. apply (tn_signal _ _ Ht). cbn [w_self]. by rewrite Es.
  - pose proof (mv_others _ _ Hm k) as Ho. cbn [w_others] in Ho. rewrite lookup_delete_ne, Hk in Ho by done.
    inversion Ho as [? d' Hmsg E1 E2|]. subst. exists k, d'. split; [|by rewrite Hmsg].
    unfold join. rewrite lookup_insert_ne; [done|congruence].
Qed.

Lemma turn_awake net i r r1 w' : net_ok net → net_awake net → net !! i = Some r → rc_id r1 = rc_id r →
  rc_signal r1 = rc_signal r → moves (MkWorld r1 (delete i net)) w' → turned (MkWorld r1 (delete i net)) w' →
  awake (called (join w') i) (w_self w') → net_awake (join w').
Proof.
  intros Hok Haw Hi Eid Es Hm Ht Hself j d' Hd. pose proof (no_ids _ Hok _ _ Hi) as Er. cbn in Er.
  rewrite Er in Eid. pose proof (called_join _ _ _ _ _ j Hi Er Eid Es Hm Ht) as Hc.
  rewrite join_get in Hd. destruct (decide (j = i)) as [->|Hne].
  - unfold world_get in Hd. rewrite (tn_id _ _ Ht) in Hd. cbn [w_self] in Hd. rewrite Eid, N.eqb_refl in Hd.
    by injection Hd as <-.
  - destruct (tn_others _ _ Ht j d') as (d & Hg & Hst); [cbn [w_self]; congruence|done|].
    unfold world_get in Hg. cbn [w_self w_others] in Hg. rewrite Eid in Hg.
    destruct (N.eqb_spec j i); [done|]. rewrite lookup_delete_ne in Hg by done.
    eapply awake_stir1; [|exact (Haw _ _ Hg)|eapply stir1_mono, Hst]; auto.
Qed.

(** The end of a batch wakes every reactor on the list. *)
Lemma signal_all_get l w : let w' := foldr signal_reactor w l in
  rc_id (w_self w') = rc_id (w_self w) ∧
  ∀ j d', world_get j w' = Some d' → ∃ d, world_get j w = Some d ∧ d' = d <| rc_event := rc_event d' |> ∧
    rc_event d ≤ rc_event d' ∧ (j ∈ l → rc_event d' ≠ 0).
Proof.
  induction l as [|i l IH]; cbv zeta; cbn [foldr].
  - split; [done|]. intros j d' Hd. exists d'. split_and!; [done|by destruct d'|done|set_solver].
  - destruct IH as [I IH]. set (w1 := foldr signal_reactor w l) in *. clearbody w1. unfold signal_reactor.
    destruct (world_get i w1) as [r|] eqn:Hg.
    2: { split; [done|]. intros j d' Hd. destruct (IH j d' Hd) as (d & H1 & H2 & H3 & H4). exists d.
         split_and!; [done|done|done|]. intros [->|?]%elem_of_cons; [congruence|auto]. }
    assert (Hr : i = rc_id (w_self w1) → rc_id r = i).
    { intros Ei. unfold world_get in Hg. rewrite Ei, N.eqb_refl in Hg. injection Hg as <-. done. }
    split.
    + unfold world_set. destruct (N.eqb_spec i (rc_id (w_self w1))) as [Ei|]; [|done].
      cbn [w_self set_field rc_id]. rewrite (Hr Ei). congruence.
    + intros j d'. rewrite world_get_set by exact Hr. destruct (N.eqb_spec j i) as [->|Hj].
      * intros [= <-]. destruct (IH i r Hg) as (d & H1 & H2 & H3 & H4). exists d.
        split_and!; [done|rewrite H2; by destruct d|cbn [rc_event set_field]; lia|done].
      * intros Hd. destruct (IH j d' Hd) as (d & H1 & H2 & H3 & H4). exists d.
        split_and!; [done|done|done|]. intros [->|?]%elem_of_cons; [done|auto].
Qed.

Lemma batch_awake net i r w : net_ok net → net_awake net → net !! i = Some r →
  moves (MkWorld r (delete i net)) w → end_batch (MkWorld r (delete i net)) = Runs w → net_awake (join w).
Proof.
  intros Hok Haw Hi Hm. pose proof (no_ids _ Hok _ _ Hi) as Er. cbn in Er. unfold end_batch. cbv zeta.
  set (w0 := MkWorld r (delete i net)) in *. set (l := elements (rc_signal (w_self w0))).
  destruct (signal_all_get l w0) as [I Hget]. set (w1 := foldr signal_reactor w0 l) in *. clearbody w1.
  destruct (rc_shutdown _); [done|]. intros [= <-].
  set (f := λ r, (r <| rc_signal := ∅ |>) <| rc_ring := rg_submit (rc_ring r) |>).
  change (moves w0 (on_self f w1)) in Hm. change (net_awake (join (on_self f w1))).
  assert (Hc : ∀ j, called net j → called (join (on_self f w1)) j ∨ j ∈ l).
  { intros j (k & d & Hk & Hj). destruct (decide (k = i)) as [->|Hne].
    - right. unfold l. apply elem_of_elements. rewrite Hi in Hk. by injection Hk as <-.
    - left. pose proof (mv_others _ _ Hm k) as Ho. cbn [w0 w_others] in Ho. rewrite lookup_delete_ne, Hk in Ho by done.
      inversion Ho as [? d' Hmsg E1 E2|]. subst. exists k, d'. split; [|by rewrite Hmsg].
      unfold join. rewrite lookup_insert_ne; [done|]. rewrite (mv_id _ _ Hm). by cbn [w0 w_self]. }
  intros j d' Hd. rewrite join_get in Hd.
  assert (Hd1 : ∃ d1, world_get j w1 = Some d1 ∧ (d' = d1 ∨ d' = f d1)).
  { unfold world_get in *. change (rc_id (w_self (on_self f w1))) with (rc_id (w_self w1)) in Hd.
    destruct (_ =? _)%N; [|by eauto]. injection Hd as <-. eauto. }
  destruct Hd1 as (d1 & Hd1 & Ed). destruct (Hget j d1 Hd1) as (d & Hg & E1 & Hle & Hsig).
  assert (Hn : net !! j = Some d).
  { revert Hg. unfold world_get, w0. cbn [w_self w_others]. rewrite Er.
    destruct (N.eqb_spec j i) as [->|Hj]; [congruence|by rewrite lookup_delete_ne]. }
  assert (Hst : stir1 False d d') by (destruct Ed as [->| ->]; rewrite E1; split; auto).
  destruct (decide (rc_event d' = 0)) as [E0|E0]; [|by apply awake_signalled].
  eapply awake_stir1; [|exact (Haw _ _ Hn)|eapply stir1_mono, Hst; done].
  intros H%Hc. destruct H as [H|H]; [done|]. exfalso. apply (Hsig H). by destruct Ed as [->| ->].
Qed.

Lemma outside_awake net i r1 : net_awake net → (∀ r, net !! i = Some r → rc_signal r1 = rc_signal r) →
  (awake (called net i) r1) → net_awake (<[i := r1]> net).
Proof.
  intros Haw Hs H1. assert (Hc : ∀ j, called net j → called (<[i := r1]> net) j).
  { intros j (k & d & Hk & Hj). destruct (decide (k = i)) as [->|Hne].
    - exists i, r1. rewrite lookup_insert_eq, (Hs _ Hk). done.
    - exists k, d. by rewrite lookup_insert_ne. }
  intros j d Hd. destruct (decide (j = i)) as [->|Hne].
  - rewrite lookup_insert_eq in Hd. injection Hd as <-. by eapply awake_mono; [apply Hc|].
  - rewrite lookup_insert_ne in Hd by done. eapply awake_mono; [apply Hc|by apply Haw].
Qed.

Lemma reactor_start_served i mac config n size g r : reactor_start i mac config n size g = Some r → served r.
Proof.
  unfold reactor_start. set (r0 := MkReactor i true mac config _ _ _ _ _ _ _ _ _ _ _ _ _ _ _ _ _ _ _ _).
  assert (H0 : served r0) by done. clearbody r0.
  destruct (push_sqe event_sqe r0) as [r1|] eqn:E; cbn [mbind option_bind]; [|done]. intros [= <-].
  apply push_sqe_calm in E. assert (Hs : ∀ k r, calm r (submit_initial k r)).
  { clear. induction k as [|k IH]; intros r; cbn [submit_initial]; [done|]. unfold pop_available.
    destruct (rc_available r) as [|c cs]; [done|]. set (r1 := r <| rc_available := cs |>).
    assert (H1 : calm r r1) by done. clearbody r1. eapply calm_trans; [exact H1|].
    destruct (submit_read c r1) as [r2|] eqn:E; [|apply calm_pool, push_used_pool].
    eapply calm_trans; [|apply IH]. apply calm_pool. by eapply submit_read_pool. }
  eapply served_calm; [|exact H0]. eapply calm_trans; [exact E|]. eapply calm_trans; [apply Hs|]. done.
Qed.

(** A signal that is read is handled. *)
Lemma event_read_served arrivals e result data w w' : sqe_ok e →
  handle_cqe fuel pick arrivals (MkCqe (sq_user_data e) result data) w = Runs w' →
  served (w_self w') ∨ ∀ r, event_left e result r = rc_event r.
Proof.
  unfold sqe_ok, event_left. destruct (sq_op e); [|by right..]. intros He Hh.
  destruct (0 <? result)%Z eqn:Hr; [|by right]. left. unfold handle_cqe in Hh. cbn [cq_user_data cq_result] in Hh.
  rewrite He in Hh. change (has_flag USER_DATA_EVENT_FLAG USER_DATA_EVENT_FLAG) with true in Hh.
  apply handle_event_turned in Hh as [_ Hs]. by rewrite Hr in Hs.
Qed.

Lemma cqe_awake c r g k : k = rc_event r → awake c r → awake c (r <| rc_ring := g |> <| rc_event := k |>).
Proof. intros -> []. by split. Qed.

Lemma net_step_awake net l net' : net_ok net → net_awake net → net_step fuel pick net l net' → net_awake net'.
Proof.
  intros Hok Haw Hs.
  destruct Hs as [i r e g result data arrivals w Hi Ha Hp He Hy Hh|i r w Hi Ha Hy Hh|i r Hi|i r v c Hi Hv|i r c Hi|i r v Hi|
    i mac config n size g r Hi Hg Hn Hr].
  - destruct (cqe_turn _ _ _ _ _ _ _ _ _ _ _ Hok Hi Hp Hy Hh) as ((_ & Hm & _) & Hk).
    set (r1 := r <| rc_ring := g |> <| rc_event := _ |>) in *.
    destruct (handle_cqe_turned _ _ _ _ Hh) as [Ht Hv]. pose proof (no_ids _ Hok _ _ Hi) as Er. cbn in Er.
    eapply (turn_awake _ _ r r1); [done|done|done|done|done|done|done|]. cbn [w_self] in Hv.
    change (rc_id r1) with (rc_id r) in Hv. rewrite Er in Hv.
    pose proof (called_join _ _ _ r1 _ i Hi Er Er eq_refl Hm Ht) as Hc.
    destruct Hv as [Hv|Hv]; [|by apply served_awake].
    destruct (event_read_served _ _ _ _ _ _ Hk Hh) as [Hev|Hev]; [by apply served_awake|].
    eapply awake_stir1; [|exact (cqe_awake _ _ g _ (Hev r) (Haw _ _ Hi))|eapply stir1_mono, Hv]; auto.
  - assert (Hw : wok [] ∅ ∅ 0 (MkWorld r (delete i net)))
      by (eapply enter; [exact Hok|exact Hi|done..|exact (no_local _ Hok _ _ Hi)|done]).
    eapply batch_awake; [done|done|done|apply (end_batch_ok _ _ _ Hw Hh)|done].
  - apply outside_awake; [done|intros d Hd; assert (d = r) as -> by congruence; done|]. by destruct (Haw _ _ Hi).
  - apply outside_awake; [done|intros d Hd; assert (d = r) as -> by congruence; done|]. by apply awake_signalled.
  - apply outside_awake; [done|intros d Hd; assert (d = r) as -> by congruence; done|]. by apply awake_signalled.
  - apply outside_awake; [done|intros d Hd; assert (d = r) as -> by congruence; done|]. by apply awake_signalled.
  - apply outside_awake; [done|congruence|]. by eapply served_awake, reactor_start_served.
Qed.


(** A reactor that has handled a signal of its eventfd has taken every packet,
    completion and command, and every chain that its guest made available, also those
    of a queue that it has just been given. *)
Theorem event_serves_all arrivals result w w' : (0 < result)%Z →
  handle_event fuel pick arrivals result w = Runs w' → served (w_self w').
Proof. intros Hr%Z.ltb_lt H. apply handle_event_turned in H as [_ Hs]. by rewrite Hr in Hs. Qed.

End wake.
