(* ===== verification/NetReactorExamples.v ===== *)
(** A run of three reactors: two guests and the TUN device. A frame of one guest and a
    packet from the device reach the other guest, and all that was lent comes back; the
    theorems on the reactors at the states of this run. *)

From stdpp Require Import gmultiset.
From S2P Require Import Prelude Rpc Externals Packet NetAddr NetRoute NetSvc NetExamples NetIovec NetRx NetRxExamples NetWire NetProto NetProtoExamples NetReactor NetReactorInv NetReactorFacts NetReactorWake.
Import Models NetModels RouteModels RxModels WireModels.

(** * A ring with a bounded submission queue *)

Record ListRing := MkListRing { lr_ops : list Sqe; lr_queued : nat; lr_size : nat }.

#[export, refine] Instance rings_model : Rings := {
  ring := ListRing;
  rg_ops := lr_ops;
  rg_push e g :=
    if lr_queued g <? lr_size g then Some (MkListRing (lr_ops g ++ [e]) (S (lr_queued g)) (lr_size g)) else None;
  rg_submit g := MkListRing (lr_ops g) 0 (lr_size g) }.
Proof.
  - intros e g g'. destruct (_ <? _); [|done]. by intros [= <-].
  - done.
Defined.

(** * Runs

    One step as a function of a choice. *)

Inductive Act :=
  | ACqe (i : N) (k : nat) (result : Z) (data : list u8)
  | ABatch (i : N)
  | AOffer (i : N) (c : Chain)
  | ACommand (i : N) (c : ReactorCommand)
  | AHandshake (i : N) (v : Vhost)
  | AStart (i : N) (mac : option (list u8)) (rx_count size : nat).

Definition youngb (n : nat) (r : Reactor) : bool :=
  (rc_next_packet_id r + N.of_nat n <=? 2 ^ 59)%N && (rc_vhost_tx_id r + N.of_nat n <=? 2 ^ 59)%N &&
  (rc_incoming_tun_id r + N.of_nat n <=? 2 ^ 59)%N.
Definition is_event (e : Sqe) : bool := match sq_op e with OpReadEvent => true | _ => false end.

Definition rx_fuel : nat := 200.

Definition act_cqe (r : Reactor) (k : nat) (result : Z) (data : list u8) (others : gmap N Reactor)
    : option (NetLabel * gmap N Reactor) :=
  e ← lr_ops (rc_ring r) !! k;
  let g := MkListRing (delete k (lr_ops (rc_ring r))) (lr_queued (rc_ring r)) (lr_size (rc_ring r)) in
  if rc_alive r && (negb (is_event e) || negb (rc_event r =? 0)) && youngb (S (event_work [] r)) r then
    match handle_cqe rx_fuel nw_pick [] (MkCqe (sq_user_data e) result data)
      (MkWorld (r <| rc_ring := g |> <| rc_event := event_left e result r |>) others) with
    | Runs w =>
        Some (match sq_op e with
              | OpReadEvent => if (0 <? result)%Z && is_some (rc_vhost r) then LOffer (rc_id r) (arrived []) else LOther
              | _ => LOther
              end, join w)
    | _ => None
    end
  else None.

Definition act (a : Act) (net : gmap N Reactor) : option (NetLabel * gmap N Reactor) :=
  match a with
  | ACqe i k result data =>
      r ← net !! i; if (rc_id r =? i)%N then act_cqe r k result data (delete i net) else None
  | ABatch i =>
      r ← net !! i;
      if rc_alive r && youngb 0 r then
        match end_batch (MkWorld r (delete i net)) with Runs w => Some (LOther, join w) | _ => None end
      else None
  | AOffer i c =>
      r ← net !! i; v ← rc_vhost r;
      Some (LOffer i [c],
        <[i := r <| rc_vhost := Some (v <| vh_tx := vq_offer c (vh_tx v) |>) |> <| rc_event := S (rc_event r) |>]> net)
  | ACommand i c =>
      r ← net !! i;
      Some (LOther, <[i := r <| rc_commands := rc_commands r ++ [c] |> <| rc_event := S (rc_event r) |>]> net)
  | AHandshake i v =>
      r ← net !! i;
      Some (LHandshake i, <[i := r <| rc_handshakes := rc_handshakes r ++ [v] |> <| rc_event := S (rc_event r) |>]> net)
  | AStart i mac n size =>
      match net !! i with
      | Some _ => None
      | None =>
          if (N.of_nat n <=? 2 ^ 59)%N then
            r ← reactor_start i mac None n size (MkListRing [] 0 size); Some (LOther, <[i := r]> net)
          else None
      end
  end.

Fixpoint acts (l : list Act) (ls : list NetLabel) (net : gmap N Reactor) : option (list NetLabel * gmap N Reactor) :=
  match l with
  | [] => Some (ls, net)
  | a :: l => '(lb, net) ← act a net; acts l (ls ++ [lb]) net
  end.

Lemma youngb_ok n r : youngb n r = true → young n r.
Proof.
  unfold youngb, young. intros H. apply andb_true_iff in H as [H H3]. apply andb_true_iff in H as [H1 H2].
  by rewrite N.leb_le in H1, H2, H3.
Qed.

Lemma act_cqe_step net i r k result data l net' : net !! i = Some r → rc_id r = i →
  act_cqe r k result data (delete i net) = Some (l, net') → net_step rx_fuel nw_pick net l net'.
Proof.
  unfold act_cqe. intros Hi Hid. destruct (lr_ops (rc_ring r) !! k) as [e|] eqn:He; cbn [mbind option_bind]; [|done].
  cbv zeta. destruct (_ && _) eqn:Hg; [|done]. apply andb_true_iff in Hg as [Hg Hy%youngb_ok].
  apply andb_true_iff in Hg as [Ha Hev]. destruct (handle_cqe _ _ _ _ _) as [w| |] eqn:Hh; [|done..].
  intros [= <- <-]. rewrite Hid. eapply net_cqe; [exact Hi|exact Ha| | |exact Hy|exact Hh].
  - cbn [rg_ops rings_model lr_ops]. by apply delete_Permutation.
  - intros Ho _ E. unfold is_event in Hev. by rewrite Ho, E in Hev.
Qed.

Lemma act_step a net l net' : act a net = Some (l, net') → net_step rx_fuel nw_pick net l net'.
Proof.
  destruct a as [i k result data|i|i c|i c|i v|i mac n size]; cbn [act];
    (destruct (net !! i) as [r|] eqn:Hi; cbn [mbind option_bind]; [|try done]).
  - destruct (N.eqb_spec (rc_id r) i) as [Hid|]; [|done]. by apply act_cqe_step.
  - destruct (_ && _) eqn:Hg; [|done]. apply andb_true_iff in Hg as [Ha Hy%youngb_ok].
    destruct (end_batch _) as [w| |] eqn:Hh; [|done..]. intros [= <- <-]. by eapply net_batch.
  - destruct (rc_vhost r) as [v|] eqn:Hv; cbn [mbind option_bind]; [|done]. intros [= <- <-]. exact (net_offer _ _ net i r v c Hi Hv).
  - intros [= <- <-]. exact (net_command _ _ net i r c Hi).
  - intros [= <- <-]. exact (net_handshake _ _ net i r v Hi).
  - done.
  - destruct (N.leb_spec (N.of_nat n) (2 ^ 59)) as [Hn|]; [|done].
    destruct (reactor_start _ _ _ _ _ _) as [r|] eqn:Hr; cbn [mbind option_bind]; [|done]. intros [= <- <-].
    by eapply (net_start _ _ net i mac None n size (MkListRing [] 0 size)).
Qed.

Lemma acts_run l ls0 net0 net ls net' : net_run rx_fuel nw_pick net0 ls0 net → acts l ls0 net = Some (ls, net') →
  net_run rx_fuel nw_pick net0 ls net'.
Proof.
  revert ls0 net. induction l as [|a l IH]; intros ls0 net Hr; cbn [acts]; [by intros [= <- <-]|].
  destruct (act a net) as [[lb net1]|] eqn:E; cbn [mbind option_bind]; [|done].
  apply IH. eapply net_run_snoc; [exact Hr|]. by eapply act_step.
Qed.

(** * Two guests and the device *)

Definition ex_frame : list u8 :=
  px_hdr ++ emit_eth GATEWAY_MAC px_mac EtIpv4 ++ emit_ip4 167772161 px_ip PrUdp 4 64 ++ [1; 2; 3; 4]%N.
Definition ex_memory : gmem := write_at ex_frame 300%N rx_memory.
Definition ex_vhost (tx : list Chain) : Vhost :=
  MkVhost (MkVhostRx ex_memory (MkListQueue [rx_chain 8 [MkDesc 0 120 true]; rx_chain 9 [MkDesc 120 120 true]] []) 0)
    (MkListQueue tx []) 0.
Definition ex_tx (h : u16) : Chain := rx_chain h [MkDesc 300 50 false].
Definition ex_route : ReactorCommand := CmdAddRoute 7 (PrefixV4 (nets4 := nets4_model) (px_ip, 32)%N) (RtReactor 2).

Definition ex_boot : list Act :=
  [ AStart 1 (Some px_mac) 4 2; AStart 2 (Some px_mac) 4 2; AStart 3 None 4 2;
    AHandshake 1 (ex_vhost []); AHandshake 2 (ex_vhost []);
    ACommand 1 (CmdCreateTable 7 "blue"); ACommand 1 ex_route; ACommand 3 (CmdCreateTable 7 "blue"); ACommand 3 ex_route;
    ACqe 1 0 8 []; ABatch 1; ACqe 2 0 8 []; ABatch 2; ACqe 3 0 8 []; ABatch 3 ].
Definition ex_send : list Act :=
  [ AOffer 1 (ex_tx 5); AOffer 1 (ex_tx 6); ACqe 1 1 8 []; ACqe 3 0 36 (px_hdr ++ drop 26 ex_frame); ABatch 3; ABatch 1 ].
Definition ex_receive : list Act := [ ACqe 2 1 8 []; ABatch 2; ACqe 1 1 8 []; ABatch 1; ACqe 3 0 8 []; ABatch 3 ].

Definition ex_result (l : list Act) (net : gmap N Reactor) : list NetLabel * gmap N Reactor := default ([], ∅) (acts l [] net).
Definition ex_booted : gmap N Reactor := (ex_result ex_boot ∅).2.
Definition ex_sent : gmap N Reactor := (ex_result ex_send ex_booted).2.
Definition ex_done : gmap N Reactor := (ex_result ex_receive ex_sent).2.
Definition ex_labels : list NetLabel := (ex_result (ex_send ++ ex_receive) ex_booted).1.

Lemma ex_acts l net : is_some (acts l [] net) = true → net_run rx_fuel nw_pick net (ex_result l net).1 (ex_result l net).2.
Proof.
  intros H. apply (acts_run l [] net net); [constructor|]. unfold ex_result.
  destruct (acts l [] net) as [[ls net']|]; [done|discriminate].
Qed.

Definition ex_reach : list Act → gmap N Reactor := λ l, (ex_result l ∅).2.
Lemma ex_net_reachable l : is_some (acts l [] ∅) = true → net_reachable rx_fuel nw_pick (ex_reach l).
Proof. intros H. exists (ex_result l ∅).1. by apply ex_acts. Qed.

Definition ex_none : Reactor :=
  MkReactor 0 false None None [] [] [] [] 0 rt_new 0 None [] ∅ ∅ ∅ 0 ∅ ∅ 0 ∅ (MkListRing [] 0 0) ∅ false.
Definition ex_at (i : N) (net : gmap N Reactor) : Reactor := default ex_none (net !! i).
Lemma ex_lookup net i : is_some (net !! i) = true → net !! i = Some (ex_at i net).
Proof. unfold ex_at. by destruct (net !! i). Qed.

Definition ex_returned (i : N) (net : gmap N Reactor) : list (u16 * u32) :=
  match rc_vhost (ex_at i net) with Some v => vq_used (vh_tx v) | None => [] end.

(** The two chains are in flight when both packets are sent, and returned at the end. *)
Lemma tx_descriptors_conserved_witness :
  reactor_heads (ex_at 1 (ex_result (ex_send ++ ex_receive) ex_booted).2)
    = offers 1 ex_labels ⊎ reactor_heads (ex_at 1 ex_booted) ∧
  offers 1 ex_labels = {[+ 5%N; 6%N +]} ∧ size (rc_vhost_to_vhost (ex_at 1 ex_sent)) = 2 ∧
  ex_returned 1 ex_sent = [] ∧ ex_returned 1 ex_done = [(5, 50); (6, 50)]%N.
Proof.
  split.
  - eapply (tx_descriptors_conserved rx_fuel nw_pick ex_booted ex_labels (ex_result (ex_send ++ ex_receive) ex_booted).2 1).
    + apply (ex_net_reachable ex_boot). vm_compute. reflexivity.
    + apply ex_acts. vm_compute. reflexivity.
    + apply ex_lookup. vm_compute. reflexivity.
    + apply ex_lookup. vm_compute. reflexivity.
    + vm_compute. reflexivity.
    + intros H. assert (E : forallb (λ l, match l with LHandshake _ => false | _ => true end) ex_labels = true)
        by (vm_compute; reflexivity).
      rewrite forallb_forall in E. apply list_elem_of_In, E in H. discriminate H.
  - split_and!; vm_compute; reflexivity.
Defined.

Definition is_nil {A} (l : list A) : bool := match l with [] => true | _ => false end.
Definition idleb (r : Reactor) : bool :=
  is_nil (rc_packets r) && is_nil (rc_completions r) && forallb quiet_sqe (rg_ops (rc_ring r)).
Lemma ex_forall (f : Reactor → bool) (P : Reactor → Prop) (net : gmap N Reactor) : (∀ r, f r = true → P r) →
  forallb (λ x, f x.2) (map_to_list net) = true → map_Forall (λ _ r, P r) net.
Proof.
  intros Hf H i r Hi. rewrite forallb_forall in H. apply Hf, (H (i, r)), list_elem_of_In. by apply elem_of_map_to_list.
Qed.
Lemma idleb_ok r : idleb r = true → idle r.
Proof.
  unfold idleb, idle. intros H. apply andb_true_iff in H as [H H3]. apply andb_true_iff in H as [H1 H2].
  split_and!; [by destruct (rc_packets r)|by destruct (rc_completions r)|].
  apply list.Forall_forall. intros e He%list_elem_of_In. rewrite forallb_forall in H3. by apply H3.
Qed.


(** A packet from the device is queued at the second guest. *)
Lemma tun_buffers_exclusive_witness :
  ∃ r, ex_reach (ex_boot ++ ex_send) !! 3%N = Some r ∧ rc_tun_rx r !! 0%N = Some 0%N ∧ 0%N ∉ rc_available r ∧
    0%N ∉ rc_rx_poll_pending r ∧ Forall (λ e, sq_op e ≠ OpReadFixed 0) (rg_ops (rc_ring r)).
Proof.
  apply (tun_buffers_exclusive rx_fuel nw_pick _ 2 (ex_at 2 (ex_reach (ex_boot ++ ex_send)))).
  - apply ex_net_reachable. vm_compute. reflexivity.
  - apply ex_lookup. vm_compute. reflexivity.
  - apply (bool_decide_eq_true_1 _). vm_compute. reflexivity.
Defined.

Lemma ex_called net j d : net_awake net → net !! j = Some d → negb (is_nil (rc_packets d)) && (rc_event d =? 0) = true →
  rc_packets d ≠ [] ∧ rc_event d = 0 ∧ called net j.
Proof.
  intros H Hj Hb. apply andb_true_iff in Hb as [Hp He%Nat.eqb_eq].
  assert (Hn : rc_packets d ≠ []) by (by destruct (rc_packets d)).
  split_and!; [done|done|]. by destruct (aw_packets _ _ (H _ _ Hj) Hn).
Qed.

(** Before the end of its batch, the first reactor has the second on its list. *)
Definition ex_sending : gmap N Reactor := ex_reach (ex_boot ++ take 3 ex_send).

Definition ex_world : World := MkWorld (ex_at 2 ex_sent) (delete 2%N ex_sent).
Definition runs (x : Run) : bool := match x with Runs _ => true | _ => false end.
Definition run_world (x : Run) : World := match x with Runs w => w | _ => ex_world end.
Lemma runs_world x : runs x = true → x = Runs (run_world x).
Proof. by destruct x. Qed.

(** The second guest takes its three packets. *)
Lemma event_serves_all_witness : length (rc_packets (w_self ex_world)) = 3 ∧
  served (w_self (run_world (handle_event rx_fuel nw_pick [] 8 ex_world))).
Proof.
  split; [vm_compute; reflexivity|].
  apply (event_serves_all rx_fuel nw_pick [] 8 ex_world); [reflexivity|]. apply runs_world. vm_compute. reflexivity.
Defined.

(** * A full submission queue

    The device's reactor has a ring of one entry, which the write of a packet takes:
    the read of the eventfd is not armed again, and no signal reaches it any more,
    though it runs and is not told to stop. *)

Definition ex_small : list Act :=
  [ AStart 1 (Some px_mac) 4 2; AStart 2 None 4 1; AHandshake 1 (ex_vhost [ex_tx 5]);
    ACommand 1 (CmdCreateTable 7 "blue"); ACommand 1 ex_route; ACqe 1 0 8 []; ABatch 1; ACqe 2 0 8 []; ABatch 2 ].

Example full_queue_deafens :
  net_reachable rx_fuel nw_pick (ex_reach ex_small) ∧ rc_alive (ex_at 2 (ex_reach ex_small)) = true ∧
  rc_shutdown (ex_at 2 (ex_reach ex_small)) = false ∧
  existsb is_event (rg_ops (rc_ring (ex_at 2 (ex_reach ex_small)))) = false.
Proof.
  split; [apply (ex_net_reachable ex_small)|split_and!]; vm_compute; reflexivity.
Qed.
